(* ===== verification/_CoqProject ===== *)
-Q . S2P
Prelude.v
Tables.v
Store.v
Jobs.v
Labels.v
Quotas.v
Limits.v
Registry.v
Codec.v
Kms.v
Security.v
Cache.v
Auth.v
Access.v
Platforms.v
Lifecycle.v
Pool.v
Routes.v
Leases.v
Idempotency.v
Events.v
Webhooks.v
Workspaces.v
Accounts.v
Pages.v
Errors.v
Writer.v
AuditTrail.v
Metering.v
Vault.v
Regex.v
Rules.v
Policy.v
Profiles.v
Nodes.v
Kube.v
Placement.v
Homes.v
Sdk.v
Viewers.v
Dates.v
Backups.v
