(* ===== verification/Prelude.v ===== *)
(** * Zoo: a verification development of the control plane

    Zoo runs sandboxes (Linux containers, macOS and Windows virtual machines)
    for agents.  Its control plane, src/apps/server/ with the statements of
    src/db/, is one Python process in front of PostgreSQL.  This library models
    the parts of it that decide something, and proves what makes them correct.

    ** How the program is put together

    A request finds out who it acts as (auth_api.py), passes the checks of its
    route, looks its sandbox up (sandbox_api.py), writes rows in one
    transaction and enqueues a job.  The queue (jobs.py) hands jobs to threads;
    a handler (sandbox_api.py) calls Docker, Kubernetes, a VM host or the guest
    and records what came of it.  Tools (registry.py) run in a sandbox through
    its gateway; what they return is redacted (security.py).  The pool
    (pool.py) keeps warm sandboxes that a create takes over.

    ** How the model is put together

    - [Prelude]: exceptions as values ([exn]), the state and error monad [M]
      with its equations and proof tactics ([run], [inv_ok]), Python dicts as
      association lists, the notion of an invariant that a computation
      [preserves], reachability of a step relation.
    - [Tables], [Store]: the rows of db/generated/models.py as records, the
      database as finite maps, each statement of db/generated/query.py as a
      function on it; [World] is the database and the process's own state, and
      [session] the transaction that rolls back when its body raises.
    - [Jobs]: the queue.  [execute], [claim], [retry_or_fail], [defer],
      [expire], [recover], [poll] are the methods of the same names;
      [worker_step] interleaves polls, endings, requests and restarts.  What it
      asks of the handlers is the class [HandlersOk].
    - [Labels], [Quotas], [Limits]: labels.py, quotas.py with sizes.py, limits.py.
    - [Registry]: the table of tools and the input tools of registry.py, on the
      calls they send to a screen session.
    - [Codec], [Kms], [Security]: base64; wrapping a data key; redaction and
      the envelope encryption of stored secrets.
    - [Cache], [Auth], [Access]: the request cache; members, API keys and the
      checks of a route, looked up through that cache by the event loop; the
      lookups of sandboxes and the gate a tool call passes.
    - [Platforms]: which host runs which kind of sandbox.
    - [Lifecycle]: the job handlers, sweeps and runtime events; [Env] holds what
      is outside the process.  It discharges [HandlersOk].
    - [Pool], [Routes]: the warm pool; the routes, placement, and creating.
    - [Cache], [Leases], [Idempotency], [Events], [Webhooks]: the request cache
      (cache.py), leases and tickets (workers.py, tickets.py), idempotency
      keys (idempotency.py), the event stream (events.py) and webhook
      deliveries (webhooks.py).  Each has the rows it needs as a state of its
      own and, where processes share them, a step relation of all processes.
    - [Workspaces]: workspaces, members and invitations (workspaces_api.py),
      each route a computation on its tables, the writing ones served one after
      the other or with their checks and writes interleaved.
    - [Accounts]: signing up and in, session tokens and API keys (auth_api.py),
      on top of [Auth]'s tables, so that what a route makes is what a lookup
      later finds.
    - [Pages], [Errors], [Writer], [AuditTrail]: cursor pagination (pages.py) with
      the lists that use it, the error format (errors.py), the batched writer of
      request logs (writer.py), and the audit log it fills (audit_api.py).
    - [Metering]: the usage sample of a minute (metering.py), queued in [Writer],
      and the reports on what the writer wrote.
    - [Vault]: secrets of a workspace and of a sandbox (vault_api.py, vault_sync.py,
      policy_api.py), encrypted by [Security], with the queue that brings a
      change to the running sandboxes.
    - [Regex], [Rules], [Policy]: permissions, network rules and applications of a
      sandbox (policy_api.py), what a rule's value may be, and [enforce]
      (security.py), which tells the runtime; a request's tables roll back when it
      fails, what a runtime was told does not.
    - [Profiles]: application profiles (servers_api.py, apply_profile of
      sandbox_api.py), with their versions and the archives in object storage;
      a capture is three parts that other requests may come between.
    - [Nodes]: hosts that join (nodes.py, nodes_api.py, servers_api.py): the
      certificate authority, join tokens, joining and the proof of enrollment.
    - [Kube], [Placement]: Kubernetes objects as kube.py reads them, with
      quantities in floats of 64 bits; placing sandboxes on nodes, with
      reservations in the rows under one lock and [place_step], the steps of the
      processes that place and of the cluster.
    - [Homes]: home volumes of Kubernetes sandboxes (kube.py): claims, spare ones,
      starting a pod on its home, snapshots and moves.  The cluster is whatever
      answers: an [Api] gives each request an answer that may depend on all
      requests so far, and the requests are kept with the tables of their time.
    - [Sdk]: the Python SDK (sdk/python/zoo_sdk/): repeated requests, errors and
      event streams; [Remote] is the server's application behind the middleware of
      [Idempotency], over a network that may lose requests and answers.
    - [Viewers]: links to a sandbox's screen (viewer_api.py), tickets of screens and
      terminals and the WebSockets they open (sandbox_api.py).  [watched_step] are
      the requests, WebSockets and watchers of all processes; what requests were
      granted is recorded beside the tables.
    - [Dates], [Backups]: scheduled backups (backups.py), with the dates of Python
      (strftime, strptime and the calendar) that tell from its key when a dump was
      taken.

    ** What the theorems show

    - The queue (C-numbers are those of the theorems' comments): one job per
      sandbox at a time, never more than PARALLEL, a bounded number of attempts
      with the failure reported once, progress to success or failure, and
      finished jobs that stay as they are.
    - Isolation and authority: lookups find the member's own sandboxes and no
      others, routes change nothing of another sandbox, keys give no more than
      they were made for, both ways of looking up agree, and a tool runs only
      when it may.
    - Lifecycle: no row says running without a runtime, no runtime is orphaned,
      deleting is complete and final.
    - Resources: quotas are never passed by creating or starting; the rate
      limiter refines the specification that remembers every hit.
    - Secrets: what is stored stays readable through rotations, and what a tool
      returns shows no secret.
    - The pool and the create: in whatever order the pool is filled and claimed
      from, no sandbox is given twice; boots end; a create answers if nothing
      refills the pool meanwhile.
    - Requests and processes: a cached membership or set of labels is current
      unless its notice is on the way, and any cached answer was read less than
      its lifetime ago; a key passes only while it is valid, but for what a cache
      still remembers; one request per idempotency key runs and its repeats get its
      response; leases exclude each other; tickets refine their specification;
      a stream sends each event once and misses none that commits in time; no
      delivery is sent by two workers at a time, none is sent more often than
      its tries and the workers that were lost with it, and only to public
      addresses.
    - Workspaces: every workspace keeps an owner, members change only by the
      hand of those above them, an invitation is for one user and one use.
    - Accounts: who signs up can sign in, a session ends when its token says,
      a key gives what it was made for until it expires or is revoked.
    - Lists and logs: following the cursors gives every row once and ends; the
      writer loses and reorders nothing between queue and database, and how it
      cuts batches does not matter; every error has a documented code.
    - Usage: an hour's samples queue each sandbox's minutes and its storage once,
      and a report sums to what the table holds, however it is grouped.
    - Vault: once what requests queued is delivered, every running sandbox has
      exactly the secrets it should; reminders escalate and are logged once.
    - Policies: the runtime of every running sandbox was told exactly the network
      policy and the effects stored, but for those whose start it failed at, and
      the pattern of domains means what a domain is.
    - Profiles: however captures interleave, as long as object storage deletes
      what it is asked to, a profile has one to ten versions, each with an archive
      that opens, and loading a version gives the runtime
      exactly what the sandbox exported.
    - Hosts: a join token joins one host, and a host that joined is recognised by
      its latest certificate for as long as it is in force and its server is there.
    - Kubernetes: no interleaving of placements, releases and pods commits more
      of a node than it has, unless a reservation is dropped under a placement
      whose pod is not listed yet; and a pod counts for the peak of its start.
      No claim is deleted while it is a sandbox's home, whatever the cluster
      answers and even if a commit's answer is lost; a move that ends well
      leaves one home, on the target node.
    - The SDK: of the runs of a create that is repeated only the last keeps its
      response, and its answer is the one returned; it raises the server's errors as they were meant and reads from
      a stream what was written to it.
    - Screens: an open screen or terminal goes back to a member who might ask for it,
      takes input only if that member may give it, and does not outlive its link by
      more than the watcher's delay.
    - Backups: a backup is due exactly when the newest dump is old enough; pruning
      keeps the newest dumps and scheduled snapshots and every other snapshot; a
      restored dump is the database it was taken of.

    ** Conventions, bounds and fuel

    Times are integers in microseconds, Python's resolution; floats are exact
    rationals, but for the quantities of Kubernetes, which are binary floats of
    64 bits ([Kube]); integers are unbounded, as Python's.  A message of an exception
    is the list of the pieces of its f-string.  Strings are lists of 8-bit
    characters.  [create_loop] has fuel: a turn for each pooled sandbox and
    one more is enough ([create_terminates]).  Waits of kube.py with a deadline
    ask at most [polls] times, for any number.  Nothing is assumed of the
    database beyond what a statement's text says; where a primary key, a foreign
    key or a CHECK matters, it is a hypothesis on the tables
    ([ids_ok], [pool_keyed], [snapshots_owned]).  Locks that PostgreSQL keeps
    for a transaction are modelled by running the transaction in one step.

    ** What is not modelled, and why

    The clients of Docker, VM hosts, gateway and guest (docker.py, macos.py,
    windows.py, gateway_client.py, guest.py and their kin) translate one call
    into another process's API: the model sees them as calls that succeed or
    fail.  Of kube.py the requests to the cluster are modelled with whatever
    they are answered ([Homes]); how they travel, exec streams, the watch of
    events, network policies on the node's daemon and the scripts that pack a
    home are not.  Telemetry, metrics and monitoring write to other
    systems.  Pages of sign-in, the JSON of responses, and the bytes that
    streams and WebSockets relay carry no decision of their own.  db/async_generated holds the statements of
    db/generated once more. *)

From Stdlib Require Export Ascii.
From stdpp Require Export base tactics list strings gmap sorting pretty.
From Stdlib Require Export ZArith Lia.

#[global] Set Default Goal Selector "!".

Declare Scope zoo_scope.
Delimit Scope zoo_scope with zoo.
Open Scope zoo_scope.
Open Scope Z_scope.

(** ** Exceptions and results

    The exceptions the modelled code raises.  An f-string message is kept as
    the list of its pieces, so that a message states which values went into
    it without fixing how Python prints a float. *)

Inductive piece :=
| Txt (s : string)
| Repr (s : string)
| Num (z : Z)
| Frac (n : Z) (d : positive).

Abbreviation detail := (list piece) (only parsing).

Inductive exn :=
| HTTPException (status_code : Z) (msg : list piece)
| ZooError (code : string) (msg : list piece)
| ValueError (msg : list piece)
| RuntimeError (msg : list piece)
| TypeError (msg : list piece)
| KeyError (key : string)
| IndexError
| AssertionError
| IntegrityError
| InvalidToken
| AttributeError
| OverflowError
| KubeError (status_code : Z) (msg : list piece)
| Wait (reason : string) (window : Z).

Inductive result (E A : Type) : Type :=
| Ok (a : A)
| Err (e : E).
Arguments Ok {E A} a.
Arguments Err {E A} e.

#[global] Instance result_ret E : MRet (result E) := λ A a, Ok a.
#[global] Instance result_bind E : MBind (result E) := λ A B f r, match r with Ok a => f a | Err e => Err e end.

(** [[f(x) for x in l]] for an [f] that may raise. *)
Fixpoint mapR {E A B} (f : A → result E B) (l : list A) : result E (list B) :=
  match l with
  | [] => Ok []
  | x :: l => y ← f x; ys ← mapR f l; Ok (y :: ys)
  end.

(** Code that only computes, run in a state. *)
Definition of_result {St A} (r : result exn A) : St → result exn A * St := λ s, (r, s).

(** [M St A]: code that reads and changes a state [St] and may raise.  An
    exception keeps the state reached so far, as Python does. *)

Definition M (St A : Type) : Type := St → result exn A * St.

#[global] Instance M_ret St : MRet (M St) := λ A a s, (Ok a, s).
#[global] Instance M_bind St : MBind (M St) := λ A B f m s,
  match m s with
  | (Ok a, s') => f a s'
  | (Err e, s') => (Err e, s')
  end.

Definition raise {St A} (e : exn) : M St A := λ s, (Err e, s).
Definition get {St} : M St St := λ s, (Ok s, s).
Definition gets {St A} (f : St → A) : M St A := λ s, (Ok (f s), s).
Definition modify {St} (f : St → St) : M St unit := λ s, (Ok tt, f s).
Definition guard_ {St} (b : bool) (e : exn) : M St unit :=
  if b then mret tt else raise e.
Definition when {St} (b : bool) (m : M St unit) : M St unit :=
  if b then m else mret tt.

(** [try: m except e: h e]. *)
Definition try_ {St A} (m : M St A) (h : exn → M St A) : M St A := λ s,
  match m s with
  | (Ok a, s') => (Ok a, s')
  | (Err e, s') => h e s'
  end.

(** [for x in l: f x]. *)
Fixpoint for_ {St A} (l : list A) (f : A → M St unit) : M St unit :=
  match l with
  | [] => mret tt
  | x :: l' => f x ;; for_ l' f
  end.

(** [with db_manager.session() as db: m]: the pool commits when the block
    ends cleanly and rolls the database back when it raises
    (db/connection.py).  [view] and [put] say where the database lives in the
    state. *)
Definition transaction {St Db A} (view : St → Db) (put : Db → St → St) (m : M St A) : M St A := λ s,
  match m s with
  | (Ok a, s') => (Ok a, s')
  | (Err e, s') => (Err e, put (view s) s')
  end.

(** *** Reasoning about [M] *)

Definition is_none {A} (o : option A) : bool := match o with None => true | Some _ => false end.

Definition is_ok {E A} (r : result E A) : bool := match r with Ok _ => true | Err _ => false end.

Section monad_lemmas.
Context {St A B : Type}.
Implicit Types (m : M St A) (f : A → M St B) (s : St).

Lemma bind_ok_inv m f s b s' :
  (m ≫= f) s = (Ok b, s') → ∃ a s1, m s = (Ok a, s1) ∧ f a s1 = (Ok b, s').
Proof.
  unfold mbind, M_bind. destruct (m s) as [[a|e] s1]; [|by intros [=]].
  intros H. by exists a, s1.
Qed.

Lemma bind_ok m f s a s1 : m s = (Ok a, s1) → (m ≫= f) s = f a s1.
Proof. unfold mbind, M_bind. by intros ->. Qed.

Lemma bind_err m f s e s1 : m s = (Err e, s1) → (m ≫= f) s = (Err e, s1).
Proof. unfold mbind, M_bind. by intros ->. Qed.

Lemma bind_err_inv m f s e s' :
  (m ≫= f) s = (Err e, s') →
  m s = (Err e, s') ∨ ∃ a s1, m s = (Ok a, s1) ∧ f a s1 = (Err e, s').
Proof.
  unfold mbind, M_bind. destruct (m s) as [[a|e1] s1]; intros H.
  - right. by exists a, s1.
  - left. by simplify_eq.
Qed.
End monad_lemmas.

(** *** Running code: one equation per primitive, collected in the rewrite
    database [run] *)

Section run_lemmas.
Context {St A B : Type}.
Implicit Types (k : A → M St B) (s : St).

Lemma run_bind_ret a k s : (mret a ≫= k) s = k a s.
Proof. done. Qed.
Lemma run_bind_gets f k s : (gets f ≫= k) s = k (f s) s.
Proof. done. Qed.
Lemma run_bind_raise e k s : (raise e ≫= k) s = (Err e, s).
Proof. done. Qed.
Lemma run_ret (a : A) s : mret (M := M St) a s = (Ok a, s).
Proof. done. Qed.
Lemma run_raise e s : raise (A := A) e s = (Err e, s).
Proof. done. Qed.
Lemma run_gets (f : St → A) s : gets f s = (Ok (f s), s).
Proof. done. Qed.
Lemma run_bind_assoc {C} (m : M St A) k (g : B → M St C) s :
  ((m ≫= k) ≫= g) s = (m ≫= λ a, k a ≫= g) s.
Proof. unfold mbind, M_bind. by destruct (m s) as [[?|?] ?]. Qed.
End run_lemmas.

Section run_unit_lemmas.
Context {St B : Type}.
Implicit Types (k : unit → M St B) (s : St).

Lemma run_bind_modify f k s : (modify f ≫= k) s = k tt (f s).
Proof. done. Qed.
Lemma run_modify f s : modify f s = (Ok tt, f s) :> result exn unit * St.
Proof. done. Qed.
Lemma run_bind_guard_true e k s : (guard_ true e ≫= k) s = k tt s.
Proof. done. Qed.
Lemma run_bind_guard_false e k s : (guard_ false e ≫= k) s = (Err e, s).
Proof. done. Qed.
Lemma run_bind_when_false m k s : (when false m ≫= k) s = k tt s.
Proof. done. Qed.
Lemma run_bind_when_true m k s : (when true m ≫= k) s = (m ≫= k) s.
Proof. done. Qed.
Lemma run_when_false m s : when false m s = (Ok tt, s) :> result exn unit * St.
Proof. done. Qed.
Lemma run_when_true m s : when true m s = m s :> result exn unit * St.
Proof. done. Qed.
End run_unit_lemmas.

Create Rewrite HintDb run.

#[export] Hint Rewrite @run_bind_ret @run_bind_gets @run_bind_raise @run_ret @run_raise @run_gets
  @run_bind_assoc @run_bind_modify @run_modify @run_bind_guard_true @run_bind_guard_false
  @run_bind_when_false @run_bind_when_true @run_when_false @run_when_true : run.

(** Runs monadic code as far as it goes without a case analysis. *)
Ltac run := repeat (progress (autorewrite with run; cbn beta iota)).
Ltac run_in H := repeat (progress (autorewrite with run in H; cbn beta iota in H)).

Lemma guard_ok_inv {St} b e (s s' : St) u : guard_ b e s = (Ok u, s') → b = true ∧ s' = s.
Proof. unfold guard_, raise, mret, M_ret. destruct b; intros [=]; auto. Qed.

(** [preserves I m]: whatever [m] does, returning or raising, keeps [I]. *)
Definition preserves {St A} (I : St → Prop) (m : M St A) : Prop := ∀ s, I s → I (m s).2.

Create HintDb zoo discriminated.

Section preserves_lemmas.
Context {St : Type} (I : St → Prop).

Lemma preserves_ret {A} (a : A) : preserves I (mret a).
Proof. by intros s. Qed.
Lemma preserves_raise {A} e : preserves I (raise (A := A) e).
Proof. by intros s. Qed.
Lemma preserves_get : preserves I get.
Proof. by intros s. Qed.
Lemma preserves_gets {A} (f : St → A) : preserves I (gets f).
Proof. by intros s. Qed.
Lemma preserves_modify f : (∀ s, I s → I (f s)) → preserves I (modify f).
Proof. intros H s Hs. simpl. auto. Qed.
Lemma preserves_bind {A B} (m : M St A) (f : A → M St B) :
  preserves I m → (∀ a, preserves I (f a)) → preserves I (m ≫= f).
Proof.
  intros Hm Hf s Hs. unfold mbind, M_bind. specialize (Hm s Hs).
  destruct (m s) as [[a|e] s']; simpl in *; [by apply Hf|done].
Qed.
Lemma preserves_guard b e : preserves I (guard_ b e).
Proof. intros s Hs. by destruct b. Qed.
Lemma preserves_when b m : preserves I m → preserves I (when b m).
Proof. intros H s Hs. destruct b; [by apply H|done]. Qed.
Lemma preserves_try {A} (m : M St A) h :
  preserves I m → (∀ e, preserves I (h e)) → preserves I (try_ m h).
Proof.
  intros Hm Hh s Hs. unfold try_. specialize (Hm s Hs).
  destruct (m s) as [[a|e] s']; simpl in *; [done|by apply Hh].
Qed.
Lemma preserves_for {A} (l : list A) f :
  (∀ x, x ∈ l → preserves I (f x)) → preserves I (for_ l f).
Proof.
  intros H. induction l as [|x l IH]; simpl; [apply preserves_ret|].
  apply preserves_bind; [apply H; left|]. intros _. apply IH. intros y Hy. apply H. by right.
Qed.
End preserves_lemmas.

#[export] Hint Resolve preserves_ret preserves_raise preserves_get preserves_gets
  preserves_guard preserves_when preserves_try preserves_for : zoo.

(** A transaction that raises leaves the database as it found it. *)
Lemma transaction_rollback {St Db A} (view : St → Db) put (m : M St A) s e s' :
  (∀ d t, view (put d t) = d) →
  transaction view put m s = (Err e, s') → view s' = view s.
Proof.
  intros Hput. unfold transaction. destruct (m s) as [[a|e1] s1]; intros H; simplify_eq.
  apply Hput.
Qed.

(** ** Tactics *)

(** Turns [run = (Ok _, _)] hypotheses about binds and guards into equations
    about their parts. *)
Ltac inv_ok :=
  repeat match goal with
  | H : (_ ≫= _) _ = (Ok _, _) |- _ =>
      apply bind_ok_inv in H; destruct H as (? & ? & ? & ?)
  | H : guard_ _ _ _ = (Ok _, _) |- _ =>
      apply guard_ok_inv in H; destruct H as [? ?]; subst
  | H : get _ = (Ok _, _) |- _ => unfold get in H; simplify_eq
  | H : gets _ _ = (Ok _, _) |- _ => unfold gets in H; simplify_eq
  | H : modify _ _ = (Ok _, _) |- _ => unfold modify in H; simplify_eq
  | H : mret _ _ = (Ok _, _) |- _ => unfold mret, M_ret in H; simplify_eq
  | H : raise _ _ = (Ok _, _) |- _ => discriminate H
  end.

(** Case analysis on the scrutinee of the first [match] or [if] of a
    hypothesis, keeping its equation. *)
Ltac split_match H :=
  match type of H with
  | context [match ?x with _ => _ end] => let E := fresh "E" in destruct x eqn:E
  end.

(** ** Python dicts: association lists in insertion order *)

Section dict.
Context {V : Type}.
Abbreviation dict := (list (string * V)).

Fixpoint dget (k : string) (d : dict) : option V :=
  match d with
  | [] => None
  | (k', v) :: d' => if decide (k = k') then Some v else dget k d'
  end.

(** [d[k] = v]: replaces in place, else appends. *)
Fixpoint dset (k : string) (v : V) (d : dict) : dict :=
  match d with
  | [] => [(k, v)]
  | (k', v') :: d' => if decide (k = k') then (k, v) :: d' else (k', v') :: dset k v d'
  end.

(** [d.pop(k, None)]. *)
Definition dpop (k : string) (d : dict) : dict := filter (λ p, p.1 ≠ k) d.

(** [{**a, **b}]. *)
Definition dmerge (a b : dict) : dict := foldl (λ d p, dset p.1 p.2 d) a b.

Definition dkeys (d : dict) : list string := d.*1.
Definition dhas (k : string) (d : dict) : bool := bool_decide (is_Some (dget k d)).

Lemma dget_dset_eq k v d : dget k (dset k v d) = Some v.
Proof.
  induction d as [|[k' v'] d IH]; simpl; [by rewrite decide_True|].
  case_decide; simpl; [by rewrite decide_True|by rewrite decide_False].
Qed.

Lemma dget_dset_ne k k' v d : k ≠ k' → dget k (dset k' v d) = dget k d.
Proof.
  intros Hne. induction d as [|[k1 v1] d IH]; simpl; [by rewrite decide_False|].
  repeat (case_decide; simplify_eq/=); auto.
Qed.

Lemma dget_dset k k' v d : dget k (dset k' v d) = if decide (k = k') then Some v else dget k d.
Proof. case_decide; [subst; apply dget_dset_eq|by apply dget_dset_ne]. Qed.

Lemma dget_dpop k k' d : dget k (dpop k' d) = if decide (k = k') then None else dget k d.
Proof.
  unfold dpop. induction d as [|[k1 v1] d IH]; simpl; [by case_decide|].
  rewrite filter_cons; simpl. destruct (decide (k1 = k')) as [->|].
  - rewrite decide_False by auto. rewrite IH. by repeat case_decide.
  - rewrite decide_True by auto. simpl. rewrite IH. repeat case_decide; congruence.
Qed.

Lemma dget_None k d : dget k d = None ↔ k ∉ dkeys d.
Proof.
  unfold dkeys. induction d as [|[k1 v1] d IH]; simpl; [set_solver|].
  case_decide; set_solver.
Qed.

Lemma dget_Some_in k v d : dget k d = Some v → (k, v) ∈ d.
Proof. induction d as [|[k1 v1] d IH]; simpl; [done|]. case_decide; set_solver. Qed.

Lemma dget_in k v d : NoDup (dkeys d) → (k, v) ∈ d → dget k d = Some v.
Proof.
  unfold dkeys. induction d as [|[k1 v1] d IH]; simpl; [set_solver|].
  rewrite NoDup_cons. intros [Hn Hd] [[= -> ->]|Hin]%elem_of_cons; [by rewrite decide_True|].
  rewrite decide_False; [by apply IH|]. intros ->. apply Hn. apply list_elem_of_fmap. by exists (k1, v).
Qed.

Lemma dget_dmerge k a b :
  NoDup (dkeys b) →
  dget k (dmerge a b) = match dget k b with Some v => Some v | None => dget k a end.
Proof.
  unfold dmerge, dkeys. revert a. induction b as [|[k1 v1] b IH]; intros a; simpl; [done|].
  rewrite NoDup_cons. intros [Hn Hd]. rewrite (IH _ Hd), dget_dset.
  case_decide; [|by case_match]. subst.
  assert (dget k1 b = None) as -> by (by apply dget_None). done.
Qed.

Lemma elem_of_dkeys_dset x k v d : x ∈ dkeys (dset k v d) → x = k ∨ x ∈ dkeys d.
Proof.
  unfold dkeys. induction d as [|[k1 v1] d IH]; simpl; [set_solver|].
  case_decide; simpl; rewrite !elem_of_cons; naive_solver.
Qed.

Lemma NoDup_dset k v d : NoDup (dkeys d) → NoDup (dkeys (dset k v d)).
Proof.
  induction d as [|[k1 v1] d IH]; simpl; [intros _; apply NoDup_singleton|].
  unfold dkeys in *. simpl. rewrite NoDup_cons. intros [Hn Hd]. case_decide; simpl; rewrite NoDup_cons; [by subst|].
  split; [|by apply IH]. intros Hin. apply elem_of_dkeys_dset in Hin as [->|?]; done.
Qed.

Lemma NoDup_dmerge a b : NoDup (dkeys a) → NoDup (dkeys (dmerge a b)).
Proof. unfold dmerge. revert a. induction b as [|p b IH]; intros a Ha; simpl; [done|]. by apply IH, NoDup_dset. Qed.
End dict.

(** ** Python lists *)

(** [l[i]]: a negative index counts from the end, and one out of range raises. *)
Definition py_index {A} (l : list A) (i : Z) : option A :=
  if i <? 0 then
    if Z.of_nat (length l) + i <? 0 then None else l !! Z.to_nat (Z.of_nat (length l) + i)
  else l !! Z.to_nat i.

Lemma py_index_in_range {A} (l : list A) i :
  0 ≤ i < Z.of_nat (length l) → is_Some (py_index l i).
Proof.
  intros H. unfold py_index. rewrite (proj2 (Z.ltb_ge i 0)) by lia. apply lookup_lt_is_Some. lia.
Qed.

Lemma Forall_filter_sub {A} (P Q : A → Prop) `{!∀ x, Decision (Q x)} (l : list A) :
  Forall P l → Forall P (filter Q l).
Proof. rewrite !Forall_forall. intros Hl x [_ Hx]%list_elem_of_filter. auto. Qed.

Lemma filter_all {A} (P : A → Prop) `{!∀ x, Decision (P x)} (l : list A) : Forall P l → filter P l = l.
Proof. induction 1 as [|x l Hx Hl IH]; [done|]. rewrite filter_cons_True by done. by rewrite IH. Qed.

Lemma filter_none {A} (P : A → Prop) `{!∀ x, Decision (P x)} (l : list A) : Forall (λ x, ¬ P x) l → filter P l = [].
Proof. induction 1 as [|x l Hx Hl IH]; [done|]. by rewrite filter_cons_False. Qed.

(** [round(n / d)] for [0 < d]: to the nearest integer, a tie to the even one. *)
Definition round_div (n d : Z) : Z :=
  let q := n / d in
  let r := n mod d in
  if 2 * r <? d then q else if d <? 2 * r then q + 1 else if Z.even q then q else q + 1.

(** ** JSON values, as [json.loads] gives them *)

Inductive json :=
| JNull
| JBool (b : bool)
| JInt (z : Z)
| JStr (s : string)
| JArr (l : list json)
| JObj (d : list (string * json)).

(** Python truth of a value. *)
Definition truthy (j : json) : bool :=
  match j with
  | JNull => false
  | JBool b => b
  | JInt z => negb (z =? 0)
  | JStr s => negb (String.eqb s "")
  | JArr l => match l with [] => false | _ => true end
  | JObj d => match d with [] => false | _ => true end
  end.

(** ** Strings *)

(** [x or y] on an optional string: empty counts as missing. *)
Definition str_or_none (o : option string) : option string :=
  match o with Some EmptyString => None | _ => o end.

(** [a or b] on optional strings already read through [str_or_none]. *)
Definition coalesce_str (a b : option string) : option string := match a with Some _ => a | None => b end.

Definition startswith (s p : string) : bool := String.prefix p s.

(** [s.partition(c)] for a one-character separator. *)
Fixpoint partition (c : Ascii.ascii) (s : string) : string * bool * string :=
  match s with
  | EmptyString => (EmptyString, false, EmptyString)
  | String a s' =>
      if decide (a = c) then (EmptyString, true, s')
      else let '(h, found, t) := partition c s' in (String a h, found, t)
  end.

Fixpoint has_char (c : Ascii.ascii) (s : string) : bool :=
  match s with
  | EmptyString => false
  | String a s' => bool_decide (a = c) || has_char c s'
  end.

Lemma partition_absent c s : has_char c s = false → partition c s = (s, false, EmptyString).
Proof.
  induction s as [|a s IH]; simpl; [done|].
  rewrite orb_false_iff, bool_decide_eq_false. intros [Hne Hs].
  rewrite decide_False by done. by rewrite (IH Hs).
Qed.

Lemma partition_app c h t :
  has_char c h = false → partition c (h +:+ String c t) = (h, true, t).
Proof.
  induction h as [|a h IH]; simpl; [by rewrite decide_True|].
  rewrite orb_false_iff, bool_decide_eq_false. intros [Hne Hs].
  rewrite decide_False by done. by rewrite (IH Hs).
Qed.

(** What [partition] gives back: the pieces rebuild the string. *)
Lemma partition_spec c s h b t :
  partition c s = (h, b, t) →
  has_char c h = false ∧ (if b then s = h +:+ String c t else s = h ∧ t = EmptyString).
Proof.
  revert h b t. induction s as [|a s IH]; simpl; intros h b t; [by intros [= <- <- <-]|].
  case_decide as Ha; [intros [= <- <- <-]; by subst|].
  destruct (partition c s) as [[h' b'] t'] eqn:E. intros [= <- <- <-].
  destruct (IH _ _ _ eq_refl) as [Hh Hr]. simpl. rewrite Hh, bool_decide_false by done.
  split; [done|]. destruct b'; [by rewrite Hr|]. by destruct Hr as [-> ->].
Qed.

Lemma string_app_cons x (a b : string) : String x a +:+ b = String x (a +:+ b).
Proof. done. Qed.

Lemma string_app_nil (b : string) : "" +:+ b = b.
Proof. done. Qed.

Lemma string_app_assoc (a b c : string) : (a +:+ b) +:+ c = a +:+ (b +:+ c).
Proof. induction a as [|x a IH]; [done|]. apply (f_equal (String x)), IH. Qed.

Lemma string_app_nil_r (a : string) : a +:+ "" = a.
Proof. induction a as [|x a IH]; [done|]. apply (f_equal (String x)), IH. Qed.

Lemma string_app_length (a b : string) : String.length (a +:+ b) = (String.length a + String.length b)%nat.
Proof. induction a as [|x a IH]; [done|]. apply (f_equal S), IH. Qed.

(** The text of a message's piece.  [Repr] is Python's [!r] on a string without
    quotes or control characters. *)
Definition piece_str (p : piece) : string :=
  match p with
  | Txt s => s
  | Repr s => "'" +:+ s +:+ "'"
  | Num z => pretty z
  | Frac n d => pretty n +:+ "/" +:+ pretty (Zpos d)
  end.

Definition render (ps : list piece) : string := foldr (λ p s, piece_str p +:+ s) "" ps.

Definition or_else (s dflt : string) : string := match s with EmptyString => dflt | _ => s end.

(** [str(e)], or the class's name when that is empty. *)
Definition exn_str (e : exn) : string :=
  match e with
  | HTTPException c m => pretty c +:+ ": " +:+ render m
  | ZooError _ m => or_else (render m) "ZooError"
  | ValueError m => or_else (render m) "ValueError"
  | RuntimeError m => or_else (render m) "RuntimeError"
  | TypeError m => or_else (render m) "TypeError"
  | KeyError k => "'" +:+ k +:+ "'"
  | IndexError => "list index out of range"
  | AssertionError => "AssertionError"
  | IntegrityError => "IntegrityError"
  | InvalidToken => "InvalidToken"
  | AttributeError => "AttributeError"
  | OverflowError => "OverflowError"
  | KubeError _ m => or_else (render m) "KubeError"
  | Wait r _ => r
  end.

(** [str(e)] alone. *)
Definition exn_text (e : exn) : string :=
  match e with
  | ZooError _ m | ValueError m | RuntimeError m | TypeError m | KubeError _ m => render m
  | AssertionError | InvalidToken => ""
  | _ => exn_str e
  end.

(** ** Reversed text *)
Lemma string_rev_app2 s t u : String.rev_app s (t +:+ u) = String.rev_app s t +:+ u.
Proof. revert t. induction s as [|c s IH]; intros t; [done|]. simpl. rewrite <- IH. by rewrite string_app_cons. Qed.

Lemma string_rev_cons c s : String.rev (String c s) = String.rev s +:+ String c "".
Proof. unfold String.rev. simpl. by rewrite <- string_rev_app2. Qed.

Lemma string_rev_app s t : String.rev (s +:+ t) = String.rev t +:+ String.rev s.
Proof.
  induction s as [|c s IH]; [change (String.rev "") with ""; by rewrite string_app_nil_r|].
  rewrite string_app_cons, !string_rev_cons, IH. by rewrite string_app_assoc.
Qed.

Lemma string_rev_rev s : String.rev (String.rev s) = s.
Proof. induction s as [|c s IH]; [done|]. by rewrite string_rev_cons, string_rev_app, IH. Qed.

Lemma string_app_inj_r a b c : a +:+ c = b +:+ c → a = b.
Proof.
  intros H%(f_equal String.rev). rewrite !string_rev_app in H. apply (inj (String.app (String.rev c))) in H.
  by rewrite <- (string_rev_rev a), H, string_rev_rev.
Qed.

(** ** Steps and reachable states *)

Section reachability.
Context {St : Type} (init : St → Prop) (step : St → St → Prop).

Inductive reachable : St → Prop :=
| reach_init s : init s → reachable s
| reach_step s s' : reachable s → step s s' → reachable s'.

(** An invariant of the first states that every step keeps holds of every
    reachable state. *)
Lemma reachable_invariant (I : St → Prop) :
  (∀ s, init s → I s) → (∀ s s', I s → step s s' → I s') → ∀ s, reachable s → I s.
Proof. intros Hi Hs s. induction 1; eauto. Qed.
End reachability.

(** ** Numbers as text

    What the witnesses use where the code calls a formatter of its own: the bits
    of a number, a dot, and the rest. *)

Fixpoint digits (p : positive) (rest : string) : string :=
  match p with xH => String "." rest | xO p => String "0" (digits p rest) | xI p => String "1" (digits p rest) end.
Fixpoint undigits (s : string) : option (positive * string) :=
  match s with
  | String "." rest => Some (xH, rest)
  | String "0" s => (λ x, (xO x.1, x.2)) <$> undigits s
  | String "1" s => (λ x, (xI x.1, x.2)) <$> undigits s
  | _ => None
  end.

Lemma undigits_digits p rest : undigits (digits p rest) = Some (p, rest).
Proof. induction p as [p IH|p IH|]; simpl; [by rewrite IH..|done]. Qed.

Lemma digits_no_char c p rest :
  c ≠ "0"%char → c ≠ "1"%char → c ≠ "."%char → has_char c (digits p rest) = has_char c rest.
Proof.
  intros H0 H1 H2. induction p as [p IH|p IH|]; simpl; rewrite bool_decide_false by done; [done..|]. done.
Qed.
