(* ===== verification/Tables.v ===== *)
(** The rows of the tables the control plane's state lives in: the columns of
    db/generated/models.py as records, the CHECK-constrained text columns of
    db/migrations as inductive types, and one functional setter per column
    that some statement updates.  Times are microseconds since the epoch
    (Python's datetime resolution); a [double precision] column is an exact
    rational. *)

From S2P Require Import Prelude.
From Stdlib Require Export QArith.

Open Scope Z_scope.

Abbreviation time := Z (only parsing).

(** A number of seconds as a span of time. *)
Definition sec (n : Z) : Z := n * 1000000.

(** [sandboxes.status] (CHECK constraint of the table). *)
Inductive status := Pending | Provisioning | Running | Stopped | Failed | Deleting | Deleted.

(** The sandbox kinds of a create request. *)
Inductive kind := Desktop | Browser | Code | Macos | Windows.

(** [jobs.kind] and [jobs.state] (CHECK constraints of the table). *)
Inductive job_kind := KBoot | KStop | KDelete | KMove | KSnapshot | KRestore.

Inductive job_state := JQueued | JRunning | JSucceeded | JFailed | JCancelled.

Inductive snapshot_state := SnCreating | SnReady | SnFailed.

Inductive pool_status := PBooting | PIdle | PFailed.

#[global] Instance status_eq_dec : EqDecision status.
Proof. solve_decision. Defined.
#[global] Instance kind_eq_dec : EqDecision kind.
Proof. solve_decision. Defined.
#[global] Instance job_kind_eq_dec : EqDecision job_kind.
Proof. solve_decision. Defined.
#[global] Instance job_state_eq_dec : EqDecision job_state.
Proof. solve_decision. Defined.
#[global] Instance snapshot_state_eq_dec : EqDecision snapshot_state.
Proof. solve_decision. Defined.
#[global] Instance pool_status_eq_dec : EqDecision pool_status.
Proof. solve_decision. Defined.

(** Source: src/db/generated/models.py:199-229 [Sandbox].  A row of the [sandboxes] table.  The [config] column is JSON text; it is kept as the object [json.loads] gives. *)
Record Sandbox := mkSandbox {
  sb_id : string;
  sb_workspace_id : string;
  sb_image_version_id : string;
  sb_created_by : string;
  sb_name : string;
  sb_status : status;
  sb_runtime : string;
  sb_runtime_id : option string;
  sb_runtime_host : option string;
  sb_resources : string;
  sb_config : list (string * json);
  sb_error_message : option string;
  sb_started_at : option time;
  sb_stopped_at : option time;
  sb_paused_at : option time;
  sb_created_at : time;
  sb_updated_at : time;
  sb_deleted_at : option time;
  sb_server_id : option string;
  sb_kind : kind;
  sb_unreachable_since : option time;
  sb_base_version : option string;
  sb_boot_seconds : option Q;
  sb_recovered_at : option time;
  sb_cpus : Q;
  sb_memory_mb : Z;
  sb_disk_gb : option Z;
  sb_last_activity_at : option time;
  sb_idle_timeout_minutes : option Z;
  sb_max_lifetime_minutes : option Z
}.

Definition sb_set_name (v : string) (r : Sandbox) : Sandbox :=
  {| sb_id := r.(sb_id); sb_workspace_id := r.(sb_workspace_id); sb_image_version_id :=
     r.(sb_image_version_id); sb_created_by := r.(sb_created_by); sb_name := v; sb_status :=
     r.(sb_status); sb_runtime := r.(sb_runtime); sb_runtime_id := r.(sb_runtime_id);
     sb_runtime_host := r.(sb_runtime_host); sb_resources := r.(sb_resources); sb_config :=
     r.(sb_config); sb_error_message := r.(sb_error_message); sb_started_at := r.(sb_started_at);
     sb_stopped_at := r.(sb_stopped_at); sb_paused_at := r.(sb_paused_at); sb_created_at :=
     r.(sb_created_at); sb_updated_at := r.(sb_updated_at); sb_deleted_at := r.(sb_deleted_at);
     sb_server_id := r.(sb_server_id); sb_kind := r.(sb_kind); sb_unreachable_since :=
     r.(sb_unreachable_since); sb_base_version := r.(sb_base_version); sb_boot_seconds :=
     r.(sb_boot_seconds); sb_recovered_at := r.(sb_recovered_at); sb_cpus := r.(sb_cpus);
     sb_memory_mb := r.(sb_memory_mb); sb_disk_gb := r.(sb_disk_gb); sb_last_activity_at :=
     r.(sb_last_activity_at); sb_idle_timeout_minutes := r.(sb_idle_timeout_minutes);
     sb_max_lifetime_minutes := r.(sb_max_lifetime_minutes) |}.

Definition sb_set_status (v : status) (r : Sandbox) : Sandbox :=
  {| sb_id := r.(sb_id); sb_workspace_id := r.(sb_workspace_id); sb_image_version_id :=
     r.(sb_image_version_id); sb_created_by := r.(sb_created_by); sb_name := r.(sb_name); sb_status
     := v; sb_runtime := r.(sb_runtime); sb_runtime_id := r.(sb_runtime_id); sb_runtime_host :=
     r.(sb_runtime_host); sb_resources := r.(sb_resources); sb_config := r.(sb_config);
     sb_error_message := r.(sb_error_message); sb_started_at := r.(sb_started_at); sb_stopped_at :=
     r.(sb_stopped_at); sb_paused_at := r.(sb_paused_at); sb_created_at := r.(sb_created_at);
     sb_updated_at := r.(sb_updated_at); sb_deleted_at := r.(sb_deleted_at); sb_server_id :=
     r.(sb_server_id); sb_kind := r.(sb_kind); sb_unreachable_since := r.(sb_unreachable_since);
     sb_base_version := r.(sb_base_version); sb_boot_seconds := r.(sb_boot_seconds); sb_recovered_at
     := r.(sb_recovered_at); sb_cpus := r.(sb_cpus); sb_memory_mb := r.(sb_memory_mb); sb_disk_gb :=
     r.(sb_disk_gb); sb_last_activity_at := r.(sb_last_activity_at); sb_idle_timeout_minutes :=
     r.(sb_idle_timeout_minutes); sb_max_lifetime_minutes := r.(sb_max_lifetime_minutes) |}.

Definition sb_set_runtime_id (v : option string) (r : Sandbox) : Sandbox :=
  {| sb_id := r.(sb_id); sb_workspace_id := r.(sb_workspace_id); sb_image_version_id :=
     r.(sb_image_version_id); sb_created_by := r.(sb_created_by); sb_name := r.(sb_name); sb_status
     := r.(sb_status); sb_runtime := r.(sb_runtime); sb_runtime_id := v; sb_runtime_host :=
     r.(sb_runtime_host); sb_resources := r.(sb_resources); sb_config := r.(sb_config);
     sb_error_message := r.(sb_error_message); sb_started_at := r.(sb_started_at); sb_stopped_at :=
     r.(sb_stopped_at); sb_paused_at := r.(sb_paused_at); sb_created_at := r.(sb_created_at);
     sb_updated_at := r.(sb_updated_at); sb_deleted_at := r.(sb_deleted_at); sb_server_id :=
     r.(sb_server_id); sb_kind := r.(sb_kind); sb_unreachable_since := r.(sb_unreachable_since);
     sb_base_version := r.(sb_base_version); sb_boot_seconds := r.(sb_boot_seconds); sb_recovered_at
     := r.(sb_recovered_at); sb_cpus := r.(sb_cpus); sb_memory_mb := r.(sb_memory_mb); sb_disk_gb :=
     r.(sb_disk_gb); sb_last_activity_at := r.(sb_last_activity_at); sb_idle_timeout_minutes :=
     r.(sb_idle_timeout_minutes); sb_max_lifetime_minutes := r.(sb_max_lifetime_minutes) |}.

Definition sb_set_runtime_host (v : option string) (r : Sandbox) : Sandbox :=
  {| sb_id := r.(sb_id); sb_workspace_id := r.(sb_workspace_id); sb_image_version_id :=
     r.(sb_image_version_id); sb_created_by := r.(sb_created_by); sb_name := r.(sb_name); sb_status
     := r.(sb_status); sb_runtime := r.(sb_runtime); sb_runtime_id := r.(sb_runtime_id);
     sb_runtime_host := v; sb_resources := r.(sb_resources); sb_config := r.(sb_config);
     sb_error_message := r.(sb_error_message); sb_started_at := r.(sb_started_at); sb_stopped_at :=
     r.(sb_stopped_at); sb_paused_at := r.(sb_paused_at); sb_created_at := r.(sb_created_at);
     sb_updated_at := r.(sb_updated_at); sb_deleted_at := r.(sb_deleted_at); sb_server_id :=
     r.(sb_server_id); sb_kind := r.(sb_kind); sb_unreachable_since := r.(sb_unreachable_since);
     sb_base_version := r.(sb_base_version); sb_boot_seconds := r.(sb_boot_seconds); sb_recovered_at
     := r.(sb_recovered_at); sb_cpus := r.(sb_cpus); sb_memory_mb := r.(sb_memory_mb); sb_disk_gb :=
     r.(sb_disk_gb); sb_last_activity_at := r.(sb_last_activity_at); sb_idle_timeout_minutes :=
     r.(sb_idle_timeout_minutes); sb_max_lifetime_minutes := r.(sb_max_lifetime_minutes) |}.

Definition sb_set_resources (v : string) (r : Sandbox) : Sandbox :=
  {| sb_id := r.(sb_id); sb_workspace_id := r.(sb_workspace_id); sb_image_version_id :=
     r.(sb_image_version_id); sb_created_by := r.(sb_created_by); sb_name := r.(sb_name); sb_status
     := r.(sb_status); sb_runtime := r.(sb_runtime); sb_runtime_id := r.(sb_runtime_id);
     sb_runtime_host := r.(sb_runtime_host); sb_resources := v; sb_config := r.(sb_config);
     sb_error_message := r.(sb_error_message); sb_started_at := r.(sb_started_at); sb_stopped_at :=
     r.(sb_stopped_at); sb_paused_at := r.(sb_paused_at); sb_created_at := r.(sb_created_at);
     sb_updated_at := r.(sb_updated_at); sb_deleted_at := r.(sb_deleted_at); sb_server_id :=
     r.(sb_server_id); sb_kind := r.(sb_kind); sb_unreachable_since := r.(sb_unreachable_since);
     sb_base_version := r.(sb_base_version); sb_boot_seconds := r.(sb_boot_seconds); sb_recovered_at
     := r.(sb_recovered_at); sb_cpus := r.(sb_cpus); sb_memory_mb := r.(sb_memory_mb); sb_disk_gb :=
     r.(sb_disk_gb); sb_last_activity_at := r.(sb_last_activity_at); sb_idle_timeout_minutes :=
     r.(sb_idle_timeout_minutes); sb_max_lifetime_minutes := r.(sb_max_lifetime_minutes) |}.

Definition sb_set_config (v : list (string * json)) (r : Sandbox) : Sandbox :=
  {| sb_id := r.(sb_id); sb_workspace_id := r.(sb_workspace_id); sb_image_version_id :=
     r.(sb_image_version_id); sb_created_by := r.(sb_created_by); sb_name := r.(sb_name); sb_status
     := r.(sb_status); sb_runtime := r.(sb_runtime); sb_runtime_id := r.(sb_runtime_id);
     sb_runtime_host := r.(sb_runtime_host); sb_resources := r.(sb_resources); sb_config := v;
     sb_error_message := r.(sb_error_message); sb_started_at := r.(sb_started_at); sb_stopped_at :=
     r.(sb_stopped_at); sb_paused_at := r.(sb_paused_at); sb_created_at := r.(sb_created_at);
     sb_updated_at := r.(sb_updated_at); sb_deleted_at := r.(sb_deleted_at); sb_server_id :=
     r.(sb_server_id); sb_kind := r.(sb_kind); sb_unreachable_since := r.(sb_unreachable_since);
     sb_base_version := r.(sb_base_version); sb_boot_seconds := r.(sb_boot_seconds); sb_recovered_at
     := r.(sb_recovered_at); sb_cpus := r.(sb_cpus); sb_memory_mb := r.(sb_memory_mb); sb_disk_gb :=
     r.(sb_disk_gb); sb_last_activity_at := r.(sb_last_activity_at); sb_idle_timeout_minutes :=
     r.(sb_idle_timeout_minutes); sb_max_lifetime_minutes := r.(sb_max_lifetime_minutes) |}.

Definition sb_set_error_message (v : option string) (r : Sandbox) : Sandbox :=
  {| sb_id := r.(sb_id); sb_workspace_id := r.(sb_workspace_id); sb_image_version_id :=
     r.(sb_image_version_id); sb_created_by := r.(sb_created_by); sb_name := r.(sb_name); sb_status
     := r.(sb_status); sb_runtime := r.(sb_runtime); sb_runtime_id := r.(sb_runtime_id);
     sb_runtime_host := r.(sb_runtime_host); sb_resources := r.(sb_resources); sb_config :=
     r.(sb_config); sb_error_message := v; sb_started_at := r.(sb_started_at); sb_stopped_at :=
     r.(sb_stopped_at); sb_paused_at := r.(sb_paused_at); sb_created_at := r.(sb_created_at);
     sb_updated_at := r.(sb_updated_at); sb_deleted_at := r.(sb_deleted_at); sb_server_id :=
     r.(sb_server_id); sb_kind := r.(sb_kind); sb_unreachable_since := r.(sb_unreachable_since);
     sb_base_version := r.(sb_base_version); sb_boot_seconds := r.(sb_boot_seconds); sb_recovered_at
     := r.(sb_recovered_at); sb_cpus := r.(sb_cpus); sb_memory_mb := r.(sb_memory_mb); sb_disk_gb :=
     r.(sb_disk_gb); sb_last_activity_at := r.(sb_last_activity_at); sb_idle_timeout_minutes :=
     r.(sb_idle_timeout_minutes); sb_max_lifetime_minutes := r.(sb_max_lifetime_minutes) |}.

Definition sb_set_started_at (v : option time) (r : Sandbox) : Sandbox :=
  {| sb_id := r.(sb_id); sb_workspace_id := r.(sb_workspace_id); sb_image_version_id :=
     r.(sb_image_version_id); sb_created_by := r.(sb_created_by); sb_name := r.(sb_name); sb_status
     := r.(sb_status); sb_runtime := r.(sb_runtime); sb_runtime_id := r.(sb_runtime_id);
     sb_runtime_host := r.(sb_runtime_host); sb_resources := r.(sb_resources); sb_config :=
     r.(sb_config); sb_error_message := r.(sb_error_message); sb_started_at := v; sb_stopped_at :=
     r.(sb_stopped_at); sb_paused_at := r.(sb_paused_at); sb_created_at := r.(sb_created_at);
     sb_updated_at := r.(sb_updated_at); sb_deleted_at := r.(sb_deleted_at); sb_server_id :=
     r.(sb_server_id); sb_kind := r.(sb_kind); sb_unreachable_since := r.(sb_unreachable_since);
     sb_base_version := r.(sb_base_version); sb_boot_seconds := r.(sb_boot_seconds); sb_recovered_at
     := r.(sb_recovered_at); sb_cpus := r.(sb_cpus); sb_memory_mb := r.(sb_memory_mb); sb_disk_gb :=
     r.(sb_disk_gb); sb_last_activity_at := r.(sb_last_activity_at); sb_idle_timeout_minutes :=
     r.(sb_idle_timeout_minutes); sb_max_lifetime_minutes := r.(sb_max_lifetime_minutes) |}.

Definition sb_set_stopped_at (v : option time) (r : Sandbox) : Sandbox :=
  {| sb_id := r.(sb_id); sb_workspace_id := r.(sb_workspace_id); sb_image_version_id :=
     r.(sb_image_version_id); sb_created_by := r.(sb_created_by); sb_name := r.(sb_name); sb_status
     := r.(sb_status); sb_runtime := r.(sb_runtime); sb_runtime_id := r.(sb_runtime_id);
     sb_runtime_host := r.(sb_runtime_host); sb_resources := r.(sb_resources); sb_config :=
     r.(sb_config); sb_error_message := r.(sb_error_message); sb_started_at := r.(sb_started_at);
     sb_stopped_at := v; sb_paused_at := r.(sb_paused_at); sb_created_at := r.(sb_created_at);
     sb_updated_at := r.(sb_updated_at); sb_deleted_at := r.(sb_deleted_at); sb_server_id :=
     r.(sb_server_id); sb_kind := r.(sb_kind); sb_unreachable_since := r.(sb_unreachable_since);
     sb_base_version := r.(sb_base_version); sb_boot_seconds := r.(sb_boot_seconds); sb_recovered_at
     := r.(sb_recovered_at); sb_cpus := r.(sb_cpus); sb_memory_mb := r.(sb_memory_mb); sb_disk_gb :=
     r.(sb_disk_gb); sb_last_activity_at := r.(sb_last_activity_at); sb_idle_timeout_minutes :=
     r.(sb_idle_timeout_minutes); sb_max_lifetime_minutes := r.(sb_max_lifetime_minutes) |}.

Definition sb_set_paused_at (v : option time) (r : Sandbox) : Sandbox :=
  {| sb_id := r.(sb_id); sb_workspace_id := r.(sb_workspace_id); sb_image_version_id :=
     r.(sb_image_version_id); sb_created_by := r.(sb_created_by); sb_name := r.(sb_name); sb_status
     := r.(sb_status); sb_runtime := r.(sb_runtime); sb_runtime_id := r.(sb_runtime_id);
     sb_runtime_host := r.(sb_runtime_host); sb_resources := r.(sb_resources); sb_config :=
     r.(sb_config); sb_error_message := r.(sb_error_message); sb_started_at := r.(sb_started_at);
     sb_stopped_at := r.(sb_stopped_at); sb_paused_at := v; sb_created_at := r.(sb_created_at);
     sb_updated_at := r.(sb_updated_at); sb_deleted_at := r.(sb_deleted_at); sb_server_id :=
     r.(sb_server_id); sb_kind := r.(sb_kind); sb_unreachable_since := r.(sb_unreachable_since);
     sb_base_version := r.(sb_base_version); sb_boot_seconds := r.(sb_boot_seconds); sb_recovered_at
     := r.(sb_recovered_at); sb_cpus := r.(sb_cpus); sb_memory_mb := r.(sb_memory_mb); sb_disk_gb :=
     r.(sb_disk_gb); sb_last_activity_at := r.(sb_last_activity_at); sb_idle_timeout_minutes :=
     r.(sb_idle_timeout_minutes); sb_max_lifetime_minutes := r.(sb_max_lifetime_minutes) |}.

Definition sb_set_updated_at (v : time) (r : Sandbox) : Sandbox :=
  {| sb_id := r.(sb_id); sb_workspace_id := r.(sb_workspace_id); sb_image_version_id :=
     r.(sb_image_version_id); sb_created_by := r.(sb_created_by); sb_name := r.(sb_name); sb_status
     := r.(sb_status); sb_runtime := r.(sb_runtime); sb_runtime_id := r.(sb_runtime_id);
     sb_runtime_host := r.(sb_runtime_host); sb_resources := r.(sb_resources); sb_config :=
     r.(sb_config); sb_error_message := r.(sb_error_message); sb_started_at := r.(sb_started_at);
     sb_stopped_at := r.(sb_stopped_at); sb_paused_at := r.(sb_paused_at); sb_created_at :=
     r.(sb_created_at); sb_updated_at := v; sb_deleted_at := r.(sb_deleted_at); sb_server_id :=
     r.(sb_server_id); sb_kind := r.(sb_kind); sb_unreachable_since := r.(sb_unreachable_since);
     sb_base_version := r.(sb_base_version); sb_boot_seconds := r.(sb_boot_seconds); sb_recovered_at
     := r.(sb_recovered_at); sb_cpus := r.(sb_cpus); sb_memory_mb := r.(sb_memory_mb); sb_disk_gb :=
     r.(sb_disk_gb); sb_last_activity_at := r.(sb_last_activity_at); sb_idle_timeout_minutes :=
     r.(sb_idle_timeout_minutes); sb_max_lifetime_minutes := r.(sb_max_lifetime_minutes) |}.

Definition sb_set_deleted_at (v : option time) (r : Sandbox) : Sandbox :=
  {| sb_id := r.(sb_id); sb_workspace_id := r.(sb_workspace_id); sb_image_version_id :=
     r.(sb_image_version_id); sb_created_by := r.(sb_created_by); sb_name := r.(sb_name); sb_status
     := r.(sb_status); sb_runtime := r.(sb_runtime); sb_runtime_id := r.(sb_runtime_id);
     sb_runtime_host := r.(sb_runtime_host); sb_resources := r.(sb_resources); sb_config :=
     r.(sb_config); sb_error_message := r.(sb_error_message); sb_started_at := r.(sb_started_at);
     sb_stopped_at := r.(sb_stopped_at); sb_paused_at := r.(sb_paused_at); sb_created_at :=
     r.(sb_created_at); sb_updated_at := r.(sb_updated_at); sb_deleted_at := v; sb_server_id :=
     r.(sb_server_id); sb_kind := r.(sb_kind); sb_unreachable_since := r.(sb_unreachable_since);
     sb_base_version := r.(sb_base_version); sb_boot_seconds := r.(sb_boot_seconds); sb_recovered_at
     := r.(sb_recovered_at); sb_cpus := r.(sb_cpus); sb_memory_mb := r.(sb_memory_mb); sb_disk_gb :=
     r.(sb_disk_gb); sb_last_activity_at := r.(sb_last_activity_at); sb_idle_timeout_minutes :=
     r.(sb_idle_timeout_minutes); sb_max_lifetime_minutes := r.(sb_max_lifetime_minutes) |}.

Definition sb_set_server_id (v : option string) (r : Sandbox) : Sandbox :=
  {| sb_id := r.(sb_id); sb_workspace_id := r.(sb_workspace_id); sb_image_version_id :=
     r.(sb_image_version_id); sb_created_by := r.(sb_created_by); sb_name := r.(sb_name); sb_status
     := r.(sb_status); sb_runtime := r.(sb_runtime); sb_runtime_id := r.(sb_runtime_id);
     sb_runtime_host := r.(sb_runtime_host); sb_resources := r.(sb_resources); sb_config :=
     r.(sb_config); sb_error_message := r.(sb_error_message); sb_started_at := r.(sb_started_at);
     sb_stopped_at := r.(sb_stopped_at); sb_paused_at := r.(sb_paused_at); sb_created_at :=
     r.(sb_created_at); sb_updated_at := r.(sb_updated_at); sb_deleted_at := r.(sb_deleted_at);
     sb_server_id := v; sb_kind := r.(sb_kind); sb_unreachable_since := r.(sb_unreachable_since);
     sb_base_version := r.(sb_base_version); sb_boot_seconds := r.(sb_boot_seconds); sb_recovered_at
     := r.(sb_recovered_at); sb_cpus := r.(sb_cpus); sb_memory_mb := r.(sb_memory_mb); sb_disk_gb :=
     r.(sb_disk_gb); sb_last_activity_at := r.(sb_last_activity_at); sb_idle_timeout_minutes :=
     r.(sb_idle_timeout_minutes); sb_max_lifetime_minutes := r.(sb_max_lifetime_minutes) |}.

Definition sb_set_kind (v : kind) (r : Sandbox) : Sandbox :=
  {| sb_id := r.(sb_id); sb_workspace_id := r.(sb_workspace_id); sb_image_version_id :=
     r.(sb_image_version_id); sb_created_by := r.(sb_created_by); sb_name := r.(sb_name); sb_status
     := r.(sb_status); sb_runtime := r.(sb_runtime); sb_runtime_id := r.(sb_runtime_id);
     sb_runtime_host := r.(sb_runtime_host); sb_resources := r.(sb_resources); sb_config :=
     r.(sb_config); sb_error_message := r.(sb_error_message); sb_started_at := r.(sb_started_at);
     sb_stopped_at := r.(sb_stopped_at); sb_paused_at := r.(sb_paused_at); sb_created_at :=
     r.(sb_created_at); sb_updated_at := r.(sb_updated_at); sb_deleted_at := r.(sb_deleted_at);
     sb_server_id := r.(sb_server_id); sb_kind := v; sb_unreachable_since :=
     r.(sb_unreachable_since); sb_base_version := r.(sb_base_version); sb_boot_seconds :=
     r.(sb_boot_seconds); sb_recovered_at := r.(sb_recovered_at); sb_cpus := r.(sb_cpus);
     sb_memory_mb := r.(sb_memory_mb); sb_disk_gb := r.(sb_disk_gb); sb_last_activity_at :=
     r.(sb_last_activity_at); sb_idle_timeout_minutes := r.(sb_idle_timeout_minutes);
     sb_max_lifetime_minutes := r.(sb_max_lifetime_minutes) |}.

Definition sb_set_unreachable_since (v : option time) (r : Sandbox) : Sandbox :=
  {| sb_id := r.(sb_id); sb_workspace_id := r.(sb_workspace_id); sb_image_version_id :=
     r.(sb_image_version_id); sb_created_by := r.(sb_created_by); sb_name := r.(sb_name); sb_status
     := r.(sb_status); sb_runtime := r.(sb_runtime); sb_runtime_id := r.(sb_runtime_id);
     sb_runtime_host := r.(sb_runtime_host); sb_resources := r.(sb_resources); sb_config :=
     r.(sb_config); sb_error_message := r.(sb_error_message); sb_started_at := r.(sb_started_at);
     sb_stopped_at := r.(sb_stopped_at); sb_paused_at := r.(sb_paused_at); sb_created_at :=
     r.(sb_created_at); sb_updated_at := r.(sb_updated_at); sb_deleted_at := r.(sb_deleted_at);
     sb_server_id := r.(sb_server_id); sb_kind := r.(sb_kind); sb_unreachable_since := v;
     sb_base_version := r.(sb_base_version); sb_boot_seconds := r.(sb_boot_seconds); sb_recovered_at
     := r.(sb_recovered_at); sb_cpus := r.(sb_cpus); sb_memory_mb := r.(sb_memory_mb); sb_disk_gb :=
     r.(sb_disk_gb); sb_last_activity_at := r.(sb_last_activity_at); sb_idle_timeout_minutes :=
     r.(sb_idle_timeout_minutes); sb_max_lifetime_minutes := r.(sb_max_lifetime_minutes) |}.

Definition sb_set_base_version (v : option string) (r : Sandbox) : Sandbox :=
  {| sb_id := r.(sb_id); sb_workspace_id := r.(sb_workspace_id); sb_image_version_id :=
     r.(sb_image_version_id); sb_created_by := r.(sb_created_by); sb_name := r.(sb_name); sb_status
     := r.(sb_status); sb_runtime := r.(sb_runtime); sb_runtime_id := r.(sb_runtime_id);
     sb_runtime_host := r.(sb_runtime_host); sb_resources := r.(sb_resources); sb_config :=
     r.(sb_config); sb_error_message := r.(sb_error_message); sb_started_at := r.(sb_started_at);
     sb_stopped_at := r.(sb_stopped_at); sb_paused_at := r.(sb_paused_at); sb_created_at :=
     r.(sb_created_at); sb_updated_at := r.(sb_updated_at); sb_deleted_at := r.(sb_deleted_at);
     sb_server_id := r.(sb_server_id); sb_kind := r.(sb_kind); sb_unreachable_since :=
     r.(sb_unreachable_since); sb_base_version := v; sb_boot_seconds := r.(sb_boot_seconds);
     sb_recovered_at := r.(sb_recovered_at); sb_cpus := r.(sb_cpus); sb_memory_mb :=
     r.(sb_memory_mb); sb_disk_gb := r.(sb_disk_gb); sb_last_activity_at := r.(sb_last_activity_at);
     sb_idle_timeout_minutes := r.(sb_idle_timeout_minutes); sb_max_lifetime_minutes :=
     r.(sb_max_lifetime_minutes) |}.

Definition sb_set_boot_seconds (v : option Q) (r : Sandbox) : Sandbox :=
  {| sb_id := r.(sb_id); sb_workspace_id := r.(sb_workspace_id); sb_image_version_id :=
     r.(sb_image_version_id); sb_created_by := r.(sb_created_by); sb_name := r.(sb_name); sb_status
     := r.(sb_status); sb_runtime := r.(sb_runtime); sb_runtime_id := r.(sb_runtime_id);
     sb_runtime_host := r.(sb_runtime_host); sb_resources := r.(sb_resources); sb_config :=
     r.(sb_config); sb_error_message := r.(sb_error_message); sb_started_at := r.(sb_started_at);
     sb_stopped_at := r.(sb_stopped_at); sb_paused_at := r.(sb_paused_at); sb_created_at :=
     r.(sb_created_at); sb_updated_at := r.(sb_updated_at); sb_deleted_at := r.(sb_deleted_at);
     sb_server_id := r.(sb_server_id); sb_kind := r.(sb_kind); sb_unreachable_since :=
     r.(sb_unreachable_since); sb_base_version := r.(sb_base_version); sb_boot_seconds := v;
     sb_recovered_at := r.(sb_recovered_at); sb_cpus := r.(sb_cpus); sb_memory_mb :=
     r.(sb_memory_mb); sb_disk_gb := r.(sb_disk_gb); sb_last_activity_at := r.(sb_last_activity_at);
     sb_idle_timeout_minutes := r.(sb_idle_timeout_minutes); sb_max_lifetime_minutes :=
     r.(sb_max_lifetime_minutes) |}.

Definition sb_set_recovered_at (v : option time) (r : Sandbox) : Sandbox :=
  {| sb_id := r.(sb_id); sb_workspace_id := r.(sb_workspace_id); sb_image_version_id :=
     r.(sb_image_version_id); sb_created_by := r.(sb_created_by); sb_name := r.(sb_name); sb_status
     := r.(sb_status); sb_runtime := r.(sb_runtime); sb_runtime_id := r.(sb_runtime_id);
     sb_runtime_host := r.(sb_runtime_host); sb_resources := r.(sb_resources); sb_config :=
     r.(sb_config); sb_error_message := r.(sb_error_message); sb_started_at := r.(sb_started_at);
     sb_stopped_at := r.(sb_stopped_at); sb_paused_at := r.(sb_paused_at); sb_created_at :=
     r.(sb_created_at); sb_updated_at := r.(sb_updated_at); sb_deleted_at := r.(sb_deleted_at);
     sb_server_id := r.(sb_server_id); sb_kind := r.(sb_kind); sb_unreachable_since :=
     r.(sb_unreachable_since); sb_base_version := r.(sb_base_version); sb_boot_seconds :=
     r.(sb_boot_seconds); sb_recovered_at := v; sb_cpus := r.(sb_cpus); sb_memory_mb :=
     r.(sb_memory_mb); sb_disk_gb := r.(sb_disk_gb); sb_last_activity_at := r.(sb_last_activity_at);
     sb_idle_timeout_minutes := r.(sb_idle_timeout_minutes); sb_max_lifetime_minutes :=
     r.(sb_max_lifetime_minutes) |}.

Definition sb_set_cpus (v : Q) (r : Sandbox) : Sandbox :=
  {| sb_id := r.(sb_id); sb_workspace_id := r.(sb_workspace_id); sb_image_version_id :=
     r.(sb_image_version_id); sb_created_by := r.(sb_created_by); sb_name := r.(sb_name); sb_status
     := r.(sb_status); sb_runtime := r.(sb_runtime); sb_runtime_id := r.(sb_runtime_id);
     sb_runtime_host := r.(sb_runtime_host); sb_resources := r.(sb_resources); sb_config :=
     r.(sb_config); sb_error_message := r.(sb_error_message); sb_started_at := r.(sb_started_at);
     sb_stopped_at := r.(sb_stopped_at); sb_paused_at := r.(sb_paused_at); sb_created_at :=
     r.(sb_created_at); sb_updated_at := r.(sb_updated_at); sb_deleted_at := r.(sb_deleted_at);
     sb_server_id := r.(sb_server_id); sb_kind := r.(sb_kind); sb_unreachable_since :=
     r.(sb_unreachable_since); sb_base_version := r.(sb_base_version); sb_boot_seconds :=
     r.(sb_boot_seconds); sb_recovered_at := r.(sb_recovered_at); sb_cpus := v; sb_memory_mb :=
     r.(sb_memory_mb); sb_disk_gb := r.(sb_disk_gb); sb_last_activity_at := r.(sb_last_activity_at);
     sb_idle_timeout_minutes := r.(sb_idle_timeout_minutes); sb_max_lifetime_minutes :=
     r.(sb_max_lifetime_minutes) |}.

Definition sb_set_memory_mb (v : Z) (r : Sandbox) : Sandbox :=
  {| sb_id := r.(sb_id); sb_workspace_id := r.(sb_workspace_id); sb_image_version_id :=
     r.(sb_image_version_id); sb_created_by := r.(sb_created_by); sb_name := r.(sb_name); sb_status
     := r.(sb_status); sb_runtime := r.(sb_runtime); sb_runtime_id := r.(sb_runtime_id);
     sb_runtime_host := r.(sb_runtime_host); sb_resources := r.(sb_resources); sb_config :=
     r.(sb_config); sb_error_message := r.(sb_error_message); sb_started_at := r.(sb_started_at);
     sb_stopped_at := r.(sb_stopped_at); sb_paused_at := r.(sb_paused_at); sb_created_at :=
     r.(sb_created_at); sb_updated_at := r.(sb_updated_at); sb_deleted_at := r.(sb_deleted_at);
     sb_server_id := r.(sb_server_id); sb_kind := r.(sb_kind); sb_unreachable_since :=
     r.(sb_unreachable_since); sb_base_version := r.(sb_base_version); sb_boot_seconds :=
     r.(sb_boot_seconds); sb_recovered_at := r.(sb_recovered_at); sb_cpus := r.(sb_cpus);
     sb_memory_mb := v; sb_disk_gb := r.(sb_disk_gb); sb_last_activity_at :=
     r.(sb_last_activity_at); sb_idle_timeout_minutes := r.(sb_idle_timeout_minutes);
     sb_max_lifetime_minutes := r.(sb_max_lifetime_minutes) |}.

Definition sb_set_disk_gb (v : option Z) (r : Sandbox) : Sandbox :=
  {| sb_id := r.(sb_id); sb_workspace_id := r.(sb_workspace_id); sb_image_version_id :=
     r.(sb_image_version_id); sb_created_by := r.(sb_created_by); sb_name := r.(sb_name); sb_status
     := r.(sb_status); sb_runtime := r.(sb_runtime); sb_runtime_id := r.(sb_runtime_id);
     sb_runtime_host := r.(sb_runtime_host); sb_resources := r.(sb_resources); sb_config :=
     r.(sb_config); sb_error_message := r.(sb_error_message); sb_started_at := r.(sb_started_at);
     sb_stopped_at := r.(sb_stopped_at); sb_paused_at := r.(sb_paused_at); sb_created_at :=
     r.(sb_created_at); sb_updated_at := r.(sb_updated_at); sb_deleted_at := r.(sb_deleted_at);
     sb_server_id := r.(sb_server_id); sb_kind := r.(sb_kind); sb_unreachable_since :=
     r.(sb_unreachable_since); sb_base_version := r.(sb_base_version); sb_boot_seconds :=
     r.(sb_boot_seconds); sb_recovered_at := r.(sb_recovered_at); sb_cpus := r.(sb_cpus);
     sb_memory_mb := r.(sb_memory_mb); sb_disk_gb := v; sb_last_activity_at :=
     r.(sb_last_activity_at); sb_idle_timeout_minutes := r.(sb_idle_timeout_minutes);
     sb_max_lifetime_minutes := r.(sb_max_lifetime_minutes) |}.

Definition sb_set_last_activity_at (v : option time) (r : Sandbox) : Sandbox :=
  {| sb_id := r.(sb_id); sb_workspace_id := r.(sb_workspace_id); sb_image_version_id :=
     r.(sb_image_version_id); sb_created_by := r.(sb_created_by); sb_name := r.(sb_name); sb_status
     := r.(sb_status); sb_runtime := r.(sb_runtime); sb_runtime_id := r.(sb_runtime_id);
     sb_runtime_host := r.(sb_runtime_host); sb_resources := r.(sb_resources); sb_config :=
     r.(sb_config); sb_error_message := r.(sb_error_message); sb_started_at := r.(sb_started_at);
     sb_stopped_at := r.(sb_stopped_at); sb_paused_at := r.(sb_paused_at); sb_created_at :=
     r.(sb_created_at); sb_updated_at := r.(sb_updated_at); sb_deleted_at := r.(sb_deleted_at);
     sb_server_id := r.(sb_server_id); sb_kind := r.(sb_kind); sb_unreachable_since :=
     r.(sb_unreachable_since); sb_base_version := r.(sb_base_version); sb_boot_seconds :=
     r.(sb_boot_seconds); sb_recovered_at := r.(sb_recovered_at); sb_cpus := r.(sb_cpus);
     sb_memory_mb := r.(sb_memory_mb); sb_disk_gb := r.(sb_disk_gb); sb_last_activity_at := v;
     sb_idle_timeout_minutes := r.(sb_idle_timeout_minutes); sb_max_lifetime_minutes :=
     r.(sb_max_lifetime_minutes) |}.

Definition sb_set_idle_timeout_minutes (v : option Z) (r : Sandbox) : Sandbox :=
  {| sb_id := r.(sb_id); sb_workspace_id := r.(sb_workspace_id); sb_image_version_id :=
     r.(sb_image_version_id); sb_created_by := r.(sb_created_by); sb_name := r.(sb_name); sb_status
     := r.(sb_status); sb_runtime := r.(sb_runtime); sb_runtime_id := r.(sb_runtime_id);
     sb_runtime_host := r.(sb_runtime_host); sb_resources := r.(sb_resources); sb_config :=
     r.(sb_config); sb_error_message := r.(sb_error_message); sb_started_at := r.(sb_started_at);
     sb_stopped_at := r.(sb_stopped_at); sb_paused_at := r.(sb_paused_at); sb_created_at :=
     r.(sb_created_at); sb_updated_at := r.(sb_updated_at); sb_deleted_at := r.(sb_deleted_at);
     sb_server_id := r.(sb_server_id); sb_kind := r.(sb_kind); sb_unreachable_since :=
     r.(sb_unreachable_since); sb_base_version := r.(sb_base_version); sb_boot_seconds :=
     r.(sb_boot_seconds); sb_recovered_at := r.(sb_recovered_at); sb_cpus := r.(sb_cpus);
     sb_memory_mb := r.(sb_memory_mb); sb_disk_gb := r.(sb_disk_gb); sb_last_activity_at :=
     r.(sb_last_activity_at); sb_idle_timeout_minutes := v; sb_max_lifetime_minutes :=
     r.(sb_max_lifetime_minutes) |}.

Definition sb_set_max_lifetime_minutes (v : option Z) (r : Sandbox) : Sandbox :=
  {| sb_id := r.(sb_id); sb_workspace_id := r.(sb_workspace_id); sb_image_version_id :=
     r.(sb_image_version_id); sb_created_by := r.(sb_created_by); sb_name := r.(sb_name); sb_status
     := r.(sb_status); sb_runtime := r.(sb_runtime); sb_runtime_id := r.(sb_runtime_id);
     sb_runtime_host := r.(sb_runtime_host); sb_resources := r.(sb_resources); sb_config :=
     r.(sb_config); sb_error_message := r.(sb_error_message); sb_started_at := r.(sb_started_at);
     sb_stopped_at := r.(sb_stopped_at); sb_paused_at := r.(sb_paused_at); sb_created_at :=
     r.(sb_created_at); sb_updated_at := r.(sb_updated_at); sb_deleted_at := r.(sb_deleted_at);
     sb_server_id := r.(sb_server_id); sb_kind := r.(sb_kind); sb_unreachable_since :=
     r.(sb_unreachable_since); sb_base_version := r.(sb_base_version); sb_boot_seconds :=
     r.(sb_boot_seconds); sb_recovered_at := r.(sb_recovered_at); sb_cpus := r.(sb_cpus);
     sb_memory_mb := r.(sb_memory_mb); sb_disk_gb := r.(sb_disk_gb); sb_last_activity_at :=
     r.(sb_last_activity_at); sb_idle_timeout_minutes := r.(sb_idle_timeout_minutes);
     sb_max_lifetime_minutes := v |}.

(** Source: src/db/generated/models.py:77-91 [Job].  A row of the [jobs] table; [args] is JSON text, kept as its object. *)
Record Job := mkJob {
  j_id : string;
  j_sandbox_id : string;
  j_kind : job_kind;
  j_state : job_state;
  j_args : list (string * json);
  j_attempts : Z;
  j_max_attempts : Z;
  j_run_after : time;
  j_deadline : option time;
  j_last_error : option string;
  j_created_at : time;
  j_updated_at : time;
  j_finished_at : option time;
  j_seq : Z
}.

Definition j_set_state (v : job_state) (r : Job) : Job :=
  {| j_id := r.(j_id); j_sandbox_id := r.(j_sandbox_id); j_kind := r.(j_kind); j_state := v; j_args
     := r.(j_args); j_attempts := r.(j_attempts); j_max_attempts := r.(j_max_attempts); j_run_after
     := r.(j_run_after); j_deadline := r.(j_deadline); j_last_error := r.(j_last_error);
     j_created_at := r.(j_created_at); j_updated_at := r.(j_updated_at); j_finished_at :=
     r.(j_finished_at); j_seq := r.(j_seq) |}.

Definition j_set_attempts (v : Z) (r : Job) : Job :=
  {| j_id := r.(j_id); j_sandbox_id := r.(j_sandbox_id); j_kind := r.(j_kind); j_state :=
     r.(j_state); j_args := r.(j_args); j_attempts := v; j_max_attempts := r.(j_max_attempts);
     j_run_after := r.(j_run_after); j_deadline := r.(j_deadline); j_last_error := r.(j_last_error);
     j_created_at := r.(j_created_at); j_updated_at := r.(j_updated_at); j_finished_at :=
     r.(j_finished_at); j_seq := r.(j_seq) |}.

Definition j_set_run_after (v : time) (r : Job) : Job :=
  {| j_id := r.(j_id); j_sandbox_id := r.(j_sandbox_id); j_kind := r.(j_kind); j_state :=
     r.(j_state); j_args := r.(j_args); j_attempts := r.(j_attempts); j_max_attempts :=
     r.(j_max_attempts); j_run_after := v; j_deadline := r.(j_deadline); j_last_error :=
     r.(j_last_error); j_created_at := r.(j_created_at); j_updated_at := r.(j_updated_at);
     j_finished_at := r.(j_finished_at); j_seq := r.(j_seq) |}.

Definition j_set_deadline (v : option time) (r : Job) : Job :=
  {| j_id := r.(j_id); j_sandbox_id := r.(j_sandbox_id); j_kind := r.(j_kind); j_state :=
     r.(j_state); j_args := r.(j_args); j_attempts := r.(j_attempts); j_max_attempts :=
     r.(j_max_attempts); j_run_after := r.(j_run_after); j_deadline := v; j_last_error :=
     r.(j_last_error); j_created_at := r.(j_created_at); j_updated_at := r.(j_updated_at);
     j_finished_at := r.(j_finished_at); j_seq := r.(j_seq) |}.

Definition j_set_last_error (v : option string) (r : Job) : Job :=
  {| j_id := r.(j_id); j_sandbox_id := r.(j_sandbox_id); j_kind := r.(j_kind); j_state :=
     r.(j_state); j_args := r.(j_args); j_attempts := r.(j_attempts); j_max_attempts :=
     r.(j_max_attempts); j_run_after := r.(j_run_after); j_deadline := r.(j_deadline); j_last_error
     := v; j_created_at := r.(j_created_at); j_updated_at := r.(j_updated_at); j_finished_at :=
     r.(j_finished_at); j_seq := r.(j_seq) |}.

Definition j_set_updated_at (v : time) (r : Job) : Job :=
  {| j_id := r.(j_id); j_sandbox_id := r.(j_sandbox_id); j_kind := r.(j_kind); j_state :=
     r.(j_state); j_args := r.(j_args); j_attempts := r.(j_attempts); j_max_attempts :=
     r.(j_max_attempts); j_run_after := r.(j_run_after); j_deadline := r.(j_deadline); j_last_error
     := r.(j_last_error); j_created_at := r.(j_created_at); j_updated_at := v; j_finished_at :=
     r.(j_finished_at); j_seq := r.(j_seq) |}.

Definition j_set_finished_at (v : option time) (r : Job) : Job :=
  {| j_id := r.(j_id); j_sandbox_id := r.(j_sandbox_id); j_kind := r.(j_kind); j_state :=
     r.(j_state); j_args := r.(j_args); j_attempts := r.(j_attempts); j_max_attempts :=
     r.(j_max_attempts); j_run_after := r.(j_run_after); j_deadline := r.(j_deadline); j_last_error
     := r.(j_last_error); j_created_at := r.(j_created_at); j_updated_at := r.(j_updated_at);
     j_finished_at := v; j_seq := r.(j_seq) |}.

(** Source: src/db/generated/models.py:345-355 [Snapshot].  A row of the [snapshots] table. *)
Record Snapshot := mkSnapshot {
  sn_id : string;
  sn_sandbox_id : string;
  sn_server_id : option string;
  sn_name : string;
  sn_size_bytes : Z;
  sn_state : snapshot_state;
  sn_error : option string;
  sn_created_by : string;
  sn_created_at : time;
  sn_seq : Z
}.

Definition sn_set_size_bytes (v : Z) (r : Snapshot) : Snapshot :=
  {| sn_id := r.(sn_id); sn_sandbox_id := r.(sn_sandbox_id); sn_server_id := r.(sn_server_id);
     sn_name := r.(sn_name); sn_size_bytes := v; sn_state := r.(sn_state); sn_error := r.(sn_error);
     sn_created_by := r.(sn_created_by); sn_created_at := r.(sn_created_at); sn_seq := r.(sn_seq) |}.

Definition sn_set_state (v : snapshot_state) (r : Snapshot) : Snapshot :=
  {| sn_id := r.(sn_id); sn_sandbox_id := r.(sn_sandbox_id); sn_server_id := r.(sn_server_id);
     sn_name := r.(sn_name); sn_size_bytes := r.(sn_size_bytes); sn_state := v; sn_error :=
     r.(sn_error); sn_created_by := r.(sn_created_by); sn_created_at := r.(sn_created_at); sn_seq :=
     r.(sn_seq) |}.

Definition sn_set_error (v : option string) (r : Snapshot) : Snapshot :=
  {| sn_id := r.(sn_id); sn_sandbox_id := r.(sn_sandbox_id); sn_server_id := r.(sn_server_id);
     sn_name := r.(sn_name); sn_size_bytes := r.(sn_size_bytes); sn_state := r.(sn_state); sn_error
     := v; sn_created_by := r.(sn_created_by); sn_created_at := r.(sn_created_at); sn_seq :=
     r.(sn_seq) |}.

(** Source: src/db/generated/models.py:153-165 [PoolSandbox].  A row of the [pool_sandboxes] table. *)
Record PoolSandbox := mkPoolSandbox {
  ps_id : string;
  ps_kind : kind;
  ps_server_id : option string;
  ps_image : string;
  ps_config : list (string * json);
  ps_status : pool_status;
  ps_runtime_id : option string;
  ps_runtime_host : option string;
  ps_error_message : option string;
  ps_created_at : time;
  ps_updated_at : time;
  ps_seq : Z
}.

Definition ps_set_status (v : pool_status) (r : PoolSandbox) : PoolSandbox :=
  {| ps_id := r.(ps_id); ps_kind := r.(ps_kind); ps_server_id := r.(ps_server_id); ps_image :=
     r.(ps_image); ps_config := r.(ps_config); ps_status := v; ps_runtime_id := r.(ps_runtime_id);
     ps_runtime_host := r.(ps_runtime_host); ps_error_message := r.(ps_error_message); ps_created_at
     := r.(ps_created_at); ps_updated_at := r.(ps_updated_at); ps_seq := r.(ps_seq) |}.

Definition ps_set_runtime_id (v : option string) (r : PoolSandbox) : PoolSandbox :=
  {| ps_id := r.(ps_id); ps_kind := r.(ps_kind); ps_server_id := r.(ps_server_id); ps_image :=
     r.(ps_image); ps_config := r.(ps_config); ps_status := r.(ps_status); ps_runtime_id := v;
     ps_runtime_host := r.(ps_runtime_host); ps_error_message := r.(ps_error_message); ps_created_at
     := r.(ps_created_at); ps_updated_at := r.(ps_updated_at); ps_seq := r.(ps_seq) |}.

Definition ps_set_runtime_host (v : option string) (r : PoolSandbox) : PoolSandbox :=
  {| ps_id := r.(ps_id); ps_kind := r.(ps_kind); ps_server_id := r.(ps_server_id); ps_image :=
     r.(ps_image); ps_config := r.(ps_config); ps_status := r.(ps_status); ps_runtime_id :=
     r.(ps_runtime_id); ps_runtime_host := v; ps_error_message := r.(ps_error_message);
     ps_created_at := r.(ps_created_at); ps_updated_at := r.(ps_updated_at); ps_seq := r.(ps_seq) |}.

Definition ps_set_error_message (v : option string) (r : PoolSandbox) : PoolSandbox :=
  {| ps_id := r.(ps_id); ps_kind := r.(ps_kind); ps_server_id := r.(ps_server_id); ps_image :=
     r.(ps_image); ps_config := r.(ps_config); ps_status := r.(ps_status); ps_runtime_id :=
     r.(ps_runtime_id); ps_runtime_host := r.(ps_runtime_host); ps_error_message := v; ps_created_at
     := r.(ps_created_at); ps_updated_at := r.(ps_updated_at); ps_seq := r.(ps_seq) |}.

Definition ps_set_updated_at (v : time) (r : PoolSandbox) : PoolSandbox :=
  {| ps_id := r.(ps_id); ps_kind := r.(ps_kind); ps_server_id := r.(ps_server_id); ps_image :=
     r.(ps_image); ps_config := r.(ps_config); ps_status := r.(ps_status); ps_runtime_id :=
     r.(ps_runtime_id); ps_runtime_host := r.(ps_runtime_host); ps_error_message :=
     r.(ps_error_message); ps_created_at := r.(ps_created_at); ps_updated_at := v; ps_seq :=
     r.(ps_seq) |}.
