(* ===== verification/Store.v ===== *)
(** The database of the control plane, as far as the modelled components use
    it: a record of tables, and each sqlc statement of db/generated/query.py
    as a function on it.  A table with a primary key is a finite map from the
    key; a statement that uses CURRENT_TIMESTAMP takes it as [now]; a
    statement [RETURNING *] is followed by a lookup of the row.  The world a
    request or a job runs in is the database with the process's own state:
    the clock, the table of live jobs, the secret values kept for redaction
    and the log of calls that leave the process. *)

From S2P Require Import Prelude Tables.

(** ** Rows without updates of their own *)

(** Source: src/db/generated/models.py:497-503 [WorkspaceQuota].  The limits of
    a workspace or label quota; [None] is no limit. *)
Record Quota := mkQuota {
  max_running_sandboxes : option Z;
  max_cpus : option Q;
  max_memory_mb : option Z;
  max_storage_gb : option Z
}.

(** Source: src/db/generated/models.py:333-342 [Server].  The columns placement
    reads. *)
Record Server := mkServer {
  sv_id : string;
  sv_workspace_id : string;
  sv_capabilities : string;
  sv_created_at : time
}.

(** Source: src/db/generated/models.py:463-472 [Workspace].  The lifecycle
    defaults of a workspace. *)
Record Workspace := mkWorkspace {
  wk_default_idle_timeout_minutes : option Z;
  wk_default_max_lifetime_minutes : option Z
}.

Record Db := mkDb {
  sandboxes : gmap string Sandbox;
  jobs : gmap string Job;
  snapshots : gmap string Snapshot;
  sandbox_labels : gmap string (gmap string string);
  usage_labels : gmap string (gmap string string);
  workspace_quotas : gmap string Quota;
  label_quotas : gmap (string * string * string) Quota;
  sandbox_permissions : gmap (string * string * string) string;
  pool_sandboxes : gmap string PoolSandbox;
  servers : gmap string Server;
  workspaces : gmap string Workspace;
  profile_bytes : gmap string Z;
  next_seq : Z
}.

Definition set_sandboxes (v : gmap string Sandbox) (d : Db) : Db :=
  mkDb v d.(jobs) d.(snapshots) d.(sandbox_labels) d.(usage_labels) d.(workspace_quotas) d.(label_quotas)
    d.(sandbox_permissions) d.(pool_sandboxes) d.(servers) d.(workspaces) d.(profile_bytes) d.(next_seq).

Definition set_jobs (v : gmap string Job) (d : Db) : Db :=
  mkDb d.(sandboxes) v d.(snapshots) d.(sandbox_labels) d.(usage_labels) d.(workspace_quotas) d.(label_quotas)
    d.(sandbox_permissions) d.(pool_sandboxes) d.(servers) d.(workspaces) d.(profile_bytes) d.(next_seq).

Definition set_snapshots (v : gmap string Snapshot) (d : Db) : Db :=
  mkDb d.(sandboxes) d.(jobs) v d.(sandbox_labels) d.(usage_labels) d.(workspace_quotas) d.(label_quotas)
    d.(sandbox_permissions) d.(pool_sandboxes) d.(servers) d.(workspaces) d.(profile_bytes) d.(next_seq).

Definition set_sandbox_labels (v : gmap string (gmap string string)) (d : Db) : Db :=
  mkDb d.(sandboxes) d.(jobs) d.(snapshots) v d.(usage_labels) d.(workspace_quotas) d.(label_quotas)
    d.(sandbox_permissions) d.(pool_sandboxes) d.(servers) d.(workspaces) d.(profile_bytes) d.(next_seq).

Definition set_usage_labels (v : gmap string (gmap string string)) (d : Db) : Db :=
  mkDb d.(sandboxes) d.(jobs) d.(snapshots) d.(sandbox_labels) v d.(workspace_quotas) d.(label_quotas)
    d.(sandbox_permissions) d.(pool_sandboxes) d.(servers) d.(workspaces) d.(profile_bytes) d.(next_seq).

Definition set_permissions (v : gmap (string * string * string) string) (d : Db) : Db :=
  mkDb d.(sandboxes) d.(jobs) d.(snapshots) d.(sandbox_labels) d.(usage_labels) d.(workspace_quotas) d.(label_quotas)
    v d.(pool_sandboxes) d.(servers) d.(workspaces) d.(profile_bytes) d.(next_seq).

Definition set_pool_sandboxes (v : gmap string PoolSandbox) (d : Db) : Db :=
  mkDb d.(sandboxes) d.(jobs) d.(snapshots) d.(sandbox_labels) d.(usage_labels) d.(workspace_quotas) d.(label_quotas)
    d.(sandbox_permissions) v d.(servers) d.(workspaces) d.(profile_bytes) d.(next_seq).

Definition set_servers (v : gmap string Server) (d : Db) : Db :=
  mkDb d.(sandboxes) d.(jobs) d.(snapshots) d.(sandbox_labels) d.(usage_labels) d.(workspace_quotas) d.(label_quotas)
    d.(sandbox_permissions) d.(pool_sandboxes) v d.(workspaces) d.(profile_bytes) d.(next_seq).

Definition bump_seq (d : Db) : Db :=
  mkDb d.(sandboxes) d.(jobs) d.(snapshots) d.(sandbox_labels) d.(usage_labels) d.(workspace_quotas) d.(label_quotas)
    d.(sandbox_permissions) d.(pool_sandboxes) d.(servers) d.(workspaces) d.(profile_bytes) (d.(next_seq) + 1).

Definition empty_db : Db := mkDb ∅ ∅ ∅ ∅ ∅ ∅ ∅ ∅ ∅ ∅ ∅ ∅ 1.

(** ** Sorting rows: ORDER BY *)

Section order_by.
Context {R : Type} (key : R → Z * Z).

(** Ascending on (created_at, seq). *)
Definition row_le (a b : R) : Prop :=
  (key a).1 < (key b).1 ∨ ((key a).1 = (key b).1 ∧ (key a).2 ≤ (key b).2).

#[global] Instance row_le_dec : RelDecision row_le.
Proof. intros a b. unfold row_le. apply _. Defined.

#[global] Instance row_le_total : Total row_le.
Proof. intros a b. unfold row_le. lia. Qed.

#[global] Instance row_le_transitive : Transitive row_le.
Proof. intros a b c. unfold row_le. lia. Qed.

Definition order_by (l : list R) : list R := merge_sort row_le l.

Lemma order_by_sorted l : StronglySorted row_le (order_by l).
Proof. apply StronglySorted_merge_sort; apply _. Qed.

Lemma elem_of_order_by x l : x ∈ order_by l ↔ x ∈ l.
Proof. unfold order_by. by rewrite merge_sort_Permutation. Qed.
End order_by.

Definition rows {R} (m : gmap string R) : list R := (map_to_list m).*2.

Lemma elem_of_rows {R} (m : gmap string R) x : x ∈ rows m ↔ ∃ i, m !! i = Some x.
Proof.
  unfold rows. rewrite list_elem_of_fmap. split.
  - intros ([i y] & -> & H%elem_of_map_to_list). eauto.
  - intros [i H]. exists (i, x). by rewrite elem_of_map_to_list.
Qed.

(** ** Jobs *)

Definition upd_job (id : string) (f : Job → Job) (d : Db) : Db := set_jobs (alter f id d.(jobs)) d.

Definition upd_job_if (id : string) (p : Job → bool) (f : Job → Job) (d : Db) : Db :=
  upd_job id (λ j, if p j then f j else j) d.

Definition active (s : job_state) : bool :=
  match s with JQueued | JRunning => true | _ => false end.

Definition is_state (s : job_state) (j : Job) : bool := bool_decide (j.(j_state) = s).

(** Source: src/db/generated/query.py:327-331 [CREATE_JOB].  The column
    defaults are those of the [jobs] table. *)
Definition create_job (now : time) (id sandbox_id : string) (k : job_kind) (args : list (string * json))
    (max_attempts : Z) (deadline : option time) (d : Db) : Db :=
  bump_seq (set_jobs (<[id := mkJob id sandbox_id k JQueued args 0 max_attempts now deadline None now now None
    d.(next_seq)]> d.(jobs)) d).

(** Source: src/db/generated/query.py:934-936 [GET_JOB]. *)
Definition get_job (id : string) (d : Db) : option Job := d.(jobs) !! id.

(** Source: src/db/generated/query.py:106-111 [CLAIM_JOB]. *)
Definition claim_job (now : time) (id : string) (d : Db) : Db :=
  upd_job_if id (is_state JQueued)
    (λ j, j_set_state JRunning (j_set_attempts (j.(j_attempts) + 1) (j_set_updated_at now j))) d.

(** Source: src/db/generated/query.py:2007-2011 [RETRY_JOB]. *)
Definition retry_job (now : time) (last_error : option string) (run_after : time) (id : string) (d : Db) : Db :=
  upd_job_if id (is_state JRunning)
    (λ j, j_set_state JQueued (j_set_last_error last_error (j_set_run_after run_after (j_set_updated_at now j)))) d.

(** Source: src/db/generated/query.py:679-684 [DEFER_JOB]. *)
Definition defer_job (now : time) (last_error : option string) (run_after : time) (deadline : option time)
    (id : string) (d : Db) : Db :=
  upd_job_if id (is_state JRunning)
    (λ j, j_set_state JQueued (j_set_attempts (Z.max (j.(j_attempts) - 1) 0) (j_set_last_error last_error
      (j_set_run_after run_after (j_set_deadline deadline (j_set_updated_at now j)))))) d.

(** Source: src/db/generated/query.py:1972-1976 [REQUEUE_JOB]. *)
Definition requeue_job (now : time) (last_error : option string) (id : string) (d : Db) : Db :=
  upd_job_if id (is_state JRunning)
    (λ j, j_set_state JQueued (j_set_attempts (Z.max (j.(j_attempts) - 1) 0) (j_set_last_error last_error
      (j_set_updated_at now j)))) d.

(** Source: src/db/generated/query.py:879-883 [FINISH_JOB]. *)
Definition finish_job (now : time) (state : job_state) (last_error : option string) (id : string) (d : Db) : Db :=
  upd_job_if id (λ j, active j.(j_state))
    (λ j, j_set_state state (j_set_last_error last_error (j_set_finished_at (Some now) (j_set_updated_at now j)))) d.

(** Source: src/db/generated/query.py:69-73 [CANCEL_SANDBOX_JOBS]. *)
Definition cancel_sandbox_jobs (now : time) (sandbox_id : string) (d : Db) : Db :=
  set_jobs ((λ j, if bool_decide (j.(j_sandbox_id) = sandbox_id) && is_state JQueued j
                  then j_set_state JCancelled (j_set_finished_at (Some now) (j_set_updated_at now j))
                  else j) <$> d.(jobs)) d.

(** Source: src/db/generated/query.py:1422-1424 [LIST_JOBS_BY_STATE]. *)
Definition list_jobs_by_state (s : job_state) (d : Db) : list Job :=
  order_by (λ j, (j.(j_created_at), j.(j_seq))) (filter (λ j, j.(j_state) = s) (rows d.(jobs))).

(** Source: src/db/generated/query.py:1365-1369 [LIST_DUE_JOBS]. *)
Definition list_due_jobs (now : time) (d : Db) : list Job :=
  order_by (λ j, (j.(j_created_at), j.(j_seq)))
    (filter (λ j, j.(j_state) = JQueued ∧ j.(j_run_after) ≤ now) (rows d.(jobs))).

(** Source: src/db/generated/query.py:903-908 [GET_ACTIVE_JOB].  Newest
    first; rows with equal [created_at] come in no order the statement names. *)
Definition get_active_job (sandbox_id : string) (d : Db) : option Job :=
  last (order_by (λ j, (j.(j_created_at), 0))
    (filter (λ j, j.(j_sandbox_id) = sandbox_id ∧ active j.(j_state) = true) (rows d.(jobs)))).

Lemma jobs_upd_job id f d : (upd_job id f d).(jobs) = alter f id d.(jobs).
Proof. done. Qed.

Lemma elem_of_list_jobs_by_state s d j :
  j ∈ list_jobs_by_state s d ↔ j.(j_state) = s ∧ ∃ i, d.(jobs) !! i = Some j.
Proof.
  unfold list_jobs_by_state. rewrite elem_of_order_by, list_elem_of_filter, elem_of_rows. done.
Qed.

Lemma get_active_job_Some sandbox_id d j :
  get_active_job sandbox_id d = Some j →
  j.(j_sandbox_id) = sandbox_id ∧ active j.(j_state) = true ∧ ∃ i, d.(jobs) !! i = Some j.
Proof.
  unfold get_active_job. intros H%last_Some_elem_of.
  rewrite elem_of_order_by, list_elem_of_filter, elem_of_rows in H. naive_solver.
Qed.

Lemma get_active_job_None sandbox_id d :
  get_active_job sandbox_id d = None ↔
  ∀ i j, d.(jobs) !! i = Some j → j.(j_sandbox_id) = sandbox_id → active j.(j_state) = false.
Proof.
  unfold get_active_job. rewrite last_None. split.
  - intros H i j Hj Hs. apply not_true_is_false. intros Ha.
    assert (j ∈ order_by (λ j, (j.(j_created_at), 0))
      (filter (λ j, j.(j_sandbox_id) = sandbox_id ∧ active j.(j_state) = true) (rows d.(jobs)))) as Hin.
    { rewrite elem_of_order_by, list_elem_of_filter, elem_of_rows. eauto. }
    rewrite H in Hin. by apply not_elem_of_nil in Hin.
  - intros H. destruct (order_by _ _) as [|j l] eqn:E; [done|]. exfalso.
    assert (j ∈ j :: l) as Hin by left. rewrite <- E in Hin.
    rewrite elem_of_order_by, list_elem_of_filter, elem_of_rows in Hin.
    destruct Hin as [[Hs Ha] [i Hi]]. specialize (H i j Hi Hs). congruence.
Qed.

(** ** Sandboxes *)

Definition upd_sandbox (id : string) (f : Sandbox → Sandbox) (d : Db) : Db :=
  set_sandboxes (alter f id d.(sandboxes)) d.

(** Source: src/db/generated/query.py:1002-1004 [GET_SANDBOX]. *)
Definition get_sandbox (id : string) (d : Db) : option Sandbox := d.(sandboxes) !! id.

(** Source: src/db/generated/query.py:415-422 [CREATE_SANDBOX].  The
    other columns take the defaults of the [sandboxes] table. *)
Definition create_sandbox (now : time) (id workspace_id image_version_id created_by name runtime resources : string)
    (config : list (string * json)) (d : Db) : Db :=
  set_sandboxes (<[id := mkSandbox id workspace_id image_version_id created_by name Pending runtime None None
    resources config None None None None now now None None Desktop None None None None
    2%Q 2048 None None None None]> d.(sandboxes)) d.

(** Source: src/db/generated/query.py:2435-2440 [UPDATE_SANDBOX_STATUS]. *)
Definition update_sandbox_status (now : time) (s : status) (id : string) : Db → Db :=
  upd_sandbox id (λ r, sb_set_status s (sb_set_updated_at now r)).

(** Source: src/db/generated/query.py:2217-2226 [SET_SANDBOX_STARTED]. *)
Definition set_sandbox_started (now : time) (id : string) : Db → Db :=
  upd_sandbox id (λ r, sb_set_status Running (sb_set_started_at (Some now) (sb_set_stopped_at None
    (sb_set_error_message None (sb_set_updated_at now r))))).

(** Source: src/db/generated/query.py:2229-2236 [SET_SANDBOX_STOPPED]. *)
Definition set_sandbox_stopped (now : time) (id : string) : Db → Db :=
  upd_sandbox id (λ r, sb_set_status Stopped (sb_set_stopped_at (Some now) (sb_set_updated_at now r))).

(** Source: src/db/generated/query.py:2151-2158 [SET_SANDBOX_FAILED]. *)
Definition set_sandbox_failed (now : time) (error : string) (id : string) : Db → Db :=
  upd_sandbox id (λ r, sb_set_status Failed (sb_set_error_message (Some error) (sb_set_updated_at now r))).

(** Source: src/db/generated/query.py:2173-2181 [SET_SANDBOX_PAUSED]. *)
Definition set_sandbox_paused (now : time) (id : string) : Db → Db :=
  upd_sandbox id (λ r, sb_set_status Stopped (sb_set_paused_at (Some now) (sb_set_stopped_at (Some now)
    (sb_set_updated_at now r)))).

(** Source: src/db/generated/query.py:214-216 [CLEAR_SANDBOX_PAUSED]. *)
Definition clear_sandbox_paused (now : time) (id : string) : Db → Db :=
  upd_sandbox id (λ r, sb_set_paused_at None (sb_set_updated_at now r)).

(** Source: src/db/generated/query.py:219-225 [CLEAR_SANDBOX_RUNTIME]. *)
Definition clear_sandbox_runtime (now : time) (id : string) : Db → Db :=
  upd_sandbox id (λ r, sb_set_runtime_id None (sb_set_runtime_host None (sb_set_paused_at None
    (sb_set_updated_at now r)))).

(** Source: src/db/generated/query.py:2409-2415 [UPDATE_SANDBOX_RUNTIME]. *)
Definition update_sandbox_runtime (now : time) (runtime_id runtime_host : option string) (id : string) : Db → Db :=
  upd_sandbox id (λ r, sb_set_runtime_id runtime_id (sb_set_runtime_host runtime_host (sb_set_updated_at now r))).

(** Source: src/db/generated/query.py:2192-2194 [SET_SANDBOX_REACHABLE].
    Its WHERE clause only skips rows already as the update leaves them. *)
Definition set_sandbox_reachable (id : string) : Db → Db :=
  upd_sandbox id (sb_set_unreachable_since None).

(** Source: src/db/generated/query.py:2239-2241 [SET_SANDBOX_UNREACHABLE]. *)
Definition set_sandbox_unreachable (now : time) (id : string) : Db → Db :=
  upd_sandbox id (λ r, sb_set_unreachable_since (Some (default now r.(sb_unreachable_since))) r).

(** Source: src/db/generated/query.py:2197-2201 [SET_SANDBOX_RECOVERED]. *)
Definition set_sandbox_recovered (now : time) (id : string) : Db → Db :=
  upd_sandbox id (λ r, sb_set_recovered_at (Some now) (sb_set_updated_at now r)).

(** Source: src/db/generated/query.py:2301-2308 [SOFT_DELETE_SANDBOX]. *)
Definition soft_delete_sandbox (now : time) (id : string) : Db → Db :=
  upd_sandbox id (λ r, sb_set_status Deleted (sb_set_deleted_at (Some now) (sb_set_updated_at now r))).

(** Source: src/db/generated/query.py:727-729 [DELETE_SANDBOX].  The
    rows of its jobs, snapshots, labels and permissions go with it (ON DELETE
    CASCADE); the copy of the labels that usage keeps stays. *)
Definition delete_sandbox (id : string) (d : Db) : Db :=
  set_sandboxes (delete id d.(sandboxes))
    (set_jobs (filter (λ p, p.2.(j_sandbox_id) ≠ id) d.(jobs))
      (set_snapshots (filter (λ p, p.2.(sn_sandbox_id) ≠ id) d.(snapshots))
        (set_sandbox_labels (delete id d.(sandbox_labels))
          (set_permissions (filter (λ p, p.1.1.1 ≠ id) d.(sandbox_permissions)) d)))).

(** Source: src/db/generated/query.py:1967-1969 [RENAME_SANDBOX]. *)
Definition rename_sandbox (now : time) (name id : string) : Db → Db :=
  upd_sandbox id (λ r, sb_set_name name (sb_set_updated_at now r)).

(** Source: src/db/generated/query.py:2168-2170 [SET_SANDBOX_LIFECYCLE]. *)
Definition set_sandbox_lifecycle (idle lifetime : option Z) (id : string) : Db → Db :=
  upd_sandbox id (λ r, sb_set_idle_timeout_minutes idle (sb_set_max_lifetime_minutes lifetime r)).

(** Source: src/db/generated/query.py:2184-2189 [SET_SANDBOX_PLACEMENT]. *)
Definition set_sandbox_placement (now : time) (server_id : option string) (k : kind) (id : string) : Db → Db :=
  upd_sandbox id (λ r, sb_set_server_id server_id (sb_set_kind k (sb_set_updated_at now r))).

(** Source: src/db/generated/query.py:2212-2214 [SET_SANDBOX_SIZE]. *)
Definition set_sandbox_size (cpus : Q) (memory_mb : Z) (disk_gb : option Z) (id : string) : Db → Db :=
  upd_sandbox id (λ r, sb_set_cpus cpus (sb_set_memory_mb memory_mb (sb_set_disk_gb disk_gb r))).

(** Source: src/db/generated/query.py:2144-2148 [SET_SANDBOX_BOOT]. *)
Definition set_sandbox_boot (now : time) (base_version : option string) (boot_seconds : Q) (id : string) : Db → Db :=
  upd_sandbox id (λ r, sb_set_base_version base_version (sb_set_boot_seconds (Some boot_seconds)
    (sb_set_updated_at now r))).

(** Source: src/db/generated/query.py:2358-2364 [UPDATE_SANDBOX]. *)
Definition update_sandbox (now : time) (name resources : string) (config : list (string * json)) (id : string) : Db → Db :=
  upd_sandbox id (λ r, sb_set_name name (sb_set_resources resources (sb_set_config config (sb_set_updated_at now r)))).

(** Source: src/db/generated/query.py:1251-1255 [LIST_ALL_SANDBOXES]. *)
Definition list_all_sandboxes (d : Db) : list Sandbox :=
  reverse (order_by (λ r, (r.(sb_created_at), 0)) (filter (λ r, r.(sb_deleted_at) = None) (rows d.(sandboxes)))).

(** Source: src/db/generated/query.py:1487-1489 [LIST_PAUSED_SANDBOXES]. *)
Definition list_paused_sandboxes (d : Db) : list Sandbox :=
  order_by (λ r, (default 0 r.(sb_paused_at), 0))
    (filter (λ r, r.(sb_paused_at) ≠ None ∧ r.(sb_status) = Stopped) (rows d.(sandboxes))).

Definition minutes (m : Z) : Z := sec (m * 60).

Definition coalesce {A} (a b : option A) : option A := match a with Some _ => a | None => b end.

(** SQL's [x < now - minutes], false when either side is NULL. *)
Definition older (x : option time) (m : option Z) (now : time) : bool :=
  match x, m with
  | Some t, Some n => bool_decide (t < now - minutes n)
  | _, _ => false
  end.

(** GREATEST ignores NULLs. *)
Definition greatest (a b : option time) : option time :=
  match a, b with
  | Some x, Some y => Some (Z.max x y)
  | Some x, None => Some x
  | None, _ => b
  end.

(** Source: src/db/generated/query.py:1392-1413 [LIST_EXPIRED_SANDBOXES].
    The rows with the reason, [true] for 'lifetime' and [false] for 'idle'. *)
Definition list_expired_sandboxes (now : time) (d : Db) : list (Sandbox * bool) :=
  omap (λ s,
    match d.(workspaces) !! s.(sb_workspace_id) with
    | None => None
    | Some w =>
        let lifetime := older s.(sb_started_at)
          (coalesce s.(sb_max_lifetime_minutes) w.(wk_default_max_lifetime_minutes)) now in
        let idle := older (greatest s.(sb_last_activity_at) s.(sb_started_at))
          (coalesce s.(sb_idle_timeout_minutes) w.(wk_default_idle_timeout_minutes)) now in
        if bool_decide (s.(sb_status) = Running) && bool_decide (get_active_job s.(sb_id) d = None)
           && (lifetime || idle)
        then Some (s, lifetime) else None
    end) (rows d.(sandboxes)).

(** Source: src/db/generated/query.py:1014-1016 [GET_SANDBOX_BY_RUNTIME_ID]. *)
Definition get_sandbox_by_runtime_id (runtime_id : string) (d : Db) : option Sandbox :=
  head (filter (λ r, r.(sb_runtime_id) = Some runtime_id) (rows d.(sandboxes))).

(** ** Snapshots *)

(** Source: src/db/generated/query.py:544-548 [CREATE_SNAPSHOT]. *)
Definition create_snapshot (now : time) (id sandbox_id : string) (server_id : option string) (name created_by : string)
    (d : Db) : Db :=
  bump_seq (set_snapshots (<[id := mkSnapshot id sandbox_id server_id name 0 SnCreating None created_by now
    d.(next_seq)]> d.(snapshots)) d).

(** Source: src/db/generated/query.py:1091-1093 [GET_SNAPSHOT]. *)
Definition get_snapshot (id : string) (d : Db) : option Snapshot := d.(snapshots) !! id.

(** Source: src/db/generated/query.py:1666-1668 [LIST_SNAPSHOTS_BY_SANDBOX]. *)
Definition list_snapshots_by_sandbox (sandbox_id : string) (d : Db) : list Snapshot :=
  reverse (order_by (λ s, (s.(sn_created_at), s.(sn_seq)))
    (filter (λ s, s.(sn_sandbox_id) = sandbox_id) (rows d.(snapshots)))).

(** Source: src/db/generated/query.py:2249-2251 [SET_SNAPSHOT_READY]. *)
Definition set_snapshot_ready (size : Z) (id : string) (d : Db) : Db :=
  set_snapshots (alter (λ s, sn_set_state SnReady (sn_set_size_bytes size (sn_set_error None s))) id d.(snapshots)) d.

(** Source: src/db/generated/query.py:2244-2246 [SET_SNAPSHOT_FAILED]. *)
Definition set_snapshot_failed (error id : string) (d : Db) : Db :=
  set_snapshots (alter (λ s, sn_set_state SnFailed (sn_set_error (Some error) s)) id d.(snapshots)) d.

(** Source: src/db/generated/query.py:779-781 [DELETE_SNAPSHOT]. *)
Definition delete_snapshot (id : string) (d : Db) : Db := set_snapshots (delete id d.(snapshots)) d.

(** ** Servers *)

(** Source: src/db/generated/query.py:1661-1663 [LIST_SERVERS_BY_WORKSPACE]. *)
Definition list_servers_by_workspace (workspace_id : string) (d : Db) : list Server :=
  order_by (λ s, (s.(sv_created_at), 0)) (filter (λ s, s.(sv_workspace_id) = workspace_id) (rows d.(servers))).

(** ** Permissions *)

(** Source: src/db/generated/query.py:1058-1062 [GET_SANDBOX_PERMISSION].
    The effect of the stored row. *)
Definition get_sandbox_permission (sandbox_id permission action : string) (d : Db) : option string :=
  d.(sandbox_permissions) !! (sandbox_id, permission, action).

(** ** Labels *)

Definition str_le (a b : string * string) : Prop := String.leb a.1 b.1 = true.

#[global] Instance str_le_dec : RelDecision str_le.
Proof. intros a b. unfold str_le. apply _. Defined.

(** Source: src/db/generated/query.py:1569-1571 [LIST_SANDBOX_LABELS]. *)
Definition list_sandbox_labels (sandbox_id : string) (d : Db) : list (string * string) :=
  merge_sort str_le (map_to_list (default ∅ (d.(sandbox_labels) !! sandbox_id))).

(** Source: src/db/generated/query.py:748-750 [DELETE_SANDBOX_LABELS]. *)
Definition delete_sandbox_labels (sandbox_id : string) (d : Db) : Db :=
  set_sandbox_labels (delete sandbox_id d.(sandbox_labels)) d.

(** Source: src/db/generated/query.py:784-786 [DELETE_USAGE_LABELS]. *)
Definition delete_usage_labels (sandbox_id : string) (d : Db) : Db :=
  set_usage_labels (delete sandbox_id d.(usage_labels)) d.

(** Source: src/db/generated/query.py:2161-2165 [SET_SANDBOX_LABEL]. *)
Definition set_sandbox_label (sandbox_id key value : string) (d : Db) : Db :=
  set_sandbox_labels (<[sandbox_id := <[key := value]> (default ∅ (d.(sandbox_labels) !! sandbox_id))]>
    d.(sandbox_labels)) d.

(** Source: src/db/generated/query.py:2254-2257 [SET_USAGE_LABEL]. *)
Definition set_usage_label (sandbox_id key value : string) (d : Db) : Db :=
  set_usage_labels (<[sandbox_id := <[key := value]> (default ∅ (d.(usage_labels) !! sandbox_id))]>
    d.(usage_labels)) d.

(** The labels dict read back holds exactly the stored pairs. *)
Lemma dget_list_sandbox_labels k sandbox_id d :
  dget k (list_sandbox_labels sandbox_id d) = default ∅ (d.(sandbox_labels) !! sandbox_id) !! k.
Proof.
  unfold list_sandbox_labels. set (m := default ∅ _).
  assert (merge_sort str_le (map_to_list m) ≡ₚ map_to_list m) as HP by apply merge_sort_Permutation.
  destruct (m !! k) as [v|] eqn:E.
  - apply dget_in.
    + unfold dkeys. rewrite HP. apply NoDup_fst_map_to_list.
    + rewrite HP. by apply elem_of_map_to_list.
  - apply dget_None. unfold dkeys. rewrite HP, list_elem_of_fmap.
    intros ([k' v] & -> & H%elem_of_map_to_list). simpl in *. congruence.
Qed.

Lemma NoDup_list_sandbox_labels sandbox_id d : NoDup (dkeys (list_sandbox_labels sandbox_id d)).
Proof. unfold dkeys, list_sandbox_labels. rewrite merge_sort_Permutation. apply NoDup_fst_map_to_list. Qed.

(** ** The world of a request or a job *)

(** What leaves the process: calls on the sandbox runtimes, the handler a job's
    final failure calls, and the records of tool calls handed to the writer. *)
Inductive effect :=
| RunContainer (name image : string) (env : list (string * string))
| BindGuest (runtime_id sandbox_id : string)
| RemoveContainer (runtime_id : string)
| PauseRuntime (runtime_id : string)
| ResumeRuntime (runtime_id : string)
| VmPause (sandbox_id : string)
| VmResume (sandbox_id : string)
| StartVm (sandbox_id : string) (admin : bool)
| WriteSecrets (runtime_id : string) (names : list string)
| ApplyProfile (runtime_id : string) (profile : string)
| TakeSnapshot (sandbox_id snapshot_id : string)
| RestoreSnapshot (sandbox_id snapshot_id : string)
| RemoveSnapshot (sandbox_id snapshot_id : string)
| RemoveVolume (sandbox_id : string)
| MoveVolume (sandbox_id target : string)
| MoveVm (sandbox_id : string) (target : option string)
| Enforce (sandbox_id : string)
| BindVm (sandbox_id : string)
| StartBrowser (runtime_id : string)
| DenyNetwork (runtime_id : string)
| RemoveNamed (name : string)
| PoolClaimed (pool id : string)
| PoolFill
| AttachSecret (sandbox_id secret_id : string)
| AuditStop (sandbox_id : string) (lifetime : bool)
| GiveUp (job_id error : string)
| ExecutionStarted (id sandbox_id tool input : string)
| ExecutionFinished (id : string) (ok : bool) (text : string)
| Kick.

Record World := mkWorld {
  w_db : Db;
  w_clock : time;
  (** sandbox id → job id, for every job whose thread is still running *)
  w_live : gmap string string;
  (** secret values a sandbox booted with, and those attached now *)
  w_booted : gmap string (list string);
  w_attached : gmap string (list string);
  w_log : list effect
}.

Definition put_db (d : Db) (w : World) : World :=
  mkWorld d w.(w_clock) w.(w_live) w.(w_booted) w.(w_attached) w.(w_log).
Definition put_live (l : gmap string string) (w : World) : World :=
  mkWorld w.(w_db) w.(w_clock) l w.(w_booted) w.(w_attached) w.(w_log).
Definition put_secrets (b a : gmap string (list string)) (w : World) : World :=
  mkWorld w.(w_db) w.(w_clock) w.(w_live) b a w.(w_log).
Definition put_log (l : list effect) (w : World) : World :=
  mkWorld w.(w_db) w.(w_clock) w.(w_live) w.(w_booted) w.(w_attached) l.

Definition emit (e : effect) : M World unit := modify (λ w, put_log (w.(w_log) ++ [e]) w).

(** A query, and a statement that changes the database at the current time. *)
Definition query {A} (f : Db → A) : M World A := gets (λ w, f w.(w_db)).
Definition exec (f : time → Db → Db) : M World unit := modify (λ w, put_db (f w.(w_clock) w.(w_db)) w).
Definition now_ : M World time := gets w_clock.

Lemma run_bind_query {A B} (f : Db → A) (k : A → M World B) w : (query f ≫= k) w = k (f w.(w_db)) w.
Proof. done. Qed.
Lemma run_bind_exec {B} f (k : unit → M World B) w :
  (exec f ≫= k) w = k tt (put_db (f w.(w_clock) w.(w_db)) w).
Proof. done. Qed.
Lemma run_exec f w : exec f w = (Ok tt, put_db (f w.(w_clock) w.(w_db)) w).
Proof. done. Qed.
Lemma run_bind_now {B} (k : time → M World B) w : (now_ ≫= k) w = k w.(w_clock) w.
Proof. done. Qed.
Lemma run_bind_emit {B} e (k : unit → M World B) w : (emit e ≫= k) w = k tt (put_log (w.(w_log) ++ [e]) w).
Proof. done. Qed.
Lemma run_emit e w : emit e w = (Ok tt, put_log (w.(w_log) ++ [e]) w).
Proof. done. Qed.

#[export] Hint Rewrite @run_bind_query @run_bind_exec @run_exec @run_bind_now @run_bind_emit @run_emit : run.

(** Source: src/db/connection.py:94-103 [DatabaseManager.get_client, session]. *)
Definition session {A} (m : M World A) : M World A := transaction w_db put_db m.

(** A session that raises rolls its statements back. *)
Lemma session_rollback {A} (m : M World A) w e w' :
  session m w = (Err e, w') → w'.(w_db) = w.(w_db).
Proof. apply transaction_rollback. done. Qed.

Lemma session_ok {A} (m : M World A) w a w' : session m w = (Ok a, w') ↔ m w = (Ok a, w').
Proof. unfold session, transaction. destruct (m w) as [[?|?] ?]; naive_solver. Qed.
