(* ===== verification/Jobs.v ===== *)
(** The persistent job queue (src/apps/server/jobs.py): claiming, executing,
    retrying with backoff, deferring, expiring and recovering lifecycle jobs,
    and the step relation of one worker process whose threads run jobs while
    requests enqueue and cancel them. *)

From S2P Require Import Prelude Tables Store.

Definition PARALLEL : nat := 8.
Definition MAX_WAIT : Z := 2 * 3600.
Definition WAIT_POLL : Z := 15.
Definition WAITING : string := "Waiting: ".

(** Source: src/apps/server/jobs.py:41-43 [stamp].  UTC now, [seconds] from now. *)
Definition stamp (seconds : Z) : M World time := gets (λ w, w.(w_clock) + sec seconds).

Lemma run_bind_stamp {B} n (k : time → M World B) w : (stamp n ≫= k) w = k (w.(w_clock) + sec n) w.
Proof. done. Qed.
#[export] Hint Rewrite @run_bind_stamp : run.

(** Source: src/apps/server/jobs.py:46-52 [Handler]. *)
Record Handler := mkHandler {
  h_run : Job → M World unit;
  h_attempts : Z;
  h_backoff : list Z;
  h_failed : option (Job → string → M World unit)
}.

(** [Jobs.handlers]: kind → handler. *)
Definition Handlers := job_kind → option Handler.

(** Source: src/apps/server/jobs.py:67-75 [Jobs.register]. *)
Definition register (k : job_kind) (run : Job → M World unit) (attempts : Z) (backoff : list Z)
    (failed : option (Job → string → M World unit)) (hs : Handlers) : Handlers :=
  λ k', if decide (k' = k) then Some (mkHandler run attempts backoff failed) else hs k'.

Section jobs.
Context (handlers : Handlers).

(** [self.handlers[kind]]. *)
Definition handler_of (k : job_kind) : M World Handler :=
  match handlers k with
  | Some h => mret h
  | None => raise (KeyError "job kind")
  end.

(** Source: src/apps/server/jobs.py:77-88 [Jobs.enqueue].  [id] is the uuid4
    the code draws; the primary key refuses one already there. *)
Definition enqueue (id sandbox_id : string) (k : job_kind) (deadline_seconds : option Z)
    (args : list (string * json)) : M World unit :=
  h ← handler_of k;
  now ← now_;
  taken ← query (get_job id);
  guard_ (is_none taken) IntegrityError;;
  exec (λ now, create_job now id sandbox_id k args h.(h_attempts)
    (match deadline_seconds with
     | Some n => if n =? 0 then None else Some (now + sec n)
     | None => None
     end)).

(** Source: src/apps/server/jobs.py:90-94 [Jobs.kick].  Waking the loop; with
    [inline] the caller drains the queue instead. *)
Definition kick : M World unit := emit Kick.

(** Source: src/apps/server/jobs.py:96-100 [Jobs.owns]. *)
Definition owns (job : Job) : M World bool :=
  current ← query (get_job job.(j_id));
  mret (match current with
        | Some c => is_state JRunning c
        | None => false
        end).

(** Source: src/apps/server/jobs.py:116-124 [Jobs.claim]. *)
Definition claim (job : Job) : M World (option Job) :=
  live ← gets w_live;
  match live !! job.(j_sandbox_id) with
  | Some _ => mret None
  | None =>
      row ← query (get_job job.(j_id));
      match row with
      | Some r =>
          if is_state JQueued r then
            exec (λ now, claim_job now job.(j_id));;
            claimed ← query (get_job job.(j_id));
            match claimed with
            | Some c => modify (λ w, put_live (<[c.(j_sandbox_id) := c.(j_id)]> w.(w_live)) w);; mret (Some c)
            | None => mret None
            end
          else mret None
      | None => mret None
      end
  end.

(** Source: src/apps/server/jobs.py:185-194 [Jobs.give_up].  What the failure
    handler itself raises is logged and dropped. *)
Definition give_up_ (job : Job) (error : string) : M World unit :=
  emit (GiveUp job.(j_id) error);;
  h ← handler_of job.(j_kind);
  match h.(h_failed) with
  | Some failed => try_ (failed job error) (λ _, mret tt)
  | None => mret tt
  end.

(** Source: src/apps/server/jobs.py:152-165 [Jobs.retry_or_fail]. *)
Definition retry_or_fail (job : Job) (h : Handler) (error : string) : M World unit :=
  match py_index h.(h_backoff) (Z.min (job.(j_attempts) - 1) (Z.of_nat (length h.(h_backoff)) - 1)) with
  | None => raise IndexError
  | Some delay =>
      current ← query (get_job job.(j_id));
      again ← stamp delay;
      match current with
      | None => mret tt
      | Some c =>
          if negb (is_state JRunning c) then mret tt
          else if bool_decide (c.(j_attempts) < c.(j_max_attempts))
                  && match c.(j_deadline) with None => true | Some dl => bool_decide (again < dl) end
          then exec (λ now, retry_job now (Some error) again job.(j_id))
          else exec (λ now, finish_job now JFailed (Some error) job.(j_id));; give_up_ job error
      end
  end.

(** Source: src/apps/server/jobs.py:167-183 [Jobs.defer]. *)
Definition defer (job : Job) (reason : string) (window : Z) : M World unit :=
  current ← query (get_job job.(j_id));
  oldest ← stamp (- MAX_WAIT);
  again ← stamp WAIT_POLL;
  deadline ← stamp (WAIT_POLL + window);
  match current with
  | None => mret tt
  | Some c =>
      if negb (is_state JRunning c) then mret tt
      else if bool_decide (oldest ≤ c.(j_created_at))
      then exec (λ now, defer_job now (Some (WAITING +:+ reason)) again (Some deadline) job.(j_id))
      else
        let reason' := "waited " +:+ pretty (MAX_WAIT / 3600) +:+ " hours: " +:+ reason in
        exec (λ now, finish_job now JFailed (Some reason') job.(j_id));; give_up_ job reason'
  end.

(** The part of [execute] after the handler has run, by how it ended. *)
Definition settle (job : Job) (h : Handler) (outcome : result exn unit) : M World unit :=
  match outcome with
  | Ok _ => exec (λ now, finish_job now JSucceeded None job.(j_id))
  | Err (Wait reason window) => defer job reason window
  | Err e => retry_or_fail job h (exn_str e)
  end.

(** The [finally] of [execute]. *)
Definition release_live (job : Job) : M World unit :=
  modify (λ w, if bool_decide (w.(w_live) !! job.(j_sandbox_id) = Some job.(j_id))
               then put_live (delete job.(j_sandbox_id) w.(w_live)) w else w).

(** [try: m finally: f]. *)
Definition finally {A} (m : M World A) (f : M World unit) : M World A := λ w,
  let (r, w1) := m w in
  match f w1 with
  | (Ok _, w2) => (r, w2)
  | (Err e, w2) => (Err e, w2)
  end.

(** Source: src/apps/server/jobs.py:126-150 [Jobs.execute]. *)
Definition execute (job : Job) : M World unit :=
  h ← handler_of job.(j_kind);
  finally (λ w, let (r, w') := h.(h_run) job w in settle job h r w')
    (release_live job;; kick).

(** What [expire] writes as the reason: the minutes the job was given, and its
    last error if it has one. *)
Definition expire_reason (job : Job) (deadline : time) : string :=
  "timed out after " +:+ pretty (round_div (deadline - job.(j_created_at)) (sec 60)) +:+ " minutes" +:+
  match str_or_none job.(j_last_error) with
  | Some e => ": " +:+ e
  | None => ""
  end.

Definition overdue (now : time) (job : Job) : option (Job * string) :=
  match job.(j_deadline) with
  | Some dl => if bool_decide (dl < now) then Some (job, expire_reason job dl) else None
  | None => None
  end.

(** One pass of [expire]'s outer loop: finishes the overdue jobs in one state. *)
Definition expire_state (now : time) (s : job_state) : M World (list (Job * string)) :=
  found ← query (list_jobs_by_state s);
  let late := omap (overdue now) found in
  for_ late (λ p, exec (λ now, finish_job now JFailed (Some p.2) p.1.(j_id)));;
  mret late.

(** Source: src/apps/server/jobs.py:196-211 [Jobs.expire]. *)
Definition expire : M World unit :=
  now ← stamp 0;
  running ← expire_state now JRunning;
  queued ← expire_state now JQueued;
  for_ (running ++ queued) (λ p, give_up_ p.1 p.2).

(** Source: src/apps/server/jobs.py:213-218 [Jobs.recover]. *)
Definition recover : M World unit :=
  running ← query (list_jobs_by_state JRunning);
  for_ running (λ j, exec (λ now, requeue_job now (Some "interrupted by a restart") j.(j_id))).

(** The claiming loop of [run]: stops at a full house or when closing. *)
Fixpoint claim_due (closing : bool) (due : list Job) : M World (list Job) :=
  match due with
  | [] => mret []
  | job :: due' =>
      live ← gets w_live;
      if closing || bool_decide (PARALLEL ≤ size live)%nat then mret []
      else
        c ← claim job;
        rest ← claim_due closing due';
        mret (match c with Some c => c :: rest | None => rest end)
  end.

(** Source: src/apps/server/jobs.py:220-240 [Jobs.run].  One turn of the loop;
    the result is the jobs it hands to executor threads. *)
Definition poll (closing : bool) : M World (list Job) :=
  expire;;
  now ← now_;
  due ← query (list_due_jobs now);
  claim_due closing due.

(** Source: src/apps/server/jobs.py:242-253 [Jobs.shutdown].  After the wait for
    running jobs: what is still live goes back in the queue. *)
Definition shutdown : M World unit :=
  live ← gets w_live;
  for_ (map_to_list live) (λ p, exec (λ now, requeue_job now (Some "interrupted by a shutdown") p.2)).

(** Source: src/apps/server/jobs.py:104-114 [Jobs.drain].  [fuel] bounds the
    turns of its loop. *)
Fixpoint drain (fuel : nat) : M World unit :=
  match fuel with
  | O => mret tt
  | S fuel' =>
      all ← query (list_jobs_by_state JQueued);
      live ← gets w_live;
      match filter (λ j, live !! j.(j_sandbox_id) = None) all with
      | [] => mret tt
      | queued =>
          for_ queued (λ j, c ← claim j; match c with Some c => execute c | None => mret tt end);;
          drain fuel'
      end
  end.
End jobs.

(** ** What the queue relies on from its handlers

    The handlers are registered by another component
    (src/apps/server/sandbox_api.py); the queue's theorems need only this. *)

Definition is_give_up (id : string) (e : effect) : Prop :=
  match e with GiveUp id' _ => id' = id | _ => False end.

#[global] Instance is_give_up_dec id e : Decision (is_give_up id e).
Proof. destruct e; simpl; apply _. Defined.

(** How often the final failure of job [id] was reported. *)
Definition give_ups (id : string) (l : list effect) : nat := length (filter (is_give_up id) l).

(** What the queue sees of a world: other work of the process may change the
    rest. *)
Definition same_queue (w w' : World) : Prop :=
  w'.(w_db).(jobs) = w.(w_db).(jobs) ∧ w'.(w_live) = w.(w_live) ∧
  ∀ id, give_ups id w'.(w_log) = give_ups id w.(w_log).

Class HandlersOk (handlers : Handlers) := {
  hs_total : ∀ k, is_Some (handlers k);
  hs_attempts : ∀ k h, handlers k = Some h → 1 ≤ h.(h_attempts);
  hs_backoff : ∀ k h, handlers k = Some h → h.(h_backoff) ≠ [];
  hs_failed : ∀ k h f job error w,
    handlers k = Some h → h.(h_failed) = Some f → same_queue w (f job error w).2
}.

Lemma give_ups_app id l1 l2 : give_ups id (l1 ++ l2) = (give_ups id l1 + give_ups id l2)%nat.
Proof. unfold give_ups. by rewrite filter_app, length_app. Qed.

Lemma give_ups_one id id' e :
  give_ups id [GiveUp id' e] = if decide (id = id') then 1%nat else 0%nat.
Proof. unfold give_ups. rewrite filter_cons, filter_nil. simpl. repeat case_decide; simpl; congruence. Qed.

(** ** The queue's invariant *)

Definition terminal (s : job_state) : bool := negb (active s).

(** Attempts stay within the limit: a queued job has one left, a running one
    has used at least one. *)
Definition attempts_ok (j : Job) : Prop :=
  1 ≤ j.(j_max_attempts) ∧
  match j.(j_state) with
  | JQueued => 0 ≤ j.(j_attempts) < j.(j_max_attempts)
  | JRunning => 1 ≤ j.(j_attempts) ≤ j.(j_max_attempts)
  | _ => 0 ≤ j.(j_attempts) ≤ j.(j_max_attempts)
  end.

(** The final failures already recorded in the table but not yet reported. *)
Definition owed (id : string) (pend : list string) : nat := length (filter (eq id) pend).

Definition reported_once (w : World) (pend : list string) (j : Job) : Prop :=
  (give_ups j.(j_id) w.(w_log) + owed j.(j_id) pend)%nat = if decide (j.(j_state) = JFailed) then 1%nat else 0%nat.

Definition queue_ok (pend : list string) (w : World) : Prop :=
  (∀ id j, w.(w_db).(jobs) !! id = Some j → j.(j_id) = id ∧ attempts_ok j ∧ reported_once w pend j) ∧
  (∀ id, w.(w_db).(jobs) !! id = None → give_ups id w.(w_log) = 0%nat).

Lemma queue_ok_ext pend w w' :
  w'.(w_db).(jobs) = w.(w_db).(jobs) → (∀ id, give_ups id w'.(w_log) = give_ups id w.(w_log)) →
  queue_ok pend w → queue_ok pend w'.
Proof.
  intros Hj Hg [H1 H2]. split.
  - intros id j. rewrite Hj. intros H. destruct (H1 _ _ H) as (?&?&?). unfold reported_once in *. by rewrite Hg.
  - intros id. rewrite Hj, Hg. apply H2.
Qed.

Lemma same_queue_ok pend w w' : same_queue w w' → queue_ok pend w → queue_ok pend w'.
Proof. intros (Hj & _ & Hg). by apply queue_ok_ext. Qed.

Lemma queue_ok_live pend w l : queue_ok pend w → queue_ok pend (put_live l w).
Proof. done. Qed.

Lemma same_queue_refl w : same_queue w w.
Proof. done. Qed.
Lemma same_queue_trans w1 w2 w3 : same_queue w1 w2 → same_queue w2 w3 → same_queue w1 w3.
Proof. intros (?&?&?) (?&?&?). split_and!; try congruence. Qed.

(** A conditional UPDATE of one row keeps the invariant when it keeps the
    row's own part of it. *)
Lemma queue_ok_upd pend w id p f :
  (∀ j, w.(w_db).(jobs) !! id = Some j → p j = true → attempts_ok j → reported_once w pend j →
     attempts_ok (f j) ∧ (f j).(j_id) = j.(j_id) ∧ reported_once w pend (f j)) →
  queue_ok pend w → queue_ok pend (put_db (upd_job_if id p f w.(w_db)) w).
Proof.
  intros Hf [H1 H2]. unfold upd_job_if. split; simpl.
  - intros i j. rewrite lookup_alter. case_decide as Hi; [subst|apply H1].
    destruct (w.(w_db).(jobs) !! i) as [j0|] eqn:E; simpl; [|done].
    destruct (H1 _ _ E) as (Hid & Ha & Hr). intros [= <-]. destruct (p j0) eqn:Ep; [|done].
    destruct (Hf j0 eq_refl Ep Ha Hr) as (?&Hid'&?). by rewrite Hid'.
  - intros i. rewrite lookup_alter. case_decide; [subst|apply H2].
    destruct (w.(w_db).(jobs) !! i) eqn:E; [done|]. intros _. by apply H2.
Qed.

(** Whose each job is: no statement of the queue changes that. *)
Definition owners (w : World) : gmap string string := j_sandbox_id <$> w.(w_db).(jobs).

Lemma owners_upd id f d :
  (∀ j, (f j).(j_sandbox_id) = j.(j_sandbox_id)) →
  j_sandbox_id <$> (upd_job id f d).(jobs) = j_sandbox_id <$> d.(jobs).
Proof.
  intros Hf. apply map_eq. intros i. rewrite !lookup_fmap. simpl. rewrite lookup_alter.
  case_decide; [|done]. subst. destruct (d.(jobs) !! i); simpl; [|done]. by rewrite Hf.
Qed.

Section queue_invariant.
Context (handlers : Handlers) `{!HandlersOk handlers}.

Lemma queue_ok_enqueue id sb k dl args w :
  queue_ok [] w → queue_ok [] (enqueue handlers id sb k dl args w).2.
Proof.
  intros Hw. unfold enqueue, handler_of. destruct (hs_total k) as [h Hh]. rewrite Hh. run.
  destruct (get_job id w.(w_db)) eqn:Hn; simpl is_none; run; [done|]. destruct Hw as [H1 H2]. split; simpl.
  - intros i j. rewrite lookup_insert. case_decide as Hi; [subst|apply H1]. intros [= <-].
    split_and!; [done| |].
    + pose proof (hs_attempts _ _ Hh). split; simpl; lia.
    + unfold reported_once. simpl. by rewrite (H2 _ Hn).
  - intros i. rewrite lookup_insert. case_decide; [done|apply H2].
Qed.

Lemma queue_ok_cancel sb w :
  queue_ok [] w → queue_ok [] (put_db (cancel_sandbox_jobs w.(w_clock) sb w.(w_db)) w).
Proof.
  intros [H1 H2]. split; simpl.
  - intros i j. rewrite lookup_fmap. destruct (w.(w_db).(jobs) !! i) as [j0|] eqn:E; simpl; [|done].
    intros [= <-]. destruct (H1 _ _ E) as (Hid & Ha & Hr).
    destruct (bool_decide _ && is_state JQueued j0) eqn:Ec; [|done].
    apply andb_true_iff in Ec as [_ Hq]. apply bool_decide_eq_true in Hq.
    unfold attempts_ok, reported_once in *. simpl. rewrite Hq in *. naive_solver lia.
  - intros i. rewrite lookup_fmap. destruct (w.(w_db).(jobs) !! i) eqn:E; [done|]. intros _. by apply H2.
Qed.

(** *** One claim *)
Lemma claim_spec job w :
  queue_ok [] w →
  let '(r, w') := claim job w in
  queue_ok [] w' ∧ owners w' = owners w ∧
  match r with
  | Ok (Some c) =>
      w.(w_live) !! job.(j_sandbox_id) = None ∧ c.(j_id) = job.(j_id) ∧ 1 ≤ c.(j_attempts) ∧
      w'.(w_db).(jobs) !! c.(j_id) = Some c ∧ c.(j_state) = JRunning ∧
      w'.(w_live) = <[c.(j_sandbox_id) := c.(j_id)]> w.(w_live)
  | Ok None => w' = w
  | Err _ => False
  end.
Proof.
  intros Hw. unfold claim. run.
  destruct (w.(w_live) !! job.(j_sandbox_id)) eqn:Hl; run; [done|].
  destruct (get_job job.(j_id) w.(w_db)) as [r|] eqn:Hr; run; [|done].
  destruct (is_state JQueued r) eqn:Hq; run; [|done].
  unfold get_job in *. simpl. rewrite lookup_alter, decide_True, Hr by done. simpl. rewrite Hq. run.
  pose proof (proj1 Hw _ _ Hr) as (Hid & Hatt & _).
  assert (Hq' := Hq). apply bool_decide_eq_true in Hq'.
  split_and!; try done.
  - eapply (queue_ok_upd [] w job.(j_id) (is_state JQueued)
      (λ j, j_set_state JRunning (j_set_attempts (j_attempts j + 1) (j_set_updated_at w.(w_clock) j)))) in Hw.
    { by apply queue_ok_live. }
    intros j _ Hj%bool_decide_eq_true Ha Hrep. unfold attempts_ok, reported_once in *. simpl.
    rewrite Hj in *. simpl in *. split_and!; [lia..|done|done].
  - apply owners_upd. intros j. by destruct (is_state JQueued j).
  - unfold attempts_ok in Hatt. rewrite Hq' in Hatt. simpl. lia.
  - simpl. rewrite Hid, lookup_alter, decide_True by done. rewrite Hr. simpl. by rewrite Hq.
Qed.

(** *** Reporting and recording final failures *)
Lemma queue_ok_perm pend pend' w : pend ≡ₚ pend' → queue_ok pend w → queue_ok pend' w.
Proof.
  intros HP [H1 H2]. split; [|done]. intros id j Hj. destruct (H1 _ _ Hj) as (?&?&Hr).
  split_and!; [done..|]. unfold reported_once, owed in *. by rewrite <- HP.
Qed.

Lemma give_up_spec job error pend w :
  queue_ok (job.(j_id) :: pend) w → is_Some (w.(w_db).(jobs) !! job.(j_id)) →
  let '(r, w') := give_up_ handlers job error w in
  r = Ok tt ∧ queue_ok pend w' ∧ w'.(w_db).(jobs) = w.(w_db).(jobs) ∧ w'.(w_live) = w.(w_live).
Proof.
  intros [H1 H2] Hin. unfold give_up_, handler_of. run. destruct (hs_total job.(j_kind)) as [h Hh]. rewrite Hh. run.
  set (w1 := put_log _ w).
  assert (queue_ok pend w1) as Hw1.
  { split; simpl.
    - intros id j Hj. destruct (H1 _ _ Hj) as (Hid & Ha & Hr). split_and!; [done..|].
      unfold reported_once, owed in *. simpl in *. rewrite give_ups_app, give_ups_one.
      rewrite filter_cons in Hr. repeat case_decide; simpl in *; try congruence; lia.
    - intros id Hn. rewrite give_ups_app, give_ups_one, H2 by done. case_decide; [|done]. subst.
      rewrite Hn in Hin. by destruct Hin. }
  destruct h.(h_failed) as [f|] eqn:Hf; run; [|done].
  pose proof (hs_failed _ _ f job error w1 Hh Hf) as Hs. unfold try_.
  destruct (f job error w1) as [[[]|e] w2]; run; simpl in Hs; destruct Hs as (?&?&?);
    (split_and!; [done|by eapply same_queue_ok|done..]).
Qed.

Lemma give_ups_spec (l : list (Job * string)) pend w :
  queue_ok (((λ p, p.1.(j_id)) <$> l) ++ pend) w →
  (∀ p, p ∈ l → is_Some (w.(w_db).(jobs) !! p.1.(j_id))) →
  let '(r, w') := for_ l (λ p, give_up_ handlers p.1 p.2) w in
  r = Ok tt ∧ queue_ok pend w' ∧ w'.(w_db).(jobs) = w.(w_db).(jobs) ∧ w'.(w_live) = w.(w_live).
Proof.
  revert w. induction l as [|[j e] l IH]; intros w Hw Hin; simpl; run; [done|].
  pose proof (give_up_spec j e _ w Hw ltac:(apply (Hin (j, e)); left)) as Hg.
  destruct (give_up_ handlers j e w) as [r w1] eqn:E. destruct Hg as (-> & Hw1 & Hj1 & Hl1).
  rewrite (bind_ok _ _ _ _ _ E).
  specialize (IH w1 Hw1). rewrite Hj1 in IH. specialize (IH ltac:(intros p Hp; apply Hin; by right)).
  destruct (for_ l _ w1) as [r2 w2]. destruct IH as (?&?&?&?). split_and!; congruence || done.
Qed.

Lemma finish_failed_ok id error pend w j :
  queue_ok pend w → w.(w_db).(jobs) !! id = Some j → active j.(j_state) = true →
  queue_ok (id :: pend) (put_db (finish_job w.(w_clock) JFailed (Some error) id w.(w_db)) w).
Proof.
  intros [H1 H2] Hj Hact. split; simpl.
  - intros i j1. rewrite lookup_alter. case_decide as Hi; simpl.
    + subst i. rewrite Hj. simpl. rewrite Hact. intros [= <-]. destruct (H1 _ _ Hj) as (Hid & Ha & Hr).
      split_and!; [done| |].
      * unfold attempts_ok in *. simpl. destruct j.(j_state); naive_solver lia.
      * unfold reported_once, owed in *. simpl. rewrite Hid in *. rewrite filter_cons, decide_True by done.
        rewrite decide_False in Hr by (destruct j.(j_state); done). simpl. lia.
    + intros Hj1. destruct (H1 _ _ Hj1) as (Hid & Ha & Hr). split_and!; [done..|].
      unfold reported_once, owed in *. simpl. rewrite filter_cons, decide_False; [done|congruence].
  - intros i. rewrite lookup_alter. case_decide; [subst; by rewrite Hj|apply H2].
Qed.

Lemma finish_succeeded_ok id e pend w :
  queue_ok pend w → queue_ok pend (put_db (finish_job w.(w_clock) JSucceeded e id w.(w_db)) w).
Proof.
  apply queue_ok_upd. intros j _ Hact Ha Hr. unfold attempts_ok, reported_once in *. simpl.
  destruct j.(j_state); simpl in *; try done; naive_solver lia.
Qed.

(** *** How an execution ends *)
Lemma fail_spec job error w c :
  queue_ok [] w → w.(w_db).(jobs) !! job.(j_id) = Some c → active c.(j_state) = true →
  let '(r, w') := give_up_ handlers job error
    (put_db (finish_job w.(w_clock) JFailed (Some error) job.(j_id) w.(w_db)) w) in
  r = Ok tt ∧ queue_ok [] w' ∧ w'.(w_live) = w.(w_live).
Proof.
  intros Hw Hc Hact.
  pose proof (give_up_spec job error [] _ (finish_failed_ok _ error _ _ _ Hw Hc Hact)) as Hg.
  destruct (give_up_ _ _ _ _) as [r w']. destruct Hg as (?&?&?&?); [|done].
  simpl. by rewrite lookup_alter, decide_True, Hc.
Qed.

Lemma retry_or_fail_spec job h error w :
  queue_ok [] w → handlers job.(j_kind) = Some h → 1 ≤ job.(j_attempts) →
  let '(r, w') := retry_or_fail handlers job h error w in
  r = Ok tt ∧ queue_ok [] w' ∧ w'.(w_live) = w.(w_live).
Proof.
  intros Hw Hh Hatt. unfold retry_or_fail.
  destruct (py_index_in_range h.(h_backoff)
    (Z.min (job.(j_attempts) - 1) (Z.of_nat (length h.(h_backoff)) - 1))) as [delay Hd].
  { pose proof (hs_backoff _ _ Hh). destruct h.(h_backoff); [done|]. simpl length. lia. }
  rewrite Hd. run. unfold get_job.
  destruct (w.(w_db).(jobs) !! job.(j_id)) as [c|] eqn:Hc; run; [|done].
  destruct (is_state JRunning c) eqn:Hrun; simpl negb; run; [|done].
  destruct (bool_decide _ && _) eqn:Hcond; run.
  - split_and!; [done| |done]. apply queue_ok_upd; [|done].
    intros j Hj Hjr%bool_decide_eq_true Ha Hr. rewrite Hc in Hj. injection Hj as <-.
    apply andb_true_iff in Hcond as [Hlt%bool_decide_eq_true _].
    unfold attempts_ok, reported_once in *. simpl. rewrite Hjr in *. naive_solver lia.
  - apply bool_decide_eq_true in Hrun. apply (fail_spec job error w c); [done..|by rewrite Hrun].
Qed.

Lemma defer_spec job reason window w :
  queue_ok [] w →
  let '(r, w') := defer handlers job reason window w in
  r = Ok tt ∧ queue_ok [] w' ∧ w'.(w_live) = w.(w_live).
Proof.
  intros Hw. unfold defer. run. unfold get_job.
  destruct (w.(w_db).(jobs) !! job.(j_id)) as [c|] eqn:Hc; run; [|done].
  destruct (is_state JRunning c) eqn:Hrun; simpl negb; run; [|done].
  case_bool_decide; run.
  - split_and!; [done| |done]. apply queue_ok_upd; [|done].
    intros j _ Hjr%bool_decide_eq_true Ha Hr.
    unfold attempts_ok, reported_once in *. simpl. rewrite Hjr in *. naive_solver lia.
  - apply bool_decide_eq_true in Hrun. apply (fail_spec job _ w c); [exact Hw|exact Hc|by rewrite Hrun].
Qed.

Lemma settle_spec job h outcome w :
  queue_ok [] w → handlers job.(j_kind) = Some h → 1 ≤ job.(j_attempts) →
  let '(r, w') := settle handlers job h outcome w in
  r = Ok tt ∧ queue_ok [] w' ∧ w'.(w_live) = w.(w_live).
Proof.
  intros Hw Hh Ha. destruct outcome as [[]|e]; simpl; run.
  - split_and!; [done| |done]. by apply finish_succeeded_ok.
  - destruct e; by (apply defer_spec || apply retry_or_fail_spec).
Qed.

(** *** Expiring, recovering *)
Lemma jobs_by_state_ids s pend w :
  queue_ok pend w → NoDup (j_id <$> list_jobs_by_state s w.(w_db)).
Proof.
  intros [H1 _]. unfold list_jobs_by_state, order_by. rewrite merge_sort_Permutation.
  eapply sublist_NoDup; [|apply fmap_sublist, sublist_filter]. unfold rows.
  rewrite <- list_fmap_compose.
  assert ((j_id ∘ snd) <$> map_to_list w.(w_db).(jobs) = (map_to_list w.(w_db).(jobs)).*1) as ->.
  { apply list_fmap_ext. intros i [id j] Hi%list_elem_of_lookup_2%elem_of_map_to_list. simpl.
    by destruct (H1 _ _ Hi). }
  apply NoDup_fst_map_to_list.
Qed.

Lemma overdue_ids now l : sublist ((λ p, p.1.(j_id)) <$> omap (overdue now) l) (j_id <$> l).
Proof.
  induction l as [|j l IH]; simpl; [constructor|]. unfold overdue at 1.
  destruct j.(j_deadline); simpl; [case_bool_decide; simpl|]; by constructor.
Qed.

Lemma finish_all_spec (late : list (Job * string)) pend w :
  queue_ok pend w → NoDup ((λ p, p.1.(j_id)) <$> late) →
  (∀ p, p ∈ late → ∃ j, w.(w_db).(jobs) !! p.1.(j_id) = Some j ∧ active j.(j_state) = true) →
  let '(r, w') := for_ late (λ p, exec (λ now, finish_job now JFailed (Some p.2) p.1.(j_id))) w in
  r = Ok tt ∧ queue_ok (((λ p, p.1.(j_id)) <$> late) ++ pend) w' ∧
  w'.(w_live) = w.(w_live) ∧ dom w'.(w_db).(jobs) = dom w.(w_db).(jobs).
Proof.
  revert pend w. induction late as [|[j0 e] late IH]; intros pend w Hw Hnd Hin; simpl; run; [done|].
  apply NoDup_cons in Hnd as [Hn Hnd].
  destruct (Hin (j0, e)) as (j & Hj & Hact); [left|]. simpl in *.
  specialize (IH (j0.(j_id) :: pend) _ (finish_failed_ok _ e _ _ _ Hw Hj Hact) Hnd).
  destruct (for_ late _ _) as [r w'].
  destruct IH as (-> & Hok & Hl & Hd).
  - intros p Hp. destruct (Hin p) as (j' & Hj' & Hact'); [by right|].
    exists j'. simpl. rewrite lookup_alter_ne; [done|]. intros Heq. apply Hn. rewrite Heq.
    apply list_elem_of_fmap. eauto.
  - split_and!; [done| |done|].
    + eapply queue_ok_perm, Hok. symmetry. apply Permutation_middle.
    + rewrite Hd. simpl. apply dom_alter_L.
Qed.

Lemma expire_state_spec now s pend w :
  active s = true → queue_ok pend w →
  ∃ late w', expire_state now s w = (Ok late, w') ∧
    queue_ok (((λ p, p.1.(j_id)) <$> late) ++ pend) w' ∧ w'.(w_live) = w.(w_live) ∧
    dom w'.(w_db).(jobs) = dom w.(w_db).(jobs) ∧
    (∀ p, p ∈ late → p.1.(j_id) ∈ dom w.(w_db).(jobs)).
Proof.
  intros Hs Hw. unfold expire_state. run. set (late := omap _ _).
  assert (∀ p, p ∈ late → ∃ j, w.(w_db).(jobs) !! p.1.(j_id) = Some j ∧ active j.(j_state) = true) as Hin.
  { intros [j e] (j' & Hj' & Ho)%list_elem_of_omap.
    apply elem_of_list_jobs_by_state in Hj' as [Hst [i Hi]].
    unfold overdue in Ho. destruct j'.(j_deadline); [|done]. case_bool_decide; [|done]. simplify_eq/=.
    destruct (proj1 Hw _ _ Hi) as [-> _]. eauto. }
  pose proof (finish_all_spec late pend w Hw
    ltac:(eapply sublist_NoDup; [by eapply jobs_by_state_ids|apply overdue_ids]) Hin) as Hf.
  destruct (for_ late _ w) as [r w'] eqn:E. destruct Hf as (-> & Hok & Hl & Hd).
  exists late, w'. rewrite (bind_ok _ _ _ _ _ E). split_and!; try done.
  intros p Hp. destruct (Hin p Hp) as (j & Hj & _). apply elem_of_dom. eauto.
Qed.

Lemma expire_spec w :
  queue_ok [] w →
  let '(r, w') := expire handlers w in
  r = Ok tt ∧ queue_ok [] w' ∧ w'.(w_live) = w.(w_live).
Proof.
  intros Hw. unfold expire. run.
  destruct (expire_state_spec (w.(w_clock) + sec 0) JRunning [] w eq_refl Hw)
    as (l1 & w1 & E1 & Hw1 & Hl1 & Hd1 & Hin1).
  rewrite (bind_ok _ _ _ _ _ E1).
  destruct (expire_state_spec (w.(w_clock) + sec 0) JQueued _ w1 eq_refl Hw1)
    as (l2 & w2 & E2 & Hw2 & Hl2 & Hd2 & Hin2).
  rewrite (bind_ok _ _ _ _ _ E2).
  pose proof (give_ups_spec (l1 ++ l2) [] w2) as Hg.
  destruct (for_ (l1 ++ l2) _ w2) as [r w']. destruct Hg as (?&?&?&?); [| |split_and!; congruence || done].
  - eapply queue_ok_perm, Hw2. rewrite fmap_app, !app_nil_r. apply Permutation_app_comm.
  - intros p [Hp|Hp]%elem_of_app; apply elem_of_dom; rewrite Hd2; [rewrite Hd1; auto|auto].
Qed.

Lemma requeue_all_ok {A} (f : A → string) (e : option string) l w :
  queue_ok [] w →
  let '(r, w') := for_ l (λ x, exec (λ now, requeue_job now e (f x))) w in
  r = Ok tt ∧ queue_ok [] w' ∧ w'.(w_live) = w.(w_live).
Proof.
  revert w. induction l as [|x l IH]; intros w Hw; simpl; run; [done|].
  set (w1 := put_db _ w).
  assert (queue_ok [] w1) as Hw1.
  { apply queue_ok_upd; [|done]. intros j _ Hjr%bool_decide_eq_true Ha Hr.
    unfold attempts_ok, reported_once in *. simpl. rewrite Hjr in *. naive_solver lia. }
  specialize (IH w1 Hw1). destruct (for_ l _ w1) as [r w']. done.
Qed.

(** *** Claiming a batch *)

(** The threads of the worker and the live table agree: every thread holds its
    sandbox's entry, every entry has its thread, and no two threads share a
    sandbox. *)
Definition threads_ok (live : gmap string string) (ts : list Job) : Prop :=
  NoDup (j_sandbox_id <$> ts) ∧
  (∀ sb id, live !! sb = Some id ↔ ∃ t, t ∈ ts ∧ t.(j_sandbox_id) = sb ∧ t.(j_id) = id) ∧
  (∀ t, t ∈ ts → 1 ≤ t.(j_attempts)).

Lemma threads_ok_cons live ts c :
  threads_ok live ts → live !! c.(j_sandbox_id) = None → 1 ≤ c.(j_attempts) →
  threads_ok (<[c.(j_sandbox_id) := c.(j_id)]> live) (c :: ts).
Proof.
  intros (Hnd & Hl & Ha) Hn Hc. split_and!.
  - csimpl. apply NoDup_cons. split; [|done]. intros (t & Ht & Hin)%list_elem_of_fmap.
    assert (live !! c.(j_sandbox_id) = Some t.(j_id)) by (apply Hl; eauto). congruence.
  - intros sb id. rewrite lookup_insert. case_decide; subst; split.
    + intros [= <-]. exists c. split; [left|done].
    + intros (t & [->|Hin]%elem_of_cons & Hsb & <-); [done|]. exfalso.
      assert (live !! c.(j_sandbox_id) = Some t.(j_id)) by (apply Hl; eauto). congruence.
    + intros (t & Hin & ? & ?)%Hl. exists t. split; [by right|done].
    + intros (t & [->|Hin]%elem_of_cons & Hsb & <-); [done|]. apply Hl. eauto.
  - intros t [->|Hin]%elem_of_cons; auto.
Qed.

Lemma claim_due_spec closing due w ts :
  queue_ok [] w → threads_ok w.(w_live) ts → (size w.(w_live) ≤ PARALLEL)%nat →
  (∀ job, job ∈ due → owners w !! job.(j_id) = Some job.(j_sandbox_id)) →
  ∃ cs w', claim_due closing due w = (Ok cs, w') ∧ queue_ok [] w' ∧
    (∃ ts', ts' ≡ₚ cs ++ ts ∧ threads_ok w'.(w_live) ts') ∧ (size w'.(w_live) ≤ PARALLEL)%nat.
Proof.
  revert w ts. induction due as [|job due IH]; intros w ts Hw Ht Hsz Hdue; simpl; run.
  { exists [], w. split_and!; try done. by exists ts. }
  destruct (closing || bool_decide (PARALLEL ≤ size w.(w_live))%nat) eqn:Hfull; run.
  { exists [], w. split_and!; try done. by exists ts. }
  apply orb_false_iff in Hfull as [_ Hroom%bool_decide_eq_false].
  pose proof (claim_spec job w Hw) as Hc.
  destruct (claim job w) as [r w1] eqn:E. destruct Hc as (Hw1 & Hown & Hr).
  assert (∀ job', job' ∈ due → owners w1 !! job'.(j_id) = Some job'.(j_sandbox_id)) as Hdue1.
  { intros job' Hj'. rewrite Hown. apply Hdue. by right. }
  destruct r as [[c|]|]; [| |done]; rewrite (bind_ok _ _ _ _ _ E).
  - destruct Hr as (Hn & Hid & Hatt & Hrow & Hst & Hlive).
    assert (c.(j_sandbox_id) = job.(j_sandbox_id)) as Hsb.
    { pose proof (Hdue job ltac:(left)) as Ho. rewrite <- Hown in Ho. unfold owners in Ho.
      rewrite <- Hid, lookup_fmap, Hrow in Ho. by injection Ho. }
    rewrite <- Hsb in Hn.
    destruct (IH w1 (c :: ts)) as (cs & w' & E' & Hw' & (ts' & HP & Ht') & Hsz'); [done| | |done|].
    + rewrite Hlive. by apply threads_ok_cons.
    + rewrite Hlive, map_size_insert_None by done. lia.
    + rewrite (bind_ok _ _ _ _ _ E'). exists (c :: cs), w'. split_and!; try done.
      exists ts'. split; [|done]. rewrite HP. simpl. symmetry. apply Permutation_middle.
  - subst w1. destruct (IH w ts Hw Ht Hsz Hdue1) as (cs & w' & E' & ?&?&?). rewrite (bind_ok _ _ _ _ _ E').
    exists cs, w'. split_and!; done.
Qed.
End queue_invariant.

(** ** One worker process

    A worker is a world and the jobs its threads are executing.  A step is one
    turn of the poll loop, the end of one thread's handler (with any outcome),
    a request that enqueues or cancels, other work of the process that leaves
    the queue alone, time passing, the requeueing of a shutdown, or a restart
    that loses every thread and recovers. *)

Record Worker := mkWorker {
  wk_world : World;
  wk_threads : list Job
}.

Definition tick (dt : Z) (w : World) : World :=
  mkWorld w.(w_db) (w.(w_clock) + dt) w.(w_live) w.(w_booted) w.(w_attached) w.(w_log).

Section worker.
Context (handlers : Handlers).

Inductive worker_step : Worker → Worker → Prop :=
| step_poll closing w ts cs w' :
    poll handlers closing w = (Ok cs, w') →
    worker_step (mkWorker w ts) (mkWorker w' (cs ++ ts))
| step_settle job h outcome w ts1 ts2 r w' :
    handlers job.(j_kind) = Some h →
    finally (settle handlers job h outcome) (release_live job;; kick) w = (r, w') →
    worker_step (mkWorker w (ts1 ++ job :: ts2)) (mkWorker w' (ts1 ++ ts2))
| step_enqueue id sb k dl args w ts r w' :
    enqueue handlers id sb k dl args w = (r, w') →
    worker_step (mkWorker w ts) (mkWorker w' ts)
| step_cancel sb w ts :
    worker_step (mkWorker w ts) (mkWorker (put_db (cancel_sandbox_jobs w.(w_clock) sb w.(w_db)) w) ts)
| step_other w ts w' :
    same_queue w w' → worker_step (mkWorker w ts) (mkWorker w' ts)
| step_tick dt w ts :
    0 ≤ dt → worker_step (mkWorker w ts) (mkWorker (tick dt w) ts)
| step_shutdown w ts r w' :
    shutdown w = (r, w') → worker_step (mkWorker w ts) (mkWorker w' ts)
| step_restart w ts r w' :
    recover (put_live ∅ w) = (r, w') → worker_step (mkWorker w ts) (mkWorker w' []).

(** A fresh installation: no jobs, no threads, nothing reported. *)
Definition worker_init (s : Worker) : Prop :=
  s.(wk_threads) = [] ∧ s.(wk_world).(w_live) = ∅ ∧ s.(wk_world).(w_db).(jobs) = ∅ ∧
  s.(wk_world).(w_log) = [].

Definition worker_reachable : Worker → Prop := reachable worker_init worker_step.

Definition worker_ok (s : Worker) : Prop :=
  queue_ok [] s.(wk_world) ∧
  (∃ ts, ts ≡ₚ s.(wk_threads) ∧ threads_ok s.(wk_world).(w_live) ts) ∧
  (size s.(wk_world).(w_live) ≤ PARALLEL)%nat.

Lemma threads_ok_perm live ts ts' : ts ≡ₚ ts' → threads_ok live ts → threads_ok live ts'.
Proof.
  intros HP (H1 & H2 & H3). split_and!.
  - by rewrite <- HP.
  - intros sb id. rewrite H2. by setoid_rewrite HP.
  - intros t. rewrite <- HP. apply H3.
Qed.

Lemma threads_ok_remove live job ts :
  threads_ok live (job :: ts) → threads_ok (delete job.(j_sandbox_id) live) ts.
Proof.
  intros (Hnd & Hl & Ha). csimpl in *. apply NoDup_cons in Hnd as [Hn Hnd]. split_and!; [done| |].
  - intros sb id. rewrite lookup_delete. case_decide; subst.
    + split; [done|]. intros (t & Hin & Hsb & _). exfalso. apply Hn, list_elem_of_fmap. eauto.
    + rewrite Hl. split; [|by intros (t & ? & ?); exists t; split; [right|]].
      intros (t & [->|Hin]%elem_of_cons & ? & ?); [done|eauto].
  - intros t Hin. apply Ha. by right.
Qed.

Context `{!HandlersOk handlers}.

Lemma worker_step_ok s s' : worker_ok s → worker_step s s' → worker_ok s'.
Proof.
  intros (Hq & (ts0 & HP & Ht) & Hsz) Hstep.
  inversion Hstep as [closing w ts cs w' E|job h outcome w ts1 ts2 r w' Hh E|id sb k dl args w ts r w' E
    |sb w ts|w ts w' Hs|dt w ts Hdt|w ts r w' E|w ts r w' E]; subst; simpl in *.
  - unfold poll in E. pose proof (expire_spec handlers w Hq) as He.
    destruct (expire handlers w) as [r1 w1] eqn:E1. destruct He as (-> & Hq1 & Hl1).
    rewrite (bind_ok _ _ _ _ _ E1) in E. run_in E.
    destruct (claim_due_spec closing (list_due_jobs w1.(w_clock) w1.(w_db)) w1 ts0)
      as (cs' & w2 & E2 & Hq2 & (ts' & HP' & Ht') & Hsz'); [done|by rewrite Hl1|by rewrite Hl1| |].
    { intros job. unfold list_due_jobs. rewrite elem_of_order_by, list_elem_of_filter, elem_of_rows.
      intros [_ [i Hi]]. destruct (proj1 Hq1 _ _ Hi) as [-> _]. unfold owners. by rewrite lookup_fmap, Hi. }
    rewrite E2 in E. simplify_eq. split_and!; [done| |done].
    exists ts'. split; [|done]. simpl. by rewrite HP', HP.
  - unfold finally in E.
    assert (1 ≤ job.(j_attempts)) as Hatt.
    { apply (proj2 (proj2 Ht)). rewrite HP. set_solver. }
    pose proof (settle_spec handlers job h outcome w Hq Hh Hatt) as Hse.
    destruct (settle handlers job h outcome w) as [r1 w1]. destruct Hse as (-> & Hq1 & Hl1).
    unfold release_live, kick in E. run_in E. simplify_eq.
    rewrite bool_decide_true.
    2:{ rewrite Hl1. apply (proj1 (proj2 Ht)). exists job. rewrite HP. split; [set_solver|done]. }
    rewrite Hl1.
    split_and!; simpl.
    + eapply same_queue_ok; [|exact (queue_ok_live _ _ (delete job.(j_sandbox_id) w.(w_live)) Hq1)].
      split_and!; [done..|]. intros id. simpl. rewrite give_ups_app. unfold give_ups at 2.
      rewrite filter_cons_False, filter_nil by auto. simpl. lia.
    + exists (ts1 ++ ts2). split; [done|]. eapply threads_ok_remove, threads_ok_perm, Ht.
      rewrite HP. symmetry. apply Permutation_middle.
    + etrans; [|exact Hsz]. apply map_subseteq_size, delete_subseteq.
  - pose proof (queue_ok_enqueue handlers id sb k dl args w Hq) as Hq'.
    assert (w'.(w_live) = w.(w_live)) as Hl.
    { revert E. unfold enqueue, handler_of. destruct (handlers k); run; [|by intros [=<- <-]].
      destruct (get_job id w.(w_db)); simpl is_none; run; by intros [=<- <-]. }
    rewrite E in Hq'. split_and!; simpl; [done|exists ts0; by rewrite Hl|by rewrite Hl].
  - split_and!; [by apply queue_ok_cancel|by exists ts0|done].
  - destruct Hs as (Hj & Hl & Hg). split_and!; simpl; [by eapply same_queue_ok|exists ts0; by rewrite Hl|by rewrite Hl].
  - split_and!; [done|by exists ts0|done].
  - unfold shutdown in E. run_in E.
    pose proof (requeue_all_ok snd (Some "interrupted by a shutdown") (map_to_list w.(w_live)) w Hq) as Hr.
    simpl in E. rewrite E in Hr. destruct Hr as (_ & ? & Hl).
    split_and!; simpl; [done|exists ts0; by rewrite Hl|by rewrite Hl].
  - unfold recover in E. run_in E.
    pose proof (requeue_all_ok j_id (Some "interrupted by a restart")
      (list_jobs_by_state JRunning w.(w_db)) (put_live ∅ w) (queue_ok_live _ _ _ Hq)) as Hr.
    simpl in E. rewrite E in Hr. destruct Hr as (_ & ? & Hl).
    split_and!; simpl; [done| |rewrite Hl; simpl; rewrite map_size_empty; unfold PARALLEL; lia].
    exists []. split; [done|]. rewrite Hl. split_and!; [constructor| |set_solver].
    intros sb id. simpl. rewrite lookup_empty. split; [done|]. intros (t & Hin & _). by apply not_elem_of_nil in Hin.
Qed.

Lemma worker_reachable_ok s : worker_reachable s → worker_ok s.
Proof.
  apply reachable_invariant; [|apply worker_step_ok].
  intros [w ts] (Hts & Hl & Hj & Hlog). simpl in *. subst. split_and!; simpl.
  - split; intros id; rewrite Hj, lookup_empty; [done|]. intros _. by rewrite Hlog.
  - exists []. rewrite Hl. split; [done|]. split_and!; [constructor| |set_solver].
    intros sb id. rewrite lookup_empty. split; [done|]. intros (t & Hin & _). by apply not_elem_of_nil in Hin.
  - rewrite Hl, map_size_empty. unfold PARALLEL. lia.
Qed.
End worker.

(** ** One execution in detail *)

Section one_execution.
Context (handlers : Handlers) `{!HandlersOk handlers}.

(** The delay before the next attempt. *)
Definition backoff_delay (h : Handler) (attempts : Z) : option Z :=
  py_index h.(h_backoff) (Z.min (attempts - 1) (Z.of_nat (length h.(h_backoff)) - 1)).

Lemma backoff_delay_Some k h attempts :
  handlers k = Some h → 1 ≤ attempts → is_Some (backoff_delay h attempts).
Proof.
  intros Hh Ha. apply py_index_in_range. pose proof (hs_backoff _ _ Hh).
  destruct h.(h_backoff); [done|]. simpl length. lia.
Qed.

(** Whether an error leaves the job another attempt, [again] being when. *)
Definition may_retry (c : Job) (again : time) : bool :=
  bool_decide (c.(j_attempts) < c.(j_max_attempts))
  && match c.(j_deadline) with None => true | Some dl => bool_decide (again < dl) end.

Lemma retry_or_fail_row job h error w c delay :
  queue_ok [] w → handlers job.(j_kind) = Some h → 1 ≤ job.(j_attempts) →
  w.(w_db).(jobs) !! job.(j_id) = Some c → c.(j_state) = JRunning →
  backoff_delay h job.(j_attempts) = Some delay →
  ∃ c' w', retry_or_fail handlers job h error w = (Ok tt, w') ∧
    w'.(w_db).(jobs) !! job.(j_id) = Some c' ∧ c'.(j_attempts) = c.(j_attempts) ∧
    c'.(j_last_error) = Some error ∧ c'.(j_max_attempts) = c.(j_max_attempts) ∧ c'.(j_deadline) = c.(j_deadline) ∧
    c'.(j_kind) = c.(j_kind) ∧ c'.(j_sandbox_id) = c.(j_sandbox_id) ∧
    if may_retry c (w.(w_clock) + sec delay)
    then c'.(j_state) = JQueued ∧ c'.(j_run_after) = w.(w_clock) + sec delay
    else c'.(j_state) = JFailed.
Proof.
  intros Hw Hh Ha Hc Hst Hd. unfold retry_or_fail. unfold backoff_delay in Hd. rewrite Hd. run.
  unfold get_job. rewrite Hc. assert (is_state JRunning c = true) as Hr by (by apply bool_decide_eq_true).
  rewrite Hr. cbn [negb]. fold (may_retry c (w.(w_clock) + sec delay)).
  destruct (may_retry c _); run.
  - eexists _, _. split; [done|]. simpl. rewrite lookup_alter, decide_True, Hc by done. simpl.
    rewrite Hr. by split_and!.
  - pose proof (give_up_spec handlers job error []
      _ (finish_failed_ok _ error _ _ _ Hw Hc ltac:(by rewrite Hst))) as Hg.
    destruct (give_up_ _ _ _ _) as [r w']. destruct Hg as (-> & _ & Hj & _).
    { simpl. by rewrite lookup_alter, decide_True, Hc. }
    eexists _, _. split; [done|]. rewrite Hj. simpl. rewrite lookup_alter, decide_True, Hc by done. simpl.
    rewrite Hst. simpl. by split_and!.
Qed.

(** Claims a job and executes it, as one turn of [drain]'s inner loop does. *)
Definition try_once (job : Job) : M World unit :=
  c ← claim job; match c with Some c => execute handlers c | None => mret tt end.

Fixpoint try_times (n : nat) (job : Job) : M World unit :=
  match n with
  | O => mret tt
  | S n' => try_once job;; try_times n' job
  end.

(** A job with no deadline after [a] of its [n] attempts, none of them running. *)
Definition tried (job : Job) (a n : Z) (w : World) : Prop :=
  queue_ok [] w ∧ w.(w_live) !! job.(j_sandbox_id) = None ∧
  ∃ c, w.(w_db).(jobs) !! job.(j_id) = Some c ∧ c.(j_attempts) = a ∧ c.(j_max_attempts) = n ∧
    c.(j_deadline) = None ∧ c.(j_kind) = job.(j_kind) ∧ c.(j_sandbox_id) = job.(j_sandbox_id) ∧
    c.(j_state) = if decide (a < n) then JQueued else JFailed.

(** A handler whose every run raises, and does not wait. *)
Definition always_raises (h : Handler) : Prop :=
  ∀ j w, ∃ e w', h.(h_run) j w = (Err e, w') ∧ same_queue w w' ∧ (∀ r n, e ≠ Wait r n).

Lemma claim_row job w c :
  w.(w_live) !! job.(j_sandbox_id) = None → w.(w_db).(jobs) !! job.(j_id) = Some c → c.(j_state) = JQueued →
  ∃ w', let c' := j_set_state JRunning (j_set_attempts (c.(j_attempts) + 1) (j_set_updated_at w.(w_clock) c)) in
    claim job w = (Ok (Some c'), w').
Proof.
  intros Hl Hc Hst. unfold claim, get_job. run. rewrite Hl. run. rewrite Hc.
  assert (is_state JQueued c = true) as Hq by (by apply bool_decide_eq_true). rewrite Hq. run. simpl.
  rewrite lookup_alter, decide_True, Hc by done. simpl. rewrite Hq. run. eauto.
Qed.

Lemma release_live_spec job w :
  ∃ w', (release_live job;; kick) w = (Ok tt, w') ∧ w'.(w_db) = w.(w_db) ∧
    (∀ id, give_ups id w'.(w_log) = give_ups id w.(w_log)) ∧
    (w.(w_live) !! job.(j_sandbox_id) = Some job.(j_id) → w'.(w_live) = delete job.(j_sandbox_id) w.(w_live)).
Proof.
  unfold release_live, kick. run. eexists. split; [done|]. split_and!; simpl.
  - by case_bool_decide.
  - intros id. rewrite give_ups_app. by case_bool_decide; simpl; rewrite Nat.add_0_r.
  - intros H. by rewrite bool_decide_true.
Qed.

(** One turn on a job whose handler raises: one more attempt used, and the job
    queued again or failed for good. *)
Lemma try_once_raises job h a n w :
  handlers job.(j_kind) = Some h → always_raises h → tried job a n w → 0 ≤ a < n →
  ∃ w', try_once job w = (Ok tt, w') ∧ tried job (a + 1) n w'.
Proof.
  intros Hh Hrun (Hw & Hl & c & Hc & Ha & Hn & Hd & Hk & Hsb & Hst) Hlt.
  rewrite decide_True in Hst by lia. unfold try_once.
  destruct (claim_row job w c Hl Hc Hst) as [w1 E1]. pose proof (claim_spec job w Hw) as H1.
  rewrite E1 in H1. simpl in H1. destruct H1 as (Hw1 & _ & _ & Hid & _ & Hc1 & _ & Hl1).
  rewrite (bind_ok _ _ _ _ _ E1). set (c1 := j_set_state _ _) in *. unfold execute, handler_of. simpl j_kind.
  rewrite Hk, Hh. run. unfold finally. destruct (Hrun c1 w1) as (e & w2 & -> & Hs & He).
  assert (queue_ok [] w2) as Hw2 by (by eapply same_queue_ok). destruct Hs as (Hj2 & Hl2 & _).
  destruct (backoff_delay_Some job.(j_kind) h c1.(j_attempts)) as [delay Hdel]; [done|simpl; lia|].
  assert (settle handlers c1 h (Err e) = retry_or_fail handlers c1 h (exn_str e)) as ->.
  { destruct e; try done. by destruct (He reason window). }
  assert (w2.(w_db).(jobs) !! c1.(j_id) = Some c1) as Hc2 by (by rewrite Hj2).
  destruct (retry_or_fail_row c1 h (exn_str e) w2 c1 delay) as (c3 & w3 & E3 & Hc3 & Ha3 & _ & Hn3 & Hd3 & Hk3 & Hsb3 & Hst3);
    try done; [by rewrite <- Hk in Hh|simpl; lia|].
  pose proof (retry_or_fail_spec handlers c1 h (exn_str e) w2 Hw2 ltac:(by rewrite <- Hk in Hh) ltac:(simpl; lia)) as Hs3.
  rewrite E3 in Hs3. destruct Hs3 as (_ & Hw3 & Hl3). rewrite E3.
  destruct (release_live_spec c1 w3) as (w4 & E4 & Hdb4 & Hg4 & Hl4). rewrite E4.
  exists w4. split; [done|]. split_and!.
  - eapply queue_ok_ext, Hw3; [by rewrite Hdb4|done].
  - assert (w3.(w_live) !! c1.(j_sandbox_id) = Some c1.(j_id)) as Hl3'.
    { rewrite Hl3, Hl2, Hl1. apply lookup_insert_eq. }
    rewrite (Hl4 Hl3'), <- Hsb. apply lookup_delete_eq.
  - exists c3. rewrite Hdb4. split_and!; simpl in *; try congruence.
    unfold may_retry in Hst3. simpl in Hst3. rewrite Hd, andb_true_r, Ha, Hn in Hst3.
    case_bool_decide; [rewrite decide_True by lia|rewrite decide_False by lia]; naive_solver.
Qed.

(** However often it has been tried, a job whose handler always raises is in
    the state its attempts say. *)
Lemma try_times_raises k job h n w :
  handlers job.(j_kind) = Some h → always_raises h →
  ∀ a, tried job a n w → 0 ≤ a → a + Z.of_nat k ≤ n →
  ∃ w', try_times k job w = (Ok tt, w') ∧ tried job (a + Z.of_nat k) n w'.
Proof.
  intros Hh Hr. revert w. induction k as [|k IH]; intros w a Ht Ha Hk.
  - exists w. split; [done|]. by rewrite Z.add_0_r.
  - destruct (try_once_raises job h a n w) as (w1 & E1 & Ht1); [done..|lia|].
    destruct (IH w1 (a + 1) Ht1) as (w2 & E2 & Ht2); [lia..|].
    exists w2. simpl. rewrite (bind_ok _ _ _ _ _ E1). split; [done|].
    by replace (a + Z.of_nat (S k)) with (a + 1 + Z.of_nat k) by lia.
Qed.
End one_execution.

(** ** Finished jobs

    No statement of the queue touches a row whose job is finished. *)

Section finished.
Context (handlers : Handlers) `{!HandlersOk handlers}.
Context (id : string) (j : Job) (Hterm : active j.(j_state) = false).

Definition frozen (w : World) : Prop := w.(w_db).(jobs) !! id = Some j.

Lemma frozen_upd id' p f w :
  (∀ j', p j' = true → active j'.(j_state) = true) → frozen w → frozen (put_db (upd_job_if id' p f w.(w_db)) w).
Proof.
  unfold frozen. intros Hp Hj. simpl. rewrite lookup_alter. case_decide; [|done]. subst. rewrite Hj. simpl.
  destruct (p j) eqn:E; [|done]. apply Hp in E. congruence.
Qed.

Lemma is_state_active s j' : active s = true → is_state s j' = true → active j'.(j_state) = true.
Proof. intros Hs ->%bool_decide_eq_true. done. Qed.

Lemma frozen_exec_upd (p : Job → bool) (f : time → Job → Job) (id' : string) :
  (∀ j', p j' = true → active j'.(j_state) = true) →
  preserves frozen (exec (λ now, upd_job_if id' p (f now))).
Proof. intros Hp w Hw. simpl. by apply frozen_upd. Qed.

Lemma frozen_finish s e id' : preserves frozen (exec (λ now, finish_job now s e id')).
Proof. apply (frozen_exec_upd _ (λ now j, _)). by intros. Qed.

Lemma frozen_requeue e id' : preserves frozen (exec (λ now, requeue_job now e id')).
Proof. apply (frozen_exec_upd _ (λ now j, _)). intros j'. by apply is_state_active. Qed.

Lemma frozen_query {A} (f : Db → A) : preserves frozen (query f).
Proof. by intros w. Qed.
Lemma frozen_emit e : preserves frozen (emit e).
Proof. by intros w. Qed.
Lemma frozen_stamp n : preserves frozen (stamp n).
Proof. by intros w. Qed.
Lemma frozen_now : preserves frozen now_.
Proof. by intros w. Qed.
Lemma frozen_handler_of k : preserves frozen (handler_of handlers k).
Proof. intros w Hw. unfold handler_of. by destruct (handlers k). Qed.

#[local] Hint Resolve frozen_query frozen_emit frozen_stamp frozen_now frozen_handler_of frozen_finish frozen_requeue : zoo.

Lemma frozen_give_up job error : preserves frozen (give_up_ handlers job error).
Proof.
  apply preserves_bind; [auto with zoo|intros _ w Hw]. unfold handler_of.
  destruct (handlers job.(j_kind)) as [h|] eqn:Hh; run; [|done].
  destruct h.(h_failed) as [f|] eqn:Hf; [|done]. apply preserves_try; [|auto with zoo|done].
  intros w' Hw'. destruct (hs_failed _ _ f job error w' Hh Hf) as [Hj _]. unfold frozen. by rewrite Hj.
Qed.
#[local] Hint Resolve frozen_give_up : zoo.

Lemma frozen_retry_or_fail job h error : preserves frozen (retry_or_fail handlers job h error).
Proof.
  unfold retry_or_fail. destruct (py_index _ _); [|auto with zoo].
  apply preserves_bind; [auto with zoo|]. intros current. apply preserves_bind; [auto with zoo|]. intros again.
  destruct current as [c|]; [|auto with zoo]. destruct (negb _); [auto with zoo|]. destruct (_ && _).
  - apply (frozen_exec_upd _ (λ now j, _)). intros j'. by apply is_state_active.
  - apply preserves_bind; auto with zoo.
Qed.

Lemma frozen_defer job reason window : preserves frozen (defer handlers job reason window).
Proof.
  unfold defer. do 4 (apply preserves_bind; [auto with zoo|intros ?]).
  case_match; [|auto with zoo]. destruct (negb _); [auto with zoo|]. case_bool_decide.
  - apply (frozen_exec_upd _ (λ now j, _)). intros j'. by apply is_state_active.
  - apply preserves_bind; auto with zoo.
Qed.

Lemma frozen_settle job h outcome : preserves frozen (settle handlers job h outcome).
Proof.
  destruct outcome as [[]|e]; [apply frozen_finish|].
  destruct e; (apply frozen_retry_or_fail || apply frozen_defer).
Qed.

Lemma frozen_claim job : preserves frozen (claim job).
Proof.
  unfold claim. apply preserves_bind; [auto with zoo|]. intros live. case_match; [auto with zoo|].
  apply preserves_bind; [auto with zoo|]. intros row. case_match; [|auto with zoo]. case_match; [|auto with zoo].
  apply preserves_bind; [|intros _; apply preserves_bind; [auto with zoo|]].
  - apply (frozen_exec_upd _ (λ now j, _)). intros j'. by apply is_state_active.
  - intros claimed. case_match; [|auto with zoo]. apply preserves_bind; [by intros w|]. intros _. auto with zoo.
Qed.

Lemma frozen_expire : preserves frozen (expire handlers).
Proof.
  assert (∀ now s, preserves frozen (expire_state now s)).
  { intros now s. apply preserves_bind; [auto with zoo|]. intros found.
    apply preserves_bind; [apply preserves_for; intros p _; auto with zoo|auto with zoo]. }
  unfold expire. do 3 (apply preserves_bind; [auto with zoo|intros ?]). apply preserves_for. auto with zoo.
Qed.

Lemma frozen_poll closing : preserves frozen (poll handlers closing).
Proof.
  unfold poll. apply preserves_bind; [apply frozen_expire|]. intros _. apply preserves_bind; [auto with zoo|].
  intros now. apply preserves_bind; [auto with zoo|]. intros due. induction due as [|job due IH]; simpl; [auto with zoo|].
  apply preserves_bind; [auto with zoo|]. intros live. case_match; [auto with zoo|].
  apply preserves_bind; [apply frozen_claim|]. intros c. apply preserves_bind; auto with zoo.
Qed.

Lemma frozen_enqueue id' sb k dl args : preserves frozen (enqueue handlers id' sb k dl args).
Proof.
  unfold enqueue. apply preserves_bind; [auto with zoo|]. intros h w Hw. run.
  destruct (get_job id' w.(w_db)) eqn:E; simpl is_none; run; [done|].
  unfold frozen, get_job in *. simpl. rewrite lookup_insert_ne; [done|congruence].
Qed.

(** Closes a goal with a fact about a run whose result is in the context. *)
Ltac by_run H :=
  let Hp := fresh in pose proof H as Hp;
  match goal with E : _ = (_, _) |- _ => rewrite E in Hp; exact Hp end.

Lemma frozen_step s s' : worker_step handlers s s' → frozen s.(wk_world) → frozen s'.(wk_world).
Proof.
  intros Hs Hf. destruct Hs; simpl in *.
  - by_run (frozen_poll closing w Hf).
  - unfold finally in *. pose proof (frozen_settle job h outcome w Hf) as H1.
    destruct (settle _ _ _ _ _) as [r1 w1]. destruct (release_live_spec job w1) as (w2 & E2 & Hdb & _).
    rewrite E2 in *. simplify_eq/=. unfold frozen. by rewrite Hdb.
  - by_run (frozen_enqueue id0 sb k dl args w Hf).
  - unfold frozen in *. simpl. rewrite lookup_fmap, Hf. simpl.
    destruct (is_state JQueued j) eqn:E; [apply (is_state_active JQueued) in E; [congruence|done]|].
    by rewrite andb_false_r.
  - unfold frozen. by destruct H as [-> _].
  - done.
  - assert (preserves frozen shutdown) as Hp; [|by_run (Hp w Hf)].
    apply preserves_bind; [auto with zoo|]. intros live. apply preserves_for. auto with zoo.
  - assert (preserves frozen recover) as Hp; [|by_run (Hp (put_live ∅ w) Hf)].
    apply preserves_bind; [auto with zoo|]. intros live. apply preserves_for. auto with zoo.
Qed.
End finished.

(** ** The queue's properties *)

(** A table of handlers for concrete runs: two attempts, no failure handler. *)
Definition demo_handlers : Handlers := λ _, Some (mkHandler (λ _, raise (RuntimeError [Txt "boom"])) 2 [5] None).

#[export] Instance demo_handlers_ok : HandlersOk demo_handlers.
Proof. split; unfold demo_handlers; intros; simplify_eq/=; try done; lia. Qed.

Definition demo_world : World := mkWorld empty_db 0 ∅ ∅ ∅ [].
Definition demo_worker : Worker := mkWorker demo_world [].

Lemma demo_worker_reachable : worker_reachable demo_handlers demo_worker.
Proof. by apply reach_init. Qed.

(** The demo worker after requests queued two jobs of sandbox "s1" and one of
    "s2", and a poll claimed what it could. *)
Definition demo_q1 : World := (enqueue demo_handlers "j1" "s1" KBoot None [] demo_world).2.
Definition demo_q2 : World := (enqueue demo_handlers "j2" "s1" KStop None [] demo_q1).2.
Definition demo_queued : World := (enqueue demo_handlers "j3" "s2" KBoot None [] demo_q2).2.
Definition demo_polled : result exn (list Job) * World := poll demo_handlers false demo_queued.
Definition demo_threads : list Job := match demo_polled.1 with Ok cs => cs | Err _ => [] end.

Lemma demo_polled_reachable : worker_reachable demo_handlers (mkWorker demo_polled.2 demo_threads).
Proof.
  rewrite <- (app_nil_r demo_threads).
  eapply reach_step; [|apply (step_poll demo_handlers false demo_queued [] demo_threads demo_polled.2); vm_compute; reflexivity].
  eapply reach_step; [eapply reach_step; [eapply reach_step; [apply demo_worker_reachable|]|]|].
  - by apply (step_enqueue demo_handlers "j1" "s1" KBoot None [] demo_world [] (Ok tt) demo_q1).
  - by apply (step_enqueue demo_handlers "j2" "s1" KStop None [] demo_q1 [] (Ok tt) demo_q2).
  - by apply (step_enqueue demo_handlers "j3" "s2" KBoot None [] demo_q2 [] (Ok tt) demo_queued).
Qed.

Section queue_properties.
Context (handlers : Handlers) `{!HandlersOk handlers}.

(** C1: work for one sandbox runs one job at a time.  In every state the worker
    can reach, however polls, endings, requests, expiries and restarts
    interleave, the jobs its threads execute are of pairwise different
    sandboxes. *)
Theorem one_job_per_sandbox s :
  worker_reachable handlers s → NoDup (j_sandbox_id <$> s.(wk_threads)).
Proof. intros (_ & (ts & HP & Hnd & _) & _)%worker_reachable_ok; [|done]. by rewrite <- HP. Qed.

(** the worker never runs more than PARALLEL jobs at once. *)
Theorem parallel_bound s : worker_reachable handlers s → (length s.(wk_threads) ≤ PARALLEL)%nat.
Proof.
  intros (_ & (ts & HP & Hnd & Hl & _) & Hsz)%worker_reachable_ok; [|done].
  etrans; [|exact Hsz]. rewrite <- HP, <- (length_fmap j_sandbox_id).
  rewrite <- (size_list_to_set (C := gset string)), <- (size_dom (D := gset string)) by done.
  apply subseteq_size. intros sb. rewrite elem_of_list_to_set, list_elem_of_fmap.
  intros (t & -> & Hin). apply elem_of_dom. exists t.(j_id). apply Hl. eauto.
Qed.

(** a job is tried at most as often as its handler allows (a wait or an
    interruption gives its attempt back), and its final failure is reported to
    the failure handler exactly once: once its row says failed, and never
    before. *)
Theorem attempts_and_failure_report s id j :
  worker_reachable handlers s → s.(wk_world).(w_db).(jobs) !! id = Some j →
  0 ≤ j.(j_attempts) ≤ j.(j_max_attempts) ∧
  give_ups id s.(wk_world).(w_log) = if decide (j.(j_state) = JFailed) then 1%nat else 0%nat.
Proof.
  intros (Hq & _)%worker_reachable_ok Hj; [|done]. destruct (proj1 Hq _ _ Hj) as (Hid & Ha & Hr). split.
  - unfold attempts_ok in Ha. destruct j.(j_state); lia.
  - unfold reported_once, owed in Hr. rewrite Hid in Hr. simpl in Hr. by rewrite <- Hr, Nat.add_0_r.
Qed.

(** C31: a job whose handler always fails is retried until its attempts are
    used and then fails for good.  From the row [enqueue] writes for a job
    with no deadline, [k] turns of the queue leave [k] attempts used, the job
    queued for another while there is one, and failed at the last; no turn
    raises. *)
Theorem retries_until_failed job h n k w :
  handlers job.(j_kind) = Some h → always_raises h → tried job 0 n w → Z.of_nat k ≤ n →
  ∃ c w', try_times handlers k job w = (Ok tt, w') ∧
    w'.(w_db).(jobs) !! job.(j_id) = Some c ∧ c.(j_attempts) = Z.of_nat k ∧
    c.(j_state) = if decide (Z.of_nat k < n) then JQueued else JFailed.
Proof.
  intros Hh Hr Ht Hk. destruct (try_times_raises handlers k job h n w Hh Hr 0 Ht) as (w' & E & _ & _ & c & ?); [lia..|].
  exists c, w'. naive_solver.
Qed.

(** a finished job never runs again and its row never changes: whatever
    the worker, its threads and the requests do after a job succeeded, failed
    or was cancelled, the row stays as it is. *)
Theorem finished_job_final s s' id j :
  s.(wk_world).(w_db).(jobs) !! id = Some j → terminal j.(j_state) = true →
  rtc (worker_step handlers) s s' → s'.(wk_world).(w_db).(jobs) !! id = Some j.
Proof.
  intros Hj Ht%negb_true_iff Hs. induction Hs as [|s s1 s2 H1 H2 IH]; [done|].
  apply IH. by eapply (frozen_step handlers).
Qed.
End queue_properties.

Lemma one_job_per_sandbox_witness :
  (j_id <$> demo_threads) = ["j1"; "j3"] ∧ NoDup (j_sandbox_id <$> demo_threads).
Proof.
  split; [vm_compute; reflexivity|]. exact (one_job_per_sandbox demo_handlers _ demo_polled_reachable).
Defined.

Lemma parallel_bound_witness : length demo_threads = 2%nat ∧ (length demo_threads ≤ PARALLEL)%nat.
Proof.
  split; [vm_compute; reflexivity|]. exact (parallel_bound demo_handlers _ demo_polled_reachable).
Defined.

Lemma attempts_and_failure_report_witness :
  ∃ j, demo_polled.2.(w_db).(jobs) !! "j1" = Some j ∧ j.(j_state) = JRunning ∧ 0 ≤ j.(j_attempts) ≤ j.(j_max_attempts).
Proof.
  eexists. split; [vm_compute; reflexivity|]. split; [reflexivity|].
  apply (attempts_and_failure_report demo_handlers _ "j1" _ demo_polled_reachable). vm_compute; reflexivity.
Defined.

Definition demo_job : Job := mkJob "j1" "s1" KBoot JQueued [] 0 2 0 None None 0 0 None 1.

Lemma demo_tried : tried demo_job 0 2 demo_q1.
Proof.
  split; [|split; [vm_compute; reflexivity|]].
  - apply (worker_reachable_ok demo_handlers (mkWorker demo_q1 [])).
    eapply reach_step; [apply demo_worker_reachable|].
    by apply (step_enqueue demo_handlers "j1" "s1" KBoot None [] demo_world [] (Ok tt) demo_q1).
  - exists demo_job. repeat split.
Qed.

Lemma retries_until_failed_witness :
  ∃ c w', try_times demo_handlers 2 demo_job demo_q1 = (Ok tt, w') ∧
    w'.(w_db).(jobs) !! "j1" = Some c ∧ c.(j_attempts) = 2 ∧ c.(j_state) = JFailed.
Proof.
  apply (retries_until_failed demo_handlers demo_job _ 2 2 demo_q1 eq_refl); [|exact demo_tried|lia].
  intros j w. exists (RuntimeError [Txt "boom"]), w. done.
Defined.

Definition demo_exhausted : World := (try_times demo_handlers 2 demo_job demo_q1).2.

Lemma finished_job_final_witness :
  ∃ j, demo_exhausted.(w_db).(jobs) !! "j1" = Some j ∧ j.(j_state) = JFailed ∧
    (poll demo_handlers false demo_exhausted).2.(w_db).(jobs) !! "j1" = Some j.
Proof.
  eexists. split; [vm_compute; reflexivity|]. split; [reflexivity|].
  refine (finished_job_final demo_handlers (mkWorker demo_exhausted [])
    (mkWorker (poll demo_handlers false demo_exhausted).2 ([] ++ [])) "j1" _ _ _ _).
  - vm_compute; reflexivity.
  - reflexivity.
  - apply rtc_once, (step_poll demo_handlers false _ [] []). vm_compute; reflexivity.
Defined.
