(* ===== verification/Labels.v ===== *)
(** Labels on sandboxes (src/apps/server/labels.py): what a label may be, the
    [key=value] filters of a list request, the selectors that scope an API
    key, and the rows that hold a sandbox's labels. *)

From S2P Require Import Prelude Tables Store.

Abbreviation labels_dict := (list (string * string)) (only parsing).

Definition MAX_LABELS : nat := 20.
Definition MAX_VALUE : nat := 255.
Definition ANY : string := "*".

(** ** What a label may be *)

Definition in_range (lo hi c : Ascii.ascii) : bool :=
  (Ascii.nat_of_ascii lo <=? Ascii.nat_of_ascii c)%nat && (Ascii.nat_of_ascii c <=? Ascii.nat_of_ascii hi)%nat.

(** [[a-z0-9]] *)
Definition key_head (c : Ascii.ascii) : bool := in_range "a"%char "z"%char c || in_range "0"%char "9"%char c.

(** [[a-z0-9_./-]] *)
Definition key_tail (c : Ascii.ascii) : bool :=
  key_head c || bool_decide (c = "_"%char) || bool_decide (c = "."%char) || bool_decide (c = "/"%char)
  || bool_decide (c = "-"%char).

Definition newline : string := String (Ascii.ascii_of_nat 10) EmptyString.

(** [[a-z0-9_./-]{0,n}$]: Python's [$] also matches before a newline that ends
    the string. *)
Fixpoint key_rest (n : nat) (s : string) : bool :=
  bool_decide (s = EmptyString) || bool_decide (s = newline) ||
  match n, s with
  | S n', String c s' => key_tail c && key_rest n' s'
  | _, _ => false
  end.

(** Source: src/apps/server/labels.py:14-14 [KEY].  [KEY.match(key)]. *)
Definition KEY_match (key : string) : bool :=
  match key with
  | EmptyString => false
  | String c s => key_head c && key_rest 62 s
  end.

Definition bad_value (value : string) : bool :=
  bool_decide (value = EmptyString) || (MAX_VALUE <? String.length value)%nat || bool_decide (value = ANY).

(** Source: src/apps/server/labels.py:24-28 [validate].  Its loop. *)
Fixpoint validate_items (labels : labels_dict) : result exn unit :=
  match labels with
  | [] => Ok tt
  | (key, value) :: rest =>
      if negb (KEY_match key) then
        Err (ValueError [Txt "label key "; Repr key; Txt ": 1-63 of a-z, 0-9, _ . / -, starting with a letter or digit"])
      else if bad_value value then
        Err (ValueError [Txt "label "; Txt key; Txt ": the value must be 1-"; Num (Z.of_nat MAX_VALUE);
                         Txt " characters and not "; Repr ANY])
      else validate_items rest
  end.

(** Source: src/apps/server/labels.py:20-29 [validate]. *)
Definition validate (labels : labels_dict) : result exn labels_dict :=
  if (MAX_LABELS <? length labels)%nat then Err (ValueError [Txt "at most "; Num (Z.of_nat MAX_LABELS); Txt " labels"])
  else match validate_items labels with
       | Ok _ => Ok labels
       | Err e => Err e
       end.

(** ** Selectors *)

(** Source: src/apps/server/labels.py:35-40 [parse_filters].  Its loop. *)
Fixpoint parse_filters_from (selector : labels_dict) (filters : list string) : result exn labels_dict :=
  match filters with
  | [] => Ok selector
  | item :: rest =>
      let '(key, sep, value) := partition "="%char item in
      if negb sep || bool_decide (key = EmptyString) || bool_decide (value = EmptyString) then
        Err (HTTPException 422 [Txt "label filter "; Repr item; Txt " is not key=value"])
      else parse_filters_from (dset key value selector) rest
  end.

(** Source: src/apps/server/labels.py:32-40 [parse_filters]. *)
Definition parse_filters (filters : list string) : result exn labels_dict := parse_filters_from [] filters.

(** [not selector]: missing or empty. *)
Definition no_selector (selector : option labels_dict) : bool :=
  match selector with None | Some [] => true | Some _ => false end.

(** Source: src/apps/server/labels.py:47-48 [matches]. *)
Definition matches (labels : labels_dict) (selector : option labels_dict) : bool :=
  no_selector selector ||
  forallb (λ p, bool_decide (dget p.1 labels = Some p.2)) (default [] selector).

(** Source: src/apps/server/labels.py:77-79 [scoped].  Its loop: the first item of the selector the request changes. *)
Fixpoint scoped_check (labels selector : labels_dict) : result exn unit :=
  match selector with
  | [] => Ok tt
  | (key, value) :: rest =>
      if bool_decide (default value (dget key labels) = value) then scoped_check labels rest
      else Err (HTTPException 403 [Txt "this API key only reaches sandboxes labelled "; Txt key; Txt "="; Txt value])
  end.

(** Source: src/apps/server/labels.py:72-80 [scoped]. *)
Definition scoped (labels : labels_dict) (selector : option labels_dict) : result exn labels_dict :=
  match selector with
  | None | Some [] => Ok labels
  | Some sel =>
      match scoped_check labels sel with
      | Ok _ => Ok (dmerge labels sel)
      | Err e => Err e
      end
  end.

(** ** The rows *)

(** Source: src/apps/server/labels.py:51-52 [of]. *)
Definition labels_of (db : Db) (sandbox_id : string) : labels_dict := list_sandbox_labels sandbox_id db.

(** Source: src/db/generated/query.py:1804-1808 [LIST_WORKSPACE_SANDBOX_LABELS]. *)
Definition list_workspace_sandbox_labels (workspace_id : string) (db : Db) : list (string * string * string) :=
  (map_to_list db.(sandbox_labels)) ≫= λ p,
    match db.(sandboxes) !! p.1 with
    | Some s =>
        if bool_decide (s.(sb_workspace_id) = workspace_id) && bool_decide (s.(sb_deleted_at) = None)
        then (λ kv, (p.1, kv.1, kv.2)) <$> map_to_list p.2 else []
    | None => []
    end.

(** Source: src/apps/server/labels.py:55-60 [of_workspace]. *)
Definition of_workspace (db : Db) (workspace_id : string) : list (string * labels_dict) :=
  foldl (λ found row, let '(sandbox_id, key, value) := row in
           dset sandbox_id (dset key value (default [] (dget sandbox_id found))) found)
    [] (list_workspace_sandbox_labels workspace_id db).

Definition put_one (sandbox_id : string) (kv : string * string) (d : Db) : Db :=
  set_usage_label sandbox_id kv.1 kv.2 (set_sandbox_label sandbox_id kv.1 kv.2 d).

(** Source: src/apps/server/labels.py:63-69 [put]. *)
Definition put_labels (sandbox_id : string) (labels : labels_dict) (d : Db) : Db :=
  foldl (λ d kv, put_one sandbox_id kv d)
    (delete_usage_labels sandbox_id (delete_sandbox_labels sandbox_id d)) labels.

(** ** Lemmas *)

Fixpoint string_all (p : Ascii.ascii → bool) (s : string) : bool :=
  match s with EmptyString => true | String c s' => p c && string_all p s' end.

(** What the module says a key is: 1 to 63 characters of the class, starting
    with a letter or a digit. *)
Definition label_key (k : string) : Prop :=
  ∃ c s, k = String c s ∧ key_head c = true ∧ string_all key_tail s = true ∧ (String.length s ≤ 62)%nat.

Lemma key_rest_spec n s :
  key_rest n s = true ↔
  ∃ t, string_all key_tail t = true ∧ (String.length t ≤ n)%nat ∧ (s = t ∨ s = t +:+ newline).
Proof.
  revert s. induction n as [|n IH]; intros s.
  - cbn [key_rest]. rewrite orb_false_r, orb_true_iff, !bool_decide_eq_true. split.
    + intros [->| ->]; exists ""; simpl; auto.
    + intros ([|c t] & _ & Hl & H); simpl in Hl; [|lia]. simpl in H. tauto.
  - cbn [key_rest]. rewrite !orb_true_iff, !bool_decide_eq_true. split.
    + intros [[->| ->]|H]; [exists ""; simpl; auto with lia..|].
      destruct s as [|c s]; [done|]. apply andb_true_iff in H as [Hc (t & Ht & Hl & H)%IH].
      exists (String c t). simpl. rewrite Hc. split_and!; [done|lia|].
      destruct H as [->| ->]; [by left|by right].
    + intros ([|c t] & Ht & Hl & H); simpl in *; [tauto|]. right.
      apply andb_true_iff in Ht as [Hc Ht].
      destruct H as [->| ->]; simpl; rewrite Hc; simpl; apply IH; exists t; split_and!; auto with lia.
Qed.

Arguments key_rest : simpl never.

Lemma KEY_match_spec k :
  KEY_match k = true ↔ label_key k ∨ ∃ k', label_key k' ∧ k = k' +:+ newline.
Proof.
  unfold KEY_match, label_key. split.
  - destruct k as [|c s]; [done|]. intros [Hc (t & Ht & Hl & [->| ->])%key_rest_spec]%andb_true_iff.
    + left. eauto 10.
    + right. exists (String c t). eauto 10.
  - intros [(c & s & -> & Hc & Hs & Hl)|(k' & (c & s & -> & Hc & Hs & Hl) & ->)]; simpl; rewrite Hc; apply key_rest_spec; exists s; auto.
Qed.

Definition good_value (v : string) : Prop := (1 ≤ String.length v ≤ MAX_VALUE)%nat ∧ v ≠ ANY.

Lemma bad_value_spec v : bad_value v = false ↔ good_value v.
Proof.
  unfold bad_value, good_value. rewrite !orb_false_iff, !bool_decide_eq_false, Nat.ltb_ge.
  split; [intros [[H1 H2] H3]|intros [[H1 H2] H3]].
  - destruct v; [done|]. simpl in *. split; [lia|done].
  - split_and!; [|lia|done]. intros ->. simpl in H1. lia.
Qed.

Lemma validate_items_ok labels :
  validate_items labels = Ok tt ↔ Forall (λ p, KEY_match p.1 = true ∧ good_value p.2) labels.
Proof.
  induction labels as [|[k v] l IH]; simpl; [by split|]. rewrite Forall_cons. simpl.
  destruct (KEY_match k); simpl; [|split; [done|naive_solver]].
  destruct (bad_value v) eqn:E; [|apply bad_value_spec in E; naive_solver].
  split; [done|]. intros [[_ H] _]. apply bad_value_spec in H. congruence.
Qed.

Lemma scoped_check_ok labels sel :
  scoped_check labels sel = Ok tt ↔ Forall (λ p, default p.2 (dget p.1 labels) = p.2) sel.
Proof.
  induction sel as [|[k v] l IH]; simpl; [by split|]. rewrite Forall_cons. simpl.
  case_bool_decide; naive_solver.
Qed.

Lemma matches_spec labels selector :
  matches labels selector = true ↔ ∀ k v, (k, v) ∈ default [] selector → dget k labels = Some v.
Proof.
  unfold matches. rewrite orb_true_iff. destruct selector as [[|p sel]|]; simpl default.
  - split; [intros _ k v []%not_elem_of_nil|by left].
  - rewrite forallb_forall. setoid_rewrite bool_decide_eq_true. setoid_rewrite <- list_elem_of_In. split.
    + intros [[=]|H] k v Hin. by apply (H (k, v)).
    + intros H. right. intros [k v]. apply H.
  - split; [intros _ k v []%not_elem_of_nil|by left].
Qed.

(** Matching the rows of a sandbox: it has a row for every item of the selector. *)
Lemma matches_rows d id sel :
  matches (labels_of d id) (Some sel) = true ↔
  ∀ k v, (k, v) ∈ sel → default ∅ (d.(sandbox_labels) !! id) !! k = Some v.
Proof. rewrite matches_spec. unfold labels_of. by setoid_rewrite dget_list_sandbox_labels. Qed.

(** What [put] leaves in one of the two label tables. *)
Lemma put_labels_rows sandbox_id labels d :
  NoDup (dkeys labels) →
  (∀ k, default ∅ ((put_labels sandbox_id labels d).(sandbox_labels) !! sandbox_id) !! k = dget k labels) ∧
  (∀ k, default ∅ ((put_labels sandbox_id labels d).(usage_labels) !! sandbox_id) !! k = dget k labels) ∧
  (∀ i, i ≠ sandbox_id → (put_labels sandbox_id labels d).(sandbox_labels) !! i = d.(sandbox_labels) !! i ∧
                         (put_labels sandbox_id labels d).(usage_labels) !! i = d.(usage_labels) !! i).
Proof.
  intros Hnd. unfold put_labels. set (d0 := delete_usage_labels _ _).
  assert (∀ l d1, NoDup (dkeys l) →
    let d2 := foldl (λ d kv, put_one sandbox_id kv d) d1 l in
    (∀ k, default ∅ (d2.(sandbox_labels) !! sandbox_id) !! k =
       match dget k l with Some v => Some v | None => default ∅ (d1.(sandbox_labels) !! sandbox_id) !! k end) ∧
    (∀ k, default ∅ (d2.(usage_labels) !! sandbox_id) !! k =
       match dget k l with Some v => Some v | None => default ∅ (d1.(usage_labels) !! sandbox_id) !! k end) ∧
    (∀ i, i ≠ sandbox_id → d2.(sandbox_labels) !! i = d1.(sandbox_labels) !! i ∧
                           d2.(usage_labels) !! i = d1.(usage_labels) !! i)) as Hgen.
  { induction l as [|[k0 v0] l IH]; intros d1 Hnd1; [done|]. unfold dkeys in Hnd1. csimpl in Hnd1.
    apply NoDup_cons in Hnd1 as [Hn Hnd1]. destruct (IH (put_one sandbox_id (k0, v0) d1) Hnd1) as (H1 & H2 & H3).
    simpl. assert (dget k0 l = None) as Hk0 by (by apply dget_None). split_and!.
    - intros k. rewrite H1. unfold put_one. simpl. rewrite lookup_insert_eq. simpl.
      rewrite lookup_insert. case_decide as Hk; [subst; by rewrite Hk0, decide_True|]. rewrite decide_False by done. done.
    - intros k. rewrite H2. unfold put_one. simpl. rewrite lookup_insert_eq. simpl.
      rewrite lookup_insert. case_decide as Hk; [subst; by rewrite Hk0, decide_True|]. rewrite decide_False by done. done.
    - intros i Hi. destruct (H3 i Hi) as [-> ->]. unfold put_one. simpl. by rewrite !lookup_insert_ne by done. }
  destruct (Hgen labels d0 Hnd) as (H1 & H2 & H3). split_and!.
  - intros k. rewrite H1. simpl. rewrite lookup_delete_eq. simpl. rewrite lookup_empty. by destruct (dget k labels).
  - intros k. rewrite H2. simpl. rewrite lookup_delete_eq. simpl. rewrite lookup_empty. by destruct (dget k labels).
  - intros i Hi. destruct (H3 i Hi) as [-> ->]. simpl. by rewrite !lookup_delete_ne by done.
Qed.

(** ** Properties *)

(** [validate] accepts exactly the dicts of at most 20 labels whose values
    have 1 to 255 characters and are not the quota wildcard, and whose keys
    have 1 to 63 characters of the class the message names, or such a key with
    one newline after it; an accepted dict comes back unchanged. *)
Theorem validate_accepts labels out :
  validate labels = Ok out ↔
  out = labels ∧ (length labels ≤ MAX_LABELS)%nat ∧
  Forall (λ p, (label_key p.1 ∨ ∃ k, label_key k ∧ p.1 = k +:+ newline) ∧ good_value p.2) labels.
Proof.
  unfold validate. destruct (Nat.ltb_spec MAX_LABELS (length labels)) as [Hl|Hl].
  - split; [done|]. intros (_ & Hle & _). lia.
  - setoid_rewrite <- KEY_match_spec. rewrite <- validate_items_ok.
    destruct (validate_items labels) as [[]|e]; naive_solver.
Qed.

(** The key class of the documentation does not hold: a key that ends in a
    newline is accepted. *)
Example validate_newline : validate [("team" +:+ newline, "x")] = Ok [("team" +:+ newline, "x")].
Proof. vm_compute. reflexivity. Qed.

(** what a scoped API key puts on a sandbox always matches the key's
    selector, keeps every other label of the request, and is refused with 403
    exactly when the request gives one of the selector's keys another value. *)
Theorem scoped_labels labels selector :
  NoDup (dkeys (default [] selector)) →
  match scoped labels selector with
  | Ok out =>
      matches out selector = true ∧
      (∀ k, k ∉ dkeys (default [] selector) → dget k out = dget k labels)
  | Err e =>
      (∃ m, e = HTTPException 403 m) ∧
      ∃ k v v', (k, v) ∈ default [] selector ∧ dget k labels = Some v' ∧ v' ≠ v
  end.
Proof.
  intros Hnd. unfold scoped. destruct selector as [[|p sel]|]; simpl default in *; [done| |done].
  set (s := p :: sel) in *. destruct (scoped_check labels s) as [[]|e] eqn:E.
  - split.
    + apply matches_spec. simpl default. intros k v Hin. rewrite dget_dmerge by done.
      by rewrite (dget_in k v s) by done.
    + intros k Hk. rewrite dget_dmerge by done. apply dget_None in Hk. by rewrite Hk.
  - clear Hnd. revert E. generalize s. induction s0 as [|[k v] l IH]; simpl; [done|].
    case_bool_decide as Hd.
    + intros E. destruct (IH E) as (? & k1 & v1 & v2 & Hin & ?). split; [done|]. exists k1, v1, v2. split; [by right|done].
    + intros [= <-]. split; [eauto|]. destruct (dget k labels) as [v'|] eqn:Hk; [|done]. exists k, v, v'.
      split; [left|done].
Qed.

(** the labels read back from a sandbox's rows are the ones last put on it,
    the copy that usage keeps agrees with them, and no other sandbox's labels
    change. *)
Theorem put_labels_of sandbox_id labels d :
  NoDup (dkeys labels) →
  (∀ k, dget k (labels_of (put_labels sandbox_id labels d) sandbox_id) = dget k labels) ∧
  default ∅ ((put_labels sandbox_id labels d).(usage_labels) !! sandbox_id) =
    default ∅ ((put_labels sandbox_id labels d).(sandbox_labels) !! sandbox_id) ∧
  (∀ i, i ≠ sandbox_id → labels_of (put_labels sandbox_id labels d) i = labels_of d i).
Proof.
  intros Hnd. destruct (put_labels_rows sandbox_id labels d Hnd) as (H1 & H2 & H3). split_and!.
  - intros k. unfold labels_of. rewrite dget_list_sandbox_labels. apply H1.
  - apply map_eq. intros k. by rewrite H1, H2.
  - intros i Hi. unfold labels_of, list_sandbox_labels. by destruct (H3 i Hi) as [-> _].
Qed.

Lemma scoped_labels_witness :
  scoped [("team", "a")] (Some [("user", "x")]) = Ok [("team", "a"); ("user", "x")] ∧
  matches [("team", "a"); ("user", "x")] (Some [("user", "x")]) = true.
Proof.
  split; [reflexivity|].
  refine (proj1 (_ : _ ∧ (∀ k, k ∉ dkeys [("user", "x")] → dget k [("team", "a"); ("user", "x")] = dget k [("team", "a")]))).
  apply (scoped_labels [("team", "a")] (Some [("user", "x")])). repeat constructor; set_solver.
Defined.

Lemma put_labels_of_witness :
  dget "team" (labels_of (put_labels "s" [("team", "a")] empty_db) "s") = Some "a".
Proof. refine (proj1 (put_labels_of "s" [("team", "a")] empty_db _) "team"). repeat constructor; set_solver. Defined.
