(* ===== verification/Quotas.v ===== *)
(** Sandbox sizes and quotas (src/apps/server/sizes.py, src/apps/server/quotas.py):
    what a workspace and a label value use, and the check that creating and
    starting a sandbox make before they count one more. *)

From S2P Require Import Prelude Tables Store Labels.
From Stdlib Require Import Lqa.

(** ** Sums over a table *)

Section totals.
Context {A R : Type} (E : relation A) `{!Equivalence E} (op : A → A → A) (e : A).
Context `{!Proper (E ==> E ==> E) op}.
Context (op_assoc : ∀ x y z, E (op x (op y z)) (op (op x y) z)) (op_comm : ∀ x y, E (op x y) (op y x)).

Definition sum (f : R → A) (l : list R) : A := foldr (λ r a, op (f r) a) e l.

Lemma sum_permutation f l l' : l ≡ₚ l' → E (sum f l) (sum f l').
Proof.
  induction 1 as [|x l l' _ IH|x y l|l1 l2 l3 _ IH1 _ IH2]; simpl; [done| | |by etrans].
  - by rewrite IH.
  - rewrite !op_assoc. by rewrite (op_comm (f y)).
Qed.

(** The total over a table's rows. *)
Definition total (f : R → A) (m : gmap string R) : A := sum f (rows m).

Lemma total_insert f m i x : m !! i = None → E (total f (<[i := x]> m)) (op (f x) (total f m)).
Proof.
  intros Hi. unfold total, rows. rewrite (sum_permutation f _ ((i, x) :: map_to_list m).*2); [done|].
  by rewrite map_to_list_insert by done.
Qed.

Lemma total_lookup f m i x : m !! i = Some x → E (total f m) (op (f x) (total f (delete i m))).
Proof.
  intros Hi. rewrite <- (insert_delete_id m i x) at 1 by done. apply total_insert, lookup_delete_eq.
Qed.

(** Changing one row changes the total by that row's difference. *)
Lemma total_alter f g m i x :
  m !! i = Some x → E (op (total f (alter g i m)) (f x)) (op (total f m) (f (g x))).
Proof.
  intros Hi. rewrite (total_lookup f (alter g i m) i (g x)) by (by rewrite lookup_alter_eq, Hi).
  rewrite (total_lookup f m i x Hi). rewrite delete_alter_eq.
  rewrite (op_comm (f (g x))), <- op_assoc, (op_comm (f (g x))), op_assoc. by rewrite (op_comm _ (f x)).
Qed.
End totals.

Definition totalZ {R} : (R → Z) → gmap string R → Z := total Z.add 0.
Definition totalQ {R} : (R → Q) → gmap string R → Q := total Qplus 0%Q.

Lemma totalZ_insert {R} (f : R → Z) m i x : m !! i = None → totalZ f (<[i := x]> m) = f x + totalZ f m.
Proof. apply (total_insert eq); [apply _|apply Z.add_assoc|apply Z.add_comm]. Qed.
Lemma totalZ_alter {R} (f : R → Z) g m i x :
  m !! i = Some x → totalZ f (alter g i m) + f x = totalZ f m + f (g x).
Proof. apply (total_alter eq); [apply _|apply Z.add_assoc|apply Z.add_comm]. Qed.
Lemma totalQ_insert {R} (f : R → Q) m i x : m !! i = None → (totalQ f (<[i := x]> m) == f x + totalQ f m)%Q.
Proof. apply (total_insert Qeq); [apply _|apply Qplus_assoc|apply Qplus_comm]. Qed.
Lemma totalQ_alter {R} (f : R → Q) g m i x :
  m !! i = Some x → (totalQ f (alter g i m) + f x == totalQ f m + f (g x))%Q.
Proof. apply (total_alter Qeq); [apply _|apply Qplus_assoc|apply Qplus_comm]. Qed.

(** ** Sizes *)

(** Source: src/apps/server/sizes.py:16-24 [Size]. *)
Record Size := mkSize {
  size_cpus : Q;
  size_memory_mb : Z;
  size_disk_gb : option Z
}.

(** Source: src/apps/server/sizes.py:22-24 [Size.memory_bytes]. *)
Definition memory_bytes (s : Size) : Z := Z.shiftl s.(size_memory_mb) 20.

(** Source: src/apps/server/sizes.py:27-27 [DEFAULT]. *)
Definition DEFAULT_SIZE : Size := mkSize 2%Q 2048 None.

(** Source: src/apps/server/sizes.py:35-37 [of]. *)
Definition size_of (s : Sandbox) : Size := mkSize s.(sb_cpus) s.(sb_memory_mb) s.(sb_disk_gb).

(** ** Usage *)

(** The statuses a quota counts as running. *)
Definition counted (s : status) : bool :=
  match s with Pending | Provisioning | Running => true | _ => false end.

Record UsageRow := mkUsageRow {
  u_running : Z;
  u_cpus : Q;
  u_memory_mb : Z;
  u_disk_gb : Z;
  u_profile_bytes : Z;
  u_snapshot_bytes : Z
}.

(** A column summed over the rows a condition selects. *)
Definition countZ (p : Sandbox → bool) (f : Sandbox → Z) (s : Sandbox) : Z := if p s then f s else 0.
Definition countQ (p : Sandbox → bool) (f : Sandbox → Q) (s : Sandbox) : Q := if p s then f s else 0%Q.

Definition disk_of (unsized_gb : Z) (s : Sandbox) : Z := default unsized_gb s.(sb_disk_gb).

Definition in_workspace (workspace_id : string) (s : Sandbox) : bool :=
  bool_decide (s.(sb_workspace_id) = workspace_id) && negb (bool_decide (s.(sb_status) = Deleted)).

Definition running_in (workspace_id : string) (s : Sandbox) : bool :=
  in_workspace workspace_id s && counted s.(sb_status).

(** The bytes of the snapshots of the sandboxes a condition selects. *)
Definition snapshot_bytes (p : Sandbox → bool) (d : Db) : Z :=
  totalZ (λ sn, match d.(sandboxes) !! sn.(sn_sandbox_id) with
                | Some x => if p x then sn.(sn_size_bytes) else 0
                | None => 0
                end) d.(snapshots).

(** Source: src/db/generated/query.py:2627-2639 [WORKSPACE_USAGE].  The
    sum over a workspace's profile versions is the [profile_bytes] of the
    database. *)
Definition workspace_usage (unsized_gb : Z) (workspace_id : string) (d : Db) : UsageRow :=
  let p := running_in workspace_id in
  mkUsageRow
    (totalZ (countZ p (λ _, 1)) d.(sandboxes))
    (totalQ (countQ p sb_cpus) d.(sandboxes))
    (totalZ (countZ p sb_memory_mb) d.(sandboxes))
    (totalZ (countZ (in_workspace workspace_id) (disk_of unsized_gb)) d.(sandboxes))
    (default 0 (d.(profile_bytes) !! workspace_id))
    (snapshot_bytes (λ x, bool_decide (x.(sb_workspace_id) = workspace_id)) d).

Definition has_label (key value : string) (d : Db) (s : Sandbox) : bool :=
  bool_decide (default ∅ (d.(sandbox_labels) !! s.(sb_id)) !! key = Some value).

Definition labelled_in (workspace_id key value : string) (d : Db) (s : Sandbox) : bool :=
  has_label key value d s && bool_decide (s.(sb_workspace_id) = workspace_id)
  && negb (bool_decide (s.(sb_status) = Deleting)) && negb (bool_decide (s.(sb_status) = Deleted)).

(** Source: src/db/generated/query.py:1184-1197 [LABEL_USAGE]. *)
Definition label_usage (unsized_gb : Z) (key value workspace_id : string) (d : Db) : UsageRow :=
  let l := labelled_in workspace_id key value d in
  let p := λ s, l s && counted s.(sb_status) in
  mkUsageRow
    (totalZ (countZ p (λ _, 1)) d.(sandboxes))
    (totalQ (countQ p sb_cpus) d.(sandboxes))
    (totalZ (countZ p sb_memory_mb) d.(sandboxes))
    (totalZ (countZ l (disk_of unsized_gb)) d.(sandboxes))
    0
    (snapshot_bytes (λ x, has_label key value d x && bool_decide (x.(sb_workspace_id) = workspace_id)) d).

(** Source: src/db/generated/query.py:1160-1162 [GET_WORKSPACE_QUOTA]. *)
Definition get_workspace_quota (workspace_id : string) (d : Db) : option Quota := d.(workspace_quotas) !! workspace_id.

(** Source: src/db/generated/query.py:939-944 [GET_LABEL_QUOTA].  The
    value's own row, else the wildcard's. *)
Definition get_label_quota (workspace_id key value : string) (d : Db) : option Quota :=
  coalesce (d.(label_quotas) !! (workspace_id, key, value)) (d.(label_quotas) !! (workspace_id, key, ANY)).

(** Source: src/apps/server/quotas.py:48-49 [storage_gb]. *)
Definition storage_gb (row : UsageRow) : Q :=
  (inject_Z row.(u_disk_gb) + ((row.(u_profile_bytes) + row.(u_snapshot_bytes)) # 1073741824))%Q.

(** ** The check *)

Definition frac (q : Q) : piece := Frac (Qnum q) (Qden q).

(** [round(q, 1)] *)
Definition round1 (q : Q) : Q := round_div (10 * Qnum q) (Zpos (Qden q)) # 10.

(** What a sandbox of [size] with [disk] more GB would make of each dimension:
    its name, limit, wanted value and present value. *)
Definition dimensions (quota : Quota) (running : Z) (cpus : Q) (memory_mb : Z) (storage : Q) (size : Size) (disk : Z)
    : list (string * option Q * Q * Q) :=
  [("running sandboxes", inject_Z <$> quota.(max_running_sandboxes), inject_Z (running + 1), inject_Z running);
   ("CPUs", quota.(max_cpus), (cpus + size.(size_cpus))%Q, cpus);
   ("memory (MB)", inject_Z <$> quota.(max_memory_mb), inject_Z (memory_mb + size.(size_memory_mb)), inject_Z memory_mb);
   ("storage (GB)", inject_Z <$> quota.(max_storage_gb), (storage + inject_Z disk)%Q, round1 storage)].

(** [wanted > limit] *)
Definition over (wanted : Q) (limit : option Q) : bool :=
  match limit with Some l => negb (Qle_bool wanted l) | None => false end.

Fixpoint first_over (whose : string) (checks : list (string * option Q * Q * Q)) : result exn unit :=
  match checks with
  | [] => Ok tt
  | (name, limit, wanted, now) :: rest =>
      if over wanted limit then
        Err (HTTPException 409 [Txt whose; Txt " quota is "; frac (default 0%Q limit); Txt " "; Txt name;
                                Txt "; it uses "; frac now; Txt " already"])
      else first_over whose rest
  end.

(** Source: src/apps/server/quotas.py:71-81 [compare]. *)
Definition compare (whose : string) (quota : Quota) (running : Z) (cpus : Q) (memory_mb : Z) (storage : Q) (size : Size)
    (disk : Z) : result exn unit :=
  first_over whose (dimensions quota running cpus memory_mb storage size disk).

Definition lift_result {A} (r : result exn A) : M World A :=
  match r with Ok a => mret a | Err e => raise e end.

Section quotas.
(** sizes.UNSIZED_DISK_GB, from the environment *)
Context (UNSIZED_DISK_GB : Z).

(** [size.disk_gb or sizes.UNSIZED_DISK_GB]: zero counts as missing. *)
Definition disk_or_default (size : Size) : Z :=
  match size.(size_disk_gb) with
  | Some n => if n =? 0 then UNSIZED_DISK_GB else n
  | None => UNSIZED_DISK_GB
  end.

(** Source: src/apps/server/quotas.py:61-68 [check].  One turn of its loop over
    the labels. *)
Definition check_label (workspace_id : string) (size : Size) (disk : Z) (kv : string * string) : M World unit :=
  quota ← query (get_label_quota workspace_id kv.1 kv.2);
  match quota with
  | None => mret tt
  | Some quota =>
      row ← query (label_usage UNSIZED_DISK_GB kv.1 kv.2 workspace_id);
      lift_result (compare (kv.1 +:+ "=" +:+ kv.2 +:+ "'s") quota row.(u_running) row.(u_cpus) row.(u_memory_mb)
        (inject_Z row.(u_disk_gb) + (row.(u_snapshot_bytes) # 1073741824))%Q size disk)
  end.

(** Source: src/apps/server/quotas.py:52-68 [check].  The workspace's row is
    locked for the rest of the transaction, so the world the check reads is
    the one its transaction changes. *)
Definition check (workspace_id : string) (size : Size) (new : bool) (labels : labels_dict) : M World unit :=
  let disk := if new then disk_or_default size else 0 in
  quota ← query (get_workspace_quota workspace_id);
  match quota with
  | None => mret tt
  | Some quota =>
      used ← query (workspace_usage UNSIZED_DISK_GB workspace_id);
      lift_result (compare "the workspace's" quota used.(u_running) used.(u_cpus) used.(u_memory_mb) (storage_gb used)
        size disk)
  end;;
  for_ labels (check_label workspace_id size disk).

(** [int(RUNNING) if RUNNING else None] and the like: the defaults from the
    environment. *)
Context (defaults : Quota).

(** Source: src/apps/server/quotas.py:29-39 [ensure]. *)
Definition ensure_quota (workspace_id : string) (d : Db) : Db :=
  match d.(workspace_quotas) !! workspace_id with
  | Some _ => d
  | None =>
      mkDb d.(sandboxes) d.(jobs) d.(snapshots) d.(sandbox_labels) d.(usage_labels)
        (<[workspace_id := defaults]> d.(workspace_quotas)) d.(label_quotas) d.(sandbox_permissions)
        d.(pool_sandboxes) d.(servers) d.(workspaces) d.(profile_bytes) d.(next_seq)
  end.
End quotas.

(** ** Lemmas *)
Lemma over_false w l : over w l = false ↔ match l with Some x => (w <= x)%Q | None => True end.
Proof.
  destruct l as [x|]; simpl; [|done]. rewrite negb_false_iff. apply Qle_bool_iff.
Qed.

(** [v] within an optional integer limit. *)
Definition withinZ (v : Z) (limit : option Z) : Prop := match limit with Some l => v ≤ l | None => True end.
Definition withinQ (v : Q) (limit : option Q) : Prop := match limit with Some l => (v <= l)%Q | None => True end.

Lemma over_inject v limit : over (inject_Z v) (inject_Z <$> limit) = false ↔ withinZ v limit.
Proof. rewrite over_false. destruct limit; simpl; [|done]. by rewrite <- Zle_Qle. Qed.

#[global] Instance withinQ_proper : Proper (Qeq ==> eq ==> iff) withinQ.
Proof. intros v v' Hv l l' <-. destruct l; simpl; [|done]. by rewrite Hv. Qed.

Lemma first_over_cases whose checks :
  match first_over whose checks with
  | Ok _ => Forall (λ c, let '(_, limit, wanted, _) := c in over wanted limit = false) checks
  | Err e => (∃ m, e = HTTPException 409 m) ∧ Exists (λ c, let '(_, limit, wanted, _) := c in over wanted limit = true) checks
  end.
Proof.
  induction checks as [|[[[name limit] wanted] now] l IH]; simpl; [constructor|].
  destruct (over wanted limit) eqn:E; [split; [eauto|by left]|].
  destruct (first_over whose l); [by constructor|]. destruct IH. split; [done|by right].
Qed.

(** Room for one more sandbox of [size] with [disk] more GB under [quota]. *)
Definition room (quota : Quota) (running : Z) (cpus : Q) (memory_mb : Z) (storage : Q) (size : Size) (disk : Z) : Prop :=
  withinZ (running + 1) quota.(max_running_sandboxes) ∧
  withinQ (cpus + size.(size_cpus)) quota.(max_cpus) ∧
  withinZ (memory_mb + size.(size_memory_mb)) quota.(max_memory_mb) ∧
  withinQ (storage + inject_Z disk) (inject_Z <$> quota.(max_storage_gb)).

Lemma compare_room whose quota running cpus memory_mb storage size disk :
  match compare whose quota running cpus memory_mb storage size disk with
  | Ok _ => room quota running cpus memory_mb storage size disk
  | Err e => (∃ m, e = HTTPException 409 m) ∧ ¬ room quota running cpus memory_mb storage size disk
  end.
Proof.
  unfold compare, room. pose proof (first_over_cases whose (dimensions quota running cpus memory_mb storage size disk)) as H.
  destruct (first_over _ _); unfold dimensions in H.
  - rewrite !Forall_cons, !over_inject, !over_false in H. naive_solver.
  - destruct H as [Hm H]. split; [done|]. intros (H1 & H2 & H3 & H4).
    apply over_inject in H1, H3. apply (over_false _ quota.(max_cpus)) in H2.
    apply (over_false _ (inject_Z <$> _)) in H4.
    rewrite !Exists_cons, Exists_nil in H. intuition congruence.
Qed.

Section check_lemmas.
Context (UNSIZED_DISK_GB : Z).

(** Room in the workspace's own quota, and in the quota of one label value. *)
Definition workspace_room (workspace_id : string) (size : Size) (disk : Z) (d : Db) : Prop :=
  match get_workspace_quota workspace_id d with
  | Some quota =>
      let u := workspace_usage UNSIZED_DISK_GB workspace_id d in
      room quota u.(u_running) u.(u_cpus) u.(u_memory_mb) (storage_gb u) size disk
  | None => True
  end.

Definition label_room (workspace_id : string) (size : Size) (disk : Z) (d : Db) (kv : string * string) : Prop :=
  match get_label_quota workspace_id kv.1 kv.2 d with
  | Some quota =>
      let u := label_usage UNSIZED_DISK_GB kv.1 kv.2 workspace_id d in
      room quota u.(u_running) u.(u_cpus) u.(u_memory_mb)
        (inject_Z u.(u_disk_gb) + (u.(u_snapshot_bytes) # 1073741824))%Q size disk
  | None => True
  end.

Lemma check_label_cases workspace_id size disk kv w :
  match check_label UNSIZED_DISK_GB workspace_id size disk kv w with
  | (Ok _, w') => w' = w ∧ label_room workspace_id size disk w.(w_db) kv
  | (Err e, w') => w' = w ∧ (∃ m, e = HTTPException 409 m) ∧ ¬ label_room workspace_id size disk w.(w_db) kv
  end.
Proof.
  unfold check_label, label_room. run. destruct (get_label_quota _ _ _ _) as [q|]; run; [|done].
  pose proof (compare_room (kv.1 +:+ "=" +:+ kv.2 +:+ "'s") q) as H.
  match goal with |- context [compare ?a ?b ?c ?d ?e ?f ?g ?h] => specialize (H c d e f g h); destruct (compare a b c d e f g h) end;
    simpl lift_result; run; naive_solver.
Qed.

Lemma check_cases workspace_id size (new : bool) labels w :
  let disk := if new then disk_or_default UNSIZED_DISK_GB size else 0 in
  match check UNSIZED_DISK_GB workspace_id size new labels w with
  | (Ok _, w') =>
      w' = w ∧ workspace_room workspace_id size disk w.(w_db) ∧
      Forall (label_room workspace_id size disk w.(w_db)) labels
  | (Err e, w') =>
      w' = w ∧ (∃ m, e = HTTPException 409 m) ∧
      ¬ (workspace_room workspace_id size disk w.(w_db) ∧ Forall (label_room workspace_id size disk w.(w_db)) labels)
  end.
Proof.
  intros disk. unfold check. fold disk. run.
  assert (∀ l, match for_ l (check_label UNSIZED_DISK_GB workspace_id size disk) w with
    | (Ok _, w') => w' = w ∧ Forall (label_room workspace_id size disk w.(w_db)) l
    | (Err e, w') => w' = w ∧ (∃ m, e = HTTPException 409 m) ∧ ¬ Forall (label_room workspace_id size disk w.(w_db)) l
    end) as Hl.
  { induction l as [|kv l IH]; simpl; run; [done|].
    pose proof (check_label_cases workspace_id size disk kv w) as Hc.
    destruct (check_label _ _ _ _ _ w) as [[[]|e] w'] eqn:E.
    - rewrite (bind_ok _ _ _ _ _ E). destruct Hc as [-> Hr].
      destruct (for_ l _ w) as [[[]|e] w']; rewrite Forall_cons; naive_solver.
    - rewrite (bind_err _ _ _ _ _ E), Forall_cons. naive_solver. }
  specialize (Hl labels). unfold workspace_room. destruct (get_workspace_quota _ _) as [q|]; run.
  - pose proof (compare_room "the workspace's" q) as H.
    match goal with |- context [compare ?a ?b ?c ?d ?e ?f ?g ?h] => specialize (H c d e f g h); destruct (compare a b c d e f g h) end;
      simpl lift_result; run.
    + destruct (for_ labels _ w) as [[[]|e] w']; naive_solver.
    + naive_solver.
  - destruct (for_ labels _ w) as [[[]|e] w']; naive_solver.
Qed.
End check_lemmas.

(** ** Usage when one more sandbox is counted *)
Lemma totalZ_ext {R} (f g : R → Z) m : (∀ i x, m !! i = Some x → f x = g x) → totalZ f m = totalZ g m.
Proof.
  intros H. unfold totalZ, total. assert (∀ l : list R, (∀ x, x ∈ l → f x = g x) → sum Z.add 0 f l = sum Z.add 0 g l) as Hl.
  { induction l as [|x l IH]; simpl; intros Hx; [done|]. rewrite (Hx x) by (by left). f_equal. apply IH. intros y Hy.
    apply Hx. by right. }
  apply Hl. intros x [i Hi]%elem_of_rows. eauto.
Qed.

Lemma totalQ_ext {R} (f g : R → Q) m : (∀ i x, m !! i = Some x → f x = g x) → totalQ f m = totalQ g m.
Proof.
  intros H. unfold totalQ, total. assert (∀ l : list R, (∀ x, x ∈ l → f x = g x) → sum Qplus 0%Q f l = sum Qplus 0%Q g l) as Hl.
  { induction l as [|x l IH]; simpl; intros Hx; [done|]. rewrite (Hx x) by (by left). f_equal. apply IH. intros y Hy.
    apply Hx. by right. }
  apply Hl. intros x [i Hi]%elem_of_rows. eauto.
Qed.

(** The usage within a quota. *)
Definition within (quota : Quota) (u : UsageRow) (storage : Q) : Prop :=
  withinZ u.(u_running) quota.(max_running_sandboxes) ∧
  withinQ u.(u_cpus) quota.(max_cpus) ∧
  withinZ u.(u_memory_mb) quota.(max_memory_mb) ∧
  withinQ storage (inject_Z <$> quota.(max_storage_gb)).

Lemma withinZ_mono a b l : a ≤ b → withinZ b l → withinZ a l.
Proof. destruct l; simpl; lia. Qed.
Lemma withinQ_mono a b l : (a <= b)%Q → withinQ b l → withinQ a l.
Proof. destruct l; simpl; [|done]. apply Qle_trans. Qed.

Lemma room_within quota u u' storage storage' size disk :
  u'.(u_running) ≤ u.(u_running) + 1 → (u'.(u_cpus) <= u.(u_cpus) + size.(size_cpus))%Q →
  u'.(u_memory_mb) ≤ u.(u_memory_mb) + size.(size_memory_mb) → (storage' <= storage + inject_Z disk)%Q →
  room quota u.(u_running) u.(u_cpus) u.(u_memory_mb) storage size disk → within quota u' storage'.
Proof.
  intros H1 H2 H3 H4 (R1 & R2 & R3 & R4).
  split_and!; [by eapply withinZ_mono|by eapply withinQ_mono|by eapply withinZ_mono|by eapply withinQ_mono].
Qed.

(** A usage row with one more sandbox of [size] running, [disk] more GB at
    most, and the same bytes. *)
Definition one_more (u u' : UsageRow) (size : Size) (disk : Z) : Prop :=
  u'.(u_running) = u.(u_running) + 1 ∧ (u'.(u_cpus) == u.(u_cpus) + size.(size_cpus))%Q ∧
  u'.(u_memory_mb) = u.(u_memory_mb) + size.(size_memory_mb) ∧ u'.(u_disk_gb) ≤ u.(u_disk_gb) + disk ∧
  u'.(u_profile_bytes) = u.(u_profile_bytes) ∧ u'.(u_snapshot_bytes) = u.(u_snapshot_bytes).

Lemma one_more_within quota u u' size disk (f : Z → Q) :
  one_more u u' size disk →
  room quota u.(u_running) u.(u_cpus) u.(u_memory_mb) (inject_Z u.(u_disk_gb) + f (u.(u_profile_bytes) + u.(u_snapshot_bytes))%Z)%Q size disk →
  within quota u' (inject_Z u'.(u_disk_gb) + f (u'.(u_profile_bytes) + u'.(u_snapshot_bytes))%Z)%Q.
Proof.
  intros (H1 & H2 & H3 & H4 & H5 & H6). apply room_within; [lia|rewrite H2; apply Qle_refl|lia|].
  rewrite H5, H6. rewrite Zle_Qle, inject_Z_plus in H4. lra.
Qed.

Section usage.
Context (UNSIZED_DISK_GB : Z).

(** One more row in the sums of a usage: a row [s] the condition [l] selects
    and whose status counts. *)
Lemma usage_insert (l : Sandbox → bool) (f : Sandbox → Z) id s (m : gmap string Sandbox) :
  m !! id = None → l s = true → totalZ (countZ l f) (<[id := s]> m) = totalZ (countZ l f) m + f s.
Proof. intros Hi Hl. rewrite totalZ_insert by done. unfold countZ at 1. rewrite Hl. lia. Qed.

Lemma usageQ_insert (l : Sandbox → bool) (f : Sandbox → Q) id s (m : gmap string Sandbox) :
  m !! id = None → l s = true → (totalQ (countQ l f) (<[id := s]> m) == totalQ (countQ l f) m + f s)%Q.
Proof. intros Hi Hl. rewrite totalQ_insert by done. unfold countQ at 1. rewrite Hl. apply Qplus_comm. Qed.

Lemma disk_of_le s size :
  0 ≤ UNSIZED_DISK_GB → size = size_of s → disk_of UNSIZED_DISK_GB s ≤ disk_or_default UNSIZED_DISK_GB size.
Proof.
  intros H ->. unfold disk_of, disk_or_default, size_of. simpl. destruct s.(sb_disk_gb) as [n|]; simpl; [|lia].
  destruct (Z.eqb_spec n 0); lia.
Qed.

(** The rows a new sandbox leaves: its own, and its labels. *)
Definition add_sandbox (s : Sandbox) (ls : gmap string string) (d : Db) : Db :=
  set_sandbox_labels (<[s.(sb_id) := ls]> d.(sandbox_labels)) (set_sandboxes (<[s.(sb_id) := s]> d.(sandboxes)) d).

Definition fresh_sandbox (id : string) (d : Db) : Prop :=
  d.(sandboxes) !! id = None ∧ ∀ i sn, d.(snapshots) !! i = Some sn → sn.(sn_sandbox_id) ≠ id.

Lemma snapshot_bytes_insert (p q : Sandbox → bool) id s d d' :
  d'.(sandboxes) = <[id := s]> d.(sandboxes) → d'.(snapshots) = d.(snapshots) → fresh_sandbox id d →
  (∀ i x, d.(sandboxes) !! i = Some x → q x = p x) → snapshot_bytes q d' = snapshot_bytes p d.
Proof.
  intros Hs Hsn [_ Hf] Hpq. unfold snapshot_bytes. rewrite Hsn. apply totalZ_ext. intros i sn Hi.
  rewrite Hs, lookup_insert_ne by (intros Heq; by apply (Hf i sn Hi)). destruct (_ !! sn.(sn_sandbox_id)) eqn:E; [|done].
  by rewrite (Hpq _ _ E).
Qed.

Lemma workspace_usage_add s ls d :
  0 ≤ UNSIZED_DISK_GB → fresh_sandbox s.(sb_id) d → counted s.(sb_status) = true →
  let w := s.(sb_workspace_id) in
  one_more (workspace_usage UNSIZED_DISK_GB w d) (workspace_usage UNSIZED_DISK_GB w (add_sandbox s ls d))
    (size_of s) (disk_or_default UNSIZED_DISK_GB (size_of s)).
Proof.
  intros HU Hf Hc w. assert (in_workspace w s = true) as Hin.
  { unfold in_workspace, w. rewrite bool_decide_true by done. rewrite bool_decide_false; [done|]. intros E. by rewrite E in Hc. }
  assert (running_in w s = true) as Hr by (unfold running_in; by rewrite Hin, Hc).
  unfold workspace_usage, add_sandbox. split_and!; simpl.
  - by rewrite usage_insert by (done || apply Hf).
  - by rewrite usageQ_insert by (done || apply Hf).
  - by rewrite usage_insert by (done || apply Hf).
  - rewrite usage_insert by (done || apply Hf). pose proof (disk_of_le s _ HU eq_refl). lia.
  - done.
  - by eapply (snapshot_bytes_insert _ _ s.(sb_id) s d).
Qed.

(** Rows are stored under their ids. *)
Definition sandboxes_keyed (d : Db) : Prop := ∀ i s, d.(sandboxes) !! i = Some s → s.(sb_id) = i.

Lemma countZ_ext (p q : Sandbox → bool) f (m : gmap string Sandbox) :
  (∀ i x, m !! i = Some x → p x = q x) → totalZ (countZ p f) m = totalZ (countZ q f) m.
Proof. intros H. apply totalZ_ext. intros i x Hx. unfold countZ. by rewrite (H i x). Qed.

Lemma countQ_ext (p q : Sandbox → bool) f (m : gmap string Sandbox) :
  (∀ i x, m !! i = Some x → p x = q x) → totalQ (countQ p f) m = totalQ (countQ q f) m.
Proof. intros H. apply totalQ_ext. intros i x Hx. unfold countQ. by rewrite (H i x). Qed.

Lemma label_usage_add s ls key value d :
  0 ≤ UNSIZED_DISK_GB → sandboxes_keyed d → fresh_sandbox s.(sb_id) d → counted s.(sb_status) = true →
  ls !! key = Some value →
  let w := s.(sb_workspace_id) in
  one_more (label_usage UNSIZED_DISK_GB key value w d) (label_usage UNSIZED_DISK_GB key value w (add_sandbox s ls d))
    (size_of s) (disk_or_default UNSIZED_DISK_GB (size_of s)).
Proof.
  intros HU Hk Hf Hc Hls w. set (d' := add_sandbox s ls d).
  assert (has_label key value d' s = true) as Hlab.
  { unfold has_label, d'. simpl. rewrite lookup_insert_eq. simpl. by rewrite bool_decide_true. }
  assert (labelled_in w key value d' s = true) as Hl.
  { unfold labelled_in, w. rewrite Hlab. rewrite bool_decide_true by done. by destruct s.(sb_status). }
  assert (∀ i x, d.(sandboxes) !! i = Some x → has_label key value d' x = has_label key value d x) as Hsame.
  { intros i x Hx. unfold has_label, d'. simpl. rewrite lookup_insert_ne; [done|]. intros E.
    destruct Hf as [Hf _]. rewrite E, (Hk _ _ Hx) in Hf. congruence. }
  assert (∀ i x, d.(sandboxes) !! i = Some x → labelled_in w key value d' x = labelled_in w key value d x) as Hold.
  { intros i x Hx. unfold labelled_in. by rewrite (Hsame i x Hx). }
  assert (labelled_in w key value d' s && counted s.(sb_status) = true) as Hlc by (by rewrite Hl, Hc).
  assert (∀ i x, d.(sandboxes) !! i = Some x → labelled_in w key value d' x && counted x.(sb_status) =
     labelled_in w key value d x && counted x.(sb_status)) as Hold' by (intros i x Hx; by rewrite (Hold i x Hx)).
  unfold label_usage. split_and!; simpl.
  - rewrite usage_insert by (done || apply Hf). by rewrite (countZ_ext _ _ _ _ Hold').
  - rewrite usageQ_insert by (done || apply Hf). by rewrite (countQ_ext _ _ _ _ Hold').
  - rewrite usage_insert by (done || apply Hf). by rewrite (countZ_ext _ _ _ _ Hold').
  - rewrite usage_insert by (done || apply Hf). rewrite (countZ_ext _ _ _ _ Hold). pose proof (disk_of_le s _ HU eq_refl). lia.
  - done.
  - eapply (snapshot_bytes_insert _ _ s.(sb_id) s d); [done..|]. intros i x Hx. by rewrite (Hsame i x Hx).
Qed.

(** *** Starting a sandbox that is there *)

(** The row of a sandbox that starts: another status, the same size and labels. *)
Definition restarted (f : Sandbox → Sandbox) (s : Sandbox) : Prop :=
  (f s).(sb_id) = s.(sb_id) ∧ (f s).(sb_workspace_id) = s.(sb_workspace_id) ∧ size_of (f s) = size_of s ∧
  counted (f s).(sb_status) = true ∧ counted s.(sb_status) = false ∧ s.(sb_status) ≠ Deleting ∧ s.(sb_status) ≠ Deleted.

Lemma usage_alter (l : Sandbox → bool) (g : Sandbox → Z) f id s (m : gmap string Sandbox) :
  m !! id = Some s → l s = false → l (f s) = true → totalZ (countZ l g) (alter f id m) = totalZ (countZ l g) m + g (f s).
Proof. intros Hi H1 H2. pose proof (totalZ_alter (countZ l g) f m id s Hi) as H. unfold countZ in *. rewrite H1, H2 in H. lia. Qed.

Lemma usage_alter_same (l : Sandbox → bool) (g : Sandbox → Z) f id s (m : gmap string Sandbox) :
  m !! id = Some s → l (f s) = l s → g (f s) = g s → totalZ (countZ l g) (alter f id m) = totalZ (countZ l g) m.
Proof. intros Hi H1 H2. pose proof (totalZ_alter (countZ l g) f m id s Hi) as H. unfold countZ in *. rewrite H1, H2 in H. lia. Qed.

Lemma usageQ_alter (l : Sandbox → bool) (g : Sandbox → Q) f id s (m : gmap string Sandbox) :
  m !! id = Some s → l s = false → l (f s) = true →
  (totalQ (countQ l g) (alter f id m) == totalQ (countQ l g) m + g (f s))%Q.
Proof.
  intros Hi H1 H2. pose proof (totalQ_alter (countQ l g) f m id s Hi) as H. unfold countQ in *. rewrite H1, H2 in H. lra.
Qed.

Lemma snapshot_bytes_alter (p q : Sandbox → bool) f id d :
  (∀ x, q x = p x) → (∀ x, d.(sandboxes) !! id = Some x → p (f x) = p x) →
  snapshot_bytes q (upd_sandbox id f d) = snapshot_bytes p d.
Proof.
  intros Hq Hp. unfold snapshot_bytes. apply totalZ_ext. intros i sn _. simpl. rewrite lookup_alter. case_decide as E; [|].
  - rewrite <- E. destruct (d.(sandboxes) !! id) eqn:Ei; simpl; [|done]. rewrite Hq. by rewrite (Hp _ eq_refl).
  - destruct (_ !! sn.(sn_sandbox_id)); [|done]. by rewrite Hq.
Qed.

Lemma workspace_usage_start f s d :
  d.(sandboxes) !! s.(sb_id) = Some s → restarted f s →
  let w := s.(sb_workspace_id) in
  one_more (workspace_usage UNSIZED_DISK_GB w d) (workspace_usage UNSIZED_DISK_GB w (upd_sandbox s.(sb_id) f d)) (size_of s) 0.
Proof.
  intros Hs (Hid & Hw & Hsz & Hc & Hn & Hd1 & Hd2) w. injection Hsz as Hcpu Hmem Hdisk.
  assert (in_workspace w (f s) = true) as Hin'.
  { unfold in_workspace, w. rewrite Hw, !bool_decide_true by done. by destruct (f s).(sb_status). }
  assert (in_workspace w s = true) as Hin by (unfold in_workspace, w; rewrite bool_decide_true by done; by rewrite bool_decide_false).
  assert (running_in w s = false) as Hr by (unfold running_in; by rewrite Hin, Hn).
  assert (running_in w (f s) = true) as Hr' by (unfold running_in; by rewrite Hin', Hc).
  unfold workspace_usage. split_and!; simpl.
  - by rewrite (usage_alter _ _ f s.(sb_id) s).
  - rewrite (usageQ_alter _ _ f s.(sb_id) s) by done. by rewrite Hcpu.
  - rewrite (usage_alter _ _ f s.(sb_id) s) by done. by rewrite Hmem.
  - rewrite (usage_alter_same _ _ f s.(sb_id) s); [lia|done|by rewrite Hin, Hin'|]. unfold disk_of. by rewrite Hdisk.
  - done.
  - apply snapshot_bytes_alter; [done|]. intros x Hx. simplify_eq. by rewrite Hw.
Qed.

Lemma label_usage_start f s key value d :
  d.(sandboxes) !! s.(sb_id) = Some s → restarted f s → has_label key value d s = true →
  let w := s.(sb_workspace_id) in
  one_more (label_usage UNSIZED_DISK_GB key value w d) (label_usage UNSIZED_DISK_GB key value w (upd_sandbox s.(sb_id) f d))
    (size_of s) 0.
Proof.
  intros Hs (Hid & Hw & Hsz & Hc & Hn & Hd1 & Hd2) Hlab w. injection Hsz as Hcpu Hmem Hdisk.
  assert (labelled_in w key value d s = true) as Hl.
  { unfold labelled_in, w. rewrite Hlab, bool_decide_true by done. by rewrite !bool_decide_false. }
  assert (has_label key value d (f s) = true) as Hlab' by (unfold has_label in *; by rewrite Hid).
  assert (labelled_in w key value d (f s) = true) as Hl'.
  { unfold labelled_in, w. rewrite Hlab', Hw, bool_decide_true by done. by destruct (f s).(sb_status). }
  unfold label_usage. split_and!; simpl.
  - rewrite (usage_alter _ _ f s.(sb_id) s); [done|done|by rewrite Hn, andb_false_r|].
    change (labelled_in w key value d (f s) && counted (f s).(sb_status) = true). by rewrite Hl', Hc.
  - rewrite (usageQ_alter _ _ f s.(sb_id) s); [by rewrite Hcpu|done|by rewrite Hn, andb_false_r|].
    change (labelled_in w key value d (f s) && counted (f s).(sb_status) = true). by rewrite Hl', Hc.
  - rewrite (usage_alter _ _ f s.(sb_id) s); [by rewrite Hmem|done|by rewrite Hn, andb_false_r|].
    change (labelled_in w key value d (f s) && counted (f s).(sb_status) = true). by rewrite Hl', Hc.
  - rewrite (usage_alter_same _ _ f s.(sb_id) s); [simpl; unfold labelled_in, has_label; simpl; lia|done| |].
    + change (labelled_in w key value d (f s) = labelled_in w key value d s). by rewrite Hl, Hl'.
    + unfold disk_of. by rewrite Hdisk.
  - done.
  - apply (snapshot_bytes_alter (λ x, has_label key value d x && bool_decide (x.(sb_workspace_id) = w))); [done|].
    intros x Hx. simplify_eq. by rewrite Hlab, Hlab', Hw.
Qed.
End usage.

(** ** The properties of quotas *)

(** What is used is within the quota: the workspace's, and a label value's. *)
Definition workspace_within (UNSIZED_DISK_GB : Z) (workspace_id : string) (d : Db) : Prop :=
  match get_workspace_quota workspace_id d with
  | Some quota =>
      let u := workspace_usage UNSIZED_DISK_GB workspace_id d in within quota u (storage_gb u)
  | None => True
  end.

Definition label_within (UNSIZED_DISK_GB : Z) (workspace_id : string) (d : Db) (kv : string * string) : Prop :=
  match get_label_quota workspace_id kv.1 kv.2 d with
  | Some quota =>
      let u := label_usage UNSIZED_DISK_GB kv.1 kv.2 workspace_id d in
      within quota u (inject_Z u.(u_disk_gb) + (u.(u_snapshot_bytes) # 1073741824))%Q
  | None => True
  end.

Lemma workspace_room_within U workspace_id size disk d d' :
  get_workspace_quota workspace_id d' = get_workspace_quota workspace_id d →
  one_more (workspace_usage U workspace_id d) (workspace_usage U workspace_id d') size disk →
  workspace_room U workspace_id size disk d → workspace_within U workspace_id d'.
Proof.
  intros Hq Hm. unfold workspace_room, workspace_within. rewrite Hq. destruct (get_workspace_quota workspace_id d) as [q|]; [|done].
  apply (one_more_within q _ _ size disk (λ z, z # 1073741824)). done.
Qed.

Lemma label_room_within U workspace_id size disk d d' kv :
  get_label_quota workspace_id kv.1 kv.2 d' = get_label_quota workspace_id kv.1 kv.2 d →
  one_more (label_usage U kv.1 kv.2 workspace_id d) (label_usage U kv.1 kv.2 workspace_id d') size disk →
  label_room U workspace_id size disk d kv → label_within U workspace_id d' kv.
Proof.
  intros Hq Hm. unfold label_room, label_within. rewrite Hq. destruct (get_label_quota workspace_id kv.1 kv.2 d) as [q|]; [|done].
  exact (one_more_within q _ _ size disk (λ z, z # 1073741824) Hm).
Qed.

(** the check of a quota decides exactly: it passes when the workspace's
    quota and those of all the labels have room for one more sandbox of the
    size (and, for a new one, its disk), answers 409 when one has not, and
    changes nothing. *)
Theorem check_decides UNSIZED_DISK_GB workspace_id size (new : bool) labels w :
  let disk := if new then disk_or_default UNSIZED_DISK_GB size else 0 in
  match check UNSIZED_DISK_GB workspace_id size new labels w with
  | (Ok _, w') =>
      w' = w ∧ workspace_room UNSIZED_DISK_GB workspace_id size disk w.(w_db) ∧
      Forall (label_room UNSIZED_DISK_GB workspace_id size disk w.(w_db)) labels
  | (Err e, w') =>
      w' = w ∧ (∃ m, e = HTTPException 409 m) ∧
      ¬ (workspace_room UNSIZED_DISK_GB workspace_id size disk w.(w_db) ∧
         Forall (label_room UNSIZED_DISK_GB workspace_id size disk w.(w_db)) labels)
  end.
Proof. apply check_cases. Qed.

(** C6: creating a sandbox never takes a quota past its limit.  When the check
    of a new sandbox passes, then with its row and labels in the tables the
    workspace uses no more sandboxes, CPUs, memory or storage than its quota,
    and so does every label value the sandbox has. *)
Theorem new_within_quota UNSIZED_DISK_GB s ls labels w w' :
  check UNSIZED_DISK_GB s.(sb_workspace_id) (size_of s) true labels w = (Ok tt, w') →
  0 ≤ UNSIZED_DISK_GB → sandboxes_keyed w.(w_db) → fresh_sandbox s.(sb_id) w.(w_db) → counted s.(sb_status) = true →
  (∀ kv, kv ∈ labels → ls !! kv.1 = Some kv.2) →
  workspace_within UNSIZED_DISK_GB s.(sb_workspace_id) (add_sandbox s ls w.(w_db)) ∧
  Forall (label_within UNSIZED_DISK_GB s.(sb_workspace_id) (add_sandbox s ls w.(w_db))) labels.
Proof.
  intros H HU Hk Hf Hc Hls. pose proof (check_cases UNSIZED_DISK_GB s.(sb_workspace_id) (size_of s) true labels w) as Hd.
  rewrite H in Hd. destruct Hd as (_ & Hw & Hl). split.
  - eapply (workspace_room_within _ _ _ _ w.(w_db)); [done| |exact Hw]. by apply workspace_usage_add.
  - rewrite Forall_forall in *. intros kv Hin. eapply (label_room_within _ _ _ _ w.(w_db)); [done| |by apply Hl].
    by apply label_usage_add; [| | | |apply Hls].
Qed.

(** starting a stopped sandbox never takes a quota past its limit. *)
Theorem start_within_quota UNSIZED_DISK_GB f s labels w w' :
  check UNSIZED_DISK_GB s.(sb_workspace_id) (size_of s) false labels w = (Ok tt, w') →
  w.(w_db).(sandboxes) !! s.(sb_id) = Some s → restarted f s →
  (∀ kv, kv ∈ labels → has_label kv.1 kv.2 w.(w_db) s = true) →
  workspace_within UNSIZED_DISK_GB s.(sb_workspace_id) (upd_sandbox s.(sb_id) f w.(w_db)) ∧
  Forall (label_within UNSIZED_DISK_GB s.(sb_workspace_id) (upd_sandbox s.(sb_id) f w.(w_db))) labels.
Proof.
  intros H Hs Hf Hls. pose proof (check_cases UNSIZED_DISK_GB s.(sb_workspace_id) (size_of s) false labels w) as Hd.
  rewrite H in Hd. destruct Hd as (_ & Hw & Hl). split.
  - eapply (workspace_room_within _ _ _ _ w.(w_db)); [done| |exact Hw]. by apply workspace_usage_start.
  - rewrite Forall_forall in *. intros kv Hin. eapply (label_room_within _ _ _ _ w.(w_db)); [done| |by apply Hl].
    apply label_usage_start; [done|done|by apply Hls].
Qed.

(** A workspace with a quota of two running sandboxes and 8 GB, one stopped
    sandbox labelled team=x, and no other. *)
Definition demo_quota_row (s : status) : Sandbox :=
  mkSandbox "s1" "w1" "v1" "u1" "one" s "docker" None None "{}" [] None None None None 0 0 None None
    Desktop None None None None 2%Q 2048 (Some 4) None None None.

Definition demo_quota_db : Db :=
  mkDb {["s1" := demo_quota_row Stopped]} ∅ ∅ {["s1" := {["team" := "x"]}]} ∅
    {["w1" := mkQuota (Some 2) None None (Some 8)]} {[("w1", "team", "x") := mkQuota (Some 1) None None None]} ∅ ∅ ∅ ∅ ∅ 1.

Definition demo_quota_world : World := mkWorld demo_quota_db 0 ∅ ∅ ∅ [].

Definition demo_quota_new (disk : Z) : Sandbox :=
  mkSandbox "s2" "w1" "v1" "u1" "two" Provisioning "docker" None None "{}" [] None None None None 0 0 None None
    Desktop None None None None 2%Q 2048 (Some disk) None None None.

Lemma new_within_quota_witness :
  (check 20 "w1" (size_of (demo_quota_new 5)) true [] demo_quota_world).1 ≠ Ok tt ∧
  workspace_within 20 "w1" (add_sandbox (demo_quota_new 4) {["team" := "x"]} demo_quota_db).
Proof.
  split; [vm_compute; discriminate|].
  refine (proj1 (new_within_quota 20 (demo_quota_new 4) {["team" := "x"]} [("team", "x")] demo_quota_world demo_quota_world _ _ _ _ _ _)).
  - vm_compute; reflexivity.
  - lia.
  - intros i s. simpl. intros [<- <-]%lookup_singleton_Some. done.
  - split; [vm_compute; reflexivity|]. intros i sn. simpl. by rewrite lookup_empty.
  - reflexivity.
  - intros kv ->%list_elem_of_singleton. vm_compute; reflexivity.
Defined.

Lemma start_within_quota_witness :
  workspace_within 20 "w1" (upd_sandbox "s1" (sb_set_status Provisioning) demo_quota_db).
Proof.
  refine (proj1 (start_within_quota 20 (sb_set_status Provisioning) (demo_quota_row Stopped) [("team", "x")]
    demo_quota_world demo_quota_world _ _ _ _)).
  - vm_compute; reflexivity.
  - vm_compute; reflexivity.
  - split_and!; (reflexivity || discriminate).
  - intros kv ->%list_elem_of_singleton. vm_compute; reflexivity.
Defined.
