(* ===== verification/Limits.v ===== *)
(** In-memory sliding-window rate limits (src/apps/server/limits.py), and their
    refinement of the specification that remembers every accepted hit. *)

From S2P Require Import Prelude Tables.

(** Source: src/apps/server/limits.py:9-13 [Limit].  [count] and [window]
    (seconds) are fixed when a limit is made; [hits] holds, per key, the times
    of the hits it still counts, oldest first. *)
Record Limit := mkLimit {
  count : nat;
  window : Z;
  hits : gmap string (list time)
}.

Definition set_hits (h : gmap string (list time)) (l : Limit) : Limit := mkLimit l.(count) l.(window) h.

(** [while hits and hits[0] <= cutoff: hits.popleft()] *)
Fixpoint drop_old (cutoff : time) (l : list time) : list time :=
  match l with
  | [] => []
  | t :: l' => if t <=? cutoff then drop_old cutoff l' else l
  end.

Definition SWEEP_KEYS : Z := 10000.

(** [v and v[-1] > cutoff] *)
Definition live_hits (cutoff : time) (l : list time) : bool :=
  match last l with Some t => cutoff <? t | None => false end.

(** [{k: v for k, v in hits.items() if v and v[-1] > cutoff}] *)
Definition sweep (cutoff : time) (h : gmap string (list time)) : gmap string (list time) :=
  filter (λ p, live_hits cutoff p.2 = true) h.

(** How a check ends: it counts the hit, it raises 429 with a Retry-After, or
    [hits[0]] finds no hit (a limit of zero). *)
Inductive verdict := Counted | TooMany (retry : Z) | NoFirstHit.

Definition counted_hit (v : verdict) : bool := match v with Counted => true | _ => false end.

(** Source: src/apps/server/limits.py:15-28 [Limit.check].  Whatever the
    verdict, the key's old hits are gone. *)
Definition check (key : string) (now : time) (l : Limit) : verdict * Limit :=
  let cutoff := now - sec l.(window) in
  let mine := drop_old cutoff (default [] (l.(hits) !! key)) in
  if (l.(count) <=? length mine)%nat then
    (match mine with
     | t :: _ => TooMany (Z.quot (t + sec l.(window) - now) 1000000 + 1)
     | [] => NoFirstHit
     end,
     set_hits (<[key := mine]> l.(hits)) l)
  else
    let h := <[key := mine ++ [now]]> l.(hits) in
    (Counted, set_hits (if SWEEP_KEYS <? Z.of_nat (size h) then sweep cutoff h else h) l).

(** Source: src/apps/server/limits.py:30-31 [Limit.reset]. *)
Definition reset (l : Limit) : Limit := set_hits ∅ l.

(** Source: src/apps/server/limits.py:34-38 [LOGIN_PER_IP, LOGIN_PER_EMAIL, SIGNUP_PER_IP, API_KEY]. *)
Definition LOGIN_PER_IP : Limit := mkLimit 20 60 ∅.
Definition LOGIN_PER_EMAIL : Limit := mkLimit 10 60 ∅.
Definition SIGNUP_PER_IP : Limit := mkLimit 10 (60 * 60) ∅.
Definition API_KEY : Limit := mkLimit 600 60 ∅.

(** ** The specification: every accepted hit is remembered *)

(** The hits of [key] accepted after [cutoff]. *)
Definition recent (cutoff : time) (key : string) (log : list (string * time)) : nat :=
  length (filter (λ p, p.1 = key ∧ cutoff < p.2) log).

(** Accepts a hit when fewer than [count] of its key's were accepted within
    the window before it. *)
Definition spec_check (n : nat) (w : Z) (key : string) (now : time) (log : list (string * time))
    : bool * list (string * time) :=
  if (n <=? recent (now - sec w) key log)%nat then (false, log) else (true, log ++ [(key, now)]).

(** Runs a sequence of requests on each, collecting what was accepted. *)
Fixpoint run_impl (rs : list (string * time)) (l : Limit) : list bool * Limit :=
  match rs with
  | [] => ([], l)
  | (key, now) :: rs' =>
      let (r, l1) := check key now l in
      let (bs, l2) := run_impl rs' l1 in
      (counted_hit r :: bs, l2)
  end.

Fixpoint run_spec (n : nat) (w : Z) (rs : list (string * time)) (log : list (string * time))
    : list bool * list (string * time) :=
  match rs with
  | [] => ([], log)
  | (key, now) :: rs' =>
      let (b, log1) := spec_check n w key now log in
      let (bs, log2) := run_spec n w rs' log1 in
      (b :: bs, log2)
  end.

(** Time does not go back: [time.monotonic()]. *)
Fixpoint clock_from (t : time) (rs : list (string * time)) : Prop :=
  match rs with
  | [] => True
  | (_, now) :: rs' => t ≤ now ∧ clock_from now rs'
  end.

(** ** Lemmas *)

(** The times of [key] in the log, oldest first. *)
Definition times (key : string) (log : list (string * time)) : list time := (filter (λ p, p.1 = key) log).*2.

Definition ascending (l : list time) : Prop := StronglySorted Z.le l.

Lemma drop_old_filter c l : ascending l → drop_old c l = filter (λ t, c < t) l.
Proof.
  induction 1 as [|t l Hs IH Ht]; simpl; [done|]. destruct (Z.leb_spec t c).
  - rewrite filter_cons_False by lia. done.
  - rewrite filter_cons_True by lia. f_equal.
    clear IH Hs. induction Ht as [|t' l Hle Ht IH]; [done|]. rewrite filter_cons_True by lia. by f_equal.
Qed.

Lemma recent_times c key log : recent c key log = length (filter (λ t, c < t) (times key log)).
Proof.
  unfold recent, times. induction log as [|[k t] log IH]; [done|].
  destruct (decide (k = key)) as [->|Hk].
  - rewrite (filter_cons_True (λ p, p.1 = key) (key, t) log) by done. csimpl.
    destruct (decide (c < t)).
    + rewrite filter_cons_True by done. rewrite filter_cons_True by done. simpl. by rewrite IH.
    + rewrite filter_cons_False by (simpl; tauto). rewrite filter_cons_False by done. done.
  - rewrite (filter_cons_False _ (k, t)) by (simpl; tauto). rewrite (filter_cons_False _ (k, t)) by done. done.
Qed.

Lemma filter_filter_le c c' (l : list time) : c ≤ c' → filter (λ t, c' < t) (filter (λ t : Z, c < t) l) = filter (λ t, c' < t) l.
Proof.
  intros Hc. rewrite list_filter_filter. apply list_filter_iff. intros t. lia.
Qed.

Lemma ascending_app l now : ascending l → Forall (λ t, t ≤ now) l → ascending (l ++ [now]).
Proof.
  intros Hl Hf. induction Hl as [|t l Hs IH Ht]; simpl; [by repeat constructor|].
  apply Forall_cons in Hf as [Hn Hf]. constructor; [by apply IH|]. rewrite Forall_app. by split; [|constructor].
Qed.

Lemma ascending_filter c (l : list time) : ascending l → ascending (filter (λ t : Z, c < t) l).
Proof.
  induction 1 as [|t l Hs IH Ht]; [constructor|]. rewrite filter_cons. case_decide; [|done].
  constructor; [done|]. by apply Forall_filter_sub.
Qed.

(** The process's table and the full log agree on everything after [cutoff]. *)
Definition agrees (t : time) (l : Limit) (log : list (string * time)) : Prop :=
  ∀ key, let mine := default [] (l.(hits) !! key) in
    ascending mine ∧ Forall (λ u, u ≤ t) mine ∧ Forall (λ u, u ≤ t) (times key log) ∧
    filter (λ u, t - sec l.(window) < u) mine = filter (λ u, t - sec l.(window) < u) (times key log).

Lemma agrees_later t t' l log : t ≤ t' → agrees t l log → agrees t' l log.
Proof.
  intros Ht H key. destruct (H key) as (H1 & H2 & H3 & H4). split_and!; [done| | |].
  - eapply Forall_impl; [done|]. simpl. lia.
  - eapply Forall_impl; [done|]. simpl. lia.
  - rewrite <- (filter_filter_le (t - sec l.(window))), H4, filter_filter_le by lia. done.
Qed.

Lemma times_app key log k now :
  times key (log ++ [(k, now)]) = times key log ++ (if decide (k = key) then [now] else []).
Proof. unfold times. rewrite filter_app, fmap_app, filter_cons, filter_nil. simpl. by case_decide. Qed.

Lemma sweep_lookup c h key :
  default [] (sweep c h !! key) = let l := default [] (h !! key) in if live_hits c l then l else [].
Proof.
  unfold sweep. destruct (h !! key) as [l|] eqn:E; simpl.
  - destruct (live_hits c l) eqn:El.
    + by rewrite (proj2 (map_lookup_filter_Some _ h key l)).
    + rewrite (proj2 (map_lookup_filter_None _ h key)); [done|]. right. intros l' Hl'. simplify_eq. simpl. by rewrite El.
  - rewrite (proj2 (map_lookup_filter_None _ h key)); [done|]. by left.
Qed.

(** A key swept away has no hit left in the window. *)
Lemma sweep_keeps c h key :
  ascending (default [] (h !! key)) →
  (default [] (sweep c h !! key) = default [] (h !! key)) ∨
  (default [] (sweep c h !! key) = [] ∧ filter (λ t, c < t) (default [] (h !! key)) = []).
Proof.
  intros Hs. rewrite sweep_lookup. simpl. set (l := default [] (h !! key)) in *. unfold live_hits.
  destruct (last l) as [t|] eqn:El; [destruct (Z.ltb_spec c t) as [Ht|Ht]|]; [by left| |].
  - right. split; [done|]. rewrite <- drop_old_filter by done. apply last_Some in El as [l' El]. clearbody l. subst l.
    assert (Forall (λ u, u ≤ t) l') as Hf.
    { clear -Hs. induction l' as [|u l' IH]; [constructor|]. apply StronglySorted_inv in Hs as [Hs Hf].
      apply Forall_app in Hf as [_ [Hu _]%Forall_cons]. constructor; [done|]. by apply IH. }
    clear Hs. induction Hf as [|u l' Hu Hf IH]; simpl; [by rewrite (proj2 (Z.leb_le t c)) by lia|].
    rewrite (proj2 (Z.leb_le u c)) by lia. done.
  - apply last_None in El. left. by rewrite El.
Qed.

(** One request: the process and the specification decide alike and agree
    afterwards. *)
Lemma check_refines key now t l log :
  t ≤ now → agrees t l log →
  let (r, l') := check key now l in
  let (b, log') := spec_check l.(count) l.(window) key now log in
  counted_hit r = b ∧ agrees now l' log' ∧ l'.(count) = l.(count) ∧ l'.(window) = l.(window).
Proof.
  intros Ht H0. pose proof (agrees_later t now l log Ht H0) as H. clear H0. unfold check, spec_check.
  set (c := now - sec l.(window)). set (mine := drop_old c (default [] (l.(hits) !! key))).
  assert (mine = filter (λ u, c < u) (default [] (l.(hits) !! key))) as Hm.
  { apply drop_old_filter. by destruct (H key). }
  assert (recent c key log = length mine) as ->.
  { rewrite recent_times, Hm. destruct (H key) as (_ & _ & _ & E). unfold c. by rewrite E. }
  assert (ascending mine ∧ Forall (λ u, u ≤ now) mine ∧ filter (λ u, c < u) mine = filter (λ u, c < u) (times key log))
    as (Ha & Hle & Hf).
  { destruct (H key) as (H1 & H2 & _ & H4). rewrite Hm. split_and!; [by apply ascending_filter|by apply Forall_filter_sub|].
    rewrite filter_filter_le by lia. done. }
  destruct (count l <=? length mine)%nat; (split; [by destruct mine|]; split; [|done]).
  - intros k. simpl. destruct (decide (k = key)) as [->|Hk].
    + rewrite lookup_insert_eq. simpl. destruct (H key) as (_ & _ & H3 & _). by split_and!.
    + rewrite lookup_insert_ne by done. apply H.
  - set (h := <[key := mine ++ [now]]> l.(hits)).
    assert (agrees now (set_hits h l) (log ++ [(key, now)])) as Hag.
    { intros k. simpl. unfold h. rewrite times_app. destruct (decide (k = key)) as [->|Hk].
      - rewrite lookup_insert_eq, decide_True by done. simpl. destruct (H key) as (_ & _ & H3 & _).
        split_and!; [by apply ascending_app|rewrite Forall_app; by split; [|repeat constructor]..|].
        fold c. rewrite !filter_app. by rewrite Hf.
      - rewrite lookup_insert_ne, decide_False, app_nil_r by congruence. apply H. }
    destruct (SWEEP_KEYS <? _); [|done]. intros k. destruct (Hag k) as (H1 & H2 & H3 & H4). simpl in *.
    destruct (sweep_keeps c h k H1) as [->|[-> E]]; [done|].
    split_and!; [constructor|constructor|done|]. rewrite <- H4. fold c. by rewrite E.
Qed.

Lemma run_refines rs t l log :
  clock_from t rs → agrees t l log → (run_impl rs l).1 = (run_spec l.(count) l.(window) rs log).1.
Proof.
  revert t l log. induction rs as [|[key now] rs IH]; intros t l log Hc Ha; simpl; [done|].
  destruct Hc as [Ht Hc]. pose proof (check_refines key now t l log Ht Ha) as H.
  destruct (check key now l) as [r l1], (spec_check _ _ _ _ _) as [b log1]. destruct H as (Hb & Ha1 & Hn & Hw).
  specialize (IH now l1 log1 Hc Ha1). rewrite Hn, Hw in IH.
  destruct (run_impl rs l1), (run_spec _ _ rs log1). simpl in *. by rewrite Hb, IH.
Qed.

Lemma agrees_fresh n w t : agrees t (mkLimit n w ∅) [].
Proof. intros key. simpl. rewrite lookup_empty. simpl. split_and!; constructor. Qed.

(** ** Properties *)

(** C26: the rate limiter decides exactly like the specification that keeps
    every accepted hit and counts those within the window, on any sequence of
    requests by any keys with a clock that does not go back.  Dropping old
    hits from the front and sweeping quiet keys changes no decision. *)
Theorem limit_refines_window n w t rs :
  clock_from t rs → (run_impl rs (mkLimit n w ∅)).1 = (run_spec n w rs []).1.
Proof. intros Hc. by apply (run_refines rs t (mkLimit n w ∅) []), agrees_fresh. Qed.

(** The time of the last request. *)
Fixpoint final_time (t : time) (rs : list (string * time)) : time :=
  match rs with [] => t | (_, now) :: rs' => final_time now rs' end.

Definition fits (t : time) (l : Limit) : Prop :=
  ∀ key, let mine := default [] (l.(hits) !! key) in
    ascending mine ∧ Forall (λ u, u ≤ t) mine ∧ (length mine ≤ l.(count))%nat.

Lemma drop_old_length c l : (length (drop_old c l) ≤ length l)%nat.
Proof. induction l as [|u l IH]; simpl; [lia|]. case_match; simpl; lia. Qed.

Lemma check_fits key now t l :
  t ≤ now → fits t l →
  fits now (check key now l).2 ∧ (check key now l).2.(count) = l.(count) ∧ (check key now l).2.(window) = l.(window).
Proof.
  intros Ht H0. assert (fits now l) as H.
  { intros k. destruct (H0 k) as (?&?&?). split_and!; [done| |done]. eapply Forall_impl; [done|]. simpl. lia. }
  clear H0. unfold check. set (c := now - sec l.(window)). set (mine := drop_old c (default [] (l.(hits) !! key))).
  assert (ascending mine ∧ Forall (λ u, u ≤ now) mine) as [Ha Hle].
  { destruct (H key) as (H1 & H2 & _). unfold mine. rewrite drop_old_filter by done.
    split; [by apply ascending_filter|by apply Forall_filter_sub]. }
  destruct (Nat.leb_spec (count l) (length mine)); (split; [|done]); intros k; simpl.
  - rewrite lookup_insert. case_decide; [subst|apply H]. simpl. split_and!; [done..|].
    pose proof (drop_old_length c (default [] (l.(hits) !! k))) as Hd. fold mine in Hd. destruct (H k) as (_ & _ & ?). lia.
  - set (h := <[key := mine ++ [now]]> l.(hits)).
    assert (let m := default [] (h !! k) in ascending m ∧ Forall (λ u, u ≤ now) m ∧ (length m ≤ count l)%nat) as Hh.
    { unfold h. simpl. rewrite lookup_insert. case_decide; [subst|apply H]. simpl. rewrite length_app. simpl.
      split_and!; [by apply ascending_app|rewrite Forall_app; by split; [|repeat constructor]|lia]. }
    destruct (SWEEP_KEYS <? _); [|done].
    destruct (sweep_keeps c h k) as [->|[-> _]]; [apply Hh|done|]. split_and!; [constructor..|simpl; lia].
Qed.

Lemma run_fits rs t l :
  clock_from t rs → fits t l →
  fits (final_time t rs) (run_impl rs l).2 ∧ (run_impl rs l).2.(count) = l.(count) ∧ (run_impl rs l).2.(window) = l.(window).
Proof.
  revert t l. induction rs as [|[key now] rs IH]; intros t l Hc Hf; simpl; [done|]. destruct Hc as [Ht Hc].
  pose proof (check_fits key now t l Ht Hf) as (H1 & H2 & H3). destruct (check key now l) as [v l1]. simpl in *.
  destruct (IH now l1 Hc H1) as (H4 & H5 & H6). destruct (run_impl rs l1) as [bs l2]. simpl in *.
  rewrite H5, H6, H2, H3. done.
Qed.

(** a refused request's Retry-After is honest.  After any requests on a
    limit of at least one hit, a refusal names between 1 and [window] + 1
    seconds, and a request of that key once they have passed is accepted. *)
Theorem retry_after_honest n w t rs key now retry l' :
  (1 ≤ n)%nat → 0 ≤ w → clock_from t rs → final_time t rs ≤ now →
  check key now (run_impl rs (mkLimit n w ∅)).2 = (TooMany retry, l') →
  1 ≤ retry ≤ w + 1 ∧ (check key (now + sec retry) l').1 = Counted.
Proof.
  intros Hn1 Hw Hc Hnow.
  assert (fits t (mkLimit n w ∅)) as Hf0.
  { intros k. simpl. rewrite lookup_empty. simpl. split_and!; [constructor..|lia]. }
  destruct (run_fits rs t _ Hc Hf0) as (Hf & En & Ew). simpl in En, Ew.
  set (l := (run_impl rs (mkLimit n w ∅)).2) in *. clearbody l. destruct (Hf key) as (Ha & Hle0 & Hlen).
  unfold check. set (c := now - sec l.(window)). set (old := default [] (l.(hits) !! key)) in *.
  assert (Forall (λ u, u ≤ now) old) as Hle by (eapply Forall_impl; [done|]; simpl; lia).
  pose proof (drop_old_length c old) as Hm.
  destruct (Nat.leb_spec (count l) (length (drop_old c old))) as [Hn|]; [|done].
  rewrite drop_old_filter in * by done.
  destruct (filter _ old) as [|t0 mine'] eqn:Em; [done|].
  assert (t0 ∈ old ∧ c < t0) as [Ht Hct].
  { assert (t0 ∈ filter (λ u, c < u) old) as Hin by (rewrite Em; left). apply list_elem_of_filter in Hin. tauto. }
  assert (t0 ≤ now) as Htn by (by apply (proj1 (Forall_forall _ _) Hle)).
  intros [= <- <-]. simpl. rewrite Ew in *. unfold sec in *. set (q := Z.quot _ _).
  assert (0 ≤ q ≤ w ∧ t0 ≤ now + (q + 1) * 1000000 - w * 1000000) as [Hq Ht0].
  { unfold c in Hct. split.
    - split; [apply Z.quot_pos; lia|]. apply Z.quot_le_upper_bound; lia.
    - pose proof (Z.quot_rem' (t0 + w * 1000000 - now) 1000000) as Hqr. fold q in Hqr.
      pose proof (Z.rem_bound_pos (t0 + w * 1000000 - now) 1000000). lia. }
  split; [lia|]. rewrite lookup_insert_eq. simpl default. cbn [drop_old]. rewrite (proj2 (Z.leb_le _ _) Ht0).
  simpl in Hm, Hlen. pose proof (drop_old_length (now + (q + 1) * 1000000 - w * 1000000) mine').
  destruct (Nat.leb_spec (count l) (length (drop_old (now + (q + 1) * 1000000 - w * 1000000) mine'))); [lia|done].
Qed.

Lemma limit_refines_window_witness :
  (run_impl [("k", 0); ("k", sec 1); ("k", sec 61)] (mkLimit 1 60 ∅)).1 = [true; false; true] ∧
  (run_impl [("k", 0); ("k", sec 1); ("k", sec 61)] (mkLimit 1 60 ∅)).1
    = (run_spec 1 60 [("k", 0); ("k", sec 1); ("k", sec 61)] []).1.
Proof.
  split; [vm_compute; reflexivity|]. apply (limit_refines_window 1 60 0). unfold sec. simpl. lia.
Defined.

Lemma retry_after_honest_witness :
  1 ≤ 60 ≤ 60 + 1 ∧ (check "k" (sec 1 + sec 60) (mkLimit 1 60 {["k" := [0]]})).1 = Counted.
Proof.
  apply (retry_after_honest 1 60 0 [("k", 0)] "k" (sec 1) 60 (mkLimit 1 60 {["k" := [0]]})).
  - lia.
  - lia.
  - simpl. lia.
  - unfold sec. simpl. lia.
  - vm_compute. reflexivity.
Defined.
