(* ===== verification/Registry.v ===== *)
(** The tools a sandbox offers (src/apps/server/registry.py): their table with
    categories and permissions, and the mouse and keyboard tools as the
    sequences of events they send to the sandbox's screen session.  The
    session itself is the gateway's, a parameter: it may refuse any call. *)

From S2P Require Import Prelude Tables.

(** ** The table of tools *)

(** Source: src/apps/server/registry.py:28-36 [Tool].  Which implementation a
    tool has is a choice of three functions, see [impl]. *)
Record Tool := mkTool {
  t_name : string;
  t_category : string;
  t_permission : string;
  t_action : string
}.

(** Source: src/apps/server/registry.py:19-25 [PERMISSIONS]. *)
Definition PERMISSIONS : list (string * string) :=
  [("shell", "exec"); ("screen", "read"); ("input", "control"); ("files", "read"); ("files", "write")].

Definition INPUT := ("input", "control").
Definition SCREEN := ("screen", "read").
Definition READ := ("files", "read").
Definition WRITE := ("files", "write").
Definition SHELL := ("shell", "exec").

(** Source: src/apps/server/registry.py:340-464 [TOOLS]. *)
Definition TOOLS : list Tool :=
  (λ row, let '(name, category, perm) := row in mkTool name category perm.1 perm.2) <$>
  [("screenshot", "observe", SCREEN); ("screen_diff", "observe", SCREEN); ("wait_until_stable", "observe", SCREEN);
   ("accessibility_tree", "observe", SCREEN);
   ("click", "mouse", INPUT); ("move_mouse", "mouse", INPUT); ("double_click", "mouse", INPUT);
   ("scroll", "mouse", INPUT); ("drag", "mouse", INPUT);
   ("type_text", "keyboard", INPUT); ("press_key", "keyboard", INPUT); ("hotkey", "keyboard", INPUT);
   ("windows_list", "windows", SCREEN); ("window_focus", "windows", INPUT); ("window_minimize", "windows", INPUT);
   ("window_restore", "windows", INPUT); ("window_maximize", "windows", INPUT); ("window_unmaximize", "windows", INPUT);
   ("window_close", "windows", INPUT);
   ("installed_apps", "apps", SCREEN); ("open_app", "apps", INPUT); ("close_app", "apps", INPUT);
   ("open_url", "browser", INPUT); ("fetch_url", "web", SHELL); ("execute_command", "shell", SHELL);
   ("list_files", "files", READ); ("get_file_info", "files", READ); ("read_file", "files", READ);
   ("write_file", "files", WRITE); ("create_directory", "files", WRITE); ("delete_file", "files", WRITE);
   ("move_file", "files", WRITE); ("copy_file", "files", WRITE)].

(** [TOOLS.get(name)] *)
Definition tool_named (name : string) : option Tool := head (filter (λ t, t.(t_name) = name) TOOLS).

(** Source: src/apps/server/registry.py:327-333 [KINDS].  [None]: every category. *)
Definition KINDS (k : kind) : option (list string) :=
  match k with
  | Browser => Some ["observe"; "mouse"; "keyboard"; "windows"; "browser"]
  | Code => Some ["shell"; "files"; "web"]
  | Desktop | Macos | Windows => None
  end.

(** Source: src/apps/server/registry.py:288-289 [has_screen]. *)
Definition has_screen (k : kind) : bool := negb (bool_decide (k = Code)).

(** [sandbox.kind in VMS] (src/apps/server/runtime.py, VMS). *)
Definition is_vm_kind (k : kind) : bool := match k with Macos | Windows => true | _ => false end.

(** Source: src/apps/server/macos.py:54-55 [is_vm]. *)
Definition macos_is_vm (runtime_id : option string) : bool :=
  match runtime_id with Some r => negb (bool_decide (r = "")) && startswith r "macos:" | None => false end.

(** Source: src/apps/server/windows.py:94-95 [is_vm]. *)
Definition windows_is_vm (runtime_id : option string) : bool :=
  match runtime_id with Some r => negb (bool_decide (r = "")) && startswith r "windows:" | None => false end.

(** Source: src/apps/server/runtime.py:209-210 [is_vm]. *)
Definition is_vm (runtime_id : option string) : bool := macos_is_vm runtime_id || windows_is_vm runtime_id.

Inductive os := Linux | Mac | Win.

(** Source: src/apps/server/registry.py:38-43 [Tool.impl].  Which of the tool's
    three functions runs. *)
Definition impl (runtime_id : string) : os :=
  if macos_is_vm (Some runtime_id) then Mac else if windows_is_vm (Some runtime_id) then Win else Linux.

(** ** Keys and buttons *)

(** Source: src/apps/server/registry.py:67-67 [BUTTONS]. *)
Definition BUTTONS : list (string * Z) := [("left", 1); ("middle", 2); ("right", 4)].

(** Source: src/apps/server/registry.py:68-68 [SCROLL]. *)
Definition SCROLL : list (string * Z) := [("up", 8); ("down", 16); ("left", 32); ("right", 64)].

(** Source: src/apps/server/registry.py:69-109 [KEYSYMS]. *)
Definition KEYSYMS : list (string * Z) :=
  [("return", 0xFF0D); ("enter", 0xFF0D); ("tab", 0xFF09); ("escape", 0xFF1B); ("esc", 0xFF1B); ("backspace", 0xFF08);
   ("delete", 0xFFFF); ("space", 0x0020); ("home", 0xFF50); ("end", 0xFF57); ("left", 0xFF51); ("up", 0xFF52);
   ("right", 0xFF53); ("down", 0xFF54); ("page_up", 0xFF55); ("prior", 0xFF55); ("page_down", 0xFF56); ("next", 0xFF56);
   ("insert", 0xFF63); ("shift", 0xFFE1); ("shift_l", 0xFFE1); ("shift_r", 0xFFE2); ("ctrl", 0xFFE3);
   ("control", 0xFFE3); ("control_l", 0xFFE3); ("control_r", 0xFFE4); ("alt", 0xFFE9); ("alt_l", 0xFFE9);
   ("alt_r", 0xFFEA); ("option", 0xFFE9); ("cmd", 0xFFEB); ("command", 0xFFEB); ("super", 0xFFEB); ("super_l", 0xFFEB);
   ("super_r", 0xFFEC); ("meta", 0xFFEB); ("win", 0xFFEB); ("caps_lock", 0xFFE5)]
  ++ ((λ i, ("f" +:+ pretty (Z.of_nat i), 0xFFBD + Z.of_nat i)) <$> seq 1 12).

Definition lower_char (c : ascii) : ascii :=
  let n := nat_of_ascii c in
  if (65 <=? n)%nat && (n <=? 90)%nat then ascii_of_nat (n + 32) else c.

Fixpoint lower (s : string) : string :=
  match s with EmptyString => EmptyString | String c s' => String (lower_char c) (lower s') end.

(** Source: src/apps/server/registry.py:114-121 [keysym].  A character of the
    model's strings is below 0x100, so its code is its keysym. *)
Definition keysym (name : string) : result exn Z :=
  match name with
  | String c EmptyString => Ok (Z.of_nat (nat_of_ascii c))
  | _ => match dget (lower name) KEYSYMS with
         | Some s => Ok s
         | None => Err (ValueError [Txt "unknown key "; Txt name])
         end
  end.

(** [s.split(c)]: the pieces between the separators, at least one. *)
Fixpoint split (c : ascii) (s : string) : list string :=
  match s with
  | EmptyString => [EmptyString]
  | String a s' =>
      if decide (a = c) then EmptyString :: split c s'
      else match split c s' with
           | h :: t => String a h :: t
           | [] => [String a EmptyString]
           end
  end.

(** ** The screen session *)

(** A call on the gateway's session of a container's sandbox. *)
Inductive call :=
| Pointer (x y mask : Z)
| Key (keysym : Z) (down : bool)
| Type_ (text : string)
| ScreenShot.

(** The process's table of pointer positions, and the calls the gateway took. *)
Record Screen := mkScreen {
  pointers : gmap string (Z * Z);
  sent : list (string * call)
}.

Section screen.
(** The gateway: what it answers a call given the ones before, a frame's width
    and height for a screenshot. *)
Context (gateway : list (string * call) → string * call → result exn (Z * Z)).
(** The hub's table of containers (src/apps/server/guest.py, hub.sandbox_of). *)
Context (sandbox_of : string → option string).

(** Source: src/apps/server/registry.py:124-129 [gateway_screen]. *)
Definition gateway_screen (container_id : string) (c : call) : M Screen (Z * Z) := λ s,
  match sandbox_of container_id with
  | None => (Err (ZooError "not_found" [Txt "sandbox not found"]), s)
  | Some sandbox_id =>
      match gateway s.(sent) (sandbox_id, c) with
      | Ok r => (Ok r, mkScreen s.(pointers) (s.(sent) ++ [(sandbox_id, c)]))
      | Err e => (Err e, s)
      end
  end.

(** Source: src/apps/server/registry.py:132-134 [pointer]. *)
Definition pointer (container_id : string) (x y mask : Z) : M Screen unit :=
  gateway_screen container_id (Pointer x y mask);;
  modify (λ s, mkScreen (<[container_id := (x, y)]> s.(pointers)) s.(sent)).

(** [for _ in range(n): m], a count below one running nothing. *)
Definition repeat_ {St} (n : Z) (m : M St unit) : M St unit := for_ (seq 0 (Z.to_nat n)) (λ _, m).

(** Source: src/apps/server/registry.py:137-145 [press].  The pauses between
    clicks change no state. *)
Definition press (container_id button : string) (x y count : Z) : M Screen unit :=
  match dget button BUTTONS with
  | None => raise (ValueError [Txt "Invalid button"])
  | Some mask =>
      pointer container_id x y 0;;
      repeat_ count (pointer container_id x y mask;; pointer container_id x y 0)
  end.

Fixpoint keysyms (names : list string) : result exn (list Z) :=
  match names with
  | [] => Ok []
  | n :: rest =>
      match keysym n with
      | Err e => Err e
      | Ok s => match keysyms rest with Ok l => Ok (s :: l) | Err e => Err e end
      end
  end.

(** Source: src/apps/server/registry.py:148-153 [combo]. *)
Definition combo (container_id : string) (names : list string) : M Screen unit :=
  match keysyms names with
  | Err e => raise e
  | Ok syms =>
      for_ syms (λ s, gateway_screen container_id (Key s true);; mret tt);;
      for_ (reverse syms) (λ s, gateway_screen container_id (Key s false);; mret tt)
  end.

(** Source: src/apps/server/registry.py:156-158 [click]. *)
Definition click (container_id : string) (x y : Z) (button : string) : M Screen unit := press container_id button x y 1.

(** Source: src/apps/server/registry.py:161-163 [double_click]. *)
Definition double_click (container_id : string) (x y : Z) (button : string) : M Screen unit :=
  press container_id button x y 2.

(** Source: src/apps/server/registry.py:166-168 [move_mouse]. *)
Definition move_mouse (container_id : string) (x y : Z) : M Screen unit := pointer container_id x y 0.

(** Where a scroll happens: the given point, else the last pointer position,
    else the middle of the screen. *)
Definition scroll_at (container_id : string) (x y : option Z) : M Screen (Z * Z) :=
  match x, y with
  | Some x, Some y => mret (x, y)
  | _, _ =>
      ps ← gets pointers;
      match ps !! container_id with
      | Some p => mret p
      | None => found ← gateway_screen container_id ScreenShot; mret (found.1 / 2, found.2 / 2)
      end
  end.

(** Source: src/apps/server/registry.py:171-187 [scroll]. *)
Definition scroll (container_id direction : string) (amount : Z) (x y : option Z) : M Screen unit :=
  match dget direction SCROLL with
  | None => raise (ValueError [Txt "Invalid scroll direction"])
  | Some mask =>
      guard_ (1 <=? amount) (ValueError [Txt "Amount must be >= 1"]);;
      guard_ (Bool.eqb (is_none x) (is_none y)) (ValueError [Txt "Both x and y must be provided"]);;
      at_ ← scroll_at container_id x y;
      repeat_ amount (pointer container_id at_.1 at_.2 mask;; pointer container_id at_.1 at_.2 0)
  end.

(** [max(1, int(duration / 0.02))] *)
Definition drag_steps (duration : Q) : Z := Z.max 1 (Z.quot (Qnum duration * 50) (Zpos (Qden duration))).

(** Where step [index] of a drag is, on one axis. *)
Definition drag_at (start end_ steps index : Z) : Z := start + (end_ - start) * index / steps.

(** Source: src/apps/server/registry.py:190-210 [drag]. *)
Definition drag (container_id : string) (start_x start_y end_x end_y : Z) (button : string) (duration : Q)
    : M Screen unit :=
  match dget button BUTTONS with
  | None => raise (ValueError [Txt "Invalid button"])
  | Some mask =>
      let steps := drag_steps duration in
      pointer container_id start_x start_y 0;;
      pointer container_id start_x start_y mask;;
      for_ (seq 1 (Z.to_nat steps)) (λ index,
        pointer container_id (drag_at start_x end_x steps (Z.of_nat index))
          (drag_at start_y end_y steps (Z.of_nat index)) mask);;
      pointer container_id end_x end_y 0
  end.

(** Source: src/apps/server/registry.py:213-215 [type_text]. *)
Definition type_text (container_id text : string) : M Screen unit :=
  gateway_screen container_id (Type_ text);; mret tt.

(** Source: src/apps/server/registry.py:218-220 [press_key]. *)
Definition press_key (container_id key : string) : M Screen unit :=
  combo container_id (if (1 <? String.length key)%nat then split "+"%char key else [key]).

(** Source: src/apps/server/registry.py:223-227 [hotkey]. *)
Definition hotkey (container_id : string) (keys : list string) : M Screen unit :=
  match keys with
  | [] => raise (ValueError [Txt "At least one key is required"])
  | _ => combo container_id keys
  end.
End screen.

(** ** What a tool that returns has sent *)

Section sent_lemmas.
Context (gateway : list (string * call) → string * call → result exn (Z * Z)) (sandbox_of : string → option string).
Context (container_id sb : string) (Hsb : sandbox_of container_id = Some sb).

(** [m] sends the calls [cs], in that order, when it returns. *)
Definition sends {A} (m : M Screen A) (cs : list call) : Prop :=
  ∀ s a s', m s = (Ok a, s') → s'.(sent) = s.(sent) ++ ((λ c, (sb, c)) <$> cs).

Lemma sends_call c : sends (gateway_screen gateway sandbox_of container_id c) [c].
Proof.
  intros s a s'. unfold gateway_screen. rewrite Hsb. destruct (gateway _ _); [|done]. by intros [= <- <-].
Qed.

Lemma sends_nothing {A} (m : M Screen A) : (∀ s a s', m s = (Ok a, s') → s'.(sent) = s.(sent)) → sends m [].
Proof. intros H s a s' E. rewrite (H _ _ _ E). by rewrite app_nil_r. Qed.

Lemma sends_bind {A B} (m : M Screen A) (k : A → M Screen B) c1 c2 :
  sends m c1 → (∀ a, sends (k a) c2) → sends (m ≫= k) (c1 ++ c2).
Proof.
  intros Hm Hk s b s' (a & s1 & E1 & E2)%bind_ok_inv.
  rewrite (Hk _ _ _ _ E2), (Hm _ _ _ E1), fmap_app. by rewrite app_assoc.
Qed.

Lemma sends_then {A} (m : M Screen A) (k : A → M Screen unit) c1 :
  sends m c1 → (∀ a, sends (k a) []) → sends (m ≫= k) c1.
Proof. intros Hm Hk. rewrite <- (app_nil_r c1). by apply sends_bind. Qed.

Lemma sends_ret {A} (a : A) : sends (mret a) [].
Proof. apply sends_nothing. by intros s b s' [= <- <-]. Qed.

Lemma sends_pointer x y mask : sends (pointer gateway sandbox_of container_id x y mask) [Pointer x y mask].
Proof. apply sends_then; [apply sends_call|]. intros a. apply sends_nothing. by intros s b s' [= <- <-]. Qed.

Lemma sends_for {A} (l : list A) (f : A → M Screen unit) (g : A → list call) :
  (∀ x, sends (f x) (g x)) → sends (for_ l f) (concat (g <$> l)).
Proof.
  intros Hf. induction l as [|x l IH]; [apply sends_ret|]. simpl. by apply sends_bind.
Qed.

Lemma sends_key s down : sends (gateway_screen gateway sandbox_of container_id (Key s down);; mret tt) [Key s down].
Proof. apply sends_then; [apply sends_call|]. intros _. apply sends_ret. Qed.

Lemma concat_singletons {A B} (f : A → B) l : concat ((λ x, [f x]) <$> l) = f <$> l.
Proof. induction l as [|x l IH]; [done|]. apply (f_equal (cons (f x))), IH. Qed.

Lemma sends_combo names syms :
  keysyms names = Ok syms →
  sends (combo gateway sandbox_of container_id names) (((λ s, Key s true) <$> syms) ++ ((λ s, Key s false) <$> reverse syms)).
Proof.
  intros E. unfold combo. rewrite E. rewrite <- (concat_singletons (λ s, Key s true)), <- (concat_singletons (λ s, Key s false)).
  apply sends_bind; [apply sends_for|intros _; apply sends_for]; intros s; apply sends_key.
Qed.

Definition tap (x y mask : Z) : list call := [Pointer x y mask; Pointer x y 0].

Lemma sends_taps n x y mask :
  sends (repeat_ n (pointer gateway sandbox_of container_id x y mask;; pointer gateway sandbox_of container_id x y 0))
    (concat ((λ _, tap x y mask) <$> seq 0 (Z.to_nat n))).
Proof.
  apply sends_for. intros _. unfold tap. apply (sends_bind _ _ [_] [_]); [apply sends_pointer|].
  intros _. apply sends_pointer.
Qed.

Lemma sends_press button x y count mask :
  dget button BUTTONS = Some mask →
  sends (press gateway sandbox_of container_id button x y count)
    ([Pointer x y 0] ++ concat ((λ _, tap x y mask) <$> seq 0 (Z.to_nat count))).
Proof.
  intros E. unfold press. rewrite E. apply sends_bind; [apply sends_pointer|]. intros _. apply sends_taps.
Qed.

(** The points a drag passes, button held. *)
Definition drag_path (start_x start_y end_x end_y mask steps : Z) : list call :=
  (λ index, Pointer (drag_at start_x end_x steps (Z.of_nat index)) (drag_at start_y end_y steps (Z.of_nat index)) mask)
  <$> seq 1 (Z.to_nat steps).

Lemma sends_drag start_x start_y end_x end_y button duration mask :
  dget button BUTTONS = Some mask →
  sends (drag gateway sandbox_of container_id start_x start_y end_x end_y button duration)
    ([Pointer start_x start_y 0] ++ [Pointer start_x start_y mask]
     ++ drag_path start_x start_y end_x end_y mask (drag_steps duration) ++ [Pointer end_x end_y 0]).
Proof.
  intros E. unfold drag. rewrite E.
  apply sends_bind; [apply sends_pointer|intros _]. apply sends_bind; [apply sends_pointer|intros _].
  apply sends_bind; [|intros _; apply sends_pointer]. unfold drag_path. rewrite <- concat_singletons.
  apply sends_for. intros i. apply sends_pointer.
Qed.
End sent_lemmas.

Lemma drag_at_bounds start end_ steps index :
  0 < steps → 0 ≤ index ≤ steps → Z.min start end_ ≤ drag_at start end_ steps index ≤ Z.max start end_.
Proof.
  intros Hs Hi. unfold drag_at. destruct (Z.le_ge_cases start end_).
  - assert (0 ≤ (end_ - start) * index / steps) by (apply Z.div_pos; nia).
    assert ((end_ - start) * index / steps ≤ end_ - start) by (apply Z.div_le_upper_bound; nia). lia.
  - assert (end_ - start ≤ (end_ - start) * index / steps) by (apply Z.div_le_lower_bound; nia).
    assert ((end_ - start) * index / steps ≤ 0) by (apply Z.div_le_upper_bound; nia). lia.
Qed.

Lemma drag_at_end start end_ steps : 0 < steps → drag_at start end_ steps steps = end_.
Proof. intros Hs. unfold drag_at. rewrite Z.div_mul by lia. lia. Qed.

(** ** What is held down *)

(** A sandbox's buttons and keys as the calls leave them. *)
Definition held_step (sb : string) (h : Z * gset Z) (p : string * call) : Z * gset Z :=
  if decide (p.1 = sb) then
    match p.2 with
    | Pointer _ _ mask => (mask, h.2)
    | Key s true => (h.1, {[s]} ∪ h.2)
    | Key s false => (h.1, h.2 ∖ {[s]})
    | Type_ _ | ScreenShot => h
    end
  else h.

Definition held (sb : string) (l : list (string * call)) : Z * gset Z := foldl (held_step sb) (0, ∅) l.

Lemma held_other sb sb' h cs :
  sb ≠ sb' → foldl (held_step sb) h ((λ c, (sb', c)) <$> cs) = h.
Proof.
  intros Hne. revert h. induction cs as [|c cs IH]; intros h; simpl; [done|].
  unfold held_step at 2. rewrite decide_False by (simpl; congruence). apply IH.
Qed.

Lemma held_pointer sb h l x y mask :
  foldl (held_step sb) h (l ++ [(sb, Pointer x y mask)]) = (mask, (foldl (held_step sb) h l).2).
Proof. rewrite foldl_app. simpl. unfold held_step at 1. by rewrite decide_True. Qed.

Lemma held_keys_of_pointers sb h cs :
  Forall (λ c, match c with Key _ _ => False | _ => True end) cs →
  (foldl (held_step sb) h ((λ c, (sb, c)) <$> cs)).2 = h.2.
Proof.
  intros Hcs. revert h. induction Hcs as [|c cs Hc _ IH]; intros h; simpl; [done|].
  rewrite IH. unfold held_step. rewrite decide_True by done. by destruct c.
Qed.

Lemma held_downs sb h syms :
  foldl (held_step sb) h ((λ c, (sb, c)) <$> ((λ s, Key s true) <$> syms)) = (h.1, list_to_set syms ∪ h.2).
Proof.
  revert h. induction syms as [|s syms IH]; intros [m ks]; simpl.
  - f_equal. set_solver.
  - rewrite IH. unfold held_step. rewrite decide_True by done. simpl. f_equal. set_solver.
Qed.

Lemma held_ups sb h syms :
  foldl (held_step sb) h ((λ c, (sb, c)) <$> ((λ s, Key s false) <$> syms)) = (h.1, h.2 ∖ list_to_set syms).
Proof.
  revert h. induction syms as [|s syms IH]; intros [m ks]; simpl.
  - f_equal. set_solver.
  - rewrite IH. unfold held_step. rewrite decide_True by done. simpl. f_equal. set_solver.
Qed.

(** A sequence of calls that ends a pointer gesture with the button up and
    touches no key. *)
Lemma held_gesture sb h cs x y :
  Forall (λ c, match c with Key _ _ => False | _ => True end) cs →
  foldl (held_step sb) h ((λ c, (sb, c)) <$> (cs ++ [Pointer x y 0])) = (0, h.2).
Proof. intros Hcs. rewrite fmap_app. simpl. by rewrite held_pointer, held_keys_of_pointers. Qed.

Lemma held_combo sb m syms :
  foldl (held_step sb) (m, ∅) ((λ c, (sb, c)) <$> (((λ s, Key s true) <$> syms) ++ ((λ s, Key s false) <$> reverse syms)))
  = (m, ∅).
Proof.
  rewrite fmap_app, foldl_app, held_downs, held_ups. simpl. f_equal.
  apply leibniz_equiv. intros s. rewrite elem_of_difference, elem_of_union, !elem_of_list_to_set, elem_of_reverse.
  set_solver.
Qed.

Lemma taps_gesture n x y mask :
  ∃ cs, [Pointer x y 0] ++ concat ((λ _ : nat, tap x y mask) <$> seq 0 n) = cs ++ [Pointer x y 0] ∧
    Forall (λ c, match c with Key _ _ => False | _ => True end) cs.
Proof.
  induction n as [|n IH]; [by exists []|]. destruct IH as (cs & E & Hcs).
  rewrite seq_S, fmap_app, concat_app, app_assoc, E. simpl. exists (cs ++ [Pointer x y 0; Pointer x y mask]).
  rewrite <- !app_assoc. split; [done|]. rewrite Forall_app. split; [done|]. by repeat constructor.
Qed.

(** ** Properties *)

Section tool_properties.
Context (gateway : list (string * call) → string * call → result exn (Z * Z)) (sandbox_of : string → option string).

(** The mouse and keyboard tools. *)
Inductive input_tool (c : string) : M Screen unit → Prop :=
| tool_click x y b : input_tool c (click gateway sandbox_of c x y b)
| tool_double_click x y b : input_tool c (double_click gateway sandbox_of c x y b)
| tool_move_mouse x y : input_tool c (move_mouse gateway sandbox_of c x y)
| tool_scroll d n x y : input_tool c (scroll gateway sandbox_of c d n x y)
| tool_drag x y x' y' b t : input_tool c (drag gateway sandbox_of c x y x' y' b t)
| tool_type_text t : input_tool c (type_text gateway sandbox_of c t)
| tool_press_key k : input_tool c (press_key gateway sandbox_of c k)
| tool_hotkey ks : input_tool c (hotkey gateway sandbox_of c ks).

(** The calls of a tool that leave nothing held: from nothing held, all of them
    end with nothing held. *)
Definition releases (cs : list call) : Prop :=
  ∀ sb, foldl (held_step sb) (0, ∅) ((λ c, (sb, c)) <$> cs) = (0, ∅).

Lemma releases_gesture cs x y :
  Forall (λ c, match c with Key _ _ => False | _ => True end) cs → releases (cs ++ [Pointer x y 0]).
Proof. intros Hcs sb. by apply held_gesture. Qed.

Lemma press_releases c sb b x y n mask :
  sandbox_of c = Some sb → dget b BUTTONS = Some mask →
  ∃ cs, sends sb (press gateway sandbox_of c b x y n) cs ∧ releases cs.
Proof.
  intros Hsb Hb. eexists. split; [by apply sends_press|].
  destruct (taps_gesture (Z.to_nat n) x y mask) as (cs & -> & Hcs). by apply releases_gesture.
Qed.

Lemma combo_releases c sb names :
  sandbox_of c = Some sb → ∃ cs, sends sb (combo gateway sandbox_of c names) cs ∧ releases cs.
Proof.
  intros Hsb. destruct (keysyms names) as [syms|e] eqn:E.
  - eexists. split; [by apply sends_combo|]. intros sb'. apply held_combo.
  - exists []. split; [|done]. unfold combo. rewrite E. by intros s a s'.
Qed.

Lemma scroll_releases c sb d n x y s u s' :
  sandbox_of c = Some sb → scroll gateway sandbox_of c d n x y s = (Ok u, s') →
  ∃ cs, s'.(sent) = s.(sent) ++ ((λ c, (sb, c)) <$> cs) ∧ releases cs.
Proof.
  intros Hsb. unfold scroll. destruct (dget d SCROLL) as [mask|]; [|done].
  intros (? & ? & [_ ->]%guard_ok_inv & (? & ? & [_ ->]%guard_ok_inv & (p & s1 & E1 & E2)%bind_ok_inv)%bind_ok_inv)%bind_ok_inv.
  apply (sends_taps _ _ c sb Hsb) in E2. rewrite E2.
  assert (∃ cs, s1.(sent) = s.(sent) ++ ((λ c, (sb, c)) <$> cs) ∧ (cs = [] ∨ cs = [ScreenShot])) as (cs & Es & Hcs).
  { assert (∀ t, scroll_at gateway sandbox_of c x y t = (Ok p, s1) → ∃ cs,
      s1.(sent) = t.(sent) ++ ((λ c, (sb, c)) <$> cs) ∧ (cs = [] ∨ cs = [ScreenShot])) as Hat; [|by apply Hat].
    intros t. unfold scroll_at. destruct x, y; [intros [= <- <-]; exists []; by rewrite app_nil_r; auto|..];
      (intros E3; inv_ok; case_match; [|inv_ok]; simplify_eq;
       [exists []; unfold mret, M_ret in *; simplify_eq; rewrite app_nil_r; auto|
        match goal with H : gateway_screen _ _ _ _ _ = _ |- _ => apply (sends_call _ _ c sb Hsb) in H; rewrite H; eauto end]). }
  exists (cs ++ concat ((λ _, tap p.1 p.2 mask) <$> seq 0 (Z.to_nat n))). rewrite Es, fmap_app, app_assoc.
  split; [done|]. intros sb'. rewrite fmap_app, foldl_app.
  assert (foldl (held_step sb') (0, ∅) ((λ c, (sb', c)) <$> cs) = (0, ∅)) as ->.
  { destruct Hcs as [->| ->]; [done|]. simpl. unfold held_step. by rewrite decide_True. }
  destruct (taps_gesture (Z.to_nat n) p.1 p.2 mask) as (cs' & Et & Hc').
  pose proof (releases_gesture cs' p.1 p.2 Hc' sb') as Hr. rewrite <- Et in Hr. simpl in Hr.
  unfold held_step at 2 in Hr. by rewrite decide_True in Hr.
Qed.

Lemma input_tool_releases c sb m s u s' :
  sandbox_of c = Some sb → input_tool c m → m s = (Ok u, s') →
  ∃ cs, s'.(sent) = s.(sent) ++ ((λ c, (sb, c)) <$> cs) ∧ releases cs.
Proof.
  intros Hsb Hm E.
  assert (∀ cs, sends sb m cs → releases cs → ∃ cs, s'.(sent) = s.(sent) ++ ((λ c, (sb, c)) <$> cs) ∧ releases cs) as Hgen.
  { intros cs Hs Hr. exists cs. split; [by eapply Hs|done]. }
  destruct Hm; try (by eapply scroll_releases);
    try (destruct (combo_releases c sb ks Hsb) as (cs & Hs & Hr)).
  - unfold click, press in *. destruct (dget b BUTTONS) as [mask|] eqn:Eb; [|done].
    destruct (press_releases c sb b x y 1 mask Hsb Eb) as (cs & Hs & Hr). unfold press in Hs. rewrite Eb in Hs. eauto.
  - unfold double_click, press in *. destruct (dget b BUTTONS) as [mask|] eqn:Eb; [|done].
    destruct (press_releases c sb b x y 2 mask Hsb Eb) as (cs & Hs & Hr). unfold press in Hs. rewrite Eb in Hs. eauto.
  - apply (Hgen [Pointer x y 0]); [by apply sends_pointer|]. by apply (releases_gesture []).
  - destruct (dget b BUTTONS) as [mask|] eqn:Eb; [|unfold drag in E; rewrite Eb in E; done].
    eapply Hgen; [by apply sends_drag|]. rewrite !app_assoc. apply releases_gesture.
    rewrite !Forall_app. split; [by repeat constructor|]. apply Forall_fmap, Forall_true. done.
  - apply (Hgen [Type_ t]).
    + apply sends_then; [by apply sends_call|]. intros _. apply sends_ret.
    + intros sb'. simpl. unfold held_step. by rewrite decide_True.
  - unfold press_key in *.
    destruct (combo_releases c sb (if (1 <? String.length k)%nat then split "+"%char k else [k]) Hsb) as (cs & Hs & Hr). eauto.
  - unfold hotkey in *. destruct ks; [done|]. eauto.
Qed.

(** C29: no input tool leaves a button or a key held.  Whatever clicks, drags,
    scrolls, key presses and hotkeys an agent calls, once a call has returned
    no sandbox has a mouse button down or a key down, if none had before. *)
Theorem nothing_left_pressed c sb m s u s' :
  sandbox_of c = Some sb → input_tool c m → m s = (Ok u, s') →
  (∀ sb', held sb' s.(sent) = (0, ∅)) → ∀ sb', held sb' s'.(sent) = (0, ∅).
Proof.
  intros Hsb Hm E Hh sb'. destruct (input_tool_releases c sb m s u s' Hsb Hm E) as (cs & -> & Hr).
  unfold held. rewrite foldl_app. fold (held sb' s.(sent)). rewrite Hh.
  destruct (decide (sb' = sb)) as [->|Hne]; [apply Hr|by apply held_other].
Qed.

(** a drag presses at the start point, moves in [drag_steps] steps that
    stay within the box the two points span, with the button held until the
    end point exactly, and releases there, which is where the process then
    remembers the pointer. *)
Theorem drag_reaches_end c sb x y x' y' button duration s u s' :
  sandbox_of c = Some sb → drag gateway sandbox_of c x y x' y' button duration s = (Ok u, s') →
  ∃ mask points, dget button BUTTONS = Some mask ∧
    s'.(sent) = s.(sent) ++ ((λ c, (sb, c)) <$>
      ([Pointer x y 0; Pointer x y mask] ++ ((λ p, Pointer p.1 p.2 mask) <$> points) ++ [Pointer x' y' 0])) ∧
    Z.of_nat (length points) = drag_steps duration ∧ last points = Some (x', y') ∧
    Forall (λ p, Z.min x x' ≤ p.1 ≤ Z.max x x' ∧ Z.min y y' ≤ p.2 ≤ Z.max y y') points ∧
    s'.(pointers) !! c = Some (x', y').
Proof.
  intros Hsb E. destruct (dget button BUTTONS) as [mask|] eqn:Eb; [|unfold drag in E; rewrite Eb in E; done].
  set (n := drag_steps duration). assert (0 < n) as Hn by (unfold n, drag_steps; lia).
  exists mask, ((λ i, (drag_at x x' n (Z.of_nat i), drag_at y y' n (Z.of_nat i))) <$> seq 1 (Z.to_nat n)).
  split_and!.
  - done.
  - rewrite <- list_fmap_compose. unshelve (eapply (sends_drag gateway sandbox_of c sb Hsb)); try done.
  - rewrite length_fmap, length_seq. lia.
  - replace (Z.to_nat n) with (S (Z.to_nat n - 1)) by lia. rewrite fmap_last, seq_S, last_snoc.
    replace (1 + (Z.to_nat n - 1))%nat with (Z.to_nat n) by lia. simpl. rewrite Z2Nat.id by lia. by rewrite !drag_at_end.
  - apply Forall_fmap, Forall_forall. intros i Hi%elem_of_seq. simpl.
    split; apply drag_at_bounds; lia.
  - unfold drag in E. rewrite Eb in E. inv_ok. unfold pointer in *. inv_ok. simpl. apply lookup_insert_eq.
Qed.
End tool_properties.

(** the table of tools is consistent with the permissions and the kinds of
    sandboxes: names are unique, every tool asks for one of the permissions a
    policy can deny, a browser sandbox offers no tool that runs commands or
    touches files, and a code sandbox none that reads or controls the screen. *)
Theorem tools_table :
  NoDup (t_name <$> TOOLS) ∧
  Forall (λ t, (t.(t_permission), t.(t_action)) ∈ PERMISSIONS) TOOLS ∧
  Forall (λ t, t.(t_category) ∈ default [] (KINDS Browser) → t.(t_permission) = "screen" ∨ t.(t_permission) = "input") TOOLS ∧
  Forall (λ t, t.(t_category) ∈ default [] (KINDS Code) → t.(t_permission) = "shell" ∨ t.(t_permission) = "files") TOOLS.
Proof. repeat split; apply (bool_decide_unpack _); vm_compute; exact I. Qed.

Definition demo_gateway (l : list (string * call)) (c : string * call) : result exn (Z * Z) := Ok (800, 600).
Definition demo_sandbox_of (c : string) : option string := Some "s1".
Definition demo_screen : Screen := mkScreen ∅ [].

Lemma nothing_left_pressed_witness :
  held "s1" (hotkey demo_gateway demo_sandbox_of "c1" ["ctrl"; "c"] demo_screen).2.(sent) = (0, ∅).
Proof.
  refine (nothing_left_pressed demo_gateway demo_sandbox_of "c1" "s1" _ demo_screen tt _ eq_refl
    (tool_hotkey _ _ "c1" ["ctrl"; "c"]) _ _ "s1").
  - vm_compute. reflexivity.
  - intros sb. reflexivity.
Defined.

Lemma drag_reaches_end_witness :
  ∃ mask points, dget "left" BUTTONS = Some mask ∧
    (drag demo_gateway demo_sandbox_of "c1" 0 0 7 (-3) "left" (1 # 10) demo_screen).2.(sent) = [] ++ ((λ c, ("s1", c)) <$>
      ([Pointer 0 0 0; Pointer 0 0 mask] ++ ((λ p, Pointer p.1 p.2 mask) <$> points) ++ [Pointer 7 (-3) 0])) ∧
    Z.of_nat (length points) = 5 ∧ last points = Some (7, -3).
Proof.
  destruct (drag_reaches_end demo_gateway demo_sandbox_of "c1" "s1" 0 0 7 (-3) "left" (1 # 10) demo_screen tt
    (drag demo_gateway demo_sandbox_of "c1" 0 0 7 (-3) "left" (1 # 10) demo_screen).2 eq_refl)
    as (mask & points & H1 & H2 & H3 & H4 & _).
  - vm_compute. reflexivity.
  - exists mask, points. exact (conj H1 (conj H2 (conj H3 H4))).
Defined.
