(* ===== verification/Codec.v ===== *)
(** Base64, as the control plane uses Python's [base64] module for cursors,
    data keys and images: the encoder, the forgiving decoder of
    [binascii.a2b_base64], the URL-safe variants, and their round trip. *)

From S2P Require Import Prelude.

(** Bytes are the characters of a [string]. *)
Definition byte_of (c : ascii) : Z := Z.of_nat (nat_of_ascii c).
Definition char_of (z : Z) : ascii := ascii_of_nat (Z.to_nat z).

Lemma char_of_byte_of c : char_of (byte_of c) = c.
Proof. unfold char_of, byte_of. by rewrite Nat2Z.id, ascii_nat_embedding. Qed.

Lemma byte_of_bounds c : 0 ≤ byte_of c < 256.
Proof. unfold byte_of. pose proof (nat_ascii_bounded c). lia. Qed.

(** The 64 characters; [hi] and [hj] are the last two ('+' and '/', or '-' and
    '_' in the URL-safe alphabet). *)
Definition sextet_char (hi hj : ascii) (n : Z) : ascii :=
  if n <? 26 then char_of (65 + n)
  else if n <? 52 then char_of (97 + (n - 26))
  else if n <? 62 then char_of (48 + (n - 52))
  else if n =? 62 then hi else hj.

(** [table_a2b_base64]: the value of a character, [None] when it is not in the
    alphabet. *)
Definition char_sextet (c : ascii) : option Z :=
  let n := byte_of c in
  if (65 <=? n) && (n <=? 90) then Some (n - 65)
  else if (97 <=? n) && (n <=? 122) then Some (n - 97 + 26)
  else if (48 <=? n) && (n <=? 57) then Some (n - 48 + 52)
  else if n =? 43 then Some 62
  else if n =? 47 then Some 63
  else None.

Definition pad : ascii := "="%char.

(** [base64.b64encode], three bytes at a time. *)
Fixpoint b2a (hi hj : ascii) (s : string) : string :=
  let e := sextet_char hi hj in
  match s with
  | EmptyString => EmptyString
  | String a EmptyString =>
      let a := byte_of a in
      String (e (a / 4)) (String (e (a mod 4 * 16)) (String pad (String pad EmptyString)))
  | String a (String b EmptyString) =>
      let a := byte_of a in let b := byte_of b in
      String (e (a / 4)) (String (e (a mod 4 * 16 + b / 16)) (String (e (b mod 16 * 4)) (String pad EmptyString)))
  | String a (String b (String c s')) =>
      let a := byte_of a in let b := byte_of b in let c := byte_of c in
      String (e (a / 4)) (String (e (a mod 4 * 16 + b / 16)) (String (e (b mod 16 * 4 + c / 64))
        (String (e (c mod 64)) (b2a hi hj s'))))
  end.

Definition b64encode : string → string := b2a "+"%char "/"%char.
Definition urlsafe_b64encode : string → string := b2a "-"%char "_"%char.

(** [binascii.a2b_base64] outside strict mode: characters outside the alphabet
    are skipped, padding ends the data, and what is left of a group of four
    without it is an error ([None]; binascii.Error is a ValueError). *)
Fixpoint a2b (s : string) (quad left : Z) (pads : Z) : option string :=
  match s with
  | EmptyString => if quad =? 0 then Some EmptyString else None
  | String ch s' =>
      if decide (ch = pad) then
        if 2 <=? quad then if 4 <=? quad + (pads + 1) then Some EmptyString else a2b s' quad left (pads + 1)
        else a2b s' quad left pads
      else
        match char_sextet ch with
        | None => a2b s' quad left pads
        | Some v =>
            if quad =? 0 then a2b s' 1 v 0
            else if quad =? 1 then String (char_of (left * 4 + v / 16)) <$> a2b s' 2 (v mod 16) 0
            else if quad =? 2 then String (char_of (left * 16 + v / 4)) <$> a2b s' 3 (v mod 4) 0
            else String (char_of (left * 64 + v)) <$> a2b s' 0 0 0
        end
  end.

Definition b64decode (s : string) : option string := a2b s 0 0 0.

(** [urlsafe_b64decode] first translates '-' and '_' to '+' and '/'. *)
Fixpoint from_urlsafe (s : string) : string :=
  match s with
  | EmptyString => EmptyString
  | String c s' =>
      String (if decide (c = "-"%char) then "+"%char else if decide (c = "_"%char) then "/"%char else c) (from_urlsafe s')
  end.

Definition urlsafe_b64decode (s : string) : option string := b64decode (from_urlsafe s).

(** ** The round trip *)

Definition alphabet_ok (n : Z) : bool :=
  let c := sextet_char "+"%char "/"%char n in
  let c' := sextet_char "-"%char "_"%char n in
  bool_decide (char_sextet c = Some n) && bool_decide (c ≠ pad) &&
  bool_decide ((if decide (c' = "-"%char) then "+"%char else if decide (c' = "_"%char) then "/"%char else c') = c).

Lemma alphabet_all : forallb alphabet_ok (Z.of_nat <$> seq 0 64) = true.
Proof. vm_compute. reflexivity. Qed.

Lemma alphabet_spec n :
  0 ≤ n < 64 →
  char_sextet (sextet_char "+"%char "/"%char n) = Some n ∧ sextet_char "+"%char "/"%char n ≠ pad ∧
  (let c' := sextet_char "-"%char "_"%char n in
   (if decide (c' = "-"%char) then "+"%char else if decide (c' = "_"%char) then "/"%char else c')
   = sextet_char "+"%char "/"%char n).
Proof.
  intros Hn. pose proof alphabet_all as H. rewrite forallb_forall in H.
  specialize (H n). unfold alphabet_ok in H. rewrite !andb_true_iff, !bool_decide_eq_true in H.
  destruct H as [[H1 H2] H3]; [|done]. rewrite <- list_elem_of_In, list_elem_of_fmap. exists (Z.to_nat n).
  rewrite elem_of_seq. lia.
Qed.

(** The decoder on one character of the encoder. *)
Lemma a2b_char n s quad left pads :
  0 ≤ n < 64 →
  a2b (String (sextet_char "+"%char "/"%char n) s) quad left pads =
    if quad =? 0 then a2b s 1 n 0
    else if quad =? 1 then String (char_of (left * 4 + n / 16)) <$> a2b s 2 (n mod 16) 0
    else if quad =? 2 then String (char_of (left * 16 + n / 4)) <$> a2b s 3 (n mod 4) 0
    else String (char_of (left * 64 + n)) <$> a2b s 0 0 0.
Proof.
  intros Hn. destruct (alphabet_spec n Hn) as (H1 & H2 & _). cbn [a2b]. rewrite decide_False by done. by rewrite H1.
Qed.

(** Strings by threes. *)
Lemma string_ind3 (P : string → Prop) :
  P EmptyString → (∀ a, P (String a EmptyString)) → (∀ a b, P (String a (String b EmptyString))) →
  (∀ a b c s, P s → P (String a (String b (String c s)))) → ∀ s, P s.
Proof.
  intros H0 H1 H2 H3. fix IH 1. intros [|a [|b [|c s]]]; [done|apply H1|apply H2|apply H3, IH].
Qed.

Lemma char_of_eq z c : z = byte_of c → char_of z = c.
Proof. intros ->. apply char_of_byte_of. Qed.

Lemma b64_roundtrip s : b64decode (b64encode s) = Some s.
Proof.
  unfold b64decode, b64encode. induction s as [|a|a b|a b c s IH] using string_ind3; [done| | |]; cbn [b2a].
  - pose proof (byte_of_bounds a). rewrite !a2b_char by (Z.to_euclidean_division_equations; lia). simpl.
    do 2 f_equal. apply char_of_eq. Z.to_euclidean_division_equations; lia.
  - pose proof (byte_of_bounds a). pose proof (byte_of_bounds b).
    rewrite !a2b_char by (Z.to_euclidean_division_equations; lia). simpl.
    do 2 f_equal; [|do 2 f_equal]; apply char_of_eq; Z.to_euclidean_division_equations; lia.
  - pose proof (byte_of_bounds a). pose proof (byte_of_bounds b). pose proof (byte_of_bounds c).
    rewrite !a2b_char by (Z.to_euclidean_division_equations; lia). simpl. rewrite IH. simpl.
    do 2 f_equal; [|do 2 f_equal; [|do 2 f_equal]]; apply char_of_eq; Z.to_euclidean_division_equations; lia.
Qed.

Lemma from_urlsafe_encode s : from_urlsafe (urlsafe_b64encode s) = b64encode s.
Proof.
  unfold urlsafe_b64encode, b64encode.
  induction s as [|a|a b|a b c s IH] using string_ind3; [done| | |]; cbn [b2a from_urlsafe].
  - pose proof (byte_of_bounds a).
    do 2 f_equal; first [exact IH | done | apply alphabet_spec; Z.to_euclidean_division_equations; lia].
  - pose proof (byte_of_bounds a). pose proof (byte_of_bounds b).
    do 3 f_equal; first [exact IH | done | apply alphabet_spec; Z.to_euclidean_division_equations; lia].
  - pose proof (byte_of_bounds a). pose proof (byte_of_bounds b). pose proof (byte_of_bounds c).
    do 4 f_equal; first [exact IH | done | apply alphabet_spec; Z.to_euclidean_division_equations; lia].
Qed.

Lemma urlsafe_roundtrip s : urlsafe_b64decode (urlsafe_b64encode s) = Some s.
Proof. unfold urlsafe_b64decode. rewrite from_urlsafe_encode. apply b64_roundtrip. Qed.

(** ** Strict decoding *)

(** The form [binascii.a2b_base64] demands in strict mode: groups of four of the
    alphabet, padded at the end only. *)
Definition in_alphabet (c : ascii) : bool := match char_sextet c with Some _ => true | None => false end.
Fixpoint b64_form (s : string) : bool :=
  match s with
  | EmptyString => true
  | String a (String b (String c (String d s'))) =>
      in_alphabet a && in_alphabet b &&
      (if bool_decide (c = pad) then bool_decide (d = pad) && bool_decide (s' = EmptyString)
       else in_alphabet c &&
            (if bool_decide (d = pad) then bool_decide (s' = EmptyString) else in_alphabet d && b64_form s'))
  | _ => false
  end.

(** [base64.b64decode(s, validate=True)] *)
Definition b64decode_strict (s : string) : option string := if b64_form s then b64decode s else None.

Lemma alphabet_in n : 0 ≤ n < 64 → in_alphabet (sextet_char "+"%char "/"%char n) = true.
Proof. intros Hn. unfold in_alphabet. by rewrite (proj1 (alphabet_spec n Hn)). Qed.

Lemma alphabet_pad n : 0 ≤ n < 64 → bool_decide (sextet_char "+"%char "/"%char n = pad) = false.
Proof. intros Hn. apply bool_decide_false, alphabet_spec, Hn. Qed.

Lemma b64_strict_roundtrip s : b64decode_strict (b64encode s) = Some s.
Proof.
  unfold b64decode_strict. rewrite b64_roundtrip. enough (b64_form (b64encode s) = true) as -> by done. unfold b64encode.
  induction s as [|a|a b|a b c s IH] using string_ind3; [done| | |]; cbn [b2a b64_form].
  - pose proof (byte_of_bounds a). rewrite !alphabet_in by (Z.to_euclidean_division_equations; lia). done.
  - pose proof (byte_of_bounds a). pose proof (byte_of_bounds b).
    rewrite !alphabet_in, alphabet_pad by (Z.to_euclidean_division_equations; lia). done.
  - pose proof (byte_of_bounds a). pose proof (byte_of_bounds b). pose proof (byte_of_bounds c).
    rewrite !alphabet_in, !alphabet_pad by (Z.to_euclidean_division_equations; lia). done.
Qed.
