(* ===== verification/Kms.v ===== *)
(** Wrapping data keys (src/apps/server/kms.py): ZOO_KMS picks what wraps a new
    key, a wrapped key names what wrapped it.  Fernet and the cloud services
    are parameters with their documented behaviour: what one encrypts it
    decrypts, and a Fernet token opens under no other key. *)

From S2P Require Import Prelude Registry Codec.

(** The process environment these functions read. *)
Record KmsEnv := mkKmsEnv {
  ZOO_KMS : string;
  ZOO_SECRETS_KEY : option string;
  ZOO_SECRETS_KEY_PREVIOUS : string;
  AWS_REGION : option string;
  AWS_DEFAULT_REGION : option string
}.

(** The ciphers: Fernet under a key made from some material, and the three
    services, each of which may fail. *)
Record Ciphers := mkCiphers {
  fernet_encrypt : string → string → string;
  fernet_decrypt : string → string → option string;
  aws_encrypt : string → string → string → result exn string;
  aws_decrypt : string → string → result exn string;
  gcp_encrypt : string → string → result exn string;
  gcp_decrypt : string → string → result exn string;
  vault_encrypt : string → string → result exn string;
  vault_decrypt : string → string → result exn string
}.

Class CiphersOk (c : Ciphers) := {
  fernet_opens : ∀ k d, c.(fernet_decrypt) k (c.(fernet_encrypt) k d) = Some d;
  fernet_authentic : ∀ k k' d, k ≠ k' → c.(fernet_decrypt) k' (c.(fernet_encrypt) k d) = None;
  aws_opens : ∀ k r d b, c.(aws_encrypt) k r d = Ok b → c.(aws_decrypt) r b = Ok d;
  gcp_opens : ∀ k d b, c.(gcp_encrypt) k d = Ok b → c.(gcp_decrypt) k b = Ok d;
  vault_opens : ∀ k d b, c.(vault_encrypt) k d = Ok b → c.(vault_decrypt) k b = Ok d
}.

(** [dict.fromkeys(keys)]: the first of each. *)
Fixpoint unique (seen keys : list string) : list string :=
  match keys with
  | [] => []
  | k :: rest => if decide (k ∈ seen) then unique seen rest else k :: unique (k :: seen) rest
  end.

Definition is_space (c : ascii) : bool :=
  let n := nat_of_ascii c in (n =? 32)%nat || ((9 <=? n)%nat && (n <=? 13)%nat) || ((28 <=? n)%nat && (n <=? 31)%nat).

Fixpoint lstrip (s : string) : string :=
  match s with
  | String c s' => if is_space c then lstrip s' else s
  | EmptyString => EmptyString
  end.

Definition strip (s : string) : string := String.rev (lstrip (String.rev (lstrip s))).

Section kms.
Context (ciphers : Ciphers) (env : KmsEnv).

(** Source: src/apps/server/kms.py:40-44 [local_fernet].  The material of its
    keys: the first encrypts, all decrypt. *)
Definition local_fernet : result exn (list string) :=
  match env.(ZOO_SECRETS_KEY) with
  | None => Err (KeyError "ZOO_SECRETS_KEY")
  | Some k => Ok (unique [] (k :: filter (λ s, s ≠ "") (split ","%char env.(ZOO_SECRETS_KEY_PREVIOUS))))
  end.

(** [MultiFernet.encrypt] and [MultiFernet.decrypt]: the first key that opens
    the token. *)
Definition multi_encrypt (keys : list string) (d : string) : result exn string :=
  match keys with
  | k :: _ => Ok (ciphers.(fernet_encrypt) k d)
  | [] => Err (ValueError [Txt "MultiFernet requires at least one Fernet instance"])
  end.

Fixpoint multi_decrypt (keys : list string) (t : string) : result exn string :=
  match keys with
  | [] => Err InvalidToken
  | k :: rest => match ciphers.(fernet_decrypt) k t with Some d => Ok d | None => multi_decrypt rest t end
  end.

(** Source: src/apps/server/kms.py:89-95 [aws_region]. *)
Definition aws_region (key : string) : result exn string :=
  if startswith key "arn:" then
    match split ":"%char key !! 3%nat with Some r => Ok r | None => Err IndexError end
  else
    match coalesce_str (str_or_none env.(AWS_REGION)) (str_or_none env.(AWS_DEFAULT_REGION)) with
    | Some r => Ok r
    | None => Err (RuntimeError [Txt "set AWS_REGION, or give ZOO_KMS the key's full ARN"])
    end.

Definition rmap {A B} (f : A → B) (r : result exn A) : result exn B :=
  match r with Ok a => Ok (f a) | Err e => Err e end.

Definition rbind {A B} (r : result exn A) (f : A → result exn B) : result exn B :=
  match r with Ok a => f a | Err e => Err e end.

(** Source: src/apps/server/kms.py:47-60 [wrap]. *)
Definition wrap (data_key : string) : result exn string :=
  let setting := strip env.(ZOO_KMS) in
  if decide (setting = "") then
    rbind local_fernet (λ keys, rmap (λ t, "local:" +:+ t) (multi_encrypt keys data_key))
  else
    let '(provider, _, key) := partition ":"%char setting in
    if decide (provider = "aws") then
      rbind (aws_region key) (λ region,
        rmap (λ blob, "aws:" +:+ region +:+ ":" +:+ blob) (ciphers.(aws_encrypt) key region (b64encode data_key)))
    else if decide (provider = "gcp") then
      rmap (λ ct, "gcp:" +:+ key +:+ ":" +:+ ct) (ciphers.(gcp_encrypt) key (b64encode data_key))
    else if decide (provider = "vault") then
      rmap (λ ct, "vault:" +:+ key +:+ ":" +:+ ct) (ciphers.(vault_encrypt) key (b64encode data_key))
    else Err (RuntimeError [Txt "ZOO_KMS must start with aws:, gcp: or vault:, not "; Repr setting]).

(** [base64.b64decode], whose failure is a ValueError. *)
Definition unb64 (t : string) : result exn string :=
  match b64decode t with Some d => Ok d | None => Err (ValueError [Txt "Incorrect padding"]) end.

(** Source: src/apps/server/kms.py:63-75 [unwrap]. *)
Definition unwrap (wrapped : string) : result exn string :=
  let '(provider, _, rest) := partition ":"%char wrapped in
  if decide (provider = "local") then rbind local_fernet (λ keys, multi_decrypt keys rest)
  else
    let '(where_, _, ciphertext) := partition ":"%char rest in
    if decide (provider = "aws") then rbind (ciphers.(aws_decrypt) where_ ciphertext) unb64
    else if decide (provider = "gcp") then rbind (ciphers.(gcp_decrypt) where_ ciphertext) unb64
    else if decide (provider = "vault") then rbind (ciphers.(vault_decrypt) where_ ciphertext) unb64
    else Err (RuntimeError [Txt "a data key was wrapped by "; Repr provider; Txt ", which this API doesn't know"]).
End kms.

(** ** Lemmas *)
Lemma elem_of_unique k seen keys : k ∈ unique seen keys ↔ k ∈ keys ∧ k ∉ seen.
Proof.
  revert seen. induction keys as [|k' keys IH]; intros seen; simpl; [set_solver|].
  case_decide; [rewrite IH; set_solver|]. rewrite elem_of_cons, IH. destruct (decide (k = k')); set_solver.
Qed.

Section kms_lemmas.
Context (ciphers : Ciphers) `{!CiphersOk ciphers}.

Lemma multi_decrypt_opens keys k d :
  k ∈ keys → multi_decrypt ciphers keys (ciphers.(fernet_encrypt) k d) = Ok d.
Proof.
  induction keys as [|k' keys IH]; [set_solver|]. intros Hin. simpl.
  destruct (decide (k = k')) as [->|Hne]; [by rewrite fernet_opens|].
  rewrite fernet_authentic by done. apply IH. set_solver.
Qed.

(** The part of a wrapped key that names its service and where has no colon of
    its own. *)
Lemma partition_prefix p where_ ct :
  has_char ":"%char p = false → has_char ":"%char where_ = false →
  partition ":"%char (p +:+ ":" +:+ where_ +:+ ":" +:+ ct) = (p, true, where_ +:+ ":" +:+ ct) ∧
  partition ":"%char (where_ +:+ ":" +:+ ct) = (where_, true, ct).
Proof. intros Hp Hw. split; [apply (partition_app _ p (where_ +:+ ":" +:+ ct) Hp)|by apply (partition_app _ where_ ct)]. Qed.
End kms_lemmas.

(** What stands between the provider and the ciphertext in a key [env] wraps. *)
Definition where_of (env : KmsEnv) : string :=
  let '(provider, _, key) := partition ":"%char (strip env.(ZOO_KMS)) in
  if decide (provider = "aws") then match aws_region env key with Ok r => r | Err _ => "" end else key.

(** The keys that [env] wraps with itself open under [env']: its current key is
    [env']'s current or a previous one. *)
Definition keeps_keys (env env' : KmsEnv) : Prop :=
  ∀ k, env.(ZOO_SECRETS_KEY) = Some k →
  ∃ k', env'.(ZOO_SECRETS_KEY) = Some k' ∧ (k = k' ∨ (k ≠ "" ∧ k ∈ split ","%char env'.(ZOO_SECRETS_KEY_PREVIOUS))).

Lemma wrap_opens_later ciphers `{!CiphersOk ciphers} env env' data_key wrapped :
  wrap ciphers env data_key = Ok wrapped → keeps_keys env env' → has_char ":"%char (where_of env) = false →
  unwrap ciphers env' wrapped = Ok data_key.
Proof.
  intros Hw Hk Hc. unfold wrap, where_of in *. case_decide as Hs.
  - unfold local_fernet in Hw. destruct env.(ZOO_SECRETS_KEY) as [k|] eqn:Ek; [|done]. simpl in Hw.
    injection Hw as <-. unfold unwrap, local_fernet.
    set (t := fernet_encrypt ciphers k data_key).
    assert (partition ":"%char ("local:" +:+ t) = ("local", true, t)) as -> by apply (partition_app ":"%char "local" t eq_refl).
    rewrite decide_True by done.
    destruct (Hk k Ek) as (k' & -> & Hin). cbn [rbind]. apply multi_decrypt_opens; [done|]. apply elem_of_unique.
    split; [|set_solver]. destruct Hin as [<-|[Hn Hin]]; [left|right]. by apply list_elem_of_filter.
  - destruct (partition ":"%char (strip env.(ZOO_KMS))) as [[p b] key].
    assert (∀ q where_ ct, has_char ":"%char q = false → has_char ":"%char where_ = false →
      unwrap ciphers env' (q +:+ ":" +:+ where_ +:+ ":" +:+ ct) =
      if decide (q = "local") then rbind (local_fernet env') (λ keys, multi_decrypt ciphers keys (where_ +:+ ":" +:+ ct))
      else if decide (q = "aws") then rbind (ciphers.(aws_decrypt) where_ ct) unb64
      else if decide (q = "gcp") then rbind (ciphers.(gcp_decrypt) where_ ct) unb64
      else if decide (q = "vault") then rbind (ciphers.(vault_decrypt) where_ ct) unb64
      else Err (RuntimeError [Txt "a data key was wrapped by "; Repr q; Txt ", which this API doesn't know"])) as Hun.
    { intros q w ct Hq Hwh. destruct (partition_prefix q w ct Hq Hwh) as [E1 E2]. unfold unwrap. by rewrite E1, E2. }
    repeat case_decide; simplify_eq; unfold rmap, rbind in Hw; repeat case_match; simplify_eq;
      (etrans; [first [apply (Hun "aws" _ _ eq_refl Hc)|apply (Hun "gcp" _ _ eq_refl Hc)|apply (Hun "vault" _ _ eq_refl Hc)]|]);
      simpl; [erewrite aws_opens by done|erewrite gcp_opens by done|erewrite vault_opens by done];
      simpl; unfold unb64; by rewrite b64_roundtrip.
Qed.

(** a wrapped data key opens again, also after the settings changed: a key
    wrapped by a service opens whatever ZOO_KMS says by then, and one wrapped
    by ZOO_SECRETS_KEY opens while that key is still the current or a previous
    one.  It takes a region or key name without a colon, which separates it
    from the ciphertext; the ciphertext may have colons. *)
Theorem unwrap_wrap ciphers `{!CiphersOk ciphers} env env' data_key wrapped :
  wrap ciphers env data_key = Ok wrapped → keeps_keys env env' → has_char ":"%char (where_of env) = false →
  unwrap ciphers env' wrapped = Ok data_key.
Proof. by apply wrap_opens_later. Qed.

(** Ciphers for concrete runs: a header names the key, then comes the data. *)
Fixpoint drop_prefix (p t : string) : option string :=
  match p, t with
  | EmptyString, _ => Some t
  | String a p', String b t' => if decide (a = b) then drop_prefix p' t' else None
  | _, _ => None
  end.

Fixpoint header_from (n k : string) : string :=
  match n with EmptyString => String "0"%char k | String _ n' => String "1"%char (header_from n' k) end.
Definition header (k : string) : string := header_from k k.

Lemma drop_prefix_app p d : drop_prefix p (p +:+ d) = Some d.
Proof. induction p as [|a p IH]; [done|]. rewrite string_app_cons. cbn [drop_prefix]. by rewrite decide_True. Qed.

Lemma drop_prefix_same_length p k d x :
  String.length p = String.length k → drop_prefix p (k +:+ d) = Some x → p = k.
Proof.
  revert k. induction p as [|a p IH]; intros [|b k] Hl; try done. injection Hl as Hl.
  rewrite string_app_cons. cbn [drop_prefix]. case_decide; [|done]. intros E. subst. f_equal. by apply IH.
Qed.

Lemma header_injective k k' d x : drop_prefix (header k') (header k +:+ d) = Some x → k' = k.
Proof.
  unfold header. intros E.
  assert (∀ n' n kk kk', drop_prefix (header_from n' kk') (header_from n kk +:+ d) = Some x →
    String.length n' = String.length n ∧ drop_prefix kk' (kk +:+ d) = Some x) as Hgen.
  { induction n' as [|a n' IH]; intros [|b n] kk kk'; cbn [header_from];
      rewrite string_app_cons; cbn [drop_prefix]; case_decide; try done.
    intros H1. cbn [String.length]. destruct (IH n kk kk' H1) as [Hl H2]. by rewrite Hl. }
  destruct (Hgen k' k k k' E) as [Hl H2]. by eapply drop_prefix_same_length.
Qed.

Definition demo_ciphers : Ciphers :=
  mkCiphers (λ k d, header k +:+ d) (λ k t, drop_prefix (header k) t)
    (λ k r d, Ok d) (λ r b, Ok b) (λ k d, Ok d) (λ k b, Ok b) (λ k d, Ok (String "v"%char d))
    (λ k b, match b with String _ d => Ok d | EmptyString => Err InvalidToken end).

#[export] Instance demo_ciphers_ok : CiphersOk demo_ciphers.
Proof.
  split; simpl; try naive_solver.
  - intros k d. apply drop_prefix_app.
  - intros k k' d Hne. destruct (drop_prefix _ _) eqn:E; [|done]. apply header_injective in E. congruence.
Qed.

(** The settings before and after a new ZOO_SECRETS_KEY. *)
Definition demo_env : KmsEnv := mkKmsEnv "" (Some "first") "" None None.
Definition demo_env_next : KmsEnv := mkKmsEnv "vault:transit/zoo" (Some "second") "older,first" None None.

Lemma unwrap_wrap_witness :
  ∃ wrapped, wrap demo_ciphers demo_env "key" = Ok wrapped ∧ unwrap demo_ciphers demo_env_next wrapped = Ok "key".
Proof.
  eexists. split; [reflexivity|]. apply (unwrap_wrap demo_ciphers demo_env demo_env_next "key").
  - reflexivity.
  - intros k [= <-]. exists "second". split; [reflexivity|]. right. split; [discriminate|]. vm_compute. set_solver.
  - reflexivity.
Defined.
