(* ===== verification/Security.v ===== *)
(** Secrets (src/apps/server/security.py): masking them in tool results, the
    values kept per sandbox for that, and the envelope encryption of stored
    secrets with one data key per workspace. *)

From S2P Require Import Prelude Tables Store Codec Kms.

(** ** Redaction *)

Definition REDACTED : string := "[redacted]".
Definition MIN_REDACT_LENGTH : nat := 6.

(** [v.replace(old, new)] for a nonempty [old]: leftmost occurrences first,
    none overlapping.  [skip] counts the characters of an occurrence still to
    pass over. *)
Fixpoint replace_from (skip : nat) (old new v : string) : string :=
  match v with
  | EmptyString => EmptyString
  | String c v' =>
      match skip with
      | S n => replace_from n old new v'
      | O => if String.prefix old v then new +:+ replace_from (String.length old - 1) old new v'
             else String c (replace_from 0 old new v')
      end
  end.

Definition replace (old new v : string) : string := replace_from 0 old new v.

Definition len_ge (a b : string) : Prop := (String.length b ≤ String.length a)%nat.

#[global] Instance len_ge_dec : RelDecision len_ge.
Proof. intros a b. unfold len_ge. apply _. Defined.

(** The secrets worth masking, longest first. *)
Definition maskable (secrets : list string) : list string :=
  merge_sort len_ge (filter (λ s, (MIN_REDACT_LENGTH ≤ String.length s)%nat) secrets).

Definition mask (secrets : list string) (v : string) : string :=
  foldl (λ v s, replace s REDACTED v) v secrets.

(** Source: src/apps/server/security.py:172-181 [redact.walk]. *)
Fixpoint walk (secrets : list string) (v : json) : json :=
  match v with
  | JStr s => JStr (mask secrets s)
  | JObj d => JObj (map (λ '(k, x), (k, walk secrets x)) d)
  | JArr l => JArr (map (walk secrets) l)
  | _ => v
  end.

(** Source: src/apps/server/security.py:166-183 [redact]. *)
Definition redact (value : json) (secrets : list string) : json :=
  match maskable secrets with
  | [] => value
  | ss => walk ss value
  end.

(** ** The values kept per sandbox *)

(** Source: src/apps/server/security.py:111-113 [remember_secrets]. *)
Definition remember_secrets (sandbox_id : string) (values : list string) : M World unit :=
  modify (λ w, put_secrets (<[sandbox_id := values]> w.(w_booted)) (delete sandbox_id w.(w_attached)) w).

(** Source: src/apps/server/security.py:116-118 [forget_secrets]. *)
Definition forget_secrets (sandbox_id : string) : M World unit :=
  modify (λ w, put_secrets (delete sandbox_id w.(w_booted)) (delete sandbox_id w.(w_attached)) w).

(** Source: src/apps/server/security.py:121-126 [secrets_changed]. *)
Definition secrets_changed (sandbox_id : option string) : M World unit :=
  modify (λ w, put_secrets w.(w_booted)
    (match sandbox_id with None => ∅ | Some s => delete s w.(w_attached) end) w).

(** Source: src/apps/server/security.py:129-137 [redaction_values].  [attached]
    stands for the decrypted values attached now ([secret_values] and the
    screen password), read only when none are cached. *)
Definition redaction_values (sandbox_id : string) (attached : M World (list string)) : M World (list string) :=
  cached ← gets w_attached;
  now_attached ← match cached !! sandbox_id with
    | Some a => mret a
    | None =>
        a ← attached;
        modify (λ w, put_secrets w.(w_booted) (<[sandbox_id := a]> w.(w_attached)) w);;
        mret a
    end;
  booted ← gets w_booted;
  mret (default [] (booted !! sandbox_id) ++ now_attached).

(** ** Occurrences *)

Definition occurs (s v : string) : Prop := ∃ a b, v = a +:+ s +:+ b.

Lemma occurs_cons s c v : occurs s v → occurs s (String c v).
Proof. intros (a & b & ->). by exists (String c a), b. Qed.

Lemma occurs_nil_r s : occurs s "" → s = "".
Proof. intros (a & b & E). destruct a; [|done]. by destruct s. Qed.

Lemma prefix_app_true p v : String.prefix p v = true ↔ ∃ r, v = p +:+ r.
Proof.
  revert v. induction p as [|a p IH]; intros [|b v]; simpl.
  - split; [by exists ""|done].
  - split; [by eexists|done].
  - split; [done|]. intros [r E]. done.
  - split.
    + destruct (ascii_dec a b) as [->|]; [|done]. intros [r ->]%IH. by exists r.
    + intros [r E]. rewrite string_app_cons in E. injection E as -> ->.
      destruct (ascii_dec a a) as [_|]; [|done]. apply IH. eauto.
Qed.

Lemma occurs_inv s c v : occurs s (String c v) → String.prefix s (String c v) = true ∨ occurs s v.
Proof.
  intros ([|x a] & b & E); [left; apply prefix_app_true; eauto|].
  rewrite string_app_cons in E. injection E as _ ->. right. by exists a, b.
Qed.

(** An occurrence without the character [c] lies on one side of it. *)
Lemma occurs_split c s x y :
  has_char c s = false → occurs s (x +:+ String c y) → occurs s x ∨ occurs s y.
Proof.
  intros Hc (a & b & E). revert a E. induction x as [|d x IH]; intros a E.
  - destruct a as [|a0 a].
    + destruct s as [|s0 s]; [left; by exists "", ""|]. rewrite string_app_nil, string_app_nil, string_app_cons in E.
      injection E as -> _. simpl in Hc. rewrite bool_decide_true in Hc by done. done.
    + rewrite string_app_nil, string_app_cons in E. injection E as _ ->. right. by exists a, b.
  - destruct a as [|a0 a].
    + left. clear IH. rewrite string_app_nil in E.
      assert (∃ r, String d x = s +:+ r) as [r Hr]; [|exists "", r; by rewrite string_app_nil].
      revert E Hc. generalize (String d x). intros u. revert s. induction u as [|u0 u IH]; intros s E Hc.
      * destruct s as [|s0 s]; [by exists ""|]. rewrite string_app_nil, string_app_cons in E. injection E as -> _.
        simpl in Hc. rewrite bool_decide_true in Hc by done. done.
      * destruct s as [|s0 s]; [by eexists|]. rewrite !string_app_cons in E. injection E as <- E.
        simpl in Hc. apply orb_false_iff in Hc as [_ Hc]. destruct (IH s E Hc) as [r ->]. by exists r.
    + rewrite !string_app_cons in E. injection E as -> E. destruct (IH a E) as [H|H]; [left; by apply occurs_cons|by right].
Qed.

(** A secret that masking can remove: it has no bracket, and is no part of the
    word put in its place. *)
Definition clean (s : string) : Prop :=
  s ≠ "" ∧ has_char "["%char s = false ∧ has_char "]"%char s = false ∧ ¬ occurs s "redacted".

Lemma occurs_redacted s x y : clean s → occurs s (x +:+ REDACTED +:+ y) → occurs s x ∨ occurs s y.
Proof.
  intros (_ & Hl & Hr & Hn) H.
  change (REDACTED +:+ y) with (String "["%char ("redacted" +:+ String "]"%char y)) in H.
  destruct (occurs_split _ _ _ _ Hl H) as [?|H1]; [by left|].
  destruct (occurs_split _ _ _ _ Hr H1); [done|by right].
Qed.

(** What [replace] gives: gaps without the old string, and the new one where it
    was. *)
Inductive replaced (old : string) : string → string → Prop :=
| replaced_gap g : ¬ occurs old g → replaced old g g
| replaced_one g v out : ¬ occurs old g → replaced old v out →
    replaced old (g +:+ old +:+ v) (g +:+ REDACTED +:+ out).

Lemma replace_skip p old new r : replace_from (String.length p) old new (p +:+ r) = replace_from 0 old new r.
Proof. induction p as [|a p IH]; [done|]. rewrite string_app_cons. cbn [String.length replace_from]. apply IH. Qed.

Lemma replaced_cons old c v out :
  String.prefix old (String c v) = false → replaced old v out → replaced old (String c v) (String c out).
Proof.
  intros Hp H. assert (∀ g r, v = g +:+ r → ¬ occurs old g → ¬ occurs old (String c g)) as Hgap.
  { intros g r -> Hg [Hpre|?]%occurs_inv; [|done]. apply prefix_app_true in Hpre as [u E].
    assert (String.prefix old (String c (g +:+ r)) = true); [|congruence].
    apply prefix_app_true. exists (u +:+ r). rewrite <- string_app_assoc, <- E. done. }
  destruct H as [g Hg|g v' out Hg H].
  - apply replaced_gap. apply (Hgap g ""); [by rewrite string_app_nil_r|done].
  - rewrite <- !string_app_cons. apply replaced_one; [by eapply Hgap|done].
Qed.

Lemma replace_replaced old v : old ≠ "" → replaced old v (replace old REDACTED v).
Proof.
  intros Hold. remember (String.length v) as n eqn:Hn. revert v Hn.
  induction (lt_wf n) as [n _ IH]. intros v ->. destruct v as [|c v].
  - apply replaced_gap. intros ?%occurs_nil_r. done.
  - unfold replace. cbn [replace_from]. destruct (String.prefix old (String c v)) eqn:Hp.
    + assert (Hp' := Hp). apply prefix_app_true in Hp' as [r E]. destruct old as [|o old]; [done|].
      rewrite string_app_cons in E. injection E as <- ->.
      replace (String.length (String c old) - 1)%nat with (String.length old) by (simpl; lia).
      rewrite replace_skip. fold (replace (String c old) REDACTED r).
      rewrite <- string_app_cons.
      apply (replaced_one (String c old) "" r); [by intros ?%occurs_nil_r|].
      apply (IH (String.length r)); [|done]. cbn [String.length]. rewrite string_app_length. lia.
    + apply replaced_cons; [done|]. apply (IH (String.length v)); [simpl; lia|done].
Qed.

(** Masking one secret puts no clean string where it was not. *)
Lemma replace_no_new s old v : clean s → old ≠ "" → occurs s (replace old REDACTED v) → occurs s v.
Proof.
  intros Hs Hold. pose proof (replace_replaced old v Hold) as H. induction H as [g Hg|g v out Hg H IH]; [done|].
  intros [Ho|Ho]%occurs_redacted; [| |done].
  - destruct Ho as (a & b & ->). exists a, (b +:+ old +:+ v). by rewrite !string_app_assoc.
  - destruct (IH Ho) as (a & b & ->). exists (g +:+ old +:+ a), b. by rewrite !string_app_assoc.
Qed.

(** Masking a clean secret removes it. *)
Lemma replace_removes s v : clean s → ¬ occurs s (replace s REDACTED v).
Proof.
  intros Hs Ho. assert (s ≠ "") as Hne by apply Hs. pose proof (replace_replaced s v Hne) as H.
  induction H as [g Hg|g v out Hg H IH]; [done|]. apply occurs_redacted in Ho as [?|?]; [done| |done]. by apply IH.
Qed.

Lemma mask_removes s secrets v :
  clean s → s ∈ secrets → Forall (λ t, t ≠ "") secrets → ¬ occurs s (mask secrets v).
Proof.
  intros Hs. assert (∀ l u, Forall (λ t, t ≠ "") l → ¬ occurs s u → ¬ occurs s (mask l u)) as Hkeep.
  { induction l as [|t l IH]; intros u Hl Hu; simpl; [done|]. apply Forall_cons in Hl as [Ht Hl].
    apply IH; [done|]. by intros ?%replace_no_new. }
  revert v. induction secrets as [|t secrets IH]; intros v Hin Hne; [set_solver|].
  apply Forall_cons in Hne as [Ht Hne]. apply elem_of_cons in Hin as [<-|Hin]; simpl; [|by apply IH].
  apply Hkeep; [done|]. by apply replace_removes.
Qed.

(** The strings of a JSON value that [walk] reaches: all but the keys of
    objects. *)
Fixpoint leaves (v : json) : list string :=
  match v with
  | JStr s => [s]
  | JObj d => concat (map (λ '(_, x), leaves x) d)
  | JArr l => concat (map leaves l)
  | _ => []
  end.

Fixpoint json_ind' (P : json → Prop) (H0 : P JNull) (H1 : ∀ b, P (JBool b)) (H2 : ∀ z, P (JInt z)) (H3 : ∀ s, P (JStr s))
    (H4 : ∀ l, Forall P l → P (JArr l)) (H5 : ∀ d, Forall (λ p, P p.2) d → P (JObj d)) (v : json) : P v :=
  match v with
  | JNull => H0
  | JBool b => H1 b
  | JInt z => H2 z
  | JStr s => H3 s
  | JArr l => H4 l ((fix go l : Forall P l :=
      match l with [] => Forall_nil_2 _ | x :: l' => Forall_cons_2 _ _ _ (json_ind' P H0 H1 H2 H3 H4 H5 x) (go l') end) l)
  | JObj d => H5 d ((fix go d : Forall (λ p, P p.2) d :=
      match d with [] => Forall_nil_2 _ | x :: d' => Forall_cons_2 _ _ _ (json_ind' P H0 H1 H2 H3 H4 H5 x.2) (go d') end) d)
  end.

Lemma leaves_walk secrets v : Forall (λ t, ∃ u, t = mask secrets u) (leaves (walk secrets v)).
Proof.
  induction v as [| | |s|l IH|d IH] using json_ind'; simpl; try constructor; [by eexists|constructor|..].
  - rewrite map_map. induction IH as [|x l Hx _ IH]; simpl; [constructor|]. by apply Forall_app.
  - rewrite map_map. induction IH as [|[k x] d Hx _ IH]; simpl; [constructor|]. by apply Forall_app.
Qed.

Lemma elem_of_maskable s secrets :
  s ∈ maskable secrets ↔ s ∈ secrets ∧ (MIN_REDACT_LENGTH ≤ String.length s)%nat.
Proof. unfold maskable. rewrite merge_sort_Permutation, list_elem_of_filter. tauto. Qed.

(** ** Envelope encryption *)

(** Source: src/db/generated/models.py:325-330 [SecretKey]. *)
Record SecretKey := mkSecretKey { sk_scope : string; sk_wrapped : string }.

(** The [secret_keys] table, the process's unwrapped keys ([_data_keys]) and its
    environment. *)
Record Keys := mkKeys {
  k_rows : gmap string SecretKey;
  k_cache : gmap string string;
  k_env : KmsEnv
}.

Definition ENVELOPE : string := "zk1:".

Section envelope.
Context (ciphers : Ciphers) `{!CiphersOk ciphers}.
(** [Fernet(key).encrypt] with the initialisation vector it draws, and
    [Fernet(key).decrypt]. *)
Context (seal : string → string → string → string) (open_ : string → string → option string).
Context (open_seal : ∀ k iv d, open_ k (seal k iv d) = Some d).

Definition lift {A} (r : result exn A) : M Keys A := match r with Ok a => mret a | Err e => raise e end.

Definition by_scope (scope : string) (rows : gmap string SecretKey) : option (string * SecretKey) :=
  head (filter (λ p, p.2.(sk_scope) = scope) (map_to_list rows)).

Definition cache_key (id : string) (row : SecretKey) : M Keys string :=
  s ← get;
  match s.(k_cache) !! id with
  | Some k => mret k
  | None =>
      k ← lift (unwrap ciphers s.(k_env) row.(sk_wrapped));
      modify (λ s, mkKeys s.(k_rows) (<[id := k]> s.(k_cache)) s.(k_env));;
      mret k
  end.

(** Source: src/apps/server/security.py:41-49 [_data_key].  [id] and [fresh] are
    the uuid and the key the code draws for a scope without one. *)
Definition data_key (scope id fresh : string) : M Keys (string * string) :=
  s ← get;
  match by_scope scope s.(k_rows) with
  | Some (id, row) => k ← cache_key id row; mret (id, k)
  | None =>
      wrapped ← lift (wrap ciphers s.(k_env) fresh);
      guard_ (is_none (s.(k_rows) !! id)) IntegrityError;;
      let row := mkSecretKey scope wrapped in
      modify (λ s, mkKeys (<[id := row]> s.(k_rows)) s.(k_cache) s.(k_env));;
      k ← cache_key id row; mret (id, k)
  end.

(** Source: src/apps/server/security.py:52-59 [_data_key_by_id]. *)
Definition data_key_by_id (id : string) : M Keys string :=
  s ← get;
  match s.(k_cache) !! id with
  | Some k => mret k
  | None =>
      match s.(k_rows) !! id with
      | None => raise InvalidToken
      | Some row => cache_key id row
      end
  end.

(** Source: src/apps/server/security.py:86-88 [encrypt_bytes]. *)
Definition encrypt_bytes (data scope id fresh iv : string) : M Keys string :=
  k ← data_key scope id fresh;
  mret (ENVELOPE +:+ k.1 +:+ ":" +:+ seal k.2 iv data).

Definition opened (k t : string) : M Keys string :=
  match open_ k t with Some d => mret d | None => raise InvalidToken end.

(** [token[n:]] *)
Fixpoint drop_chars (n : nat) (s : string) : string :=
  match n, s with S n', String _ s' => drop_chars n' s' | _, _ => s end.

(** Source: src/apps/server/security.py:91-93 [decrypt_bytes]. *)
Definition decrypt_bytes (token : string) : M Keys string :=
  let '(key_id, _, rest) := partition ":"%char (drop_chars (String.length ENVELOPE) token) in
  k ← data_key_by_id key_id;
  opened k rest.

(** Source: src/apps/server/security.py:71-83 [decrypt_async]. *)
Definition decrypt_async (token : string) : M Keys string :=
  guard_ (startswith token "zk1:") InvalidToken;;
  let '(key_id, sep, encrypted) := partition ":"%char (drop_chars 4 token) in
  guard_ sep (ValueError [Txt "not enough values to unpack (expected 2, got 1)"]);;
  k ← data_key_by_id key_id;
  opened k encrypted.

Definition rewrap (id : string) : M Keys unit :=
  s ← get;
  match s.(k_rows) !! id with
  | None => mret tt
  | Some row =>
      k ← lift (unwrap ciphers s.(k_env) row.(sk_wrapped));
      wrapped ← lift (wrap ciphers s.(k_env) k);
      modify (λ s, mkKeys (<[id := mkSecretKey row.(sk_scope) wrapped]> s.(k_rows)) (delete id s.(k_cache)) s.(k_env))
  end.

(** Source: src/apps/server/security.py:186-193 [rotate]. *)
Definition rotate : M Keys nat :=
  s ← get;
  for_ (map_to_list s.(k_rows)).*1 rewrap;;
  mret (length (map_to_list s.(k_rows))).

(** ** A stored secret stays readable *)

(** The environment opens what it wraps. *)
Definition sound_env (env : KmsEnv) : Prop := has_char ":"%char (where_of env) = false.

Lemma wrap_opens env d w : sound_env env → wrap ciphers env d = Ok w → unwrap ciphers env w = Ok d.
Proof.
  intros He Hw. eapply wrap_opens_later; [done|exact Hw| |exact He]. intros k Hk. exists k. auto.
Qed.

(** The data key [id] is [k]: its row unwraps to it. *)
Definition keyed (s : Keys) (id k : string) : Prop :=
  ∃ row, s.(k_rows) !! id = Some row ∧ unwrap ciphers s.(k_env) row.(sk_wrapped) = Ok k.

(** Every cached key is its row's. *)
Definition coherent (s : Keys) : Prop := ∀ id k, s.(k_cache) !! id = Some k → keyed s id k.

(** What a step keeps: coherence, the environment, and what every key is. *)
Definition advances (s s' : Keys) : Prop :=
  coherent s' ∧ s'.(k_env) = s.(k_env) ∧ ∀ id k, keyed s id k → keyed s' id k.

Lemma advances_refl s : coherent s → advances s s.
Proof. intros Hc. by split_and!. Qed.
Lemma advances_trans s1 s2 s3 : advances s1 s2 → advances s2 s3 → advances s1 s3.
Proof. intros (?&?&?) (?&?&?). split_and!; [done|congruence|auto]. Qed.

Lemma keyed_unique s id k k' : keyed s id k → keyed s id k' → k = k'.
Proof. intros (r & H1 & H2) (r' & H1' & H2'). congruence. Qed.

Lemma cache_key_spec id row s :
  coherent s → s.(k_rows) !! id = Some row →
  let '(r, s') := cache_key id row s in
  advances s s' ∧ match r with Ok k => keyed s' id k | Err _ => unwrap ciphers s.(k_env) row.(sk_wrapped) = r end.
Proof.
  intros Hc Hr. unfold cache_key. unfold mbind, M_bind, get. destruct (s.(k_cache) !! id) as [k|] eqn:Ec.
  - split; [by apply advances_refl|]. by apply Hc.
  - destruct (unwrap _ _ _) as [k|e] eqn:Eu; simpl; [|by split; [apply advances_refl|]].
    assert (∀ i k', keyed s i k' → keyed (mkKeys s.(k_rows) (<[id := k]> s.(k_cache)) s.(k_env)) i k') as Hk by done.
    split; [|by exists row]. split_and!; [|done|done]. intros i k'. simpl. rewrite lookup_insert. case_decide.
    + intros [= <-]. subst. by exists row.
    + intros Hi. by apply Hc in Hi.
Qed.

Lemma by_scope_Some scope rows id row : by_scope scope rows = Some (id, row) → rows !! id = Some row.
Proof.
  unfold by_scope. intros H%head_Some_elem_of. apply list_elem_of_filter in H as [_ H]. by apply elem_of_map_to_list.
Qed.

Lemma data_key_spec scope id fresh s :
  coherent s → sound_env s.(k_env) →
  let '(r, s') := data_key scope id fresh s in
  advances s s' ∧ match r with Ok p => keyed s' p.1 p.2 | Err _ => True end.
Proof.
  intros Hc He. unfold data_key. rewrite (bind_ok get _ s s s eq_refl).
  destruct (by_scope scope s.(k_rows)) as [[id0 row]|] eqn:Eb.
  - apply by_scope_Some in Eb. pose proof (cache_key_spec id0 row s Hc Eb) as H.
    unfold mbind, M_bind. destruct (cache_key id0 row s) as [[k|e] s'], H; done.
  - destruct (wrap _ _ _) as [wrapped|e] eqn:Ew; simpl lift; run; [|by split; [apply advances_refl|]].
    destruct (s.(k_rows) !! id) eqn:Ei; simpl is_none; run; [by split; [apply advances_refl|]|].
    set (s1 := mkKeys _ _ _). assert (advances s s1) as Ha.
    { assert (∀ i k', keyed s i k' → keyed s1 i k') as Hk.
      { intros i k' (row & Hr & Hu). exists row. simpl. rewrite lookup_insert_ne by congruence. done. }
      split_and!; [|done|done]. intros i k' Hi. by apply Hk, Hc. }
    pose proof (cache_key_spec id (mkSecretKey scope wrapped) s1 (proj1 Ha) ltac:(apply lookup_insert_eq)) as H.
    unfold mbind, M_bind. destruct (cache_key _ _ s1) as [[k|e] s'], H as [H1 H2]; (split; [by eapply advances_trans|done]).
Qed.

Lemma data_key_by_id_spec id k s :
  coherent s → keyed s id k → ∃ s', data_key_by_id id s = (Ok k, s') ∧ advances s s'.
Proof.
  intros Hc Hk. unfold data_key_by_id. rewrite (bind_ok get _ s s s eq_refl).
  destruct (s.(k_cache) !! id) as [k'|] eqn:Ec.
  - exists s. split; [|by apply advances_refl]. by rewrite (keyed_unique s id k' k (Hc _ _ Ec) Hk).
  - destruct Hk as (row & Hr & Hu). rewrite Hr. pose proof (cache_key_spec id row s Hc Hr) as H.
    destruct (cache_key id row s) as [[k1|e] s'] eqn:E, H as [Ha H1]; [|congruence].
    exists s'. split; [|done]. rewrite (keyed_unique s' id k1 k); [done..|]. apply Ha. by exists row.
Qed.

Lemma decrypt_spec token s : coherent s → advances s (decrypt_bytes token s).2.
Proof.
  intros Hc. unfold decrypt_bytes, data_key_by_id. destruct (partition _ _) as [[i b] rest].
  rewrite run_bind_assoc, (bind_ok get _ s s s eq_refl).
  assert (∀ k t, advances s t → advances s (opened k rest t).2) as Ho.
  { intros k t Ht. unfold opened. by destruct (open_ k rest). }
  unfold mbind, M_bind. destruct (s.(k_cache) !! i) eqn:Ec; [by apply Ho, advances_refl|].
  destruct (s.(k_rows) !! i) as [row|] eqn:Er; [|by apply advances_refl].
  pose proof (cache_key_spec i row s Hc Er) as H. destruct (cache_key i row s) as [[k|e] s'], H; [by apply Ho|done].
Qed.

Lemma rewrap_spec id s : coherent s → sound_env s.(k_env) → advances s (rewrap id s).2.
Proof.
  intros Hc He. unfold rewrap. rewrite (bind_ok get _ s s s eq_refl).
  destruct (s.(k_rows) !! id) as [row|] eqn:Er; [|by apply advances_refl].
  destruct (unwrap _ _ _) as [k|e] eqn:Eu; simpl lift; run; [|by apply advances_refl].
  destruct (wrap _ _ k) as [w|e] eqn:Ew; simpl lift; run; [|by apply advances_refl].
  set (s1 := mkKeys _ _ _). simpl. assert (∀ i k', keyed s i k' → keyed s1 i k') as Hk.
  { intros i k' (row' & Hr' & Hu'). destruct (decide (i = id)) as [->|Hne].
    - rewrite Er in Hr'. simplify_eq. exists (mkSecretKey row'.(sk_scope) w). simpl.
      rewrite lookup_insert_eq. split; [done|]. rewrite Eu in Hu'. injection Hu' as <-. by apply wrap_opens.
    - exists row'. simpl. by rewrite lookup_insert_ne. }
  split_and!; [|done|done]. intros i k'. simpl. rewrite lookup_delete. case_decide; [done|]. intros Hi. by apply Hk, Hc.
Qed.

Lemma rotate_spec s : coherent s → sound_env s.(k_env) → advances s (rotate s).2.
Proof.
  intros Hc He. unfold rotate. rewrite (bind_ok get _ s s s eq_refl).
  assert (∀ l t, advances s t → advances s (for_ l rewrap t).2) as Hfor.
  { induction l as [|id l IH]; intros t Ht; simpl; [done|]. unfold mbind, M_bind.
    destruct (Ht) as (Hct & Het & _). pose proof (rewrap_spec id t Hct ltac:(by rewrite Het)) as Hr.
    destruct (rewrap id t) as [[[]|e] t']; simpl in *; [apply IH|]; by eapply advances_trans. }
  specialize (Hfor (map_to_list s.(k_rows)).*1 s (advances_refl s Hc)). unfold mbind, M_bind.
  destruct (for_ _ _ s) as [[[]|e] s']; done.
Qed.

(** What happens to the keys after a secret was stored: more secrets stored or
    read, the keys rotated, the process restarted, perhaps with settings that
    still open every stored key. *)
Inductive key_step : Keys → Keys → Prop :=
| ks_encrypt data scope id fresh iv s : key_step s (encrypt_bytes data scope id fresh iv s).2
| ks_decrypt token s : key_step s (decrypt_bytes token s).2
| ks_rotate s : key_step s (rotate s).2
| ks_restart s env' :
    sound_env env' → (∀ id k, keyed s id k → keyed (mkKeys s.(k_rows) ∅ env') id k) →
    key_step s (mkKeys s.(k_rows) ∅ env').

Lemma key_step_keeps s s' :
  key_step s s' → coherent s → sound_env s.(k_env) →
  coherent s' ∧ sound_env s'.(k_env) ∧ ∀ id k, keyed s id k → keyed s' id k.
Proof.
  intros Hs Hc He. assert (∀ t, advances s t → coherent t ∧ sound_env t.(k_env) ∧ ∀ id k, keyed s id k → keyed t id k) as Hadv.
  { intros t (H1 & H2 & H3). by rewrite H2. }
  destruct Hs; [apply Hadv..|].
  - unfold encrypt_bytes. pose proof (data_key_spec scope id fresh s Hc He) as H. unfold mbind, M_bind.
    destruct (data_key _ _ _ s) as [[p|e] s'], H; done.
  - by apply decrypt_spec.
  - by apply rotate_spec.
  - split_and!; [|done|done]. intros i k. simpl. by rewrite lookup_empty.
Qed.

Lemma key_steps_keep s s' :
  rtc key_step s s' → coherent s → sound_env s.(k_env) →
  coherent s' ∧ sound_env s'.(k_env) ∧ ∀ id k, keyed s id k → keyed s' id k.
Proof.
  induction 1 as [|s1 s2 s3 H1 H2 IH]; intros Hc He; [done|].
  destruct (key_step_keeps s1 s2 H1 Hc He) as (Hc2 & He2 & Hk2). destruct (IH Hc2 He2) as (?&?&?). auto.
Qed.

(** C7: a stored secret stays readable.  Whatever other secrets are stored and
    read, however often the keys are rotated and the process restarted, with
    new settings that still open the old keys, decrypting a stored token gives
    the value that was encrypted; the two decrypting functions agree on it. *)
Theorem stored_secret_readable data scope id fresh iv s token s1 s2 :
  coherent s → sound_env s.(k_env) →
  has_char ":"%char id = false → (∀ i row, s.(k_rows) !! i = Some row → has_char ":"%char i = false) →
  encrypt_bytes data scope id fresh iv s = (Ok token, s1) → rtc key_step s1 s2 →
  (decrypt_bytes token s2).1 = Ok data ∧ (decrypt_async token s2).1 = Ok data.
Proof.
  intros Hc He Hid Hids E Hst. unfold encrypt_bytes in E.
  apply bind_ok_inv in E as ([i k] & s' & E & Et). unfold mret, M_ret in Et. simpl fst in Et. simpl snd in Et.
  assert (s1 = s') as -> by congruence.
  assert (token = "zk1:" +:+ (i +:+ String ":"%char (seal k iv data))) as Htok.
  { exact (eq_sym (f_equal (λ p : result exn string * Keys, match p.1 with Ok t => t | Err _ => "" end) Et)). }
  pose proof (data_key_spec scope id fresh s Hc He) as H. rewrite E in H. destruct H as [(Hc1 & He1 & _) Hk]. simpl in Hk.
  assert (has_char ":"%char i = false) as Hi.
  { unfold data_key in E. rewrite (bind_ok get _ s s s eq_refl) in E.
    destruct (by_scope scope s.(k_rows)) as [[id0 row]|] eqn:Eb; inv_ok; simplify_eq; [|done].
    by eapply Hids, by_scope_Some. }
  destruct (key_steps_keep s' s2 Hst Hc1 ltac:(by rewrite He1)) as (Hc2 & _ & Hk2).
  destruct (data_key_by_id_spec i k s2 Hc2 (Hk2 i k Hk)) as (s3 & E3 & _).
  unfold decrypt_bytes, decrypt_async, ENVELOPE.
  assert (∀ n, n = 4%nat → partition ":"%char (drop_chars n token) = (i, true, seal k iv data)) as Hp.
  { intros n ->. rewrite Htok. apply (partition_app ":"%char i (seal k iv data) Hi). }
  assert (startswith token "zk1:" = true) as Hz by (rewrite Htok; apply prefix_app_true; by eexists).
  rewrite !Hp, Hz by done. run. rewrite (bind_ok _ _ _ _ _ E3). unfold opened. by rewrite open_seal.
Qed.
End envelope.

(** ** Properties *)
Lemma redact_removes_aux value secrets s :
  s ∈ secrets → (MIN_REDACT_LENGTH ≤ String.length s)%nat → clean s →
  Forall (λ t, ¬ occurs s t) (leaves (redact value secrets)).
Proof.
  intros Hin Hl Hs. assert (s ∈ maskable secrets) as Hm by (by apply elem_of_maskable). unfold redact.
  assert (Forall (λ t, t ≠ "") (maskable secrets)) as Hne.
  { apply Forall_forall. intros t [_ Ht]%elem_of_maskable ->. simpl in Ht. unfold MIN_REDACT_LENGTH in Ht. lia. }
  destruct (maskable secrets) as [|x l] eqn:E; [set_solver|]. rewrite <- E in *.
  eapply Forall_impl; [apply leaves_walk|]. intros t [u ->]. by apply mask_removes.
Qed.

(** C27: what [redact] returns shows no secret.  Of the secrets of at least six
    characters, one that has no bracket and is no part of the word put in its
    place occurs in no string of the result, whatever the other secrets are
    and however they overlap; keys of objects are not among the strings. *)
Theorem redact_removes value secrets s :
  s ∈ secrets → (MIN_REDACT_LENGTH ≤ String.length s)%nat → clean s →
  Forall (λ t, ¬ occurs s t) (leaves (redact value secrets)).
Proof. apply redact_removes_aux. Qed.

(** An object's keys are left as they are. *)
Example redact_keeps_keys : redact (JObj [("hunter22", JInt 1)]) ["hunter22"] = JObj [("hunter22", JInt 1)].
Proof. vm_compute. reflexivity. Qed.

(** A secret that is part of the mask survives it. *)
Example redact_keeps_mask : redact (JStr "my redact word") ["redact"] = JStr "my [redacted] word".
Proof. vm_compute. reflexivity. Qed.

Lemma redact_removes_witness :
  redact (JStr "pw=hunter22;") ["hunter22"] = JStr "pw=[redacted];" ∧
  Forall (λ t, ¬ occurs "hunter22" t) (leaves (redact (JStr "pw=hunter22;") ["hunter22"])).
Proof.
  split; [vm_compute; reflexivity|]. apply (redact_removes (JStr "pw=hunter22;") ["hunter22"] "hunter22").
  - left.
  - simpl. unfold MIN_REDACT_LENGTH. lia.
  - split_and!; [discriminate|reflexivity|reflexivity|]. intros (a & b & E).
    apply (f_equal String.length) in E as El. rewrite !string_app_length in El. simpl in El.
    destruct a; [|simpl in El; lia]. rewrite string_app_nil, string_app_cons in E. discriminate.
Defined.

Definition demo_seal (k iv d : string) : string := header k +:+ d.
Definition demo_open (k t : string) : option string := drop_prefix (header k) t.

Definition demo_keys : Keys := mkKeys ∅ ∅ demo_env.

Lemma stored_secret_readable_witness :
  ∃ token s1, encrypt_bytes demo_ciphers demo_seal "hello" "w1" "k1" "datakey" "" demo_keys = (Ok token, s1) ∧
    (decrypt_bytes demo_ciphers demo_open token (rotate demo_ciphers s1).2).1 = Ok "hello".
Proof.
  eexists _, _. split; [vm_compute; reflexivity|].
  eapply (stored_secret_readable demo_ciphers demo_seal demo_open
    (λ k iv d, drop_prefix_app (header k) d) "hello" "w1" "k1" "datakey" "" demo_keys).
  - intros i k. simpl. rewrite lookup_empty. discriminate.
  - reflexivity.
  - reflexivity.
  - intros i row. simpl. rewrite lookup_empty. discriminate.
  - vm_compute. reflexivity.
  - apply rtc_once, ks_rotate.
Defined.
