(* ===== verification/Cache.v ===== *)
(** The request cache (src/apps/server/cache.py): what the event loop's lookups
    load from the database and keep for a while, evicted when PostgreSQL
    notifies a change.  The methods; the step relation of one process, whose
    loads, notices and lost connections interleave; and that a hit is current
    whenever every notice has arrived. *)

From S2P Require Import Prelude Tables.

Definition TTL_SECONDS : Z := 30.
Definition MAX_ENTRIES : nat := Z.to_nat 10000.

(** (kind, identity) *)
Abbreviation cache_key := (string * string)%type (only parsing).

Section cache.
(** the values, and the workspace an object or a dict says it is of *)
Context {V : Type} (workspace_of : V → option string).

(** Source: src/apps/server/cache.py:22-26 [Entry]. *)
Record Entry := mkEntry {
  value : V;
  workspace_id : option string;
  expires : time
}.

(** Source: src/apps/server/cache.py:29-34 [Cache.__init__].  [entries] is the
    OrderedDict, oldest first; [ready] the event, or [None] before [start]. *)
Record Cache := mkCache {
  entries : list (cache_key * Entry);
  generation : Z;
  ready : option bool
}.

Definition empty_cache : Cache := mkCache [] 0 None.

(** *** The OrderedDict *)

Fixpoint entry_of (k : cache_key) (l : list (cache_key * Entry)) : option Entry :=
  match l with
  | [] => None
  | (k', e) :: l' => if decide (k = k') then Some e else entry_of k l'
  end.

Definition pop_key (k : cache_key) (l : list (cache_key * Entry)) : list (cache_key * Entry) := filter (λ p, p.1 ≠ k) l.

(** [self.entries[key] = e]: in its place if the key is there, else last. *)
Fixpoint put_key (k : cache_key) (e : Entry) (l : list (cache_key * Entry)) : list (cache_key * Entry) :=
  match l with
  | [] => [(k, e)]
  | (k', e') :: l' => if decide (k = k') then (k, e) :: l' else (k', e') :: put_key k e l'
  end.

Definition set_entries (l : list (cache_key * Entry)) (c : Cache) : Cache := mkCache l c.(generation) c.(ready).
Definition set_ready (r : option bool) (c : Cache) : Cache := mkCache c.(entries) c.(generation) r.

(** *** The methods *)

(** Source: src/apps/server/cache.py:36-43 [Cache.invalidate]. *)
Definition invalidate (workspace : option string) (c : Cache) : Cache :=
  mkCache
    (match workspace with
     | None => []
     | Some w => filter (λ p, p.2.(workspace_id) ≠ None ∧ p.2.(workspace_id) ≠ Some w) c.(entries)
     end)
    (c.(generation) + 1) c.(ready).

(** Source: src/apps/server/cache.py:65-66 [Cache.notice]. *)
Definition notice (payload : string) (c : Cache) : Cache := invalidate (str_or_none (Some payload)) c.

(** What a lookup does before it awaits the loader. *)
Inductive begun := Direct | Hit (v : V) | Miss (generation : Z).

(** Source: src/apps/server/cache.py:45-54 [Cache.get].  Up to the await. *)
Definition begin_get (k : cache_key) (now : time) (c : Cache) : begun * Cache :=
  match c.(ready) with
  | Some true =>
      match entry_of k c.(entries) with
      | Some e =>
          if bool_decide (now < e.(expires))
          then (Hit e.(value), set_entries (pop_key k c.(entries) ++ [(k, e)]) c)
          else (Miss c.(generation), set_entries (pop_key k c.(entries)) c)
      | None => (Miss c.(generation), set_entries (pop_key k c.(entries)) c)
      end
  | _ => (Direct, c)
  end.

(** Source: src/apps/server/cache.py:56-62 [Cache.get].  From the await on, with
    what the loader gave. *)
Definition end_get (k : cache_key) (gen : Z) (v : option V) (now : time) (c : Cache) : result exn Cache :=
  if negb (gen =? c.(generation)) then Ok c
  else
    match c.(ready) with
    | None => Err AttributeError
    | Some false => Ok c
    | Some true =>
        match v with
        | None => Ok c
        | Some v =>
            let l := put_key k (mkEntry v (workspace_of v) (now + sec TTL_SECONDS)) c.(entries) in
            Ok (set_entries (if (MAX_ENTRIES <? length l)%nat then tail l else l) c)
        end
    end.

(** Source: src/apps/server/cache.py:68-78 [Cache.start].  A second start does
    nothing: [running] is whether there is a task. *)
Definition start (running : bool) (c : Cache) : Cache := if running then c else set_ready (Some false) c.

(** Source: src/apps/server/cache.py:80-100 [Cache.listen].  The turns of its
    loop between its awaits: not connected (again), and listening. *)
Definition listen_lost (c : Cache) : Cache := invalidate None (set_ready (Some false) c).
Definition listen_ready (c : Cache) : Cache := set_ready (Some true) c.

(** Source: src/apps/server/cache.py:102-109 [Cache.close]. *)
Definition close (c : Cache) : Cache := invalidate None (set_ready None c).

(** A whole lookup of a state that holds the cache: the loader runs whatever
    other requests do meanwhile, too. *)
Context {St : Type} (cache_of : St → Cache) (with_cache : Cache → St → St) (clock : St → time).

(** Source: src/apps/server/cache.py:45-63 [Cache.get]. *)
Definition get (k : cache_key) (loader : M St (option V)) : M St (option V) := λ s,
  let '(b, c) := begin_get k (clock s) (cache_of s) in
  let s := with_cache c s in
  match b with
  | Direct => loader s
  | Hit v => (Ok (Some v), s)
  | Miss gen =>
      match loader s with
      | (Err e, s') => (Err e, s')
      | (Ok v, s') =>
          match end_get k gen v (clock s') (cache_of s') with
          | Err e => (Err e, s')
          | Ok c' => (Ok v, with_cache c' s')
          end
      end
  end.
End cache.
Arguments Entry V : clear implicits.
Arguments Cache V : clear implicits.
Arguments begun V : clear implicits.

(** ** The system: one process, its listening connection and the database *)

(** A notice that evicts what is kept for the workspace [w]. *)
Definition evicts (p w : option string) : Prop := p = None ∨ w = None ∨ p = w.

#[global] Instance evicts_dec p w : Decision (evicts p w).
Proof. unfold evicts. apply _. Defined.

Section entries.
Context {V : Type} (workspace_of : V → option string).

Lemma elem_of_put_key x k e (l : list (cache_key * Entry V)) : x ∈ put_key k e l → x = (k, e) ∨ x ∈ l.
Proof. induction l as [|[k1 e1] l IH]; simpl; [set_solver|]. case_decide; rewrite !elem_of_cons; naive_solver. Qed.

Lemma end_entries k gen v now c c' x :
  end_get workspace_of k gen v now c = Ok c' → x ∈ c'.(entries) →
  x ∈ c.(entries) ∨ ∃ y, v = Some y ∧ gen = c.(generation) ∧ x = (k, mkEntry y (workspace_of y) (now + sec TTL_SECONDS)).
Proof.
  unfold end_get. destruct (negb _) eqn:Eg; [intros [= <-]; by left|]. apply negb_false_iff, Z.eqb_eq in Eg.
  destruct (ready c) as [[]|]; [|intros [= <-]; by left|done]. destruct v as [y|]; [|intros [= <-]; by left].
  cbv zeta. intros [= <-] Hx. assert (x ∈ put_key k (mkEntry y (workspace_of y) (now + sec TTL_SECONDS)) c.(entries)) as Hin.
  { simpl in Hx. case_match; [|done]. destruct (put_key _ _ _); [done|]. by right. }
  apply elem_of_put_key in Hin as [->|]; [|by left]. right. eauto.
Qed.

Lemma invalidate_entries p (c : Cache V) x :
  x ∈ (invalidate p c).(entries) → x ∈ c.(entries) ∧ ¬ evicts p x.2.(workspace_id).
Proof.
  destruct p as [w|]; simpl; [|set_solver]. intros [[H1 H2] Hin]%list_elem_of_filter. split; [done|].
  intros [?|[?|?]]; congruence.
Qed.
End entries.

Section system.
(** The tables [T], what a loader reads of them, what a transaction makes of them and the
    notices its triggers send; and the lookups whose every change is noticed. *)
Context {V T : Type} (workspace_of : V → option string) (load : cache_key → T → option V).
Context (wrote : T → T → list (option string) → Prop) (notified : cache_key → Prop).
Context (wrote_notifies : ∀ d d' ns k v, wrote d d' ns → notified k → load k d = Some v →
  load k d' = Some v ∨ ∃ p, p ∈ ns ∧ evicts p (workspace_of v)).

(** A lookup that awaits its loader: when it began, and when and what it has read. *)
Record Load := mkLoad { ld_key : cache_key; ld_generation : Z; ld_read : option (time * option V) }.

Record Sys := mkSys {
  s_cache : Cache V;
  s_now : time;
  (** the tables *)
  s_db : T;
  (** notifications committed and not yet processed, oldest first *)
  s_pending : list (option string);
  (** whether the connection that listens is up; it may go down unnoticed *)
  s_up : bool;
  s_loads : list Load;
  (** what loaders found, and when *)
  s_seen : list (time * cache_key * V)
}.

Inductive sys_step : Sys → Sys → Prop :=
| step_tick c now now' d ps up ls sn :
    now ≤ now' → sys_step (mkSys c now d ps up ls sn) (mkSys c now' d ps up ls sn)
| step_write c now d d' ns ps up ls sn :
    wrote d d' ns →
    sys_step (mkSys c now d ps up ls sn) (mkSys c now d' (if up then ps ++ ns else ps) up ls sn)
| step_notice c now d p ps ls sn :
    sys_step (mkSys c now d (p :: ps) true ls sn) (mkSys (invalidate p c) now d ps true ls sn)
| step_begin c now d ps up ls k b c' sn :
    begin_get k now c = (b, c') →
    sys_step (mkSys c now d ps up ls sn)
      (mkSys c' now d ps up (match b with Miss g => ls ++ [mkLoad k g None] | _ => ls end) sn)
| step_read c now d ps up l1 l l2 sn :
    l.(ld_read) = None →
    sys_step (mkSys c now d ps up (l1 ++ l :: l2) sn)
      (mkSys c now d ps up (l1 ++ mkLoad l.(ld_key) l.(ld_generation) (Some (now, load l.(ld_key) d)) :: l2)
         (match load l.(ld_key) d with Some v => (now, l.(ld_key), v) :: sn | None => sn end))
| step_end c now d ps up l1 l l2 t v c' sn :
    l.(ld_read) = Some (t, v) → end_get workspace_of l.(ld_key) l.(ld_generation) v now c = Ok c' →
    sys_step (mkSys c now d ps up (l1 ++ l :: l2) sn) (mkSys c' now d ps up (l1 ++ l2) sn)
| step_start c now d ps up ls sn :
    c.(ready) = None → sys_step (mkSys c now d ps up ls sn) (mkSys (listen_lost (start false c)) now d [] false ls sn)
| step_connect c now d ps up ls sn :
    c.(ready) = Some false → sys_step (mkSys c now d ps up ls sn) (mkSys (listen_ready c) now d [] true ls sn)
| step_drop c now d ps ls sn :
    sys_step (mkSys c now d ps true ls sn) (mkSys c now d [] false ls sn)
| step_lost c now d ps ls sn :
    is_Some c.(ready) → sys_step (mkSys c now d ps false ls sn) (mkSys (listen_lost c) now d [] false ls sn)
| step_close c now d ps up ls sn :
    sys_step (mkSys c now d ps up ls sn) (mkSys (close c) now d [] false ls sn).

Definition sys_init (s : Sys) : Prop := s.(s_cache) = empty_cache ∧ s.(s_loads) = [] ∧ s.(s_up) = false.

Definition sys_reachable : Sys → Prop := reachable sys_init sys_step.

(** *** What every entry and every load keeps *)

Definition fresh (d : T) (ps : list (option string)) (k : cache_key) (v : V) : Prop :=
  notified k → load k d = Some v ∨ ∃ p, p ∈ ps ∧ evicts p (workspace_of v).

(** An entry was read from the tables by a load that ended when its time began. *)
Definition sourced (s : Sys) : Prop :=
  (∀ k e, (k, e) ∈ s.(s_cache).(entries) → ∃ t ended, (t, k, e.(value)) ∈ s.(s_seen) ∧ t ≤ ended ∧ ended ≤ s.(s_now) ∧
     e.(expires) = ended + sec TTL_SECONDS) ∧
  (∀ l t v, l ∈ s.(s_loads) → l.(ld_read) = Some (t, Some v) → (t, l.(ld_key), v) ∈ s.(s_seen) ∧ t ≤ s.(s_now)).

Definition entry_keys (l : list (cache_key * Entry V)) : list cache_key := l.*1.

Definition entry_ok (now : time) (p : cache_key * Entry V) : Prop :=
  p.2.(workspace_id) = workspace_of p.2.(value) ∧ p.2.(expires) ≤ now + sec TTL_SECONDS.

(** The entries, whatever the connection does. *)
Definition entries_ok (now : time) (c : Cache V) : Prop :=
  NoDup (entry_keys c.(entries)) ∧ (length c.(entries) ≤ MAX_ENTRIES)%nat ∧ Forall (entry_ok now) c.(entries).

(** While the connection is up, entries and the loads that may still be kept
    are current or about to be evicted; without a ready cache there are none. *)
Definition current (s : Sys) : Prop :=
  (s.(s_up) = true → s.(s_cache).(ready) = Some true) ∧
  Forall (λ l, l.(ld_generation) ≤ s.(s_cache).(generation)) s.(s_loads) ∧
  (s.(s_up) = true →
     Forall (λ p, fresh s.(s_db) s.(s_pending) p.1 p.2.(value)) s.(s_cache).(entries) ∧
     Forall (λ l, ∀ v, l.(ld_generation) = s.(s_cache).(generation) → snd <$> l.(ld_read) = Some (Some v) →
       fresh s.(s_db) s.(s_pending) l.(ld_key) v) s.(s_loads)) ∧
  (s.(s_cache).(ready) ≠ Some true →
     s.(s_cache).(entries) = [] ∧ Forall (λ l, l.(ld_generation) < s.(s_cache).(generation)) s.(s_loads)).

Definition cache_ok (s : Sys) : Prop := entries_ok s.(s_now) s.(s_cache) ∧ current s ∧ sourced s.

Lemma Forall_entries_pop (P : cache_key * Entry V → Prop) k l : Forall P l → Forall P (pop_key k l).
Proof. apply Forall_filter_sub. Qed.

Lemma NoDup_pop_key k (l : list (cache_key * Entry V)) : NoDup (entry_keys l) → NoDup (entry_keys (pop_key k l)).
Proof.
  unfold entry_keys, pop_key. induction l as [|[k1 e1] l IH]; [done|]. simpl. rewrite NoDup_cons. intros [Hn Hd].
  rewrite filter_cons. case_decide; simpl; [|by apply IH]. rewrite NoDup_cons. split; [|by apply IH].
  intros ([k2 e2] & -> & [_ Hin]%list_elem_of_filter)%list_elem_of_fmap. apply Hn. apply list_elem_of_fmap. by exists (k2, e2).
Qed.

Lemma pop_key_absent k (l : list (cache_key * Entry V)) : k ∉ entry_keys (pop_key k l).
Proof. unfold entry_keys, pop_key. intros ([k2 e2] & -> & [Hne _]%list_elem_of_filter)%list_elem_of_fmap. done. Qed.

Lemma entry_of_in k (l : list (cache_key * Entry V)) e : entry_of k l = Some e → (k, e) ∈ l.
Proof. induction l as [|[k1 e1] l IH]; simpl; [done|]. case_decide; [intros [= ->]; subst; left|]. right. auto. Qed.

Lemma length_pop_key k (l : list (cache_key * Entry V)) e :
  entry_of k l = Some e → (length (pop_key k l) < length l)%nat.
Proof.
  unfold pop_key. induction l as [|[k1 e1] l IH]; simpl; [done|]. rewrite filter_cons. case_decide as Hk.
  - intros _. subst. rewrite decide_False by (simpl; auto). pose proof (length_filter (λ p : cache_key * Entry V, p.1 ≠ k1) l). lia.
  - intros H. rewrite decide_True by (simpl; auto). simpl. specialize (IH H). lia.
Qed.

Lemma put_key_spec (P : cache_key * Entry V → Prop) k e l :
  Forall P l → P (k, e) → Forall P (put_key k e l).
Proof.
  intros Hl He. induction Hl as [|[k1 e1] l Hx Hl IH]; simpl; [by constructor|]. case_decide; constructor; auto.
Qed.

Lemma elem_of_keys_put x k e (l : list (cache_key * Entry V)) : x ∈ entry_keys (put_key k e l) → x = k ∨ x ∈ entry_keys l.
Proof.
  unfold entry_keys. induction l as [|[k1 e1] l IH]; simpl; [set_solver|]. case_decide; simpl; rewrite !elem_of_cons; naive_solver.
Qed.

Lemma NoDup_put_key k e (l : list (cache_key * Entry V)) : NoDup (entry_keys l) → NoDup (entry_keys (put_key k e l)).
Proof.
  induction l as [|[k1 e1] l IH]; simpl; [intros _; apply NoDup_singleton|]. unfold entry_keys in *. simpl.
  rewrite NoDup_cons. intros [Hn Hd]. case_decide; simpl; rewrite NoDup_cons; [by subst|].
  split; [|by apply IH]. intros [->|?]%elem_of_keys_put; done.
Qed.

Lemma length_put_key k e (l : list (cache_key * Entry V)) : (length (put_key k e l) ≤ S (length l))%nat.
Proof. induction l as [|[k1 e1] l IH]; simpl; [lia|]. case_decide; simpl; lia. Qed.

Lemma entries_ok_nil now g r : entries_ok now (mkCache [] g r).
Proof. split_and!; [apply NoDup_nil_2|simpl; lia|constructor]. Qed.

Lemma entries_ok_invalidate now p c : entries_ok now c → entries_ok now (invalidate p c).
Proof.
  intros (Hn & Hl & Hf). destruct p as [w|]; [|apply entries_ok_nil]. split_and!; simpl.
  - unfold entry_keys in *. clear -Hn. induction (entries c) as [|[k1 e1] l IH]; [done|]. simpl in Hn. rewrite NoDup_cons in Hn.
    destruct Hn as [Hn Hd]. rewrite filter_cons. case_decide; [|by apply IH]. simpl. rewrite NoDup_cons. split; [|by apply IH].
    intros (p & -> & [_ Hin]%list_elem_of_filter)%list_elem_of_fmap. apply Hn. apply list_elem_of_fmap. by exists p.
  - etrans; [apply length_filter|done].
  - by apply Forall_filter_sub.
Qed.

Lemma entries_ok_begin k now c b c' : entries_ok now c → begin_get k now c = (b, c') → entries_ok now c'.
Proof.
  intros (Hn & Hl & Hf). unfold begin_get.
  assert (entries_ok now (set_entries (pop_key k c.(entries)) c)) as Hp.
  { split_and!; simpl; [by apply NoDup_pop_key| |by apply Forall_entries_pop].
    etrans; [apply length_filter|done]. }
  destruct (ready c) as [[]|]; try (by intros [= <- <-]).
  destruct (entry_of k c.(entries)) as [e|] eqn:Ee; [|by intros [= <- <-]].
  case_bool_decide; [|by intros [= <- <-]]. intros [= <- <-]. split_and!; simpl.
  - unfold entry_keys. rewrite fmap_app, NoDup_app. split_and!; [by apply NoDup_pop_key| |apply NoDup_singleton].
    intros x Hx ->%list_elem_of_singleton. by apply pop_key_absent in Hx.
  - rewrite length_app. simpl. apply length_pop_key in Ee. lia.
  - rewrite Forall_app. split; [by apply Forall_entries_pop|]. constructor; [|constructor].
    rewrite Forall_forall in Hf. by apply Hf, entry_of_in.
Qed.

Lemma entries_ok_end k gen v now c c' : entries_ok now c → end_get workspace_of k gen v now c = Ok c' → entries_ok now c'.
Proof.
  intros Hc. unfold end_get. case_match; [by intros [= <-]|]. destruct (ready c) as [[]|]; try done; [|by intros [= <-]].
  destruct v as [v|]; [|by intros [= <-]]. cbv zeta. intros [= <-]. destruct Hc as (Hn & Hl & Hf).
  set (l := put_key _ _ _).
  assert (NoDup (entry_keys l)) as Hnl by (by apply NoDup_put_key).
  assert (Forall (entry_ok now) l) as Hfl by (apply put_key_spec; [done|]; split; [done|simpl; lia]).
  assert (length l ≤ S MAX_ENTRIES)%nat as Hll by (etrans; [apply length_put_key|lia]).
  destruct (MAX_ENTRIES <? length l)%nat eqn:E; [|apply Nat.ltb_ge in E; by split_and!].
  clearbody l. destruct l as [|p l]; [by split_and!|]. unfold entry_keys in Hnl. simpl in *.
  apply NoDup_cons in Hnl as [_ ?]. apply Forall_cons in Hfl as [_ ?]. split_and!; simpl; [done|lia|done].
Qed.

Lemma entries_ok_tick now now' c : now ≤ now' → entries_ok now c → entries_ok now' c.
Proof. intros Hle (Hn & Hl & Hf). split_and!; [done..|]. eapply Forall_impl; [exact Hf|]. intros p [Hw He]. split; [done|lia]. Qed.

(** *** How freshness survives *)
Lemma fresh_write d d' ns ps k v : wrote d d' ns → fresh d ps k v → fresh d' (ps ++ ns) k v.
Proof.
  intros Hw Hf Hk. destruct (Hf Hk) as [Hd|(q & Hq & He)]; [|right; exists q; split; [set_solver|done]].
  destruct (wrote_notifies d d' ns k v Hw Hk Hd) as [|(p & Hp & He)]; [by left|]. right. exists p. split; [set_solver|done].
Qed.

Lemma fresh_notice d p ps k v : fresh d (p :: ps) k v → ¬ evicts p (workspace_of v) → fresh d ps k v.
Proof. intros Hf Hne Hk. destruct (Hf Hk) as [Hd|(q & [->|Hq]%elem_of_cons & He)]; [by left|done|]. right. eauto. Qed.

Lemma begin_entries k now (c : Cache V) b c' x :
  begin_get k now c = (b, c') → x ∈ c'.(entries) → x ∈ c.(entries).
Proof.
  unfold begin_get, pop_key. destruct (ready c) as [[]|]; try (by intros [= <- <-]).
  destruct (entry_of k c.(entries)) as [e|] eqn:Ee; [|by intros [= <- <-] [_ ?]%list_elem_of_filter].
  case_bool_decide; intros [= <- <-]; [|by intros [_ ?]%list_elem_of_filter].
  simpl. rewrite elem_of_app, list_elem_of_singleton. intros [[_ ?]%list_elem_of_filter| ->]; [done|by apply entry_of_in].
Qed.

Lemma begin_rest k now (c : Cache V) b c' :
  begin_get k now c = (b, c') → c'.(generation) = c.(generation) ∧ c'.(ready) = c.(ready) ∧
  (∀ g, b = Miss g → g = c.(generation) ∧ c.(ready) = Some true).
Proof.
  unfold begin_get. destruct (ready c) as [[]|] eqn:Er; [|intros [= <- <-]; naive_solver..].
  destruct (entry_of k c.(entries)); [case_bool_decide|]; intros [= <- <-]; simpl; naive_solver.
Qed.

Lemma end_rest k gen v now (c c' : Cache V) :
  end_get workspace_of k gen v now c = Ok c' → c'.(generation) = c.(generation) ∧ c'.(ready) = c.(ready) ∧
  (c.(ready) ≠ Some true → c' = c).
Proof.
  unfold end_get. case_match; [by intros [= <-]|]. destruct (ready c) as [[]|] eqn:Er; [|by intros [= <-]|done].
  destruct v; intros [= <-]; simpl; naive_solver.
Qed.

Lemma current_lost c now d ls sn :
  Forall (λ l, l.(ld_generation) ≤ c.(generation)) ls →
  current (mkSys (invalidate None c) now d [] false ls sn).
Proof.
  intros Hg. split_and!; simpl; try done.
  - eapply Forall_impl; [exact Hg|]. simpl. lia.
  - intros _. split; [done|]. eapply Forall_impl; [exact Hg|]. simpl. lia.
Qed.

Lemma cache_ok_init s : sys_init s → cache_ok s.
Proof.
  intros (Hc & Hl & Hu). split; [rewrite Hc; apply entries_ok_nil|]. unfold current. rewrite Hc, Hl, Hu.
  split; [split_and!; simpl; try done; try constructor|]. split; [rewrite Hc|rewrite Hl]; by intros ??; intros; set_solver.
Qed.

Lemma current_write c now d d' ns ps up ls sn :
  wrote d d' ns → current (mkSys c now d ps up ls sn) → current (mkSys c now d' (if up then ps ++ ns else ps) up ls sn).
Proof.
  intros Hw (H1 & H2 & H3 & H4). split_and!; [done..| |done]. simpl in *. intros ->. destruct (H3 eq_refl) as [He Hls]. split.
  - eapply Forall_impl; [exact He|]. intros x. by apply fresh_write.
  - eapply Forall_impl; [exact Hls|]. intros l Hl y Hg Hr. by eapply fresh_write, Hl.
Qed.

Lemma current_notice c now d p ps ls sn :
  current (mkSys c now d (p :: ps) true ls sn) → Forall (λ x, x.2.(workspace_id) = workspace_of x.2.(value)) c.(entries) →
  current (mkSys (invalidate p c) now d ps true ls sn).
Proof.
  intros (H1 & H2 & H3 & H4) Hw. simpl in *. destruct (H3 eq_refl) as [He Hls].
  assert (Forall (λ l, l.(ld_generation) < c.(generation) + 1) ls) as Hlt by (eapply Forall_impl; [exact H2|]; simpl; lia).
  split_and!; simpl; [done|eapply Forall_impl; [exact Hlt|]; simpl; lia|..].
  - intros _. split.
    + rewrite Forall_forall in *. intros x [Hx Hne]%invalidate_entries. rewrite (Hw x Hx) in Hne.
      eapply fresh_notice; [by apply He|done].
    + eapply Forall_impl; [exact Hlt|]. simpl. intros l Hg y Hg'. lia.
  - intros Hr. split; [|done]. destruct (H4 Hr) as [He' _]. destruct p as [w|]; simpl; [|done]. by rewrite He'.
Qed.

Lemma current_begin c now d ps up ls k b c' sn :
  begin_get k now c = (b, c') → current (mkSys c now d ps up ls sn) →
  current (mkSys c' now d ps up (match b with Miss g => ls ++ [mkLoad k g None] | _ => ls end) sn).
Proof.
  intros Hb (H1 & H2 & H3 & H4). destruct (begin_rest _ _ _ _ _ Hb) as (Hg & Hr & Hm).
  assert (∀ (P : Load → Prop), Forall P ls → (∀ g, b = Miss g → P (mkLoad k g None)) →
    Forall P (match b with Miss g => ls ++ [mkLoad k g None] | _ => ls end)) as Happ.
  { intros P Hls HP. destruct b; [done|done|]. rewrite Forall_app. split; [done|]. constructor; [by apply HP|constructor]. }
  unfold current. simpl in *. rewrite Hg, Hr. split_and!; [done|..].
  - apply Happ; [done|]. intros g Hgm. destruct (Hm g Hgm) as [-> _]. simpl. lia.
  - intros Hu. destruct (H3 Hu) as [He Hls]. split.
    + rewrite Forall_forall in *. intros x Hx. eapply He, begin_entries; [exact Hb|done].
    + by apply Happ.
  - intros Hnr. destruct (H4 Hnr) as [He Hls]. split.
    + destruct c'.(entries) as [|x l] eqn:El; [done|]. assert (x ∈ c.(entries)) as Hx.
      { eapply begin_entries; [exact Hb|]. rewrite El. left. }
      rewrite He in Hx. by apply not_elem_of_nil in Hx.
    + apply Happ; [done|]. intros g Hgm. by destruct (Hm g Hgm) as [_ ?].
Qed.

Lemma Forall_middle {A} (P : A → Prop) l1 x l2 : Forall P (l1 ++ x :: l2) ↔ P x ∧ Forall P (l1 ++ l2).
Proof. rewrite !Forall_app, Forall_cons. tauto. Qed.

Lemma current_read c now d ps up l1 l l2 sn sn' :
  current (mkSys c now d ps up (l1 ++ l :: l2) sn) →
  current (mkSys c now d ps up (l1 ++ mkLoad l.(ld_key) l.(ld_generation) (Some (now, load l.(ld_key) d)) :: l2) sn').
Proof.
  intros (H1 & H2 & H3 & H4). unfold current. simpl in *. rewrite !Forall_middle in *. destruct H2 as [Hl2 H2].
  split_and!; [done..| |].
  - intros Hu. destruct (H3 Hu) as [He [_ Hls]]. split_and!; [done| |done]. simpl. intros v _ [= Hv] _. by left.
  - intros Hr. destruct (H4 Hr) as [He [Hl Hls]]. by split_and!.
Qed.

Lemma current_end c now d ps up l1 l l2 t v c' sn :
  l.(ld_read) = Some (t, v) → end_get workspace_of l.(ld_key) l.(ld_generation) v now c = Ok c' →
  current (mkSys c now d ps up (l1 ++ l :: l2) sn) → current (mkSys c' now d ps up (l1 ++ l2) sn).
Proof.
  intros Hv He (H1 & H2 & H3 & H4). destruct (end_rest _ _ _ _ _ _ He) as (Hg & Hr & Hs).
  unfold current. simpl in *. rewrite Hg, Hr. rewrite Forall_middle in H2. destruct H2 as [_ H2]. split_and!; [done..| |].
  - intros Hu. destruct (H3 Hu) as [Hes Hls]. rewrite Forall_middle in Hls. destruct Hls as [Hl Hls]. split; [|done].
    rewrite Forall_forall in *. intros x Hx. destruct (end_entries _ _ _ _ _ _ _ _ He Hx) as [?|(y & -> & Hgen & ->)]; [auto|].
    apply Hl; [done|]. by rewrite Hv.
  - intros Hnr. destruct (H4 Hnr) as [Hes Hls]. rewrite Forall_middle in Hls. rewrite (Hs Hnr). split; [done|apply Hls].
Qed.

Lemma sourced_keeps c c' now now' d d' ps ps' up up' ls ls' sn :
  now ≤ now' → (∀ x, x ∈ c'.(entries) → x ∈ c.(entries)) → (∀ l, l ∈ ls' → l ∈ ls ∨ l.(ld_read) = None) →
  sourced (mkSys c now d ps up ls sn) → sourced (mkSys c' now' d' ps' up' ls' sn).
Proof.
  intros Hn Hc Hl [H1 H2]. simpl in *. split; simpl.
  - intros k e Hin%Hc. destruct (H1 k e Hin) as (t & ended & ? & ? & ? & ?). exists t, ended. split_and!; [done..|lia|done].
  - intros l t v [Hin|Hr]%Hl Hv; [|congruence]. destruct (H2 l t v Hin Hv). split; [done|lia].
Qed.

Lemma sourced_read c now d ps up l1 l l2 sn :
  sourced (mkSys c now d ps up (l1 ++ l :: l2) sn) →
  sourced (mkSys c now d ps up (l1 ++ mkLoad l.(ld_key) l.(ld_generation) (Some (now, load l.(ld_key) d)) :: l2)
    (match load l.(ld_key) d with Some v => (now, l.(ld_key), v) :: sn | None => sn end)).
Proof.
  intros [H1 H2]. simpl in *. assert (∀ x, x ∈ sn → x ∈ (match load l.(ld_key) d with Some v => (now, l.(ld_key), v) :: sn | None => sn end)) as Hsn.
  { intros x Hx. destruct (load _ d); [by right|done]. }
  split; simpl.
  - intros k e Hin. destruct (H1 k e Hin) as (t & ended & ? & ?). exists t, ended. split; [by apply Hsn|done].
  - intros l' t v [Hin|[->|Hin]%elem_of_cons]%elem_of_app Hv.
    + destruct (H2 l' t v ltac:(set_solver) Hv). split; [by apply Hsn|done].
    + simpl in *. injection Hv as <- ->. split; [left|lia].
    + destruct (H2 l' t v ltac:(set_solver) Hv). split; [by apply Hsn|done].
Qed.

Lemma sourced_end c now d ps up l1 l l2 t v c' sn :
  l.(ld_read) = Some (t, v) → end_get workspace_of l.(ld_key) l.(ld_generation) v now c = Ok c' →
  sourced (mkSys c now d ps up (l1 ++ l :: l2) sn) → sourced (mkSys c' now d ps up (l1 ++ l2) sn).
Proof.
  intros Hv He [H1 H2]. simpl in *. split; simpl; [|intros l' t' v' Hin; apply H2; set_solver].
  intros k e Hin. destruct (end_entries _ _ _ _ _ _ _ _ He Hin) as [?|(y & -> & _ & [= -> ->])]; [by apply H1|].
  destruct (H2 l t y ltac:(set_solver) Hv) as [? ?]. exists t, now. by split_and!.
Qed.

Lemma sourced_empty c now d ps up ls sn ps' up' :
  sourced (mkSys c now d ps up ls sn) → sourced (mkSys (invalidate None c) now d ps' up' ls sn).
Proof. apply sourced_keeps; [done|by intros x ?%elem_of_nil|by left]. Qed.

Lemma cache_ok_step s s' : cache_ok s → sys_step s s' → cache_ok s'.
Proof.
  intros (Ho & Hc & Hg) Hs. inversion Hs; subst; simpl in *.
  - split_and!; [by eapply entries_ok_tick|exact Hc|]. eapply sourced_keeps, Hg; [done|done|by left].
  - split_and!; [done|by eapply current_write|]. eapply sourced_keeps, Hg; [done|done|by left].
  - split_and!; [by apply entries_ok_invalidate| |].
    + apply current_notice; [done|]. destruct Ho as (_ & _ & Hf). eapply Forall_impl; [exact Hf|]. by intros x [? _].
    + eapply sourced_keeps, Hg; [done| |by left]. by intros x [? _]%invalidate_entries.
  - split_and!; [by eapply entries_ok_begin|by eapply current_begin|]. eapply sourced_keeps, Hg; [done| |].
    + intros x. by eapply begin_entries.
    + intros l. destruct b; [by left..|]. rewrite elem_of_app, list_elem_of_singleton. intros [?| ->]; auto.
  - split_and!; [done|by eapply current_read|by apply sourced_read].
  - split_and!; [by eapply entries_ok_end|by eapply current_end|by eapply sourced_end].
  - split_and!; [apply entries_ok_nil| |].
    + apply (current_lost (set_ready (Some false) c)). apply Hc.
    + apply (sourced_empty (set_ready (Some false) c) _ _ ps up), Hg.
  - destruct Hc as (H1 & H2 & H3 & H4). simpl in *. destruct H4 as [He Hl]; [congruence|].
    split_and!; [exact Ho| |exact Hg]. split_and!; simpl; [done|done| |done]. intros _. rewrite He. split; [constructor|].
    eapply Forall_impl; [exact Hl|]. simpl. lia.
  - split_and!; [done| |exact Hg]. destruct Hc as (H1 & H2 & H3 & H4). by split_and!.
  - split_and!; [apply entries_ok_nil| |].
    + apply (current_lost (set_ready (Some false) c)). apply Hc.
    + apply (sourced_empty (set_ready (Some false) c) _ _ ps false), Hg.
  - split_and!; [apply entries_ok_nil| |].
    + apply (current_lost (set_ready None c)). apply Hc.
    + apply (sourced_empty (set_ready None c) _ _ ps up), Hg.
Qed.

Lemma cache_reachable_ok s : sys_reachable s → cache_ok s.
Proof. apply reachable_invariant; [apply cache_ok_init|apply cache_ok_step]. Qed.

(** ** Properties *)
Lemma hit_entry k now (c : Cache V) v c' :
  begin_get k now c = (Hit v, c') → ∃ e, (k, e) ∈ c.(entries) ∧ e.(value) = v ∧ now < e.(expires).
Proof.
  unfold begin_get. destruct (ready _) as [[]|]; try done. destruct (entry_of k _) as [e|] eqn:Ee; [|done].
  case_bool_decide; [|done]. intros [= <- _]. exists e. split; [by apply entry_of_in|done].
Qed.

(** A hit on a lookup whose changes are noticed is current, and every other hit is recent. *)
Lemma hit_current s k v c' :
  sys_reachable s → begin_get k s.(s_now) s.(s_cache) = (Hit v, c') →
  (s.(s_up) = true → notified k → load k s.(s_db) = Some v ∨ ∃ p, p ∈ s.(s_pending) ∧ evicts p (workspace_of v)) ∧
  ∃ t ended, (t, k, v) ∈ s.(s_seen) ∧ t ≤ ended ≤ s.(s_now) ∧ s.(s_now) < ended + sec TTL_SECONDS.
Proof.
  intros (_ & (_ & _ & H3 & _) & [H4 _])%cache_reachable_ok (e & He & <- & Hex)%hit_entry. split.
  - intros Hu. destruct (H3 Hu) as [Hes _]. rewrite Forall_forall in Hes. by apply (Hes (k, e)).
  - destruct (H4 k e He) as (t & ended & ? & ? & ? & Ee). exists t, ended. split_and!; [done..|lia].
Qed.

(** the cache stays bounded and sound.  In every reachable state it has
    at most MAX_ENTRIES entries, one per key, none that outlives TTL_SECONDS
    from now; it is empty unless it listens; and a load in flight never finds
    the event missing when it comes back. *)
Theorem cache_bounded s :
  sys_reachable s →
  (length s.(s_cache).(entries) ≤ MAX_ENTRIES)%nat ∧ NoDup (entry_keys s.(s_cache).(entries)) ∧
  (∀ k e, (k, e) ∈ s.(s_cache).(entries) → e.(expires) ≤ s.(s_now) + sec TTL_SECONDS) ∧
  (s.(s_cache).(ready) ≠ Some true → s.(s_cache).(entries) = []) ∧
  (∀ l v, l ∈ s.(s_loads) →
     is_ok (end_get workspace_of l.(ld_key) l.(ld_generation) v s.(s_now) s.(s_cache)) = true).
Proof.
  intros ((Hn & Hl & Hf) & (H1 & H2 & H3 & H4) & _)%cache_reachable_ok. split_and!; [done..| | |].
  - intros k e Hin. rewrite Forall_forall in Hf. by destruct (Hf _ Hin) as [_ ?].
  - intros Hr. by destruct (H4 Hr).
  - intros l v Hin. unfold end_get. destruct (ready _) as [[]|] eqn:Er.
    + destruct v; by case_match.
    + by case_match.
    + destruct H4 as [_ Hlt]; [done|]. rewrite Forall_forall in Hlt. specialize (Hlt l Hin).
      rewrite (proj2 (Z.eqb_neq _ _)) by lia. done.
Qed.
End system.

(** ** The tables of the lookups, with their triggers *)

Record MemberRow := mkMemberRow { mr_workspace : string; mr_role : string; mr_status : string }.
#[global] Instance MemberRow_eq_dec : EqDecision MemberRow.
Proof. solve_decision. Defined.

(** A row of sandboxes: the columns its trigger compares, and the others. *)
Record SandboxRow := mkSandboxRow { sr_workspace : string; sr_watched : string; sr_others : string }.

Section tables.
(** The other tables, and the other values that are cached: members found for tokens, and
    the whole state of a sandbox. *)
Context {R O : Type} (other_workspace : O → option string).

(** Members are keyed with the identity of their lookup, workspace:user. *)
Record CTables := mkCTables {
  ct_workspaces : gset string;
  ct_members : gmap string MemberRow;
  ct_sandboxes : gmap string SandboxRow;
  ct_labels : gmap string (gmap string string);
  ct_rest : R
}.

Context (other : cache_key → CTables → option O).

Definition labels_at (id : string) (d : CTables) : gmap string string := default ∅ (d.(ct_labels) !! id).

(** A statement on a row, with the notices of the triggers of
    src/db/migrations/20261101120000_baseline.sql: an update that changes no column they
    compare sends none; api_keys, permissions and policies notify, users, secrets and jobs
    do not, and are among the rest. *)
Inductive row_step (d : CTables) : CTables → list (option string) → Prop :=
| rs_member id r :
    (∀ r0, d.(ct_members) !! id = Some r0 → r0.(mr_workspace) = r.(mr_workspace)) →
    row_step d (mkCTables d.(ct_workspaces) (<[id := r]> d.(ct_members)) d.(ct_sandboxes) d.(ct_labels) d.(ct_rest))
      (if decide (d.(ct_members) !! id = Some r) then [] else [Some r.(mr_workspace)])
| rs_member_delete id r :
    d.(ct_members) !! id = Some r →
    row_step d (mkCTables d.(ct_workspaces) (delete id d.(ct_members)) d.(ct_sandboxes) d.(ct_labels) d.(ct_rest))
      [Some r.(mr_workspace)]
| rs_sandbox id r :
    d.(ct_sandboxes) !! id = None → r.(sr_workspace) ∈ d.(ct_workspaces) →
    row_step d (mkCTables d.(ct_workspaces) d.(ct_members) (<[id := r]> d.(ct_sandboxes)) d.(ct_labels) d.(ct_rest))
      [Some r.(sr_workspace)]
| rs_sandbox_update id r r' :
    d.(ct_sandboxes) !! id = Some r → r'.(sr_workspace) = r.(sr_workspace) →
    row_step d (mkCTables d.(ct_workspaces) d.(ct_members) (<[id := r']> d.(ct_sandboxes)) d.(ct_labels) d.(ct_rest))
      (if decide (r'.(sr_watched) = r.(sr_watched)) then [] else [Some r.(sr_workspace)])
| rs_sandbox_delete id r :
    d.(ct_sandboxes) !! id = Some r → r.(sr_workspace) ∈ d.(ct_workspaces) →
    row_step d (mkCTables d.(ct_workspaces) d.(ct_members) (delete id d.(ct_sandboxes)) (delete id d.(ct_labels)) d.(ct_rest))
      [Some r.(sr_workspace)]
| rs_label id r key v :
    d.(ct_sandboxes) !! id = Some r →
    row_step d (mkCTables d.(ct_workspaces) d.(ct_members) d.(ct_sandboxes)
        (<[id := partial_alter (λ _, v) key (labels_at id d)]> d.(ct_labels)) d.(ct_rest))
      (if decide (labels_at id d !! key = v) then [] else [Some r.(sr_workspace)])
| rs_workspace w :
    row_step d (mkCTables ({[w]} ∪ d.(ct_workspaces)) d.(ct_members) d.(ct_sandboxes) d.(ct_labels) d.(ct_rest)) [Some w]
| rs_workspace_delete w :
    row_step d (mkCTables (d.(ct_workspaces) ∖ {[w]}) (filter (λ x, x.2.(mr_workspace) ≠ w) d.(ct_members))
        (filter (λ x, x.2.(sr_workspace) ≠ w) d.(ct_sandboxes))
        (filter (λ x, sr_workspace <$> d.(ct_sandboxes) !! x.1 ≠ Some w) d.(ct_labels)) d.(ct_rest)) [Some w]
| rs_rest r ns :
    row_step d (mkCTables d.(ct_workspaces) d.(ct_members) d.(ct_sandboxes) d.(ct_labels) r) ns.

(** A transaction: its statements, and their notices when it commits. *)
Inductive transacted : CTables → CTables → list (option string) → Prop :=
| tr_empty d : transacted d d []
| tr_row d d1 d2 n ns : row_step d d1 n → transacted d1 d2 ns → transacted d d2 (n ++ ns).

Inductive cached :=
| CMembership (r : MemberRow)
| CLabels (workspace : option string) (labels : gmap string string)
| COther (o : O).

Definition cached_workspace (v : cached) : option string :=
  match v with
  | CMembership r => Some r.(mr_workspace)
  | CLabels w _ => w
  | COther o => other_workspace o
  end.

(** Source: src/apps/server/auth_api.py:122-129 [sandbox_labels_async].  And the membership of
    line 418; both are looked up by their kind. *)
Definition loaded (k : cache_key) (d : CTables) : option cached :=
  if decide (k.1 = "membership") then CMembership <$> d.(ct_members) !! k.2
  else if decide (k.1 = "sandbox_labels") then Some (CLabels (sr_workspace <$> d.(ct_sandboxes) !! k.2) (labels_at k.2 d))
  else COther <$> other k d.

Definition noticed (k : cache_key) : Prop := k.1 = "membership" ∨ k.1 = "sandbox_labels".

Lemma evicts_same w : evicts (Some w) (Some w).
Proof. by right; right. Qed.

Lemma row_notices_member id d d' n r :
  row_step d d' n → d.(ct_members) !! id = Some r →
  d'.(ct_members) !! id = Some r ∨ ∃ p, p ∈ n ∧ evicts p (Some r.(mr_workspace)).
Proof.
  intros Hs Hr. destruct Hs as [i r' H0|i r' H0| | | | | |w|]; simpl; try (by left).
  - destruct (decide (i = id)) as [->|Hne]; [|left; by rewrite lookup_insert_ne]. case_decide as He; [left; by rewrite lookup_insert_eq; congruence|].
    right. exists (Some r'.(mr_workspace)). split; [by left|]. rewrite (H0 r Hr). apply evicts_same.
  - destruct (decide (i = id)) as [->|Hne]; [|left; by rewrite lookup_delete_ne]. right. simplify_eq. eexists. split; [by left|apply evicts_same].
  - destruct (decide (r.(mr_workspace) = w)) as [<-|Hne]; [right; eexists; split; [by left|apply evicts_same]|].
    left. by apply map_lookup_filter_Some.
Qed.

Lemma row_notices_labels id d d' n :
  row_step d d' n →
  (sr_workspace <$> d'.(ct_sandboxes) !! id = sr_workspace <$> d.(ct_sandboxes) !! id ∧ labels_at id d' = labels_at id d) ∨
  ∃ p, p ∈ n ∧ evicts p (sr_workspace <$> d.(ct_sandboxes) !! id).
Proof.
  intros Hs. destruct Hs as [| |i r H0 Hw|i r r' H0 Hw|i r H0 Hw|i r key v H0| |w|]; unfold labels_at; simpl; try (by left).
  - destruct (decide (i = id)) as [->|Hne]; [|left; by rewrite lookup_insert_ne]. right. eexists. split; [by left|].
    rewrite H0. by right; left.
  - left. split; [|done]. destruct (decide (i = id)) as [->|Hne]; [|by rewrite lookup_insert_ne].
    rewrite lookup_insert_eq, H0. simpl. by rewrite Hw.
  - destruct (decide (i = id)) as [->|Hne]; [|left; by rewrite !lookup_delete_ne]. right. eexists. split; [by left|].
    rewrite H0. apply evicts_same.
  - destruct (decide (i = id)) as [->|Hne]; [|left; by rewrite lookup_insert_ne]. case_decide as He.
    + left. split; [done|]. rewrite lookup_insert_eq. simpl. by rewrite <- He, partial_alter_self.
    + right. eexists. split; [by left|]. rewrite H0. apply evicts_same.
  - destruct (d.(ct_sandboxes) !! id) as [r|] eqn:Hr.
    + destruct (decide (r.(sr_workspace) = w)) as [<-|Hne]; [right; eexists; split; [by left|apply evicts_same]|].
      left. rewrite (map_lookup_filter_Some_2 _ _ _ _ Hr) by done. split; [done|].
      destruct (d.(ct_labels) !! id) as [ls|] eqn:Hl.
      * rewrite (map_lookup_filter_Some_2 _ _ _ _ Hl); [done|]. simpl. rewrite Hr. simpl. congruence.
      * by rewrite map_lookup_filter_None_2 by (by left).
    + right. exists (Some w). split; [by left|]. by right; left.
Qed.

Lemma transacted_notices d d' ns k v :
  transacted d d' ns → noticed k → loaded k d = Some v → loaded k d' = Some v ∨ ∃ p, p ∈ ns ∧ evicts p (cached_workspace v).
Proof.
  intros Ht Hk. induction Ht as [d|d d1 d2 n ns Hr Ht IH]; [by left|]. intros Hv.
  assert (loaded k d1 = Some v ∨ ∃ p, p ∈ n ∧ evicts p (cached_workspace v)) as [Hv1|(p & Hp & He)].
  { revert Hv. unfold loaded. destruct k as [kind id]. destruct Hk as [Hk|Hk]; simpl in *; subst kind; simpl.
    - destruct (d.(ct_members) !! id) as [r|] eqn:Em; [|done]. intros [= <-]. simpl.
      destruct (row_notices_member id d d1 n r Hr Em) as [->|]; [by left|by right].
    - intros [= <-]. simpl. destruct (row_notices_labels id d d1 n Hr) as [[-> ->]|]; [by left|by right]. }
  - destruct (IH Hv1) as [|(p & Hp & He)]; [by left|]. right. exists p. split; [set_solver|done].
  - right. exists p. split; [set_solver|done].
Qed.

(** C36: a cached answer is current, or recent.  However loads, transactions, notices and lost
    connections interleave, while the listening connection is up a hit on a membership or on
    the labels of a sandbox is what the tables hold now, unless a notice that evicts it has
    been committed and is still on its way.  Every hit, also on what is loaded from tables
    without a trigger (users, secrets, jobs: the members of tokens and the state of a sandbox),
    was read from the tables by a load that ended less than TTL_SECONDS (30 s) ago. *)
Theorem cache_hit_current s k v c' :
  sys_reachable cached_workspace loaded transacted s → begin_get k s.(s_now) s.(s_cache) = (Hit v, c') →
  (s.(s_up) = true → k.1 = "membership" ∨ k.1 = "sandbox_labels" →
     loaded k s.(s_db) = Some v ∨ ∃ p, p ∈ s.(s_pending) ∧ evicts p (cached_workspace v)) ∧
  ∃ t ended, (t, k, v) ∈ s.(s_seen) ∧ t ≤ ended ≤ s.(s_now) ∧ s.(s_now) < ended + sec TTL_SECONDS.
Proof. exact (hit_current cached_workspace loaded transacted noticed transacted_notices s k v c'). Qed.
End tables.

(** ** A concrete run *)

Definition demo_other (k : cache_key) (d : CTables (R := string)) : option (string * string) :=
  if decide (k = ("sandbox", "s1")) then Some ("w1", d.(ct_rest)) else None.
Definition demo_other_ws (o : string * string) : option string := Some o.1.
Definition demo_loaded := loaded (O := string * string) demo_other.
Definition demo_ws := cached_workspace demo_other_ws.
Definition demo_key : cache_key := ("membership", "w1:u1").
Definition demo_row : MemberRow := mkMemberRow "w1" "owner" "active".
Definition demo_cdb : CTables := mkCTables {["w1"]} {["w1:u1" := demo_row]} ∅ ∅ "secret".

(** A process that listens and has answered one lookup from the database. *)
Definition demo_cached : Sys (V := cached (O := string * string)) :=
  mkSys (mkCache [(demo_key, mkEntry (CMembership demo_row) (Some "w1") 30000007)] 1 (Some true)) 7 demo_cdb [] true []
    [(7, demo_key, CMembership demo_row)].

Lemma demo_cached_reachable : sys_reachable demo_ws demo_loaded transacted demo_cached.
Proof.
  pose (c0 := @empty_cache (cached (O := string * string))). pose (c1 := listen_lost (start false c0)). pose (c2 := listen_ready c1).
  pose (l := mkLoad demo_key 1 (Some (7, Some (CMembership (O := string * string) demo_row)))).
  apply (reach_step _ _ (mkSys c2 7 demo_cdb [] true ([] ++ l :: []) [(7, demo_key, CMembership demo_row)])).
  2: { by eapply (step_end _ _ _ c2 7 demo_cdb [] true [] l [] 7). }
  apply (reach_step _ _ (mkSys c2 7 demo_cdb [] true ([] ++ mkLoad demo_key 1 None :: []) [])).
  2: { by apply (step_read _ demo_loaded _ c2 7 demo_cdb [] true [] (mkLoad demo_key 1 None) []). }
  apply (reach_step _ _ (mkSys c2 7 demo_cdb [] true [] [])).
  2: { by apply (step_begin _ _ _ c2 7 demo_cdb [] true [] demo_key (Miss 1)). }
  apply (reach_step _ _ (mkSys c1 7 demo_cdb [] false [] [])).
  2: { by apply (step_connect _ _ _ c1 7 demo_cdb [] false []). }
  apply (reach_step _ _ (mkSys c0 7 demo_cdb [] false [] [])).
  2: { by apply (step_start _ _ _ c0 7 demo_cdb [] false []). }
  by apply reach_init.
Qed.

Lemma cache_hit_current_witness : demo_loaded demo_key demo_cdb = Some (CMembership demo_row).
Proof.
  destruct (cache_hit_current demo_other_ws demo_other demo_cached demo_key (CMembership demo_row) _ demo_cached_reachable eq_refl)
    as [H _]. destruct (H eq_refl (or_introl eq_refl)) as [H'|(p & Hp & _)]; [exact H'|]. exfalso. inversion Hp.
Defined.

Lemma cache_bounded_witness : (length demo_cached.(s_cache).(entries) ≤ MAX_ENTRIES)%nat.
Proof. apply (cache_bounded demo_ws demo_loaded transacted noticed (transacted_notices demo_other_ws demo_other) demo_cached demo_cached_reachable). Defined.

(** A secret changes without a notice: a state of the sandbox kept before it is still a hit. *)
Example silent_change :
  let k := ("sandbox", "s1") in
  let c := mkCache [(k, mkEntry (COther ("w1", "secret")) (Some "w1") 30000007)] 1 (Some true) in
  let d := mkCTables {["w1"]} {["w1:u1" := demo_row]} ∅ ∅ "changed" in
  transacted demo_cdb d [] ∧ (begin_get k 8 c).1 = Hit (COther ("w1", "secret")) ∧ demo_loaded k d = Some (COther ("w1", "changed")).
Proof.
  split; [|by vm_compute]. exact (tr_row demo_cdb _ _ [] [] (rs_rest demo_cdb "changed" []) (tr_empty _)).
Qed.
