(* ===== verification/Auth.v ===== *)
(** Who a request acts as (src/apps/server/auth_api.py): roles, the member
    behind a session token or an API key, through the request cache where the
    event loop looks it up, and the checks every route makes before its handler
    runs.  Hashing and JSON web tokens are parameters. *)

From S2P Require Import Cache.
From S2P Require Import Prelude Tables Store Labels Limits.

(** ** Roles and members *)

Inductive role := RViewer | RMember | RAdmin | ROwner.

#[global] Instance role_eq_dec : EqDecision role.
Proof. solve_decision. Defined.

(** Source: src/apps/server/auth_api.py:36-37 [ROLES].  A role's index. *)
Definition rank (r : role) : nat :=
  match r with RViewer => 0 | RMember => 1 | RAdmin => 2 | ROwner => 3 end.

Definition role_name (r : role) : string :=
  match r with RViewer => "viewer" | RMember => "member" | RAdmin => "admin" | ROwner => "owner" end.

(** Source: src/apps/server/auth_api.py:68-78 [Member]. *)
Record Member := mkMember {
  m_id : string;
  m_workspace_id : string;
  m_role : role;
  m_key_id : option string;
  m_key_sandbox_id : option string;
  m_key_labels : option labels_dict
}.

(** Source: src/apps/server/auth_api.py:80-81 [Member.can]. *)
Definition can (user : Member) (r : role) : bool := (rank r <=? rank user.(m_role))%nat.

(** Source: src/apps/server/auth_api.py:84-87 [require]. *)
Definition require {St} (user : Member) (r : role) : M St unit :=
  guard_ (can user r) (HTTPException 403 [Txt "this needs the "; Txt (role_name r); Txt " role in the workspace"]).

(** Source: src/apps/server/auth_api.py:90-93 [require_sandbox]. *)
Definition require_sandbox {St} (user : Member) (sandbox_id : string) : M St unit :=
  match user.(m_key_sandbox_id) with
  | Some k => guard_ (bool_decide (k = sandbox_id)) (HTTPException 403 [Txt "this API key is for another sandbox"])
  | None => mret tt
  end.

(** ** The tables and state that tokens are checked against *)

Inductive member_status := MInvited | MActive | MSuspended.

#[global] Instance member_status_eq_dec : EqDecision member_status.
Proof. solve_decision. Defined.

(** Source: src/db/generated/models.py:488-494 [WorkspaceMember]. *)
Record Membership := mkMembership { ms_role : role; ms_status : member_status }.

(** Source: src/db/generated/models.py:9-23 [ApiKey].  The selector is kept as
    the dict its JSON holds. *)
Record ApiKey := mkApiKey {
  k_id : string;
  k_workspace_id : string;
  k_created_by : string;
  k_expires_at : option time;
  k_last_used_at : option time;
  k_revoked_at : option time;
  k_sandbox_id : option string;
  k_read_only : bool;
  k_label_selector : option labels_dict
}.

Definition k_set_last_used (t : time) (k : ApiKey) : ApiKey :=
  mkApiKey k.(k_id) k.(k_workspace_id) k.(k_created_by) k.(k_expires_at) (Some t) k.(k_revoked_at) k.(k_sandbox_id)
    k.(k_read_only) k.(k_label_selector).

Record Auth := mkAuth {
  a_users : gset string;
  a_keys : gmap string ApiKey;
  a_members : gmap (string * string) Membership;
  a_slugs : gmap string string;
  a_quotas : gset string;
  a_limit : Limit;
  a_queued : list (string * time);
  a_now : time
}.

Definition a_set_keys (v : gmap string ApiKey) (a : Auth) : Auth :=
  mkAuth a.(a_users) v a.(a_members) a.(a_slugs) a.(a_quotas) a.(a_limit) a.(a_queued) a.(a_now).
Definition a_set_limit (v : Limit) (a : Auth) : Auth :=
  mkAuth a.(a_users) a.(a_keys) a.(a_members) a.(a_slugs) a.(a_quotas) v a.(a_queued) a.(a_now).
Definition a_set_queued (v : list (string * time)) (a : Auth) : Auth :=
  mkAuth a.(a_users) a.(a_keys) a.(a_members) a.(a_slugs) a.(a_quotas) a.(a_limit) v a.(a_now).
Definition a_set_workspace (m : gmap (string * string) Membership) (s : gmap string string) (q : gset string) (a : Auth) : Auth :=
  mkAuth a.(a_users) a.(a_keys) m s q a.(a_limit) a.(a_queued) a.(a_now).

(** Source: src/db/generated/query.py:911-916 [GET_API_KEY_BY_HASH]. *)
Definition get_api_key_by_hash (h : string) (a : Auth) : option ApiKey :=
  match a.(a_keys) !! h with
  | Some k =>
      if is_none k.(k_revoked_at)
         && match k.(k_expires_at) with None => true | Some t => bool_decide (a.(a_now) < t) end
      then Some k else None
  | None => None
  end.

Definition get_workspace_member (workspace_id user_id : string) (a : Auth) : option Membership :=
  a.(a_members) !! (workspace_id, user_id).

Definition is_active (m : option Membership) : bool :=
  match m with Some m => bool_decide (m.(ms_status) = MActive) | None => false end.

Definition API_KEY_PREFIX : string := "zoo_".

(** [API_KEY.check(key)] *)
Definition limit_key (key : string) : M Auth unit := λ a,
  match check key a.(a_now) a.(a_limit) with
  | (Counted, l) => (Ok tt, a_set_limit l a)
  | (TooMany _, l) => (Err (HTTPException 429 [Txt "too many requests, try again later"]), a_set_limit l a)
  | (NoFirstHit, l) => (Err IndexError, a_set_limit l a)
  end.

Section auth.
(** [hash_key] (SHA-256), and the subject of a session token: [None] when the
    token does not decode, [Some None] when it has no text subject. *)
Context (hash_key : string → string) (token_subject : string → option (option string)).

(** Source: src/apps/server/auth_api.py:96-115 [personal_workspace].  [fresh] is
    the uuid drawn for a workspace made the first time; [a_quotas] are the
    workspaces with a quota row. *)
Definition personal_workspace (user_id fresh : string) : M Auth string :=
  a ← get;
  let slug := "personal-" +:+ user_id in
  match a.(a_slugs) !! slug with
  | Some w => mret w
  | None =>
      modify (λ a, a_set_workspace (<[(fresh, user_id) := mkMembership ROwner MActive]> a.(a_members))
        (<[slug := fresh]> a.(a_slugs)) ({[fresh]} ∪ a.(a_quotas)) a);;
      mret fresh
  end.

Definition key_role (key : ApiKey) (m : Membership) : role :=
  if key.(k_read_only) || bool_decide (m.(ms_role) = RViewer) then RViewer else RMember.

Definition key_member (key : ApiKey) (m : Membership) : Member :=
  mkMember key.(k_created_by) key.(k_workspace_id) (key_role key m) (Some key.(k_id)) key.(k_sandbox_id)
    key.(k_label_selector).

(** [key.last_used_at is None or (now - key.last_used_at).total_seconds() > 60] *)
Definition stale_use (key : ApiKey) (now : time) : bool :=
  match key.(k_last_used_at) with None => true | Some t => bool_decide (sec 60 < now - t) end.

(** Source: src/apps/server/auth_api.py:350-390 [AuthApi.user_from_token]. *)
Definition user_from_token (token : string) (workspace : option string) (fresh : string) : M Auth (option Member) :=
  a ← get;
  if startswith token API_KEY_PREFIX then
    match get_api_key_by_hash (hash_key token) a with
    | None => mret None
    | Some key =>
        guard_ (match workspace with Some w => bool_decide (w = key.(k_workspace_id)) | None => true end)
          (HTTPException 403 [Txt "this API key belongs to another workspace"]);;
        limit_key key.(k_id);;
        match get_workspace_member key.(k_workspace_id) key.(k_created_by) a with
        | Some m =>
            if bool_decide (key.(k_created_by) ∈ a.(a_users)) && bool_decide (m.(ms_status) = MActive) then
              when (stale_use key a.(a_now))
                (modify (λ a, a_set_keys (alter (k_set_last_used a.(a_now)) (hash_key token) a.(a_keys)) a));;
              mret (Some (key_member key m))
            else mret None
        | None => mret None
        end
    end
  else
    match token_subject token with
    | Some (Some sub) =>
        if bool_decide (sub ∈ a.(a_users)) then
          workspace_id ← match str_or_none workspace with
            | Some w => mret w
            | None => personal_workspace sub fresh
            end;
          a ← get;
          match get_workspace_member workspace_id sub a with
          | Some m =>
              if bool_decide (m.(ms_status) = MActive)
              then mret (Some (mkMember sub workspace_id m.(ms_role) None None None))
              else raise (HTTPException 404 [Txt "workspace not found"])
          | None => raise (HTTPException 404 [Txt "workspace not found"])
          end
        else mret None
    | _ => mret None
    end.

(** The lookups of the event loop go through the request cache of the process: of the row of
    a membership, and of the member of a token with when it expires. *)
Inductive cached_auth :=
| CaMembership (workspace user : string) (m : Membership)
| CaMember (member : Member) (expires_at : option time).

Definition cached_auth_workspace (v : cached_auth) : option string :=
  match v with
  | CaMembership w _ _ => Some w
  | CaMember member _ => Some member.(m_workspace_id)
  end.

Record AuthProcess := mkAuthProcess { ap_auth : Auth; ap_cache : Cache cached_auth }.

Definition ap_set_auth (a : Auth) (p : AuthProcess) : AuthProcess := mkAuthProcess a p.(ap_cache).
Definition ap_set_cache (c : Cache cached_auth) (p : AuthProcess) : AuthProcess := mkAuthProcess p.(ap_auth) c.

Definition on_auth {A} (m : M Auth A) : M AuthProcess A := λ p,
  let '(r, a) := m p.(ap_auth) in (r, ap_set_auth a p).

Definition cached_get (k : string * string) (loader : M AuthProcess (option cached_auth)) : M AuthProcess (option cached_auth) :=
  Cache.get cached_auth_workspace ap_cache ap_set_cache (λ p, p.(ap_auth).(a_now)) k loader.

(** Source: src/apps/server/auth_api.py:418-422 [AuthApi.user_from_token_async.load_membership]. *)
Definition membership_of (workspace_id user_id : string) : M AuthProcess (option Membership) :=
  found ← cached_get ("membership", workspace_id +:+ ":" +:+ user_id)
    (gets (λ p, CaMembership workspace_id user_id <$> get_workspace_member workspace_id user_id p.(ap_auth)));
  mret (match found with Some (CaMembership _ _ m) => Some m | _ => None end).

(** Source: src/apps/server/auth_api.py:408-442 [AuthApi.user_from_token_async.load].
    The member and when it expires. *)
Definition load_member (is_key : bool) (identity : string) (workspace : option string) (fresh : string)
    : M AuthProcess (option cached_auth) :=
  a ← gets ap_auth;
  if is_key then
    match get_api_key_by_hash identity a with
    | None => mret None
    | Some key =>
        if negb (bool_decide (key.(k_created_by) ∈ a.(a_users))) then mret None
        else
          membership ← membership_of key.(k_workspace_id) key.(k_created_by);
          match membership with
          | Some m =>
              if bool_decide (m.(ms_status) = MActive) then
                when (stale_use key a.(a_now))
                  (on_auth (modify (λ a, a_set_queued (a.(a_queued) ++ [(key.(k_id), a.(a_now))]) a)));;
                mret (Some (CaMember (key_member key m) key.(k_expires_at)))
              else mret None
          | None => mret None
          end
    end
  else if bool_decide (identity ∈ a.(a_users)) then
    workspace_id ← match str_or_none workspace with
      | Some w => mret w
      | None => on_auth (personal_workspace identity fresh)
      end;
    membership ← membership_of workspace_id identity;
    match membership with
    | Some m =>
        if bool_decide (m.(ms_status) = MActive)
        then mret (Some (CaMember (mkMember identity workspace_id m.(ms_role) None None None) None))
        else mret None
    | None => mret None
    end
  else mret None.

(** Source: src/apps/server/auth_api.py:445-452 [AuthApi.user_from_token_async].  What was found,
    or was cached, is checked again for its expiry. *)
Definition admit_member (is_key : bool) (workspace : option string) (found : option cached_auth) : M AuthProcess (option Member) :=
  now ← gets (λ p, p.(ap_auth).(a_now));
  match found with
  | Some (CaMember member expires_at) =>
      if match expires_at with Some t => bool_decide (t ≤ now) | None => false end then mret None
      else
        when is_key
          (guard_ (match workspace with Some w => bool_decide (w = member.(m_workspace_id)) | None => true end)
             (HTTPException 403 [Txt "this API key belongs to another workspace"]);;
           on_auth (limit_key (default "" member.(m_key_id))));;
        mret (Some member)
  | _ => mret None
  end.

(** Source: src/apps/server/auth_api.py:392-452 [AuthApi.user_from_token_async]. *)
Definition user_from_token_async (token : string) (workspace : option string) (fresh : string) : M AuthProcess (option Member) :=
  let is_key := startswith token API_KEY_PREFIX in
  match (if is_key then Some (Some (hash_key token)) else token_subject token) with
  | Some (Some identity) =>
      found ← cached_get (if is_key then "api_key" else "session_member", identity +:+ ":" +:+ default "" workspace)
        (load_member is_key identity workspace fresh);
      admit_member is_key workspace found
  | _ => mret None
  end.

(** ** The checks of every route *)

(** A request as the checks see it: its method, its route template without the
    version prefix, and the sandbox its path names. *)
Record Request := mkRequest {
  r_method : string;
  r_route : string;
  r_sandbox_id : option string
}.

(** Source: src/apps/server/auth_api.py:40-40 [VIEWER_WRITES]. *)
Definition VIEWER_WRITES : list string :=
  ["/sandboxes/{sandbox_id}/screenshot"; "/sandboxes/{sandbox_id}/viewer-links"].

(** Source: src/apps/server/auth_api.py:43-52 [ADMIN_WRITES]. *)
Definition ADMIN_WRITES : list string :=
  ["/servers"; "/nodes/tokens"; "/vault"; "/profiles"; "/api-keys"; "/pool"; "/kubernetes"; "/webhooks"].

(** Source: src/apps/server/auth_api.py:54-54 [SELF_CHECKED]. *)
Definition SELF_CHECKED : list string := ["/workspaces"; "/invitations"].

(** Source: src/apps/server/auth_api.py:56-56 [SANDBOX_KEY_ROUTES]. *)
Definition SANDBOX_KEY_ROUTES : list (string * string) := [("GET", "/sandboxes"); ("GET", "/tools"); ("GET", "/auth/me")].

(** Source: src/apps/server/auth_api.py:59-65 [LABEL_KEY_ROUTES]. *)
Definition LABEL_KEY_ROUTES : list (string * string) :=
  SANDBOX_KEY_ROUTES ++ [("POST", "/sandboxes"); ("GET", "/usage"); ("GET", "/usage/export"); ("GET", "/events");
    ("GET", "/events/stream")].

Definition starts_any (s : string) (ps : list string) : bool := existsb (startswith s) ps.

Definition writes (r : Request) : bool :=
  negb (bool_decide (r.(r_method) ∈ ["GET"; "HEAD"])) && negb (starts_any r.(r_route) SELF_CHECKED).

(** [labels_of id]: the labels of a sandbox ([sandbox_labels_async]). *)
Context (sandbox_labels : string → labels_dict).

(** Source: src/apps/server/auth_api.py:467-491 [AuthApi.current_user].  What
    follows the token: role, then the key's sandbox, then the key's labels. *)
Definition check_route {St} (user : Member) (r : Request) : M St unit :=
  guard_ (negb (writes r && negb (can user RMember) && negb (bool_decide (r.(r_route) ∈ VIEWER_WRITES))))
    (HTTPException 403 [Txt "viewers can look but not change anything"]);;
  when (writes r && starts_any r.(r_route) ADMIN_WRITES) (require user RAdmin);;
  match user.(m_key_sandbox_id) with
  | None => mret tt
  | Some _ =>
      match r.(r_sandbox_id) with
      | Some id => require_sandbox user id
      | None => guard_ (bool_decide ((r.(r_method), r.(r_route)) ∈ SANDBOX_KEY_ROUTES))
                  (HTTPException 403 [Txt "this API key only reaches its own sandbox"])
      end
  end;;
  match user.(m_key_labels) with
  | None => mret tt
  | Some sel =>
      match r.(r_sandbox_id) with
      | Some id => guard_ (matches (sandbox_labels id) (Some sel)) (HTTPException 404 [Txt "sandbox not found"])
      | None => guard_ (bool_decide ((r.(r_method), r.(r_route)) ∈ LABEL_KEY_ROUTES))
                  (HTTPException 403 [Txt "this API key only reaches its labelled sandboxes"])
      end
  end.

(** Source: src/apps/server/auth_api.py:454-491 [AuthApi.current_user]. *)
Definition current_user (token : string) (workspace : option string) (fresh : string) (r : Request) : M AuthProcess Member :=
  user ← user_from_token_async token (str_or_none workspace) fresh;
  match user with
  | None => raise (HTTPException 401 [Txt "invalid or expired token"])
  | Some user => check_route user r;; mret user
  end.
End auth.

(** ** Properties *)

(** What a route check lets through.  A viewer changes nothing beyond
    taking a screenshot and making a view link; the routes of hosts, shared
    secrets, keys and webhooks are changed by admins only; a key for one
    sandbox reaches that sandbox's routes and three listings; a key for labels
    reaches the sandboxes that carry them and its own listings. *)
Theorem route_checks {St} sandbox_labels user r (s s' : St) u :
  check_route sandbox_labels user r s = (Ok u, s') →
  s' = s ∧
  (writes r = true → user.(m_role) = RViewer → r.(r_route) ∈ VIEWER_WRITES) ∧
  (writes r = true → starts_any r.(r_route) ADMIN_WRITES = true → user.(m_role) = RAdmin ∨ user.(m_role) = ROwner) ∧
  (∀ k, user.(m_key_sandbox_id) = Some k →
     r.(r_sandbox_id) = Some k ∨ (r.(r_sandbox_id) = None ∧ (r.(r_method), r.(r_route)) ∈ SANDBOX_KEY_ROUTES)) ∧
  (∀ sel, user.(m_key_labels) = Some sel →
     match r.(r_sandbox_id) with
     | Some id => matches (sandbox_labels id) (Some sel) = true
     | None => (r.(r_method), r.(r_route)) ∈ LABEL_KEY_ROUTES
     end).
Proof.
  unfold check_route. intros (? & ? & [H1 ->]%guard_ok_inv & E)%bind_ok_inv.
  apply bind_ok_inv in E as (? & s1 & H2 & E). apply bind_ok_inv in E as (? & s2 & H3 & H4).
  assert (s1 = s ∧ (writes r = true → starts_any r.(r_route) ADMIN_WRITES = true → can user RAdmin = true)) as [-> Hadm].
  { unfold when, require in H2. destruct (writes r), (starts_any _ _); simpl in H2; inv_ok; naive_solver. }
  assert (s2 = s ∧ ∀ k, user.(m_key_sandbox_id) = Some k →
     r.(r_sandbox_id) = Some k ∨ (r.(r_sandbox_id) = None ∧ (r.(r_method), r.(r_route)) ∈ SANDBOX_KEY_ROUTES)) as [-> Hkey].
  { destruct user.(m_key_sandbox_id) as [k|] eqn:Ek; [|by inv_ok]. destruct r.(r_sandbox_id) as [id|].
    - unfold require_sandbox in H3. rewrite Ek in H3. apply guard_ok_inv in H3 as [H3%bool_decide_eq_true ->]. naive_solver.
    - apply guard_ok_inv in H3 as [H3%bool_decide_eq_true ->]. naive_solver. }
  assert (s' = s ∧ ∀ sel, user.(m_key_labels) = Some sel → match r.(r_sandbox_id) with
     | Some id => matches (sandbox_labels id) (Some sel) = true
     | None => (r.(r_method), r.(r_route)) ∈ LABEL_KEY_ROUTES end) as [-> Hlab].
  { destruct user.(m_key_labels) as [sel|]; [|by inv_ok]. destruct r.(r_sandbox_id); apply guard_ok_inv in H4 as [H4 ->];
      (split; [done|]); intros ? [= <-]; [done|]. by apply bool_decide_eq_true in H4. }
  split_and!; try done.
  - intros Hw Hv. rewrite Hw in H1. unfold can in H1. rewrite Hv in H1. simpl in H1.
    rewrite negb_involutive in H1. by apply bool_decide_eq_true in H1.
  - intros Hw Ha. specialize (Hadm Hw Ha). unfold can in Hadm. destruct user.(m_role); auto; done.
Qed.

Section auth_properties.
Context (hash_key : string → string) (token_subject : string → option (option string)).

Lemma get_api_key_Some h a key :
  get_api_key_by_hash h a = Some key →
  a.(a_keys) !! h = Some key ∧ key.(k_revoked_at) = None ∧ (∀ t, key.(k_expires_at) = Some t → a.(a_now) < t).
Proof.
  unfold get_api_key_by_hash. destruct (a.(a_keys) !! h) as [k|]; [|done].
  destruct (_ && _) eqn:E; [|done]. intros [= <-]. apply andb_true_iff in E as [Hr He].
  split; [done|]. split; [by destruct (k_revoked_at k)|]. intros t Ht. rewrite Ht in He. by apply bool_decide_eq_true in He.
Qed.

(** *** A process with its cache, and the moments its tables went through *)

(** What the lookups read. *)
Definition auth_tables (a : Auth) : gset string * gmap string ApiKey * gmap (string * string) Membership * time :=
  (a.(a_users), a.(a_keys), a.(a_members), a.(a_now)).

Definition plain (s : string) : Prop := has_char ":"%char s = false.

(** Ids are uuids: a workspace's has no colon. *)
Definition plain_ids (a : Auth) : Prop :=
  (∀ w u m, a.(a_members) !! (w, u) = Some m → plain w) ∧ (∀ h k, a.(a_keys) !! h = Some k → plain k.(k_workspace_id)).

(** One event of a process: its tables change in any way while time passes, a notice comes
    in, the listening connection is lost, comes back or is closed, or a token is looked up. *)
Inductive auth_step (p : AuthProcess) : AuthProcess → Prop :=
| as_world a : plain_ids a → p.(ap_auth).(a_now) ≤ a.(a_now) → auth_step p (ap_set_auth a p)
| as_notice payload : auth_step p (ap_set_cache (notice payload p.(ap_cache)) p)
| as_start : auth_step p (ap_set_cache (start false p.(ap_cache)) p)
| as_ready : auth_step p (ap_set_cache (listen_ready p.(ap_cache)) p)
| as_lost : auth_step p (ap_set_cache (listen_lost p.(ap_cache)) p)
| as_close : auth_step p (ap_set_cache (close p.(ap_cache)) p)
| as_lookup token workspace fresh :
    plain fresh → auth_step p (user_from_token_async hash_key token_subject token workspace fresh p).2.

(** A run, with the states its tables went through, the latest first. *)
Inductive auth_run : list Auth → AuthProcess → Prop :=
| run_start a : plain_ids a → auth_run [a] (mkAuthProcess a empty_cache)
| run_event past p p' : auth_run past p → auth_step p p' → auth_run (p'.(ap_auth) :: past) p'.

(** The tables read so at a moment of the past. *)
Definition read_key (past : list Auth) (h : string) (key : ApiKey) (a : Auth) : Prop :=
  a ∈ past ∧ a.(a_keys) !! h = Some key ∧ key.(k_revoked_at) = None ∧ key.(k_created_by) ∈ a.(a_users).
Definition read_membership (past : list Auth) (w u : string) (m : Membership) (a : Auth) : Prop :=
  a ∈ past ∧ a.(a_members) !! (w, u) = Some m.

Definition within (now : time) (a : Auth) : Prop := a.(a_now) ≤ now < a.(a_now) + sec TTL_SECONDS.

(** A key was good, and its maker an active member, when they were read. *)
Definition key_backed (past : list Auth) (h : string) (mb : Member) (ex : option time) (a1 : Auth) : Prop :=
  ∃ key m a2, mb = key_member key m ∧ ex = key.(k_expires_at) ∧ read_key past h key a1 ∧
    read_membership past key.(k_workspace_id) key.(k_created_by) m a2 ∧ m.(ms_status) = MActive ∧ within a1.(a_now) a2.

Definition entry_backed (past : list Auth) (k : string * string) (v : cached_auth) (ends : time) : Prop :=
  match v with
  | CaMembership w u m => k = ("membership", w +:+ ":" +:+ u) ∧ plain w ∧
      ∃ a, read_membership past w u m a ∧ ends = a.(a_now) + sec TTL_SECONDS
  | CaMember mb ex => k.1 ≠ "membership" ∧
      (k.1 = "api_key" → ∃ h ws a1, k.2 = h +:+ ":" +:+ ws ∧ plain h ∧ key_backed past h mb ex a1 ∧ ends = a1.(a_now) + sec TTL_SECONDS)
  end.

Definition backed (past : list Auth) (c : Cache cached_auth) : Prop :=
  ∀ k e, (k, e) ∈ c.(entries) → entry_backed past k e.(value) e.(expires).

(** The latest moment of the past. *)
Definition at_moment (past : list Auth) (a : Auth) : Prop :=
  a ∈ past ∧ (∀ b, b ∈ past → b.(a_now) ≤ a.(a_now) ∧ plain_ids b).

Lemma plain_split h t h' t' : plain h → plain h' → h +:+ ":" +:+ t = h' +:+ ":" +:+ t' → h = h' ∧ t = t'.
Proof.
  intros H1 H2 E. pose proof (partition_app ":"%char h t H1) as P1. pose proof (partition_app ":"%char h' t' H2) as P2.
  change (h +:+ String ":" t = h' +:+ String ":" t') in E. rewrite E in P1. rewrite P1 in P2. by injection P2.
Qed.

(** What a lookup through the cache gives: a hit on an entry that has not expired, or what
    the loader gives, which may be kept. *)
Lemma cached_get_cases k loader p r p' :
  cached_get k loader p = (r, p') →
  (∃ e, (k, e) ∈ p.(ap_cache).(entries) ∧ r = Ok (Some e.(value)) ∧ p.(ap_auth).(a_now) < e.(expires) ∧
     p'.(ap_auth) = p.(ap_auth) ∧ ∀ x, x ∈ p'.(ap_cache).(entries) → x ∈ p.(ap_cache).(entries)) ∨
  (∃ c r1 p1, (∀ x, x ∈ c.(entries) → x ∈ p.(ap_cache).(entries)) ∧ loader (ap_set_cache c p) = (r1, p1) ∧
     p'.(ap_auth) = p1.(ap_auth) ∧ (r = r1 ∨ r = Err AttributeError) ∧
     ∀ x, x ∈ p'.(ap_cache).(entries) → x ∈ p1.(ap_cache).(entries) ∨
       ∃ v, r1 = Ok (Some v) ∧ x = (k, mkEntry v (cached_auth_workspace v) (p1.(ap_auth).(a_now) + sec TTL_SECONDS))).
Proof.
  unfold cached_get, Cache.get. destruct (begin_get k p.(ap_auth).(a_now) p.(ap_cache)) as [b c] eqn:Eb.
  pose proof (λ x, begin_entries k _ _ _ _ x Eb) as Hc. destruct b as [|v|gen].
  - intros E. right. exists c, r, p'. split_and!; [done..|by left|by left].
  - intros [= <- <-]. left. destruct (hit_entry _ _ _ _ _ Eb) as (e & He & <- & Hex). exists e. by split_and!.
  - destruct (loader (ap_set_cache c p)) as [[v|e] p1] eqn:El.
    + destruct (end_get _ k gen v _ _) as [c'|e] eqn:Ee; intros [= <- <-]; right; exists c, (Ok v), p1.
      * split_and!; [done..|by left|]. simpl. intros x Hx. destruct (end_entries _ _ _ _ _ _ _ _ Ee Hx) as [|(y & -> & _ & ->)]; [by left|].
        right. by exists y.
      * split_and!; [done..| |by left]. right. revert Ee. unfold end_get. repeat case_match; congruence.
    + intros [= <- <-]. right. exists c, (Err e), p1. split_and!; [done..|by left|by left].
Qed.

Lemma backed_sub past c c' : (∀ x, x ∈ c'.(entries) → x ∈ c.(entries)) → backed past c → backed past c'.
Proof. intros Hc Hb k e He. by apply Hb, Hc. Qed.

(** Moments with the same tables back the same. *)
Lemma entry_backed_mono past past' k v t :
  (∀ a, a ∈ past → ∃ b, b ∈ past' ∧ auth_tables b = auth_tables a) → entry_backed past k v t → entry_backed past' k v t.
Proof.
  intros Hp. unfold entry_backed, key_backed, read_key, read_membership, within. destruct v as [w u m|mb ex].
  - intros (? & ? & a & [Ha ?] & ?). split_and!; [done..|]. destruct (Hp a Ha) as (b & Hb & [= _ _ Em En]). exists b. by rewrite Em, En.
  - intros [? H]. split; [done|]. intros Hk. destruct (H Hk) as (h & ws & a1 & ? & ? & (key & m & a2 & ? & ? & [Ha1 ?] & [Ha2 ?] & ?) & ?).
    destruct (Hp a1 Ha1) as (b1 & Hb1 & [= Eu1 Ek1 Em1 En1]), (Hp a2 Ha2) as (b2 & Hb2 & [= Eu2 Ek2 Em2 En2]).
    exists h, ws, b1. split_and!; [done..| |by rewrite En1]. exists key, m, b2. rewrite Eu1, Ek1, En1, Em2, En2. by destruct_and!; split_and!.
Qed.

Lemma auth_backed_mono past past' c :
  (∀ a, a ∈ past → ∃ b, b ∈ past' ∧ auth_tables b = auth_tables a) → backed past c → backed past' c.
Proof. intros Hp Hb k e He. by eapply entry_backed_mono, Hb. Qed.

Lemma backed_later past a c : backed past c → backed (a :: past) c.
Proof. apply auth_backed_mono. intros b Hb. exists b. split; [by right|done]. Qed.

(** A lookup that leaves the tables as [a] has them, and whose cache stays backed. *)
Definition keeps_backed {A} (past : list Auth) (a : Auth) (m : M AuthProcess A) (Q : A → Prop) : Prop :=
  ∀ p r p', auth_tables p.(ap_auth) = auth_tables a → backed past p.(ap_cache) → m p = (r, p') →
    auth_tables p'.(ap_auth) = auth_tables a ∧ backed past p'.(ap_cache) ∧ ∀ x, r = Ok x → Q x.

Section kept.
Context (past : list Auth) (a : Auth) (moment : at_moment past a).
Abbreviation keeps := (keeps_backed past a).

Lemma auth_keeps_ret {A} (x : A) (Q : A → Prop) : Q x → keeps (mret x) Q.
Proof. intros HQ p r p' Ht Hb [= <- <-]. split_and!; [done..|]. by intros y [= <-]. Qed.

Lemma auth_keeps_bind {A B} (m : M AuthProcess A) (k : A → M AuthProcess B) P Q :
  keeps m P → (∀ x, P x → keeps (k x) Q) → keeps (m ≫= k) Q.
Proof.
  intros Hm Hk p r p' Ht Hb. unfold mbind, M_bind. destruct (m p) as [[x|e] p1] eqn:E; destruct (Hm p _ p1 Ht Hb E) as (H1 & H2 & H3).
  - intros E'. by apply (Hk x (H3 x eq_refl) p1 r p').
  - intros [= <- <-]. by split_and!.
Qed.

Lemma keeps_gets {A} (f : AuthProcess → A) (Q : A → Prop) :
  (∀ p, auth_tables p.(ap_auth) = auth_tables a → Q (f p)) → keeps (gets f) Q.
Proof. intros HQ p r p' Ht Hb [= <- <-]. split_and!; [done..|]. intros y [= <-]. by apply HQ. Qed.

Lemma keeps_on_auth {A} (m : M Auth A) : (∀ b, auth_tables (m b).2 = auth_tables b) → keeps (on_auth m) (λ _, True).
Proof.
  intros Hm p r p' Ht Hb. unfold on_auth. specialize (Hm p.(ap_auth)). destruct (m p.(ap_auth)) as [x b]. intros [= <- <-].
  split_and!; [|done..]. simpl in *. congruence.
Qed.

Lemma keeps_when b (m : M AuthProcess unit) : keeps m (λ _, True) → keeps (when b m) (λ _, True).
Proof. destruct b; [done|]. intros _. by apply auth_keeps_ret. Qed.

Lemma auth_keeps_guard b e : keeps (guard_ b e) (λ _, b = true).
Proof. intros p r p' Ht Hb. destruct b; intros [= <- <-]; by split_and!. Qed.

Lemma keeps_true {A} (m : M AuthProcess A) P : keeps m P → keeps m (λ _, True).
Proof. intros H p r p' Ht Hb E. by destruct (H p r p' Ht Hb E) as (? & ? & _). Qed.

(** What a lookup gives was cached, or its loader gave it; both are backed. *)
Lemma keeps_cached k loader (Q : option cached_auth → Prop) (ends := a.(a_now) + sec TTL_SECONDS) :
  keeps loader (λ f, Q f ∧ ∀ v, f = Some v → entry_backed past k v ends) →
  (∀ v t, entry_backed past k v t → a.(a_now) < t → Q (Some v)) → keeps (cached_get k loader) Q.
Proof.
  intros Hl Hq p r p' Ht Hb [(e & He & -> & Hex & Ha & Hc)|(c & r1 & p1 & Hc & El & Ha & Hr & Hx)]%cached_get_cases.
  - rewrite Ha. split_and!; [done|by eapply backed_sub|]. intros f [= <-]. apply (Hq _ e.(expires)); [by apply Hb|].
    by injection Ht as _ _ _ <-.
  - destruct (Hl (ap_set_cache c p) _ _ Ht (backed_sub past p.(ap_cache) c Hc Hb) El) as (Ht1 & Hb1 & Hf). rewrite Ha. split_and!; [done| |].
    + intros k' e' [He'|(v & -> & [= -> ->])]%Hx; [by apply Hb1|]. cbn. injection Ht1 as _ _ _ ->. by apply (Hf (Some v) eq_refl).
    + intros f ->. destruct Hr as [<-|[=]]. by apply Hf.
Qed.

(** A membership was in the tables less than the time of the cache ago. *)
Definition was_member (w u : string) (m : Membership) : Prop :=
  ∃ b, read_membership past w u m b ∧ within a.(a_now) b.

Lemma keeps_membership w u :
  keeps (membership_of w u) (λ r, plain w → ∀ m, r = Some m → was_member w u m).
Proof.
  destruct moment as [Hin Hpast]. unfold membership_of.
  apply (auth_keeps_bind _ _ (λ f, plain w → ∀ w' u' m, f = Some (CaMembership w' u' m) → was_member w u m)).
  - apply keeps_cached.
    + apply keeps_gets. intros p Ht. injection Ht as _ _ Emem' _. unfold get_workspace_member. rewrite Emem'.
      destruct (a.(a_members) !! (w, u)) as [m|] eqn:Em; [|done]. split.
      * intros _ w' u' m' [= _ _ <-]. exists a. split; [done|]. unfold within, sec, TTL_SECONDS. lia.
      * intros v [= <-]. cbn. split_and!; [done|by eapply (Hpast a Hin)|]. by exists a.
    + intros v t Hv Ht Hw w' u' m [= ->]. destruct Hv as ([= Hk] & Hw' & b' & Hr & ->).
      destruct (plain_split w u w' u' Hw Hw' Hk) as [<- <-]. exists b'. split; [done|]. split; [by apply Hpast, Hr|done].
  - intros f Hf. apply auth_keeps_ret. intros Hw m. destruct f as [[w' u' m'|]|]; [|done..]. intros [= <-]. by eapply Hf.
Qed.

(** A key and its maker's membership. *)
Lemma keeps_load_key h ws fresh :
  plain h →
  keeps (load_member true h ws fresh)
    (λ f, (∀ mb ex, f = Some (CaMember mb ex) → key_backed past h mb ex a) ∧
      ∀ v, f = Some v → entry_backed past ("api_key", h +:+ ":" +:+ default "" ws) v (a.(a_now) + sec TTL_SECONDS)).
Proof.
  intros Hh. unfold load_member. destruct moment as [Hin Hpast].
  apply (auth_keeps_bind _ _ (λ b, auth_tables b = auth_tables a)); [by apply keeps_gets|]. intros b Hb. cbn iota.
  injection Hb as Eu Ek Em En. assert (get_api_key_by_hash h b = get_api_key_by_hash h a) as ->.
  { unfold get_api_key_by_hash. by rewrite Ek, En. }
  destruct (get_api_key_by_hash h a) as [key|] eqn:Eg; [|by apply auth_keeps_ret]. apply get_api_key_Some in Eg as (Hk & Hr & He).
  rewrite Eu. case_bool_decide as Hu; cbn [negb]; [|by apply auth_keeps_ret].
  eapply auth_keeps_bind; [apply keeps_membership|]. intros [m|] Hm; [|by apply auth_keeps_ret].
  case_bool_decide as Hs; [|by apply auth_keeps_ret].
  apply (auth_keeps_bind _ _ (λ _, True)); [by apply keeps_when, keeps_on_auth|]. intros _ _. apply auth_keeps_ret.
  assert (key_backed past h (key_member key m) key.(k_expires_at) a) as Hb.
  { destruct (Hm (proj2 (proj2 (Hpast a Hin)) h key Hk) m eq_refl) as (a2 & Ha2 & Hw). by exists key, m, a2. }
  split; [by intros mb ex [= <- <-]|]. intros v [= <-]. split; [done|]. intros _. by exists h, (default "" ws), a.
Qed.

(** A session's member: nothing is claimed of it but where it is kept. *)
Lemma keeps_session_tail w identity ws :
  keeps (membership ← membership_of w identity;
    match membership with
    | Some m => if bool_decide (m.(ms_status) = MActive)
                then mret (Some (CaMember (mkMember identity w m.(ms_role) None None None) None)) else mret None
    | None => mret None
    end) (λ f, ∀ v, f = Some v → entry_backed past ("session_member", ws) v (a.(a_now) + sec TTL_SECONDS)).
Proof.
  eapply auth_keeps_bind; [apply keeps_membership|]. intros [m|] Hm; [|by apply auth_keeps_ret]. clear Hm.
  case_bool_decide; apply auth_keeps_ret; [|done]. by intros v [= <-].
Qed.

(** The member a key's token gives. *)
Lemma keeps_admit is_key ws found :
  keeps (admit_member is_key ws found) (λ u, ∀ mb, u = Some mb → ∃ ex, found = Some (CaMember mb ex) ∧
    (∀ t, ex = Some t → a.(a_now) < t) ∧ (is_key = true → ∀ w, ws = Some w → w = mb.(m_workspace_id))).
Proof.
  unfold admit_member. apply (auth_keeps_bind _ _ (λ now, now = a.(a_now))); [apply keeps_gets; intros p Ht; by injection Ht|].
  intros now ->. destruct found as [[|mb ex]|]; [by apply auth_keeps_ret| |by apply auth_keeps_ret].
  destruct (match ex with Some t => _ | None => _ end) eqn:Ex; [by apply auth_keeps_ret|].
  apply (auth_keeps_bind _ _ (λ _, is_key = true → ∀ w, ws = Some w → w = mb.(m_workspace_id))).
  - destruct is_key; [|by apply auth_keeps_ret]. eapply auth_keeps_bind; [apply auth_keeps_guard|]. intros [] Hg. cbn beta in Hg.
    intros p r p' Ht Hb E. destruct (keeps_on_auth (limit_key (default "" mb.(m_key_id)))) with p r p' as (? & ? & _); [|done..|].
    { intros b. unfold limit_key. by destruct (Limits.check _ _ _) as [[] l]. }
    split_and!; [done..|]. intros _ _ _ w Hws. rewrite Hws in Hg. by apply bool_decide_eq_true in Hg.
  - intros _ Hw. apply auth_keeps_ret. intros mb' [= <-]. exists ex. split_and!; [done| |done]. intros t ->. by apply bool_decide_eq_false in Ex; lia.
Qed.
End kept.

Definition all_before (past : list Auth) (now : time) : Prop := ∀ b, b ∈ past → b.(a_now) ≤ now ∧ plain_ids b.

Lemma at_moment_cons past a : all_before past a.(a_now) → plain_ids a → at_moment (a :: past) a.
Proof. intros Hp Ha. split; [by left|]. intros b [->|Hb]%elem_of_cons; [done|by apply Hp]. Qed.

Lemma personal_now user fresh a : (personal_workspace user fresh a).2.(a_now) = a.(a_now).
Proof. unfold personal_workspace, mbind, M_bind, Prelude.get. cbn. by destruct (a.(a_slugs) !! _). Qed.

Lemma personal_plain user fresh a : plain fresh → plain_ids a → plain_ids (personal_workspace user fresh a).2.
Proof.
  intros Hf [H1 H2]. unfold personal_workspace, mbind, M_bind, Prelude.get. cbn. destruct (a.(a_slugs) !! _); [done|].
  split; [|done]. cbn. intros w u m [[[= -> ->] _]|[_ ?]]%lookup_insert_Some; [done|by eapply H1].
Qed.

Lemma plain_tables a b : auth_tables a = auth_tables b → plain_ids b → plain_ids a.
Proof. intros [= _ Ek Em _]. unfold plain_ids. by rewrite Ek, Em. Qed.

(** What the process is after a lookup: its tables are a moment of the past, and what it
    keeps is backed. *)
Definition settled (past : list Auth) (now : time) (p : AuthProcess) : Prop :=
  p.(ap_auth).(a_now) = now ∧ plain_ids p.(ap_auth) ∧ backed (p.(ap_auth) :: past) p.(ap_cache).

Lemma settled_kept past a p :
  all_before past a.(a_now) → plain_ids a → auth_tables p.(ap_auth) = auth_tables a → backed (a :: past) p.(ap_cache) →
  settled past a.(a_now) p.
Proof.
  intros Hp Ha E Hb. split_and!; [by injection E|by eapply plain_tables|]. eapply auth_backed_mono, Hb.
  intros b [->|Hin]%elem_of_cons; [exists p.(ap_auth); split; [left|done]|exists b; split; [by right|done]].
Qed.

(** The member of a session, looked up: a first sign-in makes its workspace. *)
Lemma settled_session past p identity ws fresh k r p' :
  all_before past p.(ap_auth).(a_now) → plain_ids p.(ap_auth) → plain fresh → backed past p.(ap_cache) →
  load_member false identity ws fresh p = (r, p') →
  settled past p.(ap_auth).(a_now) p' ∧
  ∀ v, r = Ok (Some v) → entry_backed (p'.(ap_auth) :: past) ("session_member", k) v (p'.(ap_auth).(a_now) + sec TTL_SECONDS).
Proof.
  intros Hp Hpl Hf Hb. unfold load_member. rewrite run_bind_gets. cbn iota.
  destruct (bool_decide (identity ∈ _)); [|intros [= <- <-]; split; [|done]; split_and!; [done..|by apply backed_later]].
  assert (∃ w p2, (match str_or_none ws with Some w => mret w | None => on_auth (personal_workspace identity fresh) end) p = (Ok w, p2) ∧
    p2.(ap_cache) = p.(ap_cache) ∧ p2.(ap_auth).(a_now) = p.(ap_auth).(a_now) ∧ plain_ids p2.(ap_auth)) as (w & p2 & E & Ec & En & Hpl2).
  { destruct (str_or_none ws) as [w|]; [by eexists _, _|]. unfold on_auth.
    pose proof (personal_now identity fresh p.(ap_auth)) as H1. pose proof (personal_plain identity fresh p.(ap_auth) Hf Hpl) as H2.
    assert (∃ w, (personal_workspace identity fresh p.(ap_auth)).1 = Ok w) as [w Hw].
    { unfold personal_workspace, mbind, M_bind, Prelude.get. cbn. destruct (_ !! _); by eexists. }
    destruct (personal_workspace identity fresh p.(ap_auth)) as [x a]. simpl in *. subst. by eexists _, _. }
  rewrite (bind_ok _ _ _ _ _ E). intros E'.
  assert (all_before past p2.(ap_auth).(a_now)) as Hp2 by (by rewrite En).
  destruct (keeps_session_tail (p2.(ap_auth) :: past) p2.(ap_auth) (at_moment_cons _ _ Hp2 Hpl2) w identity k p2 r p' eq_refl
    ltac:(rewrite Ec; by apply backed_later) E') as (Ht & Hb' & Hv).
  pose proof (settled_kept past p2.(ap_auth) p' Hp2 Hpl2 Ht Hb') as Hs. rewrite <- En. split; [done|].
  intros v Hr. assert (p'.(ap_auth).(a_now) = p2.(ap_auth).(a_now)) as -> by (by injection Ht).
  eapply entry_backed_mono, (Hv _ Hr v eq_refl).
  intros b [->|Hin]%elem_of_cons; [exists p'.(ap_auth); split; [left|done]|exists b; split; [by right|done]].
Qed.

Context (hash_plain : ∀ token, plain (hash_key token)).

(** A token looked up: by a key, the tables stay. *)
Lemma lookup_key past a token workspace fresh :
  at_moment past a → startswith token API_KEY_PREFIX = true →
  keeps_backed past a (user_from_token_async hash_key token_subject token workspace fresh)
    (λ u, ∀ mb, u = Some mb → ∃ ex a1, key_backed past (hash_key token) mb ex a1 ∧ within a.(a_now) a1 ∧
      (∀ t, ex = Some t → a.(a_now) < t) ∧ ∀ w, workspace = Some w → w = mb.(m_workspace_id)).
Proof.
  intros Hm Hp. unfold user_from_token_async. rewrite Hp. cbn iota.
  apply (auth_keeps_bind past a _ _ (λ f, ∀ mb ex, f = Some (CaMember mb ex) → ∃ a1, key_backed past (hash_key token) mb ex a1 ∧ within a.(a_now) a1)).
  - apply keeps_cached.
    + intros p r p' Ht Hb E. destruct (keeps_load_key past a Hm (hash_key token) workspace fresh (hash_plain token) p r p' Ht Hb E) as (? & ? & H).
      split_and!; [done..|]. intros f Hf. destruct (H f Hf) as [Hl He]. split; [|done]. intros mb ex ->. exists a. split; [by apply Hl|].
      unfold within, sec, TTL_SECONDS. lia.
    + intros v t Hv Ht mb ex [= ->]. destruct Hv as [_ Hv]. destruct (Hv eq_refl) as (h & ws & a1 & Hk & Hh & Hkb & ->).
      destruct (plain_split _ _ h ws (hash_plain token) Hh Hk) as [-> _]. exists a1. split; [done|]. split; [|done].
      destruct Hkb as (? & ? & ? & _ & _ & [? _] & _). by apply Hm.
  - intros found Hf p r p' Ht Hb E. destruct (keeps_admit past a true workspace found p r p' Ht Hb E) as (? & ? & H).
    split_and!; [done..|]. intros u Hu mb Hmb. destruct (H u Hu mb Hmb) as (ex & -> & Hex & Hw). destruct (Hf mb ex eq_refl) as (a1 & ? & ?).
    exists ex, a1. split_and!; [done..|by apply Hw].
Qed.

Lemma lookup_session past p token workspace fresh :
  startswith token API_KEY_PREFIX = false → all_before past p.(ap_auth).(a_now) → plain_ids p.(ap_auth) → plain fresh →
  backed past p.(ap_cache) →
  settled past p.(ap_auth).(a_now) (user_from_token_async hash_key token_subject token workspace fresh p).2.
Proof.
  intros Hk Hp Hpl Hf Hb. assert (settled past p.(ap_auth).(a_now) p) as Hsame by (split_and!; [done..|by apply backed_later]).
  unfold user_from_token_async. rewrite Hk. destruct (token_subject token) as [[identity|]|]; [|done..]. cbn iota.
  unfold mbind, M_bind. destruct (cached_get _ _ p) as [rf p1] eqn:E.
  assert (settled past p.(ap_auth).(a_now) p1) as H1.
  { apply cached_get_cases in E as [(e & He & _ & _ & Ha & Hc)|(c & r1 & p2 & Hc & El & Ha & _ & Hx)].
    - split_and!; [by rewrite Ha|by rewrite Ha|]. apply backed_later. by eapply backed_sub.
    - destruct (settled_session past (ap_set_cache c p) identity workspace fresh (identity +:+ ":" +:+ default "" workspace) r1 p2 Hp Hpl Hf
        (backed_sub past p.(ap_cache) c Hc Hb) El) as [(Hn & Hpl2 & Hb2) Hv].
      split_and!; [by rewrite Ha|by rewrite Ha|]. rewrite Ha. intros k e [He|(v & -> & [= -> ->])]%Hx; [by apply Hb2|]. by apply Hv. }
  destruct rf as [f|e]; [|done]. unfold admit_member. rewrite run_bind_gets.
  destruct f as [[|mb ex]|]; [done| |done]. by destruct (match ex with Some t => _ | None => _ end).
Qed.

(** In a run every entry is backed by the past. *)
Lemma run_backed past p :
  auth_run past p → at_moment past p.(ap_auth) ∧ backed past p.(ap_cache).
Proof.
  induction 1 as [a Ha|past p p' Hr [[Hin Hall] Hb] Hs].
  { split; [apply (at_moment_cons []); [by intros b ?%elem_of_nil|done]|]. by intros k e ?%elem_of_nil. }
  assert (∀ c, (∀ x, x ∈ c.(entries) → x ∈ p.(ap_cache).(entries)) →
    at_moment (p.(ap_auth) :: past) p.(ap_auth) ∧ backed (p.(ap_auth) :: past) c) as Hc.
  { intros c Hc. split; [apply at_moment_cons; [done|by apply Hall]|]. apply backed_later. by eapply backed_sub. }
  assert (∀ w c, (∀ x, x ∈ c.(entries) → x ∈ p.(ap_cache).(entries)) → ∀ x, x ∈ (invalidate w c).(entries) → x ∈ p.(ap_cache).(entries)) as Hinv.
  { intros w c Hw x [Hx _]%invalidate_entries. by apply Hw. }
  destruct Hs as [a Ha Hn|payload| | | | |token workspace fresh Hf]; 
    [|apply Hc, Hinv; done|apply Hc; done|apply Hc; done|apply Hc, Hinv; done|apply Hc, Hinv; done|].
  - split; [|by apply backed_later]. apply at_moment_cons; [|done]. intros b Hb'. destruct (Hall b Hb'). split; [cbn in *; lia|done].
  - destruct (startswith token API_KEY_PREFIX) eqn:Hk.
    + destruct (user_from_token_async hash_key token_subject token workspace fresh p) as [r p'] eqn:E.
      destruct (lookup_key past p.(ap_auth) token workspace fresh (conj Hin Hall) Hk p r p' eq_refl Hb E) as (Ht & Hb' & _).
      destruct (settled_kept past p.(ap_auth) p' Hall (proj2 (Hall _ Hin)) Ht (backed_later _ _ _ Hb')) as (Hn & Hpl & Hbk).
      cbn [snd]. split; [|done]. apply at_moment_cons; [by rewrite Hn|done].
    + destruct (lookup_session past p token workspace fresh Hk Hall (proj2 (Hall _ Hin)) Hf Hb) as (Hn & Hpl & Hbk).
      split; [|done]. apply at_moment_cons; [by rewrite Hn|done].
Qed.

(** C13: an API key never gives more than it was made for, whatever happens to the tables and
    whatever notices come or are lost.  A request through one acts in the key's workspace (403
    for another), as a viewer when the key is read-only or its maker is a viewer and never above
    member, with the key's sandbox and label limits, and only before the key expires.  The key
    was there, not revoked, and its maker was a user less than TTL_SECONDS (30 s, the time of
    the request cache) ago, and at that time the maker's membership was, or had been less than
    TTL_SECONDS before, active with that role (each load counted as one moment). *)
Theorem api_key_limits past p token workspace fresh r u p' sandbox_labels :
  auth_run past p → startswith token API_KEY_PREFIX = true →
  current_user hash_key token_subject sandbox_labels token workspace fresh r p = (Ok u, p') →
  ∃ key m a1 a2,
    (a1 ∈ past ∧ a1.(a_now) ≤ p.(ap_auth).(a_now) < a1.(a_now) + sec TTL_SECONDS) ∧
    a1.(a_keys) !! hash_key token = Some key ∧ key.(k_revoked_at) = None ∧ key.(k_created_by) ∈ a1.(a_users) ∧
    (∀ t, key.(k_expires_at) = Some t → p.(ap_auth).(a_now) < t) ∧
    (a2 ∈ past ∧ a2.(a_now) ≤ a1.(a_now) < a2.(a_now) + sec TTL_SECONDS) ∧
    a2.(a_members) !! (key.(k_workspace_id), key.(k_created_by)) = Some m ∧ m.(ms_status) = MActive ∧
    u.(m_workspace_id) = key.(k_workspace_id) ∧ (rank u.(m_role) ≤ rank RMember)%nat ∧
    (key.(k_read_only) = true ∨ m.(ms_role) = RViewer → u.(m_role) = RViewer) ∧
    u.(m_key_sandbox_id) = key.(k_sandbox_id) ∧ u.(m_key_labels) = key.(k_label_selector) ∧
    (∀ w, str_or_none workspace = Some w → w = key.(k_workspace_id)).
Proof.
  intros Hr Hp (ou & p1 & E1 & E2)%bind_ok_inv. destruct ou as [u'|]; [|done]. inv_ok.
  destruct (run_backed past p Hr) as [Hm Hb].
  destruct (lookup_key past p.(ap_auth) token _ fresh Hm Hp p _ _ eq_refl Hb E1) as (_ & _ & Hu).
  destruct (Hu _ eq_refl _ eq_refl) as (ex & a1 & (key & m & a2 & -> & -> & (? & ? & ? & ?) & [? ?] & ? & ?) & ? & ? & ?).
  assert ((rank (key_role key m) ≤ rank RMember)%nat ∧ (key.(k_read_only) = true ∨ m.(ms_role) = RViewer → key_role key m = RViewer)) as [? ?].
  { unfold key_role. split; [destruct (_ || _); simpl; lia|]. intros [->| ->]; [done|]. by rewrite orb_true_r. }
  unfold within in *. destruct_and!. exists key, m, a1, a2. by split_and!.
Qed.

Lemma limit_key_verdict k a :
  match (check k a.(a_now) a.(a_limit)).1 with
  | Counted => ∃ l, limit_key k a = (Ok tt, a_set_limit l a)
  | _ => ∃ e a', limit_key k a = (Err e, a')
  end.
Proof. unfold limit_key. destruct (check _ _ _) as [[] l]; simpl; eauto. Qed.

(** The member a good key's token gives, however it is looked up. *)
Definition key_accepts (token : string) (workspace : option string) (a : Auth) (u : Member) : Prop :=
  ∃ key m, get_api_key_by_hash (hash_key token) a = Some key ∧ u = key_member key m ∧
    a.(a_members) !! (key.(k_workspace_id), key.(k_created_by)) = Some m ∧ m.(ms_status) = MActive ∧
    key.(k_created_by) ∈ a.(a_users) ∧ (∀ w, workspace = Some w → w = key.(k_workspace_id)) ∧
    (check key.(k_id) a.(a_now) a.(a_limit)).1 = Counted.

Lemma guard_workspace_cases {St} (workspace : option string) w0 e (s : St) :
  (guard_ (match workspace with Some w => bool_decide (w = w0) | None => true end) e s = (Ok tt, s) ∧
     ∀ w, workspace = Some w → w = w0) ∨
  (guard_ (match workspace with Some w => bool_decide (w = w0) | None => true end) e s = (Err e, s) ∧
     ∃ w, workspace = Some w ∧ w ≠ w0).
Proof. destruct workspace as [w|]; [case_bool_decide|]; simpl; naive_solver. Qed.

(** Neither side accepts. *)
Ltac refused :=
  split; [by intros [? [=]]|];
  let w := fresh in
  intros (? & ? & ? & ? & ? & ? & ? & w & ?); simplify_eq;
  first [done | congruence | by specialize (w _ eq_refl)].

Lemma sync_key token workspace fresh a u :
  startswith token API_KEY_PREFIX = true →
  (∃ a', user_from_token hash_key token_subject token workspace fresh a = (Ok (Some u), a')) ↔
  key_accepts token workspace a u.
Proof.
  intros Hp. unfold user_from_token, key_accepts. rewrite Hp. rewrite (bind_ok get _ a a a eq_refl). unfold get_workspace_member.
  destruct (get_api_key_by_hash _ a) as [key|] eqn:Ek; [|refused].
  destruct (guard_workspace_cases workspace key.(k_workspace_id)
    (HTTPException 403 [Txt "this API key belongs to another workspace"]) a) as [[E Hw]|[E (w & -> & Hw)]].
  2:{ rewrite (bind_err _ _ _ _ _ E). refused. }
  rewrite (bind_ok _ _ _ _ _ E). pose proof (limit_key_verdict key.(k_id) a) as Hl.
  destruct (check key.(k_id) a.(a_now) a.(a_limit)).1 eqn:Ec.
  2-3: destruct Hl as (e & a1 & El); rewrite (bind_err _ _ _ _ _ El); refused.
  destruct Hl as [l El]. rewrite (bind_ok _ _ _ _ _ El).
  destruct (a.(a_members) !! _) as [m|] eqn:Em; [|refused].
  destruct (bool_decide (key.(k_created_by) ∈ a.(a_users))) eqn:Hu, (bool_decide (m.(ms_status) = MActive)) eqn:Ha; simpl;
    try (apply bool_decide_eq_true in Hu); try (apply bool_decide_eq_true in Ha);
    try (apply bool_decide_eq_false in Hu); try (apply bool_decide_eq_false in Ha);
    try refused.
  destruct (stale_use key a.(a_now)); run; (split; [intros [? [= <- _]]; exists key, m; by split_and!|]);
    intros (k' & m' & [= <-] & -> & Em' & _); simplify_eq; eauto.
Qed.

Ltac refused_tail :=
  split; [by intros [? [=]]|];
  let w := fresh in
  intros (? & w & ?); simplify_eq; first [done | congruence | by specialize (w _ eq_refl)].

(** A cache that does not listen keeps nothing and is not asked. *)
Section cold.
Context (c : Cache cached_auth) (cold : c.(ready) ≠ Some true).

Lemma cold_get k loader a : cached_get k loader (mkAuthProcess a c) = loader (mkAuthProcess a c).
Proof. unfold cached_get, Cache.get, begin_get. cbn. by destruct (ready c) as [[]|]. Qed.

Lemma run_bind_cold {B} k loader (f : _ → M AuthProcess B) a :
  (cached_get k loader ≫= f) (mkAuthProcess a c) = (loader ≫= f) (mkAuthProcess a c).
Proof. unfold mbind, M_bind. by rewrite cold_get. Qed.

Lemma cold_membership w u a : membership_of w u (mkAuthProcess a c) = (Ok (get_workspace_member w u a), mkAuthProcess a c).
Proof. unfold membership_of. rewrite run_bind_cold, run_bind_gets. cbn. by destruct (get_workspace_member w u a). Qed.

Lemma on_auth_run {A} (m : M Auth A) a : on_auth m (mkAuthProcess a c) = ((m a).1, mkAuthProcess (m a).2 c).
Proof. unfold on_auth. cbn. by destruct (m a). Qed.

Lemma async_key token workspace fresh a u :
  startswith token API_KEY_PREFIX = true →
  (∃ p', user_from_token_async hash_key token_subject token workspace fresh (mkAuthProcess a c) = (Ok (Some u), p')) ↔
  key_accepts token workspace a u.
Proof.
  intros Hp. unfold user_from_token_async, key_accepts. rewrite Hp. cbn iota.
  rewrite run_bind_cold. unfold load_member. rewrite run_bind_assoc, run_bind_gets. cbn [ap_auth] in *. cbn iota.
  destruct (get_api_key_by_hash _ a) as [key|] eqn:Ek; [|refused].
  apply get_api_key_Some in Ek as Hk. destruct Hk as (_ & _ & He).
  case_bool_decide as Hu; simpl negb; cbn iota; [|refused].
  rewrite run_bind_assoc, (bind_ok _ _ _ _ _ (cold_membership _ _ _)). unfold get_workspace_member.
  destruct (a.(a_members) !! _) as [m|] eqn:Em; [|refused].
  case_bool_decide as Ha; [|refused].
  assert (∀ a1, a1.(a_now) = a.(a_now) → a1.(a_limit) = a.(a_limit) →
    (∃ p', admit_member true workspace (Some (CaMember (key_member key m) key.(k_expires_at))) (mkAuthProcess a1 c) = (Ok (Some u), p')) ↔
    u = key_member key m ∧ (∀ w, workspace = Some w → w = key.(k_workspace_id)) ∧
      (check key.(k_id) a.(a_now) a.(a_limit)).1 = Counted) as Htail.
  { intros a1 Hn Hl. unfold admit_member. rewrite run_bind_gets. cbn [ap_auth]. rewrite Hn.
    assert ((match key.(k_expires_at) with Some t => bool_decide (t ≤ a.(a_now)) | None => false end) = false) as ->.
    { destruct key.(k_expires_at) as [t|]; [|done]. apply bool_decide_eq_false. specialize (He t eq_refl). lia. }
    rewrite run_bind_when_true, run_bind_assoc. simpl m_workspace_id. simpl m_key_id. simpl default.
    destruct (guard_workspace_cases workspace key.(k_workspace_id)
      (HTTPException 403 [Txt "this API key belongs to another workspace"]) (mkAuthProcess a1 c)) as [[E Hw]|[E (w & -> & Hw)]].
    2:{ rewrite (bind_err _ _ _ _ _ E). refused_tail. }
    rewrite (bind_ok _ _ _ _ _ E). pose proof (limit_key_verdict key.(k_id) a1) as Hv. rewrite Hn, Hl in Hv.
    pose proof (on_auth_run (limit_key key.(k_id)) a1) as Ho.
    destruct (check key.(k_id) a.(a_now) a.(a_limit)).1.
    2-3: destruct Hv as (e & a2 & El); rewrite El in Ho; rewrite (bind_err _ _ _ _ _ Ho); refused_tail.
    destruct Hv as [l El]. rewrite El in Ho. rewrite (bind_ok _ _ _ _ _ Ho). run. split; [intros [? [= <- _]]; done|].
    intros (-> & _). eauto. }
  destruct (stale_use key a.(a_now)); run.
  - erewrite bind_ok; [|reflexivity]. unfold ap_set_auth. cbn [ap_cache ap_auth snd]. run. rewrite Htail by done. naive_solver.
  - rewrite Htail by done. naive_solver.
Qed.

(** the two ways to look a token up agree.  Routes that run in threads and routes that run in
    the event loop accept the same tokens for the same member, whatever the state of keys,
    members and rate limits, when the request cache does not listen. *)
Theorem token_lookups_agree token workspace fresh a u :
  (∃ a', user_from_token hash_key token_subject token workspace fresh a = (Ok (Some u), a')) ↔
  (∃ p', user_from_token_async hash_key token_subject token workspace fresh (mkAuthProcess a c) = (Ok (Some u), p')).
Proof.
  destruct (startswith token API_KEY_PREFIX) eqn:Hp; [by rewrite sync_key, async_key|].
  unfold user_from_token, user_from_token_async. rewrite Hp. cbn iota.
  rewrite (bind_ok get _ a a a eq_refl). destruct (token_subject token) as [[sub|]|]; [|by split; intros [? [=]]..].
  rewrite run_bind_cold. unfold load_member. rewrite run_bind_assoc, run_bind_gets. cbn [ap_auth]. cbn iota.
  case_bool_decide; [|by split; intros [? [=]]]. rewrite run_bind_assoc.
  assert (∀ {B} (f : string → M AuthProcess B), ((match str_or_none workspace with Some w => mret w | None => on_auth (personal_workspace sub fresh) end) ≫= f) (mkAuthProcess a c)
    = match (match str_or_none workspace with Some w => mret w | None => personal_workspace sub fresh end) a with
      | (Ok w, a1) => f w (mkAuthProcess a1 c) | (Err e, a1) => (Err e, mkAuthProcess a1 c) end) as Hch.
  { intros B f. destruct (str_or_none workspace); [done|]. unfold mbind, M_bind. rewrite on_auth_run.
    by destruct (personal_workspace sub fresh a) as [[] ?]. }
  rewrite Hch.
  destruct ((match str_or_none workspace with Some w => mret w | None => personal_workspace sub fresh end) a)
    as [[w|e] a1] eqn:Ew; [|by rewrite !(bind_err _ _ _ _ _ Ew); split; intros [? [=]]].
  rewrite (bind_ok _ _ _ _ _ Ew), (bind_ok get _ a1 a1 a1 eq_refl), run_bind_assoc, (bind_ok _ _ _ _ _ (cold_membership _ _ _)).
  destruct (get_workspace_member w sub a1) as [m|]; [|by split; intros [? [=]]].
  case_bool_decide; [|by split; intros [? [=]]]. run. unfold admit_member. rewrite run_bind_gets. run.
  split; intros [? [= <- <-]]; eauto.
Qed.
End cold.
End auth_properties.

Definition demo_key : ApiKey := mkApiKey "k1" "w1" "u1" (Some (sec 100)) None None (Some "s1") true None.
Definition demo_auth : Auth :=
  mkAuth {["u1"]} {["zoo_x" := demo_key]} {[("w1", "u1") := mkMembership ROwner MActive]} ∅ ∅ API_KEY [] 0.

(** The key is looked up while the cache listens, revoked without a notice that comes in, and
    accepted from the cache for the time left; a notice ends it. *)
Definition demo_request : Request := mkRequest "GET" "/sandboxes" None.
Definition demo_cache : Cache cached_auth := listen_ready (start false empty_cache).
Definition demo_process : AuthProcess := mkAuthProcess demo_auth demo_cache.
Definition demo_looked : AuthProcess := (user_from_token_async id (λ _, None) "zoo_x" None "" demo_process).2.
Definition demo_revoked (now : time) : Auth :=
  mkAuth {["u1"]} {["zoo_x" := mkApiKey "k1" "w1" "u1" (Some (sec 100)) None (Some 1) (Some "s1") true None]}
    {[("w1", "u1") := mkMembership ROwner MActive]} ∅ ∅ API_KEY [] now.

Example revoked_for_a_while :
  let ask p := (current_user id (λ _, None) (λ _, []) "zoo_x" None "" demo_request p).1 in
  ask (ap_set_auth (demo_revoked (sec 29)) demo_looked) = Ok (mkMember "u1" "w1" RViewer (Some "k1") (Some "s1") None) ∧
  ask (ap_set_auth (demo_revoked (sec 30)) demo_looked) = Err (HTTPException 401 [Txt "invalid or expired token"]) ∧
  ask (mkAuthProcess (demo_revoked 2) (notice "w1" demo_looked.(ap_cache))) = Err (HTTPException 401 [Txt "invalid or expired token"]).
Proof. by vm_compute. Qed.

Lemma demo_plain : plain_ids demo_auth.
Proof.
  split; cbn [demo_auth a_members a_keys].
  - intros w u m [[= <- <-] _]%lookup_singleton_Some. by vm_compute.
  - intros h k [<- <-]%lookup_singleton_Some. by vm_compute.
Qed.

Definition demo_token_hash (token : string) : string := if has_char ":"%char token then "" else token.

Lemma api_key_limits_witness :
  ∃ u p' key a1,
    current_user demo_token_hash (λ _, None) (λ _, []) "zoo_x" None "" demo_request (mkAuthProcess demo_auth empty_cache) = (Ok u, p') ∧
    u.(m_role) = RViewer ∧ a1.(a_keys) !! "zoo_x" = Some key ∧ key.(k_revoked_at) = None.
Proof.
  assert (∀ token, plain (demo_token_hash token)) as Hplain.
  { intros token. unfold demo_token_hash, plain. by destruct (has_char ":"%char token) eqn:E. }
  eexists (mkMember "u1" "w1" RViewer (Some "k1") (Some "s1") None), _.
  destruct (api_key_limits demo_token_hash (λ _, None) Hplain [demo_auth] (mkAuthProcess demo_auth empty_cache) "zoo_x" None "" demo_request
    (mkMember "u1" "w1" RViewer (Some "k1") (Some "s1") None)
    (current_user demo_token_hash (λ _, None) (λ _, []) "zoo_x" None "" demo_request (mkAuthProcess demo_auth empty_cache)).2
    (λ _, []) (run_start _ _ _ demo_plain) eq_refl) as (key & m & a1 & a2 & _ & H1 & H2 & _).
  - vm_compute. reflexivity.
  - exists key, a1. split; [vm_compute; reflexivity|]. split; [reflexivity|]. exact (conj H1 H2).
Defined.

Lemma route_checks_witness :
  (mkRequest "POST" "/sandboxes/{sandbox_id}/screenshot" (Some "s1")).(r_route) ∈ VIEWER_WRITES.
Proof.
  apply (route_checks (λ _, []) (mkMember "u1" "w1" RViewer None None None)
    (mkRequest "POST" "/sandboxes/{sandbox_id}/screenshot" (Some "s1")) tt tt tt); reflexivity.
Defined.
