(* ===== verification/Access.v ===== *)
(** What a member may reach (src/apps/server/sandbox_api.py): the sandbox lookups
    every route goes through, in threads and in the event loop, and the gate
    every tool call passes. *)

From S2P Require Import Prelude Tables Store Labels Quotas Registry Security Auth.

Definition status_name (s : status) : string :=
  match s with
  | Pending => "pending" | Provisioning => "provisioning" | Running => "running" | Stopped => "stopped"
  | Failed => "failed" | Deleting => "deleting" | Deleted => "deleted"
  end.

Definition kind_name (k : kind) : string :=
  match k with
  | Desktop => "desktop" | Browser => "browser" | Code => "code" | Macos => "macos" | Windows => "windows"
  end.

Definition job_kind_name (k : job_kind) : string :=
  match k with
  | KBoot => "boot" | KStop => "stop" | KDelete => "delete" | KMove => "move" | KSnapshot => "snapshot"
  | KRestore => "restore"
  end.

Definition not_found : exn := HTTPException 404 [Txt "sandbox not found"].

(** ** Lookups in a database session *)

(** Source: src/apps/server/sandbox_api.py:814-822 [SandboxApi.owned]. *)
Definition owned (sandbox_id : string) (user : Member) : M World Sandbox :=
  found ← query (get_sandbox sandbox_id);
  match found with
  | None => raise not_found
  | Some sandbox =>
      guard_ (bool_decide (sandbox.(sb_workspace_id) = user.(m_workspace_id))
              && negb (bool_decide (sandbox.(sb_status) = Deleted))) not_found;;
      mine ← query (λ d, labels_of d sandbox.(sb_id));
      guard_ (is_none user.(m_key_labels) || matches mine user.(m_key_labels)) not_found;;
      require_sandbox user sandbox.(sb_id);;
      mret sandbox
  end.

Definition status_is (s : Sandbox) : exn := HTTPException 409 [Txt "sandbox is "; Txt (status_name s.(sb_status))].

Definition busy (k : job_kind) : exn :=
  HTTPException 409 [Txt "sandbox is busy: "; Txt (job_kind_name k); Txt " in progress"].

(** Source: src/apps/server/sandbox_api.py:903-909 [SandboxApi.idle]. *)
Definition idle (sandbox_id : string) (user : Member) : M World Sandbox :=
  sandbox ← owned sandbox_id user;
  active ← query (get_active_job sandbox.(sb_id));
  match active with
  | Some j => raise (busy j.(j_kind))
  | None => mret sandbox
  end.

(** [not sandbox.runtime_id]: missing or empty. *)
Definition no_runtime (s : Sandbox) : bool := is_none (str_or_none s.(sb_runtime_id)).

(** Source: src/apps/server/sandbox_api.py:911-915 [SandboxApi.running]. *)
Definition running (sandbox_id : string) (user : Member) : M World Sandbox :=
  sandbox ← owned sandbox_id user;
  guard_ (bool_decide (sandbox.(sb_status) = Running) && negb (no_runtime sandbox)) (status_is sandbox);;
  mret sandbox.

Definition denied (permission action : string) : exn :=
  HTTPException 403 [Txt permission; Txt "."; Txt action; Txt " is denied for this sandbox"].

(** Source: src/apps/server/sandbox_api.py:896-901 [SandboxApi.allowed]. *)
Definition allowed (sandbox_id : string) (user : Member) (permission action : string) : M World Sandbox :=
  sandbox ← running sandbox_id user;
  stored ← query (get_sandbox_permission sandbox.(sb_id) permission action);
  guard_ (match stored with Some e => bool_decide (e = "allow") | None => true end) (denied permission action);;
  mret sandbox.

(** ** Lookups in the event loop *)

(** Source: src/apps/server/sandbox_api.py:854-863 [SandboxApi.state_async.load].
    The state a request loads or finds cached. *)
Record State := mkState {
  st_workspace_id : string;
  st_sandbox : Sandbox;
  st_labels : labels_dict;
  st_permissions : gmap (string * string) string;
  st_job : option Job;
  st_secrets : list string
}.

(** The permissions of one sandbox, by permission and action. *)
Definition permissions_of (sandbox_id : string) (d : Db) : gmap (string * string) string :=
  list_to_map (omap (λ p, if decide (p.1.1.1 = sandbox_id) then Some ((p.1.1.2, p.1.2), p.2) else None)
    (map_to_list d.(sandbox_permissions))).

Section event_loop.
(** The decrypted values attached to a sandbox ([decrypt_async] on its secrets
    and its screen password). *)
Context (attached_values : Db → string → list string).

(** Source: src/apps/server/sandbox_api.py:829-865 [SandboxApi.state_async]. *)
Definition state_async (sandbox_id : string) : M World (option State) :=
  found ← query (get_sandbox sandbox_id);
  match found with
  | None => mret None
  | Some sandbox =>
      labels ← query (λ d, labels_of d sandbox_id);
      perms ← query (permissions_of sandbox_id);
      job ← query (get_active_job sandbox_id);
      attached ← query (λ d, attached_values d sandbox_id);
      booted ← gets w_booted;
      mret (Some (mkState sandbox.(sb_workspace_id) sandbox labels perms job
        (default [] (booted !! sandbox_id) ++ attached)))
  end.

(** Source: src/apps/server/sandbox_api.py:867-874 [SandboxApi.owned_async]. *)
Definition owned_async (sandbox_id : string) (user : Member) : M World (Sandbox * State) :=
  state ← state_async sandbox_id;
  match state with
  | None => raise not_found
  | Some state =>
      guard_ (bool_decide (state.(st_workspace_id) = user.(m_workspace_id))
              && negb (bool_decide (state.(st_sandbox).(sb_status) = Deleted))) not_found;;
      require_sandbox user sandbox_id;;
      guard_ (matches state.(st_labels) user.(m_key_labels)) not_found;;
      mret (state.(st_sandbox), state)
  end.

(** Source: src/apps/server/sandbox_api.py:888-894 [SandboxApi.allowed_async]. *)
Definition allowed_async (sandbox_id : string) (user : Member) (permission action : string) : M World (Sandbox * State) :=
  found ← owned_async sandbox_id user;
  let sandbox := found.1 in
  guard_ (bool_decide (sandbox.(sb_status) = Running) && negb (is_none sandbox.(sb_runtime_id))) (status_is sandbox);;
  guard_ (bool_decide (default "allow" (found.2.(st_permissions) !! (permission, action)) = "allow"))
    (denied permission action);;
  mret found.

(** ** Tool calls *)

(** Python's check that the arguments fit the tool's signature ([None] when they
    do), what running the tool in the sandbox gives, and [json.dumps]. *)
Context (signature_error : Tool → list (string * json) → option string)
  (call_tool : os → Tool → string → list (string * json) → result exn json)
  (dumps : json → string).

(** [s[:n]] *)
Definition truncate (n : Z) (s : string) : string := String.substring 0 (Z.to_nat n) s.

Definition json_length (v : json) : Z :=
  match v with
  | JStr s => Z.of_nat (String.length s)
  | JArr l => Z.of_nat (length l)
  | JObj d => Z.of_nat (length d)
  | _ => 0
  end.

Definition jget (k : string) (v : json) : json :=
  match v with JObj d => default JNull (dget k d) | _ => JNull end.

Definition bytes_note (v : json) : string := "<" +:+ pretty (json_length v) +:+ " bytes>".

(** What is recorded of a result: images by their size, the rest cut to 4000
    characters. *)
Definition recorded_output (name : string) (result : json) : string :=
  if decide (name = "screenshot") then bytes_note result
  else if bool_decide (name = "screen_diff") && truthy (jget "image" result) then
    dumps (match result with JObj d => JObj (dset "image" (JStr (bytes_note (jget "image" result))) d) | v => v end)
  else truncate 4000 (dumps result).

Definition json_text (v : json) : string := match v with JStr s => s | _ => "" end.

(** Source: src/apps/server/sandbox_api.py:1766-1814 [SandboxApi.run_tool]. *)
Definition run_tool (user : Member) (sandbox_id name : string) (args : list (string * json)) (execution_id : string)
    : M World json :=
  match tool_named name with
  | None => raise (HTTPException 404 [Txt "unknown tool "; Txt name])
  | Some tool =>
      when (negb (bool_decide (name = "screenshot"))) (require user RMember);;
      match signature_error tool args with
      | Some e => raise (HTTPException 422 [Txt e])
      | None =>
          found ← allowed_async sandbox_id user tool.(t_permission) tool.(t_action);
          let sandbox := found.1 in
          guard_ (match KINDS sandbox.(sb_kind) with Some cs => bool_decide (tool.(t_category) ∈ cs) | None => true end)
            (HTTPException 400 [Txt name; Txt " is not available in "; Txt (kind_name sandbox.(sb_kind)); Txt " sandboxes"]);;
          let secrets := found.2.(st_secrets) in
          let runtime_id := default "" sandbox.(sb_runtime_id) in
          emit (ExecutionStarted execution_id sandbox.(sb_id) name (truncate 4000 (dumps (JObj args))));;
          match call_tool (impl runtime_id) tool runtime_id args with
          | Err e =>
              let error := json_text (redact (JStr (exn_text e)) secrets) in
              emit (ExecutionFinished execution_id false (truncate 4000 error));;
              raise (ZooError "upstream_error" [Txt error])
          | Ok v =>
              let result := redact v secrets in
              emit (ExecutionFinished execution_id true (recorded_output name result));;
              mret result
          end
      end
  end.

(** Source: src/apps/server/sandbox_api.py:1816-1822 [SandboxApi.linux_files]. *)
Definition linux_files (sandbox_id : string) (user : Member) (action : string) : M World string :=
  require user RMember;;
  sandbox ← session (allowed sandbox_id user "files" action);
  match sandbox.(sb_runtime_id) with
  | Some r =>
      guard_ (negb (is_vm (Some r))) (ZooError "not_supported"
        [Txt "file transfer isn't available in "; Txt (kind_name sandbox.(sb_kind)); Txt " sandboxes"]);;
      mret r
  | None => raise (ZooError "not_supported"
        [Txt "file transfer isn't available in "; Txt (kind_name sandbox.(sb_kind)); Txt " sandboxes"])
  end.

(** Source: src/apps/server/sandbox_api.py:1824-1833 [SandboxApi.stream_exec].
    The checks before a streamed command starts; the result is where it runs
    and what its output is masked with. *)
Definition stream_exec (user : Member) (sandbox_id : string) : M World (string * list string) :=
  require user RMember;;
  found ← allowed_async sandbox_id user "shell" "exec";
  let sandbox := found.1 in
  guard_ (negb (is_vm sandbox.(sb_runtime_id)
                || match KINDS sandbox.(sb_kind) with Some cs => negb (bool_decide ("shell" ∈ cs)) | None => false end))
    (ZooError "not_supported" [Txt "streamed exec isn't available in "; Txt (kind_name sandbox.(sb_kind)); Txt " sandboxes"]);;
  match sandbox.(sb_runtime_id) with
  | Some r => mret (r, found.2.(st_secrets))
  | None => raise AssertionError
  end.
End event_loop.

(** ** Lemmas *)

(** Every row is stored under its own id. *)
Definition ids_ok (d : Db) : Prop := ∀ id s, d.(sandboxes) !! id = Some s → s.(sb_id) = id.

(** What a member may see of the sandboxes, by the rows of the tables. *)
Definition reachable_by (user : Member) (id : string) (s : Sandbox) (d : Db) : Prop :=
  d.(sandboxes) !! id = Some s ∧ s.(sb_workspace_id) = user.(m_workspace_id) ∧ s.(sb_status) ≠ Deleted ∧
  (∀ sel k v, user.(m_key_labels) = Some sel → (k, v) ∈ sel → default ∅ (d.(sandbox_labels) !! id) !! k = Some v) ∧
  (∀ k, user.(m_key_sandbox_id) = Some k → k = id).

Lemma require_sandbox_ok {St} user id (s s' : St) u :
  require_sandbox user id s = (Ok u, s') ↔ s' = s ∧ ∀ k, user.(m_key_sandbox_id) = Some k → k = id.
Proof.
  unfold require_sandbox. destruct u, user.(m_key_sandbox_id) as [k|]; [case_bool_decide|]; unfold guard_, raise, mret, M_ret;
    naive_solver.
Qed.

(** Whatever it answers, the lookup changes nothing. *)
Lemma owned_world i user w : (owned i user w).2 = w.
Proof.
  unfold owned. run. destruct (get_sandbox i w.(w_db)) as [s|]; run; [|done].
  unfold guard_. destruct (_ && _); run; [|done]. destruct (_ || _); run; [|done].
  unfold require_sandbox, guard_. destruct user.(m_key_sandbox_id); run; [|done]. by case_bool_decide; run.
Qed.

Lemma owned_ok id user w s w' :
  ids_ok w.(w_db) → owned id user w = (Ok s, w') ↔ w' = w ∧ reachable_by user id s w.(w_db).
Proof.
  intros Hids. unfold owned, reachable_by, get_sandbox. run. destruct (w.(w_db).(sandboxes) !! id) as [s0|] eqn:E.
  2:{ split; [done|naive_solver]. }
  apply Hids in E as Hid. subst id. split.
  - intros (? & ? & [Hb ->]%guard_ok_inv & H)%bind_ok_inv. run_in H.
    apply bind_ok_inv in H as (? & ? & [Hl ->]%guard_ok_inv & H).
    apply bind_ok_inv in H as (? & ? & [-> Hk]%require_sandbox_ok & [= <- <-]).
    apply andb_true_iff in Hb as [Hw%bool_decide_eq_true Hd%negb_true_iff%bool_decide_eq_false].
    split_and!; try done. intros sel k v Hsel. rewrite Hsel in Hl. by apply matches_rows.
  - intros (-> & [= <-] & Hw & Hd & Hl & Hk). rewrite bool_decide_true, bool_decide_false by done. simpl andb. run.
    assert (is_none user.(m_key_labels) || matches (labels_of w.(w_db) s0.(sb_id)) user.(m_key_labels) = true) as ->.
    { destruct user.(m_key_labels) as [sel|]; [|done]. apply matches_rows. intros k v. by apply Hl. }
    run. by rewrite (bind_ok _ _ w tt w (proj2 (require_sandbox_ok user s0.(sb_id) w w tt) (conj eq_refl Hk))).
Qed.

Lemma lookup_permissions_of id d p a :
  permissions_of id d !! (p, a) = d.(sandbox_permissions) !! (id, p, a).
Proof.
  unfold permissions_of. set (l := omap _ _).
  assert (∀ k v, (k, v) ∈ l ↔ d.(sandbox_permissions) !! (id, k.1, k.2) = Some v) as Hl.
  { intros [p' a'] v. unfold l. rewrite list_elem_of_omap. split.
    - intros ([[[id' p1] a1] v1] & Hin%elem_of_map_to_list & E). simpl in *. case_decide; naive_solver.
    - intros H. exists ((id, p', a'), v). rewrite elem_of_map_to_list. split; [done|]. simpl. by rewrite decide_True. }
  destruct (list_to_map l !! (p, a)) as [v|] eqn:E.
  - apply elem_of_list_to_map_2, Hl in E. by rewrite <- E.
  - symmetry. apply eq_None_not_Some. intros [v Hv]. apply not_elem_of_list_to_map_2 in E. apply E.
    apply list_elem_of_fmap. exists ((p, a), v). split; [done|]. by apply Hl.
Qed.

(** When an API call may use a sandbox, as both lookups decide it. *)
Definition usable_by (user : Member) (permission action id : string) (s : Sandbox) (d : Db) : Prop :=
  reachable_by user id s d ∧ s.(sb_status) = Running ∧ str_or_none s.(sb_runtime_id) ≠ None ∧
  default "allow" (d.(sandbox_permissions) !! (id, permission, action)) = "allow".

Lemma allowed_ok id user permission action w s w' :
  ids_ok w.(w_db) →
  allowed id user permission action w = (Ok s, w') ↔ w' = w ∧ usable_by user permission action id s w.(w_db).
Proof.
  intros Hids. unfold allowed, running, usable_by. rewrite run_bind_assoc. split.
  - intros (s0 & w0 & [-> Hr]%owned_ok & H)%bind_ok_inv; [|done]. rewrite run_bind_assoc in H.
    apply bind_ok_inv in H as (? & ? & [Hb ->]%guard_ok_inv & H). run_in H.
    apply bind_ok_inv in H as (? & ? & [Hp ->]%guard_ok_inv & [= <- <-]).
    apply andb_true_iff in Hb as [Hst%bool_decide_eq_true Hn%negb_true_iff].
    assert (Hid : s0.(sb_id) = id) by (apply Hids, Hr). unfold get_sandbox_permission in Hp. rewrite Hid in Hp.
    split; [done|]. split_and!; try done.
    + unfold no_runtime in Hn. by destruct (str_or_none _).
    + destruct (sandbox_permissions _ !! _); [|done]. by apply bool_decide_eq_true in Hp.
  - intros (-> & Hr & Hst & Hn & Hp). rewrite (bind_ok _ _ w s w) by (by apply owned_ok). rewrite run_bind_assoc.
    rewrite bool_decide_true by done. unfold no_runtime. destruct (str_or_none s.(sb_runtime_id)); [|done]. simpl andb. run.
    assert (Hid : s.(sb_id) = id) by (apply Hids, Hr). unfold get_sandbox_permission. rewrite Hid.
    destruct (sandbox_permissions _ !! _) as [e|]; simpl in Hp; [subst e|]; done.
Qed.

Section access_properties.
Context (attached_values : Db → string → list string).

Lemma owned_async_ok id user w s st w' :
  ids_ok w.(w_db) →
  owned_async attached_values id user w = (Ok (s, st), w') →
  w' = w ∧ reachable_by user id s w.(w_db) ∧ st.(st_sandbox) = s ∧ st.(st_permissions) = permissions_of id w.(w_db) ∧
  st.(st_secrets) = default [] (w.(w_booted) !! id) ++ attached_values w.(w_db) id.
Proof.
  intros Hids. unfold owned_async, state_async, get_sandbox, reachable_by. run.
  destruct (w.(w_db).(sandboxes) !! id) as [s0|] eqn:E; run; [|done]. simpl st_workspace_id. simpl st_sandbox.
  intros (? & ? & [Hb ->]%guard_ok_inv & H)%bind_ok_inv.
  apply bind_ok_inv in H as (? & ? & [-> Hk]%require_sandbox_ok & H).
  apply bind_ok_inv in H as (? & ? & [Hl ->]%guard_ok_inv & [= <- <- <-]).
  apply andb_true_iff in Hb as [Hw%bool_decide_eq_true Hd%negb_true_iff%bool_decide_eq_false].
  split_and!; try done. intros sel k v Hsel. simpl in Hl. rewrite Hsel in Hl. by apply matches_rows.
Qed.

Lemma owned_async_reaches id user w s :
  ids_ok w.(w_db) → reachable_by user id s w.(w_db) →
  ∃ st, owned_async attached_values id user w = (Ok (s, st), w) ∧ st.(st_permissions) = permissions_of id w.(w_db).
Proof.
  intros Hids (E & Hw & Hd & Hl & Hk). unfold owned_async, state_async, get_sandbox. run. rewrite E. run.
  simpl st_workspace_id. simpl st_sandbox. rewrite bool_decide_true, bool_decide_false by done. simpl andb. run.
  rewrite (bind_ok _ _ w tt w (proj2 (require_sandbox_ok user id w w tt) (conj eq_refl Hk))). simpl st_labels.
  assert (matches (labels_of w.(w_db) id) user.(m_key_labels) = true) as ->.
  { destruct user.(m_key_labels) as [sel|]; [apply matches_rows; intros k v; by apply Hl|done]. }
  run. by eexists.
Qed.

Lemma allowed_async_ok id user permission action w s st w' :
  ids_ok w.(w_db) →
  allowed_async attached_values id user permission action w = (Ok (s, st), w') →
  w' = w ∧ reachable_by user id s w.(w_db) ∧ s.(sb_status) = Running ∧ s.(sb_runtime_id) ≠ None ∧
  default "allow" (w.(w_db).(sandbox_permissions) !! (id, permission, action)) = "allow" ∧
  st.(st_secrets) = default [] (w.(w_booted) !! id) ++ attached_values w.(w_db) id.
Proof.
  intros Hids. unfold allowed_async. intros ([s0 st0] & w0 & E & H)%bind_ok_inv.
  apply owned_async_ok in E as (-> & Hr & _ & Hp & Hs); [|done].
  apply bind_ok_inv in H as (? & ? & [Hb ->]%guard_ok_inv & H).
  apply bind_ok_inv in H as (? & ? & [Hperm%bool_decide_eq_true ->]%guard_ok_inv & [= <- <- <-]). simpl in *.
  apply andb_true_iff in Hb as [Hst%bool_decide_eq_true Hn%negb_true_iff]. rewrite Hp, lookup_permissions_of in Hperm.
  split_and!; try done. by destruct (sb_runtime_id s0).
Qed.

Lemma allowed_async_err id user permission action w e w' :
  allowed_async attached_values id user permission action w = (Err e, w') → w' = w.
Proof.
  intros E. assert (preserves (eq w) (allowed_async attached_values id user permission action)) as H.
  - unfold allowed_async, owned_async, state_async, require_sandbox.
    repeat first [apply preserves_bind; [|intros ?] | by intros ? | case_match | apply preserves_guard | apply preserves_raise].
  - specialize (H w eq_refl). by rewrite E in H.
Qed.

(** C2: tenant isolation.  A lookup succeeds exactly for a sandbox whose row is of
    the member's own workspace and not deleted and which, for an API key made for
    one sandbox, is that sandbox and, for a key made for labels, has a row of
    sandbox_labels with the same value for each of them; a lookup changes
    nothing. *)
Theorem owned_isolates id user w s w' :
  ids_ok w.(w_db) → owned id user w = (Ok s, w') ↔ w' = w ∧ reachable_by user id s w.(w_db).
Proof. apply owned_ok. Qed.

(** the lookup of the event loop allows exactly what the lookup in a
    database session allows, where runtime ids are never empty strings. *)
Theorem allowed_lookups_agree id user permission action w s :
  ids_ok w.(w_db) → (∀ i r, w.(w_db).(sandboxes) !! i = Some r → r.(sb_runtime_id) ≠ Some "") →
  (∃ w', allowed id user permission action w = (Ok s, w')) ↔
  (∃ st w', allowed_async attached_values id user permission action w = (Ok (s, st), w')).
Proof.
  intros Hids Hne. split.
  - intros (w' & (-> & Hr & Hst & Hn & Hp)%allowed_ok); [|done].
    destruct (owned_async_reaches id user w s Hids Hr) as (st & E & Hperm). exists st, w.
    unfold allowed_async. rewrite (bind_ok _ _ _ _ _ E). simpl. rewrite (bool_decide_true (s.(sb_status) = Running)) by done.
    destruct (sb_runtime_id s) as [r|]; [|done]. simpl. run. rewrite Hperm, lookup_permissions_of, bool_decide_true by done. done.
  - intros (st & w' & (-> & Hr & Hst & Hn & Hp & _)%allowed_async_ok); [|done]. exists w. apply allowed_ok; [done|].
    split; [done|]. split_and!; try done. destruct Hr as [Hrow _]. specialize (Hne _ _ Hrow).
    destruct (sb_runtime_id s) as [[|]|]; simpl; done.
Qed.

Context (signature_error : Tool → list (string * json) → option string)
  (call_tool : os → Tool → string → list (string * json) → result exn json) (dumps : json → string).

Abbreviation run_tool' := (run_tool attached_values signature_error call_tool dumps).

(** What a tool call that reaches the sandbox was checked for. *)
Definition may_call (user : Member) (tool : Tool) (id : string) (s : Sandbox) (d : Db) : Prop :=
  reachable_by user id s d ∧ s.(sb_status) = Running ∧ s.(sb_runtime_id) ≠ None ∧
  default "allow" (d.(sandbox_permissions) !! (id, tool.(t_permission), tool.(t_action))) = "allow" ∧
  (∀ cs, KINDS s.(sb_kind) = Some cs → tool.(t_category) ∈ cs) ∧
  (tool.(t_name) = "screenshot" ∨ can user RMember = true).

Lemma tool_named_Some name tool : tool_named name = Some tool → tool.(t_name) = name.
Proof. unfold tool_named. intros H%head_Some_elem_of. by apply list_elem_of_filter in H as [? _]. Qed.

(** A tool call either stops at a check, leaving the world as it was, or passes
    them all and runs in the sandbox, between the two records of it. *)
Lemma run_tool_cases user id name args execution_id w :
  ids_ok w.(w_db) →
  (∃ e, run_tool' user id name args execution_id w = (Err e, w)) ∨
  ∃ tool s, tool_named name = Some tool ∧ may_call user tool id s w.(w_db) ∧ signature_error tool args = None ∧
    let secrets := default [] (w.(w_booted) !! id) ++ attached_values w.(w_db) id in
    let runtime_id := default "" s.(sb_runtime_id) in
    let logged ok text := put_log (w.(w_log)
      ++ [ExecutionStarted execution_id id name (truncate 4000 (dumps (JObj args)));
          ExecutionFinished execution_id ok text]) w in
    run_tool' user id name args execution_id w =
      match call_tool (impl runtime_id) tool runtime_id args with
      | Err e => let error := json_text (redact (JStr (exn_text e)) secrets) in
                 (Err (ZooError "upstream_error" [Txt error]), logged false (truncate 4000 error))
      | Ok v => (Ok (redact v secrets), logged true (recorded_output dumps name (redact v secrets)))
      end.
Proof.
  intros Hids. unfold run_tool. destruct (tool_named name) as [tool|] eqn:Et; [|left; by eexists].
  apply tool_named_Some in Et as Hname.
  destruct ((when (negb (bool_decide (name = "screenshot"))) (require user RMember)) w) as [[u|e] w0] eqn:E0.
  2:{ left. exists e. rewrite (bind_err _ _ _ _ _ E0). f_equal. unfold when, require, guard_, raise in E0.
    destruct (negb _); [destruct (can user RMember)|]; by simplify_eq/=. }
  rewrite (bind_ok _ _ _ _ _ E0).
  assert (w0 = w ∧ (name = "screenshot" ∨ can user RMember = true)) as [-> Hrole].
  { unfold when, require in E0. case_bool_decide; simpl in E0; [inv_ok; auto|].
    apply guard_ok_inv in E0 as [? ->]. auto. }
  destruct (signature_error tool args) eqn:Es; [left; by eexists|].
  destruct (allowed_async attached_values id user tool.(t_permission) tool.(t_action) w) as [[[s st]|e] w1] eqn:Ea.
  2:{ left. exists e. rewrite (bind_err _ _ _ _ _ Ea). f_equal. by eapply (allowed_async_err id user). }
  apply allowed_async_ok in Ea as H; [|done]. destruct H as (-> & Hr & Hst & Hrt & Hp & Hsec).
  rewrite (bind_ok _ _ _ _ _ Ea). simpl fst. simpl snd.
  destruct (match KINDS s.(sb_kind) with Some cs => bool_decide (tool.(t_category) ∈ cs) | None => true end) eqn:Ek.
  2:{ left. run. by eexists. }
  right. exists tool, s. split; [done|]. split.
  { split_and!; try done; [|by rewrite Hname]. intros cs Hcs. rewrite Hcs in Ek. by apply bool_decide_eq_true in Ek. }
  split; [done|]. assert (Hid : s.(sb_id) = id) by (apply Hids, Hr). run. rewrite Hid, Hsec.
  destruct (call_tool _ _ _ _); run; unfold put_log; cbn [w_log w_db w_clock w_live w_booted w_attached]; by rewrite <- app_assoc.
Qed.

(** a tool runs in a sandbox only for a member its checks allow, and shows
    no secret.  If the call reaches the sandbox, the sandbox is the member's
    to reach, is running, offers the tool's category, does not deny the
    tool's permission, and the member may change things or only takes a
    screenshot; what comes back, result or error, holds no maskable secret of
    the sandbox; and exactly one record of the call is opened and closed.  A
    call refused by a check leaves no trace. *)
Theorem run_tool_guarded user id name args execution_id w r w' :
  ids_ok w.(w_db) → run_tool' user id name args execution_id w = (r, w') →
  (w' = w ∧ is_ok r = false) ∨
  ∃ tool s out text, may_call user tool id s w.(w_db) ∧ tool.(t_name) = name ∧
    w'.(w_db) = w.(w_db) ∧
    w'.(w_log) = w.(w_log) ++ [ExecutionStarted execution_id id name (truncate 4000 (dumps (JObj args)));
                               ExecutionFinished execution_id (is_ok r) text] ∧
    (r = Ok out ∨ r = Err (ZooError "upstream_error" [Txt (json_text out)])) ∧
    ∀ secret, secret ∈ default [] (w.(w_booted) !! id) ++ attached_values w.(w_db) id →
      (MIN_REDACT_LENGTH ≤ String.length secret)%nat → clean secret →
      Forall (λ t, ¬ occurs secret t) (leaves out).
Proof.
  intros Hids E. destruct (run_tool_cases user id name args execution_id w Hids) as [[e E']|(tool & s & Ht & Hm & _ & E')].
  - left. rewrite E in E'. by simplify_eq.
  - right. apply tool_named_Some in Ht. rewrite E in E'. cbv zeta in E'.
    set (secrets := _ ++ _) in E' |- *. destruct (call_tool _ _ _ _) as [v|e]; simplify_eq.
    + exists tool, s, (redact v secrets), (recorded_output dumps tool.(t_name) (redact v secrets)).
      split_and!; try done; [by left|]. intros secret ? ? ?. by apply redact_removes_aux.
    + exists tool, s, (redact (JStr (exn_text e)) secrets), (truncate 4000 (json_text (redact (JStr (exn_text e)) secrets))).
      split_and!; try done; [by right|]. intros secret ? ? ?. by apply redact_removes_aux.
Qed.
End access_properties.

(** A running sandbox "s1" of workspace "w1" that booted with one secret. *)
Definition demo_sandbox : Sandbox :=
  mkSandbox "s1" "w1" "v1" "u1" "one" Running "docker" (Some "c1") None "{}" [] None (Some 0) None None 0 0 None None
    Desktop None None None None 2%Q 2048 None None None None.

Definition demo_access : World :=
  mkWorld (set_sandboxes {["s1" := demo_sandbox]} empty_db) 0 ∅ {["s1" := ["hunter22"]]} ∅ [].

Definition demo_member : Member := mkMember "u1" "w1" RMember None None None.

Lemma demo_access_ids : ids_ok demo_access.(w_db).
Proof. intros id s. simpl. intros [<- <-]%lookup_singleton_Some. done. Qed.

Lemma owned_isolates_witness : owned "s1" demo_member demo_access = (Ok demo_sandbox, demo_access).
Proof.
  apply (owned_isolates "s1" demo_member demo_access demo_sandbox demo_access demo_access_ids).
  repeat split; discriminate.
Defined.

Lemma allowed_lookups_agree_witness :
  ∃ st w', allowed_async (λ _ _, []) "s1" demo_member "shell" "exec" demo_access = (Ok (demo_sandbox, st), w').
Proof.
  apply (allowed_lookups_agree (λ _ _, []) "s1" demo_member "shell" "exec" demo_access demo_sandbox demo_access_ids).
  - intros i r. simpl. intros [<- <-]%lookup_singleton_Some. discriminate.
  - exists demo_access. vm_compute. reflexivity.
Defined.

Definition demo_call (o : os) (t : Tool) (r : string) (a : list (string * json)) : result exn json :=
  Ok (JObj [("stdout", JStr "pw is hunter22")]).

Lemma run_tool_guarded_witness :
  ∃ r w', run_tool (λ _ _, []) (λ _ _, None) demo_call (λ _, "") demo_member "s1" "execute_command" [] "e1" demo_access = (r, w') ∧
    r = Ok (JObj [("stdout", JStr "pw is [redacted]")]) ∧
    ∃ tool s, may_call demo_member tool "s1" s demo_access.(w_db) ∧ tool.(t_name) = "execute_command".
Proof.
  eexists _, _. split; [vm_compute; reflexivity|]. split; [reflexivity|].
  destruct (run_tool_guarded (λ _ _, []) (λ _ _, None) demo_call (λ _, "") demo_member "s1" "execute_command" [] "e1"
    demo_access (Ok (JObj [("stdout", JStr "pw is [redacted]")]))
    (run_tool (λ _ _, []) (λ _ _, None) demo_call (λ _, "") demo_member "s1" "execute_command" [] "e1" demo_access).2
    demo_access_ids) as [[_ H]|(tool & s & out & text & Hm & Hn & _)].
  - vm_compute. reflexivity.
  - discriminate H.
  - exists tool, s. exact (conj Hm Hn).
Defined.
