(* ===== verification/Platforms.v ===== *)
(** Which sandboxes each kind of host can run (src/apps/server/platforms.py):
    the table of platforms, the platform of a sandbox kind, and the list of
    capabilities a server's row keeps as text. *)

From S2P Require Import Prelude Tables Store Registry Access.

(** Source: src/apps/server/platforms.py:12-19 [Platform]. *)
Record Platform := mkPlatform {
  pf_id : string;
  pf_name : string;
  pf_host : string;
  pf_kinds : list string;
  pf_runs : list string;
  pf_requirements : string
}.

(** Source: src/apps/server/platforms.py:22-29 [LINUX_PLATFORM]. *)
Definition LINUX_PLATFORM : Platform :=
  mkPlatform "linux" "Linux" "Linux server" ["desktop"; "browser"; "code"] ["linux"]
    "Linux Docker engine, or the configured Docker or Kubernetes runtime".

(** Source: src/apps/server/platforms.py:31-49 [PLATFORMS]. *)
Definition PLATFORMS : list (string * Platform) :=
  [("linux", LINUX_PLATFORM);
   ("macos", mkPlatform "macos" "macOS" "Mac" ["macos"] ["macos"; "linux"]
     "Native macOS: Apple Silicon, macOS 14+, zoovm. Linux desktop/browser/code: a Linux Docker engine.");
   ("windows", mkPlatform "windows" "Windows" "Windows machine" ["windows"] ["windows"; "linux"]
     "Native Windows: Windows Pro/Enterprise/Education or Server with Hyper-V. Linux desktop/browser/code: a Linux Docker engine.")].

(** Source: src/apps/server/platforms.py:54-55 [os_of]. *)
Definition os_of (kind : string) : string :=
  match head (filter (λ p, kind ∈ p.2.(pf_kinds)) PLATFORMS) with Some p => p.2.(pf_id) | None => "linux" end.

(** [s.split(c)] for a one-character separator. *)
Fixpoint split (c : Ascii.ascii) (s : string) : list string :=
  match s with
  | EmptyString => [EmptyString]
  | String a s' =>
      if decide (a = c) then EmptyString :: split c s'
      else match split c s' with
           | x :: l => String a x :: l
           | [] => [String a EmptyString]
           end
  end.

(** [sep.join(l)]. *)
Fixpoint join (sep : string) (l : list string) : string :=
  match l with
  | [] => ""
  | [x] => x
  | x :: l' => x +:+ sep +:+ join sep l'
  end.

Definition comma : Ascii.ascii := ","%char.

(** Source: src/apps/server/platforms.py:58-59 [parse].  The set is the list of
    its members. *)
Definition parse (capabilities : string) : list string := filter (λ c, c ≠ "") (split comma capabilities).

(** Source: src/apps/server/platforms.py:62-64 [capabilities_of]. *)
Definition capabilities_of (platform : string) : option string := (λ p, join "," p.(pf_runs)) <$> dget platform PLATFORMS.

(** [s.rstrip(c)]. *)
Fixpoint rstrip (c : Ascii.ascii) (s : string) : string :=
  match s with
  | EmptyString => EmptyString
  | String a s' =>
      match rstrip c s' with
      | EmptyString => if decide (a = c) then EmptyString else String a EmptyString
      | t => String a t
      end
  end.

(** Source: src/apps/server/platforms.py:67-78 [install_command].  [INSTALL_URL]
    comes from the environment. *)
Definition install_command (INSTALL_URL : option string) (platform public_key api_url : string) : result exn string :=
  if negb (dhas platform PLATFORMS) then Err (ValueError [Txt "node hosts must be linux, macos or windows"])
  else
    let source := match str_or_none INSTALL_URL with
                  | Some u => u
                  | None => rstrip "/"%char api_url +:+ "/v1/nodes/install"
                  end in
    if decide (platform = "windows") then
      let q := String (Ascii.ascii_of_nat 34) EmptyString in
      Ok ("powershell -ExecutionPolicy Bypass -c " +:+ q +:+ "& ([scriptblock]::Create((irm " +:+ source +:+
          "/install-node.ps1))) -Key '" +:+ public_key +:+ "' -ControlPlane '" +:+ api_url +:+ "'" +:+ q)
    else
      Ok ("curl -fsSL " +:+ source +:+ "/install.sh | sudo bash -s -- --node --key '" +:+ public_key +:+
          "' --control-plane '" +:+ api_url +:+ "'").

(** Source: src/apps/server/sandbox_api.py:146-147 [platform_of]. *)
Definition platform_of (k : kind) : string := if is_vm_kind k then kind_name k else "linux".

(** ** Lemmas *)
Lemma split_nonempty c s : split c s ≠ [].
Proof. destruct s as [|a s]; [done|]. simpl. case_decide; [done|]. by destruct (split c s). Qed.

Lemma split_absent c s : has_char c s = false → split c s = [s].
Proof.
  induction s as [|a s IH]; simpl; [done|]. rewrite orb_false_iff, bool_decide_eq_false. intros [Hne Hs].
  rewrite decide_False by done. by rewrite (IH Hs).
Qed.

Lemma split_app c s t : has_char c s = false → split c (s +:+ String c t) = s :: split c t.
Proof.
  induction s as [|a s IH]; simpl; [by rewrite decide_True|].
  rewrite orb_false_iff, bool_decide_eq_false. intros [Hne Hs]. rewrite decide_False by done. by rewrite (IH Hs).
Qed.

Lemma split_join l : l ≠ [] → Forall (λ x, has_char comma x = false) l → split comma (join "," l) = l.
Proof.
  induction l as [|x l IH]; [done|]. intros _ [Hx Hl]%Forall_cons. destruct l as [|y l]; [by apply split_absent|].
  change (join "," (x :: y :: l)) with (x +:+ "," +:+ join "," (y :: l)).
  change ("," +:+ join "," (y :: l)) with (String comma (join "," (y :: l))). rewrite split_app by done. by rewrite IH.
Qed.

Lemma parse_join_all l :
  Forall (λ x, has_char comma x = false ∧ x ≠ "") l → parse (join "," l) = l.
Proof.
  intros Hl. unfold parse. destruct (decide (l = [])) as [->|Hne]; [by vm_compute|].
  rewrite split_join; [|done|by eapply Forall_impl; [exact Hl|naive_solver]].
  apply filter_all. eapply Forall_impl; [exact Hl|naive_solver].
Qed.

(** ** The properties of platforms *)

(** the capabilities of a server read back: a list of platform names joined
    into the text of the row's column is parsed to the same names. *)
Theorem parse_capabilities l :
  Forall (λ x, has_char comma x = false ∧ x ≠ "") l → parse (join "," l) = l.
Proof. apply parse_join_all. Qed.

(** every sandbox kind runs on exactly one platform, the one its own host
    is for; and a host of every platform also runs Linux sandboxes. *)
Theorem platforms_cover k :
  os_of (kind_name k) = platform_of k ∧
  (∃ p, p ∈ PLATFORMS ∧ kind_name k ∈ p.2.(pf_kinds) ∧ p.1 = platform_of k ∧
     ∀ q, q ∈ PLATFORMS → kind_name k ∈ q.2.(pf_kinds) → q = p) ∧
  (∀ id p, dget id PLATFORMS = Some p → p.(pf_id) = id ∧ "linux" ∈ p.(pf_runs) ∧ id ∈ p.(pf_runs) ∧
     ∃ c, capabilities_of id = Some c ∧ parse c = p.(pf_runs)).
Proof.
  split_and!.
  - by destruct k.
  - assert (∀ q, q ∈ PLATFORMS → kind_name k ∈ q.2.(pf_kinds) → q.1 = platform_of k) as Hone.
    { intros q Hin Hk. unfold PLATFORMS in Hin. rewrite !elem_of_cons, elem_of_nil in Hin.
      destruct Hin as [->|[->|[->|[]]]]; destruct k; simpl in *; set_solver. }
    assert (∃ p, p ∈ PLATFORMS ∧ kind_name k ∈ p.2.(pf_kinds)) as (p & Hin & Hk).
    { destruct k; [exists ("linux", LINUX_PLATFORM)..|exists (nth 1 PLATFORMS ("", LINUX_PLATFORM))|
        exists (nth 2 PLATFORMS ("", LINUX_PLATFORM))]; simpl; set_solver. }
    exists p. split_and!; [done..|by apply Hone|]. intros q Hq Hkq. pose proof (Hone p Hin Hk) as Hp.
    pose proof (Hone q Hq Hkq) as Hq1. destruct p as [p1 p2], q as [q1 q2]. simpl in *. subst.
    assert (NoDup (dkeys PLATFORMS)) as Hnd by (vm_compute; repeat constructor; set_solver).
    apply (dget_in _ _ _ Hnd) in Hin, Hq. congruence.
  - intros id p H%dget_Some_in. unfold PLATFORMS in H. rewrite !elem_of_cons, elem_of_nil in H.
    destruct H as [[= -> ->]|[[= -> ->]|[[= -> ->]|[]]]]; (split_and!; [done|set_solver|set_solver|]);
      eexists; (split; [vm_compute; reflexivity|vm_compute; reflexivity]).
Qed.

Lemma parse_capabilities_witness : parse "macos,linux" = ["macos"; "linux"].
Proof. apply (parse_capabilities ["macos"; "linux"]). repeat constructor; discriminate. Defined.
