(* ===== verification/Lifecycle.v ===== *)
(** The lifecycle jobs of a sandbox (src/apps/server/sandbox_api.py): booting,
    stopping, deleting, moving, snapshotting and restoring, what happens when
    one fails for good, and the sweeps that follow sandboxes between requests
    (expiry, paused sandboxes, runtime events, reconciliation).

    What a handler calls outside the process is an effect: the environment
    decides whether it succeeds, and while it runs other threads of the
    process and other processes may do anything ([e_yield]). *)

From S2P Require Import Prelude Tables Store Jobs Labels Quotas Registry Security Auth Access.

Definition BOOT_DEADLINE_LINUX : Z := 3 * 60.
Definition BOOT_DEADLINE_VM : Z := 10 * 60.
Definition HANG_SECONDS : Z := 60.
Definition STRANDED_SECONDS : Z := 60.
Definition VNC_PASSWORD : string := "vnc_password".

(** Source: src/apps/server/sandbox_api.py:191-192 [boot_deadline]. *)
Definition boot_deadline (k : kind) : Z := if is_vm_kind k then BOOT_DEADLINE_VM else BOOT_DEADLINE_LINUX.

(** ** The environment of a handler *)

Record Env := mkEnv {
  (** whether a call outside the process succeeds, given the ones before *)
  e_call : list effect → effect → result exn unit;
  (** what else happens while it runs *)
  e_yield : World → World;
  (** the container and host [run_container] gives, the VM [VMS[kind].start]
      gives, the size a snapshot has *)
  e_container : list effect → string → string * option string;
  e_vm : list effect → string → string;
  e_snapshot_bytes : list effect → string → Z;
  (** whether a runtime is running, or its host could not be asked *)
  e_running : list effect → string → result exn bool;
  (** whether the desktop came up, and whether a VM has hung *)
  e_desktop_up : list effect → string → bool;
  e_hung : list effect → string → bool;
  (** the settings: the runtime, its images, the pause limit in minutes *)
  e_kube : bool;
  e_default_image : kind → string;
  e_pause_minutes : Z;
  (** tables and services the jobs only read *)
  e_image_version : string → option (bool * string);
  e_secret_env : Db → string → result exn (list (string * string));
  e_guest_env : string → bool → list (string * string);
  e_decrypt : string → result exn string;
  e_vnc_token : string;
  e_profile : string → bool;
  e_bind_address : string → option string;
  e_base_of : string → option string;
  e_boot_seconds : Q;
  e_binding : string → string → json;
  e_browser_home : string;
  e_pressured : list effect → list string;
  e_node_of : Sandbox → string;
  e_uuid : World → string
}.

(** How often each kind of job is tried, and with what backoff (the arguments
    of [register] in [SandboxApi.__init__]). *)
Definition attempts_of (k : job_kind) : Z :=
  match k with KBoot => 3 | KStop => 3 | KDelete => 5 | KMove => 2 | KSnapshot => 1 | KRestore => 2 end.

Definition backoff_of (k : job_kind) : list Z :=
  match k with
  | KBoot | KStop => [5; 15]
  | KDelete => [10; 30; 60; 120]
  | KMove => [30]
  | KSnapshot => [5; 15; 30]
  | KRestore => [15]
  end.

(** Enqueuing needs of a handler only its attempts. *)
Definition enqueue_job (id sandbox_id : string) (k : job_kind) (deadline : option Z) (args : list (string * json))
    : M World unit :=
  enqueue (λ k, Some (mkHandler (λ _, mret tt) (attempts_of k) (backoff_of k) None)) id sandbox_id k deadline args.

Section lifecycle.
Context (E : Env).

Definition invoke (e : effect) : M World unit := λ w,
  match E.(e_call) w.(w_log) e with
  | Ok _ => (Ok tt, E.(e_yield) (put_log (w.(w_log) ++ [e]) w))
  | Err x => (Err x, E.(e_yield) w)
  end.

Definition swallow (m : M World unit) : M World unit := try_ m (λ _, mret tt).

Definition uuid : M World string := gets E.(e_uuid).

Definition lift_w {A} (r : result exn A) : M World A := match r with Ok a => mret a | Err e => raise e end.

(** [v == text] for a JSON value. *)
Definition is_text (text : string) (v : json) : bool := match v with JStr t => bool_decide (t = text) | _ => false end.

Definition has_runtime (s : Sandbox) : bool := negb (no_runtime s).

(** [sandbox.server_id] as a truth value. *)
Definition on_server (s : Sandbox) : bool := negb (is_none (str_or_none s.(sb_server_id))).

(** Source: src/apps/server/runtime.py:213-217 [remove_container]. *)
Definition remove_container (runtime_id : string) : M World unit := invoke (RemoveContainer runtime_id).

Definition remove_runtime (s : Sandbox) : M World unit :=
  match str_or_none s.(sb_runtime_id) with Some r => remove_container r | None => mret tt end.

(** Source: src/apps/server/sandbox_api.py:917-918 [SandboxApi.server_of]. *)
Definition server_of (s : Sandbox) (d : Db) : option Server :=
  match str_or_none s.(sb_server_id) with Some i => d.(servers) !! i | None => None end.

(** Source: src/apps/server/sandbox_api.py:1702-1710 [SandboxApi.to_volume]. *)
Definition to_volume (s : Sandbox) : M World unit :=
  remove_runtime s;;
  forget_secrets s.(sb_id);;
  session (exec (λ now, clear_sandbox_runtime now s.(sb_id))).

(** Source: src/apps/server/sandbox_api.py:1623-1637 [SandboxApi.freeze]. *)
Definition freeze (s : Sandbox) : M World unit :=
  match s.(sb_runtime_id) with
  | None => raise AssertionError
  | Some r => if E.(e_kube) && negb (on_server s) then invoke (VmPause s.(sb_id)) else invoke (PauseRuntime r)
  end.

(** Source: src/apps/server/sandbox_api.py:1639-1652 [SandboxApi.thaw]. *)
Definition thaw (s : Sandbox) : M World unit :=
  match s.(sb_runtime_id) with
  | None => raise AssertionError
  | Some r => if E.(e_kube) && negb (on_server s) then invoke (VmResume s.(sb_id)) else invoke (ResumeRuntime r)
  end.

(** Source: src/apps/server/sandbox_api.py:1654-1666 [SandboxApi.bind]. *)
Definition bind_vm (sandbox_id : string) : M World unit :=
  found ← session (query (get_sandbox sandbox_id));
  match found with
  | None => mret tt
  | Some s =>
      match str_or_none s.(sb_runtime_id) with
      | None => mret tt
      | Some r =>
          if on_server s || is_vm_kind s.(sb_kind) then mret tt
          else if is_text r (jget "runtime_id" (default JNull (dget "vm_control" s.(sb_config)))) then mret tt
          else
            invoke (BindVm s.(sb_id));;
            let config := dset "vm_control" (E.(e_binding) s.(sb_id) r) (dpop "vm_control" s.(sb_config)) in
            session (exec (λ now, update_sandbox now s.(sb_name) s.(sb_resources) config s.(sb_id)))
      end
  end.
(** *** Booting *)

(** Source: src/apps/server/sandbox_api.py:1305-1310 [SandboxApi.still_booting]. *)
Definition still_booting (job : Job) : M World (option Sandbox) :=
  found ← query (get_sandbox job.(j_sandbox_id));
  mine ← owns job;
  mret (match found with
        | Some s => if bool_decide (s.(sb_status) = Provisioning) && mine then Some s else None
        | None => None
        end).

(** Source: src/apps/server/sandbox_api.py:1312-1319 [SandboxApi.record_runtime]. *)
Definition record_runtime (job : Job) (runtime_id : string) (host : option string) : M World bool :=
  recorded ← session (
    found ← still_booting job;
    match found with
    | Some s => exec (λ now, update_sandbox_runtime now (Some runtime_id) host s.(sb_id));; mret true
    | None => mret false
    end);
  if recorded : bool then mret true else remove_container runtime_id;; mret false.

(** Source: src/apps/server/security.py:196-213 [enforce].  The policies reach
    the sandbox through its runtime. *)
Definition enforce (s : Sandbox) : M World unit :=
  if bool_decide (s.(sb_status) = Running) && has_runtime s then invoke (Enforce s.(sb_id)) else mret tt.

(** Source: src/apps/server/sandbox_api.py:1321-1345 [SandboxApi.mark_started]. *)
Definition mark_started (job : Job) : M World (option Sandbox) :=
  started ← session (
    booting ← still_booting job;
    match booting with
    | None => mret None
    | Some _ =>
        exec (λ now, set_sandbox_started now job.(j_sandbox_id));;
        found ← query (get_sandbox job.(j_sandbox_id));
        match found with
        | None => mret None
        | Some s =>
            exec (λ _, set_sandbox_reachable s.(sb_id));;
            swallow (enforce s);;
            mret (Some s)
        end
    end);
  match started with
  | None => mret None
  | Some s =>
      when (E.(e_kube) && negb (is_vm_kind s.(sb_kind)) && negb (on_server s)) (swallow (bind_vm s.(sb_id)));;
      mret (Some s)
  end.

(** Source: src/apps/server/sandbox_api.py:1275-1286 [SandboxApi.pin_image]. *)
Definition pin_image (sandbox_id : string) : M World string :=
  found ← query (get_sandbox sandbox_id);
  match found with
  | None => raise (RuntimeError [Txt "sandbox "; Txt sandbox_id; Txt " is gone"])
  | Some s =>
      match dget "image" s.(sb_config) with
      | Some image => mret (json_text image)
      | None =>
          let image := E.(e_default_image) s.(sb_kind) in
          exec (λ now, update_sandbox now s.(sb_name) s.(sb_resources) (dset "image" (JStr image) s.(sb_config)) s.(sb_id));;
          mret image
      end
  end.

(** Source: src/apps/server/security.py:148-156 [ensure_vnc_password]. *)
Definition ensure_vnc_password (s : Sandbox) : M World string :=
  match dget VNC_PASSWORD s.(sb_config) with
  | Some token => lift_w (E.(e_decrypt) (json_text token))
  | None =>
      exec (λ now, update_sandbox now s.(sb_name) s.(sb_resources)
        (dset VNC_PASSWORD (JStr E.(e_vnc_token)) s.(sb_config)) s.(sb_id));;
      lift_w (E.(e_decrypt) E.(e_vnc_token))
  end.

(** The profile ids of a sandbox's config that still exist. *)
Definition profiles_of (s : Sandbox) : list string :=
  match dget "profiles" s.(sb_config) with
  | Some (JArr l) => filter (λ p, E.(e_profile) p = true) (json_text <$> l)
  | _ => []
  end.

(** What the transaction of a cold boot decides: the secrets to hand over, the
    container's environment, its image, its server and its profiles. *)
Record Plan := mkPlan {
  p_secrets : list (string * string);
  p_env : list (string * string);
  p_image : string;
  p_server : option Server;
  p_profiles : list string
}.

(** The environment of the container: for VMs their secrets, for containers the
    screen password, the guest's settings and the browser's. *)
Definition boot_env (s : Sandbox) (secrets : list (string * string)) (server : option Server) : M World (list (string * string)) :=
  if is_vm_kind s.(sb_kind) then mret secrets
  else
    password ← (if bool_decide (s.(sb_kind) = Code) then mret []
                else p ← ensure_vnc_password s; mret [("ZOO_VNC_PASSWORD", p)]);
    mret (dmerge (dmerge password (E.(e_guest_env) s.(sb_id) (negb (is_none server))))
      (if bool_decide (s.(sb_kind) = Browser)
       then [("ZOO_BROWSER_HOME", E.(e_browser_home)); ("ZOO_BROWSER_WAIT", "1")] else [])).

(** Source: src/apps/server/sandbox_api.py:1223-1249 [SandboxApi.boot].  The
    transaction of a cold boot. *)
Definition boot_plan (s : Sandbox) : M World Plan :=
  session (
    match E.(e_image_version) s.(sb_image_version_id) with
    | None => raise (RuntimeError [Txt "the sandbox's image version is missing"])
    | Some (default_image, uri) =>
        secrets ← (λ w, lift_w (E.(e_secret_env) w.(w_db) s.(sb_id)) w);
        server ← query (server_of s);
        env ← boot_env s secrets server;
        image ← (if is_vm_kind s.(sb_kind) then mret ""
                 else if default_image || bool_decide (s.(sb_kind) = Code) then pin_image s.(sb_id)
                 else mret uri);
        let known := (dmerge secrets env).*2 in
        match dget VNC_PASSWORD s.(sb_config) with
        | Some stored => p ← lift_w (E.(e_decrypt) (json_text stored)); remember_secrets s.(sb_id) (known ++ [p])
        | None => remember_secrets s.(sb_id) known
        end;;
        mret (mkPlan secrets env image server (profiles_of s))
    end).

(** Source: src/apps/server/sandbox_api.py:1465-1476 [SandboxApi.apply_profile]. *)
Definition apply_profile (runtime_id profile : string) : M World unit := invoke (ApplyProfile runtime_id profile).

(** Source: src/apps/server/sandbox_api.py:1288-1303 [SandboxApi.boot_vm]. *)
Definition boot_vm (job : Job) (s : Sandbox) (p : Plan) (admin : bool) : M World unit :=
  match p.(p_server) with
  | None => raise (RuntimeError [Txt (kind_name s.(sb_kind)); Txt " sandboxes need a server"])
  | Some server =>
      invoke (StartVm job.(j_sandbox_id) (admin && bool_decide (s.(sb_kind) = Macos)));;
      runtime_id ← gets (λ w, E.(e_vm) w.(w_log) job.(j_sandbox_id));
      recorded ← record_runtime job runtime_id (E.(e_bind_address) server.(sv_id));
      when recorded (
        session (exec (λ now, set_sandbox_boot now (E.(e_base_of) runtime_id) E.(e_boot_seconds) job.(j_sandbox_id)));;
        for_ p.(p_profiles) (apply_profile runtime_id);;
        mark_started job;; mret tt)
  end.

(** Source: src/apps/server/sandbox_api.py:1253-1273 [SandboxApi.boot].  After the
    transaction, for a container: start or adopt it, record it, hand over the
    secrets and profiles, wait for the desktop, and mark the sandbox started. *)
Definition boot_container (job : Job) (s : Sandbox) (p : Plan) : M World unit :=
  let name := "zoo-sandbox-" +:+ job.(j_sandbox_id) in
  invoke (RunContainer name p.(p_image) p.(p_env));;
  c ← gets (λ w, E.(e_container) w.(w_log) job.(j_sandbox_id));
  emit (BindGuest c.1 job.(j_sandbox_id));;
  recorded ← record_runtime job c.1 c.2;
  when recorded (
    when (negb (bool_decide (p.(p_secrets) = []))) (invoke (WriteSecrets c.1 (dkeys p.(p_secrets))));;
    for_ p.(p_profiles) (apply_profile c.1);;
    up ← gets (λ w, bool_decide (s.(sb_kind) = Code) || E.(e_desktop_up) w.(w_log) job.(j_sandbox_id));
    guard_ up (RuntimeError [Txt "desktop did not come up in time"]);;
    started ← mark_started job;
    match started with
    | Some r => when (bool_decide (r.(sb_kind) = Browser)) (swallow (invoke (StartBrowser c.1)))
    | None => mret tt
    end).

(** Source: src/apps/server/sandbox_api.py:1213-1222 [SandboxApi.boot].  A sandbox
    still frozen in place resumes. *)
Definition boot_resume (job : Job) (s : Sandbox) : M World unit :=
  thaw s;;
  secrets ← session (
    secrets ← (λ w, lift_w (E.(e_secret_env) w.(w_db) s.(sb_id)) w);
    exec (λ now, clear_sandbox_paused now s.(sb_id));;
    mret secrets);
  invoke (WriteSecrets (default "" s.(sb_runtime_id)) (dkeys secrets));;
  booted ← gets w_booted;
  remember_secrets s.(sb_id) (default [] (booted !! s.(sb_id)) ++ secrets.*2);;
  mark_started job;; mret tt.

Definition is_paused (s : Sandbox) : bool := negb (is_none s.(sb_paused_at)).

Definition arg (k : string) (job : Job) : json := default JNull (dget k job.(j_args)).

(** Source: src/apps/server/sandbox_api.py:1203-1273 [SandboxApi.boot]. *)
Definition boot (job : Job) : M World unit :=
  found ← session (query (get_sandbox job.(j_sandbox_id)));
  match found with
  | None => mret tt
  | Some s =>
      if negb (bool_decide (s.(sb_status) = Provisioning)) then mret tt
      else
        s ← (if is_paused s && has_runtime s && truthy (arg "upgrade" job)
             then to_volume s;; mret (sb_set_runtime_id None (sb_set_paused_at None s))
             else mret s);
        if is_paused s && has_runtime s then boot_resume job s
        else
          p ← boot_plan s;
          if is_vm_kind s.(sb_kind) then boot_vm job s p (truthy (default JNull (dget "admin" s.(sb_config))))
          else boot_container job s p
  end.

(** Source: src/apps/server/sandbox_api.py:1347-1361 [SandboxApi.boot_failed]. *)
Definition boot_failed (job : Job) (error : string) : M World unit :=
  found ← session (query (get_sandbox job.(j_sandbox_id)));
  match found with
  | None => mret tt
  | Some s =>
      if negb (bool_decide (s.(sb_status) = Provisioning)) then mret tt
      else
        swallow (remove_runtime s);;
        session (exec (λ now, clear_sandbox_runtime now s.(sb_id));;
                 exec (λ now, set_sandbox_failed now error s.(sb_id)))
  end.

(** Source: src/apps/server/sandbox_api.py:1363-1370 [SandboxApi.lifecycle_failed]. *)
Definition lifecycle_failed (k : job_kind) (job : Job) (error : string) : M World unit :=
  session (
    found ← query (get_sandbox job.(j_sandbox_id));
    match found with
    | None => mret tt
    | Some s =>
        when (negb (bool_decide (s.(sb_status) = Deleted)))
          (exec (λ now, set_sandbox_failed now (job_kind_name k +:+ " failed: " +:+ error) s.(sb_id)))
    end).

(** *** Stopping and deleting *)

(** Source: src/apps/server/sandbox_api.py:1372-1394 [SandboxApi.stop]. *)
Definition stop (job : Job) : M World unit :=
  found ← session (query (get_sandbox job.(j_sandbox_id)));
  match found with
  | None => mret tt
  | Some s =>
      if bool_decide (s.(sb_status) = Deleted) then mret tt
      else
        let restart := truthy (arg "restart" job) in
        if has_runtime s && bool_decide (s.(sb_status) = Running) && negb (is_vm_kind s.(sb_kind)) && negb restart then
          freeze s;;
          session (exec (λ _, set_sandbox_reachable s.(sb_id));; exec (λ now, set_sandbox_paused now s.(sb_id)))
        else
          remove_runtime s;;
          forget_secrets s.(sb_id);;
          session (
            exec (λ now, clear_sandbox_runtime now s.(sb_id));;
            exec (λ _, set_sandbox_reachable s.(sb_id));;
            exec (λ now, set_sandbox_stopped now s.(sb_id));;
            when restart (
              exec (λ now, update_sandbox_status now Provisioning s.(sb_id));;
              id ← uuid;
              enqueue_job id s.(sb_id) KBoot (Some (boot_deadline s.(sb_kind))) []))
  end.

Definition remove_snapshot_row (s : Sandbox) (sn : Snapshot) : M World unit :=
  invoke (RemoveSnapshot s.(sb_id) sn.(sn_id));;
  session (exec (λ _, delete_snapshot sn.(sn_id))).

(** Source: src/apps/server/sandbox_api.py:1396-1414 [SandboxApi.delete]. *)
Definition delete_ (job : Job) : M World unit :=
  found ← session (query (get_sandbox job.(j_sandbox_id)));
  match found with
  | None => mret tt
  | Some s =>
      if bool_decide (s.(sb_status) = Deleted) then mret tt
      else
        remove_runtime s;;
        snapshots ← session (query (list_snapshots_by_sandbox s.(sb_id)));
        for_ snapshots (remove_snapshot_row s);;
        invoke (RemoveVolume s.(sb_id));;
        forget_secrets s.(sb_id);;
        session (exec (λ now, soft_delete_sandbox now s.(sb_id)))
  end.

(** *** Snapshots and moves *)

(** [json.loads(job.args)[k]] as text. *)
Definition arg_text (k : string) (job : Job) : M World string :=
  match dget k job.(j_args) with Some v => mret (json_text v) | None => raise (KeyError k) end.

(** Source: src/apps/server/sandbox_api.py:1422-1431 [SandboxApi.take_snapshot]. *)
Definition take_snapshot (job : Job) : M World unit :=
  snapshot_id ← arg_text "snapshot_id" job;
  found ← session (
    s ← query (get_sandbox job.(j_sandbox_id));
    sn ← query (get_snapshot snapshot_id);
    mret (match s, sn with
          | Some s, Some _ => if bool_decide (s.(sb_status) = Deleted) then None else Some s
          | _, _ => None
          end));
  match found with
  | None => mret tt
  | Some s =>
      invoke (TakeSnapshot s.(sb_id) snapshot_id);;
      size ← gets (λ w, E.(e_snapshot_bytes) w.(w_log) snapshot_id);
      session (exec (λ _, set_snapshot_ready size snapshot_id))
  end.

(** Source: src/apps/server/sandbox_api.py:1433-1435 [SandboxApi.snapshot_failed]. *)
Definition snapshot_failed (job : Job) (error : string) : M World unit :=
  snapshot_id ← arg_text "snapshot_id" job;
  session (exec (λ _, set_snapshot_failed (truncate 500 error) snapshot_id)).

(** Source: src/apps/server/sandbox_api.py:1437-1446 [SandboxApi.restore_job]. *)
Definition restore_job (job : Job) : M World unit :=
  snapshot_id ← arg_text "snapshot_id" job;
  found ← session (
    s ← query (get_sandbox job.(j_sandbox_id));
    sn ← query (get_snapshot snapshot_id);
    mret (match s, sn with
          | Some s, Some _ => if bool_decide (s.(sb_status) = Stopped) then Some s else None
          | _, _ => None
          end));
  match found with
  | None => mret tt
  | Some s =>
      when (is_paused s) (to_volume s);;
      invoke (RestoreSnapshot s.(sb_id) snapshot_id)
  end.

(** Source: src/apps/server/sandbox_api.py:1448-1463 [SandboxApi.move]. *)
Definition move (job : Job) : M World unit :=
  target ← match dget "target" job.(j_args) with Some v => mret v | None => raise (KeyError "target") end;
  found ← session (query (get_sandbox job.(j_sandbox_id)));
  match found with
  | None => mret tt
  | Some s =>
      if bool_decide (s.(sb_status) ∈ [Running; Provisioning; Deleting; Deleted]) then mret tt
      else if negb (is_vm_kind s.(sb_kind)) then
        when (is_paused s) (to_volume s);;
        invoke (MoveVolume s.(sb_id) (json_text target))
      else
        let server_id := match target with JStr t => Some t | _ => None end in
        invoke (MoveVm s.(sb_id) server_id);;
        session (exec (λ now, set_sandbox_placement now server_id s.(sb_kind) s.(sb_id)))
  end.

(** Source: src/apps/server/sandbox_api.py:400-409 [SandboxApi.__init__].  The table
    of handlers, as [register] fills it. *)
Definition sandbox_handlers : Handlers :=
  register KRestore restore_job 2 [15] (Some (lifecycle_failed KRestore)) (
  register KSnapshot take_snapshot 1 [5; 15; 30] (Some snapshot_failed) (
  register KMove move 2 [30] (Some (lifecycle_failed KMove)) (
  register KDelete delete_ 5 [10; 30; 60; 120] (Some (lifecycle_failed KDelete)) (
  register KStop stop 3 [5; 15] (Some (lifecycle_failed KStop)) (
  register KBoot boot 3 [5; 15] (Some boot_failed) (λ _, None)))))).

(** *** Sweeps *)

(** Source: src/apps/server/sandbox_api.py:1194-1199 [SandboxApi.halt].  Its one
    caller has only read in its transaction, so the rollback when the runtime
    cannot be removed undoes nothing: the transaction of the statements is
    written here. *)
Definition halt (s : Sandbox) : M World unit :=
  remove_runtime s;;
  session (
    exec (λ now, clear_sandbox_runtime now s.(sb_id));;
    exec (λ _, set_sandbox_reachable s.(sb_id));;
    exec (λ now, set_sandbox_stopped now s.(sb_id))).

(** Source: src/apps/server/sandbox_api.py:1586-1611 [SandboxApi.expire]. *)
Definition expire_sandboxes : M World unit :=
  done_ ← session (
    now ← now_;
    expired ← query (list_expired_sandboxes now);
    for_ expired (λ row,
      exec (λ now, cancel_sandbox_jobs now row.1.(sb_id));;
      id ← uuid; enqueue_job id row.1.(sb_id) KStop None []);;
    all ← query list_all_sandboxes;
    d ← query id;
    let stranded := filter (λ s, s.(sb_status) = Provisioning ∧ s.(sb_updated_at) < now - sec STRANDED_SECONDS ∧
                                 get_active_job s.(sb_id) d = None) all in
    for_ stranded (λ s, id ← uuid; enqueue_job id s.(sb_id) KBoot (Some (boot_deadline s.(sb_kind))) []);;
    mret (expired, stranded));
  for_ done_.1 (λ row, emit (AuditStop row.1.(sb_id) row.2));;
  when (negb (bool_decide (length done_.1 = 0 ∧ length done_.2 = 0)%nat)) kick.

(** Source: src/apps/server/sandbox_api.py:1692-1700 [SandboxApi.unpause_delete]. *)
Definition unpause_delete (sandbox_id : string) : M World unit :=
  found ← session (
    s ← query (get_sandbox sandbox_id);
    active ← query (get_active_job sandbox_id);
    mret (match s with
          | Some s => if bool_decide (s.(sb_status) = Stopped) && is_paused s && is_none active then Some s else None
          | None => None
          end));
  match found with
  | Some s => to_volume s
  | None => mret tt
  end.

Fixpoint sweep_each (now horizon : time) (pressured : list string) (l : list Sandbox) : M World unit :=
  match l with
  | [] => mret tt
  | s :: l' =>
      let node := E.(e_node_of) s in
      match s.(sb_paused_at) with
      | None => raise AssertionError
      | Some t =>
          if bool_decide (t ≤ horizon) || bool_decide (node ∈ pressured)
          then unpause_delete s.(sb_id);; sweep_each now horizon (filter (λ n, n ≠ node) pressured) l'
          else sweep_each now horizon pressured l'
      end
  end.

(** Source: src/apps/server/sandbox_api.py:1678-1690 [SandboxApi.sweep_paused]. *)
Definition sweep_paused : M World unit :=
  paused ← session (query list_paused_sandboxes);
  match paused with
  | [] => mret tt
  | _ =>
      pressured ← gets (λ w, E.(e_pressured) w.(w_log));
      now ← now_;
      sweep_each now (now - minutes E.(e_pause_minutes)) pressured paused
  end.

(** A state a runtime reports of one of its sandboxes: its id, whether it
    failed, and the error. *)
Record RuntimeState := mkRuntimeState { rs_runtime_id : string; rs_failed : bool; rs_error : option string }.

(** A runtime event: the whole list of running ids, or one runtime. *)
Inductive event_scope := Reconcile (running_ids : list string) | One (runtime_id : string).

(** Source: src/apps/server/sandbox_api.py:1726-1737 [SandboxApi.runtime_event].
    One sandbox of its loop. *)
Definition settle_runtime (states : list RuntimeState) (event : RuntimeState) (s : Sandbox) : M World (list string) :=
  active ← query (get_active_job s.(sb_id));
  if negb (bool_decide (s.(sb_status) = Running)) || negb (is_none active) then mret []
  else
    let state := default event (last (filter (λ r, Some r.(rs_runtime_id) = s.(sb_runtime_id)) states)) in
    exec (λ now, clear_sandbox_runtime now s.(sb_id));;
    exec (λ _, set_sandbox_reachable s.(sb_id));;
    (if state.(rs_failed)
     then exec (λ now, set_sandbox_failed now (default "sandbox runtime failed" (str_or_none state.(rs_error))) s.(sb_id))
     else exec (λ now, set_sandbox_stopped now s.(sb_id)));;
    mret (match str_or_none s.(sb_runtime_id) with Some r => [r] | None => [] end).

Fixpoint settle_runtimes (states : list RuntimeState) (event : RuntimeState) (l : list Sandbox) : M World (list string) :=
  match l with
  | [] => mret []
  | s :: l' => c ← settle_runtime states event s; rest ← settle_runtimes states event l'; mret (c ++ rest)
  end.

(** [row.runtime_id not in running]. *)
Definition gone (running : list string) (s : Sandbox) : bool :=
  match s.(sb_runtime_id) with Some r => negb (bool_decide (r ∈ running)) | None => true end.

(** Source: src/apps/server/sandbox_api.py:1712-1742 [SandboxApi.runtime_event]. *)
Definition runtime_event (scope : event_scope) (states : list RuntimeState) (event : RuntimeState) : M World unit :=
  cleanup ← session (
    rows ← query (λ d, match scope with
      | Reconcile running =>
          filter (λ s, is_vm_kind s.(sb_kind) = false ∧ on_server s = false ∧ gone running s = true) (list_all_sandboxes d)
      | One r => match get_sandbox_by_runtime_id r d with Some s => [s] | None => [] end
      end);
    settle_runtimes states event rows);
  for_ cleanup (λ r, swallow (remove_container r)).

(** Source: src/apps/server/sandbox_api.py:1506-1531 [SandboxApi.reconcile].  One
    sandbox of its loop. *)
Definition reconcile_one (server_id : option string) (s : Sandbox) : M World unit :=
  if (negb (is_vm_kind s.(sb_kind)) && negb (on_server s))
     || match server_id with Some i => negb (bool_decide (s.(sb_server_id) = Some i)) | None => false end
     || negb (bool_decide (s.(sb_status) = Running)) then mret tt
  else
    alive ← gets (λ w, match str_or_none s.(sb_runtime_id) with
      | None => Some false
      | Some r => match E.(e_running) w.(w_log) r with Ok b => Some b | Err _ => None end
      end);
    hung ← gets (λ w, is_vm_kind s.(sb_kind) && match alive with Some true => E.(e_hung) w.(w_log) s.(sb_id) | _ => false end);
    modify E.(e_yield);;
    dead ← session (
      current ← query (get_sandbox s.(sb_id));
      match current with
      | None => raise (RuntimeError [Txt "the sandbox is gone"])
      | Some current =>
          if negb (bool_decide (current.(sb_status) = Running)) || negb (bool_decide (current.(sb_runtime_id) = s.(sb_runtime_id)))
          then mret None
          else
            active ← query (get_active_job s.(sb_id));
            match alive with
            | None => exec (λ now, set_sandbox_unreachable now s.(sb_id));; mret None
            | Some true =>
                exec (λ _, set_sandbox_reachable s.(sb_id));;
                when (hung && is_none active) (
                  exec (λ now, set_sandbox_recovered now s.(sb_id));;
                  id ← uuid; enqueue_job id s.(sb_id) KStop None [("restart", JBool true)]);;
                mret None
            | Some false => mret (if is_none active then Some current else None)
            end
      end);
    match dead with Some current => halt current | None => mret tt end.

(** Source: src/apps/server/sandbox_api.py:1488-1531 [SandboxApi.reconcile]. *)
Definition reconcile (startup : bool) (server_id : option string) : M World unit :=
  sandboxes ← session (
    all ← query list_all_sandboxes;
    d ← query id;
    let idle := filter (λ s, get_active_job s.(sb_id) d = None) all in
    when startup (for_ idle (λ s,
      if bool_decide (s.(sb_status) = Provisioning) then
        id ← uuid; enqueue_job id s.(sb_id) KBoot (Some (boot_deadline s.(sb_kind))) []
      else if bool_decide (s.(sb_status) = Deleting) then
        id ← uuid; enqueue_job id s.(sb_id) KDelete None []
      else mret tt));;
    mret idle);
  when startup kick;;
  for_ sandboxes (reconcile_one server_id).
End lifecycle.

(** ** The contract of the queue

    What other threads and processes do while a call is out never runs,
    requeues or reports this worker's jobs: with that, the handlers registered
    above meet what the queue asks of them ([HandlersOk]), so every theorem of
    the queue holds of it with these handlers. *)

Definition quiet_queue (E : Env) : Prop := ∀ w, same_queue w (E.(e_yield) w).

(** Nothing else happens while a call is out. *)
Definition quiet (E : Env) : Prop := ∀ w, E.(e_yield) w = w.

Definition reports (e : effect) : bool := match e with GiveUp _ _ => true | _ => false end.

Lemma same_queue_emit w e : reports e = false → same_queue w (put_log (w.(w_log) ++ [e]) w).
Proof.
  intros He. split_and!; [done..|]. intros id. simpl. rewrite give_ups_app.
  unfold give_ups at 2. rewrite filter_cons_False by (by destruct e; auto). simpl. lia.
Qed.

Section queue_contract.
Context (E : Env) (HE : quiet_queue E) (w0 : World).

Abbreviation keeps := (preserves (same_queue w0)).

Lemma keeps_invoke e : reports e = false → keeps (invoke E e).
Proof.
  intros He w Hw. unfold invoke. destruct (E.(e_call) _ _); simpl; (eapply same_queue_trans; [exact Hw|]).
  - eapply same_queue_trans; [by apply same_queue_emit|apply HE].
  - apply HE.
Qed.

Lemma keeps_sandbox f id : keeps (exec (λ now, upd_sandbox id (f now))).
Proof. by intros w Hw. Qed.

Lemma keeps_query {A} (f : Db → A) : keeps (query f).
Proof. by intros w Hw. Qed.

Lemma keeps_session {A} (m : M World A) : keeps m → keeps (session m).
Proof.
  intros Hm w Hw. specialize (Hm w Hw). unfold session, transaction. destruct (m w) as [[a|e] w']; simpl in *; [done|].
  destruct Hw as (Hj & _), Hm as (_ & Hl & Hg). by split_and!.
Qed.

Lemma keeps_remove_runtime s : keeps (remove_runtime E s).
Proof. unfold remove_runtime. case_match; [by apply keeps_invoke|apply preserves_ret]. Qed.

Lemma keeps_swallow m : keeps m → keeps (swallow m).
Proof. intros Hm. apply preserves_try; [done|]. intros e. apply preserves_ret. Qed.

Lemma keeps_boot_failed job error : keeps (boot_failed E job error).
Proof.
  apply preserves_bind; [apply keeps_session, keeps_query|]. intros found. case_match; [|apply preserves_ret].
  case_match; [apply preserves_ret|]. apply preserves_bind; [apply keeps_swallow, keeps_remove_runtime|]. intros _.
  apply keeps_session, preserves_bind; [|intros _]; apply (keeps_sandbox (λ now r, _)).
Qed.

Lemma keeps_lifecycle_failed k job error : keeps (lifecycle_failed k job error).
Proof.
  apply keeps_session, preserves_bind; [apply keeps_query|]. intros found. case_match; [|apply preserves_ret].
  apply preserves_when, (keeps_sandbox (λ now r, _)).
Qed.

Lemma keeps_snapshot_failed job error : keeps (snapshot_failed job error).
Proof.
  apply preserves_bind; [|intros id; apply keeps_session; by intros w Hw].
  unfold arg_text. case_match; [apply preserves_ret|apply preserves_raise].
Qed.
End queue_contract.

(** The handler of each kind of job. *)
Definition run_of (E : Env) (k : job_kind) : Job → M World unit :=
  match k with
  | KBoot => boot E | KStop => stop E | KDelete => delete_ E | KMove => move E
  | KSnapshot => take_snapshot E | KRestore => restore_job E
  end.

Definition failed_of (E : Env) (k : job_kind) : Job → string → M World unit :=
  match k with KBoot => boot_failed E | KSnapshot => snapshot_failed | _ => lifecycle_failed k end.

Lemma sandbox_handlers_at E k :
  sandbox_handlers E k = Some (mkHandler (run_of E k) (attempts_of k) (backoff_of k) (Some (failed_of E k))).
Proof. by destruct k. Qed.

Lemma sandbox_handlers_contract E : quiet_queue E → HandlersOk (sandbox_handlers E).
Proof.
  intros HE. split; [intros k; rewrite sandbox_handlers_at; eauto|..]; intros k h; rewrite sandbox_handlers_at.
  - intros [= <-]. by destruct k.
  - intros [= <-]. by destruct k.
  - intros f job error w [= <-] [= <-].
    destruct k; [apply keeps_boot_failed|apply keeps_lifecycle_failed..|apply keeps_snapshot_failed|apply keeps_lifecycle_failed];
      auto using same_queue_refl.
Qed.

Lemma enqueue_job_handlers E id sb k deadline args w :
  enqueue_job id sb k deadline args w = enqueue (sandbox_handlers E) id sb k deadline args w.
Proof. unfold enqueue_job, enqueue, handler_of. rewrite sandbox_handlers_at. run. done. Qed.

(** ** Calls and rows *)

Section calls.
Context (E : Env).

Lemma invoke_cases e w :
  (invoke E e w = (Ok tt, E.(e_yield) (put_log (w.(w_log) ++ [e]) w)) ∧ ∃ u, E.(e_call) w.(w_log) e = Ok u) ∨
  (∃ x, invoke E e w = (Err x, E.(e_yield) w) ∧ E.(e_call) w.(w_log) e = Err x).
Proof. unfold invoke. destruct (E.(e_call) _ _) as [u|x]; [left|right]; eauto. Qed.

Lemma run_session_query {A B} (f : Db → A) (k : A → M World B) w : (session (query f) ≫= k) w = k (f w.(w_db)) w.
Proof. done. Qed.
End calls.

#[export] Hint Rewrite @run_session_query : run.

(** What a statement on one sandbox's row does to a row. *)
Lemma lookup_upd_sandbox i id f d :
  (upd_sandbox id f d).(sandboxes) !! i = if decide (i = id) then f <$> d.(sandboxes) !! i else d.(sandboxes) !! i.
Proof. unfold upd_sandbox. simpl. rewrite lookup_alter. repeat case_decide; naive_solver. Qed.

(** The rows are stored under their ids. *)
Definition keyed (d : Db) : Prop :=
  (∀ i s, d.(sandboxes) !! i = Some s → s.(sb_id) = i) ∧ (∀ i s, d.(snapshots) !! i = Some s → s.(sn_id) = i).

(** Swallowing what a call raises: the log and what happened meanwhile. *)
Lemma swallow_ok m w : ∃ w', swallow m w = (Ok tt, w') ∧ w' = (m w).2.
Proof. unfold swallow, try_. destruct (m w) as [[[]|e] w']; by eexists. Qed.

(** *** A deleted sandbox is left alone *)

Definition deleted (id : string) (w : World) : Prop :=
  ∃ s, w.(w_db).(sandboxes) !! id = Some s ∧ s.(sb_status) = Deleted.

(** The arguments each kind of job is enqueued with. *)
Definition args_ok (job : Job) : Prop :=
  match job.(j_kind) with
  | KMove => is_Some (dget "target" job.(j_args))
  | KSnapshot | KRestore => is_Some (dget "snapshot_id" job.(j_args))
  | _ => True
  end.

Lemma arg_text_ok k job w v : dget k job.(j_args) = Some v → arg_text k job w = (Ok (json_text v), w).
Proof. unfold arg_text. by intros ->. Qed.

Lemma handler_on_deleted E job w :
  args_ok job → deleted job.(j_sandbox_id) w → run_of E job.(j_kind) job w = (Ok tt, w).
Proof.
  unfold args_ok. intros Ha (s & Hs & Hd). destruct job.(j_kind) eqn:Hk; simpl.
  - unfold boot, get_sandbox. run. rewrite Hs, Hd. done.
  - unfold stop, get_sandbox. run. rewrite Hs, Hd. done.
  - unfold delete_, get_sandbox. run. rewrite Hs, Hd. done.
  - destruct Ha as [v Hv]. unfold move, get_sandbox. rewrite Hv. run. rewrite Hs, Hd. done.
  - destruct Ha as [v Hv]. unfold take_snapshot. rewrite (bind_ok _ _ _ _ _ (arg_text_ok _ _ _ _ Hv)).
    unfold session, transaction, get_sandbox, mbind, M_bind, query, gets. simpl. rewrite Hs.
    destruct (get_snapshot _ _); [|done]. by rewrite bool_decide_true.
  - destruct Ha as [v Hv]. unfold restore_job. rewrite (bind_ok _ _ _ _ _ (arg_text_ok _ _ _ _ Hv)).
    unfold session, transaction, get_sandbox, mbind, M_bind, query, gets. simpl. rewrite Hs.
    destruct (get_snapshot _ _); [|done]. by rewrite bool_decide_false by congruence.
Qed.

Lemma failure_on_deleted E job error w :
  job.(j_kind) ≠ KSnapshot → deleted job.(j_sandbox_id) w → failed_of E job.(j_kind) job error w = (Ok tt, w).
Proof.
  intros Hk (s & Hs & Hd).
  assert (∀ k, lifecycle_failed k job error w = (Ok tt, w)) as Hl.
  { intros k. unfold lifecycle_failed. apply session_ok. unfold get_sandbox. run. by rewrite Hs, Hd. }
  destruct job.(j_kind); simpl; try done. unfold boot_failed, get_sandbox. run. rewrite Hs, Hd. done.
Qed.

(** *** Deleting *)

Section deleting.
Context (E : Env) (HE : quiet E).

Lemma quiet_invoke_cases e w :
  invoke E e w = (Ok tt, put_log (w.(w_log) ++ [e]) w) ∨ ∃ x, invoke E e w = (Err x, w).
Proof. destruct (invoke_cases E e w) as [[-> _]|(x & -> & _)]; rewrite HE; eauto. Qed.

(** The world once the snapshots of [l] are removed, from the runtime and from
    the table. *)
Definition unsnapshot (id : string) (l : list Snapshot) (w : World) : World :=
  put_log (w.(w_log) ++ ((λ sn, RemoveSnapshot id sn.(sn_id)) <$> l))
    (put_db (set_snapshots (foldl (λ m sn, delete sn.(sn_id) m) w.(w_db).(snapshots) l) w.(w_db)) w).

Lemma unsnapshot_cons id sn l w : unsnapshot id (sn :: l) w = unsnapshot id l (unsnapshot id [sn] w).
Proof. unfold unsnapshot. simpl. by rewrite <- app_assoc. Qed.

Lemma remove_snapshots_cases s l w :
  ∃ gone rest r, l = gone ++ rest ∧ for_ l (remove_snapshot_row E s) w = (r, unsnapshot s.(sb_id) gone w) ∧
    (is_ok r = true → rest = []).
Proof.
  assert (∀ w, unsnapshot s.(sb_id) [] w = w) as Hnil.
  { intros [[] ???? lg]. unfold unsnapshot. simpl. by rewrite app_nil_r. }
  revert w. induction l as [|sn l IH]; intros w; simpl.
  - exists [], [], (Ok tt). by rewrite Hnil.
  - destruct (quiet_invoke_cases (RemoveSnapshot s.(sb_id) sn.(sn_id)) w) as [H|[x H]].
    + rewrite (bind_ok (remove_snapshot_row E s sn) _ _ tt (unsnapshot s.(sb_id) [sn] w))
        by (unfold remove_snapshot_row; by rewrite (bind_ok _ _ _ _ _ H)).
      destruct (IH (unsnapshot s.(sb_id) [sn] w)) as (gone & rest & r & -> & -> & Hr).
      exists (sn :: gone), rest, r. split_and!; [done| |done]. by rewrite (unsnapshot_cons _ sn gone).
    + rewrite (bind_err (remove_snapshot_row E s sn) _ _ x w)
        by (unfold remove_snapshot_row; by rewrite (bind_err _ _ _ _ _ H)).
      exists [], (sn :: l), (Err x). by rewrite Hnil.
Qed.

Lemma lookup_unsnapshots (l : list Snapshot) (m : gmap string Snapshot) i :
  foldl (λ m sn, delete sn.(sn_id) m) m l !! i = if decide (i ∈ sn_id <$> l) then None else m !! i.
Proof.
  revert m. induction l as [|sn l IH]; intros m; 
    [by rewrite decide_False by (by intros ?%not_elem_of_nil)|].
  change (foldl (λ m sn, delete sn.(sn_id) m) (delete sn.(sn_id) m) l !! i = if decide (i ∈ sn.(sn_id) :: (sn_id <$> l)) then None else m !! i).
  rewrite IH. destruct (decide (i ∈ sn_id <$> l)); [by rewrite decide_True by (by right)|].
  destruct (decide (i = sn.(sn_id))) as [->|].
  - rewrite lookup_delete_eq, decide_True; [done|by left].
  - rewrite lookup_delete_ne, decide_False; [done|set_solver|done].
Qed.

Lemma elem_of_list_snapshots sandbox_id d sn :
  sn ∈ list_snapshots_by_sandbox sandbox_id d ↔ sn.(sn_sandbox_id) = sandbox_id ∧ ∃ i, d.(snapshots) !! i = Some sn.
Proof.
  unfold list_snapshots_by_sandbox. rewrite elem_of_reverse.
  by rewrite elem_of_order_by, list_elem_of_filter, elem_of_rows.
Qed.

(** Removing the runtime of a sandbox, when it has one. *)
Definition removal (s : Sandbox) : list effect :=
  match str_or_none s.(sb_runtime_id) with Some r => [RemoveContainer r] | None => [] end.

Lemma remove_runtime_cases s w :
  remove_runtime E s w = (Ok tt, put_log (w.(w_log) ++ removal s) w) ∨ ∃ x, remove_runtime E s w = (Err x, w).
Proof.
  unfold remove_runtime, removal. case_match; [apply quiet_invoke_cases|]. left. run.
  destruct w. simpl. by rewrite app_nil_r.
Qed.

(** What deleting leaves: the row of a deleted sandbox, and none of its
    snapshots. *)
Definition deleted_row (now : time) (s : Sandbox) : Sandbox :=
  sb_set_status Deleted (sb_set_deleted_at (Some now) (sb_set_updated_at now s)).

Lemma delete_cases job s w :
  keyed w.(w_db) → w.(w_db).(sandboxes) !! job.(j_sandbox_id) = Some s → s.(sb_status) ≠ Deleted →
  let w' := (delete_ E job w).2 in
  match (delete_ E job w).1 with
  | Ok _ =>
      w'.(w_db).(sandboxes) = <[s.(sb_id) := deleted_row w.(w_clock) s]> w.(w_db).(sandboxes) ∧
      list_snapshots_by_sandbox s.(sb_id) w'.(w_db) = [] ∧
      w'.(w_log) = w.(w_log) ++ removal s ++
        ((λ sn, RemoveSnapshot s.(sb_id) sn.(sn_id)) <$> list_snapshots_by_sandbox s.(sb_id) w.(w_db)) ++ [RemoveVolume s.(sb_id)]
  | Err _ => w'.(w_db).(sandboxes) = w.(w_db).(sandboxes)
  end ∧
  (∀ i sn, w.(w_db).(snapshots) !! i = Some sn → w'.(w_db).(snapshots) !! i = Some sn ∨
     (sn.(sn_sandbox_id) = s.(sb_id) ∧ RemoveSnapshot s.(sb_id) i ∈ w'.(w_log))).
Proof.
  intros [Hid Hsn] Hs Hd w'. subst w'. unfold delete_, get_sandbox. run. rewrite Hs, (bool_decide_false _ Hd).
  destruct (remove_runtime_cases s w) as [H|[x H]]; [rewrite (bind_ok _ _ _ _ _ H)|rewrite (bind_err _ _ _ _ _ H); simpl; eauto].
  run. set (w1 := put_log _ w).
  destruct (remove_snapshots_cases s (list_snapshots_by_sandbox s.(sb_id) w1.(w_db)) w1) as (gone_ & rest & r & Hl & H1 & Hr).
  set (w2 := unsnapshot s.(sb_id) gone_ w1) in *.
  assert (∀ i sn, w.(w_db).(snapshots) !! i = Some sn → w2.(w_db).(snapshots) !! i = Some sn ∨
     (sn.(sn_sandbox_id) = s.(sb_id) ∧ RemoveSnapshot s.(sb_id) i ∈ w2.(w_log))) as Hleft.
  { intros i sn Hi. subst w2. simpl. rewrite lookup_unsnapshots. case_decide as Hg; [right|by left].
    apply list_elem_of_fmap in Hg as (sn' & -> & Hin).
    assert (sn' ∈ list_snapshots_by_sandbox s.(sb_id) w1.(w_db)) as Hin' by (rewrite Hl; set_solver).
    apply elem_of_list_snapshots in Hin' as (Hs' & i' & Hi'). pose proof (Hsn _ _ Hi') as <-.
    simpl in Hi'. rewrite Hi in Hi'. simplify_eq. split; [done|].
    apply elem_of_app. right. apply list_elem_of_fmap. eauto. }
  destruct r as [[]|x]; [|rewrite (bind_err _ _ _ _ _ H1); simpl; auto].
  rewrite (bind_ok _ _ _ _ _ H1), (Hr eq_refl), app_nil_r in *. run.
  destruct (quiet_invoke_cases (RemoveVolume s.(sb_id)) w2) as [H2|[x H2]];
    [rewrite (bind_ok _ _ _ _ _ H2)|rewrite (bind_err _ _ _ _ _ H2); simpl; auto].
  unfold forget_secrets. run. simpl. split; [split_and!|].
  - apply map_eq. intros i. rewrite lookup_alter, lookup_insert. rewrite (Hid _ _ Hs), Hs. repeat case_decide; naive_solver.
  - destruct (list_snapshots_by_sandbox _ _) as [|sn l] eqn:E1 in |- *; [done|]. exfalso.
    assert (sn ∈ sn :: l) as Hin by left. rewrite <- E1 in Hin. apply elem_of_list_snapshots in Hin as (Hs' & i & Hi).
    simpl in Hi. rewrite lookup_unsnapshots in Hi. case_decide as Hg; [done|]. apply Hg.
    pose proof (Hsn _ _ Hi) as <-. apply list_elem_of_fmap. exists sn. split; [done|]. rewrite <- Hl.
    apply elem_of_list_snapshots. eauto.
  - rewrite <- Hl. by rewrite <- !app_assoc.
  - intros i sn Hi. destruct (Hleft _ _ Hi) as [?|[??]]; [by left|right]. split; [done|]. set_solver.
Qed.
End deleting.

(** *** Booting: a running sandbox has a runtime *)

(** [still_booting] as a condition of the world. *)
Definition booting (job : Job) (w : World) : bool :=
  match w.(w_db).(sandboxes) !! job.(j_sandbox_id) with
  | Some s => bool_decide (s.(sb_status) = Provisioning) &&
              match w.(w_db).(jobs) !! job.(j_id) with Some j => is_state JRunning j | None => false end
  | None => false
  end.

Lemma still_booting_run job w :
  still_booting job w = (Ok (if booting job w then w.(w_db).(sandboxes) !! job.(j_sandbox_id) else None), w).
Proof.
  unfold still_booting, owns, booting, get_sandbox, get_job. run.
  destruct (_ !! job.(j_sandbox_id)); [|done]. by destruct (_ && _).
Qed.

(** What [record_runtime] does: record the runtime while the job still boots
    the sandbox, remove it otherwise. *)
Lemma record_runtime_cases E job r host w :
  keyed w.(w_db) →
  record_runtime E job r host w =
    if booting job w then (Ok true, put_db (update_sandbox_runtime w.(w_clock) (Some r) host job.(j_sandbox_id) w.(w_db)) w)
    else match remove_container E r w with (Ok _, w') => (Ok false, w') | (Err e, w') => (Err e, w') end.
Proof.
  intros [Hid _]. unfold record_runtime.
  assert ((found ← still_booting job;
    match found with
    | Some s => exec (λ now, update_sandbox_runtime now (Some r) host s.(sb_id));; mret true
    | None => mret false
    end) w = (Ok (booting job w), if booting job w then
       put_db (update_sandbox_runtime w.(w_clock) (Some r) host job.(j_sandbox_id) w.(w_db)) w else w)) as H.
  { rewrite (bind_ok _ _ _ _ _ (still_booting_run job w)). destruct (booting job w) eqn:Eb; [|done].
    unfold booting in Eb. destruct (_ !! job.(j_sandbox_id)) as [s|] eqn:Es; [|done]. run. by rewrite (Hid _ _ Es). }
  rewrite (bind_ok _ _ _ _ _ (proj2 (session_ok _ _ _ _) H)). destruct (booting job w); [done|].
  unfold mbind, M_bind. by destruct (remove_container E r w) as [[[]|e] w'].
Qed.

(** A property of the database only. *)
Definition of_db (I : World → Prop) : Prop := ∀ w w', w'.(w_db) = w.(w_db) → I w → I w'.

Lemma preserves_session {A} (I : World → Prop) (m : M World A) : of_db I → preserves I m → preserves I (session m).
Proof.
  intros HI Hm w Hw. specialize (Hm w Hw). unfold session, transaction. destruct (m w) as [[a|e] w']; simpl in *; [done|].
  by apply (HI w).
Qed.

Lemma preserves_query {A} (I : World → Prop) (f : Db → A) : preserves I (query f).
Proof. by intros w Hw. Qed.

Lemma preserves_swallow (I : World → Prop) m : preserves I m → preserves I (swallow m).
Proof. intros Hm. apply preserves_try; [done|]. intros e. apply preserves_ret. Qed.

Section boot_runtime.
Context (E : Env) (job : Job).

(** The job's sandbox, when its row says running, has a runtime. *)
Definition running_ok (w : World) : Prop :=
  keyed w.(w_db) ∧
  ∀ s, w.(w_db).(sandboxes) !! job.(j_sandbox_id) = Some s → s.(sb_status) = Running → has_runtime s = true.

(** The job has recorded a runtime, if it still boots the sandbox. *)
Definition recorded_ok (w : World) : Prop :=
  running_ok w ∧
  ∀ s, w.(w_db).(sandboxes) !! job.(j_sandbox_id) = Some s → booting job w = true → has_runtime s = true.

Definition not_running (w : World) : Prop :=
  keyed w.(w_db) ∧ ∀ s, w.(w_db).(sandboxes) !! job.(j_sandbox_id) = Some s → s.(sb_status) ≠ Running.

(** What the job relies on of the other threads and processes: none of them
    says a sandbox without a runtime runs, none takes the runtime from a
    sandbox this job boots, and none starts it in its place. *)
Definition boot_rely : Prop :=
  (∀ w, running_ok w → running_ok (E.(e_yield) w)) ∧ (∀ w, recorded_ok w → recorded_ok (E.(e_yield) w)) ∧
  (∀ w, not_running w → not_running (E.(e_yield) w)).

Context (HR : boot_rely) (Hc : ∀ l i, (E.(e_container) l i).1 ≠ "") (Hv : ∀ l i, E.(e_vm) l i ≠ "").

(** A statement on a row that keeps its id, status and runtime. *)
Definition harmless (f : Sandbox → Sandbox) : Prop :=
  ∀ r, (f r).(sb_id) = r.(sb_id) ∧ (f r).(sb_status) = r.(sb_status) ∧ (f r).(sb_runtime_id) = r.(sb_runtime_id).

Lemma keyed_upd id f d : (∀ r, (f r).(sb_id) = r.(sb_id)) → keyed d → keyed (upd_sandbox id f d).
Proof.
  intros Hf [H1 H2]. split; [|done]. intros i s. rewrite lookup_upd_sandbox. case_decide; [|apply H1].
  destruct (_ !! i) as [r|] eqn:Er; intros [= <-]. rewrite Hf. by apply H1.
Qed.

Lemma has_runtime_eq r r' : r'.(sb_runtime_id) = r.(sb_runtime_id) → has_runtime r' = has_runtime r.
Proof. unfold has_runtime, no_runtime. by intros ->. Qed.

Lemma running_ok_harmless id f w :
  harmless f → running_ok w → running_ok (put_db (upd_sandbox id f w.(w_db)) w).
Proof.
  intros Hf [Hk H]. split; [apply keyed_upd; [intros r; apply Hf|done]|]. intros s. cbn [w_db put_db]. rewrite lookup_upd_sandbox.
  case_decide; [|apply H]. destruct (_ !! _) as [r|] eqn:Er; intros [= <-].
  destruct (Hf r) as (_ & -> & Hr). rewrite (has_runtime_eq _ _ Hr). by apply H.
Qed.

Lemma booting_harmless id f w :
  harmless f → booting job (put_db (upd_sandbox id f w.(w_db)) w) = booting job w.
Proof.
  intros Hf. unfold booting. cbn [w_db put_db]. rewrite lookup_upd_sandbox. case_decide; [|done].
  destruct (_ !! _) as [r|]; [|done]. simpl. by destruct (Hf r) as (_ & -> & _).
Qed.

Lemma recorded_ok_harmless id f w :
  harmless f → recorded_ok w → recorded_ok (put_db (upd_sandbox id f w.(w_db)) w).
Proof.
  intros Hf [H1 H2]. split; [by apply running_ok_harmless|]. intros s. rewrite booting_harmless by done.
  cbn [w_db put_db]. rewrite lookup_upd_sandbox. case_decide; [|apply H2].
  destruct (_ !! _) as [r|] eqn:Er; intros [= <-]. rewrite (has_runtime_eq r) by apply Hf. by apply H2.
Qed.

Lemma running_of_db : of_db running_ok.
Proof. intros w w' Hw. unfold running_ok. by rewrite Hw. Qed.

Lemma recorded_of_db : of_db recorded_ok.
Proof. intros w w' Hw. unfold recorded_ok, running_ok, booting. by rewrite Hw. Qed.

Lemma running_invoke e : preserves running_ok (invoke E e).
Proof.
  intros w Hw. unfold invoke. destruct (E.(e_call) _ _); simpl; apply (proj1 HR); [by apply (running_of_db w)|done].
Qed.

Lemma recorded_invoke e : preserves recorded_ok (invoke E e).
Proof.
  intros w Hw. unfold invoke. destruct (E.(e_call) _ _); simpl; apply (proj1 (proj2 HR)); [by apply (recorded_of_db w)|done].
Qed.

Lemma running_exec id f : (∀ now, harmless (f now)) → preserves running_ok (exec (λ now, upd_sandbox id (f now))).
Proof. intros Hf w Hw. by apply running_ok_harmless. Qed.

Lemma recorded_exec id f : (∀ now, harmless (f now)) → preserves recorded_ok (exec (λ now, upd_sandbox id (f now))).
Proof. intros Hf w Hw. by apply recorded_ok_harmless. Qed.

(** Whatever keeps the second keeps the first from a world with the second. *)
Lemma recorded_running {A} (m : M World A) w : preserves recorded_ok m → recorded_ok w → running_ok (m w).2.
Proof. intros Hm Hw. by destruct (Hm w Hw). Qed.

Lemma running_lift {A} (r : result exn A) : preserves running_ok (lift_w r).
Proof. destruct r; [apply preserves_ret|apply preserves_raise]. Qed.

(** Marking the sandbox started: before it, the runtime is recorded. *)
Lemma running_after_started id w :
  recorded_ok w → booting job w = true → id = job.(j_sandbox_id) →
  recorded_ok (put_db (set_sandbox_started w.(w_clock) id w.(w_db)) w).
Proof.
  intros [[Hk H1] H2] Hb ->. unfold set_sandbox_started. split; [split|].
  - by apply keyed_upd.
  - intros s. cbn [w_db put_db]. rewrite lookup_upd_sandbox, decide_True by done.
    destruct (_ !! _) as [r|] eqn:Er; intros [= <-] _. by apply (H2 r).
  - intros s _. unfold booting. cbn [w_db put_db]. rewrite lookup_upd_sandbox, decide_True by done.
    destruct (_ !! _) as [r|]; [|done]. done.
Qed.

Lemma recorded_bind_vm id : preserves recorded_ok (bind_vm E id).
Proof.
  unfold bind_vm. apply preserves_bind; [apply preserves_session; [apply recorded_of_db|apply preserves_query]|].
  intros found. case_match; [|apply preserves_ret]. case_match; [|apply preserves_ret].
  repeat (case_match; [apply preserves_ret|]). apply preserves_bind; [apply recorded_invoke|]. intros _.
  apply preserves_session; [apply recorded_of_db|]. by apply recorded_exec.
Qed.

Lemma recorded_mark_started : preserves recorded_ok (mark_started E job).
Proof.
  unfold mark_started. apply preserves_bind.
  - apply preserves_session; [apply recorded_of_db|]. intros w Hw.
    rewrite (bind_ok _ _ _ _ _ (still_booting_run job w)). destruct (booting job w) eqn:Eb; [|done].
    case_match; [|done]. run. pose proof (running_after_started _ w Hw Eb eq_refl) as Hw1.
    set (w1 := put_db _ w) in *. case_match; [|done]. clearbody w1. clear H0. revert w1 Hw1.
    change (∀ w1, recorded_ok w1 → recorded_ok ((exec (λ _, set_sandbox_reachable s0.(sb_id));; swallow (enforce E s0);;
      mret (Some s0)) w1).2).
    apply preserves_bind; [by apply recorded_exec|intros _]. apply preserves_bind; [|intros _; apply preserves_ret].
    apply preserves_swallow. unfold enforce. case_match; [apply recorded_invoke|apply preserves_ret].
  - intros started. case_match; [|apply preserves_ret]. apply preserves_bind; [|intros _; apply preserves_ret].
    apply preserves_when, preserves_swallow, recorded_bind_vm.
Qed.

Lemma recorded_record_runtime r host w :
  r ≠ "" → running_ok w →
  running_ok (record_runtime E job r host w).2 ∧
  ((record_runtime E job r host w).1 = Ok true → recorded_ok (record_runtime E job r host w).2).
Proof.
  intros Hr Hw. rewrite record_runtime_cases by apply Hw. destruct (booting job w) eqn:Eb; simpl.
  - assert (recorded_ok (put_db (update_sandbox_runtime w.(w_clock) (Some r) host job.(j_sandbox_id) w.(w_db)) w)) as H;
      [|by split; [apply H|]].
    unfold update_sandbox_runtime.
    assert (∀ s, (upd_sandbox job.(j_sandbox_id) (λ r0, sb_set_runtime_id (Some r) (sb_set_runtime_host host
      (sb_set_updated_at w.(w_clock) r0))) w.(w_db)).(sandboxes) !! job.(j_sandbox_id) = Some s → has_runtime s = true) as Hs.
    { intros s. rewrite lookup_upd_sandbox, decide_True by done. destruct (_ !! _); intros [= <-].
      unfold has_runtime, no_runtime. simpl. by destruct r. }
    split; [split|]; [by apply keyed_upd; [|apply Hw]|intros s H _; by apply Hs|intros s H _; by apply Hs].
  - pose proof (running_invoke (RemoveContainer r) w Hw). unfold remove_container.
    by destruct (invoke E _ w) as [[]].
Qed.

Lemma running_modify_secrets f : (∀ w, (f w).(w_db) = w.(w_db)) → preserves running_ok (modify f).
Proof. intros Hf w Hw. apply (running_of_db w); [apply Hf|done]. Qed.

Lemma running_pin_image id : preserves running_ok (pin_image E id).
Proof.
  unfold pin_image. apply preserves_bind; [apply preserves_query|]. intros found. case_match; [|apply preserves_raise].
  case_match; [apply preserves_ret|]. apply preserves_bind; [by apply running_exec|intros _; apply preserves_ret].
Qed.

Lemma running_boot_plan s : preserves running_ok (boot_plan E s).
Proof.
  unfold boot_plan. apply preserves_session; [apply running_of_db|]. case_match; [|apply preserves_raise].
  destruct p as [default_image uri]. apply preserves_bind; [intros w; apply running_lift|]. intros secrets.
  apply preserves_bind; [apply preserves_query|]. intros server. apply preserves_bind.
  { unfold boot_env. case_match; [apply preserves_ret|]. apply preserves_bind; [|intros ?; apply preserves_ret].
    case_match; [apply preserves_ret|]. apply preserves_bind; [|intros ?; apply preserves_ret].
    unfold ensure_vnc_password. case_match; [apply running_lift|]. apply preserves_bind; [by apply running_exec|].
    intros _. apply running_lift. }
  intros env. apply preserves_bind.
  { case_match; [apply preserves_ret|]. case_match; [apply running_pin_image|apply preserves_ret]. }
  intros image. apply preserves_bind; [|intros _; apply preserves_ret].
  case_match; [|by apply running_modify_secrets]. apply preserves_bind; [apply running_lift|]. intros p.
  by apply running_modify_secrets.
Qed.

Lemma recorded_profiles r l : preserves recorded_ok (for_ l (apply_profile E r)).
Proof. apply preserves_for. intros p _. apply recorded_invoke. Qed.

(** After [record_runtime]: on, if the runtime is recorded. *)
Lemma running_after_record r host (k : M World unit) :
  r ≠ "" → preserves recorded_ok k →
  preserves running_ok (recorded ← record_runtime E job r host; when recorded k).
Proof.
  intros Hr Hk w Hw. destruct (recorded_record_runtime r host w Hr Hw) as [H1 H2].
  unfold mbind, M_bind. destruct (record_runtime E job r host w) as [[[]|e] w1]; simpl in *; [|done..].
  by apply recorded_running; [|apply H2].
Qed.

Lemma running_boot_container s p : preserves running_ok (boot_container E job s p).
Proof.
  unfold boot_container. apply preserves_bind; [apply running_invoke|]. intros _ w Hw. run.
  set (c := E.(e_container) _ _). apply (running_after_record c.1 c.2); [apply Hc| |].
  - apply preserves_bind; [apply preserves_when, recorded_invoke|]. intros _.
    apply preserves_bind; [apply recorded_profiles|]. intros _. apply preserves_bind; [apply preserves_gets|]. intros up.
    apply preserves_bind; [apply preserves_guard|]. intros _. apply preserves_bind; [apply recorded_mark_started|].
    intros started. case_match; [|apply preserves_ret]. apply preserves_when, preserves_swallow, recorded_invoke.
  - by apply (running_of_db w).
Qed.

Lemma running_boot_vm s p admin : preserves running_ok (boot_vm E job s p admin).
Proof.
  unfold boot_vm. case_match; [|apply preserves_raise]. apply preserves_bind; [apply running_invoke|]. intros _ w Hw. run.
  apply running_after_record; [apply Hv| |done].
  apply preserves_bind; [apply preserves_session; [apply recorded_of_db|by apply recorded_exec]|]. intros _.
  apply preserves_bind; [apply recorded_profiles|]. intros _.
  apply preserves_bind; [apply recorded_mark_started|intros _; apply preserves_ret].
Qed.

Lemma recorded_boot_resume s : preserves recorded_ok (boot_resume E job s).
Proof.
  unfold boot_resume. apply preserves_bind.
  { unfold thaw. case_match; [|apply preserves_raise]. case_match; apply recorded_invoke. }
  intros _. apply preserves_bind.
  { apply preserves_session; [apply recorded_of_db|]. apply preserves_bind.
    - intros w. unfold lift_w. by destruct (E.(e_secret_env) _ _).
    - intros secrets. apply preserves_bind; [by apply recorded_exec|intros _; apply preserves_ret]. }
  intros secrets. apply preserves_bind; [apply recorded_invoke|]. intros _.
  apply preserves_bind; [apply preserves_gets|]. intros booted. apply preserves_bind.
  { intros w Hw. by apply (recorded_of_db w). }
  intros _. apply preserves_bind; [apply recorded_mark_started|intros _; apply preserves_ret].
Qed.

Lemma not_running_to_volume s : preserves not_running (to_volume E s).
Proof.
  assert (of_db not_running) as Hdb by (intros w w' Hw; unfold not_running; by rewrite Hw).
  unfold to_volume. apply preserves_bind.
  { unfold remove_runtime. case_match; [|apply preserves_ret]. intros w Hw. unfold remove_container, invoke.
    destruct (E.(e_call) _ _); simpl; apply (proj2 (proj2 HR)); [by apply (Hdb w)|done]. }
  intros _. apply preserves_bind; [intros w Hw; by apply (Hdb w)|]. intros _. apply preserves_session; [done|].
  intros w [Hk Hw]. split; [by apply keyed_upd|]. intros r. cbn [w_db put_db exec modify]. unfold clear_sandbox_runtime.
  simpl. rewrite lookup_alter. case_decide; [|apply Hw]. destruct (_ !! s.(sb_id)) eqn:Er; intros [= <-]. simpl.
  apply Hw. congruence.
Qed.

Lemma not_running_ok w : not_running w → running_ok w.
Proof. intros [Hk Hw]. split; [done|]. intros s Hs Hr. by destruct (Hw s Hs). Qed.

Lemma running_boot : preserves running_ok (boot E job).
Proof.
  intros w Hw. unfold boot, get_sandbox. run. destruct (_ !! _) as [s|] eqn:Es; [|done].
  destruct (bool_decide (s.(sb_status) = Provisioning)) eqn:Ep; cbn [negb]; [|done]. apply bool_decide_eq_true in Ep.
  assert (∀ s', preserves running_ok (p ← boot_plan E s';
      if is_vm_kind s'.(sb_kind) then boot_vm E job s' p (truthy (default JNull (dget "admin" s'.(sb_config))))
      else boot_container E job s' p)) as Hcold.
  { intros s'. apply preserves_bind; [apply running_boot_plan|]. intros p.
    destruct (is_vm_kind _); [apply running_boot_vm|apply running_boot_container]. }
  destruct (is_paused s && has_runtime s && truthy (arg "upgrade" job)) eqn:Eu.
  - assert (not_running w) as Hn by (split; [apply Hw|]; intros r Hr; simplify_eq; congruence).
    pose proof (not_running_to_volume s w Hn) as H1.
    destruct (to_volume E s w) as [[[]|e] w1] eqn:Ev; simpl in H1; run;
      [rewrite (bind_ok _ _ _ _ _ Ev); run|rewrite (bind_err _ _ _ _ _ Ev); by apply not_running_ok].
    change (is_paused (sb_set_runtime_id None (sb_set_paused_at None s))) with false. cbn [andb].
    by apply Hcold, not_running_ok.
  - run. destruct (is_paused s && has_runtime s) eqn:Er; [|by apply Hcold].
    apply recorded_running; [apply recorded_boot_resume|]. split; [done|]. intros s' Hs' _. simplify_eq.
    by apply andb_true_iff in Er as [_ ?].
Qed.
End boot_runtime.

(** *** Stopping *)

Section stopping.
Context (E : Env) (HE : quiet E).

(** Whether [stop] freezes the sandbox instead of removing its runtime. *)
Definition pauses (job : Job) (s : Sandbox) : bool :=
  has_runtime s && bool_decide (s.(sb_status) = Running) && negb (is_vm_kind s.(sb_kind)) && negb (truthy (arg "restart" job)).

(** The row of a stopped sandbox: frozen in place with its runtime, stopped
    without one, or on its way back up. *)
Definition paused_row (now : time) (s : Sandbox) : Sandbox :=
  sb_set_status Stopped (sb_set_paused_at (Some now) (sb_set_stopped_at (Some now) (sb_set_updated_at now
    (sb_set_unreachable_since None s)))).

Definition stopped_row (now : time) (s : Sandbox) : Sandbox :=
  sb_set_status Stopped (sb_set_stopped_at (Some now) (sb_set_updated_at now (sb_set_unreachable_since None
    (sb_set_runtime_id None (sb_set_runtime_host None (sb_set_paused_at None s)))))).

Definition freezing (s : Sandbox) : effect :=
  if E.(e_kube) && negb (on_server s) then VmPause s.(sb_id) else PauseRuntime (default "" s.(sb_runtime_id)).

Lemma freeze_cases s w :
  has_runtime s = true →
  freeze E s w = (Ok tt, put_log (w.(w_log) ++ [freezing s]) w) ∨ ∃ x, freeze E s w = (Err x, w).
Proof.
  unfold freeze, freezing, has_runtime, no_runtime. destruct s.(sb_runtime_id) as [r|] eqn:Er; [|done]. intros _. simpl.
  destruct (E.(e_kube) && _); by apply quiet_invoke_cases.
Qed.

Lemma alter_twice {A} (f g : A → A) i (m : gmap string A) : alter f i (alter g i m) = alter (λ x, f (g x)) i m.
Proof.
  apply map_eq. intros j. rewrite !lookup_alter. destruct (decide (i = j)); [|done].
  rewrite decide_True by done. by destruct (m !! i).
Qed.

Lemma alter_known {A} (f : A → A) i (m : gmap string A) x : m !! i = Some x → alter f i m = <[i := f x]> m.
Proof. intros Hi. apply map_eq. intros j. rewrite lookup_alter, lookup_insert. case_decide; [|done]. subst. by rewrite Hi. Qed.

Lemma stop_cases job s w :
  keyed w.(w_db) → w.(w_db).(sandboxes) !! job.(j_sandbox_id) = Some s → s.(sb_status) ≠ Deleted →
  truthy (arg "restart" job) = false →
  let w' := (stop E job w).2 in
  match (stop E job w).1 with
  | Ok _ =>
      w'.(w_db).(sandboxes) =
        <[s.(sb_id) := (if pauses job s then paused_row else stopped_row) w.(w_clock) s]> w.(w_db).(sandboxes) ∧
      w'.(w_log) = w.(w_log) ++ (if pauses job s then [freezing s] else removal s)
  | Err _ => w'.(w_db) = w.(w_db) ∧ w'.(w_log) = w.(w_log)
  end.
Proof.
  intros [Hid _] Hs Hd Ha w'. subst w'. unfold stop, get_sandbox. run. rewrite Hs, (bool_decide_false _ Hd), Ha.
  unfold pauses. rewrite Ha. cbn [negb andb]. rewrite andb_true_r.
  assert (w.(w_db).(sandboxes) !! s.(sb_id) = Some s) as Hs' by (by rewrite (Hid _ _ Hs)).
  destruct (has_runtime s && bool_decide (s.(sb_status) = Running) && negb (is_vm_kind s.(sb_kind))) eqn:Ep.
  - assert (has_runtime s = true) as Hr by (destruct (has_runtime s); [done|discriminate Ep]).
    destruct (freeze_cases s w Hr) as [H|[x H]]; [rewrite (bind_ok _ _ _ _ _ H)|rewrite (bind_err _ _ _ _ _ H); done].
    run. simpl. split; [|done]. unfold set_sandbox_reachable, set_sandbox_paused. simpl.
    rewrite alter_twice. by rewrite (alter_known _ _ _ _ Hs').
  - destruct (remove_runtime_cases E HE s w) as [H|[x H]];
      [rewrite (bind_ok _ _ _ _ _ H)|rewrite (bind_err _ _ _ _ _ H); done].
    unfold forget_secrets. run. simpl. split; [|done].
    rewrite !alter_twice. by rewrite (alter_known _ _ _ _ Hs').
Qed.
End stopping.

(** *** Sweeps *)

(** What the sweep may delete to its volume: a paused sandbox nothing works on. *)
Definition sweepable (id : string) (d : Db) : bool :=
  match d.(sandboxes) !! id with
  | Some s => bool_decide (s.(sb_status) = Stopped) && is_paused s && is_none (get_active_job id d)
  | None => false
  end.

Lemma unpause_delete_skips E id w : sweepable id w.(w_db) = false → unpause_delete E id w = (Ok tt, w).
Proof.
  unfold sweepable, unpause_delete, session, transaction, get_sandbox, mbind, M_bind, query, gets. simpl.
  destruct (_ !! id); [intros ->|]; done.
Qed.

(** A row whose runtime was just lost. *)
Definition lost_row (now : time) (states : list RuntimeState) (event : RuntimeState) (s : Sandbox) : Sandbox :=
  let state := default event (last (filter (λ r, Some r.(rs_runtime_id) = s.(sb_runtime_id)) states)) in
  let bare := sb_set_unreachable_since None (sb_set_runtime_id None (sb_set_runtime_host None (sb_set_paused_at None
    (sb_set_updated_at now s)))) in
  if state.(rs_failed)
  then sb_set_status Failed (sb_set_error_message (Some (default "sandbox runtime failed" (str_or_none state.(rs_error))))
    (sb_set_updated_at now bare))
  else sb_set_status Stopped (sb_set_stopped_at (Some now) (sb_set_updated_at now bare)).

Lemma settle_runtime_cases states event s w :
  w.(w_db).(sandboxes) !! s.(sb_id) = Some s →
  settle_runtime states event s w =
    if bool_decide (s.(sb_status) = Running) && is_none (get_active_job s.(sb_id) w.(w_db))
    then (Ok (option_list (str_or_none s.(sb_runtime_id))),
          put_db (set_sandboxes (<[s.(sb_id) := lost_row w.(w_clock) states event s]> w.(w_db).(sandboxes)) w.(w_db)) w)
    else (Ok [], w).
Proof.
  intros Hs. unfold settle_runtime. run. rewrite <- negb_andb.
  destruct (bool_decide (s.(sb_status) = Running) && is_none _); cbn [negb]; [|done]. run.
  unfold lost_row. destruct (rs_failed _); run;
    (apply (f_equal2 pair); [by destruct (str_or_none _)|]);
    unfold clear_sandbox_runtime, set_sandbox_reachable, set_sandbox_failed, set_sandbox_stopped, upd_sandbox, put_db; simpl;
    rewrite !alter_twice, (alter_known _ _ _ _ Hs); done.
Qed.

(** ** The properties of the lifecycle *)

(** the sandbox handlers meet the queue's contract.  Registered as
    [SandboxApi.__init__] does, every kind has a handler with at least one
    attempt and a backoff, and the handlers of final failures leave the queue
    alone; so the theorems of the queue hold of the lifecycle's jobs. *)
Theorem sandbox_handlers_ok E : quiet_queue E → HandlersOk (sandbox_handlers E).
Proof. apply sandbox_handlers_contract. Qed.

(** a sandbox that is deleted stays so.  A job that runs for one, and the
    report of its final failure, do nothing at all: no call leaves the process
    and no row changes (a snapshot's failure is still noted on the
    snapshot). *)
Theorem deleted_untouched E job h w :
  sandbox_handlers E job.(j_kind) = Some h → args_ok job → deleted job.(j_sandbox_id) w →
  h.(h_run) job w = (Ok tt, w) ∧
  (job.(j_kind) ≠ KSnapshot → ∃ f, h.(h_failed) = Some f ∧ ∀ error, f job error w = (Ok tt, w)).
Proof.
  rewrite sandbox_handlers_at. intros [= <-] Ha Hd. split; [by apply handler_on_deleted|].
  intros Hk. eexists. split; [done|]. intros error. by apply failure_on_deleted.
Qed.

(** C30: deleting a sandbox.  When the job succeeds the runtime, every snapshot
    and the volume were removed, in that order and before the row says
    deleted, and no snapshot row is left; when a call fails the row is as it
    was, so the retry starts again.  Either way a snapshot's row goes only
    once the snapshot itself is removed. *)
Theorem delete_complete E job s w :
  quiet E → keyed w.(w_db) → w.(w_db).(sandboxes) !! job.(j_sandbox_id) = Some s → s.(sb_status) ≠ Deleted →
  let w' := (delete_ E job w).2 in
  match (delete_ E job w).1 with
  | Ok _ =>
      w'.(w_db).(sandboxes) = <[s.(sb_id) := deleted_row w.(w_clock) s]> w.(w_db).(sandboxes) ∧
      list_snapshots_by_sandbox s.(sb_id) w'.(w_db) = [] ∧
      w'.(w_log) = w.(w_log) ++ removal s ++
        ((λ sn, RemoveSnapshot s.(sb_id) sn.(sn_id)) <$> list_snapshots_by_sandbox s.(sb_id) w.(w_db)) ++ [RemoveVolume s.(sb_id)]
  | Err _ => w'.(w_db).(sandboxes) = w.(w_db).(sandboxes)
  end ∧
  (∀ i sn, w.(w_db).(snapshots) !! i = Some sn → w'.(w_db).(snapshots) !! i = Some sn ∨
     (sn.(sn_sandbox_id) = s.(sb_id) ∧ RemoveSnapshot s.(sb_id) i ∈ w'.(w_log))).
Proof. intros HE. by apply delete_cases. Qed.

(** C4: a running sandbox has a runtime.  Whatever other threads do between
    the steps of a boot, within what [boot_rely] allows, and whichever of its
    calls fail, the boot never leaves the sandbox's row saying running without
    the runtime it runs in. *)
Theorem boot_records_runtime E job w :
  boot_rely E job → (∀ l i, (E.(e_container) l i).1 ≠ "") → (∀ l i, E.(e_vm) l i ≠ "") →
  running_ok job w → running_ok job (boot E job w).2.
Proof. intros HR Hc Hv. by apply running_boot. Qed.

(** no runtime is orphaned.  A boot's runtime is recorded on the sandbox
    if the job still boots it, and nothing else changes; if meanwhile the
    sandbox was stopped, deleted or its job given up, the boot removes the
    runtime again and writes nothing of its own. *)
Theorem record_or_remove E job r host w :
  keyed w.(w_db) →
  let (res, w') := record_runtime E job r host w in
  if booting job w
  then res = Ok true ∧ w' = put_db (update_sandbox_runtime w.(w_clock) (Some r) host job.(j_sandbox_id) w.(w_db)) w
  else (res = Ok false ∧ w' = E.(e_yield) (put_log (w.(w_log) ++ [RemoveContainer r]) w)) ∨
       (∃ e, res = Err e ∧ E.(e_call) w.(w_log) (RemoveContainer r) = Err e ∧ w' = E.(e_yield) w).
Proof.
  intros Hk. rewrite record_runtime_cases by done. destruct (booting job w); [done|].
  destruct (invoke_cases E (RemoveContainer r) w) as [[H _]|(e & H & He)]; unfold remove_container; rewrite H; eauto.
Qed.

(** stopping a sandbox.  A running container is frozen where it is and
    keeps its runtime, every other sandbox loses its runtime, which is removed
    first; and when that call fails nothing changes. *)
Theorem stop_effect E job s w :
  quiet E → keyed w.(w_db) → w.(w_db).(sandboxes) !! job.(j_sandbox_id) = Some s → s.(sb_status) ≠ Deleted →
  truthy (arg "restart" job) = false →
  let w' := (stop E job w).2 in
  match (stop E job w).1 with
  | Ok _ =>
      w'.(w_db).(sandboxes) =
        <[s.(sb_id) := (if pauses job s then paused_row else stopped_row) w.(w_clock) s]> w.(w_db).(sandboxes) ∧
      w'.(w_log) = w.(w_log) ++ (if pauses job s then [freezing E s] else removal s)
  | Err _ => w'.(w_db) = w.(w_db) ∧ w'.(w_log) = w.(w_log)
  end.
Proof. intros HE. by apply stop_cases. Qed.

(** an event that a runtime was lost.  A sandbox it names is settled only
    if its row still says running and no job works on it: then it loses the
    runtime and is failed or stopped as the event says, and nothing else
    changes; otherwise the event does nothing to it. *)
Theorem runtime_lost states event s w :
  w.(w_db).(sandboxes) !! s.(sb_id) = Some s →
  settle_runtime states event s w =
    if bool_decide (s.(sb_status) = Running) && is_none (get_active_job s.(sb_id) w.(w_db))
    then (Ok (option_list (str_or_none s.(sb_runtime_id))),
          put_db (set_sandboxes (<[s.(sb_id) := lost_row w.(w_clock) states event s]> w.(w_db).(sandboxes)) w.(w_db)) w)
    else (Ok [], w).
Proof. apply settle_runtime_cases. Qed.

(** An environment where every call succeeds and nothing else happens. *)
Definition demo_env : Env := mkEnv
  (λ _ _, Ok tt) (λ w, w) (λ _ _, ("c9", Some "10.0.0.9")) (λ _ _, "vm9") (λ _ _, 7) (λ _ _, Ok true) (λ _ _, true)
  (λ _ _, false) false (λ _, "zoo:1") 60 (λ _, Some (true, "")) (λ _ _, Ok [("TOKEN", "hunter22")]) (λ _ _, [])
  (λ t, Ok t) "vnc" (λ _, true) (λ _, None) (λ _, None) 1%Q (λ _ _, JNull) "/home" (λ _, []) (λ _, "node") (λ _, "u").

Lemma demo_env_quiet : quiet demo_env.
Proof. done. Qed.

Definition demo_row (s : status) (runtime_id : option string) (id : string) : Sandbox :=
  mkSandbox id "w1" "v1" "u1" "one" s "docker" runtime_id None "{}" [] None (Some 0) None None 0 0 None None
    Desktop None None None None 2%Q 2048 None None None None.

Definition demo_job_of (k : job_kind) : Job := mkJob "j1" "s1" k JRunning [] 1 3 0 None None 0 0 None 1.

Definition demo_life (s : status) (k : job_kind) : World :=
  mkWorld (set_snapshots {["n1" := mkSnapshot "n1" "s1" None "snap" 0 SnReady None "u1" 0 1]}
    (set_jobs {["j1" := demo_job_of k]}
      (set_sandboxes {["s1" := demo_row s (if decide (s = Provisioning) then None else Some "c1") "s1"]} empty_db))) 5 ∅ ∅ ∅ [].

Lemma demo_life_keyed s k : keyed (demo_life s k).(w_db).
Proof. split; intros i r; simpl; intros [<- <-]%lookup_singleton_Some; done. Qed.

Lemma sandbox_handlers_ok_witness : HandlersOk (sandbox_handlers demo_env).
Proof. apply (sandbox_handlers_ok demo_env). intros w. split_and!; done. Defined.

Lemma deleted_untouched_witness :
  boot demo_env (demo_job_of KBoot) (demo_life Deleted KBoot) = (Ok tt, demo_life Deleted KBoot).
Proof.
  refine (proj1 (deleted_untouched demo_env (demo_job_of KBoot) _ (demo_life Deleted KBoot) eq_refl _ _)).
  - exact I.
  - eexists. split; vm_compute; reflexivity.
Defined.

Lemma delete_complete_witness :
  let w' := (delete_ demo_env (demo_job_of KDelete) (demo_life Deleting KDelete)).2 in
  w'.(w_log) = [RemoveContainer "c1"; RemoveSnapshot "s1" "n1"; RemoveVolume "s1"] ∧
  list_snapshots_by_sandbox "s1" w'.(w_db) = [].
Proof.
  pose proof (delete_complete demo_env (demo_job_of KDelete) (demo_row Deleting (Some "c1") "s1") (demo_life Deleting KDelete)
    demo_env_quiet (demo_life_keyed _ _) eq_refl ltac:(discriminate)) as [H _].
  vm_compute in H. vm_compute. naive_solver.
Defined.

Lemma demo_boot_rely k : boot_rely demo_env (demo_job_of k).
Proof. split_and!; intros w H; exact H. Qed.

Lemma boot_records_runtime_witness :
  (∃ s, (boot demo_env (demo_job_of KBoot) (demo_life Provisioning KBoot)).2.(w_db).(sandboxes) !! "s1" = Some s ∧
     s.(sb_status) = Running ∧ s.(sb_runtime_id) = Some "c9") ∧
  running_ok (demo_job_of KBoot) (boot demo_env (demo_job_of KBoot) (demo_life Provisioning KBoot)).2.
Proof.
  split; [eexists; split_and!; vm_compute; reflexivity|].
  apply (boot_records_runtime demo_env); [apply demo_boot_rely|discriminate|discriminate|].
  split; [apply demo_life_keyed|]. intros s Hs. vm_compute in Hs. simplify_eq. discriminate.
Defined.

Lemma record_or_remove_witness :
  (record_runtime demo_env (demo_job_of KBoot) "c9" None (demo_life Provisioning KBoot)).1 = Ok true ∧
  (record_runtime demo_env (demo_job_of KBoot) "c9" None (demo_life Deleting KBoot)).1 = Ok false.
Proof.
  pose proof (record_or_remove demo_env (demo_job_of KBoot) "c9" None _ (demo_life_keyed Provisioning KBoot)) as H1.
  pose proof (record_or_remove demo_env (demo_job_of KBoot) "c9" None _ (demo_life_keyed Deleting KBoot)) as H2.
  vm_compute in H1, H2. vm_compute. naive_solver.
Defined.

Lemma stop_effect_witness :
  (stop demo_env (demo_job_of KStop) (demo_life Running KStop)).2.(w_log) = [PauseRuntime "c1"].
Proof.
  pose proof (stop_effect demo_env (demo_job_of KStop) (demo_row Running (Some "c1") "s1") (demo_life Running KStop)
    demo_env_quiet (demo_life_keyed _ _) eq_refl ltac:(discriminate) eq_refl) as H.
  vm_compute in H. vm_compute. exact (proj2 H).
Defined.

Definition demo_lost : World :=
  mkWorld (set_sandboxes {["s1" := demo_row Running (Some "c1") "s1"]} empty_db) 5 ∅ ∅ ∅ [].

Lemma runtime_lost_witness :
  (settle_runtime [] (mkRuntimeState "c1" true None) (demo_row Running (Some "c1") "s1") demo_lost).1 = Ok ["c1"].
Proof.
  rewrite (runtime_lost [] (mkRuntimeState "c1" true None) (demo_row Running (Some "c1") "s1") demo_lost eq_refl).
  vm_compute. reflexivity.
Defined.
