(* ===== verification/Pool.v ===== *)
(** The warm pool (src/apps/server/pool.py): Linux sandboxes booted ahead of a
    create.  Its rows live in the database; which of them this process is
    booting is its own state.  Claiming, demand, filling, booting, discarding
    and draining, and the step relation of a process whose threads interleave
    them. *)

From S2P Require Import Prelude Tables Store Jobs Registry Security Access Lifecycle.

Definition MAX_SIZE : Z := 10.
Definition FAILED_TTL : Z := 300.
Definition REFILL_SECONDS : Z := 10.

(** Source: src/apps/server/pool.py:29-29 [KINDS]. *)
Definition POOL_KINDS : list kind := [Desktop; Browser; Code].

(** Source: src/apps/server/pool.py:38-39 [pool_id]. *)
Definition pool_id (k : string) (server_id : option string) : string :=
  k +:+ ":" +:+ default "local" (str_or_none server_id).

(** ** The table *)

Definition upd_pool (id : string) (f : PoolSandbox → PoolSandbox) (d : Db) : Db :=
  set_pool_sandboxes (alter f id d.(pool_sandboxes)) d.

(** Source: src/db/generated/query.py:1492-1494 [LIST_POOL_SANDBOXES]. *)
Definition list_pool_sandboxes (d : Db) : list PoolSandbox :=
  order_by (λ r, (r.(ps_created_at), r.(ps_seq))) (rows d.(pool_sandboxes)).

Definition claimable (k : kind) (server_id image : string) (r : PoolSandbox) : Prop :=
  r.(ps_status) = PIdle ∧ r.(ps_kind) = k ∧ default "" r.(ps_server_id) = server_id ∧ r.(ps_image) = image.

#[global] Instance claimable_dec k server_id image r : Decision (claimable k server_id image r).
Proof. unfold claimable. apply _. Defined.

(** Source: src/db/generated/query.py:121-131 [CLAIM_POOL_SANDBOX].
    The row it deletes; [SKIP LOCKED] passes over rows another transaction
    has claimed, which are deleted once it commits. *)
Definition claim_pool_sandbox (k : kind) (server_id image : string) (d : Db) : option PoolSandbox :=
  head (filter (claimable k server_id image) (list_pool_sandboxes d)).

(** Source: src/db/generated/query.py:712-714 [DELETE_POOL_SANDBOX].
    The row it returns is the one that was there. *)
Definition delete_pool_sandbox (id : string) (d : Db) : Db := set_pool_sandboxes (delete id d.(pool_sandboxes)) d.

(** Source: src/db/generated/query.py:365-369 [CREATE_POOL_SANDBOX]. *)
Definition create_pool_sandbox (now : time) (id : string) (k : kind) (server_id : option string) (image : string)
    (config : list (string * json)) (d : Db) : Db :=
  bump_seq (set_pool_sandboxes (<[id := mkPoolSandbox id k server_id image config PBooting None None None now now
    d.(next_seq)]> d.(pool_sandboxes)) d).

(** Source: src/db/generated/query.py:2115-2119 [SET_POOL_SANDBOX_RUNTIME]. *)
Definition set_pool_sandbox_runtime (now : time) (runtime_id runtime_host : option string) (id : string) : Db → Db :=
  upd_pool id (λ r, ps_set_runtime_id runtime_id (ps_set_runtime_host runtime_host (ps_set_updated_at now r))).

(** Source: src/db/generated/query.py:2110-2112 [SET_POOL_SANDBOX_IDLE]. *)
Definition set_pool_sandbox_idle (now : time) (id : string) : Db → Db :=
  upd_pool id (λ r, if bool_decide (r.(ps_status) = PBooting) then ps_set_status PIdle (ps_set_updated_at now r) else r).

(** Source: src/db/generated/query.py:2105-2107 [SET_POOL_SANDBOX_FAILED]. *)
Definition set_pool_sandbox_failed (now : time) (error : string) (id : string) : Db → Db :=
  upd_pool id (λ r, ps_set_status PFailed (ps_set_error_message (Some error) (ps_set_updated_at now r))).

(** ** Demand *)

Definition intervals : Z := 3600 / REFILL_SECONDS.

(** [min(intervals, math.ceil(0.99 * intervals)) - 1] *)
Definition demand_rank : Z := Z.min intervals (- ((- (99 * intervals)) / 100)) - 1.

(** One kind's entry of [demand]: the value at the rank in the sorted counts,
    with a zero for every interval that has none. *)
Definition demand_of (found : list Z) : option Z :=
  let padded := merge_sort Z.le (replicate (Z.to_nat (intervals - Z.of_nat (length found))) 0 ++ found) in
  Z.min MAX_SIZE <$> py_index padded demand_rank.

(** Source: src/apps/server/pool.py:42-50 [demand].  The rows of
    [list_recent_creates] as (kind, creates); a kind with none has no entry. *)
Definition demand (recent : list (string * Z)) : list (string * Z) :=
  omap (λ k, let found := (filter (λ r, r.1 = kind_name k) recent).*2 in
             match found with [] => None | _ => (λ v, (kind_name k, v)) <$> demand_of found end) POOL_KINDS.

(** ** The process *)

Record PW := mkPW { pw_world : World; pw_booting : gset string }.

Definition on_world {A} (m : M World A) : M PW A := λ s, let (r, w) := m s.(pw_world) in (r, mkPW w s.(pw_booting)).
Definition booting_now : M PW (gset string) := gets pw_booting.
Definition set_booting (f : gset string → gset string) : M PW unit := modify (λ s, mkPW s.(pw_world) (f s.(pw_booting))).

Section pool.
Context (E : Env).

(** Source: src/apps/server/pool.py:71-78 [Pool.claim].  Counting a claim is the
    effect [PoolClaimed]; [Pool.claimed] is the number of them. *)
Definition pool_claim (k : kind) (server_id : option string) : M World (option PoolSandbox) :=
  if negb (bool_decide (k ∈ POOL_KINDS)) then mret None
  else
    row ← query (claim_pool_sandbox k (default "" (str_or_none server_id)) (E.(e_default_image) k));
    match row with
    | Some r =>
        exec (λ _, delete_pool_sandbox r.(ps_id));;
        emit (PoolClaimed (pool_id (kind_name k) server_id) r.(ps_id));;
        emit PoolFill;;
        mret (Some r)
    | None => mret None
    end.

(** Source: src/apps/server/pool.py:231-247 [Pool.remove].  [server] is whether
    the row's server is registered. *)
Definition pool_remove (r : PoolSandbox) (server : option string) : M World unit :=
  swallow (match str_or_none r.(ps_runtime_id) with
           | Some runtime_id => invoke E (RemoveContainer runtime_id)
           | None => invoke E (RemoveNamed ("zoo-sandbox-" +:+ r.(ps_id)))
           end);;
  swallow (invoke E (RemoveVolume r.(ps_id))).

(** Source: src/apps/server/pool.py:224-229 [Pool.discard]. *)
Definition pool_discard (id : string) (server : option string) : M World unit :=
  deleted ← session (row ← query (λ d, d.(pool_sandboxes) !! id); exec (λ _, delete_pool_sandbox id);; mret row);
  match deleted with
  | Some r => pool_remove r server
  | None => mret tt
  end.

(** Source: src/apps/server/pool.py:185-222 [Pool.boot].  The [try] of it: the
    container is started, recorded, cut off from the network and waited for. *)
Definition pool_boot_steps (r : PoolSandbox) (server : option string) : M World unit :=
  env ← (if bool_decide (r.(ps_kind) = Code) then mret []
         else match dget VNC_PASSWORD r.(ps_config) with
              | Some stored => p ← lift_w (E.(e_decrypt) (json_text stored)); mret [("ZOO_VNC_PASSWORD", p)]
              | None => raise (KeyError VNC_PASSWORD)
              end);
  let env := dmerge (dmerge (E.(e_guest_env) r.(ps_id) (negb (is_none server)))
    (if bool_decide (r.(ps_kind) = Browser)
     then [("ZOO_BROWSER_HOME", E.(e_browser_home)); ("ZOO_BROWSER_WAIT", "1")] else [])) env in
  invoke E (RunContainer ("zoo-sandbox-" +:+ r.(ps_id)) r.(ps_image) env);;
  c ← gets (λ w, E.(e_container) w.(w_log) r.(ps_id));
  emit (BindGuest c.1 r.(ps_id));;
  session (exec (λ now, set_pool_sandbox_runtime now (Some c.1) c.2 r.(ps_id)));;
  invoke E (DenyNetwork c.1);;
  up ← gets (λ w, E.(e_desktop_up) w.(w_log) r.(ps_id));
  guard_ up (RuntimeError [Txt "did not come up in time"]);;
  when (E.(e_kube) && is_none server) (invoke E (PauseRuntime c.1));;
  session (exec (λ now, set_pool_sandbox_idle now r.(ps_id))).

(** Source: src/apps/server/pool.py:185-222 [Pool.boot]. *)
Definition pool_boot (r : PoolSandbox) (server : option string) : M World unit :=
  try_ (pool_boot_steps r server) (λ e,
    failed ← session (
      exec (λ now, set_pool_sandbox_failed now (exn_text e) r.(ps_id));;
      query (λ d, d.(pool_sandboxes) !! r.(ps_id)));
    match failed with
    | Some row => pool_remove row server
    | None => mret tt
    end).

(** Source: src/apps/server/pool.py:159-183 [Pool.start].  The row it books; a
    thread then boots it ([boot_step] below). *)
Definition pool_start (k : kind) (server : option string) : M PW unit :=
  id ← gets (λ s, E.(e_uuid) s.(pw_world));
  on_world (session (
    taken ← query (λ d, d.(pool_sandboxes) !! id);
    guard_ (is_none taken) IntegrityError;;
    let config := [("home_claim", JStr ("zoo-home-" +:+ id))] ++
      match server with Some s => [("remote_server_id", JStr s)] | None => [] end ++
      (if bool_decide (k = Code) then [] else [(VNC_PASSWORD, JStr E.(e_vnc_token))]) in
    exec (λ now, create_pool_sandbox now id k server (E.(e_default_image) k) config)));;
  set_booting (λ b, {[id]} ∪ b).

(** Source: src/apps/server/pool.py:152-157 [Pool.alive]. *)
Definition pool_alive (r : PoolSandbox) (w : World) : bool :=
  match str_or_none r.(ps_runtime_id) with
  | None => false
  | Some runtime_id => match E.(e_running) w.(w_log) runtime_id with Ok b => b | Err _ => true end
  end.

(** ** Filling *)

(** What the first loop of [_fill] does with a row. *)
Inductive verdict := Keep | Drop.

Definition judge (booting : gset string) (w : World) (r : PoolSandbox) : verdict :=
  if bool_decide (r.(ps_id) ∈ booting) then Keep
  else match r.(ps_status) with
       | PBooting => Drop
       | PFailed => if bool_decide (sec FAILED_TTL < w.(w_clock) - r.(ps_updated_at)) then Drop else Keep
       | PIdle => if negb (bool_decide (r.(ps_image) = E.(e_default_image) r.(ps_kind))) || negb (pool_alive r w)
                  then Drop else Keep
       end.

Definition server_of_row (servers : gset string) (r : PoolSandbox) : option string :=
  match str_or_none r.(ps_server_id) with Some s => if decide (s ∈ servers) then Some s else None | None => None end.

(** Source: src/apps/server/pool.py:99-125 [Pool._fill].  The loop over the rows:
    what it keeps, in order. *)
Fixpoint keep_rows (servers : gset string) (l : list PoolSandbox) : M PW (list PoolSandbox) :=
  match l with
  | [] => mret []
  | r :: l' =>
      v ← gets (λ s, judge s.(pw_booting) s.(pw_world) r);
      match v with
      | Drop => on_world (pool_discard r.(ps_id) (server_of_row servers r));; keep_rows servers l'
      | Keep => rest ← keep_rows servers l'; mret (r :: rest)
      end
  end.

Definition pool_of (r : PoolSandbox) : string := pool_id (kind_name r.(ps_kind)) r.(ps_server_id).

Definition colon : Ascii.ascii := ":"%char.

Definition kind_of (s : string) : option kind := head (filter (λ k, kind_name k = s) [Desktop; Browser; Code; Macos; Windows]).

(** [e_guest_env "" remote] as a truth value: [guest_ready]. *)
Definition guest_ready (server : option string) : bool :=
  match E.(e_guest_env) "" (negb (is_none server)) with [] => false | _ => true end.

Fixpoint start_all (n : nat) (k : kind) (server : option string) : M PW unit :=
  match n with
  | O => mret tt
  | S n' => pool_start k server;; start_all n' k server
  end.

Definition is_idle (r : PoolSandbox) : bool := match r.(ps_status) with PIdle => true | _ => false end.
Definition is_failed (r : PoolSandbox) : bool := match r.(ps_status) with PFailed => true | _ => false end.

(** What filling one pool is to do: discard the idle sandboxes beyond its size,
    and start as many as are missing. *)
Definition fill_plan (size : Z) (ready : bool) (members : list PoolSandbox) : list PoolSandbox * nat :=
  (drop (Z.to_nat size) (filter (λ r, is_idle r = true) members),
   if ready then Z.to_nat (size - Z.of_nat (length members)) else O).

(** Source: src/apps/server/pool.py:126-138 [Pool._fill].  One pool of the loop
    over the sizes.  The sizes API only takes pools of the pool's kinds; a key
    of another has no image to boot. *)
Definition fill_pool (servers : gset string) (kept : list PoolSandbox) (key : string) (size : Z)
    : M PW unit :=
  let '(k, _, server_id) := partition colon key in
  let members := filter (λ r, pool_of r = key) kept in
  let local := bool_decide (server_id = "local") in
  if existsb is_failed members || (negb local && negb (bool_decide (server_id ∈ servers))) then mret tt
  else
    let server := if local then None else Some server_id in
    let plan := fill_plan size (guest_ready server) members in
    for_ plan.1 (λ r, on_world (pool_discard r.(ps_id) server));;
    match plan.2, kind_of k with
    | O, _ => mret tt
    | n, Some k => start_all n k server
    | _, None => raise (KeyError k)
    end.

(** Pools that have no size any more. *)
Definition drop_unsized (servers : gset string) (sizes : list (string * Z)) (kept : list PoolSandbox) : M PW unit :=
  for_ (filter (λ r, dhas (pool_of r) sizes = false) kept) (λ r,
    booting ← booting_now;
    when (negb (bool_decide (r.(ps_id) ∈ booting))) (on_world (pool_discard r.(ps_id) (server_of_row servers r)))).

(** The configured sizes, raised to recent demand. *)
Definition pool_sizes (settings : list (string * Z)) (recent : list (string * Z)) : list (string * Z) :=
  foldl (λ d p, let key := pool_id p.1 None in dset key (Z.max (default 0 (dget key d)) p.2) d) settings (demand recent).

(** Source: src/apps/server/pool.py:99-143 [Pool._fill].  The settings, recent
    creates and servers it reads are arguments. *)
Definition fill (settings recent : list (string * Z)) (servers : gset string) : M PW unit :=
  let sizes := pool_sizes settings recent in
  all ← on_world (session (query list_pool_sandboxes));
  kept ← keep_rows servers all;
  for_ sizes (λ p, fill_pool servers kept p.1 p.2);;
  drop_unsized servers sizes kept.

(** Source: src/apps/server/pool.py:145-150 [Pool.drain]. *)
Definition drain_pool (server : string) : M World unit :=
  all ← session (query list_pool_sandboxes);
  for_ (filter (λ r, r.(ps_server_id) = Some server) all) (λ r, pool_discard r.(ps_id) (Some server)).

(** A pool as the API shows it. *)
Record PoolStatus := mkPoolStatus {
  pst_size : Z; pst_idle : nat; pst_booting : nat; pst_claimed : nat; pst_error : option string
}.

Definition claims_of (key : string) (l : list effect) : nat :=
  length (filter (λ e, match e with PoolClaimed p _ => bool_decide (p = key) | _ => false end = true) l).

(** Source: src/apps/server/pool.py:249-269 [Pool.status].  One key's entry. *)
Definition pool_status_of (settings : list (string * Z)) (key : string) (w : World) : PoolStatus :=
  let members := filter (λ r, pool_of r = key) (list_pool_sandboxes w.(w_db)) in
  mkPoolStatus (default 0 (dget key settings)) (length (filter (λ r, is_idle r = true) members))
    (length (filter (λ r, r.(ps_status) = PBooting) members)) (claims_of key w.(w_log))
    (match filter (λ r, is_failed r = true) members with r :: _ => r.(ps_error_message) | [] => None end).
End pool.

(** ** Demand covers the busiest intervals but three *)
Lemma demand_rank_value : intervals = 360 ∧ demand_rank = 356.
Proof. by vm_compute. Qed.

Lemma sorted_above (l : list Z) (i : nat) v :
  Sorted Z.le l → l !! i = Some v → (length (filter (λ x, v < x)%Z l) ≤ length l - S i)%nat.
Proof.
  intros Hs Hi. rewrite <- (take_drop (S i) l) at 1. rewrite filter_app, length_app.
  assert (filter (λ x, v < x)%Z (take (S i) l) = []) as ->.
  { apply Sorted_StronglySorted in Hs; [|intros x y z; lia].
    assert (∀ k x, (k < S i)%nat → l !! k = Some x → x ≤ v) as Hle.
    { intros k x Hk Hx. destruct (decide (k = i)) as [->|]; [replace x with v by congruence; lia|].
      rewrite <- (take_drop (S k) l) in Hs. apply (StronglySorted_app_1_elem_of _ _ _ x v Hs).
      - apply list_elem_of_lookup. exists k. rewrite lookup_take_lt; [done|lia].
      - apply list_elem_of_lookup. exists (i - S k)%nat. rewrite lookup_drop. by replace (S k + (i - S k))%nat with i by lia. }
    apply filter_none. rewrite Forall_forall. intros x (k & Hk)%list_elem_of_lookup.
    apply lookup_take_Some in Hk as [Hk ?]. specialize (Hle k x ltac:(lia) Hk). lia. }
  simpl. etrans; [apply length_filter|]. rewrite length_drop. lia.
Qed.

Lemma filter_permutation_length {A} (P : A → Prop) `{!∀ x, Decision (P x)} (l l' : list A) :
  l ≡ₚ l' → length (filter P l) = length (filter P l').
Proof. by intros ->. Qed.

(** The demand of a kind: at most three of the hour's intervals saw more
    creates, unless it is the most a pool may hold. *)
Lemma demand_of_covers found v :
  (length found ≤ 360)%nat → demand_of found = Some v → v < MAX_SIZE →
  (length (filter (λ x, v < x)%Z found) ≤ 3)%nat.
Proof.
  intros Hlen Hd Hv. unfold demand_of in Hd. destruct demand_rank_value as [Hi Hr]. rewrite Hi, Hr in Hd.
  set (padded := replicate _ 0 ++ found) in Hd. destruct (py_index _ 356) as [u|] eqn:Hu; [|done]. simpl in Hd.
  assert (u = v) as -> by (injection Hd; lia). change (py_index (merge_sort Z.le padded) 356) with
    (merge_sort Z.le padded !! 356%nat) in Hu.
  assert (length padded = 360%nat) as Hp by (subst padded; rewrite length_app, length_replicate; lia).
  apply (sorted_above _ _ _ (Sorted_merge_sort _ _)) in Hu.
  rewrite (filter_permutation_length _ _ _ (merge_sort_Permutation _ _)) in Hu.
  rewrite (Permutation_length (merge_sort_Permutation _ _)), Hp in Hu.
  subst padded. rewrite filter_app, length_app in Hu. lia.
Qed.

(** ** Claims *)

Definition pool_keyed (d : Db) : Prop := ∀ i r, d.(pool_sandboxes) !! i = Some r → r.(ps_id) = i.

Lemma elem_of_list_pool d r : r ∈ list_pool_sandboxes d ↔ ∃ i, d.(pool_sandboxes) !! i = Some r.
Proof. unfold list_pool_sandboxes. by rewrite elem_of_order_by, elem_of_rows. Qed.

(** Rows ordered oldest first. *)
Definition pool_le (a b : PoolSandbox) : Prop := row_le (λ r, (r.(ps_created_at), r.(ps_seq))) a b.

#[global] Instance pool_le_trans : Transitive (row_le (λ r, (r.(ps_created_at), r.(ps_seq)))).
Proof. intros a b c. unfold row_le. simpl. lia. Qed.

Lemma head_filter_sorted {A} (R : relation A) (P : A → Prop) `{!∀ x, Decision (P x)} l x y :
  StronglySorted R l → head (filter P l) = Some x → y ∈ l → P y → y = x ∨ R x y.
Proof.
  induction 1 as [|a l Hs IH Ha]; [done|]. rewrite filter_cons. destruct (decide (P a)) as [Hp|Hp]; simpl.
  - intros [= ->] [->|Hy]%elem_of_cons _; [by left|]. right. rewrite Forall_forall in Ha. auto.
  - intros Hx [->|Hy]%elem_of_cons Hpy; [done|auto].
Qed.

Lemma claim_oldest k server_id image d r :
  claim_pool_sandbox k server_id image d = Some r →
  (∃ i, d.(pool_sandboxes) !! i = Some r) ∧ claimable k server_id image r ∧
  ∀ i r', d.(pool_sandboxes) !! i = Some r' → claimable k server_id image r' → r' = r ∨ pool_le r r'.
Proof.
  unfold claim_pool_sandbox. intros H. assert (r ∈ filter (claimable k server_id image) (list_pool_sandboxes d)) as Hin.
  { destruct (filter _ _); [done|]. injection H as ->. by left. }
  apply list_elem_of_filter in Hin as [Hc Hin]. rewrite elem_of_list_pool in Hin. split_and!; [done|done|].
  intros i r' Hi Hc'. eapply head_filter_sorted; [|exact H| |done].
  - apply Sorted_StronglySorted; [apply _|]. apply Sorted_merge_sort, _.
  - apply elem_of_list_pool. eauto.
Qed.

Lemma claim_none k server_id image d :
  claim_pool_sandbox k server_id image d = None ↔
  ∀ i r, d.(pool_sandboxes) !! i = Some r → ¬ claimable k server_id image r.
Proof.
  unfold claim_pool_sandbox. rewrite head_None. split.
  - intros H i r Hi Hc. apply (filter_nil_not_elem_of _ _ r H Hc), elem_of_list_pool. eauto.
  - intros H. apply filter_none. rewrite Forall_forall. intros r [i Hi]%elem_of_list_pool. eauto.
Qed.

(** ** An id is a pooled sandbox's or a sandbox's, never both *)

Definition pool_ok (w : World) : Prop :=
  pool_keyed w.(w_db) ∧ ∀ id, is_Some (w.(w_db).(pool_sandboxes) !! id) → w.(w_db).(sandboxes) !! id = None.

(** What the pool asks of the uuids it draws: not one that is in use. *)
Definition uuid_unused (E : Env) : Prop :=
  ∀ w, w.(w_db).(sandboxes) !! E.(e_uuid) w = None ∧ w.(w_db).(pool_sandboxes) !! E.(e_uuid) w = None.

Lemma pool_ok_of_db : of_db pool_ok.
Proof. intros w w' Hw. unfold pool_ok. by rewrite Hw. Qed.

Section pool_invariant.
Context (E : Env) (HE : ∀ w, pool_ok w → pool_ok (E.(e_yield) w)).

Abbreviation safe := (preserves pool_ok).

Lemma safe_emit e : safe (emit e).
Proof. intros w Hw. by apply (pool_ok_of_db w). Qed.

Lemma safe_invoke e : safe (invoke E e).
Proof. intros w Hw. unfold invoke. destruct (E.(e_call) _ _); simpl; apply HE; [by apply (pool_ok_of_db w)|done]. Qed.

Lemma safe_session {A} (m : M World A) : safe m → safe (session m).
Proof. apply preserves_session, pool_ok_of_db. Qed.

(** A statement on pool rows that adds none. *)
Lemma safe_upd id (f : time → PoolSandbox → PoolSandbox) :
  (∀ now r, (f now r).(ps_id) = r.(ps_id)) → safe (exec (λ now, upd_pool id (f now))).
Proof.
  intros Hf w [Hk Hd]. split.
  - intros i r. simpl. rewrite lookup_alter. case_decide as Hi; [|apply Hk].
    destruct (_ !! id) as [r0|] eqn:Er; intros [= <-]. rewrite Hf, <- Hi. by apply Hk.
  - intros i. simpl. rewrite lookup_alter. case_decide as Hi; [|apply Hd]. rewrite fmap_is_Some. subst. apply Hd.
Qed.

Lemma safe_delete id : safe (exec (λ _, delete_pool_sandbox id)).
Proof.
  intros w [Hk Hd]. split; simpl.
  - intros i r Hr. apply Hk. simpl in Hr. by apply lookup_delete_Some in Hr as [_ ?].
  - intros i [r Hr]. apply Hd. apply lookup_delete_Some in Hr as [_ ?]. eauto.
Qed.

Lemma safe_query {A} (f : Db → A) : safe (query f).
Proof. by intros w. Qed.

#[local] Hint Resolve safe_emit safe_invoke safe_session safe_delete safe_query preserves_swallow preserves_bind : zoo.

Lemma safe_remove r server : safe (pool_remove E r server).
Proof.
  unfold pool_remove. apply preserves_bind; [apply preserves_swallow; case_match; apply safe_invoke|].
  intros _. apply preserves_swallow, safe_invoke.
Qed.

Lemma safe_discard id server : safe (pool_discard E id server).
Proof.
  unfold pool_discard. apply preserves_bind; [apply safe_session; apply preserves_bind; [apply safe_query|]|].
  - intros row. apply preserves_bind; [apply safe_delete|]. intros _. apply preserves_ret.
  - intros deleted. case_match; [apply safe_remove|apply preserves_ret].
Qed.

Lemma safe_claim k server_id : safe (pool_claim E k server_id).
Proof.
  unfold pool_claim. case_match; [apply preserves_ret|]. apply preserves_bind; [apply safe_query|]. intros row.
  case_match; [|apply preserves_ret]. apply preserves_bind; [apply safe_delete|]. intros _.
  apply preserves_bind; [apply safe_emit|]. intros _. apply preserves_bind; [apply safe_emit|]. intros _. apply preserves_ret.
Qed.

Lemma safe_lift {A} (r : result exn A) : safe (lift_w r).
Proof. destruct r; [apply preserves_ret|apply preserves_raise]. Qed.

Lemma safe_boot r server : safe (pool_boot E r server).
Proof.
  unfold pool_boot. apply preserves_try.
  - unfold pool_boot_steps. apply preserves_bind.
    { case_match; [apply preserves_ret|]. case_match; [|apply preserves_raise].
      apply preserves_bind; [apply safe_lift|intros p; apply preserves_ret]. }
    intros env. apply preserves_bind; [apply safe_invoke|]. intros _. apply preserves_bind; [apply preserves_gets|].
    intros c. apply preserves_bind; [apply safe_emit|]. intros _. apply preserves_bind; [by apply safe_session, safe_upd|].
    intros _. apply preserves_bind; [apply safe_invoke|]. intros _. apply preserves_bind; [apply preserves_gets|].
    intros up. apply preserves_bind; [apply preserves_guard|]. intros _.
    apply preserves_bind; [apply preserves_when, safe_invoke|]. intros _. apply safe_session, safe_upd.
    intros now r0. by case_match.
  - intros e. apply preserves_bind.
    + apply safe_session, preserves_bind; [by apply safe_upd|intros _; apply safe_query].
    + intros failed. case_match; [apply safe_remove|apply preserves_ret].
Qed.

(** The same of the whole process. *)
Definition pw_ok (s : PW) : Prop := pool_ok s.(pw_world).

Lemma on_world_ok {A} (m : M World A) : safe m → preserves pw_ok (on_world m).
Proof. intros Hm s Hs. unfold on_world. specialize (Hm _ Hs). by destruct (m s.(pw_world)). Qed.

Context (Hu : uuid_unused E).

Lemma pw_start k server : preserves pw_ok (pool_start E k server).
Proof.
  intros s Hs. unfold pool_start. run. set (id := E.(e_uuid) s.(pw_world)). destruct (Hu s.(pw_world)) as [Hsb Hp]. fold id in Hsb, Hp.
  match goal with |- context [(on_world ?m ≫= ?k) s] => assert (∃ w', m s.(pw_world) = (Ok tt, w') ∧ pool_ok w') as (w' & Em & Hw') end.
  { eexists. split.
    - apply session_ok. run. rewrite Hp. simpl is_none. run. reflexivity.
    - destruct Hs as [Hk Hd]. split.
      + intros i r. simpl. rewrite lookup_insert. case_decide as Hi; [by intros [= <-]|apply Hk].
      + intros i. simpl. rewrite lookup_insert. case_decide as Hi; [by subst|apply Hd]. }
  rewrite (bind_ok _ _ _ tt (mkPW w' s.(pw_booting))) by (unfold on_world; by rewrite Em). done.
Qed.

Lemma pw_start_all n k server : preserves pw_ok (start_all E n k server).
Proof. induction n as [|n IH]; simpl; [apply preserves_ret|]. apply preserves_bind; [apply pw_start|by intros _]. Qed.

Lemma pw_discard id server : preserves pw_ok (on_world (pool_discard E id server)).
Proof. apply on_world_ok, safe_discard. Qed.

Lemma pw_keep_rows servers l : preserves pw_ok (keep_rows E servers l).
Proof.
  induction l as [|r l IH]; simpl; [apply preserves_ret|]. apply preserves_bind; [apply preserves_gets|]. intros v.
  destruct v; (apply preserves_bind; [done || apply pw_discard|intros ?]); [apply preserves_ret|done].
Qed.

Lemma pw_fill settings recent servers : preserves pw_ok (fill E settings recent servers).
Proof.
  unfold fill. apply preserves_bind; [apply on_world_ok, safe_session, safe_query|]. intros all.
  apply preserves_bind; [apply pw_keep_rows|]. intros kept. apply preserves_bind.
  - apply preserves_for. intros [key size] _. unfold fill_pool. simpl. destruct (partition colon key) as [[k f] server_id].
    case_match; [apply preserves_ret|]. apply preserves_bind; [apply preserves_for; intros; apply pw_discard|]. intros _.
    cbv beta iota. match goal with |- preserves _ (match ?x with _ => _ end) => destruct x end; [apply preserves_ret|].
    destruct (kind_of k) as [k0|]; [exact (pw_start_all (S n) k0 _)|apply preserves_raise].
  - intros _. apply preserves_for. intros r _. apply preserves_bind; [apply preserves_gets|]. intros booting.
    apply preserves_when, pw_discard.
Qed.

Lemma pw_drain server : preserves pw_ok (on_world (drain_pool E server)).
Proof.
  apply on_world_ok. unfold drain_pool. apply preserves_bind; [apply safe_session, safe_query|]. intros all.
  apply preserves_for. intros r _. apply safe_discard.
Qed.
End pool_invariant.

(** ** Booting a pooled sandbox *)

Section pool_booting.
Context (E : Env) (HE : quiet E).

Lemma invoke_db e w : (invoke E e w).2.(w_db) = w.(w_db).
Proof. destruct (quiet_invoke_cases E HE e w) as [->|[x ->]]; done. Qed.

Lemma swallow_run m w : swallow m w = (Ok tt, (m w).2).
Proof. unfold swallow, try_. by destruct (m w) as [[[]|e] w']. Qed.

Lemma pool_remove_run r server w : ∃ w', pool_remove E r server w = (Ok tt, w') ∧ w'.(w_db) = w.(w_db).
Proof.
  unfold pool_remove. rewrite (bind_ok _ _ _ _ _ (swallow_run _ w)), swallow_run. eexists. split; [done|].
  rewrite invoke_db. case_match; apply invoke_db.
Qed.

Definition booked (id : string) (w : World) : Prop := is_Some (w.(w_db).(pool_sandboxes) !! id).

Lemma booked_of_db id : of_db (booked id).
Proof. intros w w' Hw. unfold booked. by rewrite Hw. Qed.

Lemma booked_upd id i f : preserves (booked id) (exec (λ now, upd_pool i (f now))).
Proof. intros w Hw. unfold booked. simpl. rewrite lookup_alter. case_decide; [|done]. subst. by rewrite fmap_is_Some. Qed.

Lemma booked_invoke id e : preserves (booked id) (invoke E e).
Proof. intros w Hw. unfold booked. by rewrite invoke_db. Qed.

Lemma booked_boot_steps r server : preserves (booked r.(ps_id)) (pool_boot_steps E r server).
Proof.
  unfold pool_boot_steps. apply preserves_bind.
  { case_match; [apply preserves_ret|]. case_match; [|apply preserves_raise].
    apply preserves_bind; [|intros p; apply preserves_ret]. unfold lift_w. case_match; [apply preserves_ret|apply preserves_raise]. }
  intros env. apply preserves_bind; [apply booked_invoke|]. intros _. apply preserves_bind; [apply preserves_gets|].
  intros c. apply preserves_bind; [intros w Hw; by apply (booked_of_db _ w)|]. intros _.
  apply preserves_bind; [apply preserves_session; [apply booked_of_db|apply (booked_upd _ _ (λ now r0, _))]|].
  intros _. apply preserves_bind; [apply booked_invoke|]. intros _. apply preserves_bind; [apply preserves_gets|].
  intros up. apply preserves_bind; [apply preserves_guard|]. intros _.
  apply preserves_bind; [apply preserves_when, booked_invoke|]. intros _.
  apply preserves_session; [apply booked_of_db|apply (booked_upd _ _ (λ now r0, _))].
Qed.

(** A pooled sandbox that is idle: its container is recorded and cut off. *)
Definition idle_isolated (id : string) (w : World) : Prop :=
  ∃ r c, w.(w_db).(pool_sandboxes) !! id = Some r ∧ r.(ps_status) = PIdle ∧ r.(ps_runtime_id) = Some c ∧
    DenyNetwork c ∈ w.(w_log).

Lemma boot_steps_ok r server w w' :
  w.(w_db).(pool_sandboxes) !! r.(ps_id) = Some r → r.(ps_status) = PBooting →
  pool_boot_steps E r server w = (Ok tt, w') → idle_isolated r.(ps_id) w'.
Proof.
  intros Hr Hb H. unfold pool_boot_steps in H. apply bind_ok_inv in H as (env & w1 & H1 & H).
  assert (w1.(w_db) = w.(w_db)) as Hdb1.
  { clear H. case_match; [by inv_ok|]. case_match; [|done]. unfold lift_w in H1. case_match; by inv_ok. }
  apply bind_ok_inv in H as (? & w2 & H2 & H). pose proof (f_equal (λ p, p.2.(w_db)) H2) as Hdb2. cbn beta in Hdb2.
  rewrite invoke_db in Hdb2. simpl in Hdb2. run_in H.
  set (c := e_container E _ _) in H. apply bind_ok_inv in H as (? & w2' & Hs2 & H).
  apply bind_ok_inv in H as (? & w3 & H3 & H).
  assert (w2'.(w_db).(pool_sandboxes) !! r.(ps_id) = Some (ps_set_runtime_id (Some c.1) (ps_set_runtime_host c.2
    (ps_set_updated_at w2'.(w_clock) r)))) as Hr2.
  { injection Hs2 as _ <-. cbn [w_db put_db]. unfold set_pool_sandbox_runtime, upd_pool. simpl. rewrite <- Hdb2, Hdb1.
    by rewrite lookup_alter_eq, Hr. }
  destruct (quiet_invoke_cases E HE (DenyNetwork c.1) w2') as [H3'|[y H3']]; rewrite H3' in H3; [|done]. injection H3 as <- <-.
  run_in H. apply bind_ok_inv in H as (? & w4 & [_ ->]%guard_ok_inv & H).
  apply bind_ok_inv in H as (? & w5 & H5 & H). injection H as <-.
  assert (w5.(w_db) = w2'.(w_db) ∧ DenyNetwork c.1 ∈ w5.(w_log)) as [Hdb5 Hl5].
  { destruct (_ && _); simpl in H5.
    - match type of H5 with invoke E ?e ?s = _ => destruct (quiet_invoke_cases E HE e s) as [H5'|[z H5']] end; rewrite H5' in H5; [|done].
      injection H5 as <- <-. simpl. split; [done|]. rewrite !elem_of_app. left. right. by left.
    - injection H5 as <- <-. simpl. split; [done|]. rewrite elem_of_app. right. by left. }
  eexists _, c.1. simpl. rewrite Hdb5. split; [|split; [|split; [|done]]].
  - rewrite lookup_alter_eq, Hr2. simpl. rewrite bool_decide_true by done. reflexivity.
  - done.
  - done.
Qed.
End pool_booting.

(** ** The properties of the pool *)

(** a claim takes the oldest idle sandbox of the wanted pool that runs the
    current image, out of the table, and changes nothing else of the database;
    it finds none only when there is none. *)
Theorem claim_takes_oldest E k server_id w r w' :
  pool_keyed w.(w_db) → k ∈ POOL_KINDS →
  pool_claim E k server_id w = (r, w') →
  let fits := claimable k (default "" (str_or_none server_id)) (E.(e_default_image) k) in
  (∃ row, r = Ok (Some row) ∧ fits row ∧ w.(w_db).(pool_sandboxes) !! row.(ps_id) = Some row ∧
     (∀ i row', w.(w_db).(pool_sandboxes) !! i = Some row' → fits row' → row' = row ∨ pool_le row row') ∧
     w'.(w_db) = delete_pool_sandbox row.(ps_id) w.(w_db)) ∨
  (r = Ok None ∧ w' = w ∧ ∀ i row, w.(w_db).(pool_sandboxes) !! i = Some row → ¬ fits row).
Proof.
  intros Hk Hin H fits. unfold pool_claim in H. rewrite bool_decide_true in H by done. cbn [negb] in H. run_in H.
  destruct (claim_pool_sandbox _ _ _ w.(w_db)) as [row|] eqn:Ec; run_in H; injection H as <- <-; [left|right].
  - apply claim_oldest in Ec as ([i Hi] & Hc & Ho). exists row. split_and!; try done. by rewrite (Hk _ _ Hi).
  - split_and!; [done..|]. by apply claim_none.
Qed.

(** a boot of a pooled sandbox always ends: with its row idle, and then its
    container is recorded on it and has no network; or with its row failed and
    the reason. *)
Theorem pool_boot_ends E r server w :
  quiet E → w.(w_db).(pool_sandboxes) !! r.(ps_id) = Some r → r.(ps_status) = PBooting →
  ∃ w', pool_boot E r server w = (Ok tt, w') ∧
    (idle_isolated r.(ps_id) w' ∨
     ∃ r' e, w'.(w_db).(pool_sandboxes) !! r.(ps_id) = Some r' ∧ r'.(ps_status) = PFailed ∧ r'.(ps_error_message) = Some e).
Proof.
  intros HE Hr Hb. unfold pool_boot, try_. destruct (pool_boot_steps E r server w) as [[[]|e] w1] eqn:Es.
  - exists w1. split; [done|left]. by eapply boot_steps_ok.
  - pose proof (booked_boot_steps E HE r server w (ex_intro _ r Hr)) as Hw1. rewrite Es in Hw1. destruct Hw1 as [r1 Hr1].
    set (w2 := put_db (set_pool_sandbox_failed w1.(w_clock) (exn_text e) r.(ps_id) w1.(w_db)) w1).
    assert (w2.(w_db).(pool_sandboxes) !! r.(ps_id) = Some (ps_set_status PFailed (ps_set_error_message (Some (exn_text e))
      (ps_set_updated_at w1.(w_clock) r1)))) as Hr2.
    { unfold w2, set_pool_sandbox_failed, upd_pool. simpl. simpl in Hr1. by rewrite lookup_alter_eq, Hr1. }
    match goal with |- context [(?m ≫= _) w1] => assert (m w1 = (Ok (w2.(w_db).(pool_sandboxes) !! r.(ps_id)), w2)) as Hm by done end.
    rewrite (bind_ok _ _ _ _ _ Hm), Hr2.
    match goal with |- context [pool_remove E ?row server w2] => destruct (pool_remove_run E HE row server w2) as (w3 & -> & Hdb) end.
    exists w3. split; [done|right]. rewrite Hdb, Hr2. by eexists _, _.
Qed.

(** what filling one pool does brings it to its size.  With fewer members
    than the size, just the missing ones are started and none is dropped; with
    more, none is started, and of the idle ones (the oldest first) as many as
    the size stay. *)
Theorem fill_plan_fills size members :
  0 ≤ size →
  let idle := filter (λ r, is_idle r = true) members in
  let plan := fill_plan size true members in
  (Z.of_nat (length members) ≤ size → plan.1 = [] ∧ Z.of_nat (length members + plan.2) = size) ∧
  (size ≤ Z.of_nat (length members) → plan.2 = O ∧
     idle = take (Z.to_nat size) idle ++ plan.1 ∧ Z.of_nat (length idle - length plan.1) = Z.min size (Z.of_nat (length idle))).
Proof.
  intros Hs idle plan. unfold plan, fill_plan. simpl. fold idle.
  assert (length idle ≤ length members)%nat as Hl by apply length_filter. split; intros H; split_and!.
  - apply drop_ge. lia.
  - lia.
  - lia.
  - by rewrite take_drop.
  - rewrite length_drop. lia.
Qed.

(** demand covers the hour: of its refill intervals at most three saw more
    creates of a kind than the pool's demand for it, unless that is the most a
    pool may hold. *)
Theorem demand_covers found v :
  (length found ≤ 360)%nat → demand_of found = Some v → v < MAX_SIZE →
  (length (filter (λ x, v < x)%Z found) ≤ 3)%nat.
Proof. apply demand_of_covers. Qed.

Definition demo_pooled (id : string) (st : pool_status) (created : Z) : PoolSandbox :=
  mkPoolSandbox id Desktop None "zoo:1" [(VNC_PASSWORD, JStr "pw")] st (Some "c1") None None created created created.

Definition demo_pool : World :=
  mkWorld (set_pool_sandboxes (<["p1" := demo_pooled "p1" PIdle 3]> (<["p2" := demo_pooled "p2" PIdle 2]>
    {["p3" := demo_pooled "p3" PBooting 1]})) empty_db) 5 ∅ ∅ ∅ [].

Lemma demo_pool_keyed : pool_keyed demo_pool.(w_db).
Proof. intros i r. simpl. rewrite !lookup_insert_Some, lookup_singleton_Some. naive_solver. Qed.

Lemma claim_takes_oldest_witness :
  ∃ row w', pool_claim demo_env Desktop None demo_pool = (Ok (Some row), w') ∧ row.(ps_id) = "p2".
Proof.
  destruct (claim_takes_oldest demo_env Desktop None demo_pool _ _ demo_pool_keyed ltac:(set_solver) eq_refl)
    as [(row & Hr & _)|(Hn & _)]; [|by vm_compute in Hn].
  exists row. eexists. split; [rewrite <- Hr; apply surjective_pairing|].
  vm_compute in Hr. by injection Hr as <-.
Defined.

(** An environment whose uuids are longer than any id in use. *)
Definition fresh_env : Env := mkEnv
  (λ _ _, Ok tt) (λ w, w) (λ _ _, ("c9", None)) (λ _ _, "vm9") (λ _ _, 7) (λ _ _, Ok true) (λ _ _, true)
  (λ _ _, false) false (λ _, "zoo:1") 60 (λ _, Some (true, "")) (λ _ _, Ok []) (λ _ _, [("ZOO_GUEST", "1")])
  (λ t, Ok t) "vnc" (λ _, true) (λ _, None) (λ _, None) 1%Q (λ _ _, JNull) "/home" (λ _, []) (λ _, "node")
  (λ w, fresh (elements (dom w.(w_db).(sandboxes) ∪ dom w.(w_db).(pool_sandboxes) : gset string))).

Lemma fresh_env_unused : uuid_unused fresh_env.
Proof.
  intros w. simpl. pose proof (infinite_is_fresh (elements (dom w.(w_db).(sandboxes) ∪ dom w.(w_db).(pool_sandboxes) : gset string))) as H.
  rewrite elem_of_elements, elem_of_union in H. split; apply not_elem_of_dom; tauto.
Qed.

Lemma pool_boot_ends_witness : idle_isolated "p3" (pool_boot fresh_env (demo_pooled "p3" PBooting 1) None demo_pool).2.
Proof.
  destruct (pool_boot_ends fresh_env (demo_pooled "p3" PBooting 1) None demo_pool ltac:(done) eq_refl eq_refl)
    as (w' & E & [H|(r' & e & Hr & Hf & _)]).
  - rewrite E. exact H.
  - exfalso. revert Hr Hf. replace w' with (pool_boot fresh_env (demo_pooled "p3" PBooting 1) None demo_pool).2 by (by rewrite E).
    intros Hr. vm_compute in Hr. injection Hr as <-. discriminate.
Defined.

Lemma fill_plan_fills_witness :
  (fill_plan 4 true [demo_pooled "p1" PIdle 3; demo_pooled "p2" PIdle 2]).2 = 2%nat.
Proof.
  destruct (fill_plan_fills 4 [demo_pooled "p1" PIdle 3; demo_pooled "p2" PIdle 2] ltac:(lia)) as [H _].
  destruct H as [_ H]; [vm_compute; discriminate|]. vm_compute in H |- *. congruence.
Defined.

Lemma demand_covers_witness : (length (filter (λ x : Z, 2 < x)%Z [1; 2; 5; 2; 7; 9; 2]%Z) ≤ 3)%nat.
Proof. apply (demand_covers [1; 2; 5; 2; 7; 9; 2] 2); [simpl; lia|vm_compute; reflexivity|reflexivity]. Defined.
