(* ===== verification/Routes.v ===== *)
(** The routes of the sandbox API (src/apps/server/sandbox_api.py): starting,
    stopping, upgrading, deleting, moving, relabelling and snapshotting a
    sandbox, choosing the server of a new one, and creating one, cold or from
    the warm pool.  A route answers with the row it leaves; the shape of the
    JSON response is not modelled. *)

From S2P Require Import Prelude Tables Store Jobs Labels Quotas Registry Security Auth Access Platforms Lifecycle Pool.

Definition AUTO : string := "auto".

(** Source: src/apps/server/sandbox_api.py:195-222 [CreateSandboxRequest]. *)
Record CreateRequest := mkCreate {
  c_name : option string;
  c_kind : kind;
  c_server_id : option string;
  c_profile_ids : list string;
  c_secret_ids : list string;
  c_admin : bool;
  c_queue : bool;
  c_size : Size;
  c_idle_timeout_minutes : option Z;
  c_max_lifetime_minutes : option Z;
  c_labels : list (string * string)
}.

(** A profile's row, as far as a create reads it. *)
Record Profile := mkProfile { pr_workspace_id : string; pr_platform : string; pr_name : string }.

Definition busy_statuses : list status := [Running; Provisioning].

Section routes.
Context (E : Env).
(** sizes.UNSIZED_DISK_GB and MAX_SNAPSHOTS, from the environment; the most VMs
    a server of a kind runs; whether a server's Docker runtime is connected *)
Context (UNSIZED_DISK_GB MAX_SNAPSHOTS : Z) (MAX_VMS : kind → Z) (available : World → string → bool).
(** rows of tables the routes only read, and the id of the default image's
    version, which [_default_image_version] makes when it is missing *)
Context (get_profile : string → option Profile) (secret_workspace : string → option string)
  (default_version : Member → string).

Definition enqueue_new (sandbox_id : string) (k : job_kind) (deadline : option Z) (args : list (string * json)) : M World unit :=
  id ← uuid E;
  enqueue_job id sandbox_id k deadline args.

(** A row after a statement [RETURNING] it. *)
Definition the_row (sandbox_id : string) : M World Sandbox :=
  found ← query (get_sandbox sandbox_id);
  match found with Some s => mret s | None => raise AssertionError end.

(** ** Lifecycle routes *)

(** Source: src/apps/server/sandbox_api.py:469-480 [start_sandbox]. *)
Definition start_sandbox (sandbox_id : string) (user : Member) : M World Sandbox :=
  response ← session (
    sandbox ← idle sandbox_id user;
    guard_ (negb (bool_decide (sandbox.(sb_status) ∈ busy_statuses))) (status_is sandbox);;
    mine ← query (λ d, labels_of d sandbox.(sb_id));
    check UNSIZED_DISK_GB sandbox.(sb_workspace_id) (size_of sandbox) false mine;;
    exec (λ now, update_sandbox_status now Provisioning sandbox.(sb_id));;
    sandbox ← the_row sandbox.(sb_id);
    enqueue_new sandbox.(sb_id) KBoot (Some (boot_deadline sandbox.(sb_kind))) [];;
    mret sandbox);
  kick;;
  mret response.

(** Source: src/apps/server/sandbox_api.py:482-494 [stop_sandbox]. *)
Definition stop_sandbox (sandbox_id : string) (user : Member) : M World Sandbox :=
  response ← session (
    sandbox ← owned sandbox_id user;
    active ← query (get_active_job sandbox.(sb_id));
    match active with
    | Some j => guard_ (negb (bool_decide (j.(j_kind) ∈ [KStop; KDelete]))) (busy j.(j_kind))
    | None => mret tt
    end;;
    exec (λ now, cancel_sandbox_jobs now sandbox.(sb_id));;
    enqueue_new sandbox.(sb_id) KStop None [];;
    mret sandbox);
  kick;;
  mret response.

(** Source: src/apps/server/sandbox_api.py:496-509 [set_lifecycle]. *)
Definition set_lifecycle (sandbox_id : string) (idle_minutes lifetime_minutes : option Z) (user : Member) : M World Sandbox :=
  session (
    sandbox ← owned sandbox_id user;
    exec (λ _, set_sandbox_lifecycle idle_minutes lifetime_minutes sandbox.(sb_id));;
    owned sandbox_id user).

(** Source: src/apps/server/sandbox_api.py:511-531 [upgrade_sandbox]. *)
Definition upgrade_sandbox (sandbox_id : string) (user : Member) : M World Sandbox :=
  response ← session (
    sandbox ← idle sandbox_id user;
    guard_ (negb (is_none (dget "image" sandbox.(sb_config))))
      (HTTPException 400 [Txt "this sandbox doesn't run the default image"]);;
    guard_ (bool_decide (sandbox.(sb_status) ∈ [Running; Stopped; Failed])) (status_is sandbox);;
    let config := dset "image" (JStr (E.(e_default_image) sandbox.(sb_kind))) sandbox.(sb_config) in
    exec (λ now, update_sandbox now sandbox.(sb_name) sandbox.(sb_resources) config sandbox.(sb_id));;
    (if bool_decide (sandbox.(sb_status) = Running)
     then enqueue_new sandbox.(sb_id) KStop None [("restart", JBool true)]
     else
       exec (λ now, update_sandbox_status now Provisioning sandbox.(sb_id));;
       enqueue_new sandbox.(sb_id) KBoot (Some (boot_deadline sandbox.(sb_kind))) [("upgrade", JBool true)]);;
    owned sandbox.(sb_id) user);
  kick;;
  mret response.

(** Source: src/apps/server/sandbox_api.py:533-543 [delete_sandbox]. *)
Definition delete_sandbox_route (sandbox_id : string) (user : Member) : M World string :=
  id ← session (
    sandbox ← owned sandbox_id user;
    active ← query (get_active_job sandbox.(sb_id));
    when (match active with None => true | Some j => negb (bool_decide (j.(j_kind) = KDelete)) end) (
      exec (λ now, cancel_sandbox_jobs now sandbox.(sb_id));;
      exec (λ now, update_sandbox_status now Deleting sandbox.(sb_id));;
      enqueue_new sandbox.(sb_id) KDelete None []);;
    mret sandbox.(sb_id));
  kick;;
  mret id.

(** Source: src/apps/server/sandbox_api.py:448-467 [update_sandbox]. *)
Definition update_sandbox_route (sandbox_id : string) (name : option string) (labels : option (list (string * string)))
    (user : Member) : M World Sandbox :=
  session (
    sandbox ← owned sandbox_id user;
    sandbox ← match name with
              | Some n => exec (λ now, rename_sandbox now n sandbox.(sb_id));; the_row sandbox.(sb_id)
              | None => mret sandbox
              end;
    match labels with
    | None => mret tt
    | Some ls =>
        wanted ← lift_result (scoped ls user.(m_key_labels));
        current ← query (λ d, labels_of d sandbox.(sb_id));
        when (counted sandbox.(sb_status)) (
          let added := filter (λ kv, dget kv.1 current ≠ Some kv.2) wanted in
          check UNSIZED_DISK_GB sandbox.(sb_workspace_id) (size_of sandbox) false added);;
        exec (λ _, put_labels sandbox.(sb_id) wanted)
    end;;
    mret sandbox).

(** ** Placement *)

(** Servers of the user's workspace that run the platform. *)
Definition capable (platform : string) (user : Member) (d : Db) : list Server :=
  filter (λ s, platform ∈ parse s.(sv_capabilities)) (list_servers_by_workspace user.(m_workspace_id) d).

(** How many of the sandboxes a condition selects a server has. *)
Definition load_of (p : Sandbox → bool) (d : Db) (server : Server) : nat :=
  length (filter (λ s, s.(sb_server_id) = Some server.(sv_id) ∧ p s = true ∧ s.(sb_status) ∈ busy_statuses)
    (list_all_sandboxes d)).

(** [min(load, key=load.get)]: the first of the least loaded. *)
Fixpoint least (load : Server → nat) (l : list Server) : option Server :=
  match l with
  | [] => None
  | s :: l' =>
      match least load l' with
      | Some t => if (load t <? load s)%nat then Some t else Some s
      | None => Some s
      end
  end.

Definition PLATFORM_NAMES (k : kind) : string := match k with Macos => "macOS" | Windows => "Windows" | _ => "" end.

Definition has_server (id : string) (l : list Server) : bool := existsb (λ s, bool_decide (s.(sv_id) = id)) l.

(** Source: src/apps/server/sandbox_api.py:957-983 [SandboxApi.place_vm]. *)
Definition place_vm (platform : kind) (server_id : option string) (servers : list Server) (queue : bool) : M World string :=
  let name := PLATFORM_NAMES platform in
  let limit := MAX_VMS platform in
  match servers with
  | [] =>
      raise (HTTPException 400 [Txt "add a "; Txt (match dget (kind_name platform) PLATFORMS with Some p => p.(pf_host) | None => "" end);
        Txt " under Servers to run "; Txt name; Txt " sandboxes"])
  | _ =>
      match server_id with
      | Some id =>
          if decide (id = AUTO) then mret tt
          else guard_ (has_server id servers) (HTTPException 404 [Txt name; Txt " server not found"])
      | None => mret tt
      end;;
      match server_id with
      | Some id => if decide (id = AUTO) then mret None else mret (Some id)
      | None => mret None
      end ≫= λ chosen : option string,
      match chosen with
      | Some id => mret id
      | None =>
          load ← query (load_of (λ s, bool_decide (s.(sb_kind) = platform)));
          match least load servers with
          | None => raise (ValueError [])
          | Some best =>
              if bool_decide (Z.of_nat (load best) < limit) then mret best.(sv_id)
              else if bool_decide (platform = Macos) && queue then mret best.(sv_id)
              else if bool_decide (platform = Macos) then
                raise (HTTPException 409 [Txt "Mac full: every Mac already runs "; Num limit;
                  Txt " macOS VMs, the most Apple allows per Mac. Stop one, add a Mac, or create with queue to wait for room"])
              else raise (HTTPException 409 [Txt "every "; Txt name; Txt " server already runs "; Num limit; Txt " VMs"])
          end
      end
  end.

(** Source: src/apps/server/sandbox_api.py:920-955 [SandboxApi.place]. *)
Definition place (server_id : option string) (user : Member) (k : kind) (queue : bool) : M World (option string) :=
  servers ← query (capable (os_of (kind_name k)) user);
  if is_vm_kind k then
    id ← place_vm k server_id servers queue;
    mret (Some id)
  else
    match server_id with
    | None => mret None
    | Some id =>
        if decide (id = AUTO) then
          ready ← gets (λ w, filter (λ s, available w s.(sv_id) = true) servers);
          load ← query (load_of (λ _, true));
          mret (sv_id <$> least load ready)
        else
          guard_ (has_server id servers) (HTTPException 404 [Txt "Linux-capable server not found"]);;
          up ← gets (λ w, available w id);
          guard_ up (ZooError "unavailable" [Txt "the server's Linux Docker runtime is not ready"]);;
          mret (Some id)
    end.

(** Source: src/apps/server/sandbox_api.py:545-572 [move_sandbox].  The request
    names a server or a Kubernetes node. *)
Definition move_sandbox (sandbox_id : string) (server_id node_name : option string) (user : Member) : M World Sandbox :=
  response ← session (
    sandbox ← idle sandbox_id user;
    guard_ (negb (bool_decide (sandbox.(sb_status) ∈ busy_statuses)))
      (HTTPException 409 [Txt "stop the sandbox before moving it"]);;
    (if negb (is_vm_kind sandbox.(sb_kind)) then
       guard_ (negb (on_server sandbox) && E.(e_kube))
         (ZooError "not_supported" [Txt "Docker sandboxes run on one host and cannot be moved."]);;
       match server_id, node_name with
       | None, Some node => enqueue_new sandbox.(sb_id) KMove None [("target", JStr node)]
       | _, _ => raise (ZooError "bad_request" [Txt "Kubernetes moves require node_name, not a registered server."])
       end
     else
       guard_ (is_none node_name) (ZooError "bad_request" [Txt "VM moves require server_id."]);;
       snapshots ← query (list_snapshots_by_sandbox sandbox.(sb_id));
       guard_ (bool_decide (snapshots = []))
         (HTTPException 409 [Txt "delete this sandbox's snapshots before moving it: they stay on its current server"]);;
       target ← place server_id user sandbox.(sb_kind) false;
       when (negb (bool_decide (target = sandbox.(sb_server_id))))
         (enqueue_new sandbox.(sb_id) KMove None [("target", match target with Some t => JStr t | None => JNull end)]));;
    mret sandbox);
  kick;;
  mret response.

(** ** Snapshot routes *)

(** Source: src/apps/server/sandbox_api.py:1416-1420 [SandboxApi.snapshot_of]. *)
Definition snapshot_of (sandbox : Sandbox) (snapshot_id : string) : M World Snapshot :=
  found ← query (get_snapshot snapshot_id);
  match found with
  | Some sn =>
      guard_ (bool_decide (sn.(sn_sandbox_id) = sandbox.(sb_id))) (HTTPException 404 [Txt "snapshot not found"]);;
      mret sn
  | None => raise (HTTPException 404 [Txt "snapshot not found"])
  end.

(** Source: src/apps/server/sandbox_api.py:723-755 [create_snapshot].  [name] is
    the request's, stripped. *)
Definition create_snapshot_route (sandbox_id name : string) (user : Member) : M World string :=
  id ← session (
    sandbox ← idle sandbox_id user;
    guard_ (negb (is_vm_kind sandbox.(sb_kind)) || bool_decide (sandbox.(sb_status) = Stopped))
      (HTTPException 409 [Txt "stop the sandbox before snapshotting its disk"]);;
    guard_ (bool_decide (sandbox.(sb_status) ∈ [Running; Stopped])) (status_is sandbox);;
    existing ← query (list_snapshots_by_sandbox sandbox.(sb_id));
    guard_ (bool_decide (Z.of_nat (length existing) < MAX_SNAPSHOTS))
      (HTTPException 409 [Txt "a sandbox keeps at most "; Num MAX_SNAPSHOTS; Txt " snapshots; delete one first"]);;
    let name := or_else name ("Snapshot " +:+ pretty (Z.of_nat (length existing) + 1)) in
    id ← uuid E;
    taken ← query (get_snapshot id);
    guard_ (is_none taken) IntegrityError;;
    exec (λ now, create_snapshot now id sandbox.(sb_id) sandbox.(sb_server_id) name user.(m_id));;
    enqueue_new sandbox.(sb_id) KSnapshot None [("snapshot_id", JStr id)];;
    mret id);
  kick;;
  mret id.

Definition snapshot_state_name (s : snapshot_state) : string :=
  match s with SnCreating => "creating" | SnReady => "ready" | SnFailed => "failed" end.

(** Source: src/apps/server/sandbox_api.py:757-771 [restore_from_snapshot]. *)
Definition restore_from_snapshot (sandbox_id snapshot_id : string) (user : Member) : M World Sandbox :=
  response ← session (
    sandbox ← idle sandbox_id user;
    found ← snapshot_of sandbox snapshot_id;
    guard_ (bool_decide (found.(sn_state) = SnReady))
      (HTTPException 409 [Txt "the snapshot is "; Txt (snapshot_state_name found.(sn_state))]);;
    guard_ (bool_decide (sandbox.(sb_status) = Stopped))
      (HTTPException 409 [Txt "stop the sandbox before restoring a snapshot"]);;
    enqueue_new sandbox.(sb_id) KRestore None [("snapshot_id", JStr found.(sn_id))];;
    mret sandbox);
  kick;;
  mret response.

(** Source: src/apps/server/sandbox_api.py:773-787 [delete_snapshot]. *)
Definition delete_snapshot_route (sandbox_id snapshot_id : string) (user : Member) : M World unit :=
  found ← session (
    sandbox ← owned sandbox_id user;
    found ← snapshot_of sandbox snapshot_id;
    active ← query (get_active_job sandbox.(sb_id));
    match active with
    | Some j => guard_ (negb (bool_decide (j.(j_kind) ∈ [KSnapshot; KRestore]))) (busy j.(j_kind))
    | None => mret tt
    end;;
    mret (sandbox, found));
  try_ (invoke E (RemoveSnapshot found.1.(sb_id) found.2.(sn_id)))
    (λ e, raise (HTTPException 502 [Txt (truncate 500 ("couldn't remove the snapshot from its host: " +:+ exn_text e))]));;
  session (exec (λ _, delete_snapshot found.2.(sn_id))).

(** ** Running commands in a batch *)

(** [result["exit_code"] != 0 or result.get("timed_out")] *)
Definition command_failed (result : json) : bool :=
  negb (match jget "exit_code" result with JInt z => z =? 0 | _ => false end) || truthy (jget "timed_out" result).

(** Source: src/apps/server/sandbox_api.py:602-622 [execute_batch].  [run] is
    [run_tool] on one command; the results and whether it stopped early. *)
Fixpoint execute_batch {A} (run : A → M World json) (stop_on_error : bool) (commands : list A) : M World (list json * bool) :=
  match commands with
  | [] => mret ([], false)
  | c :: rest =>
      result ← run c;
      if stop_on_error && command_failed result then mret ([result], true)
      else
        r ← execute_batch run stop_on_error rest;
        mret (result :: r.1, r.2)
  end.

(** ** Creating *)

(** [size == sizes.DEFAULT]: numbers compare by value. *)
Definition is_default (s : Size) : bool :=
  Qeq_bool s.(size_cpus) DEFAULT_SIZE.(size_cpus) && (s.(size_memory_mb) =? DEFAULT_SIZE.(size_memory_mb))
  && is_none s.(size_disk_gb).

Definition check_profile (user : Member) (k : kind) (id : string) : M World unit :=
  match get_profile id with
  | Some p =>
      guard_ (bool_decide (p.(pr_workspace_id) = user.(m_workspace_id))) (HTTPException 404 [Txt "profile not found"]);;
      guard_ (bool_decide (p.(pr_platform) = platform_of k))
        (HTTPException 400 [Txt "profile "; Txt p.(pr_name); Txt " is from a "; Txt p.(pr_platform); Txt " sandbox"])
  | None => raise (HTTPException 404 [Txt "profile not found"])
  end.

(** [list(dict.fromkeys(l))]: each once, in the order of the first. *)
Definition fromkeys (l : list string) : list string := dkeys (foldl (λ d k, dset k tt d) [] l).

Definition check_secret (user : Member) (id : string) : M World unit :=
  guard_ (bool_decide (secret_workspace id = Some user.(m_workspace_id))) (HTTPException 404 [Txt "secret not found"]).

(** The config a create writes. *)
Definition create_config (p : CreateRequest) (sandbox_id : string) (server_id : option string) (pooled : option PoolSandbox)
    : list (string * json) :=
  let vm := is_vm_kind p.(c_kind) in
  let config := [("profiles", JArr (JStr <$> p.(c_profile_ids)))] in
  let config := match str_or_none server_id with
                | Some id => if vm then config else dset "remote_server_id" (JStr id) config
                | None => config end in
  let config := if negb vm && is_none pooled then dset "home_claim" (JStr ("zoo-home-" +:+ sandbox_id)) config else config in
  let config := if p.(c_admin) then dset "admin" (JBool true) config else config in
  match pooled with
  | Some r => dset "pooled" (JBool true) (dset "image" (JStr r.(ps_image)) (dmerge r.(ps_config) config))
  | None => config
  end.

(** Source: src/apps/server/sandbox_api.py:1017-1043 [SandboxApi.create].  The
    checks before anything is written; the labels and the server of the
    sandbox. *)
Definition create_checks (p : CreateRequest) (user : Member) : M World (list (string * string) * option string) :=
  require user RMember;;
  guard_ (is_none user.(m_key_sandbox_id)) (HTTPException 403 [Txt "this API key only reaches its own sandbox"]);;
  guard_ (negb p.(c_admin) || bool_decide (p.(c_kind) = Macos)) (HTTPException 400 [Txt "admin sandboxes are for macOS"]);;
  guard_ (negb (is_vm_kind p.(c_kind)) || is_default p.(c_size))
    (HTTPException 400 [Txt "sizing is supported on Linux sandboxes only"]);;
  labels ← lift_result (scoped p.(c_labels) user.(m_key_labels));
  check UNSIZED_DISK_GB user.(m_workspace_id) p.(c_size) true labels;;
  server_id ← place p.(c_server_id) user p.(c_kind) p.(c_queue);
  for_ p.(c_profile_ids) (check_profile user p.(c_kind));;
  for_ p.(c_secret_ids) (check_secret user);;
  mret (labels, server_id).

(** Source: src/apps/server/sandbox_api.py:1044-1094 [SandboxApi.create].  What it
    writes once its checks passed: the pooled sandbox it claims, the row, the
    labels, the secrets, and the boot job of a cold one. *)
Definition create_rows (p : CreateRequest) (user : Member) (labels : list (string * string)) (server_id : option string)
    : M World Sandbox :=
  pooled ← (if is_default p.(c_size) then pool_claim E p.(c_kind) server_id else mret None);
  fresh_id ← uuid E;
  let sandbox_id := match pooled with Some r => r.(ps_id) | None => fresh_id end in
  taken ← query (get_sandbox sandbox_id);
  guard_ (is_none taken) IntegrityError;;
  exec (λ now, create_sandbox now sandbox_id user.(m_workspace_id) (default_version user) user.(m_id)
    (match str_or_none p.(c_name) with Some n => n | None => "sandbox-" +:+ truncate 8 sandbox_id end)
    (if is_vm_kind p.(c_kind) then kind_name p.(c_kind) else if E.(e_kube) then "kube" else "docker") "{}"
    (create_config p sandbox_id server_id pooled));;
  match pooled with
  | Some r => exec (λ now, update_sandbox_runtime now r.(ps_runtime_id) r.(ps_runtime_host) sandbox_id)
  | None => mret tt
  end;;
  exec (λ now, set_sandbox_placement now server_id p.(c_kind) sandbox_id);;
  exec (λ _, set_sandbox_size p.(c_size).(size_cpus) p.(c_size).(size_memory_mb) p.(c_size).(size_disk_gb) sandbox_id);;
  exec (λ _, set_sandbox_lifecycle p.(c_idle_timeout_minutes) p.(c_max_lifetime_minutes) sandbox_id);;
  exec (λ _, put_labels sandbox_id labels);;
  for_ (fromkeys p.(c_secret_ids)) (λ secret_id, emit (AttachSecret sandbox_id secret_id));;
  exec (λ now, update_sandbox_status now Provisioning sandbox_id);;
  sandbox ← the_row sandbox_id;
  when (is_none pooled) (enqueue_new sandbox_id KBoot (Some (boot_deadline sandbox.(sb_kind))) []);;
  mret sandbox.

(** Source: src/apps/server/sandbox_api.py:1017-1094 [SandboxApi.create]. *)
Definition create (p : CreateRequest) (user : Member) : M World Sandbox :=
  c ← create_checks p user;
  create_rows p user c.1 c.2.

(** Source: src/apps/server/sandbox_api.py:1127-1172 [SandboxApi.hand_off].  The
    steps it runs side by side are written in the order it lists them. *)
Definition hand_off (sandbox : Sandbox) : M World unit :=
  alive ← gets (λ w, match str_or_none sandbox.(sb_runtime_id) with
    | None => Ok false
    | Some r => E.(e_running) w.(w_log) r
    end);
  up ← lift_w alive;
  guard_ up (RuntimeError [Txt "the pooled container is gone"]);;
  let runtime_id := default "" sandbox.(sb_runtime_id) in
  secrets ← session (λ w, lift_w (E.(e_secret_env) w.(w_db) sandbox.(sb_id)) w);
  match dget VNC_PASSWORD sandbox.(sb_config) with
  | Some stored =>
      if truthy stored
      then p ← lift_w (E.(e_decrypt) (json_text stored)); remember_secrets sandbox.(sb_id) (secrets.*2 ++ [p])
      else remember_secrets sandbox.(sb_id) secrets.*2
  | None => remember_secrets sandbox.(sb_id) secrets.*2
  end;;
  when (E.(e_kube) && negb (on_server sandbox)) (invoke E (ResumeRuntime runtime_id));;
  enforce E (sb_set_status Running sandbox);;
  when (negb (bool_decide (secrets = []))) (invoke E (WriteSecrets runtime_id (dkeys secrets)));;
  for_ (profiles_of E sandbox) (apply_profile E runtime_id);;
  found ← session (
    exec (λ now, set_sandbox_started now sandbox.(sb_id));;
    exec (λ _, set_sandbox_reachable sandbox.(sb_id));;
    query (get_sandbox sandbox.(sb_id)));
  when (E.(e_kube) && negb (on_server sandbox)) (swallow (bind_vm E sandbox.(sb_id)));;
  match found with
  | Some s => when (bool_decide (s.(sb_kind) = Browser)) (swallow (invoke E (StartBrowser runtime_id)))
  | None => mret tt
  end.

(** Source: src/apps/server/sandbox_api.py:1174-1185 [SandboxApi.discard]. *)
Definition discard (sandbox : Sandbox) : M World unit :=
  swallow (remove_runtime E sandbox);;
  forget_secrets sandbox.(sb_id);;
  session (exec (λ _, delete_sandbox sandbox.(sb_id))).

(** Source: src/apps/server/sandbox_api.py:1187-1192 [SandboxApi.response_of]. *)
Definition response_of (sandbox_id : string) : M World Sandbox :=
  session (
    found ← query (get_sandbox sandbox_id);
    match found with
    | Some s => mret s
    | None => raise (ZooError "sandbox_not_found" [Txt "sandbox not found"])
    end).

Definition was_pooled (s : Sandbox) : bool := truthy (default JNull (dget "pooled" s.(sb_config))).

Definition WARM_CEILING : Z := 10.

(** Source: src/apps/server/sandbox_api.py:1096-1125 [SandboxApi.create_async].
    [fuel] bounds the turns of its loop; [None] when it ran out.  The hand-over
    and the response are the body of its [try]; a hand-over that does not end
    by the deadline is one of which a call fails. *)
Fixpoint create_loop (fuel : nat) (deadline : time) (p : CreateRequest) (user : Member) : M World (option Sandbox) :=
  match fuel with
  | O => mret None
  | S fuel' =>
      sandbox ← session (create p user);
      if negb (was_pooled sandbox) then kick;; mret (Some sandbox)
      else
        outcome ← (λ w, match (hand_off sandbox;; response_of sandbox.(sb_id)) w with
                        | (Ok s, w') => (Ok (Some s), w')
                        | (Err _, w') => (Ok None, w')
                        end);
        match outcome with
        | Some s => mret (Some s)
        | None =>
            discard sandbox;;
            now ← now_;
            if bool_decide (deadline ≤ now)
            then raise (ZooError "create_failed" [Txt "no warm sandbox could be handed over in time"])
            else create_loop fuel' deadline p user
        end
  end.

Definition create_async (fuel : nat) (p : CreateRequest) (user : Member) : M World (option Sandbox) :=
  began ← now_;
  create_loop fuel (began + sec WARM_CEILING) p user.

(** ** All routes of one sandbox *)

Inductive route :=
| RStart | RStop | RLifecycle (idle_minutes lifetime_minutes : option Z) | RUpgrade | RDelete
| RMove (server_id node_name : option string) | RUpdate (name : option string) (labels : option (list (string * string)))
| RSnapshot (name : string) | RRestore (snapshot_id : string) | RDeleteSnapshot (snapshot_id : string).

Definition run_route (r : route) (id : string) (user : Member) : M World unit :=
  match r with
  | RStart => start_sandbox id user;; mret tt
  | RStop => stop_sandbox id user;; mret tt
  | RLifecycle a b => set_lifecycle id a b user;; mret tt
  | RUpgrade => upgrade_sandbox id user;; mret tt
  | RDelete => delete_sandbox_route id user;; mret tt
  | RMove a b => move_sandbox id a b user;; mret tt
  | RUpdate n l => update_sandbox_route id n l user;; mret tt
  | RSnapshot n => create_snapshot_route id n user;; mret tt
  | RRestore sn => restore_from_snapshot id sn user;; mret tt
  | RDeleteSnapshot sn => delete_snapshot_route id sn user
  end.
End routes.

(** ** Routes keep to their sandbox *)

(** What is another sandbox's is as it was: rows, jobs, labels and snapshots. *)
Definition others_kept (id : string) (d0 d : Db) : Prop :=
  (∀ i, i ≠ id → d.(sandboxes) !! i = d0.(sandboxes) !! i) ∧
  (∀ i j, d0.(jobs) !! i = Some j → j.(j_sandbox_id) ≠ id → d.(jobs) !! i = Some j) ∧
  (∀ i j, d.(jobs) !! i = Some j → j.(j_sandbox_id) ≠ id → d0.(jobs) !! i = Some j) ∧
  (∀ i, i ≠ id → d.(sandbox_labels) !! i = d0.(sandbox_labels) !! i) ∧
  (∀ i sn, d0.(snapshots) !! i = Some sn → sn.(sn_sandbox_id) ≠ id → d.(snapshots) !! i = Some sn).

Section isolation.
Context (E : Env) (HE : quiet E) (id : string) (w0 : World).

Definition kept (w : World) : Prop := ids_ok w.(w_db) ∧ others_kept id w0.(w_db) w.(w_db).

Lemma kept_of_db : of_db kept.
Proof. intros w w' Hw. unfold kept. by rewrite Hw. Qed.

Abbreviation keeps := (preserves kept).

Lemma keeps_sess {A} (m : M World A) : keeps m → keeps (session m).
Proof. apply preserves_session, kept_of_db. Qed.

Lemma keeps_q {A} (f : Db → A) : keeps (query f).
Proof. by intros w Hw. Qed.

Lemma keeps_emit_ e : keeps (emit e).
Proof. intros w Hw. by apply (kept_of_db w). Qed.

Lemma keeps_invoke_ e : keeps (invoke E e).
Proof. intros w Hw. apply (kept_of_db w); [by rewrite invoke_db|done]. Qed.

Lemma keeps_row (f : time → Sandbox → Sandbox) :
  (∀ now s, (f now s).(sb_id) = s.(sb_id)) → keeps (exec (λ now, upd_sandbox id (f now))).
Proof.
  intros Hf w [Hids (H1 & H2)]. split; [|split; [|exact H2]].
  - intros i s. unfold exec, modify. cbn [snd w_db put_db]. rewrite lookup_upd_sandbox. case_decide; [|apply Hids].
    destruct (_ !! i) eqn:Er; intros [= <-]. rewrite Hf. by apply Hids.
  - intros i Hi. unfold exec, modify. cbn [snd w_db put_db]. rewrite lookup_upd_sandbox, decide_False by done. auto.
Qed.

Lemma keeps_enqueue k deadline args : keeps (enqueue_new E id k deadline args).
Proof.
  intros w Hw. unfold enqueue_new, uuid. run. unfold enqueue_job, enqueue, handler_of. run.
  destruct (get_job (e_uuid E w) w.(w_db)) eqn:Hj; simpl is_none; run; [done|].
  destruct Hw as [Hids (H1 & H2 & H3 & H4)]. split; [done|]. unfold create_job, get_job in *. split_and!; simpl; [done| | |apply H4|apply H4].
  - intros i j Hi Hne. rewrite lookup_insert_ne; [auto|]. intros <-. apply H2 in Hi; [|done]. congruence.
  - intros i j. rewrite lookup_insert. case_decide; [|apply H3]. intros [= <-] []. done.
Qed.

Lemma keeps_cancel : keeps (exec (λ now, cancel_sandbox_jobs now id)).
Proof.
  intros w [Hids (H1 & H2 & H3 & H4)]. split; [done|]. split_and!; simpl; [done| | |apply H4|apply H4].
  - intros i j Hi Hne. rewrite lookup_fmap, (H2 i j Hi Hne). simpl. by rewrite bool_decide_false by done.
  - intros i j. rewrite lookup_fmap. destruct (_ !! i) as [j0|] eqn:Ej; [|done]. simpl. intros [= <-].
    destruct (bool_decide (j0.(j_sandbox_id) = id) && is_state JQueued j0) eqn:Eb; [|by apply H3].
    intros []. simpl. by apply andb_true_iff in Eb as [?%bool_decide_eq_true _].
Qed.

Lemma labels_put_labels i ls d : i ≠ id → (put_labels id ls d).(sandbox_labels) !! i = d.(sandbox_labels) !! i.
Proof.
  intros Hi. unfold put_labels.
  assert (∀ l d0, (foldl (λ d kv, put_one id kv d) d0 l).(sandbox_labels) !! i = d0.(sandbox_labels) !! i) as Hl.
  { induction l as [|kv l IH]; intros d0; simpl; [done|]. rewrite IH. simpl. by rewrite lookup_insert_ne. }
  rewrite Hl. simpl. by rewrite lookup_delete_ne.
Qed.

Lemma put_labels_rest ls d :
  (put_labels id ls d).(sandboxes) = d.(sandboxes) ∧ (put_labels id ls d).(jobs) = d.(jobs) ∧
  (put_labels id ls d).(snapshots) = d.(snapshots).
Proof.
  unfold put_labels.
  assert (∀ l d0, let d1 := foldl (λ d kv, put_one id kv d) d0 l in
    d1.(sandboxes) = d0.(sandboxes) ∧ d1.(jobs) = d0.(jobs) ∧ d1.(snapshots) = d0.(snapshots)) as Hl.
  { induction l as [|kv l IH]; intros d0; simpl; [done|]. apply (IH (put_one id kv d0)). }
  apply (Hl ls (delete_usage_labels id (delete_sandbox_labels id d))).
Qed.

Lemma keeps_put_labels ls : keeps (exec (λ _, put_labels id ls)).
Proof.
  intros w [Hids (H1 & H2 & H3 & H4 & H5)]. destruct (put_labels_rest ls w.(w_db)) as (Es & Ej & En).
  split; [intros i s; simpl; rewrite Es; apply Hids|].
  split_and!; simpl; rewrite ?Es, ?Ej, ?En; try done. intros i Hi. rewrite labels_put_labels by done. auto.
Qed.

(** Routes start by looking their sandbox up. *)
Lemma keeps_owned {B} user (k : Sandbox → M World B) :
  (∀ s, s.(sb_id) = id → keeps (k s)) → keeps (owned id user ≫= k).
Proof.
  intros Hk w Hw. unfold mbind, M_bind. destruct (owned id user w) as [[s|e] w'] eqn:Eo.
  - apply owned_ok in Eo as [-> Hr]; [|apply Hw]. apply Hk; [|done]. apply (proj1 Hw), Hr.
  - simpl. pose proof (owned_world id user w) as H. by rewrite Eo in H; simpl in H; subst.
Qed.

Lemma keeps_idle {B} user (k : Sandbox → M World B) :
  (∀ s, s.(sb_id) = id → keeps (k s)) → keeps (idle id user ≫= k).
Proof.
  intros Hk w Hw. unfold idle. rewrite run_bind_assoc. revert w Hw. apply keeps_owned. intros s Hs w Hw. run.
  case_match; run; [done|]. by apply Hk.
Qed.

Lemma keeps_row_of {B} (k : Sandbox → M World B) :
  (∀ s, s.(sb_id) = id → keeps (k s)) → keeps (the_row id ≫= k).
Proof.
  intros Hk w Hw. unfold the_row. rewrite run_bind_assoc. run. unfold get_sandbox.
  destruct (_ !! id) as [s|] eqn:Es; run; [|done]. apply Hk; [|done]. by apply (proj1 Hw).
Qed.

Lemma check_world U ws size new ls w : (check U ws size new ls w).2 = w.
Proof.
  pose proof (check_cases U ws size new ls w) as H. cbv zeta in H. destruct (check U ws size new ls w) as [[[]|e] w'];
    simpl; naive_solver.
Qed.

Lemma keeps_check U ws size new ls : keeps (check U ws size new ls).
Proof. intros w Hw. by rewrite check_world. Qed.

Lemma keeps_lift_result {A} (r : result exn A) : keeps (lift_result r).
Proof. destruct r; [apply preserves_ret|apply preserves_raise]. Qed.

Lemma keeps_snapshots (f : time → Db → Db) :
  (∀ now d, (f now d).(sandboxes) = d.(sandboxes) ∧ (f now d).(jobs) = d.(jobs) ∧ (f now d).(sandbox_labels) = d.(sandbox_labels)) →
  (∀ now d, others_kept id w0.(w_db) d → ∀ i sn, w0.(w_db).(snapshots) !! i = Some sn → sn.(sn_sandbox_id) ≠ id →
     (f now d).(snapshots) !! i = Some sn) → keeps (exec f).
Proof.
  intros Hf Hs w [Hids Hw]. destruct (Hf w.(w_clock) w.(w_db)) as (E1 & E2 & E3).
  split; [intros i s; simpl; rewrite E1; apply Hids|]. pose proof (Hs w.(w_clock) w.(w_db) Hw) as H5.
  destruct Hw as (H1 & H2 & H3 & H4 & _). split_and!; simpl; rewrite ?E1, ?E2, ?E3; done.
Qed.

(** One step of such a proof: past a statement, a lookup or a case. *)
Ltac keep1 :=
  lazymatch goal with
  | |- preserves _ (session _) => apply keeps_sess
  | |- preserves _ (query _) => apply keeps_q
  | |- preserves _ kick => apply keeps_emit_
  | |- preserves _ (emit _) => apply keeps_emit_
  | |- preserves _ (invoke _ _) => apply keeps_invoke_
  | |- preserves _ (check _ _ _ _ _) => apply keeps_check
  | |- preserves _ (enqueue_new _ _ _ _ _) => apply keeps_enqueue
  | |- preserves _ (lift_result _) => apply keeps_lift_result
  | |- preserves _ (mret _) => apply preserves_ret
  | |- preserves _ (raise _) => apply preserves_raise
  | |- preserves _ (gets _) => apply preserves_gets
  | |- preserves _ (uuid _) => apply preserves_gets
  | |- preserves _ (guard_ _ _) => apply preserves_guard
  | |- preserves _ (when _ _) => apply preserves_when
  | |- preserves _ (let _ := _ in _) => cbv zeta
  | |- preserves _ (owned _ _ ≫= _) => apply keeps_owned; intros ? ->
  | |- preserves _ (idle _ _ ≫= _) => apply keeps_idle; intros ? ->
  | |- preserves _ (the_row _ ≫= _) => apply keeps_row_of; intros ? ->
  | |- preserves _ (_ ≫= _) => apply preserves_bind; [|intros ?]
  | |- preserves _ (exec _) =>
      first [apply keeps_cancel | apply keeps_put_labels | (apply (keeps_row (λ now s, _)); intros; reflexivity)]
  | |- preserves _ (match ?x with _ => _ end) => destruct x
  | |- forall _, _ => intros ?
  end.

Ltac keep := repeat keep1.

Context (U MS : Z) (MAX_VMS : kind → Z) (available : World → string → bool).

Lemma keeps_place_vm platform server_id servers queue : keeps (place_vm MAX_VMS platform server_id servers queue).
Proof. unfold place_vm. keep. Qed.

Lemma keeps_place server_id user k queue : keeps (place MAX_VMS available server_id user k queue).
Proof. unfold place. apply preserves_bind; [keep|]. intros servers. case_match; [|keep]. apply preserves_bind; [apply keeps_place_vm|]. intros; keep. Qed.

Lemma keeps_start user : keeps (start_sandbox E U id user).
Proof. unfold start_sandbox. keep. Qed.

Lemma keeps_stop user : keeps (stop_sandbox E id user).
Proof. unfold stop_sandbox. keep. Qed.

Lemma keeps_owned_last user : keeps (owned id user).
Proof. intros w Hw. by rewrite owned_world. Qed.

Lemma keeps_lifecycle a b user : keeps (set_lifecycle id a b user).
Proof.
  unfold set_lifecycle. apply keeps_sess, keeps_owned. intros s ->. apply preserves_bind; [|intros _; apply keeps_owned_last].
  by apply (keeps_row (λ now s, _)).
Qed.

Lemma keeps_upgrade user : keeps (upgrade_sandbox E id user).
Proof.
  unfold upgrade_sandbox. apply preserves_bind; [|keep]. apply keeps_sess, keeps_idle. intros s ->.
  apply preserves_bind; [keep|intros _]. apply preserves_bind; [keep|intros _]. cbv zeta.
  apply preserves_bind; [by apply (keeps_row (λ now s, _))|intros _].
  apply preserves_bind; [|intros _; apply keeps_owned_last]. case_match; [keep|].
  apply preserves_bind; [by apply (keeps_row (λ now s, _))|intros _]. keep.
Qed.

Lemma keeps_delete user : keeps (delete_sandbox_route E id user).
Proof. unfold delete_sandbox_route. keep. Qed.

Lemma keeps_move a b user : keeps (move_sandbox E MAX_VMS available id a b user).
Proof.
  unfold move_sandbox. apply preserves_bind; [|keep]. apply keeps_sess, keeps_idle. intros s Hs.
  apply preserves_bind; [keep|intros _]. apply preserves_bind; [|keep]. rewrite Hs.
  case_match; [keep|]. apply preserves_bind; [keep|intros _]. apply preserves_bind; [keep|]. intros sns.
  apply preserves_bind; [keep|intros _]. apply preserves_bind; [apply keeps_place|]. intros t. keep.
Qed.

Lemma keeps_update n l user : keeps (update_sandbox_route U id n l user).
Proof.
  unfold update_sandbox_route. apply keeps_sess, keeps_owned. intros s Hs. rewrite Hs.
  assert (∀ s', s'.(sb_id) = id → keeps (match l with
    | None => mret tt
    | Some ls =>
        wanted ← lift_result (scoped ls user.(m_key_labels));
        current ← query (λ d, labels_of d s'.(sb_id));
        when (counted s'.(sb_status)) (
          let added := filter (λ kv, dget kv.1 current ≠ Some kv.2) wanted in
          check U s'.(sb_workspace_id) (size_of s') false added);;
        exec (λ _, put_labels s'.(sb_id) wanted)
    end;; mret s')) as Hrest.
  { intros s' ->. keep. }
  destruct n as [n|]; [|exact (Hrest s Hs)].
  intros w Hw. rewrite run_bind_assoc. revert w Hw. apply preserves_bind; [by apply (keeps_row (λ now s, _))|intros _].
  by apply keeps_row_of.
Qed.

Lemma keeps_create_snapshot n user : keeps (create_snapshot_route E MS id n user).
Proof.
  unfold create_snapshot_route. apply preserves_bind; [|keep]. apply keeps_sess, keeps_idle. intros s ->.
  do 2 (apply preserves_bind; [keep|intros _]). apply preserves_bind; [keep|]. intros existing.
  apply preserves_bind; [keep|intros _]. cbv zeta. apply preserves_bind; [keep|]. intros sn_id w Hw. run.
  destruct (get_snapshot sn_id w.(w_db)) eqn:En; simpl is_none; run; [done|]. unfold get_snapshot in En.
  match goal with |- kept ((?m ≫= ?k) ?w').2 => apply (preserves_bind kept m k) end; [apply keeps_enqueue|intros _; apply preserves_ret|].
  destruct Hw as [Hids (H1 & H2 & H3 & H4 & H5)]. split; [done|]. split_and!; simpl; try done.
  intros i sn Hi Hne. rewrite lookup_insert_ne; [auto|]. intros <-. apply H5 in Hi; [|done]. congruence.
Qed.

Lemma keeps_snapshot_of s sn : keeps (snapshot_of s sn).
Proof. unfold snapshot_of. keep. Qed.

Lemma keeps_restore sn user : keeps (restore_from_snapshot E id sn user).
Proof.
  unfold restore_from_snapshot. apply preserves_bind; [|keep]. apply keeps_sess, keeps_idle. intros s Hs.
  apply preserves_bind; [apply keeps_snapshot_of|]. intros found. rewrite Hs. keep.
Qed.

Definition snapshots_keyed (d : Db) : Prop := ∀ i x, d.(snapshots) !! i = Some x → x.(sn_id) = i.

Lemma keeps_delete_snapshot sn user w :
  snapshots_keyed w.(w_db) → kept w → kept (delete_snapshot_route E id sn user w).2.
Proof.
  intros Hsn Hw. unfold delete_snapshot_route.
  match goal with |- kept ((?m ≫= ?k) w).2 => assert (kept (m w).2 ∧ ∀ p, (m w).1 = Ok p → (m w).2 = w ∧
    w.(w_db).(snapshots) !! p.2.(sn_id) = Some p.2 ∧ p.2.(sn_sandbox_id) = id) as [H1 H2] end.
  { split.
    - apply keeps_sess; [|done]. apply keeps_owned. intros s Hs. apply preserves_bind; [apply keeps_snapshot_of|].
      intros found. rewrite Hs. keep.
    - intros [s x]. unfold session, transaction. match goal with |- context [?m w] => destruct (m w) as [[p|e] w'] eqn:Em end; [|done].
      simpl. intros [= ->]. apply bind_ok_inv in Em as (s0 & w1 & Ho & Em). apply owned_ok in Ho as [-> Hr]; [|apply Hw].
      apply bind_ok_inv in Em as (x0 & w1 & Hx & Em). unfold snapshot_of in Hx. run_in Hx.
      destruct (get_snapshot sn w.(w_db)) as [x1|] eqn:Ex; [|done]. apply bind_ok_inv in Hx as (? & ? & [Hb ->]%guard_ok_inv & [= <- <-]).
      apply bool_decide_eq_true in Hb. run_in Em. apply bind_ok_inv in Em as (? & w1 & Hg & [= <- <- <-]).
      assert (w1 = w) as -> by (destruct (get_active_job _ _); [by apply guard_ok_inv in Hg as [_ ?]|by injection Hg]).
      split; [done|]. unfold get_snapshot in Ex. rewrite (Hsn _ _ Ex), Hb. split; [done|]. by apply (proj1 Hw), Hr. }
  unfold mbind at 1, M_bind at 1.
  match goal with |- context [session ?m w] => destruct (session m w) as [[p|e] w'] end; [|done].
  destruct (H2 p eq_refl) as (Ew & Hp & Hid). simpl in Ew. subst w'. apply (preserves_bind kept); [| |done].
  - apply preserves_try; [apply keeps_invoke_|intros; apply preserves_raise].
  - intros _ w2 Hw2. apply keeps_sess; [|done].
    intros w3 Hw3. destruct Hw3 as [Hids (K1 & K2 & K3 & K4 & K5)]. split; [done|]. split_and!; simpl; try done.
    intros i y Hi Hne. rewrite lookup_delete_ne; [by apply K5|]. intros <-.
    apply (proj2 Hw) in Hi; [|done]. congruence.
Qed.
End isolation.

(** ** Starting *)

Section starting.
Context (E : Env) (U : Z).

(** Enqueuing a job: refused only when its id is taken. *)
Lemma enqueue_new_ok id k deadline args w u w' :
  enqueue_new E id k deadline args w = (Ok u, w') →
  w.(w_db).(jobs) !! E.(e_uuid) w = None ∧
  ∃ j, j.(j_sandbox_id) = id ∧ j.(j_kind) = k ∧ j.(j_state) = JQueued ∧ j.(j_args) = args ∧ j.(j_id) = E.(e_uuid) w ∧
    w' = put_db (bump_seq (set_jobs (<[E.(e_uuid) w := j]> w.(w_db).(jobs)) w.(w_db))) w.
Proof.
  unfold enqueue_new, uuid. run. unfold enqueue_job, enqueue, handler_of. run.
  destruct (get_job (e_uuid E w) w.(w_db)) eqn:Hj; simpl is_none; run; [done|]. intros [= _ <-]. split; [done|].
  eexists. split_and!; [..|reflexivity]; done.
Qed.

(** The one active job of a sandbox that had none. *)
Lemma only_active id i j d jobs' :
  get_active_job id d = None → d.(jobs) !! i = None → j.(j_sandbox_id) = id → j.(j_state) = JQueued →
  jobs' = <[i := j]> d.(jobs) → get_active_job id (set_jobs jobs' d) = Some j.
Proof.
  intros Hn Hi Hs Hq ->. destruct (get_active_job id (set_jobs (<[i:=j]> d.(jobs)) d)) as [j'|] eqn:E'.
  - apply get_active_job_Some in E' as (Hs' & Ha & i' & Hi'). simpl in Hi'. apply lookup_insert_Some in Hi' as [[_ ->]|[_ Hi']]; [done|].
    rewrite get_active_job_None in Hn. rewrite (Hn _ _ Hi' Hs') in Ha. done.
  - rewrite get_active_job_None in E'. specialize (E' i j). simpl in E'. rewrite lookup_insert_eq, Hq in E'. naive_solver.
Qed.

Definition provisioning_row (now : time) (s : Sandbox) : Sandbox := sb_set_status Provisioning (sb_set_updated_at now s).

Lemma idle_ok id user w s w' :
  ids_ok w.(w_db) → idle id user w = (Ok s, w') → w' = w ∧ reachable_by user id s w.(w_db) ∧ get_active_job id w.(w_db) = None.
Proof.
  intros Hids H. unfold idle in H. apply bind_ok_inv in H as (s0 & w1 & [-> Hr]%owned_ok & H); [|done]. run_in H.
  rewrite (Hids _ _ (proj1 Hr)) in H. destruct (get_active_job id w.(w_db)); [done|]. by injection H as -> <-.
Qed.

Lemma start_ok id user w s w' :
  ids_ok w.(w_db) → start_sandbox E U id user w = (Ok s, w') →
  ∃ s0 j, reachable_by user id s0 w.(w_db) ∧ get_active_job id w.(w_db) = None ∧ (s0.(sb_status) ∉ busy_statuses) ∧
    s = provisioning_row w.(w_clock) s0 ∧
    workspace_room U s0.(sb_workspace_id) (size_of s0) 0 w.(w_db) ∧
    Forall (label_room U s0.(sb_workspace_id) (size_of s0) 0 w.(w_db)) (labels_of w.(w_db) id) ∧
    j.(j_sandbox_id) = id ∧ j.(j_kind) = KBoot ∧ j.(j_state) = JQueued ∧ w.(w_db).(jobs) !! j.(j_id) = None ∧
    w'.(w_db) = bump_seq (set_jobs (<[j.(j_id) := j]> w.(w_db).(jobs)) (upd_sandbox id (provisioning_row w.(w_clock)) w.(w_db))).
Proof.
  intros Hids H. unfold start_sandbox in H. apply bind_ok_inv in H as (s1 & w1 & H%(proj1 (session_ok _ _ _ _)) & Hk).
  injection Hk as -> <-. apply bind_ok_inv in H as (s0 & w2 & Hi & H).
  destruct (idle_ok _ _ _ _ _ Hids Hi) as (-> & Hr & Ha). assert (s0.(sb_id) = id) as Hid by apply Hids, Hr.
  rewrite Hid in H. apply bind_ok_inv in H as (? & ? & [Hb ->]%guard_ok_inv & H). run_in H.
  apply bind_ok_inv in H as (? & w2 & Hc & H).
  pose proof (check_cases U s0.(sb_workspace_id) (size_of s0) false (labels_of w.(w_db) id) w) as Hcc. rewrite Hc in Hcc.
  destruct Hcc as (-> & Hw & Hl). run_in H. unfold the_row in H. run_in H. unfold get_sandbox in H.
  cbn [w_db put_db] in H. unfold update_sandbox_status in H. rewrite lookup_upd_sandbox, decide_True in H by done.
  destruct Hr as (Hs & Hr). rewrite Hs in H. simpl fmap in H. run_in H.
  change (sb_id _) with s0.(sb_id) in H. rewrite Hid in H. apply bind_ok_inv in H as (? & w2 & He & [= <- <-]).
  apply enqueue_new_ok in He as (Hn & j & Hj1 & Hj2 & Hj3 & Hj4 & Hj5 & ->). exists s0, j. rewrite Hj5.
  apply negb_true_iff, bool_decide_eq_false in Hb. split_and!; done.
Qed.
End starting.

(** ** Creating *)

(** The tables a quota reads: they agree up to rows without labels. *)
Definition same_usage (d d' : Db) : Prop :=
  d'.(sandboxes) = d.(sandboxes) ∧ d'.(snapshots) = d.(snapshots) ∧
  (∀ i, default ∅ (d'.(sandbox_labels) !! i) = default ∅ (d.(sandbox_labels) !! i)) ∧
  d'.(workspace_quotas) = d.(workspace_quotas) ∧ d'.(label_quotas) = d.(label_quotas) ∧ d'.(profile_bytes) = d.(profile_bytes).

Lemma has_label_same k v d d' s : same_usage d d' → has_label k v d' s = has_label k v d s.
Proof. intros (_ & _ & Hl & _). unfold has_label. by rewrite Hl. Qed.

Lemma workspace_within_same U ws d d' : same_usage d d' → workspace_within U ws d → workspace_within U ws d'.
Proof.
  intros (H1 & H2 & H3 & H4 & H5 & H6). unfold workspace_within, get_workspace_quota, workspace_usage, snapshot_bytes.
  by rewrite H1, H2, H4, H6.
Qed.

Lemma label_within_same U ws kv d d' : same_usage d d' → label_within U ws d kv → label_within U ws d' kv.
Proof.
  intros Hu. pose proof Hu as (H1 & H2 & H3 & H4 & H5 & H6). unfold label_within, get_label_quota. rewrite H5.
  destruct (coalesce _ _) as [q|]; [|done]. unfold label_usage, snapshot_bytes. cbv zeta. rewrite H1, H2.
  assert (∀ s, labelled_in ws kv.1 kv.2 d' s = labelled_in ws kv.1 kv.2 d s) as Hl.
  { intros s. unfold labelled_in. by rewrite (has_label_same _ _ d d'). }
  rewrite (countZ_ext (λ s, labelled_in ws kv.1 kv.2 d' s && counted s.(sb_status)) (λ s, labelled_in ws kv.1 kv.2 d s && counted s.(sb_status)) (λ _, 1) d.(sandboxes)) by (intros; by rewrite Hl).
  rewrite (countQ_ext (λ s, labelled_in ws kv.1 kv.2 d' s && counted s.(sb_status)) (λ s, labelled_in ws kv.1 kv.2 d s && counted s.(sb_status)) sb_cpus d.(sandboxes)) by (intros; by rewrite Hl).
  rewrite (countZ_ext (λ s, labelled_in ws kv.1 kv.2 d' s && counted s.(sb_status)) (λ s, labelled_in ws kv.1 kv.2 d s && counted s.(sb_status)) sb_memory_mb d.(sandboxes)) by (intros; by rewrite Hl).
  rewrite (countZ_ext (labelled_in ws kv.1 kv.2 d') (labelled_in ws kv.1 kv.2 d) (disk_of U) d.(sandboxes)) by (intros; by rewrite Hl).
  rewrite (totalZ_ext (λ sn, match d.(sandboxes) !! sn.(sn_sandbox_id) with
      | Some x => if has_label kv.1 kv.2 d' x && bool_decide (x.(sb_workspace_id) = ws) then sn.(sn_size_bytes) else 0 | None => 0 end)
    (λ sn, match d.(sandboxes) !! sn.(sn_sandbox_id) with
      | Some x => if has_label kv.1 kv.2 d x && bool_decide (x.(sb_workspace_id) = ws) then sn.(sn_size_bytes) else 0 | None => 0 end)); [done|].
  intros i sn _. destruct (_ !! _); [|done]. by rewrite (has_label_same _ _ d d').
Qed.

(** A database that is [d0] but for one more sandbox [r], the pool and the
    queue. *)
Definition row_added (r : Sandbox) (d0 d : Db) : Prop :=
  d.(sandboxes) = <[r.(sb_id) := r]> d0.(sandboxes) ∧ d.(snapshots) = d0.(snapshots) ∧
  d.(workspace_quotas) = d0.(workspace_quotas) ∧ d.(label_quotas) = d0.(label_quotas) ∧
  d.(profile_bytes) = d0.(profile_bytes).

Lemma row_added_upd r f d0 d :
  (f r).(sb_id) = r.(sb_id) → row_added r d0 d → row_added (f r) d0 (upd_sandbox r.(sb_id) f d).
Proof.
  intros Hf (H1 & H2). unfold row_added. rewrite Hf. simpl. rewrite H1. split; [|done].
  apply map_eq. intros i. rewrite lookup_alter, !lookup_insert. case_decide; [|done]. subst. by rewrite decide_True by done.
Qed.

Lemma row_added_same r ls d0 d :
  row_added r d0 d → (∀ i, i ≠ r.(sb_id) → d.(sandbox_labels) !! i = d0.(sandbox_labels) !! i) →
  default ∅ (d.(sandbox_labels) !! r.(sb_id)) = ls → same_usage (add_sandbox r ls d0) d.
Proof.
  intros (H1 & H2 & H3 & H4 & H5) Hl Hls. unfold same_usage, add_sandbox. simpl. split_and!; try done.
  intros i. rewrite lookup_insert. case_decide; [by subst|]. by rewrite Hl.
Qed.

Section creating.
Context (E : Env) (U : Z) (MAX_VMS : kind → Z) (available : World → string → bool).
Context (get_profile : string → option Profile) (secret_workspace : string → option string) (default_version : Member → string).

Lemma pool_claim_db k server_id w o w' :
  pool_keyed w.(w_db) → pool_claim E k server_id w = (Ok o, w') →
  match o with
  | Some r => w'.(w_db) = delete_pool_sandbox r.(ps_id) w.(w_db) ∧ w.(w_db).(pool_sandboxes) !! r.(ps_id) = Some r
  | None => w'.(w_db) = w.(w_db)
  end.
Proof.
  intros Hk H. unfold pool_claim in H. destruct (negb _); [by inv_ok|]. run_in H.
  destruct (claim_pool_sandbox _ _ _ _) as [r|] eqn:Ec; run_in H; injection H as <- <-; [|done].
  apply claim_oldest in Ec as ([i Hi] & _). simpl. by rewrite (Hk _ _ Hi).
Qed.

Lemma for_emit_db {A} (f : A → effect) l w : ∃ w', for_ l (λ x, emit (f x)) w = (Ok tt, w') ∧ w'.(w_db) = w.(w_db).
Proof.
  revert w. induction l as [|x l IH]; intros w; simpl; [by exists w|]. run.
  destruct (IH (put_log (w.(w_log) ++ [f x]) w)) as (w' & -> & Hw). by exists w'.
Qed.

(** What a create adds: the sandbox's row and labels, and a pooled one's row
    less. *)
Definition created (p : CreateRequest) (user : Member) (labels : list (string * string)) (s : Sandbox) (d d' : Db) : Prop :=
  d.(sandboxes) !! s.(sb_id) = None ∧ row_added s d d' ∧
  s.(sb_workspace_id) = user.(m_workspace_id) ∧ s.(sb_status) = Provisioning ∧ size_of s = p.(c_size) ∧
  (∀ k, default ∅ (d'.(sandbox_labels) !! s.(sb_id)) !! k = dget k labels) ∧
  (∀ i, i ≠ s.(sb_id) → d'.(sandbox_labels) !! i = d.(sandbox_labels) !! i) ∧
  (∃ server_id o, s.(sb_config) = create_config p s.(sb_id) server_id o ∧
     match o with
     | Some r => r.(ps_id) = s.(sb_id) ∧ d.(pool_sandboxes) !! s.(sb_id) = Some r ∧ s.(sb_runtime_id) = r.(ps_runtime_id) ∧
                 d'.(pool_sandboxes) = delete s.(sb_id) d.(pool_sandboxes)
     | None => (∃ w, w.(w_db) = d ∧ s.(sb_id) = E.(e_uuid) w) ∧ d'.(pool_sandboxes) = d.(pool_sandboxes)
     end).

(** Writing labels changes only the two label tables. *)
Lemma put_labels_shape id ls d : ∃ u l, put_labels id ls d = set_usage_labels u (set_sandbox_labels l d).
Proof.
  unfold put_labels. set (d0 := delete_usage_labels _ _).
  assert (∃ u l, d0 = set_usage_labels u (set_sandbox_labels l d)) as (u0 & l0 & E0) by (by eexists _, _).
  clearbody d0. revert d0 u0 l0 E0. induction ls as [|kv ls IH]; intros d0 u0 l0 E0; simpl; [eauto|].
  eapply IH. rewrite E0. reflexivity.
Qed.

(** The statements on the new row, after its insert. *)
Definition with_runtime (pooled : option PoolSandbox) (now : time) (r : Sandbox) : Sandbox :=
  match pooled with
  | Some q => sb_set_runtime_id q.(ps_runtime_id) (sb_set_runtime_host q.(ps_runtime_host) (sb_set_updated_at now r))
  | None => r
  end.
Definition with_placement (server_id : option string) (k : kind) (now : time) (r : Sandbox) : Sandbox :=
  sb_set_server_id server_id (sb_set_kind k (sb_set_updated_at now r)).
Definition with_size (z : Size) (r : Sandbox) : Sandbox :=
  sb_set_cpus z.(size_cpus) (sb_set_memory_mb z.(size_memory_mb) (sb_set_disk_gb z.(size_disk_gb) r)).
Definition with_lifecycle (a b : option Z) (r : Sandbox) : Sandbox :=
  sb_set_idle_timeout_minutes a (sb_set_max_lifetime_minutes b r).

Lemma row_added_at r f id d0 d :
  id = r.(sb_id) → (f r).(sb_id) = r.(sb_id) → row_added r d0 d → row_added (f r) d0 (upd_sandbox id f d).
Proof. intros ->. apply row_added_upd. Qed.

Lemma with_ids p server_id pooled now r :
  (with_runtime pooled now r).(sb_id) = r.(sb_id) ∧ (with_placement server_id p.(c_kind) now r).(sb_id) = r.(sb_id) ∧
  (with_size p.(c_size) r).(sb_id) = r.(sb_id).
Proof. by destruct pooled. Qed.

Lemma row_added_runtime (pooled : option PoolSandbox) now r d0 d :
  row_added r d0 d →
  row_added (with_runtime pooled now r) d0
    (match pooled with Some q => update_sandbox_runtime now q.(ps_runtime_id) q.(ps_runtime_host) r.(sb_id) d | None => d end).
Proof. intros Hr. destruct pooled as [q|]; [|done]. by apply row_added_at. Qed.

Lemma row_added_placement server_id k now r id d0 d :
  id = r.(sb_id) → row_added r d0 d → row_added (with_placement server_id k now r) d0 (set_sandbox_placement now server_id k id d).
Proof. intros -> Hr. exact (row_added_upd r (with_placement server_id k now) d0 d eq_refl Hr). Qed.

Lemma row_added_size z r id d0 d :
  id = r.(sb_id) → row_added r d0 d →
  row_added (with_size z r) d0 (set_sandbox_size z.(size_cpus) z.(size_memory_mb) z.(size_disk_gb) id d).
Proof. intros -> Hr. exact (row_added_upd r (with_size z) d0 d eq_refl Hr). Qed.

Lemma row_added_lifecycle a b r id d0 d :
  id = r.(sb_id) → row_added r d0 d → row_added (with_lifecycle a b r) d0 (set_sandbox_lifecycle a b id d).
Proof. intros -> Hr. exact (row_added_upd r (with_lifecycle a b) d0 d eq_refl Hr). Qed.

Lemma row_added_statements p server_id (pooled : option PoolSandbox) now r id d0 d :
  id = r.(sb_id) → row_added r d0 d →
  row_added (with_lifecycle p.(c_idle_timeout_minutes) p.(c_max_lifetime_minutes)
      (with_size p.(c_size) (with_placement server_id p.(c_kind) now (with_runtime pooled now r)))) d0
    (set_sandbox_lifecycle p.(c_idle_timeout_minutes) p.(c_max_lifetime_minutes) id
      (set_sandbox_size p.(c_size).(size_cpus) p.(c_size).(size_memory_mb) p.(c_size).(size_disk_gb) id
        (set_sandbox_placement now server_id p.(c_kind) id
          (match pooled with Some q => update_sandbox_runtime now q.(ps_runtime_id) q.(ps_runtime_host) id d | None => d end)))).
Proof.
  intros -> Hr. apply row_added_lifecycle; [by destruct pooled|]. apply row_added_size; [by destruct pooled|].
  apply row_added_placement; [by destruct pooled|]. by apply row_added_runtime.
Qed.

Lemma row_added_tables r d0 d d' :
  d'.(sandboxes) = d.(sandboxes) → d'.(snapshots) = d.(snapshots) → d'.(workspace_quotas) = d.(workspace_quotas) →
  d'.(label_quotas) = d.(label_quotas) → d'.(profile_bytes) = d.(profile_bytes) → row_added r d0 d → row_added r d0 d'.
Proof. unfold row_added. by intros -> -> -> -> ->. Qed.

Lemma row_added_sandbox r d0 d : row_added r d0 d → d.(sandboxes) !! r.(sb_id) = Some r.
Proof. intros (-> & _). apply lookup_insert_eq. Qed.

(** The new row's progress, with the tables a create leaves for later. *)
Definition adding (r : Sandbox) (d0 d : Db) : Prop :=
  row_added r d0 d ∧ d.(sandbox_labels) = d0.(sandbox_labels) ∧ d.(pool_sandboxes) = d0.(pool_sandboxes).

Lemma adding_exec (f : time → Db → Db) (g : time → Sandbox → Sandbox) {B} (k : unit → M World B) r d0 w res :
  (∀ now d, row_added r d0 d → row_added (g now r) d0 (f now d)) →
  (∀ now d, (f now d).(sandbox_labels) = d.(sandbox_labels) ∧ (f now d).(pool_sandboxes) = d.(pool_sandboxes)) →
  adding r d0 w.(w_db) → (exec f ≫= k) w = res →
  ∃ now w1, adding (g now r) d0 w1.(w_db) ∧ k tt w1 = res.
Proof.
  intros Hf Ht (H1 & H2 & H3) H. run_in H. exists w.(w_clock). eexists. split; [|exact H].
  destruct (Ht w.(w_clock) w.(w_db)) as [E1 E2]. split_and!; simpl; [auto|by rewrite E1|by rewrite E2].
Qed.

Lemma the_row_ok {B} id (k : Sandbox → M World B) r d0 w :
  id = r.(sb_id) → row_added r d0 w.(w_db) → (the_row id ≫= k) w = k r w.
Proof.
  intros -> Hr. unfold the_row. rewrite run_bind_assoc. run. unfold get_sandbox. by rewrite (row_added_sandbox _ _ _ Hr).
Qed.

(** The end of a create: labels, secrets, status and the boot job. *)
Lemma create_tail_ok p (user : Member) labels (pooled : option PoolSandbox) r id d0 w s w' :
  NoDup (dkeys labels) → r.(sb_id) = id → adding r d0 w.(w_db) →
  (exec (λ _, put_labels id labels);;
   for_ (fromkeys p.(c_secret_ids)) (λ secret_id, emit (AttachSecret id secret_id));;
   exec (λ now, update_sandbox_status now Provisioning id);;
   sandbox ← the_row id;
   when (is_none pooled) (enqueue_new E id KBoot (Some (boot_deadline sandbox.(sb_kind))) []);;
   mret sandbox) w = (Ok s, w') →
  (∃ now, s = provisioning_row now r) ∧ row_added s d0 w'.(w_db) ∧ w'.(w_db).(pool_sandboxes) = d0.(pool_sandboxes) ∧
  (∀ k, default ∅ (w'.(w_db).(sandbox_labels) !! id) !! k = dget k labels) ∧
  (∀ i, i ≠ id → w'.(w_db).(sandbox_labels) !! i = d0.(sandbox_labels) !! i).
Proof.
  intros Hl Hid (H1 & H2 & H3) H. run_in H.
  destruct (put_labels_rows id labels w.(w_db) Hl) as (L1 & _ & L2). destruct (put_labels_shape id labels w.(w_db)) as (u & l & El).
  rewrite El in H, L1, L2. set (w1 := put_db _ w) in H.
  destruct (for_emit_db (λ x, AttachSecret id x) (fromkeys p.(c_secret_ids)) w1) as (w2 & E2 & Hdb2).
  rewrite (bind_ok _ _ _ _ _ E2) in H. run_in H. set (w3 := put_db _ w2) in H.
  assert (row_added (provisioning_row w2.(w_clock) r) d0 w3.(w_db)) as Hr3.
  { subst w3. cbn [w_db put_db]. rewrite Hdb2. apply (row_added_at r (provisioning_row w2.(w_clock))); [done|done|].
    by apply (row_added_tables r d0 w.(w_db)). }
  rewrite (the_row_ok id _ (provisioning_row w2.(w_clock) r) d0 w3 (eq_sym Hid) Hr3) in H. apply bind_ok_inv in H as (? & w4 & He & Hret). injection Hret as <- <-.
  assert (∃ js, w4.(w_db) = set_jobs js w3.(w_db) ∨ w4.(w_db) = bump_seq (set_jobs js w3.(w_db))) as (js & Hw4).
  { destruct (is_none pooled); simpl in He.
    - apply enqueue_new_ok in He as (_ & j & _ & _ & _ & _ & _ & ->). by eexists; right.
    - injection He as _ <-. exists w3.(w_db).(jobs). left. by destruct w3 as [[] ?????]. }
  assert (w4.(w_db).(sandbox_labels) = w3.(w_db).(sandbox_labels) ∧ w4.(w_db).(pool_sandboxes) = w3.(w_db).(pool_sandboxes) ∧
    row_added (provisioning_row w2.(w_clock) r) d0 w4.(w_db)) as (El4 & Ep4 & Hr4).
  { destruct Hw4 as [->| ->]; (split_and!; [done|done|by apply (row_added_tables _ d0 w3.(w_db))]). }
  rewrite El4, Ep4. split_and!; [by eexists|done| | |].
  - subst w3. simpl. by rewrite Hdb2.
  - subst w3. simpl. by rewrite Hdb2.
  - subst w3. simpl. rewrite Hdb2. intros i Hi. simpl. rewrite <- H2. by apply L2.
Qed.

Lemma create_rows_ok p user labels server_id w s w' :
  pool_keyed w.(w_db) → NoDup (dkeys labels) →
  create_rows E default_version p user labels server_id w = (Ok s, w') → created p user labels s w.(w_db) w'.(w_db).
Proof.
  intros Hk Hl H. unfold create_rows in H. apply bind_ok_inv in H as (pooled & w1 & Hp & H).
  assert (match pooled with
    | Some r => w1.(w_db) = delete_pool_sandbox r.(ps_id) w.(w_db) ∧ w.(w_db).(pool_sandboxes) !! r.(ps_id) = Some r
    | None => w1.(w_db) = w.(w_db) end) as Hw1.
  { destruct (is_default _); [by eapply pool_claim_db|]. by inv_ok. }
  clear Hp. unfold uuid in H. run_in H.
  set (id := match pooled with Some r => r.(ps_id) | None => E.(e_uuid) w1 end) in H.
  destruct (get_sandbox id w1.(w_db)) eqn:Hid; simpl is_none in H; run_in H; [done|]. unfold get_sandbox in Hid.
  match type of H with context [put_db (create_sandbox ?now ?i ?a ?b ?c ?n ?rt ?rs ?cfg _) w1] =>
    set (r0 := mkSandbox i a b c n Pending rt None None rs cfg None None None None now now None None Desktop None None None None
      2%Q 2048 None None None None);
    assert (adding r0 w1.(w_db) (create_sandbox now i a b c n rt rs cfg w1.(w_db))) as H0 by (split; [repeat split|done]);
    set (w2 := put_db (create_sandbox now i a b c n rt rs cfg w1.(w_db)) w1) in H
  end.
  assert (∃ now w3, adding (with_runtime pooled now r0) w1.(w_db) w3.(w_db) ∧ w3.(w_clock) = w2.(w_clock) ∧
    (match pooled with
     | Some r => exec (λ now, update_sandbox_runtime now r.(ps_runtime_id) r.(ps_runtime_host) id)
     | None => mret tt
     end) w2 = (Ok tt, w3)) as (n1 & w3 & H3 & _ & E3).
  { destruct H0 as (A & B & C). destruct pooled as [q|]; [|by exists 0, w2].
    exists w2.(w_clock). eexists. split; [|split; [|reflexivity]]; [|done]. split; [|done].
    apply (row_added_runtime (Some q) _ r0). exact A. }
  rewrite (bind_ok _ _ _ _ _ E3) in H. clear E3.
  assert ((with_runtime pooled n1 r0).(sb_id) = id ∧ (with_runtime pooled n1 r0).(sb_workspace_id) = user.(m_workspace_id) ∧
    (with_runtime pooled n1 r0).(sb_config) = create_config p id server_id pooled ∧
    (∀ r, pooled = Some r → (with_runtime pooled n1 r0).(sb_runtime_id) = r.(ps_runtime_id))) as (I3 & W3 & C3 & Rt3)
    by (destruct pooled; split_and!; naive_solver).
  revert I3 W3 C3 Rt3 H3. generalize (with_runtime pooled n1 r0). intros r3 I3 W3 C3 Rt3 H3. clear H0 r0 w2.
  destruct (adding_exec _ (with_placement server_id p.(c_kind)) _ r3 w1.(w_db) w3 _
    (λ now d Hr, row_added_placement _ _ now _ _ _ _ (eq_sym I3) Hr) (λ now d, conj eq_refl eq_refl) H3 H) as (n4 & w4 & H4 & K4).
  destruct (adding_exec _ (λ _, with_size p.(c_size)) _ (with_placement server_id p.(c_kind) n4 r3) w1.(w_db) w4 _
    (λ now d Hr, row_added_size _ (with_placement server_id p.(c_kind) n4 r3) _ _ _ (eq_sym I3) Hr) (λ now d, conj eq_refl eq_refl) H4 K4) as (n5 & w5 & H5 & K5).
  destruct (adding_exec _ (λ _, with_lifecycle p.(c_idle_timeout_minutes) p.(c_max_lifetime_minutes)) _
    (with_size p.(c_size) (with_placement server_id p.(c_kind) n4 r3)) w1.(w_db) w5 _
    (λ now d Hr, row_added_lifecycle _ _ (with_size p.(c_size) (with_placement server_id p.(c_kind) n4 r3)) _ _ _ (eq_sym I3) Hr) (λ now d, conj eq_refl eq_refl) H5 K5) as (n6 & w6 & H6 & K6).
  destruct (create_tail_ok p user labels pooled (with_lifecycle p.(c_idle_timeout_minutes) p.(c_max_lifetime_minutes)
    (with_size p.(c_size) (with_placement server_id p.(c_kind) n4 r3))) id w1.(w_db) w6 s w' Hl I3 H6 K6) as ((now & Hs) & Hr & Hpool & Hl1 & Hl2).
  assert (s.(sb_id) = id) as Hsid by (rewrite Hs; exact I3).
  assert (w1.(w_db).(sandboxes) = w.(w_db).(sandboxes) ∧ w1.(w_db).(snapshots) = w.(w_db).(snapshots) ∧
    w1.(w_db).(sandbox_labels) = w.(w_db).(sandbox_labels) ∧ w1.(w_db).(workspace_quotas) = w.(w_db).(workspace_quotas) ∧
    w1.(w_db).(label_quotas) = w.(w_db).(label_quotas) ∧ w1.(w_db).(profile_bytes) = w.(w_db).(profile_bytes)) as (T1&T2&T3&T4&T5&T6).
  { destruct pooled as [q|]; [destruct Hw1 as [-> _]|rewrite Hw1]; by split_and!. }
  unfold created. rewrite Hsid. split_and!.
  - by rewrite <- T1.
  - destruct Hr as (R1&R2&R3&R4&R5). unfold row_added. rewrite <- T1, <- T2, <- T4, <- T5, <- T6. by split_and!.
  - rewrite Hs. exact W3.
  - by rewrite Hs.
  - rewrite Hs. by destruct p.(c_size).
  - done.
  - intros i Hi. rewrite <- T3. by apply Hl2.
  - exists server_id, pooled. split; [rewrite Hs; exact C3|]. rewrite Hpool. destruct pooled as [q|].
    + destruct Hw1 as [-> Hq]. split_and!; [done|done| |done]. rewrite Hs. by apply (Rt3 q).
    + rewrite Hw1. split; [|done]. by exists w1.
Qed.

(** The checks of a create change nothing. *)
Lemma place_world server_id user k queue w : (place MAX_VMS available server_id user k queue w).2 = w.
Proof.
  assert (preserves (λ x, x = w) (place MAX_VMS available server_id user k queue)) as Hp; [|by apply Hp].
  unfold place, place_vm.
  repeat match goal with
  | |- preserves _ (query _) => intros ? ->; reflexivity
  | |- preserves _ (gets _) => apply preserves_gets
  | |- preserves _ (mret _) => apply preserves_ret
  | |- preserves _ (raise _) => apply preserves_raise
  | |- preserves _ (guard_ _ _) => apply preserves_guard
  | |- preserves _ (_ ≫= _) => apply preserves_bind
  | |- preserves _ (match ?x with _ => _ end) => destruct x
  | |- forall _, _ => intros ?
  end.
Qed.

Lemma for_pure {A} (f : A → M World unit) (l : list A) w : (∀ x, (f x w).2 = w) → (for_ l f w).2 = w.
Proof.
  intros Hf. induction l as [|x l IH]; simpl; [done|]. unfold mbind, M_bind. specialize (Hf x).
  destruct (f x w) as [[[]|e] w1]; simpl in Hf; by subst.
Qed.

Lemma check_profile_world user k id w : (check_profile get_profile user k id w).2 = w.
Proof.
  unfold check_profile. destruct (get_profile id); [|done]. unfold guard_. by repeat case_bool_decide.
Qed.

Lemma scoped_NoDup labels sel wanted : NoDup (dkeys labels) → scoped labels sel = Ok wanted → NoDup (dkeys wanted).
Proof.
  intros Hl. unfold scoped. destruct sel as [[|kv sel]|]; [intros ?; by simplify_eq| |intros ?; by simplify_eq].
  destruct (scoped_check _ _); [|done]. intros [= <-]. by apply NoDup_dmerge, NoDup_dset.
Qed.

Lemma create_checks_ok p user w labels server_id w' :
  create_checks U MAX_VMS available get_profile secret_workspace p user w = (Ok (labels, server_id), w') →
  w' = w ∧ can user RMember = true ∧ scoped p.(c_labels) user.(m_key_labels) = Ok labels ∧
  check U user.(m_workspace_id) p.(c_size) true labels w = (Ok tt, w) ∧
  place MAX_VMS available p.(c_server_id) user p.(c_kind) p.(c_queue) w = (Ok server_id, w) ∧
  (is_vm_kind p.(c_kind) = true → is_default p.(c_size) = true) ∧ user.(m_key_sandbox_id) = None.
Proof.
  intros H. unfold create_checks in H. apply bind_ok_inv in H as (? & ? & [Hm ->]%guard_ok_inv & H).
  apply bind_ok_inv in H as (? & ? & [Hk ->]%guard_ok_inv & H). apply bind_ok_inv in H as (? & ? & [_ ->]%guard_ok_inv & H).
  apply bind_ok_inv in H as (? & ? & [Hv ->]%guard_ok_inv & H). apply bind_ok_inv in H as (ls & w1 & Hs & H).
  destruct (scoped _ _) as [ls'|] eqn:Es; [|done]. injection Hs as -> <-.
  apply bind_ok_inv in H as ([] & w1 & Hc & H). pose proof (check_world U user.(m_workspace_id) p.(c_size) true ls w) as Hw.
  rewrite Hc in Hw. simpl in Hw. subst w1. apply bind_ok_inv in H as (srv & w1 & Hp & H).
  pose proof (place_world p.(c_server_id) user p.(c_kind) p.(c_queue) w) as Hw. rewrite Hp in Hw. simpl in Hw. subst w1.
  apply bind_ok_inv in H as (? & w1 & H1 & H).
  pose proof (for_pure (check_profile get_profile user p.(c_kind)) p.(c_profile_ids) w (λ x, check_profile_world _ _ _ _)) as Hw.
  rewrite H1 in Hw. simpl in Hw. subst w1. apply bind_ok_inv in H as (? & w1 & H2 & H).
  pose proof (for_pure (check_secret secret_workspace user) p.(c_secret_ids) w
    ltac:(intros i; unfold check_secret, guard_; by case_bool_decide)) as Hw.
  rewrite H2 in Hw. simpl in Hw. subst w1. injection H as -> -> <-.
  split_and!; try done.
  - intros Hvm. rewrite Hvm in Hv. simpl in Hv. done.
  - by destruct user.(m_key_sandbox_id).
Qed.

(** Every snapshot is of a sandbox that is there (the foreign key). *)
Definition snapshots_owned (d : Db) : Prop :=
  ∀ i sn, d.(snapshots) !! i = Some sn → is_Some (d.(sandboxes) !! sn.(sn_sandbox_id)).

Lemma create_ok p user w s w' :
  pool_keyed w.(w_db) → NoDup (dkeys p.(c_labels)) →
  create E U MAX_VMS available get_profile secret_workspace default_version p user w = (Ok s, w') →
  ∃ labels, scoped p.(c_labels) user.(m_key_labels) = Ok labels ∧ can user RMember = true ∧
    check U user.(m_workspace_id) p.(c_size) true labels w = (Ok tt, w) ∧ created p user labels s w.(w_db) w'.(w_db).
Proof.
  intros Hk Hl H. unfold create in H. apply bind_ok_inv in H as ([labels server_id] & w1 & Hc & H).
  apply create_checks_ok in Hc as (-> & Hm & Hs & Hc & _). exists labels. split_and!; [done..|].
  eapply create_rows_ok; [done|by eapply scoped_NoDup|exact H].
Qed.

Lemma created_within p user labels s d d' w :
  0 ≤ U → sandboxes_keyed d → snapshots_owned d → w.(w_db) = d → NoDup (dkeys labels) →
  check U user.(m_workspace_id) p.(c_size) true labels w = (Ok tt, w) → created p user labels s d d' →
  workspace_within U user.(m_workspace_id) d' ∧ Forall (label_within U user.(m_workspace_id) d') labels.
Proof.
  intros HU Hk Ho Hw Hnd Hc (Hf & Hr & Hws & Hst & Hsz & Hl & Hl' & _).
  pose proof (check_cases U user.(m_workspace_id) p.(c_size) true labels w) as Hcc. rewrite Hc, Hw in Hcc.
  destruct Hcc as (_ & Hroom & Hlroom).
  set (ls := default ∅ (d'.(sandbox_labels) !! s.(sb_id))) in *.
  assert (same_usage (add_sandbox s ls d) d') as Hsame by (by apply row_added_same).
  assert (fresh_sandbox s.(sb_id) d) as Hfresh.
  { split; [done|]. intros i sn Hi Hn. destruct (Ho i sn Hi) as [x Hx]. rewrite Hn in Hx. congruence. }
  assert (counted s.(sb_status) = true) as Hct by (by rewrite Hst).
  rewrite <- Hws in *. rewrite <- Hsz in *. split.
  - eapply workspace_within_same; [exact Hsame|].
    eapply (workspace_room_within _ _ _ _ d); [done| |exact Hroom]. by apply workspace_usage_add.
  - rewrite Forall_forall in *. intros [k v] Hin. eapply label_within_same; [exact Hsame|].
    eapply (label_room_within _ _ _ _ d); [done| |by apply Hlroom].
    apply label_usage_add; try done. simpl. rewrite Hl. by apply dget_in.
Qed.

Lemma created_apart p user labels s d d' :
  uuid_unused E → (∀ id, is_Some (d.(pool_sandboxes) !! id) → d.(sandboxes) !! id = None) →
  created p user labels s d d' → ∀ id, is_Some (d'.(pool_sandboxes) !! id) → d'.(sandboxes) !! id = None.
Proof.
  intros Hu Ha (Hf & (Hs & _) & _ & _ & _ & _ & _ & srv & o & _ & Ho) id Hid. rewrite Hs.
  destruct o as [r|].
  - destruct Ho as (_ & _ & _ & Hp). rewrite Hp in Hid. destruct Hid as [x [Hne Hx]%lookup_delete_Some].
    rewrite lookup_insert_ne by done. eauto.
  - destruct Ho as [(w & <- & He) Hp]. rewrite Hp in Hid. rewrite lookup_insert_ne; [eauto|].
    intros <-. destruct (Hu w) as [_ Hn]. rewrite He, Hn in Hid. by destruct Hid.
Qed.
End creating.

(** ** Handing over *)

(** While calls are out nothing is put into the pool; it may be claimed from
    and drained. *)
Definition unfilled (E : Env) : Prop := ∀ w, (E.(e_yield) w).(w_db).(pool_sandboxes) ⊆ w.(w_db).(pool_sandboxes).

Section handing_over.
Context (E : Env) (HE : unfilled E) (P : gmap string PoolSandbox).

Definition pool_is (w : World) : Prop := w.(w_db).(pool_sandboxes) ⊆ P.

Lemma pool_is_of_db : of_db pool_is.
Proof. intros w w' Hw. unfold pool_is. by rewrite Hw. Qed.

Abbreviation calm := (preserves pool_is).

Lemma calm_invoke e : calm (invoke E e).
Proof. intros w Hw. unfold pool_is, invoke. destruct (E.(e_call) _ _); simpl; (etrans; [apply HE|done]). Qed.

Lemma calm_exec f : (∀ now d, (f now d).(pool_sandboxes) = d.(pool_sandboxes)) → calm (exec f).
Proof. intros Hf w Hw. unfold pool_is. simpl. by rewrite Hf. Qed.

Lemma calm_session {A} (m : M World A) : calm m → calm (session m).
Proof. apply preserves_session, pool_is_of_db. Qed.

Lemma calm_remember id vs : calm (remember_secrets id vs).
Proof. intros w Hw. by apply (pool_is_of_db w). Qed.

Lemma calm_lift {A} (r : result exn A) : calm (lift_w r).
Proof. destruct r; [apply preserves_ret|apply preserves_raise]. Qed.

Ltac calm1 :=
  lazymatch goal with
  | |- preserves _ (session _) => apply calm_session
  | |- preserves _ (query _) => apply preserves_query
  | |- preserves _ (gets _) => apply preserves_gets
  | |- preserves _ (invoke _ _) => apply calm_invoke
  | |- preserves _ (apply_profile _ _ _) => apply calm_invoke
  | |- preserves _ (lift_w _) => apply calm_lift
  | |- preserves _ (remember_secrets _ _) => apply calm_remember
  | |- preserves _ (swallow _) => apply preserves_swallow
  | |- preserves _ (mret _) => apply preserves_ret
  | |- preserves _ (raise _) => apply preserves_raise
  | |- preserves _ (guard_ _ _) => apply preserves_guard
  | |- preserves _ (when _ _) => apply preserves_when
  | |- preserves _ (for_ _ _) => apply preserves_for
  | |- preserves _ (_ ≫= _) => apply preserves_bind
  | |- preserves _ (exec _) => apply calm_exec; intros; reflexivity
  | |- preserves _ (λ w, lift_w _ w) => intros ? ?; unfold lift_w; case_match; done
  | |- preserves _ (match ?x with _ => _ end) => destruct x
  | |- forall _, _ => intros ?
  end.

Lemma calm_hand_off s : calm (hand_off E s).
Proof.
  assert (calm (bind_vm E s.(sb_id))) as Hb by (unfold bind_vm; repeat calm1).
  assert (∀ x, calm (enforce E x)) as He by (intros x; unfold enforce; repeat calm1).
  unfold hand_off. repeat (calm1 || exact Hb || apply He).
Qed.

Lemma calm_response_of id : calm (response_of id).
Proof. unfold response_of. repeat calm1. Qed.

Lemma calm_discard s : calm (discard E s).
Proof.
  unfold discard, remove_runtime, forget_secrets, remove_container. apply preserves_bind; [repeat calm1|].
  intros _. apply preserves_bind; [intros w Hw; by apply (pool_is_of_db w)|]. intros _. repeat calm1.
Qed.

Lemma discard_ok s w : ∃ w', discard E s w = (Ok tt, w').
Proof. unfold discard. rewrite (bind_ok _ _ _ _ _ (swallow_run _ w)). eexists. reflexivity. Qed.
End handing_over.

Section create_loop.
Context (E : Env) (U : Z) (MAX_VMS : kind → Z) (available : World → string → bool).
Context (get_profile : string → option Profile) (secret_workspace : string → option string) (default_version : Member → string).

Lemma unpooled_config p id server_id : dget "pooled" (create_config p id server_id None) = None.
Proof.
  unfold create_config. cbv zeta. destruct (str_or_none server_id), (is_vm_kind _), (c_admin p); reflexivity.
Qed.

Abbreviation loop := (create_loop E U MAX_VMS available get_profile secret_workspace default_version).

(** With no more turns than warm sandboxes left to try, and one for a cold one,
    the loop comes to an end. *)
Lemma create_loop_ends fuel deadline p user w :
  unfilled E → pool_keyed w.(w_db) → NoDup (dkeys p.(c_labels)) → (size w.(w_db).(pool_sandboxes) < fuel)%nat →
  (loop fuel deadline p user w).1 ≠ Ok None.
Proof.
  intros HE. revert w. induction fuel as [|fuel IH]; intros w Hk Hl Hf; [lia|].
  cbn [create_loop]. destruct (session (create E U MAX_VMS available get_profile secret_workspace default_version p user) w)
    as [[s|e] w1] eqn:Ec; [|by rewrite (bind_err _ _ _ _ _ Ec)].
  rewrite (bind_ok _ _ _ _ _ Ec). apply (proj1 (session_ok _ _ _ _)) in Ec.
  destruct (create_ok _ _ _ _ _ _ _ p user w s w1 Hk Hl Ec) as (labels & _ & _ & _ & Hcr).
  destruct Hcr as (_ & _ & _ & _ & _ & _ & _ & srv & o & Hcfg & Ho).
  destruct (was_pooled s) eqn:Ew; cbn [negb]; [|done].
  destruct o as [r|]; [|by unfold was_pooled in Ew; rewrite Hcfg, unpooled_config in Ew].
  destruct Ho as (_ & Hin & _ & Hp).
  assert (pool_keyed w1.(w_db)) as Hk1.
  { intros i x. rewrite Hp. intros [_ ?]%lookup_delete_Some. by apply Hk. }
  assert (size w1.(w_db).(pool_sandboxes) < size w.(w_db).(pool_sandboxes))%nat as Hsz.
  { rewrite Hp, map_size_delete, Hin. assert (size w.(w_db).(pool_sandboxes) ≠ 0%nat); [|lia].
    intros H0%map_size_empty_inv. rewrite H0, lookup_empty in Hin. done. }
  assert (preserves (pool_is w1.(w_db).(pool_sandboxes)) (hand_off E s;; response_of s.(sb_id))) as Hh.
  { apply preserves_bind; [by apply calm_hand_off|intros _; apply calm_response_of]. }
  specialize (Hh w1 ltac:(unfold pool_is; reflexivity)).
  unfold mbind at 1, M_bind at 1. destruct ((hand_off E s;; response_of s.(sb_id)) w1) as [[found|e] w2]; simpl in Hh; [done|].
  destruct (discard_ok E s w2) as (w3 & E3). rewrite (bind_ok _ _ _ _ _ E3). run. case_bool_decide; [done|].
  pose proof (calm_discard E HE w1.(w_db).(pool_sandboxes) s w2 Hh) as Hd. rewrite E3 in Hd. simpl in Hd.
  apply IH; [|done|].
  - intros i x Hx. eapply Hk1, lookup_weaken; [exact Hx|exact Hd].
  - apply map_subseteq_size in Hd. lia.
Qed.
End create_loop.

(** ** The pool beside the creates *)

Section pool_and_creates.
Context (E : Env) (U : Z) (MAX_VMS : kind → Z) (available : World → string → bool).
Context (get_profile : string → option Profile) (secret_workspace : string → option string) (default_version : Member → string).

Abbreviation creating := (create_async E U MAX_VMS available get_profile secret_workspace default_version).

(** What happens to the pooled and the members' sandboxes: the pool is filled,
    a booked sandbox boots, a server is drained, a member creates a sandbox
    (warm or cold, every turn of it), and the rest of the program, which
    changes and deletes sandboxes but neither makes one nor touches the pool. *)
Inductive pool_step : PW → PW → Prop :=
| pool_fills settings recent servers s : pool_step s (fill E settings recent servers s).2
| pool_boots r server s : pool_step s (on_world (pool_boot E r server) s).2
| pool_booted id s : pool_step s (set_booting (λ b, b ∖ {[id]}) s).2
| pool_drained server s : pool_step s (on_world (drain_pool E server) s).2
| pool_create fuel p user s :
    NoDup (dkeys p.(c_labels)) → pool_step s (on_world (creating fuel p user) s).2
| pool_rest w s :
    w.(w_db).(pool_sandboxes) = s.(pw_world).(w_db).(pool_sandboxes) →
    dom w.(w_db).(sandboxes) ⊆ dom s.(pw_world).(w_db).(sandboxes) →
    pool_step s (mkPW w s.(pw_booting)).

Context (HE : ∀ w, pool_ok w → pool_ok (E.(e_yield) w)).

Lemma pool_ok_shrinks w w' :
  w'.(w_db).(pool_sandboxes) = w.(w_db).(pool_sandboxes) →
  dom w'.(w_db).(sandboxes) ⊆ dom w.(w_db).(sandboxes) → pool_ok w → pool_ok w'.
Proof.
  intros Hp Hd [Hk Ha]. unfold pool_ok, pool_keyed. rewrite Hp. split; [exact Hk|]. intros id Hid.
  specialize (Ha id Hid). apply not_elem_of_dom in Ha. apply not_elem_of_dom. set_solver.
Qed.

Lemma safe_exec f :
  (∀ now d, (f now d).(pool_sandboxes) = d.(pool_sandboxes) ∧ dom (f now d).(sandboxes) ⊆ dom d.(sandboxes)) →
  preserves pool_ok (exec f).
Proof. intros Hf w. destruct (Hf w.(w_clock) w.(w_db)). by apply pool_ok_shrinks. Qed.

Ltac safe1 :=
  lazymatch goal with
  | |- preserves _ (session _) => apply (safe_session)
  | |- preserves _ (query _) => apply preserves_query
  | |- preserves _ (gets _) => apply preserves_gets
  | |- preserves _ now_ => apply preserves_gets
  | |- preserves _ (invoke _ _) => apply (safe_invoke E HE)
  | |- preserves _ (apply_profile _ _ _) => apply (safe_invoke E HE)
  | |- preserves _ (lift_w _) => apply safe_lift
  | |- preserves _ (remember_secrets _ _) => intros ? ?; assumption
  | |- preserves _ (forget_secrets _) => intros ? ?; assumption
  | |- preserves _ (swallow _) => apply preserves_swallow
  | |- preserves _ (mret _) => apply preserves_ret
  | |- preserves _ (raise _) => apply preserves_raise
  | |- preserves _ (guard_ _ _) => apply preserves_guard
  | |- preserves _ (when _ _) => apply preserves_when
  | |- preserves _ (for_ _ _) => apply preserves_for
  | |- preserves _ (_ ≫= _) => apply preserves_bind
  | |- preserves _ (exec _) => apply safe_exec; intros; simpl; rewrite ?dom_alter_L, ?dom_delete_L; set_solver
  | |- preserves _ (λ w, lift_w _ w) => intros ? ?; unfold lift_w; case_match; done
  | |- preserves _ (match ?x with _ => _ end) => destruct x
  | |- forall _, _ => intros ?
  end.

Lemma safe_hand_off s : preserves pool_ok (hand_off E s;; response_of s.(sb_id)).
Proof. unfold hand_off, bind_vm, enforce, response_of. repeat safe1. Qed.

Lemma safe_discard_warm s : preserves pool_ok (discard E s).
Proof. unfold discard, remove_runtime, remove_container. repeat safe1. Qed.

Context (Hu : uuid_unused E).

Lemma safe_create p user :
  NoDup (dkeys p.(c_labels)) →
  preserves pool_ok (session (create E U MAX_VMS available get_profile secret_workspace default_version p user)).
Proof.
  intros Hl w Hw. destruct (session _ w) as [[s|e] w'] eqn:Ec.
  - apply (proj1 (session_ok _ _ _ _)) in Ec. destruct Hw as [Hk Ha].
    destruct (create_ok _ _ _ _ _ _ _ p user w s w' Hk Hl Ec) as (labels & _ & _ & _ & Hcr). split.
    + destruct Hcr as (_ & _ & _ & _ & _ & _ & _ & srv & o & _ & Ho). intros i r. simpl.
      destruct o as [x|]; [destruct Ho as (_ & _ & _ & ->)|destruct Ho as [_ ->]; apply Hk].
      intros [_ ?]%lookup_delete_Some. by apply Hk.
    + by eapply created_apart.
  - apply session_rollback in Ec. by apply (pool_ok_of_db w).
Qed.

Lemma safe_create_loop fuel deadline p user :
  NoDup (dkeys p.(c_labels)) →
  preserves pool_ok (create_loop E U MAX_VMS available get_profile secret_workspace default_version fuel deadline p user).
Proof.
  intros Hl. induction fuel as [|fuel IH]; cbn [create_loop]; [apply preserves_ret|].
  apply preserves_bind; [by apply safe_create|]. intros s. destruct (was_pooled s); cbn [negb].
  - apply preserves_bind.
    + intros w Hw. pose proof (safe_hand_off s w Hw) as Hh. by destruct ((hand_off E s;; response_of s.(sb_id)) w) as [[]].
    + intros [found|]; [apply preserves_ret|]. apply preserves_bind; [apply safe_discard_warm|]. intros _. safe1; [safe1|].
      intros now. case_match; [apply preserves_raise|exact IH].
  - apply preserves_bind; [intros w Hw; exact Hw|intros _; apply preserves_ret].
Qed.

Lemma pool_step_ok s s' : pool_step s s' → pw_ok s → pw_ok s'.
Proof.
  intros H Hs. destruct H.
  - by apply pw_fill.
  - by apply on_world_ok; [apply safe_boot|].
  - exact Hs.
  - by apply pw_drain.
  - apply on_world_ok; [|done]. unfold create_async. apply preserves_bind; [apply preserves_gets|].
    intros began. by apply safe_create_loop.
  - by eapply pool_ok_shrinks.
Qed.
End pool_and_creates.

(** ** The properties of the routes *)
Lemma others_kept_refl id d : others_kept id d d.
Proof. by split_and!. Qed.

Section isolation_property.
Context (E : Env) (U MAX_SNAPSHOTS : Z) (MAX_VMS : kind → Z) (available : World → string → bool).

(** C3: a route changes nothing of another sandbox: whatever it answers, the
    rows, labels, jobs and snapshots of the others are as they were. *)
Theorem routes_isolated r id user w :
  quiet E → ids_ok w.(w_db) → snapshots_keyed w.(w_db) →
  others_kept id w.(w_db) (run_route E U MAX_SNAPSHOTS MAX_VMS available r id user w).2.(w_db).
Proof.
  intros HE Hids Hsn. assert (kept id w w) as Hw by (split; [done|apply others_kept_refl]).
  assert (∀ A (m : M World A), preserves (kept id w) m → preserves (kept id w) (m;; mret tt)) as Hk.
  { intros A m Hm. apply preserves_bind; [done|intros _; apply preserves_ret]. }
  destruct r; simpl;
    [apply (Hk _ _ (keeps_start E id w U user) w Hw)|apply (Hk _ _ (keeps_stop E id w user) w Hw)
    |apply (Hk _ _ (keeps_lifecycle id w _ _ user) w Hw)|apply (Hk _ _ (keeps_upgrade E id w user) w Hw)
    |apply (Hk _ _ (keeps_delete E id w user) w Hw)|apply (Hk _ _ (keeps_move E id w MAX_VMS available _ _ user) w Hw)
    |apply (Hk _ _ (keeps_update id w U _ _ user) w Hw)|apply (Hk _ _ (keeps_create_snapshot E id w MAX_SNAPSHOTS _ user) w Hw)
    |apply (Hk _ _ (keeps_restore E id w _ user) w Hw)|by apply keeps_delete_snapshot].
Qed.

End isolation_property.

(** starting a sandbox.  It succeeds only on a sandbox the user may reach
    that has no job in progress and is neither running nor provisioning, and
    then the sandbox is provisioning and its one active job is the boot; what
    its workspace and labels use stays within their quotas. *)
Theorem start_effect E U id user w s w' :
  ids_ok w.(w_db) → start_sandbox E U id user w = (Ok s, w') →
  ∃ s0 j, reachable_by user id s0 w.(w_db) ∧ get_active_job id w.(w_db) = None ∧ (s0.(sb_status) ∉ busy_statuses) ∧
    w'.(w_db).(sandboxes) = <[id := provisioning_row w.(w_clock) s0]> w.(w_db).(sandboxes) ∧
    get_active_job id w'.(w_db) = Some j ∧ j.(j_kind) = KBoot ∧
    (s0.(sb_status) ∈ [Stopped; Failed] →
       workspace_within U s0.(sb_workspace_id) w'.(w_db) ∧
       Forall (label_within U s0.(sb_workspace_id) w'.(w_db)) (labels_of w.(w_db) id)).
Proof.
  intros Hids H. destruct (start_ok E U id user w s w' Hids H) as (s0 & j & Hr & Ha & Hb & _ & Hw & Hl & Hj1 & Hj2 & Hj3 & Hj4 & Hdb).
  exists s0, j. destruct Hr as (Hs & Hr). assert (s0.(sb_id) = id) as Hid by (by apply Hids). split_and!; try done.
  - rewrite Hdb. simpl. by rewrite (alter_known _ _ _ _ Hs).
  - rewrite Hdb. by apply (only_active id j.(j_id) j (upd_sandbox id (provisioning_row w.(w_clock)) w.(w_db))).
  - intros Hst. assert (restarted (provisioning_row w.(w_clock)) s0) as Hre.
    { unfold restarted. simpl. split_and!; try done;
        (destruct s0.(sb_status); try done; rewrite !elem_of_cons, elem_of_nil in Hst; naive_solver). }
    assert (same_usage (upd_sandbox s0.(sb_id) (provisioning_row w.(w_clock)) w.(w_db)) w'.(w_db)) as Hsame.
    { rewrite Hdb, Hid. by split_and!. }
    rewrite <- Hid in Hs. split.
    + eapply workspace_within_same; [exact Hsame|]. eapply (workspace_room_within _ _ _ _ w.(w_db)); [done| |exact Hw].
      by apply workspace_usage_start.
    + rewrite Forall_forall in *. intros [k v] Hin. eapply label_within_same; [exact Hsame|].
      eapply (label_room_within _ _ _ _ w.(w_db)); [done| |by apply Hl]. apply label_usage_start; [done|done|].
      unfold has_label. rewrite Hid. apply bool_decide_eq_true. simpl.
      rewrite <- dget_list_sandbox_labels. apply dget_in; [apply NoDup_list_sandbox_labels|done].
Qed.

Section create_properties.
Context (E : Env) (U : Z) (MAX_VMS : kind → Z) (available : World → string → bool).
Context (get_profile : string → option Profile) (secret_workspace : string → option string) (default_version : Member → string).

(** C5: creating a sandbox.  When it succeeds the user is a member, the new
    row is provisioning with the size asked for, in the user's workspace, and
    labelled as its key demands; what the workspace and every label use stays
    within their quotas; and its id is no pooled sandbox's any more. *)
Theorem create_effect p user w s w' :
  0 ≤ U → uuid_unused E → sandboxes_keyed w.(w_db) → pool_ok w → snapshots_owned w.(w_db) → NoDup (dkeys p.(c_labels)) →
  create E U MAX_VMS available get_profile secret_workspace default_version p user w = (Ok s, w') →
  ∃ labels, scoped p.(c_labels) user.(m_key_labels) = Ok labels ∧ can user RMember = true ∧
    w.(w_db).(sandboxes) !! s.(sb_id) = None ∧
    w'.(w_db).(sandboxes) = <[s.(sb_id) := s]> w.(w_db).(sandboxes) ∧
    s.(sb_status) = Provisioning ∧ s.(sb_workspace_id) = user.(m_workspace_id) ∧ size_of s = p.(c_size) ∧
    (∀ k, dget k (labels_of w'.(w_db) s.(sb_id)) = dget k labels) ∧
    workspace_within U user.(m_workspace_id) w'.(w_db) ∧ Forall (label_within U user.(m_workspace_id) w'.(w_db)) labels ∧
    ∀ id, is_Some (w'.(w_db).(pool_sandboxes) !! id) → w'.(w_db).(sandboxes) !! id = None.
Proof.
  intros HU Hu Hk [Hpk Hpa] Ho Hl H.
  destruct (create_ok _ _ _ _ _ _ _ p user w s w' Hpk Hl H) as (labels & Hs & Hm & Hc & Hcr). exists labels.
  pose proof (scoped_NoDup _ _ _ Hl Hs) as Hnd.
  destruct (created_within E U p user labels s w.(w_db) w'.(w_db) w HU Hk Ho eq_refl Hnd Hc Hcr) as [Hww Hlw].
  pose proof (created_apart E p user labels s _ _ Hu Hpa Hcr) as Hap.
  destruct Hcr as (Hf & (Hrow & _) & Hws & Hst & Hsz & Hlab & _). split_and!; try done.
  intros k. unfold labels_of. rewrite dget_list_sandbox_labels. apply Hlab.
Qed.

(** C32: a create answers, as long as nothing is put into the pool while it
    runs (others may claim from it and drain it).  With a turn for every warm
    sandbox the pool has, and one more, the loop that hands them over does not
    run out: whatever fails of a hand-over, the response included, each turn
    takes one warm sandbox out of the pool and discards it. *)
Theorem create_terminates deadline p user w :
  unfilled E → pool_keyed w.(w_db) → NoDup (dkeys p.(c_labels)) →
  (create_loop E U MAX_VMS available get_profile secret_workspace default_version
     (S (size w.(w_db).(pool_sandboxes))) deadline p user w).1 ≠ Ok None.
Proof. intros HE Hk Hl. apply create_loop_ends; try done. lia. Qed.

End create_properties.

Section pool_property.
Context (E : Env) (U : Z) (MAX_VMS : kind → Z) (available : World → string → bool).
Context (get_profile : string → option Profile) (secret_workspace : string → option string) (default_version : Member → string).

(** C28: an id is a member's sandbox or a pooled one, never both, in whatever
    order the pool is filled, boots its sandboxes and is drained, members
    create sandboxes from it or without it, fail to take them over, and other
    sandboxes change and go.  So what a create then gives a member was nobody's
    sandbox before and is out of the pool: no other create can be given it.
    Ids drawn for new sandboxes are assumed to be unused, and other threads
    that run while calls are out to keep the pool apart as well. *)
Theorem pool_apart s s' :
  (∀ w, pool_ok w → pool_ok (E.(e_yield) w)) → uuid_unused E → pw_ok s →
  rtc (pool_step E U MAX_VMS available get_profile secret_workspace default_version) s s' →
  (∀ id, is_Some (s'.(pw_world).(w_db).(pool_sandboxes) !! id) → s'.(pw_world).(w_db).(sandboxes) !! id = None) ∧
  ∀ p user x w', NoDup (dkeys p.(c_labels)) →
    create E U MAX_VMS available get_profile secret_workspace default_version p user s'.(pw_world) = (Ok x, w') →
    s'.(pw_world).(w_db).(sandboxes) !! x.(sb_id) = None ∧ w'.(w_db).(sandboxes) !! x.(sb_id) = Some x ∧
    w'.(w_db).(pool_sandboxes) !! x.(sb_id) = None.
Proof.
  intros HE Hu Hs Hr. assert (pw_ok s') as Hs' by (induction Hr; [done|eauto using pool_step_ok]).
  split; [apply Hs'|]. intros p user x w' Hl Hc. destruct Hs' as [Hk Ha].
  destruct (create_ok _ _ _ _ _ _ _ p user _ x w' Hk Hl Hc) as (labels & _ & _ & _ & Hcr).
  pose proof (created_apart E p user labels x _ _ Hu Ha Hcr x.(sb_id)) as Hap.
  destruct Hcr as (Hf & (Hrow & _) & _). rewrite Hrow, lookup_insert_eq in Hap |- *. split; [exact Hf|]. split; [done|].
  destruct (w'.(w_db).(pool_sandboxes) !! x.(sb_id)) eqn:Ep; [|done]. by specialize (Hap ltac:(eauto)).
Qed.
End pool_property.

Lemma least_spec (load : Server → nat) l s :
  least load l = Some s → s ∈ l ∧ ∀ t, t ∈ l → (load s ≤ load t)%nat.
Proof.
  revert s. induction l as [|x l IH]; intros s; [done|]. simpl. destruct (least load l) as [t|] eqn:El.
  - destruct (IH t eq_refl) as [Hin Hle]. destruct (Nat.ltb_spec (load t) (load x)); intros [= <-]; (split; [set_solver|]);
      intros y [->|Hy]%elem_of_cons; try lia; specialize (Hle y Hy); lia.
  - intros [= <-]. split; [by left|]. intros y [->|Hy]%elem_of_cons; [done|]. destruct l; [by apply not_elem_of_nil in Hy|].
    simpl in El. by repeat case_match.
Qed.

Lemma has_server_elem id l : has_server id l = true → ∃ s, s ∈ l ∧ s.(sv_id) = id.
Proof. unfold has_server. rewrite existsb_exists. intros (s & Hin%list_elem_of_In & He%bool_decide_eq_true). eauto. Qed.

Definition vm_load (k : kind) : Db → Server → nat := load_of (λ s, bool_decide (s.(sb_kind) = k)).

(** where a sandbox is placed.  A server it is given is one of the user's
    workspace that says it runs the sandbox's system, the one the request
    names if it names one; a VM placed automatically goes to a least loaded
    such server with room, or, for macOS with queueing, to one whose turn it
    waits for.  Placing changes nothing. *)
Theorem place_sound MAX_VMS available server_id user k queue w o w' :
  place MAX_VMS available server_id user k queue w = (Ok o, w') →
  w' = w ∧
  match o with
  | None => is_vm_kind k = false
  | Some id =>
      ∃ sv, sv ∈ capable (os_of (kind_name k)) user w.(w_db) ∧ sv.(sv_id) = id ∧
        (∀ wanted, server_id = Some wanted → wanted ≠ AUTO → id = wanted) ∧
        (is_vm_kind k = true → (server_id = None ∨ server_id = Some AUTO) →
         (∀ t, t ∈ capable (os_of (kind_name k)) user w.(w_db) → (vm_load k w.(w_db) sv ≤ vm_load k w.(w_db) t)%nat) ∧
         (Z.of_nat (vm_load k w.(w_db) sv) < MAX_VMS k ∨ (k = Macos ∧ queue = true)))
  end.
Proof.
  intros H. pose proof (place_world MAX_VMS available server_id user k queue w) as Hw. rewrite H in Hw. simpl in Hw. subst w'.
  split; [done|]. unfold place in H. run_in H. set (servers := capable _ user w.(w_db)) in *.
  destruct (is_vm_kind k) eqn:Hk.
  - apply bind_ok_inv in H as (id & w1 & H & [= <- ->]). unfold place_vm in H.
    destruct servers as [|s0 l0] eqn:Hse; [done|]. rewrite <- Hse in *. clear Hse s0 l0.
    assert (∀ w2, (load ← query (load_of (λ s, bool_decide (s.(sb_kind) = k)));
        match least load servers with
        | None => raise (ValueError [])
        | Some best =>
            if bool_decide (Z.of_nat (load best) < MAX_VMS k) then mret best.(sv_id)
            else if bool_decide (k = Macos) && queue then mret best.(sv_id)
            else if bool_decide (k = Macos) then
              raise (HTTPException 409 [Txt "Mac full: every Mac already runs "; Num (MAX_VMS k);
                Txt " macOS VMs, the most Apple allows per Mac. Stop one, add a Mac, or create with queue to wait for room"])
            else raise (HTTPException 409 [Txt "every "; Txt (PLATFORM_NAMES k); Txt " server already runs "; Num (MAX_VMS k); Txt " VMs"])
        end) w = (Ok id, w2) → ∃ sv, sv ∈ servers ∧ sv.(sv_id) = id ∧
         (∀ t, t ∈ servers → (vm_load k w.(w_db) sv ≤ vm_load k w.(w_db) t)%nat) ∧
         (Z.of_nat (vm_load k w.(w_db) sv) < MAX_VMS k ∨ (k = Macos ∧ queue = true))) as Hauto.
    { intros w2 Ha. run_in Ha. destruct (least _ servers) as [best|] eqn:El; [|done]. apply least_spec in El as [Hin Hle].
      exists best. case_bool_decide as Hlt; [injection Ha as <- _; by split_and!; [| | |left]|].
      destruct (bool_decide (k = Macos)) eqn:Em, queue; simpl in Ha; try done. injection Ha as <- _.
      apply bool_decide_eq_true in Em. by split_and!; [| | |right]. }
    destruct server_id as [wanted|].
    + destruct (decide (wanted = AUTO)) as [->|Hne].
      * run_in H. destruct (Hauto _ H) as (sv & ? & ? & ? & ?). exists sv. split_and!; try done; naive_solver.
      * apply bind_ok_inv in H as (? & ? & [Hs ->]%guard_ok_inv & H). run_in H. injection H as <-.
        apply has_server_elem in Hs as (sv & Hin & He). exists sv. split_and!; try done; naive_solver.
    + run_in H. destruct (Hauto _ H) as (sv & ? & ? & ? & ?). exists sv. split_and!; try done; naive_solver.
  - destruct server_id as [wanted|]; [|by injection H as <-].
    destruct (decide (wanted = AUTO)) as [->|Hne].
    + run_in H. injection H as <-. destruct (least _ _) as [sv|] eqn:El; simpl; [|done]. apply least_spec in El as [Hin _].
      apply list_elem_of_filter in Hin as [_ Hin]. exists sv. split_and!; try done; naive_solver.
    + apply bind_ok_inv in H as (? & ? & [Hs ->]%guard_ok_inv & H). run_in H.
      apply bind_ok_inv in H as (? & ? & [_ ->]%guard_ok_inv & [= <-]).
      apply has_server_elem in Hs as (sv & Hin & He). exists sv. split_and!; try done; naive_solver.
Qed.

(** a batch of commands stops at the first that fails, when asked to: the
    results are those of the commands run, in order, and only the last may
    have failed; without it every command runs. *)
Theorem batch_stops {A} (run : A → M World json) (stop : bool) commands w results early w' :
  execute_batch run stop commands w = (Ok (results, early), w') →
  (length results ≤ length commands)%nat ∧
  (early = false → length results = length commands) ∧
  (stop = true → Forall (λ r, command_failed r = false) (if early then removelast results else results)) ∧
  (early = true → stop = true ∧ ∃ r, last results = Some r ∧ command_failed r = true).
Proof.
  revert w results early. induction commands as [|c rest IH]; intros w results early H; simpl in H.
  - injection H as <- <- _. by split_and!.
  - apply bind_ok_inv in H as (r & w1 & _ & H). destruct (stop && command_failed r) eqn:Ef.
    + injection H as <- <- _. apply andb_true_iff in Ef as [-> Hf]. simpl. split_and!; [lia|done|constructor|eauto].
    + apply bind_ok_inv in H as ([rs e] & w2 & H & [= <- <- ->]). destruct (IH _ _ _ H) as (H1 & H2 & H3 & H4). simpl.
      split_and!; [lia|intros He; f_equal; auto| |].
      * intros ->. specialize (H3 eq_refl). simpl in Ef. destruct e; [|by constructor].
        destruct rs as [|r1 rs]; [|by constructor]. destruct (H4 eq_refl) as (_ & x & Hx & _). done.
      * intros ->. destruct (H4 eq_refl) as (-> & x & Hx & Hxf). split; [done|]. exists x. split; [|done].
        destruct rs; [done|]. exact Hx.
Qed.
(** ** Concrete runs *)

(** The row of [Quotas.demo_quota_db] and one pooled sandbox. *)
Definition demo_routes (s : status) : World :=
  mkWorld (set_pool_sandboxes {["p2" := demo_pooled "p2" PIdle 2]}
    (set_sandboxes {["s1" := demo_quota_row s]} demo_quota_db)) 5 ∅ ∅ ∅ [].

Definition demo_vms (k : kind) : Z := 2.

Definition demo_create (k : kind) (disk : option Z) : CreateRequest :=
  mkCreate (Some "two") k None [] [] false false (mkSize 2%Q 2048 disk) None None [].

Lemma demo_routes_ids s : ids_ok (demo_routes s).(w_db).
Proof. intros i r. simpl. intros [<- <-]%lookup_singleton_Some. done. Qed.

Lemma demo_routes_pool s : pool_ok (demo_routes s).
Proof.
  split.
  - intros i r. simpl. intros [<- <-]%lookup_singleton_Some. done.
  - intros i. simpl. intros [r [<- _]%lookup_singleton_Some]. reflexivity.
Qed.

Lemma routes_isolated_witness :
  others_kept "s1" (demo_routes Stopped).(w_db)
    (run_route demo_env 20 3 demo_vms (λ _ _, true) RStart "s1" demo_member (demo_routes Stopped)).2.(w_db).
Proof.
  apply (routes_isolated demo_env 20 3 demo_vms (λ _ _, true) RStart "s1" demo_member (demo_routes Stopped) demo_env_quiet
    (demo_routes_ids _)).
  intros i x. simpl. by rewrite lookup_empty.
Defined.

Lemma start_effect_witness :
  ∃ s w', start_sandbox demo_env 20 "s1" demo_member (demo_routes Stopped) = (Ok s, w') ∧
    ∃ j, get_active_job "s1" w'.(w_db) = Some j ∧ j.(j_kind) = KBoot.
Proof.
  eexists _, _. split; [vm_compute; reflexivity|].
  match goal with |- ∃ j, get_active_job _ (w_db ?w1) = _ ∧ _ =>
    destruct (start_effect demo_env 20 "s1" demo_member (demo_routes Stopped) (provisioning_row 5 (demo_quota_row Stopped)) w1
      (demo_routes_ids _) ltac:(vm_compute; reflexivity)) as (_ & j & _ & _ & _ & _ & Hj & Hk & _) end.
  by exists j.
Defined.

Lemma create_effect_witness :
  ∃ s w', create fresh_env 20 demo_vms (λ _ _, true) (λ _, None) (λ _, None) (λ _, "v1") (demo_create Desktop None) demo_member
      (mkWorld (set_pool_sandboxes {["p2" := demo_pooled "p2" PIdle 2]} empty_db) 5 ∅ ∅ ∅ []) = (Ok s, w') ∧
    s.(sb_id) = "p2" ∧ workspace_within 20 "w1" w'.(w_db).
Proof.
  set (w := mkWorld _ _ _ _ _ _).
  destruct (create fresh_env 20 demo_vms (λ _ _, true) (λ _, None) (λ _, None) (λ _, "v1") (demo_create Desktop None) demo_member w)
    as [[s|e] w'] eqn:Ec; [|vm_compute in Ec; discriminate].
  exists s, w'. split; [done|].
  destruct (create_effect fresh_env 20 demo_vms (λ _ _, true) (λ _, None) (λ _, None) (λ _, "v1") (demo_create Desktop None) demo_member w
    s w' ltac:(done) fresh_env_unused) as (labels & _ & _ & _ & _ & _ & _ & _ & _ & Hw & _); [..|exact Ec|].
  - intros i r. simpl. by rewrite lookup_empty.
  - split; [intros i r; simpl; intros [<- <-]%lookup_singleton_Some; done|]. intros i _. reflexivity.
  - intros i sn. simpl. by rewrite lookup_empty.
  - apply NoDup_nil_2.
  - split; [|exact Hw]. vm_compute in Ec. by injection Ec as <- _.
Defined.

(** A create is given the pooled [p2]; then the pool is filled. *)
Definition demo_warm : World := mkWorld (set_pool_sandboxes {["p2" := demo_pooled "p2" PIdle 2]} empty_db) 5 ∅ ∅ ∅ [].

Definition demo_warm_run : PW :=
  (fill fresh_env [(pool_id "desktop" None, 1)] [] ∅
    (on_world (create_async fresh_env 20 demo_vms (λ _ _, true) (λ _, None) (λ _, None) (λ _, "v1") 2
       (demo_create Desktop None) demo_member) (mkPW demo_warm ∅)).2).2.

Lemma pool_apart_witness :
  is_Some (demo_warm_run.(pw_world).(w_db).(sandboxes) !! "p2") ∧
  size demo_warm_run.(pw_world).(w_db).(pool_sandboxes) = 1%nat ∧
  ∀ id, is_Some (demo_warm_run.(pw_world).(w_db).(pool_sandboxes) !! id) → demo_warm_run.(pw_world).(w_db).(sandboxes) !! id = None.
Proof.
  split; [vm_compute; eauto|]. split; [vm_compute; reflexivity|].
  eapply (pool_apart fresh_env 20 demo_vms (λ _ _, true) (λ _, None) (λ _, None) (λ _, "v1") (mkPW demo_warm ∅));
    [done|exact fresh_env_unused| |].
  - split; [intros i r; simpl; intros [<- <-]%lookup_singleton_Some; done|]. intros i _. reflexivity.
  - eapply rtc_l; [apply (pool_create _ _ _ _ _ _ _ 2 (demo_create Desktop None) demo_member), NoDup_nil_2|].
    apply rtc_once, pool_fills.
Defined.

Lemma create_terminates_witness :
  (create_loop demo_env 20 demo_vms (λ _ _, true) (λ _, None) (λ _, None) (λ _, "v1") 2 15
     (demo_create Desktop (Some 4)) demo_member (demo_routes Stopped)).1 ≠ Ok None.
Proof.
  apply (create_terminates demo_env 20 demo_vms (λ _ _, true) (λ _, None) (λ _, None) (λ _, "v1") 15
    (demo_create Desktop (Some 4)) demo_member (demo_routes Stopped)).
  - by intros w.
  - apply demo_routes_pool.
  - apply NoDup_nil_2.
Defined.

Definition demo_servers : World :=
  mkWorld (mkDb ∅ ∅ ∅ ∅ ∅ ∅ ∅ ∅ ∅ {["mac" := mkServer "mac" "w1" "macos,linux" 1]} ∅ ∅ 2) 5 ∅ ∅ ∅ [].

Lemma place_sound_witness :
  ∃ sv, sv ∈ list_servers_by_workspace "w1" demo_servers.(w_db) ∧ sv.(sv_id) = "mac" ∧
    place demo_vms (λ _ _, true) None demo_member Macos false demo_servers = (Ok (Some "mac"), demo_servers).
Proof.
  destruct (place_sound demo_vms (λ _ _, true) None demo_member Macos false demo_servers (Some "mac") demo_servers)
    as (_ & sv & Hin & Hid & _); [vm_compute; reflexivity|].
  exists sv. split_and!; [|exact Hid|vm_compute; reflexivity].
  unfold capable in Hin. by apply list_elem_of_filter in Hin as [_ Hin].
Defined.

Lemma batch_stops_witness :
  ∃ w', execute_batch (λ c w, (Ok (JObj [("exit_code", JInt c)]), w)) true [0; 1; 0] demo_servers
      = (Ok ([JObj [("exit_code", JInt 0)]; JObj [("exit_code", JInt 1)]], true), w') ∧
    ∃ r, last [JObj [("exit_code", JInt 0)]; JObj [("exit_code", JInt 1)]] = Some r ∧ command_failed r = true.
Proof.
  eexists. split; [reflexivity|].
  refine (proj2 (proj2 (proj2 (proj2 (batch_stops (λ c w, (Ok (JObj [("exit_code", JInt c)]), w)) true [0; 1; 0] demo_servers _ _ _ _))) _)).
  - reflexivity.
  - reflexivity.
Defined.

(** ** Where a route leaves the quotas' contract *)

(** One running sandbox, [w1] at its limit of one, and a stopped one on an old image. *)
Definition demo_full (running : status) : World :=
  mkWorld (mkDb
    (<["s1" := demo_quota_row running]> {["s2" := sb_set_status Stopped (demo_quota_new 4)]}) ∅ ∅ ∅ ∅
    {["w1" := mkQuota (Some 1) None None None]} ∅ ∅ ∅ ∅ ∅ ∅ 1) 5 ∅ ∅ ∅ [].

Definition demo_imaged : World :=
  put_db (upd_sandbox "s2" (λ s, sb_set_config [("image", JStr "zoo:0")] s) (demo_full Running).(w_db)) (demo_full Running).

(** Upgrading the image of a stopped sandbox boots it without asking the
    quotas: the workspace ends with two counted sandboxes, its limit being one;
    starting the same sandbox is refused. *)
Example upgrade_past_quota :
  (∃ text, (start_sandbox demo_env 20 "s2" demo_member demo_imaged).1 = Err (HTTPException 409 text)) ∧
  let w' := (upgrade_sandbox demo_env "s2" demo_member demo_imaged).2 in
  u_running (workspace_usage 20 "w1" w'.(w_db)) = 2.
Proof. split; [eexists; vm_compute; reflexivity|by vm_compute]. Qed.

(** Giving a running sandbox its own labels again is refused when the workspace
    is at its limit: the check counts the sandbox once more. *)
Example relabel_refused :
  ∃ text, (update_sandbox_route 20 "s1" None (Some []) demo_member (demo_full Running)).1 = Err (HTTPException 409 text).
Proof. eexists. vm_compute. reflexivity. Qed.
