(* ===== verification/Leases.v ===== *)
(** What processes share through the database beyond the queue: leases for
    singleton work (src/apps/server/workers.py) and the single-use tickets of
    viewer URLs (src/apps/server/tickets.py). *)

From S2P Require Import Prelude Tables.

(** ** Leases *)

Record Lease := mkLease { l_holder : string; l_expires_at : time }.

Record Leases := mkLeases { leases : gmap string Lease; ls_now : time }.

(** Source: src/db/generated/query.py:23-28 [ACQUIRE_LEASE].  The
    holder it returns, if the statement writes a row. *)
Definition acquire_lease (name holder : string) (expires_at : time) (s : Leases) : option string * Leases :=
  let take := (Some holder, mkLeases (<[name := mkLease holder expires_at]> s.(leases)) s.(ls_now)) in
  match s.(leases) !! name with
  | None => take
  | Some l => if bool_decide (l.(l_holder) = holder) || bool_decide (l.(l_expires_at) < s.(ls_now)) then take else (None, s)
  end.

(** Source: src/db/generated/query.py:1944-1946 [RELEASE_LEASE]. *)
Definition release_lease (name holder : string) (s : Leases) : Leases :=
  match s.(leases) !! name with
  | Some l => if bool_decide (l.(l_holder) = holder) then mkLeases (delete name s.(leases)) s.(ls_now) else s
  | None => s
  end.

(** Source: src/apps/server/workers.py:22-24 [works]. *)
Definition works (ROLE : string) : bool := bool_decide (ROLE ∈ ["all"; "worker"]).

(** Source: src/apps/server/workers.py:27-30 [hold]. *)
Definition hold (WORKER_ID name : string) (ttl : Z) : M Leases bool := λ s,
  let '(row, s') := acquire_lease name WORKER_ID (s.(ls_now) + sec ttl) s in
  (Ok (bool_decide (row = Some WORKER_ID)), s').

(** Source: src/apps/server/workers.py:33-35 [release]. *)
Definition release (WORKER_ID name : string) : M Leases unit := modify (release_lease name WORKER_ID).

(** *** Processes that hold leases *)

(** The database, and until when each process may take each lease for held:
    the time of its last successful [hold] and the time to live it asked. *)
Record Holders := mkHolders { h_leases : Leases; h_until : gmap (string * string) time }.

Inductive holders_step : Holders → Holders → Prop :=
| hs_tick m now now' u : now ≤ now' → holders_step (mkHolders (mkLeases m now) u) (mkHolders (mkLeases m now') u)
| hs_hold l u p name ttl l' :
    hold p name ttl l = (Ok true, l') →
    holders_step (mkHolders l u) (mkHolders l' (<[(p, name) := l.(ls_now) + sec ttl]> u))
| hs_refused l u p name ttl l' :
    hold p name ttl l = (Ok false, l') → holders_step (mkHolders l u) (mkHolders l' (delete (p, name) u))
| hs_release l u p name l' :
    release p name l = (Ok tt, l') → holders_step (mkHolders l u) (mkHolders l' (delete (p, name) u))
| hs_crash l u p name : holders_step (mkHolders l u) (mkHolders l (delete (p, name) u)).

Definition holders_init (s : Holders) : Prop := s.(h_until) = ∅.

Definition holds_now (s : Holders) (p name : string) : Prop :=
  ∃ t, s.(h_until) !! (p, name) = Some t ∧ s.(h_leases).(ls_now) ≤ t.

(** A process that may take a lease for held is the one the row names. *)
Definition holders_ok (s : Holders) : Prop :=
  ∀ p name t, s.(h_until) !! (p, name) = Some t → s.(h_leases).(ls_now) ≤ t →
    s.(h_leases).(leases) !! name = Some (mkLease p t).

Lemma acquire_spec name p at_ s r s' :
  acquire_lease name p at_ s = (r, s') →
  (r = Some p ∧ s' = mkLeases (<[name := mkLease p at_]> s.(leases)) s.(ls_now) ∧
     ∀ l, s.(leases) !! name = Some l → l.(l_holder) = p ∨ l.(l_expires_at) < s.(ls_now)) ∨
  (r = None ∧ s' = s ∧ ∃ l, s.(leases) !! name = Some l ∧ l.(l_holder) ≠ p).
Proof.
  unfold acquire_lease. destruct (leases s !! name) as [l|] eqn:El.
  - destruct (bool_decide (l_holder l = p)) eqn:E1; simpl.
    { intros [= <- <-]. apply bool_decide_eq_true in E1. left. split_and!; [done..|]. intros ? [= <-]. by left. }
    apply bool_decide_eq_false in E1. case_bool_decide; intros [= <- <-].
    + left. split_and!; [done..|]. intros ? [= <-]. by right.
    + right. eauto.
  - intros [= <- <-]. left. split_and!; done.
Qed.

Lemma hold_spec p name ttl s b s' :
  hold p name ttl s = (Ok b, s') →
  if b then s' = mkLeases (<[name := mkLease p (s.(ls_now) + sec ttl)]> s.(leases)) s.(ls_now) ∧
         ∀ l, s.(leases) !! name = Some l → l.(l_holder) = p ∨ l.(l_expires_at) < s.(ls_now)
  else s' = s ∧ ∃ l, s.(leases) !! name = Some l ∧ l.(l_holder) ≠ p.
Proof.
  unfold hold. destruct (acquire_lease _ _ _ _) as [r s1] eqn:E. intros [= <- <-].
  apply acquire_spec in E as [(-> & -> & H)|(-> & -> & H)]; [rewrite bool_decide_true by done|rewrite bool_decide_false by done]; done.
Qed.

Lemma holders_ok_step s s' : holders_ok s → holders_step s s' → holders_ok s'.
Proof.
  intros Hok Hs. unfold holders_ok in *. destruct Hs as [m now now' u Hle|l u p name ttl l' Hh|l u p name ttl l' Hh|l u p name l' Hh|l u p name];
    simpl in *.
  - intros q n t Hq Ht. apply Hok; [done|lia].
  - apply hold_spec in Hh as [-> Hfree]. simpl. intros q n t. rewrite lookup_insert. case_decide as Hk.
    + intros [= <-] _. injection Hk as -> ->. by rewrite lookup_insert_eq.
    + intros Hq Ht. pose proof (Hok q n t Hq Ht) as Hl. rewrite lookup_insert_ne; [done|]. intros ->.
      destruct (Hfree _ Hl) as [Hp|Hexp]; simpl in *; [subst; by apply Hk|lia].
  - apply hold_spec in Hh as [-> _]. intros q n t [_ Hq]%lookup_delete_Some. by apply Hok.
  - unfold release in Hh. injection Hh as <-. intros q n t [Hne Hq]%lookup_delete_Some.
    unfold release_lease. destruct (leases l !! name) as [x|] eqn:Ex; [|by apply Hok].
    case_bool_decide as Hx; [|by apply Hok]. simpl. intros Ht. pose proof (Hok q n t Hq Ht) as Hl.
    rewrite lookup_delete_ne; [done|]. intros ->. rewrite Ex in Hl. injection Hl as ->. simpl in Hx. subst. by apply Hne.
  - intros q n t [_ Hq]%lookup_delete_Some. by apply Hok.
Qed.

(** leases exclude each other.  However processes take, renew, release and
    lose leases as time passes, at any time at most one process is within the
    time to live of a lease it took. *)
Theorem lease_exclusive s p q name :
  reachable holders_init holders_step s → holds_now s p name → holds_now s q name → p = q.
Proof.
  intros Hr (t & Hp & Ht) (t' & Hq & Ht').
  assert (holders_ok s) as Hok.
  { revert Hr. apply reachable_invariant; [|apply holders_ok_step].
    intros s0 H0 p0 n0 t0. by rewrite H0, lookup_empty. }
  pose proof (Hok _ _ _ Hp Ht) as H1. pose proof (Hok _ _ _ Hq Ht') as H2. congruence.
Qed.

Lemma lease_exclusive_witness :
  ∃ u, let s := mkHolders (mkLeases {["metering" := mkLease "a" 180000005]} 9) u in
    holds_now s "a" "metering" ∧ (holds_now s "b" "metering" → "a" = "b").
Proof.
  exists {[("a", "metering") := 180000005]}. cbv zeta. split; [exists 180000005; split; [reflexivity|simpl; lia]|].
  intros Hb. refine (lease_exclusive _ "a" "b" "metering" _ _ Hb); [|exists 180000005; split; [reflexivity|simpl; lia]].
  eapply reach_step; [|apply (hs_tick _ 5 9); lia].
  eapply reach_step; [|apply (hs_hold (mkLeases ∅ 5) ∅ "a" "metering" 180); reflexivity].
  by apply reach_init.
Defined.

(** ** Tickets *)

Definition TICKET_TTL : Z := 30.

Record Ticket := mkTicket { tk_user_id : string; tk_target : string; tk_expires_at : time }.

Record Tickets := mkTickets { tickets : gmap string Ticket; ts_now : time }.

Section tickets.
(** hashlib.sha256, in hex *)
Context (_hash : string → string).

(** Source: src/db/generated/query.py:1923-1925 [PURGE_TICKETS]. *)
Definition purge_tickets (now : time) (m : gmap string Ticket) : gmap string Ticket :=
  filter (λ p, now < p.2.(tk_expires_at)) m.

(** Source: src/db/generated/query.py:565-567 [CREATE_TICKET].  [None]
    when the primary key is taken. *)
Definition create_ticket (ticket_hash : string) (t : Ticket) (m : gmap string Ticket) : option (gmap string Ticket) :=
  match m !! ticket_hash with None => Some (<[ticket_hash := t]> m) | Some _ => None end.

(** Source: src/db/generated/query.py:1933-1936 [REDEEM_TICKET]. *)
Definition redeem_ticket (ticket_hash : string) (m : gmap string Ticket) : option Ticket * gmap string Ticket :=
  (m !! ticket_hash, delete ticket_hash m).

(** Source: src/apps/server/tickets.py:19-24 [issue].  [ticket] is the token
    [secrets.token_urlsafe] drew. *)
Definition issue (ticket user_id target : string) : M Tickets string := λ s,
  match create_ticket (_hash ticket) (mkTicket user_id target (s.(ts_now) + sec TICKET_TTL))
      (purge_tickets s.(ts_now) s.(tickets)) with
  | Some m => (Ok ticket, mkTickets m s.(ts_now))
  | None => (Err IntegrityError, s)
  end.

(** Source: src/apps/server/tickets.py:27-33 [redeem]. *)
Definition redeem (ticket target : string) : M Tickets (option string) := λ s,
  let '(row, m) := redeem_ticket (_hash ticket) s.(tickets) in
  (Ok (match row with
       | None => None
       | Some r =>
           if negb (bool_decide (r.(tk_target) = target)) || bool_decide (r.(tk_expires_at) ≤ s.(ts_now)) then None
           else Some r.(tk_user_id)
       end), mkTickets m s.(ts_now)).

(** *** The specification: every ticket ever issued, and those spent *)

Inductive ticket_op :=
| OIssue (ticket user_id target : string)
| ORedeem (ticket target : string)
| OPass (d : Z).

Record Spec := mkSpec { sp_issued : gmap string Ticket; sp_spent : gset string; sp_now : time }.

Definition spec_op (o : ticket_op) (s : Spec) : option string * Spec :=
  match o with
  | OIssue t u x => (None, mkSpec (<[t := mkTicket u x (s.(sp_now) + sec TICKET_TTL)]> s.(sp_issued)) s.(sp_spent) s.(sp_now))
  | ORedeem t x =>
      (match s.(sp_issued) !! t with
       | Some r =>
           if bool_decide (t ∉ s.(sp_spent)) && bool_decide (r.(tk_target) = x) && bool_decide (s.(sp_now) < r.(tk_expires_at))
           then Some r.(tk_user_id) else None
       | None => None
       end, mkSpec s.(sp_issued) ({[t]} ∪ s.(sp_spent)) s.(sp_now))
  | OPass d => (None, mkSpec s.(sp_issued) s.(sp_spent) (s.(sp_now) + Z.max 0 d))
  end.

Definition impl_op (o : ticket_op) (s : Tickets) : option string * Tickets :=
  match o with
  | OIssue t u x => (None, (issue t u x s).2)
  | ORedeem t x => (match (redeem t x s).1 with Ok r => r | Err _ => None end, (redeem t x s).2)
  | OPass d => (None, mkTickets s.(tickets) (s.(ts_now) + Z.max 0 d))
  end.

Fixpoint answers {S} (op : ticket_op → S → option string * S) (ops : list ticket_op) (s : S) : list (option string) :=
  match ops with
  | [] => []
  | o :: rest => let '(r, s') := op o s in r :: answers op rest s'
  end.

(** Tokens are random: a run issues none twice, nor one that was tried before. *)
Fixpoint fresh_tokens (seen : list string) (ops : list ticket_op) : Prop :=
  match ops with
  | [] => True
  | OIssue t _ _ :: rest => (t ∉ seen) ∧ fresh_tokens (t :: seen) rest
  | ORedeem t _ :: rest => fresh_tokens (t :: seen) rest
  | OPass _ :: rest => fresh_tokens seen rest
  end.

Context `{!Inj (=) (=) _hash}.

Definition agree (seen : list string) (s : Tickets) (p : Spec) : Prop :=
  s.(ts_now) = p.(sp_now) ∧
  (∀ t, t ∈ p.(sp_spent) → t ∈ seen) ∧ (∀ t r, p.(sp_issued) !! t = Some r → t ∈ seen) ∧
  (∀ h r, s.(tickets) !! h = Some r → ∃ t, h = _hash t ∧ p.(sp_issued) !! t = Some r ∧ t ∉ p.(sp_spent)) ∧
  (∀ t r, p.(sp_issued) !! t = Some r → t ∉ p.(sp_spent) → p.(sp_now) < r.(tk_expires_at) → s.(tickets) !! _hash t = Some r).

Lemma agree_issue seen t u x s p :
  agree seen s p → t ∉ seen → agree (t :: seen) (issue t u x s).2 (spec_op (OIssue t u x) p).2.
Proof.
  intros (Hn & Hsp & Hi & H1 & H2) Ht. unfold issue, create_ticket.
  assert (∀ r, purge_tickets (ts_now s) (tickets s) !! _hash t ≠ Some r) as Hfree.
  { intros r [Hr _]%map_lookup_filter_Some. apply H1 in Hr as (t' & E%(inj _hash) & Hr & _). subst t'. by apply Ht, (Hi t r). }
  destruct (purge_tickets _ _ !! _hash t) as [r|] eqn:E; [by destruct (Hfree r)|]. unfold agree. simpl. rewrite <- Hn. split_and!.
  - done.
  - intros t' Ht'. right. auto.
  - intros t' r. rewrite lookup_insert. case_decide as Heq; [subst; left|]. intros Hr. right. by apply (Hi t' r).
  - intros h r. rewrite lookup_insert. case_decide as Heq.
    + intros [= <-]. subst h. exists t. rewrite lookup_insert_eq. split_and!; [done..|]. intros Hin. by apply Ht, Hsp.
    + intros [Hr _]%map_lookup_filter_Some. apply H1 in Hr as (t' & -> & Hr & Hns). exists t'. split_and!; [done| |done].
      rewrite lookup_insert_ne; [done|]. intros ->. by apply Heq.
  - intros t' r. rewrite lookup_insert. case_decide as Heq.
    + intros [= <-] _ _. subst. by rewrite lookup_insert_eq.
    + intros Hr Hns Hlt. rewrite lookup_insert_ne; [|intros E'%(inj _hash); by apply Heq].
      apply map_lookup_filter_Some. split; [|done]. apply H2; [done..|lia].
Qed.

Lemma agree_redeem seen t x s p :
  agree seen s p →
  agree (t :: seen) (impl_op (ORedeem t x) s).2 (spec_op (ORedeem t x) p).2 ∧
  (impl_op (ORedeem t x) s).1 = (spec_op (ORedeem t x) p).1.
Proof.
  intros (Hn & Hsp & Hi & H1 & H2). unfold redeem. simpl. split.
  - unfold agree. simpl. split_and!.
    + done.
    + intros t'. rewrite elem_of_union, elem_of_singleton. intros [->|?]; [left|right; auto].
    + intros t' r Hr. right. by apply (Hi t' r).
    + intros h r [Hne Hr]%lookup_delete_Some. apply H1 in Hr as (t' & -> & Hr & Hns). exists t'. split_and!; [done..|].
      rewrite elem_of_union, elem_of_singleton. intros [->|?]; [by apply Hne|done].
    + intros t' r Hr Hns Hlt. rewrite lookup_delete_ne; [apply H2; [done|set_solver|done]|].
      intros E%(inj _hash). subst. set_solver.
  - rewrite Hn. destruct (tickets s !! _hash t) as [r|] eqn:E.
    + apply H1 in E as (t' & E'%(inj _hash) & Hr & Hns). subst t'. rewrite Hr.
      rewrite (bool_decide_true (t ∉ _)) by done.
      destruct (decide (tk_target r = x)) as [Hx|Hx], (decide (tk_expires_at r ≤ sp_now p)) as [Hle|Hle];
        rewrite ?(bool_decide_true _ Hx), ?(bool_decide_false _ Hx), ?(bool_decide_true _ Hle), ?(bool_decide_false _ Hle); simpl;
        try (rewrite bool_decide_false by lia); try (rewrite bool_decide_true by lia); done.
    + destruct (sp_issued p !! t) as [r|] eqn:Er; [|done]. destruct (decide (t ∈ sp_spent p)) as [Hs|Hs].
      { by rewrite bool_decide_false by auto. }
      destruct (decide (sp_now p < tk_expires_at r)) as [Hlt|Hlt].
      { by rewrite (H2 t r Er Hs Hlt) in E. }
      rewrite (bool_decide_false (_ < _)) by done. by rewrite andb_false_r.
Qed.

(** tickets are single-use, short-lived and bound to their target.  The
    table of hashes, which forgets expired tickets and those redeemed, answers
    every run of issues and redemptions like the specification that remembers
    everything: a redemption gives the ticket's user exactly when the ticket
    was issued for that target at most TICKET_TTL seconds ago and no one tried
    it before. *)
Theorem tickets_refine ops now :
  fresh_tokens [] ops → answers impl_op ops (mkTickets ∅ now) = answers spec_op ops (mkSpec ∅ ∅ now).
Proof.
  assert (∀ seen s p, agree seen s p → fresh_tokens seen ops → answers impl_op ops s = answers spec_op ops p) as H.
  { induction ops as [|o rest IH]; intros seen s p Ha Hf; [done|]. destruct o as [t u x|t x|d].
    - destruct Hf as [Ht Hf]. pose proof (agree_issue seen t u x s p Ha Ht) as H. simpl in *. f_equal. by eapply IH.
    - destruct (agree_redeem seen t x s p Ha) as [H1 H2]. cbn [answers]. destruct (impl_op _ s) as [r1 s1], (spec_op _ p) as [r2 p1].
      simpl in *. subst. f_equal. by eapply IH.
    - simpl in *. f_equal. eapply IH; [|exact Hf]. destruct Ha as (Hn & H1 & H2 & H3 & H4). unfold agree. simpl. rewrite Hn.
      split_and!; [done..|]. intros t r Hr Hns Hlt. apply H4; [done..|lia]. }
  intros Hf. eapply H; [|exact Hf]. unfold agree. simpl. split_and!; [done|set_solver| | |].
  - intros t r. by rewrite lookup_empty.
  - intros h r. by rewrite lookup_empty.
  - intros t r. by rewrite lookup_empty.
Qed.
End tickets.

Lemma tickets_refine_witness :
  answers (impl_op id) [OIssue "a" "u1" "s1"; ORedeem "a" "s1"; ORedeem "a" "s1"] (mkTickets ∅ 0) = [None; Some "u1"; None].
Proof.
  rewrite (tickets_refine id [OIssue "a" "u1" "s1"; ORedeem "a" "s1"; ORedeem "a" "s1"] 0); [vm_compute; reflexivity|].
  split; [apply not_elem_of_nil|exact I].
Defined.
