(* ===== verification/Idempotency.v ===== *)
(** Idempotency keys (src/apps/server/idempotency.py): the row a POST with an
    Idempotency-Key claims, the response kept under it, and what repeats of the
    request get; the requests of all processes as a step relation. *)

From S2P Require Import Prelude Tables Kms.

Definition MAX_KEY : nat := 255.
Definition MAX_RESPONSE : Z := Z.shiftl 1 20.
Definition ABANDONED_SECONDS : Z := 600.
Definition RETENTION_SECONDS : Z := 24 * 3600.

(** Source: src/db/generated/models.py:65-74 [IdempotencyKey]. *)
Record IdemRow := mkIdemRow {
  ik_method : string;
  ik_path : string;
  ik_request_hash : string;
  ik_status : option Z;
  ik_content_type : option string;
  ik_response : option string;
  ik_created_at : time
}.

(** The table, keyed by (owner, key), and the clock. *)
Record Idem := mkIdem { idem_rows : gmap (string * string) IdemRow; idem_now : time }.

Definition put_rows (m : gmap (string * string) IdemRow) (s : Idem) : Idem := mkIdem m s.(idem_now).

(** ** Statements *)

(** Source: src/db/generated/query.py:76-82 [CLAIM_IDEMPOTENCY_KEY].
    The row, and whether it was inserted. *)
Definition claim_idempotency_key (owner key method path request_hash : string) (s : Idem) : IdemRow * bool * Idem :=
  match s.(idem_rows) !! (owner, key) with
  | Some row => (row, false, s)
  | None =>
      let row := mkIdemRow method path request_hash None None None s.(idem_now) in
      (row, true, put_rows (<[(owner, key) := row]> s.(idem_rows)) s)
  end.

(** Source: src/db/generated/query.py:865-868 [FINISH_IDEMPOTENCY_KEY]. *)
Definition finish_idempotency_key (status : Z) (content_type response : option string) (owner key : string) (s : Idem) : Idem :=
  put_rows (alter (λ r, mkIdemRow r.(ik_method) r.(ik_path) r.(ik_request_hash) (Some status) content_type response r.(ik_created_at))
    (owner, key) s.(idem_rows)) s.

(** Source: src/db/generated/query.py:1939-1941 [RELEASE_IDEMPOTENCY_KEY]. *)
Definition release_idempotency_key (owner key : string) (s : Idem) : Idem :=
  put_rows (delete (owner, key) s.(idem_rows)) s.

(** Source: src/db/generated/query.py:1913-1915 [PURGE_IDEMPOTENCY_KEYS]. *)
Definition purge_idempotency_keys (created_at : time) (s : Idem) : Idem :=
  put_rows (filter (λ p, created_at ≤ p.2.(ik_created_at)) s.(idem_rows)) s.

(** ** The module's functions *)

(** Source: src/apps/server/idempotency.py:32-41 [claim].  The statement that
    claims also locks the row, so the transaction is one step. *)
Definition claim (owner key method path request_hash : string) (s : Idem) : IdemRow * bool * Idem :=
  let '(row, inserted, s1) := claim_idempotency_key owner key method path request_hash s in
  if negb inserted && is_none row.(ik_status)
     && bool_decide (sec ABANDONED_SECONDS < s1.(idem_now) - row.(ik_created_at))
  then claim_idempotency_key owner key method path request_hash (release_idempotency_key owner key s1)
  else (row, inserted, s1).

(** Source: src/apps/server/idempotency.py:44-51 [finish]. *)
Definition finish (owner key : string) (status : Z) (content_type : option string) (body : string) (s : Idem) : Idem :=
  finish_idempotency_key status content_type (Some body) owner key s.

(** Source: src/apps/server/idempotency.py:54-56 [release]. *)
Definition release (owner key : string) (s : Idem) : Idem := release_idempotency_key owner key s.

(** Source: src/apps/server/idempotency.py:59-61 [purge]. *)
Definition purge (s : Idem) : Idem := purge_idempotency_keys (s.(idem_now) - sec RETENTION_SECONDS) s.

(** [bytes.decode()] succeeds: well-formed UTF-8. *)
Definition in_range (lo hi : Z) (c : Ascii.ascii) : bool :=
  let b := Z.of_nat (Ascii.nat_of_ascii c) in (lo <=? b) && (b <=? hi).

Fixpoint utf8 (s : string) : bool :=
  match s with
  | EmptyString => true
  | String a s1 =>
      if in_range 0 127 a then utf8 s1
      else match s1 with
      | EmptyString => false
      | String b s2 =>
          if in_range 194 223 a then in_range 128 191 b && utf8 s2
          else match s2 with
          | EmptyString => false
          | String c s3 =>
              if in_range 224 239 a then
                (if in_range 224 224 a then in_range 160 191 b else if in_range 237 237 a then in_range 128 159 b else in_range 128 191 b)
                && in_range 128 191 c && utf8 s3
              else match s3 with
              | EmptyString => false
              | String d s4 =>
                  in_range 240 244 a
                  && (if in_range 240 240 a then in_range 144 191 b else if in_range 244 244 a then in_range 128 143 b else in_range 128 191 b)
                  && in_range 128 191 c && in_range 128 191 d && utf8 s4
              end
          end
      end
  end.

(** ** The middleware *)

Record IdemRequest := mkIdemRequest {
  ir_http : bool;
  ir_method : string;
  ir_key : string;
  ir_authorization : string;
  ir_workspace : string;
  ir_cookie : string;
  ir_path : string;
  ir_body : string
}.

(** What a request gets before the application runs, if it does not run. *)
Inductive answer :=
| Pass
| Refuse (code message : string)
| Replay (status : Z) (content_type : option string) (body : string)
| Proceed (owner key : string).

Section middleware.
(** hashlib.sha256, in hex *)
Context (sha256 : string → string).

Definition owner_of (r : IdemRequest) : string :=
  sha256 (r.(ir_authorization) +:+ "|" +:+ r.(ir_workspace) +:+ "|" +:+ r.(ir_cookie)).

Definition hash_of (r : IdemRequest) : string :=
  sha256 ("POST " +:+ r.(ir_path) +:+ String (Ascii.ascii_of_nat 10) r.(ir_body)).

(** Source: src/apps/server/idempotency.py:68-112 [Idempotency.__call__].  Up to
    the call of the application; the body has been received. *)
Definition admit_request (r : IdemRequest) (s : Idem) : answer * Idem :=
  if negb r.(ir_http) || negb (String.eqb r.(ir_method) "POST") then (Pass, s)
  else
    let key := strip r.(ir_key) in
    if String.eqb key "" then (Pass, s)
    else if (MAX_KEY <? String.length key)%nat then
      (Refuse "validation_failed" "Idempotency-Key is at most 255 characters", s)
    else
      let owner := owner_of r in
      let request_hash := hash_of r in
      let '(row, inserted, s') := claim owner key "POST" r.(ir_path) request_hash s in
      if negb inserted then
        if negb (String.eqb row.(ik_request_hash) request_hash) then
          (Refuse "idempotency_key_reused" "this Idempotency-Key was used for a different request", s')
        else
          match row.(ik_status) with
          | None => (Refuse "idempotency_key_in_progress" "a request with this Idempotency-Key is running", s')
          | Some status => (Replay status (str_or_none row.(ik_content_type)) (default "" row.(ik_response)), s')
          end
      else (Proceed owner key, s').

(** What the application sent: the status (500 if it sent none), the content
    type, and the chunks of the body. *)
Record Response := mkResponse { rs_status : Z; rs_content_type : option string; rs_chunks : list string }.

(** Source: src/apps/server/idempotency.py:128-138 [Idempotency.__call__.capture].
    One chunk: the chunks kept and the size of all, so far. *)
Definition capture_chunk (acc : list string * Z) (chunk : string) : list string * Z :=
  let size := acc.2 + Z.of_nat (String.length chunk) in
  (if size <=? MAX_RESPONSE then acc.1 ++ [chunk] else acc.1, size).

Definition capture (chunks : list string) : list string * Z := foldl capture_chunk ([], 0) chunks.

(** Source: src/apps/server/idempotency.py:140-153 [Idempotency.__call__].  From
    the call of the application on: what it sent and whether it returned. *)
Definition settle (owner key : string) (resp : Response) (returned : bool) (s : Idem) : Idem :=
  let '(kept, size) := capture resp.(rs_chunks) in
  let body := foldr String.append "" kept in
  let keep := returned && (resp.(rs_status) <? 500) && (size <=? MAX_RESPONSE)
              && negb (startswith (default "" resp.(rs_content_type)) "text/event-stream") && utf8 body in
  if keep then finish owner key resp.(rs_status) resp.(rs_content_type) body s else release owner key s.
End middleware.

(** ** Requests of every process *)

Section requests.
Context (sha256 : string → string).

(** A request whose application runs. *)
Record Running := mkRunning { rn_owner : string; rn_key : string; rn_hash : string; rn_started : time }.

Definition slot (r : Running) : string * string := (r.(rn_owner), r.(rn_key)).

Record Requests := mkRequests { rq_idem : Idem; rq_running : list Running }.

(** No application runs longer than ABANDONED_SECONDS: what the code relies on
    when it forgets a row that old. *)
Definition in_time (now : time) (r : Running) : Prop := now - r.(rn_started) ≤ sec ABANDONED_SECONDS.

Inductive requests_step : Requests → Requests → Prop :=
| rq_tick m now now' l :
    now ≤ now' → Forall (in_time now') l →
    requests_step (mkRequests (mkIdem m now) l) (mkRequests (mkIdem m now') l)
| rq_admit r s l a s' :
    admit_request sha256 r s = (a, s') →
    requests_step (mkRequests s l)
      (mkRequests s' (match a with
                      | Proceed o k => mkRunning o k (hash_of sha256 r) s.(idem_now) :: l
                      | _ => l
                      end))
| rq_settle s l1 r l2 resp returned :
    requests_step (mkRequests s (l1 ++ r :: l2)) (mkRequests (settle r.(rn_owner) r.(rn_key) resp returned s) (l1 ++ l2))
| rq_crash s l1 r l2 : requests_step (mkRequests s (l1 ++ r :: l2)) (mkRequests s (l1 ++ l2))
| rq_purge s l : requests_step (mkRequests s l) (mkRequests (purge s) l).

Definition requests_init (s : Requests) : Prop := s.(rq_running) = [].

(** The row a running request claimed. *)
Definition claimed (s : Requests) (r : Running) : Prop :=
  ∃ row, s.(rq_idem).(idem_rows) !! slot r = Some row ∧ row.(ik_status) = None ∧
    row.(ik_request_hash) = r.(rn_hash) ∧ row.(ik_created_at) = r.(rn_started).

Definition requests_ok (s : Requests) : Prop :=
  NoDup (slot <$> s.(rq_running)) ∧ Forall (claimed s) s.(rq_running) ∧
  Forall (in_time s.(rq_idem).(idem_now)) s.(rq_running) ∧
  Forall (λ r, r.(rn_started) ≤ s.(rq_idem).(idem_now)) s.(rq_running).

(** What claiming does to the table. *)
Lemma claim_cases o k method path h s row inserted s' :
  claim o k method path h s = (row, inserted, s') →
  s'.(idem_now) = s.(idem_now) ∧
  (if inserted
   then row = mkIdemRow method path h None None None s.(idem_now) ∧
        s'.(idem_rows) = <[(o, k) := row]> s.(idem_rows) ∧
        ∀ old, s.(idem_rows) !! (o, k) = Some old →
          old.(ik_status) = None ∧ sec ABANDONED_SECONDS < s.(idem_now) - old.(ik_created_at)
   else s' = s ∧ s.(idem_rows) !! (o, k) = Some row).
Proof.
  unfold claim, claim_idempotency_key. destruct (idem_rows s !! (o, k)) as [old|] eqn:E; simpl.
  - destruct (is_none (ik_status old)) eqn:Es; simpl; [|intros [= <- <- <-]; done].
    destruct (ik_status old) eqn:Eo; [done|]. case_bool_decide as Hb; [|intros [= <- <- <-]; done].
    rewrite lookup_delete_eq. intros [= <- <- <-]. simpl. split_and!; [done..| |].
    + by rewrite insert_delete_eq.
    + by intros ? [= <-].
  - intros [= <- <- <-]. split_and!; [done..|]. intros old. congruence.
Qed.

(** What a request does to the table when it arrives. *)
Lemma admit_cases r s a s' :
  admit_request sha256 r s = (a, s') →
  match a with
  | Proceed o k =>
      ∃ row, s' = put_rows (<[(o, k) := row]> s.(idem_rows)) s ∧ row.(ik_status) = None ∧
        row.(ik_request_hash) = hash_of sha256 r ∧ row.(ik_created_at) = s.(idem_now) ∧
        ∀ old, s.(idem_rows) !! (o, k) = Some old →
          old.(ik_status) = None ∧ sec ABANDONED_SECONDS < s.(idem_now) - old.(ik_created_at)
  | _ => s' = s
  end.
Proof.
  unfold admit_request. destruct (_ || _); [by intros [= <- <-]|]. destruct (String.eqb _ ""); [by intros [= <- <-]|].
  destruct (_ <? _)%nat; [by intros [= <- <-]|]. destruct (claim _ _ _ _ _ _) as [[row inserted] s1] eqn:Ec.
  apply claim_cases in Ec as [Hn Hc]. destruct inserted; simpl.
  - destruct Hc as (Hrow & Hr & Hold). intros [= <- <-]. exists row. subst row. split_and!; [|done..|exact Hold].
    destruct s1. unfold put_rows. simpl in *. congruence.
  - destruct Hc as [-> _]. destruct (negb _); [by intros [= <- <-]|]. destruct (ik_status row); by intros [= <- <-].
Qed.

Lemma settle_cases o k resp returned s :
  (settle o k resp returned s).(idem_now) = s.(idem_now) ∧
  ∀ x, x ≠ (o, k) → (settle o k resp returned s).(idem_rows) !! x = s.(idem_rows) !! x.
Proof.
  unfold settle. destruct (capture _) as [kept size]. destruct (_ && _); simpl; (split; [done|]); intros x Hx.
  - by rewrite lookup_alter_ne.
  - by rewrite lookup_delete_ne.
Qed.

Lemma claimed_ext s s' r :
  s'.(rq_idem).(idem_rows) !! slot r = s.(rq_idem).(idem_rows) !! slot r → claimed s r → claimed s' r.
Proof. intros He (row & Hr & H). exists row. by rewrite He. Qed.

Lemma NoDup_middle {A} (l1 l2 : list A) x : NoDup (l1 ++ x :: l2) → (x ∉ l1 ++ l2) ∧ NoDup (l1 ++ l2).
Proof. intros H. rewrite <- Permutation_middle in H. by apply NoDup_cons in H. Qed.

Lemma Forall_drop {A} (P : A → Prop) l1 x l2 : Forall P (l1 ++ x :: l2) → Forall P (l1 ++ l2).
Proof. rewrite !Forall_app, Forall_cons. tauto. Qed.

Lemma requests_ok_step s s' : requests_ok s → requests_step s s' → requests_ok s'.
Proof.
  intros (Hn & Hc & Ht & Hs) Hst. inversion Hst; subst; simpl in *.
  - split_and!; simpl; [done| |done|].
    + eapply Forall_impl; [exact Hc|]. intros r. by apply claimed_ext.
    + eapply Forall_impl; [exact Hs|]. simpl. intros r Hr. lia.
  - match goal with H : admit_request _ _ _ = _ |- _ => apply admit_cases in H; rename H into Ha end.
    destruct a as [| | |o k]; try (subst; by split_and!).
    destruct Ha as (row & -> & Hst0 & Hh & Hcr & Hold).
    assert ((o, k) ∉ slot <$> l) as Hfree.
    { intros (r0 & Hr0 & Hin)%list_elem_of_fmap. rewrite Forall_forall in Hc, Ht. destruct (Hc _ Hin) as (old & Ho & _ & _ & Hcreated).
      simpl in Ho. rewrite <- Hr0 in Ho. destruct (Hold _ Ho) as [_ Hlt]. specialize (Ht _ Hin). unfold in_time in Ht. lia. }
    split_and!; simpl.
    + apply NoDup_cons. split; [exact Hfree|done].
    + constructor.
      * exists row. simpl. by rewrite lookup_insert_eq.
      * rewrite Forall_forall in *. intros r0 Hin. eapply claimed_ext; [|by apply Hc]. simpl.
        rewrite lookup_insert_ne; [done|]. intros E. apply Hfree. rewrite E. by apply list_elem_of_fmap_2.
    + constructor; [|done]. unfold in_time. simpl. unfold sec, ABANDONED_SECONDS. lia.
    + constructor; [simpl; lia|done].
  - rewrite fmap_app, fmap_cons in Hn. apply NoDup_middle in Hn as [Hni Hn]. rewrite <- fmap_app in Hn, Hni.
    destruct (settle_cases r.(rn_owner) r.(rn_key) resp returned s0) as [Hnow Hrows].
    apply Forall_drop in Hc, Ht, Hs. split_and!; simpl; rewrite ?Hnow; [done| |done..].
    rewrite Forall_forall in *. intros r0 Hin. eapply claimed_ext; [|by apply Hc]. simpl. apply Hrows.
    intros E. apply Hni. apply list_elem_of_fmap. exists r0. by split.
  - rewrite fmap_app, fmap_cons in Hn. apply NoDup_middle in Hn as [_ Hn]. rewrite <- fmap_app in Hn.
    apply Forall_drop in Hc, Ht, Hs. by split_and!.
  - split_and!; simpl; [done| |done..]. rewrite Forall_forall in *. intros r Hin.
    destruct (Hc _ Hin) as (row & Hr & H1 & H2 & H3). exists row. split_and!; [|done..]. simpl in *.
    apply map_lookup_filter_Some. split; [done|]. simpl. rewrite H3. specialize (Ht _ Hin). unfold in_time in Ht.
    unfold sec, RETENTION_SECONDS, ABANDONED_SECONDS in *. lia.
Qed.

(** C35: a request with an Idempotency-Key runs at most once at a time.  As
    long as none runs past ABANDONED_SECONDS, however requests of all processes
    arrive, end, crash and are purged, no two of the same caller and key run
    together. *)
Theorem idempotent_exclusive s :
  reachable requests_init requests_step s → NoDup (slot <$> s.(rq_running)).
Proof.
  intros Hr. assert (requests_ok s) as H; [|apply H]. revert Hr. apply reachable_invariant; [|apply requests_ok_step].
  intros s0 H0. unfold requests_ok. rewrite H0. split_and!; constructor.
Qed.

(** A row with a response stays while steps are taken within the retention. *)
Lemma kept_step s s' x row :
  requests_ok s → requests_step s s' → s.(rq_idem).(idem_rows) !! x = Some row → is_Some row.(ik_status) →
  s.(rq_idem).(idem_now) ≤ row.(ik_created_at) + sec RETENTION_SECONDS →
  s'.(rq_idem).(idem_rows) !! x = Some row.
Proof.
  intros (_ & Hc & _) Hst Hx [st Hrow] Ht. inversion Hst; subst; simpl in *; try done.
  - match goal with H : admit_request _ _ _ = _ |- _ => apply admit_cases in H; rename H into Ha end.
    destruct a as [| | |o k]; try (by subst). destruct Ha as (row' & -> & _ & _ & _ & Hold). simpl.
    rewrite lookup_insert_ne; [done|]. intros <-. destruct (Hold _ Hx) as [H0 _]. congruence.
  - destruct (settle_cases r.(rn_owner) r.(rn_key) resp returned s0) as [_ Hrows]. rewrite Hrows; [done|]. intros ->.
    rewrite Forall_app, Forall_cons in Hc. destruct Hc as (_ & Hc & _). destruct Hc as (row' & Hr' & H0 & _). simpl in Hr'. unfold slot in Hr'. congruence.
  - apply map_lookup_filter_Some. split; [done|]. simpl. lia.
Qed.

Definition total_size (chunks : list string) : Z := foldr (λ c n, Z.of_nat (String.length c) + n) 0 chunks.

Lemma total_size_nonneg chunks : 0 ≤ total_size chunks.
Proof. induction chunks as [|c l IH]; simpl; lia. Qed.

Lemma capture_all chunks : total_size chunks ≤ MAX_RESPONSE → capture chunks = (chunks, total_size chunks).
Proof.
  unfold capture. assert (∀ l acc n, n + total_size l ≤ MAX_RESPONSE →
    foldl capture_chunk (acc, n) l = (acc ++ l, n + total_size l)) as H.
  { induction l as [|c l IH]; intros acc n Hn; simpl in *; [by rewrite app_nil_r, Z.add_0_r|].
    pose proof (total_size_nonneg l). unfold capture_chunk at 2. simpl.
    rewrite (proj2 (Z.leb_le _ _)) by lia. rewrite IH by lia.
    rewrite <- app_assoc. f_equal. lia. }
  intros Hn. rewrite (H chunks [] 0) by lia. done.
Qed.

(** A response the middleware keeps. *)
Definition keepable (resp : Response) : Prop :=
  resp.(rs_status) < 500 ∧ total_size resp.(rs_chunks) ≤ MAX_RESPONSE ∧
  startswith (default "" resp.(rs_content_type)) "text/event-stream" = false ∧
  utf8 (foldr String.append "" resp.(rs_chunks)) = true.

Lemma settle_keepable o k resp s :
  keepable resp → settle o k resp true s = finish o k resp.(rs_status) resp.(rs_content_type) (foldr String.append "" resp.(rs_chunks)) s.
Proof.
  intros (H1 & H2 & H3 & H4). unfold settle. rewrite capture_all by done. rewrite H3, H4.
  rewrite (proj2 (Z.ltb_lt _ _) H1), (proj2 (Z.leb_le _ _) H2). done.
Qed.

Lemma capture_size chunks : (capture chunks).2 = total_size chunks.
Proof.
  unfold capture. assert (∀ l acc n, (foldl capture_chunk (acc, n) l).2 = n + total_size l) as H.
  { induction l as [|c l IH]; intros acc n; simpl; [lia|]. unfold capture_chunk at 2. rewrite IH. simpl. lia. }
  by rewrite H.
Qed.

(** Any other response frees the key. *)
Lemma settle_unkept o k resp s : ¬ keepable resp → settle o k resp true s = release o k s.
Proof.
  intros Hn. unfold settle. destruct (capture resp.(rs_chunks)) as [kept size] eqn:Ec. pose proof (capture_size resp.(rs_chunks)) as Hs.
  rewrite Ec in Hs. simpl in Hs. subst size. destruct (_ && _) eqn:E; [|done]. destruct Hn.
  apply andb_true_iff in E as [[[[_ H1]%andb_true_iff H2]%andb_true_iff H3]%andb_true_iff H4].
  apply Z.ltb_lt in H1. apply Z.leb_le in H2. apply negb_true_iff in H3. rewrite capture_all in Ec by done. injection Ec as <-. by split_and!.
Qed.

#[global] Instance keepable_dec resp : Decision (keepable resp).
Proof. unfold keepable. apply _. Defined.

(** Repeats get the first response.  Once a request's response was kept,
    whatever requests, ends, crashes and purges follow within the retention, a
    repeat of the request gets that status, content type and body again and
    does not run; the same key with another path or body is refused. *)
Theorem idempotent_replay s l1 r l2 resp s' q :
  reachable requests_init requests_step (mkRequests s (l1 ++ r :: l2)) → keepable resp →
  rtc requests_step (mkRequests (settle r.(rn_owner) r.(rn_key) resp true s) (l1 ++ l2)) s' →
  s'.(rq_idem).(idem_now) ≤ r.(rn_started) + sec RETENTION_SECONDS →
  q.(ir_http) = true → q.(ir_method) = "POST" → strip q.(ir_key) = r.(rn_key) → owner_of sha256 q = r.(rn_owner) →
  r.(rn_key) ≠ "" → (String.length r.(rn_key) ≤ MAX_KEY)%nat →
  admit_request sha256 q s'.(rq_idem) =
    (if String.eqb r.(rn_hash) (hash_of sha256 q)
     then Replay resp.(rs_status) (str_or_none resp.(rs_content_type)) (foldr String.append "" resp.(rs_chunks))
     else Refuse "idempotency_key_reused" "this Idempotency-Key was used for a different request",
     s'.(rq_idem)).
Proof.
  intros Hr Hk Hs Ht Hhttp Hpost Hkey Howner Hne Hlen.
  assert (requests_ok (mkRequests s (l1 ++ r :: l2))) as Hok.
  { revert Hr. apply reachable_invariant; [|apply requests_ok_step].
    intros s0 H0. unfold requests_ok. rewrite H0. split_and!; constructor. }
  assert (requests_ok (mkRequests (settle r.(rn_owner) r.(rn_key) resp true s) (l1 ++ l2))) as Hok1
    by (eapply requests_ok_step; [exact Hok|apply rq_settle]).
  destruct Hok as (_ & Hc & _). simpl in Hc. rewrite Forall_app, Forall_cons in Hc. destruct Hc as (_ & (row & Hrow & _ & Hh & Hcr) & _).
  simpl in Hrow. rewrite settle_keepable in Hs, Hok1 by done.
  set (row' := mkIdemRow row.(ik_method) row.(ik_path) row.(ik_request_hash) (Some resp.(rs_status)) resp.(rs_content_type)
    (Some (foldr String.append "" resp.(rs_chunks))) row.(ik_created_at)).
  assert (s'.(rq_idem).(idem_rows) !! slot r = Some row') as Hrow'.
  { assert (∀ a b, rtc requests_step a b → requests_ok a → a.(rq_idem).(idem_rows) !! slot r = Some row' →
      b.(rq_idem).(idem_now) ≤ r.(rn_started) + sec RETENTION_SECONDS → b.(rq_idem).(idem_rows) !! slot r = Some row') as H.
    { intros a b Hab. induction Hab as [|a b c Hstep Hbc IH]; [done|]. intros Ha Hx Hc. apply IH; [by eapply requests_ok_step| |done].
      eapply kept_step; [exact Ha|exact Hstep|done|by eexists|]. simpl. rewrite Hcr.
      assert (idem_now (rq_idem a) ≤ idem_now (rq_idem c)); [|lia].
      assert (∀ x y, requests_step x y → idem_now (rq_idem x) ≤ idem_now (rq_idem y)) as Hmono.
      { intros x y Hxy. inversion Hxy; subst; simpl; try lia.
        - match goal with H : admit_request _ _ _ = _ |- _ => apply admit_cases in H; rename H into Hadm end.
          destruct a0; try (subst; lia). destruct Hadm as (? & -> & _). simpl. lia.
        - by rewrite (proj1 (settle_cases _ _ _ _ _)). }
      etrans; [by apply Hmono|]. clear -Hbc Hmono. induction Hbc as [|x y z Hxy _ IH]; [lia|]. etrans; [by apply Hmono|done]. }
    eapply H; [exact Hs|exact Hok1| |exact Ht]. simpl. unfold slot in Hrow |- *. by rewrite lookup_alter, decide_True, Hrow. }
  unfold admit_request. rewrite Hhttp, Hpost, Hkey, Howner. simpl.
  rewrite (proj2 (String.eqb_neq _ _) Hne), (proj2 (Nat.ltb_ge _ _) Hlen).
  unfold claim, claim_idempotency_key. unfold slot in Hrow'. rewrite Hrow'. simpl. rewrite Hh.
  by destruct (String.eqb _ _).
Qed.
End requests.

(** ** Concrete runs *)

Definition demo_post : IdemRequest := mkIdemRequest true "POST" " k1 " "Bearer x" "" "" "/v1/sandboxes" "{}".
Definition demo_other : IdemRequest := mkIdemRequest true "POST" "k1" "Bearer x" "" "" "/v1/sandboxes" "{1}".
Definition demo_running : Running := mkRunning (owner_of id demo_post) "k1" (hash_of id demo_post) 5.
Definition demo_claimed : Idem := (admit_request id demo_post (mkIdem ∅ 5)).2.
Definition demo_response : Response := mkResponse 201 (Some "application/json") ["{"; "}"].

Lemma demo_claimed_reachable :
  reachable requests_init (requests_step id) (mkRequests demo_claimed ([] ++ demo_running :: [])).
Proof.
  apply (reach_step _ _ (mkRequests (mkIdem ∅ 5) [])); [by apply reach_init|].
  apply (rq_admit id demo_post (mkIdem ∅ 5) [] (Proceed (owner_of id demo_post) "k1") demo_claimed). reflexivity.
Qed.

Lemma idempotent_exclusive_witness : NoDup (slot <$> [demo_running]).
Proof. apply (idempotent_exclusive id _ demo_claimed_reachable). Defined.

Lemma demo_keepable : keepable demo_response.
Proof. split_and!; vm_compute; congruence. Qed.

Lemma idempotent_replay_witness :
  let s' := mkRequests (settle (owner_of id demo_post) "k1" demo_response true demo_claimed) ([] ++ []) in
  (admit_request id demo_post s'.(rq_idem)).1 = Replay 201 (Some "application/json") "{}" ∧
  (∃ m, (admit_request id demo_other s'.(rq_idem)).1 = Refuse "idempotency_key_reused" m).
Proof.
  cbv zeta. set (s' := mkRequests _ _).
  assert (idem_now (rq_idem s') ≤ rn_started demo_running + sec RETENTION_SECONDS) as Ht by (vm_compute; discriminate).
  split; [|eexists].
  - rewrite (idempotent_replay id demo_claimed [] demo_running [] demo_response s' demo_post demo_claimed_reachable demo_keepable
      (rtc_refl _ _) Ht eq_refl eq_refl eq_refl eq_refl ltac:(discriminate) ltac:(vm_compute; lia)).
    reflexivity.
  - rewrite (idempotent_replay id demo_claimed [] demo_running [] demo_response s' demo_other demo_claimed_reachable demo_keepable
      (rtc_refl _ _) Ht eq_refl eq_refl eq_refl eq_refl ltac:(discriminate) ltac:(vm_compute; lia)).
    reflexivity.
Defined.

(** A request that does run past ABANDONED_SECONDS still holds its key: when it
    ends without a response to keep, it releases the row of the request that
    took its place, and a third runs while the second does. *)
Example abandoned_release :
  let s1 := (admit_request id demo_post (mkIdem ∅ 0)).2 in
  let '(a2, s2) := admit_request id demo_post (mkIdem s1.(idem_rows) (sec 601)) in
  let s3 := settle (owner_of id demo_post) "k1" (mkResponse 502 None []) true s2 in
  let a3 := (admit_request id demo_post s3).1 in
  a2 = Proceed (owner_of id demo_post) "k1" ∧ a3 = Proceed (owner_of id demo_post) "k1".
Proof. by vm_compute. Qed.
