(* ===== verification/Events.v ===== *)
(** Events (src/apps/server/events.py): the pages of a workspace's events, what
    of them a member may see, and the stream that follows them while they are
    committed out of order. *)

From S2P Require Import Prelude Tables Store Labels Auth.

Definition PAGE : nat := 200.
Definition LATE_SECONDS : Z := 60.

(** Source: src/db/generated/models.py:55-62 [Event].  [data] is the value its
    JSON holds. *)
Record Event := mkEvent {
  ev_id : string;
  ev_seq : Z;
  ev_workspace_id : string;
  ev_sandbox_id : option string;
  ev_type : string;
  ev_data : json;
  ev_created_at : time
}.

(** ** Statements *)

Definition by_seq : list Event → list Event := order_by (λ e, (e.(ev_seq), 0)).

(** [:p IS NULL OR column = :p]. *)
Definition null_or (p : option string) (column : option string) : bool :=
  match p with None => true | Some _ => bool_decide (column = p) end.

(** The rows a page reads, before the limit: those after, and those up to, a seq. *)
Definition wanted (workspace_id : string) (sandbox_id type : option string) (e : Event) : bool :=
  bool_decide (e.(ev_workspace_id) = workspace_id) && null_or sandbox_id e.(ev_sandbox_id) && null_or type (Some e.(ev_type)).

(** Source: src/db/generated/query.py:1372-1381 [LIST_EVENTS]. *)
Definition list_events (workspace_id : string) (after_seq : Z) (sandbox_id type : option string) (row_limit : nat)
    (evs : gmap string Event) : list Event :=
  take row_limit (by_seq (filter (λ e, wanted workspace_id sandbox_id type e = true ∧ after_seq < e.(ev_seq)) (rows evs))).

(** Source: src/db/generated/query.py:1461-1470 [LIST_LATE_EVENTS]. *)
Definition list_late_events (workspace_id : string) (upto_seq : Z) (since : time) (sandbox_id type : option string)
    (row_limit : nat) (evs : gmap string Event) : list Event :=
  take row_limit (by_seq (filter (λ e, wanted workspace_id sandbox_id type e = true ∧ e.(ev_seq) ≤ upto_seq ∧ since ≤ e.(ev_created_at))
    (rows evs))).

(** Source: src/db/generated/query.py:1208-1210 [LATEST_EVENT_SEQ]. *)
Definition latest_event_seq (workspace_id : string) (evs : gmap string Event) : Z :=
  foldr Z.max 0 (ev_seq <$> filter (λ e, e.(ev_workspace_id) = workspace_id) (rows evs)).

(** Source: src/db/generated/query.py:1908-1910 [PURGE_EVENTS]. *)
Definition purge_events (created_at : time) (evs : gmap string Event) : gmap string Event :=
  filter (λ p, created_at ≤ p.2.(ev_created_at)) evs.

(** ** What a member may see *)

Section member.
Context (user : Member).

(** The labels a scope has looked up, by sandbox. *)
Abbreviation Scope := (gmap string labels_dict) (only parsing).

(** Source: src/apps/server/events.py:86-103 [Scope.allows]. *)
Definition allows (event : Event) (d : Db) (known : Scope) : bool * Scope :=
  match user.(m_key_sandbox_id) with
  | Some id => (bool_decide (event.(ev_sandbox_id) = Some id), known)
  | None =>
      match user.(m_key_labels) with
      | Some selector =>
          match event.(ev_sandbox_id) with
          | None => (false, known)
          | Some id =>
              let known := match known !! id with Some _ => known | None => <[id := labels_of d id]> known end in
              (matches (default [] (known !! id)) (Some selector), known)
          end
      | None => (true, known)
      end
  end.

(** [[row for row in rows if scope.allows(row, db)]] *)
Fixpoint allowed_rows (rows : list Event) (d : Db) (known : Scope) : list Event * Scope :=
  match rows with
  | [] => ([], known)
  | row :: rest =>
      let '(ok, known) := allows row d known in
      let '(l, known) := allowed_rows rest d known in
      (if ok then row :: l else l, known)
  end.

Context (sandbox_id type : option string).

(** Source: src/apps/server/events.py:106-119 [page]. *)
Definition page (d : Db) (evs : gmap string Event) (known : Scope) (after : Z) : list Event * list Event * Scope :=
  let rows := list_events user.(m_workspace_id) after sandbox_id type PAGE evs in
  let '(visible, known) := allowed_rows rows d known in (rows, visible, known).

(** Source: src/apps/server/events.py:122-134 [late]. *)
Definition late (now : time) (d : Db) (evs : gmap string Event) (known : Scope) (upto : Z) : list Event * Scope :=
  allowed_rows (list_late_events user.(m_workspace_id) upto (now - sec LATE_SECONDS) sandbox_id type PAGE evs) d known.

(** [max([after, *(row.seq for row in rows)])] *)
Definition next_after (after : Z) (rows : list Event) : Z := foldr Z.max after (ev_seq <$> rows).

(** Source: src/apps/server/events.py:187-198 [EventsApi._register_routes.list_events].
    The events shown and the [after] of the next page. *)
Definition list_events_route (d : Db) (evs : gmap string Event) (after : Z) : list Event * Z :=
  let '(rows, visible, _) := page d evs ∅ after in (visible, next_after after rows).

(** ** The stream *)

(** What a stream remembers between its turns. *)
Record Stream := mkStream { st_known : Scope; st_sent : gmap Z time; st_after : Z }.

(** The frames of some rows: those whose seq was not sent, and is over [floor]
    where one is given. *)
Fixpoint frames (floor : option Z) (rows : list Event) (sent : gmap Z time) : list Event * gmap Z time :=
  match rows with
  | [] => ([], sent)
  | row :: rest =>
      if match floor with Some f => f <? row.(ev_seq) | None => true end && bool_decide (sent !! row.(ev_seq) = None)
      then let '(l, sent) := frames floor rest (<[row.(ev_seq) := row.(ev_created_at)]> sent) in (row :: l, sent)
      else frames floor rest sent
  end.

(** Source: src/apps/server/events.py:153-167 [follow].  One turn of its loop:
    the rows it sends, and whether it goes on without waiting for a notice.
    Frames leave as fast as the client reads: [now] is the time of the reads,
    [later] that of the end. *)
Definition follow_turn (floor : Z) (now later : time) (d : Db) (evs : gmap string Event) (s : Stream)
    : list Event * Stream * bool :=
  let '(stragglers, known) := if floor <? s.(st_after) then late now d evs s.(st_known) s.(st_after) else ([], s.(st_known)) in
  let '(rows, visible, known) := page d evs known s.(st_after) in
  let '(l1, sent) := frames (Some floor) stragglers s.(st_sent) in
  let '(l2, sent) := frames None visible sent in
  (l1 ++ l2,
   mkStream known (filter (λ p, later - sec LATE_SECONDS ≤ p.2) sent) (next_after s.(st_after) rows),
   bool_decide (length rows = PAGE)).

(** Source: src/apps/server/events.py:137-142 [follow].  Before its first turn. *)
Definition follow_start (after : Z) : Stream := mkStream ∅ ∅ after.

(** [str.isdigit] of one character of a header, which is Latin-1. *)
Definition char_isdigit (c : Ascii.ascii) : bool :=
  let n := Ascii.nat_of_ascii c in ((48 <=? n) && (n <=? 57))%nat || bool_decide (n ∈ [178; 179; 185]%nat).

Fixpoint all_chars (p : Ascii.ascii → bool) (s : string) : bool :=
  match s with EmptyString => true | String c s' => p c && all_chars p s' end.

(** [int(s)] of digits; the superscripts are no decimal ones. *)
Fixpoint int_of (acc : Z) (s : string) : result exn Z :=
  match s with
  | EmptyString => Ok acc
  | String c s' =>
      let n := Z.of_nat (Ascii.nat_of_ascii c) in
      if (48 <=? n) && (n <=? 57) then int_of (10 * acc + (n - 48)) s'
      else Err (ValueError [Txt "invalid literal for int() with base 10"])
  end.

(** Source: src/apps/server/events.py:200-213 [EventsApi._register_routes.stream].
    Where a stream starts: after the id of the last event the client got, after
    the seq it names, or now. *)
Definition stream_start (last_event_id : option string) (after : option Z) (evs : gmap string Event) : result exn Z :=
  match str_or_none last_event_id with
  | Some s => if all_chars char_isdigit s then int_of 0 s
              else Ok (default (latest_event_seq user.(m_workspace_id) evs) after)
  | None => Ok (default (latest_event_seq user.(m_workspace_id) evs) after)
  end.

(** What a turn finds: the times, the database and the committed events. *)
Record Turn := mkTurn { tn_now : time; tn_later : time; tn_db : Db; tn_events : gmap string Event }.

(** A stream over some turns: all rows sent, and what it remembers at the end. *)
Fixpoint follow (floor : Z) (turns : list Turn) (s : Stream) : list Event * Stream :=
  match turns with
  | [] => ([], s)
  | t :: rest =>
      let '(l, s, _) := follow_turn floor t.(tn_now) t.(tn_later) t.(tn_db) t.(tn_events) s in
      let '(l', s) := follow floor rest s in (l ++ l', s)
  end.
End member.

(** ** Lemmas *)

Definition seqs (l : list Event) : list Z := ev_seq <$> l.

(** The events of the database: a seq names one event, and [at_] says when it
    was written. *)
Definition consistent (at_ : Z → time) (evs : gmap string Event) : Prop :=
  (∀ i j x y, evs !! i = Some x → evs !! j = Some y → x.(ev_seq) = y.(ev_seq) → i = j) ∧
  (∀ i x, evs !! i = Some x → x.(ev_created_at) = at_ x.(ev_seq)).

Lemma seqs_filter_NoDup at_ evs (P : Event → Prop) `{!∀ x, Decision (P x)} :
  consistent at_ evs → NoDup (seqs (by_seq (filter P (rows evs)))).
Proof.
  intros [Hu _]. unfold seqs, by_seq, order_by. rewrite merge_sort_Permutation.
  assert (NoDup (filter P (rows evs))) as Hnd.
  { apply NoDup_filter. unfold rows. apply NoDup_fmap_2_strong; [|apply NoDup_map_to_list].
    intros [i x] [j y] Hx%elem_of_map_to_list Hy%elem_of_map_to_list. simpl. intros ->. f_equal. by eapply Hu. }
  apply NoDup_fmap_2_strong; [|done]. intros x y [_ [i Hx]%elem_of_rows]%list_elem_of_filter
    [_ [j Hy]%elem_of_rows]%list_elem_of_filter Heq.
  assert (i = j) as -> by (by eapply Hu). congruence.
Qed.

Lemma next_after_le after rows : after ≤ next_after after rows ∧ ∀ e, e ∈ rows → e.(ev_seq) ≤ next_after after rows.
Proof.
  unfold next_after. induction rows as [|x l [IH1 IH2]]; csimpl; [split; [lia|set_solver]|].
  split; [lia|]. intros e [->|He]%elem_of_cons; [lia|]. specialize (IH2 e He). lia.
Qed.

Lemma next_after_in after rows : next_after after rows = after ∨ ∃ e, e ∈ rows ∧ e.(ev_seq) = next_after after rows.
Proof.
  unfold next_after. induction rows as [|x l IH]; csimpl; [by left|].
  destruct (Z.max_spec x.(ev_seq) (foldr Z.max after (ev_seq <$> l))) as [[_ ->]|[_ ->]].
  - destruct IH as [?|(e & ? & ?)]; [by left|right]. exists e. split; [by right|done].
  - right. exists x. split; [left|done].
Qed.

(** A limited page holds every row up to its last one. *)
Lemma take_complete (l : list Event) n e after :
  StronglySorted (row_le (λ e, (e.(ev_seq), 0))) l → NoDup (seqs l) → e ∈ l → after < e.(ev_seq) →
  e.(ev_seq) ≤ next_after after (take n l) → e ∈ take n l.
Proof.
  intros Hs Hn He Ha Hle. rewrite <- (take_drop n l) in He. apply elem_of_app in He as [He|He]; [done|exfalso].
  destruct (next_after_in after (take n l)) as [E|(y & Hy & E)]; [lia|].
  rewrite <- (take_drop n l) in Hs, Hn. apply StronglySorted_app in Hs as (Hs & _ & _).
  specialize (Hs y e Hy He). unfold row_le in Hs. simpl in Hs.
  unfold seqs in Hn. rewrite fmap_app, NoDup_app in Hn. destruct Hn as (_ & Hd & _).
  apply (Hd (ev_seq y)); [by apply list_elem_of_fmap_2|]. replace (ev_seq y) with (ev_seq e) by lia. by apply list_elem_of_fmap_2.
Qed.

Section stream_lemmas.
Context (user : Member) (sandbox_id type : option string).

(** What the scope says of an event, as far as it has looked. *)
Definition allowed_in (known : gmap string labels_dict) (e : Event) : bool :=
  match user.(m_key_sandbox_id) with
  | Some id => bool_decide (e.(ev_sandbox_id) = Some id)
  | None =>
      match user.(m_key_labels) with
      | Some selector =>
          match e.(ev_sandbox_id) with
          | None => false
          | Some id => match known !! id with Some ls => matches ls (Some selector) | None => false end
          end
      | None => true
      end
  end.

Lemma allowed_in_mono known known' e : known ⊆ known' → allowed_in known e = true → allowed_in known' e = true.
Proof.
  intros Hk. unfold allowed_in. destruct (m_key_sandbox_id user), (m_key_labels user), (ev_sandbox_id e) as [id|]; try done.
  destruct (known !! id) as [ls|] eqn:E; [|done]. rewrite (lookup_weaken _ _ _ _ E Hk). done.
Qed.

Lemma allows_spec e d known ok known' :
  allows user e d known = (ok, known') →
  known ⊆ known' ∧ ∀ k2, known' ⊆ k2 → ok = allowed_in k2 e.
Proof.
  unfold allows, allowed_in. destruct (m_key_sandbox_id user); [by intros [= <- <-]|].
  destruct (m_key_labels user) as [sel|]; [|by intros [= <- <-]].
  destruct (ev_sandbox_id e) as [id|]; [|by intros [= <- <-]].
  destruct (known !! id) as [ls|] eqn:E; intros [= <- <-].
  - split; [done|]. intros k2 Hk. rewrite E. by rewrite (lookup_weaken _ _ _ _ E Hk).
  - split; [by apply insert_subseteq|]. intros k2 Hk. rewrite lookup_insert_eq. simpl.
    rewrite (lookup_weaken (<[id := labels_of d id]> known) k2 id (labels_of d id)); [done|apply lookup_insert_eq|done].
Qed.

Lemma allowed_rows_spec rows d known l known' :
  allowed_rows user rows d known = (l, known') →
  known ⊆ known' ∧ ∀ k2, known' ⊆ k2 → l = filter (λ e, allowed_in k2 e = true) rows.
Proof.
  revert known l known'. induction rows as [|e rest IH]; intros known l known'; simpl; [by intros [= <- <-]|].
  destruct (allows _ _ _ _) as [ok k1] eqn:Ea, (allowed_rows _ _ _ _) as [l1 k2] eqn:El. intros [= <- <-].
  apply allows_spec in Ea as [H1 H2]. apply IH in El as [H3 H4]. split; [by etrans|]. intros k3 Hk.
  rewrite filter_cons. rewrite <- (H4 k3 Hk). rewrite (H2 k3) by (by etrans). by destruct (allowed_in k3 e).
Qed.

Definition over_floor (floor : option Z) (e : Event) : Prop := match floor with Some f => f < e.(ev_seq) | None => True end.

Lemma frames_spec floor rows sent l sent' :
  frames floor rows sent = (l, sent') →
  NoDup (seqs l) ∧
  (∀ e, e ∈ l → e ∈ rows ∧ over_floor floor e ∧ sent !! e.(ev_seq) = None) ∧
  (∀ e, e ∈ rows → over_floor floor e → is_Some (sent' !! e.(ev_seq))) ∧
  (∀ q t, sent !! q = Some t → sent' !! q = Some t) ∧
  (∀ q t, sent' !! q = Some t → sent !! q = Some t ∨ ∃ e, e ∈ l ∧ e.(ev_seq) = q ∧ e.(ev_created_at) = t) ∧
  (∀ e, e ∈ l → is_Some (sent' !! e.(ev_seq))).
Proof.
  revert sent l sent'. induction rows as [|e rest IH]; intros sent l sent'; simpl.
  { intros [= <- <-]. split_and!; [apply NoDup_nil_2|set_solver|set_solver|done|by left|set_solver]. }
  assert (over_floor floor e ↔ match floor with Some f => f <? e.(ev_seq) | None => true end = true) as Hfl.
  { unfold over_floor. destruct floor; [by rewrite Z.ltb_lt|done]. }
  destruct (match floor with Some f => f <? e.(ev_seq) | None => true end && bool_decide (sent !! e.(ev_seq) = None)) eqn:Ec.
  - apply andb_true_iff in Ec as [Hof Hns%bool_decide_eq_true]. destruct (frames floor rest _) as [l1 s1] eqn:Ef. intros [= <- <-].
    apply IH in Ef as (H1 & H2 & H3 & H4 & H5 & H6). split_and!.
    + unfold seqs. csimpl. apply NoDup_cons. split; [|done]. intros (x & Hx & Hin)%list_elem_of_fmap.
      destruct (H2 x Hin) as (_ & _ & Hnone). rewrite <- Hx, lookup_insert_eq in Hnone. done.
    + intros x [->|Hx]%elem_of_cons; [split_and!; [left|tauto|done]|]. destruct (H2 x Hx) as (Hr & Ho & Hnone).
      split_and!; [by right|done|]. apply lookup_insert_None in Hnone. tauto.
    + intros x [->|Hx]%elem_of_cons Ho; [|by apply H3]. eexists. apply H4. apply lookup_insert_eq.
    + intros q t Hq. apply H4. rewrite lookup_insert_ne; [done|]. intros <-. congruence.
    + intros q t Hq. apply H5 in Hq as [Hq|(x & Hx & Hs & Ht)]; [|right; exists x; split_and!; [by right|done..]].
      rewrite lookup_insert in Hq. case_decide; [|by left]. injection Hq as <-. right. exists e. split_and!; [left|done..].
    + intros x [->|Hx]%elem_of_cons; [|by apply H6]. eexists. apply H4. apply lookup_insert_eq.
  - intros Ef. apply IH in Ef as (H1 & H2 & H3 & H4 & H5 & H6). split_and!; try done.
    + intros x Hx. destruct (H2 x Hx) as (Hr & ? & ?). split_and!; [by right|done..].
    + intros x [->|Hx]%elem_of_cons Ho; [|by apply H3]. apply andb_false_iff in Ec as [Hc|Hc%bool_decide_eq_false].
      * apply Hfl in Ho. congruence.
      * destruct (sent !! ev_seq e) as [t|] eqn:Es; [|done]. eexists. by apply H4.
Qed.
End stream_lemmas.

(** ** The stream's invariant *)

Section stream_run.
Context (user : Member) (sandbox_id type : option string) (floor : Z) (at_ : Z → time).

Abbreviation turn := (follow_turn user sandbox_id type floor).

(** Of what was sent, all is at or before [st_after], and what was written in
    the last LATE_SECONDS before [t] is remembered. *)
Definition stream_ok (t : time) (emitted : list Event) (s : Stream) : Prop :=
  NoDup (seqs emitted) ∧ floor ≤ s.(st_after) ∧
  Forall (λ e, e.(ev_seq) ≤ s.(st_after)) emitted ∧
  Forall (λ e, e.(ev_created_at) = at_ e.(ev_seq) ∧ floor < e.(ev_seq) ∧
    wanted user.(m_workspace_id) sandbox_id type e = true ∧ allowed_in user s.(st_known) e = true) emitted ∧
  Forall (λ e, t - sec LATE_SECONDS ≤ e.(ev_created_at) → is_Some (s.(st_sent) !! e.(ev_seq))) emitted ∧
  (∀ q τ, s.(st_sent) !! q = Some τ → τ = at_ q ∧ q ∈ seqs emitted).

Lemma list_events_elem after evs e :
  e ∈ list_events user.(m_workspace_id) after sandbox_id type PAGE evs →
  (∃ i, evs !! i = Some e) ∧ wanted user.(m_workspace_id) sandbox_id type e = true ∧ after < e.(ev_seq).
Proof.
  unfold list_events. intros Hn. apply (subseteq_take PAGE) in Hn.
  unfold by_seq in Hn. rewrite elem_of_order_by, list_elem_of_filter, elem_of_rows in Hn. tauto.
Qed.

Lemma late_elem upto since evs e :
  e ∈ list_late_events user.(m_workspace_id) upto since sandbox_id type PAGE evs →
  (∃ i, evs !! i = Some e) ∧ wanted user.(m_workspace_id) sandbox_id type e = true ∧ e.(ev_seq) ≤ upto ∧ since ≤ e.(ev_created_at).
Proof.
  unfold list_late_events. intros Hn. apply (subseteq_take PAGE) in Hn.
  unfold by_seq in Hn. rewrite elem_of_order_by, list_elem_of_filter, elem_of_rows in Hn. tauto.
Qed.

(** What one turn does, in the rows it reads. *)
Lemma turn_cases now later d evs s l s' more :
  turn now later d evs s = (l, s', more) →
  ∃ late_rows l1 l2 sent1 sent2,
    late_rows = (if floor <? s.(st_after) then list_late_events user.(m_workspace_id) s.(st_after) (now - sec LATE_SECONDS) sandbox_id type PAGE evs else []) ∧
    s.(st_known) ⊆ s'.(st_known) ∧
    frames (Some floor) (filter (λ e, allowed_in user s'.(st_known) e = true) late_rows) s.(st_sent) = (l1, sent1) ∧
    frames None (filter (λ e, allowed_in user s'.(st_known) e = true)
      (list_events user.(m_workspace_id) s.(st_after) sandbox_id type PAGE evs)) sent1 = (l2, sent2) ∧
    l = l1 ++ l2 ∧ s'.(st_sent) = filter (λ p, later - sec LATE_SECONDS ≤ p.2) sent2 ∧
    s'.(st_after) = next_after s.(st_after) (list_events user.(m_workspace_id) s.(st_after) sandbox_id type PAGE evs).
Proof.
  unfold follow_turn, page, late.
  pose (late_rows := if floor <? s.(st_after) then list_late_events user.(m_workspace_id) s.(st_after)
    (now - sec LATE_SECONDS) sandbox_id type PAGE evs else []).
  destruct (if floor <? st_after s then allowed_rows user (list_late_events user.(m_workspace_id) s.(st_after)
    (now - sec LATE_SECONDS) sandbox_id type PAGE evs) d s.(st_known) else ([], s.(st_known))) as [stragglers k1] eqn:E1.
  destruct (allowed_rows user (list_events _ _ _ _ _ _) d k1) as [visible k2] eqn:E2.
  destruct (frames (Some floor) _ _) as [l1 sent1] eqn:F1, (frames None _ _) as [l2 sent2] eqn:F2. intros [= <- <- _].
  apply allowed_rows_spec in E2 as [H1 H2].
  assert (s.(st_known) ⊆ k1 ∧ stragglers = filter (λ e, allowed_in user k2 e = true) late_rows) as [H3 H4].
  { unfold late_rows. destruct (floor <? st_after s); [|injection E1 as <- <-; done].
    apply allowed_rows_spec in E1 as [H3 H4]. split; [done|by apply H4]. }
  exists late_rows, l1, l2, sent1, sent2. simpl. rewrite <- H4, <- (H2 k2) by done. split_and!; try done. by etrans.
Qed.

Lemma stream_ok_turn t emitted s now later d evs l s' more :
  stream_ok t emitted s → t ≤ now → now ≤ later → consistent at_ evs →
  turn now later d evs s = (l, s', more) → stream_ok later (emitted ++ l) s'.
Proof.
  intros (Hn & Hfl & Ha & Hw & Hs & Hsent) Htn Hnl Hc Ht.
  apply turn_cases in Ht as (late_rows & l1 & l2 & sent1 & sent2 & -> & Hk & F1 & F2 & -> & Hs' & Ha').
  apply frames_spec in F1 as (N1 & E1 & C1 & K1 & V1 & I1). apply frames_spec in F2 as (N2 & E2 & C2 & K2 & V2 & I2).
  set (rows := list_events _ _ _ _ _ _) in *.
  assert (∀ e, e ∈ l1 → e.(ev_seq) ≤ s.(st_after) ∧ now - sec LATE_SECONDS ≤ e.(ev_created_at) ∧ floor < e.(ev_seq) ∧
    wanted user.(m_workspace_id) sandbox_id type e = true ∧ allowed_in user s'.(st_known) e = true ∧
    e.(ev_created_at) = at_ e.(ev_seq) ∧ s.(st_sent) !! e.(ev_seq) = None) as Hl1.
  { intros e He. destruct (E1 e He) as ([Hal Hin]%list_elem_of_filter & Ho & Hns). simpl in Ho.
    destruct (floor <? st_after s); [|set_solver]. apply late_elem in Hin as ([i Hi] & ? & ? & ?).
    split_and!; try done. by apply (proj2 Hc i). }
  assert (∀ e, e ∈ l2 → s.(st_after) < e.(ev_seq) ∧ e.(ev_seq) ≤ s'.(st_after) ∧
    wanted user.(m_workspace_id) sandbox_id type e = true ∧ allowed_in user s'.(st_known) e = true ∧
    e.(ev_created_at) = at_ e.(ev_seq)) as Hl2.
  { intros e He. destruct (E2 e He) as ([Hal Hin]%list_elem_of_filter & _ & _). pose proof Hin as Hin'.
    apply list_events_elem in Hin as ([i Hi] & ? & ?). split_and!; try done.
    - rewrite Ha'. by apply (proj2 (next_after_le _ _)).
    - by apply (proj2 Hc i). }
  assert (s.(st_after) ≤ s'.(st_after)) as Haa by (rewrite Ha'; apply next_after_le).
  rewrite Forall_forall in Ha, Hw, Hs. split_and!.
  - unfold seqs in *. rewrite !fmap_app, !NoDup_app. split_and!; [done| |done| |done].
    + intros q (e & -> & He)%list_elem_of_fmap [(x & Hx & Hin)%list_elem_of_fmap|(x & Hx & Hin)%list_elem_of_fmap]%elem_of_app.
      * destruct (Hl1 x Hin) as (_ & Hlate & _ & _ & _ & Hat & Hnone). destruct (Hs e He) as [τ Hτ]; [|rewrite <- Hx in Hnone; congruence].
        destruct (Hw e He) as (-> & _). rewrite Hx, <- Hat. lia.
      * destruct (Hl2 x Hin) as (Hlt & _). specialize (Ha e He). lia.
    + intros q (e & -> & He)%list_elem_of_fmap (x & Hx & Hin)%list_elem_of_fmap.
      destruct (Hl1 e He) as (? & _). destruct (Hl2 x Hin) as (? & _). lia.
  - lia.
  - rewrite !Forall_app, !Forall_forall. split_and!; intros e He; [specialize (Ha e He); lia| |by apply Hl2].
    destruct (Hl1 e He). lia.
  - rewrite !Forall_app, !Forall_forall. split_and!; intros e He.
    + destruct (Hw e He) as (? & ? & ? & ?). split_and!; try done. by eapply allowed_in_mono.
    + destruct (Hl1 e He) as (? & ? & ? & ? & ? & ? & ?). done.
    + destruct (Hl2 e He) as (? & ? & ? & ? & ?). split_and!; try done. lia.
  - assert (∀ e, e.(ev_created_at) = at_ e.(ev_seq) → is_Some (sent2 !! e.(ev_seq)) →
      (∀ τ, sent2 !! e.(ev_seq) = Some τ → τ = at_ e.(ev_seq)) → later - sec LATE_SECONDS ≤ e.(ev_created_at) →
      is_Some (s'.(st_sent) !! e.(ev_seq))) as Hkeep.
    { intros e Hat [τ Hτ] Hv Hl. exists τ. rewrite Hs'. apply map_lookup_filter_Some. split; [done|]. simpl.
      rewrite (Hv τ Hτ). congruence. }
    assert (∀ q τ, sent2 !! q = Some τ → τ = at_ q) as Hval.
    { intros q τ [[Hq|(e & He & <- & <-)]%V1|(e & He & <- & <-)]%V2; [by apply Hsent|apply Hl1; done|apply Hl2; done]. }
    rewrite !Forall_app, !Forall_forall. split_and!; intros e He Hl; (apply Hkeep; [| | |done]).
    + apply Hw; done.
    + destruct (Hs e He) as [τ Hτ]; [lia|]. exists τ. by apply K2, K1.
    + intros τ. apply Hval.
    + apply Hl1; done.
    + destruct (I1 e He) as [τ Hτ]. exists τ. by apply K2.
    + intros τ. apply Hval.
    + apply Hl2; done.
    + by apply I2.
    + intros τ. apply Hval.
  - intros q τ. rewrite Hs'. intros [Hq _]%map_lookup_filter_Some. unfold seqs. rewrite !fmap_app, !elem_of_app.
    apply V2 in Hq as [[Hq|(e & He & <- & <-)]%V1|(e & He & <- & <-)].
    + destruct (Hsent q τ Hq). split; [done|by left].
    + split; [apply Hl1; done|right; left; by apply list_elem_of_fmap_2].
    + split; [apply Hl2; done|right; right; by apply list_elem_of_fmap_2].
Qed.

Lemma stream_ok_start t : stream_ok t [] (follow_start floor).
Proof. split_and!; [apply NoDup_nil_2|simpl; lia|constructor|constructor|constructor|]. intros q τ. simpl. by rewrite lookup_empty. Qed.

(** Turns in the order of time, over events a consistent database holds. *)
Fixpoint timely (t : time) (turns : list Turn) : Prop :=
  match turns with
  | [] => True
  | x :: rest => t ≤ x.(tn_now) ∧ x.(tn_now) ≤ x.(tn_later) ∧ consistent at_ x.(tn_events) ∧ timely x.(tn_later) rest
  end.

Lemma stream_ok_follow turns t emitted s :
  stream_ok t emitted s → timely t turns →
  ∃ t', stream_ok t' (emitted ++ (follow user sandbox_id type floor turns s).1) (follow user sandbox_id type floor turns s).2 ∧
    (t' = t ∨ ∃ x, x ∈ turns ∧ t' = x.(tn_later)).
Proof.
  revert t emitted s. induction turns as [|x rest IH]; intros t emitted s Hok Ht; simpl.
  { exists t. rewrite app_nil_r. split; [done|by left]. }
  destruct Ht as (H1 & H2 & H3 & H4). destruct (turn _ _ _ _ _) as [[l s1] more] eqn:Et.
  pose proof (stream_ok_turn _ _ _ _ _ _ _ _ _ _ Hok H1 H2 H3 Et) as Hok1.
  destruct (IH _ _ _ Hok1 H4) as (t' & Hok2 & Hor). destruct (follow _ _ _ _ rest s1) as [l2 s2]. simpl in *.
  exists t'. rewrite app_assoc. split; [done|]. right. destruct Hor as [->|(y & Hy & ->)]; [exists x|exists y]; set_solver.
Qed.

(** What a member may see of the events, by the rows of the tables: those of
    the workspace; with an API key for one sandbox those of the sandbox; with
    one for labels those of sandboxes that carry them all. *)
Definition may_see (d : Db) (e : Event) : Prop :=
  e.(ev_workspace_id) = user.(m_workspace_id) ∧
  match user.(m_key_sandbox_id), user.(m_key_labels) with
  | Some id, _ => e.(ev_sandbox_id) = Some id
  | None, Some sel =>
      ∃ id, e.(ev_sandbox_id) = Some id ∧ ∀ k v, (k, v) ∈ sel → default ∅ (d.(sandbox_labels) !! id) !! k = Some v
  | None, None => True
  end.

(** What the request asks for. *)
Definition asked_for (e : Event) : Prop :=
  (∀ id, sandbox_id = Some id → e.(ev_sandbox_id) = Some id) ∧ (∀ t, type = Some t → e.(ev_type) = t).

(** The labels a scope remembers are those some database had. *)
Definition read_from (ds : list Db) (known : gmap string labels_dict) : Prop :=
  ∀ id ls, known !! id = Some ls → ∃ d, d ∈ ds ∧ ls = labels_of d id.

Lemma allowed_rows_read ds d rows known l known' :
  d ∈ ds → read_from ds known → allowed_rows user rows d known = (l, known') → read_from ds known'.
Proof.
  intros Hd. revert known l known'. induction rows as [|e rest IH]; intros known l known' Hk; simpl; [by intros [= <- <-]|].
  destruct (allows _ _ _ _) as [ok k1] eqn:Ea, (allowed_rows _ _ _ _) as [l1 k2] eqn:El. intros [= _ <-].
  eapply IH; [|exact El]. unfold allows in Ea. destruct (m_key_sandbox_id user); [by injection Ea as <- <-|].
  destruct (m_key_labels user), (ev_sandbox_id e) as [id|]; try (by injection Ea as <- <-).
  destruct (known !! id); injection Ea as _ <-; [done|].
  intros i ls [[<- <-]|[_ Hi]]%lookup_insert_Some; eauto.
Qed.

Lemma allowed_may_see ds d known e :
  d ∈ ds → read_from ds known → wanted user.(m_workspace_id) sandbox_id type e = true → allowed_in user known e = true →
  asked_for e ∧ ∃ d', d' ∈ ds ∧ may_see d' e.
Proof.
  intros Hd Hk Hw Ha. unfold wanted in Hw.
  apply andb_true_iff in Hw as [[Hws%bool_decide_eq_true Hsb]%andb_true_iff Hty]. split.
  { unfold null_or in Hsb, Hty. split; intros ? ->; apply bool_decide_eq_true in Hsb || apply bool_decide_eq_true in Hty; congruence. }
  unfold allowed_in in Ha. unfold may_see. destruct (m_key_sandbox_id user) as [id|].
  { exists d. by apply bool_decide_eq_true in Ha. }
  destruct (m_key_labels user) as [sel|]; [|by exists d].
  destruct (ev_sandbox_id e) as [id|]; [|done]. destruct (known !! id) as [ls|] eqn:El; [|done].
  destruct (Hk id ls El) as (d' & Hd' & ->). exists d'. split_and!; [done..|]. exists id. split; [done|]. by apply matches_rows.
Qed.

(** What one turn sends is in its database, and seen by the labels of it or of
    a turn before. *)
Lemma turn_sees ds now later d evs s l s' more :
  d ∈ ds → read_from ds s.(st_known) → turn now later d evs s = (l, s', more) →
  read_from ds s'.(st_known) ∧
  ∀ e, e ∈ l → (∃ i, evs !! i = Some e) ∧ asked_for e ∧ ∃ d', d' ∈ ds ∧ may_see d' e.
Proof.
  intros Hd Hk Ht. assert (read_from ds s'.(st_known)) as Hk'.
  { unfold follow_turn, page, late in Ht.
    destruct (if floor <? st_after s then _ else _) as [stragglers k1] eqn:E1.
    destruct (allowed_rows user (list_events _ _ _ _ _ _) d k1) as [visible k2] eqn:E2.
    destruct (frames (Some floor) _ _) as [l1 sent1], (frames None _ _) as [l2 sent2]. injection Ht as _ <- _. simpl.
    eapply allowed_rows_read; [done| |exact E2]. destruct (floor <? st_after s); [by eapply allowed_rows_read|by injection E1 as <- <-]. }
  split; [done|]. apply turn_cases in Ht as (late_rows & l1 & l2 & sent1 & sent2 & -> & _ & F1 & F2 & -> & _ & _).
  apply frames_spec in F1 as (_ & E1 & _). apply frames_spec in F2 as (_ & E2 & _).
  intros e [He|He]%elem_of_app.
  - destruct (E1 e He) as ([Hal Hin]%list_elem_of_filter & _). destruct (floor <? st_after s); [|set_solver].
    apply late_elem in Hin as (? & ? & _). split; [done|]. by eapply allowed_may_see.
  - destruct (E2 e He) as ([Hal Hin]%list_elem_of_filter & _).
    apply list_events_elem in Hin as (? & ? & _). split; [done|]. by eapply allowed_may_see.
Qed.

Lemma follow_sees past turns s e :
  read_from (tn_db <$> past) s.(st_known) → e ∈ (follow user sandbox_id type floor turns s).1 →
  asked_for e ∧ ∃ earlier x rest, turns = earlier ++ x :: rest ∧ (∃ i, x.(tn_events) !! i = Some e) ∧
    ∃ y, y ∈ past ++ earlier ++ [x] ∧ may_see y.(tn_db) e.
Proof.
  revert past s. induction turns as [|x turns IH]; intros past s Hk; simpl; [set_solver|].
  destruct (turn _ _ _ _ _) as [[l s1] more] eqn:Et.
  eapply (turn_sees (tn_db <$> past ++ [x])) in Et as [Hk1 Hl].
  2:{ rewrite fmap_app. set_solver. }
  2:{ intros id ls Hi. destruct (Hk id ls Hi) as (d & ? & ?). exists d. rewrite fmap_app. set_solver. }
  specialize (IH (past ++ [x]) s1 Hk1). destruct (follow _ _ _ _ turns s1) as [l2 s2]. simpl in *.
  intros [He|He]%elem_of_app.
  - destruct (Hl e He) as (Hi & Hq & d' & (y & -> & Hy)%list_elem_of_fmap & Hm). split; [done|].
    exists [], x, turns. split_and!; [done..|]. by exists y.
  - destruct (IH He) as (Hq & earlier & z & rest & -> & Hi & y & Hy & Hm). split; [done|].
    exists (x :: earlier), z, rest. split_and!; [done..|]. exists y. by rewrite <- app_assoc in Hy.
Qed.

(** C37: a stream sends no event twice, and only what its member may see.  Over
    any turns in the order of time, however events commit out of order or are
    purged in between, the seqs of all frames are different.  Every frame is an
    event of the database at the turn that sends it, after the starting point
    and of the sandbox and type the request names; it is of the member's
    workspace, for an API key of one sandbox of that sandbox, and for an API
    key with labels of a sandbox whose rows carried all of them in the database
    at that turn or at an earlier one of the stream, which looks a sandbox's
    labels up once. *)
Theorem events_once turns t :
  timely t turns →
  let l := (follow user sandbox_id type floor turns (follow_start floor)).1 in
  NoDup (seqs l) ∧
  ∀ e, e ∈ l → floor < e.(ev_seq) ∧ asked_for e ∧
    ∃ earlier x rest, turns = earlier ++ x :: rest ∧ (∃ i, x.(tn_events) !! i = Some e) ∧
      ∃ y, y ∈ earlier ++ [x] ∧ may_see y.(tn_db) e.
Proof.
  intros Ht l. destruct (stream_ok_follow turns t [] _ (stream_ok_start t) Ht) as (t' & (Hn & _ & _ & Hw & _) & _).
  split; [done|]. intros e He. rewrite Forall_forall in Hw. split; [by apply (Hw e He)|].
  apply (follow_sees [] turns (follow_start floor)); [|done]. intros id ls. simpl. by rewrite lookup_empty.
Qed.

(** C38: a stream misses nothing that commits in time.  When a turn ends, every
    event of the database at or before its [after] that is wanted and allowed
    has been sent, if it lies after the previous turn's or was written in the
    last LATE_SECONDS; the latter as long as one page holds the events a turn
    rereads. *)
Theorem events_complete turns t now later d evs i e l1 s1 l2 s2 more :
  timely t (turns ++ [mkTurn now later d evs]) →
  follow user sandbox_id type floor turns (follow_start floor) = (l1, s1) → turn now later d evs s1 = (l2, s2, more) →
  evs !! i = Some e → wanted user.(m_workspace_id) sandbox_id type e = true → floor < e.(ev_seq) →
  e.(ev_seq) ≤ s2.(st_after) → allowed_in user s2.(st_known) e = true →
  s1.(st_after) < e.(ev_seq) ∨
  (now - sec LATE_SECONDS ≤ e.(ev_created_at) ∧
   let read_again := filter (λ x, wanted user.(m_workspace_id) sandbox_id type x = true ∧ x.(ev_seq) ≤ s1.(st_after) ∧
      now - sec LATE_SECONDS ≤ x.(ev_created_at)) (rows evs) in (length read_again ≤ PAGE)%nat) →
  e.(ev_seq) ∈ seqs (l1 ++ l2).
Proof.
  intros Ht Hf Htn He Hw Hfl Hle Hal Hor.
  assert (timely t turns ∧ consistent at_ evs) as [Ht1 Hc].
  { clear -Ht. revert t Ht. induction turns as [|x rest IH]; intros t; simpl; [tauto|].
    intros (? & ? & ? & H). apply IH in H as [? ?]. split_and!; done. }
  destruct (stream_ok_follow turns t [] _ (stream_ok_start t) Ht1) as (t' & (_ & _ & _ & _ & _ & Hsent) & _).
  rewrite Hf in Hsent. simpl in Hsent.
  apply turn_cases in Htn as (late_rows & k1 & k2 & sent1 & sent2 & -> & Hk & F1 & F2 & -> & Hs' & Ha').
  apply frames_spec in F1 as (_ & _ & C1 & _ & V1 & _). apply frames_spec in F2 as (_ & _ & C2 & _ & V2 & _).
  assert (∀ q, is_Some (sent1 !! q) → q ∈ seqs (l1 ++ k1 ++ k2)) as Hs1.
  { intros q [τ Hτ]. unfold seqs. rewrite !fmap_app, !elem_of_app. apply V1 in Hτ as [Hτ|(x & Hx & <- & _)].
    - left. by apply (Hsent q τ).
    - right. left. by apply list_elem_of_fmap_2. }
  assert (∀ q, is_Some (sent2 !! q) → q ∈ seqs (l1 ++ k1 ++ k2)) as Hs2.
  { intros q [τ Hτ]. apply V2 in Hτ as [Hτ|(x & Hx & <- & _)]; [by apply Hs1|].
    unfold seqs. rewrite !fmap_app, !elem_of_app. right. right. by apply list_elem_of_fmap_2. }
  destruct (decide (s1.(st_after) < e.(ev_seq))) as [Hlt|Hge].
  - apply Hs2, C2; [|exact I]. apply list_elem_of_filter. split; [done|]. unfold list_events in *.
    eapply (take_complete _ PAGE e s1.(st_after)); [apply order_by_sorted|by eapply seqs_filter_NoDup| |done|by rewrite <- Ha'].
    unfold by_seq. rewrite elem_of_order_by, list_elem_of_filter, elem_of_rows. split; [done|by exists i].
  - destruct Hor as [?|[Hlate Hlen]]; [lia|]. apply Hs1, C1; [|done]. apply list_elem_of_filter. split; [done|].
    rewrite (proj2 (Z.ltb_lt _ _)) by lia. unfold list_late_events, by_seq. rewrite take_ge.
    + rewrite elem_of_order_by, list_elem_of_filter, elem_of_rows. split; [|by exists i]. split_and!; [done|lia|done].
    + unfold order_by. rewrite merge_sort_Permutation. exact Hlen.
Qed.
End stream_run.

(** ** A concrete run *)

Definition demo_event (seq created : Z) : Event :=
  mkEvent (pretty seq) seq "w1" (Some "s1") "sandbox.state" JNull created.

Definition demo_follower : Member := mkMember "u1" "w1" RMember None None None.

(** Event 2 commits before event 1, which a second turn finds late. *)
Definition demo_turns : list Turn :=
  [mkTurn 10 11 empty_db {["b" := demo_event 2 9]};
   mkTurn 20 21 empty_db (<["a" := demo_event 1 8]> {["b" := demo_event 2 9]})].

Lemma demo_timely : timely (λ q, 7 + q) 0 demo_turns.
Proof.
  assert (∀ m, (∀ i e, m !! i = Some e → (i, e) ∈ [("a", demo_event 1 8); ("b", demo_event 2 9)]) → consistent (λ q, 7 + q) m) as H.
  { intros m Hm. split.
    - intros i j x y Hx%Hm Hy%Hm. rewrite !elem_of_cons, elem_of_nil in Hx, Hy. naive_solver.
    - intros i x Hx%Hm. rewrite !elem_of_cons, elem_of_nil in Hx. naive_solver. }
  unfold demo_turns. simpl. split; [lia|]. split; [lia|]. split; [apply H|split; [lia|split; [lia|split; [apply H|done]]]].
  - intros i e [<- <-]%lookup_singleton_Some. right. left.
  - intros i e [[<- <-]|[_ [<- <-]%lookup_singleton_Some]]%lookup_insert_Some; [left|right; left].
Qed.

Lemma events_once_witness :
  seqs (follow demo_follower None None 0 demo_turns (follow_start 0)).1 = [2; 1] ∧ NoDup [2; 1].
Proof.
  split; [vm_compute; reflexivity|].
  exact (proj1 (events_once demo_follower None None 0 (λ q, 7 + q) demo_turns 0 demo_timely)).
Defined.

(** A key for [team=a] follows: event 1 is of [s1], which has the label, event
    2 of [s2], which has not.  Once the stream has seen that, [s1] loses the
    label; its event 3 is sent all the same. *)
Example labels_looked_up_once :
  let user := mkMember "u1" "w1" RMember (Some "k") None (Some [("team", "a")]) in
  let ev i id := mkEvent (pretty i) i "w1" (Some id) "sandbox.state" JNull i in
  let before := set_sandbox_labels {["s1" := {["team" := "a"]}]} empty_db in
  let evs := <["1" := ev 1 "s1"]> {["2" := ev 2 "s2"]} in
  let after := set_sandbox_labels ∅ before in
  seqs (follow user None None 0 [mkTurn 10 11 before evs; mkTurn 20 21 after (<["3" := ev 3 "s1"]> evs)] (follow_start 0)).1
  = [1; 3].
Proof. vm_compute. reflexivity. Qed.

Lemma events_complete_witness : 1 ∈ [2; 1].
Proof.
  refine (events_complete demo_follower None None 0 (λ q, 7 + q) [mkTurn 10 11 empty_db {["b" := demo_event 2 9]}] 0
    20 21 empty_db (<["a" := demo_event 1 8]> {["b" := demo_event 2 9]}) "a" (demo_event 1 8)
    [demo_event 2 9] (mkStream ∅ {[2 := 9]} 2) [demo_event 1 8] (mkStream ∅ (<[1 := 8]> {[2 := 9]}) 2) false
    demo_timely _ _ _ _ _ _ _ _); try (vm_compute; reflexivity); try (vm_compute; discriminate).
  right. split; vm_compute; [discriminate|]. lia.
Defined.
