(* ===== verification/Webhooks.v ===== *)
(** Webhooks (src/apps/server/webhooks.py): the webhooks of a workspace, and the
    workers that send due deliveries, leased, with retries.  DNS, HTTP and the
    stored secret's decryption are parameters. *)

From S2P Require Import Prelude Tables Store Labels Auth Events.

Definition TIMEOUT : Z := 10.
Definition BATCH : nat := 20.
Definition LEASE_SECONDS : Z := 120.
Definition SECRET_PREFIX : string := "whsec_".
Definition EVENT_TYPES : list string := ["sandbox.state"].

(** Source: src/db/generated/models.py:437-446 [Webhook].  The types and the
    selector are kept as the values their JSON holds. *)
Record Webhook := mkWebhook {
  wh_id : string;
  wh_workspace_id : string;
  wh_url : string;
  wh_secret_ciphertext : string;
  wh_types : list string;
  wh_label_selector : option labels_dict;
  wh_enabled : bool;
  wh_created_by : string;
  wh_created_at : time
}.

Inductive delivery_status := DPending | DDelivered | DFailed.

#[global] Instance delivery_status_eq_dec : EqDecision delivery_status.
Proof. solve_decision. Defined.

(** Source: src/db/generated/models.py:449-460 [WebhookDelivery]. *)
Record Delivery := mkDelivery {
  d_id : string;
  d_seq : Z;
  d_webhook_id : string;
  d_event_id : string;
  d_status : delivery_status;
  d_attempts : Z;
  d_next_attempt_at : time;
  d_last_error : option string;
  d_response_status : option Z;
  d_created_at : time;
  d_delivered_at : option time
}.

Record Hooks := mkHooks {
  webhooks : gmap string Webhook;
  deliveries : gmap string Delivery;
  events : gmap string Event;
  hk_seq : Z;
  hk_now : time
}.

Definition set_webhooks (m : gmap string Webhook) (h : Hooks) : Hooks := mkHooks m h.(deliveries) h.(events) h.(hk_seq) h.(hk_now).
Definition set_deliveries (m : gmap string Delivery) (h : Hooks) : Hooks := mkHooks h.(webhooks) m h.(events) h.(hk_seq) h.(hk_now).
Definition set_events (m : gmap string Event) (h : Hooks) : Hooks := mkHooks h.(webhooks) h.(deliveries) m h.(hk_seq) h.(hk_now).

(** ** Statements *)

Definition lease (until : time) (d : Delivery) : Delivery :=
  mkDelivery d.(d_id) d.(d_seq) d.(d_webhook_id) d.(d_event_id) d.(d_status) d.(d_attempts) until d.(d_last_error)
    d.(d_response_status) d.(d_created_at) d.(d_delivered_at).

Definition due (now : time) (d : Delivery) : Prop := d.(d_status) = DPending ∧ d.(d_next_attempt_at) ≤ now.

#[global] Instance due_dec now d : Decision (due now d).
Proof. unfold due. apply _. Defined.

Definition finished (status : delivery_status) (attempts : Z) (next_attempt_at : time) (last_error : option string)
    (response_status : option Z) (now : time) (d : Delivery) : Delivery :=
  mkDelivery d.(d_id) d.(d_seq) d.(d_webhook_id) d.(d_event_id) status attempts next_attempt_at last_error response_status
    d.(d_created_at) (if decide (status = DDelivered) then Some now else None).

(** Source: src/db/generated/query.py:171-182 [CLAIM_WEBHOOK_DELIVERIES].
    [FOR UPDATE SKIP LOCKED] makes claims of several workers take turns. *)
Definition claim_webhook_deliveries (lease_seconds : Z) (row_limit : nat) (h : Hooks) : list Delivery * Hooks :=
  let found := take row_limit (order_by (λ d, (d.(d_seq), 0)) (filter (due h.(hk_now)) (rows h.(deliveries)))) in
  let leased := lease (h.(hk_now) + sec lease_seconds) <$> found in
  (leased, set_deliveries (foldr (λ d m, <[d.(d_id) := d]> m) h.(deliveries) leased) h).

(** Source: src/db/generated/query.py:886-891 [FINISH_WEBHOOK_DELIVERY]. *)
Definition finish_webhook_delivery (status : delivery_status) (attempts : Z) (next_attempt_at : time)
    (last_error : option string) (response_status : option Z) (id : string) (h : Hooks) : Hooks :=
  set_deliveries (alter (finished status attempts next_attempt_at last_error response_status h.(hk_now)) id h.(deliveries)) h.

(** Source: src/db/generated/query.py:648-650 [CREATE_WEBHOOK_DELIVERY].
    [id] is the uuid the column's default draws. *)
Definition create_webhook_delivery (id webhook_id event_id : string) (h : Hooks) : Hooks :=
  mkHooks h.(webhooks)
    (<[id := mkDelivery id h.(hk_seq) webhook_id event_id DPending 0 h.(hk_now) None None h.(hk_now) None]> h.(deliveries))
    h.(events) (h.(hk_seq) + 1) h.(hk_now).

(** Source: src/db/generated/query.py:1928-1930 [PURGE_WEBHOOK_DELIVERIES]. *)
Definition purge_webhook_deliveries (created_at : time) (h : Hooks) : Hooks :=
  set_deliveries (filter (λ p, ¬ (p.2.(d_status) ≠ DPending ∧ p.2.(d_created_at) < created_at)) h.(deliveries)) h.

(** Source: src/db/generated/query.py:1131-1133 [GET_WEBHOOK]. *)
Definition get_webhook (id : string) (h : Hooks) : option Webhook := h.(webhooks) !! id.

(** Source: src/db/generated/query.py:929-931 [GET_EVENT]. *)
Definition get_event (id : string) (h : Hooks) : option Event := h.(events) !! id.

(** Source: src/db/generated/query.py:1771-1773 [LIST_WEBHOOKS]. *)
Definition list_webhooks (workspace_id : string) (h : Hooks) : list Webhook :=
  order_by (λ w, (w.(wh_created_at), 0)) (filter (λ w, w.(wh_workspace_id) = workspace_id) (rows h.(webhooks))).

(** Source: src/db/generated/query.py:629-634 [CREATE_WEBHOOK]. *)
Definition create_webhook (w : Webhook) (h : Hooks) : Hooks := set_webhooks (<[w.(wh_id) := w]> h.(webhooks)) h.

(** Source: src/db/generated/query.py:2478-2482 [UPDATE_WEBHOOK]. *)
Definition update_webhook (url : string) (types : list string) (selector : option labels_dict) (enabled : bool) (id : string)
    (h : Hooks) : Hooks :=
  set_webhooks (alter (λ w, mkWebhook w.(wh_id) w.(wh_workspace_id) url w.(wh_secret_ciphertext) types selector enabled
    w.(wh_created_by) w.(wh_created_at)) id h.(webhooks)) h.

(** Source: src/db/generated/query.py:799-801 [DELETE_WEBHOOK].  Its
    deliveries go with it (ON DELETE CASCADE). *)
Definition delete_webhook (id : string) (h : Hooks) : Hooks :=
  mkHooks (delete id h.(webhooks)) (filter (λ p, p.2.(d_webhook_id) ≠ id) h.(deliveries)) h.(events) h.(hk_seq) h.(hk_now).

(** Source: src/db/generated/query.py:829-832 [EMIT_EVENT].  The events that
    are for one webhook only have no deliveries of their own; [id] is the uuid
    the column's default draws. *)
Definition emit_test_event (id workspace_id webhook_id : string) (h : Hooks) : Hooks :=
  mkHooks h.(webhooks) h.(deliveries)
    (<[id := mkEvent id h.(hk_seq) workspace_id None "webhook.test" (JObj [("webhook_id", JStr webhook_id)]) h.(hk_now)]> h.(events))
    (h.(hk_seq) + 1) h.(hk_now).

(** Source: src/db/generated/query.py:1213-1215 [LATEST_WORKSPACE_EVENT]. *)
Definition latest_workspace_event (workspace_id type : string) (h : Hooks) : option Event :=
  last (by_seq (filter (λ e, e.(ev_workspace_id) = workspace_id ∧ e.(ev_type) = type) (rows h.(events)))).

(** ** What a webhook may be *)

Definition text_le (a b : string) : Prop := String.leb a b = true.

#[global] Instance text_le_dec : RelDecision text_le.
Proof. intros a b. unfold text_le. apply _. Defined.

(** Source: src/apps/server/webhooks.py:88-94 [WebhookRequest.check_types].
    [sorted(set(value))], unless there is an unknown one. *)
Definition check_types (value : list string) : result exn (list string) :=
  if bool_decide (Forall (λ t, t ∈ EVENT_TYPES) value)
  then Ok (merge_sort text_le (remove_dups value))
  else Err (ValueError [Txt "unknown event types"]).

(** Source: src/apps/server/webhooks.py:96-99 [WebhookRequest.check_selector]. *)
Definition check_selector (value : option labels_dict) : result exn (option labels_dict) :=
  match value with
  | None | Some [] => Ok None
  | Some v => match validate v with Ok v => Ok (Some v) | Err e => Err e end
  end.

Section webhooks.
(** urllib.parse.urlparse: scheme, host name and port *)
Context (urlparse : string → result exn (string * option string * option Z)).
(** the addresses a host resolves to, or why it does not; whether one is public *)
Context (getaddrinfo : string → Z → result exn (list string)) (is_global : string → bool).
Context (ALLOW_PRIVATE : bool).

Fixpoint all_public (host : string) (found : list string) : result exn unit :=
  match found with
  | [] => Ok tt
  | ip :: rest =>
      if is_global ip then all_public host rest
      else Err (ValueError [Txt host; Txt " resolves to "; Txt ip; Txt ", which isn't a public address"])
  end.

(** Source: src/apps/server/webhooks.py:58-72 [check_url]. *)
Definition check_url (url : string) : result exn unit :=
  match urlparse url with
  | Err e => Err e
  | Ok (scheme, hostname, port) =>
      match str_or_none hostname with
      | Some host =>
          if negb (bool_decide (scheme ∈ ["http"; "https"]))
          then Err (ValueError [Txt "the URL must be http:// or https:// with a host"])
          else if ALLOW_PRIVATE then Ok tt
          else
            let or_443 := if String.eqb scheme "https" then 443 else 80 in
            let p := match port with Some n => if n =? 0 then or_443 else n | None => or_443 end in
            match getaddrinfo host p with
            | Err e => Err (ValueError [Txt "couldn't resolve "; Txt host; Txt ": "; Txt (exn_text e)])
            | Ok found => all_public host found
            end
      | None => Err (ValueError [Txt "the URL must be http:// or https:// with a host"])
      end
  end.

(** hmac.new(secret, message, sha256).hexdigest() *)
Context (hmac_sha256 : string → string → string).

(** Source: src/apps/server/webhooks.py:75-77 [sign]. *)
Definition sign (secret timestamp body : string) : string := "v1=" +:+ hmac_sha256 secret (timestamp +:+ "." +:+ body).

(** Source: src/apps/server/webhooks.py:263-267 [valid_url]. *)
Definition valid_url {St} (url : string) : M St unit :=
  match check_url url with
  | Ok _ => mret tt
  | Err (ValueError m) => raise (HTTPException 422 m)
  | Err e => raise e
  end.

(** *** Routes *)

(** str(uuid.uuid4()), secrets.token_urlsafe, and encrypt with the workspace's
    data key *)
Context (uuid4 token_urlsafe : Hooks → string) (encrypt : string → string → result exn string).

Record WebhookRequest := mkWebhookRequest {
  wr_url : string; wr_types : list string; wr_label_selector : option labels_dict; wr_enabled : bool
}.

Definition or_none (s : option labels_dict) : option labels_dict := match s with Some [] => None | _ => s end.

(** Source: src/apps/server/webhooks.py:256-260 [WebhooksApi.owned]. *)
Definition owned_webhook (webhook_id : string) (user : Member) : M Hooks Webhook :=
  found ← gets (get_webhook webhook_id);
  match found with
  | Some w =>
      guard_ (bool_decide (w.(wh_workspace_id) = user.(m_workspace_id))) (HTTPException 404 [Txt "webhook not found"]);;
      mret w
  | None => raise (HTTPException 404 [Txt "webhook not found"])
  end.

(** Source: src/apps/server/webhooks.py:150-155 [WebhooksApi._register_routes.list_webhooks]. *)
Definition list_webhooks_route (user : Member) : M Hooks (list Webhook) :=
  require user RAdmin;; gets (list_webhooks user.(m_workspace_id)).

(** Source: src/apps/server/webhooks.py:157-176 [WebhooksApi._register_routes.create_webhook].
    The row and the secret shown once. *)
Definition create_webhook_route (payload : WebhookRequest) (user : Member) : M Hooks (Webhook * string) :=
  valid_url payload.(wr_url);;
  token ← gets token_urlsafe;
  id ← gets uuid4;
  let secret := SECRET_PREFIX +:+ token in
  match encrypt secret user.(m_workspace_id) with
  | Err e => raise e
  | Ok ciphertext =>
      now ← gets hk_now;
      let row := mkWebhook id user.(m_workspace_id) payload.(wr_url) ciphertext payload.(wr_types)
        (or_none payload.(wr_label_selector)) payload.(wr_enabled) user.(m_id) now in
      taken ← gets (get_webhook id);
      guard_ (is_none taken) IntegrityError;;
      modify (create_webhook row);;
      mret (row, secret)
  end.

(** Source: src/apps/server/webhooks.py:178-197 [WebhooksApi._register_routes.update_webhook]. *)
Definition update_webhook_route (webhook_id : string) (payload : WebhookRequest) (user : Member) : M Hooks (option Webhook) :=
  owned_webhook webhook_id user;;
  valid_url payload.(wr_url);;
  modify (update_webhook payload.(wr_url) payload.(wr_types) (or_none payload.(wr_label_selector)) payload.(wr_enabled) webhook_id);;
  gets (get_webhook webhook_id).

(** Source: src/apps/server/webhooks.py:199-203 [WebhooksApi._register_routes.delete_webhook]. *)
Definition delete_webhook_route (webhook_id : string) (user : Member) : M Hooks unit :=
  w ← owned_webhook webhook_id user;
  modify (delete_webhook w.(wh_id)).

(** Source: src/apps/server/webhooks.py:239-254 [WebhooksApi._register_routes.test_webhook].
    [event_id] and [delivery_id] are the uuids the rows draw. *)
Definition test_webhook (event_id delivery_id webhook_id : string) (user : Member) : M Hooks string :=
  w ← owned_webhook webhook_id user;
  modify (emit_test_event event_id user.(m_workspace_id) w.(wh_id));;
  found ← gets (latest_workspace_event user.(m_workspace_id) "webhook.test");
  match found with
  | None => raise AssertionError
  | Some e => modify (create_webhook_delivery delivery_id w.(wh_id) e.(ev_id));; mret e.(ev_id)
  end.

(** *** Sending *)

Context (BACKOFF : list Z) (decrypt : string → result exn string) (dumps : Event → string) (seconds : time → string).

(** What a POST comes to: a response, or httpx's error. *)
Inductive reply := Answered (code : Z) (text : string) | Unreachable (text : string).

(** url, the event, the timestamp and the signature it is sent with *)
Context (post : Hooks → string → Event → string → string → reply).
(** what other workers and requests do while it is on its way *)
Context (other : Hooks → Hooks).

(** [str(e)[:500] or e.__class__.__name__] *)
Definition shown_error (text name : string) : string := or_else (String.substring 0 500 text) name.

(** How an attempt went: delivered, sent or kept back without success, or
    nothing to send as the webhook or the event is gone or disabled. *)
Inductive went := WDelivered | WUndelivered | WGone.

(** With the status code and the error. *)
Definition attempted : Type := went * option Z * option string.

(** Source: src/apps/server/webhooks.py:275-306 [deliver_due].  One delivery, up
    to what is recorded of it. *)
Definition attempt (delivery : Delivery) : M Hooks attempted :=
  webhook ← gets (get_webhook delivery.(d_webhook_id));
  event ← gets (get_event delivery.(d_event_id));
  match webhook, event with
  | Some w, Some e =>
      if negb w.(wh_enabled) then mret (WGone, None, Some "the webhook was disabled or removed")
      else
        match check_url w.(wh_url) with
        | Err (ValueError m) => mret (WUndelivered, None, Some (shown_error (render m) "ValueError"))
        | Err x => raise x
        | Ok _ =>
            match decrypt w.(wh_secret_ciphertext) with
            | Err (ValueError m) => mret (WUndelivered, None, Some (shown_error (render m) "ValueError"))
            | Err x => raise x
            | Ok secret =>
                h ← Prelude.get;
                let timestamp := seconds h.(hk_now) in
                let r := post h w.(wh_url) e timestamp (sign secret timestamp (dumps e)) in
                modify other;;
                match r with
                | Answered code text =>
                    if (200 <=? code) && (code <? 300) then mret (WDelivered, Some code, None)
                    else mret (WUndelivered, Some code, Some ("HTTP " +:+ pretty code +:+ ": " +:+ String.substring 0 300 text))
                | Unreachable text => mret (WUndelivered, None, Some (shown_error text "HTTPError"))
                end
            end
        end
  | _, _ => mret (WGone, None, Some "the webhook was disabled or removed")
  end.

(** Source: src/apps/server/webhooks.py:307-323 [deliver_due].  What is recorded
    of an attempt: only one that was for an enabled webhook is retried. *)
Definition record_attempt (delivery : Delivery) (a : attempted) : M Hooks unit :=
  let attempts := delivery.(d_attempts) + 1 in
  let status := match a.1.1 with
                | WDelivered => DDelivered
                | WUndelivered => if attempts <=? Z.of_nat (length BACKOFF) then DPending else DFailed
                | WGone => DFailed
                end in
  now ← gets hk_now;
  match (if decide (status = DPending) then sec <$> py_index BACKOFF (attempts - 1) else Some 0) with
  | None => raise IndexError
  | Some wait => modify (finish_webhook_delivery status attempts (now + wait) a.2 a.1.2 delivery.(d_id))
  end.

Definition deliver_one (delivery : Delivery) : M Hooks unit := attempt delivery ≫= record_attempt delivery.

(** Source: src/apps/server/webhooks.py:270-326 [deliver_due]. *)
Definition deliver_due : M Hooks nat := λ h,
  let '(found, h) := claim_webhook_deliveries LEASE_SECONDS BATCH h in
  match for_ found deliver_one h with
  | (Ok _, h') => (Ok (length found), h')
  | (Err e, h') => (Err e, h')
  end.
End webhooks.

(** ** Every worker at once *)

Section workers.
Context (BACKOFF : list Z).

(** A delivery a worker claimed and has not recorded an attempt of, and when. *)
Record Sending := mkSending { sd : Delivery; sd_at : time }.

(** The table, what is being sent, and the past: the id of every delivery a
    worker took to send, and of every one a worker gave up without a record of
    it, because it was stopped or an error ended its batch. *)
Record Workers := mkWorkers {
  wk_hooks : Hooks; wk_sending : list Sending; wk_taken : list string; wk_lost : list string
}.

Definition at_time (now : time) (h : Hooks) : Hooks := mkHooks h.(webhooks) h.(deliveries) h.(events) h.(hk_seq) now.

(** A worker is done with what it claimed before the lease ends. *)
Definition leased (now : time) (s : Sending) : Prop := now < s.(sd_at) + sec LEASE_SECONDS.

Inductive workers_step : Workers → Workers → Prop :=
| wk_tick h now l tk lo :
    h.(hk_now) ≤ now → Forall (leased now) l → workers_step (mkWorkers h l tk lo) (mkWorkers (at_time now h) l tk lo)
| wk_claim h l tk lo found h' :
    claim_webhook_deliveries LEASE_SECONDS BATCH h = (found, h') →
    workers_step (mkWorkers h l tk lo)
      (mkWorkers h' (l ++ ((λ d, mkSending d h.(hk_now)) <$> found)) (tk ++ (d_id <$> found)) lo)
| wk_record h l1 s l2 tk lo a h' :
    record_attempt BACKOFF s.(sd) a h = (Ok tt, h') →
    workers_step (mkWorkers h (l1 ++ s :: l2) tk lo) (mkWorkers h' (l1 ++ l2) tk lo)
| wk_crash h l1 s l2 tk lo :
    workers_step (mkWorkers h (l1 ++ s :: l2) tk lo) (mkWorkers h (l1 ++ l2) tk (s.(sd).(d_id) :: lo))
| wk_create h l tk lo id webhook_id event_id :
    h.(deliveries) !! id = None → id ∉ tk →
    workers_step (mkWorkers h l tk lo) (mkWorkers (create_webhook_delivery id webhook_id event_id h) l tk lo)
| wk_delete h l tk lo id : workers_step (mkWorkers h l tk lo) (mkWorkers (delete_webhook id h) l tk lo)
| wk_purge h l tk lo before : workers_step (mkWorkers h l tk lo) (mkWorkers (purge_webhook_deliveries before h) l tk lo)
| wk_other h h' l tk lo :
    h'.(deliveries) = h.(deliveries) → h'.(hk_now) = h.(hk_now) → workers_step (mkWorkers h l tk lo) (mkWorkers h' l tk lo).

Definition workers_init (s : Workers) : Prop :=
  s.(wk_hooks).(deliveries) = ∅ ∧ s.(wk_sending) = [] ∧ s.(wk_taken) = [] ∧ s.(wk_lost) = [].

Definition sending_ids (l : list Sending) : list string := (λ s, s.(sd).(d_id)) <$> l.

Definition tries : Z := Z.of_nat (length BACKOFF).

Definition row_ok (i : string) (d : Delivery) : Prop :=
  d.(d_id) = i ∧ 0 ≤ d.(d_attempts) ≤ tries + 1 ∧ (d.(d_status) = DPending → d.(d_attempts) ≤ tries).

Definition in_flight (h : Hooks) (s : Sending) : Prop :=
  leased h.(hk_now) s ∧
  ∀ d, h.(deliveries) !! s.(sd).(d_id) = Some d →
    d.(d_status) = DPending ∧ d.(d_attempts) = s.(sd).(d_attempts) ∧ d.(d_next_attempt_at) = s.(sd_at) + sec LEASE_SECONDS.

(** How often an id is in a list. *)
Definition occurs (id : string) (l : list string) : Z := Z.of_nat (length (filter (λ i, i = id) l)).

(** A delivery was taken once per try on its row, once per time it was lost,
    and once if it is being sent. *)
Definition counted (id : string) (s : Workers) : Prop :=
  match s.(wk_hooks).(deliveries) !! id with
  | Some d => occurs id s.(wk_taken) ≤ d.(d_attempts) + occurs id s.(wk_lost) + occurs id (sending_ids s.(wk_sending))
  | None => occurs id s.(wk_taken) ≤ tries + 1 + occurs id s.(wk_lost)
  end.

Definition workers_ok (s : Workers) : Prop :=
  map_Forall row_ok s.(wk_hooks).(deliveries) ∧ NoDup (sending_ids s.(wk_sending)) ∧
  Forall (in_flight s.(wk_hooks)) s.(wk_sending) ∧ (∀ i, i ∈ sending_ids s.(wk_sending) → i ∈ s.(wk_taken)).

Lemma foldr_insert_spec (l : list Delivery) (m : gmap string Delivery) :
  NoDup (d_id <$> l) →
  (∀ d, d ∈ l → foldr (λ d m, <[d.(d_id) := d]> m) m l !! d.(d_id) = Some d) ∧
  (∀ i, i ∉ (d_id <$> l) → foldr (λ d m, <[d.(d_id) := d]> m) m l !! i = m !! i).
Proof.
  induction l as [|x l IH]; csimpl; [intros _; split; [set_solver|done]|]. rewrite NoDup_cons. intros [Hx Hn].
  destruct (IH Hn) as [H1 H2]. split.
  - intros d [->|Hd]%elem_of_cons; [by rewrite lookup_insert_eq|]. rewrite lookup_insert_ne; [by apply H1|].
    intros Heq. apply Hx. rewrite Heq. by apply list_elem_of_fmap_2.
  - intros i Hi. rewrite not_elem_of_cons in Hi. destruct Hi as [Hi1 Hi2]. rewrite lookup_insert_ne by done. by apply H2.
Qed.

(** What a claim takes: rows that are due, each once. *)
Lemma claim_due_rows h found h' :
  map_Forall row_ok h.(deliveries) → claim_webhook_deliveries LEASE_SECONDS BATCH h = (found, h') →
  h'.(hk_now) = h.(hk_now) ∧ NoDup (d_id <$> found) ∧
  (∀ d, d ∈ found → h'.(deliveries) !! d.(d_id) = Some d ∧
     ∃ row, h.(deliveries) !! d.(d_id) = Some row ∧ due h.(hk_now) row ∧ d = lease (h.(hk_now) + sec LEASE_SECONDS) row) ∧
  (∀ i, i ∉ (d_id <$> found) → h'.(deliveries) !! i = h.(deliveries) !! i).
Proof.
  intros Hk. unfold claim_webhook_deliveries.
  set (all := order_by _ (filter _ _)). intros [= <- <-]. simpl. set (found := lease _ <$> take BATCH all).
  assert (∀ row, row ∈ take BATCH all → h.(deliveries) !! row.(d_id) = Some row ∧ due h.(hk_now) row) as Hin.
  { intros row Hr. apply (subseteq_take BATCH) in Hr. unfold all in Hr.
    apply elem_of_order_by, list_elem_of_filter in Hr as [Hd [i Hi]%elem_of_rows]. split; [|done].
    destruct (Hk i row Hi) as [<- _]. done. }
  assert (NoDup (d_id <$> all)) as Hnd.
  { unfold all, order_by. rewrite merge_sort_Permutation. apply NoDup_fmap_2_strong.
    - intros x y [_ [i Hx]%elem_of_rows]%list_elem_of_filter [_ [j Hy]%elem_of_rows]%list_elem_of_filter Heq.
      destruct (Hk i x Hx) as [Hi _], (Hk j y Hy) as [Hj _]. assert (i = j) as -> by congruence. congruence.
    - apply NoDup_filter. unfold rows. apply NoDup_fmap_2_strong; [|apply NoDup_map_to_list].
      intros [i x] [j y] Hx%elem_of_map_to_list Hy%elem_of_map_to_list. simpl. intros ->.
      destruct (Hk i y Hx) as [<- _], (Hk j y Hy) as [<- _]. done. }
  assert (d_id <$> found = d_id <$> take BATCH all) as Hids.
  { unfold found. rewrite <- list_fmap_compose. by apply list_fmap_ext. }
  assert (NoDup (d_id <$> found)) as Hnf.
  { rewrite Hids. rewrite <- (take_drop BATCH all), fmap_app, NoDup_app in Hnd. apply Hnd. }
  destruct (foldr_insert_spec found h.(deliveries) Hnf) as [H1 H2]. split_and!; [done|done| |done].
  intros d Hd. split; [by apply H1|]. unfold found in Hd. apply list_elem_of_fmap in Hd as (row & -> & Hr).
  destruct (Hin row Hr). by exists row.
Qed.

Lemma record_spec d a h h' :
  record_attempt BACKOFF d a h = (Ok tt, h') →
  ∃ status next, (status = DPending → d.(d_attempts) + 1 ≤ tries) ∧
    h' = finish_webhook_delivery status (d.(d_attempts) + 1) next a.2 a.1.2 d.(d_id) h ∧
    (status = DPending → ∃ wait, py_index BACKOFF d.(d_attempts) = Some wait ∧ next = h.(hk_now) + sec wait).
Proof.
  unfold record_attempt. set (status := match a.1.1 with WDelivered => _ | _ => _ end). run.
  assert (status = DPending → d_attempts d + 1 ≤ tries) as Hst.
  { unfold status, tries. destruct a.1.1; [done| |done]. by destruct (Z.leb_spec (d_attempts d + 1) (Z.of_nat (length BACKOFF))). }
  replace (d_attempts d + 1 - 1) with (d_attempts d) by lia.
  destruct (decide (status = DPending)) as [Hp|Hp].
  - destruct (py_index BACKOFF (d_attempts d)) as [wait|]; simpl; [|done]. intros [= <-].
    eexists status, _. split_and!; [done|done|eauto].
  - intros [= <-]. exists status, (h.(hk_now) + 0). by split_and!.
Qed.

Lemma in_flight_ext h h' s :
  h'.(hk_now) = h.(hk_now) →
  (∀ d, h'.(deliveries) !! s.(sd).(d_id) = Some d → h.(deliveries) !! s.(sd).(d_id) = Some d) →
  in_flight h s → in_flight h' s.
Proof. intros Hn Hd [H1 H2]. split; [by rewrite Hn|]. intros d Hs. by apply H2, Hd. Qed.

Lemma NoDup_drop {A} (l1 l2 : list A) x : NoDup (l1 ++ x :: l2) → (x ∉ l1 ++ l2) ∧ NoDup (l1 ++ l2).
Proof. intros H. rewrite <- Permutation_middle in H. by apply NoDup_cons in H. Qed.

Lemma Forall_around {A} (P : A → Prop) l1 x l2 : Forall P (l1 ++ x :: l2) → P x ∧ Forall P (l1 ++ l2).
Proof. rewrite !Forall_app, Forall_cons. tauto. Qed.

(** What is being sent is not due. *)
Lemma claim_free h l tk lo found h' s :
  workers_ok (mkWorkers h l tk lo) → claim_webhook_deliveries LEASE_SECONDS BATCH h = (found, h') →
  s ∈ l → s.(sd).(d_id) ∉ (d_id <$> found).
Proof.
  intros (Hr & Hn & Hf & _) Hc Hs (d & Hd & Hdf)%list_elem_of_fmap. simpl in *.
  destruct (claim_due_rows _ _ _ Hr Hc) as (_ & _ & Hin & _). rewrite Forall_forall in Hf. destruct (Hf s Hs) as [Hl Hrow].
  destruct (Hin d Hdf) as (_ & row & Hrow' & [Hp Hdue] & _). rewrite <- Hd in Hrow'. destruct (Hrow _ Hrow') as (_ & _ & Hnext).
  unfold leased in Hl. lia.
Qed.

Lemma claim_sending_ids now (l : list Sending) (found : list Delivery) :
  sending_ids (l ++ ((λ d, mkSending d now) <$> found)) = sending_ids l ++ (d_id <$> found).
Proof. unfold sending_ids. by rewrite fmap_app, <- list_fmap_compose. Qed.

Lemma workers_ok_claim h l tk lo found h' :
  workers_ok (mkWorkers h l tk lo) → claim_webhook_deliveries LEASE_SECONDS BATCH h = (found, h') →
  workers_ok (mkWorkers h' (l ++ ((λ d, mkSending d h.(hk_now)) <$> found)) (tk ++ (d_id <$> found)) lo).
Proof.
  intros Hok Hc. pose proof (λ s, claim_free _ _ _ _ _ _ s Hok Hc) as Hfree. destruct Hok as (Hr & Hn & Hf & Ht).
  simpl in *. destruct (claim_due_rows _ _ _ Hr Hc) as (Hnow & Hnd & Hin & Hout).
  split_and!; simpl.
  - intros i d Hi. destruct (decide (i ∈ (d_id <$> found))) as [Hif|Hif].
    + apply list_elem_of_fmap in Hif as (x & -> & Hx). destruct (Hin x Hx) as (Hx' & row & Hrow & _ & Hlease).
      rewrite Hx' in Hi. injection Hi as <-. destruct (Hr _ _ Hrow) as (_ & Ha & Hp). split; [done|]. rewrite Hlease. done.
    + rewrite Hout in Hi by done. by apply Hr.
  - rewrite claim_sending_ids, NoDup_app. split_and!; [done| |done].
    intros i (s & -> & Hs)%list_elem_of_fmap. by apply Hfree.
  - rewrite Forall_app, !Forall_forall. rewrite Forall_forall in Hf. split.
    + intros s Hs. apply (in_flight_ext h); [exact Hnow| |by apply Hf]. intros d. rewrite Hout by (by apply Hfree). done.
    + intros s (d & -> & Hd)%list_elem_of_fmap. destruct (Hin d Hd) as (Hd' & row & Hrow & [Hp _] & Hlease). split.
      * unfold leased. simpl. rewrite Hnow. unfold sec, LEASE_SECONDS. lia.
      * simpl. intros d2 Hd2. assert (d2 = d) as -> by congruence. rewrite Hlease. done.
  - intros i. rewrite claim_sending_ids. set_solver.
Qed.

Lemma sending_drop l1 s l2 :
  NoDup (sending_ids (l1 ++ s :: l2)) → (s.(sd).(d_id) ∉ sending_ids (l1 ++ l2)) ∧ NoDup (sending_ids (l1 ++ l2)).
Proof. unfold sending_ids. rewrite !fmap_app, fmap_cons. apply NoDup_drop. Qed.

Lemma sending_middle l1 s l2 : sending_ids (l1 ++ s :: l2) ≡ₚ s.(sd).(d_id) :: sending_ids (l1 ++ l2).
Proof. unfold sending_ids. by rewrite <- Permutation_middle. Qed.

Lemma workers_ok_record h l1 s l2 tk lo a h' :
  workers_ok (mkWorkers h (l1 ++ s :: l2) tk lo) → record_attempt BACKOFF s.(sd) a h = (Ok tt, h') →
  workers_ok (mkWorkers h' (l1 ++ l2) tk lo).
Proof.
  intros (Hr & Hn & Hf & Ht) (status & next & Hst & -> & _)%record_spec. simpl in *.
  apply Forall_around in Hf as [[_ Hs] Hf]. apply sending_drop in Hn as [Hni Hn].
  split_and!; simpl; [|done| |intros i Hi; apply Ht; rewrite sending_middle; by right].
  - intros i d. rewrite lookup_alter. case_decide as Hi; [|by apply Hr].
    subst i. destruct (deliveries h !! d_id (sd s)) as [row|] eqn:Erow; simpl; [|done]. intros [= <-]. destruct (Hs _ eq_refl) as (Hp & Ha & _).
    destruct (Hr _ _ Erow) as (Hid & Hb & Hbp). specialize (Hbp Hp). unfold row_ok. simpl. split_and!; [done|lia|lia|].
    intros Hst'. specialize (Hst Hst'). lia.
  - rewrite Forall_forall in *. intros s0 Hs0. apply (in_flight_ext h); [done| |by apply Hf]. intros d. simpl.
    rewrite lookup_alter, decide_False; [done|]. intros Heq. apply Hni. apply list_elem_of_fmap. exists s0. by split.
Qed.

Lemma workers_ok_step s s' : workers_ok s → workers_step s s' → workers_ok s'.
Proof.
  intros Hok Hst. inversion Hst as [h now l tk lo Hle Hl|h l tk lo found h' Hc|h l1 x l2 tk lo a h' Hrec|h l1 x l2 tk lo
    |h l tk lo id wid eid Hnone Hni|h l tk lo id|h l tk lo before|h h' l tk lo Hd Hnow]; subst.
  - destruct Hok as (Hr & Hn & Hf & Ht). split_and!; simpl in *; [done|done| |done]. rewrite Forall_forall in *. intros s Hs.
    split; [by apply Hl|]. by apply (Hf s Hs).
  - by apply workers_ok_claim.
  - by eapply workers_ok_record.
  - destruct Hok as (Hr & Hn & Hf & Ht). simpl in *. apply sending_drop in Hn as [_ Hn].
    apply Forall_around in Hf as [_ Hf]. split_and!; simpl; [done..|]. intros i Hi. apply Ht. rewrite sending_middle. by right.
  - destruct Hok as (Hr & Hn & Hf & Ht). split_and!; simpl in *; [|done| |done].
    + apply map_Forall_insert_2; [|done]. unfold row_ok, tries. simpl. split_and!; [done|lia|lia|lia].
    + rewrite Forall_forall in *. intros s Hs. apply (in_flight_ext h); [done| |by apply Hf]. intros d. simpl.
      rewrite lookup_insert_ne; [done|]. intros ->. apply Hni, Ht. apply list_elem_of_fmap. by exists s.
  - destruct Hok as (Hr & Hn & Hf & Ht). split_and!; simpl in *; [intros i d [? _]%map_lookup_filter_Some; by apply Hr|done| |done].
    rewrite Forall_forall in *. intros s Hs. apply (in_flight_ext h); [done| |by apply Hf]. intros d. simpl.
    by intros [? _]%map_lookup_filter_Some.
  - destruct Hok as (Hr & Hn & Hf & Ht). split_and!; simpl in *; [intros i d [? _]%map_lookup_filter_Some; by apply Hr|done| |done].
    rewrite Forall_forall in *. intros s Hs. apply (in_flight_ext h); [done| |by apply Hf]. intros d. simpl.
    by intros [? _]%map_lookup_filter_Some.
  - destruct Hok as (Hr & Hn & Hf & Ht). split_and!; simpl in *; [by rewrite Hd|done| |done].
    rewrite Forall_forall in *. intros s Hs. apply (in_flight_ext h); [done| |by apply Hf]. intros d. by rewrite Hd.
Qed.

Lemma times_of_app id l1 l2 : occurs id (l1 ++ l2) = occurs id l1 + occurs id l2.
Proof. unfold occurs. rewrite filter_app, length_app. lia. Qed.

Lemma times_of_cons id i l : occurs id (i :: l) = (if decide (i = id) then 1 else 0) + occurs id l.
Proof. unfold occurs. rewrite filter_cons. case_decide; simpl; lia. Qed.

Lemma times_of_notin id l : id ∉ l → occurs id l = 0.
Proof.
  intros Hl. unfold occurs. rewrite (filter_none (λ i, i = id)); [done|]. rewrite Forall_forall. by intros i Hi ->.
Qed.

Lemma times_of_NoDup id l : NoDup l → 0 ≤ occurs id l ≤ 1.
Proof.
  intros Hn. split; [unfold occurs; lia|]. induction Hn as [|i l Hi Hn IH]; [done|]. rewrite times_of_cons.
  case_decide; [|lia]. subst. rewrite times_of_notin by done. lia.
Qed.

#[local] Instance times_of_perm id : Proper ((≡ₚ) ==> eq) (occurs id).
Proof. intros l l' H. unfold occurs. by rewrite H. Qed.

Lemma times_of_middle id l1 s l2 :
  occurs id (sending_ids (l1 ++ s :: l2)) = (if decide (s.(sd).(d_id) = id) then 1 else 0) + occurs id (sending_ids (l1 ++ l2)).
Proof. by rewrite sending_middle, times_of_cons. Qed.

(** A row that goes leaves room for what was taken of it. *)
Lemma counted_gone s id d :
  workers_ok s → counted id s → s.(wk_hooks).(deliveries) !! id = Some d →
  occurs id s.(wk_taken) ≤ tries + 1 + occurs id s.(wk_lost).
Proof.
  intros (Hr & Hn & Hf & _) Hc Hd. unfold counted in Hc. rewrite Hd in Hc. destruct (Hr id d Hd) as (_ & Hb & Hp).
  destruct (decide (id ∈ sending_ids s.(wk_sending))) as [(x & -> & Hx)%list_elem_of_fmap|Hni].
  - rewrite Forall_forall in Hf. destruct (Hf x Hx) as [_ Hx']. destruct (Hx' d Hd) as (Hst & _).
    specialize (Hp Hst). pose proof (times_of_NoDup (d_id (sd x)) _ Hn). lia.
  - rewrite (times_of_notin id (sending_ids _)) in Hc by done. lia.
Qed.

Lemma counted_claim h l tk lo found h' id :
  workers_ok (mkWorkers h l tk lo) → claim_webhook_deliveries LEASE_SECONDS BATCH h = (found, h') →
  counted id (mkWorkers h l tk lo) →
  counted id (mkWorkers h' (l ++ ((λ d, mkSending d h.(hk_now)) <$> found)) (tk ++ (d_id <$> found)) lo).
Proof.
  intros Hok Hcl Hc. destruct (claim_due_rows _ _ _ (proj1 Hok) Hcl) as (_ & _ & Hin & Hout).
  unfold counted in *. cbn [wk_hooks wk_sending wk_taken wk_lost] in *. rewrite claim_sending_ids, !times_of_app.
  destruct (decide (id ∈ (d_id <$> found))) as [(x & -> & Hx)%list_elem_of_fmap|Hni].
  - destruct (Hin x Hx) as (-> & row & Hrow & _ & ->). rewrite Hrow in Hc. simpl in *. lia.
  - rewrite Hout by done. rewrite !(times_of_notin _ (d_id <$> found)) by done. destruct (deliveries h !! id); lia.
Qed.

Lemma counted_record h l1 s l2 tk lo a h' id :
  workers_ok (mkWorkers h (l1 ++ s :: l2) tk lo) → record_attempt BACKOFF s.(sd) a h = (Ok tt, h') →
  counted id (mkWorkers h (l1 ++ s :: l2) tk lo) → counted id (mkWorkers h' (l1 ++ l2) tk lo).
Proof.
  intros (_ & _ & Hf & _) (status & next & _ & -> & _)%record_spec Hc. apply Forall_around in Hf as [[_ Hs] _].
  unfold counted in *. cbn [wk_hooks wk_sending wk_taken wk_lost] in *. rewrite times_of_middle in Hc. simpl.
  rewrite lookup_alter. case_decide as Hi.
  - subst id. destruct (deliveries h !! _) as [row|] eqn:Er; simpl; [|exact Hc].
    destruct (Hs row eq_refl) as (_ & Ha & _). lia.
  - destruct (deliveries h !! id); lia.
Qed.

Lemma counted_step s s' id : workers_ok s → counted id s → workers_step s s' → counted id s'.
Proof.
  intros Hok Hc Hst. inversion Hst as [h now l tk lo Hle Hl|h l tk lo found h' Hcl|h l1 x l2 tk lo a h' Hrec|h l1 x l2 tk lo
    |h l tk lo i wid eid Hnone Hni|h l tk lo i|h l tk lo before|h h' l tk lo Hd Hnow]; subst.
  - exact Hc.
  - by apply counted_claim.
  - by eapply counted_record.
  - unfold counted in *. cbn [wk_hooks wk_sending wk_taken wk_lost] in *. rewrite times_of_middle in Hc.
    rewrite times_of_cons. destruct (deliveries h !! id); [|case_decide]; lia.
  - unfold counted in *. simpl in *. rewrite lookup_insert. case_decide as Hi; [|exact Hc]. subst i. simpl.
    rewrite times_of_notin by done. unfold occurs. lia.
  - unfold counted. simpl. rewrite map_lookup_filter. destruct (deliveries h !! id) as [d|] eqn:Ed; simpl; [case_guard; simpl|].
    + unfold counted in Hc. simpl in Hc. by rewrite Ed in Hc.
    + by eapply (counted_gone (mkWorkers h l tk lo)).
    + unfold counted in Hc. simpl in Hc. by rewrite Ed in Hc.
  - unfold counted. simpl. rewrite map_lookup_filter. destruct (deliveries h !! id) as [d|] eqn:Ed; simpl; [case_guard; simpl|].
    + unfold counted in Hc. simpl in Hc. by rewrite Ed in Hc.
    + by eapply (counted_gone (mkWorkers h l tk lo)).
    + unfold counted in Hc. simpl in Hc. by rewrite Ed in Hc.
  - unfold counted in *. simpl in *. by rewrite Hd.
Qed.

Lemma workers_reachable_ok s : reachable workers_init workers_step s → workers_ok s ∧ ∀ id, counted id s.
Proof.
  apply (reachable_invariant _ _ (λ s, workers_ok s ∧ ∀ id, counted id s)).
  - intros s0 (Hd & Hs & Ht & Hl). unfold workers_ok, counted. rewrite Hd, Hs, Ht, Hl.
    split; [split_and!; [apply map_Forall_empty|apply NoDup_nil_2|constructor|set_solver]|].
    intros id. rewrite lookup_empty. unfold occurs, tries. simpl. lia.
  - intros s1 s2 [Hok Hc] Hst. split; [by eapply workers_ok_step|]. intros id. by eapply counted_step.
Qed.

(** C39: no two workers send the same delivery at a time, and none is sent for
    ever.  However workers claim, send, record, and are stopped or end in an
    error before they record, while webhooks and deliveries come and go: as
    long as each is done within the lease of what it claimed, the deliveries
    being sent are all different; and a delivery is taken to be sent at most
    once, once more per BACKOFF step, and once more for every time a worker
    that had it left without a record of it. *)
Theorem deliveries_exclusive s :
  reachable workers_init workers_step s →
  NoDup (sending_ids s.(wk_sending)) ∧
  ∀ id, occurs id s.(wk_taken) ≤ 1 + Z.of_nat (length BACKOFF) + occurs id s.(wk_lost).
Proof.
  intros [Hok Hc]%workers_reachable_ok. split; [apply Hok|]. intros id.
  assert (occurs id s.(wk_taken) ≤ tries + 1 + occurs id s.(wk_lost)) as H; [|unfold tries in H; lia].
  destruct (s.(wk_hooks).(deliveries) !! id) as [d|] eqn:Ed; [by eapply counted_gone|].
  specialize (Hc id). unfold counted in Hc. by rewrite Ed in Hc.
Qed.

(** a delivery that is over stays so: whatever step follows, the row of
    one that was delivered or failed is as it was, unless it is deleted. *)
Theorem delivery_final s s' i d :
  reachable workers_init workers_step s → workers_step s s' → s.(wk_hooks).(deliveries) !! i = Some d → d.(d_status) ≠ DPending →
  s'.(wk_hooks).(deliveries) !! i = Some d ∨ s'.(wk_hooks).(deliveries) !! i = None.
Proof.
  intros [(Hr & Hn & Hf & _) _]%workers_reachable_ok Hst Hi Hd.
  inversion Hst as [h now l tk lo Hle Hl|h l tk lo found h' Hc|h l1 x l2 tk lo a h' Hrec|h l1 x l2 tk lo
    |h l tk lo id wid eid Hnone Hni|h l tk lo id|h l tk lo before|h h' l tk lo He Hnow]; subst; simpl in *.
  - by left.
  - left. destruct (claim_due_rows _ _ _ Hr Hc) as (_ & _ & Hin & Hout). rewrite Hout; [done|].
    intros (x & -> & Hx)%list_elem_of_fmap. destruct (Hin x Hx) as (_ & row & Hrow & [Hp _] & _). congruence.
  - left. apply record_spec in Hrec as (status & next & _ & -> & _). simpl. rewrite lookup_alter, decide_False; [done|].
    intros Heq. subst i. apply Forall_around in Hf as [[_ Hx] _]. destruct (Hx d Hi) as [Hp _]. done.
  - by left.
  - left. rewrite lookup_insert_ne; [done|]. congruence.
  - rewrite map_lookup_filter, Hi. simpl. case_guard; [by left|by right].
  - rewrite map_lookup_filter, Hi. simpl. case_guard; [by left|by right].
  - left. by rewrite He.
Qed.
End workers.

(** what an attempt leaves.  It is recorded on the delivery's row and on
    no other: delivered; or due again after its BACKOFF step while there is
    one; or failed, which it is at once when the webhook was disabled or
    removed. *)
Theorem attempt_recorded BACKOFF d a h row :
  h.(deliveries) !! d.(d_id) = Some row → 0 ≤ d.(d_attempts) ≤ tries BACKOFF →
  ∃ h' row', record_attempt BACKOFF d a h = (Ok tt, h') ∧ h'.(deliveries) = <[d.(d_id) := row']> h.(deliveries) ∧
    row'.(d_attempts) = d.(d_attempts) + 1 ∧ row'.(d_last_error) = a.2 ∧
    match a.1.1 with
    | WDelivered => row'.(d_status) = DDelivered ∧ row'.(d_delivered_at) = Some h.(hk_now)
    | WUndelivered =>
        match BACKOFF !! Z.to_nat d.(d_attempts) with
        | Some wait => row'.(d_status) = DPending ∧ row'.(d_next_attempt_at) = h.(hk_now) + sec wait
        | None => row'.(d_status) = DFailed ∧ d.(d_attempts) = tries BACKOFF
        end
    | WGone => row'.(d_status) = DFailed
    end.
Proof.
  intros Hrow Ha. unfold tries in Ha. unfold record_attempt. set (status := match a.1.1 with WDelivered => _ | _ => _ end). run.
  replace (d_attempts d + 1 - 1) with (d_attempts d) by lia.
  assert (py_index BACKOFF (d_attempts d) = BACKOFF !! Z.to_nat (d_attempts d)) as Hpy.
  { unfold py_index. by rewrite (proj2 (Z.ltb_ge _ _)) by lia. }
  assert (∀ wait, ∃ h' row', (modify (finish_webhook_delivery status (d_attempts d + 1) (hk_now h + wait) a.2 a.1.2 (d_id d)) : M Hooks unit) h
    = (Ok tt, h') ∧ deliveries h' = <[d_id d := row']> (deliveries h) ∧ d_attempts row' = d_attempts d + 1 ∧ d_last_error row' = a.2 ∧
    d_status row' = status ∧ d_next_attempt_at row' = hk_now h + wait ∧
    d_delivered_at row' = if decide (status = DDelivered) then Some (hk_now h) else None) as Hfin.
  { intros wait. exists (finish_webhook_delivery status (d_attempts d + 1) (hk_now h + wait) a.2 a.1.2 (d_id d) h),
      (finished status (d_attempts d + 1) (hk_now h + wait) a.2 a.1.2 (hk_now h) row).
    split; [reflexivity|]. split; [|by split_and!]. simpl. apply map_eq. intros i.
    rewrite lookup_alter, lookup_insert. case_decide as Hi; [|done]. subst i. by rewrite Hrow. }
  unfold status in *. clear status. destruct a.1.1.
  - rewrite decide_False by done. destruct (Hfin 0) as (h' & row' & H1 & H2 & H3 & H4 & H5 & H6 & H7). exists h', row'.
    rewrite decide_True in H7 by done. by split_and!.
  - destruct (Z.leb_spec (d_attempts d + 1) (Z.of_nat (length BACKOFF))).
    + rewrite decide_True by done. rewrite Hpy. destruct (lookup_lt_is_Some_2 BACKOFF (Z.to_nat (d_attempts d))) as [wait Hw]; [lia|].
      rewrite Hw. simpl. destruct (Hfin (sec wait)) as (h' & row' & H1 & H2 & H3 & H4 & H5 & H6 & H7). exists h', row'. by split_and!.
    + rewrite decide_False by done. rewrite lookup_ge_None_2 by lia.
      destruct (Hfin 0) as (h' & row' & H1 & H2 & H3 & H4 & H5 & H6 & H7). exists h', row'. unfold tries. split_and!; try done. lia.
  - rewrite decide_False by done. destruct (Hfin 0) as (h' & row' & H1 & H2 & H3 & H4 & H5 & H6 & H7). exists h', row'. by split_and!.
Qed.

(** what a delivery is sent to.  An attempt that got an answer was for a
    webhook that is enabled, whose URL is http(s) and whose host resolved, just
    before, to public addresses only, unless private ones are allowed; and it
    counts as delivered exactly when the answer is a 2xx. *)
Theorem attempt_checked urlparse getaddrinfo is_global ALLOW_PRIVATE hmac decrypt dumps seconds post other d h a h' code :
  attempt urlparse getaddrinfo is_global ALLOW_PRIVATE hmac decrypt dumps seconds post other d h = (Ok a, h') → a.1.2 = Some code →
  ∃ w scheme host port, h.(webhooks) !! d.(d_webhook_id) = Some w ∧ w.(wh_enabled) = true ∧
    urlparse w.(wh_url) = Ok (scheme, Some host, port) ∧ scheme ∈ ["http"; "https"] ∧
    (ALLOW_PRIVATE = false → ∃ p found, getaddrinfo host p = Ok found ∧ Forall (λ ip, is_global ip = true) found) ∧
    a.1.1 = if (200 <=? code) && (code <? 300) then WDelivered else WUndelivered.
Proof.
  unfold attempt, get_webhook, get_event. run. destruct (webhooks h !! d_webhook_id d) as [w|]; [|by intros [= <- <-]].
  destruct (events h !! d_event_id d) as [e|]; [|by intros [= <- <-]]. destruct (wh_enabled w) eqn:Een; simpl; [|by intros [= <- <-]].
  destruct (check_url _ _ _ _ _) as [[]|x] eqn:Ec; [|destruct x; by intros [= <- <-]].
  destruct (decrypt _) as [secret|x]; [|destruct x; by intros [= <- <-]]. unfold Prelude.get. cbv [mbind M_bind modify mret M_ret].
  destruct (post _ _ _ _ _) as [c text|text]; [|by intros [= <- <-]].
  assert (∃ scheme host port, urlparse (wh_url w) = Ok (scheme, Some host, port) ∧ scheme ∈ ["http"; "https"] ∧
    (ALLOW_PRIVATE = false → ∃ p found, getaddrinfo host p = Ok found ∧ Forall (λ ip, is_global ip = true) found)) as (scheme & host & port & Hu & Hs & Hg).
  { unfold check_url in Ec. destruct (urlparse _) as [[[scheme hostname] port]|]; [|done].
    destruct hostname as [host|]; [|done]. destruct (str_or_none (Some host)) as [host'|] eqn:Eh; [|done].
    assert (host' = host) as -> by (destruct host; simpl in Eh; congruence).
    destruct (bool_decide (scheme ∈ _)) eqn:Es; simpl in Ec; [|done]. apply bool_decide_eq_true in Es.
    exists scheme, host, port. split_and!; [done..|]. intros ->. destruct (getaddrinfo host _) as [found|] eqn:Eg; [|done].
    eexists _, found. split; [exact Eg|]. clear Eg. induction found as [|ip l IH]; simpl in Ec; [constructor|].
    destruct (is_global ip) eqn:Ei; [|done]. constructor; [done|by apply IH]. }
  destruct ((200 <=? c) && (c <? 300)) eqn:Eok; intros [= <- <-]; simpl; intros [= <-];
    exists w, scheme, host, port; rewrite Eok; by split_and!.
Qed.

(** ** Concrete runs *)

Definition demo_delivery (id : string) (seq : Z) : Delivery := mkDelivery id seq "h1" "e1" DPending 0 0 None None 0 None.

Definition demo_hooks : Hooks :=
  mkHooks {["h1" := mkWebhook "h1" "w1" "https://example.com" "sealed" [] None true "u1" 0]}
    {["d1" := demo_delivery "d1" 1]} {["e1" := mkEvent "e1" 1 "w1" None "sandbox.state" JNull 0]} 2 0.

Definition demo_backoff : list Z := [60; 300].

Lemma demo_sent_reachable :
  reachable workers_init (workers_step demo_backoff)
    (mkWorkers (claim_webhook_deliveries LEASE_SECONDS BATCH (create_webhook_delivery "d1" "h1" "e1" (mkHooks ∅ ∅ ∅ 1 0))).2
       [mkSending (lease (sec 120) (demo_delivery "d1" 1)) 0] ["d1"] []).
Proof.
  eapply reach_step; [eapply reach_step; [by apply (reach_init _ _ (mkWorkers (mkHooks ∅ ∅ ∅ 1 0) [] [] []))|]|].
  - apply (wk_create _ _ _ [] [] "d1" "h1" "e1"); [reflexivity|apply not_elem_of_nil].
  - apply (wk_claim _ (create_webhook_delivery "d1" "h1" "e1" (mkHooks ∅ ∅ ∅ 1 0)) [] [] [] [lease (sec 120) (demo_delivery "d1" 1)]).
    vm_compute. reflexivity.
Qed.

Lemma deliveries_exclusive_witness :
  NoDup (sending_ids [mkSending (lease (sec 120) (demo_delivery "d1" 1)) 0]) ∧ ∀ id, occurs id ["d1"] ≤ 1 + 2 + occurs id [].
Proof. exact (deliveries_exclusive demo_backoff _ demo_sent_reachable). Defined.

(** The same delivery, delivered. *)
Definition demo_done : Workers :=
  mkWorkers (record_attempt demo_backoff (lease (sec 120) (demo_delivery "d1" 1)) (WDelivered, Some 200, None)
    (claim_webhook_deliveries LEASE_SECONDS BATCH (create_webhook_delivery "d1" "h1" "e1" (mkHooks ∅ ∅ ∅ 1 0))).2).2 [] ["d1"] [].

Lemma delivery_final_witness :
  ∃ d, d.(d_status) = DDelivered ∧
    ((at_time 7 demo_done.(wk_hooks)).(deliveries) !! "d1" = Some d ∨ (at_time 7 demo_done.(wk_hooks)).(deliveries) !! "d1" = None).
Proof.
  eexists (finished DDelivered 1 0 None (Some 200) 0 (lease (sec 120) (demo_delivery "d1" 1))). split; [reflexivity|].
  apply (delivery_final demo_backoff demo_done (mkWorkers (at_time 7 demo_done.(wk_hooks)) [] ["d1"] [])).
  - eapply reach_step; [exact demo_sent_reachable|].
    apply (wk_record _ _ [] (mkSending (lease (sec 120) (demo_delivery "d1" 1)) 0) [] ["d1"] [] (WDelivered, Some 200, None)). reflexivity.
  - apply (wk_tick _ demo_done.(wk_hooks) 7 [] ["d1"] []); [vm_compute; discriminate|constructor].
  - vm_compute. reflexivity.
  - discriminate.
Defined.

Lemma attempt_recorded_witness :
  ∃ h' row', record_attempt demo_backoff (demo_delivery "d1" 1) (WUndelivered, Some 500, Some "HTTP 500: ") demo_hooks = (Ok tt, h') ∧
    row'.(d_status) = DPending ∧ row'.(d_next_attempt_at) = sec 60.
Proof.
  destruct (attempt_recorded demo_backoff (demo_delivery "d1" 1) (WUndelivered, Some 500, Some "HTTP 500: ") demo_hooks _ eq_refl)
    as (h' & row' & H1 & _ & _ & _ & H2 & H3).
  - split; vm_compute; discriminate.
  - exists h', row'. split; [exact H1|split; [exact H2|exact H3]].
Defined.

Definition demo_attempt (decrypt : string → result exn string) (d : Delivery) : M Hooks attempted :=
  attempt (λ _, Ok ("https", Some "example.com", None)) (λ _ _, Ok ["93.184.216.34"]) (λ _, true) false
    (λ _ _, "mac") decrypt (λ _, "{}") pretty (λ _ _ _ _ _, Answered 204 "") id d.

Lemma attempt_checked_witness :
  ∃ h', demo_attempt (λ s, Ok s) (demo_delivery "d1" 1) demo_hooks = (Ok (WDelivered, Some 204, None), h') ∧
    WDelivered = if (200 <=? 204) && (204 <? 300) then WDelivered else WUndelivered.
Proof.
  eexists. split; [vm_compute; reflexivity|].
  destruct (attempt_checked (λ _, Ok ("https", Some "example.com", None)) (λ _ _, Ok ["93.184.216.34"]) (λ _, true) false
    (λ _ _, "mac") (λ s, Ok s) (λ _, "{}") pretty (λ _ _ _ _ _, Answered 204 "") id (demo_delivery "d1" 1) demo_hooks
    (WDelivered, Some 204, None) demo_hooks 204 eq_refl eq_refl) as (_ & _ & _ & _ & _ & _ & _ & _ & _ & H).
  exact H.
Defined.

(** ** Where the code leaves its contract *)

(** A batch may take longer than the lease of its rows: BATCH requests of
    TIMEOUT seconds each.  A row whose turn has not come by then is claimed,
    and sent, a second time. *)
Example lease_overrun :
  LEASE_SECONDS < Z.of_nat BATCH * TIMEOUT ∧
  let '(first, h) := claim_webhook_deliveries LEASE_SECONDS BATCH demo_hooks in
  let '(second, _) := claim_webhook_deliveries LEASE_SECONDS BATCH (at_time (sec 121) h) in
  d_id <$> first = ["d1"] ∧ d_id <$> second = ["d1"].
Proof. by vm_compute. Qed.

(** A secret that no longer decrypts stops the batch: the error is neither
    HTTPError nor ValueError, the attempt is not recorded, and the deliveries
    after it wait for their lease to end. *)
Example undecryptable_stops :
  let h := set_deliveries (<["d2" := demo_delivery "d2" 2]> demo_hooks.(deliveries)) demo_hooks in
  let '(found, h1) := claim_webhook_deliveries LEASE_SECONDS BATCH h in
  let '(r, h2) := for_ found (λ d, demo_attempt (λ _, Err InvalidToken) d ≫= record_attempt demo_backoff d) h1 in
  r = Err InvalidToken ∧ d_attempts <$> (h2.(deliveries) !! "d1") = Some 0 ∧ d_attempts <$> (h2.(deliveries) !! "d2") = Some 0 ∧
  d_next_attempt_at <$> (h2.(deliveries) !! "d2") = Some (sec 120).
Proof. by vm_compute. Qed.
