(* ===== verification/Workspaces.v ===== *)
(** Workspaces, their members and invitations (src/apps/server/workspaces_api.py
    with the statements of src/db/generated/query.py it runs): who may change
    what of whom, the owner every workspace keeps, invitations that work once. *)

From S2P Require Import Prelude Tables Store Labels Quotas Limits Auth Kms Registry.

(** ** Rows *)

(** Source: src/db/generated/models.py:463-472 [Workspace]. *)
Record Space := mkSpace {
  w_name : string;
  w_slug : string;
  w_created_by : string;
  w_created_at : time;
  w_updated_at : time;
  w_default_idle_timeout_minutes : option Z;
  w_default_max_lifetime_minutes : option Z
}.

(** Source: src/db/generated/models.py:488-494 [WorkspaceMember]. *)
Record WorkspaceMember := mkWorkspaceMember {
  wm_role : role;
  wm_status : member_status;
  wm_joined_at : option time;
  wm_created_at : time
}.

(** Source: src/db/generated/models.py:475-485 [WorkspaceInvitation]. *)
Record Invitation := mkInvitation {
  wi_workspace_id : string;
  wi_email : string;
  wi_role : role;
  wi_invited_by : string;
  wi_token_hash : string;
  wi_expires_at : time;
  wi_accepted_at : option time;
  wi_revoked_at : option time;
  wi_created_at : time
}.

(** The tables of these routes; [ws_emails] is the [users] table, by id.  The
    quotas and sandboxes are those of [Store]. *)
Record Spaces := mkSpaces {
  ws_emails : gmap string string;
  ws_spaces : gmap string Space;
  ws_members : gmap (string * string) WorkspaceMember;
  ws_invitations : gmap string Invitation;
  ws_db : Db;
  ws_now : time
}.

Definition put_spaces (v : gmap string Space) (s : Spaces) : Spaces :=
  mkSpaces s.(ws_emails) v s.(ws_members) s.(ws_invitations) s.(ws_db) s.(ws_now).
Definition put_members (v : gmap (string * string) WorkspaceMember) (s : Spaces) : Spaces :=
  mkSpaces s.(ws_emails) s.(ws_spaces) v s.(ws_invitations) s.(ws_db) s.(ws_now).
Definition put_invitations (v : gmap string Invitation) (s : Spaces) : Spaces :=
  mkSpaces s.(ws_emails) s.(ws_spaces) s.(ws_members) v s.(ws_db) s.(ws_now).
Definition put_ws_db (v : Db) (s : Spaces) : Spaces :=
  mkSpaces s.(ws_emails) s.(ws_spaces) s.(ws_members) s.(ws_invitations) v s.(ws_now).
Definition put_now (v : time) (s : Spaces) : Spaces :=
  mkSpaces s.(ws_emails) s.(ws_spaces) s.(ws_members) s.(ws_invitations) s.(ws_db) v.

(** ** Statements *)

(** Source: src/db/generated/query.py:1136-1138 [GET_WORKSPACE]. *)
Definition get_workspace (id : string) (s : Spaces) : option Space := s.(ws_spaces) !! id.

(** Source: src/db/generated/query.py:1154-1157 [GET_WORKSPACE_MEMBER]. *)
Definition get_member (workspace_id user_id : string) (s : Spaces) : option WorkspaceMember :=
  s.(ws_members) !! (workspace_id, user_id).

Definition active_member (m : WorkspaceMember) : bool := bool_decide (m.(wm_status) = MActive).
Definition active_owner (m : WorkspaceMember) : bool := bool_decide (m.(wm_role) = ROwner) && active_member m.

(** The users of a workspace whose row a condition selects. *)
Definition members_where (p : WorkspaceMember → bool) (workspace_id : string) (s : Spaces) : list (string * WorkspaceMember) :=
  omap (λ x, if bool_decide (x.1.1 = workspace_id) && p x.2 then Some (x.1.2, x.2) else None) (map_to_list s.(ws_members)).

(** Source: src/db/generated/query.py:254-256 [COUNT_WORKSPACE_OWNERS]. *)
Definition count_workspace_owners (workspace_id : string) (s : Spaces) : Z :=
  Z.of_nat (length (members_where active_owner workspace_id s)).

(** Source: src/db/generated/query.py:1783-1789 [LIST_WORKSPACE_MEMBERS].
    The join with [users] drops no row: [user_id] references them. *)
Definition list_workspace_members (workspace_id : string) (s : Spaces) : list (string * WorkspaceMember) :=
  order_by (λ m, (m.2.(wm_created_at), 0)) (members_where (λ _, true) workspace_id s).

(** Source: src/db/generated/query.py:1811-1817 [LIST_WORKSPACES_BY_USER]. *)
Definition list_workspaces_by_user (user_id : string) (s : Spaces) : list (string * Space * role) :=
  order_by (λ w, (w.1.2.(w_created_at), 0))
    (omap (λ x, m ← s.(ws_members) !! (x.1, user_id);
                if active_member m then Some (x.1, x.2, m.(wm_role)) else None) (map_to_list s.(ws_spaces))).

(** Source: src/db/generated/query.py:653-657 [CREATE_WORKSPACE].  The
    slug is unique. *)
Definition create_workspace_row (id name slug created_by : string) : M Spaces Space := λ s,
  if bool_decide (s.(ws_spaces) !! id = None)
     && bool_decide (filter (λ w : Space, w.(w_slug) = slug) (rows s.(ws_spaces)) = []) then
    let w := mkSpace name slug created_by s.(ws_now) s.(ws_now) None None in
    (Ok w, put_spaces (<[id := w]> s.(ws_spaces)) s)
  else (Err IntegrityError, s).

(** Source: src/db/generated/query.py:55-59 [ADD_WORKSPACE_MEMBER]. *)
Definition add_workspace_member (workspace_id user_id : string) (r : role) : M Spaces unit := λ s,
  match s.(ws_members) !! (workspace_id, user_id) with
  | Some _ => (Err IntegrityError, s)
  | None =>
      (Ok tt, put_members (<[(workspace_id, user_id) := mkWorkspaceMember r MActive (Some s.(ws_now)) s.(ws_now)]>
                s.(ws_members)) s)
  end.

(** Source: src/db/generated/query.py:1955-1958 [REMOVE_WORKSPACE_MEMBER]. *)
Definition remove_workspace_member (workspace_id user_id : string) : M Spaces unit :=
  modify (λ s, put_members (delete (workspace_id, user_id) s.(ws_members)) s).

(** Source: src/db/generated/query.py:2501-2506 [UPDATE_WORKSPACE_MEMBER_ROLE]. *)
Definition update_workspace_member_role (workspace_id user_id : string) (r : role) : M Spaces unit :=
  modify (λ s, put_members (alter (λ m, mkWorkspaceMember r m.(wm_status) m.(wm_joined_at) m.(wm_created_at))
                 (workspace_id, user_id) s.(ws_members)) s).

(** Source: src/db/generated/query.py:2493-2498 [UPDATE_WORKSPACE]. *)
Definition update_workspace (name slug id : string) : M Spaces (option Space) := λ s,
  let v := alter (λ w, mkSpace name slug w.(w_created_by) w.(w_created_at) s.(ws_now)
             w.(w_default_idle_timeout_minutes) w.(w_default_max_lifetime_minutes)) id s.(ws_spaces) in
  (Ok (v !! id), put_spaces v s).

(** Source: src/db/generated/query.py:2272-2277 [SET_WORKSPACE_LIFECYCLE]. *)
Definition set_workspace_lifecycle (idle lifetime : option Z) (id : string) : M Spaces (option Space) := λ s,
  let v := alter (λ w, mkSpace w.(w_name) w.(w_slug) w.(w_created_by) w.(w_created_at) s.(ws_now) idle lifetime) id
             s.(ws_spaces) in
  (Ok (v !! id), put_spaces v s).

(** Source: src/db/generated/query.py:238-240 [COUNT_RUNNING_SANDBOXES_BY_WORKSPACE]. *)
Definition count_running_sandboxes_by_workspace (workspace_id : string) (d : Db) : Z :=
  Z.of_nat (length (filter (λ r, r.(sb_workspace_id) = workspace_id ∧ counted r.(sb_status) = true) (rows d.(sandboxes)))).

(** What a deleted workspace takes with it of [Store]'s tables, by the foreign
    keys that say ON DELETE CASCADE. *)
Definition drop_workspace (workspace_id : string) (d : Db) : Db :=
  let gone := filter (λ r, r.(sb_workspace_id) = workspace_id) (rows d.(sandboxes)) in
  let d := foldr (λ r, delete_sandbox r.(sb_id)) d gone in
  mkDb d.(sandboxes) d.(jobs) d.(snapshots) d.(sandbox_labels) d.(usage_labels)
    (delete workspace_id d.(workspace_quotas)) (filter (λ p, p.1.1.1 ≠ workspace_id) d.(label_quotas))
    d.(sandbox_permissions) d.(pool_sandboxes) (filter (λ p, p.2.(sv_workspace_id) ≠ workspace_id) d.(servers))
    (delete workspace_id d.(workspaces)) (delete workspace_id d.(profile_bytes)) d.(next_seq).

(** Source: src/db/generated/query.py:804-806 [DELETE_WORKSPACE].  With
    the rows that reference the workspace (ON DELETE CASCADE). *)
Definition delete_workspace_row (id : string) : M Spaces unit :=
  modify (λ s, mkSpaces s.(ws_emails) (delete id s.(ws_spaces)) (filter (λ x, x.1.1 ≠ id) s.(ws_members))
                 (filter (λ x, x.2.(wi_workspace_id) ≠ id) s.(ws_invitations)) (drop_workspace id s.(ws_db)) s.(ws_now)).

(** Source: src/db/generated/query.py:1111-1113 [GET_USER_BY_EMAIL]. *)
Definition get_user_by_email (email : string) (s : Spaces) : option string :=
  fst <$> head (filter (λ x, x.2 = email) (map_to_list s.(ws_emails))).

(** An invitation that is neither accepted, nor revoked, nor expired. *)
Definition invitation_open (now : time) (i : Invitation) : bool :=
  is_none i.(wi_accepted_at) && is_none i.(wi_revoked_at) && bool_decide (now < i.(wi_expires_at)).

(** Source: src/db/generated/query.py:1146-1151 [GET_WORKSPACE_INVITATION_BY_TOKEN]. *)
Definition get_workspace_invitation_by_token (token_hash : string) (s : Spaces) : option (string * Invitation) :=
  head (filter (λ x, x.2.(wi_token_hash) = token_hash ∧ invitation_open s.(ws_now) x.2 = true)
          (map_to_list s.(ws_invitations))).

(** Source: src/db/generated/query.py:1776-1780 [LIST_WORKSPACE_INVITATIONS]. *)
Definition list_workspace_invitations (workspace_id : string) (s : Spaces) : list (string * Invitation) :=
  reverse (order_by (λ x, (x.2.(wi_created_at), 0))
    (filter (λ x, x.2.(wi_workspace_id) = workspace_id ∧ invitation_open s.(ws_now) x.2 = true)
       (map_to_list s.(ws_invitations)))).

(** Source: src/db/generated/query.py:660-666 [CREATE_WORKSPACE_INVITATION].
    Ids and token hashes are unique. *)
Definition create_workspace_invitation (id : string) (i : Invitation) : M Spaces unit := λ s,
  if bool_decide (s.(ws_invitations) !! id = None)
     && bool_decide (filter (λ j : Invitation, j.(wi_token_hash) = i.(wi_token_hash)) (rows s.(ws_invitations)) = [])
  then (Ok tt, put_invitations (<[id := i]> s.(ws_invitations)) s)
  else (Err IntegrityError, s).

(** Source: src/db/generated/query.py:2027-2031 [REVOKE_WORKSPACE_INVITATION].
    Whether a row was changed. *)
Definition revoke_workspace_invitation (id workspace_id : string) : M Spaces bool := λ s,
  match s.(ws_invitations) !! id with
  | Some i =>
      if bool_decide (i.(wi_workspace_id) = workspace_id) && is_none i.(wi_accepted_at) && is_none i.(wi_revoked_at) then
        (Ok true, put_invitations (<[id := mkInvitation i.(wi_workspace_id) i.(wi_email) i.(wi_role) i.(wi_invited_by)
           i.(wi_token_hash) i.(wi_expires_at) i.(wi_accepted_at) (Some s.(ws_now)) i.(wi_created_at)]>
           s.(ws_invitations)) s)
      else (Ok false, s)
  | None => (Ok false, s)
  end.

Definition accepted (now : time) (i : Invitation) : Invitation :=
  mkInvitation i.(wi_workspace_id) i.(wi_email) i.(wi_role) i.(wi_invited_by) i.(wi_token_hash) i.(wi_expires_at)
    (Some now) i.(wi_revoked_at) i.(wi_created_at).

(** Source: src/db/generated/query.py:14-20 [ACCEPT_WORKSPACE_INVITATION].
    Whether a row was changed. *)
Definition accept_workspace_invitation (id : string) : M Spaces bool := λ s,
  match s.(ws_invitations) !! id with
  | Some i =>
      if invitation_open s.(ws_now) i
      then (Ok true, put_invitations (<[id := accepted s.(ws_now) i]> s.(ws_invitations)) s)
      else (Ok false, s)
  | None => (Ok false, s)
  end.

(** Source: src/db/generated/query.py:2280-2290 [SET_WORKSPACE_QUOTA]. *)
Definition set_workspace_quota (workspace_id : string) (q : Quota) (d : Db) : Db :=
  mkDb d.(sandboxes) d.(jobs) d.(snapshots) d.(sandbox_labels) d.(usage_labels) (<[workspace_id := q]> d.(workspace_quotas))
    d.(label_quotas) d.(sandbox_permissions) d.(pool_sandboxes) d.(servers) d.(workspaces) d.(profile_bytes) d.(next_seq).

Definition put_label_quotas (v : gmap (string * string * string) Quota) (d : Db) : Db :=
  mkDb d.(sandboxes) d.(jobs) d.(snapshots) d.(sandbox_labels) d.(usage_labels) d.(workspace_quotas) v
    d.(sandbox_permissions) d.(pool_sandboxes) d.(servers) d.(workspaces) d.(profile_bytes) d.(next_seq).

(** Source: src/db/generated/query.py:2517-2530 [UPSERT_LABEL_QUOTA]. *)
Definition upsert_label_quota (workspace_id key value : string) (q : Quota) (d : Db) : Db :=
  put_label_quotas (<[(workspace_id, key, value) := q]> d.(label_quotas)) d.

(** Source: src/db/generated/query.py:707-709 [DELETE_LABEL_QUOTA]. *)
Definition delete_label_quota (workspace_id key value : string) (d : Db) : Db :=
  put_label_quotas (delete (workspace_id, key, value) d.(label_quotas)) d.

Definition key_value_le (a b : string * string * Quota) : Prop :=
  (String.leb a.1.1 b.1.1 && (negb (String.eqb a.1.1 b.1.1) || String.leb a.1.2 b.1.2)) = true.

#[global] Instance key_value_le_dec : RelDecision key_value_le.
Proof. intros a b. unfold key_value_le. apply _. Defined.

(** Source: src/db/generated/query.py:1456-1458 [LIST_LABEL_QUOTAS]. *)
Definition list_label_quotas (workspace_id : string) (d : Db) : list (string * string * Quota) :=
  merge_sort key_value_le
    (omap (λ x, if decide (x.1.1.1 = workspace_id) then Some (x.1.1.2, x.1.2, x.2) else None) (map_to_list d.(label_quotas))).

(** ** The routes *)

(** The signed-in user of a request: [Member] carries the columns of its user. *)
Record Caller := mkCaller { c_member : Member; c_email : string }.
Definition c_id (c : Caller) : string := c.(c_member).(m_id).

(** Source: src/apps/server/workspaces_api.py:41-50 [WorkspaceResponse]. *)
Record WorkspaceResponse := mkWorkspaceResponse {
  wr_id : string;
  wr_name : string;
  wr_slug : string;
  wr_role : role;
  wr_personal : bool;
  wr_created_at : time;
  wr_default_idle_timeout_minutes : option Z;
  wr_default_max_lifetime_minutes : option Z
}.

(** Source: src/apps/server/workspaces_api.py:71-77 [MemberResponse]. *)
Record MemberResponse := mkMemberResponse {
  mr_user_id : string;
  mr_email : string;
  mr_role : role;
  mr_status : member_status;
  mr_joined_at : option time
}.

(** Source: src/apps/server/workspaces_api.py:89-99 [InvitationResponse, CreatedInvitationResponse]. *)
Record InvitationResponse := mkInvitationResponse {
  ir_id : string;
  ir_email : string;
  ir_role : role;
  ir_expires_at : time;
  ir_created_at : time
}.

(** Source: src/apps/server/workspaces_api.py:110-114 [QuotaResponse]. *)
Record QuotaResponse := mkQuotaResponse {
  qr_limits : Quota;
  qr_running_sandboxes : Z;
  qr_cpus : Q;
  qr_memory_mb : Z;
  qr_storage_gb : Q
}.

(** Source: src/apps/server/workspaces_api.py:117-128 [LabelQuotaRequest, LabelQuotaResponse].
    The usage is missing for the wildcard. *)
Record LabelQuotaResponse := mkLabelQuotaResponse {
  lr_key : string;
  lr_value : string;
  lr_limits : Quota;
  lr_used : option (Z * Q * Z * Q)
}.

(** Source: src/apps/server/workspaces_api.py:162-163 [personal]. *)
Definition personal (slug : string) : bool := startswith slug "personal-".

(** Source: src/apps/server/workspaces_api.py:58-68 [workspace_response]. *)
Definition workspace_response (id : string) (w : Space) (r : role) : WorkspaceResponse :=
  mkWorkspaceResponse id w.(w_name) w.(w_slug) r (personal w.(w_slug)) w.(w_created_at) w.(w_default_idle_timeout_minutes)
    w.(w_default_max_lifetime_minutes).

(** [round(q, 2)] *)
Definition round2 (q : Q) : Q := (round_div (100 * Qnum q) (Zpos (Qden q)) # 100)%Q.

(** Source: src/apps/server/workspaces_api.py:131-143 [label_quota_response]. *)
Definition label_quota_response (UNSIZED_DISK_GB : Z) (workspace_id : string) (row : string * string * Quota) (d : Db)
    : LabelQuotaResponse :=
  let '(key, value, q) := row in
  mkLabelQuotaResponse key value q
    (if bool_decide (value = ANY) then None
     else let u := label_usage UNSIZED_DISK_GB key value workspace_id d in
          Some (u.(u_running), u.(u_cpus), u.(u_memory_mb),
                round2 (inject_Z u.(u_disk_gb) + (u.(u_snapshot_bytes) # 1073741824))%Q)).

(** Source: src/apps/server/workspaces_api.py:146-155 [quota_response]. *)
Definition quota_response (UNSIZED_DISK_GB : Z) (workspace_id : string) (d : Db) : QuotaResponse :=
  let u := workspace_usage UNSIZED_DISK_GB workspace_id d in
  mkQuotaResponse (default (mkQuota None None None None) (get_workspace_quota workspace_id d))
    u.(u_running) u.(u_cpus) u.(u_memory_mb) (round2 (storage_gb u)).

(** Source: src/apps/server/workspaces_api.py:166-173 [invitation_response]. *)
Definition invitation_response (row : string * Invitation) : InvitationResponse :=
  mkInvitationResponse row.1 row.2.(wi_email) row.2.(wi_role) row.2.(wi_expires_at) row.2.(wi_created_at).

(** Source: src/apps/server/workspaces_api.py:33-33 [INVITATION_TTL]. *)
Definition INVITATION_TTL : time := sec (7 * 24 * 3600).

(** Source: src/apps/server/workspaces_api.py:182-191 [WorkspacesApi.role_in]. *)
Definition role_in (workspace_id : string) (user : Caller) (minimum : role) : M Spaces role :=
  guard_ (is_none user.(c_member).(m_key_id)) (HTTPException 403 [Txt "API keys can't manage workspaces"]);;
  member ← gets (get_member workspace_id (c_id user));
  match member with
  | Some m =>
      guard_ (active_member m) (HTTPException 404 [Txt "workspace not found"]);;
      guard_ (rank minimum <=? rank m.(wm_role))%nat
        (HTTPException 403 [Txt "this needs the "; Txt (role_name minimum); Txt " role in the workspace"]);;
      mret m.(wm_role)
  | None => raise (HTTPException 404 [Txt "workspace not found"])
  end.

(** Source: src/apps/server/workspaces_api.py:193-201 [WorkspacesApi.keep_an_owner]. *)
Definition keep_an_owner (workspace_id user_id : string) : M Spaces unit :=
  target ← gets (get_member workspace_id user_id);
  owners ← gets (count_workspace_owners workspace_id);
  guard_ (negb (match target with
                | Some m => bool_decide (m.(wm_role) = ROwner) && (owners <=? 1)
                | None => false
                end))
    (HTTPException 409 [Txt "a workspace needs at least one owner"]).

(** Source: src/apps/server/workspaces_api.py:203-214 [WorkspacesApi.members]. *)
Definition members (workspace_id : string) : M Spaces (list MemberResponse) :=
  gets (λ s, (λ x, mkMemberResponse x.1 (default "" (s.(ws_emails) !! x.1)) x.2.(wm_role) x.2.(wm_status)
                     x.2.(wm_joined_at)) <$> list_workspace_members workspace_id s).

(** [assert x is not None] *)
Definition asserted {A} (o : option A) : M Spaces A :=
  match o with Some a => mret a | None => raise AssertionError end.

(** [name.lower()] with each run of other characters than a-z and 0-9 made one
    dash. *)
Fixpoint dashed (pending : bool) (s : string) : string :=
  match s with
  | EmptyString => if pending then "-" else ""
  | String c s' =>
      let n := nat_of_ascii c in
      if ((97 <=? n)%nat && (n <=? 122)%nat) || ((48 <=? n)%nat && (n <=? 57)%nat)
      then (if pending then "-" else "") +:+ String c (dashed false s')
      else dashed true s'
  end.

Fixpoint lstrip_dash (s : string) : string :=
  match s with
  | String "-" s' => lstrip_dash s'
  | _ => s
  end.

Definition strip_dash (s : string) : string := String.rev (lstrip_dash (String.rev (lstrip_dash s))).

(** The [base] of a new workspace's slug. *)
Definition slug_base (name : string) : string :=
  or_else (String.substring 0 40 (strip_dash (dashed false (lower name)))) "workspace".

(** Source: src/apps/server/workspaces_api.py:219-223 [list_workspaces]. *)
Definition list_workspaces (user : Caller) : M Spaces (list WorkspaceResponse) :=
  gets (λ s, (λ x, workspace_response x.1.1 x.1.2 x.2) <$> list_workspaces_by_user (c_id user) s).

Section routes.
(** [hash_token] (SHA-256), sizes.UNSIZED_DISK_GB, the addresses of
    ADMIN_EMAILS and the default quota, from the environment. *)
Context (hash_token : string → string) (UNSIZED_DISK_GB : Z) (ADMINS : list string) (defaults : Quota).

(** Source: src/apps/server/workspaces_api.py:225-241 [create_workspace].  [id]
    is the uuid and [hex] the suffix drawn. *)
Definition create_workspace (id hex name : string) (user : Caller) : M Spaces WorkspaceResponse :=
  guard_ (is_none user.(c_member).(m_key_id)) (HTTPException 403 [Txt "API keys can't manage workspaces"]);;
  let name := strip name in
  workspace ← create_workspace_row id name (slug_base name +:+ "-" +:+ hex) (c_id user);
  add_workspace_member id (c_id user) ROwner;;
  modify (λ s, put_ws_db (ensure_quota defaults id s.(ws_db)) s);;
  mret (workspace_response id workspace ROwner).

(** Source: src/apps/server/workspaces_api.py:243-255 [rename_workspace]. *)
Definition rename_workspace (workspace_id name : string) (user : Caller) : M Spaces WorkspaceResponse :=
  role ← role_in workspace_id user RAdmin;
  workspace ← gets (get_workspace workspace_id);
  workspace ← asserted workspace;
  workspace ← update_workspace (strip name) workspace.(w_slug) workspace_id;
  workspace ← asserted workspace;
  mret (workspace_response workspace_id workspace role).

(** Source: src/apps/server/workspaces_api.py:257-271 [set_lifecycle_defaults]. *)
Definition set_lifecycle_defaults (workspace_id : string) (idle lifetime : option Z) (user : Caller)
    : M Spaces WorkspaceResponse :=
  role ← role_in workspace_id user RAdmin;
  workspace ← set_workspace_lifecycle idle lifetime workspace_id;
  workspace ← asserted workspace;
  mret (workspace_response workspace_id workspace role).

(** Source: src/apps/server/workspaces_api.py:273-284 [delete_workspace]. *)
Definition delete_workspace (workspace_id : string) (user : Caller) : M Spaces unit :=
  _ ← role_in workspace_id user ROwner;
  workspace ← gets (get_workspace workspace_id);
  workspace ← asserted workspace;
  guard_ (negb (personal workspace.(w_slug))) (HTTPException 409 [Txt "a personal workspace can't be deleted"]);;
  running ← gets (λ s, count_running_sandboxes_by_workspace workspace_id s.(ws_db));
  guard_ (running =? 0) (HTTPException 409 [Txt "stop the workspace's sandboxes first"]);;
  delete_workspace_row workspace_id.

(** Source: src/apps/server/workspaces_api.py:286-291 [list_members]. *)
Definition list_members (workspace_id : string) (user : Caller) : M Spaces (list MemberResponse) :=
  _ ← role_in workspace_id user RViewer;
  members workspace_id.

(** [role in ("owner", "admin")] *)
Definition senior (r : role) : bool := match r with ROwner | RAdmin => true | _ => false end.

(** What [change_role] checks before its one write. *)
Definition change_role_checks (workspace_id user_id : string) (r : role) (user : Caller) : M Spaces unit :=
  mine ← role_in workspace_id user RAdmin;
  target ← gets (get_member workspace_id user_id);
  match target with
  | None => raise (HTTPException 404 [Txt "member not found"])
  | Some target =>
      guard_ (bool_decide (mine = ROwner) || negb (senior target.(wm_role) || senior r))
        (HTTPException 403 [Txt "only owners change admins and owners"])
  end;;
  when (negb (bool_decide (r = ROwner))) (keep_an_owner workspace_id user_id).

(** Source: src/apps/server/workspaces_api.py:293-311 [change_role]. *)
Definition change_role (workspace_id user_id : string) (r : role) (user : Caller) : M Spaces (list MemberResponse) :=
  change_role_checks workspace_id user_id r user;;
  update_workspace_member_role workspace_id user_id r;;
  members workspace_id.

(** What [remove_member] checks before its one write. *)
Definition remove_member_checks (workspace_id user_id : string) (user : Caller) : M Spaces unit :=
  mine ← role_in workspace_id user (if bool_decide (user_id = c_id user) then RViewer else RAdmin);
  target ← gets (get_member workspace_id user_id);
  match target with
  | None => raise (HTTPException 404 [Txt "member not found"])
  | Some target =>
      guard_ (bool_decide (user_id = c_id user) || bool_decide (mine = ROwner) || negb (senior target.(wm_role)))
        (HTTPException 403 [Txt "only owners remove admins and owners"]);;
      workspace ← gets (get_workspace workspace_id);
      guard_ (negb (match workspace with
                    | Some w => personal w.(w_slug) && bool_decide (target.(wm_role) = ROwner)
                    | None => false
                    end))
        (HTTPException 409 [Txt "nobody leaves their personal workspace"])
  end;;
  keep_an_owner workspace_id user_id.

(** Source: src/apps/server/workspaces_api.py:313-331 [remove_member]. *)
Definition remove_member (workspace_id user_id : string) (user : Caller) : M Spaces unit :=
  remove_member_checks workspace_id user_id user;;
  remove_workspace_member workspace_id user_id.

(** Source: src/apps/server/workspaces_api.py:333-338 [get_quota]. *)
Definition get_quota (workspace_id : string) (user : Caller) : M Spaces QuotaResponse :=
  _ ← role_in workspace_id user RViewer;
  gets (λ s, quota_response UNSIZED_DISK_GB workspace_id s.(ws_db)).

(** Source: src/apps/server/workspaces_api.py:340-353 [set_quota]. *)
Definition set_quota (workspace_id : string) (q : Quota) (user : Caller) : M Spaces QuotaResponse :=
  guard_ (is_none user.(c_member).(m_key_id) && bool_decide (lower user.(c_email) ∈ ADMINS))
    (HTTPException 403 [Txt "only Zoo's admins (ADMIN_EMAILS) set quotas"]);;
  workspace ← gets (get_workspace workspace_id);
  guard_ (negb (is_none workspace)) (HTTPException 404 [Txt "workspace not found"]);;
  modify (λ s, put_ws_db (set_workspace_quota workspace_id q s.(ws_db)) s);;
  gets (λ s, quota_response UNSIZED_DISK_GB workspace_id s.(ws_db)).

(** Source: src/apps/server/workspaces_api.py:355-360 [list_label_quotas]. *)
Definition list_label_quotas_route (workspace_id : string) (user : Caller) : M Spaces (list LabelQuotaResponse) :=
  _ ← role_in workspace_id user RViewer;
  gets (λ s, (λ r, label_quota_response UNSIZED_DISK_GB workspace_id r s.(ws_db)) <$> list_label_quotas workspace_id s.(ws_db)).

(** Source: src/apps/server/workspaces_api.py:362-373 [set_label_quota]. *)
Definition set_label_quota (workspace_id key value : string) (q : Quota) (user : Caller) : M Spaces LabelQuotaResponse :=
  _ ← role_in workspace_id user RAdmin;
  modify (λ s, put_ws_db (upsert_label_quota workspace_id key value q s.(ws_db)) s);;
  gets (λ s, label_quota_response UNSIZED_DISK_GB workspace_id (key, value, q) s.(ws_db)).

(** Source: src/apps/server/workspaces_api.py:375-384 [remove_label_quota]. *)
Definition remove_label_quota (workspace_id key value : string) (user : Caller) : M Spaces unit :=
  _ ← role_in workspace_id user RAdmin;
  modify (λ s, put_ws_db (delete_label_quota workspace_id key value s.(ws_db)) s).

(** Source: src/apps/server/workspaces_api.py:386-391 [list_invitations]. *)
Definition list_invitations (workspace_id : string) (user : Caller) : M Spaces (list InvitationResponse) :=
  _ ← role_in workspace_id user RAdmin;
  gets (λ s, invitation_response <$> list_workspace_invitations workspace_id s).

(** Source: src/apps/server/workspaces_api.py:393-423 [invite].  [id] is the
    uuid and [token] the token drawn; the request's [role] is at most admin. *)
Definition invite (id token workspace_id email : string) (r : role) (user : Caller)
    : M Spaces (string * InvitationResponse) :=
  mine ← role_in workspace_id user RAdmin;
  guard_ (negb (bool_decide (r = RAdmin) && negb (bool_decide (mine = ROwner))))
    (HTTPException 403 [Txt "only owners invite admins"]);;
  invitee ← gets (get_user_by_email (lower email));
  existing ← gets (λ s, u ← invitee; get_member workspace_id u s);
  guard_ (negb (match existing with Some m => active_member m | None => false end))
    (HTTPException 409 [Txt email; Txt " is already a member"]);;
  now ← gets ws_now;
  let row := mkInvitation workspace_id (lower email) r (c_id user) (hash_token token) (now + INVITATION_TTL) None None now in
  create_workspace_invitation id row;;
  mret (token, invitation_response (id, row)).

(** Source: src/apps/server/workspaces_api.py:425-434 [revoke_invitation]. *)
Definition revoke_invitation (workspace_id invitation_id : string) (user : Caller) : M Spaces unit :=
  _ ← role_in workspace_id user RAdmin;
  changed ← revoke_workspace_invitation invitation_id workspace_id;
  guard_ changed (HTTPException 404 [Txt "invitation not found"]).

Definition INVALID_INVITATION : exn := HTTPException 404 [Txt "this invitation is invalid, used or expired"].

(** Source: src/apps/server/workspaces_api.py:436-457 [accept]. *)
Definition accept (token : string) (user : Caller) : M Spaces WorkspaceResponse :=
  guard_ (is_none user.(c_member).(m_key_id)) (HTTPException 403 [Txt "API keys can't accept invitations"]);;
  invitation ← gets (get_workspace_invitation_by_token (hash_token token));
  match invitation with
  | None => raise INVALID_INVITATION
  | Some (invitation_id, invitation) =>
      let w := invitation.(wi_workspace_id) in
      guard_ (bool_decide (lower invitation.(wi_email) = lower user.(c_email)))
        (HTTPException 403 [Txt "this invitation is for "; Txt invitation.(wi_email)]);;
      existing ← gets (get_member w (c_id user));
      guard_ (negb (match existing with Some m => active_member m | None => false end))
        (HTTPException 409 [Txt "you're already a member"]);;
      changed ← accept_workspace_invitation invitation_id;
      guard_ changed INVALID_INVITATION;;
      when (negb (is_none existing)) (remove_workspace_member w (c_id user));;
      add_workspace_member w (c_id user) invitation.(wi_role);;
      workspace ← gets (get_workspace w);
      workspace ← asserted workspace;
      mret (workspace_response w workspace invitation.(wi_role))
  end.

(** ** Requests one after the other

    The routes that write, as requests; what is drawn at random is part of the
    request. *)

Inductive request :=
| RCreate (id hex name : string)
| RRename (w name : string)
| RLifecycle (w : string) (idle lifetime : option Z)
| RDelete (w : string)
| RRole (w u : string) (r : role)
| RRemove (w u : string)
| RQuota (w : string) (q : Quota)
| RLabelQuota (w key value : string) (q : Quota)
| RDropLabelQuota (w key value : string)
| RInvite (id token w email : string) (r : role)
| RRevoke (w id : string)
| RAccept (token : string).

(** What pydantic lets through: an invitation's role is admin, member or viewer. *)
Definition valid_request (r : request) : Prop :=
  match r with RInvite _ _ _ _ r => r ≠ ROwner | _ => True end.

Definition handle (r : request) (c : Caller) : M Spaces unit :=
  match r with
  | RCreate id hex name => _ ← create_workspace id hex name c; mret tt
  | RRename w name => _ ← rename_workspace w name c; mret tt
  | RLifecycle w idle lifetime => _ ← set_lifecycle_defaults w idle lifetime c; mret tt
  | RDelete w => delete_workspace w c
  | RRole w u r => _ ← change_role w u r c; mret tt
  | RRemove w u => remove_member w u c
  | RQuota w q => _ ← set_quota w q c; mret tt
  | RLabelQuota w key value q => _ ← set_label_quota w key value q c; mret tt
  | RDropLabelQuota w key value => remove_label_quota w key value c
  | RInvite id token w email r => _ ← invite id token w email r c; mret tt
  | RRevoke w id => revoke_invitation w id c
  | RAccept token => _ ← accept token c; mret tt
  end.

(** A request in its session: one that raises leaves the database as it was. *)
Definition serve (r : request) (c : Caller) : M Spaces unit := transaction id (λ d _, d) (handle r c).

(** Time passes, or a request is served that [allowed] admits. *)
Inductive spaces_step (allowed : request → Prop) : Spaces → Spaces → Prop :=
| sp_tick s now : s.(ws_now) ≤ now → spaces_step allowed s (put_now now s)
| sp_serve r c s : valid_request r → allowed r → spaces_step allowed s (serve r c s).2.

(** A request that draws no token with the hash of [token]. *)
Definition spares (token : string) (r : request) : Prop :=
  match r with RInvite _ t _ _ _ => hash_token t ≠ hash_token token | _ => True end.

(** [c] signs in with a session token and is an active [r] of [w]. *)
Definition acts_as (c : Caller) (w : string) (r : role) (s : Spaces) : Prop :=
  c.(c_member).(m_key_id) = None ∧
  ∃ m, s.(ws_members) !! (w, c_id c) = Some m ∧ active_member m = true ∧ m.(wm_role) = r.

(** The hash of the token a request draws. *)
Definition draws (q : request) (h : string) : Prop :=
  match q with RInvite _ t _ _ _ => h = hash_token t | _ => False end.

(** What the request [q] of [c] may have done to the members and invitations. *)
Inductive changed (q : request) (c : Caller) (s : Spaces) : Spaces → Prop :=
| ch_same s' :
    s'.(ws_members) = s.(ws_members) → s'.(ws_invitations) = s.(ws_invitations) →
    (∀ w, is_Some (s'.(ws_spaces) !! w) ↔ is_Some (s.(ws_spaces) !! w)) → changed q c s s'
| ch_create s' w sp m :
    s.(ws_spaces) !! w = None → s.(ws_members) !! (w, c_id c) = None → m.(wm_role) = ROwner → active_member m = true →
    s'.(ws_spaces) = <[w := sp]> s.(ws_spaces) → s'.(ws_members) = <[(w, c_id c) := m]> s.(ws_members) →
    s'.(ws_invitations) = s.(ws_invitations) → changed q c s s'
| ch_delete s' w :
    acts_as c w ROwner s → s'.(ws_spaces) = delete w s.(ws_spaces) →
    s'.(ws_members) = filter (λ x, x.1.1 ≠ w) s.(ws_members) →
    s'.(ws_invitations) = filter (λ x, x.2.(wi_workspace_id) ≠ w) s.(ws_invitations) → changed q c s s'
| ch_role w u m r mine :
    acts_as c w mine s → (rank RAdmin ≤ rank mine)%nat → s.(ws_members) !! (w, u) = Some m →
    mine = ROwner ∨ senior m.(wm_role) = false ∧ senior r = false →
    (r ≠ ROwner → m.(wm_role) = ROwner → 1 < count_workspace_owners w s) →
    changed q c s (put_members (<[(w, u) := mkWorkspaceMember r m.(wm_status) m.(wm_joined_at) m.(wm_created_at)]>
      s.(ws_members)) s)
| ch_remove w u m mine :
    acts_as c w mine s → s.(ws_members) !! (w, u) = Some m →
    u = c_id c ∨ mine = ROwner ∨ mine = RAdmin ∧ senior m.(wm_role) = false →
    (m.(wm_role) = ROwner → 1 < count_workspace_owners w s) →
    changed q c s (put_members (delete (w, u) s.(ws_members)) s)
| ch_invite id i mine :
    acts_as c i.(wi_workspace_id) mine s → (rank RAdmin ≤ rank mine)%nat → i.(wi_role) ≠ ROwner →
    (i.(wi_role) = RAdmin → mine = ROwner) → i.(wi_accepted_at) = None → draws q i.(wi_token_hash) →
    s.(ws_invitations) !! id = None →
    (∀ id' j, s.(ws_invitations) !! id' = Some j → j.(wi_token_hash) ≠ i.(wi_token_hash)) →
    changed q c s (put_invitations (<[id := i]> s.(ws_invitations)) s)
| ch_revoke id i i' mine :
    acts_as c i.(wi_workspace_id) mine s → (rank RAdmin ≤ rank mine)%nat → s.(ws_invitations) !! id = Some i →
    i.(wi_accepted_at) = None → i' = mkInvitation i.(wi_workspace_id) i.(wi_email) i.(wi_role) i.(wi_invited_by)
      i.(wi_token_hash) i.(wi_expires_at) i.(wi_accepted_at) (Some s.(ws_now)) i.(wi_created_at) →
    changed q c s (put_invitations (<[id := i']> s.(ws_invitations)) s)
| ch_accept id i m :
    c.(c_member).(m_key_id) = None → s.(ws_invitations) !! id = Some i → invitation_open s.(ws_now) i = true →
    lower i.(wi_email) = lower c.(c_email) →
    (∀ m0, s.(ws_members) !! (i.(wi_workspace_id), c_id c) = Some m0 → active_member m0 = false) →
    m.(wm_role) = i.(wi_role) →
    changed q c s (put_members (<[(i.(wi_workspace_id), c_id c) := m]> s.(ws_members))
      (put_invitations (<[id := accepted s.(ws_now) i]> s.(ws_invitations)) s)).

(** ** Lemmas on the parts *)
Lemma elem_of_members_where p w s u m :
  (u, m) ∈ members_where p w s ↔ s.(ws_members) !! (w, u) = Some m ∧ p m = true.
Proof.
  unfold members_where. rewrite list_elem_of_omap. split.
  - intros ([[w' u'] m'] & Hin%elem_of_map_to_list & H). simpl in H.
    case_bool_decide; simpl in H; [|done]. destruct (p m') eqn:E; naive_solver.
  - intros [H E]. exists ((w, u), m). split; [by apply elem_of_map_to_list|]. simpl. by rewrite bool_decide_true, E.
Qed.

Lemma NoDup_members_where p w s : NoDup (members_where p w s).*1.
Proof.
  unfold members_where. pose proof (NoDup_fst_map_to_list s.(ws_members)) as H. revert H.
  generalize (map_to_list s.(ws_members)). intros l. induction l as [|[[w' u'] m'] l IH]; csimpl; [constructor|].
  rewrite NoDup_cons. intros [Hn Hd]. case_bool_decide as E; simpl; [|by apply IH]. destruct (p m'); [|by apply IH].
  csimpl. rewrite NoDup_cons. split; [|by apply IH]. subst w'. intros Hin. apply Hn.
  apply list_elem_of_fmap in Hin as ([u1 m1] & -> & Hin). apply list_elem_of_omap in Hin as ([[w2 u2] m2] & Hin & H2).
  simpl in H2. case_bool_decide; simpl in H2; [|done]. destruct (p m2); simplify_eq/=.
  apply list_elem_of_fmap. by exists ((w, u1), m1).
Qed.

(** With more than one active owner, there is one besides [u]. *)
Lemma another_owner w u s :
  1 < count_workspace_owners w s →
  ∃ u' m, u' ≠ u ∧ s.(ws_members) !! (w, u') = Some m ∧ active_owner m = true.
Proof.
  unfold count_workspace_owners. pose proof (NoDup_members_where active_owner w s) as Hd.
  pose proof (elem_of_members_where active_owner w s) as He.
  destruct (members_where active_owner w s) as [|[u1 m1] [|[u2 m2] l]]; simpl; [lia|lia|]. intros _.
  csimpl in Hd. rewrite !NoDup_cons in Hd. destruct Hd as [Hn _].
  destruct (decide (u1 = u)) as [->|Hu].
  - exists u2, m2. split; [set_solver|]. apply He. set_solver.
  - exists u1, m1. split; [done|]. apply He. set_solver.
Qed.

(** Case analysis on what the next statement of a run looks at. *)
Ltac split_run :=
  match goal with H : (match ?x with _ => _ end) _ = (Ok _, _) |- _ => destruct x eqn:?; inv_ok end.

Lemma role_in_ok w c r s mine s' :
  role_in w c r s = (Ok mine, s') → s' = s ∧ acts_as c w mine s ∧ (rank r ≤ rank mine)%nat.
Proof.
  unfold role_in, acts_as, get_member. intros H. inv_ok. split_run. split; [done|].
  split; [|by apply Nat.leb_le].
  split; [by destruct (m_key_id _)|]. naive_solver.
Qed.

Lemma keep_an_owner_ok w u s x s' :
  keep_an_owner w u s = (Ok x, s') →
  s' = s ∧ ∀ m, s.(ws_members) !! (w, u) = Some m → m.(wm_role) = ROwner → 1 < count_workspace_owners w s.
Proof.
  unfold keep_an_owner, get_member. intros H. inv_ok. split; [done|]. intros m Hm Hr.
  rewrite Hm, Hr, bool_decide_true in * by done. simpl in *.
  match goal with H : negb (_ <=? 1) = true |- _ => apply negb_true_iff, Z.leb_gt in H; lia end.
Qed.

Lemma asserted_ok {A} (o : option A) s a s' : asserted o s = (Ok a, s') → o = Some a ∧ s' = s.
Proof. unfold asserted. destruct o; intros H; inv_ok; naive_solver. Qed.
Lemma when_ok_inv (b : bool) (m : M Spaces unit) s x s' :
  when b m s = (Ok x, s') → b = true ∧ m s = (Ok tt, s') ∨ b = false ∧ s' = s.
Proof. unfold when. destruct b, x; intros H; inv_ok; auto. Qed.

Lemma create_changed q id hex name c s x s' : create_workspace id hex name c s = (Ok x, s') → changed q c s s'.
Proof.
  unfold create_workspace, create_workspace_row, add_workspace_member. intros H. inv_ok.
  repeat (case_match; simplify_eq/=).
  match goal with H : _ && _ = true |- _ => apply andb_true_iff in H as [Hi%bool_decide_eq_true _] end.
  eapply ch_create; simpl; [exact Hi|done| | |done|done|done]; done.
Qed.

Lemma rename_changed q w name c s x s' : rename_workspace w name c s = (Ok x, s') → changed q c s s'.
Proof.
  unfold rename_workspace, update_workspace. intros H. inv_ok.
  repeat match goal with
  | H : role_in _ _ _ _ = _ |- _ => apply role_in_ok in H as (-> & _ & _)
  | H : asserted _ _ = _ |- _ => apply asserted_ok in H as [_ ->]
  end. simplify_eq. apply ch_same; simpl; [done|done|]. intros w'. rewrite lookup_alter_is_Some. done.
Qed.

Lemma lifecycle_changed q w idle lifetime c s x s' :
  set_lifecycle_defaults w idle lifetime c s = (Ok x, s') → changed q c s s'.
Proof.
  unfold set_lifecycle_defaults, set_workspace_lifecycle. intros H. inv_ok.
  repeat match goal with
  | H : role_in _ _ _ _ = _ |- _ => apply role_in_ok in H as (-> & _ & _)
  | H : asserted _ _ = _ |- _ => apply asserted_ok in H as [_ ->]
  end. simplify_eq. apply ch_same; simpl; [done|done|]. intros w'. rewrite lookup_alter_is_Some. done.
Qed.

Lemma delete_changed q w c s x s' : delete_workspace w c s = (Ok x, s') → changed q c s s'.
Proof.
  unfold delete_workspace, delete_workspace_row. intros H. inv_ok.
  match goal with H : role_in _ _ _ _ = _ |- _ => apply role_in_ok in H as (-> & Ha & Hr) end.
  match goal with H : asserted _ _ = _ |- _ => apply asserted_ok in H as [_ ->] end.
  assert (x0 = ROwner) as -> by (destruct x0; simpl in Hr; [lia|lia|lia|done]).
  by eapply ch_delete.
Qed.

Lemma alter_as_insert {A} (f : A → A) (m : gmap (string * string) A) i x :
  m !! i = Some x → alter f i m = <[i := f x]> m.
Proof.
  intros Hx. apply map_eq. intros j. destruct (decide (i = j)) as [<-|Hj].
  - by rewrite lookup_alter_eq, lookup_insert_eq, Hx.
  - by rewrite lookup_alter_ne, lookup_insert_ne.
Qed.

Lemma role_changed q w u r c s x s' : change_role w u r c s = (Ok x, s') → changed q c s s'.
Proof.
  unfold change_role, change_role_checks, get_member, update_workspace_member_role, members. intros H. inv_ok.
  match goal with H : role_in _ _ _ _ = _ |- _ => apply role_in_ok in H as (-> & Ha & Hr) end.
  split_run.
  match goal with H : _ !! (w, u) = Some ?m |- _ => rename m into target, H into Hm end.
  match goal with H : when _ _ _ = (_, ?s1) |- _ =>
    assert (s1 = s ∧ (r ≠ ROwner → target.(wm_role) = ROwner → 1 < count_workspace_owners w s)) as [-> Hk] end.
  { match goal with H : when _ _ _ = _ |- _ => apply when_ok_inv in H as [[Hb H]|[Hb ->]] end.
    - match goal with H : keep_an_owner _ _ _ = _ |- _ => apply keep_an_owner_ok in H as [-> H] end. eauto.
    - rewrite negb_false_iff, bool_decide_eq_true in Hb. naive_solver. }
  rewrite (alter_as_insert _ _ _ _ Hm). eapply ch_role; [exact Ha|done|exact Hm| |done].
  match goal with H : _ || _ = true |- _ => apply orb_true_iff in H as [H%bool_decide_eq_true|H]; [by left|right] end.
  apply negb_true_iff, orb_false_iff in H. done.
Qed.
Lemma remove_changed q w u c s x s' : remove_member w u c s = (Ok x, s') → changed q c s s'.
Proof.
  unfold remove_member, remove_member_checks, get_member, get_workspace, remove_workspace_member. intros H. inv_ok.
  match goal with H : role_in _ _ _ _ = _ |- _ => apply role_in_ok in H as (-> & Ha & Hr) end.
  split_run.
  match goal with H : _ !! (w, u) = Some ?m |- _ => rename m into target, H into Hm end.
  match goal with H : keep_an_owner _ _ _ = _ |- _ => apply keep_an_owner_ok in H as [-> Hk] end.
  eapply ch_remove; [exact Ha|exact Hm| |by eauto].
  destruct (decide (u = c_id c)) as [->|Hu]; [by left|right].
  rewrite (bool_decide_false (u = _)) in * by done. simpl in *.
  match goal with H : _ || _ = true |- _ => apply orb_true_iff in H as [H%bool_decide_eq_true|H]; [by left|] end.
  match goal with |- ?y = ROwner ∨ _ => destruct y end; simpl in *; [lia|lia| |by left]. right. split; [done|]. by apply negb_true_iff.
Qed.

Lemma invite_changed id token w email r c s x s' :
  r ≠ ROwner → invite id token w email r c s = (Ok x, s') → changed (RInvite id token w email r) c s s'.
Proof.
  unfold invite, create_workspace_invitation. intros Hr H. inv_ok.
  match goal with H : role_in _ _ _ _ = _ |- _ => apply role_in_ok in H as (-> & Ha & Hm) end.
  case_match; simplify_eq.
  match goal with H : _ && _ = true |- _ => apply andb_true_iff in H as [Hi%bool_decide_eq_true Hj%bool_decide_eq_true] end.
  eapply (ch_invite _ _ _ _ _ x0); simpl; [done|done|done| |done|done|done|].
  - intros ->. destruct x0; simpl in *; done.
  - intros id' j Hlk Heq. simpl in Hj.
    assert (j ∈ []) as Hin; [|by apply elem_of_nil in Hin].
    rewrite <- Hj. apply list_elem_of_filter. split; [done|]. apply elem_of_rows. eauto.
Qed.

Lemma revoke_changed q w id c s x s' : revoke_invitation w id c s = (Ok x, s') → changed q c s s'.
Proof.
  unfold revoke_invitation, revoke_workspace_invitation. intros H. inv_ok.
  match goal with H : role_in _ _ _ _ = _ |- _ => apply role_in_ok in H as (-> & Ha & Hm) end.
  repeat (case_match; simplify_eq/=).
  match goal with H : _ && _ && _ = true |- _ => rewrite !andb_true_iff in H; destruct H as [[<-%bool_decide_eq_true Hacc] _] end.
  eapply ch_revoke; [exact Ha|done|done| |reflexivity]. by destruct (wi_accepted_at _).
Qed.

Lemma token_invitation h s id i :
  get_workspace_invitation_by_token h s = Some (id, i) →
  s.(ws_invitations) !! id = Some i ∧ i.(wi_token_hash) = h ∧ invitation_open s.(ws_now) i = true.
Proof.
  unfold get_workspace_invitation_by_token. intros H%head_Some_elem_of.
  apply list_elem_of_filter in H as [[Hh Ho] Hin%elem_of_map_to_list]. done.
Qed.

(** The row of a user who joins again is made anew. *)
Lemma replace_member w u r s t now x1 s1 x2 s2 :
  t = s.(ws_members) → now = s.(ws_now) →
  when (negb (is_none (t !! (w, u)))) (remove_workspace_member w u) s = (Ok x1, s1) →
  add_workspace_member w u r s1 = (Ok x2, s2) →
  s2 = put_members (<[(w, u) := mkWorkspaceMember r MActive (Some now) now]> t) s.
Proof.
  intros -> -> Hw Ha. apply when_ok_inv in Hw as [[Hb Hw]|[Hb ->]]; unfold add_workspace_member in Ha.
  - unfold remove_workspace_member in Hw. inv_ok. simpl in Ha. rewrite lookup_delete_eq in Ha. simplify_eq.
    unfold put_members. simpl. by rewrite insert_delete_eq.
  - destruct (s.(ws_members) !! (w, u)); simplify_eq/=; done.
Qed.

Lemma accept_ok token c s x s' :
  accept token c s = (Ok x, s') →
  ∃ id i m, s.(ws_invitations) !! id = Some i ∧ i.(wi_token_hash) = hash_token token ∧
    invitation_open s.(ws_now) i = true ∧ lower i.(wi_email) = lower c.(c_email) ∧ m.(wm_role) = i.(wi_role) ∧
    active_member m = true ∧ c.(c_member).(m_key_id) = None ∧
    (∀ m0, s.(ws_members) !! (i.(wi_workspace_id), c_id c) = Some m0 → active_member m0 = false) ∧
    s' = put_members (<[(i.(wi_workspace_id), c_id c) := m]> s.(ws_members))
           (put_invitations (<[id := accepted s.(ws_now) i]> s.(ws_invitations)) s).
Proof.
  unfold accept, accept_workspace_invitation, get_member. intros H. inv_ok. split_run. destruct p as [id i]. inv_ok.
  match goal with H : get_workspace_invitation_by_token _ _ = _ |- _ => apply token_invitation in H as (Hi & Hh & Ho) end.
  rewrite Hi, Ho in *. simplify_eq. simpl in *.
  match goal with H : asserted _ _ = _ |- _ => apply asserted_ok in H as [_ ->] end.
  match type of Hi with ws_invitations ?s0 !! _ = _ => rename s0 into s end.
  match goal with H : when _ _ ?s1 = _, H2 : add_workspace_member _ _ _ _ = _ |- _ =>
    pose proof (replace_member _ _ _ s1 s.(ws_members) s.(ws_now) _ _ _ _ eq_refl eq_refl H H2) as -> end.
  exists id, i, (mkWorkspaceMember i.(wi_role) MActive (Some s.(ws_now)) s.(ws_now)). do 3 (split; [done|]). split; [by eapply bool_decide_eq_true|]. do 2 (split; [done|]).
  split; [by destruct (m_key_id _)|]. split; [|done]. intros m0 Hm0. rewrite Hm0 in *. by apply negb_true_iff.
Qed.

Lemma accept_changed q token c s x s' : accept token c s = (Ok x, s') → changed q c s s'.
Proof.
  intros H. destruct (accept_ok _ _ _ _ _ H) as (id & i & m & Hi & _ & Ho & He & Hr & _ & Hk & Hm & ->).
  by eapply ch_accept.
Qed.

Lemma handle_changed r c s x s' : valid_request r → handle r c s = (Ok x, s') → changed r c s s'.
Proof.
  intros Hv. destruct r; simpl; intros H; inv_ok.
  - by eapply create_changed.
  - by eapply rename_changed.
  - by eapply lifecycle_changed.
  - by eapply delete_changed.
  - by eapply role_changed.
  - by eapply remove_changed.
  - unfold set_quota in *. inv_ok. by apply ch_same.
  - unfold set_label_quota in *. inv_ok.
    match goal with H : role_in _ _ _ _ = _ |- _ => apply role_in_ok in H as (-> & _ & _) end. by apply ch_same.
  - unfold remove_label_quota in *. inv_ok.
    match goal with H : role_in _ _ _ _ = _ |- _ => apply role_in_ok in H as (-> & _ & _) end. by apply ch_same.
  - by eapply invite_changed.
  - by eapply revoke_changed.
  - by eapply accept_changed.
Qed.

Lemma serve_changed r c s : valid_request r → (serve r c s).2 = s ∨ changed r c s (serve r c s).2.
Proof.
  intros Hv. unfold serve, transaction. destruct (handle r c s) as [[x|e] s'] eqn:E; simpl; [right|by left].
  by eapply handle_changed.
Qed.
(** ** What always holds *)

(** Members and invitations are of workspaces that exist, every workspace has
    an active owner, and no two invitations share a token's hash. *)
Record spaces_ok (s : Spaces) : Prop := {
  members_of : ∀ w u m, s.(ws_members) !! (w, u) = Some m → is_Some (s.(ws_spaces) !! w);
  invitations_of : ∀ id i, s.(ws_invitations) !! id = Some i → is_Some (s.(ws_spaces) !! i.(wi_workspace_id));
  well_owned : ∀ w, is_Some (s.(ws_spaces) !! w) → ∃ u m, s.(ws_members) !! (w, u) = Some m ∧ active_owner m = true;
  hashes_unique : ∀ id i id' i', s.(ws_invitations) !! id = Some i → s.(ws_invitations) !! id' = Some i' →
    i.(wi_token_hash) = i'.(wi_token_hash) → id = id'
}.

Lemma active_owner_iff m : active_owner m = true ↔ m.(wm_role) = ROwner ∧ active_member m = true.
Proof. unfold active_owner. by rewrite andb_true_iff, bool_decide_eq_true. Qed.

(** Writing one member's row keeps an owner when the row stays an owner's or
    there is another one. *)
Lemma owned_after w u s (n : option WorkspaceMember) :
  (∀ w, is_Some (s.(ws_spaces) !! w) → ∃ u m, s.(ws_members) !! (w, u) = Some m ∧ active_owner m = true) →
  (∀ m, s.(ws_members) !! (w, u) = Some m → active_owner m = true →
     1 < count_workspace_owners w s ∨ ∃ m', n = Some m' ∧ active_owner m' = true) →
  ∀ w', is_Some (s.(ws_spaces) !! w') →
    ∃ u' m, partial_alter (λ _, n) (w, u) s.(ws_members) !! (w', u') = Some m ∧ active_owner m = true.
Proof.
  intros Ho Hn w' Hw. destruct (Ho w' Hw) as (u0 & m0 & Hm0 & Ha0).
  destruct (decide ((w, u) = (w', u0))) as [[= <- <-]|Hne].
  - destruct (Hn m0 Hm0 Ha0) as [Hc|(m' & -> & Ha')].
    + apply (another_owner _ u) in Hc as (u1 & m1 & Hu & Hm1 & Ha1). exists u1, m1.
      by rewrite lookup_partial_alter_ne by congruence.
    + exists u, m'. by rewrite lookup_partial_alter_eq.
  - exists u0, m0. by rewrite lookup_partial_alter_ne.
Qed.

Lemma hashes_after id i s :
  (∀ id i id' i', s.(ws_invitations) !! id = Some i → s.(ws_invitations) !! id' = Some i' →
     i.(wi_token_hash) = i'.(wi_token_hash) → id = id') →
  (∀ id' j, s.(ws_invitations) !! id' = Some j → j.(wi_token_hash) = i.(wi_token_hash) → id' = id) →
  ∀ id1 i1 id2 i2, <[id := i]> s.(ws_invitations) !! id1 = Some i1 → <[id := i]> s.(ws_invitations) !! id2 = Some i2 →
    i1.(wi_token_hash) = i2.(wi_token_hash) → id1 = id2.
Proof.
  intros Hu Hi id1 i1 id2 i2. rewrite !lookup_insert_Some. naive_solver.
Qed.

Lemma changed_ok q c s s' : spaces_ok s → changed q c s s' → spaces_ok s'.
Proof.
  intros [Hm Hi Ho Hh] Hc.
  destruct Hc as [s' E1 E2 E3|s' w sp m Hw _ Hr Ha E1 E2 E3|s' w _ E1 E2 E3|w u m r mine Hac Hrk Hu Hs Hk|
    w u m mine Hac Hu Hs Hk|id i mine Hac Hrk _ _ _ _ Hid Hh2|id i i' mine _ _ Hid _ ->|id i m _ Hid _ _ Hact _].
  - constructor; rewrite ?E1, ?E2; intros; try apply E3; eauto. apply Ho. by apply E3.
  - constructor; rewrite ?E1, ?E2, ?E3; [| | |done].
    + intros w' u' m'. rewrite lookup_insert_Some, lookup_insert_is_Some'. naive_solver.
    + intros id i Hid. rewrite lookup_insert_is_Some'. eauto.
    + intros w'. rewrite lookup_insert_is_Some'. intros [->|Hw'].
      * exists (c_id c), m. rewrite lookup_insert_eq. by rewrite active_owner_iff.
      * destruct (Ho w' Hw') as (u & m' & Hu & Hmo). exists u, m'. rewrite lookup_insert_ne; [done|].
        intros [= <- _]. by rewrite Hw in Hw'; destruct Hw'.
  - constructor; rewrite ?E1, ?E2, ?E3.
    + intros w' u' m'. rewrite map_lookup_filter_Some. simpl. intros [H Hn]. rewrite lookup_delete_ne by done. eauto.
    + intros id i. rewrite map_lookup_filter_Some. simpl. intros [H Hn]. rewrite lookup_delete_ne by done. eauto.
    + intros w' [sp Hw']. apply lookup_delete_Some in Hw' as [Hn Hw']. destruct (Ho w') as (u & m & H & Ha); [eauto|].
      exists u, m. rewrite map_lookup_filter_Some. done.
    + intros id i id' i'. rewrite !map_lookup_filter_Some. intros [? _] [? _]. eauto.
  - constructor; simpl; [| eauto | |eauto].
    + intros w' u' m'. rewrite lookup_insert_Some. naive_solver.
    + apply owned_after; [done|]. intros m0 Hm0 [Ha Hst]%active_owner_iff. simplify_eq.
      destruct (decide (r = ROwner)) as [->|Hr]; [right|left; auto]. eexists. split; [done|].
      apply active_owner_iff. done.
  - constructor; simpl; [|eauto| |eauto].
    + intros w' u' m'. rewrite lookup_delete_Some. intros [_ H]. eauto.
    + apply owned_after; [done|]. intros m0 Hm0 [Ha _]%active_owner_iff. simplify_eq. left. auto.
  - constructor; simpl; [eauto| |eauto|].
    + intros id' i'. rewrite lookup_insert_Some. intros [[<- <-]|[_ H]]; [|eauto].
      destruct Hac as (_ & m & Hmm & _). eauto.
    + apply hashes_after; [done|]. intros id' j Hj Heq. by destruct (Hh2 id' j Hj).
  - constructor; simpl; [eauto| |eauto|].
    + intros id' i''. rewrite lookup_insert_Some. naive_solver.
    + apply hashes_after; [done|]. simpl. eauto.
  - constructor; simpl.
    + intros w' u' m'. rewrite lookup_insert_Some. naive_solver.
    + intros id' i''. rewrite lookup_insert_Some. naive_solver.
    + apply owned_after; [done|]. intros m0 Hm0 [_ Hst]%active_owner_iff. rewrite (Hact _ Hm0) in Hst. done.
    + apply hashes_after; [done|]. simpl. eauto.
Qed.

Lemma step_ok allowed s s' : spaces_ok s → spaces_step allowed s s' → spaces_ok s'.
Proof.
  intros Hok Hst. destruct Hst as [s now _|r c s Hv _]; [by destruct Hok|].
  destruct (serve_changed r c s Hv) as [->|Hc]; [done|].
  by eapply changed_ok.
Qed.
(** ** Who may change what *)

(** Whose request may replace [u]'s row of workspace [w], and by what. *)
Inductive may_change (c : Caller) (s : Spaces) (w u : string) : option WorkspaceMember → option WorkspaceMember → Prop :=
| by_owner o n : acts_as c w ROwner s → may_change c s w u o n
| by_admin m n :
    acts_as c w RAdmin s → senior m.(wm_role) = false → (∀ m', n = Some m' → senior m'.(wm_role) = false) →
    may_change c s w u (Some m) n
| by_leaving m : u = c_id c → s.(ws_members) !! (w, u) = Some m → may_change c s w u (Some m) None
| by_joining o id i m :
    u = c_id c → s.(ws_invitations) !! id = Some i → invitation_open s.(ws_now) i = true → i.(wi_workspace_id) = w →
    lower i.(wi_email) = lower c.(c_email) → (∀ m0, o = Some m0 → active_member m0 = false) →
    m.(wm_role) = i.(wi_role) → may_change c s w u o (Some m)
| by_creating m : u = c_id c → s.(ws_spaces) !! w = None → may_change c s w u None (Some m).

Lemma junior_admin mine : (rank RAdmin ≤ rank mine)%nat → mine = ROwner ∨ mine = RAdmin.
Proof. destruct mine; simpl; [lia|lia|by right|by left]. Qed.

Lemma changed_members q c s s' w u :
  changed q c s s' → s'.(ws_members) !! (w, u) ≠ s.(ws_members) !! (w, u) →
  may_change c s w u (s.(ws_members) !! (w, u)) (s'.(ws_members) !! (w, u)).
Proof.
  intros Hc Hne.
  destruct Hc as [s' E1 E2 E3|s' w' sp m Hw Hn Hr Ha E1 E2 E3|s' w' Hac E1 E2|w' u' m r mine Hac Hrk Hu Hs _|
    w' u' m mine Hac Hu Hs _|id i mine _ _ _ _ _ _ _ _|id i i' mine _ _ _ _ _|id i m _ Hid Hop Hem Hact Hro]; simpl in *;
    try done.
  - by rewrite E1 in Hne.
  - rewrite E2 in *. destruct (decide ((w', c_id c) = (w, u))) as [[= <- <-]|Hd].
    + rewrite lookup_insert_eq, Hn in *. by apply by_creating.
    + by rewrite lookup_insert_ne in Hne.
  - rewrite E2 in *. destruct (decide (w = w')) as [->|Hd]; [by apply by_owner|].
    destruct Hne. destruct (s.(ws_members) !! (w, u)) eqn:E; [by apply map_lookup_filter_Some|].
    apply map_lookup_filter_None. by left.
  - destruct (decide ((w', u') = (w, u))) as [[= <- <-]|Hd]; [|by rewrite lookup_insert_ne in Hne].
    rewrite lookup_insert_eq, Hu. destruct (junior_admin _ Hrk) as [->| ->]; [by apply by_owner|].
    destruct Hs as [|[Hs1 Hs2]]; [done|]. apply by_admin; [done|done|]. by intros ? [= <-].
  - destruct (decide ((w', u') = (w, u))) as [[= <- <-]|Hd]; [|by rewrite lookup_delete_ne in Hne].
    rewrite lookup_delete_eq, Hu. destruct Hs as [->|[->|[-> Hs]]]; [by apply by_leaving|by apply by_owner|].
    apply by_admin; [done|done|]. done.
  - destruct (decide ((i.(wi_workspace_id), c_id c) = (w, u))) as [[= <- <-]|Hd]; [|by rewrite lookup_insert_ne in Hne].
    rewrite lookup_insert_eq. by eapply by_joining.
Qed.

Lemma changed_invitations q c s s' id i :
  changed q c s s' → s'.(ws_invitations) !! id = Some i → s.(ws_invitations) !! id = None →
  ∃ mine, acts_as c i.(wi_workspace_id) mine s ∧ (mine = ROwner ∨ mine = RAdmin ∧ senior i.(wi_role) = false).
Proof.
  intros Hc Hi Hn.
  destruct Hc as [s' E1 E2 E3|s' w' sp m Hw _ Hr Ha E1 E2 E3|s' w' Hac E1 E2 E3|w' u' m r mine Hac Hrk Hu Hs _|
    w' u' m mine Hac Hu Hs _|id' i' mine Hac Hrk Hno Had _ _ Hid _|id' i' i2 mine _ _ Hid _ _|id' i' m _ Hid Hop Hem Hact Hro];
    simpl in *; try congruence.
  - rewrite E3 in Hi. apply map_lookup_filter_Some in Hi. naive_solver.
  - rewrite lookup_insert_Some in Hi. destruct Hi as [[<- <-]|[_ Hi]]; [|congruence].
    exists mine. split; [done|]. destruct (junior_admin _ Hrk) as [->| ->]; [by left|right]. split; [done|].
    destruct (i'.(wi_role)); try done. by specialize (Had eq_refl).
  - rewrite lookup_insert_Some in Hi. naive_solver.
  - rewrite lookup_insert_Some in Hi. naive_solver.
Qed.

(** No invitation with the token's hash is left to accept. *)
Definition used_up (token : string) (s : Spaces) : Prop :=
  ∀ id i, s.(ws_invitations) !! id = Some i → i.(wi_token_hash) = hash_token token → i.(wi_accepted_at) ≠ None.

Lemma used_up_serve token r c s :
  valid_request r → spares token r → used_up token s → used_up token (serve r c s).2.
Proof.
  intros Hv Hsp Hu. destruct (serve_changed r c s Hv) as [->|Hc]; [done|]. intros id i Hi Hh.
  destruct Hc as [s' E1 E2 E3|s' w' sp m Hw _ Hr Ha E1 E2 E3|s' w' Hac E1 E2 E3|w' u' m r' mine Hac Hrk Hm Hs _|
    w' u' m mine Hac Hm Hs _|id' i' mine Hac Hrk Hno Had _ Hdr Hid _|id' i' i2 mine _ _ Hid Hn ->|id' i' m _ Hid Hop Hem Hact Hro];
    simpl in *; rewrite ?E2, ?E3 in *; try (by eauto).
  - apply map_lookup_filter_Some in Hi as [Hi _]. eauto.
  - rewrite lookup_insert_Some in Hi. destruct Hi as [[<- <-]|[_ Hi]]; [|eauto]. by destruct r; simpl in *; try congruence.
  - rewrite lookup_insert_Some in Hi. destruct Hi as [[<- <-]|[_ Hi]]; [|eauto]. simpl in *. eauto.
  - rewrite lookup_insert_Some in Hi. destruct Hi as [[<- <-]|[_ Hi]]; [|eauto]. done.
Qed.

Lemma used_up_run token s s' : rtc (spaces_step (spares token)) s s' → used_up token s → used_up token s'.
Proof.
  induction 1 as [|s1 s2 s3 Hst _ IH]; [done|]. intros Hu. apply IH.
  destruct Hst as [s1 now _|r c s1 Hv Hsp]; [exact Hu|by apply used_up_serve].
Qed.

Lemma used_up_refused token c s : used_up token s → ∃ e, accept token c s = (Err e, s).
Proof.
  intros Hu. unfold accept. destruct (is_none (m_key_id _)); run; [|eauto].
  destruct (get_workspace_invitation_by_token (hash_token token) s) as [[id i]|] eqn:E; run; [|eauto].
  apply token_invitation in E as (Hi & Hh & Ho). destruct (Hu _ _ Hi Hh).
  unfold invitation_open in Ho. by destruct (wi_accepted_at i).
Qed.
(** ** Properties *)

(** C8: Requests that are served one after the other, in whatever order and by
    whomever, keep an active owner in every workspace; no member or invitation is
    of a workspace that is gone, and no two invitations share a token's hash.
    (Two requests at once may leave a workspace without an owner: [owners_race].) *)
Theorem owners_kept allowed s s' : spaces_ok s → rtc (spaces_step allowed) s s' → spaces_ok s'.
Proof. intros Hs Hr. induction Hr as [|s s1 s2 Hst _ IH]; [done|]. by eapply IH, step_ok. Qed.

(** A member's row changes only by the hand of one who may change it: an
    active owner of the workspace; an active admin, when neither the row before
    nor the row after is an owner's or an admin's; the member, leaving; an
    invited user who was no active member, joining with the invitation's role
    by an open invitation for their address; or whoever makes the workspace.
    API keys change none.  And an invitation is made by an active admin, one
    for an admin by an active owner. *)
Theorem member_changes q c s w u id i :
  valid_request q →
  let s' := (serve q c s).2 in
  (s'.(ws_members) !! (w, u) ≠ s.(ws_members) !! (w, u) →
   may_change c s w u (s.(ws_members) !! (w, u)) (s'.(ws_members) !! (w, u))) ∧
  (s'.(ws_invitations) !! id = Some i → s.(ws_invitations) !! id = None →
   ∃ mine, acts_as c i.(wi_workspace_id) mine s ∧ (mine = ROwner ∨ mine = RAdmin ∧ senior i.(wi_role) = false)).
Proof.
  intros Hv s'. destruct (serve_changed q c s Hv) as [E|Hc]; unfold s'.
  - rewrite E. split; [done|]. congruence.
  - split; [by eapply changed_members|by eapply changed_invitations].
Qed.

(** C12: An invitation is accepted by the user of its address while it is open
    and gives its role; from then on, as long as no other invitation draws the
    same token, everyone who presents the token is refused and nothing
    changes. *)
Theorem invitation_once token c s x s1 :
  spaces_ok s → accept token c s = (Ok x, s1) →
  (∃ id i m, s.(ws_invitations) !! id = Some i ∧ i.(wi_token_hash) = hash_token token ∧
     invitation_open s.(ws_now) i = true ∧ lower i.(wi_email) = lower c.(c_email) ∧
     s1.(ws_members) !! (i.(wi_workspace_id), c_id c) = Some m ∧ m.(wm_role) = i.(wi_role) ∧ active_member m = true) ∧
  ∀ s2 c', rtc (spaces_step (spares token)) s1 s2 → ∃ e, accept token c' s2 = (Err e, s2).
Proof.
  intros Hok Ha. destruct (accept_ok _ _ _ _ _ Ha) as (id & i & m & Hid & Hh & Ho & He & Hm & Hact & _ & _ & ->).
  split.
  - exists id, i, m. simpl. by rewrite lookup_insert_eq.
  - intros s2 c' Hr. apply used_up_refused.
    eapply used_up_run; [exact Hr|]. intros id' i'. simpl. rewrite lookup_insert_Some.
    intros [[<- <-]|[Hne Hi']] Hh'; [done|]. destruct Hne. eapply (hashes_unique _ Hok); [done..|congruence].
Qed.
End routes.

(** ** Witnesses *)

Definition demo_space (slug owner : string) : Space := mkSpace "Team" slug owner 0 0 None None.
Definition demo_owner : WorkspaceMember := mkWorkspaceMember ROwner MActive (Some 0) 0.
Definition demo_invitation : Invitation := mkInvitation "w1" "c@x" RMember "u1" "t1" 100 None None 0.

(** Two owners of a workspace, one of whom has a personal one, and an
    invitation for a third user. *)
Definition demo_spaces : Spaces :=
  mkSpaces (<["u3" := "C@x"]> (<["u2" := "b@x"]> {["u1" := "a@x"]}))
    (<["p1" := demo_space "personal-u1" "u1"]> {["w1" := demo_space "team-0a1b2c" "u1"]})
    (<[("p1", "u1") := demo_owner]> (<[("w1", "u2") := demo_owner]> {[("w1", "u1") := demo_owner]}))
    {["i1" := demo_invitation]} empty_db 5.

Definition demo_caller (id email : string) : Caller := mkCaller (mkMember id "w1" ROwner None None None) email.

Lemma demo_spaces_ok : spaces_ok demo_spaces.
Proof.
  constructor; simpl.
  - intros w u m. rewrite !lookup_insert_Some, !lookup_insert_is_Some', lookup_singleton_Some. naive_solver.
  - intros id i. rewrite lookup_singleton_Some. intros [<- <-]. by exists (demo_space "team-0a1b2c" "u1").
  - intros w. rewrite lookup_insert_is_Some', lookup_singleton_is_Some. intros [<-|<-]; by exists "u1", demo_owner.
  - intros id i id' i'. rewrite !lookup_singleton_Some. naive_solver.
Qed.

(** u1 leaves the workspace to u2, who then may not. *)
Lemma owners_kept_witness :
  let serve := serve (λ t, t) 0 [] (mkQuota None None None None) in
  let s1 := (serve (RRemove "w1" "u1") (demo_caller "u1" "a@x") demo_spaces).2 in
  let s2 := (serve (RRemove "w1" "u2") (demo_caller "u2" "b@x") s1).2 in
  s1.(ws_members) !! ("w1", "u1") = None ∧ ∃ u m, s2.(ws_members) !! ("w1", u) = Some m ∧ active_owner m = true.
Proof.
  intros sv s1 s2. split; [by vm_compute|].
  apply (well_owned s2); [|vm_compute; by eexists].
  refine (owners_kept (λ t, t) 0 [] (mkQuota None None None None) (λ _, True) demo_spaces s2 demo_spaces_ok _).
  eapply rtc_l; [by apply (sp_serve _ _ _ _ _ (RRemove "w1" "u1") (demo_caller "u1" "a@x"))|].
  eapply rtc_l; [by apply (sp_serve _ _ _ _ _ (RRemove "w1" "u2") (demo_caller "u2" "b@x"))|].
  apply rtc_refl.
Defined.

(** u2 makes u1 a viewer, as an owner. *)
Lemma member_changes_witness :
  let s' := (serve (λ t, t) 0 [] (mkQuota None None None None) (RRole "w1" "u1" RViewer) (demo_caller "u2" "b@x") demo_spaces).2 in
  may_change (demo_caller "u2" "b@x") demo_spaces "w1" "u1" (Some demo_owner) (s'.(ws_members) !! ("w1", "u1")).
Proof.
  intros s'.
  refine (proj1 (member_changes (λ t, t) 0 [] (mkQuota None None None None) (RRole "w1" "u1" RViewer)
    (demo_caller "u2" "b@x") demo_spaces "w1" "u1" "i" demo_invitation I) _).
  by vm_compute.
Defined.

(** The invited user accepts; nobody does again. *)
Lemma invitation_once_witness :
  ∃ x s1, accept (λ t, t) "t1" (demo_caller "u3" "C@x") demo_spaces = (Ok x, s1) ∧
    ∃ e, accept (λ t, t) "t1" (demo_caller "u4" "c@x") s1 = (Err e, s1).
Proof.
  do 2 eexists. split; [by vm_compute|].
  refine (proj2 (invitation_once (λ t, t) 0 [] (mkQuota None None None None) "t1" (demo_caller "u3" "C@x") demo_spaces _ _
    demo_spaces_ok ltac:(by vm_compute)) _ _ (rtc_refl _ _)).
Defined.

(** ** What the routes let happen

    [keep_an_owner] locks nothing: two owners whose requests read before either
    writes both leave, and the workspace has no owner left. *)
Example owners_race :
  let c1 := demo_caller "u1" "a@x" in
  let c2 := demo_caller "u2" "b@x" in
  remove_member_checks "w1" "u1" c1 demo_spaces = (Ok tt, demo_spaces) ∧
  remove_member_checks "w1" "u2" c2 demo_spaces = (Ok tt, demo_spaces) ∧
  count_workspace_owners "w1"
    ((remove_workspace_member "w1" "u1" ;; remove_workspace_member "w1" "u2") demo_spaces).2 = 0.
Proof. by vm_compute. Qed.

(** An owner of a personal workspace with another owner gives up the role and
    then leaves it: only a member who is an owner at the time is kept. *)
Example personal_left :
  let c1 := demo_caller "u1" "a@x" in
  let s := put_members (<[("p1", "u2") := demo_owner]> demo_spaces.(ws_members)) demo_spaces in
  is_ok (remove_member "p1" "u1" c1 s).1 = false ∧
  is_ok ((change_role "p1" "u1" RViewer c1 ≫= λ _, remove_member "p1" "u1" c1) s).1 = true.
Proof. by vm_compute. Qed.

(** A workspace named "Personal projects" counts as personal: its owner may
    neither delete nor leave it. *)
Example personal_by_name :
  let c2 := demo_caller "u2" "b@x" in
  let s := (create_workspace (mkQuota None None None None) "w2" "0a1b2c" "Personal projects" c2 demo_spaces).2 in
  (delete_workspace "w2" c2 s).1 = Err (HTTPException 409 [Txt "a personal workspace can't be deleted"]).
Proof. by vm_compute. Qed.

(** Deleting a workspace drops the rows of its stopped sandboxes, which are all
    that names their runtimes. *)
Example delete_orphans (r : Sandbox) :
  let c1 := demo_caller "u1" "a@x" in
  r.(sb_workspace_id) = "w1" → r.(sb_status) = Stopped → r.(sb_id) = "s1" →
  let s := put_ws_db (set_sandboxes {["s1" := r]} empty_db) demo_spaces in
  let '(x, s') := delete_workspace "w1" c1 s in
  x = Ok tt ∧ s'.(ws_db).(sandboxes) !! "s1" = None.
Proof. destruct r; simpl. intros -> -> ->. by vm_compute. Qed.
