(* ===== verification/Accounts.v ===== *)
(** Accounts and API keys (the routes of src/apps/server/auth_api.py): signing
    up and in, the session token that comes of it, and making, listing and
    revoking keys.  bcrypt, SHA-256 and JSON web tokens are parameters, with
    the laws that make a password or token check out. *)

From S2P Require Import Prelude Tables Store Labels Limits Auth Registry.

(** ** State *)

(** Source: src/db/generated/models.py:398-406 [User]. *)
Record User := mkUser {
  us_email : string;
  us_name : option string;
  us_password : string;
  us_onboarded_at : option time
}.

(** The columns of a key that [Auth] does not read. *)
Record KeyInfo := mkKeyInfo { ki_name : string; ki_prefix : string; ki_created_at : time }.

(** [Auth]'s tables, the users' rows by id, what is shown of each key by its
    hash, the sandboxes, and the three limits of this process. *)
Record Accounts := mkAccounts {
  ac_auth : Auth;
  ac_users : gmap string User;
  ac_keys : gmap string KeyInfo;
  ac_db : Db;
  ac_login_ip : Limit;
  ac_login_email : Limit;
  ac_signup_ip : Limit
}.

Definition put_auth (a : Auth) (s : Accounts) : Accounts :=
  mkAccounts a s.(ac_users) s.(ac_keys) s.(ac_db) s.(ac_login_ip) s.(ac_login_email) s.(ac_signup_ip).
Definition put_key_info (v : gmap string KeyInfo) (s : Accounts) : Accounts :=
  mkAccounts s.(ac_auth) s.(ac_users) v s.(ac_db) s.(ac_login_ip) s.(ac_login_email) s.(ac_signup_ip).
Definition put_users (v : gmap string User) (s : Accounts) : Accounts :=
  mkAccounts s.(ac_auth) v s.(ac_keys) s.(ac_db) s.(ac_login_ip) s.(ac_login_email) s.(ac_signup_ip).
Definition put_login_ip (l : Limit) (s : Accounts) : Accounts :=
  mkAccounts s.(ac_auth) s.(ac_users) s.(ac_keys) s.(ac_db) l s.(ac_login_email) s.(ac_signup_ip).
Definition put_login_email (l : Limit) (s : Accounts) : Accounts :=
  mkAccounts s.(ac_auth) s.(ac_users) s.(ac_keys) s.(ac_db) s.(ac_login_ip) l s.(ac_signup_ip).
Definition put_signup_ip (l : Limit) (s : Accounts) : Accounts :=
  mkAccounts s.(ac_auth) s.(ac_users) s.(ac_keys) s.(ac_db) s.(ac_login_ip) s.(ac_login_email) l.

Definition ac_now (s : Accounts) : time := s.(ac_auth).(a_now).

(** [limit.check(key)] of a limit of this process. *)
Definition hit (limit : Accounts → Limit) (put : Limit → Accounts → Accounts) (key : string) : M Accounts unit := λ s,
  match check key (ac_now s) (limit s) with
  | (Counted, l) => (Ok tt, put l s)
  | (TooMany _, l) => (Err (HTTPException 429 [Txt "too many requests, try again later"]), put l s)
  | (NoFirstHit, l) => (Err IndexError, put l s)
  end.

(** A call that returns or raises. *)
Definition lift {A} (r : result exn A) : M Accounts A :=
  match r with Ok a => mret a | Err e => raise e end.

(** ** Statements *)

(** Source: src/db/generated/query.py:1111-1113 [GET_USER_BY_EMAIL]. *)
Definition user_by_email (email : string) (s : Accounts) : option (string * User) :=
  head (filter (λ x, x.2.(us_email) = email) (map_to_list s.(ac_users))).

(** Source: src/db/generated/query.py:579-583 [CREATE_USER].  Ids and
    addresses are unique. *)
Definition create_user (id : string) (u : User) : M Accounts unit := λ s,
  if bool_decide (s.(ac_users) !! id = None) && is_none (user_by_email u.(us_email) s) then
    let a := s.(ac_auth) in
    (Ok tt, put_auth (mkAuth ({[id]} ∪ a.(a_users)) a.(a_keys) a.(a_members) a.(a_slugs) a.(a_quotas) a.(a_limit)
                        a.(a_queued) a.(a_now)) (put_users (<[id := u]> s.(ac_users)) s))
  else (Err IntegrityError, s).

(** Source: src/db/generated/query.py:2260-2262 [SET_USER_ONBOARDED]. *)
Definition set_user_onboarded (id : string) (s : Accounts) : Accounts :=
  put_users (alter (λ u, mkUser u.(us_email) u.(us_name) u.(us_password)
    (Some (default (ac_now s) u.(us_onboarded_at)))) id s.(ac_users)) s.

(** Source: src/db/generated/query.py:259-266 [CREATE_API_KEY].  Ids
    and hashes are unique. *)
Definition create_api_key (key_hash : string) (key : ApiKey) (info : KeyInfo) : M Accounts unit := λ s,
  let a := s.(ac_auth) in
  if bool_decide (a.(a_keys) !! key_hash = None)
     && bool_decide (filter (λ k : ApiKey, k.(k_id) = key.(k_id)) (rows a.(a_keys)) = []) then
    (Ok tt, put_auth (a_set_keys (<[key_hash := key]> a.(a_keys)) a)
              (put_key_info (<[key_hash := info]> s.(ac_keys)) s))
  else (Err IntegrityError, s).

(** Source: src/db/generated/query.py:1268-1274 [LIST_API_KEYS_BY_WORKSPACE]. *)
Definition list_api_keys_by_workspace (workspace_id : string) (s : Accounts) : list (ApiKey * KeyInfo) :=
  reverse (order_by (λ k, (k.2.(ki_created_at), 0))
    (omap (λ x, if bool_decide (x.2.(k_workspace_id) = workspace_id)
                then Some (x.2, default (mkKeyInfo "" "" 0) (s.(ac_keys) !! x.1)) else None)
       (map_to_list s.(ac_auth).(a_keys)))).

Definition k_revoke (now : time) (k : ApiKey) : ApiKey :=
  mkApiKey k.(k_id) k.(k_workspace_id) k.(k_created_by) k.(k_expires_at) k.(k_last_used_at)
    (Some (default now k.(k_revoked_at))) k.(k_sandbox_id) k.(k_read_only) k.(k_label_selector).

(** Source: src/db/generated/query.py:2014-2019 [REVOKE_API_KEY]. *)
Definition revoke_api_key (id : string) (s : Accounts) : Accounts :=
  let a := s.(ac_auth) in
  put_auth (a_set_keys ((λ k, if bool_decide (k.(k_id) = id) then k_revoke (ac_now s) k else k) <$> a.(a_keys)) a) s.

(** ** Routes *)

(** Source: src/apps/server/auth_api.py:172-178 [UserResponse]. *)
Record UserResponse := mkUserResponse {
  ur_id : string;
  ur_email : string;
  ur_name : option string;
  ur_onboarded_at : option time
}.

(** Source: src/apps/server/auth_api.py:181-195 [ApiKeyRequest]. *)
Record ApiKeyRequest := mkApiKeyRequest {
  kr_name : string;
  kr_sandbox_id : option string;
  kr_label_selector : option labels_dict;
  kr_read_only : bool;
  kr_expires_at : option time
}.

(** Source: src/apps/server/auth_api.py:190-195 [ApiKeyRequest.check_selector]. *)
Definition check_selector (value : option labels_dict) : result exn (option labels_dict) :=
  match value with
  | None => Ok None
  | Some [] => Err (ValueError [Txt "a label selector needs at least one label; leave it out for the whole workspace"])
  | Some l => match validate l with Ok l => Ok (Some l) | Err e => Err e end
  end.

(** Source: src/apps/server/auth_api.py:198-208 [ApiKeyResponse]. *)
Record ApiKeyResponse := mkApiKeyResponse {
  kp_id : string;
  kp_name : string;
  kp_key_prefix : string;
  kp_sandbox_id : option string;
  kp_label_selector : option labels_dict;
  kp_read_only : bool;
  kp_expires_at : option time;
  kp_last_used_at : option time;
  kp_revoked_at : option time;
  kp_created_at : time
}.

(** Source: src/apps/server/auth_api.py:211-223 [key_response]. *)
Definition key_response (row : ApiKey * KeyInfo) : ApiKeyResponse :=
  let '(k, i) := row in
  mkApiKeyResponse k.(k_id) i.(ki_name) i.(ki_prefix) k.(k_sandbox_id) k.(k_label_selector) k.(k_read_only)
    k.(k_expires_at) k.(k_last_used_at) k.(k_revoked_at) i.(ki_created_at).

(** Source: src/apps/server/auth_api.py:243-251 [me]. *)
Definition me (user : Member) (s : Accounts) : option UserResponse :=
  (λ u, mkUserResponse user.(m_id) u.(us_email) u.(us_name) u.(us_onboarded_at)) <$> s.(ac_users) !! user.(m_id).

(** Source: src/apps/server/auth_api.py:253-256 [onboarded]. *)
Definition onboarded (user : Member) : M Accounts unit := modify (set_user_onboarded user.(m_id)).

(** Source: src/apps/server/auth_api.py:258-262 [list_keys]. *)
Definition list_keys (user : Member) : M Accounts (list ApiKeyResponse) :=
  gets (λ s, key_response <$> list_api_keys_by_workspace user.(m_workspace_id) s).

Definition ACCESS_TOKEN_TTL : time := sec (24 * 3600).

Section routes.
(** SHA-256; bcrypt with the salt drawn (it refuses more than 72 bytes); the token of a subject that ends at a
    time, and the subject of a token at a time ([None]: it does not decode). *)
Context (hash_key : string → string) (hash_pass : string → string → result exn string)
  (verify_pass : string → string → result exn bool).
Context (jwt_encode : string → time → string) (jwt_decode : time → string → option (option string)).

(** Source: src/apps/server/auth_api.py:264-296 [create_key].  [secret] is the
    key's text after its prefix, [id] the uuid drawn. *)
Definition create_key (id secret : string) (payload : ApiKeyRequest) (user : Member)
    : M Accounts (string * ApiKeyResponse) :=
  guard_ (is_none payload.(kr_sandbox_id) || is_none payload.(kr_label_selector))
    (HTTPException 422 [Txt "a key is for one sandbox or for labels, not both"]);;
  sandbox ← gets (λ s, x ← payload.(kr_sandbox_id); get_sandbox x s.(ac_db));
  guard_ (is_none payload.(kr_sandbox_id)
          || match sandbox with
             | Some x => bool_decide (x.(sb_workspace_id) = user.(m_workspace_id))
                         && negb (bool_decide (x.(sb_status) = Deleted))
             | None => false
             end)
    (HTTPException 404 [Txt "sandbox not found"]);;
  now ← gets ac_now;
  guard_ (match payload.(kr_expires_at) with Some t => bool_decide (now < t) | None => true end)
    (HTTPException 422 [Txt "expires_at is in the past"]);;
  let key := API_KEY_PREFIX +:+ secret in
  let row := mkApiKey id user.(m_workspace_id) user.(m_id) payload.(kr_expires_at) None None payload.(kr_sandbox_id)
               payload.(kr_read_only) payload.(kr_label_selector) in
  let info := mkKeyInfo payload.(kr_name) (String.substring 0 12 key) now in
  create_api_key (hash_key key) row info;;
  mret (key, key_response (row, info)).

(** Source: src/apps/server/auth_api.py:298-305 [revoke_key]. *)
Definition revoke_key (key_id : string) (user : Member) : M Accounts (list ApiKeyResponse) :=
  keys ← gets (list_api_keys_by_workspace user.(m_workspace_id));
  guard_ (existsb (λ r, bool_decide (r.1.(k_id) = key_id)) keys) (HTTPException 404 [Txt "api key not found"]);;
  modify (revoke_api_key key_id);;
  list_keys user.

(** Source: src/apps/server/auth_api.py:307-311 [AuthApi._create_token].  The token
    and the user's id. *)
Definition create_token (user_id : string) : M Accounts (string * string) :=
  now ← gets ac_now;
  mret (jwt_encode user_id (now + ACCESS_TOKEN_TTL), user_id).

(** Source: src/apps/server/auth_api.py:313-335 [AuthApi.register].  [salt] and
    [id] are drawn. *)
Definition register (id salt ip email password : string) (name : option string) : M Accounts (string * string) :=
  hit ac_signup_ip put_signup_ip ip;;
  taken ← gets (user_by_email (lower email));
  guard_ (is_none taken) (HTTPException 400 [Txt "user already exists with this email"]);;
  hashed_pwd ← lift (hash_pass salt password);
  create_user id (mkUser (lower email) name hashed_pwd None);;
  create_token id.

(** Source: src/apps/server/auth_api.py:337-348 [AuthApi.login]. *)
Definition login (ip email password : string) : M Accounts (string * string) :=
  hit ac_login_ip put_login_ip ip;;
  hit ac_login_email put_login_email (lower email);;
  user ← gets (user_by_email (lower email));
  match user with
  | Some (id, u) =>
      ok ← lift (verify_pass u.(us_password) password);
      guard_ ok (HTTPException 401 [Txt "invalid email or password"]);;
      create_token id
  | None => raise (HTTPException 401 [Txt "invalid email or password"])
  end.
(** ** What the system goes through

    Time passes, requests of these routes are served, and tokens are looked
    up. *)
Inductive accounts_step : Accounts → Accounts → Prop :=
| as_tick s now : ac_now s ≤ now →
    let a := s.(ac_auth) in
    accounts_step s (put_auth (mkAuth a.(a_users) a.(a_keys) a.(a_members) a.(a_slugs) a.(a_quotas) a.(a_limit)
      a.(a_queued) now) s)
| as_register id salt ip email password name s : accounts_step s (register id salt ip email password name s).2
| as_login ip email password s : accounts_step s (login ip email password s).2
| as_onboarded user s : accounts_step s (onboarded user s).2
| as_create_key id secret payload user s : accounts_step s (create_key id secret payload user s).2
| as_revoke_key key_id user s : accounts_step s (revoke_key key_id user s).2
| as_lookup token workspace fresh s :
    accounts_step s (put_auth (user_from_token hash_key (jwt_decode (ac_now s)) token workspace fresh s.(ac_auth)).2 s).

(** ** Lemmas *)
Lemma hit_cases limit put key s :
  (∃ l, hit limit put key s = (Ok tt, put l s)) ∨
  (∃ e l, hit limit put key s = (Err e, put l s) ∧ (check key (ac_now s) (limit s)).1 ≠ Counted).
Proof. unfold hit. destruct (check _ _ _) as [[] l]; simpl; [left|right|right]; eauto. Qed.

Lemma hit_ok limit put key s x s' :
  hit limit put key s = (Ok x, s') → ∃ l, s' = put l s ∧ (check key (ac_now s) (limit s)).1 = Counted.
Proof. unfold hit. destruct (check _ _ _) as [[] l]; intros; simplify_eq. eauto. Qed.

Lemma hit_counted limit put key s :
  (check key (ac_now s) (limit s)).1 = Counted → ∃ l, hit limit put key s = (Ok tt, put l s).
Proof. unfold hit. destruct (check _ _ _) as [[] l]; simpl; intros; simplify_eq. eauto. Qed.

Lemma user_by_email_Some email s id u :
  user_by_email email s = Some (id, u) → s.(ac_users) !! id = Some u ∧ u.(us_email) = email.
Proof.
  unfold user_by_email. intros H%head_Some_elem_of. apply list_elem_of_filter in H as [He Hin%elem_of_map_to_list]. done.
Qed.

Lemma user_by_email_None email s :
  user_by_email email s = None ↔ ∀ id u, s.(ac_users) !! id = Some u → u.(us_email) ≠ email.
Proof.
  unfold user_by_email. split.
  - intros H id u Hu He. apply head_None in H.
    assert ((id, u) ∈ []) as Hin; [|by apply elem_of_nil in Hin].
    rewrite <- H. apply list_elem_of_filter. split; [done|]. by apply elem_of_map_to_list.
  - intros H. destruct (head _) as [[id u]|] eqn:E; [|done]. apply head_Some_elem_of in E.
    apply list_elem_of_filter in E as [He Hin%elem_of_map_to_list]. by destruct (H id u Hin).
Qed.

(** The only user of an address is the one found by it. *)
Lemma user_by_email_only email s id u :
  s.(ac_users) !! id = Some u → u.(us_email) = email →
  (∀ id' u', s.(ac_users) !! id' = Some u' → u'.(us_email) = email → id' = id) →
  user_by_email email s = Some (id, u).
Proof.
  intros Hu He Hun. destruct (user_by_email email s) as [[id' u']|] eqn:E.
  - apply user_by_email_Some in E as [Hu' He']. pose proof (Hun _ _ Hu' He') as ->. congruence.
  - by destruct (proj1 (user_by_email_None _ _) E _ _ Hu).
Qed.

Lemma register_ok id salt ip email password name s token id' s' :
  register id salt ip email password name s = (Ok (token, id'), s') →
  ∃ h, hash_pass salt password = Ok h ∧ id' = id ∧ token = jwt_encode id (ac_now s + ACCESS_TOKEN_TTL) ∧
    s'.(ac_users) = <[id := mkUser (lower email) name h None]> s.(ac_users) ∧
    (∀ i u, s.(ac_users) !! i = Some u → u.(us_email) ≠ lower email) ∧ ac_now s' = ac_now s ∧
    s'.(ac_auth).(a_users) = {[id]} ∪ s.(ac_auth).(a_users) ∧ s.(ac_users) !! id = None.
Proof.
  unfold register, create_user, create_token, lift. intros H. inv_ok.
  match goal with H : hit _ _ _ _ = _ |- _ => apply hit_ok in H as (l & -> & _) end.
  destruct (hash_pass salt password) as [h|e] eqn:Eh; inv_ok. case_match; simplify_eq.
  match goal with H : _ && _ = true |- _ => apply andb_true_iff in H as [Hid%bool_decide_eq_true _] end.
  eexists. split; [reflexivity|]. split_and!; try done. apply user_by_email_None.
  match goal with H : is_none (user_by_email ?x ?y) = true |- _ =>
    change (is_none (user_by_email x s) = true) in H; by destruct (user_by_email x s) end.
Qed.
Lemma login_ok ip email password s token id s' :
  login ip email password s = (Ok (token, id), s') →
  ∃ u, s.(ac_users) !! id = Some u ∧ u.(us_email) = lower email ∧ verify_pass u.(us_password) password = Ok true ∧
    token = jwt_encode id (ac_now s + ACCESS_TOKEN_TTL) ∧
    s'.(ac_users) = s.(ac_users) ∧ s'.(ac_auth) = s.(ac_auth) ∧
    (check (lower email) (ac_now s) s.(ac_login_email)).1 = Counted.
Proof.
  unfold login, create_token, lift. intros H. inv_ok.
  match goal with H : hit ac_login_ip _ _ _ = _ |- _ => apply hit_ok in H as (l & -> & _) end.
  match goal with H : hit ac_login_email _ _ _ = _ |- _ => apply hit_ok in H as (l2 & -> & Hl) end.
  match goal with H : (match ?x with _ => _ end) _ = _ |- _ => destruct x as [[i u]|] eqn:Eu; inv_ok end.
  destruct (verify_pass u.(us_password) password) as [b|e] eqn:Ev; inv_ok.
  match goal with H : guard_ _ _ _ = _ |- _ => idtac | _ => idtac end.
  apply user_by_email_Some in Eu as [Hu He]. exists u. split_and!; try done.
Qed.

(** A login by the right password goes through when neither limit is reached. *)
Lemma login_run ip email password s id u :
  (check ip (ac_now s) s.(ac_login_ip)).1 = Counted →
  (check (lower email) (ac_now s) s.(ac_login_email)).1 = Counted →
  user_by_email (lower email) s = Some (id, u) → verify_pass u.(us_password) password = Ok true →
  ∃ s', login ip email password s = (Ok (jwt_encode id (ac_now s + ACCESS_TOKEN_TTL), id), s').
Proof.
  intros H1 H2 Hu Hv. unfold login. destruct (hit_counted _ put_login_ip _ _ H1) as [l E1].
  rewrite (bind_ok _ _ _ _ _ E1).
  destruct (hit_counted ac_login_email put_login_email (lower email) (put_login_ip l s) H2) as [l2 E2].
  rewrite (bind_ok _ _ _ _ _ E2). run.
  assert (user_by_email (lower email) (put_login_email l2 (put_login_ip l s)) = Some (id, u)) as -> by exact Hu.
  rewrite Hv. simpl lift. run. unfold create_token. run. eauto.
Qed.

(** ** Properties *)

(** Whoever signed up can sign in: right after a registration, a login
    with the address (in any case) and a password goes through, within the
    limits, exactly when the password is the one registered, for the user just
    made; and an address has one user. *)
Theorem register_login id salt ip email password name s r s1 ip' email' password' :
  (∀ h p p', hash_pass salt p = Ok h → verify_pass h p' = Ok (bool_decide (p = p'))) →
  register id salt ip email password name s = (Ok r, s1) → lower email' = lower email →
  (check ip' (ac_now s1) s1.(ac_login_ip)).1 = Counted →
  (check (lower email') (ac_now s1) s1.(ac_login_email)).1 = Counted →
  r.2 = id ∧
  ((∃ x s2, login ip' email' password' s1 = (Ok x, s2)) ↔ password' = password) ∧
  (∀ x s2, login ip' email' password' s1 = (Ok x, s2) → x.2 = id) ∧
  ∀ x s2 ip2 id2 salt2 name2, register id2 salt2 ip2 email' password' name2 s1 ≠ (Ok x, s2).
Proof.
  intros Hlaw Hr He Hip Hem. destruct r as [token id']. apply register_ok in Hr as (h & Hh & -> & _ & Hus & Hno & _).
  assert (user_by_email (lower email') s1 = Some (id, mkUser (lower email) name h None)) as Hu.
  { apply user_by_email_only; [rewrite Hus; apply lookup_insert_eq|done|].
    intros id' u'. rewrite Hus, lookup_insert_Some. intros [[<- _]|[_ Hu']] Heq; [done|].
    by destruct (Hno _ _ Hu'); rewrite Heq, He. }
  assert (∀ x s2, login ip' email' password' s1 = (Ok x, s2) → x.2 = id ∧ password' = password) as Hl.
  { intros [tk i] s2 Hl. apply login_ok in Hl as (u & Hi & Heu & Hv & _).
    assert (i = id) as ->.
    { rewrite Hus, lookup_insert_Some in Hi. destruct Hi as [[<- _]|[_ Hi]]; [done|].
      destruct (Hno _ _ Hi). congruence. }
    rewrite Hus, lookup_insert_eq in Hi. simplify_eq/=. rewrite (Hlaw _ _ password' Hh) in Hv. simplify_eq.
    match goal with H : bool_decide _ = true |- _ => by apply bool_decide_eq_true in H end. }
  split; [done|]. split; [split|split].
  - intros (x & s2 & H). by apply Hl in H as [_ ?].
  - intros ->. destruct (login_run ip' email' password s1 id _ Hip Hem Hu) as [s' E]; [|eauto].
    simpl. rewrite (Hlaw _ _ password Hh). by rewrite bool_decide_true.
  - intros x s2 H. by apply Hl in H as [? _].
  - intros [tk i] s2 ip2 id2 salt2 name2 H. apply register_ok in H as (_ & _ & _ & _ & _ & Hn & _).
    apply (Hn id (mkUser (lower email) name h None)); [|done]. rewrite Hus. apply lookup_insert_eq.
Qed.
(** A key of this id exists, and all of them are revoked. *)
Definition dead (key_id : string) (a : Auth) : Prop :=
  (∃ h k, a.(a_keys) !! h = Some k ∧ k.(k_id) = key_id) ∧
  ∀ h k, a.(a_keys) !! h = Some k → k.(k_id) = key_id → k.(k_revoked_at) ≠ None.

(** A change of rows that keeps ids and takes no revocation back. *)
Lemma dead_keys key_id a a' (f : string → ApiKey → ApiKey) :
  (∀ h k, (f h k).(k_id) = k.(k_id) ∧ (k.(k_revoked_at) ≠ None → (f h k).(k_revoked_at) ≠ None)) →
  (∀ h, a'.(a_keys) !! h = f h <$> a.(a_keys) !! h) → dead key_id a → dead key_id a'.
Proof.
  intros Hf Hk [(h & k & Hh & Hid) Hd]. split.
  - exists h, (f h k). rewrite Hk, Hh. split; [done|]. by rewrite (proj1 (Hf h k)).
  - intros h' k'. rewrite Hk. intros Hk' Hid'. destruct (a.(a_keys) !! h') as [k0|] eqn:E; simplify_eq/=.
    apply Hf. eapply Hd; [exact E|]. by rewrite <- (proj1 (Hf h' k0)).
Qed.

Lemma dead_same key_id a a' : a'.(a_keys) = a.(a_keys) → dead key_id a → dead key_id a'.
Proof. intros E. unfold dead. by rewrite E. Qed.

Lemma dead_limit_key key_id k : preserves (dead key_id) (limit_key k).
Proof. intros a Ha. unfold limit_key. destruct (check _ _ _) as [[] l]; simpl; by eapply dead_same. Qed.

Lemma dead_personal key_id u fresh : preserves (dead key_id) (personal_workspace u fresh).
Proof.
  intros a Ha. unfold personal_workspace. rewrite (bind_ok get _ a a a eq_refl). destruct (a.(a_slugs) !! _); [done|].
  run. simpl. by eapply dead_same.
Qed.

Lemma dead_lookup key_id subject token workspace fresh :
  preserves (dead key_id) (user_from_token hash_key subject token workspace fresh).
Proof.
  unfold user_from_token. apply preserves_bind; [apply preserves_get|intros a0].
  destruct (startswith token API_KEY_PREFIX).
  - destruct (get_api_key_by_hash _ _) as [key|]; [|apply preserves_ret].
    apply preserves_bind; [apply preserves_guard|intros _]. apply preserves_bind; [apply dead_limit_key|intros _].
    destruct (get_workspace_member _ _ _) as [m|]; [|apply preserves_ret]. destruct (_ && _); [|apply preserves_ret].
    apply preserves_bind; [|intros _; apply preserves_ret]. apply preserves_when, preserves_modify. intros a Ha.
    apply (dead_keys key_id a _ (λ h k, if decide (h = hash_key token) then k_set_last_used a.(a_now) k else k)); [| |done].
    + intros h k. by case_decide.
    + intros h. simpl. destruct (decide (h = hash_key token)) as [->|Hh]; [by rewrite lookup_alter_eq|].
      rewrite lookup_alter_ne by done. by destruct (a.(a_keys) !! h).
  - destruct (subject token) as [[sub|]|]; [|apply preserves_ret..]. case_bool_decide; [|apply preserves_ret].
    apply preserves_bind; [destruct (str_or_none workspace); [apply preserves_ret|apply dead_personal]|intros w].
    apply preserves_bind; [apply preserves_get|intros a1]. destruct (get_workspace_member _ _ _); [|apply preserves_raise].
    case_bool_decide; [apply preserves_ret|apply preserves_raise].
Qed.

Definition dead_in (key_id : string) (s : Accounts) : Prop := dead key_id s.(ac_auth).

Lemma dead_hit key_id limit put key :
  (∀ l s, (put l s).(ac_auth) = s.(ac_auth)) → preserves (dead_in key_id) (hit limit put key).
Proof.
  intros Hp s Hs. unfold hit, dead_in in *. destruct (check _ _ _) as [[] l]; simpl; by rewrite Hp.
Qed.

Lemma dead_lift {A} key_id (r : result exn A) : preserves (dead_in key_id) (lift r).
Proof. destruct r; [apply preserves_ret|apply preserves_raise]. Qed.

Lemma dead_create_user key_id id u : preserves (dead_in key_id) (create_user id u).
Proof. intros s Hs. unfold create_user. by destruct (_ && _). Qed.

Lemma dead_create_token key_id id : preserves (dead_in key_id) (create_token id).
Proof. by intros s. Qed.

Lemma dead_create_api_key key_id h k i : preserves (dead_in key_id) (create_api_key h k i).
Proof.
  intros s [(h0 & k0 & Hh0 & Hid0) Hd]. unfold create_api_key. destruct (_ && _) eqn:E; [|split; [by exists h0, k0|done]].
  apply andb_true_iff in E as [Hn%bool_decide_eq_true Hf%bool_decide_eq_true]. unfold dead_in, dead. simpl. split.
  - exists h0, k0. rewrite lookup_insert_ne; [done|]. intros ->. congruence.
  - intros h' k'. rewrite lookup_insert_Some. intros [[<- <-]|[_ H]] Hid; [|by eauto].
    assert (k0 ∈ []) as Hin; [|by apply elem_of_nil in Hin].
    rewrite <- Hf. apply list_elem_of_filter. split; [congruence|]. apply elem_of_rows. eauto.
Qed.

Lemma dead_revoke key_id kid s : dead_in key_id s → dead_in key_id (revoke_api_key kid s).
Proof.
  apply (dead_keys key_id _ _ (λ _ k, if bool_decide (k.(k_id) = kid) then k_revoke (ac_now s) k else k)).
  - intros h k. by case_bool_decide.
  - intros h. simpl. by rewrite lookup_fmap.
Qed.

(** Breaks a computation into its statements. *)
Ltac dead_parts :=
  repeat match goal with
  | |- preserves _ (_ ≫= _) => apply preserves_bind; [|intros ?]
  | |- preserves _ (gets _) => apply preserves_gets
  | |- preserves _ (guard_ _ _) => apply preserves_guard
  | |- preserves _ (mret _) => apply preserves_ret
  | |- preserves _ (raise _) => apply preserves_raise
  | |- preserves _ (lift _) => apply dead_lift
  | |- preserves _ (hit _ _ _) => by apply dead_hit
  | |- preserves _ (match ?x with _ => _ end) => destruct x
  end.

Lemma dead_step key_id s s' : accounts_step s s' → dead_in key_id s → dead_in key_id s'.
Proof.
  intros Hst Hd. destruct Hst as [s now _|id salt ip email password name s|ip email password s|user s|
    id secret payload user s|kid user s|token workspace fresh s].
  - by eapply dead_same.
  - revert s Hd. change (preserves (dead_in key_id) (register id salt ip email password name)). unfold register.
    dead_parts; [apply dead_create_user|apply dead_create_token].
  - revert s Hd. change (preserves (dead_in key_id) (login ip email password)). unfold login.
    dead_parts. apply dead_create_token.
  - done.
  - revert s Hd. change (preserves (dead_in key_id) (create_key id secret payload user)). unfold create_key.
    dead_parts. apply dead_create_api_key.
  - revert s Hd. change (preserves (dead_in key_id) (revoke_key kid user)). unfold revoke_key, list_keys.
    dead_parts. apply preserves_modify, dead_revoke.
  - by apply dead_lookup.
Qed.

(** A key that was revoked stays useless: once a member has revoked it,
    whatever sign-ups, logins, new keys, revocations and lookups follow, no
    token of a key with its id is accepted by either way of looking tokens up.
    Only members of its own workspace can revoke it, and revoking one that is
    not there says 404 and changes nothing. *)
Theorem key_revoked key_id user s :
  match revoke_key key_id user s with
  | (Ok _, s1) =>
      (∃ h k, s.(ac_auth).(a_keys) !! h = Some k ∧ k.(k_id) = key_id ∧ k.(k_workspace_id) = user.(m_workspace_id)) ∧
      ∀ s2, rtc accounts_step s1 s2 → ∀ h k, s2.(ac_auth).(a_keys) !! h = Some k → k.(k_id) = key_id →
        get_api_key_by_hash h s2.(ac_auth) = None
  | (Err e, s1) =>
      s1 = s ∧ e = HTTPException 404 [Txt "api key not found"] ∧
      ∀ h k, s.(ac_auth).(a_keys) !! h = Some k → k.(k_id) = key_id → k.(k_workspace_id) ≠ user.(m_workspace_id)
  end.
Proof.
  assert (existsb (λ r, bool_decide (r.1.(k_id) = key_id)) (list_api_keys_by_workspace user.(m_workspace_id) s) = true ↔
    ∃ h k, s.(ac_auth).(a_keys) !! h = Some k ∧ k.(k_id) = key_id ∧ k.(k_workspace_id) = user.(m_workspace_id)) as Hex.
  { rewrite existsb_exists. split.
    - intros ([k i] & Hin & Hid%bool_decide_eq_true). apply list_elem_of_In in Hin.
      unfold list_api_keys_by_workspace in Hin. rewrite elem_of_reverse, elem_of_order_by, list_elem_of_omap in Hin.
      destruct Hin as ([h k'] & Hin%elem_of_map_to_list & Hw). simpl in *. case_bool_decide; simplify_eq. eauto.
    - intros (h & k & Hk & Hid & Hw). exists (k, default (mkKeyInfo "" "" 0) (s.(ac_keys) !! h)).
      split; [|by apply bool_decide_eq_true]. apply list_elem_of_In. unfold list_api_keys_by_workspace.
      rewrite elem_of_reverse, elem_of_order_by, list_elem_of_omap. exists (h, k).
      split; [by apply elem_of_map_to_list|]. simpl. by rewrite bool_decide_true. }
  unfold revoke_key. run. destruct (existsb _ _) eqn:E; run.
  - split; [by apply Hex|]. apply proj1 in Hex. specialize (Hex eq_refl).
    intros s2 Hr h k Hk Hid.
    assert (dead_in key_id (revoke_api_key key_id s)) as Hd.
    { destruct Hex as (h0 & k0 & Hh0 & Hid0 & _). split.
      - exists h0, (k_revoke (ac_now s) k0). simpl. rewrite lookup_fmap, Hh0. csimpl. by rewrite bool_decide_true.
      - intros h' k'. simpl. rewrite lookup_fmap_Some. intros (k1 & <- & _).
        case_bool_decide; [by destruct (k_revoked_at k1)|]. intros ?. done. }
    assert (dead_in key_id s2) as [_ Hd2].
    { clear Hk. revert Hd. unfold list_keys in Hr. simpl in Hr. induction Hr as [|x y z Hst _ IH]; [done|].
      intros Hx. by eapply IH, dead_step. }
    unfold get_api_key_by_hash. rewrite Hk. specialize (Hd2 h k Hk Hid). by destruct (k.(k_revoked_at)).
  - split; [done|]. split; [done|]. intros h k Hk Hid Hw. apply proj2 in Hex.
    enough (false = true) by done. apply Hex. eauto.
Qed.
Lemma prefix_api_key secret : startswith (API_KEY_PREFIX +:+ secret) API_KEY_PREFIX = true.
Proof. unfold startswith, API_KEY_PREFIX. by destruct secret. Qed.

Lemma create_key_ok id secret payload user s key r s1 :
  create_key id secret payload user s = (Ok (key, r), s1) →
  key = API_KEY_PREFIX +:+ secret ∧ (payload.(kr_sandbox_id) = None ∨ payload.(kr_label_selector) = None) ∧
  (∀ x, payload.(kr_sandbox_id) = Some x →
     ∃ sb, get_sandbox x s.(ac_db) = Some sb ∧ sb.(sb_workspace_id) = user.(m_workspace_id) ∧ sb.(sb_status) ≠ Deleted) ∧
  s1.(ac_auth) = a_set_keys (<[hash_key key := mkApiKey id user.(m_workspace_id) user.(m_id) payload.(kr_expires_at) None
    None payload.(kr_sandbox_id) payload.(kr_read_only) payload.(kr_label_selector)]> s.(ac_auth).(a_keys)) s.(ac_auth).
Proof.
  unfold create_key. destruct payload as [name sandbox selector ro expires]. simpl.
  intros (? & s2 & [E1 ->]%guard_ok_inv & H)%bind_ok_inv. rewrite run_bind_gets in H.
  apply bind_ok_inv in H as (? & s3 & [E2 ->]%guard_ok_inv & H). rewrite run_bind_gets in H.
  apply bind_ok_inv in H as (? & s4 & [_ ->]%guard_ok_inv & H). unfold create_api_key in H. inv_ok.
  case_match; simplify_eq/=. split; [done|]. split.
  - apply orb_true_iff in E1 as [E1|E1]; [left; by destruct sandbox|right; by destruct selector].
  - split; [|done]. intros sid ->. simpl in E2. destruct (get_sandbox sid _) as [sb|]; [|done]. exists sb.
    apply andb_true_iff in E2 as [Hw%bool_decide_eq_true Hd%negb_true_iff%bool_decide_eq_false]. done.
Qed.

(** A key does what it was made for, and no more.  A key just made names
    its a sandbox of its maker's workspace, or labels, never both.  From then until
    it expires, while the maker is an active member, within the rate limit, its
    token is accepted; whoever presents it acts as the maker in that workspace,
    as a member (a viewer when the key is read-only or the maker is one), with
    the sandbox or labels asked for. *)
Theorem key_as_made id secret payload user s key r s1 now l m workspace fresh subject :
  create_key id secret payload user s = (Ok (key, r), s1) →
  let a := mkAuth s1.(ac_auth).(a_users) s1.(ac_auth).(a_keys) s1.(ac_auth).(a_members) s1.(ac_auth).(a_slugs)
             s1.(ac_auth).(a_quotas) l s1.(ac_auth).(a_queued) now in
  (payload.(kr_sandbox_id) = None ∨ payload.(kr_label_selector) = None) ∧
  (∀ x, payload.(kr_sandbox_id) = Some x →
     ∃ sb, get_sandbox x s.(ac_db) = Some sb ∧ sb.(sb_workspace_id) = user.(m_workspace_id) ∧ sb.(sb_status) ≠ Deleted) ∧
  (user.(m_id) ∈ s.(ac_auth).(a_users) →
   s.(ac_auth).(a_members) !! (user.(m_workspace_id), user.(m_id)) = Some m → m.(ms_status) = MActive →
   (∀ w, workspace = Some w → w = user.(m_workspace_id)) → (check id now l).1 = Counted →
   ((∃ u a', user_from_token hash_key subject key workspace fresh a = (Ok (Some u), a')) ↔
    (∀ t, payload.(kr_expires_at) = Some t → now < t)) ∧
   ∀ u a', user_from_token hash_key subject key workspace fresh a = (Ok (Some u), a') →
     u = mkMember user.(m_id) user.(m_workspace_id)
           (if payload.(kr_read_only) || bool_decide (m.(ms_role) = RViewer) then RViewer else RMember)
           (Some id) payload.(kr_sandbox_id) payload.(kr_label_selector)).
Proof.
  intros H a. apply create_key_ok in H as (-> & Hone & Hsb & Ha). split; [done|]. split; [done|].
  intros Hu Hm Hst Hw Hc. set (row := mkApiKey id _ _ _ _ _ _ _ _) in Ha.
  assert (a.(a_keys) !! hash_key (API_KEY_PREFIX +:+ secret) = Some row) as Hrow.
  { unfold a. simpl. rewrite Ha. apply lookup_insert_eq. }
  assert (∀ u, (∃ a', user_from_token hash_key subject (API_KEY_PREFIX +:+ secret) workspace fresh a = (Ok (Some u), a')) ↔
    (∀ t, payload.(kr_expires_at) = Some t → now < t) ∧ u = key_member row m) as Hk.
  { intros u. rewrite sync_key by apply prefix_api_key. unfold key_accepts, get_api_key_by_hash. rewrite Hrow. simpl.
    split.
    - intros (k & m' & Hg & -> & Hm' & _). destruct (match payload.(kr_expires_at) with Some _ => _ | None => _ end) eqn:E;
        simplify_eq/=. rewrite Ha in Hm'. simpl in Hm'. simplify_eq. split; [|done].
      intros t Ht. rewrite Ht in E. by apply bool_decide_eq_true in E.
    - intros [He ->]. exists row, m.
      assert ((match payload.(kr_expires_at) with Some t => bool_decide (now < t) | None => true end) = true) as ->.
      { destruct payload.(kr_expires_at); [|done]. by apply bool_decide_eq_true, He. }
      rewrite Ha. simpl. done. }
  split.
  - split; [intros (u & Hx); by apply Hk in Hx as [? _]|]. intros He. exists (key_member row m). by apply Hk.
  - intros u a' Hx. assert (∃ a', user_from_token hash_key subject (API_KEY_PREFIX +:+ secret) workspace fresh a =
      (Ok (Some u), a')) as Hx' by eauto. by apply Hk in Hx' as [_ ->].
Qed.
(** A session lasts as long as its token says.  The token a sign-in
    returns at a time [t] makes its user, without X-Zoo-Workspace, the owner of
    a personal workspace made then, or what they are in the one they have,
    until 24 hours after [t]; after that it is refused. *)
Theorem session_token ip email password s token id s1 now fresh :
  (∀ sub exp now, jwt_decode now (jwt_encode sub exp) = if bool_decide (now < exp) then Some (Some sub) else None) →
  (∀ sub exp, startswith (jwt_encode sub exp) API_KEY_PREFIX = false) →
  login ip email password s = (Ok (token, id), s1) → id ∈ s1.(ac_auth).(a_users) →
  let a := mkAuth s1.(ac_auth).(a_users) s1.(ac_auth).(a_keys) s1.(ac_auth).(a_members) s1.(ac_auth).(a_slugs)
             s1.(ac_auth).(a_quotas) s1.(ac_auth).(a_limit) s1.(ac_auth).(a_queued) now in
  let r := (user_from_token hash_key (jwt_decode now) token None fresh a).1 in
  if bool_decide (now < ac_now s + ACCESS_TOKEN_TTL) then
    match a.(a_slugs) !! ("personal-" +:+ id) with
    | None => r = Ok (Some (mkMember id fresh ROwner None None None))
    | Some w =>
        ∀ m, a.(a_members) !! (w, id) = Some m → m.(ms_status) = MActive →
          r = Ok (Some (mkMember id w m.(ms_role) None None None))
    end
  else r = Ok None.
Proof.
  intros Hlaw Hpre Hl Hin a r. apply login_ok in Hl as (u & _ & _ & _ & -> & _ & Ha & _). subst r.
  unfold user_from_token. rewrite (bind_ok get _ a a a eq_refl), Hpre, Hlaw. case_bool_decide; [|done].
  assert (bool_decide (id ∈ a_users a) = true) as -> by (by apply bool_decide_eq_true).
  simpl str_or_none. unfold personal_workspace.
  rewrite run_bind_assoc, (bind_ok get _ a a a eq_refl). destruct (a_slugs a !! _) as [w|] eqn:Es.
  - intros m Hm Hst. run. rewrite (bind_ok get _ a a a eq_refl). unfold get_workspace_member. rewrite Hm.
    by rewrite bool_decide_true.
  - run. rewrite (bind_ok get _ _ _ _ eq_refl). unfold get_workspace_member. simpl. by rewrite lookup_insert_eq.
Qed.
End routes.

(** ** Witnesses *)

Definition demo_hash (salt p : string) : result exn string :=
  if (String.length p <=? 72)%nat then Ok p else Err (ValueError [Txt "password cannot be longer than 72 bytes"]).
Definition demo_verify (h p : string) : result exn bool := Ok (bool_decide (h = p)).
Definition demo_accounts : Accounts := mkAccounts demo_auth ∅ ∅ empty_db LOGIN_PER_IP LOGIN_PER_EMAIL SIGNUP_PER_IP.

(** A token of the end's digits and the subject. *)
Definition demo_encode (sub : string) (exp : time) : string := "ey" +:+ digits (encode exp) sub.
Definition demo_decode (now : time) (token : string) : option (option string) :=
  match token with
  | String "e" (String "y" s) =>
      match undigits s with
      | Some (p, sub) => match decode p with
                         | Some exp => if bool_decide (now < exp) then Some (Some sub) else None
                         | None => None
                         end
      | None => None
      end
  | _ => None
  end.

Lemma demo_decode_encode sub exp now :
  demo_decode now (demo_encode sub exp) = if bool_decide (now < exp) then Some (Some sub) else None.
Proof.
  change (demo_encode sub exp) with (String "e" (String "y" (digits (encode exp) sub))).
  cbv beta iota delta [demo_decode]. by rewrite undigits_digits, decode_encode.
Qed.

Definition demo_registered : Accounts :=
  (register demo_hash demo_encode "u2" "" "ip" "Ann@X" "password1" None demo_accounts).2.

Lemma register_login_witness :
  (∃ x s2, login demo_verify demo_encode "ip" "ann@x" "password1" demo_registered = (Ok x, s2)) ∧
  ¬ (∃ x s2, login demo_verify demo_encode "ip" "ann@x" "password2" demo_registered = (Ok x, s2)).
Proof.
  pose proof (λ p, register_login demo_hash demo_verify demo_encode "u2" "" "ip" "Ann@X" "password1" None demo_accounts
    (demo_encode "u2" (0 + ACCESS_TOKEN_TTL), "u2") demo_registered "ip" "ann@x" p) as H.
  assert (∀ h p p', demo_hash "" p = Ok h → demo_verify h p' = Ok (bool_decide (p = p'))) as Hlaw.
  { unfold demo_hash, demo_verify. intros h p p'. destruct (_ <=? _)%nat; intros [=]; by subst. }
  split.
  - apply (H "password1" Hlaw); by vm_compute.
  - intros Hx. apply (H "password2" Hlaw) in Hx; [by vm_compute in Hx|by vm_compute..].
Defined.

Definition demo_payload : ApiKeyRequest := mkApiKeyRequest "ci" None (Some [("team", "a")]) true (Some (sec 60)).
Definition demo_maker : Member := mkMember "u1" "w1" ROwner None None None.
Definition demo_row : ApiKey := mkApiKey "k" "w1" "u1" (Some (sec 60)) None None None true (Some [("team", "a")]).
Definition demo_made : Accounts :=
  put_auth (a_set_keys (<["zoo_abc" := demo_row]> demo_auth.(a_keys)) demo_auth)
    (put_key_info {["zoo_abc" := mkKeyInfo "ci" "zoo_abc" 0]} demo_accounts).

Lemma demo_made_by :
  create_key id "k" "abc" demo_payload demo_maker demo_accounts =
    (Ok ("zoo_abc", key_response (demo_row, mkKeyInfo "ci" "zoo_abc" 0)), demo_made).
Proof. by vm_compute. Qed.

Lemma key_as_made_witness :
  ∃ u a', user_from_token id (λ _, None) "zoo_abc" None "" (a_set_limit API_KEY demo_made.(ac_auth)) = (Ok (Some u), a').
Proof.
  destruct (key_as_made id "k" "abc" demo_payload demo_maker demo_accounts "zoo_abc" _ demo_made 0 API_KEY
    (mkMembership ROwner MActive) None "" (λ _, None) demo_made_by) as (_ & _ & H).
  refine (proj2 (proj1 (H _ _ _ _ _)) _); [by apply (bool_decide_unpack _)|done|done|done|done|].
  by intros t [= <-].
Defined.

Lemma session_token_witness :
  let s := demo_registered in
  ∃ token s1, login demo_verify demo_encode "ip" "ann@x" "password1" s = (Ok (token, "u2"), s1) ∧
    (user_from_token id (demo_decode 0) token None "w2" s1.(ac_auth)).1 = Ok (Some (mkMember "u2" "w2" ROwner None None None)).
Proof.
  intros s. exists (demo_encode "u2" (0 + ACCESS_TOKEN_TTL)).
  exists (login demo_verify demo_encode "ip" "ann@x" "password1" s).2.
  assert (login demo_verify demo_encode "ip" "ann@x" "password1" s =
    (Ok (demo_encode "u2" (0 + ACCESS_TOKEN_TTL), "u2"), (login demo_verify demo_encode "ip" "ann@x" "password1" s).2)) as Hl
    by (vm_compute; reflexivity).
  split; [exact Hl|].
  refine (session_token id demo_verify demo_encode demo_decode "ip" "ann@x" "password1" s
    (demo_encode "u2" (0 + ACCESS_TOKEN_TTL)) "u2" _ 0 "w2" _ _ Hl _).
  - intros sub exp now. apply demo_decode_encode.
  - done.
  - apply (bool_decide_unpack _). vm_compute. exact I.
Defined.
