(* ===== verification/Pages.v ===== *)
(** Cursor pagination (src/apps/server/pages.py), the keyset statements it reads
    and the lists that use it, with the audit log's pages and export
    (src/apps/server/audit_api.py): following the cursors shows every row once. *)

From S2P Require Import Prelude Tables Store Labels Auth Access Codec Events Webhooks.

(** ** Rows, newest first *)

Section keyset.
Context {R : Type} (key : R → time * string).

(** [ORDER BY created_at DESC, id DESC].  Ids compare as the database's
    collation does, taken bytewise here; WHERE and ORDER BY use the same. *)
Definition newer (a b : R) : Prop :=
  (key b).1 < (key a).1 ∨ ((key a).1 = (key b).1 ∧ String.le (key b).2 (key a).2).

#[global] Instance newer_dec : RelDecision newer.
Proof. intros a b. unfold newer. apply _. Defined.

#[global] Instance newer_total : Total newer.
Proof.
  intros a b. unfold newer. destruct (Z.lt_total (key a).1 (key b).1) as [?|[E|?]]; [by auto| |by auto].
  destruct (total String.le (key a).2 (key b).2); auto.
Qed.

#[global] Instance newer_trans : Transitive newer.
Proof.
  intros a b c. unfold newer. intros [H1|[E1 H1]] [H2|[E2 H2]]; [left; lia..|]. right. split; [lia|by etrans].
Qed.

Definition newest_first (l : list R) : list R := merge_sort newer l.

(** [(created_at, id) < (before_at, before_id)], or no bound. *)
Definition below (before : option (time * string)) (r : R) : bool :=
  match before with
  | None => true
  | Some (at_, id) =>
      bool_decide ((key r).1 < at_)
      || (bool_decide ((key r).1 = at_) && bool_decide (String.le (key r).2 id) && negb (bool_decide ((key r).2 = id)))
  end.

(** The statements PAGE_*: the newest [n] rows below a bound. *)
Definition keyset (table : list R) (before : option (time * string)) (n : nat) : list R :=
  take n (filter (λ r, below before r = true) (newest_first table)).
End keyset.

(** ** Cursors *)

Section cursors.
(** [datetime.isoformat] and [fromisoformat] ([None]: a ValueError). *)
Context (isoformat : time → string) (fromisoformat : string → option time).

(** Source: src/apps/server/pages.py:24-25 [encode]. *)
Definition encode_cursor (at_ : time) (id : string) : string :=
  urlsafe_b64encode (isoformat at_ +:+ "|" +:+ id).

(** Source: src/apps/server/pages.py:28-35 [decode]. *)
Definition decode_cursor (cursor : option string) : result exn (option (time * string)) :=
  match str_or_none cursor with
  | None => Ok None
  | Some c =>
      match urlsafe_b64decode c with
      | Some text =>
          let '(at_, _, id) := partition "|"%char text in
          match fromisoformat at_ with
          | Some t => Ok (Some (t, id))
          | None => Err (ZooError "validation_failed" [Txt "that cursor isn't one this API gave out"])
          end
      | None => Err (ZooError "validation_failed" [Txt "that cursor isn't one this API gave out"])
      end
  end.

Section collect.
Context {R : Type} (key : R → time * string) (fetch : option (time * string) → nat → list R) (keep : R → bool)
  (limit : nat).

(** [for row in rows: ...]: the rows found, and whether the page is full. *)
Fixpoint scan (rows found : list R) : list R * bool :=
  match rows with
  | [] => (found, false)
  | r :: rest =>
      if keep r then
        if (limit <? length (found ++ [r]))%nat then (found ++ [r], true) else scan rest (found ++ [r])
      else scan rest found
  end.

(** [while True: ...], with fuel; the cursor is still a key. *)
Fixpoint collect_loop (fuel : nat) (before : option (time * string)) (found : list R)
    : option (result exn (list R * option (time * string))) :=
  match fuel with
  | 0%nat => None
  | S fuel =>
      let rows := fetch before (limit + 1) in
      match scan rows found with
      | (found, true) =>
          Some (match found !! (limit - 1)%nat with
                | Some r => Ok (take limit found, Some (key r))
                | None => Err IndexError
                end)
      | (found, false) =>
          if (length rows <? limit + 1)%nat then Some (Ok (found, None))
          else match last rows with
               | Some r => collect_loop fuel (Some (key r)) found
               | None => Some (Err IndexError)
               end
      end
  end.

(** Source: src/apps/server/pages.py:48-68 [collect]. *)
Definition collect (fuel : nat) (cursor : option string) : option (result exn (list R * option string)) :=
  match decode_cursor cursor with
  | Err e => Some (Err e)
  | Ok before =>
      match collect_loop fuel before [] with
      | Some (Ok (rows, after)) => Some (Ok (rows, (λ k, encode_cursor k.1 k.2) <$> after))
      | Some (Err e) => Some (Err e)
      | None => None
      end
  end.
End collect.
End cursors.

(** ** Lemmas *)

Section collect_lemmas.
Context {R : Type} (key : R → time * string) (table : list R) (keep : R → bool) (limit : nat).
Hypothesis keys_unique : NoDup (key <$> table).
Hypothesis limit_pos : (0 < limit)%nat.

(** Strictly newer: what [newer] is among rows with keys of their own. *)
Definition above (a b : R) : Prop := newer key a b ∧ key a ≠ key b.

Lemma below_above a b : below key (Some (key a)) b = true ↔ above a b.
Proof.
  unfold below, above, newer. destruct (key a) as [ta ia], (key b) as [tb ib]. simpl.
  rewrite orb_true_iff, !andb_true_iff, negb_true_iff, bool_decide_eq_false, !bool_decide_eq_true. split.
  - intros [H|[[-> H] Hn]]; (split; [by auto|]); intros [=]; [lia|by subst].
  - intros [[H|[-> H]] Hn]; [by left|]. right. split; [done|]. intros ->. by apply Hn.
Qed.

Lemma below_trans k a b : below key (Some k) a = true → below key (Some (key a)) b = true → below key (Some k) b = true.
Proof.
  unfold below. destruct k as [t i], (key a) as [ta ia], (key b) as [tb ib]. simpl.
  rewrite !orb_true_iff, !andb_true_iff, !negb_true_iff, !bool_decide_eq_false, !bool_decide_eq_true.
  intros [H1|[[-> H1] N1]] [H2|[[-> H2] N2]]; [left; lia|left; lia|left; lia|right].
  split; [split; [done|by etrans]|]. intros ->. apply N2. by apply (anti_symm String.le).
Qed.

Lemma above_irrefl a : ¬ above a a.
Proof. by intros [_ ?]. Qed.

Lemma above_asymm a b : above a b → ¬ above b a.
Proof.
  unfold above, newer. intros [H1 Hn] [H2 _]. apply Hn. destruct H1 as [?|[E1 H1]], H2 as [?|[E2 H2]]; [lia..|].
  apply injective_projections; [done|]. by apply (anti_symm String.le).
Qed.

Lemma sorted_strict l : StronglySorted (newer key) l → NoDup (key <$> l) → StronglySorted above l.
Proof.
  induction 1 as [|x l Hl IH Hx]; csimpl; [constructor|]. rewrite NoDup_cons. intros [Hn Hd].
  constructor; [by apply IH|]. rewrite Forall_forall in *. intros y Hy. split; [by apply Hx|].
  intros E. apply Hn. rewrite E. by apply list_elem_of_fmap_2.
Qed.

Lemma newest_above : StronglySorted above (newest_first key table).
Proof.
  apply sorted_strict; [apply StronglySorted_merge_sort; apply _|].
  unfold newest_first. by rewrite merge_sort_Permutation.
Qed.

(** In a sorted list, the rows below the last of the first part are the rest. *)
Lemma below_cut l1 x l2 :
  StronglySorted above (l1 ++ x :: l2) → filter (λ r, below key (Some (key x)) r = true) (l1 ++ x :: l2) = l2.
Proof.
  intros [Hc [H1 H2]]%StronglySorted_app. apply StronglySorted_cons in H2 as [H2 _].
  rewrite filter_app, filter_cons_False by (rewrite below_above; apply above_irrefl).
  rewrite filter_none, filter_all; [done| |]; apply Forall_forall; intros y Hy; rewrite below_above.
  - by eapply Forall_forall in H2.
  - apply above_asymm. apply Hc; set_solver.
Qed.

Lemma sorted_filter (P : R → Prop) `{!∀ x, Decision (P x)} l : StronglySorted above l → StronglySorted above (filter P l).
Proof.
  induction 1 as [|x l Hl IH Hx]; [constructor|]. rewrite filter_cons. case_decide; [|done].
  constructor; [done|]. by apply Forall_filter_sub.
Qed.

Lemma scan_spec rows found :
  (length found ≤ limit)%nat →
  let all := found ++ filter (λ r, keep r = true) rows in
  scan keep limit rows found = if (limit <? length all)%nat then (take (limit + 1) all, true) else (all, false).
Proof.
  revert found. induction rows as [|r rows IH]; intros found Hf; simpl.
  - rewrite filter_nil, app_nil_r. rewrite (proj2 (Nat.ltb_ge _ _)) by done. done.
  - rewrite filter_cons. destruct (keep r) eqn:E; [|rewrite decide_False by done; by apply IH].
    rewrite decide_True by done. rewrite length_app. simpl.
    destruct (limit <? length found + 1)%nat eqn:El.
    + apply Nat.ltb_lt in El. rewrite (proj2 (Nat.ltb_lt _ _)) by (rewrite length_app; simpl; lia).
      rewrite take_app_ge by lia. replace (limit + 1 - length found)%nat with 1%nat by lia. done.
    + apply Nat.ltb_ge in El. rewrite IH by (rewrite length_app; simpl; lia). by rewrite <- app_assoc.
Qed.

(** A page of [all], and where the next one starts. *)
Definition page_of (all : list R) : list R * option (time * string) :=
  (take limit all, if (limit <? length all)%nat then key <$> all !! (limit - 1)%nat else None).

Lemma loop_spec fuel before found l :
  filter (λ r, below key before r = true) (newest_first key table) = l →
  (length found ≤ limit)%nat → (length l < fuel)%nat →
  collect_loop key (keyset key table) keep limit fuel before found =
    Some (Ok (page_of (found ++ filter (λ r, keep r = true) l))).
Proof.
  revert before found l. induction fuel as [|fuel IH]; intros before found l Hl Hf Hfuel; [lia|].
  simpl. unfold keyset. rewrite Hl. set (rows := take (limit + 1) l).
  pose proof (scan_spec rows found Hf) as ->. unfold page_of.
  assert (found ++ filter (λ r, keep r = true) l =
    (found ++ filter (λ r, keep r = true) rows) ++ filter (λ r, keep r = true) (drop (limit + 1) l)) as Hall.
  { unfold rows. rewrite <- app_assoc, <- filter_app, take_drop. done. }
  destruct (limit <? length (found ++ filter (λ r, keep r = true) rows))%nat eqn:E.
  - apply Nat.ltb_lt in E. rewrite lookup_take_lt by lia.
    destruct (lookup_lt_is_Some_2 (found ++ filter (λ r, keep r = true) rows) (limit - 1)) as [x Hx]; [lia|].
    rewrite Hx, Hall, (proj2 (Nat.ltb_lt _ _)) by (rewrite length_app; lia).
    rewrite take_take, Nat.min_l by lia. rewrite (take_app_le (found ++ _)) by lia.
    rewrite lookup_app_l by lia. by rewrite Hx.
  - apply Nat.ltb_ge in E. destruct (length rows <? limit + 1)%nat eqn:Er.
    + apply Nat.ltb_lt in Er. unfold rows in *. rewrite length_take in Er.
      assert (drop (limit + 1) l = []) as Hd by (apply drop_ge; lia).
      rewrite Hall, Hd, filter_nil, app_nil_r, (take_ge (found ++ _)) by lia. by rewrite (proj2 (Nat.ltb_ge _ _)) by lia.
    + apply Nat.ltb_ge in Er. unfold rows in Er. rewrite length_take in Er.
      destruct (last rows) as [x|] eqn:Elast.
      2:{ apply last_None in Elast. unfold rows in Elast. apply (f_equal length) in Elast.
          rewrite length_take in Elast. simpl in Elast. lia. }
      apply last_Some in Elast as [pre Hpre].
      assert (l = pre ++ x :: drop (limit + 1) l) as Hx.
      { rewrite <- (take_drop (limit + 1) l) at 1. fold rows. rewrite Hpre, <- app_assoc. done. }
      assert (StronglySorted above l) as Hs by (rewrite <- Hl; apply sorted_filter, newest_above).
      rewrite (IH _ _ (drop (limit + 1) l)); [by rewrite Hall| |done|rewrite length_drop; lia].
      transitivity (filter (λ r, below key (Some (key x)) r = true) l).
      * rewrite <- Hl, list_filter_filter_l; [done|]. intros y Hy. apply below_above in Hy.
        assert (x ∈ l) as Hin by (rewrite Hx; set_solver).
        rewrite <- Hl in Hin. apply list_elem_of_filter in Hin as [Hb _].
        destruct before as [k|]; [|done]. eapply below_trans; [exact Hb|]. by apply below_above.
      * rewrite Hx at 1. rewrite Hx in Hs. by apply below_cut.
Qed.

(** The rows below the last of a page are the rest. *)
Lemma rest_of_page before l x :
  filter (λ r, below key before r = true) (newest_first key table) = l →
  filter (λ r, keep r = true) l !! (limit - 1)%nat = Some x →
  filter (λ r, keep r = true) (filter (λ r, below key (Some (key x)) r = true) (newest_first key table)) =
    drop limit (filter (λ r, keep r = true) l).
Proof.
  intros Hl Hx. assert (StronglySorted above (filter (λ r, keep r = true) l)) as Hs.
  { rewrite <- Hl. by apply sorted_filter, sorted_filter, newest_above. }
  transitivity (filter (λ r, below key (Some (key x)) r = true) (filter (λ r, keep r = true) l)).
  - rewrite list_filter_filter. rewrite <- Hl, !list_filter_filter. apply list_filter_iff. intros y. split; [|naive_solver].
    intros [Hk Hb]. assert (below key before y = true) as Hy; [|tauto]. apply list_elem_of_lookup_2 in Hx.
    apply list_elem_of_filter in Hx as [_ Hx]. rewrite <- Hl in Hx. apply list_elem_of_filter in Hx as [Hx _].
    destruct before; [by eapply below_trans|done].
  - rewrite <- (take_drop_middle _ _ _ Hx) in Hs |- *.
    rewrite below_cut by done. rewrite drop_app_ge by (rewrite length_take; lia).
    apply lookup_lt_Some in Hx. rewrite length_take, Nat.min_l by lia.
    replace (limit - (limit - 1))%nat with 1%nat by lia. simpl. by rewrite drop_0.
Qed.
End collect_lemmas.

(** ** Following the cursors *)

(** isoformat's text is read back, and holds no bar. *)
Class IsoOk (isoformat : time → string) (fromisoformat : string → option time) := {
  iso_read : ∀ t, fromisoformat (isoformat t) = Some t;
  iso_no_bar : ∀ t, has_char "|"%char (isoformat t) = false
}.

Section follow.
Context (isoformat : time → string) (fromisoformat : string → option time).
Context {R : Type} (key : R → time * string) (keep : R → bool) (limit : nat).

(** The pages a client gets that passes each next_cursor back. *)
Fixpoint follow (pages fuel : nat) (table : list R) (cursor : option string) : option (list (list R)) :=
  match pages with
  | 0%nat => None
  | S pages =>
      match collect isoformat fromisoformat key (keyset key table) keep limit fuel cursor with
      | Some (Ok (rows, None)) => Some [rows]
      | Some (Ok (rows, Some c)) => (λ rest, rows :: rest) <$> follow pages fuel table (Some c)
      | _ => None
      end
  end.

Context {Hiso : IsoOk isoformat fromisoformat}.

Lemma decode_encode at_ id : decode_cursor fromisoformat (Some (encode_cursor isoformat at_ id)) = Ok (Some (at_, id)).
Proof.
  unfold decode_cursor, encode_cursor.
  assert (str_or_none (Some (urlsafe_b64encode (isoformat at_ +:+ "|" +:+ id))) =
    Some (urlsafe_b64encode (isoformat at_ +:+ "|" +:+ id))) as ->.
  { destruct (isoformat at_) as [|a [|b [|c s]]]; try done; destruct id as [|x [|y z]]; done. }
  rewrite urlsafe_roundtrip. change ("|" +:+ id) with (String "|" id).
  by rewrite partition_app, iso_read by apply iso_no_bar.
Qed.

Lemma follow_from table pages fuel cursor before :
  NoDup (key <$> table) → (0 < limit)%nat → (length table < fuel)%nat → decode_cursor fromisoformat cursor = Ok before →
  let all := filter (λ r, keep r = true) (filter (λ r, below key before r = true) (newest_first key table)) in
  (length all < pages)%nat →
  ∃ ps, follow pages fuel table cursor = Some ps ∧ concat ps = all ∧ Forall (λ p, (length p ≤ limit)%nat) ps.
Proof.
  intros Hd Hp Hf. revert cursor before. induction pages as [|pages IH]; intros cursor before Hc all Hlen; [lia|].
  assert (length (filter (λ r, below key before r = true) (newest_first key table)) < fuel)%nat as Hfuel.
  { eapply Nat.le_lt_trans; [apply length_filter|]. unfold newest_first. by rewrite merge_sort_Permutation. }
  simpl. unfold collect. rewrite Hc, (loop_spec key table keep limit Hd Hp fuel before [] _ eq_refl) by (simpl; lia).
  simpl. fold all. unfold page_of. destruct (limit <? length all)%nat eqn:E.
  - apply Nat.ltb_lt in E. destruct (lookup_lt_is_Some_2 all (limit - 1)) as [x Hx]; [lia|]. rewrite Hx. simpl.
    pose proof (rest_of_page key table keep limit Hd Hp before _ x eq_refl Hx) as Hrest. fold all in Hrest.
    destruct (IH (Some (encode_cursor isoformat (key x).1 (key x).2)) (Some (key x))) as (ps & -> & Hcat & Hall).
    + rewrite decode_encode. by destruct (key x).
    + rewrite Hrest, length_drop. lia.
    + exists (take limit all :: ps). split; [done|]. split; [|constructor; [rewrite length_take; lia|done]].
      simpl. rewrite Hcat, Hrest. apply take_drop.
  - apply Nat.ltb_ge in E. exists [all]. rewrite take_ge by done. split; [done|]. simpl. rewrite app_nil_r.
    split; [done|]. by repeat constructor.
Qed.

(** C33: Paging is complete and terminates.  A client that starts without a
    cursor and passes every next_cursor back gets, over its pages, exactly the
    rows the list keeps, each once and newest first, at most [limit] to a page;
    one page per kept row and one fetch per row are enough. *)
Theorem pages_complete table fuel pages :
  NoDup (key <$> table) → (0 < limit)%nat → (length table < fuel)%nat → (length table < pages)%nat →
  ∃ ps, follow pages fuel table None = Some ps ∧
    concat ps = filter (λ r, keep r = true) (newest_first key table) ∧ Forall (λ p, (length p ≤ limit)%nat) ps.
Proof.
  intros Hd Hp Hf Hn. destruct (follow_from table pages fuel None None Hd Hp Hf eq_refl) as (ps & H1 & H2 & H3).
  - eapply Nat.le_lt_trans; [etrans; apply length_filter|]. unfold newest_first. by rewrite merge_sort_Permutation.
  - exists ps. split; [done|]. split; [|done]. rewrite H2. f_equal. apply filter_all. by apply Forall_forall.
Qed.
End follow.

(** ** The lists *)

Definition sandbox_key (s : Sandbox) : time * string := (s.(sb_created_at), s.(sb_id)).

(** Source: src/db/generated/query.py:1853-1861 [PAGE_SANDBOXES]. *)
Definition page_sandboxes (workspace_id : string) (d : Db) : option (time * string) → nat → list Sandbox :=
  keyset sandbox_key
    (filter (λ s, s.(sb_workspace_id) = workspace_id ∧ s.(sb_deleted_at) = None) (rows d.(sandboxes))).

(** The sandboxes a list shows to [user] who asks for the labels [wanted]. *)
Definition shown (user : Member) (wanted : labels_dict) (labelled : list (string * labels_dict)) (s : Sandbox) : bool :=
  let mine := default [] (dget s.(sb_id) labelled) in
  match user.(m_key_sandbox_id) with None => true | Some k => bool_decide (k = s.(sb_id)) end
  && matches mine (Some wanted) && matches mine user.(m_key_labels).

Definition delivery_key (d : Delivery) : time * string := (d.(d_created_at), d.(d_id)).

(** Source: src/db/generated/query.py:1874-1883 [PAGE_WEBHOOK_DELIVERIES].
    The join with [events] drops the deliveries of purged events. *)
Definition page_webhook_deliveries (webhook_id : string) (h : Hooks) : option (time * string) → nat → list Delivery :=
  keyset delivery_key
    (filter (λ d, d.(d_webhook_id) = webhook_id ∧ is_Some (h.(events) !! d.(d_event_id))) (rows h.(deliveries))).

Section lists.
Context (isoformat : time → string) (fromisoformat : string → option time).

(** Source: src/apps/server/sandbox_api.py:415-436 [list_sandboxes].  The rows
    of its page and the next cursor. *)
Definition list_sandboxes (fuel : nat) (label : list string) (limit : nat) (cursor : option string) (user : Member) (d : Db)
    : option (result exn (list Sandbox * option string)) :=
  match parse_filters label with
  | Err e => Some (Err e)
  | Ok wanted =>
      collect isoformat fromisoformat sandbox_key (page_sandboxes user.(m_workspace_id) d)
        (shown user wanted (of_workspace d user.(m_workspace_id))) limit fuel cursor
  end.

(** Source: src/apps/server/webhooks.py:205-237 [deliveries].  The rows of its
    page and the next cursor. *)
Definition list_deliveries (fuel : nat) (webhook_id : string) (limit : nat) (cursor : option string) (user : Member)
    : M Hooks (option (result exn (list Delivery * option string))) :=
  require user RAdmin;;
  webhook ← owned_webhook webhook_id user;
  gets (λ h, collect isoformat fromisoformat delivery_key (page_webhook_deliveries webhook.(wh_id) h) (λ _, true) limit
               fuel cursor).
End lists.

(** ** Witness *)

Definition demo_iso (t : time) : string := digits (encode t) "".
Definition demo_from_iso (s : string) : option time := '(p, _) ← undigits s; decode p.

#[global] Instance demo_iso_ok : IsoOk demo_iso demo_from_iso.
Proof.
  split; intros t; unfold demo_iso, demo_from_iso.
  - rewrite undigits_digits. simpl. apply countable.decode_encode.
  - by rewrite digits_no_char.
Qed.

(** Five rows, two of them filtered out, two to a page. *)
Lemma pages_complete_witness :
  ∃ ps, follow demo_iso demo_from_iso id (λ r, negb (String.eqb r.2 "x")) 2 6 6
      [(3, "b"); (1, "x"); (3, "a"); (9, "c"); (2, "x")] None = Some ps ∧
    concat ps = [(9, "c"); (3, "b"); (3, "a")].
Proof.
  destruct (pages_complete demo_iso demo_from_iso id (λ r, negb (String.eqb r.2 "x")) 2
    [(3, "b"); (1, "x"); (3, "a"); (9, "c"); (2, "x")] 6 6) as (ps & H1 & H2 & _).
  - apply (bool_decide_unpack _). by vm_compute.
  - lia.
  - simpl; lia.
  - simpl; lia.
  - exists ps. split; [exact H1|]. rewrite H2. by vm_compute.
Defined.
