(* ===== verification/Errors.v ===== *)
(** The one error format of the API (src/apps/server/errors.py): the documented
    codes, the code of a message, and what each handler answers. *)

From S2P Require Import Prelude Registry.

(** ** Codes *)

(** Source: src/apps/server/errors.py:28-50 [CODES].  The status and the meaning of each code. *)
Definition CODES : list (string * (Z * string)) :=
  [("bad_request", (400, "The request was malformed. Check the body against the endpoint's schema."));
   ("unauthenticated", (401, "No or invalid credentials. Send `Authorization: Bearer <key>`."));
   ("forbidden", (403, "Your role, API key scope or a sandbox policy doesn't allow this."));
   ("not_found", (404, "No such route or object."));
   ("sandbox_not_found", (404, "No sandbox with that id in this workspace. `GET /v1/sandboxes` lists them."));
   ("method_not_allowed", (405, "The route exists but not with this method."));
   ("create_failed", (503, "No warm sandbox could be handed over in time. Retry."));
   ("conflict", (409, "The object's current state doesn't allow this, e.g. the sandbox isn't running."));
   ("quota_exceeded", (409, "A workspace, member or label quota is used up."));
   ("idempotency_key_reused", (409, "This Idempotency-Key was used with a different request body."));
   ("idempotency_key_in_progress", (409, "A request with this Idempotency-Key is still running."));
   ("gone", (410, "The object existed but has expired or been revoked."));
   ("too_large", (413, "The request body is too large."));
   ("validation_failed", (422, "A field didn't match the schema; the message names it."));
   ("rate_limited", (429, "Too many requests. Wait as long as the Retry-After header says."));
   ("internal_error", (500, "Zoo failed. Retry; if it keeps failing, report the request id."));
   ("not_supported", (501, "This runtime or deployment doesn't support it."));
   ("upstream_error", (502, "A sandbox, node or provider Zoo talks to failed."));
   ("unavailable", (503, "Zoo or a dependency is starting or overloaded. Retry with backoff."));
   ("guest_unavailable", (503, "The sandbox's guest agent isn't connected, and every tool goes through it."));
   ("timeout", (504, "A sandbox, node or provider didn't answer in time."))].

(** Source: src/apps/server/errors.py:52-64 [HINTS]. *)
Definition HINTS : list (string * string) :=
  [("unauthenticated", "Create an API key in Settings → API keys and send it as `Authorization: Bearer <key>`.");
   ("sandbox_not_found", "`GET /v1/sandboxes` lists this workspace's sandboxes; ids are case-sensitive.");
   ("quota_exceeded", "Stop or delete sandboxes, or ask a workspace admin to raise the quota.");
   ("idempotency_key_reused", "Use a new Idempotency-Key for a different request.");
   ("idempotency_key_in_progress", "Wait for the first request to finish, then retry.");
   ("create_failed", "Retry the create; a cold create starts once no warm sandbox is left.");
   ("rate_limited", "Retry after the number of seconds in the Retry-After header.");
   ("internal_error", "Retry. If it keeps failing, report the request id to your Zoo operator.");
   ("unavailable", "Retry with exponential backoff.");
   ("guest_unavailable", "the sandbox's guest agent is not connected; restart the sandbox");
   ("timeout", "Retry; long commands can pass a larger `timeout`.")].

(** Source: src/apps/server/errors.py:66-82 [BY_STATUS]. *)
Definition BY_STATUS : list (Z * string) :=
  [(400, "bad_request"); (401, "unauthenticated"); (403, "forbidden"); (404, "not_found");
   (405, "method_not_allowed"); (409, "conflict"); (410, "gone"); (413, "too_large"); (422, "validation_failed");
   (429, "rate_limited"); (500, "internal_error"); (501, "not_supported");
   (502, "upstream_error"); (503, "unavailable"); (504, "timeout")].

Fixpoint zget (k : Z) (d : list (Z * string)) : option string :=
  match d with
  | [] => None
  | (k', v) :: d' => if decide (k = k') then Some v else zget k d'
  end.

(** Source: src/apps/server/errors.py:87-93 [ZooError].  The status of a code. *)
Definition code_status (code : string) : option Z := fst <$> dget code CODES.

(** ** The code of a message *)

(** [\w] on ASCII. *)
Definition word_char (c : ascii) : bool :=
  let n := nat_of_ascii c in
  ((48 <=? n)%nat && (n <=? 57)%nat) || ((65 <=? n)%nat && (n <=? 90)%nat) || (n =? 95)%nat
  || ((97 <=? n)%nat && (n <=? 122)%nat).

(** The longest run of word characters, and the rest. *)
Fixpoint word_prefix (s : string) : string * string :=
  match s with
  | String c s' => if word_char c then let '(w, r) := word_prefix s' in (String c w, r) else ("", s)
  | EmptyString => ("", "")
  end.

(** Source: src/apps/server/errors.py:84-84 [NOT_FOUND].  The group of a match of
    [^(\w+) not found$]; the dollar also matches before a last line feed. *)
Definition not_found (message : string) : option string :=
  match word_prefix message with
  | (EmptyString, _) => None
  | (w, rest) =>
      if bool_decide (rest = " not found") || bool_decide (rest = " not found" +:+ String (ascii_of_nat 10) "")
      then Some w else None
  end.

(** [p in s] *)
Fixpoint contains (p s : string) : bool :=
  String.prefix p s || match s with EmptyString => false | String _ s' => contains p s' end.

(** Source: src/apps/server/errors.py:96-102 [code_for]. *)
Definition code_for (status : Z) (message : string) : string :=
  let by_status :=
    if contains "quota" (lower message) && bool_decide (status ∈ [403; 409; 429]) then "quota_exceeded"
    else default (if status <? 500 then "bad_request" else "internal_error") (zget status BY_STATUS) in
  match not_found message with
  | Some w => if (status =? 404) && dhas (w +:+ "_not_found") CODES then w +:+ "_not_found" else by_status
  | None => by_status
  end.

(** ** Answers *)

(** Source: src/apps/server/errors.py:109-118 [body]. *)
Record Body := mkBody {
  b_code : string;
  b_message : string;
  b_hint : option string;
  b_docs_url : string;
  b_request_id : string
}.

Record ErrorResponse := mkErrorResponse { er_status : Z; er_headers : list (string * string); er_body : Body }.

(** The request id of a request: what [tag] set, the header, or one drawn. *)
Record Tags := mkTags { t_state : option string; t_header : option string; t_fresh : string }.

(** Source: src/apps/server/errors.py:105-106 [request_id]. *)
Definition request_id (r : Tags) : string :=
  default r.(t_fresh) (coalesce_str (str_or_none r.(t_state)) (str_or_none r.(t_header))).

(** What a handler is given: an exception of a route with its headers, the problems of a
    payload (where, and what), or anything else. *)
Inductive failure :=
| HttpError (status : Z) (message : string) (headers : list (string * string))
| Zoo (code message : string) (hint : option string) (headers : list (string * string))
| Invalid (problems : list (list string * string))
| Crash (text : string).

Definition joined (sep : string) (l : list string) : string :=
  match l with [] => "" | x :: rest => foldl (λ a b, a +:+ sep +:+ b) x rest end.

(** One problem of a payload, by its path without "body". *)
Definition problem (p : list string * string) : string :=
  let where_ := joined "." (filter (λ x, x ≠ "body") p.1) in
  if bool_decide (where_ = "") then p.2 else where_ +:+ ": " +:+ p.2.

Section respond.
Context (DOCS_URL : string).

(** Source: src/apps/server/errors.py:121-125 [respond]. *)
Definition respond (r : Tags) (status : Z) (code message : string) (hint : option string) (headers : list (string * string)) : ErrorResponse :=
  let rid := request_id r in
  mkErrorResponse status (dset "X-Request-Id" rid headers)
    (mkBody code message (match hint with Some h => Some h | None => dget code HINTS end) (DOCS_URL +:+ "#" +:+ code) rid).

(** Source: src/apps/server/errors.py:128-155 [register].  What the exception
    handlers answer.  A ZooError's status is that of its code; one whose code
    is not documented fails to be made. *)
Definition answer (r : Tags) (f : failure) : ErrorResponse :=
  match f with
  | Zoo code message hint headers =>
      match code_status code with
      | Some status => respond r status code message hint headers
      | None => respond r 500 "internal_error" ("internal error (request id " +:+ request_id r +:+ ")") None []
      end
  | HttpError status message headers => respond r status (code_for status message) message None headers
  | Invalid problems =>
      respond r 422 "validation_failed" (or_else (joined "; " (problem <$> problems)) "invalid request") None []
  | Crash _ => respond r 500 "internal_error" ("internal error (request id " +:+ request_id r +:+ ")") None []
  end.

(** Source: src/apps/server/errors.py:129-134 [tag].  The request gets an id, its client's or
    one drawn, and the response has it unless it has one; [other] is what a handler that
    finds none would draw. *)
Definition tag (header : option string) (fresh other : string) (f : failure) : ErrorResponse :=
  let rid := default fresh (str_or_none header) in
  let response := answer (mkTags (Some rid) header other) f in
  mkErrorResponse response.(er_status)
    (if dhas "X-Request-Id" response.(er_headers) then response.(er_headers) else dset "X-Request-Id" rid response.(er_headers))
    response.(er_body).
End respond.

(** ** Properties *)
Lemma quota_or_status status message :
  ∃ c, code_for status message = c ∧
    ((∃ w, not_found message = Some w ∧ status = 404 ∧ c = w +:+ "_not_found" ∧ dhas c CODES = true) ∨
     c = "quota_exceeded" ∧ status ∈ [403; 409; 429] ∧ contains "quota" (lower message) = true ∨
     c = default (if status <? 500 then "bad_request" else "internal_error") (zget status BY_STATUS)).
Proof.
  eexists. split; [done|]. unfold code_for. cbv zeta.
  destruct (not_found message) as [w|];
    [destruct ((status =? 404) && dhas (w +:+ "_not_found") CODES) eqn:E|].
  - apply andb_true_iff in E as [->%Z.eqb_eq E]. left. eauto.
  - clear E. right. destruct (_ && _) eqn:E2; [left|by right].
    apply andb_true_iff in E2 as [H1 H2%bool_decide_eq_true]. auto.
  - right. destruct (_ && _) eqn:E2; [left|by right]. apply andb_true_iff in E2 as [H1 H2%bool_decide_eq_true]. auto.
Qed.

Lemma by_status_documented : forallb (λ x, bool_decide (code_status x.2 = Some x.1)) BY_STATUS = true.
Proof. by vm_compute. Qed.

Lemma zget_elem k d v : zget k d = Some v → (k, v) ∈ d.
Proof. induction d as [|[k' v'] d IH]; simpl; [done|]. case_decide; [intros [= ->]; subst; left|intros Hz; right; auto]. Qed.

Lemma by_status_status status code : zget status BY_STATUS = Some code → code_status code = Some status.
Proof.
  intros Hz%zget_elem. pose proof by_status_documented as Hall. rewrite forallb_forall in Hall.
  by apply list_elem_of_In, Hall, bool_decide_eq_true in Hz.
Qed.

Fixpoint has_suffix (p s : string) : bool :=
  bool_decide (s = p) || match s with EmptyString => false | String _ s' => has_suffix p s' end.

Lemma has_suffix_app p w : has_suffix p (w +:+ p) = true.
Proof.
  induction w as [|c w IH]; [destruct p; [done|]; simpl; by rewrite bool_decide_true|].
  change (String c w +:+ p) with (String c (w +:+ p)). simpl. rewrite IH. apply orb_true_r.
Qed.

Lemma not_found_codes :
  forallb (λ x : string * (Z * string), negb (has_suffix "_not_found" x.1) || bool_decide (x.2.1 = 404)) CODES = true.
Proof. by vm_compute. Qed.

Lemma answer_id url r f :
  dget "X-Request-Id" (answer url r f).(er_headers) = Some (request_id r) ∧ (answer url r f).(er_body).(b_request_id) = request_id r.
Proof.
  destruct f as [status message headers|code message hint headers|problems|text]; unfold answer; [|destruct (code_status code)| |];
    (split; [apply dget_dset_eq|done]).
Qed.

Definition failure_headers (f : failure) : list (string * string) :=
  match f with HttpError _ _ h => h | Zoo code _ _ h => if is_none (code_status code) then [] else h | _ => [] end.

Lemma answer_headers url r f k : k ≠ "X-Request-Id" → dget k (answer url r f).(er_headers) = dget k (failure_headers f).
Proof.
  intros Hk. destruct f as [status message headers|code message hint headers|problems|text]; unfold answer; [|simpl; destruct (code_status code)| |];
    by apply dget_dset_ne.
Qed.

Lemma answer_code url r f :
  let resp := answer url r f in
  (∃ s, code_status resp.(er_body).(b_code) = Some s ∧
     (s = resp.(er_status) ∨ resp.(er_body).(b_code) = "quota_exceeded" ∧ resp.(er_status) ∈ [403; 409; 429] ∨
      zget resp.(er_status) BY_STATUS = None ∧ resp.(er_body).(b_code) = (if resp.(er_status) <? 500 then "bad_request" else "internal_error"))) ∧
  resp.(er_body).(b_docs_url) = url +:+ "#" +:+ resp.(er_body).(b_code).
Proof.
  destruct f as [status message headers|code message hint headers|problems|text]; simpl.
  - split; [|done]. destruct (quota_or_status status message) as (c & -> & [(w & _ & -> & -> & Hw)|[(-> & Hs & _)| ->]]).
    + unfold dhas in Hw. apply bool_decide_eq_true in Hw as [[s m] Hw]. exists s. unfold code_status. rewrite Hw.
      split; [done|]. left. apply dget_Some_in in Hw.
      pose proof not_found_codes as Hall. rewrite forallb_forall in Hall. apply list_elem_of_In, Hall in Hw. simpl in Hw.
      rewrite has_suffix_app in Hw. by apply bool_decide_eq_true in Hw.
    + exists 409. split; [done|]. auto.
    + destruct (zget status BY_STATUS) as [c|] eqn:E; simpl; [exists status; split; [by apply by_status_status|by left]|].
      destruct (status <? 500); [exists 400|exists 500]; (split; [done|]); auto.
  - destruct (code_status code) as [s|] eqn:E; simpl; (split; [|done]); [exists s|exists 500]; auto.
  - split; [|done]. exists 422. split; [done|]. by left.
  - split; [|done]. exists 500. split; [done|]. by left.
Qed.

(** C34: Every error answers with a documented code.  Whatever was raised, the body's code is
    one of CODES and its docs_url points at it; the request id of the body is the one in the
    response's X-Request-Id header, which is the client's own if it sent one and else the one
    drawn, and the exception's other headers are kept; the status is the code's own, except
    that a quota's message keeps the status it was raised with and a status without a code of
    its own takes the general one of its class.  A crash says nothing of the exception. *)
Theorem errors_documented url header fresh other f :
  let resp := tag url header fresh other f in
  let b := resp.(er_body) in
  (∃ s, code_status b.(b_code) = Some s ∧
     (s = resp.(er_status) ∨ b.(b_code) = "quota_exceeded" ∧ resp.(er_status) ∈ [403; 409; 429] ∨
      zget resp.(er_status) BY_STATUS = None ∧ b.(b_code) = (if resp.(er_status) <? 500 then "bad_request" else "internal_error"))) ∧
  b.(b_docs_url) = url +:+ "#" +:+ b.(b_code) ∧
  dget "X-Request-Id" resp.(er_headers) = Some b.(b_request_id) ∧
  (fresh ≠ "" → b.(b_request_id) = match header with Some h => if bool_decide (h = "") then fresh else h | None => fresh end) ∧
  (∀ k, k ≠ "X-Request-Id" → dget k resp.(er_headers) = dget k (failure_headers f)) ∧
  ∀ t t', tag url header fresh other (Crash t) = tag url header fresh other (Crash t').
Proof.
  unfold tag. cbv zeta. set (r := mkTags _ _ _). destruct (answer_id url r f) as [Hh Hb]. destruct (answer_code url r f) as [Hc Hd].
  cbn [er_status er_headers er_body]. rewrite Hb. unfold dhas. rewrite bool_decide_true by (by rewrite Hh).
  split_and!; [done..| |by apply answer_headers|done]. intros Hf.
  unfold request_id, r. cbn [t_state t_header t_fresh]. unfold str_or_none. destruct header as [[|c h]|]; cbn; destruct fresh; done.
Qed.

Lemma errors_documented_witness :
  let resp := tag "https://docs" (Some "abc") "f1" "f2" (Zoo "rate_limited" "slow down" None [("Retry-After", "3")]) in
  resp.(er_body).(b_request_id) = "abc" ∧ dget "Retry-After" resp.(er_headers) = Some "3".
Proof.
  destruct (errors_documented "https://docs" (Some "abc") "f1" "f2" (Zoo "rate_limited" "slow down" None [("Retry-After", "3")]))
    as (_ & _ & _ & Hid & Hk & _). split; [apply Hid; discriminate|]. rewrite (Hk "Retry-After" ltac:(discriminate)). vm_compute. reflexivity.
Defined.

(** A message that only mentions quotas is taken for a spent one: a member who
    may not set quotas is told so with [quota_exceeded], and so is whoever
    invites a member whose address has the word in it. *)
Example quota_misread :
  code_for 403 "only Zoo's admins (ADMIN_EMAILS) set quotas" = "quota_exceeded" ∧
  code_for 409 "quota@example.com is already a member" = "quota_exceeded".
Proof. by vm_compute. Qed.
