(* ===== verification/Writer.v ===== *)
(** The request log writer (src/apps/server/writer.py): rows that requests queue
    in the process, written in batches.  Which rows reach the database, in what
    order, what a flush waits for, and what a batch adds up. *)

From S2P Require Import Prelude Tables Quotas.
From Stdlib Require Import Lqa.

(** ** Rows and tables *)

(** Source: src/db/generated/models.py:371-381 [ToolExecution]. *)
Record Execution := mkExecution {
  te_sandbox_id : string;
  te_tool_name : string;
  te_status : string;
  te_input : string;
  te_output : option string;
  te_error_message : option string;
  te_started_at : time;
  te_completed_at : option time;
  te_created_at : time
}.

(** Source: src/db/generated/models.py:36-45 [AuditLog]. *)
Record AuditLog := mkAuditLog {
  al_workspace_id : string;
  al_actor_id : option string;
  al_sandbox_id : option string;
  al_action : string;
  al_resource_type : string;
  al_resource_id : option string;
  al_metadata : string;
  al_created_at : time
}.

(** Workspace, sandbox, metric and the hour. *)
Abbreviation usage_key := (string * string * string * time)%type (only parsing).

(** Source: src/apps/server/writer.py:18-31 [START_COLUMNS, FINISH_COLUMNS, AUDIT_COLUMNS, USAGE_COLUMNS].
    The kinds of rows and their columns. *)
Inductive row :=
| Start (id sandbox_id tool_name input : string) (started_at created_at : time)
| Finish (id status : string) (output error_message : option string) (completed_at : time)
| Touch (id : string) (at_ : time)
| KeyTouch (id : string) (at_ : time)
| AuditRow (id : string) (log : AuditLog)
| UsageRow (k : usage_key) (quantity : Q).

(** The tables a batch writes, and those it joins with. *)
Record Logs := mkLogs {
  lg_workspaces : gset string;
  lg_users : gset string;
  lg_activity : gmap string (option time);
  lg_key_use : gmap string (option time);
  lg_executions : gmap string Execution;
  lg_audit : gmap string AuditLog;
  lg_usage : gmap usage_key Q
}.

Definition set_executions (v : gmap string Execution) (d : Logs) : Logs :=
  mkLogs d.(lg_workspaces) d.(lg_users) d.(lg_activity) d.(lg_key_use) v d.(lg_audit) d.(lg_usage).
Definition set_activity (v : gmap string (option time)) (d : Logs) : Logs :=
  mkLogs d.(lg_workspaces) d.(lg_users) v d.(lg_key_use) d.(lg_executions) d.(lg_audit) d.(lg_usage).
Definition set_key_use (v : gmap string (option time)) (d : Logs) : Logs :=
  mkLogs d.(lg_workspaces) d.(lg_users) d.(lg_activity) v d.(lg_executions) d.(lg_audit) d.(lg_usage).
Definition set_audit (v : gmap string AuditLog) (d : Logs) : Logs :=
  mkLogs d.(lg_workspaces) d.(lg_users) d.(lg_activity) d.(lg_key_use) d.(lg_executions) v d.(lg_usage).
Definition set_usage (v : gmap usage_key Q) (d : Logs) : Logs :=
  mkLogs d.(lg_workspaces) d.(lg_users) d.(lg_activity) d.(lg_key_use) d.(lg_executions) d.(lg_audit) v.

(** ** A batch *)

(** INSERT ... JOIN sandboxes ... ON CONFLICT (id) DO NOTHING *)
Definition insert_start (d : Logs) (r : row) : Logs :=
  match r with
  | Start id sandbox_id tool_name input started_at created_at =>
      match d.(lg_activity) !! sandbox_id, d.(lg_executions) !! id with
      | Some _, None =>
          set_executions (<[id := mkExecution sandbox_id tool_name "running" input None None started_at None created_at]>
            d.(lg_executions)) d
      | _, _ => d
      end
  | _ => d
  end.

(** SELECT DISTINCT ON (id) ... ORDER BY id, completed_at DESC: the finish of an
    id with the latest time (the first of those queued, on a tie). *)
Definition latest_finish (id : string) (rows : list row) : option row :=
  foldl (λ best r,
    match r with
    | Finish id' _ _ _ at_ =>
        if bool_decide (id' = id)
        then match best with
             | Some (Finish _ _ _ _ at') => if at' <? at_ then Some r else best
             | _ => Some r
             end
        else best
    | _ => best
    end) None rows.

Definition finished (r : option row) (e : Execution) : Execution :=
  match r with
  | Some (Finish _ status output error at_) =>
      mkExecution e.(te_sandbox_id) e.(te_tool_name) status e.(te_input) output error e.(te_started_at) (Some at_)
        e.(te_created_at)
  | _ => e
  end.

(** max(at) of an id's touches, [pick] giving the id and time of a row. *)
Definition latest_touch (pick : row → option (string * time)) (id : string) (rows : list row) : option time :=
  foldl (λ best r,
    match pick r with
    | Some (id', at_) => if bool_decide (id' = id) then Some (match best with Some t => Z.max t at_ | None => at_ end) else best
    | None => best
    end) None rows.

Definition touch_of (r : row) : option (string * time) := match r with Touch id t => Some (id, t) | _ => None end.
Definition key_touch_of (r : row) : option (string * time) := match r with KeyTouch id t => Some (id, t) | _ => None end.

(** greatest(last, at), which ignores NULL. *)
Definition touched (t : option time) (last : option time) : option time :=
  match t, last with
  | Some t, Some l => Some (Z.max l t)
  | Some t, None => Some t
  | None, _ => last
  end.

(** INSERT ... JOIN workspaces, with actor and sandbox kept while they exist. *)
Definition insert_audit (d : Logs) (r : row) : Logs :=
  match r with
  | AuditRow id log =>
      if bool_decide (log.(al_workspace_id) ∈ d.(lg_workspaces)) && bool_decide (d.(lg_audit) !! id = None) then
        set_audit (<[id := mkAuditLog log.(al_workspace_id)
           (u ← log.(al_actor_id); if bool_decide (u ∈ d.(lg_users)) then Some u else None)
           (s ← log.(al_sandbox_id); if bool_decide (is_Some (d.(lg_activity) !! s)) then Some s else None)
           log.(al_action) log.(al_resource_type) log.(al_resource_id) log.(al_metadata) log.(al_created_at)]>
           d.(lg_audit)) d
      else d
  | _ => d
  end.

Definition usage_of (k : usage_key) (r : row) : Q :=
  match r with UsageRow k' q => if bool_decide (k' = k) then q else 0%Q | _ => 0%Q end.

(** sum(quantity) of a key's rows. *)
Definition usage_sum (k : usage_key) (rows : list row) : Q := foldr (λ r a, (usage_of k r + a)%Q) 0%Q rows.

Definition usage_keys (rows : list row) : list usage_key :=
  omap (λ r, match r with UsageRow k _ => Some k | _ => None end) rows.

(** GROUP BY ... ON CONFLICT DO UPDATE SET quantity = quantity + excluded *)
Definition add_usage (rows : list row) (d : Logs) : Logs :=
  set_usage (foldr (λ k m, <[k := (default 0%Q (d.(lg_usage) !! k) + usage_sum k rows)%Q]> m) d.(lg_usage)
    (filter (λ k : usage_key, k.1.1.1 ∈ d.(lg_workspaces)) (remove_dups (usage_keys rows)))) d.

(** Source: src/apps/server/writer.py:125-187 [Writer.persist].  One transaction, in
    this order of kinds. *)
Definition persist (rows : list row) (d : Logs) : Logs :=
  let d := foldl insert_start d rows in
  let d := set_executions (map_imap (λ id e, Some (finished (latest_finish id rows) e)) d.(lg_executions)) d in
  let d := set_activity (map_imap (λ id t, Some (touched (latest_touch touch_of id rows) t)) d.(lg_activity)) d in
  let d := set_key_use (map_imap (λ id t, Some (touched (latest_touch key_touch_of id rows) t)) d.(lg_key_use)) d in
  let d := foldl insert_audit d rows in
  add_usage rows d.

(** ** The queue *)

(** Source: src/apps/server/writer.py:13-15 [FLUSH_SECONDS, BATCH_ROWS, MAX_PENDING]. *)
Definition BATCH_ROWS : nat := Z.to_nat 500.
Definition MAX_PENDING : nat := Z.to_nat 10000.
#[local] Opaque BATCH_ROWS MAX_PENDING.

(** Source: src/apps/server/writer.py:35-43 [Writer.__init__].  [w_taken] are the
    rows of the batch under way; [unfinished_tasks] counts those rows and the
    queued ones.  [w_handed] remembers every row that a batch has taken to
    [persist], oldest first. *)
Record Writer := mkWriter {
  w_queue : list row;
  w_taken : list row;
  w_unfinished : nat;
  w_drained : bool;
  w_accepting : bool;
  w_handed : list row;
  w_logs : Logs
}.

(** Source: src/apps/server/writer.py:45-52 [Writer.start]. *)
Definition start (w : Writer) : Writer :=
  mkWriter w.(w_queue) w.(w_taken) w.(w_unfinished) w.(w_drained) true w.(w_handed) w.(w_logs).

(** Source: src/apps/server/writer.py:54-65 [Writer.enqueue].  A full queue drops
    the row. *)
Definition enqueue (r : row) : M Writer unit := λ w,
  if w.(w_accepting) then
    if (MAX_PENDING <=? length w.(w_queue))%nat then (Ok tt, w)
    else (Ok tt, mkWriter (w.(w_queue) ++ [r]) w.(w_taken) (S w.(w_unfinished)) false true w.(w_handed) w.(w_logs))
  else (Err (RuntimeError [Txt "request writer is not running"]), w).

(** Source: src/apps/server/writer.py:67-70 [Writer.execution]. *)
Definition execution (now : time) (identity sandbox_id tool_name input : string) : M Writer unit :=
  enqueue (Start identity sandbox_id tool_name input now now);;
  enqueue (Touch sandbox_id now).

(** Source: src/apps/server/writer.py:72-75 [Writer.finish]. *)
Definition finish (now : time) (identity status : string) (output error : option string) : M Writer unit :=
  guard_ (bool_decide (status ∈ ["completed"; "failed"; "cancelled"]))
    (ValueError [Txt "invalid execution completion status"]);;
  enqueue (Finish identity status output error now).

(** Source: src/apps/server/writer.py:77-78 [Writer.touch]. *)
Definition touch (now : time) (sandbox_id : string) (at_ : option time) : M Writer unit :=
  enqueue (Touch sandbox_id (default now at_)).

(** Source: src/apps/server/writer.py:80-81 [Writer.audit]. *)
Definition audit (now : time) (id : string) (log : AuditLog) : M Writer unit :=
  enqueue (AuditRow id (mkAuditLog log.(al_workspace_id) log.(al_actor_id) log.(al_sandbox_id) log.(al_action)
    log.(al_resource_type) log.(al_resource_id) log.(al_metadata) now)).

Definition hour_of (t : time) : time := t - t mod sec 3600.

(** Source: src/apps/server/writer.py:83-87 [Writer.usage]. *)
Definition usage (workspace_id sandbox_id metric : string) (quantity : Q) (at_ : time) : M Writer unit :=
  when (negb (Qeq_bool quantity 0)) (enqueue (UsageRow (workspace_id, sandbox_id, metric, hour_of at_) quantity)).

(** The first half of [batch]: rows are taken from the queue, which threads
    still put to. *)
Definition batch_take (w : Writer) : Writer :=
  mkWriter (drop BATCH_ROWS w.(w_queue)) (take BATCH_ROWS w.(w_queue)) w.(w_unfinished) w.(w_drained) w.(w_accepting)
    (w.(w_handed) ++ take BATCH_ROWS w.(w_queue)) w.(w_logs).

(** The second half: they are persisted, or discarded when that fails; either
    way they are done. *)
Definition batch_end (persisted : bool) (w : Writer) : Writer :=
  let unfinished := (w.(w_unfinished) - length w.(w_taken))%nat in
  mkWriter w.(w_queue) [] unfinished (if (unfinished =? 0)%nat then true else w.(w_drained)) w.(w_accepting) w.(w_handed)
    (if persisted then persist w.(w_taken) w.(w_logs) else w.(w_logs)).

(** Source: src/apps/server/writer.py:99-123 [Writer.batch].  As one step; an empty
    batch writes nothing. *)
Definition batch (persisted : bool) (w : Writer) : Writer := batch_end persisted (batch_take w).

(** Source: src/apps/server/writer.py:189-191 [Writer.flush].  It returns once this
    holds. *)
Definition flushed (w : Writer) : bool := w.(w_drained).

(** Source: src/apps/server/writer.py:193-200 [Writer.flush_sync].  On the event
    loop itself it would wait for ever, and raises. *)
Definition flush_sync (on_loop : bool) (w : Writer) : result exn bool :=
  if on_loop then Err (RuntimeError [Txt "await writer.flush() on the API event loop"]) else Ok w.(w_drained).

(** The last batches of [close], one per outcome given. *)
Fixpoint drain (persisted : list bool) (w : Writer) : Writer :=
  match persisted with
  | [] => w
  | p :: rest => drain rest (batch p w)
  end.

(** Source: src/apps/server/writer.py:202-212 [Writer.close].  [persisted] are the
    outcomes of the batches it runs until the queue is empty. *)
Definition close (persisted : list bool) (w : Writer) : Writer :=
  let w := mkWriter w.(w_queue) w.(w_taken) w.(w_unfinished) w.(w_drained) false w.(w_handed) w.(w_logs) in
  let w := drain persisted w in
  mkWriter w.(w_queue) w.(w_taken) w.(w_unfinished) true w.(w_accepting) w.(w_handed) w.(w_logs).

(** ** Threads and the writer's task *)

(** The writer, and every row that was put into its queue, oldest first.
    Threads put rows at any time; the task takes a batch and later ends it. *)
Inductive writer_step : Writer * list row → Writer * list row → Prop :=
| ws_put r w put w' :
    enqueue r w = (Ok tt, w') →
    writer_step (w, put) (w', if (MAX_PENDING <=? length w.(w_queue))%nat then put else put ++ [r])
| ws_take w put : w.(w_taken) = [] → writer_step (w, put) (batch_take w, put)
| ws_end p w put : writer_step (w, put) (batch_end p w, put).

Definition writer_init (s : Writer * list row) : Prop :=
  s.1.(w_queue) = [] ∧ s.1.(w_taken) = [] ∧ s.1.(w_unfinished) = 0%nat ∧ s.1.(w_handed) = [] ∧ s.2 = [].

Record writer_ok (s : Writer * list row) : Prop := {
  wo_put : s.2 = s.1.(w_handed) ++ s.1.(w_queue);
  wo_unfinished : s.1.(w_unfinished) = (length s.1.(w_taken) + length s.1.(w_queue))%nat;
  wo_drained : s.1.(w_drained) = true → s.1.(w_unfinished) = 0%nat;
  wo_bound : (length s.1.(w_queue) ≤ MAX_PENDING)%nat
}.

Lemma writer_step_ok s s' : writer_ok s → writer_step s s' → writer_ok s'.
Proof.
  intros [H1 H2 H3 H4] Hst. destruct Hst as [r w put w' He|w put Ht|p w put]; simpl in *.
  - unfold enqueue in He. destruct (w_accepting w); [|done].
    destruct (MAX_PENDING <=? length (w_queue w))%nat eqn:E; simplify_eq; constructor; simpl; try done.
    + by rewrite <- app_assoc.
    + rewrite length_app. simpl. lia.
    + apply Nat.leb_gt in E. rewrite length_app. simpl. lia.
  - constructor; simpl; [by rewrite H1, <- app_assoc, take_drop| |done|rewrite length_drop; lia].
    rewrite H2, Ht, length_take, length_drop. simpl. lia.
  - constructor; simpl; [done|lia| |done]. destruct (w_unfinished w - length (w_taken w) =? 0)%nat eqn:E.
    + by apply Nat.eqb_eq in E.
    + intros Hd. rewrite H3 by done. done.
Qed.

(** No row is lost between queue and batch, and none overtakes another.
    However threads and the task take turns, the rows batches have taken are
    the rows put, in their order, up to those still queued; at most MAX_PENDING
    are queued; and when a flush returns, every row put before has been handed
    to the database. *)
Theorem writer_fifo w put :
  reachable writer_init writer_step (w, put) →
  put = w.(w_handed) ++ w.(w_queue) ∧ (length w.(w_queue) ≤ MAX_PENDING)%nat ∧
  (flushed w = true → put = w.(w_handed) ∧ w.(w_taken) = []).
Proof.
  intros Hr. assert (writer_ok (w, put)) as [H1 H2 H3 H4].
  { revert Hr. apply (reachable_invariant _ _ writer_ok); [|apply writer_step_ok].
    intros [w0 put0] (E1 & E2 & E3 & E4 & E5). simpl in *. constructor; simpl; rewrite ?E1, ?E2, ?E3, ?E4, ?E5; try done.
    simpl. lia. }
  simpl in *. split; [done|]. split; [done|]. intros Hd. specialize (H3 Hd). rewrite H3 in H2.
  destruct (w_taken w), (w_queue w); simpl in H2; try lia. by rewrite H1, app_nil_r.
Qed.

(** Closing writes everything out: when it stops accepting, as many
    batches as it takes to hold the queue empty it, whatever becomes of them,
    and each row still queued is handed over in order. *)
Theorem close_empties persisted w :
  w.(w_taken) = [] → (length w.(w_queue) ≤ BATCH_ROWS * length persisted)%nat →
  let w' := close persisted w in
  w'.(w_queue) = [] ∧ w'.(w_handed) = w.(w_handed) ++ w.(w_queue) ∧ flushed w' = true ∧
  ∀ r, ∃ e, enqueue r w' = (Err e, w').
Proof.
  intros Ht Hl. unfold close, flushed. simpl.
  set (w0 := mkWriter w.(w_queue) w.(w_taken) w.(w_unfinished) w.(w_drained) false w.(w_handed) w.(w_logs)).
  assert ((length w0.(w_queue) ≤ BATCH_ROWS * length persisted)%nat) as Hl0 by exact Hl.
  assert (w0.(w_accepting) = false) as Ha by done. change (w_queue w) with (w_queue w0). change (w_handed w) with (w_handed w0).
  clearbody w0. clear Ht Hl w. revert w0 Hl0 Ha. induction persisted as [|p rest IH]; intros w0 Hl Ha; simpl in *.
  - destruct (w_queue w0) as [|x q] eqn:E; simpl in *; [|lia]. rewrite app_nil_r. split_and!; try done. intros r. unfold enqueue.
    simpl. rewrite Ha. eauto.
  - destruct (IH (batch p w0)) as (H1 & H2 & H3 & H4).
    + simpl. rewrite length_drop. lia.
    + done.
    + split; [done|]. split; [|by split]. rewrite H2. simpl. by rewrite <- app_assoc, take_drop.
Qed.

(** ** What a batch writes *)
Lemma starts_rest rows d : ∃ e, foldl insert_start d rows = set_executions e d.
Proof.
  revert d. induction rows as [|r rows IH]; intros d; simpl; [by exists d.(lg_executions); destruct d|].
  destruct (IH (insert_start d r)) as [e ->]. exists e.
  unfold insert_start. by repeat case_match.
Qed.

Lemma audits_rest rows d : ∃ a, foldl insert_audit d rows = set_audit a d.
Proof.
  revert d. induction rows as [|r rows IH]; intros d; simpl; [by exists d.(lg_audit); destruct d|].
  destruct (IH (insert_audit d r)) as [a ->]. exists a.
  unfold insert_audit. by repeat case_match.
Qed.

(** Each table of a batch's result. *)
Lemma persist_parts rows d :
  (persist rows d).(lg_workspaces) = d.(lg_workspaces) ∧
  (persist rows d).(lg_usage) = (add_usage rows d).(lg_usage) ∧
  (persist rows d).(lg_activity) = map_imap (λ id t, Some (touched (latest_touch touch_of id rows) t)) d.(lg_activity) ∧
  (persist rows d).(lg_key_use) = map_imap (λ id t, Some (touched (latest_touch key_touch_of id rows) t)) d.(lg_key_use) ∧
  (persist rows d).(lg_executions) =
    map_imap (λ id e, Some (finished (latest_finish id rows) e)) (foldl insert_start d rows).(lg_executions).
Proof.
  unfold persist. destruct (starts_rest rows d) as [e ->].
  match goal with |- context [foldl insert_audit ?x rows] => destruct (audits_rest rows x) as [a ->] end.
  by split_and!.
Qed.

Lemma foldr_insert_lookup {V} (f : usage_key → V) (l : list usage_key) (m : gmap usage_key V) (k : usage_key) :
  foldr (λ k m, <[k := f k]> m) m l !! k = if decide (k ∈ l) then Some (f k) else m !! k.
Proof.
  induction l as [|x l IH]; simpl; [done|]. destruct (decide (x = k)) as [->|Hx].
  - rewrite lookup_insert_eq, decide_True by set_solver. done.
  - rewrite lookup_insert_ne, IH by done. repeat case_decide; set_solver.
Qed.

Lemma usage_sum_absent k rows : k ∉ usage_keys rows → (usage_sum k rows == 0)%Q.
Proof.
  induction rows as [|r rows IH]; simpl; [done|]. destruct r as [| | | | |k' q]; simpl; try (intros Hk; rewrite IH by done; lra).
  intros Hk. rewrite bool_decide_false by set_solver. rewrite IH by set_solver. lra.
Qed.

Lemma usage_sum_app k l1 l2 : (usage_sum k (l1 ++ l2) == usage_sum k l1 + usage_sum k l2)%Q.
Proof. induction l1 as [|r l1 IH]; simpl; [lra|]. rewrite IH. lra. Qed.

Definition used (k : usage_key) (d : Logs) : Q := default 0%Q (d.(lg_usage) !! k).

Lemma persist_usage rows d k :
  (used k (persist rows d) == used k d + (if decide (k.1.1.1 ∈ d.(lg_workspaces)) then usage_sum k rows else 0))%Q.
Proof.
  unfold used. destruct (persist_parts rows d) as (_ & -> & _). unfold add_usage. simpl.
  rewrite (foldr_insert_lookup (λ k, (default 0%Q (d.(lg_usage) !! k) + usage_sum k rows)%Q)).
  destruct (decide (k ∈ filter _ _)) as [Hin|Hn].
  - apply list_elem_of_filter in Hin as [Hw _]. by rewrite decide_True.
  - rewrite list_elem_of_filter, elem_of_remove_dups in Hn. case_decide as Hw; [|lra].
    rewrite (usage_sum_absent k rows); [lra|tauto].
Qed.

(** The later of two times that may be missing. *)
Definition later (a b : option time) : option time :=
  match a, b with Some x, Some y => Some (Z.max x y) | Some x, None => Some x | None, _ => b end.

Lemma latest_touch_from pick id rows best :
  foldl (λ best r,
    match pick r with
    | Some (id', at_) => if bool_decide (id' = id) then Some (match best with Some t => Z.max t at_ | None => at_ end) else best
    | None => best
    end) best rows = later best (latest_touch pick id rows).
Proof.
  unfold latest_touch. revert best. induction rows as [|r rows IH]; intros best; simpl; [by destruct best|].
  rewrite IH, (IH (match pick r with Some _ => _ | None => _ end)).
  destruct (pick r) as [[id' t]|]; [|done]. case_bool_decide; [|done].
  unfold later. destruct best as [b|], (foldl _ None rows) as [x|]; f_equal; lia.
Qed.

Lemma latest_touch_app pick id l1 l2 :
  latest_touch pick id (l1 ++ l2) = later (latest_touch pick id l1) (latest_touch pick id l2).
Proof. unfold latest_touch at 1. rewrite foldl_app. apply latest_touch_from. Qed.

Lemma touched_later a b t : touched b (touched a t) = touched (later a b) t.
Proof. destruct a, b, t; simpl; f_equal; lia. Qed.

(** Batches written one after the other. *)
Definition persist_all (batches : list (list row)) (d : Logs) : Logs := foldl (λ d b, persist b d) d batches.

Definition touched_in (pick : row → option (string * time)) (rows : list row) (m : gmap string (option time))
    : gmap string (option time) :=
  map_imap (λ id t, Some (touched (latest_touch pick id rows) t)) m.

Lemma touched_in_app pick l1 l2 m : touched_in pick l2 (touched_in pick l1 m) = touched_in pick (l1 ++ l2) m.
Proof.
  apply map_eq. intros id. unfold touched_in. rewrite !map_lookup_imap. destruct (m !! id) as [t|]; simpl; [|done].
  by rewrite touched_later, latest_touch_app.
Qed.

Lemma touched_in_nil pick m : touched_in pick [] m = m.
Proof. apply map_eq. intros id. unfold touched_in. rewrite map_lookup_imap. by destruct (m !! id). Qed.

(** How rows fall into batches does not matter.  However the rows queued
    are cut into batches, what is written of usage is each hour's quantity with
    all its rows added, for workspaces that exist, and each sandbox and key is
    used last at the latest of its touches: the same as of one batch. *)
Theorem batches_exact batches d :
  let rows := concat batches in
  let d' := persist_all batches d in
  (∀ k, (used k d' == used k d + (if decide (k.1.1.1 ∈ d.(lg_workspaces)) then usage_sum k rows else 0))%Q) ∧
  d'.(lg_activity) = touched_in touch_of rows d.(lg_activity) ∧
  d'.(lg_key_use) = touched_in key_touch_of rows d.(lg_key_use) ∧
  (∀ k, (used k d' == used k (persist rows d))%Q).
Proof.
  intros rows d'. assert ((∀ k, (used k d' == used k d + (if decide (k.1.1.1 ∈ d.(lg_workspaces)) then usage_sum k rows else 0))%Q) ∧
    d'.(lg_activity) = touched_in touch_of rows d.(lg_activity) ∧
    d'.(lg_key_use) = touched_in key_touch_of rows d.(lg_key_use)) as (H1 & H2 & H3).
  - unfold d', rows, persist_all. clear d' rows. revert d. induction batches as [|b rest IH]; intros d; simpl.
    + split; [|by rewrite !touched_in_nil]. intros k. case_decide; simpl; lra.
    + destruct (IH (persist b d)) as (H1 & H2 & H3). destruct (persist_parts b d) as (Ew & _ & Ea & Ek & _).
      split; [|split].
      * intros k. rewrite H1, persist_usage, Ew. case_decide; [|lra]. rewrite usage_sum_app. lra.
      * rewrite H2, Ea. apply touched_in_app.
      * rewrite H3, Ek. apply touched_in_app.
  - split_and!; try done. intros k. by rewrite H1, persist_usage.
Qed.

(** *** Executions *)

Definition start_id (r : row) : option string := match r with Start id _ _ _ _ _ => Some id | _ => None end.
Definition finish_id (r : row) : option string := match r with Finish id _ _ _ _ => Some id | _ => None end.

Lemma starts_keep rows d id e :
  d.(lg_executions) !! id = Some e → (foldl insert_start d rows).(lg_executions) !! id = Some e.
Proof.
  revert d. induction rows as [|r rows IH]; intros d He; simpl; [done|]. apply IH.
  unfold insert_start. repeat case_match; try done. simpl. rewrite lookup_insert_ne; [done|]. intros ->. congruence.
Qed.

Lemma starts_skip rows d id :
  d.(lg_executions) !! id = None → Some id ∉ start_id <$> rows → (foldl insert_start d rows).(lg_executions) !! id = None.
Proof.
  revert d. induction rows as [|r rows IH]; intros d He Hn; simpl; [done|]. csimpl in Hn.
  apply IH; [|set_solver]. unfold insert_start. repeat case_match; try done. simpl.
  rewrite lookup_insert_ne; [done|]. intros ->. set_solver.
Qed.

Lemma starts_activity rows d : (foldl insert_start d rows).(lg_activity) = d.(lg_activity).
Proof. by destruct (starts_rest rows d) as [e ->]. Qed.

Lemma starts_insert l1 l2 d id sb tool input at_ created :
  d.(lg_executions) !! id = None → is_Some (d.(lg_activity) !! sb) → Some id ∉ start_id <$> l1 →
  (foldl insert_start d (l1 ++ Start id sb tool input at_ created :: l2)).(lg_executions) !! id =
    Some (mkExecution sb tool "running" input None None at_ None created).
Proof.
  intros He [last Hs] Hn. rewrite foldl_app. simpl. apply starts_keep.
  rewrite (starts_skip _ _ _ He Hn), starts_activity, Hs. simpl. apply lookup_insert_eq.
Qed.

Lemma latest_finish_none id rows : Some id ∉ finish_id <$> rows → latest_finish id rows = None.
Proof.
  unfold latest_finish. induction rows as [|r rows IH]; csimpl; [done|].
  intros [Hx Hn]%not_elem_of_cons. destruct r; simpl in *; try (by apply IH).
  rewrite bool_decide_false by congruence. by apply IH.
Qed.

Lemma latest_finish_only id l1 l2 status output error at_ :
  Some id ∉ finish_id <$> l1 → Some id ∉ finish_id <$> l2 →
  latest_finish id (l1 ++ Finish id status output error at_ :: l2) = Some (Finish id status output error at_).
Proof.
  intros H1 H2. pose proof (latest_finish_none id l1 H1) as E. unfold latest_finish in *. rewrite foldl_app, E. simpl.
  rewrite bool_decide_true by done. clear E H1. induction l2 as [|r l2 IH]; simpl; [done|]. csimpl in H2.
  apply not_elem_of_cons in H2 as [Hx Hn]. destruct r; simpl in *; try (by apply IH).
  rewrite bool_decide_false by congruence. by apply IH.
Qed.

Lemma persist_executions rows d id :
  (persist rows d).(lg_executions) !! id =
    finished (latest_finish id rows) <$> (foldl insert_start d rows).(lg_executions) !! id.
Proof.
  destruct (persist_parts rows d) as (_ & _ & _ & _ & ->). rewrite map_lookup_imap. by destruct (_ !! id).
Qed.

(** A tool call is recorded whole.  When the start and the finish of an
    execution id, the only ones of it, are in one batch or in two one after the
    other, with the sandbox there when the start is written, its row afterwards
    has what the call was, how it ended, and both times. *)
Theorem execution_recorded d id sb tool input at_ created status output error done_at l1 l2 l3 (together : bool) :
  d.(lg_executions) !! id = None → is_Some (d.(lg_activity) !! sb) →
  (Some id ∉ start_id <$> l1 ++ l2 ++ l3) → (Some id ∉ finish_id <$> l1 ++ l2 ++ l3) →
  let s := Start id sb tool input at_ created in
  let f := Finish id status output error done_at in
  let d' := if together then persist (l1 ++ s :: l2 ++ f :: l3) d else persist (l2 ++ f :: l3) (persist (l1 ++ [s]) d) in
  d'.(lg_executions) !! id = Some (mkExecution sb tool status input output error at_ (Some done_at) created).
Proof.
  intros He Hs Hns Hnf. rewrite !fmap_app, !not_elem_of_app in Hns, Hnf. destruct Hns as (S1 & S2 & S3), Hnf as (F1 & F2 & F3).
  destruct together; cbv zeta iota; rewrite persist_executions.
  - rewrite starts_insert by done.
    change (l1 ++ Start id sb tool input at_ created :: l2 ++ Finish id status output error done_at :: l3)
      with (l1 ++ (Start id sb tool input at_ created :: l2) ++ Finish id status output error done_at :: l3).
    rewrite app_assoc, latest_finish_only; [done| |done]. rewrite fmap_app. csimpl. set_solver.
  - rewrite latest_finish_only by done.
    rewrite (starts_keep _ _ _ (mkExecution sb tool "running" input None None at_ None created)); [done|].
    rewrite persist_executions, starts_insert by done.
    rewrite latest_finish_none; [done|]. rewrite fmap_app. csimpl. set_solver.
Qed.

(** ** Witnesses *)

Definition demo_logs : Logs :=
  mkLogs {["w1"]} {["u1"]} {["s1" := None]} ∅ ∅ ∅ {[("w1", "s1", "cpu_minutes", 0) := 1%Q]}.

Definition demo_writer : Writer := mkWriter [] [] 0 true true [] demo_logs.

(** A thread records a call while the task takes turns; then a flush returns. *)
Lemma writer_fifo_witness :
  let s := Start "e1" "s1" "click" "{}" 5 5 in
  let w := batch_end true (batch_take (mkWriter [s] [] 1 false true [] demo_logs)) in
  [s] = w.(w_handed) ∧ w.(w_taken) = [].
Proof.
  intros s w. destruct (writer_fifo w [s]) as (_ & _ & H); [|apply H; vm_compute; reflexivity].
  eapply reach_step; [|apply (ws_end true (batch_take (mkWriter [s] [] 1 false true [] demo_logs)) [s])].
  eapply reach_step; [|apply (ws_take (mkWriter [s] [] 1 false true [] demo_logs) [s]); done].
  eapply reach_step; [|exact (ws_put s demo_writer [] (mkWriter [s] [] 1 false true [] demo_logs) eq_refl)].
  apply reach_init. done.
Defined.

Lemma close_empties_witness :
  let w := mkWriter [Touch "s1" 3] [] 1 false true [] demo_logs in
  (close [true] w).(w_queue) = [] ∧ (close [true] w).(w_handed) = [Touch "s1" 3].
Proof.
  intros w. destruct (close_empties [true] w) as (H1 & H2 & _); [done| |by split].
  apply Nat.leb_le. by vm_compute.
Defined.

Lemma execution_recorded_witness :
  let d := persist [Touch "s1" 6; Finish "e1" "completed" (Some "ok") None 7]
             (persist [Touch "s1" 5; Start "e1" "s1" "click" "{}" 5 5] demo_logs) in
  d.(lg_executions) !! "e1" = Some (mkExecution "s1" "click" "completed" "{}" (Some "ok") None 5 (Some 7) 5).
Proof.
  refine (execution_recorded demo_logs "e1" "s1" "click" "{}" 5 5 "completed" (Some "ok") None 7 [Touch "s1" 5]
    [Touch "s1" 6] [] false _ _ _ _); [done|by eexists|apply (bool_decide_unpack _); by vm_compute..].
Defined.
