(* ===== verification/AuditTrail.v ===== *)
(** The audit log (src/apps/server/audit_api.py): which requests are recorded
    and as what, its pages, and its export; and the list of a sandbox's
    executions, which the same writer fills. *)

From S2P Require Import Prelude Tables Store Labels Auth Access Registry Codec Writer Pages.

(** ** Recording *)

(** Source: src/apps/server/audit_api.py:33-38 [SELF_AUDITED]. *)
Definition SELF_AUDITED : list string :=
  ["/vault"; "/profiles"; "/sandboxes/{sandbox_id}/profiles"; "/sandboxes/{sandbox_id}/vault-secrets"].

(** What the middleware sees once the application has answered: the member the
    route's check left, the route's template and path parameters. *)
Record Served := mkServed {
  s_member : option Member;
  s_route : option string;
  s_method : string;
  s_params : list (string * string);
  s_ip : string;
  s_status : Z
}.

Fixpoint strip_left (c : ascii) (s : string) : string :=
  match s with
  | String a s' => if decide (a = c) then strip_left c s' else s
  | EmptyString => EmptyString
  end.

(** [route.strip("/").split("/")[0]] *)
Definition first_segment (route : string) : string :=
  default "" (head (split "/"%char (String.rev (strip_left "/"%char (String.rev (strip_left "/"%char route)))))).

Section audit.
(** [json.dumps] *)
Context (dumps : json → string).

(** Source: src/apps/server/audit_api.py:101-130 [AuditApi.record].  The row queued,
    if any; the response goes through as it is. *)
Definition record (r : Served) : option AuditLog :=
  match r.(s_member), r.(s_route) with
  | Some member, Some route =>
      if bool_decide (r.(s_method) ∈ ["GET"; "HEAD"; "OPTIONS"])
         || negb ((200 <=? r.(s_status)) && (r.(s_status) <? 300))
         || starts_any route SELF_AUDITED
      then None
      else
        let workspace_id := default member.(m_workspace_id) (str_or_none (dget "workspace_id" r.(s_params))) in
        let metadata := [("ip", JStr r.(s_ip)); ("status", JInt r.(s_status))]
                        ++ match member.(m_key_id) with Some k => [("api_key_id", JStr k)] | None => [] end in
        Some (mkAuditLog workspace_id (Some member.(m_id)) (dget "sandbox_id" r.(s_params))
                (r.(s_method) +:+ " " +:+ route) (first_segment route) (snd <$> head r.(s_params))
                (dumps (JObj metadata)) 0)
  | _, _ => None
  end.

(** Source: src/apps/server/audit_api.py:59-72 [system].  Its row; the writer
    stamps it. *)
Definition system (workspace_id action resource_type : string) (resource_id : option string) (metadata : list (string * json))
    : AuditLog :=
  mkAuditLog workspace_id None (if bool_decide (resource_type = "sandboxes") then resource_id else None) action resource_type
    resource_id (dumps (JObj (("source", JStr "system") :: metadata))) 0.
End audit.

(** ** Reading *)

(** The filters of a request. *)
Record Filters := mkFilters {
  f_actor : option string;
  f_action : option string;
  f_resource_type : option string;
  f_sandbox_id : option string;
  f_since : option time;
  f_until : option time
}.

Definition asked {A} `{EqDecision A} (want : option A) (have : option A) : bool :=
  match want with None => true | Some x => bool_decide (have = Some x) end.

(** The WHERE clause but for the cursor. *)
Definition selected (workspace_id : string) (f : Filters) (r : string * AuditLog) : bool :=
  bool_decide (r.2.(al_workspace_id) = workspace_id) && asked f.(f_actor) r.2.(al_actor_id)
  && asked f.(f_action) (Some r.2.(al_action)) && asked f.(f_resource_type) (Some r.2.(al_resource_type))
  && asked f.(f_sandbox_id) r.2.(al_sandbox_id)
  && match f.(f_since) with None => true | Some t => t <=? r.2.(al_created_at) end
  && match f.(f_until) with None => true | Some t => r.2.(al_created_at) <? t end.

Definition audit_key (r : string * AuditLog) : time * string := (r.2.(al_created_at), r.1).

Definition audit_rows (workspace_id : string) (f : Filters) (d : Logs) : list (string * AuditLog) :=
  filter (λ r, selected workspace_id f r = true) (map_to_list d.(lg_audit)).

(** Source: src/db/generated/query.py:1300-1315 [LIST_AUDIT_LOGS]. *)
Definition list_audit_logs_sql (workspace_id : string) (f : Filters) (d : Logs)
    : option (time * string) → nat → list (string * AuditLog) :=
  keyset audit_key (audit_rows workspace_id f d).

(** Source: src/apps/server/audit_api.py:31-31 [EXPORT_PAGE]. *)
Definition EXPORT_PAGE : nat := Z.to_nat 1000.
#[local] Opaque EXPORT_PAGE.

Section reading.
Context (isoformat : time → string) (fromisoformat : string → option time).

(** Source: src/apps/server/audit_api.py:75-76 [cursor_after]. *)
Definition cursor_after (row : string * AuditLog) : string :=
  urlsafe_b64encode (isoformat row.2.(al_created_at) +:+ "|" +:+ row.1).

(** Source: src/apps/server/audit_api.py:132-167 [AuditApi.page]. *)
Definition audit_page (user : Member) (limit : nat) (cursor : option string) (f : Filters) (d : Logs)
    : result exn (list (string * AuditLog)) :=
  let refused := Err (HTTPException 422 [Txt "that cursor isn't one this API gave out"]) in
  match str_or_none cursor with
  | None => Ok (list_audit_logs_sql user.(m_workspace_id) f d None limit)
  | Some c =>
      match urlsafe_b64decode c with
      | Some text =>
          let '(at_, _, before_id) := partition "|"%char text in
          match fromisoformat at_ with
          | Some t => Ok (list_audit_logs_sql user.(m_workspace_id) f d (Some (t, before_id)) limit)
          | None => refused
          end
      | None => refused
      end
  end.

(** Source: src/apps/server/audit_api.py:172-191 [list_audit_logs]. *)
Definition list_audit_logs (limit : nat) (cursor : option string) (f : Filters) (user : Member) (d : Logs)
    : result exn (list (string * AuditLog) * option string) :=
  if can user RAdmin then
    match audit_page user (limit + 1) cursor f d with
    | Ok rows =>
        let last := if (limit <? length rows)%nat then rows !! (limit - 1)%nat else None in
        Ok (take limit rows, cursor_after <$> last)
    | Err e => Err e
    end
  else Err (HTTPException 403 [Txt "this needs the admin role in the workspace"]).

(** The loop of an export, with fuel: the rows it writes. *)
Fixpoint export_loop (fuel : nat) (user : Member) (cursor : option string) (f : Filters) (d : Logs)
    : option (result exn (list (string * AuditLog))) :=
  match fuel with
  | 0%nat => None
  | S fuel =>
      match audit_page user EXPORT_PAGE cursor f d with
      | Err e => Some (Err e)
      | Ok rows =>
          if (length rows <? EXPORT_PAGE)%nat then Some (Ok rows)
          else match last rows with
               | None => Some (Err IndexError)
               | Some r =>
                   match export_loop fuel user (Some (cursor_after r)) f d with
                   | Some (Ok rest) => Some (Ok (rows ++ rest))
                   | other => other
                   end
               end
      end
  end.

(** Source: src/apps/server/audit_api.py:193-240 [export_audit_logs]. *)
Definition export_audit_logs (fuel : nat) (f : Filters) (user : Member) (d : Logs)
    : option (result exn (list (string * AuditLog))) :=
  if can user RAdmin then export_loop fuel user None f d
  else Some (Err (HTTPException 403 [Txt "this needs the admin role in the workspace"])).

Context {Hiso : IsoOk isoformat fromisoformat}.

Lemma audit_keys_unique workspace_id f d : NoDup (audit_key <$> audit_rows workspace_id f d).
Proof.
  assert (NoDup (audit_rows workspace_id f d)) as Hd by (apply NoDup_filter, NoDup_map_to_list).
  apply NoDup_fmap_2_strong; [|done]. intros [i x] [j y] Hi Hj. unfold audit_key. simpl. intros [= _ ->].
  apply list_elem_of_filter in Hi as [_ Hi%elem_of_map_to_list], Hj as [_ Hj%elem_of_map_to_list]. congruence.
Qed.

Lemma EXPORT_PAGE_pos : (0 < EXPORT_PAGE)%nat.
Proof. apply Nat.ltb_lt. by vm_compute. Qed.

Lemma audit_page_ok user limit before f d :
  audit_page user limit ((λ k, encode_cursor isoformat k.1 k.2) <$> before) f d =
    Ok (take limit (filter (λ r, below audit_key before r = true)
      (newest_first audit_key (audit_rows user.(m_workspace_id) f d)))).
Proof.
  unfold audit_page. destruct before as [[t id]|]; [|done].
  change ((λ k, encode_cursor isoformat k.1 k.2) <$> Some (t, id)) with (Some (encode_cursor isoformat t id)).
  pose proof (decode_encode isoformat fromisoformat t id) as Hde. unfold decode_cursor in Hde.
  destruct (str_or_none (Some (encode_cursor isoformat t id))) as [c|]; [|simplify_eq].
  destruct (urlsafe_b64decode c) as [text|]; [|simplify_eq]. destruct (partition _ text) as [[a b] i].
  destruct (fromisoformat a) as [t'|]; by simplify_eq.
Qed.

(** The audit log's pages are pages like any other: for a cursor this API
    gave out, or none, an admin gets what [pages.collect] would give of the
    rows their filters select. *)
Theorem audit_pages_agree limit before f user d fuel :
  can user RAdmin = true → (0 < limit)%nat → (length (audit_rows user.(m_workspace_id) f d) < fuel)%nat →
  let cursor := (λ k, encode_cursor isoformat k.1 k.2) <$> before in
  collect isoformat fromisoformat audit_key (list_audit_logs_sql user.(m_workspace_id) f d) (λ _, true) limit fuel cursor =
    Some (list_audit_logs limit cursor f user d).
Proof.
  intros Hc Hl Hf cursor. unfold list_audit_logs. rewrite Hc.
  set (L := filter (λ r, below audit_key before r = true) (newest_first audit_key (audit_rows user.(m_workspace_id) f d))).
  unfold cursor at 2. rewrite audit_page_ok. fold L.
  assert (decode_cursor fromisoformat cursor = Ok before) as Hd.
  { unfold cursor. destruct before as [[t id]|]; simpl; [apply decode_encode|]; done. }
  unfold collect. rewrite Hd. unfold list_audit_logs_sql.
  rewrite (loop_spec audit_key (audit_rows user.(m_workspace_id) f d) (λ _, true) limit (audit_keys_unique _ f d) Hl
    fuel before [] L eq_refl); [|simpl; lia|].
  2:{ eapply Nat.le_lt_trans; [apply length_filter|]. unfold newest_first. by rewrite merge_sort_Permutation. }
  simpl. rewrite filter_all by (by apply Forall_forall). unfold page_of. simpl.
  rewrite take_take, Nat.min_l by lia. rewrite length_take.
  destruct (limit <? length L)%nat eqn:E.
  - apply Nat.ltb_lt in E. rewrite (proj2 (Nat.ltb_lt _ _)) by lia. rewrite lookup_take_lt by lia.
    by destruct (L !! (limit - 1)%nat).
  - apply Nat.ltb_ge in E. by rewrite (proj2 (Nat.ltb_ge _ _)) by lia.
Qed.

Lemma export_from user before f d fuel :
  let L := filter (λ r, below audit_key before r = true) (newest_first audit_key (audit_rows user.(m_workspace_id) f d)) in
  (length L < fuel)%nat →
  export_loop fuel user ((λ k, encode_cursor isoformat k.1 k.2) <$> before) f d = Some (Ok L).
Proof.
  revert before. induction fuel as [|fuel IH]; intros before L Hf; [lia|]. simpl.
  rewrite audit_page_ok. fold L. destruct (length (take EXPORT_PAGE L) <? EXPORT_PAGE)%nat eqn:E.
  - apply Nat.ltb_lt in E. rewrite length_take in E. by rewrite take_ge by lia.
  - apply Nat.ltb_ge in E. rewrite length_take in E.
    destruct (last (take EXPORT_PAGE L)) as [x|] eqn:Elast.
    2:{ apply last_None, (f_equal length) in Elast. rewrite length_take in Elast. simpl in Elast. pose proof EXPORT_PAGE_pos. lia. }
    assert (Hx : L !! (EXPORT_PAGE - 1)%nat = Some x).
    { rewrite last_lookup, length_take, Nat.min_l in Elast by lia. rewrite lookup_take_lt in Elast; [|pose proof EXPORT_PAGE_pos; lia].
      by rewrite <- Nat.sub_1_r in Elast. }
    pose proof (rest_of_page audit_key (audit_rows user.(m_workspace_id) f d) (λ _, true) EXPORT_PAGE
      (audit_keys_unique _ f d) EXPORT_PAGE_pos before L x eq_refl) as Hrest.
    rewrite !filter_all in Hrest by (by apply Forall_forall). specialize (Hrest Hx).
    change (Some (cursor_after x)) with ((λ k, encode_cursor isoformat k.1 k.2) <$> Some (audit_key x)).
    pose proof EXPORT_PAGE_pos. rewrite IH by (rewrite Hrest, length_drop; lia). rewrite Hrest. by rewrite take_drop.
Qed.

(** An export is complete and ends.  An admin gets every row the filters
    select, each once and newest first; a page per row and one more is enough. *)
Theorem export_complete user f d fuel :
  can user RAdmin = true → (length (audit_rows user.(m_workspace_id) f d) < fuel)%nat →
  export_audit_logs fuel f user d = Some (Ok (newest_first audit_key (audit_rows user.(m_workspace_id) f d))).
Proof.
  intros Hc Hf. unfold export_audit_logs. rewrite Hc.
  pose proof (export_from user None f d fuel) as H. simpl in H. rewrite filter_all in H by (by apply Forall_forall).
  apply H. unfold newest_first. by rewrite merge_sort_Permutation.
Qed.
End reading.

(** ** A sandbox's executions *)

Definition execution_key (e : string * Execution) : time * string := (e.2.(te_created_at), e.1).

(** Source: src/db/generated/query.py:1864-1871 [PAGE_TOOL_EXECUTIONS]. *)
Definition page_tool_executions (sandbox_id : string) (d : Logs) : option (time * string) → nat → list (string * Execution) :=
  keyset execution_key (filter (λ e, e.2.(te_sandbox_id) = sandbox_id) (map_to_list d.(lg_executions))).

(** Source: src/apps/server/sandbox_api.py:667-698 [list_executions].  [d] are the
    tables once the writer has flushed. *)
Definition list_executions (isoformat : time → string) (fromisoformat : string → option time) (fuel : nat)
    (sandbox_id : string) (limit : nat) (cursor : option string) (user : Member) (d : Logs)
    : M World (option (result exn (list (string * Execution) * option string))) :=
  sandbox ← owned sandbox_id user;
  mret (collect isoformat fromisoformat execution_key (page_tool_executions sandbox.(sb_id) d) (λ _, true) limit fuel cursor).

(** ** Witnesses *)

Definition demo_log (at_ : time) : AuditLog := mkAuditLog "w1" (Some "u1") None "POST /v1/sandboxes" "v1" None "{}" at_.
Definition demo_audit : Logs :=
  mkLogs {["w1"]} {["u1"]} ∅ ∅ ∅ (<["a" := demo_log 1]> (<["b" := demo_log 2]> {["c" := demo_log 2]})) ∅.
Definition demo_admin : Member := mkMember "u1" "w1" RAdmin None None None.
Definition no_filters : Filters := mkFilters None None None None None None.

Lemma audit_pages_agree_witness :
  collect demo_iso demo_from_iso audit_key (list_audit_logs_sql "w1" no_filters demo_audit) (λ _, true) 2 4 None =
    Some (list_audit_logs demo_iso demo_from_iso 2 None no_filters demo_admin demo_audit).
Proof.
  refine (audit_pages_agree demo_iso demo_from_iso 2 None no_filters demo_admin demo_audit 4 eq_refl _ _); [lia|].
  apply Nat.ltb_lt. by vm_compute.
Defined.

Lemma export_complete_witness :
  export_audit_logs demo_iso demo_from_iso 4 no_filters demo_admin demo_audit =
    Some (Ok [("c", demo_log 2); ("b", demo_log 2); ("a", demo_log 1)]).
Proof.
  refine (eq_trans (export_complete demo_iso demo_from_iso demo_admin no_filters demo_audit 4 eq_refl _) _);
    [apply Nat.ltb_lt; by vm_compute|by vm_compute].
Defined.

(** The middleware sees the route with the prefix of the API's version: what
    the vault's routes record themselves is recorded twice, and every row's
    resource type is the version. *)
Example audited_with_prefix :
  let r := mkServed (Some demo_admin) (Some "/v1/vault/{secret_id}") "DELETE" [("secret_id", "v1")] "ip" 204 in
  al_resource_type <$> record (λ _, "") r = Some "v1" ∧
  record (λ _, "") (mkServed (Some demo_admin) (Some "/vault/{secret_id}") "DELETE" [("secret_id", "v1")] "ip" 204) = None.
Proof. by vm_compute. Qed.
