(* ===== verification/Metering.v ===== *)
(** Usage metering (src/apps/server/metering.py): what a minute's sample queues
    for the writer, and the reports that group what was written. *)

From S2P Require Import Prelude Tables Store Labels Quotas Auth Writer.
From Stdlib Require Import Lqa.

(** ** Sums by group *)

Definition sumQ {R} (f : R → Q) (l : list R) : Q := sum Qplus 0%Q f l.

Lemma sumQ_permutation {R} (f : R → Q) l l' : l ≡ₚ l' → (sumQ f l == sumQ f l')%Q.
Proof. apply (sum_permutation Qeq); [apply _|apply Qplus_assoc|apply Qplus_comm]. Qed.

Lemma sumQ_app {R} (f : R → Q) l l' : (sumQ f (l ++ l') == sumQ f l + sumQ f l')%Q.
Proof. induction l as [|x l IH]; unfold sumQ in *; simpl; [lra|]. rewrite IH. lra. Qed.

Lemma sumQ_ext {R} (f g : R → Q) l : (∀ x, x ∈ l → (f x == g x)%Q) → (sumQ f l == sumQ g l)%Q.
Proof.
  induction l as [|x l IH]; intros H; unfold sumQ in *; simpl; [done|]. rewrite (H x) by set_solver.
  rewrite IH; [done|]. intros y Hy. apply H. set_solver.
Qed.

Lemma sumQ_filter {R} (P : R → Prop) `{!∀ x, Decision (P x)} (f : R → Q) l :
  (sumQ f (filter P l) == sumQ (λ x, if bool_decide (P x) then f x else 0%Q) l)%Q.
Proof.
  unfold sumQ. induction l as [|x l IH]; [done|]. rewrite filter_cons. simpl. rewrite <- IH.
  case_decide; [by rewrite bool_decide_true|]. rewrite bool_decide_false by done. lra.
Qed.

Lemma sumQ_fmap {R T} (f : T → Q) (g : R → T) l : sumQ f (g <$> l) = sumQ (λ x, f (g x)) l.
Proof. unfold sumQ. induction l as [|x l IH]; [done|]. csimpl. by rewrite IH. Qed.

(** A sum over a map whose terms vanish away from one key. *)
Lemma sumQ_at {K V} `{Countable K} (f : K * V → Q) (m : gmap K V) k :
  (∀ i v, i ≠ k → (f (i, v) == 0)%Q) →
  (sumQ f (map_to_list m) == match m !! k with Some v => f (k, v) | None => 0 end)%Q.
Proof.
  intros Hf. assert (∀ m' : gmap K V, m' !! k = None → (sumQ f (map_to_list m') == 0)%Q) as Hz.
  { intros m' Hk. trans (sumQ (λ _, 0%Q) (map_to_list m')).
    - apply sumQ_ext. intros [i v] Hi%elem_of_map_to_list. apply Hf. congruence.
    - unfold sumQ. induction (map_to_list m') as [|x l IH]; simpl; [done|]. rewrite IH. lra. }
  destruct (m !! k) as [v|] eqn:E; [|by apply Hz].
  rewrite <- (insert_delete_id m k v) by done.
  rewrite (sumQ_permutation _ _ _ (map_to_list_insert _ _ _ (lookup_delete_eq m k))). unfold sumQ at 1. simpl.
  fold (sumQ f (map_to_list (delete k m))). rewrite Hz by apply lookup_delete_eq. lra.
Qed.

(** Sums whose terms differ by at most [e] differ by at most [e] a term. *)
Lemma sumQ_close {R} (f g : R → Q) (e : Q) l :
  (∀ x, x ∈ l → (g x - e <= f x <= g x + e)%Q) →
  (sumQ g l - inject_Z (Z.of_nat (length l)) * e <= sumQ f l <= sumQ g l + inject_Z (Z.of_nat (length l)) * e)%Q.
Proof.
  unfold sumQ. induction l as [|x l IH]; intros H; [simpl; change (inject_Z (Z.of_nat 0)) with 0%Q; split; lra|].
  assert (inject_Z (Z.of_nat (length (x :: l))) == inject_Z (Z.of_nat (length l)) + 1)%Q as ->.
  { cbn [length]. rewrite Nat2Z.inj_succ, <- Z.add_1_r, inject_Z_plus. reflexivity. }
  destruct (H x) as [H1 H2]; [set_solver|]. destruct IH as [H3 H4]; [intros y Hy; apply H; set_solver|].
  simpl. split; lra.
Qed.

Lemma round_div_close n d : 0 < d → 2 * n - d ≤ 2 * d * round_div n d ≤ 2 * n + d.
Proof.
  intros Hd. pose proof (Z.div_mod n d ltac:(lia)). pose proof (Z.mod_pos_bound n d Hd). unfold round_div.
  destruct (2 * (n mod d) <? d) eqn:E1; [apply Z.ltb_lt in E1; nia|]. apply Z.ltb_ge in E1.
  destruct (d <? 2 * (n mod d)) eqn:E2; [apply Z.ltb_lt in E2; nia|]. apply Z.ltb_ge in E2.
  destruct (Z.even (n / d)); nia.
Qed.

Section groups.
Context {K R : Type} `{Countable K} (key : R → K) (quantity : R → Q).

(** GROUP BY a key with its SUM, and a dict of running totals. *)
Definition add_to (m : gmap K Q) (r : R) : gmap K Q :=
  <[key r := (default 0%Q (m !! key r) + quantity r)%Q]> m.
Definition group_sum (l : list R) : gmap K Q := foldl add_to ∅ l.

(** The total of the groups that satisfy [p]. *)
Definition total_of (p : K → bool) (m : gmap K Q) : Q := sumQ (λ x, if p x.1 then x.2 else 0%Q) (map_to_list m).

Lemma total_of_add p m r :
  (total_of p (add_to m r) == total_of p m + (if p (key r) then quantity r else 0))%Q.
Proof.
  unfold total_of, add_to. destruct (m !! key r) as [v|] eqn:E; simpl.
  - rewrite <- (insert_delete_id m (key r) v) at 2 by done. rewrite <- insert_delete_eq.
    rewrite !(sumQ_permutation _ _ _ (map_to_list_insert _ _ _ (lookup_delete_eq m (key r)))).
    unfold sumQ. simpl. destruct (p (key r)); lra.
  - rewrite (sumQ_permutation _ _ _ (map_to_list_insert _ _ _ E)). unfold sumQ. simpl. destruct (p (key r)); lra.
Qed.

(** Grouping loses nothing: the total of any groups is that of their rows. *)
Lemma total_of_groups p l :
  (total_of p (group_sum l) == sumQ (λ r, if p (key r) then quantity r else 0) l)%Q.
Proof.
  unfold group_sum. assert (∀ m, (total_of p (foldl add_to m l) == total_of p m + sumQ (λ r, if p (key r) then quantity r else 0) l)%Q) as Hg.
  { induction l as [|r l IH]; intros m; simpl; [unfold sumQ; simpl; lra|]. rewrite IH, total_of_add. unfold sumQ. simpl. lra. }
  rewrite Hg. unfold total_of at 1. rewrite map_to_list_empty. unfold sumQ at 1. simpl. lra.
Qed.
End groups.

(** ** Sampling *)

(** The tables with the writer's queue: [mt_metered] is the [storage_metered_at]
    of each workspace. *)
Record Meter := mkMeter {
  mt_db : Db;
  mt_metered : gmap string (option time);
  mt_writer : Writer;
  mt_now : time
}.

Definition put_writer (v : Writer) (s : Meter) : Meter := mkMeter s.(mt_db) s.(mt_metered) v s.(mt_now).

(** A call on the writer. *)
Definition writing (m : M Writer unit) : M Meter unit := λ s,
  let '(r, v) := m s.(mt_writer) in (r, put_writer v s).

(** Source: src/db/generated/query.py:1642-1646 [LIST_SANDBOXES_BY_STATUS]. *)
Definition list_sandboxes_by_status (st : status) (d : Db) : list Sandbox :=
  order_by (λ s, (s.(sb_created_at), 0)) (filter (λ s, s.(sb_status) = st ∧ s.(sb_deleted_at) = None) (rows d.(sandboxes))).

Definition due_at (hour : time) (t : option time) : bool := match t with None => true | Some t => t <? hour end.

(** Source: src/db/generated/query.py:164-168 [CLAIM_STORAGE_METERING]. *)
Definition claim_storage_metering : M Meter (list string) := λ s,
  let hour := hour_of s.(mt_now) in
  let due := filter (λ x, due_at hour x.2 = true) (map_to_list s.(mt_metered)) in
  (Ok due.*1, mkMeter s.(mt_db) (foldr (λ x m, <[x.1 := Some hour]> m) s.(mt_metered) due) s.(mt_writer) s.(mt_now)).

(** Source: src/db/generated/query.py:2049-2056 [SANDBOX_STORAGE]. *)
Definition sandbox_storage (unsized_gb : Z) (workspace_id : string) (d : Db) : list (string * Q) :=
  (λ s, (s.(sb_id), (inject_Z (disk_of unsized_gb s)
                     + (totalZ (λ sn, if bool_decide (sn.(sn_sandbox_id) = s.(sb_id)) then sn.(sn_size_bytes) else 0%Z)
                          d.(snapshots) # 1073741824))%Q)) <$>
    filter (λ s, s.(sb_workspace_id) = workspace_id ∧ s.(sb_status) ≠ Deleting ∧ s.(sb_status) ≠ Deleted)
      (rows d.(sandboxes)).

(** Source: src/db/generated/query.py:1901-1905 [PROFILE_STORAGE]. *)
Definition profile_storage (workspace_id : string) (d : Db) : Q :=
  (default 0%Z (d.(profile_bytes) !! workspace_id) # 1073741824)%Q.

(** Source: src/apps/server/metering.py:30-33 [METER_SECONDS, METRICS, MAX_DAYS]. *)
Definition METER_SECONDS : Z := 60.
Definition METRICS : list string := ["cpu_minutes"; "memory_mb_minutes"; "storage_gb_hours"].
Definition MAX_DAYS : Z := 366.

(** Source: src/apps/server/metering.py:36-37 [add]. *)
Definition add (workspace_id sandbox_id metric : string) (quantity : Q) (at_ : option time) : M Meter unit :=
  s ← get;
  writing (usage workspace_id sandbox_id metric quantity (default s.(mt_now) at_)).

(** Source: src/apps/server/metering.py:40-51 [meter]. *)
Definition meter (unsized_gb : Z) : M Meter unit :=
  let minutes := (METER_SECONDS # 60)%Q in
  s ← get;
  let now := s.(mt_now) in
  for_ (list_sandboxes_by_status Running s.(mt_db)) (λ sandbox,
    add sandbox.(sb_workspace_id) sandbox.(sb_id) "cpu_minutes" (sandbox.(sb_cpus) * minutes)%Q (Some now);;
    add sandbox.(sb_workspace_id) sandbox.(sb_id) "memory_mb_minutes" (inject_Z sandbox.(sb_memory_mb) * minutes)%Q (Some now));;
  claimed ← claim_storage_metering;
  for_ claimed (λ workspace_id,
    for_ (sandbox_storage unsized_gb workspace_id s.(mt_db)) (λ row,
      add workspace_id row.1 "storage_gb_hours" row.2 (Some now));;
    add workspace_id "" "storage_gb_hours" (profile_storage workspace_id s.(mt_db)) (Some now)).

(** ** Reports *)

(** Source: src/db/generated/query.py:1671-1674 [LIST_USAGE_LABELS].
    The labels kept of each sandbox with usage in the workspace, as the dict of
    dicts that [report] makes of the rows. *)
Definition kept_labels (workspace_id : string) (d : Db) (l : Logs) : gmap string (gmap string string) :=
  filter (λ x, Exists (λ u : string * string * string * time * Q, u.1.1.1.1 = workspace_id ∧ u.1.1.1.2 = x.1)
            (map_to_list l.(lg_usage))) d.(usage_labels).

(** Source: src/apps/server/metering.py:65-70 [UsageRow]. *)
Record UsageReportRow := mkUsageReportRow { ug_group : option string; ug_metric : string; ug_quantity : Q }.

Inductive grouping := BySandbox | ByDay | ByLabel (key : string).

(** Source: src/apps/server/metering.py:116-122 [UsageApi._register_routes.params].
    The pattern of [group_by]; its [$] is the end of the text. *)
Definition params (group_by : string) : option grouping :=
  if bool_decide (group_by = "sandbox") then Some BySandbox
  else if bool_decide (group_by = "day") then Some ByDay
  else if startswith group_by "label:" then
    match String.substring 6 (String.length group_by) group_by with
    | String c s => if key_head c && string_all key_tail s && (String.length s <=? 62)%nat then Some (ByLabel (String c s)) else None
    | EmptyString => None
    end
  else None.

Definition day_of (t : time) : time := t - t mod sec 86400.

(** The rows of [usage] a report counts. *)
Definition counted_usage (workspace_id : string) (since until : time) (metric : option string)
    (u : string * string * string * time * Q) : bool :=
  let '(w, _, m, t, _) := u in
  bool_decide (w = workspace_id) && (since <=? t) && (t <? until)
  && match metric with None => true | Some x => bool_decide (m = x) end.

(** Source: src/db/generated/query.py:2600-2610 [USAGE_REPORT].  By sandbox,
    metric and day (of UTC). *)
Definition usage_report (workspace_id : string) (since until : time) (metric : option string) (l : Logs)
    : gmap (string * string * time) Q :=
  group_sum (λ u : string * string * string * time * Q, let '(_, sb, m, t, _) := u in (sb, m, day_of t)) snd
    (filter (λ u, counted_usage workspace_id since until metric u = true) (map_to_list l.(lg_usage))).

(** [round(q, 6)] *)
Definition round6 (q : Q) : Q := (round_div (1000000 * Qnum q) (Zpos (Qden q)) # 1000000)%Q.

Definition report_le (a b : option string * string * Q) : Prop :=
  let ga := default "" a.1.1 in let gb := default "" b.1.1 in
  (ga ≠ gb ∧ String.le ga gb) ∨ (ga = gb ∧ String.le a.1.2 b.1.2).

#[global] Instance report_le_dec : RelDecision report_le.
Proof. intros a b. unfold report_le. apply _. Defined.

Section report.
(** [strftime("%Y-%m-%d")] of a day. *)
Context (day_text : time → string).

(** The group of a row of the report. *)
Definition group_of (kept : gmap string (gmap string string)) (g : grouping) (k : string * string * time) : option string :=
  let '(sb, _, day) := k in
  match g with
  | BySandbox => str_or_none (Some sb)
  | ByDay => Some (day_text day)
  | ByLabel key => default ∅ (kept !! sb) !! key
  end.

(** Whether a key's selector lets the row through. *)
Definition visible_usage (user : Member) (kept : gmap string (gmap string string)) (k : string * string * time) : bool :=
  match user.(m_key_labels) with
  | None => true
  | Some sel => matches (map_to_list (default ∅ (kept !! k.1.1))) (Some sel)
  end.

(** The running totals of a report. *)
Definition totals (user : Member) (since until : time) (g : grouping) (metric : option string) (d : Db) (l : Logs)
    : gmap (option string * string) Q :=
  let kept := kept_labels user.(m_workspace_id) d l in
  group_sum (λ x : string * string * time * Q, (group_of kept g x.1, x.1.1.2)) snd
    (filter (λ x, visible_usage user kept x.1 = true)
       (map_to_list (usage_report user.(m_workspace_id) since until metric l))).

(** Source: src/apps/server/metering.py:80-104 [report].  A label's value is never
    empty, so no two groups of a metric sort as one. *)
Definition report (user : Member) (since until : time) (g : grouping) (metric : option string) (d : Db) (l : Logs)
    : result exn (list UsageReportRow) :=
  if (until <=? since) || (sec (MAX_DAYS * 86400) <? until - since) then
    Err (HTTPException 422 [Txt "`to` must be after `from`, at most "; Num MAX_DAYS; Txt " days later"])
  else if match metric with Some m => negb (bool_decide (m ∈ METRICS)) | None => false end then
    Err (HTTPException 422 [Txt "unknown metric; one of cpu_minutes, memory_mb_minutes, storage_gb_hours"])
  else
    Ok ((λ x, mkUsageReportRow x.1.1 x.1.2 (round6 x.2)) <$>
          merge_sort report_le (map_to_list (totals user since until g metric d l))).

(** Source: src/apps/server/metering.py:129-161 [usage, export].  Both answer with
    the report; an admin's, or a key's with a selector. *)
Definition usage_route (user : Member) (since until : time) (g : grouping) (metric : option string) (d : Db) (l : Logs)
    : result exn (list UsageReportRow) :=
  if is_none user.(m_key_labels) && negb (can user RAdmin)
  then Err (HTTPException 403 [Txt "this needs the admin role in the workspace"])
  else report user since until g metric d l.
End report.

(** ** What a sample queues *)

(** One minute of a running sandbox, and an hour's storage of a workspace. *)
Definition usage_rows (workspace_id sandbox_id metric : string) (quantity : Q) (at_ : time) : list row :=
  if Qeq_bool quantity 0 then [] else [UsageRow (workspace_id, sandbox_id, metric, hour_of at_) quantity].

Definition running_rows (s : Meter) : list row :=
  list_sandboxes_by_status Running s.(mt_db) ≫= λ r,
    usage_rows r.(sb_workspace_id) r.(sb_id) "cpu_minutes" (r.(sb_cpus) * (METER_SECONDS # 60))%Q s.(mt_now) ++
    usage_rows r.(sb_workspace_id) r.(sb_id) "memory_mb_minutes" (inject_Z r.(sb_memory_mb) * (METER_SECONDS # 60))%Q s.(mt_now).

Definition due_workspaces (s : Meter) : list string :=
  (filter (λ x, due_at (hour_of s.(mt_now)) x.2 = true) (map_to_list s.(mt_metered))).*1.

Definition workspace_rows (unsized_gb : Z) (d : Db) (now : time) (workspace_id : string) : list row :=
  (sandbox_storage unsized_gb workspace_id d ≫= λ x, usage_rows workspace_id x.1 "storage_gb_hours" x.2 now) ++
  usage_rows workspace_id "" "storage_gb_hours" (profile_storage workspace_id d) now.

Definition sample_rows (unsized_gb : Z) (s : Meter) : list row :=
  running_rows s ++ (due_workspaces s ≫= workspace_rows unsized_gb s.(mt_db) s.(mt_now)).

(** [m] queues [rs], while there is room, and changes nothing else. *)
Definition queues (rs : list row) (m : M Meter unit) : Prop := ∀ s,
  s.(mt_writer).(w_accepting) = true → (length s.(mt_writer).(w_queue) + length rs ≤ MAX_PENDING)%nat →
  ∃ w', m s = (Ok tt, put_writer w' s) ∧ w'.(w_queue) = s.(mt_writer).(w_queue) ++ rs ∧ w'.(w_accepting) = true.

Lemma queues_seq rs rs' m m' : queues rs m → queues rs' m' → queues (rs ++ rs') (m;; m').
Proof.
  intros H H' s Ha Hl. rewrite length_app in Hl. destruct (H s Ha) as (w & E & Hq & Hw); [lia|].
  destruct (H' (put_writer w s)) as (w' & E' & Hq' & Hw'); [done|simpl; rewrite Hq, length_app; lia|].
  exists w'. rewrite (bind_ok _ _ _ _ _ E), E'. split; [done|]. simpl in Hq'. by rewrite Hq', Hq, <- app_assoc.
Qed.

Lemma queues_for {A} (f : A → M Meter unit) (g : A → list row) l : (∀ x, queues (g x) (f x)) → queues (l ≫= g) (for_ l f).
Proof.
  intros H. induction l as [|x l IH]; simpl; [|by apply queues_seq].
  intros s Ha _. exists s.(mt_writer). rewrite app_nil_r. by destruct s.
Qed.

Lemma queues_add ws sb metric q now : queues (usage_rows ws sb metric q now) (add ws sb metric q (Some now)).
Proof.
  intros s Ha Hl. unfold add, usage_rows, writing, usage, get, mbind, M_bind in *. simpl in *.
  destruct (Qeq_bool q 0); simpl in *; [exists s.(mt_writer); by rewrite app_nil_r|].
  unfold enqueue. rewrite Ha. destruct (MAX_PENDING <=? length (w_queue (mt_writer s)))%nat eqn:E.
  - apply Nat.leb_le in E. lia.
  - eexists. by split_and!.
Qed.

Lemma meter_queues unsized_gb s :
  s.(mt_writer).(w_accepting) = true →
  (length s.(mt_writer).(w_queue) + length (sample_rows unsized_gb s) ≤ MAX_PENDING)%nat →
  ∃ w', meter unsized_gb s =
          (Ok tt, mkMeter s.(mt_db) (foldr (λ i m, <[i := Some (hour_of s.(mt_now))]> m) s.(mt_metered) (due_workspaces s))
             w' s.(mt_now)) ∧
        w'.(w_queue) = s.(mt_writer).(w_queue) ++ sample_rows unsized_gb s ∧ w'.(w_accepting) = true.
Proof.
  intros Ha Hl. unfold sample_rows in Hl. rewrite length_app in Hl. unfold meter. rewrite (bind_ok _ _ _ s s) by done.
  destruct (queues_for (λ r, add r.(sb_workspace_id) r.(sb_id) "cpu_minutes" (r.(sb_cpus) * (METER_SECONDS # 60))%Q (Some s.(mt_now));;
      add r.(sb_workspace_id) r.(sb_id) "memory_mb_minutes" (inject_Z r.(sb_memory_mb) * (METER_SECONDS # 60))%Q (Some s.(mt_now)))
    _ (list_sandboxes_by_status Running s.(mt_db)) (λ x, queues_seq _ _ _ _ (queues_add _ _ _ _ _) (queues_add _ _ _ _ _)) s Ha)
    as (w1 & E1 & Hq1 & Hw1); [unfold running_rows in Hl; lia|].
  rewrite (bind_ok _ _ _ _ _ E1).
  set (s1 := mkMeter s.(mt_db) (foldr (λ i m, <[i := Some (hour_of s.(mt_now))]> m) s.(mt_metered) (due_workspaces s)) w1 s.(mt_now)).
  rewrite (bind_ok _ _ _ (due_workspaces s) s1).
  2:{ unfold claim_storage_metering, s1, due_workspaces. simpl. do 3 f_equal.
      generalize (filter (λ x : string * option time, due_at (hour_of s.(mt_now)) x.2 = true) (map_to_list s.(mt_metered))).
      intros l. induction l as [|x l IH]; simpl; [done|]. by rewrite IH. }
  edestruct (queues_for _ (workspace_rows unsized_gb s.(mt_db) s.(mt_now)) (due_workspaces s)
    (λ w, queues_seq _ _ _ _ (queues_for _ _ (sandbox_storage unsized_gb w s.(mt_db)) (λ x, queues_add w x.1 "storage_gb_hours" x.2 s.(mt_now)))
            (queues_add w "" "storage_gb_hours" (profile_storage w s.(mt_db)) s.(mt_now))) s1) as (w2 & E2 & Hq2 & Hw2).
  - done.
  - simpl. rewrite Hq1, length_app. unfold running_rows in Hl. lia.
  - exists w2. rewrite E2. split; [done|]. split; [|done]. rewrite Hq2. simpl. rewrite Hq1, <- app_assoc. done.
Qed.

(** ** An hour's samples *)

Definition at_time (t : time) (s : Meter) : Meter := mkMeter s.(mt_db) s.(mt_metered) s.(mt_writer) t.
Definition claimed (s : Meter) : Meter :=
  mkMeter s.(mt_db) (foldr (λ i m, <[i := Some (hour_of s.(mt_now))]> m) s.(mt_metered) (due_workspaces s)) s.(mt_writer) s.(mt_now).

(** The metering loop's samples, at the times [ts]. *)
Definition samples (unsized_gb : Z) (ts : list time) : M Meter unit :=
  for_ ts (λ t, modify (at_time t);; meter unsized_gb).

Fixpoint sampled (unsized_gb : Z) (ts : list time) (s : Meter) : list row :=
  match ts with
  | [] => []
  | t :: ts => sample_rows unsized_gb (at_time t s) ++ sampled unsized_gb ts (claimed (at_time t s))
  end.

Lemma sampled_writer unsized_gb ts s w : sampled unsized_gb ts (put_writer w s) = sampled unsized_gb ts s.
Proof.
  revert s w. induction ts as [|t ts IH]; intros s w; simpl; [done|]. f_equal.
  apply (IH (claimed (at_time t s)) w).
Qed.

Lemma samples_queue unsized_gb ts s :
  s.(mt_writer).(w_accepting) = true →
  (length s.(mt_writer).(w_queue) + length (sampled unsized_gb ts s) ≤ MAX_PENDING)%nat →
  ∃ s', samples unsized_gb ts s = (Ok tt, s') ∧ s'.(mt_writer).(w_queue) = s.(mt_writer).(w_queue) ++ sampled unsized_gb ts s.
Proof.
  unfold samples. revert s. induction ts as [|t ts IH]; intros s Ha Hl; simpl in *; [exists s; by rewrite app_nil_r|].
  rewrite length_app in Hl. destruct (meter_queues unsized_gb (at_time t s) Ha) as (w & E & Hq & Hw); [simpl; lia|].
  run. rewrite (bind_ok _ _ _ _ _ E). change (mkMeter _ _ w _) with (put_writer w (claimed (at_time t s))).
  destruct (IH (put_writer w (claimed (at_time t s)))) as (s' & E' & Hq'); [done|rewrite sampled_writer; simpl; rewrite Hq, length_app; simpl; lia|].
  exists s'. split; [done|]. rewrite Hq', sampled_writer. simpl. rewrite Hq, <- app_assoc. done.
Qed.

Lemma usage_sum_bind {A} k (g : A → list row) l : (usage_sum k (l ≫= g) == sumQ (λ x, usage_sum k (g x)) l)%Q.
Proof.
  unfold sumQ. induction l as [|x l IH]; simpl; [done|]. rewrite usage_sum_app. unfold mbind in IH. rewrite IH. done.
Qed.

Lemma usage_sum_rows k w sb m q t :
  (usage_sum k (usage_rows w sb m q t) == if bool_decide ((w, sb, m, hour_of t) = k) then q else 0)%Q.
Proof.
  unfold usage_rows. destruct (Qeq_bool q 0) eqn:E; simpl; [apply Qeq_bool_iff in E; destruct (bool_decide _); lra|].
  destruct (bool_decide _); lra.
Qed.

Definition sandbox_gb (unsized_gb : Z) (d : Db) (r : Sandbox) : Q :=
  (inject_Z (disk_of unsized_gb r)
   + (totalZ (λ sn, if bool_decide (sn.(sn_sandbox_id) = r.(sb_id)) then sn.(sn_size_bytes) else 0%Z) d.(snapshots) # 1073741824))%Q.

Section hour.
Context (unsized_gb : Z) (id : string) (r : Sandbox) (h : time).
Abbreviation key m := ((r.(sb_workspace_id), id, m, h) : string * string * string * time).

Record running_one (d : Db) : Prop := {
  ro_keyed : ∀ i x, d.(sandboxes) !! i = Some x → x.(sb_id) = i;
  ro_row : d.(sandboxes) !! id = Some r;
  ro_running : r.(sb_status) = Running;
  ro_live : r.(sb_deleted_at) = None;
  ro_named : id ≠ ""
}.

(** A sum over the sandboxes, of terms that vanish on the others. *)
Lemma sandbox_sum d (f : Sandbox → Q) :
  running_one d → (∀ x, x.(sb_id) ≠ id → (f x == 0)%Q) → (sumQ f (rows d.(sandboxes)) == f r)%Q.
Proof.
  intros [Hk Hr _ _ _] Hf. unfold rows. rewrite sumQ_fmap.
  trans (sumQ (λ x, if bool_decide (x.1 = id) then f x.2 else 0%Q) (map_to_list d.(sandboxes))).
  - apply sumQ_ext. intros [i x] Hi%elem_of_map_to_list. simpl. apply Hk in Hi. destruct (bool_decide _) eqn:E; [done|].
    apply bool_decide_eq_false in E. apply Hf. congruence.
  - rewrite (sumQ_at _ _ id), Hr; [simpl; by rewrite bool_decide_true|]. intros i v Hi. simpl. by rewrite bool_decide_false.
Qed.

Lemma running_sum s m (f : Sandbox → Q) :
  running_one s.(mt_db) → hour_of s.(mt_now) = h →
  (∀ x, (usage_sum (key m) (usage_rows x.(sb_workspace_id) x.(sb_id) "cpu_minutes" (x.(sb_cpus) * (METER_SECONDS # 60)) s.(mt_now) ++
           usage_rows x.(sb_workspace_id) x.(sb_id) "memory_mb_minutes" (inject_Z x.(sb_memory_mb) * (METER_SECONDS # 60)) s.(mt_now))
         == if bool_decide (x.(sb_workspace_id) = r.(sb_workspace_id) ∧ x.(sb_id) = id) then f x else 0)%Q) →
  (usage_sum (key m) (running_rows s) == f r)%Q.
Proof.
  intros Hone Hh Hf. unfold running_rows. rewrite usage_sum_bind, (sumQ_ext _ _ _ (λ x _, Hf x)).
  unfold list_sandboxes_by_status, order_by. rewrite (sumQ_permutation _ _ _ (merge_sort_Permutation _ _)), sumQ_filter.
  rewrite (sandbox_sum _ _ Hone).
  - rewrite !bool_decide_true; [done|..]; [|by destruct Hone]. split; [done|]. by apply (ro_keyed _ Hone), ro_row.
  - intros x Hx. case_match; [|done]. by rewrite bool_decide_false by tauto.
Qed.

Lemma cpu_sum s :
  running_one s.(mt_db) → hour_of s.(mt_now) = h → (usage_sum (key "cpu_minutes") (running_rows s) == r.(sb_cpus))%Q.
Proof.
  intros Hone Hh. rewrite (running_sum s _ (λ x, x.(sb_cpus) * (METER_SECONDS # 60))%Q Hone Hh); [unfold METER_SECONDS; lra|].
  intros x. rewrite usage_sum_app, !usage_sum_rows, Hh. rewrite (bool_decide_false ((_, _, "memory_mb_minutes", _) = _)) by congruence.
  destruct (decide (x.(sb_workspace_id) = r.(sb_workspace_id) ∧ x.(sb_id) = id)) as [[-> ->]|Hn]; [rewrite !bool_decide_true by done; lra|].
  rewrite !bool_decide_false by naive_solver. lra.
Qed.

Lemma memory_sum s :
  running_one s.(mt_db) → hour_of s.(mt_now) = h →
  (usage_sum (key "memory_mb_minutes") (running_rows s) == inject_Z r.(sb_memory_mb))%Q.
Proof.
  intros Hone Hh.
  rewrite (running_sum s _ (λ x, inject_Z x.(sb_memory_mb) * (METER_SECONDS # 60))%Q Hone Hh); [unfold METER_SECONDS; lra|].
  intros x. rewrite usage_sum_app, !usage_sum_rows, Hh. rewrite (bool_decide_false ((_, _, "cpu_minutes", _) = _)) by congruence.
  destruct (decide (x.(sb_workspace_id) = r.(sb_workspace_id) ∧ x.(sb_id) = id)) as [[-> ->]|Hn]; [rewrite !bool_decide_true by done; lra|].
  rewrite !bool_decide_false by naive_solver. lra.
Qed.

Lemma no_storage_sum s : running_one s.(mt_db) → hour_of s.(mt_now) = h → (usage_sum (key "storage_gb_hours") (running_rows s) == 0)%Q.
Proof.
  intros Hone Hh. apply (running_sum s _ (λ _, 0%Q) Hone Hh). intros x. rewrite usage_sum_app, !usage_sum_rows.
  rewrite !(bool_decide_false ((_, _, _, _) = _)) by congruence. destruct (bool_decide _); lra.
Qed.

Lemma storage_sum d now w :
  running_one d → hour_of now = h →
  (usage_sum (key "storage_gb_hours") (workspace_rows unsized_gb d now w)
   == if bool_decide (w = r.(sb_workspace_id)) then sandbox_gb unsized_gb d r else 0)%Q.
Proof.
  intros Hone Hh. pose proof (ro_named _ Hone). unfold workspace_rows, sandbox_storage.
  rewrite usage_sum_app, usage_sum_bind, sumQ_fmap, usage_sum_rows.
  rewrite (bool_decide_false ((w, "", _, _) = _)) by congruence. rewrite sumQ_filter.
  rewrite (sandbox_sum _ _ Hone).
  - cbn [fst snd]. fold (sandbox_gb unsized_gb d r).
    rewrite (ro_keyed _ Hone id r) by apply Hone. destruct (decide (w = r.(sb_workspace_id))) as [->|Hw].
    + rewrite !bool_decide_true by (rewrite ?(ro_running _ Hone); done). rewrite usage_sum_rows, Hh, bool_decide_true by done. lra.
    + rewrite !bool_decide_false by naive_solver. lra.
  - intros x Hx. case_match; [|done]. rewrite usage_sum_rows. cbn [fst snd]. by rewrite bool_decide_false by congruence.
Qed.

Lemma other_sum d now w m : m ≠ "storage_gb_hours" → (usage_sum (key m) (workspace_rows unsized_gb d now w) == 0)%Q.
Proof.
  intros Hm. unfold workspace_rows. rewrite usage_sum_app, usage_sum_bind, usage_sum_rows. rewrite bool_decide_false by congruence.
  rewrite (sumQ_ext _ (λ _, 0%Q)).
  - unfold sumQ. induction (sandbox_storage _ _ _) as [|x l IH]; simpl; lra.
  - intros x _. rewrite usage_sum_rows. by rewrite bool_decide_false by congruence.
Qed.

(** Whether the workspace's storage is still to be metered this hour. *)
Definition storage_due (s : Meter) : bool :=
  match s.(mt_metered) !! r.(sb_workspace_id) with Some t => due_at h t | None => false end.

Lemma due_sum s :
  running_one s.(mt_db) → hour_of s.(mt_now) = h →
  (usage_sum (key "storage_gb_hours") (due_workspaces s ≫= workspace_rows unsized_gb s.(mt_db) s.(mt_now))
   == if storage_due s then sandbox_gb unsized_gb s.(mt_db) r else 0)%Q.
Proof.
  intros Hone Hh. rewrite usage_sum_bind. unfold due_workspaces. rewrite sumQ_fmap, sumQ_filter.
  rewrite (sumQ_at _ _ r.(sb_workspace_id)).
  - unfold storage_due. rewrite Hh. case_match; [|done]. cbn [fst snd]. destruct (due_at h o); [|by rewrite bool_decide_false].
    by rewrite bool_decide_true, storage_sum, bool_decide_true by done.
  - intros i v Hi. cbn [fst snd]. case_match; [|done]. by rewrite storage_sum, bool_decide_false by done.
Qed.

Lemma claimed_lookup s w : (claimed s).(mt_metered) !! w = if decide (w ∈ due_workspaces s) then Some (Some (hour_of s.(mt_now))) else s.(mt_metered) !! w.
Proof.
  unfold claimed. simpl. induction (due_workspaces s) as [|x l IH]; simpl; [done|]. destruct (decide (x = w)) as [->|Hn].
  - rewrite lookup_insert_eq, decide_True by set_solver. done.
  - rewrite lookup_insert_ne, IH by done. repeat case_decide; set_solver.
Qed.

Lemma claimed_not_due s : hour_of s.(mt_now) = h → storage_due (claimed s) = false.
Proof.
  intros Hh. unfold storage_due. rewrite claimed_lookup. case_decide as Hd; [simpl; rewrite Hh; apply Z.ltb_irrefl|].
  destruct (mt_metered s !! r.(sb_workspace_id)) as [t|] eqn:E; [|done]. apply not_true_iff_false. intros Ht. apply Hd.
  unfold due_workspaces. apply list_elem_of_fmap. exists (r.(sb_workspace_id), t). split; [done|]. apply list_elem_of_filter. rewrite Hh.
  split; [done|]. by apply elem_of_map_to_list.
Qed.

Lemma other_due_sum s m : m ≠ "storage_gb_hours" →
  (usage_sum (key m) (due_workspaces s ≫= workspace_rows unsized_gb s.(mt_db) s.(mt_now)) == 0)%Q.
Proof.
  intros Hm. rewrite usage_sum_bind, (sumQ_ext _ (λ _, 0%Q)) by (intros w _; by apply other_sum).
  unfold sumQ. induction (due_workspaces s) as [|x l IH]; simpl; lra.
Qed.

Lemma sampled_sums ts s :
  running_one s.(mt_db) → Forall (λ t, hour_of t = h) ts →
  let n := inject_Z (Z.of_nat (length ts)) in
  (usage_sum (key "cpu_minutes") (sampled unsized_gb ts s) == n * r.(sb_cpus))%Q ∧
  (usage_sum (key "memory_mb_minutes") (sampled unsized_gb ts s) == n * inject_Z r.(sb_memory_mb))%Q ∧
  (usage_sum (key "storage_gb_hours") (sampled unsized_gb ts s)
   == if storage_due s && negb (bool_decide (ts = [])) then sandbox_gb unsized_gb s.(mt_db) r else 0)%Q.
Proof.
  revert s. induction ts as [|t ts IH]; intros s Hone Ht; [rewrite andb_false_r; by split_and!|].
  apply Forall_cons in Ht as [Hh Ht]. destruct (IH (claimed (at_time t s)) Hone Ht) as (H1 & H2 & H3).
  assert (inject_Z (Z.of_nat (length (t :: ts))) == inject_Z (Z.of_nat (length ts)) + 1)%Q as Hn.
  { cbn [length]. rewrite Nat2Z.inj_succ, <- Z.add_1_r, inject_Z_plus. reflexivity. }
  cbn [sampled]. unfold sample_rows. rewrite Hn, !usage_sum_app, H1, H2, H3, (other_due_sum (at_time t s) "cpu_minutes"), (other_due_sum (at_time t s) "memory_mb_minutes") by done.
  rewrite cpu_sum, memory_sum, no_storage_sum, due_sum, claimed_not_due by done.
  rewrite (bool_decide_false (t :: ts = [])) by done. cbn [negb]. rewrite andb_true_r. change (storage_due (at_time t s)) with (storage_due s).
  change (mt_db (at_time t s)) with (mt_db s). cbn [andb]. split_and!; lra.
Qed.
End hour.

(** An hour is metered as it should be.  A sandbox that runs while the loop
    samples at the times [ts] of one hour gets its CPUs and its memory once per
    sample, and its disk with its snapshots once for the hour however many
    samples there are, if the workspace was still due; every row is queued. *)
Theorem hour_metered unsized_gb id r h ts s :
  running_one id r s.(mt_db) → Forall (λ t, hour_of t = h) ts → s.(mt_writer).(w_accepting) = true →
  (length s.(mt_writer).(w_queue) + length (sampled unsized_gb ts s) ≤ MAX_PENDING)%nat →
  ∃ s' new, samples unsized_gb ts s = (Ok tt, s') ∧ s'.(mt_writer).(w_queue) = s.(mt_writer).(w_queue) ++ new ∧
    let used m := usage_sum (r.(sb_workspace_id), id, m, h) new in
    (used "cpu_minutes" == inject_Z (Z.of_nat (length ts)) * r.(sb_cpus))%Q ∧
    (used "memory_mb_minutes" == inject_Z (Z.of_nat (length ts)) * inject_Z r.(sb_memory_mb))%Q ∧
    (used "storage_gb_hours"
     == if storage_due r h s && negb (bool_decide (ts = [])) then sandbox_gb unsized_gb s.(mt_db) r else 0)%Q.
Proof.
  intros Hone Ht Ha Hl. destruct (samples_queue unsized_gb ts s Ha Hl) as (s' & E & Hq).
  exists s', (sampled unsized_gb ts s). split; [done|]. split; [done|]. by apply sampled_sums.
Qed.

(** ** What a report adds up to *)
Lemma round6_close q : (q - (1 # 2000000) <= round6 q <= q + (1 # 2000000))%Q.
Proof.
  unfold round6. destruct q as [n d]. cbn [Qnum Qden].
  pose proof (round_div_close (1000000 * n) (Zpos d) ltac:(lia)). unfold Qle, Qminus, Qplus, Qopp. simpl.
  rewrite !Pos2Z.inj_mul. split; nia.
Qed.

Section report_sums.
Context (day_text : time → string) (user : Member) (since until : time) (g : grouping) (metric : option string)
  (d : Db) (l : Logs).

(** What the rows of [usage] hold of a metric, in the window and the sandboxes
    the caller may see. *)
Definition exact_usage (m : string) : Q :=
  sumQ (λ u : string * string * string * time * Q,
      let '(_, sb, m', t, q) := u in
      if counted_usage user.(m_workspace_id) since until metric u
         && visible_usage user (kept_labels user.(m_workspace_id) d l) (sb, m', day_of t) && bool_decide (m' = m)
      then q else 0%Q) (map_to_list l.(lg_usage)).

Lemma totals_exact m : (total_of (λ k, bool_decide (k.2 = m)) (totals day_text user since until g metric d l) == exact_usage m)%Q.
Proof.
  unfold totals. rewrite total_of_groups, sumQ_filter. cbn [snd].
  trans (total_of (λ k, visible_usage user (kept_labels user.(m_workspace_id) d l) k && bool_decide (k.1.2 = m))
    (usage_report user.(m_workspace_id) since until metric l)).
  { unfold total_of. apply sumQ_ext. intros [k q] _. simpl. by destruct (visible_usage _ _ k), (bool_decide (k.1.2 = m)). }
  unfold usage_report. rewrite total_of_groups, sumQ_filter. apply sumQ_ext. intros [[[[w sb] m'] t] q] _. cbn [fst snd].
  destruct (counted_usage _ _ _ _ _); [|done]. rewrite bool_decide_true by done. cbn [andb]. done.
Qed.
End report_sums.

(** A report adds up: however usage is grouped (by sandbox, day or label),
    each group and metric has one row, and a metric's rows sum to what the
    usage table holds of it in the window, of the sandboxes the caller may
    see, up to the rounding of each row to six places. *)
Theorem report_conserves day_text user since until g metric d l rs :
  report day_text user since until g metric d l = Ok rs →
  NoDup ((λ r, (r.(ug_group), r.(ug_metric))) <$> rs) ∧
  ∀ m, let sum := sumQ (λ r, if bool_decide (r.(ug_metric) = m) then r.(ug_quantity) else 0%Q) rs in
       let exact := exact_usage user since until metric d l m in
       let slack := (inject_Z (Z.of_nat (length rs)) * (1 # 2000000))%Q in
       (exact - slack <= sum <= exact + slack)%Q.
Proof.
  unfold report. case_match; [done|]. case_match; [done|]. intros [= <-].
  set (T := totals day_text user since until g metric d l).
  assert (merge_sort report_le (map_to_list T) ≡ₚ map_to_list T) as Hp by apply merge_sort_Permutation.
  split.
  - rewrite <- list_fmap_compose, Hp.
    erewrite (list_fmap_ext _ fst); [apply NoDup_fst_map_to_list|]. by intros _ [[a b] q] _.
  - intros m. rewrite <- (totals_exact day_text user since until g metric d l m). fold T.
    unfold total_of. rewrite <- (sumQ_permutation _ _ _ Hp), length_fmap, sumQ_fmap. simpl.
    apply sumQ_close. intros [k q] _. simpl. pose proof (round6_close q). destruct (bool_decide _); lra.
Qed.

(** ** Witnesses *)

Definition demo_meter_row : Sandbox :=
  mkSandbox "s1" "w1" "v1" "u1" "one" Running "docker" (Some "c1") None "{}" [] None (Some 0) None None 0 0 None None
    Desktop None None None None (3 # 2)%Q 2048 (Some 10) None None None.

Definition demo_meter : Meter :=
  mkMeter (set_snapshots {["n1" := mkSnapshot "n1" "s1" None "snap" 1073741824 SnReady None "u1" 0 1]}
      (set_sandboxes {["s1" := demo_meter_row]} empty_db)) {["w1" := None]} demo_writer 0.

Lemma demo_meter_one : running_one "s1" demo_meter_row demo_meter.(mt_db).
Proof. split; try done. intros i x. simpl. by intros [<- <-]%lookup_singleton_Some. Qed.

(** Two samples of an hour: 3 CPU minutes, and 11 GB once. *)
Lemma hour_metered_witness :
  ∃ s' new, samples 20 [5; sec 60 + 5] demo_meter = (Ok tt, s') ∧ s'.(mt_writer).(w_queue) = new ∧
    (usage_sum ("w1", "s1", "cpu_minutes", 0%Z) new == 3)%Q ∧ (usage_sum ("w1", "s1", "storage_gb_hours", 0%Z) new == 11)%Q.
Proof.
  destruct (hour_metered 20 "s1" demo_meter_row 0 [5; sec 60 + 5] demo_meter demo_meter_one) as (s' & new & H1 & H2 & H3 & _ & H4).
  - by repeat constructor.
  - done.
  - apply Nat.leb_le. by vm_compute.
  - exists s', new. split_and!; [done|done|rewrite H3; reflexivity|rewrite H4; reflexivity].
Defined.

(** Usage of two sandboxes, one of them with a label, by that label. *)
Definition demo_usage_logs : Logs :=
  set_usage {[("w1", "s1", "cpu_minutes", 0%Z) := (1 # 3)%Q; ("w1", "s2", "cpu_minutes", sec 3600) := 2%Q]} demo_logs.
Definition demo_usage_db : Db := set_usage_labels {["s1" := {["team" := "a"]}]} empty_db.
Definition demo_usage_report : result exn (list UsageReportRow) :=
  report (λ _, "1970-01-01") (mkMember "u1" "w1" RAdmin None None None) 0 (sec 86400) (ByLabel "team") None
    demo_usage_db demo_usage_logs.

Lemma report_conserves_witness :
  ∃ rs, demo_usage_report = Ok rs ∧ NoDup ((λ r, (r.(ug_group), r.(ug_metric))) <$> rs).
Proof.
  exists [mkUsageReportRow None "cpu_minutes" (2000000 # 1000000); mkUsageReportRow (Some "a") "cpu_minutes" (333333 # 1000000)].
  split; [by vm_compute|].
  refine (proj1 (report_conserves (λ _, "1970-01-01") (mkMember "u1" "w1" RAdmin None None None) 0 (sec 86400) (ByLabel "team") None
    demo_usage_db demo_usage_logs _ _)). by vm_compute.
Defined.

(** A group's name is a label key to its end. *)
Example params_read :
  params "sandbox" = Some BySandbox ∧ params "label:team/a" = Some (ByLabel "team/a") ∧ params "label:" = None ∧ params "week" = None.
Proof. by vm_compute. Qed.
