(* ===== verification/Vault.v ===== *)
(** The vault (src/apps/server/vault_api.py, vault_sync.py, the secrets of
    policy_api.py and of security.py): secrets of a workspace and of a sandbox,
    where they are used, and how a change reaches the running sandboxes. *)

From S2P Require Import Prelude Tables Store Codec Kms Security Labels Auth Access.

(** ** Rows *)

(** Source: src/db/generated/models.py:409-421 [VaultSecret]. *)
Record VaultSecret := mkVaultSecret {
  vs_workspace_id : string;
  vs_user_id : string;
  vs_name : string;
  vs_description : option string;
  vs_ciphertext : string;
  vs_created_at : time;
  vs_updated_at : time;
  vs_last_used_at : option time;
  vs_expires_at : option time;
  vs_rotate_every_days : option Z;
  vs_rotated_at : option time
}.

(** Source: src/db/generated/models.py:307-315 [SandboxSecret].  [injection_config] is
    one constant. *)
Record SandboxSecret := mkSandboxSecret {
  ss_sandbox_id : string;
  ss_name : string;
  ss_secret_ref : string;
  ss_enabled : bool;
  ss_created_at : time
}.

(** A row of the audit log that the vault writes itself; its metadata is the
    dict that its JSON holds. *)
Record AuditEntry := mkAuditEntry {
  ae_workspace_id : string;
  ae_actor_id : string;
  ae_sandbox_id : option string;
  ae_action : string;
  ae_resource_type : string;
  ae_resource_id : string;
  ae_metadata : list (string * json);
  ae_created_at : time
}.

(** Source: src/apps/server/vault_sync.py:27-32 [Push].  The runtime's own writer
    finds the files from [runtime_id]. *)
Record Push := mkPush { pu_sandbox_id : string; pu_kind : kind; pu_runtime_id : string; pu_values : gmap string string }.

(** The tables [vault_secrets], [sandbox_vault_secrets] (sandbox and secret, with
    [last_used_at]), [sandbox_secrets] and the vault's audit log, beside those
    of [World] and the keys; [v_queue] holds the pushes to deliver, and [v_env]
    the environment each sandbox's runtime was last given. *)
Record Vault := mkVault {
  v_world : World;
  v_keys : Keys;
  v_secrets : gmap string VaultSecret;
  v_grants : gmap (string * string) (option time);
  v_own : gmap string SandboxSecret;
  v_audit : list AuditEntry;
  v_queue : list (list Push);
  v_env : gmap string (gmap string string);
  v_reminded : gmap string string
}.

Definition put_world (w : World) (v : Vault) : Vault :=
  mkVault w v.(v_keys) v.(v_secrets) v.(v_grants) v.(v_own) v.(v_audit) v.(v_queue) v.(v_env) v.(v_reminded).
Definition put_keys (k : Keys) (v : Vault) : Vault :=
  mkVault v.(v_world) k v.(v_secrets) v.(v_grants) v.(v_own) v.(v_audit) v.(v_queue) v.(v_env) v.(v_reminded).
Definition put_vault (s : gmap string VaultSecret) (v : Vault) : Vault :=
  mkVault v.(v_world) v.(v_keys) s v.(v_grants) v.(v_own) v.(v_audit) v.(v_queue) v.(v_env) v.(v_reminded).
Definition put_grants (g : gmap (string * string) (option time)) (v : Vault) : Vault :=
  mkVault v.(v_world) v.(v_keys) v.(v_secrets) g v.(v_own) v.(v_audit) v.(v_queue) v.(v_env) v.(v_reminded).
Definition put_own (o : gmap string SandboxSecret) (v : Vault) : Vault :=
  mkVault v.(v_world) v.(v_keys) v.(v_secrets) v.(v_grants) o v.(v_audit) v.(v_queue) v.(v_env) v.(v_reminded).
Definition put_audit (a : list AuditEntry) (v : Vault) : Vault :=
  mkVault v.(v_world) v.(v_keys) v.(v_secrets) v.(v_grants) v.(v_own) a v.(v_queue) v.(v_env) v.(v_reminded).
Definition put_queue (q : list (list Push)) (v : Vault) : Vault :=
  mkVault v.(v_world) v.(v_keys) v.(v_secrets) v.(v_grants) v.(v_own) v.(v_audit) q v.(v_env) v.(v_reminded).
Definition put_env (e : gmap string (gmap string string)) (v : Vault) : Vault :=
  mkVault v.(v_world) v.(v_keys) v.(v_secrets) v.(v_grants) v.(v_own) v.(v_audit) v.(v_queue) e v.(v_reminded).
Definition put_reminded (r : gmap string string) (v : Vault) : Vault :=
  mkVault v.(v_world) v.(v_keys) v.(v_secrets) v.(v_grants) v.(v_own) v.(v_audit) v.(v_queue) v.(v_env) r.

Definition on_world {A} (m : M World A) : M Vault A := λ v, let '(r, w) := m v.(v_world) in (r, put_world w v).
Definition on_keys {A} (m : M Keys A) : M Vault A := λ v, let '(r, k) := m v.(v_keys) in (r, put_keys k v).

(** What a transaction covers: the tables, and not the process's caches, queue
    and runtimes. *)
Definition tables_of (v : Vault) : Vault := v.
Definition restore (old v : Vault) : Vault :=
  mkVault (Store.put_db old.(v_world).(w_db) v.(v_world)) (mkKeys old.(v_keys).(k_rows) v.(v_keys).(k_cache) v.(v_keys).(k_env))
    old.(v_secrets) old.(v_grants) old.(v_own) old.(v_audit) v.(v_queue) v.(v_env) v.(v_reminded).
Definition vault_session {A} (m : M Vault A) : M Vault A := transaction tables_of restore m.

Definition now_of (v : Vault) : time := v.(v_world).(w_clock).
Definition vexec (f : time → Vault → Vault) : M Vault unit := modify (λ v, f (now_of v) v).
Definition vquery {A} (f : Vault → A) : M Vault A := gets f.

(** ** Statements *)

Definition name_le (a b : string * string) : Prop := String.le a.1 b.1.
#[global] Instance name_le_dec : RelDecision name_le.
Proof. intros a b. unfold name_le. apply _. Defined.

(** ORDER BY name *)
Definition by_name {R} (name : R → string) (l : list R) : list R :=
  merge_sort (λ a b, String.le (name a) (name b)) l.

(** Source: src/db/generated/query.py:1116-1118 [GET_VAULT_SECRET]. *)
Definition get_vault_secret (id : string) (v : Vault) : option VaultSecret := v.(v_secrets) !! id.

(** Source: src/db/generated/query.py:1121-1123 [GET_VAULT_SECRET_BY_NAME]. *)
Definition get_vault_secret_by_name (workspace_id name : string) (v : Vault) : option (string * VaultSecret) :=
  head (filter (λ p, p.2.(vs_workspace_id) = workspace_id ∧ p.2.(vs_name) = name) (map_to_list v.(v_secrets))).

(** Source: src/db/generated/query.py:1720-1725 [LIST_VAULT_SECRETS_BY_WORKSPACE]. *)
Definition list_vault_secrets_by_workspace (workspace_id : string) (v : Vault) : list (string * VaultSecret) :=
  by_name (λ p, p.2.(vs_name)) (filter (λ p, p.2.(vs_workspace_id) = workspace_id) (map_to_list v.(v_secrets))).

(** Source: src/db/generated/query.py:1627-1633 [LIST_SANDBOX_VAULT_SECRETS]. *)
Definition list_sandbox_vault_secrets (sandbox_id : string) (v : Vault) : list (string * VaultSecret) :=
  by_name (λ p, p.2.(vs_name))
    (omap (λ g : string * string * option time, if bool_decide (g.1.1 = sandbox_id) then (g.1.2,.) <$> v.(v_secrets) !! g.1.2 else None)
       (map_to_list v.(v_grants))).

(** Source: src/db/generated/query.py:1608-1614 [LIST_SANDBOX_SECRETS]. *)
Definition list_sandbox_secrets (sandbox_id : string) (v : Vault) : list (string * SandboxSecret) :=
  by_name (λ p, p.2.(ss_name)) (filter (λ p, p.2.(ss_sandbox_id) = sandbox_id) (map_to_list v.(v_own))).

(** Source: src/db/generated/query.py:1065-1067 [GET_SANDBOX_SECRET]. *)
Definition get_sandbox_secret (id : string) (v : Vault) : option SandboxSecret := v.(v_own) !! id.

(** Source: src/db/generated/query.py:1070-1073 [GET_SANDBOX_SECRET_BY_NAME]. *)
Definition get_sandbox_secret_by_name (sandbox_id name : string) (v : Vault) : option (string * SandboxSecret) :=
  head (filter (λ p, p.2.(ss_sandbox_id) = sandbox_id ∧ p.2.(ss_name) = name) (map_to_list v.(v_own))).

(** Source: src/db/generated/query.py:769-771 [DELETE_SANDBOX_SECRET]. *)
Definition delete_sandbox_secret (id : string) (v : Vault) : Vault := put_own (delete id v.(v_own)) v.

(** Source: src/db/generated/query.py:502-508 [CREATE_SANDBOX_SECRET].
    Its name is new for the sandbox. *)
Definition create_sandbox_secret (id : string) (row : SandboxSecret) : M Vault unit :=
  v ← get;
  guard_ (is_none (v.(v_own) !! id) && is_none (get_sandbox_secret_by_name row.(ss_sandbox_id) row.(ss_name) v)) IntegrityError;;
  modify (λ v, put_own (<[id := row]> v.(v_own)) v).

(** Source: src/db/generated/query.py:594-598 [CREATE_VAULT_SECRET].
    Its name is new for the workspace. *)
Definition create_vault_secret (id : string) (row : VaultSecret) : M Vault unit :=
  v ← get;
  guard_ (is_none (v.(v_secrets) !! id) && is_none (get_vault_secret_by_name row.(vs_workspace_id) row.(vs_name) v)) IntegrityError;;
  modify (λ v, put_vault (<[id := row]> v.(v_secrets)) v).

Definition upd_secret (id : string) (f : VaultSecret → VaultSecret) (v : Vault) : Vault :=
  put_vault (alter f id v.(v_secrets)) v.

(** Source: src/db/generated/query.py:2471-2475 [UPDATE_VAULT_SECRET_VALUE]. *)
Definition update_vault_secret_value (now : time) (ciphertext id : string) : Vault → Vault :=
  upd_secret id (λ r, mkVaultSecret r.(vs_workspace_id) r.(vs_user_id) r.(vs_name) r.(vs_description) ciphertext
    r.(vs_created_at) now r.(vs_last_used_at) r.(vs_expires_at) r.(vs_rotate_every_days) (Some now)).

(** Source: src/db/generated/query.py:2464-2468 [UPDATE_VAULT_SECRET_DESCRIPTION]. *)
Definition update_vault_secret_description (now : time) (description : option string) (id : string) : Vault → Vault :=
  upd_secret id (λ r, mkVaultSecret r.(vs_workspace_id) r.(vs_user_id) r.(vs_name) description r.(vs_ciphertext)
    r.(vs_created_at) now r.(vs_last_used_at) r.(vs_expires_at) r.(vs_rotate_every_days) r.(vs_rotated_at)).

(** Source: src/db/generated/query.py:2265-2269 [SET_VAULT_SECRET_SCHEDULE]. *)
Definition set_vault_secret_schedule (now : time) (expires_at : option time) (every : option Z) (id : string) : Vault → Vault :=
  upd_secret id (λ r, mkVaultSecret r.(vs_workspace_id) r.(vs_user_id) r.(vs_name) r.(vs_description) r.(vs_ciphertext)
    r.(vs_created_at) now r.(vs_last_used_at) expires_at every r.(vs_rotated_at)).

(** Source: src/db/generated/query.py:1848-1850 [MARK_VAULT_SECRET_USED]. *)
Definition mark_vault_secret_used (now : time) (id : string) : Vault → Vault :=
  upd_secret id (λ r, mkVaultSecret r.(vs_workspace_id) r.(vs_user_id) r.(vs_name) r.(vs_description) r.(vs_ciphertext)
    r.(vs_created_at) r.(vs_updated_at) (Some now) r.(vs_expires_at) r.(vs_rotate_every_days) r.(vs_rotated_at)).

(** Source: src/db/generated/query.py:794-796 [DELETE_VAULT_SECRET].
    Its grants go with it. *)
Definition delete_vault_secret (id : string) (v : Vault) : Vault :=
  put_grants (filter (λ g, g.1.2 ≠ id) v.(v_grants)) (put_vault (delete id v.(v_secrets)) v).

(** Source: src/db/generated/query.py:62-66 [ATTACH_VAULT_SECRET]. *)
Definition attach_vault_secret (sandbox_id secret_id : string) (v : Vault) : Vault :=
  match v.(v_grants) !! (sandbox_id, secret_id) with
  | Some _ => v
  | None => put_grants (<[(sandbox_id, secret_id) := None]> v.(v_grants)) v
  end.

(** Source: src/db/generated/query.py:819-821 [DETACH_VAULT_SECRET]. *)
Definition detach_vault_secret (sandbox_id secret_id : string) (v : Vault) : Vault :=
  put_grants (delete (sandbox_id, secret_id) v.(v_grants)) v.

(** Source: src/db/generated/query.py:824-826 [DETACH_VAULT_SECRET_EVERYWHERE]. *)
Definition detach_vault_secret_everywhere (secret_id : string) (v : Vault) : Vault :=
  put_grants (filter (λ g, g.1.2 ≠ secret_id) v.(v_grants)) v.

(** Source: src/db/generated/query.py:1843-1845 [MARK_SANDBOX_VAULT_SECRETS_USED]. *)
Definition mark_sandbox_vault_secrets_used (now : time) (sandbox_id : string) (v : Vault) : Vault :=
  put_grants (map_imap (λ (k : string * string) t, Some (if bool_decide (k.1 = sandbox_id) then Some now else t)) v.(v_grants)) v.

Definition alive (sandbox_id : string) (v : Vault) : bool :=
  match v.(v_world).(w_db).(sandboxes) !! sandbox_id with
  | Some s => negb (bool_decide (s.(sb_status) = Deleted))
  | None => false
  end.

(** Source: src/db/generated/query.py:1707-1712 [LIST_VAULT_SECRET_SANDBOXES]. *)
Definition list_vault_secret_sandboxes (secret_id : string) (v : Vault) : list string :=
  (λ g : string * string * option time, g.1.1) <$>
    filter (λ g : string * string * option time, g.1.2 = secret_id ∧ alive g.1.1 v = true) (map_to_list v.(v_grants)).

(** ** Reminders *)

(** Source: src/apps/server/vault_api.py:27-30 [ACTIVITY_LIMIT, ROTATION_WARNING]. *)
Definition ACTIVITY_LIMIT : nat := 100.
Definition EXPIRY_WARNING : Z := sec (14 * 86400).
Definition ROTATION_WARNING : Z := sec (7 * 86400).

(** Source: src/apps/server/vault_api.py:32-32 [Status]. *)
Inductive secret_status := SOk | RotationSoon | ExpiringSoon | RotationDue | Expired.

#[global] Instance secret_status_eq_dec : EqDecision secret_status.
Proof. solve_decision. Defined.

(** Source: src/apps/server/vault_api.py:33-38 [MESSAGES].  With the names of the
    states. *)
Definition MESSAGES (s : secret_status) : string :=
  match s with
  | SOk => "" | RotationSoon => "is due for rotation soon" | ExpiringSoon => "expires soon"
  | RotationDue => "is overdue for rotation" | Expired => "has expired"
  end.
Definition secret_status_name (s : secret_status) : string :=
  match s with
  | SOk => "ok" | RotationSoon => "rotation_soon" | ExpiringSoon => "expiring_soon"
  | RotationDue => "rotation_due" | Expired => "expired"
  end.

(** Source: src/apps/server/vault_api.py:104-108 [rotation_due]. *)
Definition rotation_due (s : VaultSecret) : option time :=
  match s.(vs_rotate_every_days) with
  | None => None
  | Some days => if days =? 0 then None else Some (default s.(vs_created_at) s.(vs_rotated_at) + sec (days * 86400))
  end.

Definition due_by (t : option time) (at_ : time) : bool := match t with Some t => t <=? at_ | None => false end.

(** Source: src/apps/server/vault_api.py:111-125 [status_of]. *)
Definition status_of (s : VaultSecret) (now : time) : secret_status * option time :=
  let due_at := rotation_due s in
  if due_by s.(vs_expires_at) now then (Expired, s.(vs_expires_at))
  else if due_by due_at now then (RotationDue, due_at)
  else if due_by s.(vs_expires_at) (now + EXPIRY_WARNING) then (ExpiringSoon, s.(vs_expires_at))
  else if due_by due_at (now + ROTATION_WARNING) then (RotationSoon, due_at)
  else (SOk, None).

(** Source: src/apps/server/vault_api.py:132-146 [remind].  The warnings it logs, by
    secret. *)
Definition remind (v : Vault) : list (string * secret_status * option time) * Vault :=
  foldl (λ '(logged, v) p,
    let '(st, due_at) := status_of p.2 (now_of v) in
    if bool_decide (st = SOk) then (logged, put_reminded (delete p.1 v.(v_reminded)) v)
    else if bool_decide (v.(v_reminded) !! p.1 = Some (secret_status_name st)) then (logged, v)
    else (logged ++ [(p.1, st, due_at)], put_reminded (<[p.1 := secret_status_name st]> v.(v_reminded)) v))
    ([], v) (map_to_list v.(v_secrets)).

(** ** Operations *)

(** What a request draws: the uuid of the row it makes, and the key and the
    initialisation vector of its encryption. *)
Record Draws := mkDraws { dr_id : string; dr_key_id : string; dr_fresh : string; dr_iv : string }.

(** Source: src/apps/server/vault_api.py:41-46 [VaultSecretRequest]. *)
Record VaultSecretRequest := mkVaultSecretRequest {
  vq_name : string;
  vq_value : string;
  vq_description : option string;
  vq_expires_at : option time;
  vq_rotate_every_days : option Z
}.

(** Source: src/apps/server/vault_api.py:49-55 [VaultSecretUpdate].  The last two
    keep whether the field was given. *)
Record VaultSecretUpdate := mkVaultSecretUpdate {
  vu_value : option string;
  vu_description : option string;
  vu_expires_at : option (option time);
  vu_rotate_every_days : option (option Z)
}.

(** Source: src/apps/server/vault_api.py:58-63 [SandboxRef]. *)
Record SandboxRef := mkSandboxRef { sr_id : string; sr_name : string; sr_status : status; sr_last_used_at : option time }.

(** Source: src/apps/server/vault_api.py:66-78 [VaultSecretResponse].  No value, and
    no ciphertext. *)
Record VaultSecretResponse := mkVaultSecretResponse {
  vp_id : string;
  vp_name : string;
  vp_description : option string;
  vp_created_at : time;
  vp_updated_at : time;
  vp_last_used_at : option time;
  vp_expires_at : option time;
  vp_rotate_every_days : option Z;
  vp_rotated_at : option time;
  vp_rotation_due_at : option time;
  vp_status : secret_status;
  vp_sandboxes : list SandboxRef
}.

Definition secret_not_found : exn := HTTPException 404 [Txt "secret not found"].

(** Source: src/apps/server/vault_api.py:156-160 [VaultApi.secret]. *)
Definition secret (secret_id : string) (user : Member) : M Vault VaultSecret :=
  found ← vquery (get_vault_secret secret_id);
  match found with
  | Some s => guard_ (bool_decide (s.(vs_workspace_id) = user.(m_workspace_id))) secret_not_found;; mret s
  | None => raise secret_not_found
  end.

(** Source: src/apps/server/vault_api.py:322-323 [VaultApi._users_of]. *)
Definition users_of (secret_id : string) (v : Vault) : list string := list_vault_secret_sandboxes secret_id v.

(** Source: src/db/generated/query.py:1690-1696 [LIST_VAULT_GRANTS_BY_WORKSPACE].
    By secret. *)
Definition list_vault_grants_by_workspace (workspace_id : string) (v : Vault) : list (string * SandboxRef) :=
  by_name (λ p, p.2.(sr_name))
    (omap (λ g : string * string * option time,
       match v.(v_world).(w_db).(sandboxes) !! g.1.1 with
       | Some s => if bool_decide (s.(sb_workspace_id) = workspace_id) && negb (bool_decide (s.(sb_status) = Deleted))
                   then Some (g.1.2, mkSandboxRef g.1.1 s.(sb_name) s.(sb_status) g.2) else None
       | None => None
       end) (map_to_list v.(v_grants))).

(** Source: src/apps/server/vault_api.py:325-355 [VaultApi._secrets]. *)
Definition secrets_response (user : Member) (v : Vault) : list VaultSecretResponse :=
  let grants := list_vault_grants_by_workspace user.(m_workspace_id) v in
  (λ p : string * VaultSecret,
     let s := p.2 in
     mkVaultSecretResponse p.1 s.(vs_name) s.(vs_description) s.(vs_created_at) s.(vs_updated_at) s.(vs_last_used_at)
       s.(vs_expires_at) s.(vs_rotate_every_days) s.(vs_rotated_at) (rotation_due s) (status_of s (now_of v)).1
       (filter (λ g : string * SandboxRef, g.1 = p.1) grants).*2) <$>
    list_vault_secrets_by_workspace user.(m_workspace_id) v.

(** Source: src/apps/server/vault_api.py:357-360 [VaultApi._attached]. *)
Definition attached_response (sandbox_id : string) (v : Vault) : list (string * string) :=
  (λ p : string * VaultSecret, (p.1, p.2.(vs_name))) <$> list_sandbox_vault_secrets sandbox_id v.

(** Source: src/apps/server/policy_api.py:297-301 [SandboxPolicyApi._secrets].  Id, name
    and whether enabled. *)
Definition own_response (sandbox_id : string) (v : Vault) : list (string * string * bool * time) :=
  (λ p : string * SandboxSecret, (p.1, p.2.(ss_name), p.2.(ss_enabled), p.2.(ss_created_at))) <$>
    list_sandbox_secrets sandbox_id v.

(** Source: src/apps/server/security.py:216-237 [audit]. *)
Definition audit (user : Member) (action resource_type resource_id : string) (sandbox_id : option string)
    (metadata : list (string * json)) : M Vault unit :=
  vexec (λ now v, put_audit (v.(v_audit) ++
    [mkAuditEntry user.(m_workspace_id) user.(m_id) sandbox_id action resource_type resource_id metadata now]) v).

Section vault.
Context (ciphers : Ciphers) `{!CiphersOk ciphers}.
Context (seal : string → string → string → string) (open_ : string → string → option string).

(** Source: src/apps/server/security.py:62-64 [encrypt]. *)
Definition encrypt (value scope : string) (dr : Draws) : M Vault string :=
  on_keys (encrypt_bytes ciphers seal value scope dr.(dr_key_id) dr.(dr_fresh) dr.(dr_iv)).

(** Source: src/apps/server/security.py:67-68 [decrypt]. *)
Definition decrypt (token : string) : M Vault string := on_keys (decrypt_bytes ciphers open_ token).

(** The loops of [secret_values]. *)
Fixpoint vault_values (env : gmap string string) (rows : list (string * VaultSecret)) : M Vault (gmap string string) :=
  match rows with
  | [] => mret env
  | (_, r) :: rows => value ← decrypt r.(vs_ciphertext); vault_values (<[r.(vs_name) := value]> env) rows
  end.

Fixpoint own_values (env : gmap string string) (rows : list (string * SandboxSecret)) : M Vault (gmap string string) :=
  match rows with
  | [] => mret env
  | (id, r) :: rows =>
      if r.(ss_enabled) then
        found ← vquery (get_sandbox_secret id);
        match found with
        | None => raise AttributeError
        | Some own => value ← decrypt own.(ss_secret_ref); own_values (<[r.(ss_name) := value]> env) rows
        end
      else own_values env rows
  end.

(** Source: src/apps/server/security.py:96-102 [secret_values]. *)
Definition secret_values (sandbox_id : string) : M Vault (gmap string string) :=
  rows ← vquery (list_sandbox_vault_secrets sandbox_id);
  env ← vault_values ∅ rows;
  own ← vquery (list_sandbox_secrets sandbox_id);
  own_values env own.

(** Source: src/apps/server/security.py:159-163 [secret_env]. *)
Definition secret_env (sandbox_id : string) : M Vault (gmap string string) :=
  rows ← vquery (list_sandbox_vault_secrets sandbox_id);
  for_ rows (λ r, vexec (λ now, mark_vault_secret_used now r.1));;
  vexec (λ now, mark_sandbox_vault_secrets_used now sandbox_id);;
  secret_values sandbox_id.

(** Source: src/apps/server/vault_sync.py:35-44 [plan]. *)
Fixpoint plan_from (sandbox_ids : list string) : M Vault (list Push) :=
  match sandbox_ids with
  | [] => mret []
  | sandbox_id :: rest =>
      found ← on_world (query (Store.get_sandbox sandbox_id));
      match found with
      | None => plan_from rest
      | Some sandbox =>
          match str_or_none sandbox.(sb_runtime_id) with
          | Some runtime_id =>
              if bool_decide (sandbox.(sb_status) = Running) then
                values ← secret_values sandbox.(sb_id);
                vexec (λ now, mark_sandbox_vault_secrets_used now sandbox.(sb_id));;
                pushes ← plan_from rest;
                mret (mkPush sandbox.(sb_id) sandbox.(sb_kind) runtime_id values :: pushes)
              else plan_from rest
          | None => plan_from rest
          end
      end
  end.

(** [dict.fromkeys(sandbox_ids)]: each id once. *)
Definition plan (sandbox_ids : list string) : M Vault (list Push) := plan_from (unique [] sandbox_ids).

(** Source: src/apps/server/vault_sync.py:85-98 [push].  [inline] is false outside
    tests; the thread is [drain_one]. *)
Definition push (pushes : list Push) : M Vault unit :=
  match pushes with
  | [] => mret tt
  | _ => modify (λ v, put_queue (v.(v_queue) ++ [pushes]) v)
  end.

(** Whether the runtime takes what it is given. *)
Context (reach : Push → result exn unit).

(** Source: src/apps/server/vault_sync.py:47-55 [deliver].  Each kind of runtime
    replaces the whole set of values. *)
Definition deliver (p : Push) : M Vault unit :=
  match reach p with
  | Ok _ => modify (λ v, put_env (<[p.(pu_sandbox_id) := p.(pu_values)]> v.(v_env)) v)
  | Err e => raise e
  end.

(** Source: src/apps/server/vault_sync.py:58-70 [push_now]. *)
Fixpoint push_now (pushes : list Push) : M Vault (list string) :=
  match pushes with
  | [] => mret []
  | p :: rest =>
      on_world (secrets_changed (Some p.(pu_sandbox_id)));;
      failed ← try_ (deliver p;; mret []) (λ _, mret [p.(pu_sandbox_id)]);
      others ← push_now rest;
      mret (failed ++ others)
  end.

(** Source: src/apps/server/vault_sync.py:80-82 [_drain].  One turn of the thread,
    with something in the queue. *)
Definition drain_one : M Vault (list string) :=
  v ← get;
  match v.(v_queue) with
  | [] => mret []
  | pushes :: rest => modify (put_queue rest);; push_now pushes
  end.

(** ** Routes *)

(** Source: src/apps/server/vault_api.py:165-169 [list_secrets]. *)
Definition list_secrets (user : Member) : M Vault (list VaultSecretResponse) := vquery (secrets_response user).

(** Source: src/apps/server/vault_api.py:171-189 [reminders]. *)
Definition reminders (user : Member) : M Vault (list (string * string * secret_status * time * string)) :=
  vquery (λ v, order_by (λ r : string * string * secret_status * time * string, (r.1.2 / sec 1, 0))
    (omap (λ p : string * VaultSecret,
       let '(st, due_at) := status_of p.2 (now_of v) in
       match st, due_at with
       | SOk, _ | _, None => None
       | _, Some t => Some (p.1, p.2.(vs_name), st, t, p.2.(vs_name) +:+ " " +:+ MESSAGES st)
       end) (list_vault_secrets_by_workspace user.(m_workspace_id) v))).

(** Source: src/apps/server/vault_api.py:191-217 [create_secret]. *)
Definition create_secret (payload : VaultSecretRequest) (user : Member) (dr : Draws) : M Vault (list VaultSecretResponse) :=
  vault_session (
    existing ← vquery (get_vault_secret_by_name user.(m_workspace_id) payload.(vq_name));
    guard_ (is_none existing) (HTTPException 409 [Txt payload.(vq_name); Txt " already exists; update it instead"]);;
    ciphertext ← encrypt payload.(vq_value) user.(m_workspace_id) dr;
    now ← vquery now_of;
    create_vault_secret dr.(dr_id) (mkVaultSecret user.(m_workspace_id) user.(m_id) payload.(vq_name)
      (str_or_none (Some (strip (default "" payload.(vq_description))))) ciphertext now now None None None None);;
    when (negb (is_none payload.(vq_expires_at)) || negb (is_none payload.(vq_rotate_every_days)))
      (vexec (λ now, set_vault_secret_schedule now payload.(vq_expires_at) payload.(vq_rotate_every_days) dr.(dr_id)));;
    audit user "secret.create" "secret" dr.(dr_id) None [("name", JStr payload.(vq_name))];;
    vquery (secrets_response user)).

(** Source: src/apps/server/vault_api.py:219-252 [update_secret].  [stamp] prints the
    time in the audit log. *)
Definition update_secret (stamp : time → string) (secret_id : string) (payload : VaultSecretUpdate) (user : Member) (dr : Draws)
    : M Vault (list VaultSecretResponse) :=
  vault_session (
    on_world (secrets_changed None);;
    s ← secret secret_id user;
    match payload.(vu_value) with
    | None => mret tt
    | Some value =>
        ciphertext ← encrypt value user.(m_workspace_id) dr;
        vexec (λ now, update_vault_secret_value now ciphertext secret_id);;
        audit user "secret.rotate" "secret" secret_id None [("name", JStr s.(vs_name))];;
        users ← vquery (users_of secret_id);
        pushes ← plan users;
        push pushes
    end;;
    match payload.(vu_description) with
    | None => mret tt
    | Some text =>
        vexec (λ now, update_vault_secret_description now (str_or_none (Some (strip text))) secret_id);;
        audit user "secret.describe" "secret" secret_id None [("name", JStr s.(vs_name))]
    end;;
    when (negb (is_none payload.(vu_expires_at)) || negb (is_none payload.(vu_rotate_every_days))) (
      let expires_at := default s.(vs_expires_at) payload.(vu_expires_at) in
      let every := default s.(vs_rotate_every_days) payload.(vu_rotate_every_days) in
      vexec (λ now, set_vault_secret_schedule now expires_at every secret_id);;
      audit user "secret.schedule" "secret" secret_id None
        [("name", JStr s.(vs_name)); ("expires_at", match expires_at with Some t => JStr (stamp t) | None => JNull end);
         ("rotate_every_days", match every with Some n => JInt n | None => JNull end)]);;
    vquery (secrets_response user)).

(** Source: src/apps/server/vault_api.py:254-265 [delete_secret]. *)
Definition delete_secret (secret_id : string) (user : Member) : M Vault (list VaultSecretResponse) :=
  vault_session (
    on_world (secrets_changed None);;
    s ← secret secret_id user;
    users ← vquery (users_of secret_id);
    vexec (λ _, detach_vault_secret_everywhere secret_id);;
    vexec (λ _, delete_vault_secret secret_id);;
    audit user "secret.delete" "secret" secret_id None [("name", JStr s.(vs_name))];;
    pushes ← plan users;
    push pushes;;
    vquery (secrets_response user)).

(** Source: src/apps/server/vault_api.py:267-271 [attached_secrets]. *)
Definition attached_secrets (sandbox_id : string) (user : Member) : M Vault (list (string * string)) :=
  sandbox ← on_world (owned sandbox_id user);
  vquery (attached_response sandbox.(sb_id)).

(** Source: src/apps/server/vault_api.py:273-286 [attach_secret]. *)
Definition attach_secret (sandbox_id secret_id : string) (user : Member) : M Vault (list (string * string)) :=
  vault_session (
    on_world (secrets_changed None);;
    sandbox ← on_world (owned sandbox_id user);
    s ← secret secret_id user;
    vexec (λ _, attach_vault_secret sandbox.(sb_id) secret_id);;
    audit user "secret.attach" "secret" secret_id (Some sandbox.(sb_id)) [("name", JStr s.(vs_name)); ("sandbox", JStr sandbox.(sb_name))];;
    pushes ← plan [sandbox.(sb_id)];
    push pushes;;
    vquery (attached_response sandbox.(sb_id))).

(** Source: src/apps/server/vault_api.py:288-303 [detach_secret]. *)
Definition detach_secret (sandbox_id secret_id : string) (user : Member) : M Vault (list (string * string)) :=
  vault_session (
    on_world (secrets_changed None);;
    sandbox ← on_world (owned sandbox_id user);
    s ← secret secret_id user;
    vexec (λ _, detach_vault_secret sandbox.(sb_id) secret_id);;
    audit user "secret.detach" "secret" secret_id (Some sandbox.(sb_id)) [("name", JStr s.(vs_name)); ("sandbox", JStr sandbox.(sb_name))];;
    pushes ← plan [sandbox.(sb_id)];
    push pushes;;
    vquery (attached_response sandbox.(sb_id))).

(** Source: src/apps/server/vault_api.py:305-320 [activity].  With
    [list_vault_audit_logs], newest first. *)
Definition activity (user : Member) : M Vault (list AuditEntry) :=
  vquery (λ v, take ACTIVITY_LIMIT (reverse (order_by (λ a, (a.(ae_created_at), 0))
    (filter (λ a, a.(ae_workspace_id) = user.(m_workspace_id) ∧ a.(ae_resource_type) ∈ ["secret"; "profile"]) v.(v_audit))))).

(** Source: src/apps/server/policy_api.py:211-234 [set_secret].  The request's name and
    value. *)
Definition set_own_secret (sandbox_id name value : string) (user : Member) (dr : Draws)
    : M Vault (list (string * string * bool * time)) :=
  vault_session (
    on_world (secrets_changed None);;
    sandbox ← on_world (owned sandbox_id user);
    existing ← vquery (get_sandbox_secret_by_name sandbox.(sb_id) name);
    match existing with Some (id, _) => vexec (λ _, delete_sandbox_secret id) | None => mret tt end;;
    secret_ref ← encrypt value sandbox.(sb_workspace_id) dr;
    now ← vquery now_of;
    create_sandbox_secret dr.(dr_id) (mkSandboxSecret sandbox.(sb_id) name secret_ref true now);;
    pushes ← plan [sandbox.(sb_id)];
    push pushes;;
    vquery (own_response sandbox.(sb_id))).

(** Source: src/apps/server/policy_api.py:236-250 [delete_secret]. *)
Definition delete_own_secret (sandbox_id secret_id : string) (user : Member) : M Vault (list (string * string * bool * time)) :=
  vault_session (
    on_world (secrets_changed None);;
    sandbox ← on_world (owned sandbox_id user);
    found ← vquery (get_sandbox_secret secret_id);
    match found with
    | Some s => guard_ (bool_decide (s.(ss_sandbox_id) = sandbox.(sb_id))) secret_not_found
    | None => raise secret_not_found
    end;;
    vexec (λ _, delete_sandbox_secret secret_id);;
    pushes ← plan [sandbox.(sb_id)];
    push pushes;;
    vquery (own_response sandbox.(sb_id))).

(** Source: src/apps/server/policy_api.py:205-209 [list_secrets]. *)
Definition list_own_secrets (sandbox_id : string) (user : Member) : M Vault (list (string * string * bool * time)) :=
  sandbox ← on_world (owned sandbox_id user);
  vquery (own_response sandbox.(sb_id)).
End vault.

(** ** What a sandbox should have *)

(** Value [x] of the name [n], read with [f] from the ciphertexts: the
    sandbox's own enabled secret, else a vault secret attached to it. *)
Definition own_has (f : string → string) (v : Vault) (s n x : string) : Prop :=
  ∃ id r, v.(v_own) !! id = Some r ∧ r.(ss_sandbox_id) = s ∧ r.(ss_enabled) = true ∧ r.(ss_name) = n ∧ x = f r.(ss_secret_ref).
Definition vault_has (f : string → string) (v : Vault) (s n x : string) : Prop :=
  ∃ id r, is_Some (v.(v_grants) !! (s, id)) ∧ v.(v_secrets) !! id = Some r ∧ r.(vs_name) = n ∧ x = f r.(vs_ciphertext).
Definition has_secret (f : string → string) (v : Vault) (s n x : string) : Prop :=
  own_has f v s n x ∨ ((∀ y, ¬ own_has f v s n y) ∧ vault_has f v s n x).

(** The sandbox runs, in a runtime. *)
Definition live_row (s : Sandbox) : Prop := s.(sb_status) = Running ∧ no_runtime s = false.

(** What the sandbox has once the queue is delivered. *)
Definition given (s : string) (o : option (gmap string string)) (p : Push) : option (gmap string string) :=
  if bool_decide (p.(pu_sandbox_id) = s) then Some p.(pu_values) else o.
Definition latest (v : Vault) (s : string) : option (gmap string string) :=
  foldl (given s) (v.(v_env) !! s) (concat v.(v_queue)).

Section vault_proofs.
Context (ciphers : Ciphers) `{!CiphersOk ciphers}.
Context (seal : string → string → string → string) (open_ : string → string → option string).
Context (open_seal : ∀ k iv d, open_ k (seal k iv d) = Some d).
Context (reach : Push → result exn unit).

Abbreviation coherent := (coherent ciphers).
Abbreviation advances := (advances ciphers).
Abbreviation secret_values := (secret_values ciphers open_).
Abbreviation plan := (plan ciphers open_).
Abbreviation plan_from := (plan_from ciphers open_).

(** The token is of an envelope whose key the table holds. *)
Definition stored (k : Keys) (token : string) : Prop :=
  ∃ i key iv d, token = ENVELOPE +:+ i +:+ ":" +:+ seal key iv d ∧ has_char ":"%char i = false ∧ keyed ciphers k i key.

Definition plain (k : Keys) (token : string) : string :=
  match (decrypt_bytes ciphers open_ token k).1 with Ok d => d | Err _ => "" end.

Lemma decrypt_envelope k i key iv d :
  has_char ":"%char i = false → keyed ciphers k i key → coherent k →
  ∃ k', decrypt_bytes ciphers open_ (ENVELOPE +:+ i +:+ ":" +:+ seal key iv d) k = (Ok d, k') ∧ advances k k'.
Proof.
  intros Hi Hk Hc. destruct (data_key_by_id_spec ciphers i key k Hc Hk) as (k' & E & Ha). exists k'. split; [|done].
  unfold decrypt_bytes. change (drop_chars (String.length ENVELOPE) (ENVELOPE +:+ ?x)) with x.
  change (":" +:+ seal key iv d) with (String ":"%char (seal key iv d)). rewrite partition_app by done.
  rewrite (bind_ok _ _ _ _ _ E). unfold opened. by rewrite open_seal.
Qed.

Lemma decrypt_stored k token :
  stored k token → coherent k → ∃ k', decrypt_bytes ciphers open_ token k = (Ok (plain k token), k') ∧ advances k k'.
Proof.
  intros (i & key & iv & d & -> & Hi & Hk) Hc. destruct (decrypt_envelope k i key iv d Hi Hk Hc) as (k' & E & Ha).
  exists k'. unfold plain. by rewrite E.
Qed.

Lemma stored_advances k k' token :
  stored k token → coherent k → advances k k' → stored k' token ∧ plain k' token = plain k token.
Proof.
  intros (i & key & iv & d & -> & Hi & Hk) Hc (Hc' & _ & Hk'). split; [exists i, key, iv, d; auto|].
  destruct (decrypt_envelope k i key iv d Hi Hk Hc) as (? & E & _).
  destruct (decrypt_envelope k' i key iv d Hi (Hk' _ _ Hk) Hc') as (? & E' & _). unfold plain. by rewrite E, E'.
Qed.

(** The tables are well formed: every ciphertext opens, names are unique, and a
    grant links a secret and a sandbox of one workspace. *)
Record base (v : Vault) : Prop := {
  ba_coherent : coherent v.(v_keys);
  ba_env : sound_env v.(v_keys).(k_env);
  ba_ids : ∀ i row, v.(v_keys).(k_rows) !! i = Some row → has_char ":"%char i = false;
  ba_rows : ids_ok v.(v_world).(w_db);
  ba_secrets : ∀ id r, v.(v_secrets) !! id = Some r → stored v.(v_keys) r.(vs_ciphertext);
  ba_own : ∀ id r, v.(v_own) !! id = Some r → stored v.(v_keys) r.(ss_secret_ref);
  ba_names : ∀ i j r r', v.(v_secrets) !! i = Some r → v.(v_secrets) !! j = Some r' →
    r.(vs_workspace_id) = r'.(vs_workspace_id) → r.(vs_name) = r'.(vs_name) → i = j;
  ba_own_names : ∀ i j r r', v.(v_own) !! i = Some r → v.(v_own) !! j = Some r' →
    r.(ss_sandbox_id) = r'.(ss_sandbox_id) → r.(ss_name) = r'.(ss_name) → i = j;
  ba_within : ∀ s id, is_Some (v.(v_grants) !! (s, id)) → ∃ row r,
    v.(v_world).(w_db).(sandboxes) !! s = Some row ∧ v.(v_secrets) !! id = Some r ∧ r.(vs_workspace_id) = row.(sb_workspace_id)
}.

(** [e] is exactly what the sandbox should have. *)
Definition env_is (e : gmap string string) (v : Vault) (s : string) : Prop :=
  ∀ n x, e !! n = Some x ↔ has_secret (plain v.(v_keys)) v s n x.

Definition latest_ok (v : Vault) : Prop :=
  ∀ s row, v.(v_world).(w_db).(sandboxes) !! s = Some row → live_row row → ∃ e, latest v s = Some e ∧ env_is e v s.

(** Nothing is under way, and every running sandbox has what it should. *)
Definition settled (v : Vault) : Prop :=
  base v ∧ v.(v_queue) = [] ∧
  ∀ s row, v.(v_world).(w_db).(sandboxes) !! s = Some row → live_row row → ∃ e, v.(v_env) !! s = Some e ∧ env_is e v s.

(** *** Reading the secrets *)

(** What reading leaves: the keys may be cached, nothing else. *)
Definition reads (v v' : Vault) : Prop := ∃ k, v' = put_keys k v ∧ advances v.(v_keys) k ∧ k.(k_rows) = v.(v_keys).(k_rows).

Lemma cache_key_rows id row k : (cache_key ciphers id row k).2.(k_rows) = k.(k_rows).
Proof.
  unfold cache_key, get, mbind, M_bind. destruct (k_cache k !! id); [done|]. unfold lift. by destruct (unwrap _ _ _).
Qed.

Lemma decrypt_rows token k : (decrypt_bytes ciphers open_ token k).2.(k_rows) = k.(k_rows).
Proof.
  unfold decrypt_bytes. destruct (partition _ _) as [[i b] rest]. unfold data_key_by_id. rewrite run_bind_assoc, (bind_ok get _ k k k eq_refl).
  assert (∀ t k', (opened open_ t rest k').2 = k') as Ho by (intros t k'; unfold opened; by destruct (open_ t rest)).
  unfold mbind, M_bind. destruct (k_cache k !! i); [simpl; by rewrite Ho|]. destruct (k_rows k !! i) as [row|]; [|done].
  pose proof (cache_key_rows i row k) as H. destruct (cache_key ciphers i row k) as [[t|e] k']; simpl in *; [by rewrite Ho|done].
Qed.

Lemma reads_refl v : coherent v.(v_keys) → reads v v.
Proof. intros Hc. exists v.(v_keys). split; [by destruct v|]. split; [by apply advances_refl|done]. Qed.

Lemma reads_trans v1 v2 v3 : reads v1 v2 → reads v2 v3 → reads v1 v3.
Proof.
  intros (k & -> & Ha & Hr) (k' & -> & Ha' & Hr'). exists k'. split; [done|]. simpl in *. split; [by eapply advances_trans|congruence].
Qed.

Lemma decrypt_reads token v :
  stored v.(v_keys) token → coherent v.(v_keys) →
  ∃ v', decrypt ciphers open_ token v = (Ok (plain v.(v_keys) token), v') ∧ reads v v'.
Proof.
  intros Hs Hc. destruct (decrypt_stored v.(v_keys) token Hs Hc) as (k & E & Ha). exists (put_keys k v).
  unfold decrypt, on_keys. rewrite E. split; [done|]. exists k. split; [done|]. split; [done|].
  pose proof (decrypt_rows token v.(v_keys)) as H. by rewrite E in H.
Qed.

Lemma reads_plain v v' token : stored v.(v_keys) token → coherent v.(v_keys) → reads v v' →
  stored v'.(v_keys) token ∧ plain v'.(v_keys) token = plain v.(v_keys) token.
Proof. intros Hs Hc (k & -> & Ha & _). by apply stored_advances. Qed.

(** The loop over a list of named tokens, and the dict it builds. *)
Definition filled (l : list (string * string)) (env : gmap string string) : gmap string string :=
  foldl (λ m p, <[p.1 := p.2]> m) env l.

Lemma filled_lookup l env n x :
  (∀ p q, p ∈ l → q ∈ l → p.1 = q.1 → p.2 = q.2) →
  filled l env !! n = Some x ↔ (n, x) ∈ l ∨ ((∀ y, (n, y) ∉ l) ∧ env !! n = Some x).
Proof.
  unfold filled. revert env. induction l as [|[n1 x1] l IH]; intros env Hf; simpl; [set_solver|].
  rewrite IH by (intros p q Hp Hq; apply Hf; set_solver). destruct (decide (n1 = n)) as [->|Hne].
  - rewrite lookup_insert_eq. split; [set_solver|].
    intros [[[= ->]|Hin]%elem_of_cons|[Hn _]]; [|by left|set_solver]. destruct (decide (n ∈ l.*1)) as [[[n' y] [-> Hy]]%list_elem_of_fmap|Hno].
    + left. simpl in *. specialize (Hf (n', x1) (n', y)). simpl in Hf. rewrite Hf; set_solver.
    + right. split; [|done]. intros y Hy. apply Hno. apply list_elem_of_fmap. by exists (n, y).
  - rewrite lookup_insert_ne by done. set_solver.
Qed.

Definition vault_pair (k : Keys) (p : string * VaultSecret) : string * string := (p.2.(vs_name), plain k p.2.(vs_ciphertext)).
Definition own_pair (k : Keys) (p : string * SandboxSecret) : string * string := (p.2.(ss_name), plain k p.2.(ss_secret_ref)).

Lemma vault_values_ok rows env v k0 :
  coherent k0 → advances k0 v.(v_keys) → (∀ p, p ∈ rows → stored k0 p.2.(vs_ciphertext)) →
  ∃ v', vault_values ciphers open_ env rows v = (Ok (filled (vault_pair k0 <$> rows) env), v') ∧ reads v v'.
Proof.
  intros Hc0. revert env v. induction rows as [|[id r] rows IH]; intros env v Ha Hs; simpl; [exists v; split; [done|apply reads_refl, Ha]|].
  destruct (stored_advances k0 v.(v_keys) r.(vs_ciphertext)) as [Hst Hp]; [by apply (Hs (id, r)); left|done..|].
  destruct (decrypt_reads r.(vs_ciphertext) v Hst (proj1 Ha)) as (v1 & E & Hr1). rewrite (bind_ok _ _ _ _ _ E).
  destruct (IH (<[r.(vs_name) := plain v.(v_keys) r.(vs_ciphertext)]> env) v1) as (v2 & E2 & Hr2).
  - destruct Hr1 as (k & -> & Ha' & _). by eapply advances_trans.
  - intros p Hin. apply Hs. by right.
  - exists v2. rewrite E2, Hp. split; [done|by eapply reads_trans].
Qed.

Lemma own_values_ok rows env v k0 :
  coherent k0 → advances k0 v.(v_keys) → (∀ p, p ∈ rows → stored k0 p.2.(ss_secret_ref) ∧ v.(v_own) !! p.1 = Some p.2) →
  ∃ v', own_values ciphers open_ env rows v =
    (Ok (filled (own_pair k0 <$> filter (λ p, p.2.(ss_enabled) = true) rows) env), v') ∧ reads v v'.
Proof.
  intros Hc0. revert env v. induction rows as [|[id r] rows IH]; intros env v Ha Hs; simpl; [exists v; split; [done|apply reads_refl, Ha]|].
  rewrite filter_cons. cbn [snd]. destruct (ss_enabled r) eqn:En; [|rewrite decide_False by done; apply IH; [done|]; intros p Hin; apply Hs; by right].
  rewrite decide_True by done. destruct (Hs (id, r)) as [H1 H2]; [by left|]. unfold vquery, get_sandbox_secret. run. simpl in H2. rewrite H2. run.
  destruct (stored_advances k0 v.(v_keys) r.(ss_secret_ref)) as [Hst Hp]; [done..|].
  destruct (decrypt_reads r.(ss_secret_ref) v Hst (proj1 Ha)) as (v1 & E & Hr1). rewrite (bind_ok _ _ _ _ _ E).
  destruct (IH (<[r.(ss_name) := plain v.(v_keys) r.(ss_secret_ref)]> env) v1) as (v2 & E2 & Hr2).
  - destruct Hr1 as (k & -> & Ha' & _). by eapply advances_trans.
  - intros p Hin. destruct Hr1 as (k & -> & _). simpl. apply Hs. by right.
  - exists v2. rewrite E2, Hp. split; [done|by eapply reads_trans].
Qed.

Lemma elem_of_by_name {R} (name : R → string) l x : x ∈ by_name name l ↔ x ∈ l.
Proof. unfold by_name. by rewrite merge_sort_Permutation. Qed.

Lemma elem_of_vault_rows s v id r :
  (id, r) ∈ list_sandbox_vault_secrets s v ↔ is_Some (v.(v_grants) !! (s, id)) ∧ v.(v_secrets) !! id = Some r.
Proof.
  unfold list_sandbox_vault_secrets. rewrite elem_of_by_name, list_elem_of_omap. split.
  - intros ([[s' id'] t] & Hg%elem_of_map_to_list & H). simpl in H. case_bool_decide; [|done]. subst.
    destruct (v.(v_secrets) !! id') as [r'|] eqn:E; simplify_eq/=. by rewrite Hg.
  - intros [[t Ht] Hr]. exists (s, id, t). rewrite elem_of_map_to_list. split; [done|]. simpl. by rewrite bool_decide_true, Hr.
Qed.

Lemma elem_of_own_rows s v id r :
  (id, r) ∈ list_sandbox_secrets s v ↔ v.(v_own) !! id = Some r ∧ r.(ss_sandbox_id) = s.
Proof.
  unfold list_sandbox_secrets. rewrite elem_of_by_name, list_elem_of_filter, elem_of_map_to_list. simpl. tauto.
Qed.

(** [secret_values] gives what the sandbox should have. *)
Lemma secret_values_ok s v :
  base v → ∃ e v', secret_values s v = (Ok e, v') ∧ reads v v' ∧ env_is e v s.
Proof.
  intros Hb. pose proof (ba_coherent _ Hb) as Hc. unfold secret_values, vquery. run.
  destruct (vault_values_ok (list_sandbox_vault_secrets s v) ∅ v v.(v_keys) Hc (advances_refl _ _ Hc)) as (v1 & E1 & Hr1).
  { intros [id r] [_ H]%elem_of_vault_rows. by apply (ba_secrets _ Hb id). }
  rewrite (bind_ok _ _ _ _ _ E1). run. destruct Hr1 as (k1 & -> & Ha1 & Hk1).
  assert (∀ p, p ∈ list_sandbox_secrets s (put_keys k1 v) → stored v.(v_keys) p.2.(ss_secret_ref) ∧ v.(v_own) !! p.1 = Some p.2) as Hown.
  { intros [id r] [H _]%elem_of_own_rows. split; [by apply (ba_own _ Hb id)|done]. }
  destruct (own_values_ok (list_sandbox_secrets s (put_keys k1 v)) (filled (vault_pair v.(v_keys) <$> list_sandbox_vault_secrets s v) ∅)
    (put_keys k1 v) v.(v_keys) Hc Ha1 Hown) as (v2 & E2 & Hr2).
  exists (filled (own_pair v.(v_keys) <$> filter (λ p, p.2.(ss_enabled) = true) (list_sandbox_secrets s (put_keys k1 v)))
    (filled (vault_pair v.(v_keys) <$> list_sandbox_vault_secrets s v) ∅)), v2.
  split; [done|]. split; [eapply reads_trans; [by exists k1|done]|].
  assert (∀ n y, (n, y) ∈ own_pair v.(v_keys) <$> filter (λ p, p.2.(ss_enabled) = true) (list_sandbox_secrets s (put_keys k1 v))
    ↔ own_has (plain v.(v_keys)) v s n y) as Ho.
  { intros n y. rewrite list_elem_of_fmap. unfold own_has. split.
    - intros ([id r] & [= -> ->] & [En [H1 H2]%elem_of_own_rows]%list_elem_of_filter). by exists id, r.
    - intros (id & r & H1 & H2 & H3 & H4 & ->). exists (id, r). unfold own_pair. simpl. rewrite H4. split; [done|].
      apply list_elem_of_filter. split; [done|]. by apply elem_of_own_rows. }
  assert (∀ n y, (n, y) ∈ vault_pair v.(v_keys) <$> list_sandbox_vault_secrets s v ↔ vault_has (plain v.(v_keys)) v s n y) as Hv.
  { intros n y. rewrite list_elem_of_fmap. unfold vault_has. split.
    - intros ([id r] & [= -> ->] & [H1 H2]%elem_of_vault_rows). by exists id, r.
    - intros (id & r & H1 & H2 & H3 & ->). exists (id, r). unfold vault_pair. simpl. rewrite H3. split; [done|].
      by apply elem_of_vault_rows. }
  intros n x. rewrite filled_lookup; [rewrite filled_lookup|].
  - unfold has_secret. setoid_rewrite Ho. setoid_rewrite Hv. rewrite lookup_empty. naive_solver.
  - intros [n1 x1] [n2 x2]. rewrite !Hv. simpl. intros (i & r & Hg & Hr & Hn & ->) (j & r' & Hg' & Hr' & Hn' & ->) ->.
    destruct (ba_within _ Hb s i Hg) as (row & ? & ? & ? & ?), (ba_within _ Hb s j Hg') as (row' & ? & ? & ? & ?). simplify_eq.
    assert (i = j) as -> by (eapply (ba_names _ Hb); try done; congruence). by simplify_eq.
  - intros [n1 x1] [n2 x2]. rewrite !Ho. simpl. intros (i & r & Hr & Hs & _ & Hn & ->) (j & r' & Hr' & Hs' & _ & Hn' & ->) ->.
    assert (i = j) as -> by (eapply (ba_own_names _ Hb); try done; congruence). by simplify_eq.
Qed.

(** *** Steps that change no secret *)

Definition core (r : VaultSecret) : string * string * string := (r.(vs_workspace_id), r.(vs_name), r.(vs_ciphertext)).

Record harmless (v v' : Vault) : Prop := {
  ha_db : v'.(v_world).(w_db) = v.(v_world).(w_db);
  ha_keys : advances v.(v_keys) v'.(v_keys);
  ha_ids : ∀ i row, v'.(v_keys).(k_rows) !! i = Some row →
    is_Some (v.(v_keys).(k_rows) !! i) ∨ has_char ":"%char i = false;
  ha_secrets : ∀ id, core <$> v'.(v_secrets) !! id = core <$> v.(v_secrets) !! id;
  ha_grants : ∀ k, is_Some (v'.(v_grants) !! k) ↔ is_Some (v.(v_grants) !! k);
  ha_own : v'.(v_own) = v.(v_own);
  ha_queue : v'.(v_queue) = v.(v_queue);
  ha_given : v'.(v_env) = v.(v_env)
}.

Lemma harmless_refl v : coherent v.(v_keys) → harmless v v.
Proof. intros Hc. split; try done; eauto using advances_refl. Qed.

Lemma harmless_trans v1 v2 v3 : harmless v1 v2 → harmless v2 v3 → harmless v1 v3.
Proof.
  intros [a1 b1 c1 d1 e1 f1 g1 h1] [a2 b2 c2 d2 e2 f2 g2 h2]. split; try congruence.
  - by eapply advances_trans.
  - intros i row H. destruct (c2 i row H) as [[row' Hi]|]; eauto.
  - intros k. by rewrite e2.
Qed.

Lemma reads_harmless v v' : reads v v' → harmless v v'.
Proof. intros (k & -> & Ha & Hr). split; try done. intros i row. simpl. rewrite Hr. eauto. Qed.

(** Changing only the world's caches, the audit log or the reminders. *)
Lemma harmless_world f v : coherent v.(v_keys) → (∀ w, (f w).(w_db) = w.(w_db)) → harmless v (put_world (f v.(v_world)) v).
Proof. intros Hc Hf. split; try done; eauto using advances_refl. apply Hf. Qed.
Lemma harmless_audit a v : coherent v.(v_keys) → harmless v (put_audit a v).
Proof. intros Hc. split; try done; eauto using advances_refl. Qed.
Lemma harmless_reminded a v : coherent v.(v_keys) → harmless v (put_reminded a v).
Proof. intros Hc. split; try done; eauto using advances_refl. Qed.
Lemma harmless_upd f id v : coherent v.(v_keys) → (∀ r, core (f r) = core r) → harmless v (upd_secret id f v).
Proof.
  intros Hc Hf. split; try done; eauto using advances_refl. intros i. simpl. rewrite lookup_alter. case_decide; [|done].
  subst. destruct (v_secrets v !! i); [|done]. simpl. by rewrite Hf.
Qed.
Lemma harmless_mark now s v : coherent v.(v_keys) → harmless v (mark_sandbox_vault_secrets_used now s v).
Proof.
  intros Hc. split; try done; eauto using advances_refl. intros k. simpl. rewrite map_lookup_imap.
  destruct (v_grants v !! k); [|done]. simpl. split; eauto.
Qed.

Lemma core_lookup v v' id r : harmless v v' → v'.(v_secrets) !! id = Some r → ∃ r0, v.(v_secrets) !! id = Some r0 ∧ core r0 = core r.
Proof. intros Hh Hr. pose proof (ha_secrets _ _ Hh id) as H. rewrite Hr in H. destruct (v_secrets v !! id) as [r0|]; simpl in H; [exists r0; split; [done|congruence]|done]. Qed.
Lemma core_lookup_back v v' id r : harmless v v' → v.(v_secrets) !! id = Some r → ∃ r0, v'.(v_secrets) !! id = Some r0 ∧ core r0 = core r.
Proof. intros Hh Hr. pose proof (ha_secrets _ _ Hh id) as H. rewrite Hr in H. destruct (v_secrets v' !! id) as [r0|]; simpl in H; [exists r0; split; [done|congruence]|done]. Qed.

Lemma harmless_base v v' : base v → harmless v v' → base v'.
Proof.
  intros Hb Hh. pose proof Hh as [Hdb (Hc & He & Hk) Hi Hs Hg Ho _ _]. split.
  - done.
  - rewrite He. apply Hb.
  - intros i row H. destruct (Hi i row H) as [[row' H']|]; [by eapply (ba_ids _ Hb)|done].
  - rewrite Hdb. apply Hb.
  - intros id r H. destruct (core_lookup v v' id r Hh H) as (r0 & H0 & [= _ _ <-]).
    apply (stored_advances v.(v_keys)); [by eapply (ba_secrets _ Hb)|apply Hb|done].
  - intros id r. rewrite Ho. intros H. apply (stored_advances v.(v_keys)); [by eapply (ba_own _ Hb)|apply Hb|done].
  - intros i j r r' H H' Hw Hn. destruct (core_lookup v v' i r Hh H) as (r0 & H0 & [= E1 E2 _]).
    destruct (core_lookup v v' j r' Hh H') as (r1 & H1 & [= E3 E4 _]). by eapply (ba_names _ Hb i j r0 r1); congruence.
  - rewrite Ho. apply Hb.
  - intros s id Hsome. rewrite Hg in Hsome. destruct (ba_within _ Hb s id Hsome) as (row & r & H1 & H2 & H3).
    destruct (core_lookup_back v v' id r Hh H2) as (r0 & H0 & [= E _ _]). exists row, r0. rewrite Hdb. split_and!; [done|done|congruence].
Qed.

Lemma own_has_harmless v v' s n x :
  base v → harmless v v' → own_has (plain v'.(v_keys)) v' s n x ↔ own_has (plain v.(v_keys)) v s n x.
Proof.
  intros Hb Hh. unfold own_has. rewrite (ha_own _ _ Hh).
  split; intros (id & r & H1 & H2 & H3 & H4 & ->); exists id, r; split_and!; try done;
    destruct (stored_advances v.(v_keys) v'.(v_keys) r.(ss_secret_ref)) as [_ H]; try done; try apply Hh; try apply Hb; by eapply (ba_own _ Hb).
Qed.

Lemma vault_has_harmless v v' s n x :
  base v → harmless v v' → vault_has (plain v'.(v_keys)) v' s n x ↔ vault_has (plain v.(v_keys)) v s n x.
Proof.
  intros Hb Hh. unfold vault_has. setoid_rewrite (ha_grants _ _ Hh).
  split; intros (id & r & H1 & H2 & H3 & ->).
  - destruct (core_lookup v v' id r Hh H2) as (r0 & H0 & [= E1 E2 E3]). exists id, r0. split_and!; [done|done|congruence|].
    destruct (stored_advances v.(v_keys) v'.(v_keys) r0.(vs_ciphertext)) as [_ H]; [by eapply (ba_secrets _ Hb)|apply Hb|apply Hh|congruence].
  - destruct (core_lookup_back v v' id r Hh H2) as (r0 & H0 & [= E1 E2 E3]). exists id, r0. split_and!; [done|done|congruence|].
    destruct (stored_advances v.(v_keys) v'.(v_keys) r.(vs_ciphertext)) as [_ H]; [by eapply (ba_secrets _ Hb)|apply Hb|apply Hh|congruence].
Qed.

Lemma env_is_harmless e v v' s : base v → harmless v v' → env_is e v s ↔ env_is e v' s.
Proof.
  intros Hb Hh. unfold env_is, has_secret. setoid_rewrite (own_has_harmless v v' s) at 1 2; [|done..].
  setoid_rewrite (vault_has_harmless v v' s); done.
Qed.

(** *** Planning and queueing *)
Lemma run_on_query {A B} (f : Db → A) (k : A → M Vault B) v :
  (on_world (query f) ≫= k) v = k (f v.(v_world).(w_db)) v.
Proof. by destruct v. Qed.

Lemma latest_harmless v v' : base v → harmless v v' → latest_ok v → latest_ok v'.
Proof.
  intros Hb Hh Hl s row. rewrite (ha_db _ _ Hh). intros Hs Hr. destruct (Hl s row Hs Hr) as (e & He & Hi).
  exists e. split; [unfold latest; by rewrite (ha_given _ _ Hh), (ha_queue _ _ Hh)|by apply (env_is_harmless e v v')].
Qed.

Lemma plan_from_ok ids v :
  base v →
  ∃ pushes v', plan_from ids v = (Ok pushes, v') ∧ harmless v v' ∧
    (∀ p, p ∈ pushes → p.(pu_sandbox_id) ∈ ids ∧ env_is p.(pu_values) v p.(pu_sandbox_id)) ∧
    (∀ s row, s ∈ ids → v.(v_world).(w_db).(sandboxes) !! s = Some row → live_row row → ∃ p, p ∈ pushes ∧ p.(pu_sandbox_id) = s).
Proof.
  revert v. induction ids as [|i ids IH]; intros v Hb.
  { exists [], v. split; [done|]. split; [apply harmless_refl, Hb|]. split; set_solver. }
  cbn [Vault.plan_from]. rewrite run_on_query. unfold get_sandbox. pose proof (ba_rows _ Hb i) as Hid.
  destruct (sandboxes _ !! i) as [row|] eqn:E.
  2:{ destruct (IH v Hb) as (ps & v' & E1 & Hh & H1 & H2). exists ps, v'. split_and!; [done|done|set_solver|].
      intros s r [->|Hs]%elem_of_cons Hr; [congruence|]. eauto. }
  specialize (Hid row eq_refl). rewrite Hid.
  assert (¬ live_row row → ∃ pushes v', plan_from ids v = (Ok pushes, v') ∧ harmless v v' ∧
    (∀ p, p ∈ pushes → p.(pu_sandbox_id) ∈ i :: ids ∧ env_is p.(pu_values) v p.(pu_sandbox_id)) ∧
    (∀ s r, s ∈ i :: ids → v.(v_world).(w_db).(sandboxes) !! s = Some r → live_row r → ∃ p, p ∈ pushes ∧ p.(pu_sandbox_id) = s)) as Hskip.
  { intros Hn. destruct (IH v Hb) as (ps & v' & E1 & Hh & H1 & H2). exists ps, v'. split_and!; [done|done|set_solver|].
    intros s r [->|Hs]%elem_of_cons Hr Hl; [congruence|]. eauto. }
  unfold live_row, no_runtime in Hskip. destruct (str_or_none row.(sb_runtime_id)) as [rt|]; [|apply Hskip; by intros []].
  case_bool_decide as Hst; [|apply Hskip; tauto]. clear Hskip.
  destruct (secret_values_ok i v Hb) as (e & v1 & Es & Hr & Hi). rewrite (bind_ok _ _ _ _ _ Es). unfold vexec. run.
  apply reads_harmless in Hr. pose proof (harmless_base _ _ Hb Hr) as Hb1.
  pose proof (harmless_mark (now_of v1) i v1 (ba_coherent _ Hb1)) as Hm. pose proof (harmless_base _ _ Hb1 Hm) as Hb2.
  destruct (IH _ Hb2) as (ps & v' & E1 & Hh & H1 & H2). rewrite (bind_ok _ _ _ _ _ E1).
  pose proof (harmless_trans _ _ _ Hr Hm) as Hrm. eexists _, _. split; [done|]. split; [by eapply harmless_trans|]. split.
  - intros p [->|Hp]%elem_of_cons; [split; [left|done]|]. destruct (H1 p Hp) as [Hin Hv]. split; [by right|]. by eapply env_is_harmless.
  - intros s r [->|Hs]%elem_of_cons Hlk Hl; [eexists; split; [by left|done]|].
    destruct (H2 s r Hs) as (p & Hp & <-); [by rewrite (ha_db _ _ Hrm)|done|]. exists p. split; [by right|done].
Qed.

Lemma given_all (P : gmap string string → Prop) s o ps :
  (∀ p, p ∈ ps → p.(pu_sandbox_id) = s → P p.(pu_values)) →
  (∃ p, p ∈ ps ∧ p.(pu_sandbox_id) = s) ∨ (∃ e, o = Some e ∧ P e) → ∃ e, foldl (given s) o ps = Some e ∧ P e.
Proof.
  revert o. induction ps as [|q ps IH]; intros o Hp Ho; simpl; [by destruct Ho as [(p & Hin & _)|]; [set_solver|]|].
  apply IH; [intros p Hin; apply Hp; by right|]. unfold given. case_bool_decide as Hq.
  - right. eexists. split; [done|]. apply Hp; [left|done].
  - destruct Ho as [(p & [->|Hin]%elem_of_cons & Hs)|Ho]; [done|left; eauto|by right].
Qed.

Lemma given_untouched s o ps : (∀ p, p ∈ ps → p.(pu_sandbox_id) ≠ s) → foldl (given s) o ps = o.
Proof.
  revert o. induction ps as [|p ps IH]; intros o Hn; simpl; [done|]. rewrite IH by (intros q Hq; apply Hn; by right).
  unfold given. rewrite bool_decide_false; [done|]. apply Hn. left.
Qed.

Lemma push_latest ps v : ∃ v', push ps v = (Ok tt, v') ∧ put_queue v.(v_queue) v' = v ∧
  ∀ s, latest v' s = foldl (given s) (latest v s) ps.
Proof.
  destruct ps as [|p ps]; unfold push.
  - exists v. split; [done|]. split; [by destruct v|done].
  - eexists. run. split; [done|]. split; [by destruct v|]. intros s. unfold latest. simpl. rewrite concat_app, foldl_app. simpl. by rewrite app_nil_r.
Qed.

(** Changing the queue changes nothing that is stored. *)
Lemma queue_base q v : base v → base (put_queue q v).
Proof. intros []. by split. Qed.

(** Planning for the sandboxes whose secrets changed, and pushing, is all that a
    change takes: [v0] is the state before it. *)
Lemma plan_push_ok ids v0 v :
  latest_ok v0 → base v → v.(v_world).(w_db) = v0.(v_world).(w_db) → (∀ s, latest v s = latest v0 s) →
  (∀ s row e, s ∉ ids → v0.(v_world).(w_db).(sandboxes) !! s = Some row → live_row row → env_is e v0 s → env_is e v s) →
  ∃ v', (pushes ← plan ids; push pushes) v = (Ok tt, v') ∧ base v' ∧ latest_ok v'.
Proof.
  intros Hl Hb Hdb Hlat Hkeep. unfold Vault.plan.
  destruct (plan_from_ok (unique [] ids) v Hb) as (ps & v1 & E & Hh & H1 & H2). rewrite (bind_ok _ _ _ _ _ E).
  destruct (push_latest ps v1) as (v2 & -> & Hq & Hgiven). exists v2. split; [done|].
  pose proof (harmless_base _ _ Hb Hh) as Hb1. assert (v2 = put_queue v2.(v_queue) v1) as Ev2 by (rewrite <- Hq; by destruct v2).
  split; [rewrite Ev2; by apply queue_base|]. intros s row Hs Hr. rewrite Hgiven.
  assert (v.(v_world).(w_db).(sandboxes) !! s = Some row) as Hrow.
  { rewrite <- (ha_db _ _ Hh). rewrite Ev2 in Hs. done. }
  assert (∀ e, env_is e v s → env_is e v2 s) as Hto.
  { intros e He. rewrite Ev2. change (env_is e v1 s). apply (env_is_harmless e v v1 s Hb Hh), He. }
  assert (latest v1 s = latest v0 s) as Hl1 by (rewrite <- Hlat; unfold latest; by rewrite (ha_given _ _ Hh), (ha_queue _ _ Hh)).
  rewrite Hl1. apply given_all.
  - intros p Hp <-. apply Hto. by apply H1.
  - destruct (decide (s ∈ ids)) as [Hin|Hout]; [left|right].
    + apply (H2 s row); [apply elem_of_unique; set_solver|done|done].
    + destruct (Hl s row) as (e & He & Hi); [by rewrite <- Hdb|done|]. exists e. split; [done|]. apply Hto. by eapply Hkeep; try rewrite <- Hdb.
Qed.

(** *** Requests *)

(** What a request that raises leaves as it was, beside the tables. *)
Definition quiet_vault (v v' : Vault) : Prop :=
  v'.(v_keys).(k_cache) = v.(v_keys).(k_cache) ∧ v'.(v_keys).(k_env) = v.(v_keys).(k_env) ∧
  v'.(v_queue) = v.(v_queue) ∧ v'.(v_env) = v.(v_env).

Definition serves {A} (m : M Vault A) (v : Vault) : Prop :=
  match m v with
  | (Ok _, v') => base v' ∧ latest_ok v'
  | (Err _, v') => quiet_vault v v'
  end.

Lemma serves_session {A} (m : M Vault A) v :
  base v → latest_ok v → serves m v → base (vault_session m v).2 ∧ latest_ok (vault_session m v).2.
Proof.
  intros Hb Hl Hs. unfold serves in Hs. unfold vault_session, transaction. destruct (m v) as [[a|e] v']; [done|].
  destruct Hs as (Hc & He & Hq & Hg). simpl. unfold tables_of. assert (harmless v (restore v v')) as Hh.
  { pose proof (ba_coherent _ Hb) as Hco. unfold restore. rewrite Hc, He. destruct (v_keys v) eqn:Ek. split; simpl; rewrite ?Ek; try done; eauto using advances_refl. }
  split; [by eapply harmless_base|by eapply latest_harmless].
Qed.

Lemma serves_world {A B} (m : M World A) (k : A → M Vault B) v :
  (∀ w, (m w).2.(w_db) = w.(w_db)) → base v → latest_ok v →
  (∀ a w1, m v.(v_world) = (Ok a, w1) → w1.(w_db) = v.(v_world).(w_db) → base (put_world w1 v) → latest_ok (put_world w1 v) →
     serves (k a) (put_world w1 v)) →
  serves (on_world m ≫= k) v.
Proof.
  intros Hdb Hb Hl Hk. specialize (Hdb v.(v_world)). unfold serves, on_world, mbind, M_bind in *.
  destruct (m v.(v_world)) as [[a|e] w1]; simpl in Hdb; [|by repeat split].
  assert (harmless v (put_world w1 v)) as Hh.
  { split; simpl; try done; eauto using advances_refl, ba_coherent. }
  specialize (Hk a w1 eq_refl Hdb (harmless_base _ _ Hb Hh) (latest_harmless _ _ Hb Hh Hl)).
  by destruct (k a (put_world w1 v)) as [[b|e] v'].
Qed.

Lemma serves_guard {B} b e (k : unit → M Vault B) v : (b = true → serves (k tt) v) → serves (guard_ b e ≫= k) v.
Proof. destruct b; intros H; [by apply H|by repeat split]. Qed.

(** A statement, and a query. *)
Lemma serves_exec {B} f (k : unit → M Vault B) v :
  quiet_vault v (f (now_of v) v) → serves (k tt) (f (now_of v) v) → serves (vexec f ≫= k) v.
Proof.
  intros (H1 & H2 & H3 & H4) Hs. unfold serves, vexec in *. run. destruct (k tt _) as [[b|e] v']; [done|].
  destruct Hs as (H5 & H6 & H7 & H8). repeat split; congruence.
Qed.

Lemma serves_query {A B} (f : Vault → A) (k : A → M Vault B) v : serves (k (f v)) v → serves (vquery f ≫= k) v.
Proof. done. Qed.

Lemma serves_secret {B} id user (k : VaultSecret → M Vault B) v :
  (∀ r, v.(v_secrets) !! id = Some r → r.(vs_workspace_id) = user.(m_workspace_id) → serves (k r) v) →
  serves (secret id user ≫= k) v.
Proof.
  intros H. unfold secret, vquery, get_vault_secret, serves. run. destruct (v_secrets v !! id) as [r|]; [|by repeat split].
  run. case_bool_decide; run; [by apply H|by repeat split].
Qed.

(** Looking a sandbox up, of the caller's workspace. *)
Lemma serves_owned {B} id user (k : Sandbox → M Vault B) v :
  base v → latest_ok v →
  (∀ row, row.(sb_id) = id → v.(v_world).(w_db).(sandboxes) !! id = Some row → row.(sb_workspace_id) = user.(m_workspace_id) →
     serves (k row) v) →
  serves (on_world (owned id user) ≫= k) v.
Proof.
  intros Hb Hl Hk. apply serves_world; [intros w; by rewrite owned_world|done..|].
  intros row w1 E _ _ _. apply owned_ok in E as [-> (Hr & Hw & _)]; [|apply Hb].
  assert (put_world v.(v_world) v = v) as -> by (by destruct v). apply Hk; [by apply (ba_rows _ Hb)|done|done].
Qed.

(** The same after dropping the cached values. *)
Lemma serves_changed {B} o (k : unit → M Vault B) v :
  base v → latest_ok v → (∀ w1, base (put_world w1 v) → latest_ok (put_world w1 v) → w1.(w_db) = v.(v_world).(w_db) → serves (k tt) (put_world w1 v)) →
  serves (on_world (secrets_changed o) ≫= k) v.
Proof. intros Hb Hl Hk. apply serves_world; [done..|]. intros [] w1 _ Hdb Hb1 Hl1. auto. Qed.

(** A change of tables, then the plan and the push, then an answer. *)
Lemma serves_plan {B} ids v0 v (k : M Vault B) :
  (∀ v', ∃ r, k v' = (Ok r, v')) →
  latest_ok v0 → base v → v.(v_world).(w_db) = v0.(v_world).(w_db) → (∀ s, latest v s = latest v0 s) →
  (∀ s row e, s ∉ ids → v0.(v_world).(w_db).(sandboxes) !! s = Some row → live_row row → env_is e v0 s → env_is e v s) →
  serves (pushes ← plan ids; push pushes ;; k) v.
Proof.
  intros Hk Hl Hb Hdb Hlat Hkeep. destruct (plan_push_ok ids v0 v Hl Hb Hdb Hlat Hkeep) as (v' & E & Hb' & Hl').
  unfold serves. rewrite <- (run_bind_assoc (plan ids) push (λ _, k)), (bind_ok _ _ _ _ _ E).
  destruct (Hk v') as [r ->]. done.
Qed.

(** Who has which secrets does not change when neither the rows of its own nor
    those attached to it do. *)
Lemma env_is_ext e v v' s :
  v'.(v_keys) = v.(v_keys) →
  (∀ n x, own_has (plain v.(v_keys)) v' s n x ↔ own_has (plain v.(v_keys)) v s n x) →
  (∀ n x, vault_has (plain v.(v_keys)) v' s n x ↔ vault_has (plain v.(v_keys)) v s n x) →
  env_is e v s → env_is e v' s.
Proof.
  intros Hk Ho Hv He n x. rewrite (He n x), Hk. unfold has_secret. setoid_rewrite Ho. by rewrite Hv.
Qed.

(** *** Encrypting *)
Lemma cache_key_err id row k e k' : cache_key ciphers id row k = (Err e, k') → k' = k.
Proof.
  unfold cache_key, get, mbind, M_bind, lift. destruct (k_cache k !! id); [done|]. destruct (unwrap _ _ _); intros [=]. done.
Qed.

(** A key that cannot be had is not cached; one that can is the row's. *)
Lemma data_key_cases scope id fresh k :
  match data_key ciphers scope id fresh k with
  | (Ok p, k') => (p.1 = id ∨ is_Some (k.(k_rows) !! p.1)) ∧
      ∀ i row, k'.(k_rows) !! i = Some row → is_Some (k.(k_rows) !! i) ∨ i = id
  | (Err _, k') => k'.(k_cache) = k.(k_cache) ∧ k'.(k_env) = k.(k_env)
  end.
Proof.
  unfold data_key. rewrite (bind_ok get _ k k k eq_refl). destruct (by_scope scope k.(k_rows)) as [[i row]|] eqn:Eb.
  - apply by_scope_Some in Eb. pose proof (cache_key_rows i row k) as Hr. pose proof (cache_key_err i row k) as He.
    unfold mbind, M_bind. destruct (cache_key ciphers i row k) as [[x|e] k']; simpl in *; [|by rewrite (He e k')].
    rewrite Hr. split; [right; by eexists|]. intros j r Hj. left. by eexists.
  - destruct (wrap _ _ _) as [w|e]; simpl lift; run; [|done]. destruct (k.(k_rows) !! id) eqn:Ei; simpl is_none; run; [done|].
    set (k1 := mkKeys _ _ _). pose proof (cache_key_rows id (mkSecretKey scope w) k1) as Hr.
    pose proof (cache_key_err id (mkSecretKey scope w) k1) as He. unfold mbind, M_bind.
    destruct (cache_key ciphers id _ k1) as [[x|e] k']; simpl in *; [|by rewrite (He e k')].
    split; [by left|]. rewrite Hr. intros i r. simpl. rewrite lookup_insert. case_decide; [by right|]. intros Hj. left. by eexists.
Qed.

Lemma encrypt_cases value scope dr v :
  base v → has_char ":"%char dr.(dr_key_id) = false →
  match encrypt ciphers seal value scope dr v with
  | (Ok t, v') => harmless v v' ∧ v' = put_keys v'.(v_keys) v ∧ stored v'.(v_keys) t
  | (Err _, v') => quiet_vault v v'
  end.
Proof.
  intros Hb Hd. unfold encrypt, on_keys, encrypt_bytes.
  pose proof (data_key_spec ciphers scope dr.(dr_key_id) dr.(dr_fresh) v.(v_keys) (ba_coherent _ Hb) (ba_env _ Hb)) as Hs.
  pose proof (data_key_cases scope dr.(dr_key_id) dr.(dr_fresh) v.(v_keys)) as Hc.
  unfold mbind, M_bind. destruct (data_key _ _ _ _ _) as [[[i key]|e] k'].
  - destruct Hs as [Ha Hk], Hc as [Hi Hrows]. simpl in *. split.
    + split; simpl; try done. intros j row Hj. destruct (Hrows j row Hj) as [?| ->]; auto.
    + split; [done|]. exists i, key, dr.(dr_iv), value. split_and!; [done| |done].
      destruct Hi as [->|[row Hrow]]; [done|by eapply (ba_ids _ Hb)].
  - destruct Hc as [H1 H2]. by repeat split.
Qed.

(** *** The routes *)

(** Only the rows of one sandbox changed, or of no one. *)
Lemma attach_base v s id row r :
  base v → v.(v_world).(w_db).(sandboxes) !! s = Some row → v.(v_secrets) !! id = Some r →
  r.(vs_workspace_id) = row.(sb_workspace_id) → base (attach_vault_secret s id v).
Proof.
  intros Hb Hs Hr Hw. unfold attach_vault_secret. destruct (v_grants v !! (s, id)) as [t|] eqn:E; [done|].
  pose proof (ba_within _ Hb) as Hwithin. destruct Hb. split; try done. intros s' id'. simpl. rewrite lookup_insert. case_decide as Hk.
  - intros _. simplify_eq. by exists row, r.
  - apply Hwithin.
Qed.

Lemma fewer_grants_base v g : base v → (∀ k, is_Some (g !! k) → is_Some (v.(v_grants) !! k)) → base (put_grants g v).
Proof. intros Hb Hg. pose proof (ba_within _ Hb) as Hw. destruct Hb. split; try done. intros s id H. apply Hw. by apply Hg. Qed.

Lemma other_grants e v g s :
  (∀ id, is_Some (g !! (s, id)) ↔ is_Some (v.(v_grants) !! (s, id))) → env_is e v s → env_is e (put_grants g v) s.
Proof.
  intros Hg. apply env_is_ext; [done|done|]. intros n x. unfold vault_has. simpl. setoid_rewrite Hg. done.
Qed.

Lemma audit_base v a : base v → base (put_audit a v).
Proof. intros []. by split. Qed.

Lemma attach_grants v s id s' id' :
  is_Some ((attach_vault_secret s id v).(v_grants) !! (s', id')) ↔ (s', id') = (s, id) ∨ is_Some (v.(v_grants) !! (s', id')).
Proof.
  unfold attach_vault_secret. destruct (v_grants v !! (s, id)) as [t|] eqn:E.
  - split; [by right|]. intros [[= -> ->]|H]; [by eexists|done].
  - simpl. rewrite lookup_insert. case_decide as Hd; [split; [intros _; left; congruence|eauto]|]. split; [by right|].
    intros [[= -> ->]|H]; done.
Qed.

Lemma attach_ok sid id user v :
  base v → latest_ok v →
  base (attach_secret ciphers open_ sid id user v).2 ∧ latest_ok (attach_secret ciphers open_ sid id user v).2.
Proof.
  intros Hb Hl. apply serves_session; [done..|]. apply serves_changed; [done..|]. intros w1 Hb1 Hl1 _.
  apply serves_owned; [done..|]. intros row Hid Hrow Hw. apply serves_secret. intros r Hr Hwr. do 2 (apply serves_exec; [repeat split; unfold attach_vault_secret; by case_match|]).
  rewrite Hid. apply (serves_plan _ (put_world w1 v)); [intros; by eexists|done| |unfold attach_vault_secret; by case_match..|].
  - apply audit_base. eapply attach_base; [done..|]. simpl in *. congruence.
  - intros s row' e Hs _ _ He.
    assert (∀ i, is_Some ((attach_vault_secret sid id (put_world w1 v)).(v_grants) !! (s, i)) ↔ is_Some (v.(v_grants) !! (s, i))) as Hg.
    { intros i. rewrite attach_grants. split; [intros [[= -> ->]|H]; [set_solver|done]|by right]. }
    revert He. apply env_is_ext; [unfold attach_vault_secret; by case_match|intros n x; unfold attach_vault_secret; by case_match|].
    intros n x. unfold vault_has. cbn [v_grants put_audit]. setoid_rewrite Hg. unfold attach_vault_secret. by case_match.
Qed.

Lemma detach_ok sid id user v :
  base v → latest_ok v →
  base (detach_secret ciphers open_ sid id user v).2 ∧ latest_ok (detach_secret ciphers open_ sid id user v).2.
Proof.
  intros Hb Hl. apply serves_session; [done..|]. apply serves_changed; [done..|]. intros w1 Hb1 Hl1 _.
  apply serves_owned; [done..|]. intros row Hid Hrow Hw. apply serves_secret. intros r Hr Hwr. do 2 (apply serves_exec; [repeat split; unfold attach_vault_secret; by case_match|]).
  rewrite Hid. apply (serves_plan _ (put_world w1 v)); [intros; by eexists|done| |done..|].
  - apply audit_base, fewer_grants_base; [done|]. intros k. simpl. rewrite lookup_delete. by case_decide.
  - intros s row' e Hs _ _ He. apply (other_grants e (put_world w1 v)); [|done]. intros i. simpl.
    rewrite lookup_delete_ne; [done|]. set_solver.
Qed.

(** A change of tables that leaves to each sandbox what it has, and keeps the
    queue. *)
Lemma latest_kept v v' :
  latest_ok v → v'.(v_world).(w_db) = v.(v_world).(w_db) → v'.(v_queue) = v.(v_queue) → v'.(v_env) = v.(v_env) →
  (∀ s e, env_is e v s → env_is e v' s) → latest_ok v'.
Proof.
  intros Hl Hdb Hq He Hi s row. rewrite Hdb. intros Hs Hr. destruct (Hl s row Hs Hr) as (e & H1 & H2). exists e.
  split; [unfold latest; by rewrite Hq, He|by apply Hi].
Qed.

Definition succeeds {A} (m : M Vault A) (v : Vault) : Prop := ∃ r v', m v = (Ok r, v') ∧ base v' ∧ latest_ok v'.

Lemma succeeds_serves {A} (m : M Vault A) v : succeeds m v → serves m v.
Proof. intros (r & v' & E & H). unfold serves. by rewrite E. Qed.

Lemma serves_then {A B} (m : M Vault A) (k : A → M Vault B) v :
  serves m v → (∀ a v1, base v1 → latest_ok v1 → succeeds (k a) v1) → serves (m ≫= k) v.
Proof.
  intros Hm Hk. unfold serves, mbind, M_bind in *. destruct (m v) as [[a|e] v1]; [|done].
  destruct (Hk a v1) as (r & v' & -> & H); [by destruct Hm..|done].
Qed.

Lemma succeeds_exec {B} f (k : unit → M Vault B) v : succeeds (k tt) (f (now_of v) v) → succeeds (vexec f ≫= k) v.
Proof. done. Qed.
Lemma succeeds_query {A B} (f : Vault → A) (k : A → M Vault B) v : succeeds (k (f v)) v → succeeds (vquery f ≫= k) v.
Proof. done. Qed.
Lemma succeeds_answer {A} (f : Vault → A) v : base v → latest_ok v → succeeds (vquery f) v.
Proof. intros Hb Hl. by exists (f v), v. Qed.

(** A harmless statement. *)
Lemma succeeds_harmless {B} f (k : unit → M Vault B) v :
  base v → latest_ok v → harmless v (f (now_of v) v) → (∀ v1, base v1 → latest_ok v1 → succeeds (k tt) v1) →
  succeeds (vexec f ≫= k) v.
Proof. intros Hb Hl Hh Hk. apply succeeds_exec, Hk; [by eapply harmless_base|by eapply latest_harmless]. Qed.

Lemma succeeds_plan {B} ids v0 v (k : M Vault B) :
  (∀ v', ∃ r, k v' = (Ok r, v')) →
  latest_ok v0 → base v → v.(v_world).(w_db) = v0.(v_world).(w_db) → (∀ s, latest v s = latest v0 s) →
  (∀ s row e, s ∉ ids → v0.(v_world).(w_db).(sandboxes) !! s = Some row → live_row row → env_is e v0 s → env_is e v s) →
  succeeds (pushes ← plan ids; push pushes ;; k) v.
Proof.
  intros Hk Hl Hb Hdb Hlat Hkeep. destruct (plan_push_ok ids v0 v Hl Hb Hdb Hlat Hkeep) as (v' & E & Hb' & Hl').
  unfold succeeds. rewrite <- (run_bind_assoc (plan ids) push (λ _, k)), (bind_ok _ _ _ _ _ E).
  destruct (Hk v') as [r ->]. eauto.
Qed.

Lemma serves_encrypt {B} value scope dr (k : string → M Vault B) v :
  base v → has_char ":"%char dr.(dr_key_id) = false →
  (∀ t v1, harmless v v1 → v1 = put_keys v1.(v_keys) v → stored v1.(v_keys) t → base v1 → succeeds (k t) v1) →
  serves (encrypt ciphers seal value scope dr ≫= k) v.
Proof.
  intros Hb Hd Hk. pose proof (encrypt_cases value scope dr v Hb Hd) as H. unfold serves, mbind, M_bind.
  destruct (encrypt _ _ _ _ _ v) as [[t|e] v1]; [|done]. destruct H as (H1 & H2 & H3).
  destruct (Hk t v1 H1 H2 H3 (harmless_base _ _ Hb H1)) as (r & v' & -> & Hv). done.
Qed.

Lemma elem_of_users id v s row :
  v.(v_world).(w_db).(sandboxes) !! s = Some row → live_row row →
  s ∈ users_of id v ↔ is_Some (v.(v_grants) !! (s, id)).
Proof.
  intros Hs [Hr _]. unfold users_of, list_vault_secret_sandboxes. rewrite list_elem_of_fmap. split.
  - intros ([[s' i] t] & -> & [[Hi _] H%elem_of_map_to_list]%list_elem_of_filter). simpl in *. subst. by eexists.
  - intros [t Ht]. exists (s, id, t). split; [done|]. apply list_elem_of_filter. simpl. unfold alive. rewrite Hs, Hr.
    split; [done|]. by apply elem_of_map_to_list.
Qed.

Lemma no_name_in v ws name : get_vault_secret_by_name ws name v = None →
  ∀ i r, v.(v_secrets) !! i = Some r → r.(vs_workspace_id) = ws → r.(vs_name) = name → False.
Proof.
  unfold get_vault_secret_by_name. intros H%head_None i r Hr Hw Hn.
  assert ((i, r) ∈ filter (λ p : string * VaultSecret, p.2.(vs_workspace_id) = ws ∧ p.2.(vs_name) = name) (map_to_list v.(v_secrets))) as Hin.
  { apply list_elem_of_filter. split; [done|]. by apply elem_of_map_to_list. }
  rewrite H in Hin. set_solver.
Qed.

Lemma no_own_name v s name : get_sandbox_secret_by_name s name v = None →
  ∀ i r, v.(v_own) !! i = Some r → r.(ss_sandbox_id) = s → r.(ss_name) = name → False.
Proof.
  unfold get_sandbox_secret_by_name. intros H%head_None i r Hr Hw Hn.
  assert ((i, r) ∈ filter (λ p : string * SandboxSecret, p.2.(ss_sandbox_id) = s ∧ p.2.(ss_name) = name) (map_to_list v.(v_own))) as Hin.
  { apply list_elem_of_filter. split; [done|]. by apply elem_of_map_to_list. }
  rewrite H in Hin. set_solver.
Qed.

Lemma delete_ok id user v :
  base v → latest_ok v →
  base (delete_secret ciphers open_ id user v).2 ∧ latest_ok (delete_secret ciphers open_ id user v).2.
Proof.
  intros Hb Hl. apply serves_session; [done..|]. apply serves_changed; [done..|]. intros w1 Hb1 Hl1 Hdb.
  apply serves_secret. intros r Hr Hw. apply serves_query. do 3 (apply serves_exec; [by repeat split|]).
  apply (serves_plan _ (put_world w1 v)); [intros; by eexists|done| |done..|].
  - apply audit_base. pose proof (ba_within _ Hb1) as Hwithin. destruct Hb1. split; try done.
    + intros i r'. simpl. rewrite lookup_delete. case_decide; [done|]. apply ba_secrets0.
    + intros i j r1 r2. simpl. rewrite !lookup_delete. do 2 (case_decide; [done|]). apply ba_names0.
    + intros s i. simpl. intros [t [[Ht _]%map_lookup_filter_Some Hi]%map_lookup_filter_Some]. simpl in Hi.
      destruct (Hwithin s i) as (row & r' & H1 & H2 & H3); [by eexists|]. exists row, r'. split_and!; [done| |done].
      by rewrite lookup_delete_ne.
  - intros s row e Hs Hrow Hlive He. rewrite (elem_of_users id (put_world w1 v) s row) in Hs by done.
    revert He. apply env_is_ext; [done..|]. intros n x. unfold vault_has. simpl. split.
    + intros (i & r' & [t [[Ht _]%map_lookup_filter_Some _]%map_lookup_filter_Some] & H2 & H3). apply lookup_delete_Some in H2 as [_ H2].
      exists i, r'. split; [by eexists|done].
    + intros (i & r' & [t Ht] & H2 & H3). assert (i ≠ id) by (intros ->; apply Hs; by eexists).
      exists i, r'. split; [exists t; by rewrite !map_lookup_filter_Some|]. by rewrite lookup_delete_ne.
Qed.

Lemma create_secret_base v id r :
  base v → v.(v_secrets) !! id = None → get_vault_secret_by_name r.(vs_workspace_id) r.(vs_name) v = None →
  stored v.(v_keys) r.(vs_ciphertext) → base (put_vault (<[id := r]> v.(v_secrets)) v).
Proof.
  intros Hb Hid Hn Hs. pose proof (no_name_in _ _ _ Hn) as Hno. pose proof (ba_within _ Hb) as Hwithin. destruct Hb. split; try done.
  - intros i r'. simpl. rewrite lookup_insert. case_decide; [by intros [= <-]|]. apply ba_secrets0.
  - intros i j r1 r2. simpl. rewrite !lookup_insert. repeat case_decide; subst; try done.
    + intros [= <-] Hj Hw Hnm. exfalso. by eapply Hno.
    + intros Hj [= <-] Hw Hnm. exfalso. by eapply Hno.
    + apply ba_names0.
  - intros s i Hg. simpl. destruct (Hwithin s i Hg) as (row & r' & H1 & H2 & H3). exists row, r'. split_and!; [done| |done].
    rewrite lookup_insert_ne; [done|]. congruence.
Qed.

Lemma create_secret_ok payload user dr v :
  base v → latest_ok v → has_char ":"%char dr.(dr_key_id) = false → v.(v_secrets) !! dr.(dr_id) = None →
  base (create_secret ciphers seal payload user dr v).2 ∧ latest_ok (create_secret ciphers seal payload user dr v).2.
Proof.
  intros Hb Hl Hd Hid. apply serves_session; [done..|]. apply serves_query. apply serves_guard. intros Hn.
  apply serves_encrypt; [done..|]. intros t v1 Hh Ev1 Hst Hb1. apply succeeds_query.
  set (r := mkVaultSecret _ _ _ _ _ _ _ _ _ _ _). set (v2 := put_vault (<[dr.(dr_id) := r]> v1.(v_secrets)) v1).
  assert (base v2) as Hb2.
  { apply create_secret_base; [done|by rewrite Ev1| |done]. rewrite Ev1. unfold get_vault_secret_by_name in *. simpl. by destruct (head _). }
  assert (latest_ok v2) as Hl2.
  { apply (latest_kept v1); [by apply (latest_harmless v)|done..|]. intros s e. apply env_is_ext; [done..|]. intros n x. unfold vault_has. simpl.
    assert (∀ s, is_Some (v1.(v_grants) !! (s, dr.(dr_id))) → False) as Hno.
    { intros s' Hg. destruct (ba_within _ Hb1 s' _ Hg) as (? & r' & _ & Hr & _). rewrite Ev1 in Hr. simpl in Hr. congruence. }
    split; intros (i & r' & H1 & H2 & H3); exists i, r'; (split; [done|]; split; [|done]);
      (destruct (decide (i = dr.(dr_id))) as [->|Hi]; [by exfalso; eapply Hno|]).
    - by rewrite lookup_insert_ne in H2.
    - by rewrite lookup_insert_ne. }
  assert (create_vault_secret dr.(dr_id) r v1 = (Ok tt, v2)) as E.
  { unfold create_vault_secret. rewrite (bind_ok get _ v1 v1 v1) by done. rewrite Ev1 at 1. simpl. rewrite Hid.
    assert (get_vault_secret_by_name user.(m_workspace_id) payload.(vq_name) v1 = get_vault_secret_by_name user.(m_workspace_id) payload.(vq_name) v)
      as -> by (by rewrite Ev1). destruct (get_vault_secret_by_name _ _ v); [done|]. by run. }
  unfold succeeds. rewrite (bind_ok _ _ _ _ _ E). change (succeeds
    (when (negb (is_none payload.(vq_expires_at)) || negb (is_none payload.(vq_rotate_every_days)))
      (vexec (λ now, set_vault_secret_schedule now payload.(vq_expires_at) payload.(vq_rotate_every_days) dr.(dr_id)));;
     audit user "secret.create" "secret" dr.(dr_id) None [("name", JStr payload.(vq_name))];;
     vquery (secrets_response user)) v2).
  assert (∀ v3, base v3 → latest_ok v3 → succeeds (audit user "secret.create" "secret" dr.(dr_id) None [("name", JStr payload.(vq_name))];;
     vquery (secrets_response user)) v3) as Hend.
  { intros v3 Hb3 Hl3. apply succeeds_harmless; [done..|apply harmless_audit, Hb3|]. intros v4 Hb4 Hl4. by apply succeeds_answer. }
  destruct (negb _ || negb _); [|by apply Hend]. apply succeeds_harmless; [done..| |done].
  apply harmless_upd; [apply Hb2|done].
Qed.

Lemma alter_back f id (m : gmap string VaultSecret) i r :
  (∀ r, (f r).(vs_workspace_id) = r.(vs_workspace_id) ∧ (f r).(vs_name) = r.(vs_name)) → alter f id m !! i = Some r →
  ∃ r0, m !! i = Some r0 ∧ r0.(vs_workspace_id) = r.(vs_workspace_id) ∧ r0.(vs_name) = r.(vs_name).
Proof.
  intros Hf. rewrite lookup_alter. case_decide; [|eauto]. subst. destruct (m !! i) as [r0|]; [|done]. intros [= <-].
  destruct (Hf r0). eauto.
Qed.

Lemma update_value_ok id value user dr v :
  base v → latest_ok v → has_char ":"%char dr.(dr_key_id) = false →
  ∀ s, serves (ciphertext ← encrypt ciphers seal value user.(m_workspace_id) dr;
    vexec (λ now, update_vault_secret_value now ciphertext id);;
    audit user "secret.rotate" "secret" id None [("name", JStr s)];;
    users ← vquery (users_of id);
    pushes ← plan users;
    push pushes) v.
Proof.
  intros Hb Hl Hd nm. apply serves_encrypt; [done..|]. intros t v1 Hh Ev1 Hst Hb1. pose proof (latest_harmless _ _ Hb Hh Hl) as Hl1.
  do 2 apply succeeds_exec. apply succeeds_query. set (v2 := put_audit _ _).
  destruct (plan_push_ok (users_of id v2) v1 v2) as (v' & E & H); [done| |done..| |].
  - apply audit_base. pose proof (ba_within _ Hb1) as Hwithin. destruct Hb1. split; try done.
    + intros i r. simpl. rewrite lookup_alter. case_decide; [|apply ba_secrets0].
      subst. destruct (v_secrets v1 !! i); [|done]. by intros [= <-].
    + intros i j r1 r2. simpl. intros (r3 & H3 & E3 & F3)%alter_back (r4 & H4 & E4 & F4)%alter_back Hw Hn; [|done..].
      by eapply (ba_names0 i j r3 r4); congruence.
    + intros s i Hg. destruct (Hwithin s i Hg) as (row & r & H1 & H2 & H3). simpl. rewrite lookup_alter. case_decide; [|eauto].
      subst. rewrite H2. by eexists row, _.
  - intros s row e Hs Hrow Hlive. rewrite (elem_of_users id v2 s row) in Hs by done. apply env_is_ext; [done..|].
    intros n x. unfold vault_has. simpl. split; intros (i & r & H1 & H2 & H3); exists i, r; (split; [done|]; split; [|done]);
      (assert (i ≠ id) by (intros ->; by apply Hs)).
    + by rewrite lookup_alter_ne in H2.
    + by rewrite lookup_alter_ne.
  - unfold succeeds. exists tt, v'. split; [done|]. done.
Qed.

Lemma update_ok stamp id payload user dr v :
  base v → latest_ok v → has_char ":"%char dr.(dr_key_id) = false →
  base (update_secret ciphers seal open_ stamp id payload user dr v).2 ∧
  latest_ok (update_secret ciphers seal open_ stamp id payload user dr v).2.
Proof.
  intros Hb Hl Hd. apply serves_session; [done..|]. apply serves_changed; [done..|]. intros w1 Hb1 Hl1 _.
  apply serves_secret. intros r Hr Hw. apply serves_then.
  { destruct (vu_value payload); [by apply update_value_ok|]. by apply succeeds_serves; eexists _, _. }
  intros [] v2 Hb2 Hl2.
  assert (∀ v3, base v3 → latest_ok v3 → succeeds (when (negb (is_none payload.(vu_expires_at)) || negb (is_none payload.(vu_rotate_every_days))) (
      vexec (λ now, set_vault_secret_schedule now (default r.(vs_expires_at) payload.(vu_expires_at)) (default r.(vs_rotate_every_days) payload.(vu_rotate_every_days)) id);;
      audit user "secret.schedule" "secret" id None
        [("name", JStr r.(vs_name)); ("expires_at", match default r.(vs_expires_at) payload.(vu_expires_at) with Some t => JStr (stamp t) | None => JNull end);
         ("rotate_every_days", match default r.(vs_rotate_every_days) payload.(vu_rotate_every_days) with Some n => JInt n | None => JNull end)]);;
    vquery (secrets_response user)) v3) as Hend.
  { intros v3 Hb3 Hl3. destruct (negb _ || negb _); [|by apply succeeds_answer]. unfold when, succeeds. rewrite run_bind_assoc.
    apply (succeeds_harmless _ _ v3); [done..|apply harmless_upd; [apply Hb3|done]|]. intros v4 Hb4 Hl4.
    apply (succeeds_harmless _ _ v4); [done..|apply harmless_audit, Hb4|]. intros v5 Hb5 Hl5. by apply succeeds_answer. }
  destruct (vu_description payload) as [text|]; [|by apply Hend]. unfold succeeds. rewrite run_bind_assoc.
  apply (succeeds_harmless _ _ v2); [done..|apply harmless_upd; [apply Hb2|done]|]. intros v4 Hb4 Hl4.
  apply (succeeds_harmless _ _ v4); [done..|apply harmless_audit, Hb4|]. intros v5 Hb5 Hl5. by apply Hend.
Qed.

(** Own secrets of one sandbox leave the others as they are. *)
Lemma other_own e v o s :
  (∀ i r, r.(ss_sandbox_id) = s → o !! i = Some r ↔ v.(v_own) !! i = Some r) → env_is e v s → env_is e (put_own o v) s.
Proof.
  intros Ho. apply env_is_ext; [done| |done]. intros n x. unfold own_has. simpl.
  split; intros (i & r & H1 & H2 & H3); exists i, r; (split; [by apply Ho|done]).
Qed.

Lemma fewer_own_base v id : base v → base (delete_sandbox_secret id v).
Proof.
  intros []. split; try done.
  - intros i r. simpl. rewrite lookup_delete. case_decide; [done|]. apply ba_own0.
  - intros i j r r'. simpl. rewrite !lookup_delete. do 2 (case_decide; [done|]). apply ba_own_names0.
Qed.

Lemma more_own_base v id r :
  base v → get_sandbox_secret_by_name r.(ss_sandbox_id) r.(ss_name) v = None → stored v.(v_keys) r.(ss_secret_ref) →
  base (put_own (<[id := r]> v.(v_own)) v).
Proof.
  intros Hb Hn Hs. pose proof (no_own_name _ _ _ Hn) as Hno. destruct Hb. split; try done.
  - intros i r'. simpl. rewrite lookup_insert. case_decide; [by intros [= <-]|]. apply ba_own0.
  - intros i j r1 r2. simpl. rewrite !lookup_insert. repeat case_decide; subst; try done.
    + intros [= <-] Hj Hw Hnm. exfalso. by eapply Hno.
    + intros Hj [= <-] Hw Hnm. exfalso. by eapply Hno.
    + apply ba_own_names0.
Qed.

(** After deleting the one of a name, the sandbox has none of it. *)
Lemma name_deleted v s name id r :
  base v → get_sandbox_secret_by_name s name v = Some (id, r) →
  get_sandbox_secret_by_name s name (delete_sandbox_secret id v) = None.
Proof.
  intros Hb. unfold get_sandbox_secret_by_name. intros H%head_Some_elem_of.
  apply list_elem_of_filter in H as [[H1 H2] H3%elem_of_map_to_list]. simpl in *. apply head_None. apply filter_none.
  apply Forall_forall. intros [j r'] Hj%elem_of_map_to_list [H4 H5]. apply lookup_delete_Some in Hj as [Hne Hj]. simpl in *.
  apply Hne. eapply (ba_own_names _ Hb); try done; congruence.
Qed.

(** The new row in place, [v0] being the state before the request. *)
Lemma set_own_tail sid name value ws dr v0 v (k : M Vault (list (string * string * bool * time))) :
  (∀ v', ∃ r, k v' = (Ok r, v')) →
  latest_ok v0 → base v → v.(v_world).(w_db) = v0.(v_world).(w_db) → (∀ s, latest v s = latest v0 s) →
  (∀ s e, s ≠ sid → env_is e v0 s → env_is e v s) →
  has_char ":"%char dr.(dr_key_id) = false → v.(v_own) !! dr.(dr_id) = None → get_sandbox_secret_by_name sid name v = None →
  serves (secret_ref ← encrypt ciphers seal value ws dr;
    now ← vquery now_of;
    create_sandbox_secret dr.(dr_id) (mkSandboxSecret sid name secret_ref true now);;
    pushes ← plan [sid];
    push pushes;;
    k) v.
Proof.
  intros Hk Hl Hb Hdb Hlat Hkeep Hd Hid Hn. apply serves_encrypt; [done..|]. intros t v1 Hh Ev1 Hst Hb1. apply succeeds_query.
  set (r := mkSandboxSecret _ _ _ _ _). set (v2 := put_own (<[dr.(dr_id) := r]> v1.(v_own)) v1).
  assert (get_sandbox_secret_by_name sid name v1 = None) as Hn1 by (by rewrite Ev1).
  assert (create_sandbox_secret dr.(dr_id) r v1 = (Ok tt, v2)) as E.
  { unfold create_sandbox_secret. rewrite (bind_ok get _ v1 v1 v1) by done. simpl ss_sandbox_id. simpl ss_name. rewrite Hn1.
    rewrite Ev1 at 1. simpl. rewrite Hid. by run. }
  unfold succeeds. rewrite (bind_ok _ _ _ _ _ E). apply (succeeds_plan [sid] v0 v2); [done|done|by apply more_own_base| | |].
  - simpl. by rewrite (ha_db _ _ Hh).
  - intros s. rewrite <- Hlat. unfold latest. simpl. by rewrite (ha_given _ _ Hh), (ha_queue _ _ Hh).
  - intros s row e Hs _ _ He. apply other_own.
    + intros i r' Hr'. rewrite lookup_insert. case_decide as Hi; [|done]. split; [intros [= <-]; simpl in Hr'; set_solver|].
      subst. rewrite (ha_own _ _ Hh). congruence.
    + apply (env_is_harmless e v v1 s Hb Hh). apply Hkeep; [set_solver|done].
Qed.

Lemma set_own_ok sid name value user dr v :
  base v → latest_ok v → has_char ":"%char dr.(dr_key_id) = false → v.(v_own) !! dr.(dr_id) = None →
  base (set_own_secret ciphers seal open_ sid name value user dr v).2 ∧
  latest_ok (set_own_secret ciphers seal open_ sid name value user dr v).2.
Proof.
  intros Hb Hl Hd Hid. apply serves_session; [done..|]. apply serves_changed; [done..|]. intros w1 Hb1 Hl1 _.
  apply serves_owned; [done..|]. intros row Hrid Hrow Hw. rewrite Hrid. apply serves_query.
  destruct (get_sandbox_secret_by_name sid name (put_world w1 v)) as [[id r]|] eqn:En.
  - apply serves_exec; [by repeat split|].
    apply (set_own_tail sid name value _ dr (put_world w1 v)); try done.
    + intros; by eexists.
    + by apply fewer_own_base.
    + intros s e Hs. apply other_own. intros i r' Hr'. rewrite lookup_delete. case_decide as Hi; [|done]. split; [done|].
      intros Hir. subst. apply head_Some_elem_of, list_elem_of_filter in En as [[H1 H2] H3%elem_of_map_to_list]. simpl in *. congruence.
    + simpl. rewrite lookup_delete. by case_decide.
    + by eapply name_deleted.
  - apply (set_own_tail sid name value _ dr (put_world w1 v)); try done. intros; by eexists.
Qed.

Lemma delete_own_ok sid id user v :
  base v → latest_ok v →
  base (delete_own_secret ciphers open_ sid id user v).2 ∧ latest_ok (delete_own_secret ciphers open_ sid id user v).2.
Proof.
  intros Hb Hl. apply serves_session; [done..|]. apply serves_changed; [done..|]. intros w1 Hb1 Hl1 _.
  apply serves_owned; [done..|]. intros row Hrid Hrow Hw. rewrite Hrid. apply serves_query. unfold get_sandbox_secret.
  destruct (v_own (put_world w1 v) !! id) as [s0|] eqn:Es; [|by repeat split]. apply serves_guard. intros H0%bool_decide_eq_true.
  apply serves_exec; [by repeat split|]. apply (serves_plan _ (put_world w1 v)); [intros; by eexists|done|by apply fewer_own_base|done|done|].
  intros s row' e Hs _ _. apply other_own. intros i r' Hr'. rewrite lookup_delete. case_decide as Hi; [|done]. split; [done|].
  intros Hir. subst. rewrite Hir in Es. simplify_eq. set_solver.
Qed.

(** *** Delivering *)

(** Every runtime takes what it is given. *)
Context (reached : ∀ p, reach p = Ok tt).

Lemma push_now_ok ps v :
  base v →
  ∃ v', push_now reach ps v = (Ok [], v') ∧ base v' ∧ v'.(v_world).(w_db) = v.(v_world).(w_db) ∧ v'.(v_queue) = v.(v_queue) ∧
    (∀ e s, env_is e v s → env_is e v' s) ∧ ∀ s, v'.(v_env) !! s = foldl (given s) (v.(v_env) !! s) ps.
Proof.
  revert v. induction ps as [|p ps IH]; intros v Hb; [by exists v|]. simpl.
  set (w1 := put_secrets v.(v_world).(w_booted) (delete p.(pu_sandbox_id) v.(v_world).(w_attached)) v.(v_world)).
  assert (∃ v1, (on_world (secrets_changed (Some p.(pu_sandbox_id))) ;; try_ (deliver reach p;; mret []) (λ _, mret [p.(pu_sandbox_id)])) v = (Ok [], v1) ∧
    v1 = put_env (<[p.(pu_sandbox_id) := p.(pu_values)]> v.(v_env)) (put_world w1 v)) as (v1 & E & Ev1).
  { eexists. unfold try_, deliver. rewrite reached. done. }
  rewrite <- run_bind_assoc, (bind_ok _ _ _ _ _ E).
  assert (base v1) as Hb1 by (rewrite Ev1; destruct Hb; by split). destruct (IH v1 Hb1) as (v' & E' & H1 & H2 & H3 & H4 & H5).
  exists v'. rewrite (bind_ok _ _ _ _ _ E'). split; [done|]. split; [done|]. rewrite H2, H3, Ev1. split; [done|]. split; [done|]. split.
  - intros e s He. apply H4. rewrite Ev1. exact He.
  - intros s. rewrite H5, Ev1. simpl. f_equal. unfold given. rewrite lookup_insert. by repeat (case_decide || case_bool_decide).
Qed.

Lemma drain_ok v :
  base v → latest_ok v → base (drain_one reach v).2 ∧ latest_ok (drain_one reach v).2.
Proof.
  intros Hb Hl. unfold drain_one. rewrite (bind_ok get _ v v v) by done. destruct (v_queue v) as [|ps rest] eqn:Eq; [done|]. run.
  destruct (push_now_ok ps (put_queue rest v) (queue_base rest v Hb)) as (v' & -> & Hb' & Hdb & Hq & Hi & Hg). simpl. split; [done|].
  intros s row Hs Hr. rewrite Hdb in Hs. destruct (Hl s row Hs Hr) as (e & He & Hie). exists e. split; [|by apply Hi].
  unfold latest in *. rewrite Hq, Hg. simpl. rewrite Eq in He. simpl in He. by rewrite foldl_app in He.
Qed.

Lemma remind_ok v : base v → latest_ok v → base (remind v).2 ∧ latest_ok (remind v).2.
Proof.
  intros Hb Hl. assert (∃ r, (remind v).2 = put_reminded r v) as [r ->].
  { unfold remind. assert (∀ lg l v0, (∃ r, v0 = put_reminded r v) → ∃ r, (foldl (λ '(logged, v) p,
      let '(st, due_at) := status_of p.2 (now_of v) in
      if bool_decide (st = SOk) then (logged, put_reminded (delete p.1 v.(v_reminded)) v)
      else if bool_decide (v.(v_reminded) !! p.1 = Some (secret_status_name st)) then (logged, v)
      else (logged ++ [(p.1, st, due_at)], put_reminded (<[p.1 := secret_status_name st]> v.(v_reminded)) v)) (lg, v0) l).2 = put_reminded r v) as Hg.
    { intros lg l. revert lg. induction l as [|p l IH]; intros lg v0 [r ->]; simpl; [by exists r|].
      destruct (status_of p.2 _) as [st due]. repeat case_bool_decide; apply IH; by eexists. }
    apply Hg. exists v.(v_reminded). by destruct v. }
  pose proof (harmless_reminded r v (ba_coherent _ Hb)) as Hh. split; [by eapply harmless_base|by eapply latest_harmless].
Qed.

(** Requests of any members, with ids never drawn before, turns of the delivery
    thread, the hourly reminders and time passing. *)
Inductive vault_step : Vault → Vault → Prop :=
| vs_create payload user dr v :
    has_char ":"%char dr.(dr_key_id) = false → v.(v_secrets) !! dr.(dr_id) = None →
    vault_step v (create_secret ciphers seal payload user dr v).2
| vs_update stamp id payload user dr v :
    has_char ":"%char dr.(dr_key_id) = false → vault_step v (update_secret ciphers seal open_ stamp id payload user dr v).2
| vs_delete id user v : vault_step v (delete_secret ciphers open_ id user v).2
| vs_attach sid id user v : vault_step v (attach_secret ciphers open_ sid id user v).2
| vs_detach sid id user v : vault_step v (detach_secret ciphers open_ sid id user v).2
| vs_set_own sid name value user dr v :
    has_char ":"%char dr.(dr_key_id) = false → v.(v_own) !! dr.(dr_id) = None →
    vault_step v (set_own_secret ciphers seal open_ sid name value user dr v).2
| vs_delete_own sid id user v : vault_step v (delete_own_secret ciphers open_ sid id user v).2
| vs_drain v : vault_step v (drain_one reach v).2
| vs_remind v : vault_step v (remind v).2
| vs_tick t v : vault_step v (put_world (mkWorld v.(v_world).(w_db) t v.(v_world).(w_live) v.(v_world).(w_booted)
    v.(v_world).(w_attached) v.(v_world).(w_log)) v).

Lemma vault_step_ok v v' : vault_step v v' → base v → latest_ok v → base v' ∧ latest_ok v'.
Proof.
  intros [payload user dr v0 Hd Hid|stamp id payload user dr v0 Hd|id user v0|sid id user v0|sid id user v0
    |sid name value user dr v0 Hd Hid|sid id user v0|v0|v0|t v0] Hb Hl.
  - by apply create_secret_ok.
  - by apply update_ok.
  - by apply delete_ok.
  - by apply attach_ok.
  - by apply detach_ok.
  - by apply set_own_ok.
  - by apply delete_own_ok.
  - by apply drain_ok.
  - by apply remind_ok.
  - split; [destruct Hb; by split|exact Hl].
Qed.

(** C9: Every change of a secret reaches the sandboxes that use it.  From a
    state in which each running sandbox has what it should, whatever requests
    then create, change, attach, detach and delete secrets one after the other,
    failing or not, once everything queued is delivered each running sandbox
    has exactly its own enabled secrets and, under the other names, the vault
    secrets attached to it, with their current values: nothing stale, nothing
    deleted; and a secret is attached to sandboxes of its workspace only. *)
Theorem vault_settles v v' :
  settled v → rtc vault_step v v' → v'.(v_queue) = [] → settled v'.
Proof.
  intros (Hb & Hq & He) Hst Hq'. assert (base v' ∧ latest_ok v') as [Hb' Hl'].
  { assert (latest_ok v) as Hl.
    { intros s row Hs Hr. destruct (He s row Hs Hr) as (e & H1 & H2). exists e. unfold latest. by rewrite Hq. }
    clear Hq He Hq'. induction Hst as [v|v1 v2 v3 H1 _ IH]; [done|]. destruct (vault_step_ok v1 v2 H1 Hb Hl). by apply IH. }
  split; [done|]. split; [done|]. intros s row Hs Hr. destruct (Hl' s row Hs Hr) as (e & H1 & H2). exists e.
  unfold latest in H1. by rewrite Hq' in H1.
Qed.
End vault_proofs.

(** ** Reminders *)

Definition severity (s : secret_status) : nat :=
  match s with SOk => 0 | RotationSoon => 1 | ExpiringSoon => 2 | RotationDue => 3 | Expired => 4 end%nat.

(** A secret's status only gets more pressing as time passes, until the secret
    itself is changed; it is expired exactly from its expiry on, and overdue
    exactly from the day its rotation is due, unless expired. *)
Theorem status_escalates s now later :
  now ≤ later →
  (severity (status_of s now).1 ≤ severity (status_of s later).1)%nat ∧
  ((status_of s now).1 = Expired ↔ ∃ t, s.(vs_expires_at) = Some t ∧ t ≤ now) ∧
  ((status_of s now).1 = RotationDue ↔ (∃ t, rotation_due s = Some t ∧ t ≤ now) ∧ ∀ t, s.(vs_expires_at) = Some t → now < t).
Proof.
  intros Hn. assert (0 < EXPIRY_WARNING ∧ 0 < ROTATION_WARNING) as [H1 H2] by done.
  unfold status_of, due_by. destruct (vs_expires_at s) as [e|], (rotation_due s) as [d|];
    repeat match goal with |- context [?a <=? ?b] => destruct (Z.leb_spec a b) end; simpl; split_and!; try lia; naive_solver lia.
Qed.

Definition reminded_ok (v : Vault) (p : string * VaultSecret) : Prop :=
  let st := (status_of p.2 (now_of v)).1 in
  if bool_decide (st = SOk) then v.(v_reminded) !! p.1 = None else v.(v_reminded) !! p.1 = Some (secret_status_name st).

Definition remind_loop (l : list (string * VaultSecret)) (s : list (string * secret_status * option time) * Vault) :=
  foldl (λ '(logged, v) p,
    let '(st, due_at) := status_of p.2 (now_of v) in
    if bool_decide (st = SOk) then (logged, put_reminded (delete p.1 v.(v_reminded)) v)
    else if bool_decide (v.(v_reminded) !! p.1 = Some (secret_status_name st)) then (logged, v)
    else (logged ++ [(p.1, st, due_at)], put_reminded (<[p.1 := secret_status_name st]> v.(v_reminded)) v)) s l.

Lemma remind_loop_marks l lg v :
  NoDup l.*1 → let v' := (remind_loop l (lg, v)).2 in
  v'.(v_secrets) = v.(v_secrets) ∧ now_of v' = now_of v ∧ (∀ p, p ∈ l → reminded_ok v' p) ∧
  ∀ i, i ∉ l.*1 → v'.(v_reminded) !! i = v.(v_reminded) !! i.
Proof.
  revert lg v. induction l as [|p l IH]; intros lg v Hnd; [by split_and!; [| |set_solver|]|].
  apply NoDup_cons in Hnd as [Hp Hnd]. unfold remind_loop. simpl. destruct (status_of p.2 (now_of v)) as [st due] eqn:Est.
  set (s1 := if bool_decide (st = SOk) then _ else _).
  assert (∃ lg1 r, s1 = (lg1, put_reminded r v) ∧ (∀ i, i ≠ p.1 → r !! i = v.(v_reminded) !! i) ∧
    (if bool_decide (st = SOk) then r !! p.1 = None else r !! p.1 = Some (secret_status_name st))) as (lg1 & r & -> & Ho & Hr).
  { unfold s1. case_bool_decide; [|case_bool_decide as Hd].
    - eexists _, _. split; [done|]. split; [intros i Hi; by rewrite lookup_delete_ne|by rewrite lookup_delete_eq].
    - exists lg, v.(v_reminded). split; [by destruct v|done].
    - eexists _, _. split; [done|]. split; [intros i Hi; by rewrite lookup_insert_ne|by rewrite lookup_insert_eq]. }
  destruct (IH lg1 (put_reminded r v) Hnd) as (H1 & H2 & H3 & H4). split; [done|]. split; [done|]. split.
  - intros q [->|Hq]%elem_of_cons; [|by apply H3]. unfold reminded_ok, remind_loop in *. rewrite H2, H4 by done. simpl.
    change (now_of (put_reminded r v)) with (now_of v). by rewrite Est.
  - intros i Hi. simpl in Hi. unfold remind_loop in H4. rewrite H4 by set_solver. simpl. apply Ho. set_solver.
Qed.

Lemma remind_loop_quiet l lg v : (∀ p, p ∈ l → reminded_ok v p) → NoDup l.*1 → (remind_loop l (lg, v)).1 = lg.
Proof.
  revert v. induction l as [|p l IH]; intros v Hr Hnd; [done|]. apply NoDup_cons in Hnd as [Hp Hnd].
  unfold remind_loop. simpl. pose proof (Hr p ltac:(by left)) as Hp0. unfold reminded_ok in Hp0.
  destruct (status_of p.2 (now_of v)) as [st due]. simpl in Hp0. case_bool_decide.
  - apply (IH (put_reminded (delete p.1 v.(v_reminded)) v)); [|done]. intros q Hq. pose proof (Hr q ltac:(by right)) as Hq0.
    unfold reminded_ok in *. simpl. change (now_of (put_reminded _ v)) with (now_of v).
    rewrite lookup_delete_ne; [done|]. intros E. apply Hp. rewrite E. by apply list_elem_of_fmap_2.
  - rewrite bool_decide_true by done. apply IH; [|done]. intros q Hq. apply Hr. by right.
Qed.

(** A reminder is logged once: right after [remind] has run, running it again
    logs nothing. *)
Theorem reminded_once v : (remind (remind v).2).1 = [].
Proof.
  pose proof (NoDup_fst_map_to_list v.(v_secrets)) as Hnd.
  destruct (remind_loop_marks (map_to_list v.(v_secrets)) [] v Hnd) as (H1 & _ & H3 & _).
  change (remind v) with (remind_loop (map_to_list v.(v_secrets)) ([], v)).
  unfold remind. fold (remind_loop (map_to_list (v_secrets (remind_loop (map_to_list v.(v_secrets)) ([], v)).2)) ([], (remind_loop (map_to_list v.(v_secrets)) ([], v)).2)).
  rewrite H1. by apply remind_loop_quiet.
Qed.

(** ** Keys, for what else is encrypted *)

Section vault_keys.
Context (ciphers : Ciphers) `{!CiphersOk ciphers}.
Context (seal : string → string → string → string) (open_ : string → string → option string).
Context (open_seal : ∀ k iv d, open_ k (seal k iv d) = Some d).

Abbreviation coherent := (coherent ciphers).
Abbreviation advances := (advances ciphers).
Abbreviation stored := (stored ciphers seal).
Abbreviation plain := (plain ciphers open_).

Record keys_ok (k : Keys) : Prop := {
  ko_coherent : coherent k;
  ko_env : sound_env k.(k_env);
  ko_ids : ∀ i, is_Some (k.(k_rows) !! i) → has_char ":"%char i = false
}.

Lemma keys_ok_advances k k' :
  keys_ok k → advances k k' → (∀ i, is_Some (k'.(k_rows) !! i) → is_Some (k.(k_rows) !! i) ∨ has_char ":"%char i = false) → keys_ok k'.
Proof. intros [H1 H2 H3] (Hc & He & _) Hi. split; [done|by rewrite He|]. intros i H. destruct (Hi i H); auto. Qed.

Lemma encrypt_opens value scope dr v :
  keys_ok v.(v_keys) → has_char ":"%char dr.(dr_key_id) = false →
  match encrypt ciphers seal value scope dr v with
  | (Ok t, v') => keys_ok v'.(v_keys) ∧ advances v.(v_keys) v'.(v_keys) ∧ stored v'.(v_keys) t ∧ plain v'.(v_keys) t = value
  | (Err _, v') => v'.(v_keys).(k_cache) = v.(v_keys).(k_cache) ∧ v'.(v_keys).(k_env) = v.(v_keys).(k_env)
  end.
Proof.
  intros Hk Hd. unfold encrypt, on_keys, encrypt_bytes.
  pose proof (data_key_spec ciphers scope dr.(dr_key_id) dr.(dr_fresh) v.(v_keys) (ko_coherent _ Hk) (ko_env _ Hk)) as Hs.
  pose proof (data_key_cases ciphers scope dr.(dr_key_id) dr.(dr_fresh) v.(v_keys)) as Hc.
  unfold mbind, M_bind. destruct (data_key _ _ _ _ _) as [[[i key]|e] k']; [|done].
  destruct Hs as [Ha Hkey], Hc as [Hi Hrows]. simpl in *.
  assert (keys_ok k') as Hk'.
  { eapply keys_ok_advances; [done|done|]. intros j [row Hj]. destruct (Hrows j row Hj) as [?| ->]; auto. }
  assert (has_char ":"%char i = false) as Hic by (destruct Hi as [->|?]; [done|by apply (ko_ids _ Hk)]).
  split; [done|]. split; [done|]. split; [by exists i, key, dr.(dr_iv), value|].
  unfold plain. destruct (decrypt_envelope ciphers seal open_ open_seal k' i key dr.(dr_iv) value Hic Hkey (ko_coherent _ Hk')) as (k2 & E & _).
  change (ENVELOPE +:+ i +:+ ":" +:+ seal key (dr_iv dr) value) with (ENVELOPE +:+ i +:+ ":" +:+ seal key (dr_iv dr) value) in E.
  by rewrite E.
Qed.

Lemma decrypt_keys_ok token k : keys_ok k → keys_ok (decrypt_bytes ciphers open_ token k).2 ∧ advances k (decrypt_bytes ciphers open_ token k).2.
Proof.
  intros Hk. pose proof (decrypt_spec ciphers open_ token k (ko_coherent _ Hk)) as Ha. split; [|done].
  eapply keys_ok_advances; [done|done|]. intros i. rewrite decrypt_rows by done. by left.
Qed.

End vault_keys.

(** ** Witnesses *)

Definition demo_vault_row (st : status) : Sandbox :=
  mkSandbox "s1" "w1" "v1" "u1" "one" st "docker" (Some "c1") None "{}" [] None (Some 0) None None 0 0 None None
    Desktop None None None None 2%Q 2048 None None None None.
Definition demo_vault (st : status) : Vault :=
  mkVault (mkWorld (set_sandboxes {["s1" := demo_vault_row st]} empty_db) 7 ∅ ∅ ∅ []) demo_keys ∅ ∅ ∅ [] [] {["s1" := ∅]} ∅.
Definition demo_draws (n : string) : Draws := mkDraws n ("k" +:+ n) "datakey" "".
Definition demo_new (name : string) : VaultSecretRequest := mkVaultSecretRequest name "hunter22" None None None.
Definition demo_vault_1 : Vault := (create_secret demo_ciphers demo_seal (demo_new "TOKEN") demo_member (demo_draws "a") (demo_vault Running)).2.
Definition demo_vault_2 : Vault := (attach_secret demo_ciphers demo_open "s1" "a" demo_member demo_vault_1).2.
Definition demo_vault_3 : Vault := (drain_one (λ _, Ok tt) demo_vault_2).2.

Lemma demo_vault_settled : settled demo_ciphers demo_seal demo_open (demo_vault Running).
Proof.
  assert (∀ s x, (∅ : gmap string (gmap string string)) !! s = Some x → False) as _ by (intros s x; by rewrite lookup_empty).
  split; [|split; [done|]].
  - split; try (intros *; simpl; rewrite ?lookup_empty; naive_solver); [done|].
    intros i s. simpl. by intros [<- <-]%lookup_singleton_Some.
  - intros s row. simpl. intros [<- <-]%lookup_singleton_Some _. exists ∅. split; [done|]. intros n x. rewrite lookup_empty.
    split; [done|]. intros [(i & r & H & _)|[_ (i & r & _ & H & _)]]; simpl in H; by rewrite lookup_empty in H.
Qed.

Lemma demo_keys_ok : keys_ok demo_ciphers demo_keys.
Proof. pose proof (proj1 demo_vault_settled) as Hs. split; [apply Hs|apply Hs|]. intros i [row H]. by eapply ba_ids; [exact Hs|exact H]. Qed.

Lemma vault_settles_witness :
  settled demo_ciphers demo_seal demo_open demo_vault_3 ∧ demo_vault_3.(v_env) !! "s1" = Some {["TOKEN" := "hunter22"]}.
Proof.
  split; [|by vm_compute].
  apply (vault_settles demo_ciphers demo_seal demo_open (λ k iv d, drop_prefix_app (header k) d) (λ _, Ok tt) (λ _, eq_refl)
    (demo_vault Running) demo_vault_3); [exact demo_vault_settled| |by vm_compute].
  eapply rtc_l; [apply (vs_create _ _ _ _ (demo_new "TOKEN") demo_member (demo_draws "a")); by vm_compute|].
  eapply rtc_l; [apply (vs_attach _ _ _ _ "s1" "a" demo_member)|].
  eapply rtc_once, vs_drain.
Defined.

Lemma status_escalates_witness :
  let s := mkVaultSecret "w1" "u1" "T" None "" 0 0 None (Some 5) None None in (severity (status_of s 3).1 ≤ severity (status_of s 6).1)%nat.
Proof. intros s. apply (status_escalates s 3 6). lia. Defined.

(** ** Where the order of transactions matters *)

(** Two requests attach a secret each, at the same time: each plans what it sees
    committed, and the delivery that comes second takes the first's away. *)
Definition demo_two : Vault :=
  (create_secret demo_ciphers demo_seal (demo_new "OTHER") demo_member (demo_draws "b") demo_vault_1).2.
Definition both_attached : Vault :=
  let a := (attach_secret demo_ciphers demo_open "s1" "a" demo_member demo_two).2 in
  let b := (attach_secret demo_ciphers demo_open "s1" "b" demo_member demo_two).2 in
  put_queue (a.(v_queue) ++ b.(v_queue)) (put_grants (a.(v_grants) ∪ b.(v_grants)) b).

Example attaches_race :
  let v := (drain_one (λ _, Ok tt) (drain_one (λ _, Ok tt) both_attached).2).2 in
  v.(v_queue) = [] ∧ v.(v_env) !! "s1" = Some {["OTHER" := "hunter22"]} ∧
  (secret_values demo_ciphers demo_open "s1" v).1 = Ok {["TOKEN" := "hunter22"; "OTHER" := "hunter22"]}.
Proof. by vm_compute. Qed.

(** A secret attached while the sandbox boots, after the boot has read its
    secrets, is not pushed, and the sandbox starts to run without it. *)
Example booting_missed :
  let v0 := (create_secret demo_ciphers demo_seal (demo_new "TOKEN") demo_member (demo_draws "a") (demo_vault Provisioning)).2 in
  let booted := (secret_env demo_ciphers demo_open "s1" v0).1 in
  let v1 := (attach_secret demo_ciphers demo_open "s1" "a" demo_member v0).2 in
  booted = Ok ∅ ∧ v1.(v_queue) = [] ∧ (secret_values demo_ciphers demo_open "s1" v1).1 = Ok {["TOKEN" := "hunter22"]}.
Proof. by vm_compute. Qed.
