(* ===== verification/Regex.v ===== *)
(** Regular expressions as Python's [re] matches them, for the patterns of the
    program: what they mean, and a matcher by derivatives proved against it. *)

From S2P Require Import Prelude.

Inductive re :=
| Eps
| Cls (p : ascii → bool)
| Cat (r1 r2 : re)
| Alt (r1 r2 : re)
| Star (r : re)
| Never.

(** [r?], [r{0,n}] and a literal. *)
Definition opt (r : re) : re := Alt Eps r.
Fixpoint upto (n : nat) (r : re) : re := match n with O => Eps | S n => opt (Cat r (upto n r)) end.
Definition chr (c : ascii) : re := Cls (λ a, bool_decide (a = c)).

(** The strings an expression matches in full. *)
Inductive lang : re → string → Prop :=
| lang_eps : lang Eps ""
| lang_cls p c : p c = true → lang (Cls p) (String c "")
| lang_cat r1 r2 s1 s2 : lang r1 s1 → lang r2 s2 → lang (Cat r1 r2) (s1 +:+ s2)
| lang_alt_l r1 r2 s : lang r1 s → lang (Alt r1 r2) s
| lang_alt_r r1 r2 s : lang r2 s → lang (Alt r1 r2) s
| lang_star_nil r : lang (Star r) ""
| lang_star_cons r s1 s2 : lang r s1 → lang (Star r) s2 → lang (Star r) (s1 +:+ s2).

Create HintDb lang discriminated.
#[export] Hint Constructors lang : lang.

(** ** The matcher *)

Fixpoint nullable (r : re) : bool :=
  match r with
  | Eps | Star _ => true
  | Cls _ | Never => false
  | Cat r1 r2 => nullable r1 && nullable r2
  | Alt r1 r2 => nullable r1 || nullable r2
  end.

(** Smart constructors, which keep derivatives small. *)
Definition cat (r1 r2 : re) : re := match r1 with Never => Never | Eps => r2 | _ => Cat r1 r2 end.
Definition alt (r1 r2 : re) : re := match r1, r2 with Never, _ => r2 | _, Never => r1 | _, _ => Alt r1 r2 end.

Fixpoint deriv (c : ascii) (r : re) : re :=
  match r with
  | Eps | Never => Never
  | Cls p => if p c then Eps else Never
  | Cat r1 r2 => alt (cat (deriv c r1) r2) (if nullable r1 then deriv c r2 else Never)
  | Alt r1 r2 => alt (deriv c r1) (deriv c r2)
  | Star r => cat (deriv c r) (Star r)
  end.

Fixpoint accepts (r : re) (s : string) : bool :=
  match s with EmptyString => nullable r | String c s => accepts (deriv c r) s end.

(** ** What it decides *)
Lemma lang_cat_inv r1 r2 s : lang (Cat r1 r2) s ↔ ∃ s1 s2, s = s1 +:+ s2 ∧ lang r1 s1 ∧ lang r2 s2.
Proof. split; [inversion 1; subst; eauto|intros (s1 & s2 & -> & H1 & H2); by constructor]. Qed.
Lemma lang_alt_inv r1 r2 s : lang (Alt r1 r2) s ↔ lang r1 s ∨ lang r2 s.
Proof. split; [inversion 1; subst; auto|intros [H|H]; auto with lang]. Qed.
Lemma lang_cls_inv p s : lang (Cls p) s ↔ ∃ c, s = String c "" ∧ p c = true.
Proof. split; [inversion 1; subst; eauto|intros (c & -> & H); auto with lang]. Qed.
Lemma lang_eps_inv s : lang Eps s ↔ s = "".
Proof. split; [by inversion 1|intros ->; auto with lang]. Qed.
Lemma lang_never s : ¬ lang Never s.
Proof. inversion 1. Qed.

Lemma lang_cat_smart r1 r2 s : lang (cat r1 r2) s ↔ lang (Cat r1 r2) s.
Proof.
  destruct r1; simpl; try done.
  - rewrite lang_cat_inv. split; [intros H; exists "", s; auto with lang|].
    by intros (s1 & s2 & -> & ->%lang_eps_inv & H).
  - rewrite lang_cat_inv. split; [by intros []%lang_never|by intros (? & ? & _ & []%lang_never & _)].
Qed.

Lemma lang_alt_smart r1 r2 s : lang (alt r1 r2) s ↔ lang r1 s ∨ lang r2 s.
Proof.
  destruct r1, r2; simpl; try apply lang_alt_inv; pose proof (lang_never s); tauto.
Qed.

Lemma nullable_ok r : nullable r = true ↔ lang r "".
Proof.
  induction r as [|p|r1 IH1 r2 IH2|r1 IH1 r2 IH2|r IH|]; simpl.
  - split; auto with lang.
  - split; [done|]. rewrite lang_cls_inv. naive_solver.
  - rewrite andb_true_iff, IH1, IH2, lang_cat_inv. split; [intros []; exists "", ""; auto|].
    intros (s1 & s2 & E & H1 & H2). destruct s1, s2; try discriminate. done.
  - by rewrite orb_true_iff, IH1, IH2, lang_alt_inv.
  - split; auto with lang.
  - split; [done|by intros []%lang_never].
Qed.

Lemma lang_star_step r c s : lang (Star r) (String c s) ↔ ∃ s1 s2, s = s1 +:+ s2 ∧ lang r (String c s1) ∧ lang (Star r) s2.
Proof.
  split.
  - remember (Star r) as r' eqn:Er. remember (String c s) as t eqn:Et. intros H. revert c s Et. induction H; intros c0 s0 Et; simplify_eq.
    destruct s1 as [|a s1]; simpl in Et; [by apply IHlang2|]. injection Et as -> <-. eauto.
  - intros (s1 & s2 & -> & H1 & H2). change (String c (s1 +:+ s2)) with (String c s1 +:+ s2). auto with lang.
Qed.

Lemma deriv_ok c r s : lang (deriv c r) s ↔ lang r (String c s).
Proof.
  revert s. induction r as [|p|r1 IH1 r2 IH2|r1 IH1 r2 IH2|r IH|]; intros s; simpl.
  - split; [by intros []%lang_never|by intros H%lang_eps_inv].
  - rewrite lang_cls_inv. destruct (p c) eqn:E; [rewrite lang_eps_inv|]; split.
    + intros ->. by exists c.
    + by intros (c' & [= _ ->] & _).
    + by intros []%lang_never.
    + intros (c' & [= <- _] & Hc). congruence.
  - rewrite lang_alt_smart, lang_cat_smart, !lang_cat_inv. setoid_rewrite IH1. split.
    + intros [(s1 & s2 & -> & H1 & H2)|H]; [by exists (String c s1), s2|].
      destruct (nullable r1) eqn:E; [|by apply lang_never in H]. exists "", (String c s). rewrite <- IH2. by rewrite <- nullable_ok.
    + intros (s1 & s2 & E & H1 & H2). destruct s1 as [|a s1]; simpl in E.
      * right. apply nullable_ok in H1. rewrite H1. apply IH2. by rewrite E.
      * left. change (String c s = String a (s1 +:+ s2)) in E. injection E as <- ->. eauto 6.
  - by rewrite lang_alt_smart, lang_alt_inv, IH1, IH2.
  - rewrite lang_cat_smart, lang_cat_inv, lang_star_step. setoid_rewrite IH. done.
  - split; by intros []%lang_never.
Qed.

(** The matcher decides the language. *)
Lemma accepts_ok r s : accepts r s = true ↔ lang r s.
Proof. revert r. induction s as [|c s IH]; intros r; simpl; [apply nullable_ok|]. by rewrite IH, deriv_ok. Qed.

(** ** Derived forms *)
Lemma lang_opt r s : lang (opt r) s ↔ s = "" ∨ lang r s.
Proof. unfold opt. by rewrite lang_alt_inv, lang_eps_inv. Qed.

Lemma lang_chr c s : lang (chr c) s ↔ s = String c "".
Proof. unfold chr. rewrite lang_cls_inv. setoid_rewrite bool_decide_eq_true. naive_solver. Qed.

(** Every character is of the class. *)
Fixpoint all_of (p : ascii → bool) (s : string) : bool :=
  match s with EmptyString => true | String c s => p c && all_of p s end.

Lemma lang_upto_cls p n s : lang (upto n (Cls p)) s ↔ all_of p s = true ∧ (String.length s ≤ n)%nat.
Proof.
  revert s. induction n as [|n IH]; intros s; simpl.
  - rewrite lang_eps_inv. split; [by intros ->|]. intros [_ H]. destruct s; [done|simpl in H; lia].
  - rewrite lang_opt, lang_cat_inv. split.
    + intros [->|(s1 & s2 & -> & (c & -> & Hc)%lang_cls_inv & [H1 H2]%IH)]; [simpl; lia|].
      change (String c "" +:+ s2) with (String c s2). simpl. rewrite Hc, H1. simpl. lia.
    + intros [H1 H2]. destruct s as [|c s]; [by left|]. right. simpl in *. apply andb_true_iff in H1 as [Hc H1].
      exists (String c ""), s. split; [done|]. split; [auto with lang|]. apply IH. split; [done|lia].
Qed.
