(* ===== verification/Rules.v ===== *)
(** Network rules (src/apps/server/policy_api.py): what a rule's value may be.
    Domains by their pattern, addresses and networks as Python's [ipaddress]
    reads them. *)

From S2P Require Import Prelude Kms Registry Labels Regex.

(** ** Domains *)

Definition label_char (c : ascii) : bool := key_head c || bool_decide (c = "-"%char).

Definition label_re : re := Cat (Cls key_head) (opt (Cat (upto 61 (Cls label_char)) (Cls key_head))).

(** Source: src/apps/server/policy_api.py:61-61 [DOMAIN].  [$] also matches before a
    newline that ends the text. *)
Definition DOMAIN : re :=
  Cat (opt (Cat (chr "*") (chr ".")))
    (Cat (Star (Cat label_re (chr ".")))
       (Cat label_re (Cat (opt (chr ".")) (opt (Cls (λ c, bool_decide (String c "" = newline))))))).

(** Source: src/apps/server/policy_api.py:78-78 [DOMAIN.match]. *)
Definition DOMAIN_match (value : string) : bool := accepts DOMAIN value.

(** What a domain is: labels of 1 to 63 letters, digits and dashes that neither
    start nor end with a dash, joined by dots, with an optional [*.] before and
    a dot after. *)
Fixpoint last_char (s : string) : option ascii :=
  match s with EmptyString => None | String c "" => Some c | String _ s => last_char s end.

Definition label_ok (s : string) : Prop :=
  (1 ≤ String.length s ≤ 63)%nat ∧ all_of label_char s = true ∧
  (∃ c, String.get 0 s = Some c ∧ key_head c = true) ∧ (∃ c, last_char s = Some c ∧ key_head c = true).

Definition domain (value : string) : Prop :=
  ∃ (wild dot : bool) (labels : list string),
    labels ≠ [] ∧ Forall label_ok labels ∧
    value = (if wild then "*." else "") +:+ String.concat "." labels +:+ (if dot then "." else "").

Lemma last_char_app m d : last_char (m +:+ String d "") = Some d.
Proof.
  induction m as [|c m IH]; [done|]. rewrite string_app_cons. simpl. destruct (m +:+ String d "") eqn:E; [|done].
  destruct m; discriminate.
Qed.

Lemma last_char_inv s d : last_char s = Some d → ∃ m, s = m +:+ String d "".
Proof.
  induction s as [|c s IH]; [done|]. destruct s as [|c' s]; simpl.
  - intros [= ->]. by exists "".
  - intros H. destruct (IH H) as [m E]. exists (String c m). by rewrite string_app_cons, <- E.
Qed.

Lemma all_of_app p a b : all_of p (a +:+ b) = all_of p a && all_of p b.
Proof. induction a as [|c a IH]; [done|]. rewrite string_app_cons. simpl. by rewrite IH, andb_assoc. Qed.

Lemma label_char_head c : key_head c = true → label_char c = true.
Proof. unfold label_char. by intros ->. Qed.

Lemma label_lang s : lang label_re s ↔ label_ok s.
Proof.
  unfold label_re, label_ok. rewrite lang_cat_inv. setoid_rewrite lang_opt. setoid_rewrite lang_cat_inv. setoid_rewrite lang_upto_cls. split.
  - intros (s1 & s2 & -> & (c & -> & Hc)%lang_cls_inv & H). rewrite string_app_cons, string_app_nil.
    destruct H as [->|(m & s3 & -> & [Hm Hl] & (d & -> & Hd)%lang_cls_inv)].
    + simpl. rewrite label_char_head by done. split_and!; [lia|lia|done|eauto|eauto].
    + cbn [String.length all_of String.get]. rewrite string_app_length, all_of_app, Hm, label_char_head by done. simpl.
      rewrite label_char_head by done. split_and!; [lia|lia|done|eauto|]. exists d. split; [|done].
      destruct (m +:+ String d "") eqn:E; [destruct m; discriminate|]. rewrite <- E. apply last_char_app.
  - intros (Hl & Ha & (c & Hc & Hk) & (d & Hd & Hkd)). destruct s as [|c' s]; [done|]. simpl in Hc. injection Hc as ->.
    exists (String c ""), s. split; [done|]. split; [auto with lang|]. destruct s as [|c' s]; [by left|right].
    apply last_char_inv in Hd as [m E]. destruct m as [|c'' m]; [discriminate|]. rewrite string_app_cons in E. injection E as <- E.
    exists m, (String d ""). split; [done|]. split; [|auto with lang].
    change (all_of label_char (String c (String c' s))) with (label_char c && all_of label_char (String c' s)) in Ha.
    change (String.length (String c (String c' s))) with (S (String.length (String c' s))) in Hl.
    rewrite E, all_of_app, !andb_true_iff in Ha. rewrite E, string_app_length in Hl. simpl in Hl. split; [tauto|lia].
Qed.

(** [l1.l2. ...] of the labels before the last. *)
Definition dotted (ls : list string) : string := foldr (λ l s, l +:+ "." +:+ s) "" ls.

Lemma dotted_lang s : lang (Star (Cat label_re (chr "."))) s ↔ ∃ ls, Forall label_ok ls ∧ s = dotted ls.
Proof.
  split.
  - remember (Star (Cat label_re (chr "."))) as r eqn:Er. intros H. induction H; simplify_eq; [by exists []|].
    destruct IHlang2 as (ls & Hls & ->); [done|]. apply lang_cat_inv in H as (l & d & -> & Hl%label_lang & ->%lang_chr).
    exists (l :: ls). split; [by constructor|]. simpl. by rewrite string_app_assoc.
  - intros (ls & Hls & ->). induction Hls as [|l ls Hl _ IH]; simpl; [auto with lang|].
    rewrite <- string_app_assoc. apply lang_star_cons; [|done]. apply lang_cat; [by apply label_lang|by apply lang_chr].
Qed.

Lemma concat_dotted ls l : String.concat "." (ls ++ [l]) = dotted ls +:+ l.
Proof.
  induction ls as [|x ls IH]; [done|]. cbn [dotted foldr app]. fold (dotted ls). rewrite !string_app_assoc, <- IH. simpl.
  destruct (ls ++ [l]) eqn:E; [by destruct ls|]. done.
Qed.

Definition newline_char : ascii := ascii_of_nat 10.

(** The pattern in parts. *)
Lemma domain_lang s :
  lang DOMAIN s ↔ ∃ (wild dot nl : bool) ls l, Forall label_ok ls ∧ label_ok l ∧
    s = (if wild then "*." else "") +:+ dotted ls +:+ l +:+ (if dot then "." else "") +:+ (if nl then newline else "").
Proof.
  unfold DOMAIN. split.
  - intros (w & s1 & -> & Hw & (d & s2 & -> & (ls & Hls & ->)%dotted_lang & (l & s3 & -> & Hl%label_lang & (dt & n & -> & Hdt & Hn)%lang_cat_inv)%lang_cat_inv)%lang_cat_inv)%lang_cat_inv.
    apply lang_opt in Hw, Hdt, Hn.
    assert (∃ b : bool, w = if b then "*." else "") as [wild ->].
    { destruct Hw as [->|(a & b & -> & ->%lang_chr & ->%lang_chr)%lang_cat_inv]; [by exists false|by exists true]. }
    assert (∃ b : bool, dt = if b then "." else "") as [dot ->] by (destruct Hdt as [->| ->%lang_chr]; [by exists false|by exists true]).
    assert (∃ b : bool, n = if b then newline else "") as [nl ->].
    { destruct Hn as [->|(c & -> & Hc%bool_decide_eq_true)%lang_cls_inv]; [by exists false|by exists true]. }
    by exists wild, dot, nl, ls, l.
  - intros (wild & dot & nl & ls & l & Hls & Hl & ->).
    apply lang_cat; [apply lang_opt; destruct wild; [right|by left]; apply (lang_cat _ _ "*" "."); by apply lang_chr|].
    apply lang_cat; [apply dotted_lang; eauto|]. apply lang_cat; [by apply label_lang|].
    apply lang_cat; apply lang_opt; [destruct dot; [right; by apply lang_chr|by left]|destruct nl; [right|by left]].
    apply lang_cls_inv. exists newline_char. split; [done|]. by apply bool_decide_eq_true.
Qed.

(** C25: The pattern means what a domain is: of a text that does not end in a
    newline, as no stripped value does, it matches exactly the dotted labels of
    letters, digits and inner dashes, each of at most 63 characters. *)
Theorem domain_pattern value : last_char value ≠ Some newline_char → DOMAIN_match value = true ↔ domain value.
Proof.
  intros Hn. unfold DOMAIN_match. rewrite accepts_ok, domain_lang. unfold domain. split.
  - intros (wild & dot & nl & ls & l & Hls & Hl & E). exists wild, dot, (ls ++ [l]). split; [by destruct ls|].
    split; [by apply Forall_app; split; [|constructor]|]. rewrite concat_dotted, E. destruct nl.
    + exfalso. apply Hn. rewrite E, <- !string_app_assoc. apply last_char_app.
    + by rewrite string_app_nil_r, string_app_assoc.
  - intros (wild & dot & labels & Hne & Hls & ->). destruct labels as [|l ls _] using rev_ind; [done|].
    apply Forall_app in Hls as [Hls Hl]. exists wild, dot, false, ls, l. split; [done|]. split; [by apply Forall_singleton|].
    by rewrite concat_dotted, string_app_nil_r, string_app_assoc.
Qed.

(** ** Addresses *)

Definition is_digit (c : ascii) : bool := in_range "0" "9" c.

(** [int(text)] of decimal digits, and of hexadecimal ones. *)
Definition digit_value (c : ascii) : Z :=
  let n := Z.of_nat (nat_of_ascii c) in if n <? 58 then n - 48 else if n <? 71 then n - 55 else n - 87.
Fixpoint value_from (base acc : Z) (s : string) : Z :=
  match s with EmptyString => acc | String c s => value_from base (base * acc + digit_value c) s end.
Definition int_of (base : Z) (s : string) : Z := value_from base 0 s.
Definition is_hex (c : ascii) : bool := is_digit c || in_range "a" "f" c || in_range "A" "F" c.

(** [IPv4Address._parse_octet] *)
Definition parse_octet (s : string) : option Z :=
  if bool_decide (s = "") || negb (all_of is_digit s) || (3 <? String.length s)%nat then None
  else match s with
       | String "0" (String _ _) => None
       | _ => let n := int_of 10 s in if 255 <? n then None else Some n
       end.

(** [IPv4Address._ip_int_from_string] *)
Definition parse_ipv4 (s : string) : option Z :=
  match split "." s with
  | [a; b; c; d] => a ← parse_octet a; b ← parse_octet b; c ← parse_octet c; d ← parse_octet d;
      Some (((a * 256 + b) * 256 + c) * 256 + d)
  | _ => None
  end.

(** [IPv6Address._parse_hextet]; an empty one is no number. *)
Definition parse_hextet (s : string) : option Z :=
  if bool_decide (s = "") || negb (all_of is_hex s) || (4 <? String.length s)%nat then None else Some (int_of 16 s).

(** The parts between colons, the dotted end as two of them: as numbers, an
    empty part as [None], a bad one failing. *)
Fixpoint ipv6_parts (parts : list string) : option (list (option Z)) :=
  match parts with
  | [] => Some []
  | [s] =>
      if has_char "." s then n ← parse_ipv4 s; Some [Some (n / 65536); Some (n mod 65536)]
      else if bool_decide (s = "") then Some [None] else n ← parse_hextet s; Some [Some n]
  | s :: rest =>
      p ← (if bool_decide (s = "") then Some None else Some <$> parse_hextet s);
      ps ← ipv6_parts rest;
      Some (p :: ps)
  end.

(** The places of the empty parts that are neither first nor last. *)
Fixpoint inner_empty (i : nat) (ps : list (option Z)) : list nat :=
  match ps with
  | [] | [_] => []
  | p :: rest => (if is_none p && negb (i =? 0)%nat then [i] else []) ++ inner_empty (S i) rest
  end.

Definition hextets (ps : list (option Z)) : option Z :=
  foldl (λ acc p, a ← acc; h ← p; Some (a * 65536 + h)) (Some 0) ps.

(** [IPv6Address._ip_int_from_string] *)
Definition parse_ipv6_int (s : string) : option Z :=
  let parts := split ":" s in
  if (length parts <? 3)%nat then None else
  ps ← ipv6_parts parts;
  if (9 <? length ps)%nat then None else
  match inner_empty 0 ps with
  | [] => if (length ps =? 8)%nat then hextets ps else None
  | [i] =>
      let hi := take i ps in
      let lo := drop (S i) ps in
      hi ← match hi with None :: rest => if (length rest =? 0)%nat then Some [] else None | _ => Some hi end;
      lo ← match last lo with Some None => if (length lo =? 1)%nat then Some [] else None | _ => Some lo end;
      if (8 <=? length hi + length lo)%nat then None
      else h ← hextets hi; l ← hextets lo; Some (h * 65536 ^ (8 - Z.of_nat (length hi)) + l)
  | _ => None
  end.

(** [IPv6Address]: with an optional scope. *)
Definition parse_ipv6 (s : string) : option Z :=
  let '(addr, sep, scope) := partition "%" s in
  if (sep : bool) && (bool_decide (scope = "") || has_char "%" scope) then None else parse_ipv6_int addr.

Inductive ip := V4 (n : Z) | V6 (n : Z).

(** [ipaddress.ip_address] *)
Definition ip_address (s : string) : option ip :=
  if has_char "/" s then None
  else match parse_ipv4 s with Some n => Some (V4 n) | None => V6 <$> parse_ipv6 s end.

(** [_prefix_from_prefix_string]; leading zeros are fine. *)
Definition prefix_length (max : Z) (s : string) : option Z :=
  if bool_decide (s = "") || negb (all_of is_digit s) then None
  else let n := int_of 10 s in if max <? n then None else Some n.

(** [_prefix_from_ip_int]: ones, then zeros. *)
Definition prefix_of_mask (mask : Z) : option Z :=
  head (filter (λ n, mask = 2 ^ 32 - 2 ^ (32 - n)) (Z.of_nat <$> seq 0 33)).

(** [IPv4Network._make_netmask]: a length, a netmask or a host mask. *)
Definition ipv4_prefix (s : string) : option Z :=
  match prefix_length 32 s with
  | Some n => Some n
  | None => mask ← parse_ipv4 s;
            match prefix_of_mask mask with Some n => Some n | None => prefix_of_mask (2 ^ 32 - 1 - mask) end
  end.

Inductive network := N4 (n prefix : Z) | N6 (n prefix : Z).

Definition masked (bits n prefix : Z) : Z := n - n mod 2 ^ (bits - prefix).

(** [ipaddress.ip_network(_, strict=False)] *)
Definition ip_network (s : string) : option network :=
  let v4 a m := a ← parse_ipv4 a; m ← m; Some (N4 (masked 32 a m) m) in
  let v6 a m := a ← parse_ipv6 a; m ← m; Some (N6 (masked 128 a m) m) in
  match split "/" s with
  | [a] => match v4 a (Some 32) with Some n => Some n | None => v6 a (Some 128) end
  | [a; m] => match v4 a (ipv4_prefix m) with Some n => Some n | None => v6 a (prefix_length 128 m) end
  | _ => None
  end.

(** ** A rule's value *)

Inductive rule_type := RDomain | RIp | RCidr.
#[global] Instance rule_type_eq_dec : EqDecision rule_type.
Proof. solve_decision. Defined.
Definition rule_type_name (t : rule_type) : string := match t with RDomain => "domain" | RIp => "ip" | RCidr => "cidr" end.

Definition readable (t : rule_type) (value : string) : bool :=
  match t with
  | RDomain => DOMAIN_match value
  | RIp => negb (is_none (ip_address value))
  | RCidr => negb (is_none (ip_network value))
  end.

(** Source: src/apps/server/policy_api.py:69-82 [NetworkRuleRequest.valid_value].  The
    field's bounds, then the value it is left with. *)
Definition valid_value (t : rule_type) (value : string) : result exn string :=
  if (String.length value <? 1)%nat || (253 <? String.length value)%nat then
    Err (HTTPException 422 [Txt "String should have 1 to 253 characters"])
  else
    let value := lower (strip value) in
    if readable t value then Ok value
    else Err (HTTPException 422 [Repr value; Txt " is not a valid "; Txt (rule_type_name t)]).

Example addresses_read :
  ip_address "10.0.0.1" = Some (V4 167772161) ∧ ip_address "010.0.0.1" = None ∧ ip_address "1.2.3" = None ∧
  ip_address "::1" = Some (V6 1) ∧ ip_address "::" = Some (V6 0) ∧ ip_address "1::2::3" = None ∧ ip_address ":1:2:3:4:5:6:7" = None ∧
  ip_address "::ffff:1.2.3.4" = Some (V6 (65535 * 4294967296 + 16909060)) ∧ ip_address "fe80::1%eth0" = Some (V6 (65152 * 65536 ^ 7 + 1)) ∧
  ip_address "1:2:3:4:5:6:7:8" ≠ None ∧ ip_address "1:2:3:4:5:6:7::" ≠ None ∧ ip_address "1:2:3:4:5:6:7:8::" = None.
Proof. by vm_compute. Qed.

Example networks_read :
  ip_network "10.1.2.3/8" = Some (N4 167772160 8) ∧ ip_network "10.0.0.0" = Some (N4 167772160 32) ∧
  ip_network "10.0.0.0/255.0.0.0" = Some (N4 167772160 8) ∧ ip_network "10.0.0.0/0.255.255.255" = Some (N4 167772160 8) ∧
  ip_network "10.0.0.0/33" = None ∧ ip_network "::1/64" = Some (N6 0 64) ∧ ip_network "10.0.0.0/8/8" = None.
Proof. by vm_compute. Qed.

Example domains_read :
  DOMAIN_match "example.com" = true ∧ DOMAIN_match "*.example.com." = true ∧ DOMAIN_match "a..b" = false ∧
  DOMAIN_match "-a.com" = false ∧ DOMAIN_match "*." = false ∧ DOMAIN_match "localhost" = true.
Proof. by vm_compute. Qed.

Lemma domain_pattern_witness : DOMAIN_match "*.example.com" = true ↔ domain "*.example.com".
Proof. apply (domain_pattern "*.example.com"). vm_compute. discriminate. Defined.

(** ** Stripped values in lower case *)
Lemma lstrip_head s : lstrip s = "" ∨ ∃ c t, lstrip s = String c t ∧ is_space c = false.
Proof. induction s as [|c s IH]; simpl; [by left|]. destruct (is_space c) eqn:E; [done|]. right. eauto. Qed.

Lemma lstrip_suffix s : ∃ p, s = p +:+ lstrip s.
Proof.
  induction s as [|c s [p IH]]; simpl; [by exists ""|]. destruct (is_space c); [|by exists ""].
  exists (String c p). by rewrite string_app_cons, <- IH.
Qed.

Lemma lstrip_stays c t : is_space c = false → lstrip (String c t) = String c t.
Proof. simpl. by intros ->. Qed.

Lemma lstrip_idem s : lstrip (lstrip s) = lstrip s.
Proof. destruct (lstrip_head s) as [->|(c & t & -> & H)]; [done|by apply lstrip_stays]. Qed.

(** What is left neither starts nor ends with a space. *)
Lemma lstrip_strip s : lstrip (strip s) = strip s.
Proof.
  unfold strip. destruct (lstrip_suffix (String.rev (lstrip s))) as [p Hp]. set (t := lstrip (String.rev (lstrip s))) in *.
  apply (f_equal String.rev) in Hp. rewrite string_rev_rev, string_rev_app in Hp.
  destruct (String.rev t) as [|c u] eqn:E; [done|]. rewrite string_app_cons in Hp.
  destruct (lstrip_head s) as [Hn|(d & v & Hd & Hs)]; [congruence|]. apply lstrip_stays. congruence.
Qed.

Lemma strip_idem s : strip (strip s) = strip s.
Proof. unfold strip at 1. rewrite lstrip_strip. unfold strip. by rewrite string_rev_rev, lstrip_idem. Qed.

Lemma lower_char_space c : is_space (lower_char c) = is_space c.
Proof. by destruct c as [[] [] [] [] [] [] [] []]. Qed.

Lemma lower_char_idem c : lower_char (lower_char c) = lower_char c.
Proof. by destruct c as [[] [] [] [] [] [] [] []]. Qed.

Lemma lower_idem s : lower (lower s) = lower s.
Proof. induction s as [|c s IH]; [done|]. simpl. by rewrite IH, lower_char_idem. Qed.

Lemma lower_app s t : lower (s +:+ t) = lower s +:+ lower t.
Proof. induction s as [|c s IH]; [done|]. by rewrite string_app_cons; simpl; rewrite IH, string_app_cons. Qed.

Lemma lower_rev s : lower (String.rev s) = String.rev (lower s).
Proof. induction s as [|c s IH]; [done|]. simpl. by rewrite !string_rev_cons, lower_app, IH. Qed.

Lemma lower_lstrip s : lower (lstrip s) = lstrip (lower s).
Proof. induction s as [|c s IH]; [done|]. simpl. rewrite lower_char_space. by destruct (is_space c). Qed.

Lemma lower_strip s : lower (strip s) = strip (lower s).
Proof. unfold strip. by rewrite lower_rev, lower_lstrip, lower_rev, lower_lstrip. Qed.

(** Stripping and lowering again changes nothing. *)
Lemma canonical_idem s : lower (strip (lower (strip s))) = lower (strip s).
Proof. by rewrite <- lower_strip, lower_idem, strip_idem. Qed.

(** An accepted value is stripped and in lower case already, so the handler that strips and
    lowers it again stores the value that was checked. *)
Lemma valid_value_stable t value v : valid_value t value = Ok v → lower (strip v) = v ∧ readable t v = true.
Proof.
  unfold valid_value. destruct (_ || _); [done|]. destruct (readable t _) eqn:Er; [|done]. intros [= <-].
  split; [apply canonical_idem|done].
Qed.
