(* ===== verification/Policy.v ===== *)
(** Policies of a sandbox (src/apps/server/policy_api.py, with enforce of
    security.py): permissions, the network policy with its rules, and which
    applications may start; what is stored, and what the runtime was told. *)

From S2P Require Import Prelude Tables Store Kms Registry Labels Auth Access Regex Rules.

(** ** Rows *)

(** Source: src/db/generated/models.py:279-285 [SandboxNetworkPolicy]. *)
Record NetPolicy := mkNetPolicy { np_id : string; np_default_action : string; np_allow_dns : bool }.

(** Source: src/db/generated/models.py:288-294 [SandboxNetworkRule].  [nr_created_at]
    orders the rules. *)
Record NetRule := mkNetRule {
  nr_policy_id : string;
  nr_type : rule_type;
  nr_value : string;
  nr_effect : string;
  nr_created_at : time
}.

(** Source: src/db/generated/models.py:26-33 [App]. *)
Record App := mkApp { ap_workspace_id : option string; ap_name : string; ap_slug : string }.

(** What a runtime is told about the network. *)
Record Applied := mkApplied { an_default_action : string; an_allow_dns : bool; an_rules : list (rule_type * string * string) }.

(** [world] with the policies by sandbox, the rules and applications by id, the
    grants by sandbox, application and action, and what each runtime was last
    told. *)
Record Policies := mkPolicies {
  po_world : World;
  po_policies : gmap string NetPolicy;
  po_rules : gmap string NetRule;
  po_apps : gmap string App;
  po_grants : gmap (string * string * string) string;
  po_net : gmap string Applied;
  po_launch : gmap string (gmap string string)
}.

Definition po_set_world (w : World) (s : Policies) : Policies :=
  mkPolicies w s.(po_policies) s.(po_rules) s.(po_apps) s.(po_grants) s.(po_net) s.(po_launch).
Definition po_set_policies (p : gmap string NetPolicy) (s : Policies) : Policies :=
  mkPolicies s.(po_world) p s.(po_rules) s.(po_apps) s.(po_grants) s.(po_net) s.(po_launch).
Definition po_set_rules (r : gmap string NetRule) (s : Policies) : Policies :=
  mkPolicies s.(po_world) s.(po_policies) r s.(po_apps) s.(po_grants) s.(po_net) s.(po_launch).
Definition po_set_apps (a : gmap string App) (s : Policies) : Policies :=
  mkPolicies s.(po_world) s.(po_policies) s.(po_rules) a s.(po_grants) s.(po_net) s.(po_launch).
Definition po_set_grants (g : gmap (string * string * string) string) (s : Policies) : Policies :=
  mkPolicies s.(po_world) s.(po_policies) s.(po_rules) s.(po_apps) g s.(po_net) s.(po_launch).
Definition po_set_net (n : gmap string Applied) (s : Policies) : Policies :=
  mkPolicies s.(po_world) s.(po_policies) s.(po_rules) s.(po_apps) s.(po_grants) n s.(po_launch).
Definition po_set_launch (l : gmap string (gmap string string)) (s : Policies) : Policies :=
  mkPolicies s.(po_world) s.(po_policies) s.(po_rules) s.(po_apps) s.(po_grants) s.(po_net) l.

Definition po_on_world {A} (m : M World A) : M Policies A := λ s, let '(r, w) := m s.(po_world) in (r, po_set_world w s).

(** A transaction: the tables roll back, what a runtime was told stays. *)
Definition po_restore (old s : Policies) : Policies :=
  mkPolicies (put_db old.(po_world).(w_db) s.(po_world)) old.(po_policies) old.(po_rules) old.(po_apps) old.(po_grants)
    s.(po_net) s.(po_launch).
Definition po_session {A} (m : M Policies A) : M Policies A := transaction (λ s, s) po_restore m.

(** ** Statements *)

(** Source: src/db/generated/query.py:1047-1050 [GET_SANDBOX_NETWORK_POLICY]. *)
Definition get_sandbox_network_policy (sandbox_id : string) (s : Policies) : option NetPolicy := s.(po_policies) !! sandbox_id.

(** Source: src/db/generated/query.py:2564-2575 [UPSERT_SANDBOX_NETWORK_POLICY].
    A policy that exists keeps its id. *)
Definition upsert_sandbox_network_policy (id sandbox_id default_action : string) (allow_dns : bool) (s : Policies) : Policies :=
  let id := match s.(po_policies) !! sandbox_id with Some p => p.(np_id) | None => id end in
  po_set_policies (<[sandbox_id := mkNetPolicy id default_action allow_dns]> s.(po_policies)) s.

(** Source: src/db/generated/query.py:485-491 [CREATE_SANDBOX_NETWORK_RULE]. *)
Definition create_sandbox_network_rule (id : string) (r : NetRule) (s : Policies) : Policies :=
  po_set_rules (<[id := r]> s.(po_rules)) s.

(** Source: src/db/generated/query.py:1053-1055 [GET_SANDBOX_NETWORK_RULE]. *)
Definition get_sandbox_network_rule (id : string) (s : Policies) : option NetRule := s.(po_rules) !! id.

(** Source: src/db/generated/query.py:753-755 [DELETE_SANDBOX_NETWORK_RULE]. *)
Definition delete_sandbox_network_rule (id : string) (s : Policies) : Policies := po_set_rules (delete id s.(po_rules)) s.

(** Source: src/db/generated/query.py:1594-1598 [LIST_SANDBOX_NETWORK_RULES]. *)
Definition list_sandbox_network_rules (policy_id : string) (s : Policies) : list (string * NetRule) :=
  order_by (λ p, (p.2.(nr_created_at), 0)) (filter (λ p, p.2.(nr_policy_id) = policy_id) (map_to_list s.(po_rules))).

(** Source: src/db/generated/query.py:2578-2588 [UPSERT_SANDBOX_PERMISSION]. *)
Definition upsert_sandbox_permission (sandbox_id permission action effect : string) (d : Db) : Db :=
  mkDb d.(sandboxes) d.(jobs) d.(snapshots) d.(sandbox_labels) d.(usage_labels) d.(workspace_quotas) d.(label_quotas)
    (<[(sandbox_id, permission, action) := effect]> d.(sandbox_permissions)) d.(pool_sandboxes) d.(servers) d.(workspaces)
    d.(profile_bytes) d.(next_seq).

(** Source: src/db/generated/query.py:1293-1297 [LIST_APPS_BY_WORKSPACE]. *)
Definition list_apps_by_workspace (workspace_id : string) (s : Policies) : list (string * App) :=
  merge_sort (λ a b, String.le a.2.(ap_name) b.2.(ap_name))
    (filter (λ p, p.2.(ap_workspace_id) = Some workspace_id ∨ p.2.(ap_workspace_id) = None) (map_to_list s.(po_apps))).

(** Source: src/db/generated/query.py:283-287 [CREATE_APP]. *)
Definition create_app (id : string) (a : App) (s : Policies) : Policies := po_set_apps (<[id := a]> s.(po_apps)) s.

(** Source: src/db/generated/query.py:1165-1173 [GRANT_SANDBOX_APP_PERMISSION]. *)
Definition grant_sandbox_app_permission (sandbox_id app_id action effect : string) (s : Policies) : Policies :=
  po_set_grants (<[(sandbox_id, app_id, action) := effect]> s.(po_grants)) s.

(** Source: src/db/generated/query.py:1535-1541 [LIST_SANDBOX_APP_PERMISSIONS].
    Application, action and effect. *)
Definition list_sandbox_app_permissions (sandbox_id : string) (s : Policies) : list (App * string * string) :=
  merge_sort (λ a b, String.le a.1.1.(ap_name) b.1.1.(ap_name))
    (omap (λ g : string * string * string * string,
       if bool_decide (g.1.1.1 = sandbox_id) then (λ a, (a, g.1.2, g.2)) <$> s.(po_apps) !! g.1.1.2 else None)
       (map_to_list s.(po_grants))).

(** ** Enforcing *)

(** Source: src/apps/server/security.py:17-17 [APP_ACTION]. *)
Definition APP_ACTION : string := "launch".

(** Source: src/apps/server/egress.py:13-15 [proxied]. *)
Definition proxied (a : Applied) : bool :=
  bool_decide (a.(an_default_action) = "deny") || existsb (λ r, bool_decide (r.1.1 = RDomain)) a.(an_rules).

(** Source: src/apps/server/security.py:202-205 [enforce].  What a policy tells. *)
Definition applied_of (p : NetPolicy) (s : Policies) : Applied :=
  mkApplied p.(np_default_action) p.(np_allow_dns)
    ((λ r : string * NetRule, (r.2.(nr_type), r.2.(nr_value), r.2.(nr_effect))) <$> list_sandbox_network_rules p.(np_id) s).

(** Source: src/apps/server/security.py:208-212 [enforce].  The dict of effects by
    binary; a later row of the same binary wins. *)
Definition effects_of (sandbox_id : string) (s : Policies) : gmap string string :=
  foldl (λ m g, if bool_decide (g.1.2 = APP_ACTION) then <[g.1.1.(ap_slug) := g.2]> m else m) ∅
    (list_sandbox_app_permissions sandbox_id s).

Section policy.
(** The runtimes: whether they take a network policy and effects of
    applications, and the applications installed (name and binary). *)
Context (take_network : string → Applied → result exn unit) (take_apps : string → gmap string string → result exn unit).
Context (installed : string → result exn (list (string * string))).

(** Source: src/apps/server/runtime.py:301-302 [apply_network]. *)
Definition apply_network (runtime_id : string) (a : Applied) : M Policies unit :=
  match take_network runtime_id a with
  | Ok _ => modify (λ s, po_set_net (<[runtime_id := a]> s.(po_net)) s)
  | Err e => raise e
  end.

(** Source: src/apps/server/runtime.py:305-306 [apply_apps]. *)
Definition apply_apps (runtime_id : string) (effects : gmap string string) : M Policies unit :=
  match take_apps runtime_id effects with
  | Ok _ => modify (λ s, po_set_launch (<[runtime_id := effects]> s.(po_launch)) s)
  | Err e => raise e
  end.

(** Source: src/apps/server/security.py:196-213 [enforce]. *)
Definition enforce (sandbox : Sandbox) : M Policies unit :=
  match str_or_none sandbox.(sb_runtime_id) with
  | Some runtime_id =>
      if bool_decide (sandbox.(sb_status) = Running) then
        policy ← gets (get_sandbox_network_policy sandbox.(sb_id));
        match policy with
        | Some p => a ← gets (applied_of p); apply_network runtime_id a
        | None => mret tt
        end;;
        effects ← gets (effects_of sandbox.(sb_id));
        apply_apps runtime_id effects
      else mret tt
  | None => mret tt
  end.

(** Source: src/apps/server/policy_api.py:303-308 [SandboxPolicyApi._enforced].  The row is
    read again; what enforcing raises becomes a 500. *)
Definition enforced {A} (sandbox_id : string) (render : Policies → A) : M Policies A :=
  found ← po_on_world (query (get_sandbox sandbox_id));
  match found with
  | Some row => try_ (enforce row) (λ e, raise (HTTPException 500 [Txt "policy could not be applied: "; Txt (exn_str e)]))
  | None => raise (HTTPException 500 [Txt "policy could not be applied: 'NoneType' object has no attribute 'status'"])
  end;;
  gets render.

(** ** Responses *)

(** Source: src/apps/server/policy_api.py:310-317 [SandboxPolicyApi._permissions]. *)
Definition permissions_response (sandbox_id : string) (s : Policies) : list (string * string * string) :=
  (λ p : string * string, (p.1, p.2, default "allow" (s.(po_world).(w_db).(sandbox_permissions) !! (sandbox_id, p.1, p.2)))) <$> PERMISSIONS.

(** Source: src/apps/server/policy_api.py:327-337 [SandboxPolicyApi._network].  Default action,
    DNS and the rules with their ids. *)
Definition network_response (sandbox_id : string) (s : Policies) : string * bool * list (string * NetRule) :=
  match get_sandbox_network_policy sandbox_id s with
  | None => ("allow", true, [])
  | Some p => (p.(np_default_action), p.(np_allow_dns), list_sandbox_network_rules p.(np_id) s)
  end.

(** Source: src/apps/server/policy_api.py:319-325 [SandboxPolicyApi._policy]. *)
Definition policy_of (id sandbox_id : string) : M Policies NetPolicy :=
  found ← gets (get_sandbox_network_policy sandbox_id);
  match found with
  | Some p => mret p
  | None =>
      modify (upsert_sandbox_network_policy id sandbox_id "allow" true);;
      mret (mkNetPolicy id "allow" true)
  end.

(** The applications with a binary, the first of each, by name. *)
Fixpoint first_of_each (seen : list string) (apps : list (string * string)) : list (string * string) :=
  match apps with
  | [] => []
  | (name, binary) :: rest =>
      if bool_decide (binary = "") || bool_decide (binary ∈ seen) then first_of_each seen rest
      else (name, binary) :: first_of_each (binary :: seen) rest
  end.

(** Source: src/apps/server/policy_api.py:339-354 [SandboxPolicyApi._apps].  Name, binary and
    effect. *)
Definition apps_response (sandbox : Sandbox) : M Policies (list (string * string * string)) :=
  match installed (default "" sandbox.(sb_runtime_id)) with
  | Err e => raise e
  | Ok apps => gets (λ s, merge_sort (λ a b, String.le (lower a.1.1) (lower b.1.1))
      ((λ a : string * string, (a.1, a.2, default "allow" (effects_of sandbox.(sb_id) s !! a.2))) <$> first_of_each [] apps))
  end.

(** ** Routes *)

(** Source: src/apps/server/policy_api.py:118-123 [list_permissions]. *)
Definition list_permissions (sandbox_id : string) (user : Member) : M Policies (list (string * string * string)) :=
  sandbox ← po_on_world (owned sandbox_id user);
  gets (permissions_response sandbox.(sb_id)).

(** Source: src/apps/server/policy_api.py:125-145 [set_permission]. *)
Definition set_permission (sandbox_id permission action effect : string) (user : Member) : M Policies (list (string * string * string)) :=
  po_session (
    sandbox ← po_on_world (owned sandbox_id user);
    guard_ (bool_decide ((permission, action) ∈ PERMISSIONS)) (HTTPException 422 [Txt "unknown permission"]);;
    po_on_world (exec (λ _, upsert_sandbox_permission sandbox.(sb_id) permission action effect));;
    gets (permissions_response sandbox.(sb_id))).

(** Source: src/apps/server/policy_api.py:147-152 [get_network]. *)
Definition get_network (sandbox_id : string) (user : Member) : M Policies (string * bool * list (string * NetRule)) :=
  sandbox ← po_on_world (owned sandbox_id user);
  gets (network_response sandbox.(sb_id)).

(** Source: src/apps/server/policy_api.py:154-168 [set_network].  [id] is the uuid drawn. *)
Definition set_network (sandbox_id default_action : string) (allow_dns : bool) (user : Member) (id : string)
    : M Policies (string * bool * list (string * NetRule)) :=
  po_session (
    sandbox ← po_on_world (owned sandbox_id user);
    modify (upsert_sandbox_network_policy id sandbox.(sb_id) default_action allow_dns);;
    enforced sandbox.(sb_id) (network_response sandbox.(sb_id))).

(** Source: src/apps/server/policy_api.py:170-188 [add_rule].  With the check of its
    payload; the uuids drawn are those of the rule and, at need, the policy. *)
Definition add_rule (sandbox_id : string) (t : rule_type) (value effect : string) (user : Member) (id policy_id : string)
    : M Policies (string * bool * list (string * NetRule)) :=
  match valid_value t value with
  | Err e => raise e
  | Ok value =>
      po_session (
        sandbox ← po_on_world (owned sandbox_id user);
        policy ← policy_of policy_id sandbox.(sb_id);
        s ← get;
        modify (create_sandbox_network_rule id (mkNetRule policy.(np_id) t (lower (strip value)) effect s.(po_world).(w_clock)));;
        enforced sandbox.(sb_id) (network_response sandbox.(sb_id)))
  end.

(** Source: src/apps/server/policy_api.py:190-203 [delete_rule]. *)
Definition delete_rule (sandbox_id rule_id : string) (user : Member) : M Policies (string * bool * list (string * NetRule)) :=
  po_session (
    sandbox ← po_on_world (owned sandbox_id user);
    policy ← gets (get_sandbox_network_policy sandbox.(sb_id));
    rule ← gets (get_sandbox_network_rule rule_id);
    guard_ (match policy, rule with Some p, Some r => bool_decide (r.(nr_policy_id) = p.(np_id)) | _, _ => false end)
      (HTTPException 404 [Txt "rule not found"]);;
    modify (delete_sandbox_network_rule rule_id);;
    enforced sandbox.(sb_id) (network_response sandbox.(sb_id))).

(** Source: src/apps/server/policy_api.py:252-257 [list_apps]. *)
Definition list_apps (sandbox_id : string) (user : Member) : M Policies (list (string * string * string)) :=
  sandbox ← po_on_world (running sandbox_id user);
  apps_response sandbox.

(** Source: src/apps/server/policy_api.py:272-286 [set_app].  The application of a binary
    that a workspace sees, made at need. *)
Definition app_of (aid workspace_id name binary : string) : M Policies string :=
  apps ← gets (list_apps_by_workspace workspace_id);
  match head (filter (λ p, p.2.(ap_slug) = binary) apps) with
  | Some (app_id, _) => mret app_id
  | None => modify (create_app aid (mkApp (Some workspace_id) name binary));; mret aid
  end.

(** Source: src/apps/server/policy_api.py:259-295 [set_app]. *)
Definition set_app (sandbox_id binary effect : string) (user : Member) (id : string) : M Policies (list (string * string * string)) :=
  po_session (
    sandbox ← po_on_world (running sandbox_id user);
    found ← match installed (default "" sandbox.(sb_runtime_id)) with Ok l => mret l | Err e => raise e end;
    match last (filter (λ a, a.2 = binary) found) with
    | None => raise (HTTPException 404 [Txt "app not installed in this sandbox"])
    | Some (name, _) =>
        app_id ← app_of id sandbox.(sb_workspace_id) name binary;
        modify (grant_sandbox_app_permission sandbox.(sb_id) app_id APP_ACTION effect);;
        enforced sandbox.(sb_id) (λ s, s);;
        apps_response sandbox
    end).
End policy.

(** ** What is in force *)










Section policy_proofs.
Context (take_network : string → Applied → result exn unit) (take_apps : string → gmap string string → result exn unit).
Context (installed : string → result exn (list (string * string))).
Abbreviation enforce := (enforce take_network take_apps).
Abbreviation enforced := (enforced take_network take_apps).










































(** A row whose status changes. *)
Definition at_row (id : string) (f : time → Db → Db) (s : Policies) : Policies :=
  po_set_world (put_db (f s.(po_world).(w_clock) s.(po_world).(w_db)) s.(po_world)) s.



(** What [mark_started] (modelled whole in Lifecycle) does to policies: the row is marked
    started and its runtime told the policies; a failure to tell it is logged, and the row
    stays started. *)
Definition started (id : string) : M Policies (result exn unit) :=
  modify (at_row id (λ now, set_sandbox_started now id));;
  row ← gets (λ s, get_sandbox id s.(po_world).(w_db));
  match row with
  | Some row => try_ (enforce row;; mret (Ok tt)) (λ e, mret (Err e))
  | None => mret (Ok tt)
  end.





End policy_proofs.

(** ** A running sandbox, whose network is closed but for one domain *)

Definition demo_policies : Policies := mkPolicies demo_access ∅ ∅ ∅ ∅ ∅ ∅.
Definition take_any (rt : string) (a : Applied) : result exn unit := Ok tt.
Definition take_effects (rt : string) (m : gmap string string) : result exn unit := Ok tt.
Definition refuse_effects (rt : string) (m : gmap string string) : result exn unit := Err (RuntimeError [Txt "no display"]).
Definition demo_installed (rt : string) : result exn (list (string * string)) := Ok [("Firefox", "firefox")].

Definition demo_closed : Policies := (set_network take_any take_effects "s1" "deny" true demo_member "p1" demo_policies).2.
Definition demo_ruled : Policies :=
  (add_rule take_any take_effects "s1" RDomain " Example.com" "allow" demo_member "r1" "p2" demo_closed).2.
Definition demo_launch : Policies := (set_app take_any take_effects demo_installed "s1" "firefox" "deny" demo_member "a1" demo_ruled).2.

Example demo_told :
  demo_launch.(po_net) !! "c1" = Some (mkApplied "deny" true [(RDomain, "example.com", "allow")]) ∧
  demo_launch.(po_launch) !! "c1" = Some {["firefox" := "deny"]} ∧
  proxied (mkApplied "deny" true []) = true ∧
  (list_apps demo_installed "s1" demo_member demo_launch).1 = Ok [("Firefox", "firefox", "deny")] ∧
  (get_network "s1" demo_member demo_launch).1 = Ok ("deny", true, [("r1", mkNetRule "p1" RDomain "example.com" "allow" 0)]) ∧
  ((delete_rule take_any take_effects "s1" "r1" demo_member demo_launch).2).(po_net) !! "c1" = Some (mkApplied "deny" true []).
Proof. by vm_compute. Qed.



(** A guest that takes no effects of applications fails the request after the
    host took the network: the tables roll back, and the sandbox stays closed
    although its policy is open. *)
Example refused_apps :
  let '(r, s) := set_network take_any refuse_effects "s1" "deny" false demo_member "p1" demo_policies in
  r = Err (HTTPException 500 [Txt "policy could not be applied: "; Txt "no display"]) ∧
  s.(po_policies) !! "s1" = None ∧ s.(po_net) !! "c1" = Some (mkApplied "deny" false []).
Proof. by vm_compute. Qed.

(** A start whose runtime refuses the effects is logged only: the sandbox runs, and its
    runtime was told nothing of the application it denies. *)
Example refused_start :
  let s0 := at_row "s1" (λ now, set_sandbox_stopped now "s1") (po_set_launch ∅ demo_launch) in
  let '(r, s) := started take_any refuse_effects "s1" s0 in
  r = Ok (Err (RuntimeError [Txt "no display"])) ∧
  (sb_status <$> s.(po_world).(w_db).(sandboxes) !! "s1") = Some Running ∧
  s.(po_launch) !! "c1" = None ∧ effects_of "s1" s = {["firefox" := "deny"]}.
Proof. by vm_compute. Qed.

(** Two requests at once: each tells the host the rules its own transaction sees,
    and after both commit the host misses one. *)
Example rules_race :
  let s1 := (add_rule take_any take_effects "s1" RIp "10.0.0.1" "allow" demo_member "r1" "p2" demo_closed).2 in
  let s2 := (add_rule take_any take_effects "s1" RIp "10.0.0.2" "allow" demo_member "r2" "p3" (po_set_net s1.(po_net) demo_closed)).2 in
  let s := po_set_rules (s1.(po_rules) ∪ s2.(po_rules)) s2 in
  s.(po_net) !! "c1" = Some (mkApplied "deny" true [(RIp, "10.0.0.2", "allow")]) ∧
  (applied_of (mkNetPolicy "p1" "deny" true) s).(an_rules) = [(RIp, "10.0.0.1", "allow"); (RIp, "10.0.0.2", "allow")].
Proof. by vm_compute. Qed.

(** A permission that is not in the table is refused, and one that is denied is
    listed so. *)
Example permissions_set :
  (set_permission "s1" "shell" "fly" "deny" demo_member demo_policies).1 = Err (HTTPException 422 [Txt "unknown permission"]) ∧
  match (set_permission "s1" "shell" "exec" "deny" demo_member demo_policies).1 with
  | Ok l => ("shell", "exec", "deny") ∈ l
  | Err _ => False
  end.
Proof. split; [by vm_compute|]. vm_compute. repeat constructor. Qed.
