(* ===== verification/Profiles.v ===== *)
(** Application profiles (src/apps/server/servers_api.py, with apply_profile of
    sandbox_api.py): an application's directory saved from a sandbox as an
    encrypted archive, its versions, and loading it into another. *)

From S2P Require Import Prelude Tables Store Codec Kms Security Labels Auth Access Platforms Vault.

(** ** Rows *)

(** Source: src/db/generated/models.py:176-185 [Profile]. *)
Record Profile := mkProfile {
  pro_workspace_id : string;
  pro_user_id : string;
  pro_name : string;
  pro_app : string;
  pro_size_bytes : Z;
  pro_created_at : time;
  pro_encrypted : bool;
  pro_platform : string
}.

(** Source: src/db/generated/models.py:188-196 [ProfileVersion]. *)
Record ProfileVersion := mkProfileVersion {
  pv_profile_id : string;
  pv_version : Z;
  pv_size_bytes : Z;
  pv_encrypted : bool;
  pv_sandbox_id : option string;
  pv_created_by : option string;
  pv_created_at : time
}.

(** The tables [profiles] and [profile_versions] beside those of [Vault], the
    objects in storage by key, and what runtimes were given: runtime, parent
    directory and archive. *)
Record Profiles := mkProfiles {
  p_vault : Vault;
  p_profiles : gmap string Profile;
  p_versions : gmap string ProfileVersion;
  p_files : gmap string string;
  p_imports : list (string * string * string)
}.

Definition put_p_vault (v : Vault) (s : Profiles) : Profiles := mkProfiles v s.(p_profiles) s.(p_versions) s.(p_files) s.(p_imports).
Definition put_profiles (p : gmap string Profile) (s : Profiles) : Profiles := mkProfiles s.(p_vault) p s.(p_versions) s.(p_files) s.(p_imports).
Definition put_versions (v : gmap string ProfileVersion) (s : Profiles) : Profiles :=
  mkProfiles s.(p_vault) s.(p_profiles) v s.(p_files) s.(p_imports).
Definition put_files (f : gmap string string) (s : Profiles) : Profiles := mkProfiles s.(p_vault) s.(p_profiles) s.(p_versions) f s.(p_imports).
Definition put_imports (i : list (string * string * string)) (s : Profiles) : Profiles :=
  mkProfiles s.(p_vault) s.(p_profiles) s.(p_versions) s.(p_files) i.

Definition on_vault {A} (m : M Vault A) : M Profiles A := λ s, let '(r, v) := m s.(p_vault) in (r, put_p_vault v s).

(** A transaction: the tables roll back; objects and sandboxes do not. *)
Definition p_restore (old s : Profiles) : Profiles :=
  mkProfiles (Vault.restore old.(p_vault) s.(p_vault)) old.(p_profiles) old.(p_versions) s.(p_files) s.(p_imports).
Definition p_session {A} (m : M Profiles A) : M Profiles A := transaction (λ s, s) p_restore m.
Definition p_now (s : Profiles) : time := now_of s.(p_vault).

(** ** Statements *)

(** Source: src/db/generated/query.py:992-994 [GET_PROFILE]. *)
Definition get_profile (id : string) (s : Profiles) : option Profile := s.(p_profiles) !! id.

(** Source: src/db/generated/query.py:860-862 [FIND_PROFILE].  Names are not
    unique; one of those that match. *)
Definition find_profile (workspace_id name app platform : string) (s : Profiles) : option (string * Profile) :=
  head (filter (λ p, p.2.(pro_workspace_id) = workspace_id ∧ p.2.(pro_name) = name ∧ p.2.(pro_app) = app ∧ p.2.(pro_platform) = platform)
    (map_to_list s.(p_profiles))).

(** Source: src/db/generated/query.py:1507-1509 [LIST_PROFILES_BY_WORKSPACE]. *)
Definition list_profiles_by_workspace (workspace_id : string) (s : Profiles) : list (string * Profile) :=
  reverse (order_by (λ p, (p.2.(pro_created_at), 0)) (filter (λ p, p.2.(pro_workspace_id) = workspace_id) (map_to_list s.(p_profiles)))).

(** Source: src/db/generated/query.py:380-384 [CREATE_PROFILE]. *)
Definition create_profile (id : string) (p : Profile) (s : Profiles) : Profiles := put_profiles (<[id := p]> s.(p_profiles)) s.

(** Source: src/db/generated/query.py:1961-1964 [RENAME_PROFILE]. *)
Definition rename_profile (name id : string) (s : Profiles) : Profiles :=
  put_profiles (alter (λ p, mkProfile p.(pro_workspace_id) p.(pro_user_id) name p.(pro_app) p.(pro_size_bytes) p.(pro_created_at)
    p.(pro_encrypted) p.(pro_platform)) id s.(p_profiles)) s.

(** Source: src/db/generated/query.py:2134-2136 [SET_PROFILE_LATEST]. *)
Definition set_profile_latest (size_bytes : Z) (encrypted : bool) (id : string) (s : Profiles) : Profiles :=
  put_profiles (alter (λ p, mkProfile p.(pro_workspace_id) p.(pro_user_id) p.(pro_name) p.(pro_app) size_bytes p.(pro_created_at)
    encrypted p.(pro_platform)) id s.(p_profiles)) s.

(** Source: src/db/generated/query.py:717-719 [DELETE_PROFILE].  Its versions go
    with it (ON DELETE CASCADE). *)
Definition delete_profile (id : string) (s : Profiles) : Profiles :=
  put_versions (filter (λ p : string * ProfileVersion, p.2.(pv_profile_id) ≠ id) s.(p_versions)) (put_profiles (delete id s.(p_profiles)) s).

Definition versions_of (profile_id : string) (s : Profiles) : list (string * ProfileVersion) :=
  filter (λ p, p.2.(pv_profile_id) = profile_id) (map_to_list s.(p_versions)).

(** Source: src/db/generated/query.py:1502-1504 [LIST_PROFILE_VERSIONS]. *)
Definition list_profile_versions (profile_id : string) (s : Profiles) : list (string * ProfileVersion) :=
  reverse (order_by (λ p, (p.2.(pv_version), 0)) (versions_of profile_id s)).

(** Source: src/db/generated/query.py:955-957 [GET_LATEST_PROFILE_VERSION]. *)
Definition get_latest_profile_version (profile_id : string) (s : Profiles) : option (string * ProfileVersion) :=
  head (list_profile_versions profile_id s).

(** Source: src/db/generated/query.py:997-999 [GET_PROFILE_VERSION]. *)
Definition get_profile_version (profile_id : string) (version : Z) (s : Profiles) : option (string * ProfileVersion) :=
  head (filter (λ p, p.2.(pv_version) = version) (versions_of profile_id s)).

(** Source: src/db/generated/query.py:398-402 [CREATE_PROFILE_VERSION].  The next number. *)
Definition next_version (profile_id : string) (s : Profiles) : Z :=
  foldr (λ p m, Z.max p.2.(pv_version) m) 0 (versions_of profile_id s) + 1.

(** Source: src/db/generated/query.py:398-402 [CREATE_PROFILE_VERSION].  The profile
    must exist and the id be new. *)
Definition create_profile_version (id profile_id : string) (size_bytes : Z) (encrypted : bool) (sandbox_id created_by : string)
    : M Profiles ProfileVersion :=
  s ← get;
  guard_ (negb (is_none (s.(p_profiles) !! profile_id)) && is_none (s.(p_versions) !! id)) IntegrityError;;
  let v := mkProfileVersion profile_id (next_version profile_id s) size_bytes encrypted (Some sandbox_id) (Some created_by) (p_now s) in
  modify (put_versions (<[id := v]> s.(p_versions)));;
  mret v.

(** Source: src/db/generated/query.py:722-724 [DELETE_PROFILE_VERSION]. *)
Definition delete_profile_version (id : string) (s : Profiles) : Profiles := put_versions (delete id s.(p_versions)) s.

(** ** Where profiles are *)

(** Source: src/apps/server/sandbox_api.py:115-117 [profile_key]. *)
Definition profile_key (version_id : string) : string := "profiles/" +:+ version_id +:+ ".tar".

(** Source: src/apps/server/sandbox_api.py:121-142 [PROFILE_APPS]. *)
Definition PROFILE_APPS : list (string * list (string * string)) :=
  [("linux", [("firefox", ".mozilla"); ("chromium", ".config/chromium"); ("chrome", ".config/google-chrome"); ("vscode", ".config/Code")]);
   ("macos", [("safari", "Library/Containers/com.apple.Safari"); ("chrome", "Library/Application Support/Google/Chrome");
      ("edge", "Library/Application Support/Microsoft Edge"); ("firefox", "Library/Application Support/Firefox");
      ("vscode", "Library/Application Support/Code")]);
   ("windows", [("chrome", "AppData/Local/Google/Chrome/User Data"); ("edge", "AppData/Local/Microsoft/Edge/User Data");
      ("firefox", "AppData/Roaming/Mozilla/Firefox"); ("vscode", "AppData/Roaming/Code")])].

Definition assoc {A} (k : string) (l : list (string * A)) : option A := snd <$> head (filter (λ p, p.1 = k) l).
Definition apps_of (platform : string) : list (string * string) := default [] (assoc platform PROFILE_APPS).

(** Source: src/apps/server/servers_api.py:166-166 [MAX_PROFILE_VERSIONS]. *)
Definition MAX_PROFILE_VERSIONS : nat := 10.

(** Source: src/apps/server/servers_api.py:167-174 [PROFILE_LABELS]. *)
Definition PROFILE_LABELS : list (string * string) :=
  [("firefox", "Firefox"); ("chromium", "Chromium"); ("chrome", "Chrome"); ("vscode", "VS Code"); ("safari", "Safari"); ("edge", "Edge")].

(** [os.path.dirname] *)
Definition dirname (path : string) : string := rstrip "/"%char (String.concat "/" (removelast (split "/"%char path))).

Section profiles.
(** The user of macOS VMs. *)
Context (ZOO_MACOS_USER : string).

(** Source: src/apps/server/sandbox_api.py:143-143 [PROFILE_HOMES]. *)
Definition PROFILE_HOMES : list (string * string) :=
  [("linux", "/home/zoo"); ("macos", "/Users/" +:+ ZOO_MACOS_USER); ("windows", "C:\Users\zoo")].

(** Source: src/apps/server/sandbox_api.py:150-151 [profile_path]. *)
Definition profile_path (platform app : string) : result exn string :=
  match assoc platform PROFILE_HOMES, assoc app (apps_of platform) with
  | Some home, Some dir => Ok (home +:+ "/" +:+ dir)
  | None, _ => Err (KeyError platform)
  | _, None => Err (KeyError app)
  end.

(** Object storage's answers by method and key; what a runtime exports, whether
    it imports, and whether an application runs in it. *)
Context (answers : string → string → result exn unit).
Context (export_dir : string → string → result exn string) (import_dir : string → string → string → result exn unit).
Context (app_running : string → string → result exn bool).
Context (ciphers : Ciphers) (seal : string → string → string → string) (open_ : string → string → option string).

Definition of_result {A} (r : result exn A) : M Profiles A := match r with Ok a => mret a | Err e => raise e end.

(** Source: src/apps/server/objects.py:99-102 [put]. *)
Definition put_object (key data : string) : M Profiles unit :=
  of_result (answers "PUT" key);; modify (λ s, put_files (<[key := data]> s.(p_files)) s).

(** Source: src/apps/server/objects.py:105-112 [get].  FileNotFoundError's text is the key. *)
Definition get_object (key : string) : M Profiles string :=
  of_result (answers "GET" key);;
  s ← get;
  match s.(p_files) !! key with Some data => mret data | None => raise (RuntimeError [Txt key]) end.

(** Source: src/apps/server/objects.py:185-188 [delete]. *)
Definition delete_object (key : string) : M Profiles unit :=
  of_result (answers "DELETE" key);; modify (λ s, put_files (delete key s.(p_files)) s).

(** Source: src/apps/server/servers_api.py:239-240 [remove_version_file]. *)
Definition remove_version_file (version_id : string) : M Profiles unit := delete_object (profile_key version_id).

(** ** Responses *)

(** Source: src/apps/server/servers_api.py:146-155 [ProfileResponse]. *)
Record ProfileResponse := mkProfileResponse {
  pr_id : string;
  pr_name : string;
  pr_app : string;
  pr_platform : string;
  pr_size_bytes : Z;
  pr_version : Z;
  pr_versions : nat;
  pr_created_at : time;
  pr_updated_at : time
}.

(** Source: src/apps/server/servers_api.py:214-227 [profile_response]. *)
Definition profile_response (id : string) (p : Profile) (s : Profiles) : ProfileResponse :=
  let versions := list_profile_versions id s in
  match head versions with
  | Some (_, latest) => mkProfileResponse id p.(pro_name) p.(pro_app) p.(pro_platform) latest.(pv_size_bytes) latest.(pv_version)
      (length versions) p.(pro_created_at) latest.(pv_created_at)
  | None => mkProfileResponse id p.(pro_name) p.(pro_app) p.(pro_platform) p.(pro_size_bytes) 0 (length versions) p.(pro_created_at) p.(pro_created_at)
  end.

(** Source: src/apps/server/servers_api.py:386-390 [ServersApi.profile]. *)
Definition profile (profile_id : string) (user : Member) : M Profiles Profile :=
  found ← gets (get_profile profile_id);
  match found with
  | Some p => guard_ (bool_decide (p.(pro_workspace_id) = user.(m_workspace_id))) (HTTPException 404 [Txt "profile not found"]);; mret p
  | None => raise (HTTPException 404 [Txt "profile not found"])
  end.

Definition p_audit (user : Member) (action profile_id : string) (sandbox_id : option string) (metadata : list (string * json)) : M Profiles unit :=
  on_vault (audit user action "profile" profile_id sandbox_id metadata).

Definition find_running (sandbox_id : string) (user : Member) : M Profiles Sandbox := on_vault (on_world (running sandbox_id user)).
Definition runtime_of (s : Sandbox) : string := default "" s.(sb_runtime_id).

(** ** Routes *)

(** Source: src/apps/server/servers_api.py:135-139 [ProfileRequest]. *)
Record ProfileRequest := mkProfileRequest { rq_name : string; rq_app : string; rq_profile_id : option string }.

(** Source: src/apps/server/servers_api.py:586-590 [list_profiles]. *)
Definition list_profiles (user : Member) (s : Profiles) : list ProfileResponse :=
  (λ p, profile_response p.1 p.2 s) <$> list_profiles_by_workspace user.(m_workspace_id) s.

(** Source: src/apps/server/servers_api.py:592-596 [profile_apps]. *)
Definition profile_apps (platform : string) : result exn (list (string * string)) :=
  match assoc platform PROFILE_APPS with
  | Some apps => Ok apps
  | None => Err (HTTPException 422 [Txt "platform must be one of "; Txt (String.concat ", " PROFILE_APPS.*1)])
  end.

(** Source: src/apps/server/servers_api.py:602-620 [capture_profile].  The checks, and
    the profile that gets a new version. *)
Definition capture_checks (sandbox_id : string) (payload : ProfileRequest) (user : Member)
    : M Profiles (Sandbox * string * option (string * Profile)) :=
  p_session (
    sandbox ← find_running sandbox_id user;
    let platform := platform_of sandbox.(sb_kind) in
    guard_ (bool_decide (payload.(rq_app) ∈ (apps_of platform).*1))
      (HTTPException 422 [Txt "app must be one of "; Txt (String.concat ", " (apps_of platform).*1)]);;
    match payload.(rq_profile_id) with
    | Some id =>
        existing ← profile id user;
        guard_ (bool_decide (existing.(pro_app) = payload.(rq_app)) && bool_decide (existing.(pro_platform) = platform))
          (HTTPException 400 [Txt "that profile holds "; Txt existing.(pro_platform); Txt " "; Txt existing.(pro_app); Txt ", not ";
             Txt platform; Txt " "; Txt payload.(rq_app)]);;
        mret (sandbox, platform, Some (id, existing))
    | None => gets (λ s, (sandbox, platform, find_profile user.(m_workspace_id) payload.(rq_name) payload.(rq_app) platform s))
    end).

(** Source: src/apps/server/servers_api.py:621-628 [capture_profile].  What the sandbox
    exports is encrypted and stored under the version's id. *)
Definition capture_store (sandbox : Sandbox) (platform app version_id : string) (user : Member) (dr : Draws) : M Profiles string :=
  data ← try_ (path ← of_result (profile_path platform app); of_result (export_dir (runtime_of sandbox) path))
    (λ _, raise (HTTPException 404 [Txt "no "; Txt app; Txt " profile in this sandbox yet"]));
  token ← p_session (on_vault (encrypt ciphers seal data user.(m_workspace_id) dr));
  put_object (profile_key version_id) token;;
  mret data.

(** Source: src/apps/server/servers_api.py:629-671 [capture_profile].  The version is
    booked, and those beyond the last ten go. *)
Definition capture_save (sandbox_id platform : string) (payload : ProfileRequest) (existing : option (string * Profile)) (data : string)
    (user : Member) (version_id profile_id : string) : M Profiles ProfileResponse :=
  p_session (
    p ← match existing with
        | Some p => mret p
        | None =>
            s ← get;
            let p := mkProfile user.(m_workspace_id) user.(m_id) payload.(rq_name) payload.(rq_app) (Z.of_nat (String.length data))
                       (p_now s) true platform in
            guard_ (is_none (s.(p_profiles) !! profile_id)) IntegrityError;;
            modify (create_profile profile_id p);;
            mret (profile_id, p)
        end;
    let '(id, p) := p in
    version ← create_profile_version version_id id (Z.of_nat (String.length data)) true sandbox_id user.(m_id);
    modify (set_profile_latest (Z.of_nat (String.length data)) true id);;
    versions ← gets (list_profile_versions id);
    for_ (drop MAX_PROFILE_VERSIONS versions) (λ old, modify (delete_profile_version old.1);; remove_version_file old.1);;
    p_audit user "profile.capture" id (Some sandbox_id)
      [("name", JStr p.(pro_name)); ("app", JStr p.(pro_app)); ("version", JInt version.(pv_version))];;
    gets (profile_response id p)).

(** Source: src/apps/server/servers_api.py:598-671 [capture_profile].  The uuids drawn are
    those of the version and, at need, of the profile. *)
Definition capture_profile (sandbox_id : string) (payload : ProfileRequest) (user : Member) (version_id profile_id : string) (dr : Draws)
    : M Profiles ProfileResponse :=
  found ← capture_checks sandbox_id payload user;
  let '(sandbox, platform, existing) := found in
  data ← capture_store sandbox platform payload.(rq_app) version_id user dr;
  capture_save sandbox.(sb_id) platform payload existing data user version_id profile_id.

(** Source: src/apps/server/sandbox_api.py:1465-1476 [SandboxApi.apply_profile]. *)
Definition load_profile (runtime_id : string) (id : string) (p : Profile) (version : option (string * ProfileVersion)) : M Profiles unit :=
  version ← match version with
            | Some v => mret v
            | None =>
                found ← p_session (gets (get_latest_profile_version id));
                match found with
                | Some v => mret v
                | None => raise (RuntimeError [Txt "profile "; Txt p.(pro_name); Txt " has no saved version"])
                end
            end;
  path ← of_result (profile_path p.(pro_platform) p.(pro_app));
  data ← get_object (profile_key version.1);
  data ← (if version.2.(pv_encrypted) then on_vault (decrypt ciphers open_ data) else mret data);
  of_result (import_dir runtime_id (dirname path) data);;
  modify (λ s, put_imports (s.(p_imports) ++ [(runtime_id, dirname path, data)]) s).

(** Source: src/apps/server/servers_api.py:673-712 [apply_profile]. *)
Definition apply_profile (sandbox_id profile_id : string) (version : option Z) (user : Member) : M Profiles ProfileResponse :=
  found ← p_session (
    sandbox ← find_running sandbox_id user;
    p ← profile profile_id user;
    chosen ← gets (λ s, match version with
                        | None => get_latest_profile_version profile_id s
                        | Some n => get_profile_version profile_id n s
                        end);
    mret (sandbox, p, chosen));
  let '(sandbox, p, chosen) := found in
  match chosen with
  | None => raise (HTTPException 404 [Txt "profile version not found"])
  | Some v =>
      guard_ (bool_decide (p.(pro_platform) = platform_of sandbox.(sb_kind)))
        (HTTPException 400 [Txt "this profile is from a "; Txt p.(pro_platform); Txt " sandbox"]);;
      let label := default p.(pro_app) (assoc p.(pro_app) PROFILE_LABELS) in
      busy ← try_ (of_result (app_running (runtime_of sandbox) p.(pro_app)))
        (λ e, raise (HTTPException 503 [Txt "couldn't check whether "; Txt label; Txt " is running: "; Txt (exn_text e)]));
      guard_ (negb busy) (HTTPException 409 [Txt label; Txt " is running in this sandbox; quit it, then load the profile"]);;
      load_profile (runtime_of sandbox) profile_id p (Some v);;
      p_session (
        p_audit user "profile.load" profile_id (Some sandbox.(sb_id))
          [("name", JStr p.(pro_name)); ("app", JStr p.(pro_app)); ("version", JInt v.2.(pv_version))];;
        gets (profile_response profile_id p))
  end.

(** Source: src/apps/server/servers_api.py:714-719 [list_profile_versions]. *)
Definition list_profile_versions_route (profile_id : string) (user : Member) : M Profiles (list (Z * Z * option string * time)) :=
  _ ← profile profile_id user;
  gets (λ s, (λ v : string * ProfileVersion, (v.2.(pv_version), v.2.(pv_size_bytes), v.2.(pv_sandbox_id), v.2.(pv_created_at)))
    <$> list_profile_versions profile_id s).

(** Source: src/apps/server/servers_api.py:721-740 [delete_profile_version]. *)
Definition delete_profile_version_route (profile_id : string) (version : Z) (user : Member) : M Profiles ProfileResponse :=
  p_session (
    p ← profile profile_id user;
    found ← gets (get_profile_version profile_id version);
    match found with
    | None => raise (HTTPException 404 [Txt "profile version not found"])
    | Some (version_id, _) =>
        versions ← gets (list_profile_versions profile_id);
        guard_ (negb (length versions =? 1)%nat) (HTTPException 409 [Txt "that's the only version; delete the profile instead"]);;
        modify (delete_profile_version version_id);;
        latest ← gets (get_latest_profile_version profile_id);
        match latest with
        | None => raise AssertionError
        | Some (_, l) =>
            modify (set_profile_latest l.(pv_size_bytes) l.(pv_encrypted) profile_id);;
            p_audit user "profile.delete_version" profile_id None [("name", JStr p.(pro_name)); ("version", JInt version)];;
            remove_version_file version_id;;
            gets (profile_response profile_id p)
        end
    end).

(** Source: src/apps/server/servers_api.py:742-753 [rename_profile]. *)
Definition rename_profile_route (profile_id name : string) (user : Member) : M Profiles ProfileResponse :=
  p_session (
    p ← profile profile_id user;
    modify (rename_profile (strip name) profile_id);;
    found ← gets (get_profile profile_id);
    match found with
    | None => raise AssertionError
    | Some renamed =>
        p_audit user "profile.rename" profile_id None [("name", JStr renamed.(pro_name)); ("previous", JStr p.(pro_name))];;
        gets (profile_response profile_id renamed)
    end).

(** Source: src/apps/server/servers_api.py:755-764 [delete_profile]. *)
Definition delete_profile_route (profile_id : string) (user : Member) : M Profiles unit :=
  p_session (
    p ← profile profile_id user;
    versions ← gets (list_profile_versions profile_id);
    modify (delete_profile profile_id);;
    p_audit user "profile.delete" profile_id None [("name", JStr p.(pro_name)); ("app", JStr p.(pro_app))];;
    for_ versions (λ v, remove_version_file v.1)).
End profiles.

(** ** What is kept *)
Lemma profile_key_inj i j : profile_key i = profile_key j → i = j.
Proof.
  unfold profile_key. intros H. apply (inj (String.app "profiles/")) in H. by apply string_app_inj_r in H.
Qed.

Lemma elem_of_versions id i v s : (i, v) ∈ versions_of id s ↔ s.(p_versions) !! i = Some v ∧ v.(pv_profile_id) = id.
Proof. unfold versions_of. rewrite list_elem_of_filter, elem_of_map_to_list. simpl. tauto. Qed.

Lemma list_versions_perm id s : list_profile_versions id s ≡ₚ versions_of id s.
Proof. unfold list_profile_versions, order_by. by rewrite reverse_Permutation, merge_sort_Permutation. Qed.

Lemma elem_of_list_versions id i v s : (i, v) ∈ list_profile_versions id s ↔ s.(p_versions) !! i = Some v ∧ v.(pv_profile_id) = id.
Proof. by rewrite list_versions_perm, elem_of_versions. Qed.

Lemma NoDup_versions id s : NoDup (versions_of id s).
Proof. apply NoDup_filter, NoDup_map_to_list. Qed.

Lemma NoDup_list_versions id s : NoDup (list_profile_versions id s).
Proof. rewrite list_versions_perm. apply NoDup_versions. Qed.

(** No more versions than a list that has them all. *)
Lemma versions_bound id s l : (∀ x, x ∈ versions_of id s → x ∈ l) → (length (versions_of id s) ≤ length l)%nat.
Proof. intros H. apply submseteq_length, NoDup_submseteq; [apply NoDup_versions|done]. Qed.

(** The first of the list has the highest number. *)
Lemma list_versions_head id s x l y :
  list_profile_versions id s = x :: l → y ∈ l → y.2.(pv_version) ≤ x.2.(pv_version).
Proof.
  unfold list_profile_versions. intros E Hy. pose proof (order_by_sorted (λ p : string * ProfileVersion, (p.2.(pv_version), 0)) (versions_of id s)) as Hs.
  apply (f_equal reverse) in E. rewrite reverse_involutive, reverse_cons in E. rewrite E in Hs. clear E.
  assert (y ∈ reverse l) as Hr by (by apply elem_of_reverse). revert Hs Hr. generalize (reverse l). intros m. induction m as [|z m IH]; [set_solver|].
  simpl. intros [Hs Hf]%StronglySorted_inv [->|Hm]%elem_of_cons; [|by apply IH].
  rewrite Forall_forall in Hf. specialize (Hf x ltac:(set_solver)). unfold row_le in Hf. simpl in Hf. lia.
Qed.

Lemma next_version_above id s i v : (i, v) ∈ versions_of id s → v.(pv_version) < next_version id s.
Proof.
  unfold next_version. generalize (versions_of id s). intros l. induction l as [|x l IH]; [set_solver|]. simpl.
  intros [<-|H]%elem_of_cons; simpl; [lia|]. specialize (IH H). lia.
Qed.

Lemma next_version_pos id s : 1 ≤ next_version id s.
Proof. unfold next_version. generalize (versions_of id s). intros l. induction l as [|x l IH]; simpl; lia. Qed.

Section profile_proofs.
Context (ZOO_MACOS_USER : string).
Context (answers : string → string → result exn unit).
Context (export_dir : string → string → result exn string) (import_dir : string → string → string → result exn unit).
Context (app_running : string → string → result exn bool).
Context (ciphers : Ciphers) `{!CiphersOk ciphers}.
Context (seal : string → string → string → string) (open_ : string → string → option string).
Context (open_seal : ∀ k iv d, open_ k (seal k iv d) = Some d).
(** Object storage deletes what it is asked to. *)
Context (deletes : ∀ key, answers "DELETE" key = Ok tt).

Abbreviation coherent := (coherent ciphers).
Abbreviation advances := (advances ciphers).
Abbreviation stored := (stored ciphers seal).
Abbreviation plain := (plain ciphers open_).
Abbreviation keys s := s.(p_vault).(v_keys).
Abbreviation keys_ok := (keys_ok ciphers).

(** The archive of a version. *)
Definition filed (k : Keys) (files : gmap string string) (i : string) (v : ProfileVersion) : Prop :=
  v.(pv_encrypted) = true ∧ ∃ token, files !! profile_key i = Some token ∧ stored k token ∧
    Z.of_nat (String.length (plain k token)) = v.(pv_size_bytes).

(** The profile's row is that of its latest version. *)
Definition latest_is (id : string) (p : Profile) (s : Profiles) : Prop :=
  ∃ i v, s.(p_versions) !! i = Some v ∧ v.(pv_profile_id) = id ∧
    (∀ j w, s.(p_versions) !! j = Some w → w.(pv_profile_id) = id → w.(pv_version) ≤ v.(pv_version)) ∧
    p.(pro_size_bytes) = v.(pv_size_bytes) ∧ p.(pro_encrypted) = v.(pv_encrypted).

(** Everything, but for the number of versions of one profile and which is its
    latest. *)
Record but (o : option string) (s : Profiles) : Prop := {
  bu_keys : keys_ok (keys s);
  bu_owner : ∀ i v, s.(p_versions) !! i = Some v → is_Some (s.(p_profiles) !! v.(pv_profile_id)) ∧ 1 ≤ v.(pv_version);
  bu_unique : ∀ i j v w, s.(p_versions) !! i = Some v → s.(p_versions) !! j = Some w →
    v.(pv_profile_id) = w.(pv_profile_id) → v.(pv_version) = w.(pv_version) → i = j;
  bu_few : ∀ id, Some id ≠ o → (length (versions_of id s) ≤ MAX_PROFILE_VERSIONS)%nat;
  bu_latest : ∀ id p, Some id ≠ o → s.(p_profiles) !! id = Some p → latest_is id p s;
  bu_files : ∀ i v, s.(p_versions) !! i = Some v → filed (keys s) s.(p_files) i v
}.

(** Profiles are whole: each has between one and ten versions with numbers of
    their own, its row says the size of the latest, and every version's archive
    is in storage and opens to as many bytes as the row says. *)
Definition whole (s : Profiles) : Prop := but None s.

Lemma filed_advances k k' files files' i v :
  coherent k → advances k k' → files' !! profile_key i = files !! profile_key i → filed k files i v → filed k' files' i v.
Proof.
  intros Hc Ha Hf (He & token & Ht & Hs & Hl). split; [done|]. exists token. rewrite Hf. split; [done|].
  by destruct (stored_advances ciphers seal open_ open_seal k k' token Hs Hc Ha) as [? ->].
Qed.

(** Keys may be made and cached, and other objects stored. *)
Lemma whole_weaken s s' :
  whole s → s'.(p_profiles) = s.(p_profiles) → s'.(p_versions) = s.(p_versions) → keys_ok (keys s') → advances (keys s) (keys s') →
  (∀ i, is_Some (s.(p_versions) !! i) → s'.(p_files) !! profile_key i = s.(p_files) !! profile_key i) → whole s'.
Proof.
  intros [] Ep Ev Hk Ha Hf. split; unfold latest_is, versions_of; rewrite ?Ep, ?Ev; [done..|].
  intros i v Hi. eapply filed_advances; [apply bu_keys0|done|by apply Hf; eexists|by apply bu_files0].
Qed.

(** A set of versions goes, with their archives. *)
Record swept (D : list string) (s s' : Profiles) : Prop := {
  sw_versions : ∀ i, s'.(p_versions) !! i = if decide (i ∈ D) then None else s.(p_versions) !! i;
  sw_files : ∀ i, s'.(p_files) !! profile_key i = if decide (i ∈ D) then None else s.(p_files) !! profile_key i
}.

Lemma swept_Some D s s' i v : swept D s s' → s'.(p_versions) !! i = Some v → s.(p_versions) !! i = Some v ∧ i ∉ D.
Proof. intros [H _]. rewrite H. by case_decide. Qed.

(** What is left is as good as it was, where the latest version of each profile
    stays or its row is changed. *)
Lemma swept_whole D o s s' :
  but o s → swept D s s' → keys s' = keys s →
  (∀ i v, s'.(p_versions) !! i = Some v → is_Some (s'.(p_profiles) !! v.(pv_profile_id))) →
  (∀ id p, s'.(p_profiles) !! id = Some p → (Some id ≠ o → s.(p_profiles) !! id = Some p ∧ ∀ i v, i ∈ D → s.(p_versions) !! i = Some v → v.(pv_profile_id) ≠ id) ∧
     (Some id = o → latest_is id p s')) →
  (∀ id, Some id = o → (length (versions_of id s') ≤ MAX_PROFILE_VERSIONS)%nat) →
  whole s'.
Proof.
  intros [] Hsw Ek Ho Hp Hfew. split; rewrite ?Ek; [done| | | | |].
  - intros i v Hi. split; [by eapply Ho|]. apply (swept_Some _ _ _ _ _ Hsw) in Hi as [Hi _]. by eapply bu_owner0.
  - intros i j v w [Hi _]%(swept_Some _ _ _ _ _ Hsw) [Hj _]%(swept_Some _ _ _ _ _ Hsw). by eapply bu_unique0.
  - intros id _. destruct (decide (Some id = o)) as [Heq|Hne]; [by apply Hfew|]. etrans; [|by apply (bu_few0 id)]. apply versions_bound. intros [i v] [[Hi _]%(swept_Some _ _ _ _ _ Hsw) He]%elem_of_versions.
    by apply elem_of_versions.
  - intros id p _ Hid. destruct (Hp id p Hid) as [H1 H2]. destruct (decide (Some id = o)) as [Heq|Hne]; [by apply H2|].
    destruct (H1 Hne) as [Hs HD]. destruct (bu_latest0 id p Hne Hs) as (i & v & Hi & He & Hmax & Hrow). exists i, v.
    split; [rewrite (sw_versions _ _ _ Hsw); by rewrite decide_False by (intros HiD; by eapply HD)|]. split; [done|]. split; [|done].
    intros j w [Hj _]%(swept_Some _ _ _ _ _ Hsw). by apply (Hmax j).
  - intros i v Hi. destruct (swept_Some _ _ _ _ _ Hsw Hi) as [Hi' HD]. destruct (bu_files0 i v Hi') as (He & token & Ht & Hr).
    split; [done|]. exists token. split; [|done]. rewrite (sw_files _ _ _ Hsw). by rewrite decide_False.
Qed.

Lemma lookup_deletes {A} (f : string → string) `{!Inj (=) (=) f} D (m : gmap string A) i :
  foldl (λ m j, delete (f j) m) m D !! f i = if decide (i ∈ D) then None else m !! f i.
Proof.
  revert m. induction D as [|j D IH]; intros m; [by case_decide; [set_solver|]|]. cbn [foldl]. rewrite IH.
  destruct (decide (i ∈ D)) as [HD|HD]; [by rewrite decide_True by set_solver|].
  destruct (decide (i = j)) as [->|Hne]; [by rewrite lookup_delete_eq, decide_True by set_solver|].
  rewrite lookup_delete_ne by (intros ?%(inj f); congruence). by rewrite decide_False by set_solver.
Qed.

#[local] Instance profile_key_injective : Inj (=) (=) profile_key := profile_key_inj.

Definition sweep (D : list string) (s : Profiles) : Profiles :=
  put_files (foldl (λ m j, delete (profile_key j) m) s.(p_files) D) (put_versions (foldl (λ m j, delete j m) s.(p_versions) D) s).

Lemma sweep_swept D s : swept D s (sweep D s).
Proof.
  split; intros i; simpl; [exact (lookup_deletes id D s.(p_versions) i)|exact (lookup_deletes profile_key D s.(p_files) i)].
Qed.

Lemma remove_runs id s : remove_version_file answers id s = (Ok tt, put_files (delete (profile_key id) s.(p_files)) s).
Proof. unfold remove_version_file, delete_object. by rewrite deletes. Qed.

Lemma sweep_runs (l : list (string * ProfileVersion)) s :
  for_ l (λ old, modify (delete_profile_version old.1);; remove_version_file answers old.1) s = (Ok tt, sweep l.*1 s).
Proof.
  revert s. induction l as [|x l IH]; intros s; [by destruct s|]. simpl. run.
  rewrite (bind_ok _ _ _ _ _ (remove_runs _ _)), IH. done.
Qed.

Lemma files_go (l : list (string * ProfileVersion)) s :
  for_ l (λ v, remove_version_file answers v.1) s = (Ok tt, put_files (foldl (λ m j, delete (profile_key j) m) s.(p_files) l.*1) s).
Proof.
  revert s. induction l as [|x l IH]; intros s; [by destruct s|]. simpl. rewrite (bind_ok _ _ _ _ _ (remove_runs _ _)), IH. done.
Qed.

(** *** Requests *)

(** Version ids that no request draws. *)
Context (old : string → Prop).

(** Keys only advance, and the versions that are not new keep their archives. *)
Definition follows (s s' : Profiles) : Prop :=
  advances (keys s) (keys s') ∧
  ∀ i, old i → is_Some (s'.(p_versions) !! i) → is_Some (s.(p_versions) !! i) ∧ s'.(p_files) !! profile_key i = s.(p_files) !! profile_key i.

Lemma follows_refl s : coherent (keys s) → follows s s.
Proof. intros Hc. split; [by apply advances_refl|done]. Qed.

Lemma follows_trans s1 s2 s3 : follows s1 s2 → follows s2 s3 → follows s1 s3.
Proof.
  intros [Ha1 Hf1] [Ha2 Hf2]. split; [by eapply advances_trans|]. intros i Ho H3. destruct (Hf2 i Ho H3) as [H2 E2].
  destruct (Hf1 i Ho H2) as [H1 E1]. split; [done|congruence].
Qed.

Lemma swept_follows D s s' : coherent (keys s) → keys s' = keys s → swept D s s' → follows s s'.
Proof.
  intros Hc Ek [Hv Hf]. split; [rewrite Ek; by apply advances_refl|]. intros i _ Hi. rewrite Hv in Hi. rewrite Hf.
  by case_decide; [destruct Hi|].
Qed.

(** What a request that raises leaves, beside the tables. *)
Definition quiet_profiles (s s' : Profiles) : Prop :=
  (keys s').(k_cache) = (keys s).(k_cache) ∧ (keys s').(k_env) = (keys s).(k_env) ∧ s'.(p_files) = s.(p_files).

Definition sound {A} (m : M Profiles A) (s0 s : Profiles) : Prop :=
  match m s with (Ok _, s') => whole s' ∧ follows s0 s' | (Err _, s') => quiet_profiles s0 s' end.

Lemma quiet_profiles_refl s : quiet_profiles s s.
Proof. done. Qed.

(** Whatever a request does, it answers so. *)
Definition serves {A} (m : M Profiles A) (s : Profiles) : Prop := whole (m s).2 ∧ follows s (m s).2.

Lemma sound_session {A} (m : M Profiles A) s : whole s → sound m s s → serves (p_session m) s.
Proof.
  intros Hw H. unfold sound in H. unfold serves, p_session, transaction. destruct (m s) as [[a|e] s']; [done|].
  destruct H as (Hc & He & Hf). simpl. pose proof (bu_keys _ _ Hw) as Hk.
  assert (keys (p_restore s s') = keys s) as Ek by (simpl; rewrite Hc, He; by destruct (keys s)).
  assert (advances (keys s) (keys (p_restore s s'))) as Ha by (rewrite Ek; apply advances_refl, Hk). split.
  - apply (whole_weaken s); [done|done|done|by rewrite Ek|done|by rewrite <- Hf].
  - split; [done|]. intros i _ Hi. split; [exact Hi|]. by rewrite <- Hf.
Qed.

Lemma find_running_stays id user s : (find_running id user s).2 = s.
Proof.
  unfold find_running, on_vault, on_world, running. pose proof (owned_world id user s.(p_vault).(v_world)) as Hw.
  unfold mbind, M_bind. destruct (owned id user _) as [[row|e] w]; simpl in Hw; subst; [|by destruct s as [[]]].
  unfold guard_. destruct (_ && _); by destruct s as [[]].
Qed.

Lemma sound_running {B} id user (k : Sandbox → M Profiles B) s0 s :
  quiet_profiles s0 s → (∀ row, sound (k row) s0 s) → sound (find_running id user ≫= k) s0 s.
Proof.
  intros Hq Hk. unfold sound, mbind, M_bind in *. pose proof (find_running_stays id user s) as H.
  destruct (find_running id user s) as [[row|e] s']; simpl in H; subst; [apply Hk|done].
Qed.

Lemma sound_profile {B} id user (k : Profile → M Profiles B) s0 s :
  quiet_profiles s0 s → (∀ p, s.(p_profiles) !! id = Some p → p.(pro_workspace_id) = user.(m_workspace_id) → sound (k p) s0 s) →
  sound (profile id user ≫= k) s0 s.
Proof.
  intros Hq Hk. unfold profile, get_profile. unfold sound. run. destruct (p_profiles s !! id) as [p|]; [|done]. run.
  case_bool_decide; run; [by apply Hk|done].
Qed.

Lemma sound_guard {B} b e (k : unit → M Profiles B) s0 s :
  quiet_profiles s0 s → (b = true → sound (k tt) s0 s) → sound (guard_ b e ≫= k) s0 s.
Proof. destruct b; intros Hq H; [by apply H|done]. Qed.

Lemma sound_modify {B} f (k : unit → M Profiles B) s0 s : sound (k tt) s0 (f s) → sound (modify f ≫= k) s0 s.
Proof. done. Qed.

Lemma sound_gets {A B} (f : Profiles → A) (k : A → M Profiles B) s0 s : sound (k (f s)) s0 s → sound (gets f ≫= k) s0 s.
Proof. done. Qed.

Lemma sound_answer {A} (f : Profiles → A) s0 s : whole s → follows s0 s → sound (gets f) s0 s.
Proof. done. Qed.

(** The audit log is no part of it. *)
Lemma whole_audit a s : whole s → whole (put_p_vault (put_audit a s.(p_vault)) s).
Proof. intros Hw. pose proof (bu_keys _ _ Hw). apply (whole_weaken s); try done. apply advances_refl, H. Qed.

Lemma sound_audit {B} user action id sb md (k : unit → M Profiles B) s0 s :
  (∀ a, sound (k tt) s0 (put_p_vault (put_audit a s.(p_vault)) s)) → sound (p_audit user action id sb md ≫= k) s0 s.
Proof. intros Hk. exact (Hk _). Qed.

Lemma audit_sweep D a s : sweep D (put_p_vault (put_audit a s.(p_vault)) s) = put_p_vault (put_audit a s.(p_vault)) (sweep D s).
Proof. done. Qed.

Lemma delete_profile_route_whole id user s : whole s → serves (delete_profile_route answers id user) s.
Proof.
  intros Hw. apply sound_session; [done|]. apply sound_profile; [done|]. intros p Hp _.
  apply sound_gets, sound_modify, sound_audit. intros a. unfold sound. rewrite files_go.
  set (D := (list_profile_versions id s).*1).
  assert (∀ i v, i ∈ D → s.(p_versions) !! i = Some v → v.(pv_profile_id) = id) as HD.
  { intros i v ([i' v'] & -> & [Hi Hv]%elem_of_list_versions)%list_elem_of_fmap. simpl. intros. by simplify_eq. }
  assert (∀ i v, s.(p_versions) !! i = Some v → v.(pv_profile_id) = id → i ∈ D) as HD'.
  { intros i v Hi Hv. apply list_elem_of_fmap. exists (i, v). split; [done|]. by apply elem_of_list_versions. }
  match goal with |- whole ?t ∧ _ => set (s' := t) end.
  assert (swept D s s') as Hsw.
  { split; intros i; simpl; [|apply lookup_deletes, _].
    rewrite map_lookup_filter. destruct (s.(p_versions) !! i) as [v|] eqn:E; simpl; [|by case_decide].
    destruct (decide (v.(pv_profile_id) = id)) as [Hv|Hv].
    + rewrite (decide_True _ _ (HD' i v E Hv)). by rewrite option_guard_False by tauto.
    + rewrite decide_False by (intros Hi; by apply Hv, (HD i)). by rewrite option_guard_True. }
  split; [|apply (swept_follows D); [apply (bu_keys _ _ Hw)|done|done]].
  apply (swept_whole D None s); [done|done|done| | |done].
  - intros i v. simpl. intros [Hi Hv]%map_lookup_filter_Some. simpl in Hv. rewrite lookup_delete_ne by done. by apply (bu_owner _ _ Hw i v).
  - intros j q. simpl. rewrite lookup_delete. case_decide as Hj; [done|]. intros Hq. split; [|done]. intros _. split; [done|].
    intros i v Hi Hv. rewrite (HD i v Hi Hv). congruence.
Qed.

Lemma rename_whole id name user s : whole s → serves (rename_profile_route id name user) s.
Proof.
  intros Hw. apply sound_session; [done|]. apply sound_profile; [done|]. intros p Hp _.
  apply sound_modify, sound_gets. unfold get_profile. simpl. rewrite lookup_alter_eq, Hp. simpl.
  apply sound_audit. intros a. apply sound_answer; [apply whole_audit|exact (follows_refl s (ko_coherent _ _ (bu_keys _ _ Hw)))]. set (s' := rename_profile (strip name) id s).
  assert (∀ i q, s'.(p_profiles) !! i = Some q → ∃ q0, s.(p_profiles) !! i = Some q0 ∧ q.(pro_size_bytes) = q0.(pro_size_bytes) ∧ q.(pro_encrypted) = q0.(pro_encrypted)) as Hq.
  { intros i q. unfold s'. simpl. destruct (decide (i = id)) as [->|Hne]; [|rewrite lookup_alter_ne by done; eauto].
    rewrite lookup_alter_eq, Hp. intros [= <-]. by exists p. }
  destruct Hw. split; try done.
  - intros i v Hi. split; [|by eapply bu_owner0]. unfold s'. simpl. destruct (bu_owner0 i v Hi) as [[q Hqi] _].
    destruct (decide (pv_profile_id v = id)) as [->|Hne]; [rewrite lookup_alter_eq, Hp; by eexists|rewrite lookup_alter_ne by done; by eexists].
  - intros i q _ Hi. destruct (Hq i q Hi) as (q0 & Hq0 & E1 & E2). destruct (bu_latest0 i q0 ltac:(done) Hq0) as (j & v & H1 & H2 & H3 & H4 & H5).
    exists j, v. rewrite E1, E2. done.
Qed.

Lemma latest_spec id s j l :
  get_latest_profile_version id s = Some (j, l) →
  s.(p_versions) !! j = Some l ∧ l.(pv_profile_id) = id ∧
  ∀ k w, s.(p_versions) !! k = Some w → w.(pv_profile_id) = id → w.(pv_version) ≤ l.(pv_version).
Proof.
  unfold get_latest_profile_version. destruct (list_profile_versions id s) as [|x t] eqn:E; [done|]. intros [= ->].
  assert ((j, l) ∈ list_profile_versions id s) as [H1 H2]%elem_of_list_versions by (rewrite E; by left). split_and!; [done..|].
  intros k w Hk Hw. assert ((k, w) ∈ list_profile_versions id s) as H by (by apply elem_of_list_versions). rewrite E in H.
  apply elem_of_cons in H as [[= -> ->]|H]; [lia|]. exact (list_versions_head id s (j, l) t (k, w) E H).
Qed.

Lemma whole_but o s : whole s → but o s.
Proof. intros []. split; eauto. Qed.

(** The row of a profile is set to a version that is its latest. *)
Lemma row_set id size enc s i q :
  (set_profile_latest size enc id s).(p_profiles) !! i = Some q →
  (i ≠ id ∧ s.(p_profiles) !! i = Some q) ∨ (i = id ∧ q.(pro_size_bytes) = size ∧ q.(pro_encrypted) = enc).
Proof.
  simpl. destruct (decide (i = id)) as [->|Hne]; [|rewrite lookup_alter_ne by done; auto]. rewrite lookup_alter_eq.
  destruct (p_profiles s !! id); [|done]. intros [= <-]. by right.
Qed.

Lemma row_stays id size enc s i : is_Some (s.(p_profiles) !! i) → is_Some ((set_profile_latest size enc id s).(p_profiles) !! i).
Proof. simpl. rewrite lookup_alter. case_decide; [|done]. subst. by rewrite fmap_is_Some. Qed.

Lemma delete_version_whole id n user s : whole s → serves (delete_profile_version_route answers id n user) s.
Proof.
  intros Hw. apply sound_session; [done|]. apply sound_profile; [done|]. intros p Hp _. apply sound_gets.
  destruct (get_profile_version id n s) as [[vid v0]|] eqn:Ev; [|done]. apply sound_gets. apply sound_guard; [done|]. intros _.
  assert (s.(p_versions) !! vid = Some v0 ∧ v0.(pv_profile_id) = id) as [Hv0 Hid].
  { unfold get_profile_version in Ev. apply head_Some_elem_of, list_elem_of_filter in Ev as [_ Hin]. by apply elem_of_versions. }
  apply sound_modify, sound_gets. set (s1 := delete_profile_version vid s).
  destruct (get_latest_profile_version id s1) as [[j l]|] eqn:El; [|done].
  apply sound_modify, sound_audit. intros a. unfold sound. rewrite (bind_ok _ _ _ _ _ (remove_runs _ _)). cbn [gets].
  apply latest_spec in El as (Hj & Hl & Hmax).
  assert (∀ i, s1.(p_versions) !! i = if decide (i ∈ [vid]) then None else s.(p_versions) !! i) as Hs1.
  { intros i. unfold s1. simpl. destruct (decide (i = vid)) as [->|Hne]; [by rewrite lookup_delete_eq, decide_True by set_solver|].
    by rewrite lookup_delete_ne, decide_False by set_solver. }
  match goal with |- whole ?t ∧ _ => set (s' := t) end.
  assert (swept [vid] s s') as Hsw by (split; intros i; [exact (Hs1 i)|exact (lookup_deletes profile_key [vid] s.(p_files) i)]).
  split; [|apply (swept_follows [vid]); [apply (bu_keys _ _ Hw)|done|done]].
  apply (swept_whole [vid] (Some id) s); [by apply whole_but|done|done| | |].
  - intros i v Hi. apply row_stays. change (is_Some (s.(p_profiles) !! pv_profile_id v)). change (s1.(p_versions) !! i = Some v) in Hi.
    rewrite Hs1 in Hi. case_decide; [done|]. by apply (bu_owner _ _ Hw i v).
  - intros i q Hq. apply row_set in Hq as [[Hi Hq]|(-> & Hz & Hc)]; split.
    + intros _. split; [exact Hq|]. intros k v ->%list_elem_of_singleton Hk. simplify_eq. congruence.
    + intros [= ?]. done.
    + done.
    + intros _. exists j, l. split; [exact Hj|]. split; [done|]. split; [exact Hmax|]. done.
  - intros i [= ->]. etrans; [|apply (bu_few _ _ Hw id); done]. apply versions_bound. intros [i v] [Hi He]%elem_of_versions.
    apply elem_of_versions. split; [|done]. change (s1.(p_versions) !! i = Some v) in Hi. rewrite Hs1 in Hi. by case_decide.
Qed.

(** Booking a version whose archive is in storage. *)
Lemma booked id vid v s :
  but (Some id) s → s.(p_versions) !! vid = None → is_Some (s.(p_profiles) !! id) → filed (keys s) s.(p_files) vid v →
  v.(pv_profile_id) = id → v.(pv_version) = next_version id s →
  but (Some id) (put_versions (<[vid := v]> s.(p_versions)) s).
Proof.
  intros [] Hvid Hid Hfile Hvp Hvn.
  assert (∀ i w, <[vid := v]> s.(p_versions) !! i = Some w → (i = vid ∧ w = v) ∨ (i ≠ vid ∧ s.(p_versions) !! i = Some w)) as Hin.
  { intros i w. rewrite lookup_insert. case_decide; naive_solver. }
  assert (∀ i w, s.(p_versions) !! i = Some w → w.(pv_profile_id) = id → w.(pv_version) < v.(pv_version)) as Hlt.
  { intros i w Hi Hw. rewrite Hvn. by apply (next_version_above id s i w), elem_of_versions. }
  split; simpl; [done| | | | |].
  - intros i w [[-> ->]|[_ Hi]]%Hin; [|by eapply bu_owner0]. rewrite Hvp, Hvn. split; [done|apply next_version_pos].
  - intros i j w w' [[-> ->]|[Hi Hiv]]%Hin [[-> ->]|[Hj Hjv]]%Hin Hp Hn; [done| | |by eapply bu_unique0].
    + exfalso. assert (pv_version w' < pv_version v) by (apply (Hlt j w' Hjv); congruence). lia.
    + exfalso. assert (pv_version w < pv_version v) by (apply (Hlt i w Hiv); congruence). lia.
  - intros i Hi. etrans; [|by apply (bu_few0 i)]. apply versions_bound. intros [j w] [Hj Hw]%elem_of_versions. simpl in Hj.
    apply elem_of_versions. destruct (Hin j w Hj) as [[-> ->]|[_ ?]]; [congruence|done].
  - intros i p Hi Hip. destruct (bu_latest0 i p Hi Hip) as (j & w & Hj & Hw & Hmax & Hrow). exists j, w. simpl.
    split; [rewrite lookup_insert_ne by congruence; done|]. split; [done|]. split; [|done].
    intros k x [[-> ->]|[_ Hk]]%Hin Hx; [congruence|by eapply Hmax].
  - intros i w [[-> ->]|[_ Hi]]%Hin; [done|by apply bu_files0].
Qed.

(** The versions beyond the last ten are not the new one. *)
Lemma latest_not_dropped id vid v s :
  (∀ i j w w', s.(p_versions) !! i = Some w → s.(p_versions) !! j = Some w' → w.(pv_profile_id) = w'.(pv_profile_id) →
     w.(pv_version) = w'.(pv_version) → i = j) →
  s.(p_versions) !! vid = Some v → v.(pv_profile_id) = id →
  (∀ j w, s.(p_versions) !! j = Some w → w.(pv_profile_id) = id → w.(pv_version) ≤ v.(pv_version)) →
  vid ∉ (drop MAX_PROFILE_VERSIONS (list_profile_versions id s)).*1.
Proof.
  intros Hu Hv Hid Hmax ([i w] & -> & Hd)%list_elem_of_fmap. simpl in *.
  destruct (list_profile_versions id s) as [|[k x] t] eqn:E; [by apply elem_of_nil in Hd|].
  change (drop MAX_PROFILE_VERSIONS ((k, x) :: t)) with (drop 9 t) in Hd.
  assert ((i, w) ∈ t) as Ht by (rewrite <- (take_drop 9 t); apply elem_of_app; by right).
  pose proof (list_versions_head id s (k, x) t (i, w) E Ht) as Hle. simpl in Hle.
  assert ((i, w) ∈ list_profile_versions id s) as [Hi Hw]%elem_of_list_versions by (rewrite E; by right).
  assert ((k, x) ∈ list_profile_versions id s) as [Hk Hx]%elem_of_list_versions by (rewrite E; by left). simplify_eq.
  assert (k = i) as ->; [|simplify_eq].
  { apply (Hu k i x v); [done|done|done|]. specialize (Hmax k x Hk Hx). lia. }
  pose proof (NoDup_list_versions v.(pv_profile_id) s) as Hn. rewrite E in Hn. by apply NoDup_cons in Hn as [Hn _].
Qed.

(** The new version is latest, and ten are left. *)
Lemma trimmed id vid v s s' :
  but (Some id) s → s.(p_versions) !! vid = Some v → v.(pv_profile_id) = id →
  (∀ j w, s.(p_versions) !! j = Some w → w.(pv_profile_id) = id → w.(pv_version) ≤ v.(pv_version)) →
  keys s' = keys s → s'.(p_profiles) = (set_profile_latest v.(pv_size_bytes) v.(pv_encrypted) id s).(p_profiles) →
  swept (drop MAX_PROFILE_VERSIONS (list_profile_versions id s)).*1 s s' → whole s'.
Proof.
  intros Hb Hv Hid Hmax Ek Ep Hsw. set (L := list_profile_versions id s) in *. set (D := (drop MAX_PROFILE_VERSIONS L).*1) in *.
  assert (∀ i w, i ∈ D → s.(p_versions) !! i = Some w → w.(pv_profile_id) = id) as HD.
  { intros i w ([i' w'] & -> & Hd)%list_elem_of_fmap Hi. simpl in *.
    assert ((i', w') ∈ L) as [Hi' Hw']%elem_of_list_versions by (rewrite <- (take_drop MAX_PROFILE_VERSIONS L); apply elem_of_app; by right).
    congruence. }
  assert (vid ∉ D) as HnD by (apply (latest_not_dropped id vid v s); [apply Hb|done..]).
  apply (swept_whole D (Some id) s); [done|done|done| | |].
  - intros i w Hi. rewrite Ep. apply row_stays. destruct (swept_Some _ _ _ _ _ Hsw Hi) as [Hi' _]. by apply (bu_owner _ _ Hb i w).
  - intros i q Hq. rewrite Ep in Hq. apply row_set in Hq as [[Hi Hq]|(-> & Hz & Hc)]; split.
    + intros _. split; [done|]. intros k w Hk Hkw Hw. apply Hi. by rewrite <- Hw, (HD k w Hk Hkw).
    + intros [= ?]. done.
    + done.
    + intros _. exists vid, v. split; [rewrite (sw_versions _ _ _ Hsw); by rewrite decide_False|]. split; [done|]. split; [|done].
      intros j w Hj. destruct (swept_Some _ _ _ _ _ Hsw Hj) as [Hj' _]. by apply (Hmax j w).
  - intros i [= ->]. trans (length (take MAX_PROFILE_VERSIONS L)); [|rewrite length_take; lia]. apply versions_bound.
    intros [i w] [Hi Hw]%elem_of_versions. destruct (swept_Some _ _ _ _ _ Hsw Hi) as [Hi' Hni].
    assert ((i, w) ∈ L) as HL by (by apply elem_of_list_versions). rewrite <- (take_drop MAX_PROFILE_VERSIONS L) in HL.
    apply elem_of_app in HL as [HL|HL]; [done|]. exfalso. apply Hni. apply list_elem_of_fmap. by exists (i, w).
Qed.

Lemma save_whole sb platform payload existing data user vid pid s token :
  whole s → ¬ old vid → s.(p_versions) !! vid = None → s.(p_files) !! profile_key vid = Some token → stored (keys s) token →
  plain (keys s) token = data → serves (capture_save answers sb platform payload existing data user vid pid) s.
Proof.
  intros Hw Hold Hvid Hf Hst Hpl. apply sound_session; [done|]. set (size := Z.of_nat (String.length data)).
  set (tail := λ x : string * Profile, let '(id, p) := x in
    version ← create_profile_version vid id size true sb user.(m_id);
    modify (set_profile_latest size true id);;
    versions ← gets (list_profile_versions id);
    for_ (drop MAX_PROFILE_VERSIONS versions) (λ old, modify (delete_profile_version old.1);; remove_version_file answers old.1);;
    p_audit user "profile.capture" id (Some sb)
      [("name", JStr p.(pro_name)); ("app", JStr p.(pro_app)); ("version", JInt version.(pv_version))];;
    gets (profile_response id p)).
  assert (∀ id p s1, but (Some id) s1 → p_vault s1 = p_vault s → p_versions s1 = p_versions s → p_files s1 = p_files s → sound (tail (id, p)) s s1) as Htail.
  { intros id p s1 Hb Ek Ev Ef. unfold tail, create_profile_version. unfold sound. run. rewrite (bind_ok get _ s1 s1 s1 eq_refl), Ev, Hvid. destruct (p_profiles s1 !! id) as [p1|] eqn:Ep; run; [|by unfold quiet_profiles; rewrite Ek, Ef].
    set (v := mkProfileVersion id (next_version id s1) size true (Some sb) (Some (m_id user)) (p_now s1)).
    assert (but (Some id) (put_versions (<[vid := v]> s1.(p_versions)) s1)) as Hb2.
    { apply booked; [done|by rewrite Ev|by rewrite Ep; eexists| |done|done]. split; [done|]. exists token. rewrite Ek, Ef. by rewrite Hpl. }
    rewrite <- Ev. set (s2 := put_versions _ s1) in *. set (s3 := set_profile_latest size true id s2).
    rewrite (bind_ok _ _ _ _ _ (sweep_runs _ s3)). 
    match goal with |- context [p_audit user ?a ?b ?c ?d] =>
      change (sound (p_audit user a b c d;; gets (profile_response id p)) s (sweep (drop MAX_PROFILE_VERSIONS (list_profile_versions id s3)).*1 s3)) end.
    apply sound_audit. intros a. apply sound_answer.
    2:{ split; [change (advances (keys s) (keys s1)); rewrite Ek; apply advances_refl, (bu_keys _ _ Hw)|]. intros i Hi His.
      change (is_Some (p_versions (sweep (drop MAX_PROFILE_VERSIONS (list_profile_versions id s3)).*1 s3) !! i)) in His. destruct His as [w Hiw].
      destruct (swept_Some _ _ _ _ _ (sweep_swept _ s3) Hiw) as [Hiw' HnD]. change (<[vid := v]> s1.(p_versions) !! i = Some w) in Hiw'.
      rewrite lookup_insert_ne in Hiw' by congruence. rewrite <- Ev. split; [by eexists|]. rewrite <- Ef.
      pose proof (sw_files _ _ _ (sweep_swept (drop MAX_PROFILE_VERSIONS (list_profile_versions id s3)).*1 s3) i) as Hfi.
      rewrite decide_False in Hfi by done. exact Hfi. }
    apply whole_audit, (trimmed id vid v s2); [done|apply lookup_insert_eq|done| |done|done|split; apply (sweep_swept _ s3)].
    intros j w. unfold s2. simpl. rewrite lookup_insert. case_decide; [intros [= <-] _; done|]. intros Hj Hjw.
    pose proof (next_version_above id s1 j w (proj2 (elem_of_versions id j w s1) (conj Hj Hjw))). lia. }
  change (sound ((match existing with
        | Some p => mret p
        | None =>
            s ← get;
            let p := mkProfile user.(m_workspace_id) user.(m_id) payload.(rq_name) payload.(rq_app) size (p_now s) true platform in
            guard_ (is_none (s.(p_profiles) !! pid)) IntegrityError;;
            modify (create_profile pid p);;
            mret (pid, p)
        end) ≫= tail) s s).
  destruct existing as [[id p]|]; [by apply Htail; [apply whole_but|..]|].
  unfold sound. run. rewrite (bind_ok get _ s s s eq_refl). destruct (p_profiles s !! pid) eqn:Ep; run; [done|].
  match goal with |- context [tail (pid, ?q)] => set (p := q) end.
  change (sound (tail (pid, p)) s (create_profile pid p s)). apply Htail; [|done..].
  destruct Hw. split; try done.
  - intros i v Hi. split; [|by eapply bu_owner0]. simpl. rewrite lookup_insert. case_decide; [by eexists|]. by eapply bu_owner0.
  - intros i Hi. by apply (bu_few0 i).
  - intros i q Hi. simpl. rewrite lookup_insert_ne by congruence. intros Hq. by apply (bu_latest0 i q).
Qed.

(** *** Storing and loading archives *)
(** A step that makes keys or caches them. *)
Lemma whole_keys s v :
  whole s → keys_ok v.(v_keys) → advances (keys s) v.(v_keys) → whole (put_p_vault v s) ∧ follows s (put_p_vault v s).
Proof.
  intros Hw Hk Ha. split; [by apply (whole_weaken s)|]. by split.
Qed.

Lemma store_cases sandbox platform app vid user dr s :
  whole s → has_char ":"%char dr.(dr_key_id) = false → s.(p_versions) !! vid = None →
  let '(r, s') := capture_store ZOO_MACOS_USER answers export_dir ciphers seal sandbox platform app vid user dr s in
  whole s' ∧ follows s s' ∧ s'.(p_versions) = s.(p_versions) ∧
  match r with
  | Ok data => (∃ path, profile_path ZOO_MACOS_USER platform app = Ok path ∧ export_dir (runtime_of sandbox) path = Ok data) ∧
      ∃ token, s'.(p_files) !! profile_key vid = Some token ∧ stored (keys s') token ∧ plain (keys s') token = data
  | Err _ => True
  end.
Proof.
  intros Hw Hd Hvid. pose proof (follows_refl s (ko_coherent _ _ (bu_keys _ _ Hw))) as Hrefl. unfold capture_store.
  destruct (profile_path ZOO_MACOS_USER platform app) as [path|e] eqn:Ep; [|done].
  destruct (export_dir (runtime_of sandbox) path) as [data|e] eqn:Ee.
  2:{ unfold try_, mbind, M_bind. simpl. by rewrite Ee. }
  assert (try_ (path ← of_result (Ok path); of_result (export_dir (runtime_of sandbox) path))
    (λ _, raise (HTTPException 404 [Txt "no "; Txt app; Txt " profile in this sandbox yet"])) s = (Ok data, s)) as E1.
  { unfold try_, mbind, M_bind. simpl. by rewrite Ee. }
  rewrite (bind_ok _ _ _ _ _ E1).
  pose proof (encrypt_opens ciphers seal open_ open_seal data user.(m_workspace_id) dr s.(p_vault) (bu_keys _ _ Hw) Hd) as He.
  unfold mbind at 1, M_bind at 1. unfold p_session, transaction, on_vault.
  destruct (encrypt ciphers seal data _ dr s.(p_vault)) as [[token|e] v].
  - destruct He as (Hk & Ha & Hst & Hpl). destruct (whole_keys s v Hw Hk Ha) as [Hw1 Hf1].
    unfold put_object. destruct (answers "PUT" (profile_key vid)) as [[]|e]; [|done]. run.
    assert (∀ i, is_Some (p_versions s !! i) → <[profile_key vid := token]> s.(p_files) !! profile_key i = s.(p_files) !! profile_key i) as Hsame.
    { intros i Hi. rewrite lookup_insert_ne; [done|]. intros ->%profile_key_inj. by rewrite Hvid in Hi; destruct Hi. }
    split; [|split; [|split]].
    + apply (whole_weaken (put_p_vault v s)); [done|done|done|done|apply advances_refl, Hk|exact Hsame].
    + split; [exact Ha|]. intros i _ Hi. split; [exact Hi|]. by apply Hsame.
    + done.
    + split; [by exists path|]. exists token. simpl. by rewrite lookup_insert_eq.
  - destruct He as [Hc Hen]. assert (keys (p_restore s (put_p_vault v s)) = keys s) as Ek by (simpl; rewrite Hc, Hen; by destruct (keys s)).
    split; [|split; [|done]].
    + apply (whole_weaken s); try done; rewrite Ek; [apply Hw|]. apply Hrefl.
    + split; [rewrite Ek; apply Hrefl|done].
Qed.

Lemma serves_same {A} (m : M Profiles A) s : whole s → (m s).2 = s → serves m s.
Proof. intros Hw E. unfold serves. rewrite E. split; [done|]. apply follows_refl, (bu_keys _ _ Hw). Qed.

Lemma serves_bind {A B} (m : M Profiles A) (k : A → M Profiles B) s :
  serves m s → (∀ a s', m s = (Ok a, s') → whole s' → serves (k a) s') → serves (m ≫= k) s.
Proof.
  unfold serves, mbind, M_bind. intros [Hw Hf] Hk. destruct (m s) as [[a|e] s']; [|done]. simpl in *.
  destruct (Hk a s' eq_refl Hw) as [Hw' Hf']. split; [done|by eapply follows_trans].
Qed.

Lemma serves_result {A} (r : result exn A) s : whole s → serves (of_result r) s.
Proof. intros Hw. apply serves_same; [done|]. by destruct r. Qed.

Lemma get_object_same key s : (get_object answers key s).2 = s.
Proof.
  unfold get_object. destruct (answers "GET" key); [|done]. unfold mbind, M_bind, get. simpl. by destruct (p_files s !! key).
Qed.

Lemma serves_load rt id p version s : whole s → serves (load_profile ZOO_MACOS_USER answers import_dir ciphers open_ rt id p version) s.
Proof.
  intros Hw. unfold load_profile. apply serves_bind.
  { apply serves_same; [done|]. destruct version; [done|]. unfold mbind, M_bind, p_session, transaction, gets.
    by destruct (get_latest_profile_version id s). }
  intros v s1 _ Hw1. apply serves_bind; [by apply serves_result|]. intros path s2 _ Hw2.
  apply serves_bind; [apply serves_same; [done|apply get_object_same]|]. intros token s3 _ Hw3. apply serves_bind.
  { destruct (pv_encrypted v.2); [|by apply serves_same]. unfold serves, on_vault, decrypt, on_keys.
    destruct (decrypt_keys_ok ciphers open_ token (keys s3) (bu_keys _ _ Hw3)) as [Hk Ha].
    destruct (decrypt_bytes ciphers open_ token (keys s3)) as [r k]. simpl in *. by apply (whole_keys s3 (put_keys k s3.(p_vault))). }
  intros data s4 _ Hw4. apply serves_bind; [by apply serves_result|]. intros [] s5 _ Hw5. unfold serves. simpl.
  split; [by apply (whole_weaken s5); try done; [apply Hw5|apply advances_refl, (bu_keys _ _ Hw5)]|].
  exact (follows_refl s5 (ko_coherent _ _ (bu_keys _ _ Hw5))).
Qed.

Lemma serves_apply sb id version user s :
  whole s → serves (apply_profile ZOO_MACOS_USER answers import_dir app_running ciphers open_ sb id version user) s.
Proof.
  intros Hw. unfold apply_profile. apply serves_bind.
  { apply sound_session; [done|]. apply sound_running; [done|]. intros row. apply sound_profile; [done|]. intros p _ _.
    apply sound_gets. split; [done|]. apply follows_refl, (bu_keys _ _ Hw). }
  intros [[row p] chosen] s1 _ Hw1. destruct chosen as [v|]; [|by apply serves_same].
  apply serves_bind; [apply serves_same; [done|]; by destruct (bool_decide _)|]. intros _ s2 _ Hw2.
  apply serves_bind; [apply serves_same; [done|]; unfold try_; by destruct (app_running _ _)|]. intros busy s3 _ Hw3.
  apply serves_bind; [apply serves_same; [done|]; by destruct busy|]. intros _ s4 _ Hw4.
  apply serves_bind; [by apply serves_load|]. intros _ s5 _ Hw5. apply sound_session; [done|].
  apply sound_audit. intros a. apply sound_answer; [by apply whole_audit|]. exact (follows_refl s5 (ko_coherent _ _ (bu_keys _ _ Hw5))).
Qed.

(** *** Everything together *)

Abbreviation capture_store := (capture_store ZOO_MACOS_USER answers export_dir ciphers seal).
Abbreviation capture_save := (capture_save answers).
Abbreviation capture_profile := (capture_profile ZOO_MACOS_USER answers export_dir ciphers seal).
Abbreviation load_profile := (load_profile ZOO_MACOS_USER answers import_dir ciphers open_).
Abbreviation apply_profile := (apply_profile ZOO_MACOS_USER answers import_dir app_running ciphers open_).

(** One event: a route, a half of a capture (its sessions and uploads are not one
    transaction), or another request that uses the keys.  Version ids are drawn
    anew, and none is an old one. *)
Inductive profile_step (s : Profiles) : Profiles → Prop :=
| step_store sandbox platform app vid user dr :
    ¬ old vid → s.(p_versions) !! vid = None → has_char ":"%char dr.(dr_key_id) = false →
    profile_step s (capture_store sandbox platform app vid user dr s).2
| step_save sb platform payload existing data user vid pid token :
    ¬ old vid → s.(p_versions) !! vid = None → s.(p_files) !! profile_key vid = Some token → stored (keys s) token →
    plain (keys s) token = data →
    profile_step s (capture_save sb platform payload existing data user vid pid s).2
| step_apply sb id version user : profile_step s (apply_profile sb id version user s).2
| step_delete_version id n user : profile_step s (delete_profile_version_route answers id n user s).2
| step_rename id name user : profile_step s (rename_profile_route id name user s).2
| step_delete_profile id user : profile_step s (delete_profile_route answers id user s).2
| step_keys v : keys_ok v.(v_keys) → advances (keys s) v.(v_keys) → profile_step s (put_p_vault v s).

Lemma profile_step_serves s s' : profile_step s s' → whole s → whole s' ∧ follows s s'.
Proof.
  destruct 1 as [row platform app vid user dr H1 H2 H3| | | | | |]; intros Hw.
  - pose proof (store_cases row platform app vid user dr s Hw H3 H2) as H. destruct (capture_store _ _ _ _ _ _ s) as [r s'].
    by destruct H as (? & ? & _).
  - by eapply save_whole.
  - by apply serves_apply.
  - by apply delete_version_whole.
  - by apply rename_whole.
  - by apply delete_profile_route_whole.
  - by apply whole_keys.
Qed.

Lemma profile_steps_serve s s' : rtc profile_step s s' → whole s → whole s' ∧ follows s s'.
Proof.
  induction 1 as [s|s s1 s' Hs _ IH]; intros Hw; [split; [done|]; apply follows_refl, (bu_keys _ _ Hw)|].
  destruct (profile_step_serves s s1 Hs Hw) as [Hw1 Hf1]. destruct (IH Hw1) as [Hw' Hf']. split; [done|by eapply follows_trans].
Qed.

(** What only looks. *)
Definition looks {A} (m : M Profiles A) : Prop := ∀ s, (m s).2 = s.

Lemma looks_bind {A B} (m : M Profiles A) (k : A → M Profiles B) : looks m → (∀ a, looks (k a)) → looks (m ≫= k).
Proof.
  intros Hm Hk s. unfold mbind, M_bind. specialize (Hm s). destruct (m s) as [[a|e] s']; simpl in Hm; subst; [apply Hk|done].
Qed.

Lemma p_restore_self s : p_restore s s = s.
Proof. by destruct s as [[[] []]]. Qed.

Lemma looks_session {A} (m : M Profiles A) : looks m → looks (p_session m).
Proof.
  intros Hm s. unfold p_session, transaction. specialize (Hm s). destruct (m s) as [[a|e] s']; simpl in *; subst; [done|apply p_restore_self].
Qed.

Lemma looks_guard b e : looks (guard_ b e).
Proof. by destruct b. Qed.

Lemma checks_look sb payload user : looks (capture_checks sb payload user).
Proof.
  apply looks_session, looks_bind; [intros s; apply find_running_stays|]. intros row. apply looks_bind; [apply looks_guard|]. intros _.
  destruct (rq_profile_id payload) as [id|]; [|done]. apply looks_bind.
  { unfold profile. apply looks_bind; [done|]. intros [q|]; [|done]. apply looks_bind; [apply looks_guard|done]. }
  intros q. apply looks_bind; [apply looks_guard|done].
Qed.

(** The sandbox of a capture, and where its profile is. *)
Lemma checks_ok sb payload user s row platform existing :
  (capture_checks sb payload user s).1 = Ok (row, platform, existing) →
  (find_running sb user s).1 = Ok row ∧ platform = platform_of row.(sb_kind).
Proof.
  unfold capture_checks, p_session, transaction. intros H.
  match type of H with (let '(_, _) := ?m in _).1 = _ => assert (m.1 = Ok (row, platform, existing)) as H' by (by destruct m as [[?|?] ?]) end.
  clear H. revert H'. unfold mbind, M_bind. pose proof (find_running_stays sb user s) as Hs.
  destruct (find_running sb user s) as [[row0|e] s0]; simpl in Hs; subst; [|done]. unfold guard_.
  destruct (bool_decide _); [|done]. cbn. destruct (rq_profile_id payload) as [id|]; [|by intros [= -> <- <-]].
  unfold profile, mbind, M_bind, gets. destruct (get_profile id s) as [q|]; [|done]. unfold guard_.
  destruct (bool_decide _); [|done]. cbn. destruct (_ && _); [|done]. by intros [= -> <- <-].
Qed.

(** No object is stored, only deleted. *)
Definition no_new {A} (m : M Profiles A) : Prop := ∀ s k d, (m s).2.(p_files) !! k = Some d → s.(p_files) !! k = Some d.

Lemma no_new_bind {A B} (m : M Profiles A) (k : A → M Profiles B) : no_new m → (∀ a, no_new (k a)) → no_new (m ≫= k).
Proof.
  intros Hm Hk s x d. unfold mbind, M_bind. specialize (Hm s x d). destruct (m s) as [[a|e] s']; [|done]. intros H. by apply Hm, (Hk a s').
Qed.

Lemma no_new_session {A} (m : M Profiles A) : no_new m → no_new (p_session m).
Proof. intros Hm s x d. unfold p_session, transaction. specialize (Hm s x d). by destruct (m s) as [[a|e] s']. Qed.

Lemma no_new_remove id : no_new (remove_version_file answers id).
Proof. intros s k d. rewrite remove_runs. simpl. rewrite lookup_delete. by case_decide. Qed.

Lemma no_new_for {A} (l : list A) f : (∀ x, no_new (f x)) → no_new (for_ l f).
Proof. intros Hf. induction l as [|x l IH]; [by intros s|]. simpl. apply no_new_bind; [apply Hf|done]. Qed.

Lemma no_new_save sb platform payload existing data user vid pid : no_new (capture_save sb platform payload existing data user vid pid).
Proof.
  apply no_new_session, no_new_bind.
  { destruct existing; [by intros s|]. apply no_new_bind; [by intros s|]. intros s. apply no_new_bind; [by destruct (is_none _); intros ?|].
    intros _. apply no_new_bind; [by intros ?|by intros ? ?]. }
  intros [id p]. apply no_new_bind.
  { apply no_new_bind; [by intros s|]. intros s. apply no_new_bind; [by destruct (_ && _); intros ?|].
    intros _. apply no_new_bind; [by intros ?|by intros ? ?]. }
  intros v. apply no_new_bind; [by intros s|]. intros _. apply no_new_bind; [by intros s|]. intros l.
  apply no_new_bind; [apply no_new_for; intros x; apply no_new_bind; [by intros s|intros _; apply no_new_remove]|].
  intros _. apply no_new_bind; [by intros s|]. by intros _ s.
Qed.

(** A version that opens to the data. *)
Definition holds (vid data : string) (s : Profiles) : Prop :=
  ∀ v, s.(p_versions) !! vid = Some v →
    v.(pv_encrypted) = true ∧ ∃ token, s.(p_files) !! profile_key vid = Some token ∧ stored (keys s) token ∧ plain (keys s) token = data.

(** What a capture stores is what the sandbox exported. *)
Lemma capture_ok sb payload user vid pid dr s r s' :
  whole s → ¬ old vid → s.(p_versions) !! vid = None → has_char ":"%char dr.(dr_key_id) = false →
  capture_profile sb payload user vid pid dr s = (Ok r, s') →
  whole s' ∧ ∃ row path data, (find_running sb user s).1 = Ok row ∧
    profile_path ZOO_MACOS_USER (platform_of row.(sb_kind)) payload.(rq_app) = Ok path ∧
    export_dir (runtime_of row) path = Ok data ∧ holds vid data s'.
Proof.
  intros Hw Hold Hvid Hd. unfold Profiles.capture_profile, mbind, M_bind. pose proof (checks_look sb payload user s) as Hs.
  pose proof (checks_ok sb payload user s) as Hc. destruct (capture_checks sb payload user s) as [[[[row platform] existing]|e] s0]; simpl in Hs; subst; [|done].
  destruct (Hc row platform existing eq_refl) as [Hrow ->].
  pose proof (store_cases row (platform_of (sb_kind row)) payload.(rq_app) vid user dr s Hw Hd Hvid) as H1.
  destruct (capture_store row _ _ vid user dr s) as [[data|e] s1]; [|done].
  destruct H1 as (Hw1 & Hf1 & Ev & (path & Hpath & Hexp) & token & Hfile & Hst & Hpl). intros E.
  destruct (save_whole row.(sb_id) (platform_of row.(sb_kind)) payload existing data user vid pid s1 token Hw1 Hold ltac:(by rewrite Ev) Hfile Hst Hpl) as [Hw' Hf'].
  pose proof (no_new_save row.(sb_id) (platform_of row.(sb_kind)) payload existing data user vid pid s1 (profile_key vid)) as Hn.
  rewrite E in Hw', Hf', Hn. simpl in *. split; [done|]. exists row, path, data. split_and!; [done..|].
  intros v Hv. destruct (bu_files _ _ Hw' vid v Hv) as (He & token' & Ht' & _). split; [done|]. exists token'. split; [done|].
  specialize (Hn token' Ht'). rewrite Hfile in Hn. injection Hn as <-.
  destruct (stored_advances ciphers seal open_ open_seal _ _ token Hst (ko_coherent _ _ (bu_keys _ _ Hw1)) (proj1 Hf')) as [H1 H2].
  by rewrite H2.
Qed.

(** It stays so while the id is not drawn again. *)
Lemma holds_follows vid data s s' : coherent (keys s) → old vid → holds vid data s → follows s s' → whole s' → holds vid data s'.
Proof.
  intros Hc Ho Hh [Ha Hf] Hw' v Hv. destruct (Hf vid Ho (mk_is_Some _ _ Hv)) as [[v0 Hv0] Hfile].
  destruct (Hh v0 Hv0) as (_ & token & Ht & Hst & Hpl). split; [by apply (bu_files _ _ Hw' vid v Hv)|]. exists token. rewrite Hfile.
  split; [done|]. destruct (stored_advances ciphers seal open_ open_seal _ _ token Hst Hc Ha) as [H1 ->]. done.
Qed.

(** Loading a version that holds data. *)
Lemma load_holds rt id p vid v path data s :
  whole s → holds vid data s → s.(p_versions) !! vid = Some v → answers "GET" (profile_key vid) = Ok tt →
  profile_path ZOO_MACOS_USER p.(pro_platform) p.(pro_app) = Ok path → import_dir rt (dirname path) data = Ok tt →
  ∃ s', load_profile rt id p (Some (vid, v)) s = (Ok tt, s') ∧ s'.(p_imports) = s.(p_imports) ++ [(rt, dirname path, data)].
Proof.
  intros Hw Hh Hv Hget Hpath Himp. destruct (Hh v Hv) as (He & token & Ht & Hst & Hpl).
  unfold Profiles.load_profile. run. rewrite Hpath. simpl of_result. run.
  assert (get_object answers (profile_key vid) s = (Ok token, s)) as E1.
  { unfold get_object. rewrite Hget. unfold mbind, M_bind, get. simpl. by rewrite Ht. }
  rewrite (bind_ok _ _ _ _ _ E1). simpl fst. simpl snd. rewrite He.
  destruct (decrypt_stored ciphers seal open_ open_seal (keys s) token Hst (ko_coherent _ _ (bu_keys _ _ Hw))) as (k & E2 & _).
  assert (on_vault (decrypt ciphers open_ token) s = (Ok data, put_p_vault (put_keys k s.(p_vault)) s)) as E3.
  { unfold on_vault, decrypt, on_keys. by rewrite E2, Hpl. }
  rewrite (bind_ok _ _ _ _ _ E3), Himp. eexists. split; [done|]. done.
Qed.
End profile_proofs.

(** C11: profiles stay whole, as long as object storage deletes every object it is asked to
    and a cipher opens what it sealed.  Whatever is captured, loaded, renamed and deleted, in
    whatever order the halves of captures run (each route and each half of a capture a step of
    its own), each profile has between one and ten versions with numbers of their own, its row
    is that of the latest, and the archive of every version is in storage, encrypted, and
    opens.  A delete that storage fails can leave a version without its archive (Example
    deleting_fails). *)
Theorem profiles_whole macos_user answers export_dir import_dir app_running ciphers `{!CiphersOk ciphers} seal open_ old s s' :
  (∀ key, answers "DELETE" key = Ok tt) → (∀ k iv d, open_ k (seal k iv d) = Some d) →
  whole ciphers seal open_ s →
  rtc (profile_step macos_user answers export_dir import_dir app_running ciphers seal open_ old) s s' →
  whole ciphers seal open_ s'.
Proof. intros Hdel Hopen Hw Hs. by apply (profile_steps_serve _ _ _ _ _ _ _ _ Hopen Hdel _ s s' Hs). Qed.

Section roundtrip.
Context (ZOO_MACOS_USER : string) (answers : string → string → result exn unit).
Context (export_dir : string → string → result exn string) (import_dir : string → string → string → result exn unit).
Context (app_running : string → string → result exn bool).
Context (ciphers : Ciphers) `{!CiphersOk ciphers} (seal : string → string → string → string) (open_ : string → string → option string).
Context (open_seal : ∀ k iv d, open_ k (seal k iv d) = Some d) (deletes : ∀ key, answers "DELETE" key = Ok tt).

(** a profile comes back as it was saved.  Whatever is captured, loaded and
    deleted in between, and however keys are rotated, loading the version a
    capture made, while it is kept, gives the runtime exactly the archive that
    the sandbox exported. *)
Theorem profile_roundtrip sb payload user vid pid dr s r s1 s2 v :
  whole ciphers seal open_ s → s.(p_versions) !! vid = None → has_char ":"%char dr.(dr_key_id) = false →
  capture_profile ZOO_MACOS_USER answers export_dir ciphers seal sb payload user vid pid dr s = (Ok r, s1) →
  rtc (profile_step ZOO_MACOS_USER answers export_dir import_dir app_running ciphers seal open_ (λ i, i = vid)) s1 s2 →
  s2.(p_versions) !! vid = Some v → answers "GET" (profile_key vid) = Ok tt →
  ∃ row path data, (find_running sb user s).1 = Ok row ∧
    profile_path ZOO_MACOS_USER (platform_of row.(sb_kind)) payload.(rq_app) = Ok path ∧ export_dir (runtime_of row) path = Ok data ∧
    ∀ rt id p, profile_path ZOO_MACOS_USER p.(pro_platform) p.(pro_app) = Ok path → import_dir rt (dirname path) data = Ok tt →
      ∃ s3, load_profile ZOO_MACOS_USER answers import_dir ciphers open_ rt id p (Some (vid, v)) s2 = (Ok tt, s3) ∧
        s3.(p_imports) = s2.(p_imports) ++ [(rt, dirname path, data)].
Proof.
  intros Hw Hvid Hd Hcap Hst Hv Hget.
  destruct (capture_ok ZOO_MACOS_USER answers export_dir import_dir app_running ciphers seal open_ open_seal deletes (λ _, False) sb payload user vid pid dr s r s1 Hw (λ H, H) Hvid Hd Hcap)
    as (Hw1 & row & path & data & H1 & H2 & H3 & Hh).
  destruct (profile_steps_serve ZOO_MACOS_USER answers export_dir import_dir app_running ciphers seal open_ open_seal deletes (λ i, i = vid) s1 s2 Hst Hw1) as [Hw2 Hf].
  exists row, path, data. split_and!; [done..|]. intros rt id p Hp Hi.
  assert (holds ciphers seal open_ vid data s2) as Hh2; [|eapply load_holds; eauto].
  by eapply (holds_follows ciphers seal open_ open_seal (λ i, i = vid)); [apply (bu_keys _ _ _ _ _ Hw1)|..].
Qed.
End roundtrip.

(** ** One sandbox whose Firefox is saved *)

Definition demo_profiles : Profiles := mkProfiles (demo_vault Running) ∅ ∅ ∅ [].
Definition demo_answers (method key : string) : result exn unit := Ok tt.
Definition demo_export (rt path : string) : result exn string := Ok ("tar of " +:+ path).
Definition demo_import (rt parent data : string) : result exn unit := Ok tt.
Definition demo_idle (rt app : string) : result exn bool := Ok false.
Definition demo_request : ProfileRequest := mkProfileRequest "work" "firefox" None.

Definition demo_capture (vid pid : string) : M Profiles ProfileResponse :=
  capture_profile "admin" demo_answers demo_export demo_ciphers demo_seal "s1" demo_request demo_member vid pid (demo_draws "k").

Definition demo_saved : Profiles := (demo_capture "v1" "p1" demo_profiles).2.

Example captured :
  (demo_capture "v1" "p1" demo_profiles).1 = Ok (mkProfileResponse "p1" "work" "firefox" "linux" 25 1 1 7 7) ∧
  (apply_profile "admin" demo_answers demo_import demo_idle demo_ciphers demo_open "s1" "p1" None demo_member demo_saved).2.(p_imports) =
    [("c1", "/home/zoo", "tar of /home/zoo/.mozilla")].
Proof. by vm_compute. Qed.

Lemma demo_whole : whole demo_ciphers demo_seal demo_open demo_profiles.
Proof. split; try done; [exact demo_keys_ok|]. intros id _. apply Nat.le_0_l. Qed.

Definition demo_stored : Profiles :=
  (capture_store "admin" demo_answers demo_export demo_ciphers demo_seal (demo_vault_row Running) "linux" "firefox" "v1" demo_member
     (demo_draws "k") demo_profiles).2.
Definition demo_data : string := "tar of /home/zoo/.mozilla".
Definition demo_token : string := default "" (demo_stored.(p_files) !! "profiles/v1.tar").

Lemma profiles_whole_witness : whole demo_ciphers demo_seal demo_open demo_saved.
Proof.
  apply (profiles_whole "admin" demo_answers demo_export demo_import demo_idle demo_ciphers demo_seal demo_open
    (λ _, False) demo_profiles demo_saved (λ _, eq_refl) (λ k iv d, drop_prefix_app (header k) d) demo_whole).
  apply (rtc_l _ _ demo_stored).
  - apply (step_store _ _ _ _ _ _ _ _ _ _ (demo_vault_row Running) "linux" "firefox" "v1" demo_member (demo_draws "k")); [tauto|by vm_compute..].
  - apply rtc_once. apply (step_save _ _ _ _ _ _ _ _ _ _ "s1" "linux" demo_request None demo_data demo_member "v1" "p1" demo_token);
      [tauto|by vm_compute|by vm_compute| |by vm_compute].
    exists "kk", "datakey", "", demo_data. split; [by vm_compute|]. split; [by vm_compute|]. eexists. by split; vm_compute.
Defined.

Lemma profile_roundtrip_witness :
  ∃ path data, data = demo_data ∧
    ∀ rt id p, profile_path "admin" p.(pro_platform) p.(pro_app) = Ok path → demo_import rt (dirname path) data = Ok tt →
      ∃ v s3, load_profile "admin" demo_answers demo_import demo_ciphers demo_open rt id p (Some ("v1", v)) demo_saved = (Ok tt, s3) ∧
        s3.(p_imports) = demo_saved.(p_imports) ++ [(rt, dirname path, data)].
Proof.
  destruct (demo_capture "v1" "p1" demo_profiles) as [[r|e] s1] eqn:E; [|by vm_compute in E].
  assert (s1 = demo_saved) as -> by (unfold demo_saved; by rewrite E).
  destruct (demo_saved.(p_versions) !! "v1") as [v|] eqn:Ev; [|by vm_compute in Ev].
  destruct (profile_roundtrip "admin" demo_answers demo_export demo_import demo_idle demo_ciphers demo_seal demo_open
    (λ k iv d, drop_prefix_app (header k) d) (λ _, eq_refl) "s1" demo_request demo_member "v1" "p1" (demo_draws "k") demo_profiles r demo_saved demo_saved v
    demo_whole eq_refl eq_refl E (rtc_refl _ _) Ev eq_refl) as (row & path & data & H1 & H2 & H3 & H).
  exists path, data. split; [|intros rt id p Hp Hi; exists v; by apply H].
  assert (row = demo_vault_row Running) as -> by (vm_compute in H1; by injection H1). vm_compute in H2. injection H2 as <-.
  unfold demo_export in H3. by injection H3.
Defined.

(** ** Boundaries and failures *)

(** Eleven captures leave the last ten. *)
Example ten_kept :
  let s := foldl (λ s i, (demo_capture i "p1" s).2) demo_profiles ["a"; "b"; "c"; "d"; "e"; "f"; "g"; "h"; "i"; "j"; "k"] in
  (λ v : string * ProfileVersion, v.2.(pv_version)) <$> list_profile_versions "p1" s = [11; 10; 9; 8; 7; 6; 5; 4; 3; 2] ∧
  s.(p_files) !! profile_key "a" = None ∧ s.(p_versions) !! "a" = None.
Proof. by vm_compute. Qed.

(** Objects go before the transaction commits: when storage fails to delete the
    second archive, the rows come back and the latest version has none. *)
Definition failing (method key : string) : result exn unit :=
  if bool_decide (method = "DELETE") && bool_decide (key = "profiles/v1.tar") then Err (RuntimeError [Txt "503"]) else Ok tt.

Example deleting_fails :
  let s0 := (demo_capture "v2" "p2" demo_saved).2 in
  let '(r, s) := delete_profile_route failing "p1" demo_member s0 in
  r = Err (RuntimeError [Txt "503"]) ∧ (list_profile_versions "p1" s).*1 = ["v2"; "v1"] ∧
  s.(p_files) !! profile_key "v2" = None ∧
  (load_profile "admin" demo_answers demo_import demo_ciphers demo_open "c1" "p1"
     (mkProfile "w1" "u1" "work" "firefox" 25 7 true "linux") None s).1 = Err (RuntimeError [Txt "profiles/v2.tar"]).
Proof. by vm_compute. Qed.

(** Two captures under a new name at the same time make two profiles of it. *)
Example two_first_captures :
  let found := capture_checks "s1" demo_request demo_member demo_profiles in
  let save vid pid := capture_save demo_answers "s1" "linux" demo_request None demo_data demo_member vid pid in
  (λ r : Sandbox * string * option (string * Profile), r.2) <$> match found.1 with Ok r => Some r | Err _ => None end = Some None ∧
  pr_name <$> list_profiles demo_member (save "v2" "p2" (save "v1" "p1" demo_stored).2).2 = ["work"; "work"].
Proof. by vm_compute. Qed.

(** A blank name is cut to nothing. *)
Example blank_name :
  (rename_profile_route "p1" "  " demo_member demo_saved).1 = Ok (mkProfileResponse "p1" "" "firefox" "linux" 25 1 1 7 7).
Proof. by vm_compute. Qed.

(** A number is used again after the latest version is deleted. *)
Example number_reused :
  let s := (demo_capture "v2" "p2" demo_saved).2 in
  let s := (delete_profile_version_route demo_answers "p1" 2 demo_member s).2 in
  (pr_version <$> match (demo_capture "v3" "p3" s).1 with Ok r => Some r | Err _ => None end) = Some 2.
Proof. by vm_compute. Qed.
