(* ===== verification/Nodes.v ===== *)
(** Hosts that join (src/apps/server/nodes.py, nodes_api.py, ssh.py and the servers
    of servers_api.py): the node certificate authority, join tokens, joining, the
    proof of enrollment, and the servers of a workspace. *)

From S2P Require Import Prelude Tables Store Codec Kms Security Labels Auth Access Platforms Regex Vault.

(** ** Rows *)

(** Source: src/db/generated/models.py:333-342 [Server].  The columns beside those of
    [Store.Server]. *)
Record Host := mkHost {
  ho_name : string;
  ho_docker_url : string;
  ho_bind_address : string;
  ho_created_by : string;
  ho_platform : string
}.

(** Source: src/db/generated/models.py:111-132 [Node].  [no_drivers] are the names and
    whether they are available, as its JSON holds them. *)
Record Node := mkNode {
  no_server_id : string;
  no_serial : string;
  no_cert_expires_at : time;
  no_ssh_host_key : string;
  no_version : string;
  no_os : string;
  no_arch : string;
  no_hostname : string;
  no_drivers : list (string * bool);
  no_memory_available : option Z;
  no_seen_at : option time
}.

(** Source: src/db/generated/models.py:142-150 [NodeToken]. *)
Record NodeToken := mkNodeToken {
  nt_workspace_id : string;
  nt_secret_hash : string;
  nt_created_by : string;
  nt_name : string;
  nt_expires_at : time;
  nt_used_at : option time
}.

(** ** Certificates *)

(** What the code reads of an X.509 certificate: the text of its first common name
    and its EC public key (if it has them), its serial number and dates, the
    basic constraint [ca], and the extended key usages and names it lists. *)
Record Certificate := mkCertificate {
  ct_common_name : option string;
  ct_public_key : option string;
  ct_serial_number : Z;
  ct_not_before : time;
  ct_not_after : time;
  ct_ca : option bool;
  ct_usages : option (list string);
  ct_names : list string;
  ct_signature : string
}.

Definition sign_with (signature : string) (c : Certificate) : Certificate :=
  mkCertificate c.(ct_common_name) c.(ct_public_key) c.(ct_serial_number) c.(ct_not_before) c.(ct_not_after) c.(ct_ca)
    c.(ct_usages) c.(ct_names) signature.

(** Dates in a certificate are of whole seconds. *)
Definition whole_second (t : time) : time := t / sec 1 * sec 1.

(** The [cryptography] package: keys by their material, signatures, and the PEM
    text of keys, certificates and requests (whether the signature is valid, and
    the EC key). *)
Class X509 := {
  public_of : string → string;
  signature_of : string → Certificate → string;
  directly_issued : Certificate → Certificate → bool;
  certificate_pem : Certificate → string;
  load_certificate : string → option Certificate;
  key_pem : string → string;
  load_key : string → option string;
  load_csr : string → option (bool * option string);
  ecdsa_sign : string → string → string;
  ecdsa_verify : string → string → string → bool
}.

Class X509Ok (X : X509) := {
  issued_ok : ∀ ca k c, ct_public_key ca = Some (public_of k) → directly_issued (sign_with (signature_of k c) c) ca = true;
  pem_ok : ∀ c, load_certificate (certificate_pem c) = Some c;
  key_ok : ∀ k, load_key (key_pem k) = Some k;
  ecdsa_ok : ∀ k m, ecdsa_verify (public_of k) (ecdsa_sign k m) m = true
}.

(** Source: src/apps/server/nodes.py:70-81 [Authority]. *)
Record Authority := mkAuthority { au_certificate : Certificate; au_key : string }.

(** ** The state *)

(** The tables [servers] (beside [Store]'s), [nodes], [node_tokens] and
    [node_authority], and the authority each process of the API has cached. *)
Record Nodes := mkNodes {
  nd_vault : Vault;
  nd_hosts : gmap string Host;
  nd_nodes : gmap string Node;
  nd_tokens : gmap string NodeToken;
  nd_authority : option (string * string);
  nd_cached : gmap string Authority
}.

Definition nd_db (s : Nodes) : Db := s.(nd_vault).(v_world).(w_db).
Definition nd_now (s : Nodes) : time := now_of s.(nd_vault).
Definition nd_set_vault (v : Vault) (s : Nodes) : Nodes := mkNodes v s.(nd_hosts) s.(nd_nodes) s.(nd_tokens) s.(nd_authority) s.(nd_cached).
Definition nd_set_hosts (h : gmap string Host) (s : Nodes) : Nodes := mkNodes s.(nd_vault) h s.(nd_nodes) s.(nd_tokens) s.(nd_authority) s.(nd_cached).
Definition nd_set_nodes (n : gmap string Node) (s : Nodes) : Nodes := mkNodes s.(nd_vault) s.(nd_hosts) n s.(nd_tokens) s.(nd_authority) s.(nd_cached).
Definition nd_set_tokens (t : gmap string NodeToken) (s : Nodes) : Nodes :=
  mkNodes s.(nd_vault) s.(nd_hosts) s.(nd_nodes) t s.(nd_authority) s.(nd_cached).
Definition nd_set_authority (a : option (string * string)) (s : Nodes) : Nodes :=
  mkNodes s.(nd_vault) s.(nd_hosts) s.(nd_nodes) s.(nd_tokens) a s.(nd_cached).
Definition nd_set_cached (c : gmap string Authority) (s : Nodes) : Nodes :=
  mkNodes s.(nd_vault) s.(nd_hosts) s.(nd_nodes) s.(nd_tokens) s.(nd_authority) c.
Definition nd_set_db (d : Db) (s : Nodes) : Nodes := nd_set_vault (put_world (put_db d s.(nd_vault).(v_world)) s.(nd_vault)) s.

Definition nd_on_vault {A} (m : M Vault A) : M Nodes A := λ s, let '(r, v) := m s.(nd_vault) in (r, nd_set_vault v s).
Definition nd_restore (old s : Nodes) : Nodes :=
  mkNodes (Vault.restore old.(nd_vault) s.(nd_vault)) old.(nd_hosts) old.(nd_nodes) old.(nd_tokens) old.(nd_authority) s.(nd_cached).
Definition nd_session {A} (m : M Nodes A) : M Nodes A := transaction (λ s, s) nd_restore m.

(** ** Statements *)

(** Source: src/db/generated/query.py:967-969 [GET_NODE]. *)
Definition get_node (id : string) (s : Nodes) : option Node := s.(nd_nodes) !! id.

(** Source: src/db/generated/query.py:977-979 [GET_NODE_BY_SERVER]. *)
Definition get_node_by_server (server_id : string) (s : Nodes) : option (string * Node) :=
  head (filter (λ p, p.2.(no_server_id) = server_id) (map_to_list s.(nd_nodes))).

(** Source: src/db/generated/query.py:2543-2550 [UPSERT_NODE].  A server has one node:
    its row is replaced, its id with it, but for what reports filled. *)
Definition upsert_node (id server_id serial : string) (cert_expires_at : time) (os arch hostname ssh_host_key : string) : M Nodes Node :=
  s ← get;
  let old := get_node_by_server server_id s in
  guard_ (is_none (s.(nd_nodes) !! id) || bool_decide (fst <$> old = Some id)) IntegrityError;;
  guard_ (negb (is_none ((nd_db s).(servers) !! server_id))) IntegrityError;;
  let row := mkNode server_id serial cert_expires_at ssh_host_key "" os arch hostname
               (match old with Some (_, n) => n.(no_drivers) | None => [] end)
               (match old with Some (_, n) => n.(no_memory_available) | None => None end) None in
  modify (λ s, nd_set_nodes (<[id := row]> (match old with Some (i, _) => delete i s.(nd_nodes) | None => s.(nd_nodes) end)) s);;
  mret row.

(** Source: src/db/generated/query.py:349-353 [CREATE_NODE_TOKEN]. *)
Definition create_node_token (id : string) (t : NodeToken) : M Nodes NodeToken :=
  s ← get;
  guard_ (is_none (s.(nd_tokens) !! id) && negb (existsb (λ p : string * NodeToken, bool_decide (p.2.(nt_secret_hash) = t.(nt_secret_hash))) (map_to_list s.(nd_tokens))))
    IntegrityError;;
  modify (λ s, nd_set_tokens (<[id := t]> s.(nd_tokens)) s);;
  mret t.

(** Source: src/db/generated/query.py:1918-1920 [PURGE_NODE_TOKENS]. *)
Definition purge_node_tokens (expires_at : time) (s : Nodes) : Nodes :=
  nd_set_tokens (filter (λ p : string * NodeToken, expires_at ≤ p.2.(nt_expires_at)) s.(nd_tokens)) s.

Definition claimable (secret_hash : string) (now : time) (t : NodeToken) : bool :=
  bool_decide (t.(nt_secret_hash) = secret_hash) && is_none t.(nt_used_at) && bool_decide (now < t.(nt_expires_at)).
Definition used (now : time) (t : NodeToken) : NodeToken :=
  mkNodeToken t.(nt_workspace_id) t.(nt_secret_hash) t.(nt_created_by) t.(nt_name) t.(nt_expires_at) (Some now).

(** Source: src/db/generated/query.py:114-118 [CLAIM_NODE_TOKEN]. *)
Definition claim_node_token (secret_hash : string) : M Nodes (option NodeToken) :=
  s ← get;
  let found := head (filter (λ p, claimable secret_hash (nd_now s) p.2 = true) (map_to_list s.(nd_tokens))) in
  modify (nd_set_tokens ((λ t, if claimable secret_hash (nd_now s) t then used (nd_now s) t else t) <$> s.(nd_tokens)));;
  mret (used (nd_now s) ∘ snd <$> found).

(** Source: src/db/generated/query.py:343-346 [CREATE_NODE_AUTHORITY].  The
    first stays. *)
Definition create_node_authority (certificate key_ciphertext : string) (s : Nodes) : Nodes :=
  nd_set_authority (Some (default (certificate, key_ciphertext) s.(nd_authority))) s.

(** Source: src/db/generated/query.py:526-530 [CREATE_SERVER]. *)
Definition create_server (id : string) (h : Host) (workspace_id capabilities : string) : M Nodes unit :=
  s ← get;
  guard_ (is_none ((nd_db s).(servers) !! id)) IntegrityError;;
  modify (λ s, nd_set_hosts (<[id := h]> s.(nd_hosts))
    (nd_set_db (Store.set_servers (<[id := mkServer id workspace_id capabilities (nd_now s)]> (nd_db s).(servers)) (nd_db s)) s)).

(** Source: src/db/generated/query.py:814-816 [DETACH_SERVER]. *)
Definition detach_server (server_id : string) (s : Nodes) : Nodes :=
  nd_set_db (set_sandboxes ((λ r, if bool_decide (r.(sb_server_id) = Some server_id) then sb_set_server_id None r else r) <$> (nd_db s).(sandboxes)) (nd_db s)) s.

(** Source: src/db/generated/query.py:2443-2445 [UPDATE_SERVER_CAPABILITIES]. *)
Definition update_server_capabilities (capabilities id : string) (s : Nodes) : Nodes :=
  nd_set_db (Store.set_servers (alter (λ r, mkServer r.(sv_id) r.(sv_workspace_id) capabilities r.(sv_created_at)) id (nd_db s).(servers)) (nd_db s)) s.

(** Source: src/db/generated/query.py:774-776 [DELETE_SERVER].  A sandbox that
    refers to it refuses; its node and pooled rows go with it, snapshots forget
    it. *)
Definition sn_forget (server_id : string) (r : Snapshot) : Snapshot :=
  if bool_decide (r.(sn_server_id) = Some server_id)
  then mkSnapshot r.(sn_id) r.(sn_sandbox_id) None r.(sn_name) r.(sn_size_bytes) r.(sn_state) r.(sn_error) r.(sn_created_by) r.(sn_created_at) r.(sn_seq)
  else r.
Definition delete_server (server_id : string) : M Nodes unit :=
  s ← get;
  let d := nd_db s in
  guard_ (negb (existsb (λ p : string * Sandbox, bool_decide (p.2.(sb_server_id) = Some server_id)) (map_to_list d.(sandboxes)))) IntegrityError;;
  let d := Store.set_servers (delete server_id d.(servers)) d in
  let d := set_pool_sandboxes (filter (λ p : string * PoolSandbox, p.2.(ps_server_id) ≠ Some server_id) d.(pool_sandboxes)) d in
  let d := set_snapshots (sn_forget server_id <$> d.(snapshots)) d in
  modify (λ s, nd_set_nodes (filter (λ p : string * Node, p.2.(no_server_id) ≠ server_id) s.(nd_nodes))
    (nd_set_hosts (delete server_id s.(nd_hosts)) (nd_set_db d s))).

(** What the gateway does to rows of nodes (src/go/gateway/store.go, on its own connection):
    a renewal swaps the serial and expiry of a certificate that is still the registered one,
    and reports fill the columns of [reported]. *)
Definition swap_certificate (id previous next : string) (expiry : time) (s : Nodes) : Nodes :=
  nd_set_nodes (alter (λ n,
    if bool_decide (n.(no_serial) = previous) && negb (bool_decide (n.(no_serial) = "")) && (nd_now s <? n.(no_cert_expires_at))
    then mkNode n.(no_server_id) next expiry n.(no_ssh_host_key) n.(no_version) n.(no_os) n.(no_arch) n.(no_hostname) n.(no_drivers)
           n.(no_memory_available) n.(no_seen_at)
    else n) id s.(nd_nodes)) s.

Definition reported (f : Node) (n : Node) : Node :=
  mkNode n.(no_server_id) n.(no_serial) n.(no_cert_expires_at) n.(no_ssh_host_key) f.(no_version) f.(no_os) f.(no_arch) f.(no_hostname)
    f.(no_drivers) f.(no_memory_available) f.(no_seen_at).
Definition node_report (id : string) (f : Node) (s : Nodes) : Nodes := nd_set_nodes (alter (reported f) id s.(nd_nodes)) s.

(** The other tables become those of [w]; a node goes with its server. *)
Definition nd_world (w : World) (s : Nodes) : Nodes :=
  nd_set_nodes (filter (λ p : string * Node, is_Some (w.(w_db).(servers) !! p.2.(no_server_id))) s.(nd_nodes))
    (nd_set_vault (put_world w s.(nd_vault)) s).

(** ** Host keys *)

Definition HOST_KEY_TYPES : list string := ["ssh-ed25519"; "ecdsa-sha2-nistp256"; "ecdsa-sha2-nistp384"; "ecdsa-sha2-nistp521"; "ssh-rsa"].
Definition host_key_char (c : ascii) : bool :=
  in_range "A" "Z" c || in_range "a" "z" c || in_range "0" "9" c || bool_decide (c = "+"%char) || bool_decide (c = "/"%char) || bool_decide (c = "="%char).

(** [s.split()]: the words between spaces. *)
Fixpoint words_from (cur : string) (s : string) : list string :=
  match s with
  | EmptyString => if bool_decide (cur = "") then [] else [String.rev cur]
  | String c s => if is_space c then (if bool_decide (cur = "") then [] else [String.rev cur]) ++ words_from "" s else words_from (String c cur) s
  end.
Definition split_words (s : string) : list string := words_from "" s.

Section hosts.
Context `{X : X509}.
Context (ciphers : Ciphers) (seal : string → string → string → string) (open_ : string → string → option string).
(** SHA-256, the JSON of a token's body, whether paramiko reads a host key, the
    host name of a URL, the settings ZOO_NODE_HOST, ZOO_API_URL and ZOO_NODE_PORT,
    and whether the gateway sees a host's node. *)
Context (sha256 : string → string) (dumps : string * string * string → string) (loads : string → option (string * string * string)).
Context (paramiko_reads : string → string → bool) (hostname : string → option string)
  (ZOO_NODE_HOST ZOO_API_URL : option string) (PORT : string).
Context (connected : string → bool).

(** Source: src/apps/server/ssh.py:17-31 [HOST_KEY, validate_host_key]. *)
Definition validate_host_key (host_key : string) : result exn string :=
  match take 2 (split_words host_key) with
  | [name; encoded] =>
      if bool_decide (name ∈ HOST_KEY_TYPES) && all_of host_key_char encoded && paramiko_reads name encoded
      then Ok (name +:+ " " +:+ encoded) else Err (ValueError [Txt "not an SSH host key"])
  | _ => Err (ValueError [Txt "not an SSH host key"])
  end.

(** Source: src/apps/server/nodes.py:59-64 [endpoints]. *)
Definition endpoints (api_url : string) : result exn (list string) :=
  let host := match str_or_none ZOO_NODE_HOST with
              | Some h => Some h
              | None => hostname (default api_url (str_or_none ZOO_API_URL))
              end in
  match str_or_none host with
  | None => Err (ZooError "unavailable" [Txt "public node endpoint is missing"])
  | Some host => Ok [if has_char ":"%char host then "[" +:+ host +:+ "]:" +:+ PORT else host +:+ ":" +:+ PORT]
  end.

(** ** The authority *)

(** Source: src/apps/server/nodes.py:42-46 [TOKEN_PREFIX, TOKEN_TTL, CERT_DAYS, FRESH_SECONDS]. *)
Definition TOKEN_PREFIX : string := "zn1.".
Definition TOKEN_TTL : Z := 3600.
Definition CERT_DAYS : Z := 365.
Definition FRESH_SECONDS : Z := 90.
Definition day : Z := 86400.
Definition SYSTEM : string := "system".

(** The certificate of a new authority. *)
Definition authority_certificate (key : string) (serial : Z) (now : time) : Certificate :=
  let c := mkCertificate (Some "Zoo node CA") (Some (public_of key)) serial (whole_second (now - sec 300)) (whole_second (now + sec (3650 * day)))
             (Some true) None [] "" in
  sign_with (signature_of key c) c.

(** Source: src/apps/server/nodes.py:138-142 [authority].  The row's key is decrypted,
    and the process keeps what it read. *)
Definition read_authority (proc : string) (row : string * string) : M Nodes Authority :=
  text ← nd_on_vault (decrypt ciphers open_ row.2);
  match load_key text, load_certificate row.1 with
  | Some k, Some c => modify (λ s, nd_set_cached (<[proc := mkAuthority c k]> s.(nd_cached)) s);; mret (mkAuthority c k)
  | _, _ => raise (ValueError [Txt "Could not deserialize key data"])
  end.

(** Source: src/apps/server/nodes.py:92-142 [authority].  [proc] is the process; the key,
    the serial number and the draws of encryption are those drawn if there is
    none yet. *)
Definition authority (proc key : string) (serial : Z) (dr : Draws) : M Nodes Authority :=
  s ← get;
  match s.(nd_cached) !! proc with
  | Some a => mret a
  | None =>
      row ← nd_session (
        s ← get;
        match s.(nd_authority) with
        | Some _ => mret tt
        | None =>
            ciphertext ← nd_on_vault (encrypt ciphers seal (key_pem key) SYSTEM dr);
            modify (create_node_authority (certificate_pem (authority_certificate key serial (nd_now s))) ciphertext)
        end;;
        s ← get;
        match s.(nd_authority) with Some row => mret row | None => raise AssertionError end);
      read_authority proc row
  end.

(** Source: src/apps/server/nodes.py:145-169 [issue]. *)
Definition issue (a : Authority) (public_key common_name : string) (days serial : Z) (server_names : option (list string)) (now : time) : Certificate :=
  let c := mkCertificate (Some common_name) (Some public_key) serial (whole_second (now - sec 300)) (whole_second (now + sec (days * day)))
             (Some false) (Some [match server_names with None => "clientAuth" | Some _ => "serverAuth" end])
             (match server_names with None => [] | Some l => unique [] l end) "" in
  sign_with (signature_of a.(au_key) c) c.

(** Source: src/apps/server/nodes.py:172-183 [sign_csr]. *)
Definition sign_csr (proc key : string) (serial : Z) (dr : Draws) (csr_pem node_id : string) (node_serial : Z) : M Nodes Certificate :=
  match load_csr csr_pem with
  | None => raise (ValueError [Txt "not a PEM certificate request"])
  | Some (valid, ec) =>
      guard_ valid (ValueError [Txt "the certificate request's signature is invalid"]);;
      match ec with
      | None => raise (TypeError [Txt "node keys must be EC keys"])
      | Some public_key =>
          a ← authority proc key serial dr;
          s ← get;
          mret (issue a public_key node_id CERT_DAYS node_serial None (nd_now s))
      end
  end.
End hosts.

(** ** The proof of enrollment *)

(** [format(serial, "x")] *)
Fixpoint hex_digits (fuel : nat) (z : Z) (acc : string) : string :=
  match fuel with
  | O => acc
  | S n => let acc := String (ascii_of_nat (Z.to_nat (if z mod 16 <? 10 then 48 + z mod 16 else 87 + z mod 16))) acc in
           if z <? 16 then acc else hex_digits n (z / 16) acc
  end.
Definition hex (z : Z) : string := hex_digits (S (Z.to_nat (Z.log2 z))) z "".

(** Source: src/apps/server/nodes.py:186-187 [serial_of]. *)
Definition serial_of (c : Certificate) : string := hex c.(ct_serial_number).
(** Source: src/apps/server/nodes.py:190-191 [expiry_of]. *)
Definition expiry_of (c : Certificate) : time := c.(ct_not_after).

(** [str(uuid.UUID(s)) == s] *)
Definition lower_hex (c : ascii) : bool := in_range "0" "9" c || in_range "a" "f" c.
Definition UUID : re :=
  let h := Cls lower_hex in let d := chr "-" in
  let n k := Nat.iter k (Cat h) Eps in
  Cat (n 8%nat) (Cat d (Cat (n 4%nat) (Cat d (Cat (n 4%nat) (Cat d (Cat (n 4%nat) (Cat d (n 12%nat)))))))).
Definition canonical_uuid (s : string) : bool := accepts UUID s.

Inductive enrollment :=
| Reenroll (reason : string)
| Current (node_id server_id : string).

Definition enrollment_message (timestamp : Z) (nonce : string) : string :=
  "zoo-node-enrollment-v1" +:+ newline +:+ pretty timestamp +:+ newline +:+ nonce +:+ newline.

Definition proof_error {A} (text : string) : M Nodes A := raise (HTTPException 401 [Txt text]).

Section routes.
Context `{X : X509}.
Context (ciphers : Ciphers) (seal : string → string → string → string) (open_ : string → string → option string).
Context (sha256 : string → string) (dumps : string * string * string → string) (loads : string → option (string * string * string)).
Context (paramiko_reads : string → string → bool) (hostname : string → option string) (ZOO_NODE_HOST ZOO_API_URL : option string) (PORT : string).
Context (connected : string → bool).

Abbreviation authority := (authority ciphers seal open_).
Abbreviation sign_csr := (sign_csr ciphers seal open_).

(** What a certificate proves: the node it names, if it is one of a node and the
    message is signed with its key. *)
Definition proven (certificate message signature : string) : option (Certificate * string) :=
  cert ← load_certificate certificate;
  key ← cert.(ct_public_key);
  sig ← b64decode_strict signature;
  if negb (ecdsa_verify key sig message) then None else
  name ← cert.(ct_common_name);
  if negb (canonical_uuid name) then None else
  ca ← cert.(ct_ca);
  if ca : bool then None else
  usages ← cert.(ct_usages);
  if bool_decide ("clientAuth" ∈ usages) then Some (cert, name) else None.

(** Source: src/apps/server/nodes.py:198-238 [enrollment_status], nodes_api.py [enrollment_status].
    What does not prove the identity is a 401. *)
Definition enrollment_status (proc key : string) (serial : Z) (dr : Draws) (certificate : string) (timestamp : Z) (nonce signature : string)
    : M Nodes enrollment :=
  s ← get;
  let instant := nd_now s in
  if sec 120 <? Z.abs (instant - sec timestamp) then proof_error "node enrollment proof has expired; check the host clock" else
  match proven certificate (enrollment_message timestamp nonce) signature with
  | None => proof_error "invalid node enrollment proof"
  | Some (cert, node_id) =>
      a ← authority proc key serial dr;
      if negb (directly_issued cert a.(au_certificate)) then mret (Reenroll "authority_changed")
      else if (instant <? cert.(ct_not_before)) || (expiry_of cert <=? instant) then mret (Reenroll "expired")
      else
        found ← nd_session (gets (λ s, n ← get_node node_id s; _ ← (nd_db s).(servers) !! n.(no_server_id); Some n));
        match found with
        | None => mret (Reenroll "registration_missing")
        | Some node =>
            if negb (bool_decide (node.(no_serial) = serial_of cert)) || negb (node.(no_cert_expires_at) =? expiry_of cert)
            then mret (Reenroll "registration_replaced") else mret (Current node_id node.(no_server_id))
        end
  end.

(** ** Join tokens *)

(** [raw + "=" * (-len(raw) % 4)] *)
Fixpoint pads (n : nat) : string := match n with O => "" | S n => String pad (pads n) end.
Definition repadded (raw : string) : string := raw +:+ pads (Z.to_nat ((- Z.of_nat (String.length raw)) mod 4)).

Definition encode_token (body : string) : string := TOKEN_PREFIX +:+ rstrip pad (urlsafe_b64encode body).

(** Source: src/apps/server/nodes.py:252-272 [create_token].  The secret and the id are
    drawn; the body holds the URL, the secret and the authority's fingerprint. *)
Definition create_token (fingerprint : Certificate → string) (proc key : string) (serial : Z) (dr : Draws)
    (user_id workspace_id name api_url secret id : string) : M Nodes (string * NodeToken) :=
  s ← get;
  let expires := nd_now s + sec TOKEN_TTL in
  row ← nd_session (
    modify (purge_node_tokens (nd_now s - sec day));;
    create_node_token id (mkNodeToken workspace_id (sha256 secret) user_id name expires None));
  a ← authority proc key serial dr;
  mret (encode_token (dumps (api_url, secret, fingerprint a.(au_certificate))), row).

(** Source: src/apps/server/nodes.py:275-282 [decode_token]. *)
Definition decode_token (token : string) : result exn (string * string * string) :=
  if startswith token TOKEN_PREFIX then
    match body ← urlsafe_b64decode (repadded (drop_chars (String.length TOKEN_PREFIX) token)); loads body with
    | Some b => Ok b
    | None => Err (ValueError [Txt "not a zoo-node join token"])
    end
  else Err (ValueError [Txt "not a zoo-node join token"]).

(** Source: src/apps/server/nodes.py:285-288 [claim_token]. *)
Definition claim_token (secret : string) : M Nodes (option NodeToken) := nd_session (claim_node_token (sha256 secret)).

(** Source: src/apps/server/nodes.py:291-309 [register].  Dropping the tunnels of the server
    is left out. *)
Definition register (server_id : string) (cert : Certificate) (os arch hostname ssh_host_key : string) : M Nodes (string * Node) :=
  match cert.(ct_common_name) with
  | None => raise IndexError
  | Some id =>
      node ← nd_session (upsert_node id server_id (serial_of cert) (expiry_of cert) os arch hostname ssh_host_key);
      mret (id, node)
  end.

(** Source: src/apps/server/nodes.py:337-340 [fresh]. *)
Definition fresh (now : time) (n : Node) : bool :=
  match n.(no_seen_at) with Some t => bool_decide (now - t < sec FRESH_SECONDS) | None => false end.

(** Source: src/apps/server/nodes.py:343-352 [free_memory].  By server; each has one node. *)
Definition free_memory (server_ids : list string) (s : Nodes) : gmap string Z :=
  list_to_map (omap (λ p : string * Node,
    if bool_decide (p.2.(no_server_id) ∈ server_ids) && fresh (nd_now s) p.2 && connected p.2.(no_server_id)
    then (p.2.(no_server_id),.) <$> p.2.(no_memory_available) else None) (map_to_list s.(nd_nodes))).

(** ** Joining *)

(** Source: src/apps/server/nodes_api.py:21-21 [PLATFORM_OF]. *)
Definition PLATFORM_OF : list (string * string) := [("linux", "linux"); ("darwin", "macos"); ("windows", "windows")].

(** Source: src/apps/server/nodes_api.py:35-43 [JoinRequest]. *)
Record JoinRequest := mkJoinRequest {
  jr_token : string;
  jr_csr : string;
  jr_hostname : string;
  jr_os : string;
  jr_arch : string;
  jr_ssh_user : string;
  jr_ssh_host_key : string
}.

(** Source: src/apps/server/nodes_api.py:46-51 [JoinResponse]. *)
Record JoinResponse := mkJoinResponse {
  js_node_id : string;
  js_server_id : string;
  js_certificate : string;
  js_ca : string;
  js_endpoints : list string
}.

(** Source: src/apps/server/nodes_api.py:61-62 [api_url].  [base] is the request's base URL. *)
Definition api_url (base : string) : string :=
  match str_or_none ZOO_API_URL with Some u => u | None => rstrip "/"%char base end.

Definition archs_of (os : string) : list string := if bool_decide (os = "windows") then ["amd64"] else ["amd64"; "arm64"].

(** What a joining host can run. *)
Definition joined_capabilities (os arch platform : string) : string :=
  if bool_decide (os = "darwin") && negb (bool_decide (arch = "arm64")) then "linux" else default "" (capabilities_of platform).

(** What joining draws: ids and serial numbers, and what a new authority would need. *)
Record JoinDraws := mkJoinDraws {
  jd_node_id : string;
  jd_server_id : string;
  jd_serial : Z;
  jd_key : string;
  jd_ca_serial : Z;
  jd_encrypt : Draws
}.

(** Source: src/apps/server/nodes_api.py:138-187 [join]. *)
Definition join (proc : string) (payload : JoinRequest) (base : string) (jd : JoinDraws) : M Nodes JoinResponse :=
  match decode_token payload.(jr_token) with
  | Err _ => raise (HTTPException 401 [Txt "not a valid join token"])
  | Ok (_, secret, _) =>
      match dget payload.(jr_os) PLATFORM_OF with
      | None => raise (KeyError payload.(jr_os))
      | Some platform =>
          guard_ (bool_decide (payload.(jr_arch) ∈ archs_of payload.(jr_os)))
            (HTTPException 422 [Txt "unsupported node platform: "; Txt payload.(jr_os); Txt "/"; Txt payload.(jr_arch)]);;
          match validate_host_key paramiko_reads payload.(jr_ssh_host_key) with
          | Err e => raise (HTTPException 422 [Txt (exn_text e)])
          | Ok host_key =>
              token ← claim_token secret;
              match token with
              | None => raise (HTTPException 401 [Txt "the join token is unknown, used or expired"])
              | Some token =>
                  cert ← try_ (sign_csr proc jd.(jd_key) jd.(jd_ca_serial) jd.(jd_encrypt) payload.(jr_csr) jd.(jd_node_id) jd.(jd_serial))
                    (λ e, match e with
                          | ValueError m | TypeError m => raise (HTTPException 422 m)
                          | e => raise e
                          end);
                  nd_session (
                    create_server jd.(jd_server_id)
                      (mkHost token.(nt_name) ("node://" +:+ payload.(jr_ssh_user) +:+ "@" +:+ jd.(jd_server_id))
                         (or_else payload.(jr_hostname) jd.(jd_server_id)) token.(nt_created_by) platform)
                      token.(nt_workspace_id) (joined_capabilities payload.(jr_os) payload.(jr_arch) platform));;
                  node ← register jd.(jd_server_id) cert payload.(jr_os) payload.(jr_arch) payload.(jr_hostname) host_key;
                  a ← authority proc jd.(jd_key) jd.(jd_ca_serial) jd.(jd_encrypt);
                  match endpoints hostname ZOO_NODE_HOST ZOO_API_URL PORT (api_url base) with
                  | Err e => raise e
                  | Ok points => mret (mkJoinResponse node.1 jd.(jd_server_id) (certificate_pem cert) (certificate_pem a.(au_certificate)) points)
                  end
              end
          end
      end
  end.

(** ** Servers of a workspace *)

Definition not_found_server : exn := HTTPException 404 [Txt "server not found"].

(** Source: src/apps/server/servers_api.py:347-351 [ServersApi.owned]. *)
Definition owned_server (server_id : string) (user : Member) : M Nodes Server :=
  found ← gets (λ s, (nd_db s).(servers) !! server_id);
  match found with
  | Some r => guard_ (bool_decide (r.(sv_workspace_id) = user.(m_workspace_id))) not_found_server;; mret r
  | None => raise not_found_server
  end.

(** Source: src/apps/server/remote_docker.py:135-147 [available]. *)
Definition available (server_id : string) (s : Nodes) : bool :=
  match get_node_by_server server_id s with
  | Some (_, n) => fresh (nd_now s) n && connected server_id && existsb (λ d, bool_decide (d.1 = "docker") && d.2) n.(no_drivers)
  | None => false
  end.

(** Source: src/apps/server/servers_api.py:199-211 [server_response].  Name, platform and
    capabilities: without a Docker engine it answers for, no Linux. *)
Definition server_response (r : Server) (s : Nodes) : string * option Host * list string :=
  (r.(sv_id), s.(nd_hosts) !! r.(sv_id),
   merge_sort String.le (filter (λ c, available r.(sv_id) s = true ∨ c ≠ "linux") (unique [] (parse r.(sv_capabilities))))).

(** Source: src/apps/server/servers_api.py:417-425 [list_servers]. *)
Definition list_servers (user : Member) (s : Nodes) : list (string * option Host * list string * option (string * Node)) :=
  (λ r, (server_response r s, get_node_by_server r.(sv_id) s)) <$> list_servers_by_workspace user.(m_workspace_id) (nd_db s).

(** Source: src/apps/server/servers_api.py:427-449 [list_platforms].  Platform, how many
    servers, and whether it is available. *)
Definition list_platforms (user : Member) (s : Nodes) : list (string * nat * bool) :=
  (λ p : string * Platform,
     let count := length (filter (λ r, p.1 ∈ parse r.(sv_capabilities) ∧ (p.1 ≠ "linux" ∨ available r.(sv_id) s = true))
                            (list_servers_by_workspace user.(m_workspace_id) (nd_db s))) in
     (p.1, count, bool_decide (p.1 = "linux") || (0 <? count)%nat)) <$> PLATFORMS.

(** Source: src/apps/server/servers_api.py:254-260 [capabilities]. *)
Definition capabilities (server_id : string) (s : Nodes) : string :=
  let platform := from_option ho_platform "" (s.(nd_hosts) !! server_id) in
  match get_node_by_server server_id s with
  | Some (_, n) => if bool_decide (platform = "macos") && negb (bool_decide (n.(no_arch) = "arm64")) then "linux" else default "" (capabilities_of platform)
  | None => default "" (capabilities_of platform)
  end.

(** Source: src/apps/server/servers_api.py:451-462 [server_status].  [online] is what the probe
    found; the number of running sandboxes. *)
Definition server_status (server_id : string) (online : bool) (user : Member) : M Nodes (bool * nat) :=
  found ← nd_session (
    r ← owned_server server_id user;
    count ← gets (λ s, length (filter (λ x, x.(sb_server_id) = Some server_id ∧ x.(sb_status) = Running) (list_all_sandboxes (nd_db s))));
    mret (r, count));
  let '(r, count) := found in
  (if online then
     caps ← gets (capabilities server_id);
     if bool_decide (caps = r.(sv_capabilities)) then mret tt else nd_session (modify (update_server_capabilities caps server_id))
   else mret tt);;
  mret (online, count).

(** Source: src/apps/server/servers_api.py:553-565 [delete_server].  The tunnels and clients
    the process keeps for it are left out. *)
Definition delete_server_route (server_id : string) (user : Member) : M Nodes unit :=
  nd_session (
    r ← owned_server server_id user;
    guard_busy ← gets (λ s, existsb (λ x, bool_decide (x.(sb_server_id) = Some server_id)) (list_all_sandboxes (nd_db s)));
    guard_ (negb guard_busy) (HTTPException 409 [Txt "move or delete the sandboxes on this server first"]);;
    modify (detach_server server_id);;
    delete_server server_id).

End routes.

(** ** Tokens come back *)

Definition no_pad (c : ascii) : bool := negb (bool_decide (c = pad)).

Lemma urlsafe_no_pad n : 0 ≤ n < 64 → no_pad (sextet_char "-"%char "_"%char n) = true.
Proof.
  intros Hn. assert (forallb (λ n, no_pad (sextet_char "-"%char "_"%char n)) (Z.of_nat <$> seq 0 64) = true) as H by by vm_compute.
  rewrite forallb_forall in H. apply H. rewrite <- list_elem_of_In, list_elem_of_fmap. exists (Z.to_nat n). rewrite elem_of_seq. lia.
Qed.

(** The encoding is characters of the alphabet, then at most two pads, to a
    multiple of four. *)
Lemma urlsafe_form s : ∃ core k, urlsafe_b64encode s = core +:+ pads k ∧ all_of no_pad core = true ∧ (k ≤ 2)%nat ∧
  (Z.of_nat (String.length core) + Z.of_nat k) mod 4 = 0.
Proof.
  unfold urlsafe_b64encode. induction s as [|a|a b|a b c s (core & k & E & Ha & Hk & Hl)] using string_ind3; cbn [b2a].
  - exists "", 0%nat. split_and!; [done|done|lia|done].
  - pose proof (byte_of_bounds a). eexists (String _ (String _ "")), 2%nat. split; [reflexivity|]. cbn [all_of].
    rewrite !urlsafe_no_pad by (Z.to_euclidean_division_equations; lia). done.
  - pose proof (byte_of_bounds a). pose proof (byte_of_bounds b). eexists (String _ (String _ (String _ ""))), 1%nat.
    split; [reflexivity|]. cbn [all_of]. rewrite !urlsafe_no_pad by (Z.to_euclidean_division_equations; lia). split_and!; [done|lia|done].
  - pose proof (byte_of_bounds a). pose proof (byte_of_bounds b). pose proof (byte_of_bounds c).
    eexists (String _ (String _ (String _ (String _ core)))), k. split; [rewrite E, !string_app_cons; reflexivity|]. cbn [all_of String.length].
    rewrite !urlsafe_no_pad by (Z.to_euclidean_division_equations; lia). split_and!; [done|lia|]. rewrite <- Hl, !Nat2Z.inj_succ.
    replace (Z.succ (Z.succ (Z.succ (Z.succ (Z.of_nat (String.length core))))) + Z.of_nat k) with
      ((Z.of_nat (String.length core) + Z.of_nat k) + 1 * 4) by lia. apply Z.mod_add. lia.
Qed.

Lemma rstrip_pads core k : all_of no_pad core = true → rstrip pad (core +:+ pads k) = core.
Proof.
  assert (rstrip pad (pads k) = "") as Hp.
  { induction k as [|k IH]; [done|]. cbn [pads rstrip]. rewrite IH. by rewrite decide_True. }
  induction core as [|c core IH]; intros H.
  - by rewrite string_app_nil.
  - simpl in H. apply andb_true_iff in H as [Hc H]. rewrite string_app_cons. cbn [rstrip]. rewrite IH by done.
    destruct core; [|done]. unfold no_pad in Hc. rewrite decide_False; [done|]. intros ->. by rewrite bool_decide_true in Hc.
Qed.

Lemma repadded_rstrip s : repadded (rstrip pad (urlsafe_b64encode s)) = urlsafe_b64encode s.
Proof.
  destruct (urlsafe_form s) as (core & k & -> & Ha & Hk & Hl). rewrite rstrip_pads by done. unfold repadded. do 2 f_equal.
  apply Z.mod_divide in Hl as [q Hq]; [|lia].
  replace (- Z.of_nat (String.length core)) with (Z.of_nat k + - q * 4) by lia. rewrite Z.mod_add by lia. rewrite Z.mod_small by lia. lia.
Qed.

(** A join token carries what it was made of: whatever the length of its
    body, the padding that was cut off is found again. *)
Theorem join_token_roundtrip dumps loads b :
  loads (dumps b) = Some b → decode_token loads (encode_token (dumps b)) = Ok b.
Proof.
  intros Hb. unfold decode_token, encode_token.
  assert (startswith (TOKEN_PREFIX +:+ rstrip pad (urlsafe_b64encode (dumps b))) TOKEN_PREFIX = true) as -> by (apply prefix_app_true; by eexists).
  change (drop_chars (String.length TOKEN_PREFIX) (TOKEN_PREFIX +:+ ?x)) with x. rewrite repadded_rstrip, urlsafe_roundtrip. simpl. by rewrite Hb.
Qed.

(** ** Proofs *)

Section node_proofs.
Context `{X : X509} `{!X509Ok X}.
Context (ciphers : Ciphers) `{!CiphersOk ciphers}.
Context (seal : string → string → string → string) (open_ : string → string → option string).
Context (open_seal : ∀ k iv d, open_ k (seal k iv d) = Some d).
Context (sha256 : string → string) (dumps : string * string * string → string) (loads : string → option (string * string * string)).
Context (paramiko_reads : string → string → bool) (hostname : string → option string) (ZOO_NODE_HOST ZOO_API_URL : option string) (PORT : string).
Context (connected : string → bool).

Abbreviation advances := (advances ciphers).
Abbreviation stored := (stored ciphers seal).
Abbreviation plain := (plain ciphers open_).
Abbreviation keys_ok := (keys_ok ciphers).
Abbreviation kk s := s.(nd_vault).(v_keys).
Abbreviation authority := (authority ciphers seal open_).

(** The authority that the table holds. *)
Definition authority_is (a : Authority) (s : Nodes) : Prop :=
  ∃ pem ct, s.(nd_authority) = Some (pem, ct) ∧ load_certificate pem = Some a.(au_certificate) ∧
    load_key (plain (kk s) ct) = Some a.(au_key).

(** Its certificate and key belong together, and every process that has one has
    that one. *)
Record auth_ok (s : Nodes) : Prop := {
  ao_keys : keys_ok (kk s);
  ao_row : ∀ pem ct, s.(nd_authority) = Some (pem, ct) → stored (kk s) ct ∧
    ∃ c k, load_certificate pem = Some c ∧ load_key (plain (kk s) ct) = Some k ∧ c.(ct_public_key) = Some (public_of k);
  ao_cached : ∀ p a, s.(nd_cached) !! p = Some a → authority_is a s
}.

Definition same_rows (s s' : Nodes) : Prop :=
  s'.(nd_vault).(v_world) = s.(nd_vault).(v_world) ∧ s'.(nd_hosts) = s.(nd_hosts) ∧ s'.(nd_nodes) = s.(nd_nodes) ∧ s'.(nd_tokens) = s.(nd_tokens).

Lemma authority_unique a b s : authority_is a s → authority_is b s → a = b.
Proof. intros (p & c & H1 & H2 & H3) (p' & c' & H1' & H2' & H3'). destruct a, b. simpl in *. congruence. Qed.

Lemma authority_pair a s : auth_ok s → authority_is a s → a.(au_certificate).(ct_public_key) = Some (public_of a.(au_key)).
Proof.
  intros Hok (p & c & H1 & H2 & H3). destruct (ao_row _ Hok p c H1) as (_ & c' & k & H4 & H5 & H6). congruence.
Qed.

(** Keys advance: what was stored stays. *)
Lemma auth_advances s s' :
  auth_ok s → keys_ok (kk s') → advances (kk s) (kk s') → s'.(nd_authority) = s.(nd_authority) →
  (∀ p a, s'.(nd_cached) !! p = Some a → s.(nd_cached) !! p = Some a ∨ authority_is a s) →
  auth_ok s' ∧ ∀ a, authority_is a s → authority_is a s'.
Proof.
  intros [Hk Hr Hc] Hk' Ha Ea Hcache.
  assert (∀ a, authority_is a s → authority_is a s') as Hkeep.
  { intros a (p & c & H1 & H2 & H3). exists p, c. rewrite Ea. split_and!; [done..|]. destruct (Hr p c H1) as [Hs _].
    by destruct (stored_advances ciphers seal open_ open_seal (kk s) (kk s') c Hs (ko_coherent _ _ Hk) Ha) as [_ ->]. }
  split; [|done]. split; [done| |].
  - intros p c. rewrite Ea. intros Hrow. destruct (Hr p c Hrow) as (Hs & ca & k & H1 & H2 & H3).
    destruct (stored_advances ciphers seal open_ open_seal (kk s) (kk s') c Hs (ko_coherent _ _ Hk) Ha) as [Hs' Hp].
    split; [done|]. exists ca, k. by rewrite Hp.
  - intros p a Hpa. destruct (Hcache p a Hpa) as [H|H]; [by apply Hkeep, (Hc p)|by apply Hkeep].
Qed.

(** The second half of [authority]: reading the row. *)
Lemma authority_read p pem ct c k s :
  auth_ok s → s.(nd_authority) = Some (pem, ct) → load_certificate pem = Some c → load_key (plain (kk s) ct) = Some k →
  ∃ s', read_authority ciphers open_ p (pem, ct) s = (Ok (mkAuthority c k), s') ∧ auth_ok s' ∧ (∀ a, authority_is a s → authority_is a s') ∧ same_rows s s'.
Proof.
  intros Hok Hrow Hc Hk. pose proof (ao_keys _ Hok) as Hko. destruct (ao_row _ Hok _ _ Hrow) as (Hst & _).
  destruct (decrypt_stored ciphers seal open_ open_seal (kk s) ct Hst (ko_coherent _ _ Hko)) as (k' & E & Ha).
  pose proof (decrypt_keys_ok ciphers open_ ct (kk s) Hko) as [Hk' _]. rewrite E in Hk'. simpl in Hk'.
  assert (nd_on_vault (decrypt ciphers open_ ct) s = (Ok (plain (kk s) ct), nd_set_vault (put_keys k' s.(nd_vault)) s)) as E1.
  { unfold nd_on_vault, decrypt, on_keys. by rewrite E. }
  unfold read_authority. rewrite (bind_ok _ _ _ _ _ E1). rewrite Hk. cbn [fst]. rewrite Hc. run. eexists. split; [reflexivity|].
  match goal with |- auth_ok ?t ∧ _ => destruct (auth_advances s t Hok) as [H1 H2] end; [done|done|done| |by split].
  intros q a. simpl. rewrite lookup_insert. case_decide; [|by left]. intros [= <-]. right. by exists pem, ct.
Qed.

(** A process that asks gets the authority there is. *)
Lemma authority_known a p key serial dr s :
  auth_ok s → authority_is a s →
  ∃ s', authority p key serial dr s = (Ok a, s') ∧ auth_ok s' ∧ authority_is a s' ∧ same_rows s s'.
Proof.
  intros Hok Ha. unfold Nodes.authority. rewrite (bind_ok get _ s s s eq_refl).
  destruct (s.(nd_cached) !! p) as [b|] eqn:Ec.
  - exists s. assert (b = a) as -> by (eapply authority_unique; [by apply (ao_cached _ Hok p)|done]). done.
  - pose proof Ha as (pem & ct & Hrow & Hc & Hk).
    match goal with |- context [nd_session ?m] => assert (nd_session m s = (Ok (pem, ct), s)) as E end.
    { unfold nd_session, transaction. rewrite (bind_ok get _ s s s eq_refl), Hrow. run. rewrite (bind_ok get _ s s s eq_refl), Hrow. done. }
    rewrite (bind_ok _ _ _ _ _ E).
    destruct (authority_read p pem ct _ _ s Hok Hrow Hc Hk) as (s' & E' & Hok' & Hkeep & Hs). rewrite E'.
    exists s'. destruct a. split; [done|]. split; [done|]. split; [by apply Hkeep|done].
Qed.

(** The first to ask makes one. *)
Lemma authority_first p key serial dr s :
  auth_ok s → has_char ":"%char dr.(dr_key_id) = false →
  match authority p key serial dr s with
  | (Ok a, s') => auth_ok s' ∧ authority_is a s' ∧ same_rows s s'
  | (Err _, s') => auth_ok s' ∧ same_rows s s'
  end.
Proof.
  intros Hok Hd. destruct (s.(nd_authority)) as [[pem ct]|] eqn:Hrow.
  - destruct (ao_row _ Hok _ _ Hrow) as (_ & c & k & Hc & Hk & _).
    destruct (authority_known (mkAuthority c k) p key serial dr s Hok) as (s' & -> & ? & ? & ?); [by exists pem, ct|done].
  - unfold Nodes.authority. rewrite (bind_ok get _ s s s eq_refl).
    destruct (s.(nd_cached) !! p) as [b|] eqn:Ec.
    { destruct (ao_cached _ Hok _ _ Ec) as (? & ? & H & _). congruence. }
    pose proof (encrypt_opens ciphers seal open_ open_seal (key_pem key) SYSTEM dr s.(nd_vault) (ao_keys _ Hok) Hd) as He.
    unfold mbind at 1, M_bind at 1. unfold nd_session, transaction. rewrite (bind_ok get _ s s s eq_refl), Hrow.
    unfold nd_on_vault at 1. rewrite run_bind_assoc. unfold mbind at 1, M_bind at 1.
    destruct (encrypt ciphers seal (key_pem key) SYSTEM dr (nd_vault s)) as [[t|e] v] eqn:Ee.
    + destruct He as (Hk & Ha & Hst & Hpl). run.
      set (cert := authority_certificate key serial (nd_now s)).
      set (s1 := create_node_authority (certificate_pem cert) t (nd_set_vault v s)).
      rewrite (bind_ok get _ s1 s1 s1 eq_refl).
      assert (s1.(nd_authority) = Some (certificate_pem cert, t)) as E1 by (unfold s1; simpl; by rewrite Hrow).
      rewrite E1. run.
      assert (auth_ok s1) as Hok1.
      { split; [done| |].
        - intros p' c'. rewrite E1. intros [= <- <-]. split; [done|]. exists cert, key. rewrite pem_ok.
          change (kk s1) with (v_keys v). rewrite Hpl, key_ok. done.
        - intros q b Hb. destruct (ao_cached _ Hok q b Hb) as (? & ? & H & _). congruence. }
      destruct (authority_read p (certificate_pem cert) t cert key s1 Hok1 E1) as (s' & E' & Hok' & Hkeep & Hs).
      { apply pem_ok. } { change (kk s1) with (v_keys v). by rewrite Hpl, key_ok. }
      rewrite E'. split; [done|]. split.
      { apply Hkeep. exists (certificate_pem cert), t. split; [done|]. split; [apply pem_ok|].
        change (kk s1) with (v_keys v). by rewrite Hpl, key_ok. }
      assert (v_world v = v_world (nd_vault s)) as Ew.
      { revert Ee. unfold encrypt, on_keys. destruct (encrypt_bytes _ _ _ _ _ _ _ _). by intros [= _ <-]. }
      destruct Hs as (H1 & H2 & H3 & H4). split; [by rewrite H1|]. done.
    + destruct He as [Hc Hen].
      assert (kk (nd_restore s (nd_set_vault v s)) = kk s) as Ek by (simpl; rewrite Hc, Hen; by destruct (kk s)).
      assert (v_world v = v_world (nd_vault s)) as Ew.
      { revert Ee. unfold encrypt, on_keys. destruct (encrypt_bytes _ _ _ _ _ _ _ _). by intros [= _ <-]. }
      split.
      * eapply auth_advances; [exact Hok|rewrite Ek; apply Hok|rewrite Ek; apply advances_refl, Hok|done|]. intros q b. by left.
      * split; [|done]. simpl. rewrite Ew. by destruct (v_world (nd_vault s)).
Qed.

(** *** What statements keep *)

(** Statements alone: keys, the authority, caches and the clock stay. *)
Definition sql {A} (m : M Nodes A) : Prop := ∀ s,
  kk (m s).2 = kk s ∧ (m s).2.(nd_authority) = s.(nd_authority) ∧ (m s).2.(nd_cached) = s.(nd_cached) ∧ nd_now (m s).2 = nd_now s.

Lemma sql_bind {A B} (m : M Nodes A) (k : A → M Nodes B) : sql m → (∀ a, sql (k a)) → sql (m ≫= k).
Proof.
  intros Hm Hk s. unfold mbind, M_bind. specialize (Hm s). destruct (m s) as [[x|e] s']; [|done].
  destruct Hm as (E1 & E2 & E3 & E4), (Hk x s') as (F1 & F2 & F3 & F4). simpl in *. split_and!; congruence.
Qed.

Lemma sql_ret {A} (x : A) : sql (mret x). Proof. done. Qed.
Lemma sql_raise {A} e : sql (raise (A := A) e). Proof. done. Qed.
Lemma sql_get : sql get. Proof. done. Qed.
Lemma sql_gets {A} (f : Nodes → A) : sql (gets f). Proof. done. Qed.
Lemma sql_guard b e : sql (guard_ b e). Proof. by destruct b. Qed.
Lemma sql_modify f :
  (∀ s, kk (f s) = kk s ∧ (f s).(nd_authority) = s.(nd_authority) ∧ (f s).(nd_cached) = s.(nd_cached) ∧ nd_now (f s) = nd_now s) → sql (modify f).
Proof. done. Qed.

(** A host's registration, and a token that is spent. *)
Definition registered (sid nid : string) (cert : Certificate) (s : Nodes) : Prop :=
  ∃ n, s.(nd_nodes) !! nid = Some n ∧ n.(no_server_id) = sid ∧ n.(no_serial) = serial_of cert ∧ n.(no_cert_expires_at) = expiry_of cert ∧
    is_Some ((nd_db s).(servers) !! sid).
Definition spent (h : string) (s : Nodes) : Prop :=
  ∀ i t, s.(nd_tokens) !! i = Some t → t.(nt_secret_hash) = h → t.(nt_used_at) ≠ None ∨ t.(nt_expires_at) ≤ nd_now s.

Abbreviation join := (join ciphers seal open_ sha256 loads paramiko_reads hostname ZOO_NODE_HOST ZOO_API_URL PORT).
Abbreviation create_token := (create_token ciphers seal open_ sha256 dumps).
Abbreviation enrollment_status := (enrollment_status ciphers seal open_).
Abbreviation claim_token := (claim_token sha256).

Section keeping.
Context (a : Authority) (sid nid : string) (cert : Certificate) (h : string) (want : Prop).

Definition rows_kept (s : Nodes) : Prop := (want → registered sid nid cert s) ∧ spent h s.
Definition kept (s : Nodes) : Prop := auth_ok s ∧ authority_is a s ∧ rows_kept s.

Lemma kept_auth s s' : kept s → auth_ok s' → authority_is a s' → same_rows s s' → kept s'.
Proof.
  intros (_ & _ & Hr) Hok Ha (Ew & Eh & En & Et). split; [done|]. split; [done|]. destruct Hr as [Hr Hs]. split.
  - intros Hw. destruct (Hr Hw) as (n & H1 & H2 & H3 & H4 & H5). exists n. unfold nd_db. by rewrite En, Ew.
  - intros i t. rewrite Et. unfold nd_now, now_of. rewrite Ew. apply Hs.
Qed.

Lemma kept_rows s s' :
  auth_ok s → authority_is a s → kk s' = kk s → s'.(nd_authority) = s.(nd_authority) → s'.(nd_cached) = s.(nd_cached) → rows_kept s' → kept s'.
Proof.
  intros Hok Ha Ek Ea Ec Hr. pose proof (ao_keys _ Hok) as Hk.
  assert (auth_ok s' ∧ ∀ b, authority_is b s → authority_is b s') as [Hok' Hkeep].
  { apply auth_advances; [done|by rewrite Ek|rewrite Ek; apply advances_refl, Hk|done|]. intros p b. rewrite Ec. by left. }
  split; [done|]. split; [by apply Hkeep|done].
Qed.

Lemma kept_session {A} (m : M Nodes A) :
  sql m → (∀ s, rows_kept s → match m s with (Ok _, s') => rows_kept s' | _ => True end) → preserves kept (nd_session m).
Proof.
  intros Hm Hq s Hs. unfold nd_session, transaction. specialize (Hm s). specialize (Hq s (proj2 (proj2 Hs))).
  destruct (m s) as [[x|e] s'], Hm as (E1 & E2 & E3 & E4); simpl in *.
  - by apply (kept_rows s); [apply Hs..|done|done|done|done].
  - apply (kept_rows s); [apply Hs..| |done|done|].
    + simpl. rewrite E1. by destruct (kk s).
    + destruct (proj2 (proj2 Hs)) as [Hr Hsp]. split; [exact Hr|]. intros i t Ht Hh.
      change (nt_used_at t ≠ None ∨ nt_expires_at t ≤ nd_now s'). rewrite E4. exact (Hsp i t Ht Hh).
Qed.

Lemma kept_authority p key serial dr : preserves kept (authority p key serial dr).
Proof.
  intros s Hs. destruct (authority_known a p key serial dr s) as (s' & -> & H1 & H2 & H3); [apply Hs..|]. by apply (kept_auth s).
Qed.

Lemma get_node_by_server_Some server_id s i n :
  get_node_by_server server_id s = Some (i, n) → s.(nd_nodes) !! i = Some n ∧ n.(no_server_id) = server_id.
Proof.
  unfold get_node_by_server. intros H%head_Some_elem_of. apply list_elem_of_filter in H as [H1 H2]. by apply elem_of_map_to_list in H2.
Qed.

(** *** Statement by statement *)
Lemma rows_if (s s' : Nodes) :
  (registered sid nid cert s → registered sid nid cert s') → (spent h s → spent h s') → rows_kept s → rows_kept s'.
Proof. intros H1 H2 [Hr Hs]. split; auto. Qed.

Lemma spent_tokens s s' :
  nd_now s ≤ nd_now s' →
  (∀ i t', s'.(nd_tokens) !! i = Some t' → t'.(nt_secret_hash) = h → t'.(nt_used_at) = None → s.(nd_tokens) !! i = Some t') →
  spent h s → spent h s'.
Proof.
  intros Hn Ht Hs i t' Hi Hh. destruct (t'.(nt_used_at)) as [u|] eqn:Eu; [by left|].
  destruct (Hs i t' (Ht i t' Hi Hh Eu) Hh) as [H|H]; [done|right; lia].
Qed.

Lemma registered_rows s s' :
  (∀ n, s.(nd_nodes) !! nid = Some n → n.(no_server_id) = sid → s'.(nd_nodes) !! nid = Some n) →
  (is_Some ((nd_db s).(servers) !! sid) → is_Some ((nd_db s').(servers) !! sid)) →
  registered sid nid cert s → registered sid nid cert s'.
Proof. intros Hn Hv (n & H1 & H2 & H3 & H4 & H5). exists n. split_and!; auto. Qed.

Lemma purge_rows t s : rows_kept s → rows_kept (purge_node_tokens t s).
Proof.
  apply rows_if; [done|]. apply spent_tokens; [done|]. intros i t' H _ _. simpl in H. by apply map_lookup_filter_Some in H as [H _].
Qed.

Lemma create_token_rows id t s :
  t.(nt_secret_hash) ≠ h → rows_kept s → match create_node_token id t s with (Ok _, s') => rows_kept s' | _ => True end.
Proof.
  intros Hh Hs. unfold create_node_token. rewrite (bind_ok get _ s s s eq_refl). destruct (is_none _ && _); run; [|done].
  revert Hs. apply rows_if; [done|]. apply spent_tokens; [done|]. intros i t' H Ht _. simpl in H.
  rewrite lookup_insert in H. case_decide; [|done]. injection H as <-. done.
Qed.

Lemma claim_rows hash s : rows_kept s → rows_kept (claim_node_token hash s).2.
Proof.
  unfold claim_node_token. rewrite (bind_ok get _ s s s eq_refl). run. apply rows_if; [done|]. apply spent_tokens; [done|].
  intros i t' H _ Hu. simpl in H. rewrite lookup_fmap in H. destruct (nd_tokens s !! i) as [t|] eqn:Et; [|done].
  injection H as <-. revert Hu. destruct (claimable _ _ t); [done|]. done.
Qed.

(** A token that is claimed is spent. *)
Lemma claim_spends hash s : spent hash (claim_node_token hash s).2.
Proof.
  unfold claim_node_token. rewrite (bind_ok get _ s s s eq_refl). run. intros i t' H Hh. simpl in H. rewrite lookup_fmap in H.
  destruct (nd_tokens s !! i) as [t|] eqn:Et; [|done]. injection H as <-. revert Hh.
  destruct (claimable hash (nd_now s) t) eqn:Ec; [by left|]. intros Hh. unfold claimable in Ec. rewrite bool_decide_true in Ec by done. simpl in Ec.
  destruct (nt_used_at t) eqn:Eu; [left; by rewrite ?Eu|]. simpl in Ec. apply bool_decide_eq_false in Ec. right.
  change (nt_expires_at t ≤ nd_now s). lia.
Qed.

Lemma spent_unclaimable s t : spent h s → claim_node_token h s = (Ok (Some t), (claim_node_token h s).2) → False.
Proof.
  intros Hs H. unfold claim_node_token in H. rewrite (bind_ok get _ s s s eq_refl) in H. revert H. run. intros [= H].
  destruct (head _) as [[i x]|] eqn:Eh; [|done]. apply head_Some_elem_of, list_elem_of_filter in Eh as [Hc Hin].
  apply elem_of_map_to_list in Hin. simpl in Hc. unfold claimable in Hc. apply andb_true_iff in Hc as [[Hh Hu]%andb_true_iff He].
  apply bool_decide_eq_true in Hh, He. destruct (Hs i x Hin Hh) as [H1|H1]; [|lia]. by destruct (nt_used_at x).
Qed.

(** The node of another server neither takes nor displaces the id of ours. *)
Lemma upsert_rows id server_id serial expires os arch hn key s :
  (want → server_id ≠ sid) → rows_kept s →
  match upsert_node id server_id serial expires os arch hn key s with (Ok _, s') => rows_kept s' | _ => True end.
Proof.
  intros Hne Hs. unfold upsert_node. rewrite (bind_ok get _ s s s eq_refl).
  destruct (is_none (_ !! id) || _) eqn:Eg; run; [|done]. destruct (negb _); run; [|done].
  destruct Hs as [Hr Hs]. split; [|revert Hs; by apply spent_tokens]. intros Hw. specialize (Hne Hw).
  generalize (Hr Hw). apply registered_rows; [|done]. intros n Hn Hsid. simpl. destruct (get_node_by_server server_id s) as [[i x]|] eqn:Eo.
  - apply get_node_by_server_Some in Eo as [Hi Hx].
    assert (i ≠ nid) as Hni by congruence. rewrite lookup_insert_ne; [by rewrite lookup_delete_ne|].
    intros ->. apply orb_true_iff in Eg as [Eg|Eg]; [by rewrite Hn in Eg|]. apply bool_decide_eq_true in Eg. simpl in Eg. congruence.
  - rewrite lookup_insert_ne; [done|]. intros ->. apply orb_true_iff in Eg as [Eg|Eg]; [by rewrite Hn in Eg|]. by apply bool_decide_eq_true in Eg.
Qed.

Lemma create_server_rows id ho ws caps s :
  rows_kept s →
  match create_server id ho ws caps s with (Ok _, s') => rows_kept s' ∧ (want → id ≠ sid) | _ => True end.
Proof.
  intros Hs. unfold create_server. rewrite (bind_ok get _ s s s eq_refl). destruct (is_none _) eqn:Ei; run; [|done]. split.
  - revert Hs. apply rows_if; [|by apply spent_tokens]. apply registered_rows; [done|]. intros [r Hr]. simpl. rewrite lookup_insert. by case_decide.
  - intros Hw ->. destruct (proj1 Hs Hw) as (n & _ & _ & _ & _ & r & Hr). by rewrite Hr in Ei.
Qed.

Lemma update_caps_rows caps id s : rows_kept s → rows_kept (update_server_capabilities caps id s).
Proof.
  apply rows_if; [|by apply spent_tokens]. apply registered_rows; [done|]. intros [r Hr]. simpl. rewrite lookup_alter. case_decide; [|done].
  subst. rewrite Hr. done.
Qed.

Lemma detach_rows id s : rows_kept s → rows_kept (detach_server id s).
Proof. apply rows_if; [|by apply spent_tokens]. by apply registered_rows. Qed.

Lemma delete_server_rows id s :
  (want → id ≠ sid) → rows_kept s → match delete_server id s with (Ok _, s') => rows_kept s' | _ => True end.
Proof.
  intros Hne [Hr Hs]. unfold delete_server. rewrite (bind_ok get _ s s s eq_refl). destruct (negb _); run; [|done].
  split; [|revert Hs; by apply spent_tokens]. intros Hw. specialize (Hne Hw). generalize (Hr Hw). apply registered_rows.
  - intros n Hn Hsid. simpl. apply map_lookup_filter_Some. split; [done|]. simpl. congruence.
  - intros [r Hv]. simpl. by rewrite lookup_delete_ne.
Qed.

Lemma renew_rows id previous next expiry s : (want → id ≠ nid) → rows_kept s → rows_kept (swap_certificate id previous next expiry s).
Proof.
  intros Hne [Hr Hs]. split; [|revert Hs; by apply spent_tokens]. intros Hw. generalize (Hr Hw). apply registered_rows; [|done].
  intros n Hn _. simpl. by rewrite lookup_alter_ne by (intros ->; by apply Hne).
Qed.

Lemma report_rows id f s : rows_kept s → rows_kept (node_report id f s).
Proof.
  apply rows_if; [|by apply spent_tokens]. intros (n & H1 & H2 & H3 & H4 & H5). unfold node_report. simpl.
  destruct (decide (id = nid)) as [->|Hne]; [|exists n; simpl; by rewrite lookup_alter_ne].
  exists (reported f n). simpl. by rewrite lookup_alter_eq, H1.
Qed.

Lemma world_rows w s :
  s.(nd_vault).(v_world).(w_clock) ≤ w.(w_clock) → (want → is_Some ((nd_db s).(servers) !! sid) → is_Some (w.(w_db).(servers) !! sid)) →
  rows_kept s → rows_kept (nd_world w s).
Proof.
  intros Hc Hv [Hr Hs]. split; [|revert Hs; by apply spent_tokens]. intros Hw. generalize (Hr Hw).
  intros (n & H1 & H2 & H3 & H4 & H5). exists n. split_and!; [|done..|by apply Hv]. simpl. apply map_lookup_filter_Some. split; [done|].
  simpl. rewrite H2. by apply Hv.
Qed.

Lemma sql_statements :
  (∀ id t, sql (create_node_token id t)) ∧ (∀ hash, sql (claim_node_token hash)) ∧
  (∀ id server_id serial expires os arch hn key, sql (upsert_node id server_id serial expires os arch hn key)) ∧
  (∀ id ho ws caps, sql (create_server id ho ws caps)) ∧ (∀ id, sql (delete_server id)).
Proof.
  split_and!; intros; (apply sql_bind; [apply sql_get|intros s0]); cbv zeta;
    repeat first [apply sql_ret|apply sql_guard|by apply sql_modify|apply sql_bind; [|intros ?]].
Qed.

(** *** Route by route *)
Lemma kept_claim secret : preserves kept (claim_token secret).
Proof.
  apply kept_session; [apply sql_statements|]. intros s Hs. pose proof (claim_rows (sha256 secret) s Hs) as H.
  destruct (claim_node_token _ s) as [[?|?] ?]; done.
Qed.

Lemma kept_register server_id c os arch hn key : (want → server_id ≠ sid) → preserves kept (register server_id c os arch hn key).
Proof.
  intros Hne. unfold register. destruct (ct_common_name c) as [name|]; [|auto with zoo]. apply preserves_bind; [|intros ?; apply preserves_ret].
  apply kept_session; [apply sql_statements|]. intros s Hs. by apply upsert_rows.
Qed.

Lemma kept_sign_csr p key serial dr csr id node_serial : preserves kept (sign_csr ciphers seal open_ p key serial dr csr id node_serial).
Proof.
  unfold sign_csr. destruct (load_csr csr) as [[valid ec]|]; [|auto with zoo]. apply preserves_bind; [auto with zoo|intros _].
  destruct ec; [|auto with zoo]. apply preserves_bind; [apply kept_authority|intros ?]. apply preserves_bind; [auto with zoo|intros ?; auto with zoo].
Qed.

Lemma kept_create_server id ho ws caps s :
  kept s → match nd_session (create_server id ho ws caps) s with (Ok _, s') => kept s' ∧ (want → id ≠ sid) | (Err _, s') => kept s' end.
Proof.
  intros Hs. assert (preserves kept (nd_session (create_server id ho ws caps))) as Hk.
  { apply kept_session; [apply sql_statements|]. intros s0 H0. pose proof (create_server_rows id ho ws caps s0 H0) as H.
    destruct (create_server _ _ _ _ s0) as [[?|?] ?]; [apply H|done]. }
  specialize (Hk s Hs). revert Hk. unfold nd_session, transaction.
  pose proof (create_server_rows id ho ws caps s (proj2 (proj2 Hs))) as H. destruct (create_server _ _ _ _ s) as [[?|?] ?]; [|done].
  intros Hk. split; [done|apply H].
Qed.

Lemma kept_join p payload base jd : preserves kept (join p payload base jd).
Proof.
  unfold Nodes.join. destruct (decode_token loads _) as [[[url secret] fp]|err]; [|auto with zoo]. destruct (dget _ _) as [platform|]; [|auto with zoo].
  apply preserves_bind; [auto with zoo|intros _]. destruct (validate_host_key _ _) as [host_key|err]; [|auto with zoo].
  apply preserves_bind; [apply kept_claim|]. intros [token|]; [|auto with zoo].
  apply preserves_bind.
  { apply preserves_try; [apply kept_sign_csr|]. intros []; auto with zoo. }
  intros c s Hs. unfold mbind, M_bind at 1.
  match goal with |- context [nd_session (create_server ?i ?o ?w ?c) s] =>
    pose proof (kept_create_server i o w c s Hs) as H; destruct (nd_session (create_server i o w c) s) as [[x|e] s1] end; [|done].
  destruct H as [H1 Hne]. revert H1. generalize s1. apply preserves_bind; [by apply kept_register|]. intros node.
  apply preserves_bind; [apply kept_authority|]. intros ?. destruct (endpoints _ _ _ _ _); auto with zoo.
Qed.

Lemma kept_create_token fingerprint p key serial dr user ws name url secret id :
  sha256 secret ≠ h → preserves kept (create_token fingerprint p key serial dr user ws name url secret id).
Proof.
  intros Hh. unfold Nodes.create_token. apply preserves_bind; [auto with zoo|intros s0]. apply preserves_bind.
  - apply kept_session.
    + apply sql_bind; [by apply sql_modify|intros _]. apply sql_statements.
    + intros s Hs. unfold exec. run. apply create_token_rows; [done|]. by apply purge_rows.
  - intros row. apply preserves_bind; [apply kept_authority|]. intros b. apply preserves_ret.
Qed.

Lemma kept_enrollment p key serial dr certificate timestamp nonce signature :
  preserves kept (enrollment_status p key serial dr certificate timestamp nonce signature).
Proof.
  unfold Nodes.enrollment_status, proof_error. apply preserves_bind; [auto with zoo|intros s0]. destruct (_ <? _); [auto with zoo|].
  destruct (proven _ _ _) as [[c id]|]; [|auto with zoo]. apply preserves_bind; [apply kept_authority|]. intros b.
  destruct (negb _); [auto with zoo|]. destruct (_ || _); [auto with zoo|]. apply preserves_bind.
  - apply kept_session; [apply sql_gets|]. intros s Hs. done.
  - intros [n|]; [|auto with zoo]. destruct (_ || _); auto with zoo.
Qed.

Lemma kept_owned server_id user : preserves rows_kept (owned_server server_id user) ∧ sql (owned_server server_id user).
Proof.
  unfold owned_server. split.
  - apply preserves_bind; [auto with zoo|]. intros [r|]; [|auto with zoo]. apply preserves_bind; [auto with zoo|intros _]. apply preserves_ret.
  - apply sql_bind; [apply sql_gets|]. intros [r|]; [|apply sql_raise]. apply sql_bind; [apply sql_guard|intros _]. apply sql_ret.
Qed.

(** An interface between [preserves] and what [kept_session] asks. *)
Lemma kept_session_preserves {A} (m : M Nodes A) : sql m → preserves rows_kept m → preserves kept (nd_session m).
Proof. intros Hm Hp. apply kept_session; [done|]. intros s Hs. specialize (Hp s Hs). by destruct (m s) as [[?|?] ?]. Qed.

Lemma kept_status server_id online user : preserves kept (server_status server_id online user).
Proof.
  unfold server_status. apply preserves_bind.
  - apply kept_session_preserves.
    + apply sql_bind; [apply kept_owned|intros r]. apply sql_bind; [apply sql_gets|intros n]. apply sql_ret.
    + apply preserves_bind; [apply kept_owned|intros r]. apply preserves_bind; [auto with zoo|intros n]. apply preserves_ret.
  - intros [r n]. apply preserves_bind; [|intros _; apply preserves_ret]. destruct online; [|auto with zoo].
    apply preserves_bind; [auto with zoo|]. intros caps. destruct (bool_decide _); [auto with zoo|].
    apply kept_session_preserves; [by apply sql_modify|]. apply preserves_modify. intros s. apply update_caps_rows.
Qed.

Lemma kept_delete_server server_id user : (want → server_id ≠ sid) → preserves kept (delete_server_route server_id user).
Proof.
  intros Hne. apply kept_session.
  - apply sql_bind; [apply kept_owned|intros r]. apply sql_bind; [apply sql_gets|intros n]. apply sql_bind; [apply sql_guard|intros _].
    apply sql_bind; [by apply sql_modify|intros _]. apply sql_statements.
  - intros s Hs. unfold mbind at 1, M_bind at 1. pose proof (proj1 (kept_owned server_id user) s Hs) as H.
    destruct (owned_server server_id user s) as [[r|e] s1]; [|done]. simpl in H. run. destruct (negb _); run; [|done].
    apply delete_server_rows; [done|]. by apply detach_rows.
Qed.

(** *** Steps *)

(** What happens to the hosts, but for making another token of the hash [h]: the routes, the
    gateway's renewals and reports, rotation and use of the keys, and the rest of the program,
    which may do anything to the other tables and lets time pass.  When [want] holds, the
    server [sid] is not deleted and the certificate of its node [nid] not renewed. *)
Inductive node_step : Nodes → Nodes → Prop :=
| ns_join p payload base jd s : node_step s (join p payload base jd s).2
| ns_token fingerprint p key serial dr user ws name url secret id s :
    sha256 secret ≠ h → node_step s (create_token fingerprint p key serial dr user ws name url secret id s).2
| ns_enrollment p key serial dr certificate timestamp nonce signature s :
    node_step s (enrollment_status p key serial dr certificate timestamp nonce signature s).2
| ns_status server_id online user s : node_step s (server_status server_id online user s).2
| ns_delete server_id user s : (want → server_id ≠ sid) → node_step s (delete_server_route server_id user s).2
| ns_renew id previous next expiry s : (want → id ≠ nid) → node_step s (swap_certificate id previous next expiry s)
| ns_report id f s : node_step s (node_report id f s)
| ns_restart p s : node_step s (nd_set_cached (delete p s.(nd_cached)) s)
| ns_keys k s : keys_ok k → advances (kk s) k → node_step s (nd_set_vault (put_keys k s.(nd_vault)) s)
| ns_world w s :
    s.(nd_vault).(v_world).(w_clock) ≤ w.(w_clock) →
    (want → is_Some ((nd_db s).(servers) !! sid) → is_Some (w.(w_db).(servers) !! sid)) → node_step s (nd_world w s).

Lemma node_kept_step s s' : node_step s s' → kept s → kept s'.
Proof.
  intros [] Hs.
  - by apply kept_join.
  - by apply kept_create_token.
  - by apply kept_enrollment.
  - by apply kept_status.
  - by apply kept_delete_server.
  - apply (kept_rows s0); [apply Hs..|done|done|done|]. apply renew_rows; [done|apply Hs].
  - apply (kept_rows s0); [apply Hs..|done|done|done|]. apply report_rows, Hs.
  - destruct Hs as (Hok & Ha & Hr). destruct (auth_advances s0 (nd_set_cached (delete p (nd_cached s0)) s0) Hok) as [Hk1 Hk2].
    { apply Hok. } { apply advances_refl, Hok. } { done. }
    { intros q b Hb. simpl in Hb. apply lookup_delete_Some in Hb as [_ Hb]. by left. }
    split; [done|]. split; [by apply Hk2|]. revert Hr. apply rows_if; [done|by apply spent_tokens].
  - destruct Hs as (Hok & Ha & Hr). destruct (auth_advances s0 (nd_set_vault (put_keys k (nd_vault s0)) s0) Hok) as [Hk1 Hk2]; [done..| |].
    { intros q b Hb. by left. }
    split; [done|]. split; [by apply Hk2|]. revert Hr. apply rows_if; [done|by apply spent_tokens].
  - apply (kept_rows s0); [apply Hs..|done|done|done|]. apply world_rows; [done|done|apply Hs].
Qed.

Lemma kept_steps s s' : rtc node_step s s' → kept s → kept s'.
Proof. induction 1 as [|x y z Hxy _ IH]; [done|]. intros Hx. by apply IH, (node_kept_step x). Qed.
End keeping.


Lemma kept_unwanted a sid nid cert h (want want' : Prop) s : (want' → want) → kept a sid nid cert h want s → kept a sid nid cert h want' s.
Proof. intros Hw (H1 & H2 & H3 & H4). split; [done|]. split; [done|]. split; [by auto|done]. Qed.

Lemma restored_session {A} (m : M Nodes A) s x s' : nd_session m s = (Ok x, s') → m s = (Ok x, s').
Proof. unfold nd_session, transaction. by destruct (m s) as [[?|?] ?]. Qed.

(** A certificate for a request, of the authority there is then. *)
Lemma sign_csr_effect p key serial dr csr id node_serial s c s' :
  auth_ok s → has_char ":"%char dr.(dr_key_id) = false → sign_csr ciphers seal open_ p key serial dr csr id node_serial s = (Ok c, s') →
  ∃ a public, load_csr csr = Some (true, Some public) ∧ c = issue a public id CERT_DAYS node_serial None (nd_now s) ∧
    auth_ok s' ∧ authority_is a s' ∧ same_rows s s'.
Proof.
  intros Hok Hd. unfold sign_csr. destruct (load_csr csr) as [[[] [public|]]|]; run; [|done..].
  intros E. apply bind_ok_inv in E as (a & s1 & E1 & E2). pose proof (authority_first p key serial dr s Hok Hd) as H. rewrite E1 in H.
  rewrite (bind_ok get _ s1 s1 s1 eq_refl) in E2. injection E2 as <- <-. destruct H as (H1 & H2 & H3). exists a, public.
  split_and!; [done| |done..]. f_equal. unfold nd_now, now_of. by destruct H3 as [-> _].
Qed.

(** What a node is registered for is what was signed for it. *)
Lemma register_effect server_id c os arch hn key s id n s' :
  register server_id c os arch hn key s = (Ok (id, n), s') →
  ct_common_name c = Some id ∧ registered server_id id c s' ∧ nd_tokens s' = nd_tokens s ∧ nd_now s' = nd_now s ∧
  kk s' = kk s ∧ nd_authority s' = nd_authority s ∧ nd_cached s' = nd_cached s.
Proof.
  unfold register. destruct (ct_common_name c) as [name|]; [|done]. intros E. apply bind_ok_inv in E as (n0 & s1 & E1 & E2).
  injection E2 as <- <- <-. apply restored_session in E1. split; [done|].
  unfold upsert_node in E1. rewrite (bind_ok get _ s s s eq_refl) in E1.
  destruct (is_none (_ !! name) || _); revert E1; run; [|done].
  destruct (is_none (servers (nd_db s) !! server_id)) eqn:Es; run; [done|]. intros [= <- <-].
  split; [|done]. eexists. simpl. rewrite lookup_insert. case_decide; [|done]. split; [done|]. split_and!; [done..|].
  destruct (servers (nd_db s) !! server_id) eqn:Ev; [|done]. unfold nd_db in *. simpl. by eexists.
Qed.

Lemma claim_effect secret s t s1 : auth_ok s → claim_token secret s = (Ok (Some t), s1) → auth_ok s1 ∧ spent (sha256 secret) s1.
Proof.
  intros Hok E1. apply restored_session in E1. pose proof (claim_spends (sha256 secret) s) as Hsp. destruct sql_statements as (_ & Hq & _).
  destruct (Hq (sha256 secret) s) as (F1 & F2 & F3 & _). rewrite E1 in Hsp, F1, F2, F3. simpl in F1, F3. split; [|done].
  destruct (auth_advances s s1 Hok) as [H _]; [rewrite F1; apply Hok|rewrite F1; apply advances_refl, Hok|done| |done].
  intros q b. rewrite F3. by left.
Qed.

(** What a join that is answered leaves behind. *)
Definition joined (payload : JoinRequest) (jd : JoinDraws) (r : JoinResponse) (s : Nodes) : Prop :=
  ∃ a url secret fp public now,
    decode_token loads payload.(jr_token) = Ok (url, secret, fp) ∧ load_csr payload.(jr_csr) = Some (true, Some public) ∧
    let cert := issue a public jd.(jd_node_id) CERT_DAYS jd.(jd_serial) None now in
    r.(js_node_id) = jd.(jd_node_id) ∧ r.(js_server_id) = jd.(jd_server_id) ∧ r.(js_certificate) = certificate_pem cert ∧
    r.(js_ca) = certificate_pem a.(au_certificate) ∧
    kept a jd.(jd_server_id) jd.(jd_node_id) cert (sha256 secret) True s.

Lemma join_effect p payload base jd s r s' :
  auth_ok s → has_char ":"%char jd.(jd_encrypt).(dr_key_id) = false → join p payload base jd s = (Ok r, s') → joined payload jd r s'.
Proof.
  intros Hok Hd. unfold Nodes.join. destruct (decode_token loads _) as [[[url secret] fp]|err] eqn:Et; [|done].
  destruct (dget _ _) as [platform|]; [|done]. destruct (bool_decide _); run; [|done].
  destruct (validate_host_key _ _) as [host_key|err]; [|done].
  intros E. apply bind_ok_inv in E as ([token|] & s1 & E1 & E); [|done].
  assert (auth_ok s1 ∧ spent (sha256 secret) s1) as [Hok1 Hsp1].
  { by apply (claim_effect secret s token). }
  apply bind_ok_inv in E as (cert & s2 & E2 & E). unfold try_ in E2.
  destruct (sign_csr _ _ _ _ _ _ _ _ _ _ s1) as [[c|e] s2'] eqn:E3; [injection E2 as -> ->|by destruct e].
  destruct (sign_csr_effect _ _ _ _ _ _ _ _ _ _ Hok1 Hd E3) as (a & public & Hcsr & -> & Hok2 & Ha & Hsame).
  assert (kept a (jd_server_id jd) (jd_node_id jd) (issue a public (jd_node_id jd) CERT_DAYS (jd_serial jd) None (nd_now s1)) (sha256 secret) False s2) as Hk.
  { split; [done|]. split; [done|]. split; [done|]. destruct Hsame as (Ew & _ & _ & Ett). intros i t. rewrite Ett. unfold nd_now, now_of. rewrite Ew. apply Hsp1. }
  apply bind_ok_inv in E as ([] & s3 & E4 & E).
  match type of E4 with nd_session (create_server ?i ?o ?w ?c) _ = _ => pose proof (kept_create_server _ _ _ _ _ _ i o w c _ Hk) as Hk3 end.
  rewrite E4 in Hk3. destruct Hk3 as [Hk3 _].
  apply bind_ok_inv in E as ([id n] & s4 & E5 & E). apply register_effect in E5 as (Hid & Hreg & F1 & F2 & F3 & F4 & F5).
  injection Hid as <-.
  assert (kept a (jd_server_id jd) (jd_node_id jd) (issue a public (jd_node_id jd) CERT_DAYS (jd_serial jd) None (nd_now s1)) (sha256 secret) True s4) as Hk4.
  { apply (kept_rows a (jd_server_id jd) (jd_node_id jd) (issue a public (jd_node_id jd) CERT_DAYS (jd_serial jd) None (nd_now s1)) (sha256 secret) True s3); [apply Hk3..|done|done|done|].
    split; [by intros _|]. apply (spent_tokens (sha256 secret) s3 s4); [by rewrite F2| |apply Hk3]. intros i t. by rewrite F1. }
  apply bind_ok_inv in E as (b & s5 & E6 & E). destruct (endpoints _ _ _ _ _) as [points|e]; [|done]. injection E as <- <-.
  pose proof (kept_authority a _ _ _ _ _ p (jd_key jd) (jd_ca_serial jd) (jd_encrypt jd) s4 Hk4) as Hk5. rewrite E6 in Hk5.
  assert (b = a) as ->.
  { destruct (authority_known a p (jd_key jd) (jd_ca_serial jd) (jd_encrypt jd) s4) as (s6 & E7 & _); [apply Hk4..|]. congruence. }
  exists a, url, secret, fp, public, (nd_now s1). done.
Qed.

(** C14: A join token joins one host.  After a join with it that was answered, whatever the
    API, the gateway, their processes and the clock do next (the server that joined may be
    deleted, the token is not drawn again), no join with the same secret is answered. *)
Theorem join_once p payload base jd s r s1 url secret fp s2 p' payload' base' jd' url' fp' :
  auth_ok s → has_char ":"%char jd.(jd_encrypt).(dr_key_id) = false → join p payload base jd s = (Ok r, s1) →
  decode_token loads payload.(jr_token) = Ok (url, secret, fp) → rtc (node_step jd.(jd_server_id) jd.(jd_node_id) (sha256 secret) False) s1 s2 →
  decode_token loads payload'.(jr_token) = Ok (url', secret, fp') →
  ∃ e, (join p' payload' base' jd' s2).1 = Err e.
Proof.
  intros Hok Hd E Et Hsteps Et'. destruct (join_effect _ _ _ _ _ _ _ Hok Hd E) as (a & u & sec' & f & public & t & Et0 & _ & _ & _ & _ & _ & Hk).
  rewrite Et in Et0. injection Et0 as _ <- _. apply (kept_unwanted _ _ _ _ _ True False) in Hk; [|done].
  apply (kept_steps a _ _ _ _ _ s1 s2 Hsteps) in Hk. destruct Hk as (_ & _ & _ & Hsp).
  destruct (join p' payload' base' jd' s2) as [[r'|e] s3] eqn:E'; [|by eexists]. exfalso. revert E'. unfold Nodes.join. rewrite Et'.
  destruct (dget _ _) as [platform|]; [|done]. destruct (bool_decide _); run; [|done].
  destruct (validate_host_key _ _) as [host_key|err]; [|done].
  intros E'. apply bind_ok_inv in E' as ([token|] & s4 & E4 & E'); [|done]. apply restored_session in E4.
  apply (spent_unclaimable (sha256 secret) s2 token Hsp). by rewrite E4.
Qed.

(** What a signature of the certificate's key proves. *)
Lemma proven_signed a k id days serial now m :
  canonical_uuid id = true →
  proven (certificate_pem (issue a (public_of k) id days serial None now)) m (b64encode (ecdsa_sign k m)) =
  Some (issue a (public_of k) id days serial None now, id).
Proof. intros Hu. unfold proven. rewrite pem_ok. simpl. rewrite b64_strict_roundtrip. simpl. rewrite ecdsa_ok, Hu. simpl. done. Qed.

(** The registration of a node as the tables have it, against a certificate. *)
Definition registration (nid : string) (c : Certificate) (s : Nodes) : enrollment :=
  match s.(nd_nodes) !! nid with
  | None => Reenroll "registration_missing"
  | Some n =>
      if decide (is_Some ((nd_db s).(servers) !! n.(no_server_id))) then
        if decide (n.(no_serial) = serial_of c ∧ n.(no_cert_expires_at) = expiry_of c) then Current nid n.(no_server_id)
        else Reenroll "registration_replaced"
      else Reenroll "registration_missing"
  end.

Lemma registration_found nid c s s' :
  same_rows s s' →
  ((found ← nd_session (gets (λ s, n ← get_node nid s; _ ← (nd_db s).(servers) !! n.(no_server_id); Some n));
    match found with
    | None => mret (Reenroll "registration_missing")
    | Some node =>
        if negb (bool_decide (node.(no_serial) = serial_of c)) || negb (node.(no_cert_expires_at) =? expiry_of c)
        then mret (Reenroll "registration_replaced") else mret (Current nid node.(no_server_id))
    end) s').1 = Ok (registration nid c s).
Proof.
  intros (Ew & _ & En & _).
  assert (∀ A (f : Nodes → A), nd_session (gets f) s' = (Ok (f s'), s')) as Hq by done. rewrite (bind_ok _ _ _ _ _ (Hq _ _)).
  unfold registration, get_node, nd_db. rewrite En, Ew. destruct (nd_nodes s !! nid) as [n|]; [|done].
  change (Some n ≫= ?g) with (g n). cbn beta. destruct (servers _ !! no_server_id n) as [v|] eqn:Ev.
  - rewrite decide_True by done. change (Some v ≫= ?g) with (g v). cbn beta iota.
    destruct (decide (no_serial n = serial_of c)) as [E1|E1]; [rewrite (bool_decide_true _ E1)|rewrite (bool_decide_false _ E1); by rewrite decide_False by tauto].
    destruct (no_cert_expires_at n =? expiry_of c) eqn:E2; [apply Z.eqb_eq in E2; by rewrite decide_True|apply Z.eqb_neq in E2; by rewrite decide_False by tauto].
  - rewrite decide_False by (by intros [? ?]). done.
Qed.

(** C15: Who joined is recognised.  Whatever happens to the API and the gateway after, as long
    as its certificate is in force, a proof signed with the key of its request is answered by
    what the tables have of the node it joined as: current with its server while its row has
    the serial and expiry of the certificate, to enroll again when it was renewed since
    (registration_replaced) or is gone with its server (registration_missing); and when its
    server was not deleted and its certificate not renewed, with that node and server. *)
Theorem enrolled_is_current p payload base jd s r s1 url secret fp k spared s2 p' key serial dr now timestamp nonce :
  auth_ok s → has_char ":"%char jd.(jd_encrypt).(dr_key_id) = false → join p payload base jd s = (Ok r, s1) →
  decode_token loads payload.(jr_token) = Ok (url, secret, fp) →
  load_csr payload.(jr_csr) = Some (true, Some (public_of k)) → canonical_uuid jd.(jd_node_id) = true →
  rtc (node_step jd.(jd_server_id) jd.(jd_node_id) (sha256 secret) spared) s1 s2 →
  nd_now s2 = now → Z.abs (now - sec timestamp) ≤ sec 120 →
  (∀ c, load_certificate r.(js_certificate) = Some c → c.(ct_not_before) ≤ now < expiry_of c) →
  ∃ c answer, load_certificate r.(js_certificate) = Some c ∧
    (enrollment_status p' key serial dr r.(js_certificate) timestamp nonce (b64encode (ecdsa_sign k (enrollment_message timestamp nonce))) s2).1 =
      Ok answer ∧
    answer = registration r.(js_node_id) c s2 ∧ (spared → answer = Current r.(js_node_id) r.(js_server_id)).
Proof.
  intros Hok Hd E Et Hcsr Hu Hsteps <- Hts Hvalid.
  destruct (join_effect _ _ _ _ _ _ _ Hok Hd E) as (a & u & sec' & f & public & t & Et0 & Hcsr' & Hid & Hsid & Hc & _ & Hk).
  rewrite Et in Et0. injection Et0 as _ <- _. rewrite Hcsr in Hcsr'. injection Hcsr' as <-.
  apply (kept_unwanted _ _ _ _ _ True spared) in Hk; [|done].
  apply (kept_steps a _ _ _ _ _ s1 s2 Hsteps) in Hk. rewrite Hc in *. rewrite Hid, Hsid. specialize (Hvalid _ (pem_ok _)).
  set (c := issue a (public_of k) (jd_node_id jd) CERT_DAYS (jd_serial jd) None t) in *. exists c.
  assert (spared → registration (jd_node_id jd) c s2 = Current (jd_node_id jd) (jd_server_id jd)) as Hcur.
  { intros Hw. destruct (proj1 (proj2 (proj2 Hk)) Hw) as (n & Hn1 & Hn2 & Hn3 & Hn4 & Hv). unfold registration.
    rewrite Hn1, decide_True by (by rewrite Hn2). rewrite decide_True by done. by rewrite Hn2. }
  exists (registration (jd_node_id jd) c s2). split; [apply pem_ok|]. split; [|done].
  unfold Nodes.enrollment_status. rewrite (bind_ok get _ s2 s2 s2 eq_refl). cbv zeta.
  replace (sec 120 <? Z.abs (nd_now s2 - sec timestamp)) with false by lia. unfold c at 1. rewrite proven_signed by done. fold c.
  destruct (authority_known a p' key serial dr s2) as (s3 & Ea & Hok3 & Ha3 & Hs3); [apply Hk..|]. rewrite (bind_ok _ _ _ _ _ Ea).
  assert (directly_issued c (au_certificate a) = true) as -> by (apply issued_ok, (authority_pair _ s3); done).
  replace ((nd_now s2 <? ct_not_before c) || (expiry_of c <=? nd_now s2)) with false by lia. cbn [negb].
  by apply registration_found.
Qed.
End node_proofs.

(** ** Witnesses *)

#[export] Instance Certificate_eq_dec : EqDecision Certificate.
Proof. solve_decision. Defined.
#[export] Instance Certificate_countable : Countable Certificate.
Proof.
  refine (inj_countable'
    (λ c, (c.(ct_common_name), c.(ct_public_key), c.(ct_serial_number), c.(ct_not_before), c.(ct_not_after), c.(ct_ca), c.(ct_usages), c.(ct_names), c.(ct_signature)))
    (λ '(a, b, c, d, e, f, g, h, i), mkCertificate a b c d e f g h i) _). by intros [].
Defined.

(** Values as text, for JSON and PEM. *)
Fixpoint bits (p : positive) : string :=
  match p with xH => "" | xO p => String "0"%char (bits p) | xI p => String "1"%char (bits p) end.
Fixpoint of_bits (s : string) : positive :=
  match s with EmptyString => xH | String c s => if bool_decide (c = "0"%char) then xO (of_bits s) else xI (of_bits s) end.
Lemma of_bits_bits p : of_bits (bits p) = p.
Proof. induction p as [p IH|p IH|]; simpl; [by rewrite IH..|done]. Qed.
Definition text_of {A} `{Countable A} (x : A) : string := bits (encode x).
Definition of_text {A} `{Countable A} (s : string) : option A := decode (of_bits s).
Lemma of_text_of {A} `{Countable A} (x : A) : of_text (text_of x) = Some x.
Proof. unfold of_text, text_of. by rewrite of_bits_bits, decode_encode. Qed.

(** Keys that are their own public halves, a signature that names its key, and
    requests that are the key itself. *)
#[export] Instance demo_x509 : X509 := {
  public_of k := k;
  signature_of k c := k;
  directly_issued c ca := bool_decide (ca.(ct_public_key) = Some c.(ct_signature));
  certificate_pem := text_of;
  load_certificate := of_text;
  key_pem k := k;
  load_key k := Some k;
  load_csr c := if bool_decide (c = "bad") then None else Some (true, Some c);
  ecdsa_sign k m := k +:+ m;
  ecdsa_verify k s m := bool_decide (s = k +:+ m)
}.
#[export] Instance demo_x509_ok : X509Ok demo_x509.
Proof. split; intros *; simpl; [intros E; by apply bool_decide_eq_true|apply of_text_of|done|by apply bool_decide_eq_true]. Qed.

Definition demo_hash (s : string) : string := "sha256 " +:+ s.
Definition demo_host_of (url : string) : option string := if bool_decide (url = "api.example") then None else Some "api.example".
Definition demo_nodes : Nodes :=
  mkNodes (demo_vault Running) ∅ ∅ {["t1" := mkNodeToken "w1" (demo_hash "s3") "u1" "mac" (sec TOKEN_TTL) None]} None ∅.
Definition demo_join_token : string := encode_token (text_of ("https://api.example", "s3", "ab")).
Definition demo_join_request (csr : string) : JoinRequest := mkJoinRequest demo_join_token csr "host" "linux" "amd64" "root" "ssh-ed25519 AAAA comment".
Abbreviation demo_joining api_url := (join demo_ciphers demo_seal demo_open demo_hash of_text (λ _ _, true) demo_host_of None api_url "7000").
Definition demo_node_id : string := "0f8fad5b-d9cb-469f-a165-70867728950e".
Definition demo_join_draws (n : string) : JoinDraws := mkJoinDraws demo_node_id n 255 "otherkey" 9 (demo_draws "b").
Abbreviation demo_joined := (demo_joining None "api" (demo_join_request "nodekey") "https://api.example/" (demo_join_draws "v1") demo_nodes).
Definition demo_response : JoinResponse := match demo_joined.1 with Ok r => r | Err _ => mkJoinResponse "" "" "" "" [] end.
Definition demo_nodes_1 : Nodes := demo_joined.2.
Abbreviation demo_checked :=
  (enrollment_status demo_ciphers demo_seal demo_open "api2" "k" 5 (demo_draws "c") demo_response.(js_certificate)
    1 "n" (b64encode (ecdsa_sign "nodekey" (enrollment_message 1 "n")))).

Lemma join_token_roundtrip_witness : decode_token of_text demo_join_token = Ok ("https://api.example", "s3", "ab").
Proof. apply (join_token_roundtrip text_of of_text). apply of_text_of. Defined.

Lemma demo_auth_ok : auth_ok demo_ciphers demo_seal demo_open demo_nodes.
Proof. split; [exact demo_keys_ok|done|]. intros p a H. simpl in H. by rewrite lookup_empty in H. Qed.

Lemma demo_joined_eq : demo_joined = (Ok demo_response, demo_nodes_1).
Proof.
  assert (match demo_joined.1 with Ok _ => true | Err _ => false end = true) as H by by vm_compute.
  unfold demo_response, demo_nodes_1. destruct demo_joined as [[r|e] s]; [done|discriminate H].
Qed.

Lemma join_once_witness :
  ∃ e, (demo_joining None "api2" (demo_join_request "thief") "https://api.example/" (demo_join_draws "v2") (demo_checked demo_nodes_1).2).1 = Err e.
Proof.
  eapply (join_once demo_ciphers demo_seal demo_open (λ k iv d, drop_prefix_app (header k) d) demo_hash text_of of_text (λ _ _, true) demo_host_of None None "7000"
    "api" (demo_join_request "nodekey") "https://api.example/" (demo_join_draws "v1") demo_nodes demo_response demo_nodes_1 "https://api.example" "s3" "ab");
    [exact demo_auth_ok|reflexivity|exact demo_joined_eq|by vm_compute| |by vm_compute].
  apply rtc_once, ns_enrollment.
Defined.

Lemma enrolled_is_current_witness : (demo_checked demo_nodes_1).1 = Ok (Current demo_node_id "v1").
Proof.
  assert (js_node_id demo_response = demo_node_id ∧ js_server_id demo_response = "v1") as [<- <-] by by vm_compute.
  edestruct (enrolled_is_current demo_ciphers demo_seal demo_open (λ k iv d, drop_prefix_app (header k) d) demo_hash text_of of_text (λ _ _, true) demo_host_of None None "7000" (λ _, true)
    "api" (demo_join_request "nodekey") "https://api.example/" (demo_join_draws "v1") demo_nodes demo_response demo_nodes_1 "https://api.example" "s3" "ab" "nodekey" True demo_nodes_1
    "api2" "k" 5 (demo_draws "c") 7 1 "n") as (c & answer & _ & Ha & _ & Hs);
    [exact demo_auth_ok|reflexivity|exact demo_joined_eq|by vm_compute|by vm_compute|by vm_compute|apply rtc_refl|by vm_compute|by vm_compute| |].
  - intros c Hc. vm_compute in Hc. injection Hc as <-. by vm_compute.
  - rewrite <- (Hs I). exact Ha.
Defined.

(** A renewal replaces the registration, and a deleted server takes it away; the token that
    was used stays used. *)
Example renewed_and_deleted :
  let renewed := swap_certificate demo_node_id (hex 255) "ff" (sec 99) demo_nodes_1 in
  let deleted := (delete_server_route "v1" demo_member demo_nodes_1).2 in
  (demo_checked renewed).1 = Ok (Reenroll "registration_replaced") ∧
  (demo_checked deleted).1 = Ok (Reenroll "registration_missing") ∧
  (demo_joining None "api2" (demo_join_request "thief") "https://api.example/" (demo_join_draws "v2") deleted).1 =
    Err (HTTPException 401 [Txt "the join token is unknown, used or expired"]).
Proof. by vm_compute. Qed.

(** ** Boundaries and failures *)

(** What a host that joined without Docker runs: nothing yet. *)
Example joined_servers :
  match demo_joined.1 with Ok r => Some (r.(js_node_id), r.(js_server_id), r.(js_endpoints)) | Err _ => None end =
    Some (demo_node_id, "v1", ["api.example:7000"]) ∧
  map (λ '(id, _, caps, _), (id, caps)) (list_servers (λ _, true) demo_member demo_nodes_1) = [("v1", [])].
Proof. by vm_compute. Qed.

(** A request for a certificate that cannot be read is refused, and the token is
    used up with it. *)
Example bad_request_spends :
  let first := demo_joining None "api" (demo_join_request "bad") "https://api.example/" (demo_join_draws "v1") demo_nodes in
  first.1 = Err (HTTPException 422 [Txt "not a PEM certificate request"]) ∧
  (demo_joining None "api" (demo_join_request "nodekey") "https://api.example/" (demo_join_draws "v1") first.2).1 =
    Err (HTTPException 401 [Txt "the join token is unknown, used or expired"]).
Proof. by vm_compute. Qed.

(** With an address that has no scheme in ZOO_API_URL, joining fails after the
    server and its node are there and the token is spent. *)
Example no_endpoint :
  let j := demo_joining (Some "api.example") "api" (demo_join_request "nodekey") "https://x/" (demo_join_draws "v1") demo_nodes in
  j.1 = Err (ZooError "unavailable" [Txt "public node endpoint is missing"]) ∧ is_Some (j.2.(nd_nodes) !! demo_node_id) ∧
  is_Some ((nd_db j.2).(servers) !! "v1").
Proof. vm_compute. split_and!; [done|by eexists..]. Qed.
