(* ===== verification/Kube.v ===== *)
(** Kubernetes objects (src/apps/server/kube.py): quantities, requests, selectors,
    which nodes run sandboxes, what a pod's status says, and the pod of a
    sandbox. *)

From Stdlib Require Import SpecFloat QArith.
From S2P Require Import Prelude Tables Store Labels Quotas Codec Kms Security Regex Rules.
Open Scope Z_scope.

(** ** Floats

    Requests are rounded up and capacities down, so that the last bit of a
    product decides: quantities are floats of 64 bits, not rationals. *)

Definition fmul : spec_float → spec_float → spec_float := SFmul 53 1024.
Definition fsub : spec_float → spec_float → spec_float := SFsub 53 1024.
Definition fadd : spec_float → spec_float → spec_float := SFadd 53 1024.
Definition float_of_Z (z : Z) : spec_float := binary_normalize 53 1024 z 0 false.
Definition fzero : spec_float := S754_zero false.

(** [float(text)] for the digits [m] and the power of ten [e]: the nearest float. *)
Definition float_of_decimal (m e : Z) : spec_float :=
  match m with
  | Zpos _ =>
      if 0 <=? e then float_of_Z (m * 10 ^ e) else
      let '(q, e', l) := SFdiv_core_binary 53 1024 m 0 (10 ^ (- e)) 0 in
      binary_round_aux 53 1024 false q e' l
  | _ => fzero
  end.

(** The integer part rounded by [r] of a mantissa and what divides it. *)
Definition float_to_Z (r : Z → Z → Z) (f : spec_float) : result exn Z :=
  match f with
  | S754_zero _ => Ok 0
  | S754_finite s m e =>
      let m := if s : bool then Zneg m else Zpos m in
      Ok (if 0 <=? e then m * 2 ^ e else r m (2 ^ (- e)))
  | S754_infinity _ => Err OverflowError
  | S754_nan => Err (ValueError [Txt "cannot convert float NaN to integer"])
  end.
Definition math_ceil : spec_float → result exn Z := float_to_Z (λ m d, - (- m / d)).
Definition math_floor : spec_float → result exn Z := float_to_Z (λ m d, m / d).
(** [int(f)] *)
Definition int_of_float : spec_float → result exn Z := float_to_Z Z.quot.

(** ** Quantities *)

Definition digit_val (c : ascii) : Z := Z.of_nat (nat_of_ascii c) - 48.
Definition is_letter (c : ascii) : bool := in_range "a" "z" c || in_range "A" "Z" c.

(** The digits and dots a text starts with, and what is left. *)
Fixpoint digits_and_dots (s : string) : string * string :=
  match s with
  | String c s' => if is_digit c || bool_decide (c = "."%char) then let '(h, t) := digits_and_dots s' in (String c h, t) else ("", s)
  | EmptyString => ("", "")
  end.

(** Its digits as a number, how many follow the dot, and how many there are;
    [None]: more than one dot. *)
Fixpoint mantissa (m k n : Z) (dot : bool) (s : string) : option (Z * Z * Z) :=
  match s with
  | String c s' =>
      if is_digit c then mantissa (10 * m + digit_val c) (if dot then k + 1 else k) (n + 1) dot s'
      else if dot then None else mantissa m k n true s'
  | EmptyString => Some (m, k, n)
  end.

Fixpoint number (n : Z) (s : string) : Z * string :=
  match s with
  | String c s' => if is_digit c then number (10 * n + digit_val c) s' else (n, s)
  | EmptyString => (n, "")
  end.

(** [[eE][-+]?[0-9]+], if it is there. *)
Definition exponent (s : string) : Z * string :=
  match s with
  | String e s1 =>
      if bool_decide (e = "e"%char) || bool_decide (e = "E"%char) then
        let '(neg, s2) := match s1 with
                          | String "-" s2 => (true, s2)
                          | String "+" s2 => (false, s2)
                          | _ => (false, s1)
                          end in
        match s2 with
        | String c _ => if is_digit c then let '(n, rest) := number 0 s2 in (if neg : bool then - n else n, rest) else (0, s)
        | EmptyString => (0, s)
        end
      else (0, s)
  | EmptyString => (0, s)
  end.

Definition binary_suffixes : list (string * Z) := [("Ki", 1); ("Mi", 2); ("Gi", 3); ("Ti", 4); ("Pi", 5); ("Ei", 6)].
Definition decimal_suffixes : list (string * Z) :=
  [("n", -3); ("u", -2); ("m", -1); ("", 0); ("k", 1); ("K", 1); ("M", 2); ("G", 3); ("T", 4); ("P", 5); ("E", 6)].

(** [1000 ** k] *)
Definition power_of_1000 (k : Z) : spec_float := float_of_decimal 1 (3 * k).

Definition suffix_power (suffix : string) : option spec_float :=
  match dget suffix binary_suffixes with
  | Some p => Some (float_of_Z (1024 ^ p))
  | None => power_of_1000 <$> dget suffix decimal_suffixes
  end.

(** Source: src/apps/server/kube.py:169-184 [quantity].  Of a text; a missing one is 0. *)
Definition quantity (value : option string) : result exn spec_float :=
  match value with
  | None => Ok fzero
  | Some value =>
      let text := strip value in
      let '(head, rest) := digits_and_dots text in
      let '(e, suffix) := exponent rest in
      if negb (bool_decide (head = "")) && all_of is_letter suffix then
        match mantissa 0 0 0 false head with
        | Some (m, k, Zpos _) =>
            match suffix_power suffix with
            | Some p => Ok (fmul (float_of_decimal m (e - k)) p)
            | None => Err (ValueError [Txt "unknown quantity suffix in "; Repr value])
            end
        | _ => Err (ValueError [Txt "could not convert string to float: "; Repr (String.substring 0 (String.length text - String.length suffix) text)])
        end
      else Err (ValueError [Txt "not a quantity: "; Repr value])
  end.

Example quantities :
  (λ t, match f ← quantity (Some t); math_ceil (fmul f (float_of_Z 1000)) with Ok z => z | Err _ => -1 end) <$>
    ["9m"; "10m"; "1"; "1e3"; " 2Gi "; "0.1"; "1E"; "1e"; "1.2.3"; "."; "-1"; "5x"; ".5"; "1.m"] =
  [10; 10; 1000; 1000000; 2147483648000; 100; 1000000000000000000000; -1; -1; -1; -1; -1; 500; 1].
Proof. vm_compute. reflexivity. Qed.

Example quantity_errors :
  (λ t, match quantity (Some t) with Ok _ => "" | Err e => exn_text e end) <$> ["1.2.3e4Ki"; "."; ""; "-1"; "1 Gi"; "3x"] =
  ["could not convert string to float: '1.2.3e4'"; "could not convert string to float: '.'"; "not a quantity: ''";
   "not a quantity: '-1'"; "not a quantity: '1 Gi'"; "unknown quantity suffix in '3x'"].
Proof. vm_compute. reflexivity. Qed.

(** ** Names *)

(** Source: src/apps/server/kube.py:60-60 [PREFIX]. *)
Definition PREFIX : string := "k8s:".

(** Source: src/apps/server/kube.py:77-78 [owns]. *)
Definition owns (runtime_id : option string) : bool :=
  match str_or_none runtime_id with Some r => startswith r PREFIX | None => false end.

(** Source: src/apps/server/kube.py:81-82 [runtime_id]. *)
Definition runtime_id (namespace name : string) : string := PREFIX +:+ namespace +:+ "/" +:+ name.

(** Source: src/apps/server/kube.py:85-89 [parse_id]. *)
Definition parse_id (rid : string) : result exn (string * string) :=
  let '(namespace, _, name) := partition "/"%char (drop_chars (String.length PREFIX) rid) in
  if negb (owns (Some rid)) || bool_decide (namespace = "") || bool_decide (name = "")
  then Err (ZooError "bad_request" [Txt "invalid Kubernetes runtime id"]) else Ok (namespace, name).

(** Source: src/apps/server/kube.py:92-93 [pod_name]. *)
Definition pod_name (sandbox_id : string) : string := "zoo-sandbox-" +:+ sandbox_id.
(** Source: src/apps/server/kube.py:96-97 [claim_name]. *)
Definition claim_name (sandbox_id : string) : string := "zoo-home-" +:+ sandbox_id.

(** Source: src/apps/server/kube.py:431-432 [pods_path]. *)
Definition pods_path (namespace name : string) : string :=
  "/api/v1/namespaces/" +:+ namespace +:+ "/pods" +:+ (if bool_decide (name = "") then "" else "/" +:+ name).
(** Source: src/apps/server/kube.py:435-436 [claims_path]. *)
Definition claims_path (namespace name : string) : string :=
  "/api/v1/namespaces/" +:+ namespace +:+ "/persistentvolumeclaims" +:+ (if bool_decide (name = "") then "" else "/" +:+ name).
(** Source: src/apps/server/kube.py:439-440 [snapshots_path]. *)
Definition snapshots_path (namespace name : string) : string :=
  "/apis/snapshot.storage.k8s.io/v1/namespaces/" +:+ namespace +:+ "/volumesnapshots" +:+ (if bool_decide (name = "") then "" else "/" +:+ name).
(** Source: src/apps/server/kube.py:1741-1742 [snapshot_name]. *)
Definition snapshot_name (snapshot_id : string) : string := "zoo-volume-" +:+ snapshot_id.
(** Source: src/apps/server/kube.py:1745-1746 [snapshot_prefix]. *)
Definition snapshot_prefix (snapshot_id : string) : string := "snapshots/" +:+ snapshot_id +:+ "/".

(** ** Objects: what the code reads and writes of them

    A field the code reads with a default, and takes an empty one for a missing
    one, is a list or a string; one it tells apart is an [option]. *)

Record ContainerSpec := mkContainerSpec {
  c_name : string;
  c_image : string;
  c_command : list string;
  c_env : list (string * string);
  c_requests : list (string * string);
  c_limits : list (string * string);
  c_restart_policy : option string;
  c_root : bool;
  c_mounts : list (string * string)
}.

(** A volume's name and, if it is a claim's, the claim. *)
Record PodSpec := mkPodSpec {
  s_node_name : option string;
  s_runtime_class : option string;
  s_priority_class : option string;
  s_init : list ContainerSpec;
  s_containers : list ContainerSpec;
  s_volumes : list (string * option string);
  s_overhead : list (string * string);
  s_requests : list (string * string);
  s_pull_secrets : list string
}.

Record Terminated := mkTerminated { tm_exit_code : option Z; tm_reason : option string; tm_message : option string }.
Record ContainerStatus := mkContainerStatus {
  st_name : option string;
  st_waiting : option (option string * option string);
  st_running : bool;
  st_terminated : option Terminated
}.
Record Condition := mkCondition { cn_type : string; cn_status : string; cn_reason : option string; cn_message : option string }.

Record PodObj := mkPodObj {
  po_namespace : option string;
  po_name : string;
  po_labels : list (string * string);
  po_deleting : bool;
  po_spec : PodSpec;
  po_phase : option string;
  po_conditions : list Condition;
  po_init_statuses : list ContainerStatus;
  po_statuses : list ContainerStatus;
  po_ip : string;
  po_ips : list string;
  po_message : option string;
  po_reason : option string
}.

Record Taint := mkTaint { ta_key : string; ta_value : option string; ta_effect : option string }.
Record Toleration := mkToleration { to_key : option string; to_operator : option string; to_value : option string; to_effect : option string }.
Record NodeObj := mkNodeObj {
  nb_name : string;
  nb_labels : list (string * string);
  nb_conditions : list Condition;
  nb_taints : list Taint;
  nb_unschedulable : bool;
  nb_cpu : string;
  nb_memory : string;
  nb_allocatable : list (string * string)
}.
Record RuntimeClass := mkRuntimeClass {
  rc_selector : list (string * string);
  rc_tolerations : list Toleration;
  rc_overhead : list (string * string)
}.

Record Requirement := mkRequirement { rq_key : string; rq_operator : string; rq_values : list string }.
Record Term := mkTerm { tr_expressions : list Requirement; tr_fields : list Requirement }.

(** ** Pods *)

Definition CONTAINER : string := "sandbox".

(** Source: src/apps/server/kube.py:688-692 [Pod.container_state].  Whether the sandbox's
    container says it is running. *)
Definition container_running (p : PodObj) : bool :=
  match head (filter (λ c, c.(st_name) = Some CONTAINER) p.(po_statuses)) with
  | Some c => c.(st_running)
  | None => false
  end.

(** Source: src/apps/server/kube.py:694-700 [Pod.status]. *)
Definition pod_status (p : PodObj) : string :=
  if p.(po_deleting) then "removing"
  else if bool_decide (p.(po_phase) = Some "Running") && container_running p then "running"
  else if bool_decide (p.(po_phase) ∈ [Some "Succeeded"; Some "Failed"]) then "exited" else "created".

(** Source: src/apps/server/kube.py:707-712 [Pod.addresses]. *)
Definition addresses (p : PodObj) : list string :=
  merge_sort String.le (unique [] (filter (λ a, a ≠ "") (p.(po_ips) ++ [p.(po_ip)]))).

(** [str(value)] of an optional text. *)
Definition or_None (o : option string) : string := default "None" o.
Definition py_or (a : option string) (b : string) : string := default b (str_or_none a).

(** [s.strip(": ")] *)
Fixpoint lstrip_of (p : ascii → bool) (s : string) : string :=
  match s with String c s' => if p c then lstrip_of p s' else s | EmptyString => "" end.
Definition strip_of (p : ascii → bool) (s : string) : string := String.rev (lstrip_of p (String.rev (lstrip_of p s))).
Definition colon_or_space (c : ascii) : bool := bool_decide (c = ":"%char) || bool_decide (c = " "%char).

Definition benign (reason : option string) : bool :=
  bool_decide (reason ∈ [None; Some "PodInitializing"; Some "ContainerCreating"; Some "Completed"]).

Definition waiting_problem (c : ContainerStatus) : option string :=
  match c.(st_waiting) with
  | Some (reason, message) =>
      if negb (benign reason) then Some (strip_of colon_or_space (or_None reason +:+ ": " +:+ default "" message)) else None
  | None => None
  end.

Definition terminated_problem (c : ContainerStatus) : option string :=
  match c.(st_terminated) with
  | Some t =>
      if negb (bool_decide (t.(tm_exit_code) ∈ [None; Some 0])) || negb (benign t.(tm_reason)) then
        let detail := py_or t.(tm_message) (default "" t.(tm_reason)) in
        Some (or_None c.(st_name) +:+ " exited with " +:+ from_option pretty "None" t.(tm_exit_code) +:+
              (if bool_decide (detail = "") then "" else ": " +:+ detail))
      else None
  | None => None
  end.

(** Source: src/apps/server/kube.py:1302-1317 [pod_problem]. *)
Definition pod_problem (p : PodObj) : string :=
  match head (filter (λ c, c.(cn_type) = "PodScheduled" ∧ c.(cn_status) = "False") p.(po_conditions)) with
  | Some c => or_None c.(cn_reason) +:+ ": " +:+ or_None c.(cn_message)
  | None =>
      default "" (head (omap (λ c, match waiting_problem c with Some e => Some e | None => terminated_problem c end)
                         (p.(po_init_statuses) ++ p.(po_statuses))))
  end.

(** What the event stream says of a pod. *)
Record PodEvent := mkPodEvent {
  ev_runtime_id : string;
  ev_sandbox_id : option string;
  ev_failed : bool;
  ev_error : option string
}.

(** Source: src/apps/server/kube.py:443-468 [pod_event]. *)
Definition pod_event (NAMESPACE : string) (p : PodObj) (deleted : bool) : option PodEvent :=
  let terminated := omap st_terminated (p.(po_init_statuses) ++ p.(po_statuses)) in
  let failed := bool_decide (p.(po_phase) = Some "Failed") || existsb (λ t, negb (bool_decide (default 0 t.(tm_exit_code) = 0))) terminated in
  let sandbox_terminated := existsb (λ c, bool_decide (c.(st_name) = Some CONTAINER) && negb (is_none c.(st_terminated))) p.(po_statuses) in
  let stopped := deleted || p.(po_deleting) || bool_decide (p.(po_phase) = Some "Succeeded") || sandbox_terminated in
  if negb failed && negb stopped then None else
  Some (mkPodEvent (runtime_id (py_or p.(po_namespace) NAMESPACE) p.(po_name)) (dget "zoo.dev/sandbox" p.(po_labels)) failed
          (if failed then Some (or_else (pod_problem p) (py_or p.(po_message) (py_or p.(po_reason) "sandbox pod failed"))) else None)).

(** What [exec] reads in the last frame: [None] for no status; the status, the
    reason, and the reasons and messages of its causes. *)
Record ExecStatus := mkExecStatus {
  xs_status : option string;
  xs_reason : option string;
  xs_causes : list (option string * option string);
  xs_message : option string
}.

(** Source: src/apps/server/kube.py:415-425 [exit_code].  [int_of] is Python's [int] on a text. *)
Definition exit_code (int_of : string → option Z) (status : option ExecStatus) (place : string) : result exn Z :=
  match status with
  | None => Err (KubeError 0 [Txt "exec in "; Txt place; Txt " ended without an exit status"])
  | Some s =>
      if bool_decide (s.(xs_status) = Some "Success") then Ok 0
      else if bool_decide (s.(xs_reason) = Some "NonZeroExitCode") then
        match head (filter (λ c, c.1 = Some "ExitCode") s.(xs_causes)) with
        | Some (_, Some m) => match int_of m with Some z => Ok z | None => Err (ValueError [Txt "invalid literal for int()"]) end
        | _ => Ok 1
        end
      else Err (KubeError 0 [Txt "exec in "; Txt place; Txt ": "; Txt (py_or s.(xs_message) "the status")])
  end.

Definition quoted (s : string) : string := let q := String (ascii_of_nat 34) EmptyString in q +:+ s +:+ q.

(** Source: src/apps/server/kube.py:650-658 [user_argv]. *)
Definition user_argv (argv : list string) (user : option string) (environment : list (string * string)) (workdir : option string) : list string :=
  let argv := match environment with [] => argv | _ => "env" :: ((λ p, p.1 +:+ "=" +:+ p.2) <$> environment) ++ argv end in
  let argv := match str_or_none user with
              | Some u => if bool_decide (u ∈ ["root"; "0"]) then argv else ["runuser"; "-u"; u; "--"] ++ argv
              | None => argv
              end in
  match str_or_none workdir with
  | Some w => ["sh"; "-c"; "cd " +:+ quoted "$1" +:+ " && shift && exec " +:+ quoted "$@"; "sh"; w] ++ argv
  | None => argv
  end.

(** ** Sizes *)

(** Source: src/apps/server/kube.py:1327-1329 [cpu_quantity]. *)
Definition cpu_quantity (cpus : Q) : string :=
  if Qnum cpus mod Zpos (Qden cpus) =? 0 then pretty (Qnum cpus / Zpos (Qden cpus))
  else pretty (round_div (1000 * Qnum cpus) (Zpos (Qden cpus))) +:+ "m".

(** Source: src/apps/server/kube.py:1332-1333 [memory_quantity]. *)
Definition memory_quantity (mb : Z) : string :=
  if mb mod 1024 =? 0 then pretty (Z.shiftr mb 10) +:+ "Gi" else pretty mb +:+ "Mi".

(** CPU in thousandths of one, memory in bytes. *)
Record Requests := mkRequests { rq_cpu : Z; rq_memory : Z }.
Definition no_requests : Requests := mkRequests 0 0.
Definition plus_requests (a b : Requests) : Requests := mkRequests (a.(rq_cpu) + b.(rq_cpu)) (a.(rq_memory) + b.(rq_memory)).
Definition minus_requests (a b : Requests) : Requests := mkRequests (a.(rq_cpu) - b.(rq_cpu)) (a.(rq_memory) - b.(rq_memory)).
Definition max_requests (a b : Requests) : Requests := mkRequests (Z.max a.(rq_cpu) b.(rq_cpu)) (Z.max a.(rq_memory) b.(rq_memory)).
Definition covers (a b : Requests) : bool := (b.(rq_cpu) <=? a.(rq_cpu)) && (b.(rq_memory) <=? a.(rq_memory)).

Section sizes.
(** The settings ZOO_IDLE_MEMORY_MB_DESKTOP and ZOO_IDLE_MEMORY_MB_CODE. *)
Context (IDLE_MEMORY_MB_DESKTOP IDLE_MEMORY_MB_CODE : Z).

(** Source: src/apps/server/kube.py:1336-1350 [sandbox_requests]. *)
Definition sandbox_requests (desktop : bool) (size : Size) : result exn (list (string * string)) :=
  let memory := if desktop then IDLE_MEMORY_MB_DESKTOP else IDLE_MEMORY_MB_CODE in
  if memory <=? 0 then Err (ZooError "unavailable" [Txt "idle memory requests must be positive"])
  else if negb (Qle_bool (1 # 10) size.(size_cpus)) || (size.(size_memory_mb) <? memory) then
    Err (ZooError "bad_request" [Txt "sandbox limits must allow at least 100m CPU and "; Num memory; Txt "Mi memory"])
  else Ok [("cpu", "100m"); ("memory", memory_quantity memory)].
End sizes.

(** Source: src/apps/server/kube.py:1353-1357 [resource_requests]. *)
Definition resource_requests (resources : list (string * string)) : result exn Requests :=
  c ← quantity (dget "cpu" resources);
  c ← math_ceil (fmul c (float_of_Z 1000));
  m ← quantity (dget "memory" resources);
  m ← math_ceil m;
  Ok (mkRequests c m).

(** The init containers in turn: the sidecars among them stay, and each of the
    others runs beside the sidecars before it. *)
Fixpoint init_requests (sidecars initial : Requests) (l : list ContainerSpec) : result exn (Requests * Requests) :=
  match l with
  | [] => Ok (sidecars, initial)
  | c :: l =>
      requested ← resource_requests c.(c_requests);
      if bool_decide (c.(c_restart_policy) = Some "Always") then
        let sidecars := plus_requests sidecars requested in init_requests sidecars (max_requests initial sidecars) l
      else init_requests sidecars (max_requests initial (plus_requests requested sidecars)) l
  end.

Fixpoint sum_requests (l : list ContainerSpec) : result exn Requests :=
  match l with
  | [] => Ok no_requests
  | c :: l => r ← resource_requests c.(c_requests); t ← sum_requests l; Ok (plus_requests r t)
  end.

(** Source: src/apps/server/kube.py:1360-1389 [pod_requests]. *)
Definition pod_requests (spec : PodSpec) : result exn Requests :=
  regular ← sum_requests spec.(s_containers);
  init ← init_requests no_requests no_requests spec.(s_init);
  let '(sidecars, initial) := init in
  overhead ← resource_requests spec.(s_overhead);
  let needed := max_requests (plus_requests regular sidecars) initial in
  (if dhas "cpu" spec.(s_requests) || dhas "memory" spec.(s_requests) then
     pod_level ← resource_requests spec.(s_requests);
     Ok (plus_requests
       (mkRequests (if dhas "cpu" spec.(s_requests) then pod_level.(rq_cpu) else needed.(rq_cpu))
          (if dhas "memory" spec.(s_requests) then pod_level.(rq_memory) else needed.(rq_memory))) overhead)
   else Ok (plus_requests needed overhead)).

(** ** Which nodes *)

Section selectors.
Context (int_of : string → option Z).

(** One requirement on the value of its key. *)
Definition requirement_matches (actual : option string) (r : Requirement) : result exn bool :=
  let expected := r.(rq_values) in
  let compare (f : Z → Z → bool) :=
    match actual, expected with
    | Some a, [e] => match int_of a, int_of e with Some x, Some y => f x y | _, _ => false end
    | _, _ => false
    end in
  if bool_decide (r.(rq_operator) = "In") then Ok (match actual with Some a => bool_decide (a ∈ expected) | None => false end)
  else if bool_decide (r.(rq_operator) = "NotIn") then Ok (match actual with Some a => bool_decide (a ∉ expected) | None => true end)
  else if bool_decide (r.(rq_operator) = "Exists") then Ok (negb (is_none actual))
  else if bool_decide (r.(rq_operator) = "DoesNotExist") then Ok (is_none actual)
  else if bool_decide (r.(rq_operator) = "Gt") then Ok (compare (λ x y, y <? x))
  else if bool_decide (r.(rq_operator) = "Lt") then Ok (compare (λ x y, x <? y))
  else Err (ZooError "upstream_error" [Txt "volume has an unsupported node affinity operator"]).

(** Source: src/apps/server/kube.py:1392-1422 [selector_matches]. *)
Fixpoint selector_matches (requirements : list Requirement) (values : list (string * string)) : result exn bool :=
  match requirements with
  | [] => Ok true
  | r :: rest =>
      matched ← requirement_matches (dget r.(rq_key) values) r;
      if matched : bool then selector_matches rest values else Ok false
  end.

Definition term_matches (labels fields : list (string * string)) (t : Term) : result exn bool :=
  match t.(tr_expressions), t.(tr_fields) with
  | [], [] => Ok false
  | _, _ =>
      e ← selector_matches t.(tr_expressions) labels;
      if e : bool then selector_matches t.(tr_fields) fields else Ok false
  end.

(** [any(f(x) for x in l)] *)
Fixpoint any_matches (f : Term → result exn bool) (l : list Term) : result exn bool :=
  match l with
  | [] => Ok false
  | t :: l => b ← f t; if b : bool then Ok true else any_matches f l
  end.

(** Source: src/apps/server/kube.py:1425-1436 [node_affinity_matches].  [affinity] is the terms
    of [required], if it is there. *)
Definition node_affinity_matches (node : NodeObj) (affinity : option (list Term)) : result exn bool :=
  match affinity with
  | None => Ok true
  | Some terms => any_matches (term_matches node.(nb_labels) [("metadata.name", node.(nb_name))]) terms
  end.
End selectors.

Definition taint_tolerated (t : Taint) (o : Toleration) : bool :=
  let operator := default "Equal" o.(to_operator) in
  (match str_or_none o.(to_effect) with None => true | e => bool_decide (e = t.(ta_effect)) end) &&
  ((bool_decide (operator = "Exists") && match str_or_none o.(to_key) with None => true | k => bool_decide (k = Some t.(ta_key)) end) ||
   (bool_decide (operator = "Equal") && bool_decide (o.(to_key) = Some t.(ta_key)) &&
    bool_decide (default "" o.(to_value) = default "" t.(ta_value)))).

(** Whether sandboxes run on a node. *)
Definition node_ready (rc : RuntimeClass) (n : NodeObj) : bool :=
  existsb (λ c, bool_decide (c.(cn_type) = "Ready") && bool_decide (c.(cn_status) = "True")) n.(nb_conditions) &&
  forallb (λ t, existsb (taint_tolerated t) rc.(rc_tolerations))
    (filter (λ t, t.(ta_effect) ∈ [Some "NoSchedule"; Some "NoExecute"]) n.(nb_taints)) &&
  negb n.(nb_unschedulable) &&
  forallb (λ p : string * string, bool_decide (dget p.1 n.(nb_labels) = Some p.2)) rc.(rc_selector).

(** Source: src/apps/server/kube.py:2038-2072 [nodes_for_sandboxes]. *)
Definition nodes_for_sandboxes (rc : RuntimeClass) (nodes : list NodeObj) : list NodeObj := filter (λ n, node_ready rc n = true) nodes.

(** Source: src/apps/server/kube.py:2243-2251 [kvm_hint]. *)
Definition kvm_hint (n : NodeObj) : result exn bool :=
  if bool_decide (dget "katacontainers.io/kata-runtime" n.(nb_labels) = Some "true")
     || bool_decide (dget "feature.node.kubernetes.io/cpu-cpuid.VMX" n.(nb_labels) = Some "true")
     || bool_decide (dget "feature.node.kubernetes.io/cpu-cpuid.SVM" n.(nb_labels) = Some "true") then Ok true
  else q ← quantity (dget "devices.kubevirt.io/kvm" n.(nb_allocatable)); Ok (SFltb fzero q).

(** ** Claims and volumes *)

Record ClaimObj := mkClaimObj {
  cm_name : string;
  cm_labels : list (string * string);
  cm_annotations : list (string * string);
  cm_deleting : bool;
  cm_resource_version : string;
  cm_volume_name : string;
  cm_data_source : option string;
  cm_data_source_ref : option string;
  cm_storage_class : option string;
  cm_access_modes : list string;
  cm_volume_mode : option string;
  cm_storage : option string;
  cm_phase : option string
}.

Definition SELECTED_NODE : string := "volume.kubernetes.io/selected-node".
Definition selected_node (c : ClaimObj) : option string := str_or_none (dget SELECTED_NODE c.(cm_annotations)).

(** A persistent volume: the terms its node affinity requires. *)
Record VolumeObj := mkVolumeObj { vo_required : option (list Term) }.

(** ** Runtime ids *)

(** A runtime id says its namespace and its pod. *)
Lemma runtime_id_roundtrip namespace name :
  has_char "/"%char namespace = false → namespace ≠ "" → name ≠ "" → parse_id (runtime_id namespace name) = Ok (namespace, name).
Proof.
  intros Hc Hn Hm. unfold parse_id, runtime_id.
  change (drop_chars (String.length PREFIX) (PREFIX +:+ ?x)) with x.
  change (namespace +:+ "/" +:+ name) with (namespace +:+ String "/"%char name). rewrite partition_app by done.
  assert (owns (Some (PREFIX +:+ namespace +:+ String "/"%char name)) = true) as ->.
  { unfold owns. change (str_or_none (Some (PREFIX +:+ ?x))) with (Some (PREFIX +:+ x)). apply prefix_app_true. by eexists. }
  by rewrite !bool_decide_false.
Qed.

(** ** The requests of a pod are its peak *)

(** What runs together while a pod starts: each init container beside the sidecars
    started before it, a sidecar from its start on. *)
Definition is_sidecar (c : ContainerSpec) : bool := bool_decide (c.(c_restart_policy) = Some "Always").
Fixpoint moments (sidecars l : list ContainerSpec) : list (list ContainerSpec) :=
  match l with
  | [] => []
  | c :: l => (sidecars ++ [c]) :: moments (if is_sidecar c then sidecars ++ [c] else sidecars) l
  end.

Definition amount (q : Requests → Z) (c : ContainerSpec) : Z := match resource_requests c.(c_requests) with Ok r => q r | Err _ => 0 end.
Definition together (q : Requests → Z) (l : list ContainerSpec) : Z := foldr (λ c s, amount q c + s) 0 l.
Definition peak (q : Requests → Z) (l : list (list ContainerSpec)) : Z := foldr (λ m s, Z.max (together q m) s) 0 l.

Section peaks.
Context (q : Requests → Z) (Hq : q = rq_cpu ∨ q = rq_memory).

Lemma together_app l l' : together q (l ++ l') = together q l + together q l'.
Proof. induction l as [|c l IH]; simpl; lia. Qed.

Lemma sum_requests_together l r : sum_requests l = Ok r → q r = together q l.
Proof.
  revert r. induction l as [|c l IH]; simpl; intros r; [intros [= <-]; by destruct Hq as [-> | ->]|]. unfold mbind, result_bind, amount.
  destruct (resource_requests _) as [a|]; [|done]. destruct (sum_requests l) as [b|]; [|done]. intros [= <-].
  rewrite <- (IH b eq_refl). by destruct Hq as [-> | ->].
Qed.

Lemma q_plus_max u v : q (plus_requests u v) = q u + q v ∧ q (max_requests u v) = Z.max (q u) (q v).
Proof. by destruct Hq as [-> | ->]. Qed.

Lemma init_requests_peak sc i l a b sidecars :
  q sc = together q sidecars → 0 ≤ q i → init_requests sc i l = Ok (a, b) →
  q a = together q (sidecars ++ filter (λ c, is_sidecar c = true) l) ∧ q b = Z.max (q i) (peak q (moments sidecars l)).
Proof.
  revert sc i sidecars. induction l as [|c l IH]; simpl; intros sc i sidecars Hs Hi.
  { intros [= <- <-]. rewrite app_nil_r. split; [done|lia]. }
  unfold mbind, result_bind. destruct (resource_requests (c_requests c)) as [x|] eqn:Ex; [|done].
  assert (q x = amount q c) as Hx by (unfold amount; by rewrite Ex).
  assert (together q (sidecars ++ [c]) = together q sidecars + amount q c) as Ht by (rewrite together_app; simpl; lia).
  change (bool_decide (c_restart_policy c = Some "Always")) with (is_sidecar c). rewrite filter_cons. destruct (is_sidecar c) eqn:Hc; intros E.
  - rewrite decide_True by done.
    apply (IH _ _ (sidecars ++ [c])) in E as [H1 H2]; rewrite ?(proj1 (q_plus_max _ _)), ?(proj2 (q_plus_max _ _)), ?(proj1 (q_plus_max _ _)) in *; [|lia..].
    rewrite <- app_assoc in H1. split; [done|lia].
  - rewrite decide_False by done.
    apply (IH _ _ sidecars) in E as [H1 H2]; rewrite ?(proj1 (q_plus_max _ _)), ?(proj2 (q_plus_max _ _)), ?(proj1 (q_plus_max _ _)) in *; [|lia..].
    split; [done|lia].
Qed.

Lemma peak_app l m : peak q (l ++ [m]) = Z.max (peak q l) (Z.max (together q m) 0).
Proof. induction l as [|x l IH]; simpl; lia. Qed.

End peaks.

(** C24: Where the pod itself requests nothing, what it is counted for is the most
    that its containers request at any moment of its start, and the overhead. *)
Theorem pod_requests_peak spec r q :
  q = rq_cpu ∨ q = rq_memory → spec.(s_requests) = [] → pod_requests spec = Ok r →
  ∃ overhead, resource_requests spec.(s_overhead) = Ok overhead ∧
    q r = peak q (moments [] spec.(s_init) ++ [spec.(s_containers) ++ filter (λ c, is_sidecar c = true) spec.(s_init)]) + q overhead.
Proof.
  intros Hq Hs. unfold pod_requests, mbind, result_bind. rewrite Hs.
  destruct (sum_requests _) as [a|] eqn:Ea; [|done]. destruct (init_requests _ _ _) as [[b c]|] eqn:Eb; [|done].
  destruct (resource_requests (s_overhead spec)) as [o|] eqn:Eo; [|done]. simpl. intros [= <-]. exists o. split; [done|].
  apply (sum_requests_together q Hq) in Ea. apply (init_requests_peak q Hq _ _ _ _ _ []) in Eb as [Hb Hc]; [|by destruct Hq as [-> | ->]..].
  rewrite (proj1 (q_plus_max q Hq _ _)), (proj2 (q_plus_max q Hq _ _)), (proj1 (q_plus_max q Hq _ _)), peak_app, together_app.
  assert (q no_requests = 0) as H0 by by destruct Hq as [-> | ->]. simpl in Hb. lia.
Qed.

Definition demo_container (restart : option string) (memory : string) : ContainerSpec :=
  mkContainerSpec "c" "i" [] [] [("memory", memory)] [] restart false [].

Lemma pod_requests_peak_witness :
  ∃ overhead, resource_requests [("memory", "160Mi")] = Ok overhead ∧ rq_memory overhead = 167772160 ∧
    3 * 2 ^ 30 + 167772160 = peak rq_memory [[demo_container (Some "Always") "1Gi"]; [demo_container (Some "Always") "1Gi"; demo_container None "2Gi"];
      [demo_container None "700Mi"; demo_container (Some "Always") "1Gi"]] + rq_memory overhead.
Proof.
  destruct (pod_requests_peak (mkPodSpec None None None [demo_container (Some "Always") "1Gi"; demo_container None "2Gi"] [demo_container None "700Mi"]
    [] [("memory", "160Mi")] [] []) (mkRequests 0 (3 * 2 ^ 30 + 167772160)) rq_memory) as (o & Ho & H); [by right|done|by vm_compute|].
  exists o. split; [exact Ho|]. split; [vm_compute in Ho; by injection Ho as <-|exact H].
Defined.
