(* ===== verification/Placement.v ===== *)
(** Placing sandboxes on the nodes of a Kubernetes cluster (src/apps/server/kube.py):
    reservations in the rows, kept under one lock, and the proof that nodes are
    never overcommitted. *)

From Stdlib Require Import SpecFloat.
From S2P Require Import Prelude Tables Store Labels Quotas Kms Platforms Security Pool Kube.

(** ** Statements on the configs

    A row's config is JSON text that the statements read and write as jsonb. *)

Definition ps_set_config (v : list (string * json)) (r : PoolSandbox) : PoolSandbox :=
  mkPoolSandbox r.(ps_id) r.(ps_kind) r.(ps_server_id) r.(ps_image) v r.(ps_status) r.(ps_runtime_id) r.(ps_runtime_host)
    r.(ps_error_message) r.(ps_created_at) r.(ps_updated_at) r.(ps_seq).

(** [config->>'k' = v], for a [k] whose values are texts. *)
Definition says (k v : string) (config : list (string * json)) : bool := match dget k config with Some (JStr s) => bool_decide (s = v) | _ => false end.

(** [UPDATE sandboxes SET ... WHERE id = i AND p RETURNING *], and of the pool. *)
Definition update_sandbox_where (p : Sandbox → bool) (f : Sandbox → Sandbox) (id : string) : M World (option Sandbox) :=
  w ← get;
  match w.(w_db).(sandboxes) !! id with
  | Some r =>
      if p r then
        let r := sb_set_updated_at w.(w_clock) (f r) in
        modify (put_db (set_sandboxes (<[id := r]> w.(w_db).(sandboxes)) w.(w_db)));; mret (Some r)
      else mret None
  | None => mret None
  end.
Definition update_pool_where (p : PoolSandbox → bool) (f : PoolSandbox → PoolSandbox) (id : string) : M World (option PoolSandbox) :=
  w ← get;
  match w.(w_db).(pool_sandboxes) !! id with
  | Some r =>
      if p r then
        let r := ps_set_updated_at w.(w_clock) (f r) in
        modify (put_db (set_pool_sandboxes (<[id := r]> w.(w_db).(pool_sandboxes)) w.(w_db)));; mret (Some r)
      else mret None
  | None => mret None
  end.

Definition ended (s : status) : bool := bool_decide (s ∈ [Deleting; Deleted; Failed]).
Definition is_linux (k : kind) : bool := negb (bool_decide (k ∈ [Macos; Windows])).

Definition json_of_requests (r : Requests) : json := JObj [("cpu", JInt r.(rq_cpu)); ("memory", JInt r.(rq_memory))].
Definition with_reservation (node_name : string) (reservation : Requests) (config : list (string * json)) : list (string * json) :=
  dset "node_reservation" (json_of_requests reservation) (dset "node_name" (JStr node_name) config).

(** Source: src/db/generated/query.py:1993-2004 [RESERVE_SANDBOX_NODE]. *)
Definition reserve_sandbox_node (node_name : string) (reservation : Requests) (sandbox_id home_claim : string) : M World (option Sandbox) :=
  update_sandbox_where (λ r, says "home_claim" home_claim r.(sb_config) && negb (ended r.(sb_status)))
    (λ r, sb_set_config (with_reservation node_name reservation r.(sb_config)) r) sandbox_id.

(** Source: src/db/generated/query.py:1979-1990 [RESERVE_POOL_SANDBOX_NODE]. *)
Definition reserve_pool_sandbox_node (node_name : string) (reservation : Requests) (sandbox_id home_claim : string) : M World (option PoolSandbox) :=
  update_pool_where (λ r, says "home_claim" home_claim r.(ps_config) && bool_decide (r.(ps_status) = PBooting))
    (λ r, ps_set_config (with_reservation node_name reservation r.(ps_config)) r) sandbox_id.

(** Source: src/db/generated/query.py:205-211 [CLEAR_SANDBOX_NODE_RESERVATION]. *)
Definition clear_sandbox_node_reservation (sandbox_id node_name : string) : M World (option Sandbox) :=
  update_sandbox_where (λ r, says "node_name" node_name r.(sb_config)) (λ r, sb_set_config (dpop "node_reservation" r.(sb_config)) r) sandbox_id.

(** Source: src/db/generated/query.py:185-191 [CLEAR_POOL_SANDBOX_NODE_RESERVATION]. *)
Definition clear_pool_sandbox_node_reservation (sandbox_id node_name : string) : M World (option PoolSandbox) :=
  update_pool_where (λ r, says "node_name" node_name r.(ps_config)) (λ r, ps_set_config (dpop "node_reservation" r.(ps_config)) r) sandbox_id.

(** Source: src/db/generated/query.py:1440-1448 [LIST_KUBE_NODE_RESERVATIONS]. *)
Definition list_kube_node_reservations (d : Db) : list (string * list (string * json)) :=
  omap (λ p : string * Sandbox,
    if is_linux p.2.(sb_kind) && negb (ended p.2.(sb_status)) && dhas "node_reservation" p.2.(sb_config) then Some (p.1, p.2.(sb_config)) else None)
    (map_to_list d.(sandboxes)) ++
  omap (λ p : string * PoolSandbox,
    if bool_decide (p.2.(ps_status) = PBooting) && dhas "node_reservation" p.2.(ps_config) then Some (p.1, p.2.(ps_config)) else None)
    (map_to_list d.(pool_sandboxes)).

(** A row of the sandboxes, or else of the pool. *)
Inductive Owner := OSandbox (r : Sandbox) | OPool (r : PoolSandbox).
Definition owner_config (o : Owner) : list (string * json) := match o with OSandbox r => r.(sb_config) | OPool r => r.(ps_config) end.
Definition owner_of (sandbox_id : string) (d : Db) : option Owner :=
  match d.(sandboxes) !! sandbox_id with
  | Some r => Some (OSandbox r)
  | None => OPool <$> d.(pool_sandboxes) !! sandbox_id
  end.

(** [config.get(k)] where it is a text that is not empty. *)
Definition text_of_config (k : string) (config : list (string * json)) : option string :=
  match dget k config with Some (JStr s) => str_or_none (Some s) | _ => None end.

(** ** What is taken of the nodes *)

Definition allocatable (n : NodeObj) : result exn Requests :=
  c ← quantity (Some n.(nb_cpu)); c ← math_floor (fmul c (float_of_Z 1000));
  m ← quantity (Some n.(nb_memory)); m ← math_floor m;
  Ok (mkRequests c m).

(** Source: src/apps/server/kube.py:1529-1535 [reserve_node].  [{name: ... for name, node in nodes.items()}] *)
Fixpoint capacities (nodes : list NodeObj) : result exn (gmap string Requests) :=
  match nodes with
  | [] => Ok ∅
  | n :: rest => c ← capacities rest; a ← allocatable n; Ok (<[n.(nb_name) := a]> c)
  end.

(** The sandbox a pod is of. *)
Definition identity (NAMESPACE : string) (p : PodObj) : option string :=
  if bool_decide (p.(po_namespace) = Some NAMESPACE) then str_or_none (dget "zoo.dev/sandbox" p.(po_labels)) else None.
Definition pod_node (p : PodObj) : option string := str_or_none p.(po_spec).(s_node_name).

(** [capacity[node] -= usage], if the node is one of them. *)
Definition take_from (node : option string) (r : Requests) (capacity : gmap string Requests) : gmap string Requests :=
  match node with Some n => alter (λ c, minus_requests c r) n capacity | None => capacity end.

(** Source: src/apps/server/kube.py:1539-1555 [reserve_node].  The loop over the pods: which sandboxes are visible where, and what is left. *)
Fixpoint count_pods (NAMESPACE sandbox_id : string) (visible : gmap string string) (capacity : gmap string Requests) (active : list PodObj)
    : result exn (gmap string string * gmap string Requests) :=
  match active with
  | [] => Ok (visible, capacity)
  | p :: rest =>
      let visible := match identity NAMESPACE p, pod_node p with Some i, Some n => <[i := n]> visible | _, _ => visible end in
      if bool_decide (identity NAMESPACE p = Some sandbox_id) then count_pods NAMESPACE sandbox_id visible capacity rest
      else match pod_node p with
           | Some n =>
               match capacity !! n with
               | Some _ => usage ← pod_requests p.(po_spec); count_pods NAMESPACE sandbox_id visible (take_from (Some n) usage capacity) rest
               | None => count_pods NAMESPACE sandbox_id visible capacity rest
               end
           | None => count_pods NAMESPACE sandbox_id visible capacity rest
           end
  end.

(** What a config has reserved, and on which node. *)
Definition requests_of_json (j : json) : option Requests :=
  match j with
  | JObj r => match dget "cpu" r, dget "memory" r with Some (JInt c), Some (JInt m) => Some (mkRequests c m) | _, _ => None end
  | _ => None
  end.
Definition reservation_of (config : list (string * json)) : option (string * Requests) :=
  match dget "node_name" config, dget "node_reservation" config with
  | Some (JStr n), Some j => (n,.) <$> requests_of_json j
  | _, _ => None
  end.

(** Source: src/apps/server/kube.py:1556-1565 [reserve_node].  The loop over the reservations. *)
Fixpoint count_reservations (sandbox_id : string) (visible : gmap string string) (capacity : gmap string Requests)
    (l : list (string * list (string * json))) : result exn (gmap string Requests) :=
  match l with
  | [] => Ok capacity
  | (id, config) :: rest =>
      if bool_decide (id = sandbox_id) then count_reservations sandbox_id visible capacity rest
      else match dget "node_name" config with
           | Some (JStr n) =>
               if bool_decide (visible !! id = Some n) then count_reservations sandbox_id visible capacity rest
               else match capacity !! n with
                    | None => count_reservations sandbox_id visible capacity rest
                    | Some _ =>
                        match reservation_of config with
                        | Some (_, r) => count_reservations sandbox_id visible (take_from (Some n) r capacity) rest
                        | None => Err (KeyError "node_reservation")
                        end
                    end
           | _ => Err (KeyError "node_name")
           end
  end.

(** [max(sorted(l), key=...)]: the first of the greatest. *)
Definition key_lt (a b : Requests) : bool :=
  (a.(rq_memory) <? b.(rq_memory)) || ((a.(rq_memory) =? b.(rq_memory)) && (a.(rq_cpu) <? b.(rq_cpu))).
(** Source: src/apps/server/kube.py:1579-1579 [reserve_node]. *)
Definition greatest (capacity : gmap string Requests) (l : list string) : option string :=
  let key n := default no_requests (capacity !! n) in
  foldl (λ best n, match best with Some b => if key_lt (key b) (key n) then Some n else best | None => Some n end) None (merge_sort String.le l).

(** [[n for n in nodes if f(n)]], for an [f] that may raise. *)
Fixpoint filterR {A} (f : A → result exn bool) (l : list A) : result exn (list A) :=
  match l with
  | [] => Ok []
  | x :: l => b ← f x; r ← filterR f l; Ok (if b : bool then x :: r else r)
  end.

(** ** Reserving *)

(** What the cluster answers: the RuntimeClass, a claim, a volume, the nodes and
    the pods that have not ended. *)
Record Answers := mkAnswers {
  an_runtime : result exn RuntimeClass;
  an_claim : string → result exn (option ClaimObj);
  an_volume : string → result exn VolumeObj;
  an_nodes : result exn (list NodeObj);
  an_active : result exn (list PodObj)
}.

Section placement.
Context (NAMESPACE : string) (IDLE_MEMORY_MB_DESKTOP IDLE_MEMORY_MB_CODE : Z) (int_of : string → option Z).

(** Source: src/apps/server/kube.py:1489-1492 [reserve_node].  What a sandbox takes of its node: its requests and the overhead of the runtime. *)
Definition requested_of (an : Answers) (desktop : bool) (size : Size) : result exn Requests :=
  r ← sandbox_requests IDLE_MEMORY_MB_DESKTOP IDLE_MEMORY_MB_CODE desktop size;
  r ← resource_requests r;
  rc ← an.(an_runtime);
  o ← resource_requests rc.(rc_overhead);
  Ok (plus_requests r o).

(** What is left of each node for the sandbox. *)
Definition room (an : Answers) (nodes : list NodeObj) (sandbox_id : string) (d : Db) : result exn (gmap string Requests) :=
  capacity ← capacities nodes;
  active ← an.(an_active);
  counted ← count_pods NAMESPACE sandbox_id ∅ capacity active;
  let '(visible, capacity) := counted in
  count_reservations sandbox_id visible capacity (list_kube_node_reservations d).

(** Source: src/apps/server/kube.py:1508-1516 [reserve_node].  The volume of a claim that is bound. *)
Definition claim_volume (an : Answers) (claim : option ClaimObj) : result exn (option VolumeObj) :=
  match claim with
  | Some c =>
      if bool_decide (c.(cm_phase) = Some "Bound") then
        if bool_decide (c.(cm_volume_name) = "") then Err (ZooError "upstream_error" [Txt "bound claim has no volume name"])
        else v ← an.(an_volume) c.(cm_volume_name); Ok (Some v)
      else Ok None
  | None => Ok None
  end.

(** Source: src/apps/server/kube.py:1566-1572 [reserve_node].  The nodes that may take it. *)
Definition eligible_nodes (pinned : option string) (volume : option VolumeObj) (requested : Requests) (capacity : gmap string Requests)
    (nodes : list NodeObj) : result exn (list NodeObj) :=
  filterR (λ n,
    if match pinned with Some p => bool_decide (n.(nb_name) = p) | None => true end then
      fits ← match volume with None => Ok true | Some v => node_affinity_matches int_of n v.(vo_required) end;
      Ok (fits && match capacity !! n.(nb_name) with Some c => covers c requested | None => false end)
    else Ok false) nodes.

(** Source: src/apps/server/kube.py:1488-1595 [reserve_node]. *)
Definition reserve_node (an : Answers) (sandbox_id : string) (desktop : bool) (size : Size) : M World string :=
  requested ← of_result (requested_of an desktop size);
  session (
    owner ← query (owner_of sandbox_id);
    match owner with
    | None => raise (ZooError "sandbox_not_found" [Txt "sandbox not found"])
    | Some owner =>
        match text_of_config "home_claim" (owner_config owner) with
        | None => raise (ZooError "unavailable" [Txt "sandbox has no home claim configured"])
        | Some claim_name =>
            claim ← of_result (an.(an_claim) claim_name);
            volume ← of_result (claim_volume an claim);
            let selected := claim ≫= selected_node in
            let persisted := text_of_config "node_name" (owner_config owner) in
            guard_ (match persisted, selected with Some p, Some s => bool_decide (p = s) | _, _ => true end)
              (ZooError "conflict" [Txt "persisted node differs from the home claim's selected node"]);;
            let pinned := match persisted with Some p => Some p | None => selected end in
            rc ← of_result (an.(an_runtime));
            all ← of_result (an.(an_nodes));
            let nodes := nodes_for_sandboxes rc all in
            d ← query id;
            capacity ← of_result (room an nodes sandbox_id d);
            eligible ← of_result (eligible_nodes pinned volume requested capacity nodes);
            match greatest capacity (nb_name <$> eligible) with
            | None => raise (ZooError "unavailable" [Txt "no eligible node has capacity for this sandbox"])
            | Some node_name =>
                updated ← match owner with
                          | OSandbox _ => o ← reserve_sandbox_node node_name requested sandbox_id claim_name; mret (negb (is_none o))
                          | OPool _ => o ← reserve_pool_sandbox_node node_name requested sandbox_id claim_name; mret (negb (is_none o))
                          end;
                guard_ updated (ZooError "conflict" [Txt "sandbox changed during node placement"]);;
                mret node_name
            end
        end
    end).

(** Source: src/apps/server/kube.py:1598-1602 [release_node_reservation]. *)
Definition release_node_reservation (sandbox_id node_name : string) : M World unit :=
  session (clear_sandbox_node_reservation sandbox_id node_name;; clear_pool_sandbox_node_reservation sandbox_id node_name;; mret tt).

End placement.

(** ** Sums over maps *)

Section sums.
Context {K A : Type} `{Countable K}.
Implicit Types (f g : K → A → Z) (l : list (K * A)) (m : gmap K A).

Definition lsum f l : Z := foldr (λ p s, f p.1 p.2 + s) 0 l.
Definition msum f m : Z := lsum f (map_to_list m).

Lemma lsum_perm f l l' : l ≡ₚ l' → lsum f l = lsum f l'.
Proof. induction 1; simpl; lia. Qed.

Lemma msum_empty f : msum f ∅ = 0.
Proof. unfold msum. by rewrite map_to_list_empty. Qed.

Lemma msum_insert f m i x : m !! i = None → msum f (<[i := x]> m) = f i x + msum f m.
Proof. intros Hi. unfold msum. by rewrite (lsum_perm _ _ _ (map_to_list_insert m i x Hi)). Qed.

Lemma msum_delete f m i x : m !! i = Some x → msum f m = f i x + msum f (delete i m).
Proof. intros Hi. rewrite <- (insert_delete_id m i x Hi) at 1. apply msum_insert, lookup_delete_eq. Qed.

Lemma msum_nonneg f m : (∀ i x, m !! i = Some x → 0 ≤ f i x) → 0 ≤ msum f m.
Proof.
  induction m as [|i x m Hi IH] using map_ind; intros Hf; [by rewrite msum_empty|].
  rewrite msum_insert by done. pose proof (Hf i x (lookup_insert_eq _ _ _)).
  assert (0 ≤ msum f m); [|lia]. apply IH. intros j y Hj. apply Hf. rewrite lookup_insert_ne; [done|congruence].
Qed.

Lemma msum_ext f g m : (∀ i x, m !! i = Some x → f i x = g i x) → msum f m = msum g m.
Proof.
  induction m as [|i x m Hi IH] using map_ind; intros Hf; [done|].
  rewrite !msum_insert by done. rewrite (Hf i x) by apply lookup_insert_eq. f_equal.
  apply IH. intros j y Hj. apply Hf. rewrite lookup_insert_ne; [done|congruence].
Qed.

Lemma msum_plus f g m : msum (λ i x, f i x + g i x) m = msum f m + msum g m.
Proof.
  induction m as [|i x m Hi IH] using map_ind; [done|]. rewrite !msum_insert by done. lia.
Qed.

End sums.

(** What one map's entries weigh is no more than another's, if each finds one of
    its own there that weighs as much. *)
Lemma msum_inject {K A K' B} `{Countable K} `{Countable K'} (R : K → K' → Prop) (f : K → A → Z) (g : K' → B → Z) (m : gmap K A) (m' : gmap K' B) :
  (∀ j y, m' !! j = Some y → 0 ≤ g j y) →
  (∀ i x, m !! i = Some x → f i x ≤ 0 ∨ ∃ j y, m' !! j = Some y ∧ f i x ≤ g j y ∧ R i j) →
  (∀ i i' j, R i j → R i' j → i = i') →
  msum f m ≤ msum g m'.
Proof.
  intros Hg Hf Hinj. revert m' Hg Hf. induction m as [|i x m Hi IH] using map_ind; intros m' Hg Hf; [by apply msum_nonneg|].
  rewrite msum_insert by done.
  assert (∀ j y, m !! j = Some y → <[i := x]> m !! j = Some y) as Hsub by (intros j y Hj; rewrite lookup_insert_ne; [done|congruence]).
  destruct (Hf i x (lookup_insert_eq _ _ _)) as [Hz|(j & y & Hy & Hle & HR)].
  { assert (msum f m ≤ msum g m'); [|lia]. apply IH; [done|]. intros j z Hj. by apply Hf, Hsub. }
  rewrite (msum_delete g m' j y Hy). assert (msum f m ≤ msum g (delete j m')); [|lia]. apply IH.
  - intros j' z Hj. apply lookup_delete_Some in Hj as [_ Hj]. eauto.
  - intros i' z Hz. destruct (Hf i' z (Hsub i' z Hz)) as [?|(j' & y' & Hy' & Hle' & HR')]; [by left|]. right.
    exists j', y'. split; [|done]. apply lookup_delete_Some. split; [|done]. intros <-. rewrite (Hinj i i' j HR HR') in Hi. congruence.
Qed.

Lemma msum_subseteq {K A} `{Countable K} (f g : K → A → Z) (m m' : gmap K A) :
  (∀ j y, m' !! j = Some y → 0 ≤ g j y) → (∀ i x, m !! i = Some x → f i x ≤ 0 ∨ (m' !! i = Some x ∧ f i x ≤ g i x)) → msum f m ≤ msum g m'.
Proof.
  intros Hg Hf. apply (msum_inject eq); [done| |by intros ??? -> ->].
  intros i x Hx. destruct (Hf i x Hx) as [?|[? ?]]; [by left|right; by exists i, x].
Qed.

(** ** Requests are not negative *)

Definition fpos (f : spec_float) : Prop :=
  match f with S754_zero s | S754_infinity s | S754_finite s _ _ => s = false | S754_nan => True end.

Lemma round_aux_pos m e l : fpos (binary_round_aux 53 1024 false m e l).
Proof. unfold binary_round_aux. repeat case_match; done. Qed.

Lemma normalize_pos z : 0 ≤ z → fpos (float_of_Z z).
Proof. destruct z; [done| |lia]. intros _. unfold float_of_Z, binary_normalize, binary_round. case_match. apply round_aux_pos. Qed.

Lemma decimal_pos m e : fpos (float_of_decimal m e).
Proof.
  unfold float_of_decimal. destruct m; [done| |done]. destruct (0 <=? e) eqn:E; [|repeat case_match; apply round_aux_pos].
  apply Z.leb_le in E. apply normalize_pos. pose proof (Z.pow_nonneg 10 e). lia.
Qed.

Lemma fmul_pos a b : fpos a → fpos b → fpos (fmul a b).
Proof. destruct a, b; simpl; intros; subst; try done. apply round_aux_pos. Qed.

Lemma ceil_nonneg f z : fpos f → math_ceil f = Ok z → 0 ≤ z.
Proof.
  destruct f as [s|s| |s m e]; simpl; intros Hs [= <-]; [done|]. subst s. case_match eqn:E.
  - apply Z.leb_le in E. pose proof (Z.pow_nonneg 2 e). lia.
  - apply Z.leb_gt in E. pose proof (Z.pow_pos_nonneg 2 (- e)). assert (Z.neg m / 2 ^ (- e) ≤ 0); [|lia].
    apply Z.div_le_upper_bound; lia.
Qed.

Lemma quantity_pos t f : quantity t = Ok f → fpos f.
Proof.
  unfold quantity. destruct t as [t|]; [|by intros [= <-]].
  destruct (digits_and_dots _) as [hd rest]. destruct (exponent rest) as [e suffix]. destruct (_ && _); [|done].
  destruct (mantissa _ _ _ _ hd) as [[[m k] [|n|n]]|]; try done. destruct (suffix_power suffix) as [p|] eqn:Ep; [|done]. intros [= <-].
  apply fmul_pos; [apply decimal_pos|]. revert Ep. unfold suffix_power. destruct (dget suffix binary_suffixes) as [q|] eqn:Eq.
  - intros [= <-]. apply normalize_pos, Z.pow_nonneg. lia.
  - destruct (dget suffix decimal_suffixes); intros [= <-]. apply decimal_pos.
Qed.

Definition nonneg (r : Requests) : Prop := 0 ≤ r.(rq_cpu) ∧ 0 ≤ r.(rq_memory).

Lemma resource_requests_nonneg l r : resource_requests l = Ok r → nonneg r.
Proof.
  unfold resource_requests, mbind, result_bind. destruct (quantity (dget "cpu" l)) as [c|] eqn:Ec; [|done].
  destruct (math_ceil (fmul c _)) as [zc|] eqn:Ezc; [|done]. destruct (quantity (dget "memory" l)) as [m|] eqn:Em; [|done].
  destruct (math_ceil m) as [zm|] eqn:Ezm; [|done]. intros [= <-]. apply quantity_pos in Ec, Em. split; simpl.
  - eapply ceil_nonneg; [|exact Ezc]. apply fmul_pos; [done|]. by apply normalize_pos.
  - by eapply ceil_nonneg.
Qed.

Lemma plus_nonneg a b : nonneg a → nonneg b → nonneg (plus_requests a b).
Proof. unfold nonneg. simpl. lia. Qed.
Lemma max_nonneg a b : nonneg a → nonneg (max_requests a b).
Proof. unfold nonneg. simpl. lia. Qed.

Lemma sum_requests_nonneg l r : sum_requests l = Ok r → nonneg r.
Proof.
  revert r. induction l as [|c l IH]; simpl; intros r; [by intros [= <-]|]. unfold mbind, result_bind.
  destruct (resource_requests _) as [a|] eqn:Ea; [|done]. destruct (sum_requests l) as [b|]; [|done]. intros [= <-].
  apply plus_nonneg; [by eapply resource_requests_nonneg|by apply IH].
Qed.

Lemma init_requests_nonneg sc i l a b : nonneg sc → nonneg i → init_requests sc i l = Ok (a, b) → nonneg a ∧ nonneg b.
Proof.
  revert sc i. induction l as [|c l IH]; simpl; intros sc i Hs Hi; [by intros [= <- <-]|]. unfold mbind, result_bind.
  destruct (resource_requests _) as [x|] eqn:Ex; [|done]. apply resource_requests_nonneg in Ex.
  case_bool_decide; apply IH; auto using plus_nonneg, max_nonneg.
Qed.

Lemma pod_requests_nonneg s r : pod_requests s = Ok r → nonneg r.
Proof.
  unfold pod_requests, mbind, result_bind. destruct (sum_requests _) as [a|] eqn:Ea; [|done].
  destruct (init_requests _ _ _) as [[b c]|] eqn:Eb; [|done]. destruct (resource_requests (s_overhead s)) as [o|] eqn:Eo; [|done].
  apply sum_requests_nonneg in Ea. apply init_requests_nonneg in Eb as [Hb Hc]; [|done|done]. apply resource_requests_nonneg in Eo.
  assert (nonneg (max_requests (plus_requests a b) c)) as Hn by auto using plus_nonneg, max_nonneg.
  destruct (_ || _).
  - destruct (resource_requests (s_requests s)) as [l|] eqn:El; [|done]. apply resource_requests_nonneg in El. intros [= <-].
    apply plus_nonneg; [|done]. split; simpl; repeat case_match; first [apply El|apply Hn].
  - intros [= <-]. by apply plus_nonneg.
Qed.

(** What a pod takes of its node. *)
Definition req (p : PodObj) : Requests := match pod_requests p.(po_spec) with Ok r => r | Err _ => no_requests end.
Lemma req_nonneg p : nonneg (req p).
Proof. unfold req. destruct (pod_requests _) eqn:E; [by eapply pod_requests_nonneg|done]. Qed.

(** ** What counting leaves

    Either of the two amounts, [q], is counted in the same way. *)

Section counting.
Context (NAMESPACE sandbox_id : string) (q : Requests → Z) (Hq : q = rq_cpu ∨ q = rq_memory).

Lemma q_minus a b : q (minus_requests a b) = q a - q b.
Proof. by destruct Hq as [-> | ->]. Qed.
Lemma q_plus a b : q (plus_requests a b) = q a + q b.
Proof. by destruct Hq as [-> | ->]. Qed.
Lemma q_nonneg a : nonneg a → 0 ≤ q a.
Proof. unfold nonneg. destruct Hq as [-> | ->]; lia. Qed.
Lemma q_covers a b : covers a b = true → q b ≤ q a.
Proof. unfold covers. intros [? ?]%andb_true_iff. destruct Hq as [-> | ->]; lia. Qed.

Definition total {A} (f : A → Z) (l : list A) : Z := foldr (λ x s, f x + s) 0 l.
Lemma total_perm {A} (f : A → Z) l l' : l ≡ₚ l' → total f l = total f l'.
Proof. induction 1; simpl; lia. Qed.
Lemma total_values {K A} (f : A → Z) (l : list (K * A)) : total f l.*2 = total (λ p, f p.2) l.
Proof. induction l as [|[k x] l IH]; [done|]. change (f x + total f l.*2 = f x + total (λ p, f p.2) l). by rewrite IH. Qed.

(** What a pod counts for on a node. *)
Definition counted_pod (n : string) (p : PodObj) : Z :=
  if bool_decide (pod_node p = Some n) && negb (bool_decide (identity NAMESPACE p = Some sandbox_id)) then q (req p) else 0.

Lemma take_from_lookup node r (c : gmap string Requests) n :
  (q <$> take_from node r c !! n) = (λ x, x - (if bool_decide (node = Some n) then q r else 0)) <$> (q <$> c !! n).
Proof.
  unfold take_from. destruct node as [m|].
  - rewrite lookup_alter. case_decide as Hm.
    + subst. rewrite bool_decide_true by done. destruct (c !! n); [|done]. simpl. by rewrite q_minus.
    + rewrite bool_decide_false by congruence. destruct (c !! n); [|done]. simpl. f_equal. lia.
  - rewrite bool_decide_false by done. destruct (c !! n); [|done]. simpl. f_equal. lia.
Qed.

Lemma count_pods_spec l vis c vis' c' :
  count_pods NAMESPACE sandbox_id vis c l = Ok (vis', c') →
  (∀ n, (q <$> c' !! n) = (λ x, x - total (counted_pod n) l) <$> (q <$> c !! n)) ∧
  (∀ i n, vis' !! i = Some n → vis !! i = Some n ∨ ∃ p, p ∈ l ∧ identity NAMESPACE p = Some i ∧ pod_node p = Some n).
Proof.
  revert vis c. induction l as [|p l IH]; intros vis c; simpl.
  { intros [= <- <-]. split; [|by left]. intros n. destruct (c !! n); [|done]. simpl. f_equal. lia. }
  set (vis1 := match identity NAMESPACE p with Some i => match pod_node p with Some n => <[i := n]> vis | None => vis end | None => vis end).
  assert (∀ i n, vis1 !! i = Some n → vis !! i = Some n ∨ (identity NAMESPACE p = Some i ∧ pod_node p = Some n)) as Hv.
  { intros i n. unfold vis1. destruct (identity NAMESPACE p) as [j|]; [|by left]. destruct (pod_node p) as [m|]; [|by left].
    rewrite lookup_insert. case_decide; [subst; intros [= ->]; by right|by left]. }
  assert (∀ c0 : gmap string Requests, (∀ n, (q <$> c0 !! n) = (λ x, x - counted_pod n p) <$> (q <$> c !! n)) →
    count_pods NAMESPACE sandbox_id vis1 c0 l = Ok (vis', c') →
    (∀ n, (q <$> c' !! n) = (λ x, x - (counted_pod n p + total (counted_pod n) l)) <$> (q <$> c !! n)) ∧
    (∀ i n, vis' !! i = Some n → vis !! i = Some n ∨ ∃ p0, p0 ∈ p :: l ∧ identity NAMESPACE p0 = Some i ∧ pod_node p0 = Some n)) as Hgo.
  { intros c0 Hc E. destruct (IH _ _ E) as [H1 H2]. split.
    - intros n. rewrite H1, Hc. destruct (q <$> c !! n); [|done]. simpl. f_equal. lia.
    - intros i n Hi. destruct (H2 i n Hi) as [Hi1|(p0 & ? & ?)]; [|right; exists p0; split; [by right|done]].
      destruct (Hv i n Hi1) as [?|?]; [by left|]. right. exists p. split; [by left|done]. }
  assert (∀ n, counted_pod n p = 0 → (q <$> c !! n) = (λ x, x - counted_pod n p) <$> (q <$> c !! n)) as Hz.
  { intros n ->. destruct (q <$> c !! n); [|done]. simpl. f_equal. lia. }
  case_bool_decide as Hid.
  - apply Hgo. intros n. apply Hz. unfold counted_pod. by rewrite (bool_decide_true (identity _ _ = _)), andb_false_r.
  - destruct (pod_node p) as [m|] eqn:Em; [|apply Hgo; intros n; apply Hz; unfold counted_pod; by rewrite Em, bool_decide_false].
    destruct (c !! m) as [cm|] eqn:Ecm.
    + unfold mbind, result_bind. destruct (pod_requests (po_spec p)) as [u|] eqn:Eu; [|done]. apply Hgo.
      intros n. etrans; [exact (take_from_lookup (Some m) u c n)|]. unfold counted_pod, req. rewrite Em, Eu.
      rewrite (bool_decide_false (identity _ _ = _)) by done. by rewrite andb_true_r.
    + apply Hgo. intros n. destruct (decide (m = n)) as [<-|Hne]; [by rewrite Ecm|]. apply Hz. unfold counted_pod. rewrite Em.
      by rewrite bool_decide_false by congruence.
Qed.

(** What a reservation counts for on a node, where [visible] says no pod does. *)
Definition counted_reservation (visible : gmap string string) (n : string) (e : string * list (string * json)) : Z :=
  match reservation_of e.2 with
  | Some (m, r) => if bool_decide (m = n) && negb (bool_decide (e.1 = sandbox_id)) && negb (bool_decide (visible !! e.1 = Some n)) then q r else 0
  | None => 0
  end.

Lemma reservation_node config m r : reservation_of config = Some (m, r) → dget "node_name" config = Some (JStr m).
Proof.
  unfold reservation_of. destruct (dget "node_name" config) as [[]|]; try done. destruct (dget "node_reservation" config) as [j|]; [|done].
  destruct (requests_of_json j); [|done]. by intros [= -> _].
Qed.

Lemma count_reservations_spec vis l c c' :
  count_reservations sandbox_id vis c l = Ok c' → ∀ n, (q <$> c' !! n) = (λ x, x - total (counted_reservation vis n) l) <$> (q <$> c !! n).
Proof.
  revert c. induction l as [|[id config] l IH]; intros c; simpl.
  { intros [= <-] n. destruct (c !! n); [|done]. simpl. f_equal. lia. }
  assert (∀ c0 : gmap string Requests, (∀ n, (q <$> c0 !! n) = (λ x, x - counted_reservation vis n (id, config)) <$> (q <$> c !! n)) →
    count_reservations sandbox_id vis c0 l = Ok c' → ∀ n,
    (q <$> c' !! n) = (λ x, x - (counted_reservation vis n (id, config) + total (counted_reservation vis n) l)) <$> (q <$> c !! n)) as Hgo.
  { intros c0 Hc E n. rewrite (IH _ E n), Hc. destruct (q <$> c !! n); [|done]. simpl. f_equal. lia. }
  assert ((∀ n, is_Some (c !! n) → counted_reservation vis n (id, config) = 0) → ∀ n,
    (q <$> c !! n) = (λ x, x - counted_reservation vis n (id, config)) <$> (q <$> c !! n)) as Hz.
  { intros H n. destruct (c !! n) eqn:E; [|done]. rewrite H by done. simpl. f_equal. lia. }
  unfold counted_reservation in Hz at 1. simpl in Hz. case_bool_decide as Hid.
  { apply Hgo, Hz. intros n _. destruct (reservation_of config) as [[m r]|]; [|done]. by rewrite andb_false_r. }
  destruct (dget "node_name" config) as [[| | |n0| |]|] eqn:En; try done.
  assert (∀ m r, reservation_of config = Some (m, r) → m = n0) as Hm.
  { intros m r Hr. apply reservation_node in Hr. congruence. }
  case_bool_decide as Hvis.
  { apply Hgo, Hz. intros n _. destruct (reservation_of config) as [[m r]|]; [|done]. rewrite (Hm m r) by done.
    destruct (decide (n0 = n)) as [->|]; [by rewrite (bool_decide_true (vis !! id = _)), andb_false_r|by rewrite bool_decide_false]. }
  destruct (c !! n0) as [cn|] eqn:Ec.
  - destruct (reservation_of config) as [[m r]|] eqn:Er; [|done]. rewrite (Hm m r) in * by done. apply Hgo. intros n.
    etrans; [exact (take_from_lookup (Some n0) r c n)|]. unfold counted_reservation. simpl. rewrite Er.
    destruct (decide (n0 = n)) as [->|Hne].
    + by rewrite !bool_decide_true, (bool_decide_false (id = _)), (bool_decide_false (vis !! id = _)) by done.
    + by rewrite (bool_decide_false (Some n0 = _)), (bool_decide_false (n0 = n)) by congruence.
  - apply Hgo, Hz. intros n [x Hx]. destruct (reservation_of config) as [[m r]|]; [|done]. rewrite (Hm m r) by done.
    rewrite bool_decide_false; [done|congruence].
Qed.

Lemma total_app {A} (f : A → Z) l l' : total f (l ++ l') = total f l + total f l'.
Proof. induction l as [|x l IH]; [done|]. simpl. lia. Qed.
Lemma total_omap {A B} (f : B → Z) (g : A → option B) l : total f (omap g l) = total (λ x, from_option f 0 (g x)) l.
Proof. induction l as [|x l IH]; [done|]. change (total f (omap g (x :: l)) = from_option f 0 (g x) + total (λ x, from_option f 0 (g x)) l). rewrite <- IH. by destruct (g x) as [y|] eqn:E; cbn; rewrite E. Qed.
Lemma total_ext {A} (f g : A → Z) l : (∀ x, x ∈ l → f x = g x) → total f l = total g l.
Proof. induction l as [|x l IH]; intros H; [done|]. simpl. rewrite (H x) by left. f_equal. apply IH. intros y Hy. apply H. by right. Qed.

Lemma msum_omap {A B} (f : string → B → Z) (g : A → option B) (m : gmap string A) :
  msum f (omap g m) = msum (λ i x, from_option (f i) 0 (g x)) m.
Proof.
  induction m as [|i x m Hi IH] using map_ind; [by rewrite omap_empty|].
  rewrite msum_insert by done. destruct (g x) as [y|] eqn:Eg; simpl.
  - rewrite (omap_insert_Some _ _ _ _ y), msum_insert by (done || by rewrite lookup_omap, Hi). lia.
  - rewrite omap_insert_None, delete_id by (done || by rewrite lookup_omap, Hi). lia.
Qed.

Lemma msum_union {A} (f : string → A → Z) (m m' : gmap string A) : m ##ₘ m' → msum f (m ∪ m') = msum f m + msum f m'.
Proof.
  induction m as [|i x m Hi IH] using map_ind; intros Hd; [by rewrite map_empty_union|].
  apply map_disjoint_insert_l in Hd as [Hi' Hd]. rewrite <- insert_union_l, !msum_insert, IH by (done || by apply lookup_union_None). lia.
Qed.

End counting.

(** ** Reservations that count *)

Definition held_sandbox (r : Sandbox) : option (string * Requests) :=
  if is_linux r.(sb_kind) && negb (ended r.(sb_status)) && dhas "node_reservation" r.(sb_config) then reservation_of r.(sb_config) else None.
Definition held_pool (r : PoolSandbox) : option (string * Requests) :=
  if bool_decide (r.(ps_status) = PBooting) && dhas "node_reservation" r.(ps_config) then reservation_of r.(ps_config) else None.

(** By sandbox, the node and what is reserved on it. *)
Definition held (d : Db) : gmap string (string * Requests) := omap held_sandbox d.(sandboxes) ∪ omap held_pool d.(pool_sandboxes).

(** No sandbox is in the pool too. *)
Definition rows_apart (d : Db) : Prop := ∀ i, d.(sandboxes) !! i = None ∨ d.(pool_sandboxes) !! i = None.

Lemma held_apart d : rows_apart d → (omap held_sandbox d.(sandboxes) : gmap string _) ##ₘ omap held_pool d.(pool_sandboxes).
Proof.
  intros Hd. apply map_disjoint_spec. intros i x y. rewrite !lookup_omap. destruct (Hd i) as [-> | ->]; done.
Qed.

Lemma reservations_total sandbox_id q vis n d :
  rows_apart d →
  total (counted_reservation sandbox_id q vis n) (list_kube_node_reservations d) =
  msum (λ id x, if bool_decide (x.1 = n) && negb (bool_decide (id = sandbox_id)) && negb (bool_decide (vis !! id = Some n)) then q x.2 else 0) (held d).
Proof.
  intros Hd. unfold list_kube_node_reservations, held. rewrite total_app, !total_omap, msum_union, !msum_omap by by apply held_apart.
  f_equal; apply total_ext; intros [i r] _; simpl; unfold held_sandbox, held_pool, counted_reservation.
  - destruct (_ && _ && _); [|done]. simpl. by destruct (reservation_of _) as [[m x]|].
  - destruct (bool_decide _ && _); [|done]. simpl. by destruct (reservation_of _) as [[m x]|].
Qed.

Lemma filterR_in {A} (f : A → result exn bool) l r x : filterR f l = Ok r → x ∈ r → x ∈ l ∧ f x = Ok true.
Proof.
  revert r. induction l as [|y l IH]; simpl; intros r; [intros [= <-]; by intros ?%elem_of_nil|]. unfold mbind, result_bind.
  destruct (f y) as [b|] eqn:Ey; [|done]. destruct (filterR f l) as [t|]; [|done]. intros [= <-].
  destruct b; [|intros Hx; destruct (IH t eq_refl Hx); split; [by right|done]].
  intros [->|Hx]%elem_of_cons; [split; [by left|done]|]. destruct (IH t eq_refl Hx). split; [by right|done].
Qed.

Lemma greatest_in c l n : greatest c l = Some n → n ∈ l.
Proof.
  unfold greatest. set (key n := default no_requests (c !! n)).
  assert (∀ l best, foldl (λ best n, match best with Some b => if key_lt (key b) (key n) then Some n else best | None => Some n end) best l = Some n →
    best = Some n ∨ n ∈ l) as Hf.
  { induction l0 as [|x l0 IH]; intros best; simpl; [by left|]. intros H. apply IH in H as [H|H]; [|right; by right].
    destruct best as [b|]; [destruct (key_lt _ _)|]; [injection H as ->; right; by left|by left|injection H as ->; right; by left]. }
  intros H. apply Hf in H as [?|H]; [done|]. by rewrite merge_sort_Permutation in H.
Qed.

Lemma covers_room c r : covers c r = true → rq_cpu r ≤ rq_cpu c ∧ rq_memory r ≤ rq_memory c.
Proof. unfold covers. intros [? ?]%andb_true_iff. lia. Qed.

(** A row that is written anew. *)
Lemma held_insert_sandbox id r d x :
  rows_apart d → is_Some (d.(sandboxes) !! id) → held_sandbox r = Some x → held (set_sandboxes (<[id := r]> d.(sandboxes)) d) = <[id := x]> (held d).
Proof.
  intros Hd [old Ho] Hx. unfold held. simpl. rewrite (omap_insert_Some _ _ _ _ x) by done. by rewrite insert_union_l.
Qed.

Lemma held_insert_pool id r d x :
  rows_apart d → is_Some (d.(pool_sandboxes) !! id) → held_pool r = Some x → held (set_pool_sandboxes (<[id := r]> d.(pool_sandboxes)) d) = <[id := x]> (held d).
Proof.
  intros Hd [old Ho] Hx. unfold held. simpl. rewrite (omap_insert_Some _ _ _ _ x) by done. rewrite insert_union_r; [done|].
  rewrite lookup_omap. destruct (Hd id) as [-> |]; [done|congruence].
Qed.

Lemma held_with_reservation n r config : reservation_of (with_reservation n r config) = Some (n, r) ∧ dhas "node_reservation" (with_reservation n r config) = true.
Proof.
  unfold reservation_of, with_reservation, dhas. rewrite dget_dset_ne, dget_dset_eq, dget_dset_eq by done. simpl. destruct r. done.
Qed.

Section reserve_effect.
Context (NAMESPACE : string) (IDLE_MEMORY_MB_DESKTOP IDLE_MEMORY_MB_CODE : Z) (int_of : string → option Z).
Abbreviation reserve_node := (reserve_node NAMESPACE IDLE_MEMORY_MB_DESKTOP IDLE_MEMORY_MB_CODE int_of).
Abbreviation requested_of := (requested_of IDLE_MEMORY_MB_DESKTOP IDLE_MEMORY_MB_CODE).
Abbreviation room := (room NAMESPACE).

(** A row's update that finds it. *)
Lemma update_sandbox_some p f id w r w' :
  update_sandbox_where p f id w = (Ok (Some r), w') →
  ∃ old, w.(w_db).(sandboxes) !! id = Some old ∧ p old = true ∧ r = sb_set_updated_at w.(w_clock) (f old) ∧
    w' = put_db (set_sandboxes (<[id := r]> w.(w_db).(sandboxes)) w.(w_db)) w.
Proof.
  unfold update_sandbox_where. rewrite (bind_ok get _ w w w eq_refl). destruct (sandboxes (w_db w) !! id) as [old|]; [|done].
  destruct (p old) eqn:Ep; [|done]. run. intros [= <- <-]. by exists old.
Qed.

Lemma update_pool_some p f id w r w' :
  update_pool_where p f id w = (Ok (Some r), w') →
  ∃ old, w.(w_db).(pool_sandboxes) !! id = Some old ∧ p old = true ∧ r = ps_set_updated_at w.(w_clock) (f old) ∧
    w' = put_db (set_pool_sandboxes (<[id := r]> w.(w_db).(pool_sandboxes)) w.(w_db)) w.
Proof.
  unfold update_pool_where. rewrite (bind_ok get _ w w w eq_refl). destruct (pool_sandboxes (w_db w) !! id) as [old|]; [|done].
  destruct (p old) eqn:Ep; [|done]. run. intros [= <- <-]. by exists old.
Qed.

(** The same rows are there. *)
Definition same_ids (d d' : Db) : Prop :=
  (∀ i, is_Some (d'.(sandboxes) !! i) ↔ is_Some (d.(sandboxes) !! i)) ∧ (∀ i, is_Some (d'.(pool_sandboxes) !! i) ↔ is_Some (d.(pool_sandboxes) !! i)) ∧
  (∀ i r', d'.(sandboxes) !! i = Some r' → ∃ r, d.(sandboxes) !! i = Some r ∧ r'.(sb_kind) = r.(sb_kind)).

Lemma same_ids_sandbox id old r d : d.(sandboxes) !! id = Some old → r.(sb_kind) = old.(sb_kind) → same_ids d (set_sandboxes (<[id := r]> d.(sandboxes)) d).
Proof.
  intros Ho Hk. split_and!; [|done|]; intros i; simpl; rewrite lookup_insert; case_decide; subst; [rewrite Ho; split; by eexists|done| |by eexists].
  intros r' [= <-]. by eexists.
Qed.
Lemma same_ids_pool id old r d : d.(pool_sandboxes) !! id = Some old → same_ids d (set_pool_sandboxes (<[id := r]> d.(pool_sandboxes)) d).
Proof.
  intros Ho. split_and!; [done| |by eexists]. intros i; simpl; rewrite lookup_insert; case_decide; subst; [rewrite Ho; split; by eexists|done].
Qed.

Lemma reserve_rows owner n requested id claim w w' :
  rows_apart w.(w_db) → (∀ r, w.(w_db).(sandboxes) !! id = Some r → is_linux r.(sb_kind) = true) →
  match owner with
  | OSandbox _ => o ← reserve_sandbox_node n requested id claim; mret (negb (is_none o))
  | OPool _ => o ← reserve_pool_sandbox_node n requested id claim; mret (negb (is_none o))
  end w = (Ok true, w') →
  held w'.(w_db) = <[id := (n, requested)]> (held w.(w_db)) ∧ same_ids w.(w_db) w'.(w_db).
Proof.
  intros Hd Hlin. destruct owner as [r|r]; intros E; apply bind_ok_inv in E as ([o|] & w1 & E1 & [= <-]).
  - apply update_sandbox_some in E1 as (old & Ho & Hp & -> & ->). apply andb_true_iff in Hp as [_ Hp].
    destruct (held_with_reservation n requested (sb_config old)) as [H1 H2]. split.
    + apply held_insert_sandbox; [done|by eexists|]. unfold held_sandbox. simpl. rewrite (Hlin _ Ho), H1, H2. destruct (ended (sb_status old)); done.
    + by eapply same_ids_sandbox.
  - apply update_pool_some in E1 as (old & Ho & Hp & -> & ->). apply andb_true_iff in Hp as [_ Hp].
    destruct (held_with_reservation n requested (ps_config old)) as [H1 H2]. split.
    + apply held_insert_pool; [done|by eexists|]. unfold held_pool. simpl. by rewrite H1, H2, Hp.
    + by eapply same_ids_pool.
Qed.

(** What a reservation that succeeds has seen, and what it writes. *)
Lemma reserve_node_effect an id desktop size w n w' :
  rows_apart w.(w_db) → (∀ r, w.(w_db).(sandboxes) !! id = Some r → is_linux r.(sb_kind) = true) →
  reserve_node an id desktop size w = (Ok n, w') →
  ∃ requested rc all capacity c, requested_of an desktop size = Ok requested ∧ an.(an_runtime) = Ok rc ∧ an.(an_nodes) = Ok all ∧
    room an (nodes_for_sandboxes rc all) id w.(w_db) = Ok capacity ∧ capacity !! n = Some c ∧ covers c requested = true ∧
    held w'.(w_db) = <[id := (n, requested)]> (held w.(w_db)) ∧ same_ids w.(w_db) w'.(w_db).
Proof.
  intros Hd Hlin. unfold Placement.reserve_node, of_result. intros E.
  apply bind_ok_inv in E as (requested & w0 & [= Ereq <-] & E). unfold session, transaction in E.
  match type of E with (match ?m with _ => _ end) = _ => destruct m as [[n'|e] w1] eqn:E1; [|done] end.
  injection E as -> ->. rename E1 into E.
  rewrite run_bind_query in E. destruct (owner_of id (w_db w)) as [owner|] eqn:Eo; [|done].
  destruct (text_of_config "home_claim" (owner_config owner)) as [claim|] eqn:Ecl; [|done].
  apply bind_ok_inv in E as (cl & w0 & [= Ec <-] & E). apply bind_ok_inv in E as (vol & w0 & [= Ev <-] & E).
  apply bind_ok_inv in E as (u & w0 & Eg & E). apply guard_ok_inv in Eg as [_ ->].
  apply bind_ok_inv in E as (rc & w0 & [= Erc <-] & E). apply bind_ok_inv in E as (all & w0 & [= Eall <-] & E).
  rewrite run_bind_query in E.
  apply bind_ok_inv in E as (capacity & w0 & [= Ecap <-] & E). apply bind_ok_inv in E as (eligible & w0 & [= Eel <-] & E).
  destruct (greatest capacity _) as [node|] eqn:Egr; [|done].
  apply bind_ok_inv in E as (updated & w2 & Eup & E). apply bind_ok_inv in E as (u2 & w3 & Eg & E). apply guard_ok_inv in Eg as [-> ->].
  injection E as -> ->.
  assert (∃ c, capacity !! n = Some c ∧ covers c requested = true) as (c & Hc1 & Hc2).
  { apply greatest_in, list_elem_of_fmap in Egr as (nb & -> & Hin). apply (filterR_in _ _ _ _ Eel) in Hin as [_ Hf].
    revert Hf. destruct (match _ with Some p => _ | None => true end); [|done]. unfold mbind, result_bind.
    match goal with |- match ?x with _ => _ end = _ → _ => destruct x as [[]|] end; [|done|done]. simpl.
    destruct (capacity !! nb_name nb) as [c|]; [|done]. intros [= Hcov]. by exists c. }
  exists requested, rc, all, capacity, c. do 6 (split; [done|]). exact (reserve_rows _ _ _ _ _ _ _ Hd Hlin Eup).
Qed.
End reserve_effect.

(** What letting go does. *)
Lemma same_ids_refl d : same_ids d d.
Proof. split_and!; [done..|]. intros i r ?. by exists r. Qed.

Lemma popped (config : list (string * json)) : dhas "node_reservation" (dpop "node_reservation" config) = false.
Proof. unfold dhas. rewrite dget_dpop, decide_True by done. by apply bool_decide_eq_false, is_Some_None. Qed.

Lemma held_delete_sandbox id r d :
  rows_apart d → is_Some (d.(sandboxes) !! id) → held_sandbox r = None → held (set_sandboxes (<[id := r]> d.(sandboxes)) d) = delete id (held d).
Proof.
  intros Hd [old Ho] Hx. unfold held. simpl. rewrite omap_insert_None, delete_union by done. f_equal. symmetry. apply delete_id.
  rewrite lookup_omap. destruct (Hd id) as [?| ->]; [congruence|done].
Qed.

Lemma held_delete_pool id r d :
  rows_apart d → is_Some (d.(pool_sandboxes) !! id) → held_pool r = None → held (set_pool_sandboxes (<[id := r]> d.(pool_sandboxes)) d) = delete id (held d).
Proof.
  intros Hd [old Ho] Hx. unfold held. simpl. rewrite omap_insert_None, delete_union by done. f_equal. symmetry. apply delete_id.
  rewrite lookup_omap. destruct (Hd id) as [-> |?]; [done|congruence].
Qed.

Lemma same_ids_apart d d' : same_ids d d' → rows_apart d → rows_apart d'.
Proof.
  intros (H1 & H2 & _) Hd i. destruct (Hd i) as [Hi|Hi]; [left|right]; apply eq_None_not_Some; rewrite ?H1, ?H2, Hi; by intros [].
Qed.

Definition lets_go (id : string) (d d' : Db) : Prop := (held d' = held d ∨ held d' = delete id (held d)) ∧ same_ids d d'.

Lemma clear_sandbox_effect id n w :
  rows_apart w.(w_db) → ∃ o w', clear_sandbox_node_reservation id n w = (Ok o, w') ∧ lets_go id w.(w_db) w'.(w_db) ∧ (o = None → w' = w) ∧ (is_Some o → is_Some (w.(w_db).(sandboxes) !! id)).
Proof.
  intros Hd. unfold clear_sandbox_node_reservation, update_sandbox_where. rewrite (bind_ok get _ w w w eq_refl).
  destruct (sandboxes (w_db w) !! id) as [r|] eqn:Er; [|exists None, w; split_and!; [done|split; [by left|apply same_ids_refl]|done|by intros []]].
  destruct (says _ _ _); run; [|exists None, w; split_and!; [done|split; [by left|apply same_ids_refl]|done|by intros []]].
  eexists _, _. split; [done|]. split; [|split; [done|by eexists]]. split; [right|by eapply same_ids_sandbox].
  apply held_delete_sandbox; [done|by eexists|]. unfold held_sandbox. simpl. by rewrite popped, andb_false_r.
Qed.

Lemma clear_pool_effect id n w :
  rows_apart w.(w_db) → ∃ o w', clear_pool_sandbox_node_reservation id n w = (Ok o, w') ∧ lets_go id w.(w_db) w'.(w_db) ∧ (w.(w_db).(pool_sandboxes) !! id = None → w' = w).
Proof.
  intros Hd. unfold clear_pool_sandbox_node_reservation, update_pool_where. rewrite (bind_ok get _ w w w eq_refl).
  destruct (pool_sandboxes (w_db w) !! id) as [r|] eqn:Er; [|exists None, w; split_and!; [done|split; [by left|apply same_ids_refl]|done]].
  destruct (says _ _ _); run; [|exists None, w; split_and!; [done|split; [by left|apply same_ids_refl]|done]].
  eexists _, _. split; [done|]. split; [|done]. split; [right|by eapply same_ids_pool].
  apply held_delete_pool; [done|by eexists|]. unfold held_pool. simpl. by rewrite popped, andb_false_r.
Qed.

Lemma release_effect id n w : rows_apart w.(w_db) → lets_go id w.(w_db) (release_node_reservation id n w).2.(w_db).
Proof.
  intros Hd. unfold release_node_reservation, session, transaction.
  destruct (clear_sandbox_effect id n w Hd) as (o & w1 & E1 & H1 & Hn & Hs). rewrite (bind_ok _ _ _ _ _ E1).
  destruct o as [r|].
  - destruct (Hs ltac:(by eexists)) as [old Ho]. assert (pool_sandboxes (w_db w) !! id = None) as Hp by (destruct (Hd id); congruence).
    pose proof (same_ids_apart _ _ (proj2 H1) Hd) as Hd1.
    destruct (clear_pool_effect id n w1 Hd1) as (o2 & w2 & E2 & _ & Hn2). rewrite (bind_ok _ _ _ _ _ E2). run. simpl.
    rewrite Hn2; [done|]. destruct H1 as (_ & _ & Hs2 & _). apply eq_None_not_Some. rewrite Hs2, Hp. by intros [].
  - rewrite (Hn eq_refl). destruct (clear_pool_effect id n w Hd) as (o2 & w2 & E2 & H2 & _). rewrite (bind_ok _ _ _ _ _ E2). done.
Qed.


(** ** The cluster and the processes that place *)

(** The rows, the pods that have not ended, by name, and the placement lock:
    while a transaction holds it, the pods that transaction has listed. *)
Record Cluster := mkCluster { k_world : World; k_pods : gmap string PodObj; k_lock : option (gmap string PodObj) }.

Section overcommit.
Context (NAMESPACE : string) (IDLE_MEMORY_MB_DESKTOP IDLE_MEMORY_MB_CODE : Z) (int_of : string → option Z).
(** The nodes and the RuntimeClass of the cluster, and what the nodes have. *)
Context (rc : RuntimeClass) (all : list NodeObj) (cap : gmap string Requests).
Context (cap_ok : capacities (nodes_for_sandboxes rc all) = Ok cap).
Abbreviation reserve_node := (reserve_node NAMESPACE IDLE_MEMORY_MB_DESKTOP IDLE_MEMORY_MB_CODE int_of).
Abbreviation identity := (identity NAMESPACE).

(** What can happen.  [pl_lock] and [pl_reserve] are the two ends of a transaction
    that places: it lists the pods, and pods come and go before it commits.
    Letting go takes the lock too.  A pod starts where its sandbox has a
    reservation, with the requests reserved; it ends at any time.  The rest of
    the program makes no reservations, and drops them at any time (a row that is
    marked deleting or failed, or is removed, has none), but not from under a
    placement that has not listed the pod of such a row. *)
Inductive place_step : Cluster → Cluster → Prop :=
| pl_lock w pods : place_step (mkCluster w pods None) (mkCluster w pods (Some pods))
| pl_reserve an id desktop size active w pods seen :
    an.(an_runtime) = Ok rc → an.(an_nodes) = Ok all → an.(an_active) = Ok active → active ≡ₚ (map_to_list seen).*2 →
    (∀ k p, pods !! k = Some p → identity p ≠ Some id) → (∀ r, w.(w_db).(sandboxes) !! id = Some r → is_linux r.(sb_kind) = true) →
    place_step (mkCluster w pods (Some seen)) (mkCluster (reserve_node an id desktop size w).2 pods None)
| pl_release id n w pods : place_step (mkCluster w pods None) (mkCluster (release_node_reservation id n w).2 pods None)
| pl_start k p id n r w pods lk :
    pods !! k = None → identity p = Some id → held w.(w_db) !! id = Some (n, r) → pod_node p = Some n → pod_requests p.(po_spec) = Ok r →
    (∀ k' p', pods !! k' = Some p' → identity p' ≠ Some id) →
    place_step (mkCluster w pods lk) (mkCluster w (<[k := p]> pods) lk)
| pl_end k w pods lk : place_step (mkCluster w pods lk) (mkCluster w (delete k pods) lk)
| pl_others w w' pods lk :
    held w'.(w_db) ⊆ held w.(w_db) → rows_apart w'.(w_db) →
    (∀ seen k p i, lk = Some seen → pods !! k = Some p → identity p = Some i → is_Some (held w.(w_db) !! i) → held w'.(w_db) !! i = None →
       seen !! k = Some p) →
    place_step (mkCluster w pods lk) (mkCluster w' pods lk).

(** What the pods of a node take. *)
Definition used (q : Requests → Z) (n : string) (pods : gmap string PodObj) : Z :=
  msum (λ _ p, if bool_decide (pod_node p = Some n) then q (req p) else 0) pods.

(** A pod that no reservation stands for. *)
Definition unheld (h : gmap string (string * Requests)) (p : PodObj) : bool :=
  match identity p with Some i => is_none (h !! i) | None => true end.

(** What is promised of a node: the pods without a reservation, and the
    reservations. *)
Definition unheld_on (q : Requests → Z) n h (_ : string) p : Z := if bool_decide (pod_node p = Some n) && unheld h p then q (req p) else 0.
Definition held_on (q : Requests → Z) n (_ : string) (x : string * Requests) : Z := if bool_decide (x.1 = n) then q x.2 else 0.
Definition promised q n pods h : Z := msum (unheld_on q n h) pods + msum (held_on q n) h.

(** Each sandbox has one pod, which is where and what its reservation says. *)
Definition one_pod (pods : gmap string PodObj) : Prop :=
  ∀ k k' p p' i, pods !! k = Some p → pods !! k' = Some p' → identity p = Some i → identity p' = Some i → k = k'.
Definition as_held (h : gmap string (string * Requests)) (pods : gmap string PodObj) : Prop :=
  ∀ k p i n r, pods !! k = Some p → identity p = Some i → h !! i = Some (n, r) → pod_node p = Some n ∧ req p = r.

Record placed (s : Cluster) : Prop := {
  pd_apart : rows_apart s.(k_world).(w_db);
  pd_one : one_pod s.(k_pods);
  pd_match : as_held (held s.(k_world).(w_db)) s.(k_pods);
  pd_nonneg : ∀ i n r, held s.(k_world).(w_db) !! i = Some (n, r) → nonneg r;
  pd_fits : ∀ q n a, q = rq_cpu ∨ q = rq_memory → cap !! n = Some a → promised q n s.(k_pods) (held s.(k_world).(w_db)) ≤ q a;
  pd_lock : ∀ seen, s.(k_lock) = Some seen → one_pod seen ∧ as_held (held s.(k_world).(w_db)) seen ∧
    ∀ k p, s.(k_pods) !! k = Some p → seen !! k = Some p ∨ unheld (held s.(k_world).(w_db)) p = false
}.

Section either.
Context (q : Requests → Z) (Hq : q = rq_cpu ∨ q = rq_memory).

Lemma q_req p : 0 ≤ q (req p).
Proof. apply q_nonneg; [done|apply req_nonneg]. Qed.

(** The pods take no more than is promised. *)
Lemma used_promised n pods h :
  one_pod pods → as_held h pods → (∀ i m r, h !! i = Some (m, r) → nonneg r) → used q n pods ≤ promised q n pods h.
Proof.
  intros H1 H2 Hn. unfold promised.
  assert (used q n pods = msum (unheld_on q n h) pods + msum (λ k p, if bool_decide (pod_node p = Some n) && negb (unheld h p) then q (req p) else 0) pods) as ->.
  { rewrite <- msum_plus. apply msum_ext. intros k p _. unfold unheld_on. destruct (bool_decide _), (unheld h p); simpl; lia. }
  apply Z.add_le_mono_l. apply (msum_inject (λ k i, ∃ p, pods !! k = Some p ∧ identity p = Some i)).
  - intros i [m r] Hi. unfold held_on. case_bool_decide; [|lia]. apply q_nonneg; [done|by eapply Hn].
  - intros k p Hk. unfold unheld. destruct (identity p) as [i|] eqn:Ei; [|left; by rewrite andb_false_r].
    destruct (h !! i) as [[m r]|] eqn:Eh; simpl; [|left; by rewrite andb_false_r].
    case_bool_decide as En; [|by left]. right. destruct (H2 _ _ _ _ _ Hk Ei Eh) as [Hm Hr]. exists i, (m, r). split; [done|]. split; [|by exists p].
    unfold held_on. simpl. rewrite bool_decide_true by congruence. by rewrite Hr.
  - intros k k' i (p & Hp & Hi) (p' & Hp' & Hi'). by eapply H1.
Qed.

Lemma promised_release i n pods h :
  one_pod pods → as_held h pods → (∀ i m r, h !! i = Some (m, r) → nonneg r) → promised q n pods (delete i h) ≤ promised q n pods h.
Proof.
  intros H1 H2 Hn. destruct (h !! i) as [[m r]|] eqn:Ei; [|by rewrite delete_id].
  unfold promised. rewrite (msum_delete (held_on q n) h i _ Ei).
  set (extra := msum (λ k p, if bool_decide (pod_node p = Some n) && bool_decide (identity p = Some i) then q (req p) else 0) pods).
  assert (msum (unheld_on q n (delete i h)) pods = msum (unheld_on q n h) pods + extra) as ->.
  { unfold extra. rewrite <- msum_plus. apply msum_ext. intros k p _. unfold unheld_on, unheld. destruct (identity p) as [j|]; simpl.
    - destruct (decide (i = j)) as [->|Hne].
      + rewrite lookup_delete_eq, Ei, (bool_decide_true (Some j = _)) by done. simpl. rewrite andb_false_r. lia.
      + rewrite lookup_delete_ne, (bool_decide_false (Some j = _)), (andb_false_r (bool_decide _)) by congruence. lia.
    - rewrite (andb_false_r (bool_decide _)). lia. }
  assert (extra ≤ msum (held_on q n) {[i := (m, r)]}) as Hx.
  { apply (msum_inject (λ k j, j = i ∧ ∃ p, pods !! k = Some p ∧ identity p = Some i)).
    - intros j [m' r'] [<- [= <- <-]]%lookup_singleton_Some. unfold held_on. case_bool_decide; [|lia]. apply q_nonneg; [done|by eapply Hn].
    - intros k p Hk. case_bool_decide as En; [|by left]. case_bool_decide as Ep; [|by left]. right.
      destruct (H2 _ _ _ _ _ Hk Ep Ei) as [Hm Hr]. exists i, (m, r). split; [by rewrite lookup_singleton_eq|]. split; [|split; [done|by exists p]].
      unfold held_on. simpl. rewrite bool_decide_true by congruence. by rewrite Hr.
    - intros k k' j (-> & p & Hp & Hi) (_ & p' & Hp' & Hi'). by eapply H1. }
  change {[i := (m, r)]} with (<[i := (m, r)]> ∅ : gmap string (string * Requests)) in Hx.
  rewrite msum_insert, msum_empty in Hx by done. lia.
Qed.

Lemma as_held_subseteq h h' pods : h' ⊆ h → as_held h pods → as_held h' pods.
Proof. intros Hs Hh k p i n r Hk Hp Hi. eapply Hh; [done..|]. by eapply lookup_weaken. Qed.

Lemma promised_drop n pods h h' :
  h' ⊆ h → one_pod pods → as_held h pods → (∀ i m r, h !! i = Some (m, r) → nonneg r) → promised q n pods h' ≤ promised q n pods h.
Proof.
  intros Hs H1 H2 Hn. rewrite <- (map_difference_union h' h Hs) in *.
  assert (∀ i, h' !! i = None ∨ (h ∖ h') !! i = None) as Hd.
  { intros i. destruct (h' !! i) eqn:E; [right|by left]. apply lookup_difference_None. right. by eexists. }
  revert Hd H2 Hn. generalize (h ∖ h'). intros d. induction d as [|i x d Hi IH] using map_ind; intros Hd H2 Hn; [by rewrite map_union_empty|].
  assert (h' !! i = None) as Hi' by (destruct (Hd i) as [|H]; [done|by rewrite lookup_insert_eq in H]).
  assert (delete i (h' ∪ <[i := x]> d) = h' ∪ d) as E.
  { rewrite delete_union, delete_insert_id by done. by rewrite delete_id. }
  assert (h' ∪ d ⊆ h' ∪ <[i := x]> d) as Hsub by (rewrite <- E; apply delete_subseteq).
  etrans; [apply IH|rewrite <- E; by apply promised_release].
  - intros j. destruct (Hd j) as [|H]; [by left|]. right. by apply lookup_insert_None in H as [? _].
  - by eapply as_held_subseteq.
  - intros j m r Hj. eapply Hn. by eapply lookup_weaken.
Qed.

(** What is promised beside the sandbox that is placed is no more than was
    counted: of the pods listed, and of the reservations no listed pod shows. *)
Lemma counted_enough id n (pods seen : gmap string PodObj) h (vis : gmap string string) :
  (∀ k p, pods !! k = Some p → identity p ≠ Some id) → as_held h seen → (∀ i m r, h !! i = Some (m, r) → nonneg r) →
  (∀ k p, pods !! k = Some p → seen !! k = Some p ∨ unheld h p = false) →
  (∀ i m, vis !! i = Some m → ∃ k p, seen !! k = Some p ∧ identity p = Some i ∧ pod_node p = Some m) →
  msum (unheld_on q n h) pods + msum (held_on q n) (delete id h) ≤
  msum (λ _, counted_pod NAMESPACE id q n) seen +
  msum (λ i x, if bool_decide (x.1 = n) && negb (bool_decide (i = id)) && negb (bool_decide (vis !! i = Some n)) then q x.2 else 0) h.
Proof.
  intros Hno Hm Hn Hsub Hvis.
  set (hid := λ (i : string) (x : string * Requests),
    if bool_decide (x.1 = n) && negb (bool_decide (i = id)) && bool_decide (vis !! i = Some n) then q x.2 else 0).
  set (shown := λ (_ : string) p, if negb (unheld h p) then counted_pod NAMESPACE id q n p else 0).
  set (rest := λ (_ : string) p, if unheld h p then counted_pod NAMESPACE id q n p else 0).
  assert (∀ p, 0 ≤ counted_pod NAMESPACE id q n p) as Hc.
  { intros p. unfold counted_pod. destruct (_ && _); [apply q_req|lia]. }
  assert (msum (held_on q n) (delete id h) ≤ msum hid h +
    msum (λ i x, if bool_decide (x.1 = n) && negb (bool_decide (i = id)) && negb (bool_decide (vis !! i = Some n)) then q x.2 else 0) h) as Hheld.
  { rewrite <- msum_plus. apply msum_subseteq.
    - intros i [m r] Hi. pose proof (q_nonneg q Hq r (Hn i m r Hi)). unfold hid. simpl. repeat case_match; lia.
    - intros i [m r] [Hne Hi]%lookup_delete_Some. right. split; [done|]. unfold held_on, hid. simpl.
      rewrite (bool_decide_false (i = id)) by congruence. destruct (bool_decide (m = n)), (bool_decide (vis !! i = Some n)); simpl; lia. }
  assert (msum (λ _, counted_pod NAMESPACE id q n) seen = msum rest seen + msum shown seen) as ->.
  { rewrite <- msum_plus. apply msum_ext. intros k p _. unfold rest, shown. destruct (unheld h p); simpl; lia. }
  assert (msum (unheld_on q n h) pods ≤ msum rest seen) as Hrest.
  { apply msum_subseteq; [intros k p _; unfold rest; destruct (unheld h p); [apply Hc|lia]|]. intros k p Hk.
    destruct (Hsub k p Hk) as [Hs|Hu]; [right|left; unfold unheld_on; by rewrite Hu, andb_false_r]. split; [done|].
    unfold unheld_on, rest, counted_pod. rewrite (bool_decide_false (identity p = _)) by by eapply Hno.
    destruct (bool_decide _), (unheld h p); simpl; lia. }
  assert (msum hid h ≤ msum shown seen) as Hhid; [|lia].
  apply (msum_inject (λ i k, ∃ p, seen !! k = Some p ∧ identity p = Some i)).
  - intros k p _. unfold shown. destruct (negb _); [apply Hc|lia].
  - intros i [m r] Hi. unfold hid. simpl. case_bool_decide as Em; [|by left]. case_bool_decide as Ei; [by left|]. case_bool_decide as Ev; [|by left].
    right. subst m. destruct (Hvis i n Ev) as (k & p & Hk & Hp & Hpn). exists k, p. split; [done|]. split; [|by exists p].
    destruct (Hm _ _ _ _ _ Hk Hp Hi) as [_ Hr]. unfold shown, unheld, counted_pod. rewrite Hp, Hi. simpl.
    rewrite Hpn, bool_decide_true, (bool_decide_false (Some i = _)) by congruence. simpl. by rewrite Hr.
  - intros i i' k (p & Hp & Hi) (p' & Hp' & Hi'). congruence.
Qed.

End either.

Lemma requested_nonneg an desktop size r : requested_of IDLE_MEMORY_MB_DESKTOP IDLE_MEMORY_MB_CODE an desktop size = Ok r → nonneg r.
Proof.
  unfold requested_of, mbind, result_bind. repeat case_match; try done. intros [= <-].
  apply plus_nonneg; by eapply resource_requests_nonneg.
Qed.

(** What a reservation found room for. *)
Lemma room_counts an active (seen : gmap string PodObj) id d nodes capacity n c q :
  q = rq_cpu ∨ q = rq_memory → rows_apart d → capacities nodes = Ok cap → an.(an_active) = Ok active → active ≡ₚ (map_to_list seen).*2 →
  room NAMESPACE an nodes id d = Ok capacity → capacity !! n = Some c →
  ∃ a (vis : gmap string string), cap !! n = Some a ∧ (∀ i m, vis !! i = Some m → ∃ k p, seen !! k = Some p ∧ identity p = Some i ∧ pod_node p = Some m) ∧
    q c = q a - msum (λ _, counted_pod NAMESPACE id q n) seen -
      msum (λ i x, if bool_decide (x.1 = n) && negb (bool_decide (i = id)) && negb (bool_decide (vis !! i = Some n)) then q x.2 else 0) (held d).
Proof.
  intros Hq Hd Hcap Ha Hp Hroom Hc. unfold room, mbind, result_bind in Hroom. rewrite Hcap, Ha in Hroom.
  destruct (count_pods _ _ _ _ _) as [[vis c1]|] eqn:E1; [|done]. apply (count_pods_spec NAMESPACE id q Hq) in E1 as [H1 H2].
  apply (count_reservations_spec id q Hq) with (n := n) in Hroom. rewrite Hc, H1 in Hroom.
  destruct (cap !! n) as [a|]; [|done]. injection Hroom as Hroom. exists a, vis. split; [done|]. split.
  - intros i m Hi. destruct (H2 i m Hi) as [Hi'|(p & Hin & Hp1 & Hp2)]; [by rewrite lookup_empty in Hi'|].
    rewrite Hp in Hin. apply list_elem_of_fmap in Hin as ([k p'] & -> & Hin). apply elem_of_map_to_list in Hin. by exists k, p'.
  - rewrite Hroom, reservations_total by done. f_equal. f_equal. rewrite (total_perm _ _ _ Hp), total_values. done.
Qed.

Lemma unheld_insert id x h p : identity p ≠ Some id → unheld (<[id := x]> h) p = unheld h p.
Proof. unfold unheld. destruct (identity p) as [i|]; [|done]. intros Hne. rewrite lookup_insert_ne; [done|congruence]. Qed.

(** The commit of a placement. *)
Lemma placed_reserve an id desktop size active w pods (seen : gmap string PodObj) :
  placed (mkCluster w pods (Some seen)) →
  an.(an_runtime) = Ok rc → an.(an_nodes) = Ok all → an.(an_active) = Ok active → active ≡ₚ (map_to_list seen).*2 →
  (∀ k p, pods !! k = Some p → identity p ≠ Some id) → (∀ r, w.(w_db).(sandboxes) !! id = Some r → is_linux r.(sb_kind) = true) →
  placed (mkCluster (reserve_node an id desktop size w).2 pods None).
Proof.
  intros [H1 H2 H3 H4 H5 H6] Erc Eall Eact Hperm Hno Hlin. simpl in *. destruct (H6 seen eq_refl) as (L1 & L2 & L3).
  destruct (reserve_node an id desktop size w) as [[n|e] w'] eqn:E.
  - destruct (reserve_node_effect _ _ _ _ _ _ _ _ _ _ _ H1 Hlin E)
      as (r & rc' & all' & capacity & c & Er & Erc' & Eall' & Eroom & Ec & Hcov & Hheld & Hids).
    assert (rc' = rc ∧ all' = all) as [-> ->] by (split; congruence). pose proof (requested_nonneg _ _ _ _ Er) as Hr.
    split; simpl; rewrite ?Hheld; [by eapply same_ids_apart|done| | | |done].
    + intros k p i m x Hk Hp. rewrite lookup_insert_ne; [exact (H3 k p i m x Hk Hp)|]. intros ->. by apply (Hno k p).
    + intros i m x. rewrite lookup_insert. case_decide; [by intros [= <- <-]|apply H4].
    + intros q m a Hq Ha. unfold promised.
      assert (msum (unheld_on q m (<[id := (n, r)]> (held (w_db w)))) pods = msum (unheld_on q m (held (w_db w))) pods) as ->.
      { apply msum_ext. intros k p Hk. unfold unheld_on. by rewrite unheld_insert by by eapply Hno. }
      rewrite <- insert_delete_eq, msum_insert by apply lookup_delete_eq. unfold held_on at 1. simpl.
      case_bool_decide as Em.
      * subst m. destruct (room_counts _ _ _ _ _ _ _ _ _ q Hq H1 cap_ok Eact Hperm Eroom Ec) as (a' & vis & Ha' & Hvis & Hqc).
        assert (a' = a) as -> by congruence.
        pose proof (counted_enough q Hq id n pods seen _ vis Hno L2 H4 L3 Hvis). pose proof (q_covers q Hq _ _ Hcov). lia.
      * pose proof (H5 q m a Hq Ha) as Hold. unfold promised in Hold.
        assert (msum (held_on q m) (delete id (held (w_db w))) ≤ msum (held_on q m) (held (w_db w))); [|lia].
        apply msum_subseteq.
        -- intros i [m' x] Hi. unfold held_on. case_bool_decide; [|lia]. apply q_nonneg; [done|by eapply H4].
        -- intros i x [_ Hi]%lookup_delete_Some. by right.
  - assert (w_db w' = w_db w) as Hdb.
    { unfold Placement.reserve_node, of_result in E. apply bind_err_inv in E as [[= _ <-]|(? & ? & [= _ <-] & E)]; [done|]. by eapply session_rollback. }
    split; simpl; rewrite ?Hdb; done.
Qed.

Lemma placed_step s s' : place_step s s' → placed s → placed s'.
Proof.
  intros [w pods|an id desktop size active w pods seen Erc Eall Eact Hperm Hno Hlin|id n w pods
         |k p id n r w pods lk Hk Hp Hh Hn Hr Hno|k w pods lk|w w' pods lk Hsub Hap Hseen] Hs.
  - destruct Hs as [H1 H2 H3 H4 H5 H6]. split; simpl in *; try done. intros seen [= <-]. split_and!; [done..|]. by left.
  - by eapply placed_reserve.
  - destruct Hs as [H1 H2 H3 H4 H5 H6]. simpl in *. destruct (release_effect id n w H1) as [Hheld Hids].
    split; simpl; [by eapply same_ids_apart|done| | | |done]; destruct Hheld as [-> | ->]; try done.
    + intros k p i m x Hk Hp [_ Hi]%lookup_delete_Some. by eapply H3.
    + intros i m x [_ Hi]%lookup_delete_Some. by eapply H4.
    + intros q m a Hq Ha. etrans; [by apply promised_release|by apply H5].
  - destruct Hs as [H1 H2 H3 H4 H5 H6]. simpl in *. assert (req p = r) as Hreq by (unfold req; by rewrite Hr).
    assert (unheld (held (w_db w)) p = false) as Hu by (unfold unheld; by rewrite Hp, Hh).
    split; simpl; try done.
    + intros k1 k2 p1 p2 i. rewrite !lookup_insert. repeat case_decide; subst; [done|..]; try (intros [= <-]); intros.
      * exfalso. eapply Hno; [done|congruence].
      * intros. simplify_eq. exfalso. eapply Hno; [done|congruence].
      * by eapply H2.
    + intros k1 p1 i m x. rewrite lookup_insert. case_decide; [|apply H3]. intros [= <-] Hi Hx. rewrite Hp in Hi. injection Hi as <-. rewrite Hh in Hx. by injection Hx as <- <-.
    + intros q m a Hq Ha. unfold promised. rewrite msum_insert by done. unfold unheld_on at 1. rewrite Hu, andb_false_r. by apply H5.
    + intros seen Hlk. destruct (H6 seen Hlk) as (L1 & L2 & L3). split_and!; [done..|]. intros k1 p1. rewrite lookup_insert.
      case_decide; [intros [= <-]; by right|apply L3].
  - destruct Hs as [H1 H2 H3 H4 H5 H6]. simpl in *. split; simpl; try done.
    + intros k1 k2 p1 p2 i [_ ?]%lookup_delete_Some [_ ?]%lookup_delete_Some. by eapply H2.
    + intros k1 p1 i m x [_ ?]%lookup_delete_Some. by eapply H3.
    + intros q m a Hq Ha. etrans; [|by apply (H5 q m a)]. unfold promised. apply Z.add_le_mono_r. apply msum_subseteq.
      * intros j p _. unfold unheld_on. destruct (_ && _); [by apply q_req|lia].
      * intros j p [_ ?]%lookup_delete_Some. by right.
    + intros seen Hlk. destruct (H6 seen Hlk) as (L1 & L2 & L3). split_and!; [done..|]. intros k1 p1 [_ ?]%lookup_delete_Some. by apply L3.
  - destruct Hs as [H1 H2 H3 H4 H5 H6]. split; simpl in *; [done|done|by eapply as_held_subseteq| | |].
    + intros i n r Hi. eapply H4. by eapply lookup_weaken.
    + intros q n a Hq Ha. etrans; [by eapply promised_drop|by apply H5].
    + intros seen Hlk. destruct (H6 seen Hlk) as (L1 & L2 & L3). split_and!; [done|by eapply as_held_subseteq|]. intros k p Hk.
      destruct (L3 k p Hk) as [|Hu]; [by left|]. unfold unheld in *. destruct (identity p) as [i|] eqn:Ei; [|done].
      destruct (held (w_db w') !! i) eqn:E'; [by right|left]. eapply Hseen; [done..| |done].
      destruct (held (w_db w) !! i); [by eexists|done].
Qed.

(** Nothing is being placed, and what runs fits. *)
Definition at_rest (s : Cluster) : Prop :=
  rows_apart s.(k_world).(w_db) ∧ held s.(k_world).(w_db) = ∅ ∧ s.(k_lock) = None ∧ one_pod s.(k_pods) ∧
  ∀ n a, cap !! n = Some a → used rq_cpu n s.(k_pods) ≤ rq_cpu a ∧ used rq_memory n s.(k_pods) ≤ rq_memory a.

Lemma at_rest_placed s : at_rest s → placed s.
Proof.
  intros (H1 & H2 & H3 & H4 & H5). split; rewrite ?H2; [done|done| | | |by rewrite H3].
  - intros k p i n r _ _. by rewrite lookup_empty.
  - intros i n r. by rewrite lookup_empty.
  - intros q n a Hq Ha. unfold promised. rewrite msum_empty, Z.add_0_r. 
    assert (used q n (k_pods s) ≤ q a) as Hu by (destruct (H5 n a Ha), Hq as [-> | ->]; done).
    etrans; [|exact Hu]. apply Z.eq_le_incl, msum_ext. intros k p _. unfold unheld_on, unheld.
    destruct (identity p); rewrite ?lookup_empty; simpl; by rewrite andb_true_r.
Qed.

(** C16: Nodes are not overcommitted, as long as a pod starts only while its sandbox has its
    reservation.  However placements, releases, starting and ending pods interleave, and
    whatever reservations the rest of the program drops (it makes none, and drops none from
    under a placement in progress that has not listed their pods), the pods on a node request no more CPU and no
    more memory than it has, if what runs there at first does not.  A sandbox that is marked
    deleting while it boots has lost its reservation and starts its pod all the same (Example
    deleting_overcommits). *)
Theorem never_overcommitted s s' n a :
  at_rest s → rtc place_step s s' → cap !! n = Some a →
  used rq_cpu n s'.(k_pods) ≤ rq_cpu a ∧ used rq_memory n s'.(k_pods) ≤ rq_memory a.
Proof.
  intros Hs%at_rest_placed Hsteps Ha. assert (placed s') as [H1 H2 H3 H4 H5 H6].
  { revert Hs. induction Hsteps as [|x y z Hxy _ IH]; [done|]. intros Hx. by apply IH, (placed_step x). }
  split; (etrans; [eapply used_promised; eauto|apply H5; auto]).
Qed.
End overcommit.

(** ** Witnesses *)

Definition demo_row (id : string) (st : status) : Sandbox :=
  mkSandbox id "w1" "v1" "u1" "one" st "kube" None None "{}" [("home_claim", JStr (claim_name id))] None None None None 0 0 None None
    Desktop None None None None 2%Q 2048 None None None None.
Definition demo_nodes_of (memory : string) : list NodeObj :=
  [mkNodeObj "n1" [] [mkCondition "Ready" "True" None None] [] false "4" memory []].
Definition demo_class : RuntimeClass := mkRuntimeClass [] [] [("cpu", "250m"); ("memory", "160Mi")].
Definition demo_answers_of (memory : string) (active : list PodObj) : Answers :=
  mkAnswers (Ok demo_class) (λ _, Ok None) (λ _, Err (KubeError 404 [])) (Ok (demo_nodes_of memory)) (Ok active).
Definition demo_rows (rows : list (string * Sandbox)) : World := mkWorld (set_sandboxes (list_to_map rows) empty_db) 7 ∅ ∅ ∅ [].
Abbreviation demo_reserve memory active id := (reserve_node "zoo" 700 250 (λ _, None) (demo_answers_of memory active) id true (mkSize 2 2048 None)).
Definition demo_spec (n : string) : PodSpec :=
  mkPodSpec (Some n) (Some "kata") None [] [mkContainerSpec CONTAINER "img" [] [] [("cpu", "100m"); ("memory", "700Mi")] [] None false []]
    [] [("cpu", "250m"); ("memory", "160Mi")] [] [].
Definition demo_pod (id n : string) : PodObj :=
  mkPodObj (Some "zoo") (pod_name id) [("zoo.dev/sandbox", id)] false (demo_spec n) (Some "Pending") [] [] [] "" [] None None.

Definition demo_w0 : World := demo_rows [("a", demo_row "a" Provisioning); ("b", demo_row "b" Provisioning)].
Definition demo_w1 : World := (demo_reserve "1Gi" [] "a" demo_w0).2.

(** A node has room for one of two; the other is refused while the first boots,
    and as long as its pod runs. *)
Example second_refused :
  (demo_reserve "1Gi" [] "a" demo_w0).1 = Ok "n1" ∧
  (demo_reserve "1Gi" [] "b" demo_w1).1 = Err (ZooError "unavailable" [Txt "no eligible node has capacity for this sandbox"]) ∧
  (demo_reserve "1Gi" [demo_pod "a" "n1"] "b" (release_node_reservation "a" "n1" demo_w1).2).1 =
    Err (ZooError "unavailable" [Txt "no eligible node has capacity for this sandbox"]) ∧
  (demo_reserve "2Gi" [] "b" demo_w1).1 = Ok "n1".
Proof. by vm_compute. Qed.

(** A sandbox that is deleted while it boots no longer counts, but its boot goes on
    and starts the pod: the node then runs both. *)
Example deleting_overcommits :
  let deleting := put_db (set_sandboxes (alter (sb_set_status Deleting) "a" demo_w1.(w_db).(sandboxes)) demo_w1.(w_db)) demo_w1 in
  (demo_reserve "1Gi" [] "b" deleting).1 = Ok "n1".
Proof. by vm_compute. Qed.

Lemma never_overcommitted_witness :
  used rq_memory "n1" {["a" := demo_pod "a" "n1"]} ≤ 2 ^ 30.
Proof.
  assert (capacities (nodes_for_sandboxes demo_class (demo_nodes_of "1Gi")) = Ok {["n1" := mkRequests 4000 (2 ^ 30)]}) as Hcap by by vm_compute.
  assert (held demo_w0.(w_db) = ∅) as H0 by by vm_compute.
  assert (held demo_w1.(w_db) !! "a" = Some ("n1", mkRequests 350 901775360)) as H1 by by vm_compute.
  refine (proj2 (never_overcommitted "zoo" 700 250 (λ _, None) demo_class (demo_nodes_of "1Gi") {["n1" := mkRequests 4000 (2 ^ 30)]} Hcap
    (mkCluster demo_w0 ∅ None) (mkCluster (release_node_reservation "a" "n1" demo_w1).2 {["a" := demo_pod "a" "n1"]} None) "n1" (mkRequests 4000 (2 ^ 30)) _ _ _)).
  - split_and!; [|done|done|intros k k' p p' i Hk; simpl in Hk; by rewrite lookup_empty in Hk|].
    + intros i. right. exact (lookup_empty i).
    + intros n a [<- <-]%lookup_singleton_Some. split; by vm_compute.
  - eapply rtc_l; [apply pl_lock|]. apply (rtc_l _ _ (mkCluster demo_w1 ∅ None)).
    + refine (pl_reserve "zoo" 700 250 (λ _, None) demo_class (demo_nodes_of "1Gi") (demo_answers_of "1Gi" []) "a" true (mkSize 2 2048 None) [] demo_w0 ∅ ∅ eq_refl eq_refl eq_refl _ _ _).
      * by rewrite map_to_list_empty.
      * intros k p Hk. by rewrite lookup_empty in Hk.
      * intros r Hr. vm_compute in Hr. by injection Hr as <-.
    + apply (rtc_l _ _ (mkCluster demo_w1 {["a" := demo_pod "a" "n1"]} None)); [|apply rtc_once, pl_release].
      refine (pl_start "zoo" 700 250 (λ _, None) demo_class (demo_nodes_of "1Gi") "a" (demo_pod "a" "n1") "a" "n1" (mkRequests 350 901775360) demo_w1 ∅ None (lookup_empty _) eq_refl H1 eq_refl _ _); [by vm_compute|].
      intros k p Hk. by rewrite lookup_empty in Hk.
  - apply lookup_singleton_eq.
Defined.
