(* ===== verification/Homes.v ===== *)
(** Home volumes of Kubernetes sandboxes (src/apps/server/kube.py): claims, the
    spare ones, moving a home to another node, snapshots, and starting a pod on its
    home. *)

From Stdlib Require Import SpecFloat.
From S2P Require Import Prelude Tables Store Labels Quotas Codec Kms Security Platforms Pool Regex Rules Kube Placement.

(** ** Statements *)

Definition has_key (k : string) (config : list (string * json)) : bool := dhas k config.

(** Source: src/db/generated/query.py:149-161 [CLAIM_SANDBOX_SPARE_HOME]. *)
Definition claim_sandbox_spare_home (spare_claim sandbox_id home_claim node_name : string) : M World (option Sandbox) :=
  update_sandbox_where (λ r, says "home_claim" home_claim r.(sb_config) && says "node_name" node_name r.(sb_config) &&
      has_key "node_reservation" r.(sb_config) && negb (has_key "previous_home_claim" r.(sb_config)) && is_none r.(sb_runtime_id) &&
      negb (ended r.(sb_status)))
    (λ r, sb_set_config (dset "home_claim" (JStr spare_claim) r.(sb_config)) r) sandbox_id.

(** Source: src/db/generated/query.py:134-146 [CLAIM_POOL_SPARE_HOME]. *)
Definition claim_pool_spare_home (spare_claim sandbox_id home_claim node_name : string) : M World (option PoolSandbox) :=
  update_pool_where (λ r, says "home_claim" home_claim r.(ps_config) && says "node_name" node_name r.(ps_config) &&
      has_key "node_reservation" r.(ps_config) && negb (has_key "previous_home_claim" r.(ps_config)) && is_none r.(ps_runtime_id) &&
      bool_decide (r.(ps_status) = PBooting))
    (λ r, ps_set_config (dset "home_claim" (JStr spare_claim) r.(ps_config)) r) sandbox_id.

(** Source: src/db/generated/query.py:194-202 [CLEAR_PREVIOUS_HOME_CLAIM]. *)
Definition clear_previous_home_claim (sandbox_id home_claim previous_home_claim : string) : M World (option Sandbox) :=
  update_sandbox_where (λ r, says "home_claim" home_claim r.(sb_config) && says "previous_home_claim" previous_home_claim r.(sb_config))
    (λ r, sb_set_config (dpop "previous_home_claim" r.(sb_config)) r) sandbox_id.

(** Source: src/db/generated/query.py:2311-2326 [SWITCH_SANDBOX_HOME_CLAIM]. *)
Definition switch_sandbox_home_claim (target_claim node_name source_claim sandbox_id : string) : M World (option Sandbox) :=
  update_sandbox_where (λ r, bool_decide (r.(sb_status) = Stopped) && is_none r.(sb_runtime_id) && says "home_claim" source_claim r.(sb_config) &&
      negb (has_key "previous_home_claim" r.(sb_config)) && negb (has_key "node_reservation" r.(sb_config)))
    (λ r, sb_set_config (dset "previous_home_claim" (JStr source_claim) (dset "node_name" (JStr node_name) (dset "home_claim" (JStr target_claim) r.(sb_config)))) r)
    sandbox_id.

(** Source: src/db/generated/query.py:1427-1432 [LIST_KUBE_HOME_CLAIMS]. *)
Definition list_kube_home_claims (d : Db) : list (string * list (string * json)) :=
  omap (λ p : string * Sandbox, if is_linux p.2.(sb_kind) then Some (p.1, p.2.(sb_config)) else None) (map_to_list d.(sandboxes)) ++
  ((λ p : string * PoolSandbox, (p.1, p.2.(ps_config))) <$> map_to_list d.(pool_sandboxes)).

(** ** The cluster, by what it answers

    Every request is logged with the tables at its time; what it is answered may
    depend on all requests so far, so that nothing is assumed of the cluster. *)

Inductive Call :=
| GetClaim (name : string) | ListSpares | PostClaim (c : ClaimObj)
| PatchClaim (name version : string) (labels annotations : list (string * string)) | DeleteClaim (name : string)
| ListPods | GetPod (name : string) | PostPod (p : PodObj) (on_node : string) | DeletePod (name : string)
| GetStorageClass | GetVolume (name : string) | GetNode (name : string) | ListNodes | GetRuntimeClass
| GetSnapshotClass | PostSnapshot (name claim : string) | GetSnapshot (name : string) | DeleteSnapshot (name : string)
| Run (pod script : string) | WriteUrls (pod method : string) (keys : list string) | ListKeys (prefix : string) | DeletePrefix (prefix : string).

Definition History := list (Call * Db).

(** What a request is answered may depend on all requests so far, itself the last;
    [ap_commit] says of a commit that its answer is lost, with the error, and whether
    it took effect.

    The state of a CSI snapshot: its error, whether it is ready, and its size. *)
Record SnapshotStatus := mkSnapshotStatus { ss_error : option string; ss_ready : bool; ss_size : option string }.

Record Api := mkApi {
  ap_claim : History → string → result exn ClaimObj;
  ap_claims : History → result exn (list ClaimObj);
  ap_pods : History → result exn (list PodObj);
  ap_pod : History → string → result exn PodObj;
  ap_binding_mode : History → result exn (option string);
  ap_volume : History → string → result exn VolumeObj;
  ap_node : History → string → result exn NodeObj;
  ap_nodes : History → result exn (list NodeObj);
  ap_active : History → result exn (list PodObj);
  ap_runtime_class : History → result exn RuntimeClass;
  ap_deletion_policy : History → result exn (option string);
  ap_snapshot : History → string → result exn SnapshotStatus;
  ap_run : History → result exn (Z * string * string);
  ap_commit : History → option (exn * bool);
  ap_keys : History → result exn (list string);
  ap_done : History → result exn unit
}.

Record Homes := mkHomes { h_world : World; h_calls : History }.

Definition ask {A} (c : Call) (answer : History → result exn A) : M Homes A := λ s,
  let h := (c, s.(h_world).(w_db)) :: s.(h_calls) in (answer h, mkHomes s.(h_world) h).
Definition in_world {A} (m : M World A) : M Homes A := λ s, let '(r, w) := m s.(h_world) in (r, mkHomes w s.(h_calls)).
(** A transaction: the requests made in it stay made when it rolls back. *)
Definition h_session {A} (m : M Homes A) : M Homes A :=
  transaction (λ s, s.(h_world).(w_db)) (λ d s, mkHomes (put_db d s.(h_world)) s.(h_calls)) m.

(** [with contextlib.suppress(NotFound): m] *)
Definition suppress_not_found (m : M Homes unit) : M Homes unit :=
  try_ m (λ e, match e with KubeError 404 _ => mret tt | e => raise e end).
(** [api.exists]: [None] where a GET says 404. *)
Definition exists_ {A} (m : M Homes A) : M Homes (option A) :=
  try_ (x ← m; mret (Some x)) (λ e, match e with KubeError 404 _ => mret None | e => raise e end).

(** A label of spare claims, and an annotation with the node's name. *)
Definition SPARE_NODE : string := "zoo.dev/spare-node".
Definition COMPONENT : string := "app.kubernetes.io/component".
Definition LABELS : list (string * string) := [("app.kubernetes.io/managed-by", "zoo"); ("app.kubernetes.io/part-of", "zoo")].

(** The names of claims that a config holds. *)
Definition claim_names (config : list (string * json)) : list string :=
  omap (λ k, text_of_config k config) ["home_claim"; "previous_home_claim"].

(** The regular expression of a claim's name. *)
Definition lower_alnum (c : ascii) : bool := in_range "a" "z" c || in_range "0" "9" c.
Definition name_inner (c : ascii) : bool := lower_alnum c || bool_decide (c = "-"%char).
Definition name_label : re := Cat (Cls lower_alnum) (opt (Cat (Star (Cls name_inner)) (Cls lower_alnum))).
Definition CLAIM_NAME : re := Cat name_label (Star (Cat (chr ".") name_label)).

Section homes.
Context (api : Api).
(** Settings, the label of a node (its SHA-256), and how often the clock lets a
    wait ask. *)
Context (NAMESPACE STORAGE_CLASS HOME_SIZE SNAPSHOT_CLASS : string) (SPARE_VOLUMES : Z) (HELPER_IMAGE PULL_SECRET UPLOAD_HOME DOWNLOAD_HOME : string).
Context (spare_node_label : string → string) (polls : nat) (int_of : string → option Z).
Context (IDLE_MEMORY_MB_DESKTOP IDLE_MEMORY_MB_CODE : Z).

(** ** Configs *)

Definition sandbox_not_found {A} : M Homes A := raise (ZooError "sandbox_not_found" [Txt "sandbox not found"]).

(** Source: src/apps/server/kube.py:100-116 [home_config]. *)
Definition home_config (sandbox_id : string) : M Homes (list (string * json)) :=
  h_session (
    d ← in_world (query id);
    match owner_of sandbox_id d with
    | None => sandbox_not_found
    | Some owner =>
        let config := match owner with OSandbox r => r.(sb_config) | OPool r => dmerge [("image", JStr r.(ps_image))] r.(ps_config) end in
        guard_ (negb (is_none (text_of_config "home_claim" config))) (ZooError "unavailable" [Txt "sandbox has no home claim configured"]);;
        mret config
    end).

(** Source: src/apps/server/kube.py:119-120 [home_claim]. *)
Definition home_claim (sandbox_id : string) : M Homes string :=
  config ← home_config sandbox_id;
  match text_of_config "home_claim" config with Some c => mret c | None => raise (KeyError "home_claim") end.

Definition invalid_claims : exn := ZooError "conflict" [Txt "invalid home claim config"].
Definition valid_claim (j : option json) : option string :=
  match j with
  | Some (JStr v) => if (Z.of_nat (String.length v) <=? 253) && accepts CLAIM_NAME v then Some v else None
  | _ => None
  end.

(** Source: src/apps/server/kube.py:883-897 [validated_home_claims]. *)
Definition validated_home_claims (config : list (string * json)) : result exn (list string) :=
  match valid_claim (dget "home_claim" config) with
  | None => Err invalid_claims
  | Some home =>
      if has_key "previous_home_claim" config then
        match valid_claim (dget "previous_home_claim" config) with
        | Some previous => if bool_decide (previous = home) then Err invalid_claims else Ok [previous; home]
        | None => Err invalid_claims
        end
      else Ok [home]
  end.

(** ** Waiting and deleting *)

(** Source: src/apps/server/kube.py:1264-1269 [gone].  [n] is how often it may ask
    before the deadline. *)
Fixpoint gone (n : nat) (exists_now : M Homes bool) : M Homes unit :=
  there ← exists_now;
  if there : bool then match n with O => raise (RuntimeError [Txt "it is still there"]) | S n => gone n exists_now end
  else mret tt.

Definition claim_exists (name : string) : M Homes (option ClaimObj) := exists_ (ask (GetClaim name) (λ h, api.(ap_claim) h name)).

(** Source: src/apps/server/kube.py:1257-1261 [delete_claim]. *)
Definition delete_claim (name : string) (wait : bool) : M Homes unit :=
  suppress_not_found (ask (DeleteClaim name) api.(ap_done));;
  when wait (gone polls (c ← claim_exists name; mret (negb (is_none c)))).

(** Source: src/apps/server/kube.py:994-996 [existing_pod]. *)
Definition existing_pod (name : string) : M Homes (option PodObj) := exists_ (ask (GetPod name) (λ h, api.(ap_pod) h name)).

(** Source: src/apps/server/kube.py:1272-1276 [delete_pod]. *)
Definition delete_pod (name : string) : M Homes unit :=
  suppress_not_found (ask (DeletePod name) api.(ap_done));;
  gone polls (p ← existing_pod name; mret (negb (is_none p))).

(** Reasons for waiting that do not end by themselves. *)
Definition STUCK : list string := ["ErrImagePull"; "ImagePullBackOff"; "InvalidImageName"; "CreateContainerConfigError"; "CreateContainerError"].
Fixpoint contains (needle s : string) : bool :=
  startswith s needle || match s with String _ s => contains needle s | EmptyString => false end.

(** What [wait_running] makes of one look at the pod. *)
Inductive verdict := Up | Down (e : exn) | Again.
Definition pod_verdict (name : string) (p : PodObj) : verdict :=
  let problem := pod_problem p in
  if bool_decide (p.(po_phase) ∈ [Some "Succeeded"; Some "Failed"]) then
    Down (RuntimeError [Txt "pod "; Txt name; Txt " stopped: "; Txt (or_else problem (default "" p.(po_phase)))])
  else if bool_decide (p.(po_phase) = Some "Running") && forallb st_running p.(po_statuses) then Up
  else if existsb (λ r, contains r problem) STUCK then Down (RuntimeError [Txt "pod "; Txt name; Txt " can't start: "; Txt problem])
  else Again.

(** Source: src/apps/server/kube.py:1279-1299 [wait_running]. *)
Fixpoint wait_running (n : nat) (name last : string) : M Homes PodObj :=
  p ← ask (GetPod name) (λ h, api.(ap_pod) h name);
  match pod_verdict name p with
  | Up => mret p
  | Down e => raise e
  | Again =>
      let last := or_else (pod_problem p) last in
      match n with
      | O => raise (RuntimeError ([Txt "pod "; Txt name; Txt " didn't start"] ++ (if bool_decide (last = "") then [] else [Txt ": "; Txt last])))
      | S n => wait_running n name last
      end
  end.

(** ** Claims *)

(** Source: src/apps/server/kube.py:1439-1462 [bound_claim]. *)
Definition bound_claim (name node_name : string) : M Homes ClaimObj :=
  claim ← ask (GetClaim name) (λ h, api.(ap_claim) h name);
  guard_ (bool_decide (claim.(cm_phase) = Some "Bound") && negb (bool_decide (claim.(cm_volume_name) = "")))
    (ZooError "unavailable" [Txt "sandbox home claim is not bound"]);;
  guard_ (match selected_node claim with Some s => bool_decide (s = node_name) | None => true end)
    (ZooError "conflict" [Txt "home claim is bound to another node"]);;
  volume ← ask (GetVolume claim.(cm_volume_name)) (λ h, api.(ap_volume) h claim.(cm_volume_name));
  node ← ask (GetNode node_name) (λ h, api.(ap_node) h node_name);
  fits ← of_result (node_affinity_matches int_of node volume.(vo_required));
  guard_ fits (ZooError "conflict" [Txt "home volume affinity excludes the selected node"]);;
  mret claim.

(** Source: src/apps/server/kube.py:1465-1485 [wait_bound]. *)
Fixpoint wait_bound (n : nat) (name node_name : string) : M Homes ClaimObj :=
  claim ← ask (GetClaim name) (λ h, api.(ap_claim) h name);
  if bool_decide (claim.(cm_phase) = Some "Bound") then bound_claim name node_name
  else if bool_decide (claim.(cm_phase) = Some "Lost") || claim.(cm_deleting) || negb (bool_decide (dget SELECTED_NODE claim.(cm_annotations) = Some node_name))
  then raise (ZooError "unavailable" [Txt "home claim lost its selected-node binding"])
  else match n with
       | O => raise (ZooError "timeout" [Txt "home claim did not bind on the selected node"])
       | S n => wait_bound n name node_name
       end.

Definition new_claim (name component storage node : string) (source : option string) : ClaimObj :=
  mkClaimObj name (LABELS ++ [(COMPONENT, component)]) (if bool_decide (node = "") then [] else [(SELECTED_NODE, node)]) false "" "" source None
    (Some STORAGE_CLASS) ["ReadWriteOnce"] None (Some storage) None.

(** Source: src/apps/server/kube.py:1011-1056 [ensure_claim].  A claim made meanwhile (409) is
    looked at again, [n] times. *)
Fixpoint ensure_claim (n : nat) (name : string) (source : option string) (storage node : string) : M Homes unit :=
  guard_ (negb (bool_decide (STORAGE_CLASS = ""))) (ZooError "unavailable" [Txt "Kubernetes home volumes require a StorageClass"]);;
  existing ← claim_exists name;
  match existing with
  | Some c =>
      guard_ (negb c.(cm_deleting)) (ZooError "conflict" [Txt "home claim is being deleted"]);;
      if bool_decide (node = "") then mret tt else
      guard_ (match selected_node c with Some s => bool_decide (s = node) | None => true end)
        (ZooError "conflict" [Txt "home claim has a different selected node"]);;
      if bool_decide (c.(cm_phase) = Some "Bound") then bound_claim name node;; mret tt
      else when (is_none (selected_node c)) (ask (PatchClaim name c.(cm_resource_version) [] [(SELECTED_NODE, node)]) api.(ap_done))
  | None =>
      try_ (ask (PostClaim (new_claim name "home" storage node source)) api.(ap_done))
        (λ e, match e with
              | KubeError 409 _ => match n with O => raise e | S n => ensure_claim n name source storage node end
              | e => raise e
              end)
  end.

(** ** Spare claims *)

Definition storage_of (disk_gb : option Z) : string :=
  match disk_gb with Some g => if g =? 0 then HOME_SIZE else pretty g +:+ "Gi" | None => HOME_SIZE end.
Definition same_quantity (a b : option string) : result exn bool :=
  x ← quantity a; y ← quantity b; Ok (SFeqb x y).

(** Source: src/apps/server/kube.py:1059-1070 [spare_storage_check]. *)
Definition spare_storage_check : M Homes unit :=
  bad ← (if SPARE_VOLUMES <? 0 then mret true else of_result (q ← quantity (Some HOME_SIZE); Ok (SFleb q fzero)));
  guard_ (negb bad) (ZooError "bad_request" [Txt "invalid spare volume settings"]);;
  mode ← ask GetStorageClass api.(ap_binding_mode);
  guard_ (bool_decide (mode = Some "WaitForFirstConsumer")) (ZooError "unavailable" [Txt "spare home claims require WaitForFirstConsumer storage"]).

Definition spare_claim (name node : string) : ClaimObj :=
  mkClaimObj name (LABELS ++ [(COMPONENT, "spare-home"); (SPARE_NODE, spare_node_label node)]) [(SPARE_NODE, node)] false "" "" None None
    (Some STORAGE_CLASS) ["ReadWriteOnce"] None (Some HOME_SIZE) None.

(** Source: src/apps/server/kube.py:1077-1093 [create_spare_claim].  [hex] is what the uuid
    draws. *)
Definition create_spare_claim (node hex : string) : M Homes ClaimObj :=
  let c := spare_claim ("zoo-spare-home-" +:+ hex) node in
  ask (PostClaim c) api.(ap_done);; mret c.

(** Whom each claim belongs to. *)
Fixpoint add_references (id : string) (names : list string) (refs : gmap string string) : result exn (gmap string string) :=
  match names with
  | [] => Ok refs
  | n :: names =>
      match refs !! n with
      | Some other => if bool_decide (other = id) then add_references id names refs else Err (ZooError "conflict" [Txt "home claim has multiple owners"])
      | None => add_references id names (<[n := id]> refs)
      end
  end.
Fixpoint references_of (refs : gmap string string) (rows : list (string * list (string * json))) : result exn (gmap string string) :=
  match rows with
  | [] => Ok refs
  | (id, config) :: rows => refs ← add_references id (claim_names config) refs; references_of refs rows
  end.

Definition mounted_claims (pods : list PodObj) : gset string := list_to_set (omap snd (pods ≫= λ p, p.(po_spec).(s_volumes))).

(** Source: src/apps/server/kube.py:1096-1119 [spare_claim_state]. *)
Definition spare_claim_state : M Homes (list ClaimObj * gmap string string * gset string) :=
  d ← in_world (query id);
  references ← of_result (references_of ∅ (list_kube_home_claims d));
  pods ← ask ListPods api.(ap_pods);
  claims ← ask ListSpares api.(ap_claims);
  mret (claims, references, mounted_claims pods).

(** Source: src/apps/server/kube.py:1122-1144 [available_spare]. *)
Definition available_spare (c : ClaimObj) (node : string) (references : gmap string string) (mounted : gset string) : result exn bool :=
  if is_none (references !! c.(cm_name)) && negb (bool_decide (c.(cm_name) ∈ mounted)) && negb c.(cm_deleting)
     && bool_decide (dget COMPONENT c.(cm_labels) = Some "spare-home") && bool_decide (dget SPARE_NODE c.(cm_labels) = Some (spare_node_label node))
     && bool_decide (dget SPARE_NODE c.(cm_annotations) = Some node) && is_none (str_or_none (dget "zoo.dev/sandbox" c.(cm_labels)))
     && is_none (selected_node c) && bool_decide (c.(cm_volume_name) = "") && is_none c.(cm_data_source) && is_none c.(cm_data_source_ref)
     && bool_decide (c.(cm_storage_class) = Some STORAGE_CLASS) && bool_decide (c.(cm_access_modes) = ["ReadWriteOnce"])
     && bool_decide (default "Filesystem" c.(cm_volume_mode) = "Filesystem") then
    same ← same_quantity c.(cm_storage) (Some HOME_SIZE);
    Ok (same && bool_decide (default "Pending" c.(cm_phase) = "Pending"))
  else Ok false.

(** Source: src/apps/server/kube.py:1147-1176 [own_spare_claim].  Three times at most. *)
Fixpoint own_spare_claim (n : nat) (name sandbox_id node : string) : M Homes unit :=
  match n with
  | O => raise (ZooError "conflict" [Txt "spare claim changed during assignment"])
  | S n =>
      c ← ask (GetClaim name) (λ h, api.(ap_claim) h name);
      let owner := dget "zoo.dev/sandbox" c.(cm_labels) in
      guard_ (negb c.(cm_deleting) && bool_decide (dget SPARE_NODE c.(cm_labels) = Some (spare_node_label node))
              && bool_decide (dget SPARE_NODE c.(cm_annotations) = Some node) && bool_decide (owner ∈ [None; Some sandbox_id]))
        (ZooError "conflict" [Txt "spare claim ownership changed"]);;
      if bool_decide (owner = Some sandbox_id) && bool_decide (dget COMPONENT c.(cm_labels) = Some "home") then mret tt
      else try_ (ask (PatchClaim name c.(cm_resource_version) [(COMPONENT, "home"); ("zoo.dev/sandbox", sandbox_id)] []) api.(ap_done))
             (λ e, match e with KubeError 409 _ => own_spare_claim n name sandbox_id node | e => raise e end)
  end.

(** The first claim that is spare on the node. *)
Fixpoint find_spare (node : string) (references : gmap string string) (mounted : gset string) (l : list ClaimObj) : result exn (option ClaimObj) :=
  match l with
  | [] => Ok None
  | c :: l => b ← available_spare c node references mounted; if b : bool then Ok (Some c) else find_spare node references mounted l
  end.

(** Source: src/apps/server/kube.py:1179-1223 [prepare_home_claim]. *)
Definition prepare_home_claim (sandbox_id node : string) (size : Size) (hex : string) : M Homes string :=
  let storage := storage_of size.(size_disk_gb) in
  prepared ← h_session (
    d ← in_world (query id);
    match owner_of sandbox_id d with
    | None => sandbox_not_found
    | Some owner =>
        match text_of_config "home_claim" (owner_config owner) with
        | None => raise (ZooError "conflict" [Txt "home placement changed"])
        | Some name =>
            guard_ (says "node_name" node (owner_config owner)) (ZooError "conflict" [Txt "home placement changed"]);;
            existing ← claim_exists name;
            match existing with
            | Some c => mret (name, dhas SPARE_NODE c.(cm_labels))
            | None =>
                guard_ (bool_decide (name = claim_name sandbox_id)) (ZooError "unavailable" [Txt "persisted home claim is missing"]);;
                same ← of_result (same_quantity (Some storage) (Some HOME_SIZE));
                if same : bool then
                  spare_storage_check;;
                  st ← spare_claim_state;
                  let '(claims, references, mounted) := st in
                  found ← of_result (find_spare node references mounted claims);
                  candidate ← match found with Some c => mret c | None => create_spare_claim node hex end;
                  updated ← in_world (match owner with
                    | OSandbox _ => o ← claim_sandbox_spare_home candidate.(cm_name) sandbox_id name node; mret (negb (is_none o))
                    | OPool _ => o ← claim_pool_spare_home candidate.(cm_name) sandbox_id name node; mret (negb (is_none o))
                    end);
                  guard_ updated (ZooError "conflict" [Txt "sandbox changed during home assignment"]);;
                  mret (candidate.(cm_name), true)
                else mret (name, false)
            end
        end
    end);
  let '(name, spare) := prepared in
  when spare (own_spare_claim 3 name sandbox_id node);;
  mret name.

(** What [refill_spare_volumes] makes of one claim: it is one of those available on
    a node, or is owned, left or deleted. *)
Definition sort_claim (nodes : list string) (references : gmap string string) (mounted : gset string) (c : ClaimObj)
    : M Homes (option (string * string)) :=
  let node := dget SPARE_NODE c.(cm_annotations) in
  match references !! c.(cm_name) with
  | Some owner =>
      if c.(cm_deleting) then mret None else
      match str_or_none node with
      | None => raise (ZooError "conflict" [Txt "owned spare has no node"])
      | Some node => own_spare_claim 3 c.(cm_name) owner node;; mret None
      end
  | None =>
      if bool_decide (c.(cm_name) ∈ mounted) || c.(cm_deleting) then mret None else
      spare ← match node with
              | Some n => if bool_decide (n ∈ nodes) then of_result (available_spare c n references mounted) else mret false
              | None => mret false
              end;
      match node with
      | Some n => if spare : bool then mret (Some (n, c.(cm_name))) else delete_claim c.(cm_name) false;; mret None
      | None => delete_claim c.(cm_name) false;; mret None
      end
  end.

Fixpoint sort_claims (nodes : list string) (references : gmap string string) (mounted : gset string) (l : list ClaimObj)
    : M Homes (list (string * string)) :=
  match l with
  | [] => mret []
  | c :: l => o ← sort_claim nodes references mounted c; rest ← sort_claims nodes references mounted l; mret (match o with Some x => x :: rest | None => rest end)
  end.

(** [for _ in range(k): create_spare_claim(node)], with the names drawn. *)
Definition create_spares (node : string) (hexes : list string) : M Homes unit :=
  for_ hexes (λ hex, create_spare_claim node hex;; mret tt).

(** Source: src/apps/server/kube.py:1226-1254 [refill_spare_volumes].  [hexes] are the draws
    for each node, as many as are asked for. *)
Definition refill_spare_volumes (hexes : string → nat → list string) : M Homes unit :=
  spare_storage_check;;
  h_session (
    rc ← ask GetRuntimeClass api.(ap_runtime_class);
    all ← ask ListNodes api.(ap_nodes);
    let nodes := unique [] (nb_name <$> nodes_for_sandboxes rc all) in
    st ← spare_claim_state;
    let '(claims, references, mounted) := st in
    available ← sort_claims nodes references mounted claims;
    for_ nodes (λ node,
      let mine := snd <$> filter (λ p, p.1 = node) available in
      for_ (drop (Z.to_nat SPARE_VOLUMES) mine) (λ name, delete_claim name false);;
      create_spares node (hexes node (Z.to_nat SPARE_VOLUMES - length mine)%nat))).

(** ** Cleaning up and removing *)

(** Source: src/apps/server/kube.py:123-144 [_cleanup_previous_home_claim]. *)
Definition cleanup_previous (sandbox : Sandbox) : M Homes (list (string * json)) :=
  let config := sandbox.(sb_config) in
  match text_of_config "home_claim" config with
  | None => raise (ZooError "unavailable" [Txt "sandbox has no home claim configured"])
  | Some current =>
      of_result (validated_home_claims config);;
      if negb (has_key "previous_home_claim" config) then mret config else
      match text_of_config "previous_home_claim" config with
      | None => raise (ZooError "conflict" [Txt "sandbox has an invalid previous home claim"])
      | Some previous =>
          guard_ (negb (bool_decide (previous = current))) (ZooError "conflict" [Txt "sandbox has an invalid previous home claim"]);;
          delete_claim previous true;;
          updated ← in_world (clear_previous_home_claim sandbox.(sb_id) current previous);
          match updated with
          | Some r => mret r.(sb_config)
          | None => raise (ZooError "conflict" [Txt "sandbox home changed during cleanup"])
          end
      end
  end.

(** Source: src/apps/server/kube.py:147-152 [cleanup_previous_home_claim]. *)
Definition cleanup_previous_home_claim (sandbox_id : string) : M Homes (list (string * json)) :=
  h_session (
    found ← in_world (query (get_sandbox sandbox_id));
    match found with Some r => cleanup_previous r | None => sandbox_not_found end).

(** Source: src/apps/server/kube.py:900-903 [remove_home]. *)
Definition remove_home (config : list (string * json)) : M Homes unit :=
  names ← of_result (validated_home_claims config);
  for_ names (λ n, delete_claim n true).

(** Source: src/apps/server/kube.py:869-880 [remove_volume]. *)
Definition remove_volume (sandbox_id : string) : M Homes unit :=
  h_session (
    d ← in_world (query id);
    config ← match owner_of sandbox_id d with
             | Some (OSandbox r) => cleanup_previous r
             | Some (OPool r) => mret r.(ps_config)
             | None => sandbox_not_found
             end;
    remove_home config).

(** ** Helper pods *)

(** [try: m finally: c] *)
Definition finally_ {A} (m : M Homes A) (c : M Homes unit) : M Homes A := a ← try_ m (λ e, c;; raise e); c;; mret a.
Definition observe {A} (m : M Homes A) : M Homes (result exn A) := λ s, let '(r, s) := m s in (Ok r, s).

Definition pull_secrets : list string := if bool_decide (PULL_SECRET = "") then [] else [PULL_SECRET].

(** Source: src/apps/server/kube.py:829-835 [local_server]. *)
Definition local_server (server : option string) : M Homes unit :=
  guard_ (is_none server) (ZooError "not_supported" [Txt "Kubernetes sandboxes do not run on registered servers"]).

(** Source: src/apps/server/kube.py:773-815 [HelperPod.start].  The pod mounts one claim,
    which nothing may write where it is mounted at [/from]. *)
Definition helper_start (name image claim mount label node : string) : M Homes PodObj :=
  ensure_claim polls claim None HOME_SIZE "";;
  c ← ask (GetClaim claim) (λ h, api.(ap_claim) h claim);
  let selected := selected_node c in
  guard_ (match selected with Some s => bool_decide (node = "") || bool_decide (node = s) | None => true end)
    (ZooError "conflict" [Txt "home claim is bound to another node"]);;
  let node := or_else node (default "" selected) in
  let spec := mkPodSpec None (Some "kata") None []
    [mkContainerSpec CONTAINER image ["sleep"; "21600"] [] [] [] None true [("v0", mount)]] [("v0", Some claim)] [] [] pull_secrets in
  ask (PostPod (mkPodObj (Some NAMESPACE) name (LABELS ++ [(COMPONENT, "helper"); ("zoo.dev/snapshot", label)]) false spec None [] [] [] "" [] None None) node)
    api.(ap_done);;
  wait_running polls name "".

(** Source: src/apps/server/kube.py:1763-1769 [helper_image]. *)
Definition helper_image (sandbox_id : string) : M Homes string :=
  if negb (bool_decide (HELPER_IMAGE = "")) then mret HELPER_IMAGE else
  config ← home_config sandbox_id;
  match text_of_config "image" config with
  | Some image => mret image
  | None => raise (ZooError "unavailable" [Txt "sandbox has no helper image configured"])
  end.

Definition last_500 (s : string) : string := String.substring (String.length s - 500) 500 s.

(** Source: src/apps/server/kube.py:1772-1780 [helper_check]. *)
Definition helper_check (pod script : string) : M Homes string :=
  answer ← ask (Run pod script) api.(ap_run);
  let '(code, out, err) := answer in
  let text := last_500 (strip (or_else err out)) in
  guard_ (code =? 0) (ZooError "upstream_error" (if bool_decide (text = "") then [Txt "helper exited with "; Num code] else [Txt text]));;
  mret out.

(** ** Snapshots *)

Definition HOME_PART_BYTES : Z := Z.shiftl 1 30.
(** [{index:04d}] *)
Definition four_digits (index : Z) : string :=
  let s := pretty index in String.substring 0 (4 - String.length s) "0000" +:+ s.
Definition part_key (prefix : string) (index : nat) : string := prefix +:+ "home." +:+ four_digits (Z.of_nat index).

(** [re.fullmatch(r"home\.[0-9]{4}", ...)] *)
Definition digit : re := Cls (in_range "0" "9").
Definition HOME_KEY : re := Cat (chr "h") (Cat (chr "o") (Cat (chr "m") (Cat (chr "e") (Cat (chr ".") (Cat digit (Cat digit (Cat digit digit))))))).

(** Source: src/apps/server/kube.py:1783-1789 [snapshot_class]. *)
Definition snapshot_class : M Homes unit :=
  guard_ (negb (bool_decide (SNAPSHOT_CLASS = ""))) (ZooError "unavailable" [Txt "Kubernetes snapshots require a VolumeSnapshotClass"]).

(** Source: src/apps/server/kube.py:1955-1958 [remove_csi_snapshot]. *)
Definition remove_csi_snapshot (name : string) : M Homes unit :=
  suppress_not_found (ask (DeleteSnapshot name) api.(ap_done));;
  gone polls (o ← exists_ (ask (GetSnapshot name) (λ h, api.(ap_snapshot) h name)); mret (negb (is_none o))).

(** The loop of [csi_snapshot]. *)
Fixpoint wait_snapshot (n : nat) (name : string) : M Homes Z :=
  status ← ask (GetSnapshot name) (λ h, api.(ap_snapshot) h name);
  match str_or_none status.(ss_error) with
  | Some m => remove_csi_snapshot name;; raise (RuntimeError [Txt "the volume snapshot failed: "; Txt m])
  | None =>
      if status.(ss_ready) then of_result (q ← quantity status.(ss_size); int_of_float q) else
      match n with
      | O => remove_csi_snapshot name;; raise (RuntimeError [Txt "the volume snapshot wasn't ready"])
      | S n => wait_snapshot n name
      end
  end.

(** Source: src/apps/server/kube.py:1918-1952 [csi_snapshot]. *)
Definition csi_snapshot (sandbox_id name : string) : M Homes Z :=
  snapshot_class;;
  policy ← ask GetSnapshotClass api.(ap_deletion_policy);
  guard_ (bool_decide (policy = Some "Delete")) (ZooError "unavailable" [Txt "temporary CSI snapshots require deletionPolicy Delete"]);;
  home ← home_claim sandbox_id;
  ask (PostSnapshot name home) api.(ap_done);;
  wait_snapshot polls name.

(** Source: src/apps/server/kube.py:1870-1872 [remove_snapshot]. *)
Definition remove_snapshot (snapshot_id : string) (server : option string) : M Homes unit :=
  local_server server;;
  ask (DeletePrefix (snapshot_prefix snapshot_id)) api.(ap_done).

(** Source: src/apps/server/kube.py:1792-1826 [snapshot].  [temporary] and [reader] are the names
    drawn; the two scripts are not modelled, and what they upload is up to the pod. *)
Definition snapshot (sandbox_id snapshot_id : string) (server : option string) (temporary reader : string) : M Homes Z :=
  local_server server;;
  snapshot_class;;
  home ← home_claim sandbox_id;
  claim ← ask (GetClaim home) (λ h, api.(ap_claim) h home);
  let node := default "" (selected_node claim) in
  let name := snapshot_name snapshot_id in
  try_
    (finally_ (
       storage ← csi_snapshot sandbox_id name;
       asked ← of_result (q ← quantity claim.(cm_storage); int_of_float q);
       let storage := Z.max storage asked in
       finally_ (
         ensure_claim polls temporary (Some name) (pretty storage) node;;
         image ← helper_image sandbox_id;
         finally_ (
           helper_start reader image temporary "/from" snapshot_id node;;
           out ← helper_check reader "du -sb /from | cut -f1";
           size ← match int_of (strip out) with Some z => mret z | None => raise (ValueError [Txt "invalid literal for int() with base 10"]) end;
           remove_snapshot snapshot_id None;;
           let keys := part_key (snapshot_prefix snapshot_id) <$> seq 0 (Z.to_nat (size / HOME_PART_BYTES + 2)) in
           ask (WriteUrls reader "PUT" keys) api.(ap_done);;
           helper_check reader UPLOAD_HOME;;
           mret size) (delete_pod reader))
         (delete_claim temporary true))
       (remove_csi_snapshot name))
    (λ e, remove_snapshot snapshot_id None;; raise e).

(** Source: src/apps/server/kube.py:1847-1867 [restore_claim]. *)
Definition restore_claim (sandbox_id claim snapshot_id node writer : string) : M Homes unit :=
  let prefix := snapshot_prefix snapshot_id in
  all ← ask (ListKeys prefix) api.(ap_keys);
  let keys := merge_sort String.le (filter (λ key, accepts HOME_KEY (drop_chars (String.length prefix) key) = true) all) in
  guard_ (negb (bool_decide (keys = []))) (ZooError "not_found" [Txt "the snapshot is gone from object storage"]);;
  guard_ (bool_decide (keys = part_key prefix <$> seq 0 (length keys))) (ZooError "upstream_error" [Txt "the snapshot is missing home archive parts"]);;
  image ← helper_image sandbox_id;
  finally_ (
    helper_start writer image claim "/to" snapshot_id node;;
    ask (WriteUrls writer "GET" keys) api.(ap_done);;
    helper_check writer DOWNLOAD_HOME;; mret tt)
    (delete_pod writer).

(** Source: src/apps/server/kube.py:1829-1844 [restore_snapshot]. *)
Definition restore_snapshot (sandbox_id snapshot_id : string) (server : option string) (writer : string) : M Homes unit :=
  local_server server;;
  pod ← existing_pod (pod_name sandbox_id);
  guard_ (is_none pod) (ZooError "conflict" [Txt "the sandbox pod must be removed before restoring its home"]);;
  config ← home_config sandbox_id;
  storage ← h_session (
    found ← in_world (query (get_sandbox sandbox_id));
    match found with Some r => mret (storage_of r.(sb_disk_gb)) | None => sandbox_not_found end);
  let claim := default "" (text_of_config "home_claim" config) in
  let node := default "" (text_of_config "node_name" config) in
  ensure_claim polls claim None storage node;;
  restore_claim sandbox_id claim snapshot_id node writer.

(** ** Moving a home to another node *)

(** A transaction whose commit's answer may be lost; the second part says whether
    the block ended, so that the commit was asked for. *)
Definition committing {A} (m : M Homes A) : M Homes (result exn A * bool) := λ s,
  let rollback s' := mkHomes (put_db s.(h_world).(w_db) s'.(h_world)) s'.(h_calls) in
  match m s with
  | (Ok a, s') =>
      match api.(ap_commit) s'.(h_calls) with
      | None => (Ok (Ok a, true), s')
      | Some (e, applied) => (Ok (Err e, true), if applied : bool then s' else rollback s')
      end
  | (Err e, s') => (Ok (Err e, false), rollback s')
  end.

(** Source: src/apps/server/kube.py:1897-1911 [move_volume].  The row's switch to the target; with the
    outcome comes whether the target has to be kept. *)
Definition switch_home (sandbox_id target node_name source : string) : M Homes (result exn string * bool) :=
  switched ← committing (
    updated ← in_world (switch_sandbox_home_claim target node_name source sandbox_id);
    guard_ (negb (is_none updated)) (ZooError "conflict" [Txt "sandbox placement or status changed during the move"]));
  let '(outcome, switching) := switched in
  match outcome with
  | Err e => mret (Err e, switching)
  | Ok _ =>
      cleaned ← observe (cleanup_previous_home_claim sandbox_id);
      mret (match cleaned with Ok _ => Ok target | Err e => Err e end, true)
  end.

(** Source: src/apps/server/kube.py:1875-1915 [move_volume].  [drawn] is the name of the target,
    [uuid] the transfer's. *)
Definition move_volume (sandbox_id node_name : string) (snapshot_id : option string) (uuid drawn temporary reader writer : string) : M Homes string :=
  config ← cleanup_previous_home_claim sandbox_id;
  rc ← ask GetRuntimeClass api.(ap_runtime_class);
  all ← ask ListNodes api.(ap_nodes);
  guard_ (bool_decide (node_name ∈ nb_name <$> nodes_for_sandboxes rc all)) (ZooError "bad_request" [Txt "target node cannot run sandbox pods"]);;
  pod ← existing_pod (pod_name sandbox_id);
  guard_ (is_none pod) (ZooError "conflict" [Txt "the sandbox pod must be removed before moving its home"]);;
  match text_of_config "home_claim" config with
  | None => raise (KeyError "home_claim")
  | Some source =>
      claim ← ask (GetClaim source) (λ h, api.(ap_claim) h source);
      if says "node_name" node_name config && bool_decide (dget SELECTED_NODE claim.(cm_annotations) = Some node_name) then mret source else
      match claim.(cm_storage) with
      | None => raise (KeyError "storage")
      | Some storage =>
          let transfer := default uuid (str_or_none snapshot_id) in
          let target := "zoo-home-" +:+ sandbox_id +:+ "-" +:+ drawn in
          copied ← observe (
            snapshot sandbox_id transfer None temporary reader;;
            ensure_claim polls target None storage node_name;;
            restore_claim sandbox_id target transfer node_name writer);
          moved ← match copied with
            | Err e => mret (Err e, false)
            | Ok _ => switch_home sandbox_id target node_name source
            end;
          let '(outcome, keep) := moved in
          when (negb keep) (delete_claim target true);;
          when (is_none snapshot_id) (remove_snapshot transfer None);;
          of_result outcome
      end
  end.

(** ** Starting a sandbox's pod *)

Definition HOME : string := "/home/zoo".
Definition SHM : string := "1Gi".
Definition pod_labels (sandbox_id : string) : list (string * string) := LABELS ++ [(COMPONENT, "sandbox"); ("zoo.dev/sandbox", sandbox_id)].

(** The spec of a sandbox's pod on its node, over its claim. *)
Definition sandbox_spec (image claim node_name : string) (env requested limits : list (string * string)) : PodSpec :=
  mkPodSpec (Some node_name) (Some "kata") (Some "zoo-sandbox")
    [mkContainerSpec "home" image ["sh"; "-c"] [] requested limits None true [("home", "/seed")]]
    [mkContainerSpec CONTAINER image [] env requested limits None false [("home", HOME); ("shm", "/dev/shm")]]
    [("home", Some claim); ("shm", None)] [] [] pull_secrets.

(** Source: src/apps/server/kube.py:1605-1660 [sandbox_pod]. *)
Definition sandbox_pod (name image sandbox_id : string) (env : list (string * string)) (desktop : bool) (size : Size) : M Homes PodObj :=
  config ← home_config sandbox_id;
  match text_of_config "home_claim" config with
  | None => raise (KeyError "home_claim")
  | Some claim =>
      match text_of_config "node_name" config with
      | None => raise (ZooError "unavailable" [Txt "sandbox has no persisted node"])
      | Some node_name =>
          bound_claim claim node_name;;
          requested ← of_result (sandbox_requests IDLE_MEMORY_MB_DESKTOP IDLE_MEMORY_MB_CODE desktop size);
          let limits := [("cpu", cpu_quantity size.(size_cpus)); ("memory", memory_quantity size.(size_memory_mb))] in
          mret (mkPodObj None name (pod_labels sandbox_id) false (sandbox_spec image claim node_name env requested limits)
            None [] [] [] "" [] None None)
      end
  end.

(** What the cluster answers to [reserve_node]. *)
Definition answers (h : History) : Answers :=
  mkAnswers (api.(ap_runtime_class) h)
    (λ n, match api.(ap_claim) h n with Ok c => Ok (Some c) | Err (KubeError 404 _) => Ok None | Err e => Err e end)
    (api.(ap_volume) h) (api.(ap_nodes) h) (api.(ap_active) h).
Definition reserve (sandbox_id : string) (desktop : bool) (size : Size) : M Homes string :=
  s ← get;
  in_world (reserve_node NAMESPACE IDLE_MEMORY_MB_DESKTOP IDLE_MEMORY_MB_CODE int_of (answers s.(h_calls)) sandbox_id desktop size).

(** Whether a pod left by an earlier attempt is the one this attempt would start.
    A pod without the sandbox's container is an error ([StopIteration], here a
    [KeyError]). *)
Definition adoptable (p : PodObj) (sandbox_id image : string) (config : list (string * json)) : result exn bool :=
  match head (filter (λ c, c.(c_name) = CONTAINER) p.(po_spec).(s_containers)) with
  | None => Err (KeyError CONTAINER)
  | Some c =>
      Ok (bool_decide (pod_status p = "running") && bool_decide (dget "zoo.dev/sandbox" p.(po_labels) = Some sandbox_id)
          && bool_decide (c.(c_image) = image) && bool_decide (p.(po_spec).(s_runtime_class) = Some "kata")
          && negb (is_none (text_of_config "node_name" config))
          && existsb (λ v, negb (is_none v.2) && bool_decide (v.2 = text_of_config "home_claim" config)) p.(po_spec).(s_volumes)
          && bool_decide (text_of_config "node_name" config = Some (default "" p.(po_spec).(s_node_name))))
  end.

(** Source: src/apps/server/kube.py:1663-1720 [run_container].  [in_cluster] is whether the server
    runs in the cluster, [hex] the name of a spare claim, if one is made. *)
Definition run_container (in_cluster : bool) (name image sandbox_id : string) (env : list (string * string)) (server : option string)
    (desktop : bool) (size : Size) (hex : string) : M Homes (string * option string) :=
  local_server server;;
  of_result (sandbox_requests IDLE_MEMORY_MB_DESKTOP IDLE_MEMORY_MB_CODE desktop size);;
  guard_ (negb desktop || in_cluster || dhas "ZOO_GUEST_TOKEN" env)
    (ZooError "guest_unavailable" [Txt "desktops outside the cluster require the sandbox's guest"]);;
  config ← home_config sandbox_id;
  found ← existing_pod name;
  kept ← match found with
    | None => mret None
    | Some p =>
        ok ← of_result (adoptable p sandbox_id image config);
        if ok : bool then mret (Some p) else delete_pod name;; mret None
    end;
  pod ← match kept with
    | None =>
        node_name ← reserve sandbox_id desktop size;
        finally_ (
          prepare_home_claim sandbox_id node_name size hex;;
          claim ← home_claim sandbox_id;
          ensure_claim polls claim None (storage_of size.(size_disk_gb)) node_name;;
          wait_bound polls claim node_name;;
          p ← sandbox_pod name image sandbox_id env desktop size;
          ask (PostPod p "") api.(ap_done))
          (in_world (release_node_reservation sandbox_id node_name));;
        wait_running polls name ""
    | Some p =>
        let node := default "" p.(po_spec).(s_node_name) in
        claim ← match text_of_config "home_claim" config with Some c => mret c | None => raise (KeyError "home_claim") end;
        bound_claim claim node;;
        in_world (release_node_reservation sandbox_id node);;
        mret p
    end;
  mret (runtime_id NAMESPACE name, if desktop then Some pod.(po_ip) else None).

Definition pausing (signal rid : string) (verb : string) : M Homes unit :=
  parts ← of_result (parse_id rid);
  let '(_, name) := parts in
  answer ← ask (Run name ("kill -" +:+ signal +:+ " -1")) api.(ap_run);
  let '(code, _, err) := answer in
  guard_ (code =? 0) (RuntimeError [Txt "couldn't "; Txt verb; Txt " "; Txt name; Txt ": "; Txt (strip err)]).
(** Source: src/apps/server/kube.py:1723-1728 [pause]. *)
Definition pause (rid : string) : M Homes unit := pausing "STOP" rid "pause".
(** Source: src/apps/server/kube.py:1731-1735 [resume]. *)
Definition resume (rid : string) : M Homes unit := pausing "CONT" rid "resume".

(** ** What is asked for, and when

    [only P m s]: run at [s], [m] leaves the tables alone, and each request it makes
    is one of [P]. *)

Definition h_db (s : Homes) : Db := s.(h_world).(w_db).
Definition only {A} (P : Call → Prop) (m : M Homes A) (s : Homes) : Prop :=
  h_db (m s).2 = h_db s ∧ ∃ l, (m s).2.(h_calls) = l ++ s.(h_calls) ∧ Forall (λ e : Call * Db, P e.1 ∧ e.2 = h_db s) l.

Section only.
Context (P : Call → Prop).

Lemma only_still {A} (m : M Homes A) s : (m s).2 = s → only P m s.
Proof. intros H. split; rewrite H; [done|]. exists []. by split. Qed.
Lemma only_ret {A} (a : A) s : only P (mret a) s.
Proof. by apply only_still. Qed.
Lemma only_raise {A} e s : only P (raise (A := A) e) s.
Proof. by apply only_still. Qed.
Lemma only_result {A} (r : result exn A) s : only P (of_result r) s.
Proof. by apply only_still. Qed.
Lemma only_guard b e s : only P (guard_ b e) s.
Proof. apply only_still. by destruct b. Qed.
Lemma only_query {A} (f : Db → A) s : only P (in_world (query f)) s.
Proof. apply only_still. by destruct s. Qed.
Lemma only_ask {A} c (f : History → result exn A) s : P c → only P (ask c f) s.
Proof. intros Hc. split; [done|]. exists [(c, h_db s)]. split; [done|]. by repeat constructor. Qed.

Lemma only_bind {A B} (m : M Homes A) (k : A → M Homes B) s :
  only P m s → (∀ a s', m s = (Ok a, s') → h_db s' = h_db s → only P (k a) s') → only P (m ≫= k) s.
Proof.
  intros Hm Hk. destruct (m s) as [[a|e] s1] eqn:E.
  2: { unfold only. rewrite (bind_err m k s e s1 E). unfold only in Hm. by rewrite E in Hm. }
  unfold only in Hm. rewrite E in Hm. cbn in Hm. destruct Hm as (Hd & l & Hl & Hall).
  destruct (Hk a s1 eq_refl Hd) as (Hd2 & l2 & Hl2 & Hall2). unfold only. rewrite (bind_ok m k s a s1 E). split; [congruence|].
  exists (l2 ++ l). split; [by rewrite Hl2, Hl, app_assoc|]. apply Forall_app. split; [|done]. by rewrite <- Hd.
Qed.
Lemma only_try {A} (m : M Homes A) h s :
  only P m s → (∀ e s', h_db s' = h_db s → only P (h e) s') → only P (try_ m h) s.
Proof.
  intros Hm Hh. unfold only, try_ in *. destruct (m s) as [[a|e] s1] eqn:E; [done|].
  destruct Hm as (Hd & l & Hl & Hall). destruct (Hh e s1 Hd) as (Hd2 & l2 & Hl2 & Hall2). cbn in *. split; [congruence|].
  exists (l2 ++ l). split; [by rewrite Hl2, Hl, app_assoc|]. apply Forall_app. split; [|done]. by rewrite <- Hd.
Qed.
Lemma only_observe {A} (m : M Homes A) s : only P m s → only P (observe m) s.
Proof. unfold only, observe. by destruct (m s). Qed.
Lemma only_session {A} (m : M Homes A) s : only P m s → only P (h_session m) s.
Proof.
  unfold only, h_session, transaction. destruct (m s) as [[a|e] s1]; [done|]. intros (_ & l & Hl & Hall). split; [done|]. by exists l.
Qed.
End only.

(** Goes through the code down to its requests. *)
Create HintDb only.
#[local] Hint Resolve only_ret only_raise only_result only_guard only_query : only.
Ltac requests :=
  repeat match goal with
  | |- only _ (_ ≫= _) _ => apply only_bind; [|intros ? ? ? ?]
  | |- only _ (try_ _ _) _ => apply only_try; [|intros ? ? ?]
  | |- only _ (h_session _) _ => apply only_session
  | |- only _ (observe _) _ => apply only_observe
  | |- only _ (ask _ _) _ => apply only_ask
  | |- only _ (when ?b _) _ => destruct b; [unfold when|apply only_ret]
  | |- only _ (if ?b then _ else _) _ => destruct b
  | |- only _ (match ?x with _ => _ end) _ => destruct x
  | |- only _ (let '(_, _) := ?x in _) _ => destruct x
  | |- only _ (finally_ _ _) _ => unfold finally_
  | |- only _ (exists_ _) _ => unfold exists_
  | |- only _ (suppress_not_found _) _ => unfold suppress_not_found
  | |- only _ _ _ => solve [auto with only]
  end.

Section quiet.
Context (P : Call → Prop) (HP : ∀ c, (∀ n, c ≠ DeleteClaim n) → P c).
#[local] Hint Extern 1 (P _) => (by apply HP) : only.
Ltac calls := requests; auto with only.

Lemma only_gone n b s : (∀ s, only P b s) → only P (gone n b) s.
Proof. intros Hb. revert s. induction n as [|n IH]; intros s; cbn [gone]; calls. Qed.
Lemma only_claim_exists name s : only P (claim_exists name) s.
Proof. unfold claim_exists. calls. Qed.
#[local] Hint Resolve only_gone only_claim_exists : only.
Lemma only_delete_claim name b s : P (DeleteClaim name) → only P (delete_claim name b) s.
Proof. intros H. unfold delete_claim. calls. apply only_gone. intros s0. calls. Qed.
Lemma only_existing_pod name s : only P (existing_pod name) s.
Proof. unfold existing_pod. calls. Qed.
#[local] Hint Resolve only_existing_pod only_delete_claim : only.
Lemma only_delete_pod name s : only P (delete_pod name) s.
Proof. unfold delete_pod. calls. apply only_gone. intros s0. calls. Qed.
Lemma only_wait_running n name last s : only P (wait_running n name last) s.
Proof. revert last s. induction n as [|n IH]; intros last s; cbn [wait_running]; calls. Qed.
Lemma only_bound_claim name node s : only P (bound_claim name node) s.
Proof. unfold bound_claim. calls. Qed.
#[local] Hint Resolve only_delete_pod only_wait_running only_bound_claim : only.
Lemma only_wait_bound n name node s : only P (wait_bound n name node) s.
Proof. revert s. induction n as [|n IH]; intros s; cbn [wait_bound]; calls. Qed.
Lemma only_ensure_claim n name source storage node s : only P (ensure_claim n name source storage node) s.
Proof. revert s. induction n as [|n IH]; intros s; cbn [ensure_claim]; calls. Qed.
Lemma only_spare_storage_check s : only P spare_storage_check s.
Proof. unfold spare_storage_check. calls. Qed.
Lemma only_create_spare_claim node hex s : only P (create_spare_claim node hex) s.
Proof. unfold create_spare_claim. calls. Qed.
Lemma only_spare_claim_state s : only P spare_claim_state s.
Proof. unfold spare_claim_state. calls. Qed.
Lemma only_own_spare_claim n name id node s : only P (own_spare_claim n name id node) s.
Proof. revert s. induction n as [|n IH]; intros s; cbn [own_spare_claim]; calls. Qed.
Lemma only_home_config id s : only P (home_config id) s.
Proof. unfold home_config, sandbox_not_found. calls. Qed.
#[local] Hint Resolve only_wait_bound only_ensure_claim only_spare_storage_check only_create_spare_claim only_spare_claim_state
  only_own_spare_claim only_home_config : only.
Lemma only_home_claim id s : only P (home_claim id) s.
Proof. unfold home_claim. calls. Qed.
Lemma only_helper_start name image claim mount label node s : only P (helper_start name image claim mount label node) s.
Proof. unfold helper_start. calls. Qed.
Lemma only_helper_image id s : only P (helper_image id) s.
Proof. unfold helper_image. calls. Qed.
Lemma only_helper_check pod script s : only P (helper_check pod script) s.
Proof. unfold helper_check. calls. Qed.
Lemma only_remove_csi_snapshot name s : only P (remove_csi_snapshot name) s.
Proof. unfold remove_csi_snapshot. calls. apply only_gone. intros s0. calls. Qed.
#[local] Hint Resolve only_home_claim only_helper_start only_helper_image only_helper_check only_remove_csi_snapshot : only.
Lemma only_wait_snapshot n name s : only P (wait_snapshot n name) s.
Proof. revert s. induction n as [|n IH]; intros s; cbn [wait_snapshot]; calls. Qed.
#[local] Hint Resolve only_wait_snapshot : only.
Lemma only_csi_snapshot id name s : only P (csi_snapshot id name) s.
Proof. unfold csi_snapshot, snapshot_class. calls. Qed.
Lemma only_remove_snapshot id server s : only P (remove_snapshot id server) s.
Proof. unfold remove_snapshot, local_server. calls. Qed.
#[local] Hint Resolve only_csi_snapshot only_remove_snapshot : only.
Lemma only_snapshot id sid server temporary reader s : P (DeleteClaim temporary) → only P (snapshot id sid server temporary reader) s.
Proof. intros H. unfold snapshot, local_server, snapshot_class. calls. Qed.
Lemma only_restore_claim id claim sid node writer s : only P (restore_claim id claim sid node writer) s.
Proof. unfold restore_claim. calls. Qed.
#[local] Hint Resolve only_snapshot only_restore_claim : only.
Lemma only_restore_snapshot id sid server writer s : only P (restore_snapshot id sid server writer) s.
Proof. unfold restore_snapshot, local_server, sandbox_not_found. calls. Qed.
Lemma only_sandbox_pod name image id env desktop size s : only P (sandbox_pod name image id env desktop size) s.
Proof. unfold sandbox_pod. calls. Qed.
End quiet.

(** ** Whose claims *)

(** The claims that a row holds: a sandbox's, or with [true] a pool's. *)
Definition claims_of (d : Db) (o : bool * string) : list string :=
  if o.1 then from_option (λ r, claim_names r.(ps_config)) [] (d.(pool_sandboxes) !! o.2)
  else from_option (λ r, claim_names r.(sb_config)) [] (d.(sandboxes) !! o.2).
(** No two rows hold one claim, and only Linux sandboxes hold any. *)
Definition homes_ok (d : Db) : Prop :=
  (∀ x y c, c ∈ claims_of d x → c ∈ claims_of d y → x = y) ∧
  (∀ i r, d.(sandboxes) !! i = Some r → claim_names r.(sb_config) ≠ [] → is_linux r.(sb_kind) = true).
Definition unclaimed (d : Db) (c : string) : Prop := ∀ x, c ∉ claims_of d x.
(** The claim is the home of a sandbox. *)
Definition current (d : Db) (c : string) : Prop :=
  (∃ i r, d.(sandboxes) !! i = Some r ∧ text_of_config "home_claim" r.(sb_config) = Some c) ∨
  (∃ i r, d.(pool_sandboxes) !! i = Some r ∧ text_of_config "home_claim" r.(ps_config) = Some c).

Lemma elem_claim_names c config :
  c ∈ claim_names config ↔ text_of_config "home_claim" config = Some c ∨ text_of_config "previous_home_claim" config = Some c.
Proof. unfold claim_names. rewrite list_elem_of_omap. set_solver. Qed.

Lemma unclaimed_not_current d c : unclaimed d c → ¬ current d c.
Proof.
  intros H [(i & r & Hi & Hc)|(i & r & Hi & Hc)].
  - apply (H (false, i)). unfold claims_of. cbn. rewrite Hi. cbn. apply elem_claim_names. by left.
  - apply (H (true, i)). unfold claims_of. cbn. rewrite Hi. cbn. apply elem_claim_names. by left.
Qed.

Lemma says_text k v config : says k v config = true → dget k config = Some (JStr v).
Proof. unfold says. destruct (dget k config) as [j|]; [|done]. destruct j; try done. by intros ->%bool_decide_eq_true. Qed.
Lemma text_dset k k' v config : v ≠ "" → text_of_config k (dset k' (JStr v) config) = if decide (k = k') then Some v else text_of_config k config.
Proof. intros Hv. unfold text_of_config. rewrite dget_dset. case_decide; [|done]. cbn. by destruct v. Qed.
Lemma text_dset_other k k' j config : k ≠ k' → text_of_config k (dset k' j config) = text_of_config k config.
Proof. intros Hk. unfold text_of_config. rewrite dget_dset. by case_decide. Qed.
Lemma text_dpop k k' config : text_of_config k (dpop k' config) = if decide (k = k') then None else text_of_config k config.
Proof. unfold text_of_config. rewrite dget_dpop. by case_decide. Qed.

(** Rows whose claims are among those before, and some that nothing held. *)
Lemma homes_ok_row d d' x (extra : list string) :
  homes_ok d → (∀ y, y ≠ x → claims_of d' y = claims_of d y) →
  (∀ c, c ∈ claims_of d' x → c ∈ extra ∨ c ∈ claims_of d x) → (∀ c, c ∈ extra → unclaimed d c) →
  (∀ i r, d'.(sandboxes) !! i = Some r → claim_names r.(sb_config) ≠ [] → is_linux r.(sb_kind) = true) →
  homes_ok d'.
Proof.
  intros [Ha Hl] Hsame Hx He Hl'. split; [|done].
  assert (Hone : ∀ y c, y ≠ x → c ∈ claims_of d' y → c ∈ claims_of d' x → False).
  { intros y c Hy Hc Hcx. rewrite Hsame in Hc by done. destruct (Hx c Hcx) as [H|H]; [by apply (He c H y)|]. apply Hy. by eapply Ha. }
  intros y z c Hy Hz. destruct (decide (y = x)) as [->|Hyx], (decide (z = x)) as [->|Hzx]; [done|by exfalso; eauto|by exfalso; eauto|].
  rewrite Hsame in Hy, Hz by done. by eapply Ha.
Qed.

Lemma homes_ok_sandbox d i old r (extra : list string) :
  homes_ok d → d.(sandboxes) !! i = Some old → r.(sb_kind) = old.(sb_kind) →
  (∀ c, c ∈ claim_names r.(sb_config) → c ∈ extra ∨ c ∈ claim_names old.(sb_config)) → (∀ c, c ∈ extra → unclaimed d c) →
  (claim_names old.(sb_config) = [] → claim_names r.(sb_config) = []) →
  homes_ok (set_sandboxes (<[i := r]> d.(sandboxes)) d).
Proof.
  intros Hd Hi Hk Hc He Hn. apply (homes_ok_row d _ (false, i) extra); [done| | |done|].
  - intros [[] j] Hj; [done|]. unfold claims_of. cbn. rewrite lookup_insert_ne; [done|congruence].
  - intros c. unfold claims_of. cbn. rewrite lookup_insert_eq, Hi. cbn. apply Hc.
  - intros j r' Hj Hne. cbn in Hj. destruct (decide (i = j)) as [<-|Hij].
    + rewrite lookup_insert_eq in Hj. injection Hj as <-. rewrite Hk. destruct Hd as [_ Hl]. apply (Hl i old Hi). auto.
    + rewrite lookup_insert_ne in Hj by done. destruct Hd as [_ Hl]. by eapply Hl.
Qed.
Lemma homes_ok_pool d i old r (extra : list string) :
  homes_ok d → d.(pool_sandboxes) !! i = Some old →
  (∀ c, c ∈ claim_names r.(ps_config) → c ∈ extra ∨ c ∈ claim_names old.(ps_config)) → (∀ c, c ∈ extra → unclaimed d c) →
  homes_ok (set_pool_sandboxes (<[i := r]> d.(pool_sandboxes)) d).
Proof.
  intros Hd Hi Hc He. apply (homes_ok_row d _ (true, i) extra); [done| | |done|].
  - intros [[] j] Hj; [|done]. unfold claims_of. cbn. rewrite lookup_insert_ne; [done|congruence].
  - intros c. unfold claims_of. cbn. rewrite lookup_insert_eq, Hi. cbn. apply Hc.
  - intros j r' Hj Hne. destruct Hd as [_ Hl]. by eapply Hl.
Qed.

Lemma text_nonempty k config c : text_of_config k config = Some c → c ≠ "".
Proof. unfold text_of_config. destruct (dget k config) as [j|]; [|done]. destruct j; try done. cbn. by destruct s; intros [= <-]. Qed.
Lemma text_dset_self k v config c : text_of_config k (dset k (JStr v) config) = Some c → c = v.
Proof. unfold text_of_config. rewrite dget_dset_eq. cbn. by destruct v; intros [= <-]. Qed.

Lemma claims_dset_other k j config : k ≠ "home_claim" → k ≠ "previous_home_claim" → claim_names (dset k j config) = claim_names config.
Proof. intros H1 H2. unfold claim_names. cbn. by rewrite !text_dset_other by done. Qed.
Lemma claims_dset k v config c : c ∈ claim_names (dset k (JStr v) config) → c = v ∨ c ∈ claim_names config.
Proof.
  rewrite !elem_claim_names. intros [H|H].
  - destruct (decide (k = "home_claim")) as [->|]; [left; by eapply text_dset_self|]. rewrite text_dset_other in H by done. auto.
  - destruct (decide (k = "previous_home_claim")) as [->|]; [left; by eapply text_dset_self|]. rewrite text_dset_other in H by done. auto.
Qed.
Lemma claims_dpop k config c : c ∈ claim_names (dpop k config) → c ∈ claim_names config.
Proof. rewrite !elem_claim_names, !text_dpop. repeat case_decide; naive_solver. Qed.
Lemma claims_says config c : says "home_claim" c config = true → c ≠ "" → c ∈ claim_names config.
Proof.
  intros H Hc. apply elem_claim_names. left. unfold text_of_config. rewrite (says_text _ _ _ H). cbn. by destruct c.
Qed.
Lemma nil_claims config c : c ∈ claim_names config → claim_names config ≠ [].
Proof. intros H E. rewrite E in H. set_solver. Qed.

(** A statement on the configs of one row keeps [homes_ok]. *)
Definition keeps_homes {A} (m : M World A) (w : World) : Prop := homes_ok w.(w_db) → homes_ok (m w).2.(w_db).
Lemma sandbox_row_keeps (p : Sandbox → bool) f id (extra : list string) w :
  (∀ r, (f r).(sb_kind) = r.(sb_kind)) →
  (∀ r c, p r = true → c ∈ claim_names (f r).(sb_config) → c ∈ extra ∨ c ∈ claim_names r.(sb_config)) →
  (∀ r, p r = true → claim_names r.(sb_config) = [] → claim_names (f r).(sb_config) = []) →
  (∀ c, c ∈ extra → unclaimed w.(w_db) c) → keeps_homes (update_sandbox_where p f id) w.
Proof.
  intros Hk Hf Hn He Hd. destruct (update_sandbox_where p f id w) as [[[r|]|e] w'] eqn:E.
  - destruct (update_sandbox_some p f id w r w' E) as (old & Hi & Hp & -> & ->). cbn.
    apply (homes_ok_sandbox _ id old _ extra); [done|done|apply Hk| |done|].
    + intros c. apply (Hf old c Hp).
    + apply (Hn old Hp).
  - revert E. unfold update_sandbox_where. rewrite (bind_ok get _ w w w eq_refl).
    destruct (sandboxes (w_db w) !! id) as [old|]; [destruct (p old)|]; run; by intros [= <-].
  - revert E. unfold update_sandbox_where. rewrite (bind_ok get _ w w w eq_refl).
    destruct (sandboxes (w_db w) !! id) as [old|]; [destruct (p old)|]; run; by intros [=].
Qed.
Lemma keeps_pool (p : PoolSandbox → bool) f id (extra : list string) w :
  (∀ r c, p r = true → c ∈ claim_names (f r).(ps_config) → c ∈ extra ∨ c ∈ claim_names r.(ps_config)) →
  (∀ c, c ∈ extra → unclaimed w.(w_db) c) → keeps_homes (update_pool_where p f id) w.
Proof.
  intros Hf He Hd. destruct (update_pool_where p f id w) as [[[r|]|e] w'] eqn:E.
  - destruct (update_pool_some p f id w r w' E) as (old & Hi & Hp & -> & ->). cbn.
    apply (homes_ok_pool _ id old _ extra); [done|done| |done]. intros c. apply (Hf old c Hp).
  - revert E. unfold update_pool_where. rewrite (bind_ok get _ w w w eq_refl).
    destruct (pool_sandboxes (w_db w) !! id) as [old|]; [destruct (p old)|]; run; by intros [= <-].
  - revert E. unfold update_pool_where. rewrite (bind_ok get _ w w w eq_refl).
    destruct (pool_sandboxes (w_db w) !! id) as [old|]; [destruct (p old)|]; run; by intros [=].
Qed.

Ltac conjuncts H := repeat (apply andb_prop in H; destruct H as [H ?]).

Lemma keeps_clear_previous id cur prev w : keeps_homes (clear_previous_home_claim id cur prev) w.
Proof.
  apply (sandbox_row_keeps _ _ _ []); [done| | |set_solver].
  - intros r c _ H. right. exact (claims_dpop _ _ _ H).
  - intros r _ H. cbn. apply elem_of_nil_inv. intros c Hc. apply claims_dpop in Hc. rewrite H in Hc. set_solver.
Qed.
Lemma keeps_claim_sandbox spare id home node w :
  unclaimed w.(w_db) spare → home ≠ "" → keeps_homes (claim_sandbox_spare_home spare id home node) w.
Proof.
  intros Hs Hh. apply (sandbox_row_keeps _ _ _ [spare]); [done| | |set_solver].
  - intros r c _ H. apply claims_dset in H as [->|H]; [left; set_solver|by right].
  - intros r H Hn. conjuncts H. destruct (nil_claims r.(sb_config) home); [by apply claims_says|done].
Qed.
Lemma keeps_claim_pool spare id home node w : unclaimed w.(w_db) spare → keeps_homes (claim_pool_spare_home spare id home node) w.
Proof.
  intros Hs. apply (keeps_pool _ _ _ [spare]); [|set_solver].
  intros r c _ H. apply claims_dset in H as [->|H]; [left; set_solver|by right].
Qed.
Lemma keeps_switch target node source id w :
  unclaimed w.(w_db) target → source ≠ "" → keeps_homes (switch_sandbox_home_claim target node source id) w.
Proof.
  intros Hs Hh. apply (sandbox_row_keeps _ _ _ [target]); [done| | |set_solver].
  - intros r c H Hc. conjuncts H. apply claims_dset in Hc as [->|Hc]; [right; by apply claims_says|].
    rewrite claims_dset_other in Hc by done. apply claims_dset in Hc as [->|Hc]; [left; set_solver|by right].
  - intros r H Hn. conjuncts H. destruct (nil_claims r.(sb_config) source); [by apply claims_says|done].
Qed.

(** ** References *)
Lemma add_references_spec id names refs refs' :
  add_references id names refs = Ok refs' →
  (∀ n, is_Some (refs !! n) → is_Some (refs' !! n)) ∧ (∀ n, n ∈ names → is_Some (refs' !! n)).
Proof.
  revert refs. induction names as [|n names IH]; intros refs; cbn; [intros [= ->]; split; [done|set_solver]|].
  destruct (refs !! n) as [o|] eqn:En.
  - case_bool_decide; [|done]. intros H'. destruct (IH refs H') as [Hk Hn]. split; [done|].
    intros m [->|Hm]%elem_of_cons; [|auto]. apply Hk. by eexists.
  - intros H'. destruct (IH _ H') as [Hk Hn]. split.
    + intros m Hm. apply Hk. destruct (decide (n = m)) as [->|]; [rewrite lookup_insert_eq; by eexists|by rewrite lookup_insert_ne].
    + intros m [->|Hm]%elem_of_cons; [|auto]. apply Hk. rewrite lookup_insert_eq. by eexists.
Qed.
Lemma references_of_spec rows refs refs' :
  references_of refs rows = Ok refs' →
  (∀ n, is_Some (refs !! n) → is_Some (refs' !! n)) ∧ (∀ e n, e ∈ rows → n ∈ claim_names e.2 → is_Some (refs' !! n)).
Proof.
  revert refs. induction rows as [|[id config] rows IH]; intros refs; cbn [references_of]; [intros [= ->]; split; [done|set_solver]|].
  unfold mbind, result_bind. destruct (add_references id (claim_names config) refs) as [r|] eqn:E; [|done]. intros H'.
  destruct (add_references_spec _ _ _ _ E) as [Hk1 Hn1]. destruct (IH r H') as [Hk Hn]. split; [auto|].
  intros e n [->|He]%elem_of_cons Hc; [auto|by eapply Hn].
Qed.
Lemma references_unclaimed d refs n : homes_ok d → references_of ∅ (list_kube_home_claims d) = Ok refs → refs !! n = None → unclaimed d n.
Proof.
  intros [_ Hl] H Hn [b i] Hc. destruct (references_of_spec _ _ _ H) as [_ Hall].
  enough (∃ e, e ∈ list_kube_home_claims d ∧ n ∈ claim_names e.2) as (e & He & Hne).
  { destruct (Hall e n He Hne) as [x Hx]. congruence. }
  unfold claims_of in Hc. cbn in Hc. destruct b.
  - destruct (pool_sandboxes d !! i) as [r|] eqn:Ei; [|set_solver]. cbn in Hc. exists (i, r.(ps_config)). split; [|done].
    unfold list_kube_home_claims. apply elem_of_app. right. apply list_elem_of_fmap. exists (i, r). split; [done|]. by apply elem_of_map_to_list.
  - destruct (sandboxes d !! i) as [r|] eqn:Ei; [|set_solver]. cbn in Hc. exists (i, r.(sb_config)). split; [|done].
    unfold list_kube_home_claims. apply elem_of_app. left. apply list_elem_of_omap. exists (i, r). cbn.
    rewrite (Hl i r Ei (nil_claims _ _ Hc)). split; [by apply elem_of_map_to_list|done].
Qed.

Lemma find_spare_spec node refs mounted l c :
  find_spare node refs mounted l = Ok (Some c) → available_spare c node refs mounted = Ok true.
Proof.
  induction l as [|x l IH]; cbn; [done|]. unfold mbind, result_bind. destruct (available_spare x node refs mounted) as [[|]|] eqn:E; [|auto|done].
  by intros [= <-].
Qed.
Lemma available_unreferenced c node refs mounted : available_spare c node refs mounted = Ok true → refs !! c.(cm_name) = None ∧ c.(cm_name) ∉ mounted.
Proof.
  unfold available_spare. destruct (refs !! cm_name c); [done|]. cbn. case_bool_decide; [done|]. by cbn.
Qed.

(** ** What [refill_spare_volumes] deletes *)

(** A request that deletes no current home. *)
Definition spares (d : Db) (c : Call) : Prop := ∀ n, c = DeleteClaim n → ¬ current d n.
Lemma spares_others d c : (∀ n, c ≠ DeleteClaim n) → spares d c.
Proof. intros H n E. by destruct (H n). Qed.
Lemma spares_unclaimed d n : unclaimed d n → spares d (DeleteClaim n).
Proof. intros H m [= <-]. by apply unclaimed_not_current. Qed.

Section refill.
Context (d : Db) (refs : gmap string string) (mounted : gset string) (Hd : homes_ok d).
Context (Hrefs : references_of ∅ (list_kube_home_claims d) = Ok refs).

Lemma only_sort_claim nodes c s : only (spares d) (sort_claim nodes refs mounted c) s.
Proof.
  unfold sort_claim. destruct (refs !! cm_name c) as [o|] eqn:Er.
  - requests. apply only_own_spare_claim, spares_others.
  - assert (Hu := references_unclaimed d refs _ Hd Hrefs Er).
    requests; apply only_delete_claim; solve [apply spares_others|by apply spares_unclaimed].
Qed.
Lemma sort_claim_ok nodes c s x s' : sort_claim nodes refs mounted c s = (Ok (Some x), s') → refs !! x.2 = None.
Proof.
  unfold sort_claim. destruct (refs !! cm_name c) as [o|] eqn:Er.
  - destruct (cm_deleting c); [done|]. destruct (str_or_none _); [|done]. intros (? & ? & _ & E)%bind_ok_inv. by injection E.
  - destruct (_ || _); [done|]. intros (sp & s1 & _ & E)%bind_ok_inv.
    destruct (dget SPARE_NODE (cm_annotations c)) as [n|].
    + destruct sp; [by injection E as <- _|]. apply bind_ok_inv in E as (? & ? & _ & E). by injection E.
    + apply bind_ok_inv in E as (? & ? & _ & E). by injection E.
Qed.
Lemma only_sort_claims nodes l s : only (spares d) (sort_claims nodes refs mounted l) s.
Proof.
  revert s. induction l as [|c l IH]; intros s; cbn [sort_claims]; [apply only_ret|].
  apply only_bind; [apply only_sort_claim|]. intros o s1 _ _. apply only_bind; [apply IH|]. intros. apply only_ret.
Qed.
Lemma sort_claims_ok nodes l s r s' : sort_claims nodes refs mounted l s = (Ok r, s') → Forall (λ x, refs !! x.2 = None) r.
Proof.
  revert s r s'. induction l as [|c l IH]; intros s r s'; cbn [sort_claims]; [by intros [= <- <-]|].
  intros (o & s1 & E1 & (rest & s2 & E2 & E3)%bind_ok_inv)%bind_ok_inv. injection E3 as <- _.
  destruct o as [x|]; [|by eapply IH]. constructor; [by eapply sort_claim_ok|by eapply IH].
Qed.
End refill.

Lemma only_for {A} (P : Call → Prop) (l : list A) f s : (∀ x s, x ∈ l → only P (f x) s) → only P (for_ l f) s.
Proof.
  revert s. induction l as [|x l IH]; intros s Hf; cbn [for_]; [apply only_ret|]. apply only_bind; [apply Hf; set_solver|].
  intros. apply IH. intros. apply Hf. set_solver.
Qed.

Lemma spare_claim_state_ok s claims refs mounted s' :
  spare_claim_state s = (Ok (claims, refs, mounted), s') → references_of ∅ (list_kube_home_claims (h_db s)) = Ok refs.
Proof.
  unfold spare_claim_state. intros (d & s1 & E1 & (r & s2 & E2 & E)%bind_ok_inv)%bind_ok_inv.
  injection E1 as <- <-. injection E2 as E2 _.
  apply bind_ok_inv in E as (p & s3 & _ & (cl & s4 & _ & E)%bind_ok_inv). injection E as <- <- <- <-. exact E2.
Qed.

Lemma elem_of_drop_list {A} (x : A) n l : x ∈ drop n l → x ∈ l.
Proof. intros H. rewrite <- (take_drop n l). apply elem_of_app. by right. Qed.
Lemma only_refill hexes s : homes_ok (h_db s) → only (spares (h_db s)) (refill_spare_volumes hexes) s.
Proof.
  intros Hd. unfold refill_spare_volumes.
  apply only_bind; [apply only_spare_storage_check, spares_others|]. intros _ s1 _ H1. apply only_session.
  apply only_bind; [apply only_ask; by apply spares_others|]. intros rc s2 _ H2.
  apply only_bind; [apply only_ask; by apply spares_others|]. intros all s3 _ H3.
  apply only_bind; [apply only_spare_claim_state, spares_others|]. intros [[claims refs] mounted] s4 E4 H4.
  apply spare_claim_state_ok in E4. rewrite H3, H2, H1 in E4.
  apply only_bind; [by apply only_sort_claims|]. intros available s5 E5 _. apply sort_claims_ok in E5.
  apply only_for. intros node s6 _. apply only_bind; [|intros _ s7 _ _].
  - apply only_for. intros name s7 Hn. apply only_delete_claim; [apply spares_others|]. apply spares_unclaimed.
    apply (references_unclaimed _ refs); [done..|]. apply elem_of_drop_list, list_elem_of_fmap in Hn as (x & -> & Hx).
    apply list_elem_of_filter in Hx as [_ Hx]. rewrite Forall_forall in E5. by apply E5.
  - apply only_for. intros hex s8 _. apply only_bind; [apply only_create_spare_claim, spares_others|]. intros. apply only_ret.
Qed.

(** ** Keeping every home *)

(** Each claim deleted so far was no sandbox's home then, and no two rows hold one
    claim. *)
Definition homes_kept (s : Homes) : Prop := homes_ok (h_db s) ∧ Forall (λ e : Call * Db, spares e.2 e.1) s.(h_calls).
Definition keeps {A} (m : M Homes A) (s : Homes) : Prop := homes_kept s → homes_kept (m s).2.

Lemma keeps_only {A} (m : M Homes A) s : (homes_ok (h_db s) → only (spares (h_db s)) m s) → keeps m s.
Proof.
  intros Hm [Hd Hc]. destruct (Hm Hd) as (Hd' & l & Hl & Hall). split; [by rewrite Hd'|]. rewrite Hl. apply Forall_app. split; [|done].
  eapply Forall_impl; [exact Hall|]. by intros e [H ->].
Qed.
Lemma keeps_bind {A B} (m : M Homes A) (k : A → M Homes B) s :
  keeps m s → (∀ a s', m s = (Ok a, s') → homes_kept s' → keeps (k a) s') → keeps (m ≫= k) s.
Proof.
  intros Hm Hk Hs. specialize (Hm Hs). destruct (m s) as [[a|e] s1] eqn:E.
  - rewrite (bind_ok m k s a s1 E). by apply Hk.
  - by rewrite (bind_err m k s e s1 E).
Qed.
Lemma session_keeps {A} (m : M Homes A) s : keeps m s → keeps (h_session m) s.
Proof.
  intros Hm Hs. specialize (Hm Hs). unfold h_session, transaction. destruct (m s) as [[a|e] s1]; [done|]. split; [apply Hs|apply Hm].
Qed.
Lemma keeps_try {A} (m : M Homes A) h s : keeps m s → (∀ e s', homes_kept s' → keeps (h e) s') → keeps (try_ m h) s.
Proof. intros Hm Hh Hs. specialize (Hm Hs). unfold try_. destruct (m s) as [[a|e] s1]; [done|]. by apply Hh. Qed.
Lemma keeps_finally {A} (m : M Homes A) c s : keeps m s → (∀ s', homes_kept s' → keeps c s') → keeps (finally_ m c) s.
Proof.
  intros Hm Hc. apply keeps_bind; [apply keeps_try; [done|]|].
  - intros e s' Hs'. apply keeps_bind; [by apply Hc|]. intros. by intros ?.
  - intros a s' _ Hs'. apply keeps_bind; [by apply Hc|]. intros. by intros ?.
Qed.
Lemma keeps_observe {A} (m : M Homes A) s : keeps m s → keeps (observe m) s.
Proof. intros Hm Hs. specialize (Hm Hs). unfold observe. by destruct (m s). Qed.
Lemma keeps_world {A} (m : M World A) s : keeps_homes m s.(h_world) → keeps (in_world m) s.
Proof. intros Hm [Hd Hc]. specialize (Hm Hd). unfold in_world. by destruct (m (h_world s)). Qed.
Lemma keeps_ret {A} (a : A) s : keeps (mret a) s.
Proof. by intros ?. Qed.
Lemma keeps_raise {A} e s : keeps (raise (A := A) e) s.
Proof. by intros ?. Qed.
Lemma keeps_result {A} (r : result exn A) s : keeps (of_result r) s.
Proof. by intros ?. Qed.
Lemma keeps_guard b e s : keeps (guard_ b e) s.
Proof. by destruct b; intros ?. Qed.
Lemma only_db {A} P (m : M Homes A) s r s' : only P m s → m s = (r, s') → h_db s' = h_db s.
Proof. intros [H _] E. by rewrite E in H. Qed.

Lemma previous_spared d id r cur prev :
  homes_ok d → d.(sandboxes) !! id = Some r → text_of_config "home_claim" r.(sb_config) = Some cur →
  text_of_config "previous_home_claim" r.(sb_config) = Some prev → prev ≠ cur → spares d (DeleteClaim prev).
Proof.
  intros [Ha _] Hi Hc Hp Hne n [= <-] Hcur.
  assert (Hin : prev ∈ claims_of d (false, id)) by (unfold claims_of; cbn; rewrite Hi; apply elem_claim_names; by right).
  destruct Hcur as [(i & r' & Hi' & Hc')|(i & r' & Hi' & Hc')].
  - assert (E : (false, i) = (false, id)); [|injection E as ->; congruence].
    apply (Ha _ _ prev); [|done]. unfold claims_of. cbn. rewrite Hi'. apply elem_claim_names. by left.
  - assert (E : (true, i) = (false, id)); [|done].
    apply (Ha _ _ prev); [|done]. unfold claims_of. cbn. rewrite Hi'. apply elem_claim_names. by left.
Qed.

Lemma keeps_cleanup_previous id r s : (h_db s).(sandboxes) !! id = Some r → keeps (cleanup_previous r) s.
Proof.
  intros Hi Hs0. assert (Hd := proj1 Hs0). revert Hs0. change (keeps (cleanup_previous r) s). unfold cleanup_previous.
  destruct (text_of_config "home_claim" (sb_config r)) as [cur|] eqn:Ec; [|apply keeps_raise].
  apply keeps_bind; [apply keeps_result|]. intros l s1 E1 _. injection E1 as _ <-.
  destruct (negb (has_key "previous_home_claim" (sb_config r))); [apply keeps_ret|].
  destruct (text_of_config "previous_home_claim" (sb_config r)) as [prev|] eqn:Ep; [|apply keeps_raise].
  apply keeps_bind; [apply keeps_guard|]. intros _ s1 [Eg ->]%guard_ok_inv _. apply negb_true_iff, bool_decide_eq_false in Eg.
  apply keeps_bind; [|intros _ s2 _ _].
  - apply keeps_only. intros _. apply only_delete_claim; [apply spares_others|]. by eapply previous_spared.
  - apply keeps_bind; [apply keeps_world, keeps_clear_previous|]. intros [r'|] s3 _ _; [apply keeps_ret|apply keeps_raise].
Qed.
Lemma keeps_cleanup id s : keeps (cleanup_previous_home_claim id) s.
Proof.
  unfold cleanup_previous_home_claim. apply session_keeps. destruct s as [w h].
  apply keeps_bind; [apply keeps_only; intros _; apply only_query|]. intros o s1 E _. injection E as <- <-.
  destruct (get_sandbox id (w_db w)) as [r|] eqn:Er; [|apply keeps_raise]. by apply (keeps_cleanup_previous id).
Qed.

(** One more step that leaves the tables alone. *)
Lemma keeps_step {A B} d (m : M Homes A) (k : A → M Homes B) s :
  h_db s = d → only (spares d) m s → (∀ a s', m s = (Ok a, s') → h_db s' = d → keeps (k a) s') → keeps (m ≫= k) s.
Proof.
  intros Hd Hm Hk. apply keeps_bind; [apply keeps_only; intros _; by rewrite Hd|]. intros a s' E _. apply (Hk a s' E).
  rewrite (only_db _ _ _ _ _ Hm E). exact Hd.
Qed.

Lemma keeps_claim owner c name id node s :
  unclaimed (h_db s) c → name ≠ "" →
  keeps (in_world (match owner with
    | OSandbox _ => o ← claim_sandbox_spare_home c id name node; mret (negb (is_none o))
    | OPool _ => o ← claim_pool_spare_home c id name node; mret (negb (is_none o))
    end)) s.
Proof.
  intros Hu Hn. apply keeps_world. intros Hd. destruct owner.
  - assert (Hk := keeps_claim_sandbox c id name node (h_world s) Hu Hn Hd). revert Hk. unfold mbind, M_bind.
    by destruct (claim_sandbox_spare_home _ _ _ _ _) as [[o|e] w'].
  - assert (Hk := keeps_claim_pool c id name node (h_world s) Hu Hd). revert Hk. unfold mbind, M_bind.
    by destruct (claim_pool_spare_home _ _ _ _ _) as [[o|e] w'].
Qed.

Lemma keeps_prepare id node size hex s :
  unclaimed (h_db s) ("zoo-spare-home-" +:+ hex) → keeps (prepare_home_claim id node size hex) s.
Proof.
  intros Hf Hs0. assert (Hd := proj1 Hs0). revert Hs0. fold (keeps (prepare_home_claim id node size hex) s).
  unfold prepare_home_claim. apply keeps_bind; [apply session_keeps|].
  2: { intros [name spare] s1 _ _. apply keeps_bind; [|intros; apply keeps_ret].
       apply keeps_only. intros _. unfold when. destruct spare; [apply only_own_spare_claim, spares_others|apply only_ret]. }
  remember (h_db s) as d eqn:Ed. symmetry in Ed.
  apply (keeps_step d); [done|apply only_query|]. intros d' s1 E H1. injection E as E _. change (h_db s = d') in E.
  assert (d' = d) as -> by congruence.
  destruct (owner_of id d) as [owner|]; [|apply keeps_raise].
  destruct (text_of_config "home_claim" (owner_config owner)) as [name|] eqn:Ehome; [|apply keeps_raise].
  apply (keeps_step d); [done|apply only_guard|]. intros _ s2 _ H2.
  apply (keeps_step d); [done|apply only_claim_exists, spares_others|]. intros [c|] s3 _ H3; [apply keeps_ret|].
  apply (keeps_step d); [done|apply only_guard|]. intros _ s4 _ H4.
  apply (keeps_step d); [done|apply only_result|]. intros [|] s5 _ H5; [|apply keeps_ret].
  apply (keeps_step d); [done|apply only_spare_storage_check, spares_others|]. intros _ s6 _ H6.
  apply (keeps_step d); [done|apply only_spare_claim_state, spares_others|]. intros [[claims refs] mounted] s7 E7 H7.
  apply spare_claim_state_ok in E7. rewrite H6 in E7.
  apply (keeps_step d); [done|apply only_result|]. intros found s8 E8 H8. injection E8 as Ef _.
  apply (keeps_step d); [done| |].
  { destruct found; [apply only_ret|]. apply only_create_spare_claim, spares_others. }
  intros c s9 E9 H9. assert (Hu : unclaimed d c.(cm_name)).
  { destruct found as [x|].
    - injection E9 as <- _. apply find_spare_spec, available_unreferenced in Ef as [Ef _]. by eapply references_unclaimed.
    - apply bind_ok_inv in E9 as (u & s10 & E5 & E6). by injection E6 as <- _. }
  apply keeps_bind; [apply keeps_claim; [by rewrite H9|by eapply text_nonempty]|]. intros b s10 _ _.
  apply keeps_bind; [apply keeps_guard|]. intros. apply keeps_ret.
Qed.

(** ** What cleaning up leaves *)

Definition cleared (w : World) (r : Sandbox) : Sandbox :=
  sb_set_updated_at w.(w_clock) (sb_set_config (dpop "previous_home_claim" r.(sb_config)) r).
Definition with_row (id : string) (r : Sandbox) (d : Db) : Db := set_sandboxes (<[id := r]> d.(sandboxes)) d.

Lemma clear_previous_inv id cur prev w r w' :
  clear_previous_home_claim id cur prev w = (r, w') →
  (r = Ok None ∧ w' = w) ∨
  ∃ old, w.(w_db).(sandboxes) !! id = Some old ∧ r = Ok (Some (cleared w old)) ∧ w' = put_db (with_row id (cleared w old) w.(w_db)) w.
Proof.
  unfold clear_previous_home_claim, update_sandbox_where. rewrite (bind_ok get _ w w w eq_refl).
  destruct (sandboxes (w_db w) !! id) as [old|] eqn:Ei; [|intros [= <- <-]; by left].
  destruct (_ && _); run; [|intros [= <- <-]; by left]. intros [= <- <-]. right. by exists old.
Qed.

Lemma delete_claim_asks name b s o s' : delete_claim name b s = (o, s') → (DeleteClaim name, h_db s) ∈ s'.(h_calls).
Proof.
  intros E. unfold delete_claim in E. destruct (suppress_not_found (ask (DeleteClaim name) (ap_done api)) s) as [[u|e] s1] eqn:E1.
  - assert (H1 : (DeleteClaim name, h_db s) ∈ s1.(h_calls)).
    { revert E1. unfold suppress_not_found, try_, ask. destruct (ap_done api _) as [u'|e']; [intros [= <- <-]; by left|].
      destruct e'; try by intros [=]; subst; left. repeat case_match; intros [=]; subst; by left. }
    rewrite (bind_ok _ _ s u s1 E1) in E.
    assert (Hq : only (λ _, True) (when b (gone polls (c ← claim_exists name; mret (negb (is_none c))))) s1).
    { unfold when. destruct b; [|apply only_ret]. apply only_gone. intros s2. apply only_bind; [by apply only_claim_exists|]. intros. apply only_ret. }
    destruct Hq as (_ & l & Hl & _). rewrite E in Hl. cbn in Hl. rewrite Hl. apply elem_of_app. by right.
  - rewrite (bind_err _ _ s e s1 E1) in E. injection E as <- <-. revert E1. unfold suppress_not_found, try_, ask.
    destruct (ap_done api _) as [u'|e']; [by intros [=]|]. destruct e'; try by intros [=]; subst; left. repeat case_match; intros [=]; subst; by left.
Qed.

(** Cleaning up a row that names no earlier claim does nothing; else the earlier claim
    is deleted and then forgotten. *)
Lemma cleanup_previous_inv r s o s' :
  cleanup_previous r s = (o, s') →
  (h_db s' = h_db s ∧ (∀ config, o = Ok config → config = r.(sb_config) ∧ has_key "previous_home_claim" config = false)) ∨
  ∃ w old prev, (h_db s).(sandboxes) !! r.(sb_id) = Some old ∧ h_db s = w.(w_db) ∧ o = Ok (cleared w old).(sb_config) ∧
    h_db s' = with_row r.(sb_id) (cleared w old) (h_db s) ∧
    text_of_config "previous_home_claim" r.(sb_config) = Some prev ∧ (DeleteClaim prev, h_db s) ∈ s'.(h_calls).
Proof.
  unfold cleanup_previous. destruct (text_of_config "home_claim" (sb_config r)) as [cur|]; [|intros [= <- <-]; by left].
  unfold of_result. destruct (validated_home_claims (sb_config r)) as [v|e] eqn:Ev.
  2: { rewrite (bind_err _ _ s e s) by done. intros [= <- <-]. by left. }
  rewrite (bind_ok _ _ s v s) by done. destruct (has_key "previous_home_claim" (sb_config r)) eqn:Ek.
  2: { intros [= <- <-]. left. split; [done|]. by intros config [= <-]. }
  cbn [negb]. destruct (text_of_config "previous_home_claim" (sb_config r)) as [prev|] eqn:Ep; [|intros [= <- <-]; by left].
  destruct (negb (bool_decide (prev = cur))); [|rewrite run_bind_guard_false; intros [= <- <-]; by left].
  rewrite run_bind_guard_true. assert (Hq := only_delete_claim (λ _, True) (λ _ _, I) prev true s I).
  destruct (delete_claim prev true s) as [[u|e] s1] eqn:E1.
  2: { rewrite (bind_err _ _ s e s1 E1). intros [= <- <-]. left. split; [by eapply only_db|done]. }
  rewrite (bind_ok _ _ s u s1 E1). assert (Hdel := delete_claim_asks _ _ _ _ _ E1). apply (only_db _ _ _ _ _ Hq) in E1. clear Hq. unfold in_world.
  destruct (clear_previous_home_claim (sb_id r) cur prev (h_world s1)) as [o2 w2] eqn:E2.
  destruct (clear_previous_inv _ _ _ _ _ _ E2) as [[-> ->]|(old & Hi & -> & ->)].
  - unfold mbind, M_bind. rewrite E2. intros [= <- <-]. by left.
  - unfold mbind, M_bind. rewrite E2. intros [= <- <-]. right. exists (h_world s1), old, prev. rewrite <- E1 at 1 2 3. by split_and!.
Qed.

Lemma cleared_unclaimed c w i old d : d.(sandboxes) !! i = Some old → unclaimed d c → unclaimed (with_row i (cleared w old) d) c.
Proof.
  intros Hi Hu [b j]. unfold claims_of, with_row. cbn. destruct b; [apply (Hu (true, j))|].
  destruct (decide (i = j)) as [<-|Hij]; [|rewrite lookup_insert_ne by done; apply (Hu (false, j))].
  rewrite lookup_insert_eq. cbn. intros Hc. apply (Hu (false, i)). unfold claims_of. cbn. rewrite Hi. exact (claims_dpop _ _ _ Hc).
Qed.

Lemma cleanup_inv id s o s' :
  cleanup_previous_home_claim id s = (o, s') →
  (h_db s' = h_db s ∧ ∀ config, o = Ok config →
     ∃ r, (h_db s).(sandboxes) !! id = Some r ∧ config = r.(sb_config) ∧ has_key "previous_home_claim" config = false) ∨
  ∃ r w old prev, (h_db s).(sandboxes) !! id = Some r ∧ (h_db s).(sandboxes) !! r.(sb_id) = Some old ∧ h_db s = w.(w_db) ∧
    o = Ok (cleared w old).(sb_config) ∧ h_db s' = with_row r.(sb_id) (cleared w old) (h_db s) ∧
    text_of_config "previous_home_claim" r.(sb_config) = Some prev ∧ (DeleteClaim prev, h_db s) ∈ s'.(h_calls).
Proof.
  unfold cleanup_previous_home_claim, h_session, transaction.
  match goal with |- context [match ?m s with _ => _ end] => destruct (m s) as [o1 s1] eqn:E end.
  assert (E' : (match get_sandbox id (h_db s) with Some r => cleanup_previous r | None => sandbox_not_found end) s = (o1, s1)).
  { rewrite <- E. destruct s as [w h]. reflexivity. }
  clear E. unfold get_sandbox in E'. destruct (sandboxes (h_db s) !! id) as [r|] eqn:Ei.
  2: { injection E' as <- <-. intros [= <- <-]. left. by split. }
  destruct (cleanup_previous_inv _ _ _ _ E') as [[Hd Hc]|(w & old & prev & Hi & Hw & -> & Hd & Hp & Hdel)].
  - destruct o1 as [config|e]; intros [= <- <-]; left; (split; [done|]); [|done].
    intros c' [= <-]. exists r. split; [done|]. by apply Hc.
  - intros [= <- <-]. right. by exists r, w, old, prev.
Qed.
Lemma cleanup_unclaimed id s c : unclaimed (h_db s) c → unclaimed (h_db (cleanup_previous_home_claim id s).2) c.
Proof.
  intros Hu. destruct (cleanup_previous_home_claim id s) as [o s'] eqn:E. cbn [snd].
  destruct (cleanup_inv _ _ _ _ E) as [[-> _]|(r & w & old & prev & _ & Hi & _ & _ & -> & _)]; [done|]. by apply cleared_unclaimed.
Qed.

(** ** Moving *)
Lemma keeps_committing {A} (m : M Homes A) s : keeps m s → keeps (committing m) s.
Proof.
  intros Hm Hs. specialize (Hm Hs). unfold committing. destruct (m s) as [[a|e] s1]; [|split; [apply Hs|apply Hm]].
  destruct (ap_commit api (h_calls s1)) as [[e [|]]|]; [done|split; [apply Hs|apply Hm]|done].
Qed.
Lemma committing_rolled_back {A} (m : M Homes A) s o s' : committing m s = (Ok (o, false), s') → h_db s' = h_db s ∧ ∃ e, o = Err e.
Proof.
  unfold committing. destruct (m s) as [[a|e] s1]; [|intros [= <- <-]; split; [done|by exists e]].
  destruct (ap_commit api (h_calls s1)) as [[e [|]]|]; by intros [=].
Qed.

Lemma keeps_switch_home id target node source s :
  unclaimed (h_db s) target → source ≠ "" → keeps (switch_home id target node source) s.
Proof.
  intros Hu Hs. unfold switch_home. apply keeps_bind.
  - apply keeps_committing, keeps_bind; [by apply keeps_world, keeps_switch|]. intros. apply keeps_guard.
  - intros [[u|e] switching] s1 _ _; [|apply keeps_ret]. apply keeps_bind; [apply keeps_observe, keeps_cleanup|]. intros. apply keeps_ret.
Qed.
Lemma switch_home_dropped id target node source s o s' :
  switch_home id target node source s = (Ok (o, false), s') → h_db s' = h_db s.
Proof.
  unfold switch_home. intros ([out switching] & s1 & E1 & E2)%bind_ok_inv. destruct out as [u|e].
  - apply bind_ok_inv in E2 as (c & s2 & _ & E3). injection E3 as _ E. discriminate E.
  - injection E2 as _ E <-. subst switching. by apply committing_rolled_back in E1 as [? _].
Qed.

Lemma moving_keeps id node snapshot_id uuid drawn temporary reader writer s :
  unclaimed (h_db s) ("zoo-home-" +:+ id +:+ "-" +:+ drawn) → unclaimed (h_db s) temporary →
  keeps (move_volume id node snapshot_id uuid drawn temporary reader writer) s.
Proof.
  intros Ht Htmp. unfold move_volume. apply keeps_bind; [apply keeps_cleanup|]. intros config s1 E1 _.
  assert (H1 := cleanup_unclaimed id s). rewrite E1 in H1. cbn [snd] in H1. assert (Ht1 := H1 _ Ht). assert (Htmp1 := H1 _ Htmp).
  clear E1 H1 Ht Htmp. remember (h_db s1) as d eqn:Ed. symmetry in Ed.
  apply (keeps_step d); [done|apply only_ask; by apply spares_others|]. intros rc s2 _ H2.
  apply (keeps_step d); [done|apply only_ask; by apply spares_others|]. intros all s3 _ H3.
  apply (keeps_step d); [done|apply only_guard|]. intros _ s4 _ H4.
  apply (keeps_step d); [done|apply only_existing_pod, spares_others|]. intros pod s5 _ H5.
  apply (keeps_step d); [done|apply only_guard|]. intros _ s6 _ H6.
  destruct (text_of_config "home_claim" config) as [source|] eqn:Es; [|apply keeps_raise].
  apply (keeps_step d); [done|apply only_ask; by apply spares_others|]. intros claim s7 _ H7.
  destruct (_ && _); [apply keeps_ret|]. destruct (cm_storage claim) as [storage|]; [|apply keeps_raise].
  apply (keeps_step d); [done| |].
  { apply only_observe, only_bind; [apply only_snapshot; [apply spares_others|by apply spares_unclaimed]|]. intros.
    apply only_bind; [apply only_ensure_claim, spares_others|]. intros. apply only_restore_claim, spares_others. }
  intros copied s8 _ H8. apply keeps_bind.
  - destruct copied; [|apply keeps_ret]. apply keeps_switch_home; [by rewrite H8|by eapply text_nonempty].
  - intros [o keep] s9 E9 _. assert (H9 : keep = false → h_db s9 = d).
    { intros ->. destruct copied; [|by injection E9 as <- <-]. apply switch_home_dropped in E9. congruence. }
    apply keeps_bind.
    + unfold when. destruct keep; [apply keeps_ret|]. cbn [negb]. apply keeps_only. intros _. rewrite (H9 eq_refl).
      apply only_delete_claim; [apply spares_others|by apply spares_unclaimed].
    + intros _ s10 _ _. apply keeps_bind; [|intros; apply keeps_result]. apply keeps_only. intros _. unfold when.
      destruct (is_none snapshot_id); [apply only_remove_snapshot, spares_others|apply only_ret].
Qed.

(** ** Starting a pod *)
Lemma keeps_reserve_row owner node requested id home w :
  keeps_homes (match owner with
    | OSandbox _ => o ← reserve_sandbox_node node requested id home; mret (negb (is_none o))
    | OPool _ => o ← reserve_pool_sandbox_node node requested id home; mret (negb (is_none o))
    end) w.
Proof.
  assert (Hsame : ∀ config, claim_names (with_reservation node requested config) = claim_names config).
  { intros config. unfold with_reservation. by rewrite !claims_dset_other by done. }
  intros Hd. destruct owner as [own|own].
  - assert (Hk : keeps_homes (reserve_sandbox_node node requested id home) w).
    { apply (sandbox_row_keeps _ _ _ []); [done| | |set_solver]; intros r.
      - intros c _ H. right. rewrite <- (Hsame r.(sb_config)). exact H.
      - intros _ H. rewrite <- (Hsame r.(sb_config)) in H. exact H. }
    specialize (Hk Hd). revert Hk. unfold mbind, M_bind. by destruct (reserve_sandbox_node _ _ _ _ _) as [[o|e] w'].
  - assert (Hk : keeps_homes (reserve_pool_sandbox_node node requested id home) w).
    { apply (keeps_pool _ _ _ []); [|set_solver]. intros r c _ H. right. rewrite <- (Hsame r.(ps_config)). exact H. }
    specialize (Hk Hd). revert Hk. unfold mbind, M_bind. by destruct (reserve_pool_sandbox_node _ _ _ _ _) as [[o|e] w'].
Qed.
Lemma keeps_release id node w : keeps_homes (release_node_reservation id node) w.
Proof.
  assert (Hpop : ∀ config c, c ∈ claim_names (dpop "node_reservation" config) → c ∈ claim_names config) by (intros; by eapply claims_dpop).
  intros Hd.
  assert (H1 : keeps_homes (clear_sandbox_node_reservation id node) w).
  { apply (sandbox_row_keeps _ _ _ []); [done| | |set_solver]; intros r; [intros c _ H; right; exact (Hpop _ _ H)|].
    intros _ H. apply elem_of_nil_inv. intros c Hc. apply Hpop in Hc. rewrite H in Hc. set_solver. }
  specialize (H1 Hd). unfold release_node_reservation, session, transaction. unfold mbind at 1, M_bind at 1.
  destruct (clear_sandbox_node_reservation id node w) as [[o|e] w1]; [|by destruct w].
  assert (H2 : keeps_homes (clear_pool_sandbox_node_reservation id node) w1) by (apply (keeps_pool _ _ _ []); [intros r c _ H; right; exact (Hpop _ _ H)|set_solver]).
  specialize (H2 H1). unfold mbind at 1, M_bind at 1. by destruct (clear_pool_sandbox_node_reservation id node w1) as [[o'|e] w2].
Qed.

(** The claims of every row stay. *)
Definition same_claims (d d' : Db) : Prop := ∀ x, claims_of d' x = claims_of d x.
Lemma same_sandbox p f id w :
  (∀ r, claim_names (f r).(sb_config) = claim_names r.(sb_config)) → same_claims w.(w_db) (update_sandbox_where p f id w).2.(w_db).
Proof.
  intros Hf. unfold update_sandbox_where. rewrite (bind_ok get _ w w w eq_refl).
  destruct (sandboxes (w_db w) !! id) as [old|] eqn:Ei; [|done]. destruct (p old); [|done]. run. intros [b j]. unfold claims_of. cbn.
  destruct b; [done|]. destruct (decide (id = j)) as [<-|Hj]; [|by rewrite lookup_insert_ne]. rewrite lookup_insert_eq, Ei. apply (Hf old).
Qed.
Lemma same_pool p f id w :
  (∀ r, claim_names (f r).(ps_config) = claim_names r.(ps_config)) → same_claims w.(w_db) (update_pool_where p f id w).2.(w_db).
Proof.
  intros Hf. unfold update_pool_where. rewrite (bind_ok get _ w w w eq_refl).
  destruct (pool_sandboxes (w_db w) !! id) as [old|] eqn:Ei; [|done]. destruct (p old); [|done]. run. intros [b j]. unfold claims_of. cbn.
  destruct b; [|done]. destruct (decide (id = j)) as [<-|Hj]; [|by rewrite lookup_insert_ne]. rewrite lookup_insert_eq, Ei. apply (Hf old).
Qed.

(** [homes_ok], with one claim that no row holds. *)
Definition world_ok (c : string) (w : World) : Prop := homes_ok w.(w_db) ∧ unclaimed w.(w_db) c.
Lemma ok_session {A} c (m : M World A) : preserves (world_ok c) m → preserves (world_ok c) (session m).
Proof. intros Hm w Hw. specialize (Hm w Hw). unfold session, transaction. destruct (m w) as [[a|e] w']; [done|]. by destruct w'. Qed.
Lemma ok_reserve_row c owner node requested id home :
  preserves (world_ok c) (match owner with
    | OSandbox _ => o ← reserve_sandbox_node node requested id home; mret (negb (is_none o))
    | OPool _ => o ← reserve_pool_sandbox_node node requested id home; mret (negb (is_none o))
    end).
Proof.
  assert (Hsame : ∀ config, claim_names (with_reservation node requested config) = claim_names config).
  { intros config. unfold with_reservation. by rewrite !claims_dset_other by done. }
  intros w [Hd Hu]. split; [by apply keeps_reserve_row|]. destruct owner.
  - assert (H := same_sandbox (λ r, says "home_claim" home r.(sb_config) && negb (ended r.(sb_status)))
      (λ r, sb_set_config (with_reservation node requested r.(sb_config)) r) id w (λ r, Hsame _)).
    fold (reserve_sandbox_node node requested id home) in H. revert H. unfold mbind, M_bind.
    destruct (reserve_sandbox_node _ _ _ _ _) as [[o|e] w']; intros H x; specialize (H x); change (c ∉ claims_of (w_db w') x); cbn [snd] in H; rewrite H; apply Hu.
  - assert (H := same_pool (λ r, says "home_claim" home r.(ps_config) && bool_decide (r.(ps_status) = PBooting))
      (λ r, ps_set_config (with_reservation node requested r.(ps_config)) r) id w (λ r, Hsame _)).
    fold (reserve_pool_sandbox_node node requested id home) in H. revert H. unfold mbind, M_bind.
    destruct (reserve_pool_sandbox_node _ _ _ _ _) as [[o|e] w']; intros H x; specialize (H x); change (c ∉ claims_of (w_db w') x); cbn [snd] in H; rewrite H; apply Hu.
Qed.
Lemma ok_reserve c an id desktop size :
  preserves (world_ok c) (reserve_node NAMESPACE IDLE_MEMORY_MB_DESKTOP IDLE_MEMORY_MB_CODE int_of an id desktop size).
Proof.
  unfold reserve_node. assert (Hr : ∀ B (r : result exn B), preserves (world_ok c) (of_result r)) by (by intros B r w).
  apply preserves_bind; [apply Hr|]. intros requested. apply ok_session.
  apply preserves_bind; [by intros w|]. intros [owner|]; [|apply preserves_raise].
  destruct (text_of_config "home_claim" (owner_config owner)); [|apply preserves_raise].
  repeat (apply preserves_bind; [solve [apply Hr|apply preserves_guard|by intros w]|]; intros ?).
  case_match; [|apply preserves_raise]. apply preserves_bind; [|intros b; apply preserves_bind; [apply preserves_guard|intros; apply preserves_ret]].
  apply ok_reserve_row.
Qed.

Lemma keeps_run in_cluster name image id env server desktop size hex s :
  unclaimed (h_db s) ("zoo-spare-home-" +:+ hex) → keeps (run_container in_cluster name image id env server desktop size hex) s.
Proof.
  intros Hf. unfold run_container. remember (h_db s) as d eqn:Ed. symmetry in Ed.
  apply (keeps_step d); [done|apply only_guard|]. intros _ s1 _ H1.
  apply (keeps_step d); [done|apply only_result|]. intros _ s2 _ H2.
  apply (keeps_step d); [done|apply only_guard|]. intros _ s3 _ H3.
  apply (keeps_step d); [done|apply only_home_config|]. intros config s4 _ H4.
  apply (keeps_step d); [done|apply only_existing_pod, spares_others|]. intros found s5 _ H5.
  apply (keeps_step d); [done| |].
  { destruct found; [|apply only_ret]. apply only_bind; [apply only_result|]. intros [|] s6 _ _; [apply only_ret|].
    apply only_bind; [apply only_delete_pod, spares_others|]. intros. apply only_ret. }
  intros kept s6 _ H6. apply keeps_bind; [|intros; apply keeps_ret]. destruct kept as [p|].
  - apply (keeps_step d); [done|case_match; [apply only_ret|apply only_raise]|]. intros claim s7 _ H7.
    apply (keeps_step d); [done|apply only_bound_claim, spares_others|]. intros _ s8 _ H8.
    apply keeps_bind; [apply keeps_world, keeps_release|]. intros. apply keeps_ret.
  - intros Hs6. destruct (ok_reserve ("zoo-spare-home-" +:+ hex) (answers (h_calls s6)) id desktop size (h_world s6)) as [Hok Hu].
    { split; [apply Hs6|]. unfold h_db in H6. by rewrite H6. }
    revert Hs6. match goal with |- homes_kept _ → homes_kept (?m s6).2 => change (keeps m s6) end.
    apply keeps_bind.
    { unfold reserve. apply keeps_bind; [by intros ?|]. intros a s7 E _. injection E as <- <-. apply keeps_world. intros _. exact Hok. }
    intros node s7 E7 _. assert (Hu7 : unclaimed (h_db s7) ("zoo-spare-home-" +:+ hex)).
    { unfold reserve in E7. rewrite (bind_ok get _ s6 s6 s6 eq_refl) in E7. unfold in_world in E7.
      destruct (reserve_node _ _ _ _ _ _ _ _ _) as [r w]. injection E7 as -> <-. exact Hu. }
    apply keeps_bind; [apply keeps_finally; [|intros; apply keeps_world, keeps_release]|].
    2: { intros _ s8 _ _. apply keeps_only. intros _. apply only_wait_running, spares_others. }
    apply keeps_bind; [by apply keeps_prepare|]. intros _ s8 _ _. apply keeps_only. intros _.
    apply only_bind; [apply only_home_claim|]. intros claim s9 _ _.
    apply only_bind; [apply only_ensure_claim, spares_others|]. intros _ s10 _ _.
    apply only_bind; [apply only_wait_bound, spares_others|]. intros _ s11 _ _.
    apply only_bind; [apply only_sandbox_pod, spares_others|]. intros pod s12 _ H12. apply only_ask. by apply spares_others.
Qed.

(** ** What a move that ends well has done *)

Definition keyed (d : Db) : Prop := ∀ i r, d.(sandboxes) !! i = Some r → r.(sb_id) = i.

Lemma keyed_row d i old r : keyed d → d.(sandboxes) !! i = Some old → r.(sb_id) = old.(sb_id) → keyed (with_row i r d).
Proof.
  intros Hk Hi Hr j x. unfold with_row. cbn. destruct (decide (i = j)) as [<-|Hj].
  - rewrite lookup_insert_eq. intros [= <-]. rewrite Hr. by apply Hk.
  - rewrite lookup_insert_ne by done. apply Hk.
Qed.
Lemma has_key_dpop k k' config : has_key k (dpop k' config) = if decide (k = k') then false else has_key k config.
Proof. unfold has_key, dhas. rewrite dget_dpop. by case_decide. Qed.

Lemma cleanup_ok id s config s' :
  keyed (h_db s) → cleanup_previous_home_claim id s = (Ok config, s') →
  ∃ r r', (h_db s).(sandboxes) !! id = Some r ∧ (h_db s').(sandboxes) !! id = Some r' ∧ r'.(sb_config) = config ∧ keyed (h_db s') ∧
    has_key "previous_home_claim" config = false ∧ (∀ k, k ≠ "previous_home_claim" → dget k config = dget k r.(sb_config)) ∧
    (∀ prev, text_of_config "previous_home_claim" r.(sb_config) = Some prev → (DeleteClaim prev, h_db s) ∈ s'.(h_calls)).
Proof.
  intros Hk E. destruct (cleanup_inv _ _ _ _ E) as [[Hd Hc]|(r & w & old & prev & Hi & Hold & Hw & Ho & Hd & Hp & Hdel)].
  - destruct (Hc config eq_refl) as (r & Hi & -> & Hn). exists r, r. rewrite Hd. split_and!; try done.
    intros prev Hp. exfalso. revert Hn Hp. unfold has_key, dhas, text_of_config. by destruct (dget _ _).
  - rewrite (Hk id r Hi) in Hold, Hd. assert (old = r) as -> by congruence. injection Ho as ->.
    exists r, (cleared w r). rewrite Hd. unfold with_row at 1. cbn [sandboxes set_sandboxes]. rewrite lookup_insert_eq. split_and!; try done.
    + by eapply keyed_row.
    + cbn. by rewrite has_key_dpop.
    + intros k Hne. cbn. rewrite dget_dpop. by case_decide.
    + intros prev' Hp'. by assert (prev' = prev) as -> by congruence.
Qed.

Definition switched_row (w : World) (target node source : string) (r : Sandbox) : Sandbox :=
  sb_set_updated_at w.(w_clock) (sb_set_config (dset "previous_home_claim" (JStr source) (dset "node_name" (JStr node)
    (dset "home_claim" (JStr target) r.(sb_config)))) r).
Lemma switch_inv target node source id s u s' :
  (updated ← in_world (switch_sandbox_home_claim target node source id);
   guard_ (negb (is_none updated)) (ZooError "conflict" [Txt "sandbox placement or status changed during the move"])) s = (Ok u, s') →
  ∃ w r, (h_db s).(sandboxes) !! id = Some r ∧ says "home_claim" source r.(sb_config) = true ∧ r.(sb_status) = Stopped ∧
    h_db s' = with_row id (switched_row w target node source r) (h_db s) ∧ s'.(h_calls) = s.(h_calls).
Proof.
  intros (updated & s1 & E & Eg)%bind_ok_inv. unfold in_world in E.
  destruct (switch_sandbox_home_claim target node source id (h_world s)) as [o w] eqn:Es. injection E as -> <-.
  apply guard_ok_inv in Eg as [Eu ->]. destruct updated as [x|]; [|done].
  destruct (update_sandbox_some _ _ _ _ _ _ Es) as (old & Hi & Hp & -> & ->). conjuncts Hp. apply bool_decide_eq_true in Hp.
  exists (h_world s), old. by split_and!.
Qed.

Lemma switch_home_ok id target node source s t k s' :
  keyed (h_db s) → source ≠ "" → target ≠ "" → switch_home id target node source s = (Ok (Ok t, k), s') →
  t = target ∧ ∃ r d rd, (h_db s').(sandboxes) !! id = Some r ∧ text_of_config "home_claim" r.(sb_config) = Some target ∧
    says "node_name" node r.(sb_config) = true ∧ has_key "previous_home_claim" r.(sb_config) = false ∧
    (DeleteClaim source, d) ∈ s'.(h_calls) ∧ d.(sandboxes) !! id = Some rd ∧ text_of_config "home_claim" rd.(sb_config) = Some target.
Proof.
  intros Hk Hs Ht. unfold switch_home. intros ([out sw] & s1 & E1 & E2)%bind_ok_inv. destruct out as [u|e]; [|by injection E2].
  apply bind_ok_inv in E2 as (cleaned & s2 & E2 & E3). destruct cleaned as [config|e]; [|by injection E3].
  injection E3 as <- _ <-. split; [done|]. unfold committing in E1.
  match type of E1 with context [match ?m s with _ => _ end] => destruct (m s) as [[u1|e] s3] eqn:Em end; [|by injection E1].
  destruct (ap_commit api (h_calls s3)) as [[e [|]]|]; [by injection E1|by injection E1|]. injection E1 as <- _ <-.
  destruct (switch_inv _ _ _ _ _ _ _ Em) as (w & r & Hi & Hsays & _ & Hd & _).
  assert (Hrow : (h_db s3).(sandboxes) !! id = Some (switched_row w target node source r)).
  { rewrite Hd. unfold with_row. cbn. apply lookup_insert_eq. }
  unfold observe in E2. destruct (cleanup_previous_home_claim id s3) as [o s4] eqn:E4. injection E2 as -> <-.
  destruct (cleanup_ok id s3 config s4) as (r0 & r' & H0 & H' & Hc & _ & Hn & Hsame & Hdel); [|done|].
  { rewrite Hd. by eapply keyed_row. }
  rewrite Hrow in H0. injection H0 as <-. cbn [switched_row sb_config sb_set_updated_at sb_set_config] in Hsame, Hdel.
  assert (Hhome : text_of_config "home_claim" (sb_config (switched_row w target node source r)) = Some target).
  { cbn. rewrite !text_dset_other by done. rewrite text_dset by done. by case_decide. }
  exists r', (h_db s3), (switched_row w target node source r). rewrite Hc. split_and!; try done.
  - unfold text_of_config in Hhome |- *. by rewrite Hsame.
  - unfold says. rewrite Hsame by done. cbn. rewrite dget_dset_ne, dget_dset_eq by done. by apply bool_decide_eq_true.
  - apply Hdel. rewrite text_dset by done. by case_decide.
Qed.

Lemma bind_still {A B} (m : M Homes A) (k : A → M Homes B) s b s' :
  (m ≫= k) s = (Ok b, s') → only (λ _, True) m s → ∃ a s1, m s = (Ok a, s1) ∧ k a s1 = (Ok b, s') ∧ h_db s1 = h_db s.
Proof. intros (a & s1 & E1 & E2)%bind_ok_inv Hm. exists a, s1. split_and!; [done..|by eapply only_db]. Qed.
(** Requests after a state leave what was asked before. *)
Lemma only_logged {A} P (m : M Homes A) s r s' e : only P m s → m s = (r, s') → e ∈ s.(h_calls) → e ∈ s'.(h_calls).
Proof. intros (_ & l & Hl & _) E He. rewrite E in Hl. cbn in Hl. rewrite Hl. apply elem_of_app. by right. Qed.
Definition anything (c : Call) : Prop := True.
Lemma any c : (∀ n, c ≠ DeleteClaim n) → anything c.
Proof. done. Qed.

(** ** Everything that runs on homes, in any order

    One operation after another, with any other transactions between them that keep
    claims apart; names drawn are held by no row. *)
Inductive homes_step : Homes → Homes → Prop :=
| hs_other w s : homes_ok w.(w_db) → homes_step s (mkHomes w s.(h_calls))
| hs_refill hexes s : homes_step s (refill_spare_volumes hexes s).2
| hs_run in_cluster name image id env server desktop size hex s :
    unclaimed (h_db s) ("zoo-spare-home-" +:+ hex) →
    homes_step s (run_container in_cluster name image id env server desktop size hex s).2
| hs_cleanup id s : homes_step s (cleanup_previous_home_claim id s).2
| hs_snapshot id sid server temporary reader s :
    unclaimed (h_db s) temporary → homes_step s (snapshot id sid server temporary reader s).2
| hs_restore id sid server writer s : homes_step s (restore_snapshot id sid server writer s).2
| hs_move id node snapshot_id uuid drawn temporary reader writer s :
    unclaimed (h_db s) ("zoo-home-" +:+ id +:+ "-" +:+ drawn) → unclaimed (h_db s) temporary →
    homes_step s (move_volume id node snapshot_id uuid drawn temporary reader writer s).2.

Lemma homes_step_kept s s' : homes_step s s' → homes_kept s → homes_kept s'.
Proof.
  intros [w s0 Hw|hexes s0|in_cluster name image id env server desktop size hex s0 Hf|id s0|id sid server temporary reader s0 Hf
    |id sid server writer s0|id node sid uuid drawn temporary reader writer s0 Ht Hf] Hs.
  - split; [done|apply Hs].
  - revert Hs. apply keeps_only, only_refill.
  - revert Hs. by apply keeps_run.
  - revert Hs. apply keeps_cleanup.
  - revert Hs. apply keeps_only. intros _. apply only_snapshot; [apply spares_others|by apply spares_unclaimed].
  - revert Hs. apply keeps_only. intros _. apply only_restore_snapshot, spares_others.
  - revert Hs. by apply moving_keeps.
Qed.

(** C17: Whatever the cluster answers, in any order of starts, moves, refills of spare volumes, snapshots, restores and clean-ups, and even when the answer to the commit of a move is lost, a claim that is asked to be deleted is at that moment no sandbox's home; and two sandboxes never come to hold the same claim. *)
Theorem homes_never_deleted s s' n d :
  homes_ok (h_db s) → s.(h_calls) = [] → rtc homes_step s s' →
  homes_ok (h_db s') ∧ ((DeleteClaim n, d) ∈ s'.(h_calls) → ¬ current d n).
Proof.
  intros Hd Hc Hsteps. assert (Hs : homes_kept s) by (split; [done|by rewrite Hc]). revert Hs. clear Hd Hc.
  induction Hsteps as [s|s s1 s' H1 _ IH]; intros Hs; [|apply IH; by eapply homes_step_kept].
  split; [apply Hs|]. intros Hin. destruct Hs as [_ Hall]. rewrite Forall_forall in Hall. by apply (Hall _ Hin).
Qed.

(** C18: A move that ends well leaves the sandbox with one home: its home is the claim returned, on the target node and with no earlier claim left to clean up; that claim is either the one it had, or the new one, and then the claim it had was deleted at a time when the row already named the new one as its home. *)
Theorem move_volume_moves id node snapshot_id uuid drawn temporary reader writer s t s' :
  keyed (h_db s) → move_volume id node snapshot_id uuid drawn temporary reader writer s = (Ok t, s') →
  ∃ r0 source r, (h_db s).(sandboxes) !! id = Some r0 ∧ text_of_config "home_claim" r0.(sb_config) = Some source ∧
    (h_db s').(sandboxes) !! id = Some r ∧ text_of_config "home_claim" r.(sb_config) = Some t ∧
    says "node_name" node r.(sb_config) = true ∧ has_key "previous_home_claim" r.(sb_config) = false ∧
    (t = source ∨
     t = "zoo-home-" +:+ id +:+ "-" +:+ drawn ∧
     ∃ d rd, (DeleteClaim source, d) ∈ s'.(h_calls) ∧ d.(sandboxes) !! id = Some rd ∧ text_of_config "home_claim" rd.(sb_config) = Some t).
Proof.
  intros Hk. unfold move_volume. intros (config & s1 & E1 & E)%bind_ok_inv.
  destruct (cleanup_ok _ _ _ _ Hk E1) as (r0 & r1 & Hr0 & Hr1 & Hc & Hk1 & Hn & Hsame & _). clear E1.
  apply bind_still in E as (rc & s2 & _ & E & H2); [|by apply only_ask].
  apply bind_still in E as (all & s3 & _ & E & H3); [|by apply only_ask].
  apply bind_still in E as (u1 & s4 & _ & E & H4); [|apply only_guard].
  apply bind_still in E as (pod & s5 & _ & E & H5); [|apply only_existing_pod, any].
  apply bind_still in E as (u2 & s6 & _ & E & H6); [|apply only_guard].
  destruct (text_of_config "home_claim" config) as [source|] eqn:Es; [|done].
  apply bind_still in E as (claim & s7 & _ & E & H7); [|by apply only_ask].
  assert (H7' : h_db s7 = h_db s1) by congruence. clear H2 H3 H4 H5 H6 H7 s2 s3 s4 s5 s6 pod all rc u1 u2.
  assert (Hsource : text_of_config "home_claim" r0.(sb_config) = Some source).
  { unfold text_of_config in Es |- *. by rewrite <- (Hsame "home_claim"). }
  destruct (_ && _) eqn:Eb.
  { injection E as <- <-. apply andb_prop in Eb as [Eb _]. exists r0, source, r1. rewrite H7', Hc. by split_and!; [..|left]. }
  destruct (cm_storage claim) as [storage|]; [|done].
  apply bind_still in E as (copied & s8 & _ & E & H8).
  2: { apply only_observe, only_bind; [by apply only_snapshot|]. intros. apply only_bind; [by apply only_ensure_claim|]. intros. by apply only_restore_claim. }
  apply bind_ok_inv in E as ([o keep] & s9 & E9 & E). apply bind_ok_inv in E as (u3 & s10 & E10 & E). apply bind_ok_inv in E as (u4 & s11 & E11 & E12).
  injection E12 as -> <-.
  destruct copied as [u|e]; [|by injection E9]. assert (Hk8 : keyed (h_db s8)) by (by rewrite H8, H7').
  assert (Hne : "zoo-home-" +:+ id +:+ "-" +:+ drawn ≠ "") by done.
  destruct (switch_home_ok _ _ _ _ _ _ _ _ Hk8 (text_nonempty _ _ _ Es) Hne E9) as (-> & r & d & rd & Hr & Hhome & Hnode & Hnp & Hdel & Hrd & Hrdh).
  assert (Ho10 : only anything (when (negb keep) (delete_claim ("zoo-home-" +:+ id +:+ "-" +:+ drawn) true)) s9).
  { unfold when. destruct (negb keep); [|apply only_ret]. by apply only_delete_claim. }
  assert (Ho11 : only anything (when (is_none snapshot_id) (remove_snapshot (default uuid (str_or_none snapshot_id)) None)) s10).
  { unfold when. destruct (is_none snapshot_id); [|apply only_ret]. by apply only_remove_snapshot. }
  assert (Hd11 : h_db s11 = h_db s9) by (rewrite (only_db _ _ _ _ _ Ho11 E11); by eapply only_db).
  exists r0, source, r. rewrite Hd11. split_and!; try done. right. split; [done|]. exists d, rd. split_and!; try done.
  eapply only_logged; [exact Ho11|exact E11|]. eapply only_logged; [exact Ho10|exact E10|exact Hdel].
Qed.

End homes.

(** ** What was reserved is what the pod takes *)

(** The pod of a sandbox with the overhead that admission adds of its RuntimeClass. *)
Definition admitted (rc : RuntimeClass) (spec : PodSpec) : PodSpec :=
  mkPodSpec spec.(s_node_name) spec.(s_runtime_class) spec.(s_priority_class) spec.(s_init) spec.(s_containers) spec.(s_volumes)
    rc.(rc_overhead) spec.(s_requests) spec.(s_pull_secrets).

Lemma plus_none a : plus_requests a no_requests = a.
Proof. destruct a as [c m]. unfold plus_requests. cbn. by rewrite !Z.add_0_r. Qed.

Theorem pod_takes_reservation secret desktop_mb code_mb an rc desktop size image claim node env limits requested r :
  an.(an_runtime) = Ok rc → sandbox_requests desktop_mb code_mb desktop size = Ok requested →
  requested_of desktop_mb code_mb an desktop size = Ok r →
  pod_requests (admitted rc (sandbox_spec secret image claim node env requested limits)) = Ok r.
Proof.
  unfold requested_of, mbind, result_bind. intros -> ->. destruct (resource_requests requested) as [q|e] eqn:Eq; [|done].
  destruct (resource_requests (rc_overhead rc)) as [o|e] eqn:Eo; [|done]. intros [= <-].
  destruct (resource_requests_nonneg _ _ Eq) as [Hc Hm].
  unfold pod_requests, mbind, result_bind. cbn [sandbox_spec admitted s_containers s_init s_overhead s_requests sum_requests init_requests c_requests c_restart_policy].
  unfold mbind, result_bind. rewrite Eq, Eo. cbn [dhas dget bool_decide]. rewrite !plus_none.
  f_equal. f_equal. unfold max_requests. cbn. destruct q as [c m]. cbn in *. f_equal; lia.
Qed.

(** ** A cluster to try it on

    Its claims are those there at first and what was asked of them since; a claim with
    a selected node is bound there at once, and a pod runs once it is made. *)
Definition bind_claim (c : ClaimObj) : ClaimObj :=
  match selected_node c with
  | Some _ => mkClaimObj c.(cm_name) c.(cm_labels) c.(cm_annotations) c.(cm_deleting) "1" ("pv-" +:+ c.(cm_name)) c.(cm_data_source) c.(cm_data_source_ref)
                c.(cm_storage_class) c.(cm_access_modes) c.(cm_volume_mode) c.(cm_storage) (Some "Bound")
  | None => c
  end.
Definition patch_claim (labels annotations : list (string * string)) (c : ClaimObj) : ClaimObj :=
  bind_claim (mkClaimObj c.(cm_name) (dmerge c.(cm_labels) labels) (dmerge c.(cm_annotations) annotations) c.(cm_deleting) "2" c.(cm_volume_name)
    c.(cm_data_source) c.(cm_data_source_ref) c.(cm_storage_class) c.(cm_access_modes) c.(cm_volume_mode) c.(cm_storage) c.(cm_phase)).
Definition on_claims (e : Call * Db) (l : list ClaimObj) : list ClaimObj :=
  match e.1 with
  | PostClaim c => l ++ [bind_claim c]
  | DeleteClaim n => filter (λ c, c.(cm_name) ≠ n) l
  | PatchClaim n _ labels annotations => (λ c, if bool_decide (c.(cm_name) = n) then patch_claim labels annotations c else c) <$> l
  | _ => l
  end.
Definition on_pods (e : Call * Db) (l : list PodObj) : list PodObj :=
  match e.1 with
  | PostPod p _ => mkPodObj (Some "zoo") p.(po_name) p.(po_labels) false p.(po_spec) (Some "Running") [] []
                     [mkContainerStatus (Some CONTAINER) None true None] "10.0.0.9" [] None None :: l
  | DeletePod n => filter (λ p, p.(po_name) ≠ n) l
  | _ => l
  end.
Definition on_snapshots (e : Call * Db) (l : list string) : list string :=
  match e.1 with PostSnapshot n _ => n :: l | DeleteSnapshot n => filter (λ m, m ≠ n) l | _ => l end.
Definition or_404 {A} (o : option A) : result exn A := match o with Some a => Ok a | None => Err (KubeError 404 []) end.
Definition demo_node (n : string) : NodeObj := mkNodeObj n [] [mkCondition "Ready" "True" None None] [] false "4" "16Gi" [].

Section demo.
Context (claims : list ClaimObj) (commit : option (exn * bool)).
Definition claims_now (h : History) : list ClaimObj := foldr on_claims claims h.
Definition pods_now (h : History) : list PodObj := foldr on_pods [] h.
Definition demo_api : Api :=
  mkApi (λ h n, or_404 (head (filter (λ c, c.(cm_name) = n) (claims_now h))))
    (λ h, Ok (filter (λ c, dhas SPARE_NODE c.(cm_labels) = true) (claims_now h))) (λ h, Ok (pods_now h))
    (λ h n, or_404 (head (filter (λ p, p.(po_name) = n) (pods_now h)))) (λ _, Ok (Some "WaitForFirstConsumer"))
    (λ _ _, Ok (mkVolumeObj None)) (λ _ n, Ok (demo_node n)) (λ _, Ok [demo_node "n1"; demo_node "n2"]) (λ h, Ok (pods_now h))
    (λ _, Ok demo_class) (λ _, Ok (Some "Delete"))
    (λ h n, if bool_decide (n ∈ foldr on_snapshots [] h) then Ok (mkSnapshotStatus None true (Some "1Gi")) else Err (KubeError 404 []))
    (λ _, Ok (0, "7", "")) (λ _, commit)
    (λ h, match h with (ListKeys prefix, _) :: _ => Ok [part_key prefix 0] | _ => Ok [] end) (λ _, Ok tt).
End demo.

Definition demo_claim (name node : string) : ClaimObj :=
  bind_claim (mkClaimObj name (LABELS ++ [(COMPONENT, "home")]) [(SELECTED_NODE, node)] false "1" "" None None (Some "fast") ["ReadWriteOnce"] None (Some "10Gi") None).
Definition demo_home (id : string) (st : status) : Sandbox :=
  sb_set_config [("home_claim", JStr (claim_name id)); ("node_name", JStr "n1"); ("image", JStr "img")] (demo_row id st).
Definition demo_homes (rows : list (string * Sandbox)) : Homes := mkHomes (demo_rows rows) [].
Definition demo_start : Homes := demo_homes [("a", demo_home "a" Stopped)].
Definition seven (s : string) : option Z := if bool_decide (s = "7") then Some 7 else None.
Abbreviation demo_move api := (move_volume api "zoo" "fast" "10Gi" "csi" "" "" "up" "down" 3 seven "a" "n2" None "u1" "x1" "copy1" "reader1" "writer1").
Abbreviation demo_refill api := (refill_spare_volumes api "fast" "10Gi" 1 (λ n, n) 3 (λ n k, (λ i : nat, n +:+ "-" +:+ pretty i) <$> seq 0 k)).
Abbreviation demo_run api := (run_container api "zoo" "fast" "10Gi" 1 "" (λ n, n) 3 seven 700 250 true "zoo-sandbox-a" "img" "a" [] None true (mkSize 2 2048 None) "h1").
Definition lost : exn := RuntimeError [Txt "the connection is lost"].
Definition a_claim : ClaimObj := demo_claim "zoo-home-a" "n1".
Definition deleted_in (s : Homes) : list string := omap (λ e : Call * Db, match e.1 with DeleteClaim n => Some n | _ => None end) (rev s.(h_calls)).

(** A move; and a move whose commit's answer is lost: the new claim is then kept, as
    the row may name it, and if it does the earlier one is deleted at the next
    clean-up. *)
Example moves_and_lost_commits :
  let moved := demo_move (demo_api [a_claim] None) demo_start in
  let applied := demo_move (demo_api [a_claim] (Some (lost, true))) demo_start in
  let undone := demo_move (demo_api [a_claim] (Some (lost, false))) demo_start in
  moved.1 = Ok "zoo-home-a-x1" ∧ deleted_in moved.2 = ["copy1"; "zoo-home-a"] ∧
  applied.1 = Err lost ∧ deleted_in applied.2 = ["copy1"] ∧
  deleted_in (cleanup_previous_home_claim (demo_api [a_claim] None) 3 "a" applied.2).2 = ["copy1"; "zoo-home-a"] ∧
  undone.1 = Err lost ∧ deleted_in undone.2 = ["copy1"] ∧ h_db undone.2 = h_db demo_start.
Proof. by vm_compute. Qed.

(** Spare claims are made, and the first start of a sandbox takes the one on its
    node; the next refill makes another. *)
Example spares_made_and_taken :
  let s1 := demo_homes [("a", sb_set_config [("home_claim", JStr (claim_name "a"))] (demo_row "a" Provisioning))] in
  let s2 := (demo_refill (demo_api [] None) s1).2 in
  let started := demo_run (demo_api [] None) s2 in
  started.1 = Ok ("k8s:zoo/zoo-sandbox-a", Some "10.0.0.9") ∧
  (cm_name <$> claims_now [] s2.(h_calls)) = ["zoo-spare-home-n1-0"; "zoo-spare-home-n2-0"] ∧
  (sandboxes (h_db started.2) !! "a" ≫= λ r, text_of_config "home_claim" r.(sb_config)) = Some "zoo-spare-home-n1-0" ∧
  deleted_in started.2 = [].
Proof. by vm_compute. Qed.

Lemma demo_ok d n (r : Sandbox) :
  d.(sandboxes) = {[n := r]} → d.(pool_sandboxes) = ∅ → is_linux r.(sb_kind) = true → homes_ok d.
Proof.
  intros H Hp Hl. split.
  - intros [b i] [b' i'] c. unfold claims_of. cbn. rewrite H, Hp. destruct b, b'; cbn; rewrite ?lookup_empty; cbn; try set_solver.
    destruct (decide (n = i)) as [<-|Hi]; [|rewrite lookup_singleton_ne by done; set_solver].
    destruct (decide (n = i')) as [<-|Hi]; [done|]. rewrite (lookup_singleton_ne n i') by done. set_solver.
  - intros i r'. rewrite H. intros [<- <-]%lookup_singleton_Some. done.
Qed.

Lemma demo_unclaimed c : c ∉ claim_names (sb_config (demo_home "a" Stopped)) → unclaimed (h_db demo_start) c.
Proof.
  intros Hc [b i]. unfold claims_of. cbn [fst snd]. destruct b.
  - change (pool_sandboxes (h_db demo_start)) with (∅ : gmap string PoolSandbox). rewrite lookup_empty. set_solver.
  - change (sandboxes (h_db demo_start)) with ({["a" := demo_home "a" Stopped]} : gmap string Sandbox).
    destruct (decide ("a" = i)) as [<-|Hi]; [rewrite lookup_singleton_eq; exact Hc|rewrite lookup_singleton_ne by done; set_solver].
Qed.

Lemma homes_never_deleted_witness :
  let s' := (demo_move (demo_api [a_claim] None) demo_start).2 in
  existsb (λ e : Call * Db, match e.1 with DeleteClaim n => bool_decide (n = "zoo-home-a") | _ => false end) s'.(h_calls) = true ∧
  ∀ d, (DeleteClaim "zoo-home-a", d) ∈ s'.(h_calls) → ¬ current d "zoo-home-a".
Proof.
  cbn zeta. split; [by vm_compute|]. intros d Hin.
  refine (proj2 (homes_never_deleted (demo_api [a_claim] None) "zoo" "fast" "10Gi" "csi" 1 "" "" "up" "down" (λ n, n) 3 seven 700 250 demo_start _ "zoo-home-a" d _ eq_refl _) Hin).
  - by apply (demo_ok _ "a" (demo_home "a" Stopped)).
  - apply rtc_once, hs_move; apply demo_unclaimed, (bool_decide_eq_false_1 (_ ∈ _)); by vm_compute.
Defined.

Lemma move_volume_moves_witness :
  let moved := demo_move (demo_api [a_claim] None) demo_start in
  moved.1 = Ok "zoo-home-a-x1" ∧ ∃ r, (h_db moved.2).(sandboxes) !! "a" = Some r ∧ text_of_config "home_claim" r.(sb_config) = Some "zoo-home-a-x1".
Proof.
  cbn zeta. assert ((demo_move (demo_api [a_claim] None) demo_start).1 = Ok "zoo-home-a-x1") as E by by vm_compute. split; [exact E|].
  destruct (demo_move (demo_api [a_claim] None) demo_start) as [o s'] eqn:Em. cbn in E. subst o.
  refine (match move_volume_moves _ _ _ _ _ _ _ _ _ _ _ "a" "n2" None "u1" "x1" "copy1" "reader1" "writer1" demo_start "zoo-home-a-x1" s' _ Em with
    | ex_intro _ _ (ex_intro _ _ (ex_intro _ r (conj _ (conj _ (conj Hr (conj Hh _)))))) => ex_intro _ r (conj Hr Hh) end).
  intros i r H. change (sandboxes (h_db demo_start)) with ({["a" := demo_home "a" Stopped]} : gmap string Sandbox) in H.
  by apply lookup_singleton_Some in H as [<- <-].
Defined.
