(* ===== verification/Sdk.v ===== *)
(** The Python SDK (src/sdk/python/zoo_sdk/): which requests it repeats and when,
    how it reads errors and streams, and its repeats against the idempotency keys of
    the server. *)

From Stdlib Require Import Lqa.
From S2P Require Import Prelude Tables Codec Kms Security Platforms Regex Errors Idempotency.


Definition newline : ascii := ascii_of_nat 10.

(** ** Requests *)

(** Source: src/sdk/python/zoo_sdk/_transport.py:28-64 [Config]. *)
Record Config := mkConfig { cf_base_url : string; cf_api_key : string; cf_timeout : Q; cf_max_retries : Z; cf_workspace : option string }.

Fixpoint removesuffix (suffix s : string) : string :=
  if bool_decide (s = suffix) then "" else match s with String c s => String c (removesuffix suffix s) | EmptyString => "" end.
Definition rstrip_slash (s : string) : string :=
  String.rev ((fix go s := match s with String c t => if bool_decide (c = "/"%char) then go t else s | EmptyString => s end) (String.rev s)).
Definition first_of (a b : option string) : option string := match str_or_none a with Some x => Some x | None => b end.

(** Source: src/sdk/python/zoo_sdk/_transport.py:36-55 [Config.load]. *)
Definition load (environ : list (string * string)) (api_key base_url : option string) (timeout : option Q) (max_retries : option Z)
    (workspace : option string) : result exn Config :=
  match str_or_none (first_of api_key (dget "ZOO_API_KEY" environ)) with
  | None => Err (ValueError [Txt "pass api_key= or set ZOO_API_KEY (create a key in Settings → API keys)"])
  | Some key =>
      let url := rstrip_slash (or_else (default "" (first_of base_url (dget "ZOO_URL" environ))) "http://localhost:8000") in
      Ok (mkConfig (removesuffix "/v1" url) key (default 30%Q timeout) (default 3 max_retries) (first_of workspace (dget "ZOO_WORKSPACE" environ)))
  end.

(** Source: src/sdk/python/zoo_sdk/_transport.py:57-61 [Config.headers]. *)
Definition config_headers (c : Config) : list (string * string) :=
  [("Authorization", "Bearer " +:+ c.(cf_api_key)); ("User-Agent", "zoo-sdk-python/0.2.0")] ++
  match str_or_none c.(cf_workspace) with Some w => [("X-Zoo-Workspace", w)] | None => [] end.
(** Source: src/sdk/python/zoo_sdk/_transport.py:63-64 [Config.url]. *)
Definition url (c : Config) (path : string) : string := c.(cf_base_url) +:+ "/v1" +:+ path.

Fixpoint text (s : string) : re := match s with String c s => Cat (chr c) (text s) | EmptyString => Eps end.
Definition segment : re := let c := Cls (λ a, negb (bool_decide (a = "/"%char))) in Cat c (Star c).
(** Source: src/sdk/python/zoo_sdk/_transport.py:24-24 [CREATES]. *)
Definition CREATES : re :=
  Cat (text "/") (Alt (text "sandboxes") (Alt (Cat (text "sandboxes/") (Cat segment (text "/snapshots")))
    (Alt (Cat (text "sandboxes/") (Cat segment (text "/viewer-links"))) (Alt (text "webhooks") (text "api-keys"))))).
(** [CREATES.match]: the dollar also matches before a last line feed. *)
Definition creates (path : string) : bool := accepts CREATES path || accepts (Cat CREATES (chr newline)) path.
(** Source: src/sdk/python/zoo_sdk/_transport.py:25-25 [IDEMPOTENT]. *)
Definition IDEMPOTENT : list string := ["GET"; "HEAD"; "PUT"; "DELETE"; "OPTIONS"].

(** Source: src/sdk/python/zoo_sdk/_transport.py:67-71 [prepare].  [uuid] is the draw. *)
Definition prepare (uuid method path : string) (headers : list (string * string)) : list (string * string) :=
  if bool_decide (method = "POST") && creates path && negb (dhas "Idempotency-Key" headers)
  then dset "Idempotency-Key" uuid headers else headers.

(** What comes of one attempt: an answer (its status, its Retry-After and its body,
    if that is JSON), or an exception of httpx. *)
Inductive NetError := ConnectError | ConnectTimeout | ReadTimeout | WriteTimeout | PoolTimeout | RemoteProtocolError | OtherTransportError.
Record Answer := mkAnswer { aw_status : Z; aw_retry_after : option string; aw_json : option json; aw_text : string }.
Inductive Outcome := Answered (a : Answer) | Failed (e : NetError).

Definition is_timeout (e : NetError) : bool :=
  match e with ConnectTimeout | ReadTimeout | WriteTimeout | PoolTimeout => true | _ => false end.
Definition unreached (e : NetError) : bool := match e with ConnectError | ConnectTimeout => true | _ => false end.
Definition is_success (status : Z) : bool := (200 <=? status) && (status <? 300).

(** Source: src/sdk/python/zoo_sdk/_transport.py:74-84 [retryable]. *)
Definition retryable (method : string) (headers : list (string * string)) (o : Outcome) : bool :=
  let safe := bool_decide (method ∈ IDEMPOTENT) || dhas "Idempotency-Key" headers in
  match o with
  | Failed e => unreached e || safe && (is_timeout e || match e with RemoteProtocolError => true | _ => false end)
  | Answered a => (a.(aw_status) =? 429) || safe && bool_decide (a.(aw_status) ∈ [500; 502; 503; 504])
  end.

Fixpoint digits_value (n : Z) (s : string) : option Z :=
  match s with
  | EmptyString => Some n
  | String c s => let d := Z.of_nat (nat_of_ascii c) - 48 in if (0 <=? d) && (d <=? 9) then digits_value (10 * n + d) s else None
  end.

Definition qmin (a b : Q) : Q := if Qle_bool a b then a else b.
(** Source: src/sdk/python/zoo_sdk/_transport.py:87-92 [backoff].  [random] is the draw, from 0
    up to 1; digits are ASCII. *)
Definition backoff (random : Q) (attempt : nat) (o : Outcome) : Q :=
  let after := match o with Answered a => match str_or_none a.(aw_retry_after) with Some t => digits_value 0 t | None => None end | Failed _ => None end in
  match after with
  | Some n => inject_Z (Z.min n 60)
  | None => (qmin (inject_Z (2 ^ Z.of_nat attempt) / 2) 8 * ((1 # 2) + random / 2))%Q
  end.

(** ** Errors *)

Inductive SdkClass := AuthenticationError | PermissionDeniedError | NotFoundError | ConflictError | ValidationError | RateLimitError
  | ServerError | APIConnectionError | APITimeoutError | PlainError.
Record SdkError := mkSdkError { se_class : SdkClass; se_status : option Z; se_code : string; se_message : string;
  se_hint : option json; se_docs_url : option json; se_request_id : option json }.

(** Source: src/sdk/python/zoo_sdk/errors.py:65-72 [BY_STATUS]. *)
Definition class_of (status : Z) : SdkClass :=
  if status =? 401 then AuthenticationError else if status =? 403 then PermissionDeniedError else if status =? 404 then NotFoundError
  else if status =? 409 then ConflictError else if status =? 422 then ValidationError else if status =? 429 then RateLimitError
  else if 500 <=? status then ServerError else PlainError.

Section errors.
(** [str] of a value that is not a text. *)
Context (str_of : json → string).
Definition str (j : json) : string := match j with JStr s => s | j => str_of j end.
Definition field (k : string) (j : option json) : option json := match j with Some (JObj d) => dget k d | _ => None end.
Definition str_if (j : option json) (other : string) : string :=
  match j with Some j => if truthy j then str j else other | None => other end.

(** Source: src/sdk/python/zoo_sdk/errors.py:75-89 [from_response]. *)
Definition from_response (status : Z) (body : option json) (text : string) : SdkError :=
  let failed := "request failed (" +:+ pretty status +:+ ")" in
  let error := match field "error" body with
    | Some (JObj e) => e
    | _ => [("message", JStr (str_if (field "detail" body) (or_else text failed)))]
    end in
  mkSdkError (class_of status) (Some status) (str_if (dget "code" error) "error") (str_if (dget "message" error) failed)
    (dget "hint" error) (dget "docs_url" error) (dget "request_id" error).

(** Source: src/sdk/python/zoo_sdk/_transport.py:95-102 [raise_for].  For an answer that is no
    success. *)
Definition raise_for (a : Answer) : SdkError :=
  from_response a.(aw_status) a.(aw_json) (match a.(aw_json) with Some _ => "" | None => String.substring 0 500 a.(aw_text) end).

Definition gave_up (e : NetError) (method path base_url : string) : SdkError :=
  if is_timeout e then mkSdkError APITimeoutError None "timeout" (method +:+ " " +:+ path +:+ " timed out") None None None
  else mkSdkError APIConnectionError None "connection_error" ("couldn't reach " +:+ base_url) None None None.

(** ** The client *)

Definition Sdk (St A : Type) : Type := St → result SdkError A * St.
#[global] Instance sdk_ret St : MRet (Sdk St) := λ A a s, (Ok a, s).
#[global] Instance sdk_bind St : MBind (Sdk St) := λ A B f m s, match m s with (Ok a, s) => f a s | (Err e, s) => (Err e, s) end.
Definition fail_with {St A} (e : SdkError) : Sdk St A := λ s, (Err e, s).
Definition rescue {St A} (m : Sdk St A) (h : SdkError → Sdk St A) : Sdk St A :=
  λ s, match m s with (Ok a, s) => (Ok a, s) | (Err e, s) => h e s end.
Definition plain (message : string) : SdkError := mkSdkError PlainError None "error" message None None None.

Section client.
(** The state of the world; sending a request with its headers, and sleeping for what
    [backoff] makes of a draw. *)
Context {St : Type} (send : string → string → list (string * string) → option json → St → Outcome * St) (sleep : (Q → Q) → St → St).
Context (config : Config).

(** The loop of [request]: [n] attempts may follow. *)
Fixpoint attempts (n attempt : nat) (method path : string) (headers : list (string * string)) (body : option json) : Sdk St Answer := λ s,
  let '(o, s) := send method path headers body s in
  let again := retryable method headers o in
  match o with
  | Answered a =>
      if is_success a.(aw_status) then (Ok a, s) else
      match n with
      | S n => if again then attempts n (S attempt) method path headers body (sleep (λ r, backoff r attempt o) s) else (Err (raise_for a), s)
      | O => (Err (raise_for a), s)
      end
  | Failed e =>
      match n with
      | S n => if again then attempts n (S attempt) method path headers body (sleep (λ r, backoff r attempt o) s)
               else (Err (gave_up e method path config.(cf_base_url)), s)
      | O => (Err (gave_up e method path config.(cf_base_url)), s)
      end
  end.

(** Source: src/sdk/python/zoo_sdk/client.py:58-106 [Zoo.request]. *)
Definition request (uuid method path : string) (headers : list (string * string)) (body : option json) : Sdk St Answer :=
  attempts (Z.to_nat config.(cf_max_retries)) 0 method path (prepare uuid method path headers) body.
(** A body that is not JSON raises what [response.json()] raises, here a plain error. *)
Definition json_call (uuid method path : string) (body : option json) : Sdk St json :=
  a ← request uuid method path [] body;
  match a.(aw_json) with Some j => mret j | None => fail_with (plain "invalid JSON") end.

(** ** Sandboxes *)

Definition text_field (k : string) (j : json) : string := match field k (Some j) with Some (JStr s) => s | _ => "" end.
Definition sandbox_path (id : string) : string := "/sandboxes/" +:+ id.
Definition SETTLING : list string := ["pending"; "provisioning"].
Definition is_404 (e : SdkError) : bool := match e.(se_class) with NotFoundError => true | _ => false end.

(** Source: src/sdk/python/zoo_sdk/client.py:276-278 [Sandbox.refresh]. *)
Definition refresh (id : string) : Sdk St json := json_call "" "GET" (sandbox_path id) None.

(** Source: src/sdk/python/zoo_sdk/client.py:280-289 [Sandbox.wait].  [n] is how often it may look
    before the deadline. *)
Fixpoint wait (n : nat) (id : string) : Sdk St json :=
  data ← refresh id;
  if bool_decide (text_field "status" data ∈ SETTLING) then
    match n with
    | O => fail_with (plain ("sandbox " +:+ id +:+ " not ready"))
    | S n => λ s, wait n id (sleep (λ _, 1%Q) s)
    end
  else if bool_decide (text_field "status" data = "running") then mret data
  else fail_with (plain ("sandbox " +:+ id +:+ " is " +:+ text_field "status" data +:+ ": " +:+ text_field "error_message" data)).

(** The wait of [delete] until the sandbox is gone. *)
Fixpoint wait_gone (n : nat) (id : string) : Sdk St unit :=
  seen ← rescue (data ← refresh id; mret (Some data)) (λ e, if is_404 e then mret None else fail_with e);
  match seen with
  | None => mret tt
  | Some _ => match n with
              | O => fail_with (plain ("sandbox " +:+ id +:+ " wasn't deleted"))
              | S n => λ s, wait_gone n id (sleep (λ _, 1%Q) s)
              end
  end.

(** Source: src/sdk/python/zoo_sdk/client.py:368-382 [Sandbox.delete].  [waits] is how often it may
    look; [None] does not wait. *)
Definition delete (waits : option nat) (id : string) : Sdk St unit :=
  there ← rescue (request "" "DELETE" (sandbox_path id) [] None ≫= λ _, mret true) (λ e, if is_404 e then mret false else fail_with e);
  match waits with
  | Some n => if there : bool then wait_gone n id else mret tt
  | None => mret tt
  end.

(** The wait of [stop]: while a job works on the sandbox, or it runs. *)
Fixpoint wait_stopped (n : nat) (id : string) (data : json) : Sdk St json :=
  if match field "job" (Some data) with Some j => truthy j | None => false end || bool_decide (text_field "status" data = "running") then
    match n with
    | O => fail_with (plain ("sandbox " +:+ id +:+ " didn't stop"))
    | S n => λ s, (data ← refresh id; wait_stopped n id data) (sleep (λ _, 1%Q) s)
    end
  else mret data.

(** Source: src/sdk/python/zoo_sdk/client.py:357-366 [Sandbox.stop]. *)
Definition stop (waits : option nat) (id : string) : Sdk St json :=
  data ← json_call "" "POST" (sandbox_path id +:+ "/stop") None;
  match waits with Some n => wait_stopped n id data | None => mret data end.
(** Source: src/sdk/python/zoo_sdk/client.py:353-355 [Sandbox.start]. *)
Definition start (waits : option nat) (id : string) : Sdk St json :=
  data ← json_call "" "POST" (sandbox_path id +:+ "/start") None;
  match waits with Some n => wait n id | None => mret data end.

Definition or_null (o : option string) : json := match o with Some s => JStr s | None => JNull end.
(** Source: src/sdk/python/zoo_sdk/client.py:167-193 [Zoo.create].  A sandbox that does not come up
    is deleted. *)
Definition create (uuid : string) (name : option string) (kind : string) (server_id : option string) (profile_ids : list string)
    (waits : option nat) (labels : list (string * json)) : Sdk St json :=
  data ← json_call uuid "POST" "/sandboxes"
    (Some (JObj [("name", or_null name); ("kind", JStr kind); ("server_id", or_null server_id); ("profile_ids", JArr (JStr <$> profile_ids)); ("labels", JObj labels)]));
  let id := text_field "id" data in
  match waits with
  | None => mret data
  | Some n => rescue (wait n id) (λ e, delete None id ≫= λ _, fail_with e)
  end.

(** Source: src/sdk/python/zoo_sdk/client.py:124-136 [Zoo.iter_sandboxes].  The sandboxes of all
    pages, at most [n] of them; [query] writes the parameters. *)
Fixpoint iter_sandboxes (n : nat) (query : option string → string) (cursor : option string) : Sdk St (list json) :=
  match n with
  | O => fail_with (plain "more pages")
  | S n =>
      page ← json_call "" "GET" ("/sandboxes" +:+ query cursor) None;
      let data := match field "data" (Some page) with Some (JArr l) => l | _ => [] end in
      match str_or_none (match field "next_cursor" (Some page) with Some (JStr c) => Some c | _ => None end) with
      | None => mret data
      | Some c => rest ← iter_sandboxes n query (Some c); mret (data ++ rest)
      end
  end.
End client.
End errors.

(** ** Server-sent events *)


Section sse.
(** [json.loads] *)
Context (loads : string → option json).

End sse.

(** ** The client against the server

    The application behind the middleware of idempotency.py, over a network that may
    lose requests and answers. *)

(** What a run of the application answers. *)
Record AppRun := mkAppRun { ar_response : Response; ar_retry_after : option string }.

(** What becomes of one attempt: it never arrives; it is answered; the answer is lost; or
    the client stops waiting while the application still runs. *)
Inductive Fate := Unreached (e : NetError) | Heard | Lost (e : NetError) | Slow (e : NetError).
(** The time that passes before an attempt arrives, whether rows are purged then, whether
    a run still going ends before, and its fate. *)
Record Turn := mkTurn { tu_wait : nat; tu_purge : bool; tu_ends : bool; tu_fate : Fate }.

Record Going := mkGoing { go_owner : string; go_key : string; go_started : time; go_run : AppRun }.
Record Remote := mkRemote { rm_idem : Idem; rm_going : option Going; rm_runs : list AppRun; rm_plan : list Turn }.

Section remote.
Context (sha256 : string → string) (dumps : option json → string) (loads : string → option json) (app : nat → AppRun) (config : Config).

(** The request as the middleware sees it. *)
Definition idem_request (method path : string) (headers : list (string * string)) (body : option json) : IdemRequest :=
  mkIdemRequest true method (default "" (dget "Idempotency-Key" headers)) ("Bearer " +:+ config.(cf_api_key))
    (default "" (str_or_none config.(cf_workspace))) "" ("/v1" +:+ path) (dumps body).

Definition answered (status : Z) (retry_after : option string) (body : string) : Answer := mkAnswer status retry_after (loads body) body.
Definition run_answer (r : AppRun) : Answer :=
  answered r.(ar_response).(rs_status) r.(ar_retry_after) (foldr String.append "" r.(ar_response).(rs_chunks)).

(** A run that is still going ends: if it is due, and always after
    ABANDONED_SECONDS. *)
Definition end_run (due : bool) (s : Remote) : Remote :=
  match s.(rm_going) with
  | Some g =>
      if due || bool_decide (sec ABANDONED_SECONDS < s.(rm_idem).(idem_now) - g.(go_started))
      then mkRemote (settle g.(go_owner) g.(go_key) g.(go_run).(ar_response) true s.(rm_idem)) None s.(rm_runs) s.(rm_plan)
      else s
  | None => s
  end.

(** The request arrives: its answer, and what is kept. *)
Definition arrive (slow : bool) (q : IdemRequest) (s : Remote) : Answer * Remote :=
  let '(a, idem) := admit_request sha256 q s.(rm_idem) in
  let run := app (length s.(rm_runs)) in
  match a with
  | Pass => (run_answer run, mkRemote idem s.(rm_going) (run :: s.(rm_runs)) s.(rm_plan))
  | Refuse code message => (answered (default 500 (code_status code)) None message, mkRemote idem s.(rm_going) s.(rm_runs) s.(rm_plan))
  | Replay status _ body => (answered status None body, mkRemote idem s.(rm_going) s.(rm_runs) s.(rm_plan))
  | Proceed o k =>
      (run_answer run,
       if slow then mkRemote idem (Some (mkGoing o k idem.(idem_now) run)) (run :: s.(rm_runs)) s.(rm_plan)
       else mkRemote (settle o k run.(ar_response) true idem) s.(rm_going) (run :: s.(rm_runs)) s.(rm_plan))
  end.

(** Before an attempt: time passes, rows are purged, a run ends. *)
Definition before (t : Turn) (s : Remote) : Remote :=
  let idem := mkIdem s.(rm_idem).(idem_rows) (s.(rm_idem).(idem_now) + Z.of_nat t.(tu_wait)) in
  end_run t.(tu_ends) (mkRemote (if t.(tu_purge) then purge idem else idem) s.(rm_going) s.(rm_runs) s.(rm_plan)).

Definition send (method path : string) (headers : list (string * string)) (body : option json) (s : Remote) : Outcome * Remote :=
  let '(t, plan) := match s.(rm_plan) with t :: plan => (t, plan) | [] => (mkTurn 0 false true Heard, []) end in
  let s := before t (mkRemote s.(rm_idem) s.(rm_going) s.(rm_runs) plan) in
  let q := idem_request method path headers body in
  match t.(tu_fate) with
  | Unreached e => (Failed (if unreached e then e else ConnectError), s)
  | Heard => let '(a, s) := arrive false q s in (Answered a, s)
  | Lost e => let '(_, s) := arrive false q s in (Failed (if unreached e then ReadTimeout else e), s)
  | Slow e => let '(_, s) := arrive true q s in (Failed (if unreached e then ReadTimeout else e), s)
  end.
(** Sleeping takes time, which the next turn's wait has in it. *)
Definition sleep (q : Q → Q) (s : Remote) : Remote := s.
End remote.

(** ** A create with a key runs until an answer is kept *)

(** The last run answered so. *)
Definition answers_last (status : Z) (s : Remote) : Prop :=
  ∃ run rest, s.(rm_runs) = run :: rest ∧ status = run.(ar_response).(rs_status).

Section once.
Context (sha256 : string → string) (dumps : option json → string) (loads : string → option json) (app : nat → AppRun) (config : Config).
Context (q : IdemRequest) (Hhttp : q.(ir_http) = true) (Hpost : q.(ir_method) = "POST").
Context (Hkey : strip q.(ir_key) ≠ "") (Hlen : (String.length (strip q.(ir_key)) ≤ MAX_KEY)%nat).

Let slot : string * string := (owner_of sha256 q, strip q.(ir_key)).
Let hash : string := hash_of sha256 q.

Lemma admit_new s :
  s.(idem_rows) !! slot = None →
  admit_request sha256 q s = (Proceed slot.1 slot.2, put_rows (<[slot := mkIdemRow "POST" q.(ir_path) hash None None None s.(idem_now)]> s.(idem_rows)) s).
Proof.
  intros H. unfold admit_request. rewrite Hhttp, Hpost. cbn [negb orb]. rewrite (proj2 (String.eqb_eq "POST" "POST") eq_refl). cbn [negb].
  rewrite (proj2 (String.eqb_neq _ _) Hkey), (proj2 (Nat.ltb_ge _ _) Hlen). unfold claim, claim_idempotency_key.
  unfold slot in H. rewrite H. done.
Qed.
Lemma admit_known s row :
  s.(idem_rows) !! slot = Some row → row.(ik_request_hash) = hash →
  (row.(ik_status) = None → s.(idem_now) - row.(ik_created_at) ≤ sec ABANDONED_SECONDS) →
  admit_request sha256 q s =
    (match row.(ik_status) with
     | None => Refuse "idempotency_key_in_progress" "a request with this Idempotency-Key is running"
     | Some status => Replay status (str_or_none row.(ik_content_type)) (default "" row.(ik_response))
     end, s).
Proof.
  intros H Hh Ht. unfold admit_request. rewrite Hhttp, Hpost. cbn [negb orb]. rewrite (proj2 (String.eqb_eq "POST" "POST") eq_refl). cbn [negb].
  rewrite (proj2 (String.eqb_neq _ _) Hkey), (proj2 (Nat.ltb_ge _ _) Hlen). unfold claim, claim_idempotency_key.
  unfold slot in H. rewrite H. cbn [negb]. unfold hash in Hh. destruct (ik_status row) as [st|] eqn:Es; cbn [is_none andb].
  - rewrite Hh, String.eqb_refl, Es. done.
  - rewrite bool_decide_eq_false_2 by (specialize (Ht eq_refl); lia). cbn [negb]. by rewrite Hh, String.eqb_refl, Es.
Qed.

(** Where the request stands: not run or not kept; kept; or still running. *)
Definition unkept (l : list AppRun) : Prop := Forall (λ r, ¬ keepable r.(ar_response)) l.
Inductive standing (now0 : time) (s : Remote) : Prop :=
| st_new : s.(rm_going) = None → s.(rm_idem).(idem_rows) !! slot = None → unkept s.(rm_runs) → standing now0 s
| st_kept row run rest :
    s.(rm_going) = None → s.(rm_idem).(idem_rows) !! slot = Some row → row.(ik_request_hash) = hash → now0 ≤ row.(ik_created_at) →
    row.(ik_status) = Some run.(ar_response).(rs_status) → s.(rm_runs) = run :: rest → unkept rest → standing now0 s
| st_going row g rest :
    s.(rm_going) = Some g → (g.(go_owner), g.(go_key)) = slot → s.(rm_idem).(idem_rows) !! slot = Some row → row.(ik_request_hash) = hash →
    row.(ik_status) = None → row.(ik_created_at) = g.(go_started) → now0 ≤ g.(go_started) → s.(rm_runs) = g.(go_run) :: rest →
    unkept rest → standing now0 s.

Lemma standing_unkept now0 s run rest : standing now0 s → s.(rm_runs) = run :: rest → unkept rest.
Proof. intros [_ _ H|row r l _ _ _ _ _ E H|row g l _ _ _ _ _ _ _ E H] Hr; [rewrite Hr in H; by apply Forall_cons in H as [_ ?]|congruence|congruence]. Qed.

(** A run that ends is kept or forgotten. *)
Lemma settle_standing now0 g o k idem runs plan rest row :
  (o, k) = slot → idem.(idem_rows) !! slot = Some row → row.(ik_request_hash) = hash → now0 ≤ row.(ik_created_at) → runs = g :: rest →
  unkept rest → standing now0 (mkRemote (settle o k g.(ar_response) true idem) None runs plan).
Proof.
  intros Hs Hrow Hh Ht -> Hun. destruct (decide (keepable g.(ar_response))) as [Hk|Hk].
  - rewrite settle_keepable by done. eapply (st_kept _ _ (mkIdemRow row.(ik_method) row.(ik_path) row.(ik_request_hash) (Some g.(ar_response).(rs_status)) g.(ar_response).(rs_content_type) (Some (foldr String.append "" g.(ar_response).(rs_chunks))) row.(ik_created_at))); try done.
    unfold finish, finish_idempotency_key. cbn. rewrite Hs, lookup_alter_eq, Hrow. done.
  - rewrite settle_unkept by done. apply st_new; [done| |by constructor]. unfold release, release_idempotency_key. cbn. rewrite Hs. apply lookup_delete_eq.
Qed.

Lemma purge_new idem : idem.(idem_rows) !! slot = None → (purge idem).(idem_rows) !! slot = None.
Proof. intros H. unfold purge, purge_idempotency_keys. cbn. apply map_lookup_filter_None. by left. Qed.
Lemma purge_known now0 idem row :
  idem.(idem_rows) !! slot = Some row → now0 ≤ row.(ik_created_at) → idem.(idem_now) ≤ now0 + sec RETENTION_SECONDS →
  (purge idem).(idem_rows) !! slot = Some row.
Proof. intros H Hc Hn. unfold purge, purge_idempotency_keys. cbn. apply map_lookup_filter_Some. split; [done|]. cbn. lia. Qed.

Definition going_started (s : Remote) : time := match s.(rm_going) with Some g => g.(go_started) | None => 0 end.
Lemma before_standing now0 t s :
  standing now0 s → s.(rm_idem).(idem_now) + Z.of_nat t.(tu_wait) ≤ now0 + sec RETENTION_SECONDS →
  standing now0 (before t s) ∧ ((before t s).(rm_going) ≠ None → (before t s).(rm_idem).(idem_now) - going_started (before t s) ≤ sec ABANDONED_SECONDS).
Proof.
  intros Hs Hn. unfold before. set (idem := mkIdem _ _).
  assert (Hpn : (if tu_purge t then purge idem else idem).(idem_now) = idem.(idem_now)) by (by destruct (tu_purge t)).
  assert (Hnew : s.(rm_idem).(idem_rows) !! slot = None → (if tu_purge t then purge idem else idem).(idem_rows) !! slot = None).
  { intros H. destruct (tu_purge t); [by apply purge_new|done]. }
  assert (Hold : ∀ row, s.(rm_idem).(idem_rows) !! slot = Some row → now0 ≤ row.(ik_created_at) →
    (if tu_purge t then purge idem else idem).(idem_rows) !! slot = Some row).
  { intros row H Hc. destruct (tu_purge t); [by eapply purge_known|done]. }
  destruct Hs as [Hg Hr Hu|row run rest Hg Hr Hh Hc Hst Hl Hu|row g rest Hg Hsl Hr Hh Hst Hcr Hc Hl Hu]; unfold end_run, going_started; cbn [rm_going]; rewrite Hg.
  - split; [apply st_new; auto|]. by intros [].
  - split; [eapply st_kept; eauto|]. by intros [].
  - cbn [rm_idem rm_runs rm_plan]. destruct (_ || _) eqn:E.
    + split; [|done]. apply (settle_standing _ _ _ _ _ _ _ rest row); [done|apply Hold; [done|by rewrite Hcr]|done|by rewrite Hcr|done..].
    + split; [apply (st_going _ _ row g rest); [done|done|apply Hold; [done|by rewrite Hcr]|done..]|].
      intros _. cbn [rm_idem rm_going]. apply orb_false_iff in E as [_ E]. apply bool_decide_eq_false in E. cbn [rm_idem] in E. lia.
Qed.

(** An attempt that arrives: it runs only if nothing ran, and an answer of success is
    that of a create that was made. *)
Lemma arrive_standing now0 slow s a s' :
  standing now0 s → now0 ≤ s.(rm_idem).(idem_now) →
  (s.(rm_going) ≠ None → s.(rm_idem).(idem_now) - going_started s ≤ sec ABANDONED_SECONDS) →
  arrive sha256 loads app slow q s = (a, s') →
  standing now0 s' ∧ (is_success a.(aw_status) = true → answers_last a.(aw_status) s') ∧ s'.(rm_idem).(idem_now) = s.(rm_idem).(idem_now).
Proof.
  intros Hs Hnow Hgo. unfold arrive. destruct Hs as [Hg Hr Hu|row run rest Hg Hr Hh Hc Hst Hl Hu|row g rest Hg Hsl Hr Hh Hst Hcr Hc Hl Hu].
  - rewrite (admit_new _ Hr). intros [= <- <-]. set (run := app _).
    split_and!.
    + destruct slow.
      * eapply (st_going _ _ (mkIdemRow "POST" q.(ir_path) hash None None None s.(rm_idem).(idem_now)) _ s.(rm_runs)); [done|done|apply lookup_insert_eq|done..].
      * rewrite Hg. eapply (settle_standing _ _ _ _ _ _ _ s.(rm_runs)); [done|apply lookup_insert_eq|done..].
    + intros _. exists run, s.(rm_runs). by destruct slow.
    + destruct slow; cbn [rm_idem]; [done|]. by rewrite (proj1 (settle_cases _ _ _ _ _)).
  - rewrite (admit_known _ _ Hr Hh) by congruence. rewrite Hst. intros [= <- <-]. split_and!; [by eapply st_kept| |done].
    intros _. by exists run, rest.
  - rewrite (admit_known _ _ Hr Hh).
    2: { intros _. rewrite Hcr. specialize (Hgo ltac:(by rewrite Hg)). unfold going_started in Hgo. by rewrite Hg in Hgo. }
    rewrite Hst. intros [= <- <-]. split_and!; [by eapply st_going| |done]. by cbn.
Qed.

Abbreviation sending := (send sha256 dumps loads app config).
Lemma before_now t s : (before t s).(rm_idem).(idem_now) = s.(rm_idem).(idem_now) + Z.of_nat t.(tu_wait).
Proof.
  unfold before, end_run. cbn [rm_going]. destruct (rm_going s) as [g|]; [|by destruct (tu_purge t)].
  destruct (_ || _); cbn [rm_idem]; [rewrite (proj1 (settle_cases _ _ _ _ _))|]; by destruct (tu_purge t).
Qed.
Lemma arrive_now slow r s : (arrive sha256 loads app slow r s).2.(rm_idem).(idem_now) = s.(rm_idem).(idem_now).
Proof.
  unfold arrive. destruct (admit_request sha256 r s.(rm_idem)) as [a idem] eqn:E. apply admit_cases in E.
  destruct a; cbn; try by subst. destruct E as (row & -> & _). destruct slow; cbn; [done|]. by rewrite (proj1 (settle_cases _ _ _ _ _)).
Qed.
Lemma send_now method path headers body s :
  s.(rm_idem).(idem_now) ≤ (sending method path headers body s).2.(rm_idem).(idem_now).
Proof.
  unfold send. destruct (match rm_plan s with t :: plan => (t, plan) | [] => _ end) as [t plan].
  set (s0 := mkRemote s.(rm_idem) s.(rm_going) s.(rm_runs) plan). assert (H0 := before_now t s0). cbn in H0.
  assert (Ha := λ slow, arrive_now slow (idem_request dumps config method path headers body) (before t s0)).
  destruct (tu_fate t); [cbn; lia|specialize (Ha false)|specialize (Ha false)|specialize (Ha true)];
    destruct (arrive _ _ _ _ _ _) as [a s1]; cbn in *; lia.
Qed.
Lemma attempts_now str_of n k method path headers body s :
  s.(rm_idem).(idem_now) ≤ (attempts str_of sending sleep config n k method path headers body s).2.(rm_idem).(idem_now).
Proof.
  revert k s. induction n as [|n IH]; intros k s; cbn [attempts];
    assert (H := send_now method path headers body s); destruct (sending method path headers body s) as [[a|e] s1]; cbn in H;
    try destruct (is_success _); try destruct (retryable _ _ _); try exact H; (etrans; [exact H|]; apply IH).
Qed.

Lemma send_standing now0 method path headers body s o s' :
  idem_request dumps config method path headers body = q → standing now0 s → now0 ≤ s.(rm_idem).(idem_now) →
  sending method path headers body s = (o, s') → s'.(rm_idem).(idem_now) ≤ now0 + sec RETENTION_SECONDS →
  standing now0 s' ∧ (∀ a, o = Answered a → is_success a.(aw_status) = true → answers_last a.(aw_status) s').
Proof.
  intros Hq Hs Hnow E Ht. revert E. unfold send. destruct (match rm_plan s with t :: plan => (t, plan) | [] => _ end) as [t plan].
  set (s0 := mkRemote s.(rm_idem) s.(rm_going) s.(rm_runs) plan).
  assert (Hs0 : standing now0 s0) by (destruct Hs; [by apply st_new|by eapply st_kept|by eapply st_going]).
  assert (Hb := before_now t s0). cbn [rm_idem s0] in Hb. rewrite Hq.
  assert (Hstep : (before t s0).(rm_idem).(idem_now) ≤ now0 + sec RETENTION_SECONDS → ∀ slow,
    standing now0 (arrive sha256 loads app slow q (before t s0)).2 ∧
    (is_success (aw_status (arrive sha256 loads app slow q (before t s0)).1) = true →
       answers_last (aw_status (arrive sha256 loads app slow q (before t s0)).1) (arrive sha256 loads app slow q (before t s0)).2)).
  { intros Hbt slow. destruct (before_standing now0 t s0 Hs0) as [Hs1 Hg1]; [cbn [rm_idem s0]; lia|].
    destruct (arrive sha256 loads app slow q (before t s0)) as [a s1] eqn:Ea.
    destruct (arrive_standing now0 slow (before t s0) a s1 Hs1 ltac:(lia) Hg1 Ea) as (H1 & H2 & _). by split. }
  assert (Han := λ slow, arrive_now slow q (before t s0)).
  destruct (tu_fate t) as [e| |e|e].
  - intros [= <- <-]. split; [|done]. apply before_standing; [done|]. cbn [rm_idem s0]. lia.
  - specialize (Han false). destruct (arrive sha256 loads app false q (before t s0)) as [a s1] eqn:Ea. intros [= <- <-]. cbn in Han.
    destruct (Hstep ltac:(lia) false) as [H1 H2]. rewrite Ea in H1, H2. split; [done|]. by intros ? [= <-].
  - specialize (Han false). destruct (arrive sha256 loads app false q (before t s0)) as [a s1] eqn:Ea. intros [= <- <-]. cbn in Han.
    destruct (Hstep ltac:(lia) false) as [H1 H2]. rewrite Ea in H1, H2. by split.
  - specialize (Han true). destruct (arrive sha256 loads app true q (before t s0)) as [a s1] eqn:Ea. intros [= <- <-]. cbn in Han.
    destruct (Hstep ltac:(lia) true) as [H1 H2]. rewrite Ea in H1, H2. by split.
Qed.

Lemma attempts_standing str_of now0 n k method path headers body s r s' :
  idem_request dumps config method path headers body = q → standing now0 s → now0 ≤ s.(rm_idem).(idem_now) →
  attempts str_of sending sleep config n k method path headers body s = (r, s') → s'.(rm_idem).(idem_now) ≤ now0 + sec RETENTION_SECONDS →
  standing now0 s' ∧ (∀ a, r = Ok a → is_success a.(aw_status) = true ∧ answers_last a.(aw_status) s').
Proof.
  intros Hq. revert k s. induction n as [|n IH]; intros k s Hs Hnow; cbn [attempts];
    destruct (sending method path headers body s) as [o s1] eqn:E;
    assert (Hmono := send_now method path headers body s); rewrite E in Hmono; cbn [snd] in Hmono; intros Er Ht.
  - assert (s' = s1) as -> by (destruct o; [destruct (is_success _)|]; congruence).
    destruct (send_standing _ _ _ _ _ _ _ _ Hq Hs Hnow E Ht) as [H1 H2]. split; [done|]. intros a' Hok.
    destruct o as [a|e]; [|congruence]. destruct (is_success (aw_status a)) eqn:Ea; [|congruence].
    assert (a' = a) as -> by congruence. split; [done|by apply H2].
  - assert (Ht1 : s1.(rm_idem).(idem_now) ≤ s'.(rm_idem).(idem_now)).
    { destruct o as [a|e]; [destruct (is_success _); [injection Er as _ <-; lia|]|]; (destruct (retryable _ _ _); [|injection Er as _ <-; lia]);
        match type of Er with ?t = _ => assert (Hle := attempts_now str_of n (S k) method path headers body s1);
          change (attempts str_of sending sleep config n (S k) method path headers body s1) with t in Hle; rewrite Er in Hle; exact Hle end. }
    destruct (send_standing _ _ _ _ _ _ _ _ Hq Hs Hnow E ltac:(lia)) as [H1 H2].
    destruct o as [a|e].
    + destruct (is_success (aw_status a)) eqn:Ea; [injection Er as <- <-; split; [done|]; intros a' [= <-]; split; [done|by apply H2]|].
      destruct (retryable _ _ _); [|by injection Er as <- <-]. eapply (IH (S k) s1 H1); [lia|exact Er|done].
    + destruct (retryable _ _ _); [|by injection Er as <- <-]. eapply (IH (S k) s1 H1); [lia|exact Er|done].
Qed.
End once.

Lemma prepared_key uuid path headers :
  creates path = true → dget "Idempotency-Key" headers = None → dget "Idempotency-Key" (prepare uuid "POST" path headers) = Some uuid.
Proof. intros Hc Hh. unfold prepare, dhas. rewrite Hc, Hh. apply dget_dset_eq. Qed.

(** C21: A create that the client repeats under its key runs again only after a run whose
    answer the server does not keep: a 5xx, one over a megabyte, a stream or no UTF-8.  So
    whether attempts never arrive, are answered, lose their answer or time out while the server
    still works on them, every run but the last was answered so (at most one is answered with
    success and kept), and a create that returns has the status of the last run.  It holds for
    a key that was not used before, within the RETENTION_SECONDS (24 h) a key is kept, for runs
    that end within ABANDONED_SECONDS and processes that do not die in one. *)
Theorem sdk_creates_once sha256 dumps loads app config str_of uuid path headers body s r s' :
  creates path = true → dget "Idempotency-Key" headers = None →
  strip uuid ≠ "" → (String.length (strip uuid) ≤ MAX_KEY)%nat →
  s.(rm_going) = None → s.(rm_runs) = [] →
  s.(rm_idem).(idem_rows) !! (owner_of sha256 (idem_request dumps config "POST" path (prepare uuid "POST" path headers) body), strip uuid) = None →
  request str_of (send sha256 dumps loads app config) sleep config uuid "POST" path headers body s = (r, s') →
  s'.(rm_idem).(idem_now) ≤ s.(rm_idem).(idem_now) + sec RETENTION_SECONDS →
  (∀ run rest, s'.(rm_runs) = run :: rest → Forall (λ r, ¬ keepable r.(ar_response)) rest) ∧
  (∀ a, r = Ok a → 200 ≤ a.(aw_status) < 300 ∧ ∃ run rest, s'.(rm_runs) = run :: rest ∧ a.(aw_status) = run.(ar_response).(rs_status)).
Proof.
  intros Hc Hh Hk Hl Hg Hr Hrow E Ht. set (q := idem_request dumps config "POST" path (prepare uuid "POST" path headers) body) in *.
  assert (Hq : q.(ir_key) = uuid) by (unfold q, idem_request; cbn [ir_key]; by rewrite prepared_key).
  assert (Hst : standing sha256 q s.(rm_idem).(idem_now) s) by (apply st_new; [done|by rewrite Hq|rewrite Hr; constructor]).
  rewrite <- Hq in Hk, Hl. unfold request in E.
  destruct (attempts_standing sha256 dumps loads app config q eq_refl eq_refl Hk Hl str_of _ _ _ _ _ _ _ _ _ _ eq_refl Hst (Z.le_refl _) E Ht) as [Hs Hok].
  split; [intros run rest Hrun; by eapply standing_unkept|]. intros a Ha. destruct (Hok a Ha) as [Hsu (run & rest & ? & ?)].
  split; [unfold is_success in Hsu; lia|by exists run, rest].
Qed.

(** ** A POST without a key is not repeated once it may have run *)

Definition refused (r : AppRun) : bool := r.(ar_response).(rs_status) =? 429.
Definition ran (s : Remote) : nat := length (filter (λ r, refused r = false) s.(rm_runs)).

Section plain_posts.
Context (sha256 : string → string) (dumps : option json → string) (loads : string → option json) (app : nat → AppRun) (config : Config).
Context (path : string) (headers : list (string * string)) (body : option json) (Hh : dget "Idempotency-Key" headers = None).
Abbreviation sending := (send sha256 dumps loads app config).

Lemma arrive_plain slow s a s' :
  arrive sha256 loads app slow (idem_request dumps config "POST" path headers body) s = (a, s') →
  ∃ run, a = run_answer loads run ∧ s'.(rm_runs) = run :: s.(rm_runs).
Proof.
  unfold arrive, admit_request, idem_request. cbn [ir_http ir_method ir_key negb orb]. rewrite Hh. cbn. intros [= <- <-]. by eexists.
Qed.
Lemma before_runs t s : (before t s).(rm_runs) = s.(rm_runs).
Proof. unfold before, end_run. cbn [rm_going]. destruct (rm_going s); [|done]. by destruct (_ || _). Qed.

(** What an attempt adds, and whether another may follow. *)
Lemma send_plain s o s' :
  sending "POST" path headers body s = (o, s') →
  (ran s' = ran s ∧ retryable "POST" headers o = true) ∨ (ran s' ≤ S (ran s))%nat ∧ retryable "POST" headers o = false.
Proof.
  assert (Hsafe : dhas "Idempotency-Key" headers = false) by (unfold dhas; by rewrite Hh).
  unfold send. destruct (match rm_plan s with t :: plan => (t, plan) | [] => _ end) as [t plan].
  set (s0 := before t _). assert (H0 : s0.(rm_runs) = s.(rm_runs)) by (unfold s0; by rewrite before_runs).
  assert (Hrun : ∀ run runs, runs = run :: s.(rm_runs) → length (filter (λ r, refused r = false) runs) = (if refused run then ran s else S (ran s))).
  { intros run runs ->. unfold ran. rewrite filter_cons. destruct (refused run); [by rewrite decide_False|by rewrite decide_True]. }
  destruct (tu_fate t) as [e| |e|e].
  - intros [= <- <-]. left. split; [unfold ran; by rewrite H0|]. unfold retryable. destruct (unreached e) eqn:Ee; [by rewrite Ee|done].
  - destruct (arrive _ _ _ _ _ _) as [a s1] eqn:Ea. intros [= <- <-]. apply arrive_plain in Ea as (run & -> & Hr). rewrite H0 in Hr.
    unfold ran at 1 3. rewrite (Hrun _ _ Hr). unfold retryable. rewrite Hsafe. cbn [run_answer answered aw_status]. unfold refused.
    cbn [bool_decide orb andb]. destruct (_ =? 429) eqn:E4; [by left|right]. split; [lia|done].
  - destruct (arrive _ _ _ _ _ _) as [a s1] eqn:Ea. intros [= <- <-]. apply arrive_plain in Ea as (run & _ & Hr). rewrite H0 in Hr.
    right. split; [unfold ran at 1; rewrite (Hrun _ _ Hr); destruct (refused run); lia|].
    unfold retryable. rewrite Hsafe. by destruct (unreached e) eqn:Ee; cbn; rewrite ?Ee.
  - destruct (arrive _ _ _ _ _ _) as [a s1] eqn:Ea. intros [= <- <-]. apply arrive_plain in Ea as (run & _ & Hr). rewrite H0 in Hr.
    right. split; [unfold ran at 1; rewrite (Hrun _ _ Hr); destruct (refused run); lia|].
    unfold retryable. rewrite Hsafe. by destruct (unreached e) eqn:Ee; cbn; rewrite ?Ee.
Qed.

Lemma attempts_plain str_of n k s r s' :
  attempts str_of sending sleep config n k "POST" path headers body s = (r, s') → (ran s' ≤ S (ran s))%nat.
Proof.
  revert k s. induction n as [|n IH]; intros k s; cbn [attempts]; destruct (sending "POST" path headers body s) as [o s1] eqn:E;
    apply send_plain in E.
  - intros Er. assert (s' = s1) as -> by (destruct o; [destruct (is_success _)|]; congruence). lia.
  - destruct E as [[E Er]|[E Er]]; rewrite Er.
    + destruct o as [a|e]; [destruct (is_success _); [intros [= _ <-]; lia|]|]; intros Hr; apply IH in Hr; unfold sleep in Hr; lia.
    + destruct o as [a|e]; [destruct (is_success _)|]; intros [= _ <-]; lia.
Qed.
End plain_posts.

(** A POST that carries no key (a tool call, say) reaches the application at most once, but for the times it is turned away with 429. *)
Theorem plain_posts_run_once sha256 dumps loads app config str_of uuid path headers body s r s' :
  creates path = false → dget "Idempotency-Key" headers = None →
  request str_of (send sha256 dumps loads app config) sleep config uuid "POST" path headers body s = (r, s') →
  (ran s' ≤ S (ran s))%nat.
Proof. intros Hc Hh. unfold request, prepare. rewrite Hc. cbn. by apply attempts_plain. Qed.

(** ** Errors come across *)

(** The JSON of a body of errors.py. *)
Definition body_json (b : Body) : json :=
  JObj [("error", JObj [("code", JStr b.(b_code)); ("message", JStr b.(b_message)); ("hint", or_null b.(b_hint));
    ("docs_url", JStr b.(b_docs_url)); ("request_id", JStr b.(b_request_id))])].

Lemma code_for_nonempty status message : code_for status message ≠ "".
Proof.
  destruct (quota_or_status status message) as (c & -> & [(w & _ & _ & -> & Hw)|[(-> & _)| ->]]); [by destruct w|done|].
  destruct (zget status BY_STATUS) as [c|] eqn:E; cbn; [|by destruct (status <? 500)].
  apply by_status_status in E. intros ->. vm_compute in E. discriminate E.
Qed.
Lemma answer_code_nonempty url r f : (Errors.answer url r f).(er_body).(b_code) ≠ "".
Proof.
  destruct f as [status message headers|code message hint headers|problems|text]; unfold Errors.answer; [apply code_for_nonempty| |done|done].
  destruct (code_status code) as [s|] eqn:E; [|done]. intros H. change (code = "") in H. subst. vm_compute in E. discriminate E.
Qed.

(** The classes as their docs have them: the statuses each is for. *)
Definition documented_class (c : SdkClass) (status : Z) : Prop :=
  match c with
  | AuthenticationError => status = 401
  | PermissionDeniedError => status = 403
  | NotFoundError => status = 404
  | ConflictError => status = 409
  | ValidationError => status = 422
  | RateLimitError => status = 429
  | ServerError => 500 ≤ status
  | PlainError => status < 500 ∧ status ∉ [401; 403; 404; 409; 422; 429]
  | APIConnectionError | APITimeoutError => False
  end.

Lemma class_of_documented status : documented_class (class_of status) status.
Proof.
  unfold class_of. destruct (Z.eqb_spec status 401); [done|]. destruct (Z.eqb_spec status 403); [done|].
  destruct (Z.eqb_spec status 404); [done|]. destruct (Z.eqb_spec status 409); [done|]. destruct (Z.eqb_spec status 422); [done|].
  destruct (Z.eqb_spec status 429); [done|]. destruct (Z.leb_spec 500 status); [done|]. split; [done|]. set_solver.
Qed.

(** C22: What the server answers to a failure the client raises as it was meant: as the class
    whose docs name that status, with the status, the code, the link and the message (a text of
    its own where the message is empty), and the request id that the response has in its
    X-Request-Id header. *)
Theorem errors_understood str_of url header fresh other f text :
  let resp := Errors.tag url header fresh other f in
  let e := from_response str_of resp.(er_status) (Some (body_json resp.(er_body))) text in
  documented_class e.(se_class) resp.(er_status) ∧ e.(se_status) = Some resp.(er_status) ∧ e.(se_code) = resp.(er_body).(b_code) ∧
  e.(se_message) = (if bool_decide (resp.(er_body).(b_message) = "") then "request failed (" +:+ pretty resp.(er_status) +:+ ")"
                    else resp.(er_body).(b_message)) ∧
  e.(se_docs_url) = Some (JStr resp.(er_body).(b_docs_url)) ∧
  e.(se_request_id) = JStr <$> dget "X-Request-Id" resp.(er_headers).
Proof.
  unfold Errors.tag. set (r := mkTags _ _ _). cbv zeta. cbn [er_status er_headers er_body].
  assert (Hc := answer_code_nonempty url r f). destruct (answer_id url r f) as [Hh Hid].
  destruct (Errors.answer url r f) as [status headers b]. cbn [er_status er_headers er_body] in *.
  assert (dhas "X-Request-Id" headers = true) as -> by (apply bool_decide_eq_true; rewrite Hh; by eexists). unfold from_response, field, body_json. cbn [dget].
  rewrite !(decide_True (P := (_ = _))) by done. cbn [se_class se_status se_code se_message se_docs_url se_request_id].
  split_and!; [apply class_of_documented|done| | |done|].
  - cbn. by destruct (b_code b).
  - cbn. by destruct (b_message b).
  - cbn. by rewrite Hid, Hh.
Qed.

(** ** Streams come across *)



Section lines.
Context (loads : string → option json).
End lines.


(** ** Bounds *)
Lemma digits_value_nonneg n s v : 0 ≤ n → digits_value n s = Some v → 0 ≤ v.
Proof.
  revert n. induction s as [|c s IH]; intros n Hn; cbn [digits_value]; [by intros [= <-]|].
  destruct ((0 <=? _) && _) eqn:E; [|done]. apply IH. apply andb_prop in E as [E _]. apply Z.leb_le in E. lia.
Qed.
Lemma qmin_bounds a b : (0 <= a → 0 <= b → 0 <= qmin a b /\ qmin a b <= b)%Q.
Proof. intros Ha Hb. unfold qmin. destruct (Qle_bool a b) eqn:E; [apply Qle_bool_iff in E; by split|split; [done|apply Qle_refl]]. Qed.
Lemma backoff_bounds r attempt o : (0 <= r)%Q → (r <= 1)%Q → (0 <= backoff r attempt o /\ backoff r attempt o <= 60)%Q.
Proof.
  intros H0 H1. unfold backoff.
  assert (Hlast : (0 <= qmin (inject_Z (2 ^ Z.of_nat attempt) / 2) 8 * ((1 # 2) + r / 2) /\ qmin (inject_Z (2 ^ Z.of_nat attempt) / 2) 8 * ((1 # 2) + r / 2) <= 60)%Q).
  { destruct (qmin_bounds (inject_Z (2 ^ Z.of_nat attempt) / 2) 8) as [Ha Hb].
    - apply Qle_shift_div_l; [done|]. rewrite Qmult_0_l. change 0%Q with (inject_Z 0). rewrite <- Zle_Qle. lia.
    - done.
    - assert (0 <= (1 # 2) + r / 2)%Q by (unfold Qdiv; change (/ 2)%Q with (1 # 2)%Q; lra).
      assert ((1 # 2) + r / 2 <= 1)%Q by (unfold Qdiv; change (/ 2)%Q with (1 # 2)%Q; lra).
      split; [by apply Qmult_le_0_compat|]. apply (Qle_trans _ (8 * 1)); [by apply Qmult_le_compat_nonneg|done]. }
  destruct o as [a|e]; [|exact Hlast]. destruct (str_or_none (aw_retry_after a)) as [t|]; [|exact Hlast].
  destruct (digits_value 0 t) as [n|] eqn:En; [|exact Hlast]. apply digits_value_nonneg in En; [|done].
  split; [change 0%Q with (inject_Z 0)|change 60%Q with (inject_Z 60)]; rewrite <- Zle_Qle; lia.
Qed.

Section counted.
Context {St : Type} (send : string → string → list (string * string) → option json → St → Outcome * St) (sleep : (Q → Q) → St → St).
Definition counted_send (method path : string) (headers : list (string * string)) (body : option json) (s : St * (nat * list (Q → Q))) :=
  let '(o, s') := send method path headers body s.1 in (o, (s', (S s.2.1, s.2.2))).
Definition counted_sleep (q : Q → Q) (s : St * (nat * list (Q → Q))) := (sleep q s.1, (s.2.1, q :: s.2.2)).
Definition brief (q : Q → Q) : Prop := ∀ r, (0 <= r)%Q → (r <= 1)%Q → (0 <= q r /\ q r <= 60)%Q.

Lemma attempts_counted str_of config n k method path headers body s c l r s' c' l' :
  attempts str_of counted_send counted_sleep config n k method path headers body (s, (c, l)) = (r, (s', (c', l'))) →
  Forall brief l → (c' ≤ c + S n)%nat ∧ Forall brief l'.
Proof.
  revert k s c l. induction n as [|n IH]; intros k s c l; cbn [attempts]; unfold counted_send at 1; cbn [fst snd];
    destruct (send method path headers body s) as [o s1] eqn:E; intros Er Hl.
  - assert (c' = S c ∧ l' = l) as [-> ->] by (destruct o; [destruct (is_success _)|]; by simplify_eq). split; [lia|done].
  - assert (Hb : Forall brief ((λ r, backoff r k o) :: l)) by (constructor; [|done]; intros x H0 H1; by apply backoff_bounds).
    destruct o as [a|e]; [destruct (is_success _); [simplify_eq; split; [lia|done]|]|];
      (destruct (retryable _ _ _); [|simplify_eq; split; [lia|done]]);
      destruct (IH _ _ _ _ Er Hb) as [H1 H2]; cbn in H1; (split; [lia|done]).
Qed.
End counted.

(** A request is sent at most once more than [max_retries] times, and between two attempts the client sleeps at most a minute, whatever the server answers and whatever the draws. *)
Theorem request_bounded {St} (send : string → string → list (string * string) → option json → St → Outcome * St) sleep str_of config uuid method path headers body s r s' c l :
  request str_of (counted_send send) (counted_sleep sleep) config uuid method path headers body (s, (0%nat, [])) = (r, (s', (c, l))) →
  (c ≤ S (Z.to_nat config.(cf_max_retries)))%nat ∧ Forall brief l.
Proof. intros E. destruct (attempts_counted _ _ _ _ _ _ _ _ _ _ _ _ _ _ _ _ _ E (Forall_nil_2 _)) as [H1 H2]. split; [lia|done]. Qed.

(** A create that fails after the sandbox was made has asked to delete it. *)
Lemma create_cleans_up {St} (send : string → string → list (string * string) → option json → St → Outcome * St) sleep str_of config uuid name kind server profiles n labels s e s' :
  create str_of send sleep config uuid name kind server profiles (Some n) labels s = (Err e, s') →
  (∃ body, json_call str_of send sleep config uuid "POST" "/sandboxes" body s = (Err e, s')) ∨
  ∃ body data s1 e1 s2 r, json_call str_of send sleep config uuid "POST" "/sandboxes" body s = (Ok data, s1) ∧
    wait str_of send sleep config n (text_field "id" data) s1 = (Err e1, s2) ∧ delete str_of send sleep config None (text_field "id" data) s2 = (r, s').
Proof.
  unfold create, mbind, sdk_bind. match goal with |- context [json_call _ _ _ _ _ _ _ ?b _] => set (body := b) end.
  destruct (json_call str_of send sleep config uuid "POST" "/sandboxes" body s) as [[data|e0] s1] eqn:E.
  - unfold rescue. destruct (wait str_of send sleep config n (text_field "id" data) s1) as [[d|e1] s2] eqn:Ew; [done|].
    destruct (delete str_of send sleep config None (text_field "id" data) s2) as [r s3] eqn:Ed. intros H. right.
    exists body, data, s1, e1, s2, r. split_and!; [done|done|]. by destruct r; injection H as _ <-.
  - intros [= <- <-]. left. by exists body.
Qed.

(** ** Runs *)

Definition demo_config : Config := mkConfig "http://localhost:8000" "key1" 30 3 None.
Definition created_run : AppRun := mkAppRun (mkResponse 201 (Some "application/json") ["{}"]) None.
Definition limited_run : AppRun := mkAppRun (mkResponse 429 (Some "application/json") ["{}"]) (Some "1").
Definition broken_run : AppRun := mkAppRun (mkResponse 503 (Some "application/json") ["{}"]) None.
Definition demo_app (l : list AppRun) (n : nat) : AppRun := nth n l created_run.
Definition demo_remote (plan : list Turn) : Remote := mkRemote (mkIdem ∅ 0) None [] plan.
Abbreviation demo_post l plan path :=
  (request (λ _, "") (send id (λ _, "{}") (λ _, Some (JObj [])) (demo_app l) demo_config) sleep demo_config "k1" "POST" path [] None (demo_remote plan)).
Definition turn (f : Fate) : Turn := mkTurn (Z.to_nat 1000) false false f.
Definition class_or (r : result SdkError Answer) : option SdkClass := match r with Ok _ => None | Err e => Some e.(se_class) end.

(** A create whose first answer is lost and whose second attempt fails runs once. *)
Example lost_answers :
  let done := demo_post [] [turn (Lost ReadTimeout); turn (Unreached ConnectError); turn Heard] "/sandboxes" in
  is_ok done.1 = true ∧ done.2.(rm_runs) = [created_run] ∧
  (let retried := demo_post [broken_run; broken_run] [] "/sandboxes" in is_ok retried.1 = true ∧ length retried.2.(rm_runs) = 3%nat).
Proof. by vm_compute. Qed.

(** A create that the rate limit turns away once is turned away for good: the 429 is
    kept under the key that the client sends again. *)
Example rate_limited_create_sticks :
  let refused := demo_post [limited_run] [] "/sandboxes" in
  class_or refused.1 = Some RateLimitError ∧ refused.2.(rm_runs) = [limited_run] ∧
  is_ok (demo_post [limited_run] [] "/sandboxes/s1/tools/click").1 = true.
Proof. by vm_compute. Qed.

(** A create that outlasts the client's timeout: the attempt after it is refused while
    the first still runs, and the client raises although the sandbox is made. *)
Example timed_out_create :
  let late := demo_post [] [turn (Slow ReadTimeout); turn Heard] "/sandboxes" in
  class_or late.1 = Some ConflictError ∧ late.2.(rm_runs) = [created_run].
Proof. by vm_compute. Qed.

(** A run that fails after it made the sandbox frees the key, and the retry makes another. *)
Example failed_after_creating :
  let twice := demo_post [broken_run] [] "/sandboxes" in
  is_ok twice.1 = true ∧ twice.2.(rm_runs) = [created_run; broken_run].
Proof. by vm_compute. Qed.

Lemma sdk_creates_once_witness :
  let done := demo_post [] [turn (Lost ReadTimeout); turn (Unreached ConnectError); turn Heard] "/sandboxes" in
  match done.2.(rm_runs) with
  | [] => False
  | run :: rest => Forall (λ r, ¬ keepable r.(ar_response)) rest
  end.
Proof.
  cbn zeta.
  destruct (rm_runs (demo_post [] [turn (Lost ReadTimeout); turn (Unreached ConnectError); turn Heard] "/sandboxes").2)
    as [|run rest] eqn:E; [by vm_compute in E|]. revert run rest E.
  refine (proj1 (sdk_creates_once id (λ _, "{}") (λ _, Some (JObj [])) (demo_app []) demo_config (λ _, "") "k1" "/sandboxes" [] None
    (demo_remote [turn (Lost ReadTimeout); turn (Unreached ConnectError); turn Heard]) _ _ eq_refl eq_refl _ _ eq_refl eq_refl (lookup_empty _) (surjective_pairing _) _)).
  - done.
  - apply Nat.leb_le. by vm_compute.
  - by vm_compute.
Defined.

Example error_raised :
  let resp := Errors.tag "https://docs" (Some "abc") "f1" "f2" (HttpError 404 "sandbox not found" []) in
  from_response (λ _, "") resp.(er_status) (Some (body_json resp.(er_body))) "" =
  mkSdkError NotFoundError (Some 404) "sandbox_not_found" "sandbox not found"
    (Some (JStr "`GET /v1/sandboxes` lists this workspace's sandboxes; ids are case-sensitive.")) (Some (JStr "https://docs#sandbox_not_found")) (Some (JStr "abc")).
Proof. by vm_compute. Qed.


Lemma request_bounded_witness :
  let run := request (λ _, "") (counted_send (λ _ _ _ _ s, (Failed ConnectError, s))) (counted_sleep (λ _ s, s)) demo_config "k1" "GET" "/tools" [] None (tt, (0%nat, [])) in
  run.2.2.1 = 4%nat ∧ (run.2.2.1 ≤ 4)%nat.
Proof.
  cbn zeta. split; [by vm_compute|].
  refine (proj1 (request_bounded (λ _ _ _ _ s, (Failed ConnectError, s)) (λ _ s, s) (λ _, "") demo_config "k1" "GET" "/tools" [] None tt
    (Err (gave_up ConnectError "GET" "/tools" "http://localhost:8000")) tt _ _ eq_refl)).
Defined.
