(* ===== verification/Viewers.v ===== *)
(** Who watches a screen (src/apps/server/viewer_api.py, and the WebSockets of
    sandbox_api.py): links to a sandbox's screen that anyone may open, the
    tickets a member opens a screen or a terminal with, what each WebSocket
    checks before it relays, and the check that closes a viewer whose link was
    revoked or ran out.  Every open WebSocket goes back to a request of a member
    who might make it. *)

From S2P Require Import Prelude Tables Store Labels Registry Security Auth Jobs Access Leases.

(** ** Links *)

Inductive link_mode := View | Control.

#[global] Instance link_mode_eq_dec : EqDecision link_mode.
Proof. solve_decision. Defined.

(** Source: src/db/generated/models.py:424-434 [ViewerLink]. *)
Record ViewerLink := mkViewerLink {
  vl_id : string;
  vl_workspace_id : string;
  vl_sandbox_id : string;
  vl_token_hash : string;
  vl_mode : link_mode;
  vl_end_user : option string;
  vl_created_by : string;
  vl_expires_at : time;
  vl_revoked_at : option time;
  vl_created_at : time
}.

Definition vl_revoke (now : time) (l : ViewerLink) : ViewerLink :=
  mkViewerLink l.(vl_id) l.(vl_workspace_id) l.(vl_sandbox_id) l.(vl_token_hash) l.(vl_mode) l.(vl_end_user)
    l.(vl_created_by) l.(vl_expires_at) (Some now) l.(vl_created_at).

Abbreviation links := (gmap string ViewerLink).

(** [revoked_at IS NULL AND expires_at > CURRENT_TIMESTAMP] *)
Definition link_live (now : time) (l : ViewerLink) : bool := is_none l.(vl_revoked_at) && bool_decide (now < l.(vl_expires_at)).

(** Source: src/db/generated/query.py:610-615 [CREATE_VIEWER_LINK].  [None] when the id
    or the hash is taken. *)
Definition create_viewer_link (l : ViewerLink) (m : links) : option links :=
  if is_none (m !! l.(vl_id)) && bool_decide (Forall (λ r, r.(vl_token_hash) ≠ l.(vl_token_hash)) (rows m))
  then Some (<[l.(vl_id) := l]> m) else None.

(** Source: src/db/generated/query.py:960-964 [GET_LIVE_VIEWER_LINK]. *)
Definition get_live_viewer_link (now : time) (token_hash : string) (m : links) : option ViewerLink :=
  head (filter (λ r, r.(vl_token_hash) = token_hash ∧ link_live now r) (rows m)).

(** Source: src/db/generated/query.py:1126-1128 [GET_VIEWER_LINK]. *)
Definition get_viewer_link (id : string) (m : links) : option ViewerLink := m !! id.

(** Source: src/db/generated/query.py:1741-1743 [LIST_VIEWER_LINKS]. *)
Definition list_viewer_links (sandbox_id : string) (m : links) : list ViewerLink :=
  take 200 (reverse (order_by (λ r, (r.(vl_created_at), 0)) (filter (λ r, r.(vl_sandbox_id) = sandbox_id) (rows m)))).

(** Source: src/db/generated/query.py:2022-2024 [REVOKE_VIEWER_LINK]. *)
Definition revoke_viewer_link (now : time) (id : string) : links → links :=
  alter (λ r, if is_none r.(vl_revoked_at) then vl_revoke now r else r) id.

(** Source: src/db/generated/query.py:2620-2624 [VIEWER_LINK_LIVE]. *)
Definition viewer_link_live (now : time) (id : string) (m : links) : bool :=
  match m !! id with Some r => link_live now r | None => false end.

(** ** The tables the requests share *)

Record Screens := mkScreens {
  sc_world : World;
  sc_members : gmap (string * string) Membership;
  sc_tickets : gmap string Ticket;
  sc_links : links
}.

Definition sc_clock (s : Screens) : time := s.(sc_world).(w_clock).

Definition on_world {A} (m : M World A) : M Screens A := λ s,
  let '(r, w) := m s.(sc_world) in (r, mkScreens w s.(sc_members) s.(sc_tickets) s.(sc_links)).
Definition on_tickets {A} (m : M Tickets A) : M Screens A := λ s,
  let '(r, t) := m (mkTickets s.(sc_tickets) (sc_clock s)) in
  (r, mkScreens s.(sc_world) s.(sc_members) t.(tickets) s.(sc_links)).
Definition put_links (m : links) (s : Screens) : Screens := mkScreens s.(sc_world) s.(sc_members) s.(sc_tickets) m.

(** What a WebSocket's handler comes to: the connection is closed, or it is
    relayed to the sandbox's screen (and watched for its link, if it came by
    one) or to a shell of that size. *)
Inductive Outcome :=
| Close (code : Z) (reason : string + exn)
| Relay (sandbox_id : string) (view_only : bool) (link : option string)
| Shell (sandbox_id : string) (cols rows : Z).

Section viewers.
(** hashlib.sha256, in hex *)
Context (sha256 : string → string).
(** ZOO_MAX_VIEWER_LINK_HOURS and ZOO_EMBED_ORIGINS *)
Context (MAX_HOURS : Z) (EMBED_ORIGINS : list string).

(** Source: src/apps/server/viewer_api.py:38-39 [hash_token]. *)
Definition hash_token (token : string) : string := sha256 token.

Definition TOKEN_PREFIX : string := "zv_".

(** Source: src/apps/server/viewer_api.py:46-50 [ViewerLinkRequest]. *)
Record ViewerLinkRequest := mkLinkRequest {
  lr_mode : link_mode;
  lr_expires_in_minutes : Z;
  lr_end_user : option string
}.

(** What pydantic lets through: [ge=1, le=MAX_HOURS * 60] and [max_length=200]. *)
Definition request_ok (p : ViewerLinkRequest) : bool :=
  (1 <=? p.(lr_expires_in_minutes)) && (p.(lr_expires_in_minutes) <=? MAX_HOURS * 60)
  && match p.(lr_end_user) with Some u => (Z.of_nat (String.length u) <=? 200) | None => true end.

(** Source: src/apps/server/viewer_api.py:53-60 [ViewerLinkResponse]. *)
Record ViewerLinkResponse := mkLinkResponse {
  lp_id : string;
  lp_sandbox_id : string;
  lp_mode : link_mode;
  lp_end_user : option string;
  lp_expires_at : time;
  lp_revoked_at : option time;
  lp_created_at : time
}.

(** Source: src/apps/server/viewer_api.py:74-83 [link_response]. *)
Definition link_response (l : ViewerLink) : ViewerLinkResponse :=
  mkLinkResponse l.(vl_id) l.(vl_sandbox_id) l.(vl_mode) l.(vl_end_user) l.(vl_expires_at) l.(vl_revoked_at) l.(vl_created_at).

(** Source: src/apps/server/viewer_api.py:86-88 [live]. *)
Definition live (link_id : string) : M Screens bool := gets (λ s, viewer_link_live (sc_clock s) link_id s.(sc_links)).

(** Source: src/apps/server/viewer_api.py:91-92 [frame_ancestors]. *)
Definition frame_ancestors : string :=
  match EMBED_ORIGINS with [] => "'none'" | _ => String.concat " " EMBED_ORIGINS end.

(** Source: src/apps/server/viewer_api.py:108-138 [create_link].  [id] and [drawn]
    are what [uuid4] and [token_urlsafe] draw; the token is in the answer. *)
Definition create_link (id drawn : string) (sandbox_id : string) (payload : ViewerLinkRequest) (user : Member)
    : M Screens (ViewerLinkResponse * string) :=
  sandbox ← on_world (owned sandbox_id user);
  when (bool_decide (payload.(lr_mode) = Control)) (require user RMember);;
  let token := TOKEN_PREFIX +:+ drawn in
  s ← get;
  let link := mkViewerLink id sandbox.(sb_workspace_id) sandbox.(sb_id) (hash_token token) payload.(lr_mode)
    payload.(lr_end_user) user.(m_id) (sc_clock s + sec (payload.(lr_expires_in_minutes) * 60)) None (sc_clock s) in
  match create_viewer_link link s.(sc_links) with
  | None => raise IntegrityError
  | Some m => modify (put_links m);; mret (link_response link, token)
  end.

(** Source: src/apps/server/viewer_api.py:140-145 [list_links]. *)
Definition list_links (sandbox_id : string) (user : Member) : M Screens (list ViewerLinkResponse) :=
  sandbox ← on_world (owned sandbox_id user);
  gets (λ s, link_response <$> list_viewer_links sandbox.(sb_id) s.(sc_links)).

(** Source: src/apps/server/viewer_api.py:147-158 [revoke_link]. *)
Definition revoke_link (sandbox_id link_id : string) (user : Member) : M Screens unit :=
  sandbox ← on_world (owned sandbox_id user);
  link ← gets (λ s, get_viewer_link link_id s.(sc_links));
  match link with
  | None => raise (HTTPException 404 [Txt "viewer link not found"])
  | Some link =>
      guard_ (bool_decide (link.(vl_sandbox_id) = sandbox.(sb_id))) (HTTPException 404 [Txt "viewer link not found"]);;
      modify (λ s, put_links (revoke_viewer_link (sc_clock s) link.(vl_id) s.(sc_links)) s)
  end.

(** The link of a token, if it is live now. *)
Definition live_link (token : string) : M Screens (option ViewerLink) :=
  gets (λ s, get_live_viewer_link (sc_clock s) (hash_token token) s.(sc_links)).

(** Source: src/apps/server/viewer_api.py:160-171 [embed].  The page is left out:
    its status, its headers, and the mode it is made for. *)
Definition embed (token : string) : M Screens (Z * list (string * string) * option link_mode) :=
  let headers := [("Content-Security-Policy", "frame-ancestors " +:+ frame_ancestors);
                  ("Cache-Control", "no-store"); ("Referrer-Policy", "no-referrer")] in
  link ← live_link token;
  mret match link with
       | None => (404, headers, None)
       | Some l => (200, headers, Some l.(vl_mode))
       end.

(** Source: src/apps/server/viewer_api.py:185-189 [ViewerApi.link]. *)
Definition link (token : string) : M Screens ViewerLink :=
  found ← live_link token;
  match found with
  | None => raise (HTTPException 401 [Txt "this link was revoked or has expired"])
  | Some l => mret l
  end.

(** Source: src/apps/server/viewer_api.py:191-195 [ViewerApi.control_link]. *)
Definition control_link (token : string) : M Screens ViewerLink :=
  l ← link token;
  guard_ (bool_decide (l.(vl_mode) = Control)) (HTTPException 403 [Txt "this link can only watch"]);;
  mret l.

(** Source: src/apps/server/viewer_api.py:173-181 [embed_state]. *)
Definition embed_state (token : string) : M Screens (link_mode * string) :=
  l ← link token;
  sandbox ← on_world (query (get_sandbox l.(vl_sandbox_id)));
  mret (l.(vl_mode), match sandbox with Some x => status_name x.(sb_status) | None => "deleted" end).

(** Source: src/apps/server/viewer_api.py:197-211 [ViewerApi.screen]. *)
Definition screen (token : string) : M Screens Outcome :=
  found ← live_link token;
  match found with
  | None => mret (Close 1008 (inl "this link was revoked or has expired"))
  | Some l =>
      sandbox ← on_world (query (get_sandbox l.(vl_sandbox_id)));
      mret match sandbox with
           | Some x =>
               if bool_decide (x.(sb_status) = Running) && has_screen x.(sb_kind)
               then Relay x.(sb_id) (bool_decide (l.(vl_mode) = View)) (Some l.(vl_id))
               else Close 1008 (inl "sandbox not available")
           | None => Close 1008 (inl "sandbox not available")
           end
  end.

(** ** Tickets of a screen and of a terminal *)

Definition screen_target (sandbox_id : string) : string := "sandbox:" +:+ sandbox_id.
Definition terminal_target (sandbox_id : string) : string := "terminal:" +:+ sandbox_id.

(** Source: src/apps/server/sandbox_api.py:789-796 [vnc_ticket]. *)
Definition vnc_ticket (drawn sandbox_id : string) (user : Member) : M Screens string :=
  sandbox ← on_world (running sandbox_id user);
  guard_ (has_screen sandbox.(sb_kind)) (HTTPException 400 [Txt "this sandbox has no screen"]);;
  on_tickets (issue sha256 drawn user.(m_id) (screen_target sandbox.(sb_id))).

(** Source: src/apps/server/sandbox_api.py:800-810 [terminal_ticket].  [guest] is
    what the hub answers: an error, no guest, or whether it has a terminal. *)
Definition terminal_ticket (guest : result exn (option bool)) (drawn sandbox_id : string) (user : Member) : M Screens string :=
  sandbox ← on_world (allowed sandbox_id user "shell" "exec");
  guest ← of_result guest;
  guard_ (default false guest)
    (HTTPException 409 [Txt "the terminal needs the sandbox's guest agent; restart the sandbox"]);;
  on_tickets (issue sha256 drawn user.(m_id) (terminal_target sandbox.(sb_id))).

(** Source: src/apps/server/sandbox_api.py:824-827 [SandboxApi.member_of]. *)
Definition member_of (sandbox : Sandbox) (user_id : string) (members : gmap (string * string) Membership) : bool :=
  match members !! (sandbox.(sb_workspace_id), user_id) with
  | Some m => bool_decide (m.(ms_status) = MActive) && negb (bool_decide (m.(ms_role) = RViewer))
  | None => false
  end.

(** The sandbox that the user of a ticket may still use. *)
Definition usable (sandbox_id user_id : string) : M Screens (option Sandbox) := gets (λ s,
  match get_sandbox sandbox_id s.(sc_world).(w_db) with
  | Some x => if member_of x user_id s.(sc_members) && bool_decide (x.(sb_status) = Running) then Some x else None
  | None => None
  end).

(** Source: src/apps/server/sandbox_api.py:1856-1867 [SandboxApi.proxy]. *)
Definition proxy (sandbox_id ticket : string) : M Screens Outcome :=
  user_id ← on_tickets (redeem sha256 ticket (screen_target sandbox_id));
  match user_id with
  | None => mret (Close 1008 (inl "unauthorized"))
  | Some user_id =>
      sandbox ← usable sandbox_id user_id;
      mret match sandbox with
           | Some x => if has_screen x.(sb_kind) then Relay x.(sb_id) false None
                       else Close 1008 (inl "sandbox not available")
           | None => Close 1008 (inl "sandbox not available")
           end
  end.

(** Source: src/apps/server/sandbox_api.py:1880-1908 [SandboxApi.terminal].  Until
    the terminal is open; [guest] as above, [opened] what [Terminal.open] does. *)
Definition terminal (guest : result exn (option bool)) (opened : result exn unit) (sandbox_id ticket : string) (cols rows : Z)
    : M Screens Outcome :=
  user_id ← on_tickets (redeem sha256 ticket (terminal_target sandbox_id));
  match user_id with
  | None => mret (Close 1008 (inl "unauthorized"))
  | Some user_id =>
      sandbox ← usable sandbox_id user_id;
      mret match sandbox with
           | None => Close 1008 (inl "sandbox not available")
           | Some _ =>
               match guest with
               | Err e => Close 1011 (inr e)
               | Ok guest =>
                   if default false guest then
                     match opened with
                     | Err e => Close 1011 (inr e)
                     | Ok _ => Shell sandbox_id (Z.max 1 (Z.min cols 1000)) (Z.max 1 (Z.min rows 1000))
                     end
                   else Close 1011 (inl "the sandbox's guest agent is not connected")
               end
           end
  end.

(** ** Watching a link *)

Definition LINK_CHECK_SECONDS : Z := 15.

(** Source: src/apps/server/sandbox_api.py:1568-1577 [SandboxApi.watch_gate.watch].
    One turn of its loop, after [sleep(1)], at time [now]: when it checked last,
    and whether it closes the viewer.  [live] is [None] for a viewer without a
    link, else what the check answers, [None] if it raises. *)
Definition watch (live : option (option bool)) (now checked : time) : time * bool :=
  match live with
  | Some answer =>
      if sec LINK_CHECK_SECONDS <=? now - checked
      then (now, match answer with Some b => negb b | None => false end)
      else (checked, false)
  | None => (checked, false)
  end.
End viewers.

(** ** Every process at once

    Requests, WebSockets and the turns of the watchers in any order, while
    members, sandboxes and clocks change under them.  Recorded beside the tables:
    what requests were granted, each with the database it was granted in, and
    the WebSockets that are open. *)

Inductive grant_kind := GLink (mode : link_mode) | GScreen | GTerminal.

Record Grant := mkGrant {
  g_kind : grant_kind;
  g_token : string;
  g_user : Member;
  g_sandbox : string;
  g_db : Db;
  g_at : time;
  g_until : time
}.

(** What the member could do in the database of that moment: see the sandbox; for
    more than watching, be no viewer of its workspace; for a terminal, run
    commands in it. *)
Definition grant_ok (g : Grant) : Prop :=
  ∃ x, reachable_by g.(g_user) g.(g_sandbox) x g.(g_db) ∧
    match g.(g_kind) with
    | GLink View => True
    | GLink Control => can g.(g_user) RMember = true
    | GScreen => can g.(g_user) RMember = true ∧ x.(sb_status) = Running
    | GTerminal => can g.(g_user) RMember = true ∧ usable_by g.(g_user) "shell" "exec" g.(g_sandbox) x g.(g_db)
    end.

(** An open WebSocket: the token or ticket in its URL, what it was relayed as and
    when; its watcher's last check ([None] until it starts) and last turn; when its link
    was last seen live, and whether the last check went unanswered. *)
Record Viewer := mkViewer {
  v_token : string;
  v_as : Outcome;
  v_opened : time;
  v_checked : option time;
  v_woke : time;
  v_seen : time;
  v_unanswered : bool
}.

Definition outcome_link (o : Outcome) : option string := match o with Relay _ _ l => l | _ => None end.

Record Watched := mkWatched { wt_screens : Screens; wt_grants : list Grant; wt_viewers : list Viewer }.

Definition open_viewer (token : string) (o : Outcome) (now : time) (vs : list Viewer) : list Viewer :=
  match o with
  | Close _ _ => vs
  | _ => mkViewer token o now None now now false :: vs
  end.

(** A turn of a viewer's watcher; [answered] says whether its check, if it makes one, is
    answered. *)
Definition turn (answered : bool) (s : Screens) (v : Viewer) : list Viewer :=
  let now := sc_clock s in
  match v.(v_checked) with
  | None => [mkViewer v.(v_token) v.(v_as) v.(v_opened) (Some now) now v.(v_seen) v.(v_unanswered)]
  | Some c =>
      let answer := (λ id, if answered then Some (viewer_link_live now id s.(sc_links)) else None) <$> outcome_link v.(v_as) in
      let '(c', closes) := watch answer now c in
      if closes then []
      else
        let checks := negb (is_none answer) && (sec LINK_CHECK_SECONDS <=? now - c) in
        [mkViewer v.(v_token) v.(v_as) v.(v_opened) (Some c') now
           (if checks && answered then now else v.(v_seen)) (if checks then negb answered else v.(v_unanswered))]
  end.

Section steps.
Context (sha256 : string → string) (MAX_HOURS : Z).
(** The longest time a watcher takes from one turn to the next: its sleep of a
    second, the check and what delays it. *)
Context (late : Z).

(** The check every request passes before its handler, on the route's template. *)
Definition route (template sandbox_id : string) (labels : string → labels_dict) (user : Member) : M Screens unit :=
  check_route labels user (mkRequest "POST" template (Some sandbox_id)).

Definition grant (k : grant_kind) (token : string) (user : Member) (sandbox_id : string) (s : Screens) (until : time) : Grant :=
  mkGrant k token user sandbox_id s.(sc_world).(w_db) (sc_clock s) until.

Inductive watched_step : Watched → Watched → Prop :=
(* requests *)
| ws_create labels id drawn sandbox_id p user s s' r token gs vs :
    request_ok MAX_HOURS p = true →
    (route "/sandboxes/{sandbox_id}/viewer-links" sandbox_id labels user;;
     create_link sha256 id drawn sandbox_id p user) s = (Ok (r, token), s') →
    watched_step (mkWatched s gs vs)
      (mkWatched s' (grant (GLink p.(lr_mode)) token user sandbox_id s r.(lp_expires_at) :: gs) vs)
| ws_revoke sandbox_id id user s gs vs :
    watched_step (mkWatched s gs vs) (mkWatched (revoke_link sandbox_id id user s).2 gs vs)
| ws_screen_ticket labels drawn sandbox_id user s s' token gs vs :
    (route "/sandboxes/{sandbox_id}/vnc-ticket" sandbox_id labels user;; vnc_ticket sha256 drawn sandbox_id user) s =
      (Ok token, s') →
    watched_step (mkWatched s gs vs)
      (mkWatched s' (grant GScreen token user sandbox_id s (sc_clock s + sec TICKET_TTL) :: gs) vs)
| ws_terminal_ticket labels guest drawn sandbox_id user s s' token gs vs :
    (route "/sandboxes/{sandbox_id}/terminal-ticket" sandbox_id labels user;;
     terminal_ticket sha256 guest drawn sandbox_id user) s = (Ok token, s') →
    watched_step (mkWatched s gs vs)
      (mkWatched s' (grant GTerminal token user sandbox_id s (sc_clock s + sec TICKET_TTL) :: gs) vs)
| ws_server_ticket drawn user_id server_id s gs vs :
    watched_step (mkWatched s gs vs)
      (mkWatched (on_tickets (issue sha256 drawn user_id ("server:" +:+ server_id)) s).2 gs vs)
(* WebSockets *)
| ws_screen token s o s' gs vs :
    screen sha256 token s = (Ok o, s') →
    watched_step (mkWatched s gs vs) (mkWatched s' gs (open_viewer token o (sc_clock s) vs))
| ws_proxy sandbox_id ticket s o s' gs vs :
    proxy sha256 sandbox_id ticket s = (Ok o, s') →
    watched_step (mkWatched s gs vs) (mkWatched s' gs (open_viewer ticket o (sc_clock s) vs))
| ws_terminal guest opened sandbox_id ticket cols rows s o s' gs vs :
    terminal sha256 guest opened sandbox_id ticket cols rows s = (Ok o, s') →
    watched_step (mkWatched s gs vs) (mkWatched s' gs (open_viewer ticket o (sc_clock s) vs))
| ws_turn answered v s gs vs1 vs2 :
    watched_step (mkWatched s gs (vs1 ++ v :: vs2)) (mkWatched s gs (vs1 ++ turn answered s v ++ vs2))
| ws_leave v s gs vs1 vs2 : watched_step (mkWatched s gs (vs1 ++ v :: vs2)) (mkWatched s gs (vs1 ++ vs2))
(* everything else *)
| ws_other d members tickets links s gs vs :
    ids_ok d → tickets ⊆ s.(sc_tickets) → links ⊆ s.(sc_links) →
    watched_step (mkWatched s gs vs) (mkWatched (mkScreens (put_db d s.(sc_world)) members tickets links) gs vs)
| ws_pass w s gs vs :
    w.(w_db) = s.(sc_world).(w_db) → sc_clock s ≤ w.(w_clock) →
    Forall (λ v, w.(w_clock) ≤ v.(v_woke) + late) vs →
    watched_step (mkWatched s gs vs) (mkWatched (mkScreens w s.(sc_members) s.(sc_tickets) s.(sc_links)) gs vs).

(** No link, no ticket and no WebSocket yet. *)
Definition watched_init (s : Watched) : Prop :=
  ids_ok s.(wt_screens).(sc_world).(w_db) ∧ s.(wt_screens).(sc_tickets) = ∅ ∧ s.(wt_screens).(sc_links) = ∅ ∧
  s.(wt_grants) = [] ∧ s.(wt_viewers) = [].
End steps.

(** ** What opens a WebSocket *)

(** What an outcome needs: the grant that opens it and for which sandbox. *)
Definition outcome_grant (o : Outcome) : option (grant_kind * string) :=
  match o with
  | Close _ _ => None
  | Relay x view_only (Some _) => Some (GLink (if view_only then View else Control), x)
  | Relay x view_only None => if view_only then None else Some (GScreen, x)
  | Shell x _ _ => Some (GTerminal, x)
  end.

(** The connection is not closed at once. *)
Definition opens (o : Outcome) : Prop := match o with Close _ _ => False | _ => True end.

(** Whether what the viewer sends reaches the sandbox. *)
Definition takes_input (o : Outcome) : bool :=
  match o with Close _ _ => false | Relay _ view_only _ => negb view_only | Shell _ _ _ => true end.

Section viewer_proofs.
Context (sha256 : string → string) (MAX_HOURS late : Z).
Abbreviation step := (watched_step sha256 MAX_HOURS late).

(** How long a grant may last. *)
Definition lasts (g : Grant) : Prop :=
  g.(g_until) ≤ g.(g_at) + match g.(g_kind) with GLink _ => sec (MAX_HOURS * 3600) | _ => sec TICKET_TTL end.

Definition backed (gs : list Grant) (now : time) (k : grant_kind) (hash sandbox_id : string) (until : time) : Prop :=
  ∃ g, g ∈ gs ∧ grant_ok g ∧ lasts g ∧ sha256 g.(g_token) = hash ∧ g.(g_kind) = k ∧ g.(g_sandbox) = sandbox_id ∧
    g.(g_until) = until ∧ g.(g_at) ≤ now.

Lemma backed_mono gs gs' now now' k h x u : gs ⊆ gs' → now ≤ now' → backed gs now k h x u → backed gs' now' k h x u.
Proof. intros Hs Hn (g & Hg & H). exists g. split; [by apply Hs|]. naive_solver lia. Qed.

Lemma on_world_inv {A} (m : M World A) s a s' :
  on_world m s = (Ok a, s') → ∃ w, m s.(sc_world) = (Ok a, w) ∧ s' = mkScreens w s.(sc_members) s.(sc_tickets) s.(sc_links).
Proof. unfold on_world. destruct (m _) as [r w]. intros [= -> <-]. eauto. Qed.

Lemma on_tickets_inv {A} (m : M Tickets A) s a s' :
  on_tickets m s = (Ok a, s') → ∃ t, m (mkTickets s.(sc_tickets) (sc_clock s)) = (Ok a, t) ∧
    s' = mkScreens s.(sc_world) s.(sc_members) t.(tickets) s.(sc_links).
Proof. unfold on_tickets. destruct (m _) as [r t]. intros [= -> <-]. eauto. Qed.

(** The tickets there are after one is issued. *)
Lemma issue_tickets t u x s h r :
  (issue sha256 t u x s).2.(tickets) !! h = Some r →
  s.(tickets) !! h = Some r ∨ (h = sha256 t ∧ r = mkTicket u x (s.(ts_now) + sec TICKET_TTL)).
Proof.
  unfold issue, create_ticket. destruct (purge_tickets _ _ !! _) as [?|]; simpl; [by left|].
  rewrite lookup_insert. case_decide; [intros [= <-]; by right|]. intros [? _]%map_lookup_filter_Some. by left.
Qed.

Lemma issue_ok t u x s a s' : issue sha256 t u x s = (Ok a, s') → a = t.
Proof. unfold issue. destruct (create_ticket _ _ _); by intros [= ??]. Qed.

Lemma redeem_ok t x s u s' :
  redeem sha256 t x s = (Ok u, s') →
  s'.(tickets) ⊆ s.(tickets) ∧
  ∀ u', u = Some u' → ∃ r, s.(tickets) !! sha256 t = Some r ∧ r.(tk_target) = x ∧ s.(ts_now) < r.(tk_expires_at).
Proof.
  unfold redeem. simpl. intros [= <- <-]. simpl. split; [apply delete_subseteq|]. intros u'.
  destruct (s.(tickets) !! _) as [r|]; [|done]. destruct (_ || _) eqn:E; [done|]. intros _. exists r. split; [done|].
  apply orb_false_iff in E as [E1%negb_false_iff%bool_decide_eq_true E2%bool_decide_eq_false]. split; [done|lia].
Qed.

(** Who passes the check of a route that changes something, and is no viewer's own, is
    a member. *)
Lemma route_member template id labels user s u s' :
  route template id labels user s = (Ok u, s') →
  s' = s ∧ (starts_any template SELF_CHECKED = false → template ∉ VIEWER_WRITES → can user RMember = true).
Proof.
  intros (-> & H & _)%route_checks. split; [done|]. intros E Hn. unfold writes in H. cbn [r_method r_route] in H.
  rewrite E, bool_decide_false in H by (rewrite !elem_of_cons, elem_of_nil; naive_solver).
  unfold can. destruct (m_role user) eqn:Er; [|done..]. exfalso. by apply Hn, H.
Qed.

Lemma screens_eta s : mkScreens s.(sc_world) s.(sc_members) s.(sc_tickets) s.(sc_links) = s.
Proof. by destruct s. Qed.

(** What a link's creation grants, and the row it leaves. *)
Lemma create_link_ok id drawn sandbox_id p user s r token s' :
  ids_ok s.(sc_world).(w_db) → request_ok MAX_HOURS p = true →
  create_link sha256 id drawn sandbox_id p user s = (Ok (r, token), s') →
  let g := grant (GLink p.(lr_mode)) token user sandbox_id s r.(lp_expires_at) in
  grant_ok g ∧ lasts g ∧
  ∃ l, s' = put_links (<[id := l]> s.(sc_links)) s ∧ l.(vl_id) = id ∧ l.(vl_mode) = p.(lr_mode) ∧
    l.(vl_sandbox_id) = sandbox_id ∧ l.(vl_token_hash) = sha256 token ∧ l.(vl_expires_at) = r.(lp_expires_at) ∧
    l.(vl_revoked_at) = None ∧ sc_clock s < l.(vl_expires_at).
Proof.
  intros Hids Hp (x & s1 & H & E)%bind_ok_inv. apply on_world_inv in H as (w & [-> Hr]%owned_ok & ->); [|done].
  rewrite screens_eta in E. apply bind_ok_inv in E as (? & s2 & Hm & E).
  assert (s2 = s ∧ (p.(lr_mode) = Control → can user RMember = true)) as [-> Hc].
  { unfold when, require in Hm. case_bool_decide; inv_ok; [by split|naive_solver]. }
  rewrite (bind_ok get _ s s s eq_refl) in E. unfold create_viewer_link in E.
  assert (sb_id x = sandbox_id) as Hx by apply (Hids _ _ (proj1 Hr)).
  destruct (_ && _) in E; [|done]. rewrite run_bind_modify in E. injection E as <- <- <-. cbn.
  unfold request_ok in Hp. rewrite !andb_true_iff, !Z.leb_le in Hp. destruct Hp as [[Hp1 Hp2] _]. split_and!.
  - exists x. split; [done|]. cbn. destruct (lr_mode p); naive_solver.
  - unfold lasts. cbn. unfold sec. lia.
  - eexists. split; [reflexivity|]. cbn. split_and!; try done. unfold sec. lia.
Qed.

(** What a ticket grants. *)
Lemma vnc_ticket_ok labels drawn sandbox_id user s token s' :
  ids_ok s.(sc_world).(w_db) →
  (route "/sandboxes/{sandbox_id}/vnc-ticket" sandbox_id labels user;; vnc_ticket sha256 drawn sandbox_id user) s =
    (Ok token, s') →
  grant_ok (grant GScreen token user sandbox_id s (sc_clock s + sec TICKET_TTL)) ∧
  s' = (on_tickets (issue sha256 token user.(m_id) (screen_target sandbox_id)) s).2.
Proof.
  intros Hids (u0 & s0 & [-> Hm]%route_member & H)%bind_ok_inv. apply bind_ok_inv in H as (x & s1 & H & E).
  apply on_world_inv in H as (w & H & ->). unfold running in H.
  apply bind_ok_inv in H as (x' & w' & [-> Hr]%owned_ok & H); [|done].
  apply bind_ok_inv in H as (? & ? & [Hb ->]%guard_ok_inv & [= <- <-]). rewrite screens_eta in E.
  apply bind_ok_inv in E as (? & ? & [_ ->]%guard_ok_inv & E).
  assert (sb_id x' = sandbox_id) as Hx by apply (Hids _ _ (proj1 Hr)). rewrite Hx in E.
  pose proof E as (t & ->%issue_ok & _)%on_tickets_inv. rewrite E. split; [|done].
  apply andb_true_iff in Hb as [Hb%bool_decide_eq_true _]. exists x'. cbn. split_and!; [done| |done].
  apply Hm; [done|]. by apply (bool_decide_eq_false_1 _).
Qed.

Lemma terminal_ticket_ok labels guest drawn sandbox_id user s token s' :
  ids_ok s.(sc_world).(w_db) →
  (route "/sandboxes/{sandbox_id}/terminal-ticket" sandbox_id labels user;;
   terminal_ticket sha256 guest drawn sandbox_id user) s = (Ok token, s') →
  grant_ok (grant GTerminal token user sandbox_id s (sc_clock s + sec TICKET_TTL)) ∧
  s' = (on_tickets (issue sha256 token user.(m_id) (terminal_target sandbox_id)) s).2.
Proof.
  intros Hids (u0 & s0 & [-> Hm]%route_member & H)%bind_ok_inv. apply bind_ok_inv in H as (x & s1 & H & E).
  apply on_world_inv in H as (w & [-> Hu]%allowed_ok & ->); [|done]. rewrite screens_eta in E.
  apply bind_ok_inv in E as (o & s1 & [= _ <-] & E). apply bind_ok_inv in E as (? & ? & [_ ->]%guard_ok_inv & E).
  assert (sb_id x = sandbox_id) as Hx by apply (Hids _ _ (proj1 (proj1 Hu))). rewrite Hx in E.
  pose proof E as (t & ->%issue_ok & _)%on_tickets_inv. rewrite E. split; [|done].
  exists x. cbn. split_and!; [apply Hu| |done]. apply Hm; [done|]. by apply (bool_decide_eq_false_1 _).
Qed.

(** What a live link's row says. *)
Lemma get_live_ok now h m l :
  get_live_viewer_link now h m = Some l →
  ∃ id, m !! id = Some l ∧ l.(vl_token_hash) = h ∧ l.(vl_revoked_at) = None ∧ now < l.(vl_expires_at).
Proof.
  intros H%head_Some_elem_of. apply list_elem_of_filter in H as [[Hh Hl] (id & Hid)%elem_of_rows].
  apply Is_true_eq_true, andb_true_iff in Hl as [Hr Hl%bool_decide_eq_true]. exists id. split_and!; try done. by destruct (vl_revoked_at l).
Qed.

(** What the handlers of WebSockets leave, and what they needed to open one. *)
Lemma screen_ok token s o s' :
  ids_ok s.(sc_world).(w_db) → screen sha256 token s = (Ok o, s') →
  s' = s ∧ (opens o →
    ∃ id l, s.(sc_links) !! id = Some l ∧ outcome_link o = Some l.(vl_id) ∧
      outcome_grant o = Some (GLink l.(vl_mode), l.(vl_sandbox_id)) ∧
      l.(vl_token_hash) = sha256 token ∧ l.(vl_revoked_at) = None ∧ sc_clock s < l.(vl_expires_at)).
Proof.
  intros Hids. unfold screen, live_link. rewrite run_bind_gets.
  destruct (get_live_viewer_link _ _ _) as [l|] eqn:El; [|intros [= <- <-]; split; [done|]; done].
  intros (x & s1 & (w & [= <- <-] & ->)%on_world_inv & [= <- <-])%bind_ok_inv. rewrite screens_eta. split; [done|].
  unfold get_sandbox. destruct (sandboxes _ !! _) as [x|] eqn:Ex; [|done].
  destruct (_ && _); [|done]. intros _. apply get_live_ok in El as (id & H1 & H2 & H3 & H4).
  exists id, l. rewrite (Hids _ _ Ex). cbn. split_and!; try done. by destruct (vl_mode l).
Qed.

Lemma usable_ok id u s o s' : usable id u s = (Ok o, s') → s' = s ∧ ∀ x, o = Some x → s.(sc_world).(w_db).(sandboxes) !! id = Some x.
Proof.
  unfold usable, get_sandbox. intros [= <- <-]. split; [done|]. intros x. destruct (sandboxes _ !! _); [|done].
  destruct (_ && _); [|done]. by intros [= ->].
Qed.

(** What [proxy] and [terminal] have in common: a live ticket for the target. *)
Definition by_ticket (target : string) (k : grant_kind) (sandbox_id ticket : string) (o : Outcome) (s s' : Screens) : Prop :=
  s'.(sc_world) = s.(sc_world) ∧ s'.(sc_links) = s.(sc_links) ∧ s'.(sc_tickets) ⊆ s.(sc_tickets) ∧
  (opens o →
   outcome_link o = None ∧ outcome_grant o = Some (k, sandbox_id) ∧
   ∃ r, s.(sc_tickets) !! sha256 ticket = Some r ∧ r.(tk_target) = target ∧ sc_clock s < r.(tk_expires_at)).

Lemma proxy_ok id ticket s o s' :
  ids_ok s.(sc_world).(w_db) → proxy sha256 id ticket s = (Ok o, s') →
  by_ticket (screen_target id) GScreen id ticket o s s'.
Proof.
  intros Hids (u & s1 & (t & [Hsub Hr]%redeem_ok & ->)%on_tickets_inv & E)%bind_ok_inv. unfold by_ticket.
  destruct u as [u|]; [|injection E as <- <-; cbn; split_and!; try done; done].
  apply bind_ok_inv in E as (x & s1 & [-> Hx]%usable_ok & [= <- <-]). cbn in *. split_and!; try done.
  destruct x as [x|]; [|done]. destruct (has_screen _); [|done]. intros _. cbn.
  rewrite (Hids _ _ (Hx _ eq_refl)). split_and!; [done..|]. by eapply Hr.
Qed.

Lemma terminal_ok guest opened id ticket cols rows s o s' :
  terminal sha256 guest opened id ticket cols rows s = (Ok o, s') →
  by_ticket (terminal_target id) GTerminal id ticket o s s'.
Proof.
  intros (u & s1 & (t & [Hsub Hr]%redeem_ok & ->)%on_tickets_inv & E)%bind_ok_inv. unfold by_ticket.
  destruct u as [u|]; [|injection E as <- <-; cbn; split_and!; try done; done].
  apply bind_ok_inv in E as (x & s1 & [-> Hx]%usable_ok & [= <- <-]). cbn in *. split_and!; try done.
  destruct x as [x|]; [|done]. destruct guest as [guest|e]; [|done].
  destruct (default false guest); [|done]. destruct opened; [|done]. intros _. cbn.
  split_and!; [done..|]. by eapply Hr.
Qed.

(** ** The invariant *)

Definition tickets_backed (gs : list Grant) (s : Screens) : Prop :=
  ∀ h t, s.(sc_tickets) !! h = Some t →
    (∃ n, t.(tk_target) = "server:" +:+ n) ∨
    (∃ x, t.(tk_target) = screen_target x ∧ backed gs (sc_clock s) GScreen h x t.(tk_expires_at)) ∨
    (∃ x, t.(tk_target) = terminal_target x ∧ backed gs (sc_clock s) GTerminal h x t.(tk_expires_at)).

Definition links_backed (gs : list Grant) (s : Screens) : Prop :=
  ∀ id l, s.(sc_links) !! id = Some l → l.(vl_id) = id ∧
    backed gs (sc_clock s) (GLink l.(vl_mode)) l.(vl_token_hash) l.(vl_sandbox_id) l.(vl_expires_at).

Definition viewer_backed (gs : list Grant) (v : Viewer) : Prop :=
  ∃ k x until, outcome_grant v.(v_as) = Some (k, x) ∧ backed gs v.(v_opened) k (sha256 v.(v_token)) x until ∧ v.(v_opened) < until.

Definition all_backed (s : Watched) : Prop :=
  ids_ok s.(wt_screens).(sc_world).(w_db) ∧ tickets_backed s.(wt_grants) s.(wt_screens) ∧
  links_backed s.(wt_grants) s.(wt_screens) ∧ Forall (viewer_backed s.(wt_grants)) s.(wt_viewers).

Lemma screen_target_inj a b : screen_target a = screen_target b → a = b.
Proof. by intros [=]. Qed.
Lemma terminal_target_inj a b : terminal_target a = terminal_target b → a = b.
Proof. by intros [=]. Qed.

Lemma viewers_mono gs gs' vs : gs ⊆ gs' → Forall (viewer_backed gs) vs → Forall (viewer_backed gs') vs.
Proof.
  intros Hs Hv. eapply Forall_impl; [exact Hv|]. intros v (k & x & u & H1 & H2 & H3). exists k, x, u. split_and!; [done| |done].
  by eapply backed_mono.
Qed.

(** Changes of the tables that add nothing to them. *)
Lemma tickets_mono gs gs' s s' :
  gs ⊆ gs' → sc_clock s ≤ sc_clock s' → s'.(sc_tickets) ⊆ s.(sc_tickets) → tickets_backed gs s → tickets_backed gs' s'.
Proof.
  intros Hg Hc Hs H h t Ht. destruct (H h t (lookup_weaken _ _ _ _ Ht Hs)) as [?|[(x & E & Hb)|(x & E & Hb)]]; [by left|..].
  - right. left. exists x. split; [done|]. by eapply backed_mono.
  - right. right. exists x. split; [done|]. by eapply backed_mono.
Qed.

Lemma links_mono gs gs' s s' :
  gs ⊆ gs' → sc_clock s ≤ sc_clock s' → s'.(sc_links) ⊆ s.(sc_links) → links_backed gs s → links_backed gs' s'.
Proof.
  intros Hg Hc Hs H id l Hl. destruct (H id l (lookup_weaken _ _ _ _ Hl Hs)) as [? Hb]. split; [done|]. by eapply backed_mono.
Qed.

(** Issuing a ticket that is backed. *)
Lemma tickets_issued gs drawn u target s :
  tickets_backed gs s →
  (∃ n, target = "server:" +:+ n) ∨
    (∃ x, target = screen_target x ∧ backed gs (sc_clock s) GScreen (sha256 drawn) x (sc_clock s + sec TICKET_TTL)) ∨
    (∃ x, target = terminal_target x ∧ backed gs (sc_clock s) GTerminal (sha256 drawn) x (sc_clock s + sec TICKET_TTL)) →
  tickets_backed gs (on_tickets (issue sha256 drawn u target) s).2.
Proof.
  intros H Hn h t. unfold on_tickets. pose proof (issue_tickets drawn u target (mkTickets s.(sc_tickets) (sc_clock s)) h t) as Hi.
  destruct (issue _ _ _ _ _) as [r m]. cbn in *. intros [Ht|[-> ->]]%Hi; [by apply H|done].
Qed.

Lemma on_tickets_same {A} (m : M Tickets A) s :
  (on_tickets m s).2.(sc_world) = s.(sc_world) ∧ (on_tickets m s).2.(sc_links) = s.(sc_links).
Proof. unfold on_tickets. by destruct (m _). Qed.

Lemma granted g gs k token user x s until :
  g = grant k token user x s until → grant_ok g → lasts g → backed (g :: gs) (sc_clock s) k (sha256 token) x until.
Proof. intros -> Hg Hl. eexists. split; [left|]. by split_and!. Qed.

(** Opening a WebSocket that is backed. *)
Lemma opened_backed gs token o now vs :
  (opens o → ∃ k x until, outcome_grant o = Some (k, x) ∧ backed gs now k (sha256 token) x until ∧ now < until) →
  Forall (viewer_backed gs) vs → Forall (viewer_backed gs) (open_viewer token o now vs).
Proof. intros H Hv. destruct o; [done|..]; (apply Forall_cons; split; [by apply H|done]). Qed.

Lemma by_ticket_backed gs target k id ticket o s s' :
  tickets_backed gs s → by_ticket target k id ticket o s s' →
  (k = GScreen ∧ target = screen_target id) ∨ (k = GTerminal ∧ target = terminal_target id) →
  opens o → ∃ k x until, outcome_grant o = Some (k, x) ∧ backed gs (sc_clock s) k (sha256 ticket) x until ∧ sc_clock s < until.
Proof.
  intros H (_ & _ & _ & Hop) Hk Ho. destruct (Hop Ho) as (_ & Hg & r & Hr & Ht & Hlt).
  exists k, id, r.(tk_expires_at). split_and!; [done| |done]. destruct (H _ _ Hr) as [(n & E)|[(x & E & Hb)|(x & E & Hb)]];
    rewrite Ht in E; destruct Hk as [[-> ->]|[-> ->]]; try discriminate E.
  - by apply screen_target_inj in E as ->.
  - by apply terminal_target_inj in E as ->.
Qed.

Lemma revoke_link_links id i user s :
  (revoke_link id i user s).2 = s ∨ ∃ l, (revoke_link id i user s).2 = put_links (revoke_viewer_link (sc_clock s) l s.(sc_links)) s.
Proof.
  unfold revoke_link, on_world. pose proof (owned_world id user s.(sc_world)) as Hw.
  destruct (owned id user s.(sc_world)) as [[x|e] w] eqn:E; cbn in Hw; subst w.
  2:{ left. rewrite (bind_err _ _ s e s); [done|]. by rewrite E, screens_eta. }
  rewrite (bind_ok _ _ s x s) by (by rewrite E, screens_eta). rewrite run_bind_gets.
  destruct (get_viewer_link _ _) as [l|]; [|by left]. unfold guard_. case_bool_decide; run; [right; by eexists|by left].
Qed.

Lemma turn_kept answered s v v' :
  v' ∈ turn answered s v → v'.(v_as) = v.(v_as) ∧ v'.(v_token) = v.(v_token) ∧ v'.(v_opened) = v.(v_opened).
Proof.
  unfold turn. destruct (v_checked v) as [c|]; [|by intros ->%list_elem_of_singleton].
  destruct (watch _ _ _) as [c' []]; [by intros ?%elem_of_nil|by intros ->%list_elem_of_singleton].
Qed.

Lemma links_revoked gs now id m s :
  links_backed gs s → s.(sc_links) = m → links_backed gs (put_links (revoke_viewer_link now id m) s).
Proof.
  intros H <- i l. cbn. unfold revoke_viewer_link. rewrite lookup_alter. case_decide as E; [|apply H].
  intros (l0 & El & ->)%fmap_Some. destruct (H _ _ El) as [H1 H2]. split; destruct (is_none _); cbn; [congruence..|exact H2|exact H2].
Qed.

Lemma same_tables gs s s' :
  s'.(sc_world) = s.(sc_world) → s'.(sc_links) = s.(sc_links) → links_backed gs s → links_backed gs s'.
Proof. intros Hw Hl H. eapply links_mono; [done| |by rewrite Hl|done]. unfold sc_clock. by rewrite Hw. Qed.

Lemma viewers_replace (P : Viewer → Prop) vs1 v vs vs2 :
  Forall P (vs1 ++ v :: vs2) → (P v → Forall P vs) → Forall P (vs1 ++ vs ++ vs2).
Proof. rewrite !Forall_app, Forall_cons. naive_solver. Qed.

Lemma link_granted gs s id drawn x p user r token s' vs :
  all_backed (mkWatched s gs vs) → request_ok MAX_HOURS p = true →
  create_link sha256 id drawn x p user s = (Ok (r, token), s') →
  all_backed (mkWatched s' (grant (GLink p.(lr_mode)) token user x s r.(lp_expires_at) :: gs) vs).
Proof.
  intros (Hids & Ht & Hl & Hv) Hp H. cbn in *. pose proof H as (Hg & Hla & l & -> & Hid & Hm & Hx & Hh & He & _ & _)%create_link_ok; [|done..].
  assert (∀ g, gs ⊆ g :: gs) as Hsub by set_solver. split_and!; [done| | |exact (viewers_mono _ _ _ (Hsub _) Hv)].
  - apply (tickets_mono gs _ s); [apply Hsub|apply Z.le_refl|reflexivity|exact Ht].
  - intros i l'. cbn. rewrite lookup_insert. case_decide as E.
    + intros [= <-]. subst i. split; [done|]. rewrite Hm, Hh, Hx, He. by eapply granted.
    + intros Hl'. destruct (Hl _ _ Hl') as [? Hb]. split; [done|]. by apply (backed_mono gs _ (sc_clock s)).
Qed.

Lemma ticket_granted gs s k token user x target s' vs :
  all_backed (mkWatched s gs vs) → (k = GScreen ∧ target = screen_target x) ∨ (k = GTerminal ∧ target = terminal_target x) →
  grant_ok (grant k token user x s (sc_clock s + sec TICKET_TTL)) →
  s' = (on_tickets (issue sha256 token user.(m_id) target) s).2 →
  all_backed (mkWatched s' (grant k token user x s (sc_clock s + sec TICKET_TTL) :: gs) vs).
Proof.
  intros (Hids & Ht & Hl & Hv) Hk Hg ->. cbn in *. set (g := grant _ _ _ _ _ _) in *.
  assert (gs ⊆ g :: gs) as Hsub by set_solver.
  destruct (on_tickets_same (issue sha256 token user.(m_id) target) s) as [Hw Hli].
  assert (backed (g :: gs) (sc_clock s) k (sha256 token) x (sc_clock s + sec TICKET_TTL)) as Hb.
  { eapply granted; [reflexivity|done|]. unfold lasts. destruct Hk as [[-> _]|[-> _]]; cbn; lia. }
  split_and!; cbn.
  - by rewrite Hw.
  - apply tickets_issued; [by eapply (tickets_mono gs)|]. right. destruct Hk as [[-> ->]|[-> ->]]; [left|right]; eauto.
  - eapply same_tables; [done..|]. eapply (links_mono gs); done.
  - by eapply viewers_mono.
Qed.

Lemma all_backed_step s s' : all_backed s → step s s' → all_backed s'.
Proof.
  intros Hi Hs. pose proof Hi as (Hids & Ht & Hl & Hv).
  destruct Hs as [labels id drawn x p user s s' r token gs vs Hp H|x id user s gs vs|labels drawn x user s s' token gs vs H
    |labels guest drawn x user s s' token gs vs H|drawn user_id n s gs vs|token s o s' gs vs H|x ticket s o s' gs vs H
    |guest opened x ticket cols rws s o s' gs vs H|answered v s gs vs1 vs2|v s gs vs1 vs2
    |d members tickets links s gs vs Hd Hst Hsl|w s gs vs Hw Hc _]; cbn in Hids, Ht, Hl, Hv.
  - apply bind_ok_inv in H as (? & ? & [-> _]%route_member & H). by eapply link_granted.
  - destruct (revoke_link_links x id user s) as [->|[l ->]]; [done|]. split_and!; [done..| |done]. by apply links_revoked.
  - apply vnc_ticket_ok in H as [Hg ->]; [|done]. by eapply ticket_granted; [| |done|]; [|left|].
  - apply terminal_ticket_ok in H as [Hg ->]; [|done]. by eapply ticket_granted; [| |done|]; [|right|].
  - destruct (on_tickets_same (issue sha256 drawn user_id ("server:" +:+ n)) s) as [Hw Hli].
    split_and!; cbn; [by rewrite Hw| |by eapply same_tables|done]. apply tickets_issued; [done|]. left. eauto.
  - apply screen_ok in H as [-> H]; [|done]. split_and!; [done..|]. cbn. apply opened_backed; [|done].
    intros (id & l & Hid & _ & Ho & <- & _ & Hlt)%H. destruct (Hl _ _ Hid) as [_ Hb]. eauto 10.
  - apply proxy_ok in H; [|done]. pose proof H as (Hw & Hli & Hsub & _).
    split_and!; cbn; [by rewrite Hw| |by eapply same_tables|].
    + eapply tickets_mono; [done| |done|done]. unfold sc_clock. by rewrite Hw.
    + apply opened_backed; [|done]. eapply by_ticket_backed; [done..|by left].
  - apply terminal_ok in H. pose proof H as (Hw & Hli & Hsub & _).
    split_and!; cbn; [by rewrite Hw| |by eapply same_tables|].
    + eapply tickets_mono; [done| |done|done]. unfold sc_clock. by rewrite Hw.
    + apply opened_backed; [|done]. eapply by_ticket_backed; [done..|by right].
  - split_and!; [done..|]. cbn. eapply viewers_replace; [exact Hv|]. intros Hb. apply Forall_forall.
    intros v' (H1 & H2 & H3)%turn_kept. unfold viewer_backed. by rewrite H1, H2, H3.
  - split_and!; [done..|]. cbn. eapply (viewers_replace _ vs1 v []); [exact Hv|done].
  - split_and!; cbn; [done| | |done]; [apply (tickets_mono gs _ s)|apply (links_mono gs _ s)]; try done; apply Z.le_refl.
  - split_and!; cbn; [by rewrite Hw| | |done]; [by apply (tickets_mono gs _ s)|by apply (links_mono gs _ s)].
Qed.

Lemma all_backed_reachable s : reachable watched_init step s → all_backed s.
Proof.
  revert s. apply reachable_invariant; [|apply all_backed_step].
  intros [s gs vs] (Hids & Ht & Hl & Hg & Hv). cbn in *. subst. split_and!; cbn; [done|..].
  - intros h t. by rewrite Ht.
  - intros id l. by rewrite Hl.
  - constructor.
Qed.

(** C19: every open WebSocket goes back to a request of a member who might make
    it.  Whatever requests, tickets, links and viewers there are, and whatever
    members and sandboxes change meanwhile: a screen or a terminal is open only on
    the sandbox that a member saw who asked for the token or the ticket in its URL,
    while that was good (a ticket for 30 seconds, a link for as long as asked but at
    most MAX_HOURS); it takes input only if that member is no viewer of the
    workspace; and a terminal is open only if the member might run commands in the
    sandbox. *)
Theorem viewers_granted s v :
  reachable watched_init step s → v ∈ s.(wt_viewers) →
  ∃ g, g ∈ s.(wt_grants) ∧ sha256 g.(g_token) = sha256 v.(v_token) ∧ grant_ok g ∧ lasts g ∧
    outcome_grant v.(v_as) = Some (g.(g_kind), g.(g_sandbox)) ∧ g.(g_at) ≤ v.(v_opened) < g.(g_until) ∧
    (takes_input v.(v_as) = true → can g.(g_user) RMember = true).
Proof.
  intros (_ & _ & _ & Hv)%all_backed_reachable Hin. rewrite Forall_forall in Hv.
  destruct (Hv v Hin) as (k & x & until & Ho & (g & Hg & Hok & Hla & Hh & <- & <- & <- & Hat) & Hlt).
  exists g. split_and!; try done. intros Hi. destruct Hok as (y & _ & Hk). destruct (v_as v) as [|? [] []|]; try done;
    injection Ho as Ek _; rewrite <- Ek in Hk; by try apply Hk.
Qed.

(** ** How long a viewer outlives its link *)

Definition timed (s : Screens) (v : Viewer) : Prop :=
  v.(v_seen) ≤ v.(v_woke) ≤ sc_clock s ∧ sc_clock s ≤ v.(v_woke) + late ∧
  (v.(v_unanswered) = false → outcome_link v.(v_as) ≠ None →
     match v.(v_checked) with
     | None => v.(v_woke) = v.(v_seen)
     | Some c => c ≤ v.(v_seen) + late ∧ v.(v_woke) < c + sec LINK_CHECK_SECONDS
     end) ∧
  ∀ id l, outcome_link v.(v_as) = Some id → s.(sc_links) !! id = Some l →
    v.(v_seen) < l.(vl_expires_at) ∧ ∀ t, l.(vl_revoked_at) = Some t → v.(v_seen) ≤ t.

(** A link's row is as it was, was revoked just now, or is new. *)
Definition links_follow (s s' : Screens) : Prop :=
  sc_clock s' = sc_clock s ∧
  ∀ id l', s'.(sc_links) !! id = Some l' →
    (sc_clock s < l'.(vl_expires_at) ∧ l'.(vl_revoked_at) = None) ∨
    ∃ l, s.(sc_links) !! id = Some l ∧ l'.(vl_expires_at) = l.(vl_expires_at) ∧
      (l'.(vl_revoked_at) = l.(vl_revoked_at) ∨ l'.(vl_revoked_at) = Some (sc_clock s)).

Lemma timed_follow s s' v : links_follow s s' → timed s v → timed s' v.
Proof.
  intros [Hc Hf] ((H1 & H2) & H3 & H4 & H5). unfold timed. rewrite Hc. split_and!; try done.
  intros id l' Ho Hl. destruct (Hf _ _ Hl) as [[He Hr]|(l & Hl0 & He & Hr)].
  - split; [lia|]. by rewrite Hr.
  - destruct (H5 _ _ Ho Hl0) as [H6 H7]. split; [lia|]. intros t Ht. destruct Hr as [Hr|Hr]; rewrite Hr in Ht; [by apply H7|].
    injection Ht as <-. lia.
Qed.

Lemma follow_subseteq s s' : sc_clock s' = sc_clock s → s'.(sc_links) ⊆ s.(sc_links) → links_follow s s'.
Proof. intros Hc Hs. split; [done|]. intros id l Hl. right. exists l. split_and!; [by eapply lookup_weaken|done|by left]. Qed.

Lemma follow_same s s' : s'.(sc_world) = s.(sc_world) → s'.(sc_links) = s.(sc_links) → links_follow s s'.
Proof. intros Hw Hl. apply follow_subseteq; [unfold sc_clock; by rewrite Hw|by rewrite Hl]. Qed.

Lemma follow_revoked s id : links_follow s (put_links (revoke_viewer_link (sc_clock s) id s.(sc_links)) s).
Proof.
  split; [done|]. intros i l'. cbn. unfold revoke_viewer_link. rewrite lookup_alter. intros Hl. right.
  case_decide; [|by exists l'; auto]. apply fmap_Some in Hl as (l & El & ->). exists l. split; [congruence|].
  destruct (is_none _); cbn; auto.
Qed.

Lemma timed_opened s token o vs :
  0 ≤ late →
  (∀ id l, outcome_link o = Some id → s.(sc_links) !! id = Some l → sc_clock s < l.(vl_expires_at) ∧ l.(vl_revoked_at) = None) →
  Forall (timed s) vs → Forall (timed s) (open_viewer token o (sc_clock s) vs).
Proof.
  intros Hl0 H Hv. assert (timed s (mkViewer token o (sc_clock s) None (sc_clock s) (sc_clock s) false)) as Ht.
  { unfold timed. cbn. split_and!; try done; try lia. intros id l Ho Hl. destruct (H _ _ Ho Hl) as [? Hr].
    split; [done|]. by rewrite Hr. }
  destruct o; [done|..]; by apply Forall_cons.
Qed.

Lemma link_live_true now l : link_live now l = true → now < l.(vl_expires_at) ∧ l.(vl_revoked_at) = None.
Proof. intros [Hr H%bool_decide_eq_true]%andb_true_iff. by destruct (vl_revoked_at l). Qed.

Lemma timed_turn answered s v : 0 ≤ late → timed s v → Forall (timed s) (turn answered s v).
Proof.
  intros Hl0 ((H1 & H2) & H3 & H4 & H5). unfold turn. destruct (v_checked v) as [c|] eqn:Ec.
  2:{ apply Forall_singleton. unfold timed. cbn. split_and!; try lia; [|done]. intros Hu Hn. specialize (H4 Hu Hn).
      unfold sec, LINK_CHECK_SECONDS. lia. }
  destruct (outcome_link (v_as v)) as [id|] eqn:Eo; cbn.
  2:{ apply Forall_singleton. unfold timed. cbn. rewrite Eo. by split_and!; try lia. }
  unfold watch. destruct (Z.leb_spec (sec LINK_CHECK_SECONDS) (sc_clock s - c)) as [Hc|Hc]; cbn.
  - destruct answered; cbn.
    + unfold viewer_link_live. destruct (sc_links s !! id) as [l|] eqn:El; cbn; [|done].
      destruct (link_live _ _) eqn:Hlive; cbn; [|done]. apply link_live_true in Hlive as [He Hr].
      apply Forall_singleton. unfold timed. cbn. rewrite Eo. split_and!; try lia; [intros _ _; unfold sec, LINK_CHECK_SECONDS; lia|].
      intros id' l' [= <-]. rewrite El. intros [= <-]. split; [done|]. by rewrite Hr.
    + apply Forall_singleton. unfold timed. cbn. rewrite Eo. by split_and!; try lia.
  - apply Forall_singleton. unfold timed. cbn. rewrite Eo. split_and!; try lia; [|done].
    intros Hu _. destruct (H4 Hu) as [? ?]; [done|]. lia.
Qed.

Lemma all_follow s s' vs : links_follow s s' → Forall (timed s) vs → Forall (timed s') vs.
Proof. intros Hf Hv. eapply Forall_impl; [exact Hv|]. intros v. by apply timed_follow. Qed.

Lemma timed_step s s' :
  0 ≤ late → all_backed s → Forall (timed s.(wt_screens)) s.(wt_viewers) → step s s' → Forall (timed s'.(wt_screens)) s'.(wt_viewers).
Proof.
  intros Hlate (Hids & _ & Hl & _) Hv Hs.
  destruct Hs as [labels id drawn x p user s s' r token gs vs Hp H|x id user s gs vs|labels drawn x user s s' token gs vs H
    |labels guest drawn x user s s' token gs vs H|drawn user_id n s gs vs|token s o s' gs vs H|x ticket s o s' gs vs H
    |guest opened x ticket cols rws s o s' gs vs H|answered v s gs vs1 vs2|v s gs vs1 vs2
    |d members tickets links s gs vs Hd Hst Hsl|w s gs vs Hw Hc Hlt]; cbn in *.
  - apply bind_ok_inv in H as (? & ? & [-> _]%route_member & H). apply create_link_ok in H as (_ & _ & l & -> & Hx); [|done..].
    eapply all_follow; [|done]. split; [done|]. intros i l'. cbn. rewrite lookup_insert. case_decide.
    + intros [= <-]. left. by split; apply Hx.
    + intros E. right. exists l'. auto.
  - eapply all_follow; [|done]. destruct (revoke_link_links x id user s) as [->|[l ->]]; [by apply follow_same|apply follow_revoked].
  - apply vnc_ticket_ok in H as [_ ->]; [|done]. eapply all_follow; [|done]. by apply follow_same; apply on_tickets_same.
  - apply terminal_ticket_ok in H as [_ ->]; [|done]. eapply all_follow; [|done]. by apply follow_same; apply on_tickets_same.
  - eapply all_follow; [|done]. by apply follow_same; apply on_tickets_same.
  - apply screen_ok in H as [-> H]; [|done]. apply timed_opened; [done| |done]. intros i l Ho Hi.
    destruct o as [|? ? ?|]; try done. destruct H as (id & l0 & Hid & Hol & _ & _ & Hr & He); [done|].
    destruct (Hl _ _ Hid) as [E _]. cbn in Ho, Hol. assert (l = l0) as -> by congruence. done.
  - apply proxy_ok in H as (Hw & Hli & _ & H); [|done]. assert (links_follow s s') as Hf by by apply follow_same.
    assert (sc_clock s = sc_clock s') as -> by by (unfold sc_clock; rewrite Hw). apply timed_opened; [done| |by eapply all_follow].
    intros i l Ho. destruct o; try done. destruct H as [H _]; [done|]. congruence.
  - apply terminal_ok in H as (Hw & Hli & _ & H). assert (links_follow s s') as Hf by by apply follow_same.
    assert (sc_clock s = sc_clock s') as -> by by (unfold sc_clock; rewrite Hw). apply timed_opened; [done| |by eapply all_follow].
    intros i l Ho. destruct o; try done. destruct H as [H _]; [done|]. congruence.
  - eapply viewers_replace; [exact Hv|]. by apply timed_turn.
  - by eapply (viewers_replace _ vs1 v []).
  - eapply all_follow; [|done]. by apply follow_subseteq.
  - apply Forall_forall. intros v Hin. rewrite Forall_forall in Hv, Hlt. destruct (Hv v Hin) as ((H1 & H2) & H3 & H4 & H5).
    specialize (Hlt v Hin). cbn in Hlt. unfold timed, sc_clock in *. cbn. split_and!; [done|lia|done|done|].
    intros id l. apply H5.
Qed.

(** C20: a link's viewers do not outlive it.  A viewer who came by a link that has
    run out, or was revoked, is closed within LINK_CHECK_SECONDS and two turns of its
    watcher, unless its last check went unanswered. *)
Theorem dead_links_close s v id l :
  0 ≤ late → reachable watched_init step s → v ∈ s.(wt_viewers) →
  outcome_link v.(v_as) = Some id → s.(wt_screens).(sc_links) !! id = Some l → v.(v_unanswered) = false →
  let grace := sec LINK_CHECK_SECONDS + 2 * late in
  sc_clock s.(wt_screens) < l.(vl_expires_at) + grace ∧
  ∀ t, l.(vl_revoked_at) = Some t → sc_clock s.(wt_screens) < t + grace.
Proof.
  intros Hlate Hr Hin Ho Hl Hu. assert (Forall (timed s.(wt_screens)) s.(wt_viewers)) as Hv.
  { assert (all_backed s ∧ Forall (timed s.(wt_screens)) s.(wt_viewers)) as [_ ?]; [|done]. revert Hr. clear Hin Hl. revert s.
    apply reachable_invariant.
    - intros [s gs vs] Hi. split; [by apply all_backed_reachable, reach_init|]. destruct Hi as (_ & _ & _ & _ & Hv). cbn in *. by subst.
    - intros s s' [Hb Ht] Hs. split; [by eapply all_backed_step|by eapply timed_step]. }
  rewrite Forall_forall in Hv. destruct (Hv v Hin) as ((H1 & H2) & H3 & H4 & H5). destruct (H5 _ _ Ho Hl) as [He Ht].
  assert (sc_clock s.(wt_screens) < v.(v_seen) + sec LINK_CHECK_SECONDS + 2 * late) as Hb.
  { rewrite Ho in H4. specialize (H4 Hu ltac:(done)). unfold sec, LINK_CHECK_SECONDS in *. destruct (v_checked v); lia. }
  cbn zeta. split; [lia|]. intros t Hrt. specialize (Ht t Hrt). lia.
Qed.

(** ** A link while it lives *)
Lemma get_live_inserted now l m :
  m !! l.(vl_id) = None → Forall (λ r, r.(vl_token_hash) ≠ l.(vl_token_hash)) (rows m) →
  get_live_viewer_link now l.(vl_token_hash) (<[l.(vl_id) := l]> m) = if link_live now l then Some l else None.
Proof.
  intros Hm Hh. unfold get_live_viewer_link, rows in *. set (P := λ r : ViewerLink, _ ∧ _).
  assert (filter P (map_to_list (<[l.(vl_id) := l]> m)).*2 ≡ₚ filter P [l]) as Hp.
  { rewrite map_to_list_insert by done. cbn [fmap list_fmap snd]. change (l :: ?x) with ([l] ++ x). rewrite filter_app.
    replace (filter P (map_to_list m).*2) with (@nil ViewerLink); [by rewrite app_nil_r|]. symmetry.
    induction Hh as [|r rs Hr _ IH]; [done|]. rewrite filter_cons_False; [done|]. intros [? _]. by apply Hr. }
  rewrite filter_cons, filter_nil in Hp. destruct (decide (P l)) as [[_ Hl]|Hl].
  - apply Is_true_eq_true in Hl as ->. by apply Permutation_singleton_r in Hp as ->.
  - destruct (link_live now l) eqn:E; [|by apply Permutation_nil_r in Hp as ->]. exfalso. apply Hl. split; [done|by rewrite E].
Qed.

(** What a viewer gets who comes by a live link. *)
Definition shown (x : string) (mode : link_mode) (id : string) (d : Db) : Outcome :=
  match d.(sandboxes) !! x with
  | Some y => if bool_decide (y.(sb_status) = Running) && has_screen y.(sb_kind)
              then Relay x (bool_decide (mode = View)) (Some id) else Close 1008 (inl "sandbox not available")
  | None => Close 1008 (inl "sandbox not available")
  end.

Definition gone : Outcome := Close 1008 (inl "this link was revoked or has expired").

(** a link opens its sandbox's screen, in its mode, from when it is made until it
    expires, whenever the sandbox runs and has a screen; and never once it is revoked. *)
Theorem link_opens id drawn x p user s r token s' w members tickets :
  ids_ok s.(sc_world).(w_db) → ids_ok w.(w_db) →
  create_link sha256 id drawn x p user s = (Ok (r, token), s') →
  r.(lp_expires_at) = sc_clock s + sec (p.(lr_expires_in_minutes) * 60) ∧
  (screen sha256 token (mkScreens w members tickets s'.(sc_links))).1 =
    Ok (if w.(w_clock) <? r.(lp_expires_at) then shown x p.(lr_mode) id w.(w_db) else gone) ∧
  ∀ t, (screen sha256 token (mkScreens w members tickets (revoke_viewer_link t id s'.(sc_links)))).1 = Ok gone.
Proof.
  intros Hids Hw (y & s1 & H & E)%bind_ok_inv. apply on_world_inv in H as (w1 & [-> Hr]%owned_ok & ->); [|done].
  rewrite screens_eta in E. apply bind_ok_inv in E as (u & s2 & Hm & E).
  assert (s2 = s) as -> by (unfold when, require in Hm; case_bool_decide; by inv_ok).
  rewrite (bind_ok get _ s s s eq_refl) in E. unfold create_viewer_link in E. destruct (_ && _) eqn:Hf; [|done].
  apply andb_true_iff in Hf as [Hn Hh%bool_decide_eq_true]. set (l := mkViewerLink id _ _ _ _ _ _ _ _ _) in *.
  rewrite run_bind_modify in E. injection E as <- <- <-. assert (sb_id y = x) as Hx by apply (Hids _ _ (proj1 Hr)).
  assert (sc_links s !! l.(vl_id) = None) as Hnone by by destruct (sc_links s !! l.(vl_id)).
  split; [done|]. cbn [put_links sc_links]. split.
  - unfold screen, live_link. rewrite run_bind_gets. cbn [sc_links]. change (hash_token sha256 (TOKEN_PREFIX +:+ drawn)) with (vl_token_hash l).
    rewrite get_live_inserted by done. unfold link_live. cbn [vl_revoked_at l is_none andb]. unfold sc_clock. cbn [sc_world].
    change (lp_expires_at (link_response l)) with (vl_expires_at l). destruct (Z.ltb_spec (w_clock w) (vl_expires_at l)).
    + rewrite (bool_decide_true (w_clock w < vl_expires_at l)) by done. cbn. unfold shown, get_sandbox. rewrite Hx.
      rewrite (bind_ok _ _ _ (w.(w_db).(sandboxes) !! x) (mkScreens w members tickets (<[id := l]> s.(sc_links)))) by done. cbn.
      destruct (sandboxes (w_db w) !! x) as [z|] eqn:Ez; [|done]. by rewrite (Hw _ _ Ez).
    + by rewrite (bool_decide_false (w_clock w < vl_expires_at l)) by lia.
  - intros t. unfold screen, live_link. rewrite run_bind_gets. cbn [sc_links].
    replace (get_live_viewer_link _ _ _) with (@None ViewerLink); [done|symmetry]. unfold revoke_viewer_link.
    rewrite alter_insert_eq. exact (get_live_inserted _ (vl_revoke t l) _ Hnone Hh).
Qed.
End viewer_proofs.

(** ** Runs *)

Definition demo_screens : Screens := mkScreens demo_access {[("w1", "u1") := mkMembership RMember MActive]} ∅ ∅.

Definition an_hour : ViewerLinkRequest := mkLinkRequest Control 60 (Some "alice").

Definition at_time (now : time) (s : Screens) : Screens :=
  mkScreens (mkWorld s.(sc_world).(w_db) now s.(sc_world).(w_live) s.(sc_world).(w_booted) s.(sc_world).(w_attached) s.(sc_world).(w_log))
    s.(sc_members) s.(sc_tickets) s.(sc_links).

Example demo_link :
  match create_link id "l1" "abc" "s1" an_hour demo_member demo_screens with
  | (Ok (r, token), s) =>
      token = "zv_abc" ∧ r.(lp_expires_at) = sec 3600 ∧
      (screen id token s).1 = Ok (Relay "s1" false (Some "l1")) ∧
      (screen id token (at_time (sec 3600) s)).1 = Ok gone ∧
      (embed id ["https://a.example"; "https://b.example"] token s).1 =
        Ok (200, [("Content-Security-Policy", "frame-ancestors https://a.example https://b.example");
                  ("Cache-Control", "no-store"); ("Referrer-Policy", "no-referrer")], Some Control) ∧
      (embed_state id token s).1 = Ok (Control, "running")
  | _ => False
  end.
Proof. vm_compute. repeat split. Qed.

(** A viewer of the workspace gives out links that watch, no others, and no tickets. *)
Example viewer_links :
  let viewer := mkMember "u2" "w1" RViewer None None None in
  let post template := route template "s1" (λ _, []) viewer in
  let make mode := (post "/sandboxes/{sandbox_id}/viewer-links";; create_link id "l2" "xyz" "s1" (mkLinkRequest mode 5 None) viewer) in
  is_ok (make View demo_screens).1 = true ∧
  (make Control demo_screens).1 = Err (HTTPException 403 [Txt "this needs the "; Txt "member"; Txt " role in the workspace"]) ∧
  (post "/sandboxes/{sandbox_id}/vnc-ticket" demo_screens).1 =
    Err (HTTPException 403 [Txt "viewers can look but not change anything"]).
Proof. vm_compute. repeat split. Qed.

(** A ticket opens the screen once, and no terminal. *)
Example ticket_once :
  let s := (vnc_ticket id "t1" "s1" demo_member demo_screens).2 in
  let s' := (proxy id "s1" "t1" s).2 in
  (proxy id "s1" "t1" s).1 = Ok (Relay "s1" false None) ∧
  (proxy id "s1" "t1" s').1 = Ok (Close 1008 (inl "unauthorized")) ∧
  (terminal id (Ok (Some true)) (Ok tt) "s1" "t1" 80 24 s).1 = Ok (Close 1008 (inl "unauthorized")).
Proof. vm_compute. repeat split. Qed.

(** LINK_CHECK_SECONDS is passed: with turns of 1.06 seconds, the watcher that found
    its link live looks again after 15.9. *)
Example checked_late :
  let turns := fmap (λ k, Z.of_nat k * 1060000) (seq 1 14) in
  Forall (λ now, watch (Some (Some false)) now 0 = (0, false)) turns ∧ watch (Some (Some false)) 15900000 0 = (15900000, true).
Proof. vm_compute. repeat constructor. Qed.

(** A link is made and opened, its watcher starts, the link is revoked, a second passes. *)
Definition made : Screens := (create_link id "l1" "abc" "s1" an_hour demo_member demo_screens).2.
Definition revoked : Screens := (revoke_link "s1" "l1" demo_member made).2.
Definition demo_grant : Grant := grant (GLink Control) "zv_abc" demo_member "s1" demo_screens (sec 3600).
Definition demo_viewer : Viewer := mkViewer "zv_abc" (Relay "s1" false (Some "l1")) 0 (Some 0) 0 0 false.
Definition demo_watched : Watched := mkWatched (at_time (sec 1) revoked) [demo_grant] [demo_viewer].

Lemma demo_reachable : reachable watched_init (watched_step id 24 (sec 2)) demo_watched.
Proof.
  eapply reach_step; [|apply (ws_pass _ _ _ (at_time (sec 1) revoked).(sc_world) revoked [demo_grant] [demo_viewer])].
  - eapply reach_step; [|apply (ws_revoke _ _ _ "s1" "l1" demo_member made)].
    eapply reach_step; [|apply (ws_turn _ _ _ true (mkViewer "zv_abc" (Relay "s1" false (Some "l1")) 0 None 0 0 false) made [demo_grant] [] [])].
    eapply reach_step; [|apply (ws_screen id 24 (sec 2) "zv_abc" made (Relay "s1" false (Some "l1")) made [demo_grant] []); vm_compute; reflexivity].
    eapply reach_step; [|apply (ws_create id 24 (sec 2) (λ _, []) "l1" "abc" "s1" an_hour demo_member demo_screens made
      (mkLinkResponse "l1" "s1" Control (Some "alice") (sec 3600) None 0) "zv_abc" [] []); vm_compute; reflexivity].
    apply reach_init. split; [apply demo_access_ids|]. by repeat split.
  - reflexivity.
  - vm_compute. discriminate.
  - by apply Forall_singleton; vm_compute.
Qed.

Lemma viewers_granted_witness :
  ∃ g, g ∈ [demo_grant] ∧ g.(g_sandbox) = "s1" ∧ can g.(g_user) RMember = true.
Proof.
  destruct (viewers_granted id 24 (sec 2) demo_watched demo_viewer demo_reachable) as (g & Hg & _ & _ & _ & [= _ Hx] & _ & Hc).
  - left.
  - exists g. split; [exact Hg|]. split; [by symmetry|by apply Hc].
Defined.

Lemma dead_links_close_witness : sec 1 < 0 + (sec LINK_CHECK_SECONDS + 2 * sec 2).
Proof.
  destruct (demo_watched.(wt_screens).(sc_links) !! "l1") as [l|] eqn:El; [|discriminate El].
  apply (dead_links_close id 24 (sec 2) demo_watched demo_viewer "l1" l); [vm_compute; discriminate|exact demo_reachable|left|reflexivity|exact El
    |reflexivity|].
  vm_compute in El. injection El as <-. reflexivity.
Defined.

Lemma link_opens_witness : (screen id "zv_abc" (mkScreens demo_access ∅ ∅ made.(sc_links))).1 = Ok (Relay "s1" false (Some "l1")).
Proof.
  destruct (link_opens id "l1" "abc" "s1" an_hour demo_member demo_screens
    (mkLinkResponse "l1" "s1" Control (Some "alice") (sec 3600) None 0) "zv_abc" made demo_access ∅ ∅ demo_access_ids demo_access_ids) as (_ & H & _);
    [vm_compute; reflexivity|]. rewrite H. vm_compute. reflexivity.
Defined.
