(* ===== verification/Dates.v ===== *)
(** Dates and times of the standard library, as far as the sources format and
    parse them: the proleptic Gregorian calendar of [datetime], [strftime] and
    [strptime] with the directives used, in UTC.  Texts of fixed width sort as
    the times they show, and are read back. *)

From S2P Require Import Prelude Tables.

(** ** The calendar *)

Definition is_leap (year : Z) : bool := (year mod 4 =? 0) && (negb (year mod 100 =? 0) || (year mod 400 =? 0)).

Definition b2z (b : bool) : Z := if b then 1 else 0.

(** The days of a common year before a month, and of a month. *)
Definition DAYS_BEFORE_MONTH (month : Z) : Z :=
  match month with
  | 2 => 31 | 3 => 59 | 4 => 90 | 5 => 120 | 6 => 151 | 7 => 181 | 8 => 212 | 9 => 243 | 10 => 273 | 11 => 304 | 12 => 334
  | _ => 0
  end.
Definition DAYS_IN_MONTH (month : Z) : Z := match month with 2 => 28 | 4 | 6 | 9 | 11 => 30 | _ => 31 end.

Definition days_before_year (year : Z) : Z := let y := year - 1 in y * 365 + y / 4 - y / 100 + y / 400.
Definition days_before_month (year month : Z) : Z := DAYS_BEFORE_MONTH month + b2z ((2 <? month) && is_leap year).
Definition days_in_month (year month : Z) : Z := DAYS_IN_MONTH month + b2z ((month =? 2) && is_leap year).

(** [date.toordinal]: 1 January of year 1 is day 1. *)
Definition ymd2ord (year month day : Z) : Z := days_before_year year + days_before_month year month + day.

(** [date.fromordinal], by cycles of 400, 100, 4 and 1 years and an estimate of the
    month that is at most one too many. *)
Definition ord2ymd (n : Z) : Z * Z * Z :=
  let n := n - 1 in
  let '(n400, n) := (n / 146097, n mod 146097) in
  let '(n100, n) := (n / 36524, n mod 36524) in
  let '(n4, n) := (n / 1461, n mod 1461) in
  let '(n1, n) := (n / 365, n mod 365) in
  let year := n400 * 400 + 1 + n100 * 100 + n4 * 4 + n1 in
  if (n1 =? 4) || (n100 =? 4) then (year - 1, 12, 31)
  else
    let leapyear := (n1 =? 3) && (negb (n4 =? 24) || (n100 =? 3)) in
    let month := (n + 50) / 32 in
    let preceding := DAYS_BEFORE_MONTH month + b2z ((2 <? month) && leapyear) in
    if n <? preceding
    then (year, month - 1, n - (preceding - (DAYS_IN_MONTH (month - 1) + b2z ((month - 1 =? 2) && leapyear))) + 1)
    else (year, month, n - preceding + 1).

Definition valid_date (year month day : Z) : bool :=
  (1 <=? month) && (month <=? 12) && (1 <=? day) && (day <=? days_in_month year month).

Ltac months m :=
  let H := fresh in
  assert (m = 1 ∨ m = 2 ∨ m = 3 ∨ m = 4 ∨ m = 5 ∨ m = 6 ∨ m = 7 ∨ m = 8 ∨ m = 9 ∨ m = 10 ∨ m = 11 ∨ m = 12) as H by lia;
  destruct H as [H|[H|[H|[H|[H|[H|[H|[H|[H|[H|[H|H]]]]]]]]]]].

Lemma b2z_range b : 0 ≤ b2z b ≤ 1.
Proof. destruct b; cbn; lia. Qed.

(** A year's number from its place in the cycles. *)
Lemma days_before_cycles a b c d :
  0 ≤ b ≤ 3 → 0 ≤ c ≤ 24 → 0 ≤ d ≤ 3 →
  days_before_year (a * 400 + 1 + b * 100 + c * 4 + d) = 146097 * a + 36524 * b + 1461 * c + 365 * d.
Proof.
  intros. unfold days_before_year. set (y := _ - 1).
  assert (y / 4 = 100 * a + 25 * b + c) as -> by (unfold y; Z.to_euclidean_division_equations; lia).
  assert (y / 100 = 4 * a + b) as -> by (unfold y; Z.to_euclidean_division_equations; lia).
  assert (y / 400 = a) as -> by (unfold y; Z.to_euclidean_division_equations; lia). unfold y. lia.
Qed.

Lemma leap_cycles a b c d :
  0 ≤ b ≤ 3 → 0 ≤ c ≤ 24 → 0 ≤ d ≤ 3 →
  is_leap (a * 400 + 1 + b * 100 + c * 4 + d) = (d =? 3) && (negb (c =? 24) || (b =? 3)).
Proof.
  intros. unfold is_leap. set (y := _ + d).
  assert ((y mod 4 =? 0) = (d =? 3)) as ->.
  { apply eq_true_iff_eq. rewrite !Z.eqb_eq. unfold y. Z.to_euclidean_division_equations. lia. }
  assert ((y mod 100 =? 0) = (d =? 3) && (c =? 24)) as ->.
  { apply eq_true_iff_eq. rewrite andb_true_iff, !Z.eqb_eq. unfold y. Z.to_euclidean_division_equations. lia. }
  assert ((y mod 400 =? 0) = (d =? 3) && (c =? 24) && (b =? 3)) as ->.
  { apply eq_true_iff_eq. rewrite !andb_true_iff, !Z.eqb_eq. unfold y. Z.to_euclidean_division_equations. lia. }
  by destruct (d =? 3), (c =? 24), (b =? 3).
Qed.

(** The day [r] of a year, counted from 0, as a month and a day. *)
Lemma month_of_day leap r :
  0 ≤ r < 365 + b2z leap →
  let month := (r + 50) / 32 in
  let preceding := DAYS_BEFORE_MONTH month + b2z ((2 <? month) && leap) in
  let '(m, d) := if r <? preceding
                 then (month - 1, r - (preceding - (DAYS_IN_MONTH (month - 1) + b2z ((month - 1 =? 2) && leap))) + 1)
                 else (month, r - preceding + 1) in
  1 ≤ m ≤ 12 ∧ 1 ≤ d ≤ DAYS_IN_MONTH m + b2z ((m =? 2) && leap) ∧
  DAYS_BEFORE_MONTH m + b2z ((2 <? m) && leap) + d = r + 1.
Proof.
  intros Hr. cbv zeta. remember ((r + 50) / 32) as m eqn:Em.
  assert (32 * m ≤ r + 50 < 32 * m + 32) as Hm by (subst m; Z.to_euclidean_division_equations; lia).
  assert (1 ≤ m ≤ 12) as Hb by (destruct leap; cbn in Hr; lia). clear Em.
  months m; subst m; destruct leap; cbn in Hr; cbn;
    repeat match goal with |- context [Zpos ?p - 1] => let v := eval compute in (Zpos p - 1) in change (Zpos p - 1) with v end;
    match goal with |- context [?a <? ?b] => destruct (Z.ltb_spec a b) end; cbn; lia.
Qed.

Lemma ord_cycles n :
  0 ≤ n → let a := n / 146097 in let r := n mod 146097 in
  let b := r / 36524 in let s := r mod 36524 in let c := s / 1461 in let t := s mod 1461 in
  let d := t / 365 in let u := t mod 365 in
  n = 146097 * a + 36524 * b + 1461 * c + 365 * d + u ∧ 0 ≤ a ∧ 0 ≤ b ≤ 4 ∧ 0 ≤ c ≤ 24 ∧ 0 ≤ d ≤ 4 ∧ 0 ≤ u < 365 ∧
  (b = 4 → c = 0 ∧ d = 0 ∧ u = 0) ∧ (d = 4 → u = 0 ∧ (c = 24 → b = 3)).
Proof. intros Hn. cbv zeta. Z.to_euclidean_division_equations. lia. Qed.

(** The date of a day number is a date, and its number is that. *)
Lemma ord2ymd_ok n :
  1 ≤ n → let '(y, m, d) := ord2ymd n in 1 ≤ y ∧ valid_date y m d = true ∧ ymd2ord y m d = n.
Proof.
  intros Hn. pose proof (ord_cycles (n - 1) ltac:(lia)) as H. unfold ord2ymd. cbv zeta in H |- *.
  set (a := (n - 1) / 146097) in *. set (r := (n - 1) mod 146097) in *. set (b := r / 36524) in *. set (s := r mod 36524) in *.
  set (c := s / 1461) in *. set (t := s mod 1461) in *. set (d := t / 365) in *. set (u := t mod 365) in *.
  clearbody a r b s c t d u. destruct H as (En & Ha & Hb & Hc & Hd & Hu & H4 & Hd4).
  destruct ((d =? 4) || (b =? 4)) eqn:Elast.
  - apply orb_true_iff in Elast. rewrite !Z.eqb_eq in Elast. unfold valid_date, ymd2ord, days_before_month, days_in_month. cbn -[is_leap days_before_year].
    assert (∃ b' c', 0 ≤ b' ≤ 3 ∧ 0 ≤ c' ≤ 24 ∧ (c' = 24 → b' = 3) ∧
      a * 400 + 1 + b * 100 + c * 4 + d - 1 = a * 400 + 1 + b' * 100 + c' * 4 + 3 ∧
      n = 146097 * a + 36524 * b' + 1461 * c' + 365 * 3 + 366) as (b' & c' & Hb' & Hc' & Hbc & -> & ->).
    { destruct (decide (b = 4)) as [->|Hn4]; [exists 3, 24; lia|]. exists b, c. destruct Elast as [->|?]; lia. }
    rewrite days_before_cycles, leap_cycles by lia. split_and!; [lia|done|].
    replace ((3 =? 3) && (negb (c' =? 24) || (b' =? 3))) with true; [cbn; lia|].
    destruct (Z.eqb_spec c' 24), (Z.eqb_spec b' 3); cbn; try done; lia.
  - apply orb_false_iff in Elast as [Hd'%Z.eqb_neq Hb'%Z.eqb_neq].
    assert (0 ≤ b ≤ 3 ∧ 0 ≤ d ≤ 3) as [Hb3 Hd3] by lia.
    set (leap := (d =? 3) && (negb (c =? 24) || (b =? 3))) in *.
    pose proof (month_of_day leap u ltac:(pose proof (b2z_range leap); lia)) as Hmd. cbv zeta in Hmd.
    destruct (u <? _); destruct Hmd as (Hm1 & Hd1 & Hsum); (split; [lia|]);
      unfold valid_date, ymd2ord, days_before_month, days_in_month;
      rewrite ?days_before_cycles, ?leap_cycles by lia; fold leap; (split; [|lia]); rewrite !andb_true_iff, !Z.leb_le; lia.
Qed.

(** ** Order *)

(** Comparing by the first difference. *)
Definition cmp_then (c d : comparison) : comparison := match c with Eq => d | _ => c end.

Lemma cmp_then_radix k a b r s : 0 ≤ r < k → 0 ≤ s < k → (a * k + r ?= b * k + s) = cmp_then (a ?= b) (r ?= s).
Proof.
  intros. destruct (Z.compare_spec a b); cbn.
  - subst. by rewrite Z.add_compare_mono_l.
  - apply Z.compare_lt_iff. nia.
  - apply Z.compare_gt_iff. nia.
Qed.

Lemma days_before_next y : days_before_year (y + 1) = days_before_year y + 365 + b2z (is_leap y).
Proof.
  unfold days_before_year, is_leap, b2z. replace (y + 1 - 1) with y by lia.
  destruct (Z.eqb_spec (y mod 4) 0), (Z.eqb_spec (y mod 100) 0), (Z.eqb_spec (y mod 400) 0); cbn;
    Z.to_euclidean_division_equations; lia.
Qed.

Lemma days_before_mono y z : y ≤ z → days_before_year y ≤ days_before_year z.
Proof. unfold days_before_year. Z.to_euclidean_division_equations. lia. Qed.

Lemma valid_date_bounds y m d :
  valid_date y m d = true → 1 ≤ m ≤ 12 ∧ 1 ≤ d ≤ days_in_month y m ∧
  0 < days_before_month y m + d ≤ 365 + b2z (is_leap y).
Proof.
  unfold valid_date. rewrite !andb_true_iff, !Z.leb_le. intros [[[H1 H2] H3] H4]. split_and!; try lia.
  all: unfold days_before_month, days_in_month in *; months m; subst m; destruct (is_leap y); cbn in *; lia.
Qed.

Lemma days_before_later y m n : 1 ≤ m → m < n → n ≤ 12 → days_before_month y m + days_in_month y m ≤ days_before_month y n.
Proof.
  intros. unfold days_before_month, days_in_month. months m; subst m; months n; subst n; try lia; destruct (is_leap y); cbn; lia.
Qed.

(** Dates compare as their day numbers. *)
Lemma ymd2ord_compare y m d y' m' d' :
  valid_date y m d = true → valid_date y' m' d' = true →
  (ymd2ord y m d ?= ymd2ord y' m' d') = cmp_then (y ?= y') (cmp_then (m ?= m') (d ?= d')).
Proof.
  assert (∀ y m d y' m' d', valid_date y m d = true → valid_date y' m' d' = true →
    y < y' ∨ (y = y' ∧ m < m') → ymd2ord y m d < ymd2ord y' m' d') as Hlt.
  { clear. intros y m d y' m' d' (H1 & H2 & H3)%valid_date_bounds (H1' & H2' & H3')%valid_date_bounds [Hy|[<- Hm]]; unfold ymd2ord.
    - pose proof (days_before_next y). pose proof (days_before_mono (y + 1) y' ltac:(lia)). lia.
    - pose proof (days_before_later y m m'). lia. }
  intros Hv Hv'. destruct (Z.compare_spec y y') as [<-|Hy|Hy]; cbn; [|apply Z.compare_lt_iff; auto|apply Z.compare_gt_iff; auto].
  destruct (Z.compare_spec m m') as [<-|Hm|Hm]; cbn; [|apply Z.compare_lt_iff; auto|apply Z.compare_gt_iff; auto].
  unfold ymd2ord. by rewrite Z.add_compare_mono_l.
Qed.

(** ** Times *)

Record Fields := mkFields { f_year : Z; f_month : Z; f_day : Z; f_hour : Z; f_minute : Z; f_second : Z }.

Definition DAY_SECONDS : Z := 86400.
(** 1 January 1970 *)
Definition EPOCH : Z := 719163.

(** The fields a time of UTC shows, and the time of fields. *)
Definition utc (t : time) : Fields :=
  let seconds := t / sec 1 in
  let '(y, m, d) := ord2ymd (seconds / DAY_SECONDS + EPOCH) in
  let s := seconds mod DAY_SECONDS in
  mkFields y m d (s / 3600) (s / 60 mod 60) (s mod 60).

Definition timestamp (f : Fields) : time :=
  sec ((ymd2ord f.(f_year) f.(f_month) f.(f_day) - EPOCH) * DAY_SECONDS + f.(f_hour) * 3600 + f.(f_minute) * 60 + f.(f_second)).

(** What the constructor of [datetime] takes. *)
Definition valid_fields (f : Fields) : bool :=
  (1 <=? f.(f_year)) && (f.(f_year) <=? 9999) && valid_date f.(f_year) f.(f_month) f.(f_day)
  && (0 <=? f.(f_hour)) && (f.(f_hour) <=? 23) && (0 <=? f.(f_minute)) && (f.(f_minute) <=? 59)
  && (0 <=? f.(f_second)) && (f.(f_second) <=? 59).

(** A time whose year has four digits. *)
Definition four_digits (t : time) : Prop := 1000 ≤ (utc t).(f_year) ≤ 9999.

Lemma utc_ok t :
  four_digits t → valid_fields (utc t) = true ∧ timestamp (utc t) = t / sec 1 * sec 1.
Proof.
  unfold four_digits, utc, timestamp. set (n := t / sec 1). set (o := n / DAY_SECONDS + EPOCH). intros Hy.
  destruct (decide (1 ≤ o)) as [Ho|Ho].
  2:{ exfalso. revert Hy. unfold ord2ymd. assert ((o - 1) / 146097 < 0) by (Z.to_euclidean_division_equations; lia).
      pose proof (Z.mod_pos_bound (o - 1) 146097 ltac:(lia)). set (r := (o - 1) mod 146097) in *.
      assert (r / 36524 ≤ 4) by (Z.to_euclidean_division_equations; lia).
      assert (r mod 36524 / 1461 ≤ 24) by (Z.to_euclidean_division_equations; lia).
      assert ((r mod 36524) mod 1461 / 365 ≤ 4) by (Z.to_euclidean_division_equations; lia).
      destruct (_ || _); [cbn; lia|]. destruct (_ <? _); cbn; lia. }
  pose proof (ord2ymd_ok o Ho) as H. destruct (ord2ymd o) as [[y m] d]. destruct H as (H1 & H2 & H3). cbn in *. split.
  - unfold valid_fields. cbn. rewrite H2. unfold DAY_SECONDS. rewrite !andb_true_iff, !Z.leb_le.
    Z.to_euclidean_division_equations. lia.
  - rewrite H3. unfold o, sec, DAY_SECONDS. Z.to_euclidean_division_equations. lia.
Qed.

(** ** Texts *)

Inductive directive := DY | Dm | Dd | DH | DM | DS | Lit (c : ascii).

Definition lits (s : string) : list directive := Lit <$> String.list_ascii_of_string s.

Definition digit (z : Z) : ascii := ascii_of_nat (Z.to_nat (48 + z)).

(** The last [w] decimal digits of a number: with zeros in front when it has fewer. *)
Fixpoint pad (w : nat) (z : Z) (rest : string) : string :=
  match w with
  | O => rest
  | S w => String (digit (z / 10 ^ Z.of_nat w mod 10)) (pad w z rest)
  end.

(** [datetime.strftime]; [%Y] of a year of four digits. *)
Fixpoint strftime (format : list directive) (f : Fields) (rest : string) : string :=
  match format with
  | [] => rest
  | x :: format =>
      let rest := strftime format f rest in
      match x with
      | DY => pad 4 f.(f_year) rest
      | Dm => pad 2 f.(f_month) rest
      | Dd => pad 2 f.(f_day) rest
      | DH => pad 2 f.(f_hour) rest
      | DM => pad 2 f.(f_minute) rest
      | DS => pad 2 f.(f_second) rest
      | Lit c => String c rest
      end
  end.

(** Comparing texts, as Python and [String.le] do. *)
Lemma compare_cons c d s t :
  String.compare (String c s) (String d t) = cmp_then (Ascii.compare c d) (String.compare s t).
Proof. cbn. by destruct (Ascii.compare c d). Qed.

Lemma compare_digit a b : 0 ≤ a < 10 → 0 ≤ b < 10 → Ascii.compare (digit a) (digit b) = (a ?= b).
Proof.
  intros Ha Hb.
  assert (a = 0 ∨ a = 1 ∨ a = 2 ∨ a = 3 ∨ a = 4 ∨ a = 5 ∨ a = 6 ∨ a = 7 ∨ a = 8 ∨ a = 9) as H by lia.
  assert (b = 0 ∨ b = 1 ∨ b = 2 ∨ b = 3 ∨ b = 4 ∨ b = 5 ∨ b = 6 ∨ b = 7 ∨ b = 8 ∨ b = 9) as H' by lia.
  by destruct H as [->|[->|[->|[->|[->|[->|[->|[->|[->| ->]]]]]]]]]; destruct H' as [->|[->|[->|[->|[->|[->|[->|[->|[->| ->]]]]]]]]].
Qed.

Lemma cmp_then_assoc a b c : cmp_then (cmp_then a b) c = cmp_then a (cmp_then b c).
Proof. by destruct a. Qed.

Lemma compare_pad w a b s t :
  String.compare (pad w a s) (pad w b t) =
  cmp_then (a mod 10 ^ Z.of_nat w ?= b mod 10 ^ Z.of_nat w) (String.compare s t).
Proof.
  induction w as [|w IH]; [by cbn; rewrite !Z.mod_1_r|]. cbn [pad]. rewrite compare_cons, IH, compare_digit by (apply Z.mod_pos_bound; lia).
  rewrite <- cmp_then_assoc. f_equal. rewrite Nat2Z.inj_succ, Z.pow_succ_r by lia. set (k := 10 ^ Z.of_nat w).
  assert (0 < k) by (apply Z.pow_pos_nonneg; lia). rewrite (Z.mul_comm 10 k).
  rewrite (Z.rem_mul_r a k 10), (Z.rem_mul_r b k 10) by lia.
  rewrite (Z.add_comm (a mod k)), (Z.add_comm (b mod k)), !(Z.mul_comm k).
  symmetry. apply cmp_then_radix; apply Z.mod_pos_bound; lia.
Qed.

Lemma compare_pad_small w a b s t :
  0 ≤ a < 10 ^ Z.of_nat w → 0 ≤ b < 10 ^ Z.of_nat w →
  String.compare (pad w a s) (pad w b t) = cmp_then (a ?= b) (String.compare s t).
Proof. intros. by rewrite compare_pad, !Z.mod_small. Qed.

(** [strptime]'s pattern for a field: alternatives of digits, the first that matches
    taken. *)
Abbreviation pattern := (list (list (Z * Z))).

Definition pattern_of (x : directive) : pattern :=
  match x with
  | DY => [[(0, 9); (0, 9); (0, 9); (0, 9)]]
  | Dm => [[(1, 1); (0, 2)]; [(0, 0); (1, 9)]; [(1, 9)]]
  | Dd => [[(3, 3); (0, 1)]; [(1, 2); (0, 9)]; [(0, 0); (1, 9)]; [(1, 9)]]
  | DH => [[(2, 2); (0, 3)]; [(0, 1); (0, 9)]; [(0, 9)]]
  | DM => [[(0, 5); (0, 9)]; [(0, 9)]]
  | DS => [[(6, 6); (0, 1)]; [(0, 5); (0, 9)]; [(0, 9)]]
  | Lit _ => []
  end.

(** The number that digits within the ranges make, and what follows. *)
Fixpoint read_digits (ranges : list (Z * Z)) (acc : Z) (s : string) : option (Z * string) :=
  match ranges with
  | [] => Some (acc, s)
  | (lo, hi) :: ranges =>
      match s with
      | String c s =>
          let v := Z.of_nat (nat_of_ascii c) - 48 in
          if (lo <=? v) && (v <=? hi) then read_digits ranges (acc * 10 + v) s else None
      | EmptyString => None
      end
  end.

Definition set_field (x : directive) (v : Z) (f : Fields) : Fields :=
  match x with
  | DY => mkFields v f.(f_month) f.(f_day) f.(f_hour) f.(f_minute) f.(f_second)
  | Dm => mkFields f.(f_year) v f.(f_day) f.(f_hour) f.(f_minute) f.(f_second)
  | Dd => mkFields f.(f_year) f.(f_month) v f.(f_hour) f.(f_minute) f.(f_second)
  | DH => mkFields f.(f_year) f.(f_month) f.(f_day) v f.(f_minute) f.(f_second)
  | DM => mkFields f.(f_year) f.(f_month) f.(f_day) f.(f_hour) v f.(f_second)
  | DS => mkFields f.(f_year) f.(f_month) f.(f_day) f.(f_hour) f.(f_minute) v
  | Lit _ => f
  end.

Definition lower (c : ascii) : ascii :=
  let n := nat_of_ascii c in if (65 <=? n)%nat && (n <=? 90)%nat then ascii_of_nat (n + 32) else c.

(** Every way the format matches a prefix, in the order the matcher tries them: the
    fields and what is left.  Literals match in either case. *)
Fixpoint scan (format : list directive) (s : string) (f : Fields) : list (Fields * string) :=
  match format with
  | [] => [(f, s)]
  | Lit c :: format =>
      match s with
      | String d s => if bool_decide (lower c = lower d) then scan format s f else []
      | EmptyString => []
      end
  | x :: format =>
      alt ← pattern_of x;
      match read_digits alt 0 s with
      | Some (v, s) => scan format s (set_field x v f)
      | None => []
      end
  end.

(** [datetime.strptime]: the first match, which must leave nothing, and be a date. *)
Definition strptime (s : string) (format : list directive) : result exn Fields :=
  match head (scan format s (mkFields 1900 1 1 0 0 0)) with
  | Some (f, EmptyString) => if valid_fields f then Ok f else Err (ValueError [Txt "day is out of range for month"])
  | Some (_, rest) => Err (ValueError [Txt "unconverted data remains: "; Txt rest])
  | None => Err (ValueError [Txt "time data "; Repr s; Txt " does not match format"])
  end.

Example strptimes :
  strptime "20260204T030405Z.dump" ([DY; Dm; Dd] ++ lits "T" ++ [DH; DM; DS] ++ lits "Z.dump") = Ok (mkFields 2026 2 4 3 4 5) ∧
  strptime "2026-2-30" ([DY] ++ lits "-" ++ [Dm] ++ lits "-" ++ [Dd]) = Err (ValueError [Txt "day is out of range for month"]) ∧
  strftime ([DY; Dm; Dd] ++ lits "T" ++ [DH; DM; DS] ++ lits "Z.dump") (utc (sec 1790000000)) "" = "20260921T141320Z.dump" ∧
  utc (sec 951782399) = mkFields 2000 2 28 23 59 59 ∧ utc (sec 951782400) = mkFields 2000 2 29 0 0 0.
Proof. vm_compute. repeat split. Qed.

(** ** Reading what was written *)
Lemma value_digit z : 0 ≤ z < 10 → Z.of_nat (nat_of_ascii (digit z)) - 48 = z.
Proof. intros. unfold digit. rewrite nat_ascii_embedding by lia. lia. Qed.

Lemma read_pad2 l1 h1 l2 h2 v rest :
  0 ≤ v < 100 →
  read_digits [(l1, h1); (l2, h2)] 0 (pad 2 v rest) =
  if (l1 <=? v / 10) && (v / 10 <=? h1) && (l2 <=? v mod 10) && (v mod 10 <=? h2) then Some (v, rest) else None.
Proof.
  intros Hv. cbn [pad read_digits]. change (Z.of_nat 1) with 1. change (Z.of_nat 0) with 0. rewrite Z.pow_1_r, Z.pow_0_r, Z.div_1_r.
  rewrite (Z.mod_small (v / 10)) by (Z.to_euclidean_division_equations; lia).
  rewrite !value_digit by (Z.to_euclidean_division_equations; lia).
  destruct (l1 <=? v / 10), (v / 10 <=? h1), (l2 <=? v mod 10), (v mod 10 <=? h2); cbn; try done.
  do 2 f_equal. Z.to_euclidean_division_equations; lia.
Qed.

Lemma read_pad4 v rest :
  0 ≤ v < 10000 → read_digits [(0, 9); (0, 9); (0, 9); (0, 9)] 0 (pad 4 v rest) = Some (v, rest).
Proof.
  intros Hv. cbn [pad read_digits]. change (Z.of_nat 3) with 3. change (Z.of_nat 2) with 2. change (Z.of_nat 1) with 1. change (Z.of_nat 0) with 0.
  change (10 ^ 3) with 1000. change (10 ^ 2) with 100. change (10 ^ 1) with 10. change (10 ^ 0) with 1. rewrite Z.div_1_r.
  rewrite !value_digit by (apply Z.mod_pos_bound; lia).
  repeat match goal with |- context [(0 <=? ?x mod 10) && (?x mod 10 <=? 9)] =>
    replace ((0 <=? x mod 10) && (x mod 10 <=? 9)) with true by (symmetry; rewrite andb_true_iff, !Z.leb_le; pose proof (Z.mod_pos_bound x 10 ltac:(lia)); lia) end.
  do 2 f_equal. Z.to_euclidean_division_equations; lia.
Qed.

(** The value of a field, and whether it is in the field's range. *)
Definition field (x : directive) (f : Fields) : Z :=
  match x with
  | DY => f.(f_year) | Dm => f.(f_month) | Dd => f.(f_day) | DH => f.(f_hour) | DM => f.(f_minute) | DS => f.(f_second)
  | Lit _ => 0
  end.

Definition width (x : directive) : nat := match x with DY => 4 | _ => 2 end.

Definition field_ok (x : directive) (v : Z) : Prop :=
  match x with
  | DY => 1000 ≤ v ≤ 9999 | Dm => 1 ≤ v ≤ 12 | Dd => 1 ≤ v ≤ 31 | DH => 0 ≤ v ≤ 23 | DM | DS => 0 ≤ v ≤ 59 | Lit _ => False
  end.

Ltac first_alternative :=
  match goal with |- context [if ?b then Some _ else None] =>
    first [replace b with true by (symmetry; rewrite !andb_true_iff, !Z.leb_le; Z.to_euclidean_division_equations; lia)
          |replace b with false by (symmetry; rewrite !andb_false_iff, !Z.leb_gt; Z.to_euclidean_division_equations; lia)]
  end.

(** The first way to read a field is the one that was written. *)
Lemma scan_field x v rest format f :
  field_ok x v → ∃ others, scan (x :: format) (pad (width x) v rest) f = scan format rest (set_field x v f) ++ others.
Proof.
  intros Hv. destruct x as [| | | | | |c]; cbn [field_ok width] in *; [..|done].
  - eexists. cbn [scan pattern_of mbind list_bind]. by rewrite read_pad4 by lia.
  - cbn [scan pattern_of mbind list_bind]. rewrite !read_pad2 by lia.
    destruct (decide (10 ≤ v)); first_alternative; cbn [app]; [by eexists|]. first_alternative. by eexists.
  - cbn [scan pattern_of mbind list_bind]. rewrite !read_pad2 by lia.
    destruct (decide (30 ≤ v)); first_alternative; cbn [app]; [by eexists|].
    destruct (decide (10 ≤ v)); first_alternative; cbn [app]; [by eexists|]. first_alternative. by eexists.
  - cbn [scan pattern_of mbind list_bind]. rewrite !read_pad2 by lia.
    destruct (decide (20 ≤ v)); first_alternative; cbn [app]; [by eexists|]. first_alternative. by eexists.
  - cbn [scan pattern_of mbind list_bind]. rewrite !read_pad2 by lia. first_alternative. by eexists.
  - cbn [scan pattern_of mbind list_bind]. rewrite !read_pad2 by lia. do 2 first_alternative. by eexists.
Qed.

Definition fields_ok (f : Fields) : Prop := ∀ x, (∀ c, x ≠ Lit c) → field_ok x (field x f).

Lemma fields_ok_valid f : valid_fields f = true → 1000 ≤ f.(f_year) → fields_ok f.
Proof.
  unfold valid_fields. rewrite !andb_true_iff, !Z.leb_le. intros H Hy. destruct H as [[[[[[[[H1 H2] H3] H4] H5] H6] H7] H8] H9].
  apply valid_date_bounds in H3 as (Hm & Hd & _). unfold days_in_month, DAYS_IN_MONTH in Hd.
  assert (f.(f_day) ≤ 31) by (months (f_month f) ; match goal with H : f_month f = _ |- _ => rewrite H in Hd end; destruct (is_leap (f_year f)); cbn in Hd; lia).
  intros x Hx. destruct x; cbn; try lia. by eapply Hx.
Qed.

Lemma scan_strftime format f g rest :
  fields_ok f → ∃ others,
    scan format (strftime format f rest) g = (foldl (λ g x, set_field x (field x f) g) g format, rest) :: others.
Proof.
  intros Hf. revert g. induction format as [|x format IH]; intros g; [by eexists|].
  assert ((∃ c, x = Lit c) ∨ ¬ ∃ c, x = Lit c) as [[c ->]|Hx] by (destruct x; eauto; right; by intros [? ?]).
  { cbn. rewrite bool_decide_true by done. apply IH. }
  destruct (IH (set_field x (field x f) g)) as [o Ho].
  destruct (scan_field x (field x f) (strftime format f rest) format g) as [o' Ho'].
  { apply Hf. intros c ->. apply Hx. by exists c. }
  exists (o ++ o'). cbn [foldl].
  replace (strftime (x :: format) f rest) with (pad (width x) (field x f) (strftime format f rest)).
  2:{ destruct x; try done. exfalso. apply Hx. by eexists. }
  by rewrite Ho', Ho.
Qed.

(** A format that shows every field reads back what it wrote. *)
Lemma strptime_strftime format f :
  valid_fields f = true → 1000 ≤ f.(f_year) →
  foldl (λ g x, set_field x (field x f) g) (mkFields 1900 1 1 0 0 0) format = f →
  strptime (strftime format f "") format = Ok f.
Proof.
  intros Hv Hy Hall. unfold strptime.
  destruct (scan_strftime format f (mkFields 1900 1 1 0 0 0) "" (fields_ok_valid f Hv Hy)) as [o ->]. cbn. by rewrite Hall, Hv.
Qed.

(** Comparing fields in some order. *)
Definition compare_fields (f g : Fields) (format : list directive) (last : comparison) : comparison :=
  foldr (λ x c, cmp_then (field x f ?= field x g) c) last format.

(** Texts compare as their fields do, in the order of the format. *)
Lemma strftime_compare format f g s t :
  fields_ok f → fields_ok g →
  String.compare (strftime format f s) (strftime format g t) = compare_fields f g format (String.compare s t).
Proof.
  intros Hf Hg. unfold compare_fields. induction format as [|x format IH]; [done|]. cbn [foldr]. rewrite <- IH.
  destruct x as [| | | | | |c].
  1: pose proof (Hf DY ltac:(done)) as H; pose proof (Hg DY ltac:(done)) as H'.
  2: pose proof (Hf Dm ltac:(done)) as H; pose proof (Hg Dm ltac:(done)) as H'.
  3: pose proof (Hf Dd ltac:(done)) as H; pose proof (Hg Dd ltac:(done)) as H'.
  4: pose proof (Hf DH ltac:(done)) as H; pose proof (Hg DH ltac:(done)) as H'.
  5: pose proof (Hf DM ltac:(done)) as H; pose proof (Hg DM ltac:(done)) as H'.
  6: pose proof (Hf DS ltac:(done)) as H; pose proof (Hg DS ltac:(done)) as H'.
  1-6: cbn [strftime]; rewrite compare_pad_small; [done| |]; cbn in H, H'; cbn; lia.
  cbn [strftime]. rewrite compare_cons. cbn. unfold Ascii.compare. by rewrite N.compare_refl.
Qed.

(** Times compare as their fields do, the year first. *)
Lemma timestamp_compare f g :
  valid_fields f = true → valid_fields g = true →
  (timestamp f ?= timestamp g) = compare_fields f g [DY; Dm; Dd; DH; DM; DS] Eq.
Proof.
  intros Hf Hg. unfold valid_fields in *. rewrite !andb_true_iff, !Z.leb_le in Hf, Hg.
  destruct Hf as [[[[[[[[_ _] Hd] ?] ?] ?] ?] ?] ?], Hg as [[[[[[[[_ _] Hd'] ?] ?] ?] ?] ?] ?].
  unfold timestamp, sec. rewrite <- Zmult_compare_compat_r by lia.
  assert (∀ h, (ymd2ord (f_year h) (f_month h) (f_day h) - EPOCH) * DAY_SECONDS + f_hour h * 3600 + f_minute h * 60 + f_second h =
    (ymd2ord (f_year h) (f_month h) (f_day h) - EPOCH) * DAY_SECONDS + (f_hour h * 3600 + (f_minute h * 60 + f_second h))) as E by (intros; lia).
  rewrite !E. rewrite cmp_then_radix by (unfold DAY_SECONDS; lia). rewrite cmp_then_radix by lia. rewrite cmp_then_radix by lia.
  unfold Z.sub. rewrite !(Z.add_comm _ (- EPOCH)), Z.add_compare_mono_l, ymd2ord_compare by done.
  unfold compare_fields. cbn [foldr field]. rewrite !cmp_then_assoc. repeat f_equal. by destruct (f_second f ?= f_second g).
Qed.
