(* ===== verification/Backups.v ===== *)
(** Scheduled backups (src/apps/server/backups.py): dumps of the database in object
    storage and snapshots of homes, when one is due, what is pruned, and restoring
    a dump.  A dump's key says when it was taken; which dumps are the newest is read
    from the order of the keys. *)

From S2P Require Import Prelude Tables Store Security Access Jobs Lifecycle Routes Leases Writer AuditTrail Dates.

(** ** The store and the worker *)

(** Calls outside the process: of PostgreSQL's tools and of object storage. *)
Inductive store_call :=
| PgDump
| PgRestore
| Listing (prefix : string)
| PutFile (key : string)
| GetFile (key : string)
| DeleteObject (key : string).

(** Object storage holds, under a dump's key, the database it was taken of. *)
Record Backups := mkBackups {
  bk_world : World;
  bk_objects : gmap string Db;
  bk_calls : list store_call;
  bk_audits : list AuditLog;
  bk_leases : gmap string Lease
}.

Definition bk_put_world (w : World) (s : Backups) : Backups := mkBackups w s.(bk_objects) s.(bk_calls) s.(bk_audits) s.(bk_leases).
Definition bk_put_objects (o : gmap string Db) (s : Backups) : Backups := mkBackups s.(bk_world) o s.(bk_calls) s.(bk_audits) s.(bk_leases).
Definition bk_put_calls (c : list store_call) (s : Backups) : Backups := mkBackups s.(bk_world) s.(bk_objects) c s.(bk_audits) s.(bk_leases).
Definition bk_put_audits (a : list AuditLog) (s : Backups) : Backups := mkBackups s.(bk_world) s.(bk_objects) s.(bk_calls) a s.(bk_leases).

Definition bk_clock (s : Backups) : time := s.(bk_world).(w_clock).
Definition bk_db (s : Backups) : Db := s.(bk_world).(w_db).

Definition on_world {A} (m : M World A) : M Backups A := λ s, let '(r, w) := m s.(bk_world) in (r, bk_put_world w s).
Definition on_leases {A} (m : M Leases A) : M Backups A := λ s,
  let '(r, l) := m (mkLeases s.(bk_leases) (bk_clock s)) in
  (r, mkBackups s.(bk_world) s.(bk_objects) s.(bk_calls) s.(bk_audits) l.(leases)).

Definition PREFIX : string := "backups/db/".
Definition SCHEDULED : string := "Scheduled ".
Definition CHECK_SECONDS : Z := 300.

(** [%Y%m%dT%H%M%SZ.dump] and [%Y-%m-%d %H:%M] *)
Definition KEY_FORMAT : list directive := [DY; Dm; Dd] ++ lits "T" ++ [DH; DM; DS] ++ lits "Z.dump".
Definition NAME_FORMAT : list directive := [DY] ++ lits "-" ++ [Dm] ++ lits "-" ++ [Dd] ++ lits " " ++ [DH] ++ lits ":" ++ [DM].

Definition dump_key (now : time) : string := PREFIX +:+ strftime KEY_FORMAT (utc now) "".

(** [s.removeprefix(p)]. *)
Definition removeprefix (p s : string) : string :=
  if startswith s p then drop_chars (String.length p) s else s.

(** [l[k:]], for any [k]. *)
Definition slice_from {A} (k : Z) (l : list A) : list A :=
  if 0 <=? k then drop (Z.to_nat k) l else drop (Z.to_nat (Z.of_nat (length l) + k)) l.

Definition key_le (a b : string * Db) : Prop := String.le a.1 b.1.
#[global] Instance key_le_dec : RelDecision key_le.
Proof. intros a b. unfold key_le. apply _. Defined.

Section backups.
Context (E : Env).
(** What a call outside answers, given the ones before, and what happens meanwhile. *)
Context (answer : list store_call → store_call → result exn unit) (meanwhile : World → World).
(** ZOO_BACKUP_INTERVAL_HOURS as a duration and ZOO_BACKUP_KEEP *)
Context (INTERVAL KEEP : Z).
(** [json.dumps] and [workers.WORKER_ID] *)
Context (json_dumps : json → string) (WORKER_ID : string).

Definition call (c : store_call) : M Backups unit := λ s,
  let s' := bk_put_world (meanwhile s.(bk_world)) (bk_put_calls (s.(bk_calls) ++ [c]) s) in
  match answer s.(bk_calls) c with Ok _ => (Ok tt, s') | Err e => (Err e, s') end.

(** The dumps in the store, newest key first. *)
Definition dump_list (o : gmap string Db) : list (string * Db) :=
  reverse (merge_sort key_le (filter (λ p, startswith p.1 PREFIX) (map_to_list o))).

(** Source: src/apps/server/backups.py:40-42 [dumps].  With the dumps in place of
    their sizes. *)
Definition dumps : M Backups (list (string * Db)) :=
  call (Listing PREFIX);;
  gets (λ s, dump_list s.(bk_objects)).

(** Source: src/apps/server/backups.py:45-56 [dump_database].  [pg_dump] reads the
    database as it is when it starts. *)
Definition dump_database : M Backups string :=
  s ← get;
  let key := dump_key (bk_clock s) in
  call PgDump;;
  call (PutFile key);;
  modify (λ t, bk_put_objects (<[key := bk_db s]> t.(bk_objects)) t);;
  mret key.

(** A Linux sandbox that is running or stopped and has no job. *)
Definition to_snapshot (x : Sandbox) (d : Db) : bool :=
  negb (bool_decide (x.(sb_kind) ∈ [Macos; Windows])) && bool_decide (x.(sb_status) ∈ [Running; Stopped])
  && is_none (get_active_job x.(sb_id) d).

(** One turn of [snapshot_homes]: whether it queued a snapshot. *)
Definition snapshot_home (name : string) (x : Sandbox) : M Backups bool :=
  s ← get;
  if to_snapshot x (bk_db s) then
    id ← on_world (uuid E);
    taken ← on_world (Store.query (get_snapshot id));
    guard_ (is_none taken) IntegrityError;;
    on_world (Store.exec (λ now, create_snapshot now id x.(sb_id) x.(sb_server_id) name x.(sb_created_by)));;
    job ← on_world (uuid E);
    on_world (enqueue_job job x.(sb_id) KSnapshot None [("snapshot_id", JStr id)]);;
    modify (λ s, bk_put_audits (s.(bk_audits) ++
      [system json_dumps x.(sb_workspace_id) "snapshot (scheduled)" "sandboxes" (Some x.(sb_id)) [("snapshot", JStr id)]]) s);;
    mret true
  else mret false.

Fixpoint snapshot_loop (name : string) (l : list Sandbox) (queued : Z) : M Backups Z :=
  match l with
  | [] => mret queued
  | x :: l => did ← snapshot_home name x; snapshot_loop name l (queued + b2z did)
  end.

(** Source: src/apps/server/backups.py:59-83 [snapshot_homes].  The writer that keeps
    audit entries is outside the transaction. *)
Definition snapshot_homes : M Backups Z :=
  s ← get;
  let name := SCHEDULED +:+ strftime NAME_FORMAT (utc (bk_clock s)) "" in
  queued ← transaction bk_db (λ d s, bk_put_world (put_db d s.(bk_world)) s)
    (s ← get; snapshot_loop name (list_all_sandboxes (bk_db s)) 0);
  on_world kick;;
  mret queued.

(** The scheduled snapshots of a sandbox that are ready, newest first. *)
Definition scheduled (x : Sandbox) (d : Db) : list Snapshot :=
  filter (λ sn, startswith sn.(sn_name) SCHEDULED && bool_decide (sn.(sn_state) = SnReady)) (list_snapshots_by_sandbox x.(sb_id) d).

Definition stale (d : Db) : list (Sandbox * Snapshot) :=
  x ← list_all_sandboxes d; (λ sn, (x, sn)) <$> slice_from KEEP (scheduled x d).

(** Source: src/apps/server/backups.py:86-107 [prune]. *)
Definition prune : M Backups unit :=
  found ← dumps;
  for_ (slice_from KEEP found) (λ p,
    call (DeleteObject p.1);;
    modify (λ s, bk_put_objects (delete p.1 s.(bk_objects)) s));;
  s ← get;
  for_ (stale (bk_db s)) (λ p, try_ (on_world (remove_snapshot_row E p.1 p.2)) (λ _, mret tt)).

(** Source: src/apps/server/backups.py:110-116 [run]. *)
Definition run_backup : M Backups string :=
  key ← dump_database;
  snapshot_homes;;
  prune;;
  mret key.

(** Source: src/apps/server/backups.py:119-121 [taken_at]. *)
Definition taken_at (key : string) : result exn time :=
  f ← strptime (removeprefix PREFIX key) KEY_FORMAT; Ok (timestamp f).

(** Source: src/apps/server/backups.py:124-126 [due]. *)
Definition due : M Backups bool :=
  found ← dumps;
  match found with
  | [] => mret true
  | (key, _) :: _ => t ← of_result (taken_at key); gets (λ s, INTERVAL <=? bk_clock s - t)
  end.

(** Source: src/apps/server/backups.py:129-139 [loop].  One turn, between sleeps of
    CHECK_SECONDS; an error is logged. *)
Definition turn : M Backups unit :=
  try_ (held ← on_leases (hold WORKER_ID "backups" (CHECK_SECONDS * 3));
        when held (d ← due; when d (run_backup;; mret tt))) (λ _, mret tt).

Definition loop_turn : M Backups unit := if INTERVAL <=? 0 then mret tt else turn.

(** Source: src/apps/server/backups.py:142-158 [restore].  [pg_restore --clean
    --single-transaction]: all of the dump or an error. *)
Definition restore (key : string) : M Backups unit :=
  call (GetFile key);;
  s ← get;
  match s.(bk_objects) !! key with
  | None => raise (RuntimeError [Txt "no such object"])
  | Some d => call PgRestore;; modify (λ s, bk_put_world (put_db d s.(bk_world)) s)
  end.

(** ** When a dump was taken *)
Lemma compare_app p a b : String.compare (p +:+ a) (p +:+ b) = String.compare a b.
Proof. 
  induction p as [|c p IH]; [done|]. change (String.compare (String c (p +:+ a)) (String c (p +:+ b)) = String.compare a b).
  rewrite compare_cons, IH. unfold Ascii.compare. by rewrite N.compare_refl.
Qed.

Lemma removeprefix_app p s : removeprefix p (p +:+ s) = s.
Proof.
  unfold removeprefix, startswith. rewrite (proj2 (prefix_app_true p (p +:+ s))) by by eexists.
  induction p as [|c p IH]; [by destruct s|]. exact IH.
Qed.

Lemma key_compare t u :
  four_digits t → four_digits u → String.compare (dump_key t) (dump_key u) = (t / sec 1 ?= u / sec 1).
Proof.
  intros Ht Hu. destruct (utc_ok t Ht) as [Hvt Et], (utc_ok u Hu) as [Hvu Eu]. destruct Ht as [Ht _], Hu as [Hu _].
  unfold dump_key. rewrite compare_app, strftime_compare by by apply fields_ok_valid.
  transitivity (timestamp (utc t) ?= timestamp (utc u)).
  - rewrite timestamp_compare by done. cbn. by destruct (f_second (utc t) ?= f_second (utc u)).
  - rewrite Et, Eu. symmetry. apply Zmult_compare_compat_r. done.
Qed.

Lemma taken_at_key t : four_digits t → taken_at (dump_key t) = Ok (t / sec 1 * sec 1).
Proof.
  intros Ht. destruct (utc_ok t Ht) as [Hv Et]. unfold taken_at, dump_key.
  rewrite removeprefix_app, strptime_strftime; [by rewrite <- Et|done|apply Ht|]. by destruct (utc t).
Qed.

Lemma key_le_iff t u : four_digits t → four_digits u → String.le (dump_key t) (dump_key u) ↔ t / sec 1 ≤ u / sec 1.
Proof.
  intros Ht Hu. unfold String.le, String.leb. rewrite key_compare by done.
  destruct (Z.compare_spec (t / sec 1) (u / sec 1)); cbn; split; try done; lia.
Qed.

(** a dump's key says when it was taken, to the second, and the keys sort as the
    times do: for any two times of years of four digits. *)
Theorem dump_keys_chronological t u :
  four_digits t → four_digits u →
  taken_at (dump_key t) = Ok (t / sec 1 * sec 1) ∧ (String.le (dump_key t) (dump_key u) ↔ t / sec 1 ≤ u / sec 1).
Proof. split; [by apply taken_at_key|by apply key_le_iff]. Qed.

Lemma dump_keys_chronological_witness :
  taken_at "backups/db/20260204T030405Z.dump" = Ok (sec 1770174245) ∧
  String.le "backups/db/20260204T030405Z.dump" "backups/db/20261004T000000Z.dump".
Proof.
  destruct (dump_keys_chronological (sec 1770174245) (sec 1791072000)) as [H1 H2].
  - vm_compute. split; discriminate.
  - vm_compute. split; discriminate.
  - split; [exact H1|]. apply H2. vm_compute. discriminate.
Defined.

(** ** When a dump is due *)

#[local] Instance key_le_total : Total key_le.
Proof. intros a b. apply (total String.le). Qed.
#[local] Instance key_le_transitive : Transitive key_le.
Proof. intros a b c. unfold key_le. apply transitivity. Qed.

Lemma dump_list_sorted o : StronglySorted key_le (reverse (dump_list o)).
Proof. unfold dump_list. rewrite reverse_involutive. apply StronglySorted_merge_sort; apply _. Qed.

Lemma elem_of_dump_list p o : p ∈ dump_list o ↔ startswith p.1 PREFIX = true ∧ o !! p.1 = Some p.2.
Proof.
  unfold dump_list. rewrite elem_of_reverse, merge_sort_Permutation, list_elem_of_filter. destruct p as [k d]. cbn.
  by rewrite elem_of_map_to_list, Is_true_true.
Qed.

(** The dumps from any place on have keys no later than those before. *)
Lemma dump_list_later o l1 l2 p q : dump_list o = l1 ++ l2 → p ∈ l1 → q ∈ l2 → key_le q p.
Proof.
  intros El Hp Hq. pose proof (dump_list_sorted o) as Hs. rewrite El, reverse_app in Hs.
  apply StronglySorted_app in Hs as (H & _ & _). apply H; by apply elem_of_reverse.
Qed.

Lemma call_ok c s s' : call c s = (Ok tt, s') → s' = bk_put_world (meanwhile s.(bk_world)) (bk_put_calls (s.(bk_calls) ++ [c]) s).
Proof. unfold call. destruct (answer _ _); by intros [= <-]. Qed.

(** C40: a backup is due when none was taken within INTERVAL, and only then.  The
    store may hold the dumps of any times [ts], of years of four digits, and
    anything outside backups/db/; when it answers with its keys, [due] is true
    exactly if every one of the times, cut to seconds, is INTERVAL or longer ago. *)
Theorem due_reads_newest s (ts : list time) :
  (∀ key, is_Some (s.(bk_objects) !! key) → startswith key PREFIX = true → ∃ t, t ∈ ts ∧ key = dump_key t) →
  (∀ t, t ∈ ts → four_digits t ∧ is_Some (s.(bk_objects) !! dump_key t)) →
  answer s.(bk_calls) (Listing PREFIX) = Ok tt →
  ∃ b s', due s = (Ok b, s') ∧
    (b = true ↔ ∀ t, t ∈ ts → INTERVAL ≤ bk_clock s' - t / sec 1 * sec 1).
Proof.
  intros Hkeys Hts Ha. unfold due, dumps, call. rewrite run_bind_assoc. erewrite bind_ok by (cbn; rewrite Ha; reflexivity).
  rewrite run_bind_gets. cbn [bk_objects bk_put_world bk_put_calls]. set (s' := bk_put_world _ _).
  destruct (dump_list (bk_objects s)) as [|[k d] rest] eqn:El.
  - exists true, s'. split; [done|]. split; [|done]. intros _ t Ht. destruct (Hts t Ht) as [_ [d Hd]].
    assert ((dump_key t, d) ∈ dump_list (bk_objects s)) as Hin; [|rewrite El in Hin; by apply elem_of_nil in Hin].
    apply elem_of_dump_list. split; [|done]. apply prefix_app_true. by eexists.
  - assert ((k, d) ∈ dump_list (bk_objects s)) as Hin by (rewrite El; left). apply elem_of_dump_list in Hin as [Hp Hd]. cbn in Hp, Hd.
    destruct (Hkeys k) as (t0 & Ht0 & ->); [by eexists|done|]. destruct (Hts t0 Ht0) as [H0 _].
    rewrite taken_at_key by done. eexists _, s'. split; [reflexivity|]. rewrite Z.leb_le.
    split; [|by auto]. intros Hle t Ht. destruct (Hts t Ht) as [H1 [d' Hd']].
    assert (t / sec 1 ≤ t0 / sec 1) as Hlt; [|unfold sec in *; lia]. apply key_le_iff; [done..|].
    assert ((dump_key t, d') ∈ (dump_key t0, d) :: rest) as Hin.
    { rewrite <- El. apply elem_of_dump_list. split; [|done]. apply prefix_app_true. by eexists. }
    apply elem_of_cons in Hin as [Eq|Hin]; [apply (f_equal fst) in Eq; cbn [fst] in Eq; by rewrite Eq|].
    apply (dump_list_later (bk_objects s) [(dump_key t0, d)] rest (dump_key t0, d) (dump_key t, d')); [done|left|done].
Qed.

(** ** What pruning keeps *)

Definition without (ids : list string) (d : Db) : Db := set_snapshots (foldl (λ m i, delete i m) d.(snapshots) ids) d.

Lemma lookup_without ids d i : (without ids d).(snapshots) !! i = if decide (i ∈ ids) then None else d.(snapshots) !! i.
Proof.
  unfold without. cbn. generalize d.(snapshots). induction ids as [|j ids IH]; intros m; cbn [foldl].
  - by rewrite decide_False by (by intros ?%not_elem_of_nil).
  - rewrite IH. destruct (decide (i ∈ ids)); [by rewrite decide_True by (by right)|].
    destruct (decide (i = j)) as [->|].
    + rewrite lookup_delete_eq, decide_True; [done|left].
    + rewrite lookup_delete_ne, decide_False by set_solver. done.
Qed.

Definition removals (l : list (Sandbox * Snapshot)) : M Backups unit :=
  for_ l (λ p, try_ (on_world (remove_snapshot_row E p.1 p.2)) (λ _, mret tt)).

Lemma removal_cases x sn w :
  quiet E →
  remove_snapshot_row E x sn w =
    (Ok tt, put_log (w.(w_log) ++ [RemoveSnapshot x.(sb_id) sn.(sn_id)]) (put_db (delete_snapshot sn.(sn_id) w.(w_db)) w)) ∨
  ∃ e, remove_snapshot_row E x sn w = (Err e, w) ∧ ∃ log, E.(e_call) log (RemoveSnapshot x.(sb_id) sn.(sn_id)) = Err e.
Proof.
  intros HE. unfold remove_snapshot_row, invoke.
  destruct (e_call E (w_log w) (RemoveSnapshot (sb_id x) (sn_id sn))) as [[]|e] eqn:Ee.
  - left. by rewrite (bind_ok _ _ _ tt (put_log (w.(w_log) ++ [RemoveSnapshot x.(sb_id) sn.(sn_id)]) w)) by by rewrite Ee, HE.
  - right. exists e. split; [|by eexists]. apply bind_err. by rewrite Ee, HE.
Qed.

(** What the loop over stale snapshots leaves: rows of those it could remove are gone. *)
Lemma removals_spec l s :
  quiet E →
  ∃ gone s', removals l s = (Ok tt, s') ∧ gone ⊆ l ∧ bk_db s' = without ((λ p, p.2.(sn_id)) <$> gone) (bk_db s) ∧
    s'.(bk_objects) = s.(bk_objects) ∧
    ((∀ log e, E.(e_call) log e = Ok tt) → gone = l).
Proof.
  intros HE. unfold removals. revert s. induction l as [|[x sn] l IH]; intros s.
  { exists [], s. split_and!; try done. unfold bk_db, without. cbn. by destruct s as [[[] ?????] ????]. }
  cbn [for_]. destruct (removal_cases x sn s.(bk_world) HE) as [Hr|(e & Hr & log & Hlog)].
  - set (w := put_log _ _) in Hr. destruct (IH (bk_put_world w s)) as (gone & s' & Hl & Hs & Hd & Ho & Hall).
    exists ((x, sn) :: gone), s'. split_and!.
    + erewrite bind_ok; [exact Hl|]. unfold try_, on_world. cbn [fst snd]. by rewrite Hr.
    + set_solver.
    + rewrite Hd. unfold without. cbn. done.
    + done.
    + intros H. by rewrite Hall.
  - destruct (IH s) as (gone & s' & Hl & Hs & Hd & Ho & Hall). exists gone, s'. split_and!; [|set_solver|done|done|].
    + erewrite bind_ok; [exact Hl|]. unfold try_, on_world. cbn [fst snd]. rewrite Hr. by destruct s.
    + intros H. by rewrite H in Hlog.
Qed.

Lemma deletions_spec l s s' :
  (∀ w, meanwhile w = w) →
  for_ l (λ p, call (DeleteObject p.1);; modify (λ s, bk_put_objects (delete p.1 s.(bk_objects)) s)) s = (Ok tt, s') →
  s'.(bk_world) = s.(bk_world) ∧
  ∀ k, s'.(bk_objects) !! k = if decide (k ∈ (fst : string * Db → string) <$> l) then None else s.(bk_objects) !! k.
Proof.
  intros Hm. revert s. induction l as [|p l IH]; intros s; cbn [for_].
  { intros [= <-]. split; [done|]. intros k. by rewrite decide_False by (by intros ?%not_elem_of_nil). }
  intros (u & s1 & H & E')%bind_ok_inv. apply bind_ok_inv in H as ([] & s2 & ->%call_ok & H). injection H as _ <-.
  apply IH in E' as [Hw Hk]. cbn in Hw, Hk. rewrite Hm in Hw. split; [done|]. intros k. rewrite Hk, fmap_cons.
  destruct (decide (k ∈ fst <$> l)); [by rewrite decide_True by by right|]. destruct (decide (k = p.1)) as [->|].
  - rewrite lookup_delete_eq, decide_True; [done|left].
  - rewrite lookup_delete_ne, decide_False by set_solver. done.
Qed.

Lemma elem_of_scheduled x d sn :
  sn ∈ scheduled x d ↔
  startswith sn.(sn_name) SCHEDULED = true ∧ sn.(sn_state) = SnReady ∧ sn.(sn_sandbox_id) = x.(sb_id) ∧ ∃ i, d.(snapshots) !! i = Some sn.
Proof.
  unfold scheduled. rewrite list_elem_of_filter, elem_of_list_snapshots, Is_true_true, andb_true_iff, bool_decide_eq_true. tauto.
Qed.

Lemma NoDup_scheduled x d : snapshots_keyed d → NoDup (scheduled x d).
Proof.
  intros Hk. apply NoDup_filter. unfold list_snapshots_by_sandbox. rewrite reverse_Permutation. unfold order_by. rewrite merge_sort_Permutation.
  apply NoDup_filter. unfold rows. apply NoDup_fmap_2_strong; [|apply NoDup_map_to_list].
  intros [i a] [j b] Ha%elem_of_map_to_list Hb%elem_of_map_to_list E'. cbn in *. subst b. by rewrite <- (Hk _ _ Ha), <- (Hk _ _ Hb).
Qed.

Lemma elem_of_all x d : x ∈ list_all_sandboxes d → ∃ i, d.(sandboxes) !! i = Some x.
Proof. unfold list_all_sandboxes. rewrite elem_of_reverse, elem_of_order_by, list_elem_of_filter, elem_of_rows. tauto. Qed.

(** A list's first elements and the rest share none. *)
Lemma take_drop_disjoint {A} n (l : list A) a : NoDup l → a ∈ take n l → a ∈ drop n l → False.
Proof. rewrite <- (take_drop n l) at 1. intros (_ & H & _)%NoDup_app. by apply H. Qed.

Lemma elem_of_stale p d :
  0 ≤ KEEP → p ∈ stale d ↔ p.1 ∈ list_all_sandboxes d ∧ p.2 ∈ drop (Z.to_nat KEEP) (scheduled p.1 d).
Proof.
  intros HK. unfold stale, slice_from. rewrite (proj2 (Z.leb_le 0 KEEP)) by done. rewrite list_elem_of_bind. split.
  - intros (x & (sn & -> & Hsn)%list_elem_of_fmap & Hx). done.
  - intros [Hx Hsn]. exists p.1. split; [|done]. apply list_elem_of_fmap. exists p.2. by destruct p.
Qed.

(** No id of a snapshot that is kept is among those that are stale. *)
Lemma kept_not_stale x sn d gone :
  0 ≤ KEEP → ids_ok d → snapshots_keyed d → x ∈ list_all_sandboxes d → sn ∈ take (Z.to_nat KEEP) (scheduled x d) → gone ⊆ stale d →
  sn.(sn_id) ∉ (λ p : Sandbox * Snapshot, p.2.(sn_id)) <$> gone.
Proof.
  intros HK Hids Hkey Hx Hsn Hg ([y sn'] & Eid & Hin)%list_elem_of_fmap. cbn in Eid.
  apply Hg, elem_of_stale in Hin as [Hy Hsn']; [|done]. cbn in Hy, Hsn'.
  pose proof (proj1 (elem_of_scheduled x d sn) (subseteq_take _ _ _ Hsn)) as (_ & _ & Ex & i & Hi).
  pose proof (proj1 (elem_of_scheduled y d sn') (subseteq_drop _ _ _ Hsn')) as (_ & _ & Ey & j & Hj).
  assert (sn' = sn) as ->; [|].
  { rewrite <- (Hkey _ _ Hi) in Hi. rewrite <- (Hkey _ _ Hj), <- Eid in Hj. congruence. }
  assert (y = x) as ->.
  { apply elem_of_all in Hx as [ix Hx], Hy as [iy Hy]. pose proof (Hids _ _ Hx). pose proof (Hids _ _ Hy). congruence. }
  by eapply take_drop_disjoint; [apply (NoDup_scheduled x d)| |].
Qed.

Lemma NoDup_dump_list o : NoDup (dump_list o).
Proof.
  unfold dump_list. rewrite reverse_Permutation, merge_sort_Permutation. apply NoDup_filter, NoDup_map_to_list.
Qed.

(** Deleting all but the first dumps. *)
Lemma kept_dump n o key dump :
  (if decide (key ∈ fst <$> drop n (dump_list o)) then None else o !! key) = Some dump ↔
  o !! key = Some dump ∧ (startswith key PREFIX = true → (key, dump) ∈ take n (dump_list o)).
Proof.
  case_decide as Hin.
  - split; [done|]. intros [Hd Ht]. apply list_elem_of_fmap in Hin as ([k d] & -> & Hin). cbn in *.
    pose proof (subseteq_drop _ _ _ Hin) as [Hs Hl]%elem_of_dump_list. cbn in *. assert (d = dump) as -> by congruence.
    destruct (take_drop_disjoint n (dump_list o) (k, dump)); [apply NoDup_dump_list|by apply Ht|done].
  - split; [|by intros [? _]]. intros Hd. split; [done|]. intros Hs.
    assert ((key, dump) ∈ dump_list o) as Hl by by apply elem_of_dump_list.
    rewrite <- (take_drop n (dump_list o)) in Hl. apply elem_of_app in Hl as [|Hl]; [done|]. exfalso. apply Hin.
    apply list_elem_of_fmap. by exists (key, dump).
Qed.

(** pruning keeps the newest KEEP dumps, and of every sandbox that is there the
    newest KEEP scheduled snapshots that are ready, and every other snapshot; a
    snapshot whose host does not remove it keeps its row, and when every host
    removes what it is asked to, no more than KEEP are left. *)
Theorem prune_keeps_newest s s' :
  quiet E → (∀ w, meanwhile w = w) → 0 ≤ KEEP → ids_ok (bk_db s) → snapshots_keyed (bk_db s) →
  prune s = (Ok tt, s') →
  let n := Z.to_nat KEEP in let d := bk_db s in let d' := bk_db s' in
  (∀ key dump, s'.(bk_objects) !! key = Some dump ↔
     s.(bk_objects) !! key = Some dump ∧ (startswith key PREFIX = true → (key, dump) ∈ take n (dump_list s.(bk_objects)))) ∧
  (∀ i sn, d'.(snapshots) !! i = Some sn → d.(snapshots) !! i = Some sn) ∧
  (∀ i sn, d.(snapshots) !! i = Some sn → d'.(snapshots) !! i ≠ Some sn →
     ∃ x, x ∈ list_all_sandboxes d ∧ sn ∈ drop n (scheduled x d)) ∧
  (∀ x sn, x ∈ list_all_sandboxes d → sn ∈ take n (scheduled x d) → d'.(snapshots) !! sn.(sn_id) = Some sn) ∧
  ((∀ log e, E.(e_call) log e = Ok tt) → ∀ x sn, x ∈ list_all_sandboxes d → sn ∈ scheduled x d' ↔ sn ∈ take n (scheduled x d)).
Proof.
  intros HE Hm HK Hids Hkey H. cbv zeta. set (n := Z.to_nat KEEP).
  apply bind_ok_inv in H as (found & s1 & Hd & H).
  assert (found = dump_list s.(bk_objects) ∧ s1.(bk_world) = s.(bk_world) ∧ s1.(bk_objects) = s.(bk_objects)) as (-> & Hw1 & Ho1).
  { apply bind_ok_inv in Hd as ([] & s2 & ->%call_ok & [= <- <-]). cbn. by rewrite Hm. }
  apply bind_ok_inv in H as ([] & s2 & [Hw2 Ho2]%deletions_spec & H); [|done].
  rewrite (bind_ok get _ s2 s2 s2 eq_refl) in H. assert (bk_db s2 = bk_db s) as E2 by (unfold bk_db; congruence).
  destruct (removals_spec (stale (bk_db s2)) s2 HE) as (gone & s3 & Hr & Hg & Ed & Ho3 & Hall).
  unfold removals in Hr. rewrite Hr in H. injection H as <-. rewrite E2 in *.
  assert (∀ x sn, x ∈ list_all_sandboxes (bk_db s) → sn ∈ take n (scheduled x (bk_db s)) → (bk_db s3).(snapshots) !! sn.(sn_id) = Some sn) as Hkept.
  { intros x sn Hx Hsn. rewrite Ed, lookup_without, decide_False by by eapply kept_not_stale.
    apply (subseteq_take n), elem_of_scheduled in Hsn as (_ & _ & _ & i & Hi). by rewrite (Hkey _ _ Hi). }
  split_and!.
  - intros key dump. rewrite Ho3, Ho2, Ho1. unfold slice_from. rewrite (proj2 (Z.leb_le 0 KEEP)) by done. apply kept_dump.
  - intros i sn. rewrite Ed, lookup_without. by case_decide.
  - intros i sn Hi. rewrite Ed, lookup_without. case_decide as Hin; [|done]. intros _.
    apply list_elem_of_fmap in Hin as ([x sn'] & -> & Hin%Hg). cbn in Hi. apply elem_of_stale in Hin as [Hx Hsn]; [|done]. cbn in *.
    exists x. split; [done|]. pose proof (subseteq_drop _ _ _ Hsn) as (_ & _ & _ & j & Hj)%elem_of_scheduled.
    rewrite <- (Hkey _ _ Hj) in Hj. assert (sn = sn') as -> by congruence. done.
  - done.
  - intros Hok x sn Hx. specialize (Hall Hok). subst gone. split.
    + intros (H1 & H2 & H3 & i & Hi)%elem_of_scheduled. rewrite Ed, lookup_without in Hi. case_decide as Hn; [done|].
      assert (sn ∈ scheduled x (bk_db s)) as Hin by (apply elem_of_scheduled; eauto).
      rewrite <- (take_drop n (scheduled x (bk_db s))) in Hin. apply elem_of_app in Hin as [|Hin]; [done|].
      exfalso. apply Hn. rewrite <- (Hkey _ _ Hi). apply list_elem_of_fmap. exists (x, sn). split; [done|]. by apply elem_of_stale.
    + intros Hin. apply elem_of_scheduled. pose proof (subseteq_take _ _ _ Hin) as (H1 & H2 & H3 & _)%elem_of_scheduled.
      split_and!; [done..|]. exists sn.(sn_id). by eapply Hkept.
Qed.

Lemma deletions_ok l s :
  (∀ calls c, answer calls c = Ok tt) →
  ∃ s', for_ l (λ p : string * Db, call (DeleteObject p.1);; modify (λ s, bk_put_objects (delete p.1 s.(bk_objects)) s)) s = (Ok tt, s').
Proof.
  intros Ha. revert s. induction l as [|p l IH]; intros s; cbn [for_]; [by eexists|].
  erewrite bind_ok; [apply IH|]. erewrite bind_ok; [reflexivity|]. unfold call. by rewrite Ha.
Qed.

(** Pruning ends, whatever hosts refuse to remove, when object storage answers. *)
Lemma prune_returns s : quiet E → (∀ calls c, answer calls c = Ok tt) → ∃ s', prune s = (Ok tt, s').
Proof.
  intros HE Ha. unfold prune, dumps. rewrite run_bind_assoc. erewrite bind_ok; [|unfold call; by rewrite Ha].
  rewrite run_bind_gets. destruct (deletions_ok (slice_from KEEP (dump_list (bk_objects (bk_put_world (meanwhile (bk_world s))
    (bk_put_calls (bk_calls s ++ [Listing PREFIX]) s))))) (bk_put_world (meanwhile (bk_world s))
    (bk_put_calls (bk_calls s ++ [Listing PREFIX]) s)) Ha) as [s1 H1].
  erewrite bind_ok; [|exact H1]. rewrite (bind_ok get _ s1 s1 s1 eq_refl).
  destruct (removals_spec (stale (bk_db s1)) s1 HE) as (gone & s' & H & _). by exists s'.
Qed.

(** Restoring a dump that the store still has brings back the database it was taken of. *)
Theorem restore_restores s key s1 t t' :
  dump_database s = (Ok key, s1) → t.(bk_objects) !! key = s1.(bk_objects) !! key → restore key t = (Ok tt, t') →
  bk_db t' = bk_db s.
Proof.
  intros H Hk Hr. unfold dump_database in H. rewrite (bind_ok get _ s s s eq_refl) in H.
  apply bind_ok_inv in H as (? & s2 & _ & H). apply bind_ok_inv in H as (? & s3 & _ & H).
  rewrite run_bind_modify in H. injection H as <- <-. cbn in Hk. rewrite lookup_insert_eq in Hk.
  apply bind_ok_inv in Hr as ([] & t1 & ->%call_ok & H). rewrite (bind_ok get _ _ _ _ eq_refl) in H. cbn [bk_objects bk_put_world bk_put_calls] in H.
  rewrite Hk in H. apply bind_ok_inv in H as ([] & t2 & ->%call_ok & [= <-]). done.
Qed.
End backups.

(** ** Runs *)

Definition answers_all (calls : list store_call) (c : store_call) : result exn unit := Ok tt.

Definition demo_snapshot (id name : string) (at_ : time) : Snapshot := mkSnapshot id "s1" None name 0 SnReady None "u1" at_ at_.

(** A stopped sandbox with three scheduled snapshots and one of its member's, who named
    it alike; three dumps a day apart. *)
Definition demo_backups : Backups :=
  mkBackups
    (mkWorld (set_snapshots (list_to_map ((λ sn, (sn.(sn_id), sn)) <$>
        [demo_snapshot "n1" "Scheduled 2026-02-01 00:00" 1; demo_snapshot "n2" "Scheduled maintenance" 2;
         demo_snapshot "n3" "Scheduled 2026-02-03 00:00" 3; demo_snapshot "n4" "before" 4]))
      (set_sandboxes {["s1" := demo_row Stopped None "s1"]} empty_db)) (sec 1770250000) ∅ ∅ ∅ [])
    (list_to_map ((λ t, (dump_key (sec t), empty_db)) <$> [1769990400; 1770076800; 1770163200])) [] [] ∅.

Abbreviation demo_prune keep := (prune demo_env answers_all id keep demo_backups).
Abbreviation demo_due s := (due answers_all id (sec 86400) s).

Example pruned_to_two :
  let s := (demo_prune 2).2 in
  (dump_list s.(bk_objects)).*1 = ["backups/db/20260204T000000Z.dump"; "backups/db/20260203T000000Z.dump"] ∧
  (λ i, is_none ((bk_db s).(snapshots) !! i)) <$> ["n1"; "n2"; "n3"; "n4"] = [true; false; false; false].
Proof. vm_compute. done. Qed.

(** A member's snapshot whose name starts like a scheduled one is removed with them. *)
Example member_snapshot_pruned : (bk_db (demo_prune 1).2).(snapshots) !! "n2" = None.
Proof. vm_compute. done. Qed.

(** A restore that waits in the queue while its snapshot is pruned ends well and restores
    nothing. *)
Example restore_of_pruned :
  let job := mkJob "j1" "s1" KRestore JRunning [("snapshot_id", JStr "n1")] 1 2 0 None None 0 0 None 1 in
  let w := (demo_prune 2).2.(bk_world) in
  restore_job demo_env job w = (Ok tt, w) ∧
  (restore_job demo_env job demo_backups.(bk_world)).2.(w_log) = [RestoreSnapshot "s1" "n1"].
Proof. vm_compute. done. Qed.

(** The lease of a worker whose backup takes longer than CHECK_SECONDS * 3 is taken by
    another, for whom a backup is still due. *)
Example two_backups :
  let later s := mkBackups (mkWorld (bk_db s) (bk_clock s + sec 901) ∅ ∅ ∅ []) s.(bk_objects) s.(bk_calls) s.(bk_audits) s.(bk_leases) in
  let hold_as who := on_leases (hold who "backups" (CHECK_SECONDS * 3)) in
  let s1 := (hold_as "one" demo_backups).2 in
  (hold_as "one" demo_backups).1 = Ok true ∧ (demo_due s1).1 = Ok true ∧
  (hold_as "two" s1).1 = Ok false ∧ (hold_as "two" (later s1)).1 = Ok true ∧ (demo_due (later s1)).1 = Ok true.
Proof. vm_compute. done. Qed.

(** An object under the prefix with another name, which sorts last, ends scheduled backups. *)
Example foreign_object :
  let s := bk_put_objects (<["backups/db/manual.dump" := empty_db]> demo_backups.(bk_objects)) demo_backups in
  is_ok (demo_due s).1 = false ∧
  size (loop_turn demo_env answers_all id (sec 86400) 7 (λ _, "") "one" s).2.(bk_objects) = size s.(bk_objects).
Proof. vm_compute. done. Qed.

Example a_turn :
  let s := (loop_turn demo_env answers_all id (sec 86400) 7 (λ _, "") "one" demo_backups).2 in
  fst <$> head (dump_list s.(bk_objects)) = Some "backups/db/20260205T000640Z.dump" ∧
  (sn_name <$> (bk_db s).(snapshots) !! "u") = Some "Scheduled 2026-02-05 00:06" ∧ (demo_due s).1 = Ok false.
Proof. vm_compute. done. Qed.

Lemma demo_backups_ids : ids_ok (bk_db demo_backups).
Proof. intros i x. cbn. by intros [<- <-]%lookup_singleton_Some. Qed.

Lemma demo_backups_keyed : snapshots_keyed (bk_db demo_backups).
Proof.
  intros i x. cbn. rewrite !lookup_insert_Some, lookup_empty. naive_solver.
Qed.

Lemma prune_keeps_newest_witness : (bk_db (demo_prune 2).2).(snapshots) !! "n3" = Some (demo_snapshot "n3" "Scheduled 2026-02-03 00:00" 3).
Proof.
  destruct (prune_keeps_newest demo_env answers_all id 2 demo_backups (demo_prune 2).2) as (_ & _ & _ & H & _);
    [done|done|lia|exact demo_backups_ids|exact demo_backups_keyed|vm_compute; reflexivity|].
  apply (H (demo_row Stopped None "s1") (demo_snapshot "n3" "Scheduled 2026-02-03 00:00" 3)); vm_compute; left.
Defined.

Lemma due_reads_newest_witness : ∃ b s', demo_due demo_backups = (Ok b, s') ∧ b = true.
Proof.
  destruct (due_reads_newest answers_all id (sec 86400) demo_backups [sec 1769990400; sec 1770076800; sec 1770163200]) as (b & s' & H & Hb).
  - intros key Hk _. destruct Hk as [d Hd]. cbn [bk_objects demo_backups fmap list_fmap list_to_map foldr] in Hd.
    rewrite !lookup_insert_Some, lookup_empty in Hd.
    destruct Hd as [[<- _]|[_ [[<- _]|[_ [[<- _]|[_ ?]]]]]]; [..|done]; (eexists; split; [|reflexivity]); set_solver.
  - intros t Ht. repeat (apply elem_of_cons in Ht as [->|Ht]; [split; [vm_compute; split; discriminate|vm_compute; eauto]|]). by apply elem_of_nil in Ht.
  - reflexivity.
  - exists b, s'. split; [exact H|]. apply Hb. assert (bk_clock (demo_due demo_backups).2 = sec 1770250000) as Hc by (vm_compute; reflexivity).
    rewrite H in Hc. cbn [snd] in Hc. rewrite Hc. clear H Hb Hc. intros t Ht.
    repeat (apply elem_of_cons in Ht as [->|Ht]; [vm_compute; discriminate|]). destruct (not_elem_of_nil _ Ht).
Defined.
